(* ===== verification/_CoqProject ===== *)
-Q . S2P
Prelude.v
Strings.v
Machine.v
Spinlock.v
Kalloc.v
Vm.v
VmInv.v
VmSpec.v
VmCopy.v
KState.v
PQueue.v
Proc.v
ProcInv.v
Sched.v
SchedSys.v
Wakeup.v
Args.v
ArgsSpec.v
Sysproc.v
Shm.v
Trap.v
Asm.v
Mutex.v
Prio.v
Grep.v
Utils.v
UtilsSpec.v
GrepMain.v
Ulib.v
Printf.v
Sh.v
ShSpec.v
ShMain.v
Umalloc.v
UmallocSpec.v
Pipe.v
FState.v
Blocks.v
Ide.v
IdeSpec.v
Bootmain.v
Entry.v
Mp.v
Bio.v
Log.v
LogSpec.v
Crash.v
Tx.v
Fs.v
FsAlloc.v
FsData.v
FsRw.v
FsTrunc.v
FsPath.v
Kbd.v
Console.v
ConsoleSpec.v
Procdump.v
Apic.v
ApicSpec.v
Startup.v
File.v
FsCrash.v
FsDir.v
FsTree.v
Sysfile.v
Exec.v
Usys.v
Initcode.v
Frames.v
FsEnd.v
Userinit.v
FileSpec.v
Mkfs.v
MkfsSpec.v
MkfsImage.v
MkfsBoot.v
Boot.v
