(* ===== verification/Prelude.v ===== *)
(** * A verification library for the container branch of xv6

    The repository is a teaching kernel for 32-bit x86 with mutexes, condition
    variables, process priorities and shared memory pages added to it, its user
    programs, and the program that builds its disk image.  This library translates
    the C and assembly sources into definitions and proves what they do.

    ** The program and the files that model it

    The machine and the start:
    - Machine.v: the constants and macros of param.h, memlayout.h, mmu.h, traps.h and
      x86.h, the GDT of vm.c and the IDT of trap.c.
    - Entry.v: bootasm.S, entry.S and entryother.S, with the descriptors of asm.h and
      the boot page table of main.c, on a processor with segments, paging and A20.
    - Bootmain.v: bootmain.c, which loads the kernel from the disk.
    - Mp.v: mp.c, which finds the processors in the firmware's tables.
    - Apic.v, ApicSpec.v: lapic.c, ioapic.c, picirq.c, uart.c.
    - Startup.v: [startothers] of main.c with the code of entryother.S and [mpmain]
      on the processors that are started.
    - Asm.v: swtch.S, trapasm.S and the vectors of vectors.pl.
    - Usys.v: usys.S and initcode.S, assembled to bytes, and a processor in user mode
      that runs them over the kernel of the other files; Initcode.v: what the first
      process does; Userinit.v: how [userinit] makes it.

    Locks, memory and processes:
    - Spinlock.v: spinlock.c and [mycpu].
    - Kalloc.v: kalloc.c, on word-addressed kernel memory.
    - Vm.v, VmInv.v, VmSpec.v, VmCopy.v: vm.c; Shm.v: its shared pages.
    - KState.v: the structures of proc.h and the state [kst] of the kernel.
    - PQueue.v, Proc.v, ProcInv.v, Sched.v, SchedSys.v, Wakeup.v: proc.c.
    - Args.v, ArgsSpec.v, Trap.v: syscall.c and trap.c.
    - Sysproc.v, Mutex.v, Prio.v: sysproc.c.
    - Strings.v: string.c.

    Files and devices:
    - Ide.v, IdeSpec.v: ide.c.
    - FState.v, Blocks.v: the structures of buf.h, fs.h, file.h and log.c.
    - Bio.v: bio.c, sleeplock.c and memide.c.
    - Log.v, LogSpec.v, Crash.v, Tx.v: log.c.
    - Fs.v, FsAlloc.v, FsData.v, FsRw.v, FsTrunc.v, FsPath.v, FsDir.v, FsTree.v,
      FsCrash.v: fs.c; FsEnd.v: its loops end.
    - Pipe.v: pipe.c; File.v, FileSpec.v, Frames.v: file.c; Sysfile.v: sysfile.c;
      Exec.v: exec.c.
    - Kbd.v: kbd.c; Console.v, ConsoleSpec.v: console.c; Procdump.v: [procdump].

    User programs and the image builder:
    - Ulib.v: ulib.c; Printf.v: printf.c; Umalloc.v, UmallocSpec.v: umalloc.c.
    - Sh.v, ShSpec.v, ShMain.v: sh.c; Grep.v, GrepMain.v: grep.c.
    - Utils.v, UtilsSpec.v: cat.c, wc.c, echo.c, kill.c, ln.c, mkdir.c, rm.c, ls.c,
      init.c, zombie.c.
    - Mkfs.v, MkfsSpec.v, MkfsImage.v, MkfsBoot.v: mkfs.c.
    - Boot.v: from mkfs through the kernel to the [exec] of /init.

    ** How code is translated

    A C function that works on the kernel's state is a function of the monad [M] below
    on a record of the state, with the same name.  Pointers to elements of a table
    are indices; pages, page tables, stacks and the free list are in memory, by
    address.  A function that gives up the processor ends in [Wait], and a second
    definition says how it goes on; [panic] and the access to a null pointer or
    outside an object are outcomes of their own.  Integers are [Z] with the
    conversions [u32], [i32] and [u8] where the code relies on the width.

    What runs at the same time is a step relation: processors that take spin locks
    (Spinlock.v) and that run the scheduler (SchedSys.v), processes that sleep and
    threads that wake them (Wakeup.v), readers and writers of a
    pipe (Pipe.v), processes, interrupt handler and disk (IdeSpec.v), the boot
    processor and the ones it starts (Startup.v), and crashes during writes to the disk
    (Crash.v, FsCrash.v).  The instructions of assembly files are steps of a processor:
    Asm.v in the kernel, Usys.v in user mode, where memory is what the page table of
    the process maps and an [int] is the kernel's whole trap path, and Entry.v before
    the kernel runs.  A critical section of a spin lock is one step of the others;
    that a spin lock makes it so is the theorem of Spinlock.v.

    A user program is an interaction tree of its system calls, and a theorem about it
    is about the runs of the tree: the calls, with what the kernel answered.

    Components meet in classes.  [FileOps] and [FileSyscalls] are what the process
    code uses of the file system, with instances in Exec.v; [Devsw] are the device
    functions behind [readi] and [writei].  Hardware is a parameter: [Ata] (Ide.v) and
    [Bus] (Apic.v) are the instructions that reach the devices, and the classes of
    laws [AtaLaws], [AtaTicks], [IoapicLaws], [LapicLaws], [ClockLaws] and [UartLaws]
    are what the code relies on of them, each with a simulated device as instance.

    ** What the theorems show

    - The log: a commit is all or nothing under any crashes, also during recovery
      ([commit_crash_atomic]); a write of any length leaves a prefix
      ([filewrite_crash_prefix]).
    - The file system: allocation of blocks, contents of files, writing and reading
      back, the resolution of paths against the directories on the disk, the reference
      counts of inodes and files, the inode cache and the freeing of an inode without
      links, and that no loop runs forever ([block_allocator_spec],
      [file_content_spec], [write_then_read], [namex_spec], [file_refs_balanced],
      [inode_cache_wf], [fs_loops_end]).
    - mkfs, for at most 198 files (it does not check their number against the inodes):
      it writes a file system with exactly the given files, and, unless the directory
      fills its last block, the kernel that starts on it finds and reads the files
      ([mkfs_image], [mkfs_boot]).
    - The disk driver refines an atomic disk with a queue, and serves every request
      ([ide_refines], [ide_progress]).
    - Processors and processes: mutual exclusion, no process lost or run twice, no
      lost wakeup, the priority queues as FIFO lists, the start of the processors,
      the context switch and the trap path ([spinlock_mutual_exclusion],
      [scheduler_safety], [no_lost_wakeup], [pq_refines], [startothers_spec],
      [swtch_resumes], [trap_roundtrip]).
    - System calls from user code: a stub of usys.S runs the handler of its name on
      the caller's arguments and comes back with its result ([usys_call]).
    - The first process: [userinit] builds it ([userinit_spec]), its code executes /init
      ([initcode_execs]), and the steps from a disk written by mkfs through [userinit],
      the scheduler, [forkret] and user mode to that [exec], composed
      ([boots_to_init]).
    - Memory: page tables and the accounting of pages, the bounds of system call
      arguments, the user allocator ([copyuvm_spec], [freevm_spec],
      [arguments_in_bounds], [allocator_safety]).
    - Mutexes and condition variables: what each handler does on every branch.
    - The shell: the parser accepts exactly its grammar, the descriptors of [runcmd],
      the command loop; the other programs ([parsecmd_spec], [runcmd_wiring],
      [sh_session], [match_re_spec], [grep_prints], [wc_counts], [init_restarts]).
    - Devices and boot: the console, the serial port, the clock, the way into protected
      mode and paging, the boot loader and the multiprocessor tables
      ([consoleintr_refines], [serial_port], [cmostime_consistent], [bootasm_protected],
      [entry_paging], [entryother_starts], [bootmain_loads], [mpinit_spec]).

    Where the code does not do what it means to, a theorem or lemma states what it does:
    [double_dispatch] (a process on two processors), [pq_refines] (a full queue that reads
    as empty), [pipe_safety] (a reader that is not woken), [waitcv_spec] (a lock taken
    twice), [mpinit_spec] (a loop that does not end), the example at the end of
    FileSpec.v (the pieces of a write are too large for the log).

    ** Bounds and fuel

    Loops that count are recursions on the counter.  A loop without a counter takes
    fuel that the caller gives it, and the specification shows it is enough: the
    number of mapped bytes for the loops over strings, the length of the path, the
    bytes to copy and the size of a directory in fs.c ([fs_loops_end]), the number of pages for [freerange], of sectors
    for [readseg].  [mpinit], [cmostime] and [uartintr] take it as an argument, and the
    theorems say how much is enough, or that no amount is.  Loops that poll a device
    take the constants [polls] and [wpolls] of the device, within which its laws say it
    answers.

    ** Not modelled

    - The order of the calls in [main] before [userinit]: most of them have their
      theorem, but they are not composed; [boots_to_init] starts after them.  The multiboot header of entry.S is data for another loader.
    - In C code the loads of cr3, of the task register and of the descriptor tables
      change nothing: the kernel's theorems are about the page tables, and Usys.v reads
      the memory of a process through its own.
    - How long an instruction of bootasm.S, entry.S and entryother.S is: their theorems
      hold for any layout within the limits they state.
    - [filewrite] reads the bytes of the whole write from user memory before its loop,
      where file.c reads them piece by piece: a write by another process that shares the
      page, between two pieces, is not seen.
    - mkfs: a failure of the host's [lseek] or [write].
    - The messages the kernel prints, except where a theorem is about the console;
      [consoleinit].
    - vectors.S, which vectors.pl generates.
    - pqueue.h, which no file includes; usertests.c, forktest.c, stressfs.c,
      mod_2_test.c and tester.c, which are tests; the build scripts. *)

From Stdlib Require Import ZArith Lia.
From stdpp Require Import base numbers strings gmap list.

#[global] Open Scope Z_scope.

(** ** Machine integers

    Every C integer is a [Z]; the width is written out where the code relies
    on it.  [u32] and [u8] are the conversions to the unsigned types of
    types.h ([uint], [uchar]), [i32] is the conversion to [int]. *)

Definition two32 : Z := 4294967296.

Definition u32 (x : Z) : Z := x mod two32.

Definition u8 (x : Z) : Z := x mod 256.

Definition i32 (x : Z) : Z :=
  let y := u32 x in if y <? 2147483648 then y else y - two32.

(** C's [%] on [int] truncates towards zero: the sign of the result is the
    sign of the dividend ([Z.rem]), unlike Rocq's [mod]. *)

Definition c_rem (a b : Z) : Z := Z.rem a b.

Lemma u32_range x : 0 <= u32 x < two32.
Proof. apply Z.mod_pos_bound. reflexivity. Qed.

Lemma u32_id x : 0 <= x < two32 -> u32 x = x.
Proof. apply Z.mod_small. Qed.

Lemma u32_u32 x : u32 (u32 x) = u32 x.
Proof. apply u32_id, u32_range. Qed.

Lemma u8_range x : 0 <= u8 x < 256.
Proof. apply Z.mod_pos_bound. reflexivity. Qed.

Lemma u32_add_l x y : u32 (u32 x + y) = u32 (x + y).
Proof. apply Zplus_mod_idemp_l. Qed.

Lemma u32_add_r x y : u32 (x + u32 y) = u32 (x + y).
Proof. apply Zplus_mod_idemp_r. Qed.

Lemma u32_sub_l x y : u32 (u32 x - y) = u32 (x - y).
Proof. apply Zminus_mod_idemp_l. Qed.

Lemma u32_sub_r x y : u32 (x - u32 y) = u32 (x - y).
Proof. apply Zminus_mod_idemp_r. Qed.

Lemma i32_small x : -2147483648 <= x < 2147483648 -> i32 x = x.
Proof.
  intros H. unfold i32, u32, two32. destruct (decide (0 <= x)) as [Hx|Hx].
  - rewrite Z.mod_small by lia. destruct (Z.ltb_spec x 2147483648); lia.
  - assert (x mod 4294967296 = x + 4294967296) as ->.
    { rewrite <- (Z.mod_small (x + 4294967296) 4294967296) by lia.
      rewrite <- (Z_mod_plus_full x 1 4294967296). f_equal; lia. }
    destruct (Z.ltb_spec (x + 4294967296) 2147483648); lia.
Qed.

Lemma u32_i32 x : u32 (i32 x) = u32 x.
Proof.
  unfold i32. destruct (Z.ltb_spec (u32 x) 2147483648); [apply u32_u32|]. unfold u32, two32 in *.
  rewrite Zminus_mod, Z.mod_same, Z.sub_0_r by done. by rewrite !Zmod_mod.
Qed.

(** ** The outcome of a run of kernel code

    A kernel operation takes the state and ends in one of four ways:
    - [Ret a s]: it returns [a] in state [s];
    - [Panic msg]: it calls [panic(msg)], which never returns;
    - [Fault why]: it dereferences a null pointer or an address outside the
      object (undefined behaviour of the C program);
    - [Wait w s]: it stops making progress on this CPU, either because it gave
      up the CPU in [sched()] ([OnSched]) or because it spins on a lock
      another CPU holds ([OnLock]).  What the code does once it is resumed is
      a separate definition, named after the loop it re-enters. *)

Inductive waitkind := OnSched | OnLock.

Inductive outcome (S A : Type) :=
  | Ret (a : A) (s : S)
  | Panic (msg : string)
  | Fault (why : string)
  | Wait (w : waitkind) (s : S).

Arguments Ret {S A} a s.
Arguments Panic {S A} msg.
Arguments Fault {S A} why.
Arguments Wait {S A} w s.

Definition M (S A : Type) : Type := S -> outcome S A.

#[export] Instance M_ret S : MRet (M S) := fun A a s => Ret a s.

#[export] Instance M_bind S : MBind (M S) := fun A B k m s =>
  match m s with
  | Ret a s' => k a s'
  | Panic msg => Panic msg
  | Fault why => Fault why
  | Wait w s' => Wait w s'
  end.

Definition panic {S A} (msg : string) : M S A := fun _ => Panic msg.
Definition fault {S A} (why : string) : M S A := fun _ => Fault why.
Definition stall {S A} (w : waitkind) : M S A := fun s => Wait w s.
Definition get {S} : M S S := fun s => Ret s s.
Definition put {S} (s : S) : M S unit := fun _ => Ret tt s.
Definition gets {S A} (f : S -> A) : M S A := fun s => Ret (f s) s.
Definition modify {S} (f : S -> S) : M S unit := fun s => Ret tt (f s).
Definition unless_panic {S} (b : bool) (msg : string) : M S unit :=
  fun s => if b then Panic msg else Ret tt s.
Definition of_option {S A} (why : string) (o : option A) : M S A :=
  fun s => match o with Some a => Ret a s | None => Fault why end.

(** Run an operation of a component inside a larger state. *)
Definition zoom {S T A} (sel : T -> S) (upd : S -> T -> T) (m : M S A) : M T A :=
  fun t => match m (sel t) with
           | Ret a s => Ret a (upd s t)
           | Panic msg => Panic msg
           | Fault why => Fault why
           | Wait w s => Wait w (upd s t)
           end.

(** [for (x in l) f(x);] *)
Fixpoint each {S A} (l : list A) (f : A -> M S unit) : M S unit :=
  match l with [] => mret tt | x :: l => _ ← f x; each l f end.

Lemma bind_run {S A B} (m : M S A) (k : A -> M S B) s :
  (m ≫= k) s = match m s with
               | Ret a s' => k a s'
               | Panic msg => Panic msg
               | Fault why => Fault why
               | Wait w s' => Wait w s'
               end.
Proof. reflexivity. Qed.

Lemma bind_ret_run {S A B} (m : M S A) (k : A -> M S B) s a s' :
  m s = Ret a s' -> (m ≫= k) s = k a s'.
Proof. intros H. rewrite bind_run, H. reflexivity. Qed.

(** Steps that always return. *)
Lemma bind_modify {S B} f (k : unit -> M S B) s : (modify f ≫= k) s = k tt (f s).
Proof. reflexivity. Qed.
Lemma bind_gets {S A B} (f : S -> A) (k : A -> M S B) s : (gets f ≫= k) s = k (f s) s.
Proof. reflexivity. Qed.
Lemma bind_get {S B} (k : S -> M S B) s : (get ≫= k) s = k s s.
Proof. reflexivity. Qed.
Lemma bind_mret {S A B} (a : A) (k : A -> M S B) s : ((mret a : M S A) ≫= k) s = k a s.
Proof. reflexivity. Qed.
Lemma bind_unless_false {S B} msg (k : unit -> M S B) s : (unless_panic false msg ≫= k) s = k tt s.
Proof. reflexivity. Qed.
Lemma bind_some {S A B} why (a : A) (k : A -> M S B) s : (of_option why (Some a) ≫= k) s = k a s.
Proof. reflexivity. Qed.

(** The monad laws, pointwise (no functional extensionality). *)
Lemma bind_ext {S A B} (m : M S A) (k k' : A -> M S B) s : (forall a s', k a s' = k' a s') -> (m ≫= k) s = (m ≫= k') s.
Proof. intros H. rewrite !bind_run. destruct (m s); simpl; auto. Qed.

Lemma bind_assoc_run {S A B C} (m : M S A) (k : A -> M S B) (l : B -> M S C) s :
  ((m ≫= k) ≫= l) s = (m ≫= (fun a => k a ≫= l)) s.
Proof. rewrite !bind_run. destruct (m s); reflexivity. Qed.

Lemma bind_mret_run {S A} (m : M S A) s : (m ≫= mret) s = m s.
Proof. rewrite bind_run. destruct (m s); reflexivity. Qed.

Lemma bind_inv {S A B} (m : M S A) (k : A -> M S B) s b s'' :
  (m ≫= k) s = Ret b s'' -> exists a s', m s = Ret a s' /\ k a s' = Ret b s''.
Proof. rewrite bind_run. destruct (m s) eqn:E; intros; try discriminate. eauto. Qed.

(** Total correctness: the run returns, and its result satisfies [Q]. *)
Definition returns {S A} (m : M S A) (s : S) (Q : A -> S -> Prop) : Prop :=
  match m s with Ret a s' => Q a s' | _ => False end.

Lemma returns_ret {S A} (m : M S A) s a s' (Q : A -> S -> Prop) :
  m s = Ret a s' -> Q a s' -> returns m s Q.
Proof. unfold returns. intros ->. auto. Qed.

Lemma returns_inv {S A} (m : M S A) s (Q : A -> S -> Prop) :
  returns m s Q -> exists a s', m s = Ret a s' /\ Q a s'.
Proof. unfold returns. destruct (m s); intros; try contradiction. eauto. Qed.

Lemma returns_bind {S A B} (m : M S A) (k : A -> M S B) s (Q : B -> S -> Prop) :
  returns m s (fun a s' => returns (k a) s' Q) -> returns (m ≫= k) s Q.
Proof. unfold returns. rewrite bind_run. destruct (m s); auto. Qed.

Lemma returns_mono {S A} (m : M S A) s (Q Q' : A -> S -> Prop) :
  returns m s Q -> (forall a s', Q a s' -> Q' a s') -> returns m s Q'.
Proof. unfold returns. destruct (m s); auto. Qed.

(** ** C arrays as lists with a [Z] index

    Reading or writing outside the array is a [Fault], never a silent no-op. *)

Definition zget {A} (l : list A) (i : Z) : option A :=
  if 0 <=? i then l !! Z.to_nat i else None.

Definition zset {A} (i : Z) (x : A) (l : list A) : option (list A) :=
  if (0 <=? i) && (i <? Z.of_nat (length l)) then Some (<[Z.to_nat i := x]> l) else None.

Lemma zget_Some {A} (l : list A) i x :
  zget l i = Some x <-> 0 <= i /\ l !! Z.to_nat i = Some x.
Proof. unfold zget. destruct (Z.leb_spec 0 i); intuition (try lia; congruence). Qed.

Lemma zget_nat {A} (l : list A) (i : nat) : zget l (Z.of_nat i) = l !! i.
Proof. unfold zget. destruct (Z.leb_spec 0 (Z.of_nat i)); [|lia]. by rewrite Nat2Z.id. Qed.

Lemma zget_lt {A} (l : list A) i :
  0 <= i < Z.of_nat (length l) -> exists x, zget l i = Some x.
Proof.
  intros H. destruct (lookup_lt_is_Some_2 l (Z.to_nat i)) as [x Hx]; [lia|].
  exists x. apply zget_Some. split; [lia|done].
Qed.

Lemma zset_Some {A} (l : list A) i x :
  0 <= i < Z.of_nat (length l) -> zset i x l = Some (<[Z.to_nat i := x]> l).
Proof. intros H. unfold zset. destruct (Z.leb_spec 0 i), (Z.ltb_spec i (Z.of_nat (length l))); done || lia. Qed.

Lemma zset_None {A} (l : list A) i x :
  ~ (0 <= i < Z.of_nat (length l)) -> zset i x l = None.
Proof. intros H. unfold zset. destruct (Z.leb_spec 0 i), (Z.ltb_spec i (Z.of_nat (length l))); done || lia. Qed.

(** The first index of [l] whose element satisfies [f]: the shape of every
    [for (p = tab; p < &tab[N]; p++) if (test(p)) goto found;] loop. *)
Fixpoint find_first {A} (f : A -> bool) (l : list A) : option nat :=
  match l with
  | [] => None
  | x :: l => if f x then Some 0%nat else S <$> find_first f l
  end.

Lemma find_first_Some {A} (f : A -> bool) l i :
  find_first f l = Some i <->
  (exists x, l !! i = Some x /\ f x = true) /\
  (forall j y, (j < i)%nat -> l !! j = Some y -> f y = false).
Proof.
  revert i. induction l as [|x l IH]; intros i; simpl.
  { split; [done|]. intros [(x & Hx & _) _]. done. }
  destruct (f x) eqn:E.
  - split.
    + intros [= <-]. split; [eauto|]. intros; lia.
    + intros [(y & Hy & Hf) Hmin]. destruct i as [|i]; [done|].
      specialize (Hmin 0%nat x ltac:(lia) eq_refl). congruence.
  - destruct i as [|i].
    + split; [destruct (find_first f l); done|].
      intros [(y & Hy & Hf) _]. simpl in Hy. congruence.
    + transitivity (find_first f l = Some i).
      { destruct (find_first f l); simpl; split; congruence. }
      rewrite IH. simpl. split; intros [H1 H2]; (split; [exact H1|]).
      * intros [|j] y Hj Hy; simpl in Hy; [congruence|]. eapply H2; [|done]. lia.
      * intros j y Hj Hy. apply (H2 (S j)); [lia|done].
Qed.

Lemma find_first_None {A} (f : A -> bool) l :
  find_first f l = None <-> Forall (fun x => f x = false) l.
Proof.
  induction l as [|x l IH]; simpl; [split; [constructor|done]|].
  rewrite Forall_cons, <- IH. destruct (f x), (find_first f l); simpl; intuition congruence.
Qed.

Lemma find_first_lt {A} (f : A -> bool) l i : find_first f l = Some i -> (i < length l)%nat.
Proof.
  intros H. apply find_first_Some in H as [(x & Hx & _) _].
  by eapply lookup_lt_Some.
Qed.

Lemma find_first_alter {A} (p : A -> bool) (f : A -> A) i l :
  (forall x, p (f x) = p x) -> find_first p (alter f i l) = find_first p l.
Proof.
  intros Hf. revert i. induction l as [|x l IH]; intros i; [done|].
  destruct i as [|i]; simpl; [by rewrite Hf|]. destruct (p x); [done|]. f_equal. apply IH.
Qed.

(** ** Updating one element of a list in place *)

Lemma alter_alter {A} (f g : A -> A) i (l : list A) : alter f i (alter g i l) = alter (fun x => f (g x)) i l.
Proof. revert i. induction l as [|x l IH]; intros [|i]; simpl; [done..|]. f_equal. apply IH. Qed.

Lemma alter_ext_Some {A} (f g : A -> A) i (l : list A) x :
  l !! i = Some x -> f x = g x -> alter f i l = alter g i l.
Proof.
  revert i. induction l as [|y l IH]; intros [|i] Hx Hfg; simpl in *; simplify_eq; [by rewrite Hfg|].
  f_equal. by apply IH.
Qed.

Lemma alter_ext_all {A} (f g : A -> A) i (l : list A) :
  (forall x, f x = g x) -> alter f i l = alter g i l.
Proof.
  intros Hfg. revert i. induction l as [|y l IH]; intros [|i]; simpl; [done|done|by rewrite Hfg|].
  f_equal. apply IH.
Qed.

Lemma fmap_alter_same {A B} (g : A -> B) (f : A -> A) i (l : list A) :
  (forall x, g (f x) = g x) -> g <$> alter f i l = g <$> l.
Proof.
  intros Hg. revert i. induction l as [|y l IH]; intros [|i]; simpl; [done|done|by rewrite Hg|].
  f_equal. apply IH.
Qed.

Lemma alter_id_Some {A} (f : A -> A) i (l : list A) x :
  l !! i = Some x -> f x = x -> alter f i l = l.
Proof.
  revert i. induction l as [|y l IH]; intros [|i] Hx Hf; simpl in *; simplify_eq; [by rewrite Hf|].
  f_equal. by apply IH.
Qed.

Lemma alter_insert_Some {A} (f : A -> A) i (l : list A) x :
  l !! i = Some x -> alter f i l = <[i := f x]> l.
Proof. intros Hx. rewrite list_insert_alter. by eapply alter_ext_Some. Qed.

(** Looking up a list after one element was replaced. *)
Lemma insert_lookup_cases {A} (l : list A) i j x y :
  <[i := x]> l !! j = Some y -> (i = j /\ x = y /\ (i < length l)%nat) \/ (i <> j /\ l !! j = Some y).
Proof.
  intros H. apply list_lookup_insert_Some in H. tauto || (destruct H as [(-> & -> & ?)|[? ?]]; auto).
Qed.

(** ** Automation *)

#[global] Arguments alter {_ _ _ _} _ _ _ : simpl never.
#[global] Arguments insert {_ _ _ _} _ _ _ : simpl never.


Create HintDb xv6.

(** Execute the monad's plumbing; calls to named operations stay folded and
    are then rewritten with their run lemmas. *)
Ltac mexec :=
  cbv [mbind M_bind mret M_ret gets get put modify unless_panic of_option panic fault stall].
Ltac mexec_in H :=
  cbv [mbind M_bind mret M_ret gets get put modify unless_panic of_option panic fault stall] in H.

(** Run the first operation of a sequence, given the equation of its run. *)
Tactic Notation "mstep" constr(H) := rewrite (bind_ret_run _ _ _ _ _ H).

(** Invert a run that returns: split every bind of a hypothesis. *)
Ltac minv :=
  repeat match goal with
    | H : (_ ≫= _) _ = Ret _ _ |- _ => apply bind_inv in H as (? & ? & ? & H)
    | H : mret _ _ = Ret _ _ |- _ => injection H as ? ?; subst
    | H : Ret _ _ = Ret _ _ |- _ => injection H as ? ?; subst
    | H : gets _ _ = Ret _ _ |- _ => unfold gets in H
    | H : get _ = Ret _ _ |- _ => unfold get in H
    | H : modify _ _ = Ret _ _ |- _ => unfold modify in H
    | H : put _ _ = Ret _ _ |- _ => unfold put in H
    | H : panic _ _ = Ret _ _ |- _ => discriminate H
    | H : fault _ _ = Ret _ _ |- _ => discriminate H
    | H : Panic _ = Ret _ _ |- _ => discriminate H
    | H : Fault _ = Ret _ _ |- _ => discriminate H
    | H : Wait _ _ = Ret _ _ |- _ => discriminate H
    end.

(** Case on a boolean comparison of integers and keep the arithmetic fact. *)
Ltac zcase :=
  match goal with
  | |- context [Z.eqb ?a ?b] => destruct (Z.eqb_spec a b)
  | |- context [Z.ltb ?a ?b] => destruct (Z.ltb_spec a b)
  | |- context [Z.leb ?a ?b] => destruct (Z.leb_spec a b)
  | H : context [Z.eqb ?a ?b] |- _ => destruct (Z.eqb_spec a b)
  | H : context [Z.ltb ?a ?b] |- _ => destruct (Z.ltb_spec a b)
  | H : context [Z.leb ?a ?b] |- _ => destruct (Z.leb_spec a b)
  end.

Ltac zcases := repeat (zcase; try lia).

#[export] Hint Resolve u32_range u8_range : xv6.
