(* ===== verification/Strings.v ===== *)
(** * String and memory functions (string.c)

    A byte-addressed memory is a finite map from addresses to bytes; reading or
    writing an address that is not mapped is a [Fault].  Each C loop is a
    recursion on its counter; the two loops without a counter ([strlen] and
    its clients) take fuel, and the number of mapped bytes is always enough. *)

From Stdlib Require Import ZArith Lia.
From stdpp Require Import base numbers strings gmap list.
From S2P Require Import Prelude.

Local Open Scope string_scope.
Local Open Scope list_scope.
Local Open Scope Z_scope.

Abbreviation bmem := (gmap Z Z).

(** [*a] and [*a = v]. *)
Definition rd (a : Z) : M bmem Z := m ← get; of_option "rd" (m !! a).
Definition wr (a v : Z) : M bmem unit :=
  m ← get; _ ← of_option "wr" (m !! a); put (<[a := u8 v]> m).

(** x86.h: [rep stosb] and [rep stosl] (little endian). *)
Fixpoint stosb (a v : Z) (cnt : nat) : M bmem unit :=
  match cnt with O => mret tt | S cnt => wr a v;; stosb (a + 1) v cnt end.

Fixpoint stosl (a w : Z) (cnt : nat) : M bmem unit :=
  match cnt with
  | O => mret tt
  | S cnt =>
      wr a w;; wr (a + 1) (Z.shiftr w 8);; wr (a + 2) (Z.shiftr w 16);; wr (a + 3) (Z.shiftr w 24);;
      stosl (a + 4) w cnt
  end.

Definition memset (dst c n : Z) : M bmem Z :=
  (if (c_rem (i32 dst) 4 =? 0) && (n mod 4 =? 0) then
     let c := Z.land c 0xFF in
     stosl dst (Z.lor (Z.lor (Z.lor (Z.shiftl c 24) (Z.shiftl c 16)) (Z.shiftl c 8)) c) (Z.to_nat (n / 4))
   else stosb dst c (Z.to_nat n));;
  mret dst.

Fixpoint memcmp_loop (n : nat) (s1 s2 : Z) : M bmem Z :=
  match n with
  | O => mret 0
  | S n =>
      a ← rd s1; b ← rd s2;
      if negb (a =? b) then mret (a - b) else memcmp_loop n (s1 + 1) (s2 + 1)
  end.
Definition memcmp (v1 v2 n : Z) : M bmem Z := memcmp_loop (Z.to_nat n) v1 v2.

Fixpoint copy_backward (n : nat) (d s : Z) : M bmem unit :=
  match n with
  | O => mret tt
  | S n => x ← rd (s - 1); wr (d - 1) x;; copy_backward n (d - 1) (s - 1)
  end.

Fixpoint copy_forward (n : nat) (d s : Z) : M bmem unit :=
  match n with
  | O => mret tt
  | S n => x ← rd s; wr d x;; copy_forward n (d + 1) (s + 1)
  end.

Definition memmove (dst src n : Z) : M bmem Z :=
  (if (src <? dst) && (dst <? src + n) then copy_backward (Z.to_nat n) (dst + n) (src + n)
   else copy_forward (Z.to_nat n) dst src);;
  mret dst.

Definition memcpy (dst src n : Z) : M bmem Z := memmove dst src n.

Fixpoint strncmp_loop (n : nat) (p q : Z) : M bmem Z :=
  match n with
  | O => mret 0
  | S n' =>
      a ← rd p;
      if a =? 0 then b ← rd q; mret (a - b)
      else
        b ← rd q;
        if a =? b then strncmp_loop n' (p + 1) (q + 1) else mret (a - b)
  end.
Definition strncmp (p q n : Z) : M bmem Z := strncmp_loop (Z.to_nat n) p q.

Fixpoint strncpy_loop (n : nat) (s t : Z) : M bmem unit :=
  match n with
  | O => mret tt
  | S n => x ← rd t; wr s x;; (if x =? 0 then stosb (s + 1) 0 n else strncpy_loop n (s + 1) (t + 1))
  end.
Definition strncpy (s t n : Z) : M bmem Z := strncpy_loop (Z.to_nat n) s t;; mret s.

(** [n] here is the value of [n] after the decrement in the loop test. *)
Fixpoint safestrcpy_loop (n : nat) (s t : Z) : M bmem unit :=
  match n with
  | O => wr s 0
  | S n => x ← rd t; wr s x;; (if x =? 0 then wr (s + 1) 0 else safestrcpy_loop n (s + 1) (t + 1))
  end.
Definition safestrcpy (s t n : Z) : M bmem Z :=
  if n <=? 0 then mret s else safestrcpy_loop (Z.to_nat (n - 1)) s t;; mret s.

Fixpoint strlen_loop (fuel : nat) (s n : Z) : M bmem Z :=
  match fuel with
  | O => fault "strlen: fuel"
  | S fuel => x ← rd (s + n); if x =? 0 then mret n else strlen_loop fuel s (n + 1)
  end.
Definition strlen (s : Z) : M bmem Z := m ← get; strlen_loop (size m) s 0.

(** ** Memory images *)

(** [bs] is stored at [a]. *)
Definition bytes_at (m : bmem) (a : Z) (bs : list Z) : Prop :=
  forall i x, bs !! i = Some x -> m !! (a + Z.of_nat i) = Some x.

(** The [n] bytes at [a] are mapped. *)
Definition mapped (m : bmem) (a : Z) (n : nat) : Prop :=
  forall b, a <= b < a + Z.of_nat n -> is_Some (m !! b).

Definition bytes (bs : list Z) : Prop := Forall (fun x => 0 <= x < 256) bs.

(** A C string: no byte of [s] is 0, and a 0 follows. *)
Definition cstr (m : bmem) (a : Z) (s : list Z) : Prop :=
  bytes_at m a (s ++ [0]) /\ Forall (fun x => 1 <= x < 256) s.

(** [m] with [bs] written at [a]. *)
Fixpoint wlist (a : Z) (bs : list Z) (m : bmem) : bmem :=
  match bs with [] => m | b :: bs => wlist (a + 1) bs (<[a := b]> m) end.

Lemma lookup_wlist_out a bs m b : ~ (a <= b < a + Z.of_nat (length bs)) -> wlist a bs m !! b = m !! b.
Proof.
  revert a m. induction bs as [|x bs IH]; intros a m Hb; simpl in *; [done|].
  rewrite IH by lia. rewrite lookup_insert_ne by lia. done.
Qed.

Lemma lookup_wlist_in a bs m (i : nat) : (i < length bs)%nat -> wlist a bs m !! (a + Z.of_nat i) = bs !! i.
Proof.
  revert a m i. induction bs as [|x bs IH]; intros a m i Hi; simpl in *; [lia|].
  destruct i as [|i]; simpl.
  - rewrite Z.add_0_r, lookup_wlist_out by lia. apply lookup_insert_eq.
  - replace (a + Z.of_nat (S i)) with (a + 1 + Z.of_nat i) by lia. apply IH. lia.
Qed.

Lemma lookup_wlist a bs m b :
  wlist a bs m !! b = if decide (a <= b < a + Z.of_nat (length bs)) then bs !! Z.to_nat (b - a) else m !! b.
Proof.
  destruct (decide _) as [H|H]; [|by apply lookup_wlist_out].
  rewrite <- (lookup_wlist_in a bs m (Z.to_nat (b - a))) by lia. f_equal. lia.
Qed.

Lemma wlist_bytes_at a bs m : bytes_at (wlist a bs m) a bs.
Proof. intros i x Hx. rewrite lookup_wlist_in; [done|]. by eapply lookup_lt_Some. Qed.

Lemma wlist_snoc a bs x m : wlist a (bs ++ [x]) m = wlist a bs (<[a + Z.of_nat (length bs) := x]> m).
Proof.
  apply map_eq. intros b. rewrite !lookup_wlist, length_app. simpl. 
  destruct (decide (b = a + Z.of_nat (length bs))) as [->|Hb].
  - rewrite decide_True, decide_False, lookup_insert_eq by lia.
    rewrite lookup_app_r by lia. replace (_ - _)%nat with 0%nat by lia. done.
  - rewrite lookup_insert_ne by done. destruct (decide (a <= b < a + Z.of_nat (length bs))).
    + rewrite decide_True by lia. rewrite lookup_app_l by lia. done.
    + by rewrite decide_False by lia.
Qed.

Lemma wlist_app a bs cs m : wlist a (bs ++ cs) m = wlist (a + Z.of_nat (length bs)) cs (wlist a bs m).
Proof.
  revert a m. induction bs as [|x bs IH]; intros a m; simpl; [by rewrite Z.add_0_r|].
  rewrite IH. f_equal. lia.
Qed.

Lemma bytes_at_cons m a x bs : bytes_at m a (x :: bs) <-> m !! a = Some x /\ bytes_at m (a + 1) bs.
Proof.
  split.
  - intros H. split; [rewrite <- (H 0%nat x eq_refl); f_equal; lia|].
    intros i y Hy. rewrite <- (H (S i) y Hy). f_equal. lia.
  - intros [H0 H] [|i] y Hy; simpl in Hy; [injection Hy as <-; by rewrite Z.add_0_r|].
    rewrite <- (H i y Hy). f_equal. lia.
Qed.

Lemma bytes_at_app m a bs cs :
  bytes_at m a (bs ++ cs) <-> bytes_at m a bs /\ bytes_at m (a + Z.of_nat (length bs)) cs.
Proof.
  revert a. induction bs as [|x bs IH]; intros a; simpl.
  - rewrite Z.add_0_r. split; [intros H; split; [intros ? ? ?|]|intros [_ H]]; done.
  - rewrite !bytes_at_cons, IH. replace (a + 1 + Z.of_nat (length bs)) with (a + Z.of_nat (S (length bs))) by lia. tauto.
Qed.

(** Writing outside the range keeps what is stored there. *)
Lemma bytes_at_insert m a bs b y :
  bytes_at m a bs -> ~ (a <= b < a + Z.of_nat (length bs)) -> bytes_at (<[b := y]> m) a bs.
Proof.
  intros H Hb i x Hx. pose proof (lookup_lt_Some _ _ _ Hx). rewrite lookup_insert_ne by lia. by apply H.
Qed.

Lemma mapped_insert m a n b y : mapped m a n -> mapped (<[b := y]> m) a n.
Proof.
  intros H c Hc. destruct (decide (b = c)) as [->|Hne]; [rewrite lookup_insert_eq; eauto|].
  rewrite lookup_insert_ne by done. by apply H.
Qed.

Lemma mapped_S m a n : mapped m a (S n) -> is_Some (m !! a) /\ mapped m (a + 1) n.
Proof. intros H. split; [apply H; lia|]. intros b Hb. apply H. lia. Qed.

Lemma mapped_le m a n n' : mapped m a n -> (n' <= n)%nat -> mapped m a n'.
Proof. intros H Hle b Hb. apply H. lia. Qed.

Lemma u8_id x : 0 <= x < 256 -> u8 x = x.
Proof. intros H. unfold u8. by apply Z.mod_small. Qed.

Lemma rd_run m a x : m !! a = Some x -> rd a m = Ret x m.
Proof. intros H. unfold rd. mexec. by rewrite H. Qed.

Lemma wr_run m a v : is_Some (m !! a) -> wr a v m = Ret tt (<[a := u8 v]> m).
Proof. intros [x H]. unfold wr. mexec. by rewrite H. Qed.

#[export] Hint Resolve mapped_insert bytes_at_insert : xv6.

(** ** What the functions do *)

Lemma stosb_run m a v n : mapped m a n -> stosb a v n m = Ret tt (wlist a (replicate n (u8 v)) m).
Proof.
  revert m a. induction n as [|n IH]; intros m a Hm; simpl; [done|].
  apply mapped_S in Hm as [Ha Hm]. rewrite (bind_ret_run _ _ _ _ _ (wr_run m a v Ha)). auto with xv6.
Qed.

(** Every byte of the word that [memset] builds is [c]. *)
Definition rep_word (c : Z) : Z :=
  Z.lor (Z.lor (Z.lor (Z.shiftl c 24) (Z.shiftl c 16)) (Z.shiftl c 8)) c.
Definition rep_word_ok (c : Z) : bool :=
  let w := rep_word c in
  (u8 w =? c) && (u8 (Z.shiftr w 8) =? c) && (u8 (Z.shiftr w 16) =? c) && (u8 (Z.shiftr w 24) =? c).

Lemma rep_word_bytes c : 0 <= c < 256 -> rep_word_ok c = true.
Proof.
  intros Hc. assert (Hall : forallb (fun n => rep_word_ok (Z.of_nat n)) (seq 0 256) = true)
    by (vm_compute; reflexivity).
  rewrite forallb_forall in Hall. rewrite <- (Z2Nat.id c) by lia. apply Hall. rewrite in_seq. lia.
Qed.

Lemma stosl_run m a w c n :
  u8 w = c -> u8 (Z.shiftr w 8) = c -> u8 (Z.shiftr w 16) = c -> u8 (Z.shiftr w 24) = c ->
  mapped m a (4 * n) -> stosl a w n m = Ret tt (wlist a (replicate (4 * n) c) m).
Proof.
  intros H0 H1 H2 H3. revert m a. induction n as [|n IH]; intros m a Hm; [done|].
  replace (4 * S n)%nat with (S (S (S (S (4 * n))))) in * by lia.
  apply mapped_S in Hm as [Ha0 Hm]. apply mapped_S in Hm as [Ha1 Hm].
  apply mapped_S in Hm as [Ha2 Hm]. apply mapped_S in Hm as [Ha3 Hm].
  replace (a + 1 + 1) with (a + 2) in * by lia. replace (a + 2 + 1) with (a + 3) in * by lia.
  replace (a + 3 + 1) with (a + 4) in * by lia.
  cbn [stosl]. rewrite (bind_ret_run _ _ _ _ _ (wr_run m a w Ha0)).
  assert (Hq : forall (k : bmem) b c v, is_Some (k !! b) -> is_Some ((<[c := v]> k) !! b)) by
    (intros k b c' v Hb; destruct (decide (c' = b)) as [->|]; [rewrite lookup_insert_eq|rewrite lookup_insert_ne]; eauto).
  rewrite (bind_ret_run _ _ _ _ _ (wr_run _ (a + 1) _ (Hq _ _ _ _ Ha1))).
  rewrite (bind_ret_run _ _ _ _ _ (wr_run _ (a + 2) _ (Hq _ _ _ _ (Hq _ _ _ _ Ha2)))).
  rewrite (bind_ret_run _ _ _ _ _ (wr_run _ (a + 3) _ (Hq _ _ _ _ (Hq _ _ _ _ (Hq _ _ _ _ Ha3))))).
  rewrite IH by auto with xv6. rewrite H0, H1, H2, H3. simpl replicate. cbn [wlist].
  replace (a + 1 + 1) with (a + 2) by lia. replace (a + 2 + 1) with (a + 3) by lia.
  replace (a + 3 + 1) with (a + 4) by lia. done.
Qed.

(** [memset] stores the low byte of [c] in each of the [n] bytes, whichever of
    its two loops it takes. *)
Lemma memset_run m dst c n : 0 <= n -> mapped m dst (Z.to_nat n) ->
  memset dst c n m = Ret dst (wlist dst (replicate (Z.to_nat n) (u8 c)) m).
Proof.
  intros Hn Hm. unfold memset. rewrite bind_run. destruct (_ && _) eqn:E; [|by rewrite stosb_run].
  apply andb_true_iff in E as [_ E]. apply Z.eqb_eq in E.
  assert (Hc : Z.land c 0xFF = u8 c) by (unfold u8; change 0xFF with (Z.ones 8); by rewrite Z.land_ones).
  rewrite Hc. fold (rep_word (u8 c)). pose proof (rep_word_bytes (u8 c) (u8_range c)) as Hw.
  unfold rep_word_ok in Hw. cbv zeta in Hw. rewrite !andb_true_iff, !Z.eqb_eq in Hw.
  destruct Hw as [[[H0 H1] H2] H3].
  assert (4 * Z.to_nat (n / 4) = Z.to_nat n)%nat as Hq by (pose proof (Z.div_mod n 4); lia).
  rewrite (stosl_run _ _ _ _ _ H0 H1 H2 H3) by (by rewrite Hq). by rewrite Hq.
Qed.

Lemma copy_forward_run m d s bs :
  bytes_at m s bs -> bytes bs -> mapped m d (length bs) ->
  ~ (s < d < s + Z.of_nat (length bs)) ->
  copy_forward (length bs) d s m = Ret tt (wlist d bs m).
Proof.
  revert m d s. induction bs as [|x bs IH]; intros m d s Hs Hb Hd Hne; [done|].
  apply bytes_at_cons in Hs as [Hx Hs]. apply Forall_cons in Hb as [Hx0 Hb]. apply mapped_S in Hd as [Hd0 Hd].
  simpl. simpl in Hne. rewrite (bind_ret_run _ _ _ _ _ (rd_run _ _ _ Hx)), (bind_ret_run _ _ _ _ _ (wr_run _ _ _ Hd0)).
  rewrite u8_id by done. apply IH; [apply bytes_at_insert; [done|lia]|done|by apply mapped_insert|lia].
Qed.

Lemma copy_backward_run m d s bs :
  bytes_at m s bs -> bytes bs -> mapped m d (length bs) -> s < d ->
  copy_backward (length bs) (d + Z.of_nat (length bs)) (s + Z.of_nat (length bs)) m = Ret tt (wlist d bs m).
Proof.
  revert m. induction bs as [|x bs IH] using rev_ind; intros m Hs Hb Hd Hlt; [done|].
  apply bytes_at_app in Hs as [Hs Hx]. apply bytes_at_cons in Hx as [Hx _].
  apply Forall_app in Hb as [Hb Hx0]. apply Forall_cons in Hx0 as [Hx0 _].
  rewrite length_app in *. simpl length in *. rewrite Nat.add_1_r in *. cbn [copy_backward].
  replace (d + Z.of_nat (S (length bs)) - 1) with (d + Z.of_nat (length bs)) by lia.
  replace (s + Z.of_nat (S (length bs)) - 1) with (s + Z.of_nat (length bs)) by lia.
  rewrite (bind_ret_run _ _ _ _ _ (rd_run _ _ _ Hx)).
  rewrite (bind_ret_run _ _ _ _ _ (wr_run _ _ _ (Hd (d + Z.of_nat (length bs)) ltac:(lia)))), u8_id by done.
  rewrite IH; [by rewrite wlist_snoc|apply bytes_at_insert; [done|lia]|done| |done].
  apply mapped_insert. eapply mapped_le; [done|lia].
Qed.

Lemma memmove_run m dst src bs :
  bytes_at m src bs -> bytes bs -> mapped m dst (length bs) ->
  memmove dst src (Z.of_nat (length bs)) m = Ret dst (wlist dst bs m).
Proof.
  intros Hs Hb Hd. unfold memmove. rewrite bind_run, Nat2Z.id.
  destruct (Z.ltb_spec src dst), (Z.ltb_spec dst (src + Z.of_nat (length bs))); simpl;
    (rewrite copy_backward_run by done || lia) || (rewrite copy_forward_run by (done || lia)); done.
Qed.

Lemma cstr_nil m a : cstr m a [] -> m !! a = Some 0.
Proof. intros [H _]. apply bytes_at_cons in H. tauto. Qed.

Lemma cstr_cons m a x s : cstr m a (x :: s) -> m !! a = Some x /\ 1 <= x < 256 /\ cstr m (a + 1) s.
Proof.
  intros [H Hs]. apply Forall_cons in Hs as [Hx Hs]. simpl in H. apply bytes_at_cons in H as [H0 H].
  split; [done|]. split; [done|]. by split.
Qed.

(** Comparing the first [n] bytes of two strings. *)
Fixpoint str_cmp (n : nat) (s t : list Z) : Z :=
  match n, s, t with
  | O, _, _ => 0
  | S n, [], [] => 0
  | S n, [], y :: _ => - y
  | S n, x :: _, [] => x
  | S n, x :: s, y :: t => if x =? y then str_cmp n s t else x - y
  end.

Fixpoint lex_lt (s t : list Z) : bool :=
  match s, t with
  | _, [] => false
  | [], _ :: _ => true
  | x :: s, y :: t => (x <? y) || ((x =? y) && lex_lt s t)
  end.

Lemma strncmp_loop_run m p q n s t :
  cstr m p s -> cstr m q t -> strncmp_loop n p q m = Ret (str_cmp n s t) m.
Proof.
  revert p q s t. induction n as [|n IH]; intros p q s t Hs Ht; [done|].
  destruct s as [|x s], t as [|y t];
    (apply cstr_nil in Hs || apply cstr_cons in Hs as (Hx & Hx1 & Hs));
    (apply cstr_nil in Ht || apply cstr_cons in Ht as (Hy & Hy1 & Ht)); simpl;
    (rewrite (bind_ret_run _ _ _ _ _ (rd_run _ _ _ Hs)) || rewrite (bind_ret_run _ _ _ _ _ (rd_run _ _ _ Hx)));
    try (destruct (Z.eqb_spec x 0); [lia|]); simpl;
    (rewrite (bind_ret_run _ _ _ _ _ (rd_run _ _ _ Ht)) || rewrite (bind_ret_run _ _ _ _ _ (rd_run _ _ _ Hy)));
    [done|done| |].
  - destruct (Z.eqb_spec x 0); [lia|]. by rewrite Z.sub_0_r.
  - destruct (Z.eqb_spec x y); [by apply IH|done].
Qed.

Lemma str_cmp_spec n s t :
  Forall (fun x => 1 <= x < 256) s -> Forall (fun x => 1 <= x < 256) t ->
  (str_cmp n s t = 0 <-> take n s = take n t) /\ (str_cmp n s t < 0 <-> lex_lt (take n s) (take n t) = true).
Proof.
  revert s t. induction n as [|n IH]; intros s t Hs Ht; [done|].
  destruct s as [|x s], t as [|y t]; simpl; [done| | |].
  - apply Forall_cons in Ht as [Hy _]. split; split; intros; try done; lia.
  - apply Forall_cons in Hs as [Hx _]. split; split; intros; try done; lia.
  - apply Forall_cons in Hs as [Hx Hs]. apply Forall_cons in Ht as [Hy Ht]. specialize (IH s t Hs Ht).
    destruct (Z.eqb_spec x y) as [->|Hne].
    + rewrite Z.ltb_irrefl. simpl. destruct IH as [IH1 IH2]. split; [|done]. rewrite IH1.
      split; [by intros ->|congruence].
    + destruct (Z.ltb_spec x y); simpl; (split; split; intros; try done; try lia; congruence).
Qed.

Lemma cstr_insert m a s b y : cstr m a s -> ~ (a <= b <= a + Z.of_nat (length s)) -> cstr (<[b := y]> m) a s.
Proof.
  intros [H Hs] Hb. split; [|done]. apply bytes_at_insert; [done|]. rewrite length_app; simpl; lia.
Qed.

(** [strncpy]: the first [n] bytes of the string, padded with zeros. *)
Lemma strncpy_loop_run m n a b s :
  cstr m b s -> mapped m a n -> (a + Z.of_nat n <= b \/ b + Z.of_nat (length s) < a) ->
  strncpy_loop n a b m = Ret tt (wlist a (take n s ++ replicate (n - length s) 0) m).
Proof.
  revert m a b s. induction n as [|n IH]; intros m a b s Hs Hm Hd; [done|].
  apply mapped_S in Hm as [Ha Hm]. destruct s as [|x s]; simpl.
  - apply cstr_nil in Hs. rewrite (bind_ret_run _ _ _ _ _ (rd_run _ _ _ Hs)), (bind_ret_run _ _ _ _ _ (wr_run _ _ _ Ha)).
    simpl. change (u8 0) with 0. rewrite stosb_run by auto with xv6. done.
  - apply cstr_cons in Hs as (Hx & Hx1 & Hs). simpl in Hd.
    rewrite (bind_ret_run _ _ _ _ _ (rd_run _ _ _ Hx)), (bind_ret_run _ _ _ _ _ (wr_run _ _ _ Ha)).
    destruct (Z.eqb_spec x 0); [lia|]. rewrite u8_id by lia.
    apply IH; [apply cstr_insert; [done|lia]|by apply mapped_insert|lia].
Qed.

(** [safestrcpy]: as much of the string as fits before a terminating 0.  When
    the whole string fits with a byte to spare, the byte after the 0 is also
    cleared. *)
Definition safestr (n : nat) (s : list Z) : list Z :=
  if (length s <? n)%nat then s ++ [0; 0] else take n s ++ [0].

Lemma safestrcpy_loop_run m n a b s :
  cstr m b s -> mapped m a (S n) -> (a + Z.of_nat n < b \/ b + Z.of_nat (length s) < a) ->
  safestrcpy_loop n a b m = Ret tt (wlist a (safestr n s) m).
Proof.
  revert m a b s. induction n as [|n IH]; intros m a b s Hs Hm Hd; apply mapped_S in Hm as [Ha Hm].
  { simpl. by rewrite wr_run. }
  destruct s as [|x s]; cbn [safestrcpy_loop].
  - apply cstr_nil in Hs. rewrite (bind_ret_run _ _ _ _ _ (rd_run _ _ _ Hs)), (bind_ret_run _ _ _ _ _ (wr_run _ _ _ Ha)).
    simpl. rewrite wr_run; [done|]. apply (mapped_insert m (a + 1) 1); [|lia]. eapply mapped_le; [done|lia].
  - apply cstr_cons in Hs as (Hx & Hx1 & Hs). simpl in Hd.
    rewrite (bind_ret_run _ _ _ _ _ (rd_run _ _ _ Hx)), (bind_ret_run _ _ _ _ _ (wr_run _ _ _ Ha)).
    destruct (Z.eqb_spec x 0); [lia|]. rewrite u8_id by lia.
    rewrite (IH _ (a + 1) (b + 1) s); [|apply cstr_insert; [done|lia]|by apply mapped_insert|lia].
    unfold safestr. simpl length. change (S (length s) <? S n)%nat with (length s <? n)%nat.
    by destruct (length s <? n)%nat.
Qed.

Lemma mapped_size m a n : mapped m a n -> (n <= size m)%nat.
Proof.
  intros Hm. rewrite <- (size_dom (D := gset Z)).
  transitivity (size (list_to_set ((fun i => a + Z.of_nat i) <$> seq 0 n) : gset Z)).
  - rewrite size_list_to_set; [by rewrite length_fmap, length_seq|].
    apply NoDup_fmap_2; [intros i j; lia|]. apply NoDup_seq.
  - apply subseteq_size. intros x Hx. apply elem_of_list_to_set, list_elem_of_fmap in Hx as (i & -> & Hi).
    apply elem_of_dom, Hm. apply elem_of_seq in Hi. lia.
Qed.

Lemma cstr_mapped m a s : cstr m a s -> mapped m a (S (length s)).
Proof.
  intros [H _] b Hb. destruct (lookup_lt_is_Some_2 (s ++ [0]) (Z.to_nat (b - a))) as [x Hx].
  { rewrite length_app. simpl. lia. }
  exists x. rewrite <- (H _ _ Hx). f_equal. lia.
Qed.

Lemma strlen_loop_run m a s fuel n :
  cstr m (a + n) s -> (length s < fuel)%nat -> strlen_loop fuel a n m = Ret (n + Z.of_nat (length s)) m.
Proof.
  revert n s. induction fuel as [|fuel IH]; intros n s Hs Hf; [lia|]. destruct s as [|x s]; simpl.
  - apply cstr_nil in Hs. rewrite (bind_ret_run _ _ _ _ _ (rd_run _ _ _ Hs)). simpl. by rewrite Z.add_0_r.
  - apply cstr_cons in Hs as (Hx & Hx1 & Hs). rewrite (bind_ret_run _ _ _ _ _ (rd_run _ _ _ Hx)).
    destruct (Z.eqb_spec x 0); [lia|]. simpl in Hf. rewrite (IH (n + 1) s); [f_equal; lia| |lia].
    by replace (a + (n + 1)) with (a + n + 1) by lia.
Qed.

(** [safestrcpy] between two arrays that are fields of different objects: the
    destination array after copying the string held by the source array. *)
Fixpoint until_nul (bs : list Z) : list Z :=
  match bs with [] => [] | b :: bs => if b =? 0 then [] else b :: until_nul bs end.
Definition safestrcpy_array (dst src : list Z) (n : nat) : list Z :=
  let r := safestr (n - 1) (until_nul src) in r ++ drop (length r) dst.

Lemma cstr_safestr m a n s :
  Forall (fun x => 1 <= x < 256) s -> bytes_at m a (safestr n s) -> cstr m a (take n s).
Proof.
  intros Hs H. unfold safestr in H. destruct (Nat.ltb_spec (length s) n).
  - rewrite take_ge by lia. split; [|done]. change [0; 0] with ([0] ++ [0]) in H. rewrite app_assoc in H.
    apply bytes_at_app in H. tauto.
  - split; [done|]. by apply Forall_take.
Qed.

Lemma safestr_length n s : (length (safestr n s) <= S n)%nat.
Proof.
  unfold safestr. destruct (Nat.ltb_spec (length s) n); rewrite length_app; simpl; [lia|]. rewrite length_take. lia.
Qed.

(** ** Properties *)

(** [memmove] copies correctly even when source and destination overlap in
    either direction: afterwards the [n] bytes at [dst] are what the [n] bytes
    at [src] were before, and no other byte has changed.  [memset] fills its
    range with the low byte of [c], with word stores or byte stores alike. *)
Theorem memmove_memset_spec m dst src c bs :
  bytes_at m src bs -> bytes bs -> mapped m dst (length bs) ->
  (exists m', memmove dst src (Z.of_nat (length bs)) m = Ret dst m' /\ bytes_at m' dst bs /\
     forall b, ~ (dst <= b < dst + Z.of_nat (length bs)) -> m' !! b = m !! b) /\
  (exists m', memset dst c (Z.of_nat (length bs)) m = Ret dst m' /\
     bytes_at m' dst (replicate (length bs) (c mod 256)) /\
     forall b, ~ (dst <= b < dst + Z.of_nat (length bs)) -> m' !! b = m !! b).
Proof.
  intros Hs Hb Hd. split.
  - eexists. split; [by apply memmove_run|]. split; [apply wlist_bytes_at|]. intros b Hb'. by apply lookup_wlist_out.
  - eexists. split; [apply memset_run; [lia|by rewrite Nat2Z.id]|]. rewrite Nat2Z.id.
    split; [apply wlist_bytes_at|]. intros b Hb'. apply lookup_wlist_out. by rewrite length_replicate.
Qed.

(** [safestrcpy] into a buffer of [n > 0] bytes always leaves a terminated
    string: the longest prefix of the source that fits.  It writes nothing
    outside the buffer, [strlen] then returns the length of that prefix, and
    [strncmp] finds the two strings equal up to [n-1] bytes. *)
Theorem safestrcpy_spec m a b n s :
  cstr m b s -> 0 < n -> mapped m a (Z.to_nat n) -> (a + n <= b \/ b + Z.of_nat (length s) < a) ->
  let copy := take (Z.to_nat (n - 1)) s in
  exists m', safestrcpy a b n m = Ret a m' /\ cstr m' a copy /\
    (forall c, ~ (a <= c < a + n) -> m' !! c = m !! c) /\
    strlen a m' = Ret (Z.of_nat (length copy)) m' /\ strncmp a b (n - 1) m' = Ret 0 m'.
Proof.
  intros Hs Hn Hm Hd copy. set (k := Z.to_nat (n - 1)) in *. pose proof Hs as [Hb Hnz].
  assert (Hrun : safestrcpy a b n m = Ret a (wlist a (safestr k s) m)).
  { unfold safestrcpy. destruct (Z.leb_spec n 0); [lia|]. fold k. rewrite bind_run.
    rewrite (safestrcpy_loop_run m k a b s Hs); [done|eapply mapped_le; [done|lia]|lia]. }
  pose proof (safestr_length k s) as Hlen.
  assert (Hout : forall c, ~ (a <= c < a + n) -> wlist a (safestr k s) m !! c = m !! c)
    by (intros c Hc; apply lookup_wlist_out; lia).
  assert (Hc : cstr (wlist a (safestr k s) m) a copy) by (apply cstr_safestr; [done|apply wlist_bytes_at]).
  assert (Hs' : cstr (wlist a (safestr k s) m) b s).
  { split; [|done]. intros i x Hx. pose proof (lookup_lt_Some _ _ _ Hx) as Hi. rewrite length_app in Hi; simpl in Hi.
    rewrite Hout by lia. by apply Hb. }
  eexists. split; [exact Hrun|]. split; [done|]. split; [done|]. split.
  - unfold strlen. mexec. rewrite (strlen_loop_run _ a copy); [done|by rewrite Z.add_0_r|].
    apply cstr_mapped, mapped_size in Hc. lia.
  - unfold strncmp. rewrite (strncmp_loop_run _ a b _ copy s Hc Hs'). f_equal. fold k.
    apply (str_cmp_spec k copy s); [by apply Forall_take|done|]. unfold copy. by rewrite take_take, Nat.min_id.
Qed.

(** [strncmp] orders strings: on two C strings it returns 0 exactly when
    they agree on their first [n] bytes, and a negative number exactly when
    the first is smaller there in the dictionary order of unsigned bytes. *)
Theorem strncmp_spec m p q n s t :
  cstr m p s -> cstr m q t -> exists r, strncmp p q n m = Ret r m /\
    (r = 0 <-> take (Z.to_nat n) s = take (Z.to_nat n) t) /\
    (r < 0 <-> lex_lt (take (Z.to_nat n) s) (take (Z.to_nat n) t) = true).
Proof.
  intros Hs Ht. eexists. split; [by apply strncmp_loop_run|]. apply str_cmp_spec; [apply Hs|apply Ht].
Qed.

(** Witnesses, on a memory that holds the bytes of two strings. *)
Definition bmem_of (a : Z) (bs : list Z) : bmem := list_to_map (imap (fun i x => (a + Z.of_nat i, x)) bs).
Definition hello : bmem := bmem_of 100 [104; 101; 108; 108; 111; 0; 104; 101; 121; 0].

Lemma bytes_at_check m a bs :
  forallb (fun p => bool_decide (m !! (a + Z.of_nat p.1) = Some p.2)) (zip (seq 0 (length bs)) bs) = true ->
  bytes_at m a bs.
Proof.
  intros H i x Hx. rewrite forallb_forall in H. specialize (H (i, x)). apply bool_decide_eq_true in H; [done|].
  apply list_elem_of_In, list_elem_of_lookup. exists i. rewrite lookup_zip_with, Hx, lookup_seq_lt; [done|].
  by eapply lookup_lt_Some.
Qed.

Lemma mapped_check m a n :
  forallb (fun i => bool_decide (is_Some (m !! (a + Z.of_nat i)))) (seq 0 n) = true -> mapped m a n.
Proof.
  intros H b Hb. rewrite forallb_forall in H. specialize (H (Z.to_nat (b - a))). rewrite in_seq in H.
  apply bool_decide_eq_true in H; [|lia]. by replace (a + Z.of_nat (Z.to_nat (b - a))) with b in H by lia.
Qed.

Lemma memmove_memset_spec_witness :
  exists m', memmove 101 100 5 hello = Ret 101 m' /\ bytes_at m' 101 [104; 101; 108; 108; 111].
Proof.
  destruct (memmove_memset_spec hello 101 100 0 [104; 101; 108; 108; 111]) as [(m' & H & Hb & _) _].
  - apply bytes_at_check. vm_compute. reflexivity.
  - repeat constructor; lia.
  - apply mapped_check. vm_compute. reflexivity.
  - exists m'. split; [exact H|exact Hb].
Defined.

Lemma hello_cstr : cstr hello 100 [104; 101; 108; 108; 111] /\ cstr hello 106 [104; 101; 121].
Proof. split; (split; [apply bytes_at_check; vm_compute; reflexivity|repeat constructor; lia]). Qed.

Lemma safestrcpy_spec_witness :
  exists m', safestrcpy 100 106 3 hello = Ret 100 m' /\ cstr m' 100 [104; 101].
Proof.
  destruct (safestrcpy_spec hello 100 106 3 [104; 101; 121]) as (m' & H & Hc & _).
  - apply hello_cstr.
  - lia.
  - apply mapped_check. vm_compute. reflexivity.
  - simpl. lia.
  - exists m'. split; [exact H|exact Hc].
Defined.

Lemma strncmp_spec_witness : exists r, strncmp 100 106 3 hello = Ret r hello /\ r < 0.
Proof.
  destruct (strncmp_spec hello 100 106 3 _ _ (proj1 hello_cstr) (proj2 hello_cstr)) as (r & H & _ & Hlt).
  exists r. split; [exact H|]. apply Hlt. reflexivity.
Defined.
