(* ===== verification/Machine.v ===== *)
(** * Machine constants and macros

    The constants and the address macros of param.h, memlayout.h and mmu.h,
    the segment and gate descriptors the kernel builds with [SEG], [SEG16] and
    [SETGATE], and the two tables made of them: the GDT of [seginit] (vm.c) and
    the IDT of [tvinit] (trap.c). *)

From Stdlib Require Import ZArith Lia.
From stdpp Require Import base numbers list.
From S2P Require Import Prelude.

(** ** Constants *)

Definition NPROC : Z := 64.
Definition KSTACKSIZE : Z := 4096.
Definition NCPU : Z := 8.
Definition NOFILE : Z := 16.
Definition NFILE : Z := 100.
Definition NINODE : Z := 50.
Definition NDEV : Z := 10.
Definition ROOTDEV : Z := 1.
Definition MAXARG : Z := 32.
Definition MAXOPBLOCKS : Z := 10.
Definition LOGSIZE : Z := MAXOPBLOCKS * 3.
Definition NBUF : Z := MAXOPBLOCKS * 3.
Definition FSSIZE : Z := 1000.

Definition EXTMEM : Z := 0x100000.
Definition PHYSTOP : Z := 0xE000000.
Definition DEVSPACE : Z := 0xFE000000.
Definition KERNBASE : Z := 0x80000000.
Definition KERNLINK : Z := KERNBASE + EXTMEM.

Definition V2P (a : Z) : Z := u32 (u32 a - KERNBASE).
Definition P2V (a : Z) : Z := u32 (a + KERNBASE).

Definition FL_IF : Z := 0x200.

Definition SEG_KCODE : Z := 1.
Definition SEG_KDATA : Z := 2.
Definition SEG_UCODE : Z := 3.
Definition SEG_UDATA : Z := 4.
Definition SEG_TSS : Z := 5.
Definition NSEGS : Z := 6.
Definition DPL_USER : Z := 3.
Definition STA_X : Z := 8.
Definition STA_W : Z := 2.
Definition STA_R : Z := 2.
Definition STS_T32A : Z := 9.
Definition STS_IG32 : Z := 14.
Definition STS_TG32 : Z := 15.

(** ** Paging macros *)

Definition PGSIZE : Z := 4096.
Definition NPDENTRIES : Z := 1024.
Definition NPTENTRIES : Z := 1024.
Definition PTXSHIFT : Z := 12.
Definition PDXSHIFT : Z := 22.

Definition PDX (va : Z) : Z := Z.land (Z.shiftr (u32 va) PDXSHIFT) 0x3FF.
Definition PTX (va : Z) : Z := Z.land (Z.shiftr (u32 va) PTXSHIFT) 0x3FF.
Definition PGADDR (d t o : Z) : Z :=
  u32 (Z.lor (Z.lor (Z.shiftl d PDXSHIFT) (Z.shiftl t PTXSHIFT)) o).

(** [~(PGSIZE - 1)] on a 32-bit operand is the mask 0xFFFFF000. *)
Definition PGROUNDUP (sz : Z) : Z := Z.land (u32 (sz + PGSIZE - 1)) 0xFFFFF000.
Definition PGROUNDDOWN (a : Z) : Z := Z.land (u32 a) 0xFFFFF000.

Definition PTE_P : Z := 0x001.
Definition PTE_W : Z := 0x002.
Definition PTE_U : Z := 0x004.
Definition PTE_PS : Z := 0x080.
Definition PTE_ADDR (pte : Z) : Z := Z.land (u32 pte) 0xFFFFF000.
Definition PTE_FLAGS (pte : Z) : Z := Z.land (u32 pte) 0xFFF.

(** Masking with 0xFFFFF000 rounds a 32-bit value down to a page. *)
Lemma land_page_mask x : 0 <= x < two32 -> Z.land x 0xFFFFF000 = x / 4096 * 4096.
Proof.
  intros Hx. change 0xFFFFF000 with (Z.shiftl (Z.ones 20) 12).
  rewrite <- Z.shiftl_mul_pow2 with (n := 12) by lia.
  rewrite <- Z.shiftr_div_pow2 with (n := 12) by lia.
  apply Z.bits_inj'. intros n Hn.
  rewrite Z.land_spec, !Z.shiftl_spec by lia.
  destruct (decide (n < 12)) as [H|H].
  - rewrite !(Z.testbit_neg_r _ (n - 12)) by lia. apply andb_false_r.
  - rewrite Z.shiftr_spec by lia. replace (n - 12 + 12) with n by lia.
    destruct (decide (n < 32)) as [H'|H'].
    + rewrite Z.ones_spec_low by lia. apply andb_true_r.
    + assert (Z.testbit x n = false) as ->; [|done].
      apply Z.testbit_false; [lia|]. rewrite Z.div_small; [done|].
      split; [lia|]. apply Z.lt_le_trans with two32; [lia|].
      change two32 with (2 ^ 32). apply Z.pow_le_mono_r; lia.
Qed.

Lemma PGROUNDDOWN_eq a : 0 <= a < two32 -> PGROUNDDOWN a = a / 4096 * 4096.
Proof. intros H. unfold PGROUNDDOWN. rewrite u32_id, land_page_mask by done. done. Qed.

Lemma PGROUNDUP_eq a : 0 <= a <= two32 - 4096 -> PGROUNDUP a = (a + 4095) / 4096 * 4096.
Proof.
  unfold two32. intros H. unfold PGROUNDUP, PGSIZE.
  rewrite u32_id by (unfold two32; lia). rewrite land_page_mask by (unfold two32; lia).
  by replace (a + 4096 - 1) with (a + 4095) by lia.
Qed.

Lemma PGROUNDUP_ge a : 0 <= a <= two32 - 4096 -> a <= PGROUNDUP a < a + 4096 /\ PGROUNDUP a mod 4096 = 0.
Proof.
  intros H. rewrite PGROUNDUP_eq by done. split; [|apply Z.mod_mul; lia].
  pose proof (Z.div_mod (a + 4095) 4096). pose proof (Z.mod_pos_bound (a + 4095) 4096). lia.
Qed.

Lemma PGROUNDUP_aligned a : 0 <= a <= two32 - 4096 -> a mod 4096 = 0 -> PGROUNDUP a = a.
Proof.
  intros H Ha. rewrite PGROUNDUP_eq by done.
  apply Z.div_exact in Ha; [|lia]. rewrite Ha at 1.
  replace (4096 * (a / 4096) + 4095) with (4095 + (a / 4096) * 4096) by lia.
  rewrite Z.div_add, Z.div_small by lia. lia.
Qed.

Lemma land_ones_mod x n : 0 <= n -> Z.land x (Z.ones n) = x mod 2 ^ n.
Proof. apply Z.land_ones. Qed.

Lemma PTX_eq va : 0 <= va < two32 -> PTX va = va / 4096 mod 1024.
Proof.
  intros H. unfold PTX, PTXSHIFT. rewrite u32_id by done.
  rewrite Z.shiftr_div_pow2 by lia. change 0x3FF with (Z.ones 10). by rewrite Z.land_ones by lia.
Qed.

Lemma PDX_eq va : 0 <= va < two32 -> PDX va = va / 4194304.
Proof.
  unfold two32. intros H. unfold PDX, PDXSHIFT. rewrite u32_id by (unfold two32; lia).
  rewrite Z.shiftr_div_pow2 by lia. change 0x3FF with (Z.ones 10). rewrite Z.land_ones by lia.
  change (2 ^ 22) with 4194304. apply Z.mod_small. split; [apply Z.div_pos; lia|].
  apply Z.div_lt_upper_bound; lia.
Qed.

Lemma PTE_FLAGS_eq p : 0 <= p < two32 -> PTE_FLAGS p = p mod 4096.
Proof. intros H. unfold PTE_FLAGS. rewrite u32_id by done. change 0xFFF with (Z.ones 12). by rewrite Z.land_ones by lia. Qed.

Lemma PTE_ADDR_eq p : 0 <= p < two32 -> PTE_ADDR p = p / 4096 * 4096.
Proof. intros H. unfold PTE_ADDR. rewrite u32_id, land_page_mask by done. done. Qed.

(** A page-aligned address and flag bits below it do not overlap, so [|] is [+]. *)
Lemma lor_page_flags pa fl : pa mod 4096 = 0 -> 0 <= pa -> 0 <= fl < 4096 -> Z.lor pa fl = pa + fl.
Proof.
  intros Hpa Hp Hfl. symmetry. rewrite <- Z.lxor_lor; [apply Z.add_nocarry_lxor|].
  all: apply Z.bits_inj'; intros n Hn; rewrite Z.land_spec, Z.bits_0.
  all: apply Z.div_exact in Hpa; [|lia]; rewrite Hpa, Z.mul_comm.
  all: change 4096 with (2 ^ 12); rewrite <- Z.shiftl_mul_pow2 by lia.
  all: rewrite Z.shiftl_spec by lia.
  all: destruct (decide (n < 12)) as [H|H];
    [rewrite (Z.testbit_neg_r _ (n - 12)) by lia; done|].
  all: assert (Z.testbit fl n = false) as ->; [|apply andb_false_r].
  all: apply Z.testbit_false; [lia|]; rewrite Z.div_small; [done|].
  all: split; [lia|]; apply Z.lt_le_trans with 4096; [lia|].
  all: change 4096 with (2 ^ 12); apply Z.pow_le_mono_r; lia.
Qed.

(** ** Segment and gate descriptors *)

Record segdesc := mkseg {
  lim_15_0 : Z; base_15_0 : Z; base_23_16 : Z; sd_type : Z; sd_s : Z; sd_dpl : Z;
  sd_p : Z; lim_19_16 : Z; sd_avl : Z; sd_rsv1 : Z; sd_db : Z; sd_g : Z; base_31_24 : Z }.

(** The fields are bit fields: each value is stored modulo its width. *)
Definition SEG (type base lim dpl : Z) : segdesc :=
  mkseg (Z.land (Z.shiftr lim 12) 0xffff) (Z.land (u32 base) 0xffff)
        (Z.land (Z.shiftr (u32 base) 16) 0xff) (type mod 16) 1 (dpl mod 4) 1
        (Z.shiftr (u32 lim) 28 mod 16) 0 0 1 1 (Z.shiftr (u32 base) 24 mod 256).

Definition SEG16 (type base lim dpl : Z) : segdesc :=
  mkseg (Z.land lim 0xffff) (Z.land (u32 base) 0xffff)
        (Z.land (Z.shiftr (u32 base) 16) 0xff) (type mod 16) 1 (dpl mod 4) 1
        (Z.shiftr (u32 lim) 16 mod 16) 0 0 1 0 (Z.shiftr (u32 base) 24 mod 256).

Record gatedesc := mkgate {
  off_15_0 : Z; gd_cs : Z; gd_args : Z; gd_rsv1 : Z; gd_type : Z; gd_s : Z; gd_dpl : Z;
  gd_p : Z; off_31_16 : Z }.

Definition SETGATE (istrap : bool) (sel off d : Z) : gatedesc :=
  mkgate (Z.land (u32 off) 0xffff) (sel mod 65536) 0 0
         (if istrap then STS_TG32 else STS_IG32) 0 (d mod 4) 1 (Z.shiftr (u32 off) 16).

(** What the hardware reads back from a descriptor. *)
Definition gate_offset (g : gatedesc) : Z := off_31_16 g * 65536 + off_15_0 g.

Definition seg_base (s : segdesc) : Z :=
  base_31_24 s * 16777216 + base_23_16 s * 65536 + base_15_0 s.

Definition T_SYSCALL : Z := 64.
Definition T_IRQ0 : Z := 32.
Definition IRQ_TIMER : Z := 0.
Definition IRQ_KBD : Z := 1.
Definition IRQ_COM1 : Z := 4.
Definition IRQ_IDE : Z := 14.
Definition IRQ_SPURIOUS : Z := 31.

(** The IDT: [vectors] is the array of 256 entry points of vectors.S. *)
Definition tvinit (vectors : list Z) : list gatedesc :=
  <[Z.to_nat T_SYSCALL :=
      SETGATE true (SEG_KCODE * 8) (vectors !!! Z.to_nat T_SYSCALL) DPL_USER]>
    ((fun v => SETGATE false (SEG_KCODE * 8) v 0) <$> vectors).

(** The segments [seginit] writes into a CPU's [gdt] ([gdt] has NSEGS slots). *)
Definition seginit (gdt : list segdesc) : list segdesc :=
  <[Z.to_nat SEG_UDATA := SEG STA_W 0 0xffffffff DPL_USER]>
  (<[Z.to_nat SEG_UCODE := SEG (Z.lor STA_X STA_R) 0 0xffffffff DPL_USER]>
  (<[Z.to_nat SEG_KDATA := SEG STA_W 0 0xffffffff 0]>
  (<[Z.to_nat SEG_KCODE := SEG (Z.lor STA_X STA_R) 0 0xffffffff 0]> gdt))).

Lemma SETGATE_offset b sel off d : 0 <= off < two32 -> gate_offset (SETGATE b sel off d) = off.
Proof.
  intros H. unfold gate_offset, SETGATE; simpl. rewrite u32_id by done.
  change 0xffff with (Z.ones 16). rewrite Z.land_ones by lia.
  rewrite Z.shiftr_div_pow2 by lia. change (2 ^ 16) with 65536.
  pose proof (Z.div_mod off 65536). lia.
Qed.
