(* ===== verification/Spinlock.v ===== *)
(** * Spin locks and interrupt nesting (spinlock.c, mycpu of proc.c)

    The state of one CPU executing kernel code: the shared [cpus] array and
    lock words, and the executing CPU's own registers (its local APIC id and
    its flags register).  Locks are named by their address. *)

From Stdlib Require Import ZArith Lia.
From stdpp Require Import base numbers strings gmap list.
From S2P Require Import Prelude.
From S2P Require Import Machine.

Local Open Scope string_scope.
Local Open Scope list_scope.
Local Open Scope Z_scope.

(** [struct cpu] (the fields the lock code uses; [cproc] is [proc]). *)
Record cpu := mkcpu { apicid : Z; ncli : Z; intena : Z; cproc : option nat }.

(** [struct spinlock]; [lcpu] is the index in [cpus] of [cpu], [None] for null.
    The debugging field [pcs] is filled by [getcallerpcs] below. *)
Record spinlock := mklock { locked : Z; lname : string; lcpu : option nat }.

#[export] Instance spinlock_inhabited : Inhabited spinlock := populate (mklock 0 "" None).

Record hw := mkhw {
  cpus : list cpu;            (* the first [ncpu] entries of cpus[NCPU] *)
  lapicid : Z;                (* lapicid() of the executing CPU *)
  eflags : Z;                 (* readeflags() of the executing CPU *)
  locks : gmap Z spinlock }.  (* a lock not yet written is zero-filled *)

Definition set_cpus (f : list cpu -> list cpu) (h : hw) : hw :=
  mkhw (f (cpus h)) (lapicid h) (eflags h) (locks h).
Definition set_eflags (e : Z) (h : hw) : hw := mkhw (cpus h) (lapicid h) e (locks h).
Definition set_lock (lk : Z) (f : spinlock -> spinlock) (h : hw) : hw :=
  mkhw (cpus h) (lapicid h) (eflags h) (<[lk := f (locks h !!! lk)]> (locks h)).

Definition set_ncli (n : Z) (c : cpu) : cpu := mkcpu (apicid c) n (intena c) (cproc c).
Definition set_intena (n : Z) (c : cpu) : cpu := mkcpu (apicid c) (ncli c) n (cproc c).
Definition set_locked (v : Z) (l : spinlock) : spinlock := mklock v (lname l) (lcpu l).
Definition set_lcpu (c : option nat) (l : spinlock) : spinlock := mklock (locked l) (lname l) c.

(** ** The operations *)

Definition cli : M hw unit := modify (fun h => set_eflags (Z.land (eflags h) (Z.lnot FL_IF)) h).
Definition sti : M hw unit := modify (fun h => set_eflags (Z.lor (eflags h) FL_IF) h).
Definition readeflags : M hw Z := gets eflags.

Definition mycpu : M hw nat :=
  e ← readeflags;
  unless_panic (negb (Z.land e FL_IF =? 0)) "mycpu called with interrupts enabled";;
  h ← get;
  match find_first (fun c => apicid c =? lapicid h) (cpus h) with
  | Some i => mret i
  | None => panic "unknown apicid"
  end.

Definition upd_cpu (i : nat) (f : cpu -> cpu) : M hw unit := modify (set_cpus (alter f i)).
Definition get_cpu (i : nat) : M hw cpu := h ← get; of_option "cpus" (cpus h !! i).

Definition pushcli : M hw unit :=
  e ← readeflags;
  cli;;
  i ← mycpu;
  c ← get_cpu i;
  (if ncli c =? 0 then upd_cpu i (set_intena (Z.land e FL_IF)) else mret tt);;
  upd_cpu i (fun c => set_ncli (ncli c + 1) c).

Definition popcli : M hw unit :=
  e ← readeflags;
  unless_panic (negb (Z.land e FL_IF =? 0)) "popcli - interruptible";;
  i ← mycpu;
  upd_cpu i (fun c => set_ncli (ncli c - 1) c);;
  c ← get_cpu i;
  unless_panic (ncli c <? 0) "popcli";;
  if (ncli c =? 0) && negb (intena c =? 0) then sti else mret tt.

Definition initlock (lk : Z) (name : string) : M hw unit :=
  modify (set_lock lk (fun _ => mklock 0 name None)).

Definition holding (lk : Z) : M hw bool :=
  h ← get;
  let l := locks h !!! lk in
  if locked l =? 0 then mret false
  else i ← mycpu; mret (bool_decide (lcpu l = Some i)).

(** The atomic exchange of x86.h on the lock word: returns the old value. *)
Definition xchg_locked (lk v : Z) : M hw Z :=
  h ← get;
  modify (set_lock lk (set_locked v));;
  mret (locked (locks h !!! lk)).

(** [acquire] in the three pieces other CPUs can interleave with: the entry
    (up to the spin loop), one iteration of the spin loop, and the recording
    of the owner. *)
Definition acquire_enter (lk : Z) : M hw unit :=
  pushcli;;
  b ← holding lk;
  unless_panic b "acquire".

Definition acquire_record (lk : Z) : M hw unit :=
  i ← mycpu;
  modify (set_lock lk (set_lcpu (Some i))).

Definition acquire (lk : Z) : M hw unit :=
  acquire_enter lk;;
  old ← xchg_locked lk 1;
  if negb (old =? 0) then stall OnLock
  else acquire_record lk.

(** [release] in the two pieces around the store that frees the lock word. *)
Definition release_clear (lk : Z) : M hw unit :=
  b ← holding lk;
  unless_panic (negb b) "release";;
  modify (set_lock lk (set_lcpu None)).

Definition release_store (lk : Z) : M hw unit :=
  modify (set_lock lk (set_locked 0));;
  popcli.

Definition release (lk : Z) : M hw unit := release_clear lk;; release_store lk.

(** [getcallerpcs]: follow the saved %ebp chain in memory [ld] (a word read)
    starting at the frame of [v]; always fills the ten entries. *)
Fixpoint ebp_chain (ld : Z -> Z) (fuel : nat) (ebp : Z) : list Z :=
  match fuel with
  | O => []
  | S fuel =>
      if (ebp =? 0) || (ebp <? KERNBASE) || (ebp =? 0xffffffff) then []
      else ld (u32 (ebp + 4)) :: ebp_chain ld fuel (ld ebp)
  end.

Definition getcallerpcs (ld : Z -> Z) (v : Z) : list Z :=
  let pcs := ebp_chain ld 10 (u32 (v - 8)) in
  pcs ++ replicate (10 - length pcs) 0.

(** ** The executing CPU

    [runs_on h c]: the executing CPU is entry [c] of [cpus], its nesting depth
    is not negative, and interrupts are off inside a nested section. *)

Definition if_off (h : hw) : Prop := Z.land (eflags h) FL_IF = 0.

Definition runs_on (h : hw) (c : nat) : Prop :=
  find_first (fun x => apicid x =? lapicid h) (cpus h) = Some c /\
  exists x, cpus h !! c = Some x /\ 0 <= ncli x /\ (0 < ncli x -> if_off h).

Lemma testbit_IF n : 0 <= n -> Z.testbit FL_IF n = (9 =? n).
Proof. intros Hn. change FL_IF with (2 ^ 9). by apply Z.pow2_bits_eqb. Qed.

Lemma land_IF e : Z.land e FL_IF = if Z.testbit e 9 then FL_IF else 0.
Proof.
  apply Z.bits_inj'. intros n Hn. rewrite Z.land_spec, testbit_IF by done.
  destruct (Z.eqb_spec 9 n) as [<-|Hne].
  - destruct (Z.testbit e 9); done.
  - rewrite andb_false_r. destruct (Z.testbit e 9); [|by rewrite Z.bits_0].
    rewrite testbit_IF by done. by destruct (Z.eqb_spec 9 n).
Qed.

Lemma cli_off e : Z.land (Z.land e (Z.lnot FL_IF)) FL_IF = 0.
Proof. by rewrite <- Z.land_assoc, (Z.land_comm (Z.lnot _)), Z.land_lnot_diag, Z.land_0_r. Qed.

Lemma cli_id e : Z.land e FL_IF = 0 -> Z.land e (Z.lnot FL_IF) = e.
Proof.
  rewrite land_IF. intros H. destruct (Z.testbit e 9) eqn:E; [done|].
  apply Z.bits_inj'. intros n Hn. rewrite Z.land_spec, Z.lnot_spec, testbit_IF by done.
  destruct (Z.eqb_spec 9 n) as [<-|]; [by rewrite E|apply andb_true_r].
Qed.

Lemma cli_sti e : Z.land e FL_IF <> 0 -> Z.lor (Z.land e (Z.lnot FL_IF)) FL_IF = e.
Proof.
  rewrite land_IF. intros H. destruct (Z.testbit e 9) eqn:E; [|done].
  apply Z.bits_inj'. intros n Hn. rewrite Z.lor_spec, Z.land_spec, Z.lnot_spec, testbit_IF by done.
  destruct (Z.eqb_spec 9 n) as [<-|]; [by rewrite E|].
  by rewrite andb_true_r, orb_false_r.
Qed.

(** Changing [ncli] or [intena] does not change which CPU is executing. *)
Lemma find_cpu_alter id (l : list cpu) i (f : cpu -> cpu) :
  (forall x, apicid (f x) = apicid x) ->
  find_first (fun x => apicid x =? id) (alter f i l) = find_first (fun x => apicid x =? id) l.
Proof. intros Hf. apply find_first_alter. intros x. by rewrite Hf. Qed.

Lemma mycpu_run h c : if_off h -> runs_on h c -> mycpu h = Ret c h.
Proof.
  intros Hif [Hf _]. unfold mycpu, readeflags. mexec. rewrite Hif. cbn -[find_first]. by rewrite Hf.
Qed.

(** ** The effect of [pushcli] and [popcli] *)

Definition push_cpu (e : Z) (x : cpu) : cpu :=
  set_ncli (ncli x + 1) (if ncli x =? 0 then set_intena (Z.land e FL_IF) x else x).

Definition push_hw (c : nat) (h : hw) : hw :=
  set_cpus (alter (push_cpu (eflags h)) c) (set_eflags (Z.land (eflags h) (Z.lnot FL_IF)) h).

Lemma push_cpu_apicid e x : apicid (push_cpu e x) = apicid x.
Proof. unfold push_cpu. by destruct (ncli x =? 0). Qed.

Lemma pushcli_run h c : runs_on h c -> pushcli h = Ret tt (push_hw c h).
Proof.
  intros [Hf (x & Hx & Hn & Hi)]. unfold pushcli, readeflags, cli, get_cpu, upd_cpu. mexec.
  set (h1 := set_eflags _ h).
  rewrite (mycpu_run h1 c); [|apply cli_off|split; [exact Hf|exists x; repeat split; [done|done|intros; apply cli_off]]].
  cbn [cpus h1 set_eflags]. rewrite Hx.
  unfold push_hw. destruct (ncli x =? 0) eqn:E; unfold set_cpus, h1, set_eflags; simpl; rewrite ?alter_alter;
    (rewrite (alter_ext_Some _ (push_cpu (eflags h)) c (cpus h) x); [done|done|unfold push_cpu; by rewrite E]).
Qed.

Lemma push_hw_runs_on h c : runs_on h c -> runs_on (push_hw c h) c /\ if_off (push_hw c h).
Proof.
  intros [Hf (x & Hx & Hn & Hi)]. split; [split|apply cli_off]; simpl.
  - rewrite find_cpu_alter; [done|apply push_cpu_apicid].
  - exists (push_cpu (eflags h) x). rewrite list_lookup_alter_eq, Hx. repeat split.
    + unfold push_cpu; simpl. lia.
    + intros _. apply cli_off.
Qed.

(** What a balanced [pushcli]/[popcli] pair leaves behind: at depth 0 the
    saved interrupt flag is the current one, otherwise nothing changed. *)
Definition touch_cpu (e : Z) (x : cpu) : cpu := if ncli x =? 0 then set_intena (Z.land e FL_IF) x else x.

Definition touch (c : nat) (h : hw) : hw := set_cpus (alter (touch_cpu (eflags h)) c) h.

Lemma popcli_push h c : runs_on h c -> popcli (push_hw c h) = Ret tt (touch c h).
Proof.
  intros Hr. pose proof (push_hw_runs_on h c Hr) as [Hr' Hoff].
  destruct Hr as [Hf (x & Hx & Hn & Hi)].
  unfold popcli, readeflags, get_cpu, upd_cpu. mexec. rewrite Hoff. cbn [negb Z.eqb].
  rewrite (mycpu_run _ c) by done.
  cbn [cpus set_cpus push_hw set_eflags]. rewrite alter_alter, list_lookup_alter_eq, Hx. simpl.
  replace (ncli x + 1 - 1) with (ncli x) by lia.
  destruct (Z.ltb_spec (ncli x) 0); [lia|].
  assert (Halt : alter (fun c0 => set_ncli (ncli (push_cpu (eflags h) c0) - 1) (push_cpu (eflags h) c0)) c (cpus h)
                 = alter (touch_cpu (eflags h)) c (cpus h)).
  { eapply alter_ext_Some; [done|]. unfold push_cpu, touch_cpu, set_ncli, set_intena. destruct x; simpl.
    destruct (ncli0 =? 0); simpl; f_equal; lia. }
  destruct (Z.eqb_spec (ncli x) 0) as [E|E].
  - simpl.
    destruct (Z.eqb_spec (Z.land (eflags h) FL_IF) 0) as [E2|E2]; simpl.
    + unfold touch, set_cpus, push_hw; simpl. rewrite alter_alter, Halt, cli_id by done. done.
    + unfold sti; mexec; unfold touch, set_cpus, set_eflags, push_hw; simpl.
      rewrite alter_alter, Halt, cli_sti by done. done.
  - simpl. unfold touch, set_cpus, push_hw; simpl. rewrite alter_alter, Halt.
    rewrite cli_id; [done|]. apply Hi. lia.
Qed.

Lemma touch_runs_on h c : runs_on h c -> runs_on (touch c h) c.
Proof.
  intros [Hf (x & Hx & Hn & Hi)]. split; simpl.
  - rewrite find_cpu_alter; [done|]. intros y. unfold touch_cpu. by destruct (ncli y =? 0).
  - exists (touch_cpu (eflags h) x). rewrite list_lookup_alter_eq, Hx. split; [done|].
    unfold touch_cpu. destruct (ncli x =? 0) eqn:E; simpl; [|split; [done|]; exact Hi].
    split; [done|]. apply Z.eqb_eq in E. lia.
Qed.

Lemma touch_touch h c : touch c (touch c h) = touch c h.
Proof.
  unfold touch, set_cpus; simpl. rewrite alter_alter. f_equal.
  apply alter_ext_all. intros x. unfold touch_cpu. destruct (ncli x =? 0) eqn:E; simpl; by rewrite E.
Qed.

(** Inside a critical section a balanced pair leaves no trace at all. *)
Lemma touch_nested h c x : cpus h !! c = Some x -> 0 < ncli x -> touch c h = h.
Proof.
  intros Hx Hn. unfold touch, set_cpus. rewrite (alter_id_Some _ _ _ x); [by destruct h|done|].
  unfold touch_cpu. by destruct (Z.eqb_spec (ncli x) 0); [lia|].
Qed.

(** ** The effect of [acquire] and [release] *)

(** A lock that is initialised and not held. *)
Definition lock_ready (h : hw) (lk : Z) : Prop :=
  exists n, locks h !! lk = Some (mklock 0 n None).

Definition acq_hw (c : nat) (lk : Z) (h : hw) : hw :=
  set_lock lk (fun l => mklock 1 (lname l) (Some c)) (push_hw c h).

Lemma set_lock_runs_on lk f h c : runs_on h c -> runs_on (set_lock lk f h) c.
Proof. done. Qed.

Lemma lookup_total_lock h lk l : locks h !! lk = Some l -> locks h !!! lk = l.
Proof. intros H. by rewrite lookup_total_alt, H. Qed.

Lemma set_lock_lookup_total h lk f : locks (set_lock lk f h) !!! lk = f (locks h !!! lk).
Proof. simpl. by rewrite lookup_total_insert_eq. Qed.

Lemma set_lock_set_lock h lk f g : set_lock lk f (set_lock lk g h) = set_lock lk (fun l => f (g l)) h.
Proof. unfold set_lock; simpl. by rewrite lookup_total_insert_eq, insert_insert_eq. Qed.

Lemma holding_free h lk : locked (locks h !!! lk) = 0 -> holding lk h = Ret false h.
Proof. intros H. unfold holding. mexec. by rewrite H. Qed.

Lemma holding_held h c lk l :
  runs_on h c -> if_off h -> locks h !!! lk = l -> locked l <> 0 ->
  holding lk h = Ret (bool_decide (lcpu l = Some c)) h.
Proof.
  intros Hr Hoff Hl Hk. unfold holding. mexec. rewrite Hl.
  destruct (Z.eqb_spec (locked l) 0); [lia|]. by rewrite (mycpu_run h c).
Qed.

Lemma acquire_run h c lk :
  runs_on h c -> locked (locks h !!! lk) = 0 -> acquire lk h = Ret tt (acq_hw c lk h).
Proof.
  intros Hr Hfree. destruct (push_hw_runs_on h c Hr) as [Hr' Hoff].
  unfold acquire, acquire_enter, xchg_locked, acquire_record. mexec.
  rewrite (pushcli_run h c) by done. rewrite holding_free by done. simpl negb.
  change (locks (push_hw c h) !!! lk) with (locks h !!! lk). rewrite Hfree. simpl.
  rewrite (mycpu_run _ c); [|done|by apply set_lock_runs_on].
  by rewrite set_lock_set_lock.
Qed.

Lemma acq_hw_runs_on h c lk : runs_on h c -> runs_on (acq_hw c lk h) c /\ if_off (acq_hw c lk h).
Proof. intros Hr. by apply push_hw_runs_on. Qed.

(** Taking a lock twice on one CPU is caught. *)
Lemma acquire_twice h c lk : runs_on h c -> locks h !!! lk = mklock 1 (lname (locks h !!! lk)) (Some c) ->
  acquire lk h = Panic "acquire".
Proof.
  intros Hr Hl. destruct (push_hw_runs_on h c Hr) as [Hr' Hoff].
  unfold acquire, acquire_enter. mexec. rewrite (pushcli_run h c) by done.
  rewrite (holding_held _ c _ (locks h !!! lk)); [|done|done|done|rewrite Hl; done].
  rewrite Hl. simpl. by rewrite bool_decide_eq_true_2.
Qed.

Lemma release_run h c lk :
  runs_on h c -> lock_ready h lk -> release lk (acq_hw c lk h) = Ret tt (touch c h).
Proof.
  intros Hr [n Hl]. destruct (acq_hw_runs_on h c lk Hr) as [Hr' Hoff].
  unfold release, release_clear, release_store. mexec.
  rewrite (holding_held _ c _ (mklock 1 n (Some c))); [|done|done| |done].
  2:{ unfold acq_hw. rewrite set_lock_lookup_total. simpl. by rewrite (lookup_total_lock _ _ _ Hl). }
  rewrite bool_decide_eq_true_2 by done. simpl negb. cbv iota.
  unfold acq_hw. rewrite !set_lock_set_lock. simpl.
  assert (Hid : set_lock lk (fun l => set_locked 0 (set_lcpu None (mklock 1 (lname l) (Some c)))) (push_hw c h)
                = push_hw c h).
  { unfold set_lock, push_hw, set_cpus, set_eflags; simpl. f_equal.
    rewrite (lookup_total_lock _ _ _ Hl). simpl. by apply insert_id. }
  simpl in Hid. rewrite Hid. by apply popcli_push.
Qed.

(** The pair, as the kernel's critical sections use it: [acquire] gives a state
    in which the section runs and the matching [release] restores. *)
Lemma lock_ready_free h lk : lock_ready h lk -> locked (locks h !!! lk) = 0.
Proof. intros [n Hn]. by rewrite (lookup_total_lock _ _ _ Hn). Qed.

Lemma lock_ready_acq h c lk lk' : lock_ready h lk -> lk' <> lk -> lock_ready (acq_hw c lk' h) lk.
Proof. intros [n Hn] Hne. exists n. simpl. by rewrite lookup_insert_ne. Qed.

Lemma lock_ready_touch h c lk : lock_ready h lk -> lock_ready (touch c h) lk.
Proof. done. Qed.

#[export] Hint Resolve touch_runs_on lock_ready_free lock_ready_acq lock_ready_touch set_lock_runs_on : xv6.

Lemma acq_hw_depth h c lk : runs_on h c -> exists x, cpus (acq_hw c lk h) !! c = Some x /\ 0 < ncli x.
Proof.
  intros [Hf (x & Hx & Hn & Hi)]. exists (push_cpu (eflags h) x). simpl.
  rewrite list_lookup_alter_eq, Hx. split; [done|]. unfold push_cpu; simpl. lia.
Qed.

Lemma touch_acq h c lk : runs_on h c -> touch c (acq_hw c lk h) = acq_hw c lk h.
Proof. intros Hr. destruct (acq_hw_depth h c lk Hr) as (x & Hx & Hn). by eapply touch_nested. Qed.

(** ** Several CPUs

    One lock [lk] and any number of CPUs, each somewhere in
    [acquire(lk); ...; release(lk)].  A step runs one of the pieces above on
    one CPU against the shared memory. *)

Inductive lockpc := Idle | Spinning | Won | InCS | Leaving.

#[export] Instance lockpc_eq_dec : EqDecision lockpc.
Proof. solve_decision. Defined.

Record smp := mksmp {
  s_cpus : list cpu; s_locks : gmap Z spinlock; s_eflags : list Z; s_pc : list lockpc }.

(** The machine as CPU [c] sees it, and the memory after [c] ran. *)
Definition view (s : smp) (c : nat) : option hw :=
  x ← s_cpus s !! c; e ← s_eflags s !! c; Some (mkhw (s_cpus s) (apicid x) e (s_locks s)).

Definition commit (s : smp) (c : nat) (pc : lockpc) (h : hw) : smp :=
  mksmp (cpus h) (locks h) (<[c := eflags h]> (s_eflags s)) (<[c := pc]> (s_pc s)).

Inductive smp_step (lk : Z) (s : smp) : smp -> Prop :=
  | smp_enter c h h' : s_pc s !! c = Some Idle -> view s c = Some h ->
      acquire_enter lk h = Ret tt h' -> smp_step lk s (commit s c Spinning h')
  | smp_spin c h h' old : s_pc s !! c = Some Spinning -> view s c = Some h ->
      xchg_locked lk 1 h = Ret old h' ->
      smp_step lk s (commit s c (if old =? 0 then Won else Spinning) h')
  | smp_record c h h' : s_pc s !! c = Some Won -> view s c = Some h ->
      acquire_record lk h = Ret tt h' -> smp_step lk s (commit s c InCS h')
  | smp_clear c h h' : s_pc s !! c = Some InCS -> view s c = Some h ->
      release_clear lk h = Ret tt h' -> smp_step lk s (commit s c Leaving h')
  | smp_store c h h' : s_pc s !! c = Some Leaving -> view s c = Some h ->
      release_store lk h = Ret tt h' -> smp_step lk s (commit s c Idle h').

Inductive smp_reach (lk : Z) (s0 : smp) : smp -> Prop :=
  | smp_here : smp_reach lk s0 s0
  | smp_next s s' : smp_reach lk s0 s -> smp_step lk s s' -> smp_reach lk s0 s'.

(** The lock is initialised and free, every CPU is outside it with depth 0. *)
Definition smp_init (lk : Z) (s : smp) : Prop :=
  (exists n, s_locks s !! lk = Some (mklock 0 n None)) /\
  NoDup (apicid <$> s_cpus s) /\
  length (s_eflags s) = length (s_cpus s) /\
  s_pc s = replicate (length (s_cpus s)) Idle /\
  Forall (fun x => ncli x = 0) (s_cpus s).

Definition owns (pc : lockpc) : bool :=
  match pc with Won | InCS | Leaving => true | _ => false end.

Definition cpu_inv (pc : lockpc) (x : cpu) (e : Z) : Prop :=
  ncli x = match pc with Idle => 0 | _ => 1 end /\ (pc <> Idle -> Z.land e FL_IF = 0).

(** The lock word and owner field when CPU [o] is the owner. *)
Definition lock_of (n : string) (pcs : list lockpc) (o : option nat) : spinlock :=
  match o with
  | Some c => mklock 1 n (if decide (pcs !! c = Some InCS) then Some c else None)
  | None => mklock 0 n None
  end.

#[global] Arguments lock_of : simpl never.

Definition smp_inv (lk : Z) (s : smp) : Prop :=
  NoDup (apicid <$> s_cpus s) /\
  length (s_eflags s) = length (s_cpus s) /\ length (s_pc s) = length (s_cpus s) /\
  (forall c pc x e, s_pc s !! c = Some pc -> s_cpus s !! c = Some x -> s_eflags s !! c = Some e ->
     cpu_inv pc x e) /\
  exists n o,
    (forall c pc, s_pc s !! c = Some pc -> (owns pc = true <-> o = Some c)) /\
    (forall c, o = Some c -> (c < length (s_pc s))%nat) /\
    s_locks s !! lk = Some (lock_of n (s_pc s) o).

Lemma find_apicid (l : list cpu) c x :
  NoDup (apicid <$> l) -> l !! c = Some x -> find_first (fun y => apicid y =? apicid x) l = Some c.
Proof.
  intros Hnd Hx. apply find_first_Some. split; [exists x; split; [done|lia]|].
  intros j y Hj Hy. apply Z.eqb_neq. intros E.
  assert (j = c); [|lia]. apply (NoDup_lookup _ j c (apicid x) Hnd); rewrite list_lookup_fmap.
  - rewrite Hy. simpl. by rewrite E.
  - by rewrite Hx.
Qed.

(** In a state of the invariant every CPU sees a machine it runs on. *)
Lemma view_runs_on lk s c pc h :
  smp_inv lk s -> s_pc s !! c = Some pc -> view s c = Some h ->
  exists x, s_cpus s !! c = Some x /\ s_eflags s !! c = Some (eflags h) /\ cpus h = s_cpus s /\ locks h = s_locks s /\
    runs_on h c /\ cpu_inv pc x (eflags h).
Proof.
  intros (Hnd & _ & _ & Hc & _) Hpc. unfold view.
  destruct (s_cpus s !! c) as [x|] eqn:Hx; [|done]. destruct (s_eflags s !! c) as [e|] eqn:He; [|done].
  intros [= <-]. exists x. pose proof (Hc c pc x e Hpc Hx He) as Hci. simpl.
  do 4 (split; [done|]). split; [split|done]; simpl.
  - by apply find_apicid.
  - exists x. split; [done|]. destruct Hci as [Hn Hi]. rewrite Hn. split; [destruct pc; lia|].
    intros Hp. apply Hi. destruct pc; done.
Qed.

(** What a step of CPU [c] must establish for the invariant to survive it. *)
Lemma smp_inv_commit lk s c pc pc' x h f (n : string) o' :
  smp_inv lk s -> s_pc s !! c = Some pc -> s_cpus s !! c = Some x ->
  cpus h = alter f c (s_cpus s) -> (forall y, apicid (f y) = apicid y) ->
  cpu_inv pc' (f x) (eflags h) ->
  (forall d q, <[c := pc']> (s_pc s) !! d = Some q -> (owns q = true <-> o' = Some d)) ->
  (forall d, o' = Some d -> (d < length (s_pc s))%nat) ->
  locks h !! lk = Some (lock_of n (<[c := pc']> (s_pc s)) o') ->
  smp_inv lk (commit s c pc' h).
Proof.
  intros (Hnd & Hle & Hlp & Hc & _) Hpc Hx Hcp Hf Hci Ho Hw Hl. unfold smp_inv, commit; simpl. rewrite Hcp.
  split; [|split; [by rewrite length_alter, length_insert|split; [by rewrite length_alter, length_insert|split]]].
  - by rewrite fmap_alter_same.
  - intros d q y e Hq Hy He. destruct (decide (c = d)) as [<-|Hne].
    + rewrite list_lookup_insert_eq in Hq by (apply lookup_lt_Some in Hpc; done).
      rewrite list_lookup_alter_eq, Hx in Hy. rewrite list_lookup_insert_eq in He.
      2:{ rewrite Hle. by apply lookup_lt_Some in Hx. }
      simpl in Hy. by simplify_eq.
    + rewrite list_lookup_insert_ne in Hq by done. rewrite list_lookup_alter_ne in Hy by done.
      rewrite list_lookup_insert_ne in He by done. by eapply Hc.
  - exists n, o'. split; [done|]. split; [|done]. by rewrite length_insert.
Qed.

Lemma popcli_run h c x :
  runs_on h c -> if_off h -> cpus h !! c = Some x -> 0 < ncli x ->
  popcli h = Ret tt (set_eflags (if (ncli x =? 1) && negb (intena x =? 0) then Z.lor (eflags h) FL_IF else eflags h)
                       (set_cpus (alter (fun y => set_ncli (ncli y - 1) y) c) h)).
Proof.
  intros Hr Hoff Hx Hn. unfold popcli, readeflags, get_cpu, upd_cpu. mexec.
  rewrite Hoff. cbn [negb Z.eqb]. rewrite (mycpu_run _ c) by done. simpl.
  rewrite list_lookup_alter_eq, Hx. simpl. destruct (Z.ltb_spec (ncli x - 1) 0); [lia|].
  replace (ncli x - 1 =? 0) with (ncli x =? 1) by (zcases; done).
  destruct ((ncli x =? 1) && negb (intena x =? 0)); [done|]. by destruct h.
Qed.

Lemma acquire_enter_inv h c lk h' : runs_on h c -> acquire_enter lk h = Ret tt h' -> h' = push_hw c h.
Proof.
  intros Hr H. unfold acquire_enter in H. mexec_in H. rewrite (pushcli_run h c) in H by done.
  unfold holding in H. mexec_in H. destruct (locked _ =? 0); [by simplify_eq|].
  destruct (push_hw_runs_on h c Hr). rewrite (mycpu_run _ c) in H by done.
  destruct (bool_decide _); by simplify_eq.
Qed.

Lemma owns_insert (pcs : list lockpc) c q o :
  (forall d p, pcs !! d = Some p -> owns p = true <-> o = Some d) ->
  owns q = bool_decide (o = Some c) ->
  forall d p, <[c := q]> pcs !! d = Some p -> owns p = true <-> o = Some d.
Proof.
  intros Ho Hq d p Hp. destruct (decide (c = d)) as [<-|Hne].
  - destruct (decide (c < length pcs)%nat) as [Hlt|Hlt].
    + rewrite list_lookup_insert_eq in Hp by done. simplify_eq. rewrite Hq. apply bool_decide_eq_true.
    + rewrite list_insert_ge in Hp by lia. apply lookup_lt_Some in Hp. lia.
  - rewrite list_lookup_insert_ne in Hp by done. by apply Ho.
Qed.

Lemma lock_of_other n pcs c q o : o <> Some c -> lock_of n (<[c := q]> pcs) o = lock_of n pcs o.
Proof. destruct o as [d|]; [|done]. intros Hne. unfold lock_of. by rewrite list_lookup_insert_ne by congruence. Qed.

Lemma lock_of_owner n pcs c q pc : pcs !! c = Some pc ->
  lock_of n (<[c := q]> pcs) (Some c) = mklock 1 n (if decide (q = InCS) then Some c else None).
Proof.
  intros Hpc. unfold lock_of. rewrite list_lookup_insert_eq by (by eapply lookup_lt_Some).
  destruct (decide (q = InCS)) as [->|Hq]; [by rewrite decide_True|]. rewrite decide_False; congruence.
Qed.

Lemma alter_id_all {A} c (l : list A) : alter (fun x => x) c l = l.
Proof. destruct (l !! c) eqn:E; [by eapply alter_id_Some|]. revert c E. induction l as [|x l IH]; intros [|c] E; try done. unfold alter; simpl. f_equal. by apply IH. Qed.

Lemma not_owner pc (o : option nat) c : (owns pc = true <-> o = Some c) -> owns pc = false -> o <> Some c.
Proof. intros [_ H] Hf E. rewrite (H E) in Hf. done. Qed.

Lemma cpu_inv_keep pc pc' x e : cpu_inv pc x e -> pc <> Idle -> pc' <> Idle -> cpu_inv pc' x e.
Proof. intros [Hn Hi] Hp Hp'. split; [by destruct pc, pc'|by intros _; apply Hi]. Qed.

(** Each kind of step preserves the invariant. *)
Section steps.
Context (lk : Z) (s : smp) (c : nat) (h h' : hw) (pc : lockpc).
Context (Hinv : smp_inv lk s) (Hpc : s_pc s !! c = Some pc) (Hv : view s c = Some h).

Lemma enter_inv : pc = Idle -> acquire_enter lk h = Ret tt h' -> smp_inv lk (commit s c Spinning h').
Proof.
    intros Hp Hop. destruct (view_runs_on lk s c _ h Hinv Hpc Hv) as (x & Hx & He & Hcp & Hlk & Hr & Hn & Hoff).
    pose proof Hinv as (_ & _ & _ & _ & n & o & Ho & Hown & Hl). pose proof (Ho c _ Hpc) as Hoc.
    assert (o <> Some c) as Hne by (apply (not_owner _ _ _ Hoc); by rewrite Hp).
    apply (acquire_enter_inv h c) in Hop as ->; [|done].
    eapply smp_inv_commit with (o' := o); [done..|by simpl; rewrite Hcp|apply push_cpu_apicid| | |done|].
    - split; [|intros _; apply cli_off]. unfold push_cpu; simpl. by rewrite Hn, Hp.
    - apply owns_insert; [done|]. by rewrite bool_decide_eq_false_2.
    - rewrite lock_of_other by done. simpl. by rewrite Hlk.
Qed.

Lemma spin_inv old : pc = Spinning -> xchg_locked lk 1 h = Ret old h' ->
    smp_inv lk (commit s c (if old =? 0 then Won else Spinning) h').
Proof.
    intros Hp Hop. destruct (view_runs_on lk s c _ h Hinv Hpc Hv) as (x & Hx & He & Hcp & Hlk & Hr & Hci).
    pose proof Hinv as (_ & _ & _ & _ & n & o & Ho & Hown & Hl). pose proof (Ho c _ Hpc) as Hoc.
    assert (o <> Some c) as Hne by (apply (not_owner _ _ _ Hoc); by rewrite Hp).
    unfold xchg_locked in Hop. mexec_in Hop. injection Hop as <- <-.
    rewrite Hlk, (lookup_total_correct _ _ _ Hl).
    eapply smp_inv_commit with (f := fun y => y) (n := n) (o' := match o with Some d => Some d | None => Some c end);
      [done..|by simpl; rewrite Hcp, alter_id_all|done| | | |].
    - eapply cpu_inv_keep; [done|by rewrite Hp|by destruct o].
    - destruct o as [d|]; simpl; [apply owns_insert; [done|by rewrite bool_decide_eq_false_2]|].
      intros d q Hq. destruct (decide (c = d)) as [<-|Hcd].
      + rewrite list_lookup_insert_eq in Hq by (by eapply lookup_lt_Some). by injection Hq as <-.
      + rewrite list_lookup_insert_ne in Hq by done. split; [|congruence]. intros Hw. by apply (Ho d q Hq) in Hw.
    - destruct o as [d|]; [done|]. intros d [= <-]. by eapply lookup_lt_Some.
    - simpl. rewrite Hlk, lookup_insert_eq, (lookup_total_correct _ _ _ Hl). destruct o as [d|].
      + by rewrite lock_of_other.
      + by rewrite (lock_of_owner n _ c _ _ Hpc).
Qed.

Lemma owner_step_inv pc' f :
    owns pc = true -> owns pc' = true -> h' = set_lock lk f h ->
    (forall n, f (lock_of n (s_pc s) (Some c)) = mklock 1 n (if decide (pc' = InCS) then Some c else None)) ->
    smp_inv lk (commit s c pc' h').
Proof.
    intros Hp Hp' -> Hf. destruct (view_runs_on lk s c _ h Hinv Hpc Hv) as (x & Hx & He & Hcp & Hlk & Hr & Hci).
    pose proof Hinv as (_ & _ & _ & _ & n & o & Ho & Hown & Hl). assert (o = Some c) as -> by (by apply (Ho c pc)).
    eapply smp_inv_commit with (f := fun y => y) (n := n) (o' := Some c);
      [done..|by simpl; rewrite Hcp, alter_id_all|done| | |done|].
    - eapply cpu_inv_keep; [done|by destruct pc|by destruct pc'].
    - apply owns_insert; [done|]. by rewrite bool_decide_eq_true_2.
    - simpl. rewrite lookup_insert_eq, Hlk, (lookup_total_correct _ _ _ Hl), Hf.
      by rewrite (lock_of_owner n _ c _ _ Hpc).
Qed.

Lemma record_inv : pc = Won -> acquire_record lk h = Ret tt h' -> smp_inv lk (commit s c InCS h').
Proof.
    intros Hp Hop. destruct (view_runs_on lk s c _ h Hinv Hpc Hv) as (x & Hx & He & Hcp & Hlk & Hr & Hn & Hoff).
    unfold acquire_record in Hop. mexec_in Hop. rewrite (mycpu_run h c) in Hop; [|apply Hoff; by rewrite Hp|done].
    injection Hop as E. by apply (owner_step_inv InCS (set_lcpu (Some c))); [rewrite Hp|..].
Qed.

Lemma clear_inv : pc = InCS -> release_clear lk h = Ret tt h' -> smp_inv lk (commit s c Leaving h').
Proof.
    intros Hp Hop. unfold release_clear in Hop. mexec_in Hop.
    destruct (holding lk h) as [b h1| | |] eqn:Hh; [|done..]. destruct b; simpl in Hop; [|done].
    injection Hop as E. apply (owner_step_inv Leaving (set_lcpu None)); [by rewrite Hp|done| |done]. rewrite <- E.
    unfold holding in Hh. mexec_in Hh. destruct (locked _ =? 0); [done|].
    unfold mycpu in Hh. unfold readeflags in Hh. mexec_in Hh.
    destruct (negb _); [done|]. destruct (find_first _ _); [|done]. by injection Hh as _ <-.
Qed.

Lemma store_inv : pc = Leaving -> release_store lk h = Ret tt h' -> smp_inv lk (commit s c Idle h').
Proof.
    intros Hp Hop. destruct (view_runs_on lk s c _ h Hinv Hpc Hv) as (x & Hx & He & Hcp & Hlk & Hr & Hn & Hoff).
    pose proof Hinv as (_ & _ & _ & _ & n & o & Ho & Hown & Hl). assert (o = Some c) as -> by (by apply (Ho c pc); [|rewrite Hp]).
    unfold release_store in Hop. mexec_in Hop. subst pc.
    rewrite (popcli_run _ c x) in Hop; [|done|by apply Hoff|by simpl; rewrite Hcp|lia]. injection Hop as <-.
    eapply smp_inv_commit with (n := n) (o' := None); [done..|by simpl; rewrite Hcp|done| | |done|].
    - split; [simpl; lia|done].
    - intros d q Hq. destruct (decide (c = d)) as [<-|Hne].
      + rewrite list_lookup_insert_eq in Hq by (by eapply lookup_lt_Some). by injection Hq as <-.
      + rewrite list_lookup_insert_ne in Hq by done. rewrite (Ho d q Hq). split; [congruence|done].
    - simpl. rewrite lookup_insert_eq, Hlk, (lookup_total_correct _ _ _ Hl). unfold lock_of.
      by rewrite Hpc, decide_False.
Qed.
End steps.

(** What the invariant's lock says: the word is set exactly while some CPU owns
    the lock, the [cpu] field names the CPU in the critical section. *)
Lemma lock_of_word n pcs o :
  (forall (c : nat) pc, pcs !! c = Some pc -> (owns pc = true <-> o = Some c)) ->
  (forall c, o = Some c -> (c < length pcs)%nat) ->
  let l := lock_of n pcs o in
  (locked l = 0 \/ locked l = 1) /\
  (locked l = 1 <-> exists (c : nat) p, pcs !! c = Some p /\ owns p = true) /\
  (forall c : nat, lcpu l = Some c <-> pcs !! c = Some InCS).
Proof.
  intros Ho Hw l. subst l. unfold lock_of. destruct o as [d|]; simpl.
  - split; [by right|]. destruct (lookup_lt_is_Some_2 pcs d (Hw d eq_refl)) as [p Hp]. split.
    + split; [|done]. intros _. exists d, p. split; [done|]. by apply (Ho d p Hp).
    + intros c. destruct (decide (pcs !! d = Some InCS)) as [Hd|Hd]; split; [by intros [= <-]| |done|].
      * intros Hc. exact (proj1 (Ho c InCS Hc) eq_refl).
      * intros Hc. pose proof (proj1 (Ho c InCS Hc) eq_refl). congruence.
  - split; [by left|]. split; [split; [done|]|intros c; split; [done|]].
    + intros (c & p & Hp & H). by apply (Ho c p Hp) in H.
    + intros Hc. pose proof (proj1 (Ho c InCS Hc) eq_refl). congruence.
Qed.

Lemma smp_step_inv lk s s' : smp_inv lk s -> smp_step lk s s' -> smp_inv lk s'.
Proof.
  intros Hinv []; eauto using enter_inv, spin_inv, record_inv, clear_inv, store_inv.
Qed.

Lemma smp_init_inv lk s : smp_init lk s -> smp_inv lk s.
Proof.
  intros ([n Hl] & Hnd & Hle & Hpc & Hn). rewrite Forall_lookup in Hn.
  split; [done|]. split; [done|]. rewrite Hpc. split; [by rewrite length_replicate|]. split.
  - intros c pc x e Hq Hx _. apply lookup_replicate in Hq as [-> _]. split; [by eapply Hn|done].
  - exists n, None. split; [|done]. intros c pc Hq. by apply lookup_replicate in Hq as [-> _].
Qed.

Lemma smp_reach_inv lk s0 s : smp_init lk s0 -> smp_reach lk s0 s -> smp_inv lk s.
Proof. intros H0. induction 1; eauto using smp_init_inv, smp_step_inv. Qed.

Fixpoint iterM {S} (n : nat) (m : M S unit) : M S unit :=
  match n with O => mret tt | Datatypes.S n => m;; iterM n m end.

Lemma iterM_snoc {S} (n : nat) (m : M S unit) s : iterM (Datatypes.S n) m s = (iterM n m ≫= (fun _ => m)) s.
Proof.
  revert s. induction n as [|n IH]; intros s.
  - simpl. mexec. by destruct (m s) as [[] ?| | |].
  - change (iterM (Datatypes.S (Datatypes.S n)) m s) with ((m ≫= (fun _ => iterM (Datatypes.S n) m)) s).
    rewrite bind_run. simpl iterM. rewrite bind_assoc_run, bind_run.
    destruct (m s) as [[] s'| | |]; [|done..]. apply IH.
Qed.

Lemma nest_run h c n :
  runs_on h c -> exists h1, iterM n pushcli h = Ret tt h1 /\ runs_on h1 c /\ ((0 < n)%nat -> if_off h1) /\
    iterM n popcli h1 = Ret tt (if decide (n = 0%nat) then h else touch c h).
Proof.
  revert h. induction n as [|n IH]; intros h Hr; [exists h; do 2 (split; [done|]); split; [lia|done]|].
  destruct (push_hw_runs_on h c Hr) as [Hr' Hoff']. destruct (IH _ Hr') as (h1 & H1 & R1 & O1 & P1).
  exists h1. split; [|split; [done|split]].
  - simpl. rewrite (bind_ret_run _ _ _ _ _ (pushcli_run h c Hr)). exact H1.
  - intros _. destruct n as [|n]; [|by apply O1; lia]. simpl in H1. by injection H1 as <-.
  - rewrite decide_False by lia. rewrite iterM_snoc.
    assert (iterM n popcli h1 = Ret tt (push_hw c h)) as E.
    { rewrite P1. destruct (decide (n = 0%nat)); [done|]. f_equal. destruct Hr as [_ (x & Hx & Hn & _)].
      apply (touch_nested _ _ (push_cpu (eflags h) x)); simpl; [by rewrite list_lookup_alter_eq, Hx|lia]. }
    rewrite (bind_ret_run _ _ _ _ _ E). by apply popcli_push.
Qed.

(** ** Properties *)

(** C4. Mutual exclusion.  Whatever the interleaving of any number of CPUs
    running [acquire]/[release] on a lock, two CPUs are never both between the
    winning exchange and the releasing store, the CPU that is there runs with
    interrupts disabled, and neither its [release] nor any other CPU's
    [acquire] panics.  The lock word is 1 exactly while some CPU is there, so that
    a spinning CPU wins the free lock with its next exchange, and the [cpu] field
    names a CPU exactly while that CPU is in the critical section. *)
Theorem spinlock_mutual_exclusion lk s0 s :
  smp_init lk s0 -> smp_reach lk s0 s ->
  (forall (c1 c2 : nat) p1 p2, s_pc s !! c1 = Some p1 -> s_pc s !! c2 = Some p2 ->
     owns p1 = true -> owns p2 = true -> c1 = c2) /\
  (forall (c : nat) p e, s_pc s !! c = Some p -> owns p = true -> s_eflags s !! c = Some e -> Z.land e FL_IF = 0) /\
  (forall (c : nat) h, s_pc s !! c = Some InCS -> view s c = Some h -> exists h', release lk h = Ret tt h') /\
  (forall (c : nat) h, s_pc s !! c = Some Idle -> view s c = Some h -> exists h', acquire_enter lk h = Ret tt h') /\
  (exists l, s_locks s !! lk = Some l /\ (locked l = 0 \/ locked l = 1) /\
     (locked l = 1 <-> exists (c : nat) p, s_pc s !! c = Some p /\ owns p = true) /\
     (forall c : nat, lcpu l = Some c <-> s_pc s !! c = Some InCS)) /\
  (forall (c : nat) h, s_pc s !! c = Some Spinning -> view s c = Some h ->
     (forall (d : nat) p, s_pc s !! d = Some p -> owns p = false) ->
     exists h', xchg_locked lk 1 h = Ret 0 h').
Proof.
  intros H0 Hs. pose proof (smp_reach_inv lk s0 s H0 Hs) as Hinv.
  pose proof Hinv as (_ & Hle & Hlp & Hc & n & o & Ho & Hown & Hl). split; [|split; [|split; [|split; [|split]]]].
  - intros c1 c2 p1 p2 H1 H2 W1 W2. apply (Ho c1 p1 H1) in W1. apply (Ho c2 p2 H2) in W2. congruence.
  - intros c p e Hp Hw He. destruct (lookup_lt_is_Some_2 (s_cpus s) c) as [x Hx].
    { rewrite <- Hlp. by eapply lookup_lt_Some. }
    destruct (Hc c p x e Hp Hx He) as [_ Hi]. apply Hi. by destruct p.
  - intros c h Hp Hv. destruct (view_runs_on lk s c _ h Hinv Hp Hv) as (x & Hx & _ & Hcp & Hlk & Hr & Hn & Hoff).
    assert (o = Some c) as -> by (by apply (Ho c InCS)).
    unfold release, release_clear, release_store. mexec.
    rewrite (holding_held h c lk (lock_of n (s_pc s) (Some c)));
      [|done|by apply Hoff|by rewrite Hlk; apply lookup_total_correct|done].
    unfold lock_of; simpl. rewrite decide_True, bool_decide_eq_true_2 by done. simpl.
    eexists. apply (popcli_run _ c x); [done|by apply Hoff|by simpl; rewrite Hcp|lia].
  - intros c h Hp Hv. destruct (view_runs_on lk s c _ h Hinv Hp Hv) as (x & Hx & _ & Hcp & Hlk & Hr & Hn & Hoff).
    pose proof (not_owner _ _ _ (Ho c Idle Hp) eq_refl) as Hne. destruct (push_hw_runs_on h c Hr) as [Hr' Ho'].
    exists (push_hw c h). unfold acquire_enter. mexec. rewrite (pushcli_run h c) by done.
    destruct o as [d|].
    + rewrite (holding_held _ c lk (lock_of n (s_pc s) (Some d))); [|done|done| |done].
      2:{ simpl. rewrite Hlk. by apply lookup_total_correct. }
      rewrite bool_decide_eq_false_2; [done|]. unfold lock_of; simpl. destruct (decide _); congruence.
    + rewrite holding_free; [done|]. simpl. by rewrite Hlk, (lookup_total_correct _ _ _ Hl).
  - exists (lock_of n (s_pc s) o). split; [done|]. by apply lock_of_word.
  - intros c h Hp Hv Hno. destruct (view_runs_on lk s c _ h Hinv Hp Hv) as (x & Hx & _ & Hcp & Hlk & _).
    assert (o = None) as ->.
    { destruct o as [d|]; [|done]. destruct (lookup_lt_is_Some_2 (s_pc s) d (Hown d eq_refl)) as [q Hq].
      pose proof (proj2 (Ho d q Hq) eq_refl). specialize (Hno d q Hq). congruence. }
    unfold xchg_locked. mexec. rewrite Hlk, (lookup_total_correct _ _ _ Hl). by eexists.
Qed.

(** Interrupt nesting ("it takes two popcli to undo two pushcli"): [n]
    [pushcli]s followed by [n] [popcli]s return, and leave the flags register
    and the nesting depth of the CPU as they were; while fewer [popcli]s than
    [pushcli]s have run, interrupts are off. *)
Theorem pushcli_popcli_nest h c n :
  runs_on h c ->
  exists h1, iterM n pushcli h = Ret tt h1 /\
    runs_on h1 c /\ ((0 < n)%nat -> if_off h1) /\
    exists h2, iterM n popcli h1 = Ret tt h2 /\ eflags h2 = eflags h /\ (ncli <$> cpus h2) = (ncli <$> cpus h).
Proof.
  intros Hr. destruct (nest_run h c n Hr) as (h1 & H1 & R1 & O1 & P1).
  exists h1. do 3 (split; [done|]). eexists. split; [exact P1|]. destruct (decide (n = 0%nat)); [done|].
  split; [done|]. simpl. apply fmap_alter_same. intros x. unfold touch_cpu. by destruct (ncli x =? 0).
Qed.

(** Two CPUs, the lock free; CPU 0 wins it while CPU 1 spins. *)
Definition smp2 : smp :=
  mksmp [mkcpu 0 0 0 None; mkcpu 1 0 0 None] {[ 7 := mklock 0 "l" None ]} [FL_IF; FL_IF] [Idle; Idle].

Lemma spinlock_mutual_exclusion_witness :
  smp_init 7 smp2 /\
  exists s, smp_reach 7 smp2 s /\ s_pc s = [Won; Spinning] /\
    (forall (c : nat) p e, s_pc s !! c = Some p -> owns p = true -> s_eflags s !! c = Some e -> Z.land e FL_IF = 0) /\
    (exists l, s_locks s !! 7 = Some l /\ (locked l = 0 \/ locked l = 1) /\
      (locked l = 1 <-> exists (c : nat) p, s_pc s !! c = Some p /\ owns p = true) /\
      (forall c : nat, lcpu l = Some c <-> s_pc s !! c = Some InCS)).
Proof.
  assert (smp_init 7 smp2) as H0.
  { split; [eexists; reflexivity|]. split; [|split; [done|split; [done|repeat constructor]]].
    apply (bool_decide_unpack _). vm_compute. exact I. }
  split; [exact H0|].
  assert (exists s, smp_reach 7 smp2 s /\ s_pc s = [Won; Spinning]) as (s & Hs & Hp).
  { eexists. split.
    - eapply smp_next; [eapply smp_next; [eapply smp_next; [apply smp_here|]|]|].
      + eapply (smp_enter _ _ 0%nat); reflexivity.
      + eapply (smp_enter _ _ 1%nat); reflexivity.
      + eapply (smp_spin _ _ 0%nat); reflexivity.
    - reflexivity. }
  exists s. split; [exact Hs|]. split; [exact Hp|].
  destruct (spinlock_mutual_exclusion 7 smp2 s H0 Hs) as (_ & Hi & _ & _ & Hl & _). split; [exact Hi|exact Hl].
Defined.

Lemma pushcli_popcli_nest_witness :
  let h := mkhw [mkcpu 0 0 0 None] 0 FL_IF ∅ in
  runs_on h 0 /\ exists h1, iterM 2 pushcli h = Ret tt h1 /\ if_off h1 /\
    exists h2, iterM 2 popcli h1 = Ret tt h2 /\ eflags h2 = FL_IF.
Proof.
  intros h. assert (runs_on h 0) as Hr by (split; [reflexivity|]; eexists; split; [reflexivity|]; simpl; lia).
  split; [exact Hr|].
  destruct (pushcli_popcli_nest h 0 2 Hr) as (h1 & H1 & _ & O1 & h2 & H2 & E2 & _).
  exists h1. split; [exact H1|]. split; [apply O1; lia|]. exists h2. split; [exact H2|exact E2].
Defined.
