(* ===== verification/Kalloc.v ===== *)
(** * Physical memory and the page allocator (kalloc.c)

    Kernel memory is word addressed: [mem] maps a 4-byte aligned kernel virtual
    address to the 32-bit word stored there (memory never written holds 0).
    The free list is the one of the code: [freelist] is the address of the
    first free page, and each free page holds the address of the next one in
    its first word. *)

From Stdlib Require Import ZArith Lia.
From stdpp Require Import base numbers strings gmap list.
From S2P Require Import Prelude.
From S2P Require Import Machine.
From S2P Require Import Spinlock.

Local Open Scope string_scope.
Local Open Scope list_scope.
Local Open Scope Z_scope.

Definition ld (m : gmap Z Z) (a : Z) : Z := default 0 (m !! a).
Definition st (m : gmap Z Z) (a v : Z) : gmap Z Z := <[a := v]> m.

(** [n] words from address [a] on, all set to [v]. *)
Fixpoint fill (m : gmap Z Z) (a : Z) (n : nat) (v : Z) : gmap Z Z :=
  match n with O => m | S n => st (fill m (a + 4) n v) a v end.

(** [n] words copied from [src] to [dst]. *)
Fixpoint copy_words (m : gmap Z Z) (dst src : Z) (n : nat) : gmap Z Z :=
  match n with O => m | S n => copy_words (st m dst (ld m src)) (dst + 4) (src + 4) n end.

(** memset(v, c, PGSIZE) on a page: [c] replicated into each word. *)
Definition rep_byte (c : Z) : Z :=
  let c := Z.land c 0xFF in
  Z.lor (Z.lor (Z.lor (Z.shiftl c 24) (Z.shiftl c 16)) (Z.shiftl c 8)) c.

Definition memset_page (m : gmap Z Z) (a c : Z) : gmap Z Z := fill m a 1024 (rep_byte c).

(** The lock word of [kmem], and the machine state the allocator works on.
    [kend] and [kdata] are the linker symbols [end] (the first address after
    the kernel) and [data] (the start of its writable data). *)
Definition kmem_lock : Z := 1.

Record mach := mkmach {
  mhw : hw; mem : gmap Z Z; use_lock : Z; freelist : Z; kend : Z; kdata : Z }.

Definition set_hw (h : hw) (k : mach) : mach := mkmach h (mem k) (use_lock k) (freelist k) (kend k) (kdata k).
Definition set_mem (f : gmap Z Z -> gmap Z Z) (k : mach) : mach :=
  mkmach (mhw k) (f (mem k)) (use_lock k) (freelist k) (kend k) (kdata k).
Definition set_freelist (p : Z) (k : mach) : mach := mkmach (mhw k) (mem k) (use_lock k) p (kend k) (kdata k).
Definition set_use_lock (u : Z) (k : mach) : mach := mkmach (mhw k) (mem k) u (freelist k) (kend k) (kdata k).

Definition on_hw {A} (m : M hw A) : M mach A := zoom mhw set_hw m.

Definition kmem_acquire : M mach unit :=
  k ← get; if use_lock k =? 0 then mret tt else on_hw (acquire kmem_lock).
Definition kmem_release : M mach unit :=
  k ← get; if use_lock k =? 0 then mret tt else on_hw (release kmem_lock).

(** ** The operations *)

Definition kfree (v : Z) : M mach unit :=
  k ← get;
  unless_panic (negb (v mod PGSIZE =? 0) || (v <? kend k) || (PHYSTOP <=? V2P v)) "kfree";;
  modify (set_mem (fun m => memset_page m v 1));;
  kmem_acquire;;
  modify (fun k => set_freelist v (set_mem (fun m => st m v (freelist k)) k));;
  kmem_release.

Definition kalloc : M mach Z :=
  kmem_acquire;;
  r ← gets freelist;
  (if r =? 0 then mret tt else modify (fun k => set_freelist (ld (mem k) r) k));;
  kmem_release;;
  mret r.

Fixpoint freerange_loop (fuel : nat) (p vend : Z) : M mach unit :=
  if p + PGSIZE <=? vend then
    match fuel with
    | O => fault "freerange: fuel"
    | S fuel => kfree p;; freerange_loop fuel (p + PGSIZE) vend
    end
  else mret tt.

(** At most one iteration per page of a 32-bit address space. *)
Definition freerange (vstart vend : Z) : M mach unit :=
  freerange_loop (Z.to_nat (vend / PGSIZE)) (PGROUNDUP vstart) vend.

Definition kinit1 (vstart vend : Z) : M mach unit :=
  on_hw (initlock kmem_lock "kmem");;
  modify (set_use_lock 0);;
  freerange vstart vend.

Definition kinit2 (vstart vend : Z) : M mach unit :=
  freerange vstart vend;;
  modify (set_use_lock 1).

(** ** Memory lemmas *)

Lemma ld_st_eq m a v : ld (st m a v) a = v.
Proof. unfold ld, st. by rewrite lookup_insert_eq. Qed.

Lemma ld_st_ne m a b v : a <> b -> ld (st m a v) b = ld m b.
Proof. intros H. unfold ld, st. by rewrite lookup_insert_ne. Qed.

Lemma ld_fill_out m a n v b : b < a \/ a + 4 * Z.of_nat n <= b -> ld (fill m a n v) b = ld m b.
Proof.
  revert a. induction n as [|n IH]; intros a H; [done|]. simpl. rewrite ld_st_ne by lia.
  apply IH. lia.
Qed.

Lemma ld_fill_in m a n v i : 0 <= i < Z.of_nat n -> ld (fill m a n v) (a + 4 * i) = v.
Proof.
  revert a i. induction n as [|n IH]; intros a i H; [lia|]. simpl.
  destruct (decide (i = 0)) as [->|Hi]; [by rewrite Z.mul_0_r, Z.add_0_r, ld_st_eq|].
  rewrite ld_st_ne by lia. replace (a + 4 * i) with ((a + 4) + 4 * (i - 1)) by lia. apply IH. lia.
Qed.

Lemma ld_copy_out m dst src n b :
  b < dst \/ dst + 4 * Z.of_nat n <= b -> ld (copy_words m dst src n) b = ld m b.
Proof.
  revert m dst src. induction n as [|n IH]; intros m dst src H; [done|]. simpl.
  rewrite IH by lia. rewrite ld_st_ne by lia. done.
Qed.

Lemma ld_copy_in m dst src n i :
  0 <= i < Z.of_nat n -> src + 4 * Z.of_nat n <= dst \/ dst + 4 * Z.of_nat n <= src ->
  ld (copy_words m dst src n) (dst + 4 * i) = ld m (src + 4 * i).
Proof.
  revert m dst src i. induction n as [|n IH]; intros m dst src i Hi Hd; [lia|]. simpl.
  destruct (decide (i = 0)) as [->|Hi0].
  - rewrite ld_copy_out by lia. rewrite !Z.mul_0_r, !Z.add_0_r, ld_st_eq. done.
  - replace (dst + 4 * i) with ((dst + 4) + 4 * (i - 1)) by lia. rewrite IH by lia.
    rewrite ld_st_ne by lia. f_equal. lia.
Qed.

Lemma ld_memset_page_out m p c b : b < p \/ p + 4096 <= b -> ld (memset_page m p c) b = ld m b.
Proof. intros H. unfold memset_page. apply ld_fill_out. lia. Qed.

Lemma ld_memset_page_in m p c i : 0 <= i < 1024 -> ld (memset_page m p c) (p + 4 * i) = rep_byte c.
Proof. intros H. unfold memset_page. apply ld_fill_in. lia. Qed.

#[global] Opaque fill copy_words memset_page.

(** ** The free list *)

(** [p] is a page the allocator manages. *)
Definition valid_page (e p : Z) : Prop :=
  p mod 4096 = 0 /\ e <= p /\ V2P p < PHYSTOP /\ 0 < p < two32.

(** [freelist_rep m p l]: following the links in [m] from [p] visits [l]. *)
Fixpoint freelist_rep (m : gmap Z Z) (p : Z) (l : list Z) : Prop :=
  match l with
  | [] => p = 0
  | q :: l => p = q /\ freelist_rep m (ld m q) l
  end.

Definition free_inv (k : mach) (l : list Z) : Prop :=
  freelist_rep (mem k) (freelist k) l /\ NoDup l /\ Forall (valid_page (kend k)) l.

(** The CPU and the lock are in a state in which the allocator can run. *)
Definition kready (c : nat) (k : mach) : Prop :=
  runs_on (mhw k) c /\ (use_lock k <> 0 -> lock_ready (mhw k) kmem_lock).

(** Words outside the pages of the list may change freely. *)
Lemma freelist_rep_frame m m' p l :
  (forall q, q ∈ l -> ld m' q = ld m q) -> freelist_rep m p l -> freelist_rep m' p l.
Proof.
  revert p. induction l as [|q l IH]; intros p Hm; [done|]. intros [-> Hr]. split; [done|].
  rewrite Hm by set_solver. apply IH; [|done]. intros r Hrl. apply Hm. set_solver.
Qed.

(** What one critical section of the allocator does to the CPU. *)
Definition ktouch (c : nat) (k : mach) : mach :=
  if use_lock k =? 0 then k else set_hw (touch c (mhw k)) k.

Lemma kready_ktouch c k : kready c k -> kready c (ktouch c k).
Proof.
  intros [Hr Hl]. unfold ktouch. destruct (Z.eqb_spec (use_lock k) 0); [done|].
  split; simpl; [by apply touch_runs_on|]. intros H. by apply lock_ready_touch, Hl.
Qed.

(** The state inside the allocator's critical section, and leaving it after
    the section changed only memory and the free list. *)
Definition kin (c : nat) (k : mach) : mach :=
  if use_lock k =? 0 then k else set_hw (acq_hw c kmem_lock (mhw k)) k.

Lemma kmem_acquire_run c k : kready c k -> kmem_acquire k = Ret tt (kin c k).
Proof.
  intros [Hr Hl]. unfold kmem_acquire, kin. mexec. destruct (Z.eqb_spec (use_lock k) 0); [done|].
  unfold on_hw, zoom. by rewrite (acquire_run _ c) by eauto with xv6.
Qed.

Lemma kmem_release_run c k k' :
  kready c k -> use_lock k' = use_lock k -> mhw k' = mhw (kin c k) ->
  kmem_release k' = Ret tt (ktouch c (set_hw (mhw k) k')).
Proof.
  intros [Hr Hl] Hu Hh. unfold kmem_release, kin, ktouch in *. mexec. simpl use_lock. rewrite Hu.
  destruct (Z.eqb_spec (use_lock k) 0) as [E|E].
  - f_equal. destruct k'; simpl in *; by subst.
  - unfold on_hw, zoom. simpl in Hh. rewrite Hh, (release_run _ c) by eauto. done.
Qed.

Lemma kin_eq c k : kin c k = set_hw (mhw (kin c k)) k.
Proof. unfold kin. destruct (use_lock k =? 0); by destruct k. Qed.

Lemma freelist_kin c f k : freelist (kin c (set_mem f k)) = freelist k.
Proof. by rewrite kin_eq. Qed.

Lemma use_lock_kin c v f g k : use_lock (set_freelist v (set_mem f (kin c (set_mem g k)))) = use_lock k.
Proof. by rewrite kin_eq. Qed.

Lemma mhw_kin c v f g k : mhw (set_freelist v (set_mem f (kin c (set_mem g k)))) = mhw (kin c k).
Proof. unfold kin; simpl. by destruct (use_lock k =? 0). Qed.

Lemma set_hw_kin c v f g k :
  set_hw (mhw k) (set_freelist v (set_mem f (kin c (set_mem g k)))) = set_freelist v (set_mem (fun m => f (g m)) k).
Proof. by rewrite kin_eq. Qed.

Lemma kalloc_run c k :
  kready c k ->
  kalloc k = Ret (freelist k)
    (ktouch c (if freelist k =? 0 then k else set_freelist (ld (mem k) (freelist k)) k)).
Proof.
  intros Hk. unfold kalloc. mexec. rewrite (kmem_acquire_run c k Hk).
  assert (freelist (kin c k) = freelist k) as Hf by (unfold kin; by destruct (use_lock k =? 0)).
  assert (mem (kin c k) = mem k) as Hm by (unfold kin; by destruct (use_lock k =? 0)).
  assert (use_lock (kin c k) = use_lock k) as Hu by (unfold kin; by destruct (use_lock k =? 0)).
  rewrite Hf. destruct (freelist k =? 0) eqn:E.
  - rewrite (kmem_release_run c k) by done. do 2 f_equal. unfold kin. by destruct (use_lock k =? 0); destruct k.
  - rewrite (kmem_release_run c k) by done. do 2 f_equal. rewrite Hm. unfold kin. by destruct (use_lock k =? 0); destruct k.
Qed.

Definition kfree_ok (k : mach) (v : Z) : bool :=
  (v mod PGSIZE =? 0) && (kend k <=? v) && (V2P v <? PHYSTOP).

Lemma kfree_run c k v :
  kready c k -> kfree_ok k v = true ->
  kfree v k = Ret tt (ktouch c (set_freelist v (set_mem (fun m => st (memset_page m v 1) v (freelist k)) k))).
Proof.
  intros Hk Hv. unfold kfree. mexec. unfold kfree_ok in Hv. apply andb_true_iff in Hv as [[Hv1 Hv2]%andb_true_iff Hv3].
  rewrite Hv1. apply Z.leb_le in Hv2. apply Z.ltb_lt in Hv3.
  destruct (Z.ltb_spec v (kend k)); [lia|]. destruct (Z.leb_spec PHYSTOP (V2P v)); [lia|]. simpl negb. cbv [orb].
  rewrite (kmem_acquire_run c (set_mem _ k)) by exact Hk.
  rewrite (kmem_release_run c k); [|done|by rewrite use_lock_kin|by rewrite mhw_kin]. 
  by rewrite freelist_kin, set_hw_kin.
Qed.

Lemma ktouch_fields c k :
  mem (ktouch c k) = mem k /\ freelist (ktouch c k) = freelist k /\
  kend (ktouch c k) = kend k /\ use_lock (ktouch c k) = use_lock k.
Proof. unfold ktouch. by destruct (use_lock k =? 0). Qed.

Lemma free_inv_ktouch c k l : free_inv k l -> free_inv (ktouch c k) l.
Proof. unfold free_inv. destruct (ktouch_fields c k) as (-> & -> & -> & _). done. Qed.

(** Two distinct pages do not overlap. *)
Lemma pages_apart p q : p mod 4096 = 0 -> q mod 4096 = 0 -> p <> q -> q < p \/ p + 4096 <= q.
Proof.
  intros Hp Hq Hne. apply Z.div_exact in Hp; [|lia]. apply Z.div_exact in Hq; [|lia].
  assert (p / 4096 <> q / 4096) by congruence. lia.
Qed.

Lemma valid_page_kfree_ok k v : valid_page (kend k) v -> kfree_ok k v = true.
Proof.
  intros (H1 & H2 & H3 & H4). unfold kfree_ok, PGSIZE. rewrite !andb_true_iff, Z.eqb_eq, Z.leb_le, Z.ltb_lt. done.
Qed.

Lemma kfree_inv c k l v :
  kready c k -> free_inv k l -> valid_page (kend k) v -> v ∉ l ->
  exists k', kfree v k = Ret tt k' /\ kready c k' /\ free_inv k' (v :: l) /\ kend k' = kend k /\
    use_lock k' = use_lock k /\ (forall a, a < v \/ v + 4096 <= a -> ld (mem k') a = ld (mem k) a).
Proof.
  intros Hk (Hrep & Hnd & Hv) Hpg Hni. eexists.
  split; [by apply (kfree_run c), valid_page_kfree_ok|].
  match goal with |- kready c (ktouch c ?x) /\ _ => destruct (ktouch_fields c x) as (-> & _ & -> & ->) end.
  split; [by apply kready_ktouch|]. split; [|split; [done|split; [done|]]].
  - apply free_inv_ktouch. split; [|split; [by apply NoDup_cons|by apply Forall_cons]].
    simpl. split; [done|]. rewrite ld_st_eq. eapply freelist_rep_frame; [|done].
    intros q Hq. rewrite Forall_forall in Hv. assert (q <> v) by congruence.
    rewrite ld_st_ne by done. apply ld_memset_page_out.
    apply (pages_apart v q); [apply Hpg|by apply Hv|done].
  - intros a Ha. simpl. rewrite ld_st_ne by lia. by apply ld_memset_page_out.
Qed.

Lemma kalloc_inv c k l :
  kready c k -> free_inv k l ->
  exists k', kalloc k = Ret (hd 0 l) k' /\ kready c k' /\ free_inv k' (tail l) /\ kend k' = kend k /\
    use_lock k' = use_lock k /\ mem k' = mem k.
Proof.
  intros Hk (Hrep & Hnd & Hv). rewrite (kalloc_run c k Hk).
  assert (hd 0 l = freelist k) as -> by (destruct l; [done|]; by destruct Hrep).
  eexists. split; [done|].
  match goal with |- kready c (ktouch c ?x) /\ _ => destruct (ktouch_fields c x) as (-> & _ & -> & ->) end.
  split; [|split].
  - apply kready_ktouch. by destruct (freelist k =? 0).
  - apply free_inv_ktouch. destruct l as [|q l].
    + simpl in Hrep. rewrite Hrep. split; [done|]. split; done.
    + destruct Hrep as [Hq Hrep]. apply Forall_cons in Hv as [Hq' Hv]. apply NoDup_cons in Hnd as [_ Hnd].
      destruct (Z.eqb_spec (freelist k) 0) as [E|E]; [destruct Hq' as (_ & _ & _ & ?); lia|].
      split; [|by split]. simpl. by rewrite Hq.
  - by destruct (freelist k =? 0).
Qed.

(** The pages of a range, in the order [freerange] frees them. *)
Definition pages_from (p : Z) (n : nat) : list Z := (fun i => p + 4096 * Z.of_nat i) <$> seq 0 n.

Lemma pages_from_S p n : pages_from p (S n) = p :: pages_from (p + 4096) n.
Proof.
  unfold pages_from. change (seq 0 (S n)) with (0%nat :: seq 1 n). rewrite fmap_cons. f_equal; [lia|].
  rewrite <- fmap_S_seq, <- list_fmap_compose. apply list_fmap_ext. intros i x _. simpl. lia.
Qed.

#[global] Arguments pages_from : simpl never.

Lemma elem_of_pages_from p n q :
  q ∈ pages_from p n <-> exists i, (i < n)%nat /\ q = p + 4096 * Z.of_nat i.
Proof.
  unfold pages_from. rewrite list_elem_of_fmap. split.
  - intros (i & -> & Hi). apply elem_of_seq in Hi. exists i. split; [lia|done].
  - intros (i & Hi & ->). exists i. split; [done|]. apply elem_of_seq. lia.
Qed.

Lemma freerange_loop_inv c n fuel p vend k l :
  kready c k -> free_inv k l ->
  (n <= fuel)%nat -> p + 4096 * Z.of_nat n <= vend < p + 4096 * (Z.of_nat n + 1) ->
  Forall (fun q => valid_page (kend k) q /\ q ∉ l) (pages_from p n) ->
  exists k', freerange_loop fuel p vend k = Ret tt k' /\ kready c k' /\
    free_inv k' (rev (pages_from p n) ++ l) /\ kend k' = kend k /\ use_lock k' = use_lock k.
Proof.
  revert fuel p k l. induction n as [|n IH]; intros fuel p k l Hk Hinv Hf Hp Hall.
  { exists k. split; [|done]. destruct fuel; simpl; unfold PGSIZE; destruct (Z.leb_spec (p + 4096) vend); done || lia. }
  destruct fuel as [|fuel]; [lia|]. rewrite pages_from_S in Hall |- *. cbn [freerange_loop].
  unfold PGSIZE. destruct (Z.leb_spec (p + 4096) vend); [|lia]. apply Forall_cons in Hall as [[Hpv Hpl] Hall].
  destruct (kfree_inv c k l p Hk Hinv Hpv Hpl) as (k1 & H1 & R1 & I1 & E1 & U1 & _).
  rewrite (bind_ret_run _ _ _ _ _ H1).
  destruct (IH fuel (p + 4096) k1 (p :: l)) as (k2 & H2 & R2 & I2 & E2 & U2); [done|done|lia|lia| |].
  - rewrite E1. eapply Forall_impl; [apply Forall_and; split; [exact Hall|]|].
    + apply Forall_forall. intros q Hq. exact Hq.
    + intros q [[Hqv Hql] Hq]. split; [done|]. apply elem_of_pages_from in Hq as (i & Hi & ->).
      intros [Heq|?]%elem_of_cons; [lia|done].
  - exists k2. split; [done|]. split; [done|]. split; [|by rewrite E2, U2].
    simpl. by rewrite <- app_assoc.
Qed.

(** ** Properties *)

(** Freeing a page.  Freeing a page the allocator manages and that is not
    already free returns, puts exactly that page at the front of the free list
    (which stays duplicate free and made of valid pages), and changes no word
    of memory outside that page; freeing anything else panics. *)
Theorem kfree_spec c k l v :
  kready c k -> free_inv k l ->
  (valid_page (kend k) v -> v ∉ l ->
   exists k', kfree v k = Ret tt k' /\ kready c k' /\ free_inv k' (v :: l) /\
     (forall a, a < v \/ v + 4096 <= a -> ld (mem k') a = ld (mem k) a)) /\
  (v mod 4096 <> 0 \/ v < kend k \/ PHYSTOP <= V2P v -> kfree v k = Panic "kfree").
Proof.
  intros Hk Hinv. split.
  - intros Hv Hni. destruct (kfree_inv c k l v Hk Hinv Hv Hni) as (k' & H1 & H2 & H3 & _ & _ & H4). eauto 10.
  - intros Hbad. unfold kfree, PGSIZE. mexec.
    destruct (Z.eqb_spec (v mod 4096) 0), (Z.ltb_spec v (kend k)), (Z.leb_spec PHYSTOP (V2P v)); done || lia.
Qed.

(** Allocating a page.  [kalloc] returns the first free page and removes it
    from the list, or returns 0 when there is none; it never hands out a page
    twice (the page is not among the remaining ones) and writes no memory. *)
Theorem kalloc_spec c k l :
  kready c k -> free_inv k l ->
  exists k', kalloc k = Ret (hd 0 l) k' /\ kready c k' /\ free_inv k' (tail l) /\ mem k' = mem k /\
    (hd 0 l = 0 <-> l = []) /\ hd 0 l ∉ tail l.
Proof.
  intros Hk Hinv. destruct (kalloc_inv c k l Hk Hinv) as (k' & H1 & H2 & H3 & _ & _ & H4).
  exists k'. do 4 (split; [done|]). destruct Hinv as (_ & Hnd & Hv). destruct l as [|p l]; simpl.
  - split; [done|]. apply not_elem_of_nil.
  - apply Forall_cons in Hv as [(_ & _ & _ & Hp) _]. apply NoDup_cons in Hnd as [Hni _].
    split; [|done]. split; [lia|done].
Qed.

(** [freerange] terminates and adds to the free list exactly the whole
    pages between its bounds, each once. *)
Theorem freerange_spec c k l vstart vend :
  kready c k -> free_inv k l ->
  kend k <= vstart -> KERNBASE < vstart -> vstart <= vend <= KERNBASE + PHYSTOP -> PGROUNDUP vstart <= vend ->
  (forall q, q ∈ l -> q + 4096 <= vstart \/ vend <= q) ->
  let p := PGROUNDUP vstart in
  let n := Z.to_nat ((vend - p) / 4096) in
  exists k', freerange vstart vend k = Ret tt k' /\ kready c k' /\ free_inv k' (rev (pages_from p n) ++ l) /\
    (forall q, q ∈ pages_from p n <-> q mod 4096 = 0 /\ vstart <= q /\ q + 4096 <= vend).
Proof.
  intros Hk Hinv He Hs Hend Hle Hl p n. unfold KERNBASE, PHYSTOP in Hs, Hend.
  destruct (PGROUNDUP_ge vstart) as [Hp Hpm]; [unfold two32; lia|]. fold p in Hp, Hpm, Hle.
  pose proof (Z.div_mod (vend - p) 4096). pose proof (Z.mod_pos_bound (vend - p) 4096).
  pose proof (Z.div_pos (vend - p) 4096).
  assert (Hpages : forall q, q ∈ pages_from p n <-> q mod 4096 = 0 /\ vstart <= q /\ q + 4096 <= vend).
  { intros q. rewrite elem_of_pages_from. apply Z.div_exact in Hpm; [|lia]. split.
    - intros (i & Hi & ->). split; [|lia]. rewrite Hpm.
      replace (4096 * (p / 4096) + 4096 * Z.of_nat i) with ((p / 4096 + Z.of_nat i) * 4096) by lia. apply Z.mod_mul. lia.
    - intros (Hq & Hq1 & Hq2). apply Z.div_exact in Hq; [|lia]. exists (Z.to_nat (q / 4096 - p / 4096)). lia. }
  destruct (freerange_loop_inv c n (Z.to_nat (vend / PGSIZE)) p vend k l) as (k' & H1' & H2 & H3 & _);
    [done|done| |lia| |by exists k'].
  - unfold n, PGSIZE. apply Z2Nat.inj_le; [apply Z.div_pos; lia..|]. apply Z.div_le_mono; lia.
  - apply Forall_forall. intros q Hq. apply Hpages in Hq as (Hq0 & Hq1 & Hq2).
    split; [|intros Hql; apply Hl in Hql; lia].
    split; [done|]. split; [lia|]. unfold V2P, KERNBASE, PHYSTOP. rewrite (u32_id q), u32_id; unfold two32; lia.
Qed.

(** A boot-time machine: one CPU, nothing freed yet, [end] at 0x80100000. *)
Definition mach0 : mach :=
  mkmach (mkhw [mkcpu 0 0 0 None] 0 0 {[ kmem_lock := mklock 0 "kmem" None ]}) ∅ 1 0 0x80100000 0x80100000.

Lemma mach0_ready : kready 0 mach0.
Proof.
  split; [split; [reflexivity|]; eexists; split; [reflexivity|]; simpl; lia|].
  intros _. eexists. reflexivity.
Qed.

Lemma mach0_free : free_inv mach0 [].
Proof. split; [done|]. split; constructor. Qed.

Lemma valid_page_0x80100000 : valid_page 0x80100000 0x80100000.
Proof. split; [reflexivity|]. vm_compute. intuition congruence. Qed.

Lemma kfree_spec_witness :
  exists k', kfree 0x80100000 mach0 = Ret tt k' /\ free_inv k' [0x80100000] /\
    kfree 0x80100001 mach0 = Panic "kfree".
Proof.
  destruct (kfree_spec 0 mach0 [] 0x80100000 mach0_ready mach0_free) as [H _].
  destruct (H valid_page_0x80100000 ltac:(set_solver)) as (k' & H1 & _ & H2 & _).
  exists k'. split; [exact H1|]. split; [exact H2|].
  apply (proj2 (kfree_spec 0 mach0 [] 0x80100001 mach0_ready mach0_free)). left. vm_compute. discriminate.
Defined.

Lemma kalloc_spec_witness :
  exists k', kalloc mach0 = Ret 0 k' /\ free_inv k' [].
Proof.
  destruct (kalloc_spec 0 mach0 [] mach0_ready mach0_free) as (k' & H1 & _ & H2 & _).
  exists k'. split; [exact H1|exact H2].
Defined.

Lemma freerange_spec_witness :
  exists k', freerange 0x80100001 0x80104000 mach0 = Ret tt k' /\
    free_inv k' [0x80103000; 0x80102000; 0x80101000].
Proof.
  destruct (freerange_spec 0 mach0 [] 0x80100001 0x80104000 mach0_ready mach0_free) as (k' & H1 & _ & H2 & _);
    [vm_compute; intuition congruence..|intros q Hq; set_solver|].
  exists k'. split; [exact H1|exact H2].
Defined.
