(* ===== verification/Vm.v ===== *)
(** * Page tables (vm.c)

    Page directories and page tables live in kernel memory as the code has
    them: arrays of 1024 words, reached through the direct map ([P2V]). *)

From Stdlib Require Import ZArith Lia.
From stdpp Require Import base numbers strings gmap list.
From S2P Require Import Prelude.
From S2P Require Import Machine.
From S2P Require Import Spinlock.
From S2P Require Import Kalloc.

Local Open Scope string_scope.
Local Open Scope list_scope.
Local Open Scope Z_scope.

Definition load (a : Z) : M mach Z := gets (fun k => ld (mem k) a).
Definition store (a v : Z) : M mach unit := modify (set_mem (fun m => st m a v)).
Definition memset0_page (a : Z) : M mach unit := modify (set_mem (fun m => memset_page m a 0)).

(** Bytes inside words, little endian. *)
Definition ld8 (m : gmap Z Z) (a : Z) : Z :=
  Z.land (Z.shiftr (ld m (a - a mod 4)) (8 * (a mod 4))) 255.
Definition st8 (m : gmap Z Z) (a v : Z) : gmap Z Z :=
  let s := 8 * (a mod 4) in
  let w := ld m (a - a mod 4) in
  st m (a - a mod 4) (Z.lor (Z.land w (Z.lnot (Z.shiftl 255 s))) (Z.shiftl (u8 v) s)).
Fixpoint store_bytes (m : gmap Z Z) (a : Z) (bs : list Z) : gmap Z Z :=
  match bs with [] => m | b :: bs => store_bytes (st8 m a b) (a + 1) bs end.

(** ** The operations *)

(** The address of the PTE for [va], 0 when there is none. *)
Definition walkpgdir (pgdir va : Z) (alloc : bool) : M mach Z :=
  let pde := pgdir + 4 * PDX va in
  e ← load pde;
  if negb (Z.land e PTE_P =? 0) then mret (P2V (PTE_ADDR e) + 4 * PTX va)
  else if negb alloc then mret 0
  else
    pgtab ← kalloc;
    if pgtab =? 0 then mret 0
    else
      memset0_page pgtab;;
      store pde (Z.lor (Z.lor (Z.lor (V2P pgtab) PTE_P) PTE_W) PTE_U);;
      mret (pgtab + 4 * PTX va).

Fixpoint mappages_loop (fuel : nat) (pgdir a last pa perm : Z) : M mach Z :=
  match fuel with
  | O => fault "mappages: fuel"
  | S fuel =>
      pte ← walkpgdir pgdir a true;
      if pte =? 0 then mret (-1)
      else
        e ← load pte;
        unless_panic (negb (Z.land e PTE_P =? 0)) "remap";;
        store pte (Z.lor (Z.lor pa perm) PTE_P);;
        if a =? last then mret 0
        else mappages_loop fuel pgdir (u32 (a + PGSIZE)) last (u32 (pa + PGSIZE)) perm
  end.

(** One iteration per page from [a] to [last] (modulo 2^32). *)
Definition mappages (pgdir va size pa perm : Z) : M mach Z :=
  let a := PGROUNDDOWN va in
  let last := PGROUNDDOWN (u32 va + size - 1) in
  mappages_loop (Z.to_nat (u32 (last - a) / PGSIZE + 1)) pgdir a last pa perm.

(** The loop of [deallocuvm]: an absent page table is skipped as a whole. *)
Fixpoint deallocuvm_loop (fuel : nat) (pgdir a oldsz : Z) : M mach unit :=
  if a <? oldsz then
    match fuel with
    | O => fault "deallocuvm: fuel"
    | S fuel =>
        pte ← walkpgdir pgdir a false;
        if pte =? 0 then
          deallocuvm_loop fuel pgdir (u32 (u32 (PGADDR (PDX a + 1) 0 0 - PGSIZE) + PGSIZE)) oldsz
        else
          e ← load pte;
          (if negb (Z.land e PTE_P =? 0) then
             let pa := PTE_ADDR e in
             unless_panic (pa =? 0) "kfree";;
             kfree (P2V pa);;
             store pte 0
           else mret tt);;
          deallocuvm_loop fuel pgdir (u32 (a + PGSIZE)) oldsz
    end
  else mret tt.

Definition deallocuvm (pgdir oldsz newsz : Z) : M mach Z :=
  if oldsz <=? newsz then mret oldsz
  else
    deallocuvm_loop (Z.to_nat (oldsz / PGSIZE + 1)) pgdir (PGROUNDUP newsz) oldsz;;
    mret newsz.

Fixpoint free_tables (n : nat) (pgdir i : Z) : M mach unit :=
  match n with
  | O => mret tt
  | S n =>
      e ← load (pgdir + 4 * i);
      (if negb (Z.land e PTE_P =? 0) then kfree (P2V (PTE_ADDR e)) else mret tt);;
      free_tables n pgdir (i + 1)
  end.

Definition freevm (pgdir : Z) : M mach unit :=
  unless_panic (pgdir =? 0) "freevm: no pgdir";;
  deallocuvm pgdir KERNBASE 0;;
  free_tables (Z.to_nat NPDENTRIES) pgdir 0;;
  kfree pgdir.

(** [struct kmap] and the table of kernel mappings ([data] is [kdata]). *)
Record kmap_entry := mkkmap { virt : Z; phys_start : Z; phys_end : Z; perm : Z }.

Definition kmap (data : Z) : list kmap_entry :=
  [ mkkmap KERNBASE 0 EXTMEM PTE_W;
    mkkmap KERNLINK (V2P KERNLINK) (V2P data) 0;
    mkkmap data (V2P data) PHYSTOP PTE_W;
    mkkmap DEVSPACE DEVSPACE 0 PTE_W ].

Fixpoint setupkvm_loop (pgdir : Z) (ks : list kmap_entry) : M mach Z :=
  match ks with
  | [] => mret pgdir
  | e :: ks =>
      r ← mappages pgdir (virt e) (u32 (phys_end e - phys_start e)) (phys_start e) (perm e);
      if r <? 0 then freevm pgdir;; mret 0
      else setupkvm_loop pgdir ks
  end.

Definition setupkvm : M mach Z :=
  pgdir ← kalloc;
  if pgdir =? 0 then mret 0
  else
    memset0_page pgdir;;
    unless_panic (DEVSPACE <? P2V PHYSTOP) "PHYSTOP too high";;
    k ← get;
    setupkvm_loop pgdir (kmap (kdata k)).

(** Load the initcode: [init] is its bytes.  [kalloc] is not checked: a null
    page makes the following [memset] fault. *)
Definition inituvm (pgdir : Z) (init : list Z) : M mach unit :=
  unless_panic (PGSIZE <=? Z.of_nat (length init)) "inituvm: more than a page";;
  page ← kalloc;
  (if page =? 0 then fault "inituvm: null page" else mret tt);;
  memset0_page page;;
  mappages pgdir 0 PGSIZE (V2P page) (Z.lor PTE_W PTE_U);;
  modify (set_mem (fun m => store_bytes m page init)).

Fixpoint allocuvm_loop (fuel : nat) (pgdir a oldsz newsz : Z) : M mach Z :=
  if a <? newsz then
    match fuel with
    | O => fault "allocuvm: fuel"
    | S fuel =>
        page ← kalloc;
        if page =? 0 then
          deallocuvm pgdir newsz oldsz;; mret 0
        else
          memset0_page page;;
          r ← mappages pgdir a PGSIZE (V2P page) (Z.lor PTE_W PTE_U);
          if r <? 0 then
            deallocuvm pgdir newsz oldsz;; kfree page;; mret 0
          else allocuvm_loop fuel pgdir (u32 (a + PGSIZE)) oldsz newsz
    end
  else mret newsz.

Definition allocuvm (pgdir oldsz newsz : Z) : M mach Z :=
  if KERNBASE <=? newsz then mret 0
  else if newsz <? oldsz then mret oldsz
  else allocuvm_loop (Z.to_nat (newsz / PGSIZE + 1)) pgdir (PGROUNDUP oldsz) oldsz newsz.

Definition clearpteu (pgdir uva : Z) : M mach unit :=
  pte ← walkpgdir pgdir uva false;
  unless_panic (pte =? 0) "clearpteu";;
  e ← load pte;
  store pte (Z.land e (Z.lnot PTE_U)).

Fixpoint copyuvm_loop (fuel : nat) (pgdir d i sz : Z) : M mach Z :=
  if i <? sz then
    match fuel with
    | O => fault "copyuvm: fuel"
    | S fuel =>
        pte ← walkpgdir pgdir i false;
        unless_panic (pte =? 0) "copyuvm: pte should exist";;
        e ← load pte;
        unless_panic (Z.land e PTE_P =? 0) "copyuvm: page not present";;
        page ← kalloc;
        if page =? 0 then freevm d;; mret 0
        else
          modify (set_mem (fun m => copy_words m page (P2V (PTE_ADDR e)) 1024));;
          r ← mappages d i PGSIZE (V2P page) (PTE_FLAGS e);
          if r <? 0 then freevm d;; mret 0
          else copyuvm_loop fuel pgdir d (u32 (i + PGSIZE)) sz
    end
  else mret d.

Definition copyuvm (pgdir sz : Z) : M mach Z :=
  d ← setupkvm;
  if d =? 0 then mret 0
  else copyuvm_loop (Z.to_nat (sz / PGSIZE + 1)) pgdir d 0 sz.

(** [*pte] is read even when [walkpgdir] returned 0. *)
Definition uva2ka (pgdir uva : Z) : M mach Z :=
  pte ← walkpgdir pgdir uva false;
  (if pte =? 0 then fault "uva2ka: null pte" else mret tt);;
  e ← load pte;
  if Z.land e PTE_P =? 0 then mret 0
  else if Z.land e PTE_U =? 0 then mret 0
  else mret (P2V (PTE_ADDR e)).

(** [buf] is the kernel buffer [p[0..len)]; each round copies at least a byte. *)
Fixpoint copyout_loop (fuel : nat) (pgdir va : Z) (buf : list Z) : M mach Z :=
  if Nat.eqb (length buf) 0 then mret 0
  else
    match fuel with
    | O => fault "copyout: fuel"
    | S fuel =>
        let va0 := PGROUNDDOWN va in
        pa0 ← uva2ka pgdir va0;
        if pa0 =? 0 then mret (-1)
        else
          let n := Z.min (PGSIZE - (va - va0)) (Z.of_nat (length buf)) in
          modify (set_mem (fun m => store_bytes m (pa0 + (va - va0)) (take (Z.to_nat n) buf)));;
          copyout_loop fuel pgdir (u32 (va0 + PGSIZE)) (drop (Z.to_nat n) buf)
    end.

Definition copyout (pgdir va : Z) (buf : list Z) : M mach Z :=
  copyout_loop (length buf) pgdir va buf.

(** [readi] is the file system's read into kernel memory at an address; it and
    the caller run on a state of which the machine is the part that [lift]
    runs on. *)
Fixpoint loaduvm_loop {S : Type} (lift : forall A, M mach A -> M S A) (readi : Z -> Z -> Z -> M S Z)
    (fuel : nat) (pgdir addr offset i sz : Z) : M S Z :=
  if i <? sz then
    match fuel with
    | O => fault "loaduvm: fuel"
    | S fuel =>
        pte ← lift _ (walkpgdir pgdir (u32 (addr + i)) false);
        unless_panic (pte =? 0) "loaduvm: address should exist";;
        e ← lift _ (load pte);
        let pa := PTE_ADDR e in
        let n := if sz - i <? PGSIZE then sz - i else PGSIZE in
        r ← readi (P2V pa) (u32 (offset + i)) n;
        if negb (r =? n) then mret (-1)
        else loaduvm_loop lift readi fuel pgdir addr offset (u32 (i + PGSIZE)) sz
    end
  else mret 0.

Definition loaduvm {S : Type} (lift : forall A, M mach A -> M S A) (readi : Z -> Z -> Z -> M S Z) (pgdir addr offset sz : Z) : M S Z :=
  unless_panic (negb (u32 addr mod PGSIZE =? 0)) "loaduvm: addr must be page aligned";;
  loaduvm_loop lift readi (Z.to_nat (sz / PGSIZE + 1)) pgdir addr offset 0 sz.
