(* ===== verification/VmInv.v ===== *)
(** * Page tables: the invariant and the walk

    [pt_inv] describes one page table on the machine's memory: [tabs] maps the
    index of each present directory entry to its table, [E] maps each mapped
    page address to its PTE, [G] are pages that belong to somebody (so that
    nothing here may touch them), and [l] is the allocator's free list.  All
    the pages involved are distinct. *)

From Stdlib Require Import ZArith Lia.
From stdpp Require Import base numbers strings gmap list.
From S2P Require Import Prelude.
From S2P Require Import Machine.
From S2P Require Import Spinlock.
From S2P Require Import Kalloc.
From S2P Require Import Vm.

Local Open Scope string_scope.
Local Open Scope list_scope.
Local Open Scope Z_scope.

(** ** Addresses *)

Lemma V2P_page e p : KERNBASE < e -> valid_page e p -> V2P p = p - KERNBASE /\ 0 <= V2P p < PHYSTOP /\ P2V (V2P p) = p.
Proof.
  intros He (H1 & H2 & H3 & H4). unfold V2P, P2V, KERNBASE, PHYSTOP, two32 in *.
  rewrite (u32_id p) in * by (unfold two32; lia). rewrite (u32_id (p - 2147483648)) in * by (unfold two32; lia).
  rewrite u32_id by (unfold two32; lia). lia.
Qed.

Lemma V2P_aligned e p : KERNBASE < e -> valid_page e p -> V2P p mod 4096 = 0.
Proof.
  intros He Hp. destruct (V2P_page e p He Hp) as (-> & _). destruct Hp as (H1 & _). unfold KERNBASE.
  rewrite Zminus_mod, H1. done.
Qed.

(** Words of different pages, and different words of one page. *)
Lemma word_ne p q i j :
  p mod 4096 = 0 -> q mod 4096 = 0 -> 0 <= i < 1024 -> 0 <= j < 1024 -> p <> q \/ i <> j -> p + 4 * i <> q + 4 * j.
Proof.
  intros Hp Hq Hi Hj H. apply Z.div_exact in Hp; [|lia]. apply Z.div_exact in Hq; [|lia].
  destruct (decide (p = q)) as [->|Hne]; [lia|]. assert (p / 4096 <> q / 4096) by congruence. lia.
Qed.

Lemma PDX_range va : 0 <= va < two32 -> 0 <= PDX va < 1024.
Proof.
  intros H. rewrite PDX_eq by done. unfold two32 in H. split; [apply Z.div_pos; lia|apply Z.div_lt_upper_bound; lia].
Qed.

Lemma PTX_range va : 0 <= va < two32 -> 0 <= PTX va < 1024.
Proof. intros H. rewrite PTX_eq by done. apply Z.mod_pos_bound. lia. Qed.

(** A page address is determined by its two indices. *)
Lemma page_index_inj a b :
  0 <= a < two32 -> 0 <= b < two32 -> a mod 4096 = 0 -> b mod 4096 = 0 -> PDX a = PDX b -> PTX a = PTX b -> a = b.
Proof.
  intros Ha Hb Ha0 Hb0. rewrite !PDX_eq, !PTX_eq by done. intros H1 H2.
  apply Z.div_exact in Ha0; [|lia]. apply Z.div_exact in Hb0; [|lia].
  pose proof (Z.div_mod (a / 4096) 1024 ltac:(lia)) as E1. pose proof (Z.div_mod (b / 4096) 1024 ltac:(lia)) as E2.
  rewrite Z.div_div in E1, E2 by lia. change (4096 * 1024) with 4194304 in *. rewrite H1, H2 in E1. lia.
Qed.

Lemma land_P_1 x : Z.land (Z.lor x PTE_P) PTE_P = 1.
Proof.
  unfold PTE_P. apply Z.bits_inj'. intros n Hn. rewrite Z.land_spec, Z.lor_spec.
  destruct (decide (n = 0)) as [->|Hne]; [by rewrite orb_true_r|].
  assert (Z.testbit 1 n = false) as ->; [|by rewrite andb_false_r]. apply Z.bits_above_log2; [lia|]. simpl. lia.
Qed.

(** The directory entry [walkpgdir] writes for a new table. *)
Lemma pde_value pa : 0 <= pa -> pa mod 4096 = 0 -> Z.lor (Z.lor (Z.lor pa PTE_P) PTE_W) PTE_U = pa + 7.
Proof. intros H0 Ha. rewrite <- !Z.lor_assoc. change (Z.lor PTE_P (Z.lor PTE_W PTE_U)) with 7. by apply lor_page_flags. Qed.

Lemma pde_read pa : 0 <= pa < PHYSTOP -> pa mod 4096 = 0 ->
  Z.land (pa + 7) PTE_P <> 0 /\ PTE_ADDR (pa + 7) = pa.
Proof.
  unfold PHYSTOP. intros H Ha. split.
  - rewrite <- (lor_page_flags pa 7) by lia. change 7 with (Z.lor 6 PTE_P). rewrite Z.lor_assoc, land_P_1. lia.
  - rewrite PTE_ADDR_eq by (unfold two32; lia). apply Z.div_exact in Ha; [|lia]. rewrite Ha at 1.
    replace (4096 * (pa / 4096) + 7) with (7 + (pa / 4096) * 4096) by lia. rewrite Z.div_add, (Z.div_small 7) by lia. lia.
Qed.

(** ** The invariant *)

Definition tab_pages (tabs : gmap Z Z) : list Z := (map_to_list tabs).*2.

(** The PTE of [va], read through the tables. *)
Definition pte_of (m : gmap Z Z) (tabs : gmap Z Z) (va : Z) : Z :=
  match tabs !! PDX va with Some t => ld m (t + 4 * PTX va) | None => 0 end.

Definition page_addr (va : Z) : Prop := 0 <= va < two32 /\ va mod 4096 = 0.

Record pt_inv (c : nat) (k : mach) (pgdir : Z) (tabs E : gmap Z Z) (G l : list Z) : Prop := {
  pi_ready : kready c k;
  pi_free : free_inv k l;
  pi_base : KERNBASE < kend k;
  pi_nodup : NoDup (pgdir :: tab_pages tabs ++ G ++ l);
  pi_valid : Forall (valid_page (kend k)) (pgdir :: tab_pages tabs ++ G);
  pi_idx : forall i t, tabs !! i = Some t -> 0 <= i < 1024;
  pi_pde : forall i, 0 <= i < 1024 ->
    match tabs !! i with
    | Some t => ld (mem k) (pgdir + 4 * i) = V2P t + 7
    | None => Z.land (ld (mem k) (pgdir + 4 * i)) PTE_P = 0
    end;
  pi_dom : forall va e, E !! va = Some e -> page_addr va;
  pi_pte : forall va, page_addr va ->
    match E !! va with
    | Some e => pte_of (mem k) tabs va = e /\ Z.land e PTE_P <> 0
    | None => Z.land (pte_of (mem k) tabs va) PTE_P = 0
    end }.

(** The pages of [G] keep their contents. *)
Definition keeps (G : list Z) (k k' : mach) : Prop :=
  kend k' = kend k /\ use_lock k' = use_lock k /\ kdata k' = kdata k /\
  forall g i, g ∈ G -> 0 <= i < 1024 -> ld (mem k') (g + 4 * i) = ld (mem k) (g + 4 * i).

Lemma keeps_refl G k : keeps G k k.
Proof. done. Qed.

Lemma keeps_trans G k1 k2 k3 : keeps G k1 k2 -> keeps G k2 k3 -> keeps G k1 k3.
Proof.
  intros (A1 & A2 & A3 & A4) (B1 & B2 & B3 & B4). split; [congruence|]. split; [congruence|]. split; [congruence|].
  intros g i Hg Hi. rewrite B4 by done. by apply A4.
Qed.

Lemma keeps_sub G G' k k' : keeps G k k' -> (forall g, g ∈ G' -> g ∈ G) -> keeps G' k k'.
Proof. intros (A1 & A2 & A3 & A4) H. do 3 (split; [done|]). intros g i Hg. apply A4. auto. Qed.

Lemma elem_of_tab_pages tabs t : t ∈ tab_pages tabs <-> exists i, tabs !! i = Some t.
Proof.
  unfold tab_pages. rewrite list_elem_of_fmap. split.
  - intros ([i t'] & -> & H). apply elem_of_map_to_list in H. by exists i.
  - intros (i & H). exists (i, t). split; [done|]. by apply elem_of_map_to_list.
Qed.

Lemma tab_pages_insert tabs i t : tabs !! i = None -> tab_pages (<[i := t]> tabs) ≡ₚ t :: tab_pages tabs.
Proof. intros H. unfold tab_pages. by rewrite (map_to_list_insert tabs i t H). Qed.

Section inv.
Context (c : nat).
Implicit Types (k : mach) (tabs E : gmap Z Z) (G l : list Z).

Lemma pi_page k pgdir tabs E G l p :
  pt_inv c k pgdir tabs E G l -> p ∈ pgdir :: tab_pages tabs ++ G -> valid_page (kend k) p.
Proof. intros H Hp. pose proof (pi_valid _ _ _ _ _ _ _ H) as Hv. rewrite Forall_forall in Hv. auto. Qed.

Lemma pi_tab_page k pgdir tabs E G l i t :
  pt_inv c k pgdir tabs E G l -> tabs !! i = Some t -> valid_page (kend k) t /\ t <> pgdir /\ (t ∉ G) /\ (t ∉ l) /\ (pgdir ∉ G) /\ (pgdir ∉ l).
Proof.
  intros H Ht. assert (t ∈ tab_pages tabs) as Hin by (apply elem_of_tab_pages; eauto).
  split; [eapply pi_page; [done|right; apply elem_of_app; by left]|]. pose proof (pi_nodup _ _ _ _ _ _ _ H) as Hnd.
  apply NoDup_cons in Hnd as [Hn Hnd]. apply NoDup_app in Hnd as (_ & Hd & _). specialize (Hd t Hin).
  rewrite !elem_of_app in Hn. rewrite elem_of_app in Hd. split; [|tauto]. intros ->. tauto.
Qed.

(** Distinct table indices have distinct tables. *)
Lemma pi_tab_inj k pgdir tabs E G l i j t :
  pt_inv c k pgdir tabs E G l -> tabs !! i = Some t -> tabs !! j = Some t -> i = j.
Proof.
  intros H Hi Hj. pose proof (pi_nodup _ _ _ _ _ _ _ H) as Hnd.
  apply NoDup_cons in Hnd as [_ Hnd]. apply NoDup_app in Hnd as (Hnd & _). unfold tab_pages in Hnd.
  apply elem_of_map_to_list in Hi. apply elem_of_map_to_list in Hj.
  apply list_elem_of_lookup in Hi as [a Ha]. apply list_elem_of_lookup in Hj as [b Hb].
  assert (a = b) as ->; [|congruence]. apply (NoDup_lookup _ a b t Hnd); rewrite list_lookup_fmap; [by rewrite Ha|by rewrite Hb].
Qed.

(** Changes that do not touch the directory and the tables. *)
Lemma pt_inv_frame k k' pgdir tabs E G l G' l' :
  pt_inv c k pgdir tabs E G l -> kready c k' -> free_inv k' l' -> kend k' = kend k ->
  NoDup (pgdir :: tab_pages tabs ++ G' ++ l') -> Forall (valid_page (kend k)) G' ->
  (forall p i, p ∈ pgdir :: tab_pages tabs -> 0 <= i < 1024 -> ld (mem k') (p + 4 * i) = ld (mem k) (p + 4 * i)) ->
  pt_inv c k' pgdir tabs E G' l'.
Proof.
  intros H Hr Hf He Hnd Hv Hm.
  assert (Hpte : forall va, page_addr va -> pte_of (mem k') tabs va = pte_of (mem k) tabs va).
  { intros va [Hva _]. unfold pte_of. destruct (tabs !! PDX va) as [t|] eqn:Ht; [|done]. apply Hm; [|by apply PTX_range].
    right. apply elem_of_tab_pages. eauto. }
  split; [done|done|rewrite He; apply H|done| |apply H| |apply H|].
  - rewrite He. pose proof (pi_valid _ _ _ _ _ _ _ H) as Hv0. apply Forall_cons in Hv0 as [Hp Hv0].
    apply Forall_app in Hv0 as [Hv0 _]. apply Forall_cons. split; [done|]. by apply Forall_app.
  - intros i Hi. rewrite Hm by (done || left). by apply (pi_pde _ _ _ _ _ _ _ H).
  - intros va Hva. rewrite Hpte by done. by apply (pi_pte _ _ _ _ _ _ _ H).
Qed.

(** The allocator's lock leaves no trace in the page table. *)
Lemma ktouch_mem k : mem (ktouch c k) = mem k /\ kend (ktouch c k) = kend k.
Proof. destruct (ktouch_fields c k) as (-> & _ & -> & _). done. Qed.

(** Writing one PTE. *)
Lemma pt_store_pte k pgdir tabs E G l va t v :
  pt_inv c k pgdir tabs E G l -> page_addr va -> tabs !! PDX va = Some t ->
  let k' := set_mem (fun m => st m (t + 4 * PTX va) v) k in
  keeps G k k' /\
  (Z.land v PTE_P <> 0 -> pt_inv c k' pgdir tabs (<[va := v]> E) G l) /\
  (Z.land v PTE_P = 0 -> pt_inv c k' pgdir tabs (delete va E) G l).
Proof.
  intros H Hva Ht k'. destruct (pi_tab_page _ _ _ _ _ _ _ _ H Ht) as (Htv & Htp & HtG & Htl & _).
  pose proof (PTX_range va (proj1 Hva)) as Hx.
  assert (Hal : forall p, p ∈ pgdir :: tab_pages tabs ++ G -> p mod 4096 = 0).
  { intros p Hp. eapply pi_page in Hp; [|done]. apply Hp. }
  assert (Hout : forall p i, p ∈ pgdir :: tab_pages tabs ++ G -> 0 <= i < 1024 -> p <> t \/ i <> PTX va ->
            ld (mem k') (p + 4 * i) = ld (mem k) (p + 4 * i)).
  { intros p i Hp Hi Hne. simpl. apply ld_st_ne. apply word_ne; [apply Htv|by apply Hal|done|done|]. destruct Hne; [left|right]; congruence. }
  assert (Hpgd : forall i, 0 <= i < 1024 -> ld (mem k') (pgdir + 4 * i) = ld (mem k) (pgdir + 4 * i)).
  { intros i Hi. apply Hout; [left|done|left; congruence]. }
  assert (Hpte : forall vb, page_addr vb -> pte_of (mem k') tabs vb = if decide (vb = va) then v else pte_of (mem k) tabs vb).
  { intros vb Hvb. unfold pte_of. destruct (decide (vb = va)) as [->|Hne].
    - rewrite Ht. simpl. apply ld_st_eq.
    - destruct (tabs !! PDX vb) as [t'|] eqn:Ht'; [|done]. apply Hout; [|apply PTX_range, Hvb|].
      + right. apply elem_of_app. left. apply elem_of_tab_pages. eauto.
      + destruct (decide (t' = t)) as [->|]; [right|by left]. intros Hpx. apply Hne.
        apply page_index_inj; [apply Hvb|apply Hva|apply Hvb|apply Hva| |done]. by eapply pi_tab_inj. }
  assert (Hfree : free_inv k' l).
  { destruct (pi_free _ _ _ _ _ _ _ H) as (Hrep & Hnd & Hlv). split; [|by split]. simpl.
    eapply freelist_rep_frame; [|done]. intros q Hq. apply ld_st_ne. replace q with (q + 4 * 0) by lia.
    rewrite Forall_forall in Hlv. apply word_ne; [apply Htv|by apply Hlv|done|lia|left; congruence]. }
  split; [|split].
  - split; [done|]. split; [done|]. split; [done|]. intros g i Hg Hi. apply Hout; [right; apply elem_of_app; by right|done|]. left. congruence.
  - intros Hv. split; [apply H|done|apply H|apply H|apply H|apply H| | |].
    + intros i Hi. rewrite Hpgd by done. by apply (pi_pde _ _ _ _ _ _ _ H).
    + intros vb e [[<- _]|[_ Hb]]%lookup_insert_Some; [done|]. by eapply (pi_dom _ _ _ _ _ _ _ H).
    + intros vb Hvb. rewrite Hpte by done. destruct (decide (vb = va)) as [->|Hne]; [by rewrite lookup_insert_eq|].
      rewrite lookup_insert_ne by done. by apply (pi_pte _ _ _ _ _ _ _ H).
  - intros Hv. split; [apply H|done|apply H|apply H|apply H|apply H| | |].
    + intros i Hi. rewrite Hpgd by done. by apply (pi_pde _ _ _ _ _ _ _ H).
    + intros vb e [_ Hb]%lookup_delete_Some. by eapply (pi_dom _ _ _ _ _ _ _ H).
    + intros vb Hvb. rewrite Hpte by done. destruct (decide (vb = va)) as [->|Hne]; [by rewrite lookup_delete_eq|].
      rewrite lookup_delete_ne by done. by apply (pi_pte _ _ _ _ _ _ _ H).
Qed.

(** *** The allocator, seen from a page table *)

Lemma ktouch_kdata k : kdata (ktouch c k) = kdata k.
Proof. unfold ktouch. by destruct (use_lock k =? 0). Qed.

Lemma kalloc_full k l :
  kready c k -> free_inv k l ->
  exists k', kalloc k = Ret (hd 0 l) k' /\ kready c k' /\ free_inv k' (tail l) /\ mem k' = mem k /\ forall G, keeps G k k'.
Proof.
  intros Hr Hf. destruct (kalloc_inv c k l Hr Hf) as (k' & H & Hr' & Hf' & He & Hu & Hm). exists k'.
  split; [done|]. split; [done|]. split; [done|]. split; [done|]. intros G. split; [done|]. split; [done|].
  split; [|by rewrite Hm]. rewrite (kalloc_run c k Hr) in H. injection H as _ <-. rewrite ktouch_kdata.
  by destruct (freelist k =? 0).
Qed.

Lemma kfree_full k l v :
  kready c k -> free_inv k l -> valid_page (kend k) v -> v ∉ l ->
  exists k', kfree v k = Ret tt k' /\ kready c k' /\ free_inv k' (v :: l) /\
    (forall a, a < v \/ v + 4096 <= a -> ld (mem k') a = ld (mem k) a) /\
    kend k' = kend k /\ use_lock k' = use_lock k /\ kdata k' = kdata k.
Proof.
  intros Hr Hf Hv Hni. destruct (kfree_inv c k l v Hr Hf Hv Hni) as (k' & H & Hr' & Hf' & He & Hu & Hm). exists k'.
  do 6 (split; [done|]). rewrite (kfree_run c k v Hr) in H by by apply valid_page_kfree_ok. injection H as <-.
  by rewrite ktouch_kdata.
Qed.

(** Words of a page other than [v]. *)
Lemma page_word_out v p i : v mod 4096 = 0 -> p mod 4096 = 0 -> p <> v -> 0 <= i < 1024 -> p + 4 * i < v \/ v + 4096 <= p + 4 * i.
Proof. intros Hv Hp Hne Hi. destruct (pages_apart v p Hv Hp) as [H|H]; [congruence|left|right]; [|lia].
  apply Z.div_exact in Hv; [|lia]. apply Z.div_exact in Hp; [|lia]. lia.
Qed.

Lemma pi_list_page k pgdir tabs E G l p : pt_inv c k pgdir tabs E G l -> p ∈ l -> valid_page (kend k) p.
Proof. intros H Hp. destruct (pi_free _ _ _ _ _ _ _ H) as (_ & _ & Hv). rewrite Forall_forall in Hv. auto. Qed.

(** *** walkpgdir *)

Lemma walk_present k pgdir tabs E G l va t alloc :
  pt_inv c k pgdir tabs E G l -> 0 <= va < two32 -> tabs !! PDX va = Some t ->
  walkpgdir pgdir va alloc k = Ret (t + 4 * PTX va) k.
Proof.
  intros H Hva Ht. unfold walkpgdir, load. rewrite bind_gets.
  pose proof (pi_pde _ _ _ _ _ _ _ H (PDX va) (PDX_range va Hva)) as Hpde. rewrite Ht in Hpde. rewrite Hpde.
  destruct (pi_tab_page _ _ _ _ _ _ _ _ H Ht) as (Htv & _). pose proof (pi_base _ _ _ _ _ _ _ H) as Hb.
  destruct (V2P_page _ t Hb Htv) as (_ & Hr & Hp2v). destruct (pde_read (V2P t) Hr (V2P_aligned _ t Hb Htv)) as [Hp Ha].
  destruct (Z.eqb_spec (Z.land (V2P t + 7) PTE_P) 0); [done|]. cbn [negb]. by rewrite Ha, Hp2v.
Qed.

Lemma walk_absent k pgdir tabs E G l va :
  pt_inv c k pgdir tabs E G l -> 0 <= va < two32 -> tabs !! PDX va = None -> walkpgdir pgdir va false k = Ret 0 k.
Proof.
  intros H Hva Ht. unfold walkpgdir, load. rewrite bind_gets.
  pose proof (pi_pde _ _ _ _ _ _ _ H (PDX va) (PDX_range va Hva)) as Hpde. rewrite Ht in Hpde. by rewrite Hpde.
Qed.

Lemma walk_oom k pgdir tabs E G va :
  pt_inv c k pgdir tabs E G [] -> 0 <= va < two32 -> tabs !! PDX va = None ->
  exists k', walkpgdir pgdir va true k = Ret 0 k' /\ pt_inv c k' pgdir tabs E G [] /\ keeps G k k'.
Proof.
  intros H Hva Ht. unfold walkpgdir, load. rewrite bind_gets.
  pose proof (pi_pde _ _ _ _ _ _ _ H (PDX va) (PDX_range va Hva)) as Hpde. rewrite Ht in Hpde. rewrite Hpde. cbn [Z.eqb negb].
  destruct (kalloc_full k [] (pi_ready _ _ _ _ _ _ _ H) (pi_free _ _ _ _ _ _ _ H)) as (k' & Hk & Hr & Hf & Hm & Hkp).
  mstep Hk. exists k'. split; [done|]. split; [|done]. destruct (Hkp []) as (He & _).
  eapply pt_inv_frame; [done|done|done|done|apply H| |by intros; rewrite Hm].
  pose proof (pi_valid _ _ _ _ _ _ _ H) as Hv. apply Forall_cons in Hv as [_ Hv]. apply Forall_app in Hv. tauto.
Qed.

(** The pages of the structure and of others, given that [t] leaves the free
    list. *)
Lemma new_table_perm pgdir tabs G l i t :
  tabs !! i = None -> pgdir :: tab_pages (<[i := t]> tabs) ++ G ++ l ≡ₚ pgdir :: tab_pages tabs ++ G ++ t :: l.
Proof.
  intros Hi. rewrite (tab_pages_insert tabs i t Hi). simpl. apply perm_skip.
  rewrite (app_assoc (tab_pages tabs) G (t :: l)), <- Permutation_middle, <- app_assoc. done.
Qed.

(** The new directory entry and the cleared table. *)
Definition new_table (pgdir va t : Z) (m : gmap Z Z) : gmap Z Z :=
  st (memset_page m t 0) (pgdir + 4 * PDX va) (Z.lor (Z.lor (Z.lor (V2P t) PTE_P) PTE_W) PTE_U).

Lemma ld_new_table_out pgdir va t m p i :
  pgdir mod 4096 = 0 -> t mod 4096 = 0 -> p mod 4096 = 0 -> 0 <= i < 1024 -> 0 <= PDX va < 1024 ->
  p <> t -> p <> pgdir \/ i <> PDX va -> ld (new_table pgdir va t m) (p + 4 * i) = ld m (p + 4 * i).
Proof.
  intros Hpg Ht Hp Hi Hx Hne Hor. unfold new_table. rewrite ld_st_ne.
  - apply ld_memset_page_out. by apply page_word_out.
  - apply word_ne; [done|done|done|done|]. destruct Hor; [left|right]; congruence.
Qed.

Lemma ld_new_table_in pgdir va t m i :
  pgdir mod 4096 = 0 -> t mod 4096 = 0 -> 0 <= i < 1024 -> 0 <= PDX va < 1024 -> t <> pgdir ->
  ld (new_table pgdir va t m) (t + 4 * i) = 0.
Proof.
  intros Hpg Ht Hi Hx Hne. unfold new_table. rewrite ld_st_ne by (apply word_ne; [done..|left; congruence]).
  rewrite ld_memset_page_in by done. done.
Qed.

Lemma new_table_inv k k1 pgdir tabs E G l va t :
  pt_inv c k pgdir tabs E G (t :: l) -> 0 <= va < two32 -> tabs !! PDX va = None ->
  kready c k1 -> free_inv k1 l -> mem k1 = mem k -> kend k1 = kend k ->
  let k' := set_mem (new_table pgdir va t) k1 in
  pt_inv c k' pgdir (<[PDX va := t]> tabs) E G l /\
  (forall g i, g ∈ G -> 0 <= i < 1024 -> ld (mem k') (g + 4 * i) = ld (mem k) (g + 4 * i)).
Proof.
  intros H Hva Htab Hr1 Hf1 Hm1 He1 k'. pose proof (PDX_range va Hva) as Hx. pose proof (pi_base _ _ _ _ _ _ _ H) as Hb.
  assert (Htv : valid_page (kend k) t) by (eapply pi_list_page; [done|left]).
  assert (Hpv : valid_page (kend k) pgdir) by (eapply pi_page; [done|left]).
  pose proof (pi_nodup _ _ _ _ _ _ _ H) as Hnd. pose proof Hnd as Hnd'. rewrite <- (new_table_perm _ _ _ _ _ _ Htab) in Hnd'.
  assert (Hdist : forall p, p ∈ pgdir :: tab_pages tabs ++ G ++ l -> p <> t).
  { intros p Hp ->. rewrite (app_assoc (tab_pages tabs) G), <- Permutation_middle, <- app_assoc in Hnd. 
    apply NoDup_cons in Hnd as [H1 Hnd]. apply NoDup_cons in Hnd as [H2 _].
    apply elem_of_cons in Hp as [->|Hp]; [apply H1; left|done]. }
  assert (Hout : forall p i, p ∈ pgdir :: tab_pages tabs ++ G ++ l -> 0 <= i < 1024 -> p mod 4096 = 0 ->
            p <> pgdir \/ i <> PDX va -> ld (new_table pgdir va t (mem k1)) (p + 4 * i) = ld (mem k1) (p + 4 * i)).
  { intros p i Hp Hi Ha Hor. apply ld_new_table_out; [apply Hpv|apply Htv|done|done|done|by apply Hdist|done]. }
  assert (Hpg : pgdir ∉ tab_pages tabs ++ G ++ l).
  { apply NoDup_cons in Hnd as [Hnd _]. rewrite !elem_of_app, elem_of_cons in Hnd. rewrite !elem_of_app. tauto. }
  split.
  - split; simpl.
    + exact Hr1.
    + destruct Hf1 as (Hrep & Hndl & Hlv). split; [|by split]. simpl. eapply freelist_rep_frame; [|done]. intros q Hq.
      replace q with (q + 4 * 0) by lia. rewrite Forall_forall in Hlv. apply Hout; [|lia|by apply Hlv|].
      * right. rewrite !elem_of_app. by right; right.
      * left. intros ->. apply Hpg. rewrite !elem_of_app. by right; right.
    + by rewrite He1.
    + exact Hnd'.
    + rewrite He1. pose proof (pi_valid _ _ _ _ _ _ _ H) as Hv. apply Forall_cons in Hv as [_ Hv].
      apply Forall_cons. split; [done|]. rewrite (tab_pages_insert _ _ _ Htab). simpl. apply Forall_cons. by split.
    + intros i t' [[<- _]|[_ Hi]]%lookup_insert_Some; [done|]. by eapply (pi_idx _ _ _ _ _ _ _ H).
    + intros i Hi. destruct (decide (i = PDX va)) as [->|Hne].
      * rewrite lookup_insert_eq. unfold new_table. rewrite ld_st_eq.
        destruct (V2P_page _ t Hb Htv) as (_ & Hr & _). apply pde_value; [lia|by eapply V2P_aligned].
      * rewrite lookup_insert_ne by done. pose proof (Hout pgdir i ltac:(left) Hi (proj1 Hpv) ltac:(by right)) as Hw.
        rewrite Hw, Hm1. by apply (pi_pde _ _ _ _ _ _ _ H).
    + apply H.
    + intros vb Hvb. pose proof (pi_pte _ _ _ _ _ _ _ H vb Hvb) as Hold. unfold pte_of in *.
      destruct (decide (PDX vb = PDX va)) as [Heq|Hne].
      * rewrite Heq, lookup_insert_eq. rewrite Heq, Htab in Hold. destruct (E !! vb) as [e|]; [destruct Hold as [<- Hold]; done|].
        rewrite ld_new_table_in; [done|apply Hpv|apply Htv|apply PTX_range, Hvb|done|].
        intros ->. by apply (Hdist pgdir); [left|].
      * rewrite lookup_insert_ne by done. destruct (tabs !! PDX vb) as [t'|] eqn:Ht'; [|done].
        destruct (pi_tab_page _ _ _ _ _ _ _ _ H Ht') as (Ht'v & Ht'p & _).
        rewrite (Hout t' (PTX vb)); [by rewrite Hm1| |apply PTX_range, Hvb|apply Ht'v|by left].
        right. apply elem_of_app. left. apply elem_of_tab_pages. eauto.
  - intros g i Hg Hi. rewrite <- Hm1. apply Hout; [|done| |].
    + right. rewrite !elem_of_app. by right; left.
    + eapply pi_page; [done|]. right. rewrite elem_of_app. by right.
    + left. intros ->. apply Hpg. rewrite !elem_of_app. by right; left.
Qed.

Lemma walk_alloc k pgdir tabs E G l va t :
  pt_inv c k pgdir tabs E G (t :: l) -> 0 <= va < two32 -> tabs !! PDX va = None ->
  exists k', walkpgdir pgdir va true k = Ret (t + 4 * PTX va) k' /\
    pt_inv c k' pgdir (<[PDX va := t]> tabs) E G l /\ keeps G k k'.
Proof.
  intros H Hva Ht. unfold walkpgdir, load. rewrite bind_gets.
  pose proof (pi_pde _ _ _ _ _ _ _ H (PDX va) (PDX_range va Hva)) as Hpde. rewrite Ht in Hpde. rewrite Hpde. cbn [Z.eqb negb].
  destruct (kalloc_full k _ (pi_ready _ _ _ _ _ _ _ H) (pi_free _ _ _ _ _ _ _ H)) as (k1 & Hk & Hr & Hf & Hm & Hkp).
  mstep Hk. cbn [hd tail] in *. assert (valid_page (kend k) t) as Htv by (eapply pi_list_page; [done|left]).
  assert ((t =? 0) = false) as -> by (destruct Htv as (_ & _ & _ & ?); lia).
  unfold memset0_page, store. rewrite !bind_modify. destruct (Hkp []) as (He & Hu & Hd & _).
  destruct (new_table_inv k k1 pgdir tabs E G l va t H Hva Ht Hr Hf Hm He) as [Hinv Hkeep].
  eexists. split; [done|]. split; [exact Hinv|]. by repeat split.
Qed.
End inv.
