(* ===== verification/VmSpec.v ===== *)
(** * Page tables: what the operations of vm.c do

    Specifications against [pt_inv]: the mappings an operation adds or
    removes, and an exact account of the pages it takes from and gives back to
    the allocator. *)

From Stdlib Require Import ZArith Lia.
From stdpp Require Import base numbers strings gmap list.
From S2P Require Import Prelude.
From S2P Require Import Machine.
From S2P Require Import Spinlock.
From S2P Require Import Kalloc.
From S2P Require Import Vm.
From S2P Require Import VmInv.

Local Open Scope string_scope.
Local Open Scope list_scope.
Local Open Scope Z_scope.

(** ** Mapping a range *)

(** The PTE written for physical page [pa]. *)
Definition pte_val (pa perm : Z) : Z := Z.lor (Z.lor pa perm) PTE_P.

(** [m] pages from [a] on mapped to the physical pages from [pa] on. *)
Fixpoint map_range (E : gmap Z Z) (a pa perm : Z) (m : nat) : gmap Z Z :=
  match m with
  | O => E
  | S m => map_range (<[a := pte_val pa perm]> E) (a + 4096) (pa + 4096) perm m
  end.

Lemma lookup_map_range E a pa perm m va :
  va mod 4096 = 0 -> a mod 4096 = 0 ->
  map_range E a pa perm m !! va =
    if decide (a <= va < a + 4096 * Z.of_nat m) then Some (pte_val (pa + (va - a)) perm) else E !! va.
Proof.
  intros Hva. revert E a pa. induction m as [|m IH]; intros E a pa Ha; simpl.
  { destruct (decide _); [lia|done]. }
  rewrite IH by (rewrite Zplus_mod, Ha; done).
  apply Z.div_exact in Hva; [|lia]. apply Z.div_exact in Ha; [|lia].
  destruct (decide (va = a)) as [->|Hne].
  - rewrite decide_False by lia. rewrite lookup_insert_eq, decide_True by lia. by rewrite Z.sub_diag, Z.add_0_r.
  - rewrite lookup_insert_ne by done. destruct (decide (a + 4096 <= va < _)) as [H|H].
    + rewrite decide_True by lia. do 2 f_equal. lia.
    + rewrite decide_False; [done|]. lia.
Qed.

Lemma page_addr_add a n : page_addr a -> a + 4096 * n < two32 -> 0 <= n -> page_addr (a + 4096 * n).
Proof. intros [H1 H2] H Hn. split; [lia|]. by rewrite Z.mul_comm, Z_mod_plus_full. Qed.

Lemma pte_val_P pa perm : Z.land (pte_val pa perm) PTE_P <> 0.
Proof. unfold pte_val. rewrite land_P_1. lia. Qed.

(** Pages move between the tables and the free list only. *)
Definition taken (tabs tabs' : gmap Z Z) (l l' : list Z) : Prop :=
  tabs ⊆ tabs' /\ tab_pages tabs' ++ l' ≡ₚ tab_pages tabs ++ l.

Lemma taken_refl tabs l : taken tabs tabs l l.
Proof. done. Qed.

Lemma taken_trans t1 t2 t3 l1 l2 l3 : taken t1 t2 l1 l2 -> taken t2 t3 l2 l3 -> taken t1 t3 l1 l3.
Proof. intros [A1 A2] [B1 B2]. split; [by trans t2|by rewrite B2]. Qed.

Lemma taken_new tabs i t l : tabs !! i = None -> taken tabs (<[i := t]> tabs) (t :: l) l.
Proof.
  intros H. split; [by apply insert_subseteq|]. rewrite (tab_pages_insert _ _ _ H). simpl. by rewrite Permutation_middle.
Qed.

Section spec.
Context (c : nat).
Implicit Types (k : mach) (tabs E : gmap Z Z) (G l : list Z).

(** Walking with allocation: the table is there afterwards, or memory is
    exhausted. *)
Lemma walk_alloc_cases k pgdir tabs E G l va :
  pt_inv c k pgdir tabs E G l -> 0 <= va < two32 ->
  (exists t k' tabs' l', walkpgdir pgdir va true k = Ret (t + 4 * PTX va) k' /\ tabs' !! PDX va = Some t /\
     pt_inv c k' pgdir tabs' E G l' /\ keeps G k k' /\ taken tabs tabs' l l' /\
     (forall t0, tabs !! PDX va = Some t0 -> k' = k /\ tabs' = tabs /\ l' = l)) \/
  (exists k', walkpgdir pgdir va true k = Ret 0 k' /\ l = [] /\ tabs !! PDX va = None /\
     pt_inv c k' pgdir tabs E G [] /\ keeps G k k').
Proof.
  intros H Hva. destruct (tabs !! PDX va) as [t|] eqn:Ht.
  - left. exists t, k, tabs, l. split; [by eapply walk_present|]. repeat (split; [done|]). done.
  - destruct l as [|t l].
    + right. destruct (walk_oom c k pgdir tabs E G va H Hva Ht) as (k' & H1 & H2 & H3). by exists k'.
    + left. destruct (walk_alloc c k pgdir tabs E G l va t H Hva Ht) as (k' & H1 & H2 & H3).
      exists t, k', (<[PDX va := t]> tabs), l. split; [done|]. split; [by rewrite lookup_insert_eq|].
      do 2 (split; [done|]). split; [by apply taken_new|done].
Qed.

Lemma table_word_nz k pgdir tabs E G l va t :
  pt_inv c k pgdir tabs E G l -> 0 <= va < two32 -> tabs !! PDX va = Some t -> (t + 4 * PTX va =? 0) = false.
Proof.
  intros H Hva Ht. destruct (pi_tab_page _ _ _ _ _ _ _ _ _ H Ht) as ((_ & _ & _ & Hp) & _). pose proof (PTX_range va Hva). lia.
Qed.

(** The PTE the code reads. *)
Lemma load_pte k pgdir tabs E G l va t :
  pt_inv c k pgdir tabs E G l -> page_addr va -> tabs !! PDX va = Some t ->
  match E !! va with
  | Some e => ld (mem k) (t + 4 * PTX va) = e /\ Z.land e PTE_P <> 0
  | None => Z.land (ld (mem k) (t + 4 * PTX va)) PTE_P = 0
  end.
Proof. intros H Hva Ht. pose proof (pi_pte _ _ _ _ _ _ _ H va Hva) as Hp. unfold pte_of in Hp. by rewrite Ht in Hp. Qed.

(** A mapped page has a table. *)
Lemma mapped_table k pgdir tabs E G l va e :
  pt_inv c k pgdir tabs E G l -> E !! va = Some e -> exists t, tabs !! PDX va = Some t.
Proof.
  intros H He. pose proof (pi_pte _ _ _ _ _ _ _ H va (pi_dom _ _ _ _ _ _ _ H _ _ He)) as Hp.
  rewrite He in Hp. unfold pte_of in Hp. destruct (tabs !! PDX va) as [t|]; [eauto|]. destruct Hp as [<- Hp]. done.
Qed.

Lemma mappages_loop_run n fuel k pgdir tabs E G l a pa perm :
  pt_inv c k pgdir tabs E G l -> page_addr a -> a + 4096 * (Z.of_nat n + 1) <= two32 ->
  0 <= pa -> pa + 4096 * (Z.of_nat n + 1) <= two32 -> (n < fuel)%nat ->
  (forall i, (i <= n)%nat -> E !! (a + 4096 * Z.of_nat i) = None) ->
  exists m k' tabs' l', mappages_loop fuel pgdir a (a + 4096 * Z.of_nat n) pa perm k = Ret (if decide (m = S n) then 0 else -1) k' /\
    (m <= S n)%nat /\ pt_inv c k' pgdir tabs' (map_range E a pa perm m) G l' /\ keeps G k k' /\ taken tabs tabs' l l' /\
    (m <> S n -> l' = []).
Proof.
  revert fuel k tabs E l a pa. induction n as [|n IH]; intros fuel k tabs E l a pa H Ha Hr Hpa Hpr Hf HE.
  all: destruct fuel as [|fuel]; [lia|]; cbn [mappages_loop].
  all: destruct (walk_alloc_cases k pgdir tabs E G l a H (proj1 Ha)) as
    [(t & k1 & tabs1 & l1 & Hw & Ht & H1 & Hk1 & Htk & _)|(k1 & Hw & -> & Ht & H1 & Hk1)];
    [|mstep Hw; exists 0%nat, k1, tabs, []; rewrite decide_False by lia; split; [done|]; split; [lia|]; split; [exact H1|]; split; [exact Hk1|]; split; [apply taken_refl|done]].
  all: mstep Hw; rewrite (table_word_nz _ _ _ _ _ _ _ _ H1 (proj1 Ha) Ht).
  all: unfold load, store; rewrite bind_gets.
  all: pose proof (load_pte _ _ _ _ _ _ _ _ H1 Ha Ht) as Hl; pose proof (HE 0%nat ltac:(lia)) as HE0; rewrite Z.mul_0_r, Z.add_0_r in HE0.
  all: rewrite HE0 in Hl; rewrite Hl; cbn [Z.eqb negb]; rewrite bind_unless_false, bind_modify.
  all: destruct (pt_store_pte c k1 pgdir tabs1 E G l1 a t (pte_val pa perm) H1 Ha Ht) as (Hk2 & H2 & _).
  all: specialize (H2 (pte_val_P _ _)).
  - rewrite Z.mul_0_r, Z.add_0_r, Z.eqb_refl. exists 1%nat. eexists _, tabs1, l1. split; [done|]. split; [lia|].
    split; [exact H2|]. split; [by eapply keeps_trans|]. split; [done|]. done.
  - destruct (Z.eqb_spec a (a + 4096 * Z.of_nat (S n))); [lia|].
    assert (Ha' : page_addr (a + 4096)). { pose proof (page_addr_add a 1 Ha) as Hx. apply Hx; lia. }
    unfold PGSIZE. rewrite !u32_id by (destruct Ha, Ha'; lia).
    destruct (IH fuel _ tabs1 _ l1 (a + 4096) (pa + 4096) H2) as (m & k' & tabs' & l' & Hrun & Hm & H' & Hk' & Htk' & Hl');
      [done|lia|lia|lia|lia| |].
    + intros i Hi. rewrite lookup_insert_ne by lia. rewrite <- (HE (S i)) by lia. f_equal. lia.
    + exists (S m), k', tabs', l'. replace (a + 4096 * Z.of_nat (S n)) with (a + 4096 + 4096 * Z.of_nat n) by lia.
      split. { unfold pte_val in Hrun. rewrite Hrun. f_equal. destruct (decide (m = S n)), (decide (S m = S (S n))); congruence || lia. }
      split; [lia|]. split; [exact H'|]. split; [eapply keeps_trans; [done|]; by eapply keeps_trans|].
      split; [by eapply taken_trans|]. intros Hne. apply Hl'. congruence.
Qed.

(** The number of pages, less one, that [size] bytes at [va] touch. *)
Definition last_page (va size : Z) : nat := Z.to_nat ((va + size - 1) / 4096 - va / 4096).

Lemma mappages_run k pgdir tabs E G l va size pa perm :
  pt_inv c k pgdir tabs E G l -> 0 <= va -> 0 < size -> va + size <= two32 ->
  0 <= pa -> pa + 4096 * (Z.of_nat (last_page va size) + 1) <= two32 ->
  (forall i, (i <= last_page va size)%nat -> E !! (va / 4096 * 4096 + 4096 * Z.of_nat i) = None) ->
  exists m k' tabs' l', mappages pgdir va size pa perm k = Ret (if decide (m = S (last_page va size)) then 0 else -1) k' /\
    (m <= S (last_page va size))%nat /\ pt_inv c k' pgdir tabs' (map_range E (va / 4096 * 4096) pa perm m) G l' /\
    keeps G k k' /\ taken tabs tabs' l l' /\ (m <> S (last_page va size) -> l' = []).
Proof.
  intros H Hva Hsz Hend Hpa Hpr HE. unfold mappages.
  pose proof (Z.div_mod va 4096). pose proof (Z.mod_pos_bound va 4096).
  pose proof (Z.div_mod (va + size - 1) 4096). pose proof (Z.mod_pos_bound (va + size - 1) 4096).
  assert (va / 4096 <= (va + size - 1) / 4096) by (apply Z.div_le_mono; lia).
  assert (Hn : Z.of_nat (last_page va size) = (va + size - 1) / 4096 - va / 4096) by (unfold last_page; lia).
  rewrite (u32_id va) by (unfold two32 in *; lia). rewrite !PGROUNDDOWN_eq by (unfold two32 in *; lia).
  set (a := va / 4096 * 4096) in *.
  replace ((va + size - 1) / 4096 * 4096) with (a + 4096 * Z.of_nat (last_page va size)) by lia.
  replace (a + 4096 * Z.of_nat (last_page va size) - a) with (Z.of_nat (last_page va size) * 4096) by lia.
  rewrite u32_id by (unfold two32 in *; lia). unfold PGSIZE. rewrite Z.div_mul by lia.
  apply mappages_loop_run; [done|split; [unfold two32 in *; lia|apply Z.mod_mul; lia]| |done|done|lia|done].
  unfold two32 in *. assert ((va + size - 1) / 4096 < 1048576) by (apply Z.div_lt_upper_bound; lia). lia.
Qed.

(** One page. *)
Lemma mappages_page k pgdir tabs E G l a pa perm :
  pt_inv c k pgdir tabs E G l -> page_addr a -> 0 <= pa -> pa + 4096 <= two32 -> E !! a = None ->
  (exists k' tabs' l', mappages pgdir a PGSIZE pa perm k = Ret 0 k' /\
     pt_inv c k' pgdir tabs' (<[a := pte_val pa perm]> E) G l' /\ keeps G k k' /\ taken tabs tabs' l l') \/
  (exists k', mappages pgdir a PGSIZE pa perm k = Ret (-1) k' /\
     pt_inv c k' pgdir tabs E G [] /\ keeps G k k' /\ l = []).
Proof.
  intros H Ha Hpa Hpr HE. unfold mappages. destruct Ha as [Ha Ha0]. pose proof Ha0 as Ha1. apply Z.div_exact in Ha1; [|lia].
  assert (a + 4096 <= two32). { unfold two32 in *. assert (a / 4096 < 1048576) by (apply Z.div_lt_upper_bound; lia). lia. }
  rewrite (u32_id a) by done. unfold PGSIZE. rewrite !PGROUNDDOWN_eq by lia.
  assert ((a + 4096 - 1) / 4096 = a / 4096) as ->.
  { rewrite Ha1 at 1. replace (4096 * (a / 4096) + 4096 - 1) with (4095 + a / 4096 * 4096) by lia. by rewrite Z.div_add. }
  rewrite Z.sub_diag. replace (a / 4096 * 4096) with a by lia. change (Z.to_nat (u32 0 / 4096 + 1)) with 1%nat.
  cbn [mappages_loop]. destruct (walk_alloc_cases k pgdir tabs E G l a H Ha) as
    [(t & k1 & tabs1 & l1 & Hw & Ht & H1 & Hk1 & Htk & _)|(k1 & Hw & -> & Ht & H1 & Hk1)];
    [left|right; mstep Hw; by exists k1].
  mstep Hw. rewrite (table_word_nz _ _ _ _ _ _ _ _ H1 Ha Ht). unfold load, store. rewrite bind_gets.
  pose proof (load_pte _ _ _ _ _ _ _ _ H1 (conj Ha Ha0) Ht) as Hl. rewrite HE in Hl. rewrite Hl. cbn [Z.eqb negb].
  rewrite bind_unless_false, bind_modify, Z.eqb_refl.
  destruct (pt_store_pte c k1 pgdir tabs1 E G l1 a t (pte_val pa perm) H1 (conj Ha Ha0) Ht) as (Hk2 & H2 & _).
  eexists _, tabs1, l1. split; [done|]. split; [exact (H2 (pte_val_P _ _))|]. split; [by eapply keeps_trans|done].
Qed.

(** ** Freeing a range *)

(** The frames mapped between [lo] and [hi]. *)
Definition in_range (lo hi : Z) (x : Z * Z) : Prop := lo <= x.1 < hi.
#[global] Instance in_range_dec lo hi x : Decision (in_range lo hi x).
Proof. unfold in_range. apply _. Defined.

Definition frame (e : Z) : Z := P2V (PTE_ADDR e).
Definition frames (E : gmap Z Z) (lo hi : Z) : list Z := frame ∘ snd <$> map_to_list (filter (in_range lo hi) E).
Definition unmap (E : gmap Z Z) (lo hi : Z) : gmap Z Z := filter (fun x => ~ in_range lo hi x) E.

(** Nothing is mapped from [lo] to [mid]. *)
Lemma frames_skip E lo mid hi :
  lo <= mid -> (forall va e, E !! va = Some e -> lo <= va < mid -> hi <= va) ->
  frames E lo hi = frames E mid hi /\ unmap E lo hi = unmap E mid hi.
Proof.
  intros Hm HE. unfold frames, unmap. split; [do 2 f_equal|]; apply map_filter_strong_ext_1; intros va e.
  - unfold in_range; simpl. split; intros [Hr He]; (split; [|done]); [|lia].
    destruct (decide (va < mid)); [|lia]. specialize (HE _ _ He). lia.
  - unfold in_range; simpl. split; intros [Hr He]; (split; [|done]); [lia|].
    destruct (decide (va < mid)); [|lia]. specialize (HE _ _ He). lia.
Qed.

(** The page at [lo] is mapped. *)
Lemma frames_step E lo hi e :
  (forall va e', E !! va = Some e' -> page_addr va) -> page_addr lo -> lo < hi -> E !! lo = Some e ->
  frames E lo hi ≡ₚ frame e :: frames (delete lo E) (lo + 4096) hi /\
  unmap E lo hi = unmap (delete lo E) (lo + 4096) hi.
Proof.
  intros Hdom [_ Hlo] Hlt He. unfold frames, unmap.
  assert (Hal : forall va e', E !! va = Some e' -> va <> lo -> lo <= va -> lo + 4096 <= va).
  { intros va e' Hv Hne Hle. destruct (Hdom _ _ Hv) as [_ Hv0]. apply Z.div_exact in Hv0, Hlo; lia. }
  assert (filter (in_range lo hi) E = <[lo := e]> (filter (in_range (lo + 4096) hi) (delete lo E))) as ->.
  { apply map_eq. intros va. apply option_eq. intros e'. rewrite map_lookup_filter_Some.
    rewrite lookup_insert_Some, map_lookup_filter_Some, lookup_delete_Some. unfold in_range; simpl. split.
    - intros [Hv Hr]. destruct (decide (lo = va)) as [->|]; [left; split; congruence|right].
      specialize (Hal _ _ Hv). split; [done|]. split; [done|]. lia.
    - intros [[<- <-]|(Hne & (_ & Hv) & Hr)]; [split; [done|lia]|]. split; [done|lia]. }
  split.
  - rewrite map_to_list_insert; [done|]. apply map_lookup_filter_None. left. apply lookup_delete_eq.
  - apply map_eq. intros va. apply option_eq. intros e'. rewrite !map_lookup_filter_Some, lookup_delete_Some.
    unfold in_range; simpl. split.
    + intros [Hv Hr]. split; [split; [|done]|lia]. intros <-. lia.
    + intros [[Hne Hv] Hr]. split; [done|]. specialize (Hal _ _ Hv ltac:(congruence)). lia.
Qed.

Lemma frames_nil E lo hi : hi <= lo -> frames E lo hi = [] /\ unmap E lo hi = E.
Proof.
  intros H. unfold frames, unmap. split.
  - assert (filter (in_range lo hi) E = ∅) as ->; [|by rewrite map_to_list_empty]. apply map_empty. intros va.
    apply map_lookup_filter_None. right. intros e _. unfold in_range; simpl. lia.
  - apply map_filter_id. intros va e _. unfold in_range; simpl. lia.
Qed.

(** The order of the pages that belong to others is irrelevant. *)
Lemma pt_inv_perm k pgdir tabs E G G' l :
  pt_inv c k pgdir tabs E G l -> G ≡ₚ G' -> pt_inv c k pgdir tabs E G' l.
Proof.
  intros H HG. split; [apply H|apply H|apply H| | |apply H|apply H|apply H|apply H].
  - rewrite <- HG. apply H.
  - rewrite <- HG. apply H.
Qed.

(** A page that belonged to somebody is freed. *)
Lemma pt_kfree k pgdir tabs E f G l :
  pt_inv c k pgdir tabs E (f :: G) l ->
  exists k', kfree f k = Ret tt k' /\ pt_inv c k' pgdir tabs E G (f :: l) /\ keeps G k k'.
Proof.
  intros H. pose proof (pi_nodup _ _ _ _ _ _ _ H) as Hnd.
  assert (Hperm : pgdir :: tab_pages tabs ++ (f :: G) ++ l ≡ₚ f :: pgdir :: tab_pages tabs ++ G ++ l)
    by (simpl; rewrite <- Permutation_middle; apply perm_swap).
  assert (Hnd2 : NoDup (pgdir :: tab_pages tabs ++ G ++ f :: l)).
  { rewrite (Permutation_middle G l f) in *. revert Hnd. simpl. by rewrite Permutation_middle. }
  rewrite Hperm in Hnd. apply NoDup_cons in Hnd as [Hf Hnd].
  assert (Hv : forall p, p ∈ f :: pgdir :: tab_pages tabs ++ G -> valid_page (kend k) p).
  { intros p Hp. eapply pi_page; [done|]. revert Hp. rewrite !elem_of_cons, !elem_of_app, elem_of_cons. tauto. }
  destruct (kfree_full c k l f) as (k' & Hrun & Hr & Hfr & Hm & He & Hu & Hd); [apply H|apply H|apply Hv; left| |].
  { intros Hin. apply Hf. right. rewrite !elem_of_app. tauto. }
  assert (Hout : forall p i, p ∈ pgdir :: tab_pages tabs ++ G -> 0 <= i < 1024 -> ld (mem k') (p + 4 * i) = ld (mem k) (p + 4 * i)).
  { intros p i Hp Hi. apply Hm. apply page_word_out; [apply Hv; left|apply Hv; by right| |done].
    intros ->. apply Hf. revert Hp. rewrite !elem_of_cons, !elem_of_app. tauto. }
  exists k'. split; [done|]. split.
  - eapply pt_inv_frame; [exact H|done|done|done|done| |].
    + apply Forall_forall. intros p Hp. apply Hv. rewrite !elem_of_cons, !elem_of_app. tauto.
    + intros p i Hp. apply Hout. revert Hp. rewrite !elem_of_cons, !elem_of_app. tauto.
  - do 3 (split; [done|]). intros g i Hg. apply Hout. rewrite !elem_of_cons, !elem_of_app. tauto.
Qed.

(** A free page becomes somebody's. *)
Lemma pt_kalloc k pgdir tabs E f G l :
  pt_inv c k pgdir tabs E G (f :: l) ->
  exists k', kalloc k = Ret f k' /\ (f =? 0) = false /\ pt_inv c k' pgdir tabs E (f :: G) l /\ mem k' = mem k /\ (forall G', keeps G' k k').
Proof.
  intros H. destruct (kalloc_full c k _ (pi_ready _ _ _ _ _ _ _ H) (pi_free _ _ _ _ _ _ _ H)) as (k' & Hrun & Hr & Hf & Hm & Hk).
  exists k'. split; [done|]. assert (Hfv : valid_page (kend k) f) by (eapply pi_list_page; [done|left]).
  split; [destruct Hfv as (_ & _ & _ & ?); lia|]. split; [|done].
  eapply pt_inv_frame; [exact H|done|done|apply (Hk [])| | |by rewrite Hm].
  - simpl. rewrite (Permutation_middle G l f). apply H.
  - apply Forall_cons. split; [done|]. pose proof (pi_valid _ _ _ _ _ _ _ H) as Hv. apply Forall_cons in Hv as [_ Hv].
    by apply Forall_app in Hv as [_ Hv].
Qed.

Lemma pt_kalloc_nil k pgdir tabs E G :
  pt_inv c k pgdir tabs E G [] ->
  exists k', kalloc k = Ret 0 k' /\ pt_inv c k' pgdir tabs E G [] /\ (forall G', keeps G' k k').
Proof.
  intros H. destruct (kalloc_full c k _ (pi_ready _ _ _ _ _ _ _ H) (pi_free _ _ _ _ _ _ _ H)) as (k' & Hrun & Hr & Hf & Hm & Hk).
  exists k'. split; [done|]. split; [|done].
  eapply pt_inv_frame; [exact H|done|done|apply (Hk [])|apply H| |by rewrite Hm].
  pose proof (pi_valid _ _ _ _ _ _ _ H) as Hv. apply Forall_cons in Hv as [_ Hv]. by apply Forall_app in Hv as [_ Hv].
Qed.

(** Writing into pages that belong to somebody: the table does not change. *)
Lemma pt_write k pgdir tabs E f G l g :
  pt_inv c k pgdir tabs E (f :: G) l ->
  (forall m a, a < f \/ f + 4096 <= a -> ld (g m) a = ld m a) ->
  pt_inv c (set_mem g k) pgdir tabs E (f :: G) l /\ keeps G k (set_mem g k).
Proof.
  intros H Hg. pose proof (pi_nodup _ _ _ _ _ _ _ H) as Hnd. simpl in Hnd.
  rewrite <- (Permutation_middle (tab_pages tabs)), Permutation_swap in Hnd. apply NoDup_cons in Hnd as [Hf _].
  assert (Hfv : valid_page (kend k) f) by (eapply pi_page; [done|]; rewrite elem_of_cons, elem_of_app, elem_of_cons; tauto).
  assert (Hout : forall p i, p ∈ pgdir :: tab_pages tabs ++ G ++ l -> p mod 4096 = 0 -> 0 <= i < 1024 ->
            ld (g (mem k)) (p + 4 * i) = ld (mem k) (p + 4 * i)).
  { intros p i Hp Hp0 Hi. apply Hg. apply page_word_out; [apply Hfv|done|congruence|done]. }
  assert (Hal : forall p, p ∈ pgdir :: tab_pages tabs ++ f :: G -> p mod 4096 = 0).
  { intros p Hp. eapply pi_page in Hp; [apply Hp|done]. }
  split.
  - eapply pt_inv_frame; [exact H|apply H| |done|apply H| |].
    + destruct (pi_free _ _ _ _ _ _ _ H) as (Hrep & Hl & Hlv). split; [|by split]. simpl.
      eapply freelist_rep_frame; [|done]. intros q Hq. replace q with (q + 4 * 0) by lia.
      rewrite Forall_forall in Hlv. apply Hout; [|by apply Hlv|lia]. rewrite elem_of_cons, !elem_of_app. tauto.
    + pose proof (pi_valid _ _ _ _ _ _ _ H) as Hv. apply Forall_cons in Hv as [_ Hv]. by apply Forall_app in Hv as [_ Hv].
    + intros p i Hp Hi. apply Hout; [|apply Hal|done]; revert Hp; rewrite !elem_of_cons, !elem_of_app; tauto.
  - do 3 (split; [done|]). intros p i Hp Hi. apply Hout; [|apply Hal|done]; rewrite !elem_of_cons, !elem_of_app, ?elem_of_cons; tauto.
Qed.

(** The next directory entry's first address, as [deallocuvm] skips to it. *)
Lemma next_table a :
  0 <= a < KERNBASE -> u32 (u32 (PGADDR (PDX a + 1) 0 0 - PGSIZE) + PGSIZE) = (a / 4194304 + 1) * 4194304.
Proof.
  unfold KERNBASE. intros Ha. rewrite PDX_eq by (unfold two32; lia).
  assert (0 <= a / 4194304 < 512) by (split; [apply Z.div_pos; lia|apply Z.div_lt_upper_bound; lia]).
  unfold PGADDR, PDXSHIFT, PTXSHIFT, PGSIZE. rewrite Z.shiftl_0_l, !Z.lor_0_r, Z.shiftl_mul_pow2 by lia.
  change (2 ^ 22) with 4194304. rewrite (u32_id ((_ + 1) * _)) by (unfold two32; lia).
  rewrite (u32_id (_ - 4096)) by (unfold two32; lia). rewrite u32_id; unfold two32; lia.
Qed.

Lemma skip_bounds a : 0 <= a < KERNBASE -> a mod 4096 = 0 ->
  a + 4096 <= (a / 4194304 + 1) * 4194304 <= KERNBASE /\ ((a / 4194304 + 1) * 4194304) mod 4096 = 0.
Proof.
  unfold KERNBASE. intros Ha H0. apply Z.div_exact in H0; [|lia].
  assert (0 <= a / 4194304 < 512) by (split; [apply Z.div_pos; lia|apply Z.div_lt_upper_bound; lia]).
  pose proof (Z.div_mod a 4194304). pose proof (Z.mod_pos_bound a 4194304). split; [lia|].
  replace ((a / 4194304 + 1) * 4194304) with ((a / 4194304 + 1) * 1024 * 4096) by lia. apply Z.mod_mul. lia.
Qed.

(** No page of an absent table is mapped. *)
Lemma absent_unmapped k pgdir tabs E G l a va e :
  pt_inv c k pgdir tabs E G l -> 0 <= a < KERNBASE -> tabs !! PDX a = None ->
  E !! va = Some e -> a <= va < (a / 4194304 + 1) * 4194304 -> False.
Proof.
  intros H Ha Ht He Hr. destruct (mapped_table _ _ _ _ _ _ _ _ H He) as [t Ht'].
  destruct (pi_dom _ _ _ _ _ _ _ H _ _ He) as [Hva _].
  assert (PDX va = PDX a) as Heq; [|congruence]. unfold KERNBASE, two32 in *. rewrite !PDX_eq by (unfold two32; lia).
  pose proof (Z.div_mod a 4194304). pose proof (Z.mod_pos_bound a 4194304). symmetry. apply (Z.div_unique va 4194304 _ (va - 4194304 * (a / 4194304))); lia.
Qed.

(** A page that nobody maps. *)
Lemma frames_skip_page E a hi :
  (forall va e, E !! va = Some e -> page_addr va) -> a mod 4096 = 0 -> E !! a = None ->
  frames E a hi = frames E (a + 4096) hi /\ unmap E a hi = unmap E (a + 4096) hi.
Proof.
  intros Hdom Ha He. apply frames_skip; [lia|]. intros va e Hv Hr. destruct (Hdom _ _ Hv) as [_ Hv0].
  apply Z.div_exact in Hv0, Ha; [|lia..]. replace va with a in Hv by lia. congruence.
Qed.

(** One mapped page freed. *)
Lemma dealloc_page k pgdir tabs E G l a t e :
  pt_inv c k pgdir tabs E (frame e :: G) l -> page_addr a -> tabs !! PDX a = Some t -> E !! a = Some e ->
  exists k', (unless_panic (PTE_ADDR e =? 0) "kfree";; kfree (P2V (PTE_ADDR e));; store (t + 4 * PTX a) 0) k = Ret tt k' /\
    pt_inv c k' pgdir tabs (delete a E) G (frame e :: l) /\ keeps G k k'.
Proof.
  intros H Ha Ht He. assert ((PTE_ADDR e =? 0) = false) as ->.
  { apply Z.eqb_neq. intros H0. assert (Hv : valid_page (kend k) (frame e)).
    { eapply pi_page; [done|]. rewrite elem_of_cons, elem_of_app, elem_of_cons. tauto. }
    pose proof (pi_base _ _ _ _ _ _ _ H) as Hb. destruct Hv as (_ & Hle & _). unfold frame in Hle. rewrite H0 in Hle.
    change (P2V 0) with KERNBASE in Hle. lia. }
  rewrite bind_unless_false. destruct (pt_kfree _ _ _ _ _ _ _ H) as (k1 & Hrun & H1 & Hk1).
  change (P2V (PTE_ADDR e)) with (frame e). mstep Hrun.
  destruct (pt_store_pte c k1 pgdir tabs E G _ a t 0 H1 Ha Ht) as (Hk2 & _ & H2). eexists. split; [done|].
  split; [by apply H2|by eapply keeps_trans].
Qed.

Lemma deallocuvm_loop_run fuel k pgdir tabs E G l a hi :
  pt_inv c k pgdir tabs E (frames E a hi ++ G) l -> 0 <= a <= KERNBASE + 4096 -> a mod 4096 = 0 -> hi <= KERNBASE ->
  hi - a <= 4096 * Z.of_nat fuel ->
  exists k' l', deallocuvm_loop fuel pgdir a hi k = Ret tt k' /\
    pt_inv c k' pgdir tabs (unmap E a hi) G l' /\ keeps G k k' /\ l' ≡ₚ frames E a hi ++ l.
Proof.
  revert k E l a. induction fuel as [|fuel IH]; intros k E l a H Ha Ha0 Hhi Hfuel; cbn [deallocuvm_loop].
  all: destruct (Z.ltb_spec a hi) as [Hlt|Hge];
    [|destruct (frames_nil E a hi Hge) as [Hf Hu]; rewrite Hf, Hu in *; exists k, l; done].
  { lia. }
  assert (Hpa : page_addr a) by (unfold KERNBASE in *; split; [unfold two32; lia|done]).
  pose proof (pi_dom _ _ _ _ _ _ _ H) as Hdom. destruct (tabs !! PDX a) as [t|] eqn:Ht.
  - mstep (walk_present c _ _ _ _ _ _ _ _ false H (proj1 Hpa) Ht). rewrite (table_word_nz _ _ _ _ _ _ _ _ H (proj1 Hpa) Ht).
    unfold load. rewrite bind_gets. pose proof (load_pte _ _ _ _ _ _ _ _ H Hpa Ht) as Hl.
    unfold PGSIZE. rewrite (u32_id (a + 4096)) by (unfold KERNBASE, two32 in *; lia).
    destruct (E !! a) as [e|] eqn:He.
    + destruct Hl as [-> Hp]. rewrite (proj2 (Z.eqb_neq _ _) Hp). cbn [negb].
      destruct (frames_step E a hi e Hdom Hpa Hlt He) as [Hf Hu].
      destruct (dealloc_page k pgdir tabs E (frames (delete a E) (a + 4096) hi ++ G) l a t e) as (k1 & Hrun & H1 & Hk1); [|done..|].
      { eapply pt_inv_perm; [exact H|]. by rewrite Hf. }
      mstep Hrun. destruct (IH k1 (delete a E) _ (a + 4096) H1) as (k2 & l' & Hrun2 & H2 & Hk2 & Hl'); [lia| |done|lia|].
      { rewrite Zplus_mod, Ha0. done. }
      exists k2, l'. split; [done|]. rewrite Hu. split; [done|]. split.
      * eapply keeps_trans; [|done]. eapply keeps_sub; [done|]. intros g Hg. apply elem_of_app. by right.
      * rewrite Hl', Hf. simpl. by rewrite Permutation_middle.
    + rewrite Hl. cbn [negb Z.eqb]. rewrite bind_mret. destruct (frames_skip_page E a hi Hdom Ha0 He) as [Hf Hu]. rewrite Hf, Hu in *.
      apply IH; [done|lia| |done|lia]. rewrite Zplus_mod, Ha0. done.
  - mstep (walk_absent c _ _ _ _ _ _ _ H (proj1 Hpa) Ht). cbn [Z.eqb]. rewrite next_table by lia.
    destruct (skip_bounds a ltac:(lia) Ha0) as [Hb1 Hb2]. set (b := (a / 4194304 + 1) * 4194304) in *.
    destruct (frames_skip E a b hi) as [Hf Hu]; [lia| |].
    { intros va e He Hr. exfalso. eapply (absent_unmapped _ _ _ _ _ _ a); [exact H|lia|done|exact He|exact Hr]. }
    rewrite Hf, Hu in *. apply IH; [done|lia|done|done|lia].
Qed.

Lemma deallocuvm_run k pgdir tabs E G l newsz oldsz :
  pt_inv c k pgdir tabs E (frames E (PGROUNDUP newsz) oldsz ++ G) l -> 0 <= newsz -> newsz < oldsz <= KERNBASE ->
  exists k' l', deallocuvm pgdir oldsz newsz k = Ret newsz k' /\
    pt_inv c k' pgdir tabs (unmap E (PGROUNDUP newsz) oldsz) G l' /\ keeps G k k' /\ l' ≡ₚ frames E (PGROUNDUP newsz) oldsz ++ l.
Proof.
  intros H H0 Hlt. unfold deallocuvm. destruct (Z.leb_spec oldsz newsz); [lia|].
  destruct (PGROUNDUP_ge newsz) as [Hr Hm]; [unfold KERNBASE, two32 in *; lia|].
  pose proof (Z.div_mod oldsz 4096). pose proof (Z.mod_pos_bound oldsz 4096).
  assert (0 <= oldsz / 4096) by (apply Z.div_pos; lia).
  destruct (deallocuvm_loop_run (Z.to_nat (oldsz / PGSIZE + 1)) k pgdir tabs E G l (PGROUNDUP newsz) oldsz H) as (k' & l' & Hrun & R);
    [lia|done|lia|unfold PGSIZE; lia|].
  mstep Hrun. by exists k', l'.
Qed.

(** ** Freeing a page table *)

(** The directory from entry [i] on, while the tables before are freed. *)
Record dir_inv (k : mach) (pgdir : Z) (tabs : gmap Z Z) (i : Z) (G l : list Z) : Prop := {
  di_ready : kready c k;
  di_free : free_inv k l;
  di_base : KERNBASE < kend k;
  di_nodup : NoDup (pgdir :: tab_pages tabs ++ G ++ l);
  di_valid : Forall (valid_page (kend k)) (pgdir :: tab_pages tabs ++ G);
  di_idx : forall j t, tabs !! j = Some t -> i <= j < 1024;
  di_pde : forall j, i <= j < 1024 ->
    match tabs !! j with
    | Some t => ld (mem k) (pgdir + 4 * j) = V2P t + 7
    | None => Z.land (ld (mem k) (pgdir + 4 * j)) PTE_P = 0
    end }.

Lemma pt_dir_inv k pgdir tabs E G l : pt_inv c k pgdir tabs E G l -> dir_inv k pgdir tabs 0 G l.
Proof. intros H. split; apply H. Qed.

Lemma tab_pages_delete tabs i t : tabs !! i = Some t -> tab_pages tabs ≡ₚ t :: tab_pages (delete i tabs).
Proof. intros H. rewrite <- (insert_delete_id tabs i t H) at 1. apply tab_pages_insert, lookup_delete_eq. Qed.

(** Entry [i] has a table: it is freed. *)
Lemma free_table k pgdir tabs i G l t :
  dir_inv k pgdir tabs i G l -> 0 <= i -> tabs !! i = Some t ->
  exists k', kfree t k = Ret tt k' /\ dir_inv k' pgdir (delete i tabs) (i + 1) G (t :: l) /\ keeps (pgdir :: G) k k'.
Proof.
  intros [Hr Hf Hb Hnd Hv Hix Hpd] Hi Ht. pose proof (tab_pages_delete tabs i t Ht) as Htp.
  pose proof Hnd as Hnd'. rewrite Htp in Hnd. simpl in Hnd. rewrite Permutation_swap in Hnd. apply NoDup_cons in Hnd as [Hnt Hnd].
  rewrite Htp in Hv. simpl in Hv. rewrite Permutation_swap in Hv. apply Forall_cons in Hv as [Htv Hv].
  rewrite Forall_forall in Hv.
  destruct (kfree_full c k l t Hr Hf Htv) as (k' & Hrun & Hr' & Hf' & Hm & He & Hu & Hd).
  { intros Hin. apply Hnt. rewrite elem_of_cons, !elem_of_app. tauto. }
  assert (Hout : forall p j, p ∈ pgdir :: G -> 0 <= j < 1024 -> ld (mem k') (p + 4 * j) = ld (mem k) (p + 4 * j)).
  { intros p j Hp Hj. apply Hm, page_word_out; [apply Htv| | |done].
    - apply Hv. revert Hp. rewrite !elem_of_cons, elem_of_app. tauto.
    - intros ->. apply Hnt. revert Hp. rewrite !elem_of_cons, !elem_of_app. tauto. }
  exists k'. split; [done|]. split; [|by repeat split]. split; [done|done|by rewrite He| |by rewrite He, Forall_forall| |].
  - rewrite Htp in Hnd'. rewrite (app_assoc _ G (t :: l)), <- Permutation_middle, <- app_assoc. exact Hnd'.
  - intros j t' [Hne Hj]%lookup_delete_Some. specialize (Hix _ _ Hj). lia.
  - intros j Hj. rewrite Hout by (left || lia). rewrite lookup_delete_ne by lia. apply Hpd. lia.
Qed.

Lemma free_tables_run n i k pgdir tabs G l :
  dir_inv k pgdir tabs i G l -> 0 <= i -> i + Z.of_nat n = 1024 ->
  exists k' l', free_tables n pgdir i k = Ret tt k' /\ kready c k' /\ free_inv k' l' /\ l' ≡ₚ tab_pages tabs ++ l /\
    keeps (pgdir :: G) k k'.
Proof.
  revert i k tabs l. induction n as [|n IH]; intros i k tabs l H Hi Hn; cbn [free_tables].
  - assert (tabs = ∅) as ->.
    { apply map_empty. intros j. destruct (tabs !! j) eqn:Hj; [|done]. apply (di_idx _ _ _ _ _ _ H) in Hj. lia. }
    exists k, l. split; [done|]. split; [apply H|]. split; [apply H|]. done.
  - unfold load. rewrite bind_gets. pose proof (di_pde _ _ _ _ _ _ H i ltac:(lia)) as Hpd.
    destruct (tabs !! i) as [t|] eqn:Ht.
    + assert (Htv : valid_page (kend k) t).
      { pose proof (di_valid _ _ _ _ _ _ H) as Hv. rewrite Forall_forall in Hv. apply Hv. right. apply elem_of_app. left.
        apply elem_of_tab_pages. eauto. }
      pose proof (di_base _ _ _ _ _ _ H) as Hb. destruct (V2P_page _ t Hb Htv) as (_ & Hr & Hp2v).
      destruct (pde_read (V2P t) Hr (V2P_aligned _ t Hb Htv)) as [Hp Ha].
      rewrite Hpd, (proj2 (Z.eqb_neq _ _) Hp), Ha, Hp2v. cbn [negb].
      destruct (free_table _ _ _ _ _ _ _ H Hi Ht) as (k1 & Hrun & H1 & Hk1). mstep Hrun.
      destruct (IH (i + 1) k1 _ _ H1) as (k' & l' & Hrun' & R1 & R2 & R3 & R4); [lia|lia|].
      exists k', l'. do 3 (split; [done|]). split; [|by eapply keeps_trans].
      rewrite R3, (tab_pages_delete tabs i t Ht). simpl. by rewrite Permutation_middle.
    + rewrite Hpd. cbn [Z.eqb negb]. rewrite bind_mret. apply IH; [|lia|lia]. destruct H as [? ? ? ? ? Hix Hpd']. split; try done.
      * intros j t' Hj. pose proof (Hix _ _ Hj). assert (j <> i) by congruence. lia.
      * intros j Hj. apply Hpd'. lia.
Qed.

Lemma freevm_run k pgdir tabs E G l :
  pt_inv c k pgdir tabs E (frames E 0 KERNBASE ++ G) l ->
  exists k' l', freevm pgdir k = Ret tt k' /\ kready c k' /\ free_inv k' l' /\
    l' ≡ₚ pgdir :: tab_pages tabs ++ frames E 0 KERNBASE ++ l /\ keeps G k k'.
Proof.
  intros H. unfold freevm. assert (Hpv : valid_page (kend k) pgdir) by (eapply pi_page; [done|left]).
  assert ((pgdir =? 0) = false) as -> by (destruct Hpv as (_ & _ & _ & ?); lia). rewrite bind_unless_false.
  destruct (deallocuvm_run k pgdir tabs E G l 0 KERNBASE H) as (k1 & l1 & Hrun & H1 & Hk1 & Hl1); [lia|unfold KERNBASE; lia|].
  change (PGROUNDUP 0) with 0 in *. mstep Hrun.
  destruct (free_tables_run (Z.to_nat NPDENTRIES) 0 k1 pgdir tabs G l1 (pt_dir_inv _ _ _ _ _ _ H1)) as (k2 & l2 & Hrun2 & Hr2 & Hf2 & Hl2 & Hk2);
    [lia|done|]. mstep Hrun2. destruct Hk1 as (He1 & K1). pose proof Hk2 as (He2 & _).
  assert (Hnd1 : pgdir ∉ l2).
  { rewrite Hl2. pose proof (pi_nodup _ _ _ _ _ _ _ H1) as Hnd. apply NoDup_cons in Hnd as [Hnd _]. revert Hnd. rewrite !elem_of_app. tauto. }
  destruct (kfree_full c k2 l2 pgdir Hr2 Hf2) as (k3 & Hrun3 & Hr3 & Hf3 & Hm3 & He3 & Hu3 & Hd3); [by rewrite He2, He1|done|].
  rewrite Hrun3. exists k3, (pgdir :: l2). do 3 (split; [done|]). split; [by rewrite Hl2, Hl1|].
  eapply keeps_trans; [exact (conj He1 K1)|]. eapply keeps_trans; [eapply keeps_sub; [exact Hk2|intros; by right]|].
  do 3 (split; [done|]). intros g i Hg Hi. assert (g ∈ pgdir :: tab_pages tabs ++ G) as Hin by (rewrite elem_of_cons, elem_of_app; tauto).
  apply Hm3, page_word_out; [apply Hpv| | |done].
  - eapply pi_page in Hin; [apply Hin|exact H1].
  - intros ->. pose proof (pi_nodup _ _ _ _ _ _ _ H1) as Hnd. apply NoDup_cons in Hnd as [Hnd _]. apply Hnd. rewrite !elem_of_app. tauto.
Qed.

(** ** A new page table *)

(** Memory with no page table in sight: [G] belongs to others, [l] is free. *)
Definition heap_inv (k : mach) (G l : list Z) : Prop :=
  kready c k /\ free_inv k l /\ KERNBASE < kend k /\ NoDup (G ++ l) /\ Forall (valid_page (kend k)) G.

Lemma pt_heap_inv k pgdir tabs E G l : pt_inv c k pgdir tabs E G l -> heap_inv k (pgdir :: tab_pages tabs ++ G) l.
Proof.
  intros H. split; [apply H|]. split; [apply H|]. split; [apply H|]. split; [|apply H].
  simpl. rewrite <- app_assoc. apply H.
Qed.

Lemma heap_inv_perm k k' G l l' :
  heap_inv k G l -> kready c k' -> free_inv k' l' -> kend k' = kend k -> l' ≡ₚ l -> heap_inv k' G l'.
Proof.
  intros (_ & _ & H3 & H4 & H5) Hr Hf He Hl. do 2 (split; [done|]). rewrite He. split; [done|]. split; [by rewrite Hl|done].
Qed.

Lemma dead_entry k p i : ld (memset_page (mem k) p 0) (p + 4 * i) = 0 -> Z.land (ld (memset_page (mem k) p 0) (p + 4 * i)) PTE_P = 0.
Proof. by intros ->. Qed.

Lemma new_dir k G p l :
  heap_inv k G (p :: l) ->
  exists k', kalloc k = Ret p k' /\ (p =? 0) = false /\ pt_inv c (set_mem (fun m => memset_page m p 0) k') p ∅ ∅ G l /\
    keeps G k (set_mem (fun m => memset_page m p 0) k').
Proof.
  intros (Hr & Hf & Hb & Hnd & Hv). destruct (kalloc_full c k _ Hr Hf) as (k' & Hrun & Hr' & Hf' & Hm & Hk). cbn [hd tail] in *.
  exists k'. split; [done|]. assert (Hpv : valid_page (kend k) p) by (destruct Hf as (_ & _ & Hl); by apply Forall_cons in Hl as [Hl _]).
  split; [destruct Hpv as (_ & _ & _ & ?); lia|]. rewrite <- Permutation_middle in Hnd. apply NoDup_cons in Hnd as [Hp Hnd].
  assert (Hout : forall q i, q ∈ G ++ l -> q mod 4096 = 0 -> 0 <= i < 1024 -> ld (memset_page (mem k) p 0) (q + 4 * i) = ld (mem k) (q + 4 * i)).
  { intros q i Hq Hq0 Hi. apply ld_memset_page_out, page_word_out; [apply Hpv|done|congruence|done]. }
  destruct (Hk []) as (He & Hu & Hd & _). rewrite Forall_forall in Hv. split.
  - split; simpl.
    + exact Hr'.
    + destruct Hf' as (Hrep & Hl & Hlv). split; [|by split]. simpl. eapply freelist_rep_frame; [|done]. intros q Hq.
      replace q with (q + 4 * 0) by lia. rewrite Hm. rewrite Forall_forall in Hlv. apply Hout; [|by apply Hlv|lia].
      apply elem_of_app. by right.
    + by rewrite He.
    + by apply NoDup_cons.
    + rewrite He. apply Forall_cons. split; [done|]. by apply Forall_forall.
    + done.
    + intros i Hi. rewrite Hm, lookup_empty. apply dead_entry, ld_memset_page_in; done.
    + done.
    + intros va Hva. done.
  - do 3 (split; [done|]). intros g i Hg Hi. simpl. rewrite Hm. apply Hout; [apply elem_of_app; by left|apply Hv, Hg|done].
Qed.

Lemma tabs_size k pgdir tabs E G l : pt_inv c k pgdir tabs E G l -> (length (tab_pages tabs) <= 1024)%nat.
Proof.
  intros H. unfold tab_pages. rewrite length_fmap. rewrite <- (length_fmap fst).
  transitivity (length (Z.of_nat <$> seq 0 1024)); [|rewrite length_fmap, length_seq; done].
  apply submseteq_length, NoDup_submseteq; [apply NoDup_fst_map_to_list|]. intros i Hi.
  apply list_elem_of_fmap in Hi as ([j t] & -> & Hin). apply elem_of_map_to_list in Hin.
  pose proof (pi_idx _ _ _ _ _ _ _ H _ _ Hin) as Hr. apply list_elem_of_fmap. exists (Z.to_nat j). split; [simpl; lia|].
  apply elem_of_seq. lia.
Qed.

(** ** The kernel mappings *)

Definition ksize (e : kmap_entry) : Z := u32 (phys_end e - phys_start e).
Definition kpages (e : kmap_entry) : nat := Z.to_nat (ksize e / 4096).

Definition map_kmap (E : gmap Z Z) (ks : list kmap_entry) : gmap Z Z :=
  foldl (fun E e => map_range E (virt e) (phys_start e) (perm e) (kpages e)) E ks.

(** The entries are page aligned, non-empty and in increasing order from [b]. *)
Fixpoint kmap_chain (b : Z) (ks : list kmap_entry) : Prop :=
  match ks with
  | [] => True
  | e :: ks =>
      b <= virt e /\ virt e mod 4096 = 0 /\ 0 < ksize e /\ ksize e mod 4096 = 0 /\ virt e + ksize e <= two32 /\
      0 <= phys_start e /\ phys_start e + ksize e <= two32 /\ kmap_chain (virt e + ksize e) ks
  end.

Definition above_kernbase (E : gmap Z Z) (b : Z) : Prop := forall va e, E !! va = Some e -> KERNBASE <= va < b.

Lemma above_map_range E a pa perm m b b' :
  (forall va e, map_range E a pa perm m !! va = Some e -> page_addr va) -> above_kernbase E b ->
  a mod 4096 = 0 -> KERNBASE <= a -> b <= b' -> a + 4096 * Z.of_nat m <= b' -> above_kernbase (map_range E a pa perm m) b'.
Proof.
  intros Hdom HE Ha Hk Hb Hb' va e Hv. pose proof (Hdom _ _ Hv) as [_ Hva].
  rewrite lookup_map_range in Hv by done. destruct (decide _); [lia|]. apply HE in Hv. lia.
Qed.

Lemma above_frames E b : above_kernbase E b -> frames E 0 KERNBASE = [].
Proof.
  intros HE. destruct (frames_skip E 0 KERNBASE KERNBASE) as [-> _]; [done|intros va e Hv; apply HE in Hv; lia|].
  by apply frames_nil.
Qed.

Lemma setupkvm_loop_run ks b k pgdir tabs E G l :
  pt_inv c k pgdir tabs E G l -> kmap_chain b ks -> KERNBASE <= b -> above_kernbase E b ->
  (exists k' tabs' l', setupkvm_loop pgdir ks k = Ret pgdir k' /\ pt_inv c k' pgdir tabs' (map_kmap E ks) G l' /\
     keeps G k k' /\ taken tabs tabs' l l') \/
  (exists k' l', setupkvm_loop pgdir ks k = Ret 0 k' /\ kready c k' /\ free_inv k' l' /\
     l' ≡ₚ pgdir :: tab_pages tabs ++ l /\ keeps G k k' /\ (length (tab_pages tabs ++ l) <= 1024)%nat).
Proof.
  revert b k tabs E l. induction ks as [|e ks IH]; intros b k tabs E l H Hks Hb HE; cbn [setupkvm_loop].
  { left. exists k, tabs, l. done. }
  destruct Hks as (Hv & Hv0 & Hs & Hs0 & Hvs & Hp & Hps & Hks). fold (ksize e).
  pose proof Hv0 as Hv1. pose proof Hs0 as Hs1. apply Z.div_exact in Hv1, Hs1; [|lia..].
  assert (Hlp : S (last_page (virt e) (ksize e)) = kpages e).
  { unfold last_page, kpages.
    replace ((virt e + ksize e - 1) / 4096) with (virt e / 4096 + ksize e / 4096 - 1); [lia|].
    apply (Z.div_unique _ _ _ 4095); lia. }
  assert (Hkp : 4096 * Z.of_nat (kpages e) = ksize e) by (unfold kpages; lia).
  destruct (mappages_run k pgdir tabs E G l (virt e) (ksize e) (phys_start e) (perm e) H)
    as (m & k1 & tabs1 & l1 & Hrun & Hm & H1 & Hk1 & Htk & Hl1); [unfold KERNBASE in *; lia|lia|lia|lia|lia| |].
  { intros i Hi. destruct (E !! _) eqn:Hl; [|done]. apply HE in Hl. lia. }
  mstep Hrun. rewrite Hlp in *. replace (virt e / 4096 * 4096) with (virt e) in H1 by lia.
  destruct (decide (m = kpages e)) as [->|Hne]; cbn [Z.ltb Z.compare].
  - destruct (IH (virt e + ksize e) k1 tabs1 _ l1 H1 Hks) as [(k' & tabs' & l' & Hrun' & H' & Hk' & Htk')|(k' & l' & Hrun' & R1 & R2 & R3 & R4 & R5)].
    + lia.
    + eapply above_map_range; [apply H1|exact HE|done|lia|lia|lia].
    + left. exists k', tabs', l'. do 2 (split; [done|]). split; [by eapply keeps_trans|by eapply taken_trans].
    + right. exists k', l'. do 3 (split; [done|]). destruct Htk as [_ Htk].
      split; [by rewrite R3, Htk|]. split; [by eapply keeps_trans|by rewrite <- Htk].
  - right. rewrite (Hl1 Hne) in *.
    assert (HE' : above_kernbase (map_range E (virt e) (phys_start e) (perm e) m) (virt e + ksize e)).
    { eapply above_map_range; [apply H1|exact HE|done|lia|lia|lia]. }
    destruct (freevm_run k1 pgdir tabs1 (map_range E (virt e) (phys_start e) (perm e) m) G []) as (k' & l' & Hrun' & R1 & R2 & R3 & R4).
    { rewrite (above_frames _ _ HE'). exact H1. }
    rewrite (above_frames _ _ HE') in R3. destruct Htk as [_ Htk]. simpl in R3.
    mstep Hrun'. exists k', l'. do 3 (split; [done|]). split; [by rewrite R3, Htk|]. split; [by eapply keeps_trans|].
    rewrite <- Htk, app_nil_r. by eapply tabs_size.
Qed.

(** The PTE of a kernel address: the first megabyte and the kernel's data are
    writable, its text is not, and devices are mapped where they are. *)
Definition kernel_pte (data va : Z) : option Z :=
  if decide (KERNBASE <= va < KERNLINK) then Some (pte_val (va - KERNBASE) PTE_W)
  else if decide (KERNLINK <= va < data) then Some (pte_val (va - KERNBASE) 0)
  else if decide (data <= va < KERNBASE + PHYSTOP) then Some (pte_val (va - KERNBASE) PTE_W)
  else if decide (DEVSPACE <= va) then Some (pte_val va PTE_W)
  else None.

Definition data_ok (data : Z) : Prop := KERNLINK < data < KERNBASE + PHYSTOP /\ data mod 4096 = 0.

Lemma V2P_eq x : KERNBASE <= x < two32 -> V2P x = x - KERNBASE.
Proof. unfold KERNBASE. intros H. unfold V2P, KERNBASE. rewrite (u32_id x), u32_id; unfold two32 in *; lia. Qed.

Lemma kmap_sizes data : data_ok data ->
  ksize <$> kmap data = [0x100000; data - KERNLINK; KERNBASE + PHYSTOP - data; 0x2000000].
Proof.
  intros [Hd _]. unfold kmap, ksize. simpl. rewrite (V2P_eq data) by (unfold KERNLINK, KERNBASE, EXTMEM, PHYSTOP, two32 in *; lia).
  change (V2P KERNLINK) with EXTMEM. change (u32 EXTMEM) with 0x100000. change (u32 (0 - DEVSPACE)) with 0x2000000.
  unfold KERNLINK, KERNBASE, EXTMEM, PHYSTOP in *. f_equal. f_equal; [rewrite u32_id; unfold two32; lia|].
  f_equal. rewrite u32_id; unfold two32; lia.
Qed.

Lemma kmap_chain_ok data : data_ok data -> kmap_chain KERNBASE (kmap data).
Proof.
  intros Hd. pose proof (kmap_sizes data Hd) as Hs. destruct Hd as [Hd Hd0]. unfold kmap in *. cbn [fmap list_fmap] in Hs.
  injection Hs as S2 S3. cbn [kmap_chain]. rewrite S2, S3. cbn [virt phys_start].
  change (ksize (mkkmap KERNBASE 0 EXTMEM PTE_W)) with 0x100000.
  change (ksize (mkkmap DEVSPACE DEVSPACE 0 PTE_W)) with 0x2000000.
  rewrite (V2P_eq data) by (unfold KERNLINK, KERNBASE, EXTMEM, PHYSTOP, two32 in *; lia). apply Z.div_exact in Hd0; [|lia].
  unfold KERNLINK, KERNBASE, EXTMEM, PHYSTOP, two32 in *.
  assert ((data - (2147483648 + 1048576)) mod 4096 = 0).
  { replace (data - _) with ((data / 4096 - 524544) * 4096) by lia. apply Z.mod_mul. lia. }
  assert ((2147483648 + 234881024 - data) mod 4096 = 0).
  { replace (_ - data) with ((581632 - data / 4096) * 4096) by lia. apply Z.mod_mul. lia. }
  assert (data mod 4096 = 0) by (rewrite Hd0, Z.mul_comm; apply Z.mod_mul; lia).
  change (V2P (2147483648 + 1048576)) with 1048576. unfold DEVSPACE.
  repeat match goal with |- _ /\ _ => split end; first [lia|done|reflexivity].
Qed.

Lemma kpages_size e : 0 < ksize e -> ksize e mod 4096 = 0 -> 4096 * Z.of_nat (kpages e) = ksize e.
Proof. intros H0 H. unfold kpages. apply Z.div_exact in H; lia. Qed.

Lemma kernel_map data va : data_ok data -> page_addr va -> map_kmap ∅ (kmap data) !! va = kernel_pte data va.
Proof.
  intros Hd [Hva Hva0]. pose proof (kmap_sizes data Hd) as Hs. pose proof (kmap_chain_ok data Hd) as Hc.
  destruct Hd as [Hd Hd0]. unfold kmap in Hs, Hc |- *. cbn [fmap list_fmap] in Hs. injection Hs as S2 S3.
  cbn [kmap_chain] in Hc. destruct Hc as (_ & _ & A1 & A2 & _ & _ & _ & _ & _ & B1 & B2 & _ & _ & _ & _ & _ & C1 & C2 & _ & _ & _ & _ & _ & D1 & D2 & _).
  apply kpages_size in A2, B2, C2, D2; [|done..]. unfold map_kmap. cbn [foldl].
  cbn [virt] in *. rewrite !lookup_map_range; [|done..].
  rewrite A2, B2, C2, D2, S2, S3. cbn [phys_start perm]. rewrite lookup_empty. unfold kernel_pte.
  change (ksize (mkkmap KERNBASE 0 EXTMEM PTE_W)) with 0x100000.
  change (ksize (mkkmap DEVSPACE DEVSPACE 0 PTE_W)) with 0x2000000.
  rewrite (V2P_eq data) by (unfold KERNLINK, KERNBASE, EXTMEM, PHYSTOP, two32 in *; lia).
  change (V2P KERNLINK) with (KERNLINK - KERNBASE).
  unfold KERNLINK, KERNBASE, EXTMEM, PHYSTOP, DEVSPACE, two32 in *.
  repeat case_decide; try lia; try done; do 2 f_equal; lia.
Qed.

Lemma setupkvm_run k G l :
  heap_inv k G l -> data_ok (kdata k) ->
  (exists pgdir k' tabs E l', setupkvm k = Ret pgdir k' /\ pgdir <> 0 /\ pt_inv c k' pgdir tabs E G l' /\
     (forall va, page_addr va -> E !! va = kernel_pte (kdata k) va) /\
     pgdir :: tab_pages tabs ++ l' ≡ₚ l /\ keeps G k k') \/
  (exists k' l', setupkvm k = Ret 0 k' /\ heap_inv k' G l' /\ l' ≡ₚ l /\ keeps G k k' /\ (length l <= 1025)%nat).
Proof.
  intros H Hd. unfold setupkvm. destruct l as [|p l].
  - right. destruct (kalloc_full c k [] (proj1 H) (proj1 (proj2 H))) as (k' & Hrun & Hr & Hf & Hm & Hk). mstep Hrun.
    exists k', []. split; [done|]. split; [eapply heap_inv_perm; [exact H|done|done|apply (Hk [])|done]|].
    split; [done|]. split; [apply Hk|]. simpl. lia.
  - destruct (new_dir k G p l H) as (k1 & Hrun & Hp & H1 & Hk1). mstep Hrun. rewrite Hp. unfold memset0_page. rewrite bind_modify.
    change (DEVSPACE <? P2V PHYSTOP) with false. rewrite bind_unless_false, bind_get.
    assert (kdata (set_mem (fun m => memset_page m p 0) k1) = kdata k) as -> by apply Hk1.
    destruct (setupkvm_loop_run _ KERNBASE _ p ∅ ∅ G l H1 (kmap_chain_ok _ Hd)) as
      [(k' & tabs' & l' & Hrun' & H' & Hk' & _ & Htk')|(k' & l' & Hrun' & R1 & R2 & R3 & R4 & R5)]; [done|done| |].
    + left. exists p, k', tabs', (map_kmap ∅ (kmap (kdata k))), l'. split; [exact Hrun'|]. split; [lia|]. split; [exact H'|].
      split; [intros va Hva; by apply kernel_map|]. split; [by rewrite Htk'|by eapply keeps_trans].
    + right. exists k', l'. split; [exact Hrun'|]. assert (kend k' = kend k) by (destruct R4 as [-> _]; apply Hk1).
      split; [by eapply heap_inv_perm|]. split; [done|]. split; [by eapply keeps_trans|]. change (tab_pages ∅ ++ l) with l in R5. simpl. lia.
Qed.

(** ** Growing a process *)

(** [a, a + 4096, ...] mapped to the pages [ps], with the permissions [fl]. *)
Fixpoint map_pages (fl : Z -> Z) (E : gmap Z Z) (a : Z) (ps : list Z) : gmap Z Z :=
  match ps with
  | [] => E
  | p :: ps => map_pages fl (<[a := pte_val (V2P p) (fl a)]> E) (a + 4096) ps
  end.

Definition user_rw (_ : Z) : Z := Z.lor PTE_W PTE_U.

Definition zeroed (k : mach) (ps : list Z) : Prop := forall p i, p ∈ ps -> 0 <= i < 1024 -> ld (mem k) (p + 4 * i) = 0.

Lemma pte_frame k p perm : KERNBASE < kend k -> valid_page (kend k) p -> 0 <= perm < 4096 -> frame (pte_val (V2P p) perm) = p.
Proof.
  intros Hb Hp Hf. destruct (V2P_page _ p Hb Hp) as (_ & Hr & Hv). pose proof (V2P_aligned _ p Hb Hp) as Ha.
  assert (Hl : 0 <= Z.lor perm PTE_P < 4096).
  { unfold PTE_P. split; [apply Z.lor_nonneg; lia|]. destruct (decide (perm = 0)) as [->|]; [done|].
    apply (Z.log2_lt_cancel _ 4096). rewrite Z.log2_lor by lia. change (Z.log2 1) with 0. change (Z.log2 4096) with 12.
    assert (Z.log2 perm < 12) by (apply Z.log2_lt_pow2; lia). pose proof (Z.log2_nonneg perm). lia. }
  unfold frame, pte_val. rewrite <- Z.lor_assoc, lor_page_flags by (lia || done).
  unfold PHYSTOP in Hr. rewrite PTE_ADDR_eq by (unfold two32; lia). apply Z.div_exact in Ha; [|lia].
  replace ((V2P p + Z.lor perm PTE_P) / 4096) with (V2P p / 4096) by (apply (Z.div_unique _ _ _ (Z.lor perm PTE_P)); lia).
  by replace (V2P p / 4096 * 4096) with (V2P p) by lia.
Qed.

Lemma map_pages_snoc fl E a ps p :
  map_pages fl E a (ps ++ [p]) =
  <[a + 4096 * Z.of_nat (length ps) := pte_val (V2P p) (fl (a + 4096 * Z.of_nat (length ps)))]> (map_pages fl E a ps).
Proof.
  revert E a. induction ps as [|q ps IH]; intros E a; simpl; [by rewrite Z.add_0_r|].
  rewrite IH. by replace (a + 4096 + 4096 * Z.of_nat (length ps)) with (a + 4096 * Z.of_nat (S (length ps))) by lia.
Qed.

Lemma lookup_map_pages_ne fl E a ps va :
  (forall i, (i < length ps)%nat -> va <> a + 4096 * Z.of_nat i) -> map_pages fl E a ps !! va = E !! va.
Proof.
  induction ps as [|p ps IH] using rev_ind; intros H; [done|]. rewrite map_pages_snoc. rewrite length_app in H. simpl in H.
  rewrite lookup_insert_ne; [|intros <-; by apply (H (length ps)); [lia|]]. apply IH. intros i Hi. apply H. lia.
Qed.

(** The fresh pages are exactly what the range then holds, and unmapping the
    range undoes the mapping. *)
Lemma frames_pages k fl E a hi ps :
  KERNBASE < kend k -> (forall a, 0 <= fl a < 4096) -> Forall (valid_page (kend k)) ps -> (forall va e, E !! va = Some e -> a <= va < hi -> False) ->
  (ps <> [] -> a + 4096 * (Z.of_nat (length ps) - 1) < hi) ->
  frames (map_pages fl E a ps) a hi ≡ₚ ps /\ unmap (map_pages fl E a ps) a hi = E.
Proof.
  intros Hb Hfl Hv HE. induction ps as [|p ps IH] using rev_ind; intros Hlen.
  - simpl. split.
    + unfold frames. assert (filter (in_range a hi) E = ∅) as ->; [|by rewrite map_to_list_empty].
      apply map_empty. intros va. apply map_lookup_filter_None. right. intros e He Hr. by eapply HE.
    + apply map_filter_id. intros va e He Hr. by eapply HE.
  - apply Forall_app in Hv as [Hv Hp]. apply Forall_cons in Hp as [Hp _]. specialize (Hlen ltac:(by destruct ps)).
    rewrite length_app in Hlen. simpl in Hlen. destruct (IH Hv) as [Hf Hu]; [intros; lia|]. rewrite map_pages_snoc.
    set (b := a + 4096 * Z.of_nat (length ps)) in *.
    assert (Hnone : map_pages fl E a ps !! b = None).
    { rewrite lookup_map_pages_ne by (intros; lia). destruct (E !! b) eqn:He; [|done]. exfalso. eapply HE; [done|lia]. }
    unfold frames, unmap in *. split.
    + rewrite map_filter_insert_True by (unfold in_range; simpl; lia). rewrite map_to_list_insert.
      * simpl. rewrite Hf, (pte_frame k) by done. by rewrite <- Permutation_cons_append.
      * apply map_lookup_filter_None. by left.
    + rewrite map_filter_insert_False by (unfold in_range; simpl; lia). by rewrite delete_id.
Qed.

Definition npages (a hi : Z) : nat := Z.to_nat ((hi - a + 4095) / 4096).

Lemma npages_done a hi n : 0 <= n -> hi <= a + 4096 * n -> (n <> 0 -> a + 4096 * (n - 1) < hi) -> n = Z.of_nat (npages a hi).
Proof.
  intros Hn H1 H2. unfold npages. pose proof (Z.div_mod (hi - a + 4095) 4096). pose proof (Z.mod_pos_bound (hi - a + 4095) 4096).
  destruct (decide (n = 0)) as [->|]; [|specialize (H2 ltac:(done))]; lia.
Qed.

Lemma npages_lt a hi n : 0 <= n -> a + 4096 * n < hi -> n < Z.of_nat (npages a hi).
Proof.
  intros Hn H. unfold npages. pose proof (Z.div_mod (hi - a + 4095) 4096). pose proof (Z.mod_pos_bound (hi - a + 4095) 4096). lia.
Qed.

(** The state of [allocuvm] between two iterations: [ps] have been mapped. *)
Record growing (k : mach) (pgdir : Z) (tabs E : gmap Z Z) (G l : list Z) (a0 hi : Z) (ps : list Z) : Prop := {
  gr_inv : pt_inv c k pgdir tabs (map_pages user_rw E a0 ps) (ps ++ G) l;
  gr_zero : zeroed k ps;
  gr_clear : forall va e, E !! va = Some e -> a0 <= va < hi -> False;
  gr_addr : 0 <= a0 /\ a0 mod 4096 = 0;
  gr_hi : hi < KERNBASE;
  gr_len : ps <> [] -> a0 + 4096 * (Z.of_nat (length ps) - 1) < hi }.

(** Giving the pages back. *)
Lemma grow_undo k pgdir tabs E G l hi oldsz ps X :
  growing k pgdir tabs E (X ++ G) l (PGROUNDUP oldsz) hi ps -> 0 <= oldsz < hi ->
  exists k' l', deallocuvm pgdir hi oldsz k = Ret oldsz k' /\ pt_inv c k' pgdir tabs E (X ++ G) l' /\ keeps (X ++ G) k k' /\
    l' ≡ₚ ps ++ l.
Proof.
  intros [H _ Hc _ Hhi Hlen] Ho. destruct (frames_pages k user_rw E (PGROUNDUP oldsz) hi ps) as [Hf Hu]; [apply H|done| |done|done|].
  { pose proof (pi_valid _ _ _ _ _ _ _ H) as Hv. apply Forall_cons in Hv as [_ Hv]. apply Forall_app in Hv as [_ Hv].
    by apply Forall_app in Hv as [Hv _]. }
  destruct (deallocuvm_run k pgdir tabs (map_pages user_rw E (PGROUNDUP oldsz) ps) (X ++ G) l oldsz hi) as (k' & l' & Hrun & H' & Hk' & Hl');
    [eapply pt_inv_perm; [exact H|by rewrite Hf]|lia|lia|].
  exists k', l'. rewrite Hu in H'. split; [done|]. split; [done|]. split; [done|]. by rewrite Hl', Hf.
Qed.

(** One more page. *)
Lemma grow_step k pgdir tabs E G l a0 hi ps p :
  growing k pgdir tabs E G (p :: l) a0 hi ps -> a0 + 4096 * Z.of_nat (length ps) < hi ->
  let a := a0 + 4096 * Z.of_nat (length ps) in
  exists k1, kalloc k = Ret p k1 /\ (p =? 0) = false /\
  let k2 := set_mem (fun m => memset_page m p 0) k1 in
  keeps G k k2 /\
  ((exists k3 tabs3 l3, mappages pgdir a PGSIZE (V2P p) (Z.lor PTE_W PTE_U) k2 = Ret 0 k3 /\
      growing k3 pgdir tabs3 E G l3 a0 hi (ps ++ [p]) /\ keeps G k2 k3 /\ taken tabs tabs3 l l3) \/
   (exists k3, mappages pgdir a PGSIZE (V2P p) (Z.lor PTE_W PTE_U) k2 = Ret (-1) k3 /\
      growing k3 pgdir tabs E ([p] ++ G) [] a0 hi ps /\ keeps G k2 k3 /\ l = [])).
Proof.
  intros [H Hz Hc [Ha0 Ha] Hhi Hlen] Hlt a. destruct (pt_kalloc _ _ _ _ _ _ _ H) as (k1 & Hrun & Hp & H1 & Hm1 & Hk1).
  exists k1. split; [done|]. split; [done|]. intros k2.
  destruct (pt_write k1 pgdir tabs _ p _ _ (fun m => memset_page m p 0) H1) as [H2 Hk2].
  { intros m b Hb. by apply ld_memset_page_out. } fold k2 in H2, Hk2.
  assert (HGk : keeps (ps ++ G) k k2) by (eapply keeps_trans; [apply Hk1|done]).
  split; [eapply keeps_sub; [exact HGk|]; intros g Hg; apply elem_of_app; by right|].
  assert (Hpv : valid_page (kend k2) p) by (eapply pi_page; [exact H2|]; rewrite elem_of_cons, elem_of_app, elem_of_cons; tauto).
  destruct (V2P_page _ p (pi_base _ _ _ _ _ _ _ H2) Hpv) as (_ & Hr & _).
  assert (Hz2 : zeroed k2 (ps ++ [p])).
  { intros q i [Hq|Hq%list_elem_of_singleton]%elem_of_app Hi.
    - destruct HGk as (_ & _ & _ & HGk). rewrite HGk; [by apply Hz|apply elem_of_app; by left|done].
    - subst q. simpl. by rewrite ld_memset_page_in. }
  destruct (mappages_page k2 pgdir tabs (map_pages user_rw E a0 ps) (p :: ps ++ G) l a (V2P p) (Z.lor PTE_W PTE_U)) as
    [(k3 & tabs3 & l3 & Hrun3 & H3 & Hk3 & Htk)|(k3 & Hrun3 & H3 & Hk3 & ->)].
  - exact H2.
  - apply (page_addr_add a0); [split; [unfold KERNBASE, two32 in *; lia|done]|unfold KERNBASE, two32 in *; lia|lia].
  - lia.
  - unfold PHYSTOP, two32 in *. lia.
  - rewrite lookup_map_pages_ne by (intros; unfold a; lia). destruct (E !! a) eqn:He; [|done]. exfalso. eapply Hc; [done|lia].
  - left. exists k3, tabs3, l3. split; [done|]. split; [|split; [eapply keeps_sub; [exact Hk3|]|done]].
    + split; [| |done|done|done|].
      * rewrite map_pages_snoc. eapply pt_inv_perm; [exact H3|]. rewrite <- app_assoc. simpl. by rewrite Permutation_middle.
      * intros q i Hq Hi. destruct Hk3 as (_ & _ & _ & Hk3). rewrite Hk3; [by apply Hz2| |done].
        revert Hq. rewrite elem_of_app, !elem_of_cons, elem_of_app, elem_of_nil. tauto.
      * intros _. rewrite length_app. simpl. lia.
    + intros g Hg. right. apply elem_of_app. by right.
  - right. exists k3. split; [done|]. split; [|split; [eapply keeps_sub; [exact Hk3|]|done]].
    + split; [| |done|done|done|done].
      * eapply pt_inv_perm; [exact H3|]. simpl. by rewrite Permutation_middle.
      * intros q i Hq Hi. destruct Hk3 as (_ & _ & _ & Hk3). rewrite Hk3; [apply Hz2; [|done]| |done].
        -- apply elem_of_app. by left.
        -- right. apply elem_of_app. by left.
    + intros g Hg. right. apply elem_of_app. by right.
Qed.

Lemma allocuvm_loop_run fuel k pgdir tabs E G l hi oldsz ps :
  let a0 := PGROUNDUP oldsz in
  growing k pgdir tabs E G l a0 hi ps -> 0 <= oldsz <= hi -> oldsz <= a0 ->
  hi - (a0 + 4096 * Z.of_nat (length ps)) <= 4096 * Z.of_nat fuel ->
  (exists k' tabs' qs l', allocuvm_loop fuel pgdir (a0 + 4096 * Z.of_nat (length ps)) oldsz hi k = Ret hi k' /\
     growing k' pgdir tabs' E G l' a0 hi qs /\ length qs = npages a0 hi /\ keeps G k k' /\
     tab_pages tabs' ++ qs ++ l' ≡ₚ tab_pages tabs ++ ps ++ l) \/
  (exists k' tabs' l', allocuvm_loop fuel pgdir (a0 + 4096 * Z.of_nat (length ps)) oldsz hi k = Ret 0 k' /\
     pt_inv c k' pgdir tabs' E G l' /\ keeps G k k' /\ tab_pages tabs' ++ l' ≡ₚ tab_pages tabs ++ ps ++ l /\
     (length (tab_pages tabs ++ ps ++ l) <= 1024 + npages a0 hi)%nat).
Proof.
  intros a0. revert k tabs l ps. induction fuel as [|fuel IH]; intros k tabs l ps H Ho Hoa Hfuel; cbn [allocuvm_loop].
  all: destruct (Z.ltb_spec (a0 + 4096 * Z.of_nat (length ps)) hi) as [Hlt|Hge];
    [|left; exists k, tabs, ps, l; split; [done|]; split; [done|]; split; [|done];
      apply Nat2Z.inj, npages_done; [lia|lia|]; intros Hn; apply (gr_len _ _ _ _ _ _ _ _ _ H); by destruct ps].
  { lia. }
  pose proof (npages_lt a0 hi (Z.of_nat (length ps)) ltac:(lia) Hlt) as Hnp.
  destruct l as [|p l].
  - right. destruct (pt_kalloc_nil _ _ _ _ _ (gr_inv _ _ _ _ _ _ _ _ _ H)) as (k1 & Hrun & H1 & Hk1). mstep Hrun. cbn [Z.eqb].
    destruct (grow_undo k1 pgdir tabs E G [] hi oldsz ps []) as (k2 & l2 & Hrun2 & H2 & Hk2 & Hl2); [|lia|].
    { destruct H as [_ Hz Hc Ha Hhi Hlen]. split; try done. intros q i Hq Hi. destruct (Hk1 ps) as (_ & _ & _ & Hk). rewrite Hk; auto. }
    mstep Hrun2. exists k2, tabs, l2. split; [done|]. split; [done|]. split; [eapply keeps_trans; [apply Hk1|done]|].
    split; [by rewrite Hl2|]. rewrite !length_app. pose proof (tabs_size _ _ _ _ _ _ H2). simpl. lia.
  - destruct (grow_step _ _ _ _ _ _ _ _ _ _ H Hlt) as (k1 & Hrun & Hp & Hk1 & Hcase). mstep Hrun. rewrite Hp.
    unfold memset0_page. rewrite bind_modify. destruct Hcase as [(k3 & tabs3 & l3 & Hrun3 & H3 & Hk3 & _ & Htk)|(k3 & Hrun3 & H3 & Hk3 & ->)].
    + mstep Hrun3. cbn [Z.ltb Z.compare]. unfold PGSIZE.
      rewrite u32_id by (pose proof (gr_hi _ _ _ _ _ _ _ _ _ H); pose proof (gr_addr _ _ _ _ _ _ _ _ _ H); unfold KERNBASE, two32 in *; lia).
      specialize (IH k3 tabs3 l3 (ps ++ [p]) H3 Ho Hoa). rewrite length_app in IH. simpl in IH.
      replace (a0 + 4096 * Z.of_nat (length ps + 1)) with (a0 + 4096 * Z.of_nat (length ps) + 4096) in IH by lia.
      assert (Hperm : tab_pages tabs3 ++ (ps ++ [p]) ++ l3 ≡ₚ tab_pages tabs ++ ps ++ p :: l).
      { rewrite <- app_assoc, !(app_assoc (tab_pages _) ps), !(Permutation_app_comm (tab_pages _) ps), <- !app_assoc. f_equiv.
        simpl. rewrite <- !Permutation_middle. by f_equiv. }
      destruct IH as [(k' & tabs' & qs & l' & R1 & R2 & R3 & R4 & R5)|(k' & tabs' & l' & R1 & R2 & R3 & R4 & R5)]; [lia| |].
      * left. exists k', tabs', qs, l'. do 3 (split; [done|]). split; [eapply keeps_trans; [done|]; by eapply keeps_trans|].
        by rewrite R5.
      * right. exists k', tabs', l'. do 2 (split; [done|]). split; [eapply keeps_trans; [done|]; by eapply keeps_trans|].
        rewrite Hperm in R4, R5. done.
    + right. mstep Hrun3. cbn [Z.ltb Z.compare].
      destruct (grow_undo k3 pgdir tabs E G [] hi oldsz ps [p] H3) as (k4 & l4 & Hrun4 & H4 & Hk4 & Hl4); [lia|]. mstep Hrun4.
      destruct (pt_kfree _ _ _ _ _ _ _ H4) as (k5 & Hrun5 & H5 & Hk5). mstep Hrun5.
      exists k5, tabs, (p :: l4). split; [done|]. split; [done|]. split.
      * eapply keeps_trans; [done|]. eapply keeps_trans; [done|]. eapply keeps_trans; [|done].
        eapply keeps_sub; [done|]. intros g Hg. by right.
      * split; [by rewrite Hl4, app_nil_r, Permutation_cons_append|].
        rewrite !length_app. pose proof (tabs_size _ _ _ _ _ _ H5). simpl. lia.
Qed.
End spec.

(** ** Properties *)

(** mappages.  On a range that fits the address space and in which nothing
    is mapped, [mappages] terminates.  It returns 0 having added exactly the
    mappings of the whole range, or -1 having added those of a prefix, and
    then only because the allocator has run out.  Pages go only from the free
    list to new page tables, and every page of others keeps its contents.  On
    a first page that is mapped already it panics. *)
Theorem mappages_spec c k pgdir tabs E G l va size pa perm :
  pt_inv c k pgdir tabs E G l -> 0 <= va -> 0 < size -> va + size <= two32 ->
  0 <= pa -> pa + 4096 * (Z.of_nat (last_page va size) + 1) <= two32 ->
  let a := va / 4096 * 4096 in
  let n := S (last_page va size) in
  ((forall i, (i < n)%nat -> E !! (a + 4096 * Z.of_nat i) = None) ->
   exists m k' tabs' l', mappages pgdir va size pa perm k = Ret (if decide (m = n) then 0 else -1) k' /\
     (m <= n)%nat /\ (m <> n -> l' = []) /\ pt_inv c k' pgdir tabs' (map_range E a pa perm m) G l' /\
     keeps G k k' /\ taken tabs tabs' l l') /\
  (E !! a <> None -> mappages pgdir va size pa perm k = Panic "remap").
Proof.
  intros H Hva Hsz Hend Hpa Hpr a n. split.
  - intros HE. destruct (mappages_run c k pgdir tabs E G l va size pa perm H) as (m & k' & tabs' & l' & R1 & R2 & R3 & R4 & R5 & R6);
      [done..| |by exists m, k', tabs', l']. intros i Hi. apply HE. unfold n. lia.
  - intros He. destruct (E !! a) as [e|] eqn:Hea; [clear He|done].
    pose proof (pi_dom _ _ _ _ _ _ _ H _ _ Hea) as Ha. destruct (mapped_table c _ _ _ _ _ _ _ _ H Hea) as [t Ht].
    unfold mappages. rewrite (u32_id va) by lia. rewrite (PGROUNDDOWN_eq va) by lia. fold a.
    assert (Hf : exists f, Z.to_nat (u32 (PGROUNDDOWN (va + size - 1) - a) / PGSIZE + 1) = S f).
    { exists (Z.to_nat (u32 (PGROUNDDOWN (va + size - 1) - a) / PGSIZE)). unfold u32, PGSIZE.
      pose proof (Z.mod_pos_bound (PGROUNDDOWN (va + size - 1) - a) two32 ltac:(done)).
      pose proof (Z.div_pos ((PGROUNDDOWN (va + size - 1) - a) mod two32) 4096). lia. }
    destruct Hf as [f ->]. cbn [mappages_loop]. mstep (walk_present c _ _ _ _ _ _ _ _ true H (proj1 Ha) Ht).
    rewrite (table_word_nz c _ _ _ _ _ _ _ _ H (proj1 Ha) Ht). unfold load. rewrite bind_gets.
    pose proof (load_pte c _ _ _ _ _ _ _ _ H Ha Ht) as Hl. rewrite Hea in Hl. destruct Hl as [-> Hl].
    by rewrite (proj2 (Z.eqb_neq _ _) Hl).
Qed.

(** allocuvm.  Growing a process from [oldsz] to [newsz] either returns
    [newsz] with every page of the gap mapped, writable by the user, to fresh
    zeroed pages, each page used once; or it returns 0, with the mappings as
    they were and every page it took given back (new page tables stay); the
    latter only when memory ran out.  Sizes at or above KERNBASE are refused,
    and a smaller size is a no-op. *)
Theorem allocuvm_spec c k pgdir tabs E G l oldsz newsz :
  pt_inv c k pgdir tabs E G l -> 0 <= oldsz ->
  let a0 := PGROUNDUP oldsz in
  (KERNBASE <= newsz -> allocuvm pgdir oldsz newsz k = Ret 0 k) /\
  (newsz < KERNBASE -> newsz < oldsz -> allocuvm pgdir oldsz newsz k = Ret oldsz k) /\
  (oldsz <= newsz < KERNBASE -> (forall va e, E !! va = Some e -> ~ (a0 <= va < newsz)) ->
   (exists k' tabs' ps l', allocuvm pgdir oldsz newsz k = Ret newsz k' /\ length ps = npages a0 newsz /\
      pt_inv c k' pgdir tabs' (map_pages user_rw E a0 ps) (ps ++ G) l' /\ zeroed k' ps /\ keeps G k k' /\
      tab_pages tabs' ++ ps ++ l' ≡ₚ tab_pages tabs ++ l) \/
   (exists k' tabs' l', allocuvm pgdir oldsz newsz k = Ret 0 k' /\ pt_inv c k' pgdir tabs' E G l' /\ keeps G k k' /\
      tab_pages tabs' ++ l' ≡ₚ tab_pages tabs ++ l /\ (length l <= 1024 + npages a0 newsz)%nat)).
Proof.
  intros H Ho a0. unfold allocuvm. split; [|split].
  - intros Hn. by destruct (Z.leb_spec KERNBASE newsz); [|lia].
  - intros Hk Hn. destruct (Z.leb_spec KERNBASE newsz); [lia|]. by destruct (Z.ltb_spec newsz oldsz); [|lia].
  - intros Hn HE. destruct (Z.leb_spec KERNBASE newsz); [lia|]. destruct (Z.ltb_spec newsz oldsz); [lia|].
    destruct (PGROUNDUP_ge oldsz) as [Hr Hm]; [unfold KERNBASE, two32 in *; lia|]. fold a0 in Hr, Hm.
    assert (Hg : growing c k pgdir tabs E G l a0 newsz []).
    { split; [done| |intros va e He Hv; by eapply HE|split; [lia|done]|lia|done]. intros p i Hp. by apply elem_of_nil in Hp. }
    pose proof (Z.div_mod newsz 4096). pose proof (Z.mod_pos_bound newsz 4096). assert (0 <= newsz / 4096) by (apply Z.div_pos; lia).
    pose proof (allocuvm_loop_run c (Z.to_nat (newsz / PGSIZE + 1)) k pgdir tabs E G l newsz oldsz []) as Hrun.
    cbv zeta in Hrun. fold a0 in Hrun. replace (a0 + 4096 * Z.of_nat (length (@nil Z))) with a0 in Hrun by (simpl; lia). unfold PGSIZE in *.
    destruct Hrun as [(k' & tabs' & qs & l' & R1 & R2 & R3 & R4 & R5)|(k' & tabs' & l' & R1 & R2 & R3 & R4 & R5)]; [done|lia|lia|lia| |].
    + left. exists k', tabs', qs, l'. do 2 (split; [done|]). split; [apply R2|]. split; [apply R2|]. done.
    + right. exists k', tabs', l'. do 4 (split; [done|]). simpl in R5. rewrite length_app in R5. lia.
Qed.

(** deallocuvm.  Shrinking a process to [newsz] frees exactly the frames
    mapped between the rounded new size and the old size, each once, removes
    exactly those mappings, and leaves the pages of others as they were; it
    does nothing when the size does not shrink. *)
Theorem deallocuvm_spec c k pgdir tabs E G l oldsz newsz :
  let lo := PGROUNDUP newsz in
  pt_inv c k pgdir tabs E (frames E lo oldsz ++ G) l -> 0 <= newsz -> oldsz <= KERNBASE ->
  (oldsz <= newsz -> deallocuvm pgdir oldsz newsz k = Ret oldsz k) /\
  (newsz < oldsz -> exists k' l', deallocuvm pgdir oldsz newsz k = Ret newsz k' /\
     pt_inv c k' pgdir tabs (unmap E lo oldsz) G l' /\ keeps G k k' /\ l' ≡ₚ frames E lo oldsz ++ l).
Proof.
  intros lo H Hn Ho. split.
  - intros Hle. unfold deallocuvm. by destruct (Z.leb_spec oldsz newsz); [|lia].
  - intros Hlt. by apply deallocuvm_run; [| |lia].
Qed.

(** C18. freevm.  Freeing an address space gives back the directory, every
    page table and every user frame, each exactly once, and nothing else: the
    free list afterwards is those pages and the former free pages, without
    duplicates. *)
Theorem freevm_spec c k pgdir tabs E G l :
  pt_inv c k pgdir tabs E (frames E 0 KERNBASE ++ G) l ->
  exists k' l', freevm pgdir k = Ret tt k' /\ heap_inv c k' G l' /\
    l' ≡ₚ pgdir :: tab_pages tabs ++ frames E 0 KERNBASE ++ l /\ keeps G k k'.
Proof.
  intros H. destruct (freevm_run c k pgdir tabs E G l H) as (k' & l' & Hrun & Hr & Hf & Hl & Hk). exists k', l'.
  split; [done|]. split; [|done]. destruct Hk as (He & _). split; [done|]. split; [done|]. rewrite He. split; [apply H|].
  pose proof (pi_nodup _ _ _ _ _ _ _ H) as Hnd. pose proof (pi_valid _ _ _ _ _ _ _ H) as Hv. split.
  - rewrite Hl. rewrite Permutation_app_comm. simpl. rewrite <- !app_assoc.
    rewrite (Permutation_app_comm l G). simpl in Hnd. by rewrite <- app_assoc in Hnd.
  - apply Forall_cons in Hv as [_ Hv]. apply Forall_app in Hv as [_ Hv]. by apply Forall_app in Hv as [_ Hv].
Qed.

(** setupkvm.  A new address space maps every page of the kernel's range
    as the kernel map says (text read only, data and devices writable, nothing
    below KERNBASE) and takes from the allocator exactly its directory and
    tables; or 0 is returned with every page given back, which happens only
    with at most 1025 free pages. *)
Theorem setupkvm_spec c k G l :
  heap_inv c k G l -> data_ok (kdata k) ->
  (exists pgdir k' tabs E l', setupkvm k = Ret pgdir k' /\ pgdir <> 0 /\ pt_inv c k' pgdir tabs E G l' /\
     (forall va, page_addr va -> E !! va = kernel_pte (kdata k) va) /\
     pgdir :: tab_pages tabs ++ l' ≡ₚ l /\ keeps G k k') \/
  (exists k' l', setupkvm k = Ret 0 k' /\ heap_inv c k' G l' /\ l' ≡ₚ l /\ keeps G k k' /\ (length l <= 1025)%nat).
Proof. intros H Hd. by apply setupkvm_run. Qed.

(** ** Witnesses: an address space with one user page *)

(** The directory is at 0x80101000, its only table at 0x80102000, the user's
    page at 0x80103000; two pages are free. *)
Definition uvm_mem : gmap Z Z :=
  <[0x80101000 := 0x102007]> (<[0x80102000 := 0x103007]> (<[0x80104000 := 0x80105000]> ∅)).
Definition uvm0 : mach :=
  mkmach (mkhw [mkcpu 0 0 0 None] 0 0 {[ kmem_lock := mklock 0 "kmem" None ]}) uvm_mem 1 0x80104000 0x80101000 0x80101000.

Lemma ld_uvm a :
  ld uvm_mem a = if a =? 0x80101000 then 0x102007 else if a =? 0x80102000 then 0x103007 else if a =? 0x80104000 then 0x80105000 else 0.
Proof.
  unfold uvm_mem. change (ld (st (st (st ∅ 0x80104000 0x80105000) 0x80102000 0x103007) 0x80101000 0x102007) a =
    if a =? 0x80101000 then 0x102007 else if a =? 0x80102000 then 0x103007 else if a =? 0x80104000 then 0x80105000 else 0).
  repeat (match goal with |- context [a =? ?n] => destruct (Z.eqb_spec a n) as [->|?] end; [done|rewrite ld_st_ne by done]). done.
Qed.

Lemma uvm0_ready : kready 0 uvm0.
Proof.
  split; [split; [reflexivity|]; eexists; split; [reflexivity|]; simpl; lia|]. intros _. eexists. reflexivity.
Qed.

Lemma uvm0_valid p : p ∈ [0x80101000; 0x80102000; 0x80103000; 0x80104000; 0x80105000] -> valid_page 0x80101000 p.
Proof.
  intros Hp. repeat (apply elem_of_cons in Hp as [->|Hp]; [split; [reflexivity|]; vm_compute; intuition congruence|]).
  by apply elem_of_nil in Hp.
Qed.

Definition uvm_tabs : gmap Z Z := {[ 0 := 0x80102000 ]}.
Definition uvm_E : gmap Z Z := {[ 0 := 0x103007 ]}.

Lemma uvm0_inv : pt_inv 0 uvm0 0x80101000 uvm_tabs uvm_E [0x80103000] [0x80104000; 0x80105000].
Proof.
  assert (Htp : tab_pages uvm_tabs = [0x80102000]) by reflexivity.
  split; simpl kend; simpl mem.
  - exact uvm0_ready.
  - split; [|split].
    + simpl. split; [done|]. split; reflexivity.
    + apply (bool_decide_unpack _). vm_compute. exact I.
    + apply Forall_forall. intros p Hp. apply uvm0_valid. by do 3 right.
  - done.
  - rewrite Htp. apply (bool_decide_unpack _). vm_compute. exact I.
  - rewrite Htp. apply Forall_forall. intros p Hp. apply uvm0_valid. revert Hp. simpl. rewrite !elem_of_cons. tauto.
  - unfold uvm_tabs. intros i t [<- _]%lookup_singleton_Some. lia.
  - intros i Hi. unfold uvm_tabs. destruct (decide (i = 0)) as [->|Hne]; [reflexivity|].
    rewrite lookup_singleton_ne by done. rewrite ld_uvm.
    repeat (match goal with |- context [?a =? ?n] => destruct (Z.eqb_spec a n); [lia|] end). done.
  - unfold uvm_E. intros va e [<- _]%lookup_singleton_Some. done.
  - intros va Hva. unfold pte_of, uvm_tabs, uvm_E. destruct (decide (va = 0)) as [->|Hne]; [done|].
    rewrite lookup_singleton_ne by done. destruct (decide (PDX va = 0)) as [Hp|Hp].
    + rewrite Hp, lookup_singleton_eq, ld_uvm. assert (PTX va <> 0).
      { intros Hx. apply Hne. apply page_index_inj; [apply Hva|done|apply Hva|done|done|done]. }
      pose proof (PTX_range va (proj1 Hva)).
      repeat (match goal with |- context [?a =? ?n] => destruct (Z.eqb_spec a n); [lia|] end). done.
    + by rewrite lookup_singleton_ne.
Qed.

Lemma uvm0_heap : heap_inv 0 uvm0 [0x80101000; 0x80102000; 0x80103000] [0x80104000; 0x80105000].
Proof. exact (pt_heap_inv 0 _ _ _ _ _ _ uvm0_inv). Qed.

Lemma mappages_spec_witness :
  exists m k' tabs' l', mappages 0x80101000 0x1000 0x1800 0x104000 PTE_W uvm0 = Ret (if decide (m = 2%nat) then 0 else -1) k' /\
    (m <= 2)%nat /\ (m <> 2%nat -> l' = []) /\ pt_inv 0 k' 0x80101000 tabs' (map_range uvm_E 0x1000 0x104000 PTE_W m) [0x80103000] l' /\
    keeps [0x80103000] uvm0 k' /\ taken uvm_tabs tabs' [0x80104000; 0x80105000] l'.
Proof.
  apply (mappages_spec 0 uvm0 _ _ _ _ _ 0x1000 0x1800 0x104000 PTE_W uvm0_inv); try done.
  intros i Hi. apply lookup_singleton_ne. change (0x1000 / 4096 * 4096) with 4096. lia.
Defined.

Lemma allocuvm_spec_witness :
  allocuvm 0x80101000 0x1000 KERNBASE uvm0 = Ret 0 uvm0 /\
  ((exists k' tabs' ps l', allocuvm 0x80101000 0x1000 0x2800 uvm0 = Ret 0x2800 k' /\ length ps = 2%nat /\
      pt_inv 0 k' 0x80101000 tabs' (map_pages user_rw uvm_E 0x1000 ps) (ps ++ [0x80103000]) l' /\ zeroed k' ps /\ keeps [0x80103000] uvm0 k' /\
      tab_pages tabs' ++ ps ++ l' ≡ₚ tab_pages uvm_tabs ++ [0x80104000; 0x80105000]) \/
   (exists k' tabs' l', allocuvm 0x80101000 0x1000 0x2800 uvm0 = Ret 0 k' /\ pt_inv 0 k' 0x80101000 tabs' uvm_E [0x80103000] l' /\
      keeps [0x80103000] uvm0 k' /\ tab_pages tabs' ++ l' ≡ₚ tab_pages uvm_tabs ++ [0x80104000; 0x80105000] /\ (2 <= 1024 + 2)%nat)).
Proof.
  split.
  - apply (allocuvm_spec 0 uvm0 _ _ _ _ _ 0x1000 KERNBASE uvm0_inv); done.
  - apply (allocuvm_spec 0 uvm0 _ _ _ _ _ 0x1000 0x2800 uvm0_inv); [done|done|].
    unfold uvm_E. intros va e [<- _]%lookup_singleton_Some. change (PGROUNDUP 0x1000) with 4096. lia.
Defined.

Lemma uvm0_frames : frames uvm_E 0 0x1000 = [0x80103000] /\ frames uvm_E 0 KERNBASE = [0x80103000] /\ unmap uvm_E 0 0x1000 = ∅.
Proof. done. Qed.

Lemma deallocuvm_spec_witness :
  exists k' l', deallocuvm 0x80101000 0x1000 0 uvm0 = Ret 0 k' /\
     pt_inv 0 k' 0x80101000 uvm_tabs (unmap uvm_E 0 0x1000) [] l' /\ keeps [] uvm0 k' /\
     l' ≡ₚ frames uvm_E 0 0x1000 ++ [0x80104000; 0x80105000].
Proof. by apply (deallocuvm_spec 0 uvm0 0x80101000 uvm_tabs uvm_E [] _ 0x1000 0 uvm0_inv). Defined.

Lemma freevm_spec_witness :
  exists k' l', freevm 0x80101000 uvm0 = Ret tt k' /\ heap_inv 0 k' [] l' /\
    l' ≡ₚ 0x80101000 :: tab_pages uvm_tabs ++ frames uvm_E 0 KERNBASE ++ [0x80104000; 0x80105000] /\ keeps [] uvm0 k'.
Proof. exact (freevm_spec 0 uvm0 0x80101000 uvm_tabs uvm_E [] _ uvm0_inv). Defined.

(** The kernel's data at 0x80108000. *)
Definition kvm0 : mach := mkmach (mhw uvm0) uvm_mem 1 0x80104000 0x80101000 0x80108000.

Lemma setupkvm_spec_witness :
  let G := [0x80101000; 0x80102000; 0x80103000] in
  let l := [0x80104000; 0x80105000] in
  (exists pgdir k' tabs E l', setupkvm kvm0 = Ret pgdir k' /\ pgdir <> 0 /\ pt_inv 0 k' pgdir tabs E G l' /\
     (forall va, page_addr va -> E !! va = kernel_pte 0x80108000 va) /\ pgdir :: tab_pages tabs ++ l' ≡ₚ l /\ keeps G kvm0 k') \/
  (exists k' l', setupkvm kvm0 = Ret 0 k' /\ heap_inv 0 k' G l' /\ l' ≡ₚ l /\ keeps G kvm0 k' /\ (length l <= 1025)%nat).
Proof. intros G l. apply (setupkvm_spec 0 kvm0 G l); [exact uvm0_heap|]. split; [done|reflexivity]. Defined.
