(* ===== verification/VmCopy.v ===== *)
(** * Copying an address space (copyuvm)

    Two page tables at once: the parent's, which is only read, and the
    child's, which is built from fresh pages. *)

From Stdlib Require Import ZArith Lia.
From stdpp Require Import base numbers strings gmap list.
From S2P Require Import Prelude.
From S2P Require Import Machine.
From S2P Require Import Spinlock.
From S2P Require Import Kalloc.
From S2P Require Import Vm.
From S2P Require Import VmInv.
From S2P Require Import VmSpec.

Local Open Scope string_scope.
Local Open Scope list_scope.
Local Open Scope Z_scope.

(** The permissions of the parent's pages. *)
Definition flags_of (E : gmap Z Z) (a : Z) : Z := PTE_FLAGS (default 0 (E !! a)).

Lemma PTE_FLAGS_range e : 0 <= PTE_FLAGS e < 4096.
Proof.
  unfold PTE_FLAGS. change 0xFFF with (Z.ones 12). rewrite Z.land_ones by lia. apply Z.mod_pos_bound. lia.
Qed.

(** The parent's pages. *)
Definition pt_pages (pgdir : Z) (tabs : gmap Z Z) : list Z := pgdir :: tab_pages tabs.

Section copy.
Context (c : nat) (k0 : mach) (pgdir : Z) (ptabs E : gmap Z Z) (G l0 : list Z) (sz : Z).

(** What the caller provides: a parent whose pages below [sz] are all mapped. *)
Hypothesis parent : pt_inv c k0 pgdir ptabs E G l0.
Hypothesis size_ok : sz <= KERNBASE.
Hypothesis all_mapped : forall a, page_addr a -> a < sz -> exists e, E !! a = Some e /\ frame e ∈ G.

Local Abbreviation B := (pt_pages pgdir ptabs ++ G).

(** The child, [ps] being copied already over the kernel part [K]. *)
Record copying (k : mach) (d : Z) (ctabs K : gmap Z Z) (ps l : list Z) : Prop := {
  cp_inv : pt_inv c k d ctabs (map_pages (flags_of E) K 0 ps) (ps ++ B) l;
  cp_keeps : keeps B k0 k;
  cp_low : forall va e, K !! va = Some e -> 0 <= va < KERNBASE -> False;
  cp_same : forall i p, ps !! i = Some p -> exists e, E !! (4096 * Z.of_nat i) = Some e /\
    forall j, 0 <= j < 1024 -> ld (mem k) (p + 4 * j) = ld (mem k0) (frame e + 4 * j);
  cp_len : ps <> [] -> 4096 * (Z.of_nat (length ps) - 1) < sz }.

(** The parent, seen while the child is under construction. *)
Lemma parent_view k d ctabs F ps l :
  pt_inv c k d ctabs F (ps ++ B) l -> keeps B k0 k -> pt_inv c k pgdir ptabs E (d :: tab_pages ctabs ++ ps ++ G) l.
Proof.
  intros H (He & _ & _ & Hk). eapply pt_inv_frame; [exact parent|apply H|apply H|done| | |].
  - pose proof (pi_nodup _ _ _ _ _ _ _ H) as Hnd. revert Hnd. unfold pt_pages.
    match goal with |- NoDup ?x -> NoDup ?y => assert (x ≡ₚ y) as Hp; [|by rewrite Hp] end.
    simpl. rewrite <- !app_assoc. simpl. solve_Permutation.
  - pose proof (pi_valid _ _ _ _ _ _ _ H) as Hv. rewrite He in Hv. rewrite Forall_forall in Hv |- *. intros p Hp. apply Hv.
    revert Hp. unfold pt_pages. rewrite !elem_of_cons, !elem_of_app, elem_of_cons. tauto.
  - intros p i Hp Hi. apply Hk; [|done]. apply elem_of_app. by left.
Qed.

(** Giving the child up: its pages return to the allocator. *)
Lemma copy_undo k d ctabs K ps X l :
  pt_inv c k d ctabs (map_pages (flags_of E) K 0 ps) (ps ++ X ++ B) l ->
  (forall va e, K !! va = Some e -> 0 <= va < KERNBASE -> False) ->
  (ps <> [] -> 4096 * (Z.of_nat (length ps) - 1) < sz) ->
  exists k' l', freevm d k = Ret tt k' /\ kready c k' /\ free_inv k' l' /\ l' ≡ₚ d :: tab_pages ctabs ++ ps ++ l /\ keeps B k k'.
Proof.
  intros H HK Hlen. destruct (frames_pages k (flags_of E) K 0 KERNBASE ps) as [Hf _];
    [apply H|intros; apply PTE_FLAGS_range| |exact HK|intros Hn; specialize (Hlen Hn); lia|].
  { pose proof (pi_valid _ _ _ _ _ _ _ H) as Hv. apply Forall_cons in Hv as [_ Hv]. apply Forall_app in Hv as [_ Hv].
    by apply Forall_app in Hv as [Hv _]. }
  destruct (freevm_run c k d ctabs (map_pages (flags_of E) K 0 ps) (X ++ B) l) as (k' & l' & R1 & R2 & R3 & R4 & R5);
    [eapply pt_inv_perm; [exact H|by rewrite Hf]|].
  exists k', l'. do 3 (split; [done|]). split; [by rewrite R4, Hf|]. eapply keeps_sub; [done|]. intros g Hg. apply elem_of_app. by right.
Qed.

(** The page copied by one iteration. *)
Lemma copied_page k p src B' l ctabs d F :
  pt_inv c k d ctabs F (p :: B') l -> src ∈ B' ->
  let k' := set_mem (fun m => copy_words m p src 1024) k in
  pt_inv c k' d ctabs F (p :: B') l /\ keeps B' k k' /\
  forall j, 0 <= j < 1024 -> ld (mem k') (p + 4 * j) = ld (mem k) (src + 4 * j).
Proof.
  intros H Hs k'. pose proof (pi_nodup _ _ _ _ _ _ _ H) as Hnd. apply NoDup_cons in Hnd as [_ Hnd].
  apply NoDup_app in Hnd as (_ & _ & Hnd). simpl in Hnd. apply NoDup_cons in Hnd as [Hps _].
  assert (Hv : forall q, q ∈ p :: B' -> valid_page (kend k) q).
  { intros q Hq. eapply pi_page; [done|]. rewrite elem_of_cons, elem_of_app. tauto. }
  destruct (pt_write c k d ctabs F p B' l (fun m => copy_words m p src 1024) H) as [H1 H2].
  { intros m a Ha. apply ld_copy_out. lia. }
  split; [done|]. split; [done|]. intros j Hj. simpl. apply ld_copy_in; [lia|].
  pose proof (Hv p ltac:(left)) as (Hp & _). pose proof (Hv src ltac:(by right)) as (Hsrc & _).
  assert (src <> p) by (intros ->; apply Hps, elem_of_app; by left).
  apply Z.div_exact in Hp, Hsrc; [|lia..]. assert (p / 4096 <> src / 4096) by congruence. lia.
Qed.

(** One more page copied, or no memory for its table: then the page itself
    belongs to nobody any more. *)
Lemma copy_step k d ctabs K ps p l e :
  copying k d ctabs K ps (p :: l) -> 4096 * Z.of_nat (length ps) < sz ->
  let a := 4096 * Z.of_nat (length ps) in
  E !! a = Some e -> frame e ∈ G ->
  exists k1, kalloc k = Ret p k1 /\ (p =? 0) = false /\
  let k2 := set_mem (fun m => copy_words m p (frame e) 1024) k1 in
  (exists k3 ctabs3 l3, mappages d a PGSIZE (V2P p) (PTE_FLAGS e) k2 = Ret 0 k3 /\ copying k3 d ctabs3 K (ps ++ [p]) l3 /\
     taken ctabs ctabs3 l l3) \/
  (exists k3, mappages d a PGSIZE (V2P p) (PTE_FLAGS e) k2 = Ret (-1) k3 /\
     pt_inv c k3 d ctabs (map_pages (flags_of E) K 0 ps) (ps ++ [p] ++ B) [] /\ keeps B k0 k3 /\ l = []).
Proof.
  intros [H Hk0 HK Hsame Hlen] Hlt a He Hfr.
  destruct (pt_kalloc c _ _ _ _ _ _ _ H) as (k1 & Hrun & Hp & H1 & Hm1 & Hk1). exists k1. split; [done|]. split; [done|]. intros k2.
  assert (Hin : frame e ∈ ps ++ B) by (rewrite !elem_of_app; tauto).
  destruct (copied_page k1 p (frame e) (ps ++ B) l ctabs d _ H1 Hin) as (H2 & Hk2 & Hcopy). fold k2 in H2, Hk2, Hcopy.
  assert (Hk02 : keeps (ps ++ B) k k2) by (eapply keeps_trans; [apply Hk1|done]).
  assert (Hpv : valid_page (kend k2) p) by (eapply pi_page; [exact H2|]; rewrite elem_of_cons, elem_of_app, elem_of_cons; tauto).
  destruct (V2P_page _ p (pi_base _ _ _ _ _ _ _ H2) Hpv) as (_ & Hr & _).
  assert (Hfe : forall j, 0 <= j < 1024 -> ld (mem k2) (p + 4 * j) = ld (mem k0) (frame e + 4 * j)).
  { intros j Hj. rewrite Hcopy, Hm1 by done. destruct Hk0 as (_ & _ & _ & Hk0). apply Hk0; [|done]. rewrite elem_of_app. by right. }
  destruct (mappages_page c k2 d ctabs (map_pages (flags_of E) K 0 ps) (p :: ps ++ B) l a (V2P p) (PTE_FLAGS e)) as
    [(k3 & ctabs3 & l3 & Hrun3 & H3 & Hk3 & Htk)|(k3 & Hrun3 & H3 & Hk3 & ->)].
  - exact H2.
  - apply (page_addr_add 0); [done|unfold KERNBASE, two32 in *; lia|lia].
  - lia.
  - unfold PHYSTOP, two32 in *. lia.
  - rewrite lookup_map_pages_ne by (intros; unfold a; lia). destruct (K !! a) eqn:HKa; [|done]. exfalso. eapply HK; [done|lia].
  - left. exists k3, ctabs3, l3. split; [done|]. split; [|done]. destruct Hk3 as (A1 & A2 & A3 & Hk3). split.
    + rewrite map_pages_snoc. unfold flags_of at 1. rewrite Z.add_0_l. fold a. rewrite He. simpl default.
      eapply pt_inv_perm; [exact H3|]. solve_Permutation.
    + eapply keeps_trans; [exact Hk0|]. eapply keeps_trans; [eapply keeps_sub; [exact Hk02|]|].
      * intros g Hg. apply elem_of_app. by right.
      * split; [done|]. split; [done|]. split; [done|]. intros g i Hg. apply Hk3. right. apply elem_of_app. by right.
    + exact HK.
    + intros i q Hq. apply lookup_app_Some in Hq as [Hq|[Hi Hq]].
      * destruct (Hsame i q Hq) as (e' & He' & Hsm). exists e'. split; [done|]. intros j Hj. rewrite <- Hsm by done.
        assert (q ∈ ps) as Hqp by by eapply list_elem_of_lookup_2.
        rewrite Hk3; [|right; apply elem_of_app; by left|done]. destruct Hk02 as (_ & _ & _ & Hk02).
        apply Hk02; [|done]. apply elem_of_app. by left.
      * apply list_lookup_singleton_Some in Hq as [Hi0 <-]. replace i with (length ps) by lia. exists e. split; [done|].
        intros j Hj. rewrite Hk3; [by apply Hfe|left|done].
    + intros _. rewrite length_app. simpl. lia.
  - right. exists k3. split; [done|]. split; [|split; [|done]].
    + eapply pt_inv_perm; [exact H3|]. solve_Permutation.
    + eapply keeps_trans; [exact Hk0|]. eapply keeps_trans; [eapply keeps_sub; [exact Hk02|]|eapply keeps_sub; [exact Hk3|]].
      * intros g Hg. apply elem_of_app. by right.
      * intros g Hg. right. apply elem_of_app. by right.
Qed.

Lemma copyuvm_loop_run fuel k d ctabs K ps l :
  copying k d ctabs K ps l -> sz - 4096 * Z.of_nat (length ps) <= 4096 * Z.of_nat fuel ->
  (exists k' ctabs' qs l', copyuvm_loop fuel pgdir d (4096 * Z.of_nat (length ps)) sz k = Ret d k' /\
     copying k' d ctabs' K qs l' /\ length qs = npages 0 sz /\ tab_pages ctabs' ++ qs ++ l' ≡ₚ tab_pages ctabs ++ ps ++ l) \/
  (exists k' lost l', copyuvm_loop fuel pgdir d (4096 * Z.of_nat (length ps)) sz k = Ret 0 k' /\
     kready c k' /\ free_inv k' l' /\ keeps B k0 k' /\ (length lost <= 1)%nat /\ lost ++ l' ≡ₚ d :: tab_pages ctabs ++ ps ++ l /\
     (length (tab_pages ctabs ++ ps ++ l) <= 1024 + npages 0 sz)%nat).
Proof.
  revert k ctabs ps l. induction fuel as [|fuel IH]; intros k ctabs ps l H Hfuel; cbn [copyuvm_loop].
  all: destruct (Z.ltb_spec (4096 * Z.of_nat (length ps)) sz) as [Hlt|Hge];
    [|left; exists k, ctabs, ps, l; split; [done|]; split; [done|]; split; [|done];
      apply Nat2Z.inj, npages_done; [lia|lia|]; intros Hn; rewrite Z.add_0_l; apply (cp_len _ _ _ _ _ _ H); by destruct ps].
  { lia. }
  set (a := 4096 * Z.of_nat (length ps)) in *.
  assert (Ha : page_addr a) by (apply (page_addr_add 0); [done|unfold KERNBASE, two32 in *; lia|lia]).
  pose proof (npages_lt 0 sz (Z.of_nat (length ps)) ltac:(lia) ltac:(lia)) as Hnp.
  destruct (all_mapped a Ha Hlt) as (e & He & Hfr).
  pose proof (parent_view _ _ _ _ _ _ (cp_inv _ _ _ _ _ _ H) (cp_keeps _ _ _ _ _ _ H)) as HP.
  destruct (mapped_table c _ _ _ _ _ _ _ _ HP He) as [t Ht]. mstep (walk_present c _ _ _ _ _ _ _ _ false HP (proj1 Ha) Ht).
  rewrite (table_word_nz c _ _ _ _ _ _ _ _ HP (proj1 Ha) Ht), bind_unless_false. unfold load. rewrite bind_gets.
  pose proof (load_pte c _ _ _ _ _ _ _ _ HP Ha Ht) as Hl. rewrite He in Hl. destruct Hl as [-> Hl].
  rewrite (proj2 (Z.eqb_neq _ _) Hl), bind_unless_false. destruct l as [|p l].
  - right. destruct (pt_kalloc_nil c _ _ _ _ _ (cp_inv _ _ _ _ _ _ H)) as (k1 & Hrun & H1 & Hk1). mstep Hrun. cbn [Z.eqb].
    destruct (copy_undo k1 d ctabs K ps [] [] H1) as (k2 & l2 & Hrun2 & Hr2 & Hf2 & Hl2 & Hk2); [apply H|apply H|]. mstep Hrun2.
    exists k2, [], l2. do 3 (split; [done|]). split.
    { eapply keeps_trans; [apply H|]. eapply keeps_trans; [apply Hk1|done]. }
    split; [simpl; lia|]. split; [done|]. rewrite !length_app. pose proof (tabs_size c _ _ _ _ _ _ H1). simpl. lia.
  - destruct (copy_step k d ctabs K ps p l e H Hlt He Hfr) as (k1 & Hrun & Hp & Hcase). mstep Hrun. rewrite Hp, bind_modify.
    destruct Hcase as [(k3 & ctabs3 & l3 & Hrun3 & H3 & _ & Htk)|(k3 & Hrun3 & H3 & Hk3 & ->)].
    + fold a in Hrun3. mstep Hrun3. cbn [Z.ltb Z.compare]. unfold PGSIZE. rewrite u32_id by (unfold KERNBASE, two32 in *; lia).
      specialize (IH k3 ctabs3 (ps ++ [p]) l3 H3). rewrite length_app in IH. simpl in IH.
      replace (4096 * Z.of_nat (length ps + 1)) with (a + 4096) in IH by lia.
      assert (Hperm : tab_pages ctabs3 ++ (ps ++ [p]) ++ l3 ≡ₚ tab_pages ctabs ++ ps ++ p :: l).
      { transitivity (p :: ps ++ (tab_pages ctabs3 ++ l3)); [solve_Permutation|]. rewrite Htk. solve_Permutation. }
      destruct IH as [(k' & ctabs' & qs & l' & R1 & R2 & R3 & R4)|(k' & lost & l' & R1 & R2 & R3 & R4 & R5 & R6 & R7)]; [lia| |].
      * left. exists k', ctabs', qs, l'. do 3 (split; [done|]). by rewrite R4.
      * right. exists k', lost, l'. do 5 (split; [done|]). by rewrite Hperm in R6, R7.
    + right. fold a in Hrun3. mstep Hrun3. cbn [Z.ltb Z.compare].
      destruct (copy_undo k3 d ctabs K ps [p] [] H3) as (k4 & l4 & Hrun4 & Hr4 & Hf4 & Hl4 & Hk4); [apply H|apply H|]. mstep Hrun4.
      exists k4, [p], l4. do 3 (split; [done|]). split; [by eapply keeps_trans|]. split; [simpl; lia|].
      split; [rewrite Hl4; solve_Permutation|]. rewrite !length_app. pose proof (tabs_size c _ _ _ _ _ _ H3). simpl. lia.
Qed.
End copy.

(** ** Properties *)

(** C17. copyuvm.  Copying a parent whose pages below [sz] are all mapped
    returns the directory of a new address space, with the kernel mapped as in
    every address space and each page of the parent mapped, with the same
    permissions, to a page of its own holding the same contents; the parent
    and all other pages are unchanged and the new pages come from the free
    list.  Or it returns 0, and then every page is back on the free list,
    except possibly one: the page whose mapping failed is not given back. *)
Theorem copyuvm_spec c k pgdir tabs E G l sz :
  pt_inv c k pgdir tabs E G l -> 0 <= sz <= KERNBASE -> data_ok (kdata k) ->
  (forall a, page_addr a -> a < sz -> exists e, E !! a = Some e /\ frame e ∈ G) ->
  (exists d k' tabs' K ps l', copyuvm pgdir sz k = Ret d k' /\
     pt_inv c k' d tabs' (map_pages (flags_of E) K 0 ps) (ps ++ pt_pages pgdir tabs ++ G) l' /\
     (forall va, page_addr va -> K !! va = kernel_pte (kdata k) va) /\ length ps = npages 0 sz /\
     (forall i p, ps !! i = Some p -> exists e, E !! (4096 * Z.of_nat i) = Some e /\
        forall j, 0 <= j < 1024 -> ld (mem k') (p + 4 * j) = ld (mem k) (frame e + 4 * j)) /\
     keeps (pt_pages pgdir tabs ++ G) k k' /\ d :: tab_pages tabs' ++ ps ++ l' ≡ₚ l) \/
  (exists k' lost l', copyuvm pgdir sz k = Ret 0 k' /\ kready c k' /\ free_inv k' l' /\
     keeps (pt_pages pgdir tabs ++ G) k k' /\ (length lost <= 1)%nat /\ lost ++ l' ≡ₚ l /\ (length l <= 1025 + npages 0 sz)%nat).
Proof.
  intros H Hsz Hd Hall. unfold copyuvm.
  destruct (setupkvm_run c k (pt_pages pgdir tabs ++ G) l) as
    [(d & k1 & tabs1 & K & l1 & Hrun & Hd0 & H1 & HK & Hl1 & Hk1)|(k1 & l1 & Hrun & H1 & Hl1 & Hk1 & Hlen)].
  - exact (pt_heap_inv c _ _ _ _ _ _ H).
  - done.
  - mstep Hrun. rewrite (proj2 (Z.eqb_neq _ _) Hd0).
    pose proof (copyuvm_loop_run c k pgdir tabs E G l sz H (proj2 Hsz) Hall (Z.to_nat (sz / PGSIZE + 1)) k1 d tabs1 K [] l1) as Hloop.
    pose proof (Z.div_mod sz 4096). pose proof (Z.mod_pos_bound sz 4096). assert (0 <= sz / 4096) by (apply Z.div_pos; lia).
    destruct Hloop as [(k' & ctabs' & qs & l' & R1 & R2 & R3 & R4)|(k' & lost & l' & R1 & R2 & R3 & R4 & R5 & R6 & R7)].
    + split; [exact H1|exact Hk1| |done|done].
      intros va e He Hr. pose proof (pi_dom _ _ _ _ _ _ _ H1 _ _ He) as Hva. rewrite (HK va Hva) in He. unfold kernel_pte in He.
      destruct Hd as [Hd _]. unfold KERNLINK, KERNBASE, DEVSPACE, EXTMEM in *. repeat case_decide; done || lia.
    + unfold PGSIZE. simpl. lia.
    + left. exists d, k', ctabs', K, qs, l'. split; [exact R1|]. split; [apply R2|]. do 2 (split; [done|]). split; [apply R2|].
      split; [apply R2|]. by rewrite R4.
    + right. exists k', lost, l'. split; [exact R1|]. do 4 (split; [done|]). simpl in R6, R7. rewrite Hl1 in R6. split; [done|].
      rewrite <- Hl1. simpl. lia.
  - right. mstep Hrun. exists k1, [], l1. split; [done|]. split; [apply H1|]. split; [apply H1|]. split; [exact Hk1|].
    split; [simpl; lia|]. split; [exact Hl1|]. lia.
Qed.

Lemma copyuvm_spec_witness :
  let k := kvm0 in
  let G := [0x80103000] in
  let l := [0x80104000; 0x80105000] in
  (exists d k' tabs' K ps l', copyuvm 0x80101000 0x1000 k = Ret d k' /\
     pt_inv 0 k' d tabs' (map_pages (flags_of uvm_E) K 0 ps) (ps ++ pt_pages 0x80101000 uvm_tabs ++ G) l' /\
     (forall va, page_addr va -> K !! va = kernel_pte 0x80108000 va) /\ length ps = 1%nat /\
     (forall i p, ps !! i = Some p -> exists e, uvm_E !! (4096 * Z.of_nat i) = Some e /\
        forall j, 0 <= j < 1024 -> ld (mem k') (p + 4 * j) = ld (mem k) (frame e + 4 * j)) /\
     keeps (pt_pages 0x80101000 uvm_tabs ++ G) k k' /\ d :: tab_pages tabs' ++ ps ++ l' ≡ₚ l) \/
  (exists k' lost l', copyuvm 0x80101000 0x1000 k = Ret 0 k' /\ kready 0 k' /\ free_inv k' l' /\
     keeps (pt_pages 0x80101000 uvm_tabs ++ G) k k' /\ (length lost <= 1)%nat /\ lost ++ l' ≡ₚ l /\ (2 <= 1025 + 1)%nat).
Proof.
  intros k G l. apply (copyuvm_spec 0 k 0x80101000 uvm_tabs uvm_E G l 0x1000).
  - destruct uvm0_inv as [H1 H2 H3 H4 H5 H6 H7 H8 H9]. split; [exact H1|exact H2|exact H3|exact H4|exact H5|exact H6|exact H7|exact H8|exact H9].
  - done.
  - split; [done|reflexivity].
  - intros a [Ha Ha0] Hlt. apply Z.div_exact in Ha0; [|lia]. replace a with 0 by lia.
    exists 0x103007. split; [reflexivity|]. apply list_elem_of_singleton. reflexivity.
Defined.
