(* ===== verification/KState.v ===== *)
(** * The kernel state

    The data structures of proc.h, shm.h and the globals of proc.c and trap.c,
    and one record [kst] that holds them together with the machine (memory,
    page allocator, CPU and lock words) and the state of the file system,
    which this part of the kernel only reaches through the interface
    [FileOps]. *)

From Stdlib Require Import ZArith Lia.
From stdpp Require Import base numbers strings gmap list.
From S2P Require Import Prelude.
From S2P Require Import Machine.
From S2P Require Import Spinlock.
From S2P Require Import Kalloc.

Local Open Scope string_scope.
Local Open Scope list_scope.
Local Open Scope Z_scope.

Definition PRIO_MAX : Z := 20.
Definition QSIZE : Z := 100.
Definition MUX_MAXNUM : Z := 20.
Definition SHM_MAXNUM : Z := 32.
(** The length of a mutex's [cv] array and of the global wait queue. *)
Definition WQSIZE : Z := 1000.

Inductive procstate := UNUSED | EMBRYO | SLEEPING | RUNNABLE | RUNNING | ZOMBIE.

#[export] Instance procstate_eq_dec : EqDecision procstate.
Proof. solve_decision. Defined.

(** Sleep channels are addresses; the kernel only compares them. *)
Inductive chan := ChNull | ChProc (p : nat) | ChTicks | ChAddr (a : Z).

#[export] Instance chan_eq_dec : EqDecision chan.
Proof. solve_decision. Defined.

(** [struct trapframe] of x86.h, without its padding. *)
Record trapframe := mktf {
  tf_edi : Z;
  tf_esi : Z;
  tf_ebp : Z;
  tf_oesp : Z;
  tf_ebx : Z;
  tf_edx : Z;
  tf_ecx : Z;
  tf_eax : Z;
  tf_gs : Z;
  tf_fs : Z;
  tf_es : Z;
  tf_ds : Z;
  tf_trapno : Z;
  tf_err : Z;
  tf_eip : Z;
  tf_cs : Z;
  tf_eflags : Z;
  tf_esp : Z;
  tf_ss : Z }.

Definition set_tf_eax (x : Z) (r : trapframe) : trapframe := mktf (tf_edi r) (tf_esi r) (tf_ebp r) (tf_oesp r) (tf_ebx r) (tf_edx r) (tf_ecx r) x (tf_gs r) (tf_fs r) (tf_es r) (tf_ds r) (tf_trapno r) (tf_err r) (tf_eip r) (tf_cs r) (tf_eflags r) (tf_esp r) (tf_ss r).
Definition set_tf_eip (x : Z) (r : trapframe) : trapframe := mktf (tf_edi r) (tf_esi r) (tf_ebp r) (tf_oesp r) (tf_ebx r) (tf_edx r) (tf_ecx r) (tf_eax r) (tf_gs r) (tf_fs r) (tf_es r) (tf_ds r) (tf_trapno r) (tf_err r) x (tf_cs r) (tf_eflags r) (tf_esp r) (tf_ss r).
Definition set_tf_esp (x : Z) (r : trapframe) : trapframe := mktf (tf_edi r) (tf_esi r) (tf_ebp r) (tf_oesp r) (tf_ebx r) (tf_edx r) (tf_ecx r) (tf_eax r) (tf_gs r) (tf_fs r) (tf_es r) (tf_ds r) (tf_trapno r) (tf_err r) (tf_eip r) (tf_cs r) (tf_eflags r) x (tf_ss r).

Definition zero_tf : trapframe := mktf 0 0 0 0 0 0 0 0 0 0 0 0 0 0 0 0 0 0 0.

(** Its size in bytes, padding included, and that of [struct context]. *)
Definition sizeof_trapframe : Z := 76.
Definition sizeof_context : Z := 20.

(** [struct context]: the registers saved by [swtch]. *)
Record context := mkctx {
  c_edi : Z;
  c_esi : Z;
  c_ebx : Z;
  c_ebp : Z;
  c_eip : Z }.


(** [struct proc].  A [struct proc *] is the index of the slot ([None] is null);
    [p_tf] and [p_context] are the addresses, [p_tfr] and [p_ctx] what they point
    to; [p_mux_ptrs] and [p_shmpgs] hold indices into the global tables. *)
Record proc := mkproc {
  p_sz : Z;
  p_pgdir : Z;
  p_kstack : Z;
  p_state : procstate;
  p_pid : Z;
  p_parent : option nat;
  p_tf : Z;
  p_tfr : trapframe;
  p_context : Z;
  p_ctx : context;
  p_chan : chan;
  p_killed : Z;
  p_ofile : list Z;
  p_cwd : Z;
  p_name : list Z;
  p_mux_ptrs : list (option nat);
  p_priority : Z;
  p_shmpgs : list (option nat) }.

Definition set_p_sz (x : Z) (r : proc) : proc := mkproc x (p_pgdir r) (p_kstack r) (p_state r) (p_pid r) (p_parent r) (p_tf r) (p_tfr r) (p_context r) (p_ctx r) (p_chan r) (p_killed r) (p_ofile r) (p_cwd r) (p_name r) (p_mux_ptrs r) (p_priority r) (p_shmpgs r).
Definition set_p_pgdir (x : Z) (r : proc) : proc := mkproc (p_sz r) x (p_kstack r) (p_state r) (p_pid r) (p_parent r) (p_tf r) (p_tfr r) (p_context r) (p_ctx r) (p_chan r) (p_killed r) (p_ofile r) (p_cwd r) (p_name r) (p_mux_ptrs r) (p_priority r) (p_shmpgs r).
Definition set_p_kstack (x : Z) (r : proc) : proc := mkproc (p_sz r) (p_pgdir r) x (p_state r) (p_pid r) (p_parent r) (p_tf r) (p_tfr r) (p_context r) (p_ctx r) (p_chan r) (p_killed r) (p_ofile r) (p_cwd r) (p_name r) (p_mux_ptrs r) (p_priority r) (p_shmpgs r).
Definition set_p_state (x : procstate) (r : proc) : proc := mkproc (p_sz r) (p_pgdir r) (p_kstack r) x (p_pid r) (p_parent r) (p_tf r) (p_tfr r) (p_context r) (p_ctx r) (p_chan r) (p_killed r) (p_ofile r) (p_cwd r) (p_name r) (p_mux_ptrs r) (p_priority r) (p_shmpgs r).
Definition set_p_pid (x : Z) (r : proc) : proc := mkproc (p_sz r) (p_pgdir r) (p_kstack r) (p_state r) x (p_parent r) (p_tf r) (p_tfr r) (p_context r) (p_ctx r) (p_chan r) (p_killed r) (p_ofile r) (p_cwd r) (p_name r) (p_mux_ptrs r) (p_priority r) (p_shmpgs r).
Definition set_p_parent (x : option nat) (r : proc) : proc := mkproc (p_sz r) (p_pgdir r) (p_kstack r) (p_state r) (p_pid r) x (p_tf r) (p_tfr r) (p_context r) (p_ctx r) (p_chan r) (p_killed r) (p_ofile r) (p_cwd r) (p_name r) (p_mux_ptrs r) (p_priority r) (p_shmpgs r).
Definition set_p_tf (x : Z) (r : proc) : proc := mkproc (p_sz r) (p_pgdir r) (p_kstack r) (p_state r) (p_pid r) (p_parent r) x (p_tfr r) (p_context r) (p_ctx r) (p_chan r) (p_killed r) (p_ofile r) (p_cwd r) (p_name r) (p_mux_ptrs r) (p_priority r) (p_shmpgs r).
Definition set_p_tfr (x : trapframe) (r : proc) : proc := mkproc (p_sz r) (p_pgdir r) (p_kstack r) (p_state r) (p_pid r) (p_parent r) (p_tf r) x (p_context r) (p_ctx r) (p_chan r) (p_killed r) (p_ofile r) (p_cwd r) (p_name r) (p_mux_ptrs r) (p_priority r) (p_shmpgs r).
Definition set_p_context (x : Z) (r : proc) : proc := mkproc (p_sz r) (p_pgdir r) (p_kstack r) (p_state r) (p_pid r) (p_parent r) (p_tf r) (p_tfr r) x (p_ctx r) (p_chan r) (p_killed r) (p_ofile r) (p_cwd r) (p_name r) (p_mux_ptrs r) (p_priority r) (p_shmpgs r).
Definition set_p_ctx (x : context) (r : proc) : proc := mkproc (p_sz r) (p_pgdir r) (p_kstack r) (p_state r) (p_pid r) (p_parent r) (p_tf r) (p_tfr r) (p_context r) x (p_chan r) (p_killed r) (p_ofile r) (p_cwd r) (p_name r) (p_mux_ptrs r) (p_priority r) (p_shmpgs r).
Definition set_p_chan (x : chan) (r : proc) : proc := mkproc (p_sz r) (p_pgdir r) (p_kstack r) (p_state r) (p_pid r) (p_parent r) (p_tf r) (p_tfr r) (p_context r) (p_ctx r) x (p_killed r) (p_ofile r) (p_cwd r) (p_name r) (p_mux_ptrs r) (p_priority r) (p_shmpgs r).
Definition set_p_killed (x : Z) (r : proc) : proc := mkproc (p_sz r) (p_pgdir r) (p_kstack r) (p_state r) (p_pid r) (p_parent r) (p_tf r) (p_tfr r) (p_context r) (p_ctx r) (p_chan r) x (p_ofile r) (p_cwd r) (p_name r) (p_mux_ptrs r) (p_priority r) (p_shmpgs r).
Definition set_p_ofile (x : list Z) (r : proc) : proc := mkproc (p_sz r) (p_pgdir r) (p_kstack r) (p_state r) (p_pid r) (p_parent r) (p_tf r) (p_tfr r) (p_context r) (p_ctx r) (p_chan r) (p_killed r) x (p_cwd r) (p_name r) (p_mux_ptrs r) (p_priority r) (p_shmpgs r).
Definition set_p_cwd (x : Z) (r : proc) : proc := mkproc (p_sz r) (p_pgdir r) (p_kstack r) (p_state r) (p_pid r) (p_parent r) (p_tf r) (p_tfr r) (p_context r) (p_ctx r) (p_chan r) (p_killed r) (p_ofile r) x (p_name r) (p_mux_ptrs r) (p_priority r) (p_shmpgs r).
Definition set_p_name (x : list Z) (r : proc) : proc := mkproc (p_sz r) (p_pgdir r) (p_kstack r) (p_state r) (p_pid r) (p_parent r) (p_tf r) (p_tfr r) (p_context r) (p_ctx r) (p_chan r) (p_killed r) (p_ofile r) (p_cwd r) x (p_mux_ptrs r) (p_priority r) (p_shmpgs r).
Definition set_p_mux_ptrs (x : list (option nat)) (r : proc) : proc := mkproc (p_sz r) (p_pgdir r) (p_kstack r) (p_state r) (p_pid r) (p_parent r) (p_tf r) (p_tfr r) (p_context r) (p_ctx r) (p_chan r) (p_killed r) (p_ofile r) (p_cwd r) (p_name r) x (p_priority r) (p_shmpgs r).
Definition set_p_priority (x : Z) (r : proc) : proc := mkproc (p_sz r) (p_pgdir r) (p_kstack r) (p_state r) (p_pid r) (p_parent r) (p_tf r) (p_tfr r) (p_context r) (p_ctx r) (p_chan r) (p_killed r) (p_ofile r) (p_cwd r) (p_name r) (p_mux_ptrs r) x (p_shmpgs r).
Definition set_p_shmpgs (x : list (option nat)) (r : proc) : proc := mkproc (p_sz r) (p_pgdir r) (p_kstack r) (p_state r) (p_pid r) (p_parent r) (p_tf r) (p_tfr r) (p_context r) (p_ctx r) (p_chan r) (p_killed r) (p_ofile r) (p_cwd r) (p_name r) (p_mux_ptrs r) (p_priority r) x.

(** A slot of the zero-filled table. *)
Definition proc0 : proc :=
  mkproc 0 0 0 UNUSED 0 None 0 zero_tf 0 (mkctx 0 0 0 0 0) ChNull 0
    (replicate (Z.to_nat NOFILE) 0) 0 (replicate 16 0)
    (replicate (Z.to_nat MUX_MAXNUM) None) 0 (replicate (Z.to_nat SHM_MAXNUM) None).

(** [struct mutex]: the name is a pointer, compared as such. *)
Record mutex := mkmutex {
  m_name : Z;
  m_state : Z;
  m_cv : list (option nat) }.

Definition set_m_name (x : Z) (r : mutex) : mutex := mkmutex x (m_state r) (m_cv r).
Definition set_m_state (x : Z) (r : mutex) : mutex := mkmutex (m_name r) x (m_cv r).
Definition set_m_cv (x : list (option nat)) (r : mutex) : mutex := mkmutex (m_name r) (m_state r) x.

(** [struct shm_pg]. *)
Record shm_pg := mkshm {
  sp_allocated : Z;
  sp_name : Z;
  sp_pa : Z;
  sp_ref_count : Z }.

Definition set_sp_allocated (x : Z) (r : shm_pg) : shm_pg := mkshm x (sp_name r) (sp_pa r) (sp_ref_count r).
Definition set_sp_name (x : Z) (r : shm_pg) : shm_pg := mkshm (sp_allocated r) x (sp_pa r) (sp_ref_count r).
Definition set_sp_pa (x : Z) (r : shm_pg) : shm_pg := mkshm (sp_allocated r) (sp_name r) x (sp_ref_count r).
Definition set_sp_ref_count (x : Z) (r : shm_pg) : shm_pg := mkshm (sp_allocated r) (sp_name r) (sp_pa r) x.

(** [ptable] without its lock: the slots, and the rings of the scheduler. *)
Record ptab := mkptab {
  procs : list proc;
  head_tail : list (Z * Z);
  pqueues : list (list (option nat)) }.

Definition set_procs (x : list proc) (r : ptab) : ptab := mkptab x (head_tail r) (pqueues r).
Definition set_head_tail (x : list (Z * Z)) (r : ptab) : ptab := mkptab (procs r) x (pqueues r).
Definition set_pqueues (x : list (list (option nat))) (r : ptab) : ptab := mkptab (procs r) (head_tail r) x.

(** [MUTEXES] and [wqueue] without their locks. *)
Record muxtab := mkmuxtab {
  muxes : list mutex;
  wqueue : list (option nat) }.

Definition set_muxes (x : list mutex) (r : muxtab) : muxtab := mkmuxtab x (wqueue r).
Definition set_wqueue (x : list (option nat)) (r : muxtab) : muxtab := mkmuxtab (muxes r) x.

(** [shmtable]. *)
Record shmtab := mkshmtab {
  shm_initialized : Z;
  shm_pages : list shm_pg }.

Definition set_shm_initialized (x : Z) (r : shmtab) : shmtab := mkshmtab x (shm_pages r).
Definition set_shm_pages (x : list shm_pg) (r : shmtab) : shmtab := mkshmtab (shm_initialized r) x.

(** The globals of proc.c, trap.c and vm.c; [forkret_first] is the static [first] of [forkret]. *)
Record globals := mkglobals {
  nextpid : Z;
  initproc : option nat;
  pqueue_ready : Z;
  first_time : Z;
  ticks : Z;
  forkret_first : Z;
  kpgdir : Z }.

Definition set_nextpid (x : Z) (r : globals) : globals := mkglobals x (initproc r) (pqueue_ready r) (first_time r) (ticks r) (forkret_first r) (kpgdir r).
Definition set_initproc (x : option nat) (r : globals) : globals := mkglobals (nextpid r) x (pqueue_ready r) (first_time r) (ticks r) (forkret_first r) (kpgdir r).
Definition set_pqueue_ready (x : Z) (r : globals) : globals := mkglobals (nextpid r) (initproc r) x (first_time r) (ticks r) (forkret_first r) (kpgdir r).
Definition set_first_time (x : Z) (r : globals) : globals := mkglobals (nextpid r) (initproc r) (pqueue_ready r) x (ticks r) (forkret_first r) (kpgdir r).
Definition set_ticks (x : Z) (r : globals) : globals := mkglobals (nextpid r) (initproc r) (pqueue_ready r) (first_time r) x (forkret_first r) (kpgdir r).
Definition set_forkret_first (x : Z) (r : globals) : globals := mkglobals (nextpid r) (initproc r) (pqueue_ready r) (first_time r) (ticks r) x (kpgdir r).
Definition set_kpgdir (x : Z) (r : globals) : globals := mkglobals (nextpid r) (initproc r) (pqueue_ready r) (first_time r) (ticks r) (forkret_first r) x.

(** The part of [struct cpu] and of a CPU's registers that only the switching of address spaces writes: the segment table, the task state segment (its address and three of its fields), and the registers tr and cr3. *)
Record cpuregs := mkcpuregs {
  gdt : list segdesc;
  ts_addr : Z;
  ts_ss0 : Z;
  ts_esp0 : Z;
  ts_iomb : Z;
  tr : Z;
  cr3 : Z }.

Definition set_gdt (x : list segdesc) (r : cpuregs) : cpuregs := mkcpuregs x (ts_addr r) (ts_ss0 r) (ts_esp0 r) (ts_iomb r) (tr r) (cr3 r).
Definition set_ts_addr (x : Z) (r : cpuregs) : cpuregs := mkcpuregs (gdt r) x (ts_ss0 r) (ts_esp0 r) (ts_iomb r) (tr r) (cr3 r).
Definition set_ts_ss0 (x : Z) (r : cpuregs) : cpuregs := mkcpuregs (gdt r) (ts_addr r) x (ts_esp0 r) (ts_iomb r) (tr r) (cr3 r).
Definition set_ts_esp0 (x : Z) (r : cpuregs) : cpuregs := mkcpuregs (gdt r) (ts_addr r) (ts_ss0 r) x (ts_iomb r) (tr r) (cr3 r).
Definition set_ts_iomb (x : Z) (r : cpuregs) : cpuregs := mkcpuregs (gdt r) (ts_addr r) (ts_ss0 r) (ts_esp0 r) x (tr r) (cr3 r).
Definition set_tr (x : Z) (r : cpuregs) : cpuregs := mkcpuregs (gdt r) (ts_addr r) (ts_ss0 r) (ts_esp0 r) (ts_iomb r) x (cr3 r).
Definition set_cr3 (x : Z) (r : cpuregs) : cpuregs := mkcpuregs (gdt r) (ts_addr r) (ts_ss0 r) (ts_esp0 r) (ts_iomb r) (tr r) x.

(** ** The whole state *)
Record kst (F : Type) := mkkst {
  km : mach;
  kp : ptab;
  kx : muxtab;
  ks : shmtab;
  kg : globals;
  kf : F;
  kc : list cpuregs }.

Arguments km {F} _.
Arguments kp {F} _.
Arguments kx {F} _.
Arguments ks {F} _.
Arguments kg {F} _.
Arguments kf {F} _.
Arguments kc {F} _.
Arguments mkkst {F} _ _ _ _ _ _ _.

Definition set_km {F} (x : mach) (r : kst F) : kst F := mkkst x (kp r) (kx r) (ks r) (kg r) (kf r) (kc r).
Definition set_kp {F} (x : ptab) (r : kst F) : kst F := mkkst (km r) x (kx r) (ks r) (kg r) (kf r) (kc r).
Definition set_kx {F} (x : muxtab) (r : kst F) : kst F := mkkst (km r) (kp r) x (ks r) (kg r) (kf r) (kc r).
Definition set_ks {F} (x : shmtab) (r : kst F) : kst F := mkkst (km r) (kp r) (kx r) x (kg r) (kf r) (kc r).
Definition set_kg {F} (x : globals) (r : kst F) : kst F := mkkst (km r) (kp r) (kx r) (ks r) x (kf r) (kc r).
Definition set_kf {F} (x : F) (r : kst F) : kst F := mkkst (km r) (kp r) (kx r) (ks r) (kg r) x (kc r).
Definition set_kc {F} (x : list cpuregs) (r : kst F) : kst F := mkkst (km r) (kp r) (kx r) (ks r) (kg r) (kf r) x.

(** The addresses of the locks; [kmem_lock] is 1. *)
Definition ptable_lock : Z := 2.
Definition mutexes_lock : Z := 3.
Definition wqueue_lock : Z := 4.
Definition tickslock : Z := 5.

(** Symbols of the kernel image that proc.c refers to: the entry points
    [trapret] and [forkret], and the bytes of initcode. *)
Class Image := { trapret : Z; forkret_pc : Z; initcode : list Z }.

(** ** The interface to the file system

    What proc.c uses of file.c, fs.c and log.c.  Handles are addresses, 0 is
    null.  The operations run on the whole kernel state: closing a pipe, for
    example, wakes sleeping processes. *)
Class FileOps (F : Type) := {
  filedup : Z -> M (kst F) Z;
  fileclose : Z -> M (kst F) unit;
  idup : Z -> M (kst F) Z;
  begin_op : M (kst F) unit;
  end_op : M (kst F) unit;
  iput : Z -> M (kst F) unit;
  namei_root : M (kst F) Z;  (* namei("/") *)
  iinit : Z -> M (kst F) unit;
  initlog : Z -> M (kst F) unit }.

