(* ===== verification/PQueue.v ===== *)
(** * The scheduler's priority queues (pq_enqueue and pq_dequeue of proc.c)

    [ptable.pqueues[i]] is a ring of QSIZE process pointers, read at
    [head_tail[i][0]] and written at [head_tail[i][1]]; priority 0 is the
    highest.  The abstract specification is one FIFO list per priority. *)

From Stdlib Require Import ZArith Lia.
From stdpp Require Import base numbers strings gmap list.
From S2P Require Import Prelude.
From S2P Require Import Machine.
From S2P Require Import Spinlock.
From S2P Require Import Kalloc.
From S2P Require Import KState.

Local Open Scope string_scope.
Local Open Scope list_scope.
Local Open Scope Z_scope.

(** ** The operations *)

Definition pq_enqueue (p : nat) : M ptab Z :=
  t ← get;
  pr ← of_option "pq_enqueue: p" (procs t !! p);
  if negb (bool_decide (p_state pr = RUNNABLE)) then mret (-1)
  else
    let priority := i32 (p_priority pr) in
    ht ← of_option "pq_enqueue: head_tail" (zget (head_tail t) priority);
    let '(head, tail) := ht in
    if tail =? c_rem (head - 1) QSIZE then mret (-1)
    else
      row ← of_option "pq_enqueue: pqueues" (zget (pqueues t) priority);
      row' ← of_option "pq_enqueue: slot" (zset tail (Some p) row);
      q' ← of_option "pq_enqueue: pqueues" (zset priority row' (pqueues t));
      ht' ← of_option "pq_enqueue: head_tail"
              (zset priority (head, c_rem (tail + 1) QSIZE) (head_tail t));
      put (mkptab (procs t) ht' q');;
      mret 1.

(** The result of [pq_dequeue]: the macro [NULL] (which is -1 here), or the
    pointer stored in the ring. *)
Inductive dequeued := DqNULL | DqProc (p : option nat).

Definition pq_dequeue : M ptab dequeued :=
  t ← get;
  match find_first (fun ht => negb (ht.1 =? ht.2)) (take (Z.to_nat PRIO_MAX) (head_tail t)) with
  | None => mret DqNULL
  | Some priority =>
      ht ← of_option "pq_dequeue: head_tail" (head_tail t !! priority);
      let '(head, tail) := ht in
      row ← of_option "pq_dequeue: pqueues" (pqueues t !! priority);
      p ← of_option "pq_dequeue: slot" (zget row head);
      put (mkptab (procs t) (<[priority := (c_rem (head + 1) QSIZE, tail)]> (head_tail t)) (pqueues t));;
      mret (DqProc p)
  end.

(** ** The abstract queues *)

(** The ring [row] between [h] and [t] holds [q], oldest first. *)
Definition ring_rep (row : list (option nat)) (ht : Z * Z) (q : list nat) : Prop :=
  let '(h, t) := ht in
  length row = Z.to_nat QSIZE /\ 0 <= h < QSIZE /\ t = (h + Z.of_nat (length q)) mod QSIZE /\
  (length q < Z.to_nat QSIZE)%nat /\
  forall i p, q !! i = Some p -> row !! Z.to_nat ((h + Z.of_nat i) mod QSIZE) = Some (Some p).

Definition pq_rep (t : ptab) (qs : list (list nat)) : Prop :=
  length qs = Z.to_nat PRIO_MAX /\ length (head_tail t) = Z.to_nat PRIO_MAX /\
  length (pqueues t) = Z.to_nat PRIO_MAX /\
  forall i ht row q, head_tail t !! i = Some ht -> pqueues t !! i = Some row -> qs !! i = Some q ->
    ring_rep row ht q.

(** The abstract operations. *)
Definition spec_enqueue (prio : nat) (p : nat) (qs : list (list nat)) : list (list nat) :=
  alter (fun q => q ++ [p]) prio qs.

Fixpoint spec_dequeue (qs : list (list nat)) : option (nat * list (list nat)) :=
  match qs with
  | [] => None
  | [] :: qs => '(p, qs') ← spec_dequeue qs; Some (p, [] :: qs')
  | (p :: q) :: qs => Some (p, q :: qs)
  end.

Ltac qsimp := unfold QSIZE, PRIO_MAX in *.

Lemma c_rem_pos a : 0 <= a -> c_rem a QSIZE = a mod QSIZE.
Proof. intros H. unfold c_rem. apply Z.rem_mod_nonneg; [done|]. qsimp. lia. Qed.

(** An empty ring and [head == tail] are the same thing. *)
Lemma ring_empty row h t q : ring_rep row (h, t) q -> (h = t <-> q = []).
Proof.
  intros (_ & Hh & Ht & Hl & _). qsimp. split.
  - intros E. destruct q as [|p q]; [done|]. exfalso. rewrite E in Ht.
    destruct (decide (t + Z.of_nat (length (p :: q)) < 100)) as [Hs|Hs].
    + rewrite Z.mod_small in Ht by lia. simpl in Ht. lia.
    + rewrite <- (Z_mod_plus_full _ (-1)), Z.mod_small in Ht by lia. lia.
  - intros ->. rewrite Z.add_0_r, Z.mod_small in Ht by lia. done.
Qed.

(** The full test of the code: correct for a ring that does not start at 0,
    and never true for one that does. *)
Lemma ring_full row h t q : ring_rep row (h, t) q ->
  (t = c_rem (h - 1) QSIZE <-> 0 < h /\ length q = 99%nat).
Proof.
  intros (_ & Hh & Ht & Hl & _). qsimp. unfold c_rem.
  destruct (decide (h = 0)) as [->|Hne].
  - change (Z.rem (0 - 1) 100) with (-1). pose proof (Z.mod_pos_bound (0 + Z.of_nat (length q)) 100). lia.
  - rewrite Z.rem_mod_nonneg, Z.mod_small by lia.
    destruct (decide (h + Z.of_nat (length q) < 100)) as [Hs|Hs].
    + rewrite Z.mod_small in Ht by lia. lia.
    + rewrite <- (Z_mod_plus_full _ (-1)), Z.mod_small in Ht by lia. lia.
Qed.

Lemma mod_idx_inj h i j : 0 <= i < 100 -> 0 <= j < 100 -> (h + i) mod 100 = (h + j) mod 100 -> i = j.
Proof.
  intros Hi Hj E. pose proof (Z.div_mod (h + i) 100). pose proof (Z.div_mod (h + j) 100). lia.
Qed.

Lemma ring_push row h t q p :
  ring_rep row (h, t) q -> (length q < 99)%nat ->
  ring_rep (<[Z.to_nat t := Some p]> row) (h, c_rem (t + 1) QSIZE) (q ++ [p]).
Proof.
  intros (Hr & Hh & Ht & Hl & Hq) Hlt. pose proof (Z.mod_pos_bound (h + Z.of_nat (length q)) 100) as Hb.
  split; [by rewrite length_insert|]. split; [done|]. rewrite length_app. simpl. split; [|split].
  - rewrite c_rem_pos by (qsimp; lia). rewrite Ht. qsimp. rewrite Zplus_mod_idemp_l. f_equal. lia.
  - qsimp. lia.
  - intros i x Hx. qsimp. destruct (decide (i = length q)) as [->|Hi].
    + rewrite lookup_app_r, Nat.sub_diag in Hx by lia. injection Hx as <-. rewrite <- Ht.
      rewrite list_lookup_insert_eq; [done|]. rewrite Hr. lia.
    + assert (i < length q)%nat as Hi' by (apply lookup_lt_Some in Hx; rewrite length_app in Hx; simpl in Hx; lia).
      rewrite lookup_app_l in Hx by done. rewrite list_lookup_insert_ne; [by apply Hq|].
      pose proof (Z.mod_pos_bound (h + Z.of_nat i) 100). intros E. apply Z2Nat.inj in E; [|lia..].
      rewrite Ht in E. apply mod_idx_inj in E; lia.
Qed.

Lemma ring_pop row h t p q :
  ring_rep row (h, t) (p :: q) ->
  zget row h = Some (Some p) /\ ring_rep row (c_rem (h + 1) QSIZE, t) q.
Proof.
  intros (Hr & Hh & Ht & Hl & Hq). simpl in Hl, Ht. split.
  - apply zget_Some. split; [lia|]. specialize (Hq 0%nat p eq_refl). qsimp.
    by rewrite Z.add_0_r, Z.mod_small in Hq by lia.
  - rewrite c_rem_pos by lia. pose proof (Z.mod_pos_bound (h + 1) 100). unfold ring_rep. qsimp.
    split; [done|]. split; [lia|]. split; [|split; [lia|]].
    + rewrite Ht, Zplus_mod_idemp_l. f_equal. lia.
    + intros i x Hx. specialize (Hq (S i) x Hx). rewrite Zplus_mod_idemp_l.
      replace (h + 1 + Z.of_nat i) with (h + Z.of_nat (S i)) by lia. done.
Qed.

(** ** Refinement *)

(** The queues in range and in state: [p] is runnable at priority [prio]. *)
Definition enqueuable (t : ptab) (p : nat) (prio : nat) : Prop :=
  exists pr, procs t !! p = Some pr /\ p_state pr = RUNNABLE /\ p_priority pr = Z.of_nat prio /\ (prio < 20)%nat.

Lemma pq_rep_rings t qs i :
  pq_rep t qs -> (i < 20)%nat -> exists h tl row q,
    head_tail t !! i = Some (h, tl) /\ pqueues t !! i = Some row /\ qs !! i = Some q /\ ring_rep row (h, tl) q.
Proof.
  intros (H1 & H2 & H3 & H) Hi. qsimp.
  destruct (lookup_lt_is_Some_2 (head_tail t) i) as [[h tl] Eh]; [lia|].
  destruct (lookup_lt_is_Some_2 (pqueues t) i) as [row Er]; [lia|].
  destruct (lookup_lt_is_Some_2 qs i) as [q Eq]; [lia|]. exists h, tl, row, q. eauto.
Qed.

(** Replacing ring [i]. *)
Lemma pq_rep_update t qs i ht row q ps :
  pq_rep t qs -> (i < 20)%nat -> ring_rep row ht q ->
  pq_rep (mkptab ps (<[i := ht]> (head_tail t)) (<[i := row]> (pqueues t))) (<[i := q]> qs).
Proof.
  intros (H1 & H2 & H3 & H) Hi Hr. unfold pq_rep; simpl. rewrite !length_insert. do 3 (split; [done|]).
  intros j ht' row' q' Hh Hw Hq. qsimp. destruct (decide (i = j)) as [<-|Hne].
  - rewrite list_lookup_insert_eq in Hh by lia. rewrite list_lookup_insert_eq in Hw by lia.
    rewrite list_lookup_insert_eq in Hq by lia. congruence.
  - rewrite list_lookup_insert_ne in Hh by done. rewrite list_lookup_insert_ne in Hw by done.
    rewrite list_lookup_insert_ne in Hq by done. eauto.
Qed.

Lemma pq_enqueue_run t qs p prio q :
  pq_rep t qs -> enqueuable t p prio -> qs !! prio = Some q -> (length q < 99)%nat ->
  exists t', pq_enqueue p t = Ret 1 t' /\ procs t' = procs t /\ pq_rep t' (spec_enqueue prio p qs).
Proof.
  intros Hrep (pr & Hp & Hs & Hpr & Hlt) Hq Hl.
  destruct (pq_rep_rings t qs prio Hrep Hlt) as (h & tl & row & q0 & Eh & Er & Eq & Hring).
  rewrite Hq in Eq. injection Eq as <-. pose proof Hring as (Hlr & Hh & Ht & _ & _).
  pose proof (Z.mod_pos_bound (h + Z.of_nat (length q)) 100). qsimp.
  pose proof Hrep as (Hl1 & Hl2 & Hl3 & _). qsimp.
  unfold pq_enqueue. mexec. rewrite Hp, Hs, bool_decide_eq_true_2 by done. simpl negb. cbv iota.
  rewrite Hpr, i32_small by lia. rewrite !zget_nat, Eh.
  destruct (Z.eqb_spec tl (c_rem (h - 1) QSIZE)) as [E|_].
  { apply (ring_full row h tl q Hring) in E as [_ E]. lia. }
  rewrite Er, zset_Some by lia. rewrite !zset_Some by lia. rewrite Nat2Z.id.
  eexists. split; [done|]. split; [done|]. unfold spec_enqueue.
  rewrite (alter_insert_Some _ _ _ _ Hq).
  apply pq_rep_update; [done|done|]. by apply ring_push.
Qed.

Lemma spec_dequeue_first qs p qs' :
  spec_dequeue qs = Some (p, qs') ->
  exists i q, qs !! i = Some (p :: q) /\ qs' = <[i := q]> qs /\
    (forall j q', (j < i)%nat -> qs !! j = Some q' -> q' = []).
Proof.
  revert qs'. induction qs as [|[|x q0] qs IH]; intros qs' H; simpl in H; [done| |].
  - destruct (spec_dequeue qs) as [[p' qs1]|] eqn:E; simpl in H; [|done]. injection H as -> <-.
    destruct (IH qs1 eq_refl) as (i & q & Hq & -> & Hmin). exists (S i), q. split; [done|]. split; [done|].
    intros [|j] q' Hj Hj'; simpl in Hj'; [congruence|]. apply (Hmin j); [lia|done].
  - injection H as <- <-. exists 0%nat, q0. split; [done|]. split; [done|]. intros j q' Hj. lia.
Qed.

Lemma spec_dequeue_None qs : spec_dequeue qs = None <-> Forall (fun q => q = []) qs.
Proof.
  induction qs as [|[|x q0] qs IH]; simpl; [by split|..].
  - rewrite Forall_cons, <- IH. destruct (spec_dequeue qs) as [[??]|]; simpl; intuition congruence.
  - rewrite Forall_cons. intuition congruence.
Qed.

(** The first ring with [head != tail] is the first non-empty queue. *)
Lemma scan_rep t qs : pq_rep t qs ->
  find_first (fun ht => negb (ht.1 =? ht.2)) (take (Z.to_nat PRIO_MAX) (head_tail t)) =
  find_first (fun q => negb (bool_decide (q = []))) qs.
Proof.
  intros (H1 & H2 & H3 & H). rewrite take_ge by (rewrite H2; done).
  assert (Hi : forall i ht q, head_tail t !! i = Some ht -> qs !! i = Some q ->
                negb (ht.1 =? ht.2) = negb (bool_decide (q = []))).
  { intros i [h tl] q Hh Hq. destruct (lookup_lt_is_Some_2 (pqueues t) i) as [row Hr].
    { rewrite H3, <- H2. by eapply lookup_lt_Some. }
    pose proof (ring_empty row h tl q (H i _ _ _ Hh Hr Hq)) as He. simpl. f_equal.
    destruct (Z.eqb_spec h tl), (decide (q = [])) as [Hn|Hn];
      rewrite ?bool_decide_eq_true_2, ?bool_decide_eq_false_2 by done; tauto. }
  rewrite <- H2 in H1. clear H H2 H3. revert H1 Hi. generalize (head_tail t). induction qs as [|q qs IH]; intros l Hl Hi.
  - by destruct l.
  - destruct l as [|ht l]; [done|]. simpl in Hl. simpl. rewrite (Hi 0%nat ht q eq_refl eq_refl).
    destruct (bool_decide (q = [])); simpl; [|done]. f_equal. apply IH; [lia|]. intros i. apply (Hi (S i)).
Qed.

Lemma pq_dequeue_run t qs : pq_rep t qs ->
  match spec_dequeue qs with
  | None => pq_dequeue t = Ret DqNULL t
  | Some (p, qs') => exists t', pq_dequeue t = Ret (DqProc (Some p)) t' /\ procs t' = procs t /\ pq_rep t' qs'
  end.
Proof.
  intros Hrep. unfold pq_dequeue. mexec. rewrite (scan_rep t qs Hrep).
  destruct (spec_dequeue qs) as [[p qs']|] eqn:E.
  - apply spec_dequeue_first in E as (i & q & Hq & -> & Hmin).
    assert (find_first (fun q => negb (bool_decide (q = []))) qs = Some i) as ->.
    { apply find_first_Some. split; [by exists (p :: q)|].
      intros j q' Hj Hq'. rewrite (Hmin j q' Hj Hq'). by rewrite bool_decide_eq_true_2. }
    assert (i < 20)%nat as Hi by (destruct Hrep as (Hl & _); apply lookup_lt_Some in Hq; qsimp; lia).
    destruct (pq_rep_rings t qs i Hrep Hi) as (h & tl & row & q0 & Eh & Er & Eq & Hring).
    rewrite Hq in Eq. injection Eq as <-. destruct (ring_pop row h tl p q Hring) as [Hz Hring'].
    rewrite Eh, Er, Hz. eexists. split; [done|]. split; [done|].
    rewrite <- (list_insert_id (pqueues t) i row Er). by apply pq_rep_update.
  - apply spec_dequeue_None in E.
    assert (find_first (fun q : list nat => negb (bool_decide (q = []))) qs = None) as ->; [|done].
    apply find_first_None. eapply Forall_impl; [exact E|]. intros q ->. by rewrite bool_decide_eq_true_2.
Qed.

(** The rings determine the queues. *)
Lemma ring_rep_unique row ht q q' : ring_rep row ht q -> ring_rep row ht q' -> q = q'.
Proof.
  destruct ht as [h t]. intros (Hr & Hh & Ht & Hl & Hq) (_ & _ & Ht' & Hl' & Hq'). qsimp.
  assert (Hlen : length q = length q') by (apply Nat2Z.inj, (mod_idx_inj h); [lia..|congruence]).
  apply list_eq_same_length with (length q); [done|done|]. intros i x y Hi Hx Hy.
  specialize (Hq i x Hx). specialize (Hq' i y Hy). congruence.
Qed.

Lemma pq_rep_unique t qs qs' : pq_rep t qs -> pq_rep t qs' -> qs = qs'.
Proof.
  intros H H'. pose proof H as (Hl & _). pose proof H' as (Hl' & _).
  apply list_eq_same_length with 20%nat; [done|done|]. intros i q q' Hi Hq Hq'.
  destruct (pq_rep_rings t qs i H Hi) as (h & tl & row & q1 & E1 & E2 & E3 & Hring).
  destruct (pq_rep_rings t qs' i H' Hi) as (h' & tl' & row' & q2 & E1' & E2' & E3' & Hring').
  simplify_eq. by eapply ring_rep_unique.
Qed.

(** Dequeue [n] times. *)
Fixpoint drain (n : nat) : M ptab (list dequeued) :=
  match n with
  | O => mret []
  | S n => d ← pq_dequeue; ds ← drain n; mret (d :: ds)
  end.

Lemma spec_dequeue_concat qs p qs' : spec_dequeue qs = Some (p, qs') -> concat qs = p :: concat qs'.
Proof.
  revert qs'. induction qs as [|[|x q0] qs IH]; intros qs' H; simpl in *; [done| |].
  - destruct (spec_dequeue qs) as [[p' qs1]|] eqn:E; simpl in H; [|done]. injection H as -> <-. simpl. by apply IH.
  - injection H as <- <-. done.
Qed.

Lemma drain_run t qs n : pq_rep t qs -> n = length (concat qs) ->
  exists t', drain (S n) t = Ret (((fun p => DqProc (Some p)) <$> concat qs) ++ [DqNULL]) t' /\ procs t' = procs t.
Proof.
  revert t qs. induction n as [|n IH]; intros t qs Hrep Hn; pose proof (pq_dequeue_run t qs Hrep) as Hd.
  - destruct (spec_dequeue qs) as [[p qs']|] eqn:E.
    { apply spec_dequeue_concat in E. rewrite E in Hn. done. }
    exists t. split; [|done]. destruct (concat qs); [|done]. simpl. mexec. by rewrite Hd.
  - destruct (spec_dequeue qs) as [[p qs']|] eqn:E.
    + destruct Hd as (t1 & Hd & Hp & Hrep1). apply spec_dequeue_concat in E. rewrite E in Hn |- *. simpl in Hn.
      destruct (IH t1 qs' Hrep1) as (t2 & H2 & Hp2); [lia|]. exists t2. split; [|congruence].
      change (drain (S (S n)) t) with ((pq_dequeue ≫= fun d => drain (S n) ≫= fun ds => mret (d :: ds)) t).
      rewrite (bind_ret_run _ _ _ _ _ Hd), (bind_ret_run _ _ _ _ _ H2). done.
    + apply spec_dequeue_None in E. exfalso. clear -E Hn. induction E as [|q qs -> _ IH]; simpl in Hn; [done|auto].
Qed.

(** Enqueue each process of a list, in order. *)
Fixpoint enqueue_all (ps : list nat) : M ptab unit :=
  match ps with [] => mret tt | p :: ps => pq_enqueue p;; enqueue_all ps end.

(** The processes of [ps] whose priority in the table is [prio]. *)
Definition prio_of (t : ptab) (p : nat) : Z := match procs t !! p with Some pr => p_priority pr | None => -1 end.
Definition at_prio (t : ptab) (ps : list nat) (prio : nat) : list nat :=
  filter (fun p => prio_of t p = Z.of_nat prio) ps.

Definition all_runnable (t : ptab) (ps : list nat) : Prop :=
  Forall (fun p => exists prio, enqueuable t p prio) ps.

Lemma enqueue_all_run t ps qs :
  pq_rep t qs -> all_runnable t ps -> (forall q, q ∈ qs -> (length q + length ps <= 99)%nat) ->
  exists t', enqueue_all ps t = Ret tt t' /\ procs t' = procs t /\
    pq_rep t' (imap (fun i q => q ++ at_prio t ps i) qs).
Proof.
  revert t qs. induction ps as [|p ps IH]; intros t qs Hrep Hall Hb.
  - exists t. split; [done|]. split; [done|]. replace (imap _ qs) with qs; [done|].
    symmetry. apply list_eq. intros i. rewrite list_lookup_imap. unfold at_prio; simpl.
    destruct (qs !! i); simpl; [by rewrite app_nil_r|done].
  - apply Forall_cons in Hall as [[prio He] Hall]. pose proof He as (pr & Hp & _ & Hpr & Hlt).
    destruct (pq_rep_rings t qs prio Hrep Hlt) as (h & tl & row & q & _ & _ & Hq & _).
    assert (length q + length (p :: ps) <= 99)%nat as Hlq by (apply Hb, list_elem_of_lookup; eauto).
    destruct (pq_enqueue_run t qs p prio q Hrep He Hq) as (t1 & H1 & E1 & R1); [simpl in Hlq; lia|].
    destruct (IH t1 (spec_enqueue prio p qs)) as (t2 & H2 & E2 & R2); [done| | |].
    + unfold all_runnable, enqueuable. rewrite E1. exact Hall.
    + unfold spec_enqueue. rewrite (alter_insert_Some _ _ _ _ Hq). intros q' [i Hq']%list_elem_of_lookup.
      simpl in Hlq. apply insert_lookup_cases in Hq' as [(_ & <- & _)|[_ Hq']].
      * rewrite length_app; simpl. lia.
      * assert (q' ∈ qs) as Hin by (apply list_elem_of_lookup; eauto). apply Hb in Hin. simpl in Hin. lia.
    + exists t2. split; [|split; [congruence|]].
      * simpl. by rewrite (bind_ret_run _ _ _ _ _ H1).
      * replace (imap _ qs) with (imap (fun i q => q ++ at_prio t1 ps i) (spec_enqueue prio p qs)); [done|].
        apply list_eq. intros i. rewrite !list_lookup_imap. unfold spec_enqueue, at_prio.
        assert (prio_of t1 = prio_of t) as -> by (unfold prio_of; by rewrite E1).
        assert (prio_of t p = Z.of_nat prio) as Hpp by (unfold prio_of; by rewrite Hp).
        destruct (decide (prio = i)) as [<-|Hne].
        -- rewrite list_lookup_alter_eq, Hq. simpl. rewrite filter_cons_True by done. by rewrite <- app_assoc.
        -- rewrite list_lookup_alter_ne by done. destruct (qs !! i); simpl; [|done].
           rewrite filter_cons_False by lia. done.
Qed.

Definition empty_rings (ps : list proc) : ptab :=
  mkptab ps (replicate (Z.to_nat PRIO_MAX) (0, 0))
    (replicate (Z.to_nat PRIO_MAX) (replicate (Z.to_nat QSIZE) None)).

Lemma empty_rings_rep ps : pq_rep (empty_rings ps) (replicate 20 []).
Proof.
  split; [done|]. split; [done|]. split; [done|]. intros i ht row q Hh Hr Hq.
  apply (lookup_replicate_1 (Z.to_nat PRIO_MAX)) in Hh as [-> _].
  apply (lookup_replicate_1 (Z.to_nat PRIO_MAX)) in Hr as [-> _].
  apply (lookup_replicate_1 20) in Hq as [-> _].
  unfold ring_rep. rewrite length_replicate. qsimp. simpl. split; [done|]. split; [lia|]. split; [done|].
  split; [lia|done].
Qed.

(** Splitting a list by priority only reorders it. *)
Lemma at_prio_perm t ps (n : nat) :
  Forall (fun p => 0 <= prio_of t p < Z.of_nat n) ps -> concat (at_prio t ps <$> seq 0 n) ≡ₚ ps.
Proof.
  revert ps. induction n as [|n IH]; intros ps Hall.
  { destruct ps as [|p ps]; [done|]. apply Forall_cons in Hall as [Hp _]. lia. }
  rewrite seq_S, fmap_app, concat_app. simpl. rewrite app_nil_r.
  set (lo := filter (fun p => prio_of t p < Z.of_nat n) ps).
  assert (at_prio t ps <$> seq 0 n = at_prio t lo <$> seq 0 n) as ->.
  { apply list_fmap_ext. intros i x Hx. apply lookup_seq in Hx as [-> Hi]. unfold at_prio, lo.
    rewrite list_filter_filter_l; [done|]. intros p. lia. }
  rewrite (IH lo).
  - transitivity (lo ++ filter (fun p => ~ prio_of t p < Z.of_nat n) ps); [|apply filter_app_complement].
    apply Permutation_app_head. unfold at_prio. clear lo. induction Hall as [|p ps Hp _ IHps]; [done|].
    rewrite !filter_cons. destruct (decide _), (decide _); lia || (by rewrite IHps) || done.
  - apply Forall_forall. intros p Hp. unfold lo in Hp.
    apply list_elem_of_filter in Hp as [Hp1 Hp2]. rewrite Forall_forall in Hall. specialize (Hall p Hp2). simpl in Hall. lia.
Qed.

(** ** Properties *)

(** Scheduling order.  Starting from empty queues, enqueue any sequence of
    at most 99 runnable processes and then dequeue until the queues are empty:
    every process comes out exactly once, all processes of a higher priority
    before those of a lower one, and processes of equal priority in the order
    in which they were enqueued; then [pq_dequeue] returns NULL. *)
Theorem pq_priority_fifo t ps :
  pq_rep t (replicate 20 []) -> all_runnable t ps -> (length ps <= 99)%nat ->
  exists t', (enqueue_all ps;; drain (S (length ps))) t =
      Ret (((fun p => DqProc (Some p)) <$> concat (at_prio t ps <$> seq 0 20)) ++ [DqNULL]) t' /\
    concat (at_prio t ps <$> seq 0 20) ≡ₚ ps.
Proof.
  intros Hrep Hall Hlen.
  assert (Hperm : concat (at_prio t ps <$> seq 0 20) ≡ₚ ps).
  { apply at_prio_perm. eapply Forall_impl; [exact Hall|]. intros p (prio & pr & Hp & _ & Hpr & Hlt).
    unfold prio_of. rewrite Hp. lia. }
  destruct (enqueue_all_run t ps (replicate 20 []) Hrep Hall) as (t1 & H1 & _ & R1).
  { intros q [-> _]%elem_of_replicate. simpl. lia. }
  assert (imap (fun i q => q ++ at_prio t ps i) (replicate 20 []) = at_prio t ps <$> seq 0 20) as E by reflexivity.
  rewrite E in R1. destruct (drain_run t1 _ (length ps) R1) as (t2 & H2 & _).
  { by rewrite Hperm. }
  exists t2. split; [|done]. by rewrite (bind_ret_run _ _ _ _ _ H1).
Qed.

(** The full test of [pq_enqueue].  A ring holding its maximum of 99
    processes refuses another one when its head is not slot 0.  When its head
    is slot 0 the C expression [(head-1)%QSIZE] is -1, so the test misses: the
    process is accepted, the tail wraps onto the head, and all 100 processes
    disappear from the queue, which now reads as empty. *)
Theorem pq_enqueue_full t qs p prio q h tl :
  pq_rep t qs -> enqueuable t p prio -> qs !! prio = Some q -> length q = 99%nat ->
  head_tail t !! prio = Some (h, tl) ->
  (h <> 0 -> pq_enqueue p t = Ret (-1) t) /\
  (h = 0 -> exists t', pq_enqueue p t = Ret 1 t' /\ pq_rep t' (<[prio := []]> qs)).
Proof.
  intros Hrep (pr & Hp & Hs & Hpr & Hlt) Hq Hl Hh.
  destruct (pq_rep_rings t qs prio Hrep Hlt) as (h0 & tl0 & row & q0 & Eh & Er & Eq & Hring).
  rewrite Hq in Eq. injection Eq as <-. rewrite Hh in Eh. injection Eh as <- <-.
  pose proof (ring_full row h tl q Hring) as Hfull. pose proof Hring as (Hlr & Hb & Ht & _ & _).
  pose proof Hrep as (Hl1 & Hl2 & Hl3 & _). qsimp.
  unfold pq_enqueue. mexec. rewrite Hp, Hs, bool_decide_eq_true_2 by done. simpl negb. cbv iota.
  rewrite Hpr, i32_small by lia. rewrite !zget_nat, Hh.
  destruct (Z.eqb_spec tl (c_rem (h - 1) QSIZE)) as [E|E]; split; intros H0; [done| | |].
  - apply Hfull in E. lia.
  - exfalso. apply E, Hfull. lia.
  - subst h. rewrite Hl in Ht. change ((0 + Z.of_nat 99) mod 100) with 99 in Ht. subst tl.
    rewrite Er, zset_Some by lia. rewrite !zset_Some by lia. rewrite Nat2Z.id.
    eexists. split; [done|]. apply pq_rep_update; [done|done|].
    unfold ring_rep. rewrite length_insert. qsimp. simpl. split; [done|]. split; [lia|]. split; [done|].
    split; [lia|done].
Qed.

(** C19. What [pq_enqueue] and [pq_dequeue] do to one FIFO queue per priority, on
    every branch.  A runnable process is appended to the queue of its priority
    when that queue has room (fewer than 99 processes).  A full queue refuses it
    when the head of the ring is not slot 0; when it is, the test for a full ring
    misses and the process is accepted, but the queue reads as empty from then
    on, with its 100 processes lost.  A process in any other state is refused
    and nothing changes.  [pq_dequeue] removes the front of the first non-empty
    queue, or returns NULL when all are empty. *)
Theorem pq_refines t qs :
  pq_rep t qs ->
  (forall p prio q, enqueuable t p prio -> qs !! prio = Some q -> (length q < 99)%nat ->
     exists t', pq_enqueue p t = Ret 1 t' /\ procs t' = procs t /\ pq_rep t' (spec_enqueue prio p qs)) /\
  (forall p prio q h tl, enqueuable t p prio -> qs !! prio = Some q -> length q = 99%nat -> head_tail t !! prio = Some (h, tl) ->
     (h <> 0 -> pq_enqueue p t = Ret (-1) t) /\
     (h = 0 -> exists t', pq_enqueue p t = Ret 1 t' /\ pq_rep t' (<[prio := []]> qs))) /\
  (forall prio q, qs !! prio = Some q -> (length q <= 99)%nat) /\
  (forall p pr, procs t !! p = Some pr -> p_state pr <> RUNNABLE -> pq_enqueue p t = Ret (-1) t) /\
  match spec_dequeue qs with
  | None => pq_dequeue t = Ret DqNULL t
  | Some (p, qs') => exists t', pq_dequeue t = Ret (DqProc (Some p)) t' /\ procs t' = procs t /\ pq_rep t' qs'
  end.
Proof.
  intros Hrep. split; [|split; [|split; [|split; [|by apply pq_dequeue_run]]]].
  - intros p prio q He Hq Hl. by eapply pq_enqueue_run.
  - intros p prio q h tl He Hq Hl Hh. by eapply pq_enqueue_full.
  - intros prio q Hq. assert (prio < 20)%nat as Hp by (destruct Hrep as (Hl & _); apply lookup_lt_Some in Hq; qsimp; lia).
    destruct (pq_rep_rings t qs prio Hrep Hp) as (h & tl & row & q' & _ & _ & Eq & (_ & _ & _ & Hl & _)).
    rewrite Hq in Eq. injection Eq as <-. qsimp. lia.
  - intros p pr Hp Hs. unfold pq_enqueue. mexec. rewrite Hp. by rewrite bool_decide_eq_false_2.
Qed.

(** Witnesses: a table with three processes of priorities 3, 0 and 3, and the
    same table with a ring of 99 entries starting at slot 1 or at slot 0. *)
Definition runnable_at (prio : Z) : proc := set_p_priority prio (set_p_state RUNNABLE proc0).
Definition three_procs : list proc := [runnable_at 3; runnable_at 0; runnable_at 3].

Lemma three_enqueuable (p prio : nat) ht q :
  (three_procs !! p) = Some (runnable_at (Z.of_nat prio)) -> (prio < 20)%nat ->
  enqueuable (mkptab three_procs ht q) p prio.
Proof. intros H Hlt. eexists. split; [exact H|]. done. Qed.

Lemma three_runnable ht q : all_runnable (mkptab three_procs ht q) [0; 1; 2]%nat.
Proof.
  repeat constructor.
  - exists 3%nat. by apply three_enqueuable; [|lia].
  - exists 0%nat. by apply three_enqueuable; [|lia].
  - exists 3%nat. by apply three_enqueuable; [|lia].
Qed.

Lemma pq_priority_fifo_witness :
  exists t', (enqueue_all [0; 1; 2]%nat;; drain 4) (empty_rings three_procs) =
    Ret [DqProc (Some 1%nat); DqProc (Some 0%nat); DqProc (Some 2%nat); DqNULL] t'.
Proof.
  destruct (pq_priority_fifo (empty_rings three_procs) [0; 1; 2]%nat) as (t' & H & _).
  - apply empty_rings_rep.
  - apply three_runnable.
  - simpl; lia.
  - exists t'. exact H.
Defined.

(** One full ring at priority 3, read from slot [h]. *)
Definition full_ring (h : Z) : ptab :=
  mkptab three_procs (<[3%nat := (h, (h + 99) mod QSIZE)]> (replicate 20 (0, 0)))
    (replicate 20 (replicate 100 (Some 0%nat))).

Lemma full_ring_rep h : 0 <= h < QSIZE -> pq_rep (full_ring h) (<[3%nat := replicate 99 0%nat]> (replicate 20 [])).
Proof.
  intros Hh. split; [done|]. split; [done|]. split; [done|]. intros i ht row q H1 H2 H3.
  unfold full_ring in *. cbn [head_tail pqueues] in *. apply (lookup_replicate_1 20) in H2 as [-> _].
  apply insert_lookup_cases in H1 as [(<- & <- & _)|[Hne H1]].
  - rewrite list_lookup_insert_eq in H3 by (rewrite length_replicate; lia). injection H3 as <-.
    unfold ring_rep. rewrite !length_replicate. split; [done|]. split; [done|]. split; [done|].
    split; [apply Nat.ltb_lt; reflexivity|]. intros j p Hj. apply (lookup_replicate_1 99) in Hj as [-> _].
    apply lookup_replicate_2. qsimp. pose proof (Z.mod_pos_bound (h + Z.of_nat j) 100). lia.
  - rewrite list_lookup_insert_ne in H3 by done. apply (lookup_replicate_1 20) in H3 as [-> _].
    apply (lookup_replicate_1 20) in H1 as [-> _]. unfold ring_rep. rewrite length_replicate. qsimp. simpl.
    split; [done|]. split; [lia|]. split; [done|]. split; [lia|done].
Qed.

Lemma pq_enqueue_full_witness :
  pq_enqueue 0 (full_ring 1) = Ret (-1) (full_ring 1) /\
  exists t', pq_enqueue 0 (full_ring 0) = Ret 1 t' /\ pq_rep t' (replicate 20 []).
Proof.
  split.
  - eapply (pq_enqueue_full (full_ring 1) _ 0 3); [apply full_ring_rep; qsimp; lia|by apply three_enqueuable; [|lia]|done..].
  - destruct (pq_enqueue_full (full_ring 0) (<[3%nat := replicate 99 0%nat]> (replicate 20 [])) 0 3
                (replicate 99 0%nat) 0 99) as [_ H];
      [apply full_ring_rep; qsimp; lia|by apply three_enqueuable; [|lia]|done..|].
    exact (H eq_refl).
Defined.

(** The full ring at slot 1 refuses a process and gives back its front one; the
    full ring at slot 0 loses its processes. *)
Lemma pq_refines_witness :
  pq_enqueue 0 (full_ring 1) = Ret (-1) (full_ring 1) /\
  (exists t', pq_dequeue (full_ring 1) = Ret (DqProc (Some 0%nat)) t' /\ pq_rep t' (<[3%nat := replicate 98 0%nat]> (replicate 20 []))) /\
  (exists t', pq_enqueue 0 (full_ring 0) = Ret 1 t' /\ pq_rep t' (replicate 20 [])).
Proof.
  destruct (pq_refines (full_ring 1) _ (full_ring_rep 1 ltac:(qsimp; lia))) as (_ & H1 & _ & _ & H2).
  destruct (pq_refines (full_ring 0) _ (full_ring_rep 0 ltac:(qsimp; lia))) as (_ & H3 & _).
  split; [|split].
  - refine (proj1 (H1 0%nat 3%nat (replicate 99 0%nat) 1 0 _ _ _ _) _); [by apply three_enqueuable; [|lia]|done..].
  - destruct H2 as (t' & H2 & _ & H4). exists t'. split; [exact H2|exact H4].
  - refine (proj2 (H3 0%nat 3%nat (replicate 99 0%nat) 0 99 _ _ _ _) _); [by apply three_enqueuable; [|lia]|done..].
Defined.
