(* ===== verification/Proc.v ===== *)
(** * Processes and the scheduler (proc.c)

    Every function of proc.c, on the kernel state [kst].  Code that gives up
    the CPU ends in [Wait OnSched] at the call of [swtch]; what it does when the
    process is run again is the definition with the suffix [_resume]. *)

From Stdlib Require Import ZArith Lia.
From stdpp Require Import base numbers strings gmap list.
From S2P Require Import Prelude.
From S2P Require Import Strings.
From S2P Require Import Machine.
From S2P Require Import Spinlock.
From S2P Require Import Kalloc.
From S2P Require Import Vm.
From S2P Require Import KState.
From S2P Require Import PQueue.

Local Open Scope string_scope.
Local Open Scope list_scope.
Local Open Scope Z_scope.

(** ** Access to the state *)

Section access.
Context {F : Type}.

Definition on_km {A} (m : M mach A) : M (kst F) A := zoom km set_km m.
Definition on_kp {A} (m : M ptab A) : M (kst F) A := zoom kp set_kp m.
Definition khw {A} (m : M hw A) : M (kst F) A := on_km (on_hw m).
Definition lock (lk : Z) : M (kst F) unit := khw (acquire lk).
Definition unlock (lk : Z) : M (kst F) unit := khw (release lk).

(** [*p] for a process pointer, and the update of one of its fields. *)
Definition getp (p : nat) : M (kst F) proc := k ← get; of_option "proc" (procs (kp k) !! p).
Definition updp (p : nat) (f : proc -> proc) : M (kst F) unit :=
  _ ← getp p; modify (fun k => set_kp (set_procs (alter f p (procs (kp k))) (kp k)) k).
Definition setg (f : globals -> globals) : M (kst F) unit := modify (fun k => set_kg (f (kg k)) k).

(** A process pointer that is dereferenced next. *)
Definition nonnull (o : option nat) : M (kst F) nat := of_option "null process" o.

(** The write of [c->proc]. *)
Definition set_cproc (o : option nat) (c : cpu) : cpu := mkcpu (apicid c) (ncli c) (intena c) o.
End access.

Section ops.
Context {F : Type} `{!FileOps F} `{!Image}.

Definition pinit : M (kst F) unit := khw (initlock ptable_lock "ptable").

Definition cpuid : M hw nat := mycpu.

Definition myproc : M (kst F) (option nat) :=
  khw (pushcli;; c ← mycpu; x ← get_cpu c; popcli;; mret (cproc x)).

(** ** Creating processes *)

Definition allocproc : M (kst F) (option nat) :=
  lock ptable_lock;;
  k ← get;
  match find_first (fun pr => bool_decide (p_state pr = UNUSED)) (take (Z.to_nat NPROC) (procs (kp k))) with
  | None => unlock ptable_lock;; mret None
  | Some p =>
      updp p (set_p_state EMBRYO);;
      pid ← gets (fun k => nextpid (kg k));
      updp p (set_p_pid pid);;
      setg (set_nextpid (i32 (pid + 1)));;
      unlock ptable_lock;;
      kstack ← on_km kalloc;
      updp p (set_p_kstack kstack);;
      if kstack =? 0 then updp p (set_p_state UNUSED);; mret None
      else
        let sp := kstack + KSTACKSIZE in
        let sp := sp - sizeof_trapframe in
        updp p (set_p_tf sp);;
        let sp := sp - 4 in
        on_km (store sp trapret);;
        let sp := sp - sizeof_context in
        updp p (set_p_context sp);;
        updp p (set_p_ctx (mkctx 0 0 0 0 forkret_pc));;
        updp p (set_p_mux_ptrs (replicate (Z.to_nat MUX_MAXNUM) None));;
        mret (Some p)
  end.

(** [pq_enqueue(p)], which every caller follows by a panic if it fails. *)
Definition enqueue_or_panic (p : nat) : M (kst F) unit :=
  r ← on_kp (pq_enqueue p);
  unless_panic (r <? 0) "process tried to enqueue when queue is full".

(** The trap frame [userinit] builds. *)
Definition init_tf : trapframe :=
  let ds := Z.lor (Z.shiftl SEG_UDATA 3) DPL_USER in
  mktf 0 0 0 0 0 0 0 0 0 0 ds ds 0 0 0 (Z.lor (Z.shiftl SEG_UCODE 3) DPL_USER) FL_IF PGSIZE ds.

(** "initcode", as characters. *)
Definition initcode_name : list Z := [105; 110; 105; 116; 99; 111; 100; 101].

Definition userinit : M (kst F) unit :=
  op ← allocproc;
  setg (set_initproc op);;
  p ← nonnull op;
  pgdir ← on_km setupkvm;
  updp p (set_p_pgdir pgdir);;
  unless_panic (pgdir =? 0) "userinit: out of memory?";;
  on_km (inituvm pgdir initcode);;
  updp p (set_p_sz PGSIZE);;
  updp p (set_p_tfr init_tf);;
  updp p (fun pr => set_p_name (safestrcpy_array (p_name pr) initcode_name 16) pr);;
  cwd ← namei_root;
  updp p (set_p_cwd cwd);;
  lock ptable_lock;;
  ready ← gets (fun k => pqueue_ready (kg k));
  (if ready =? 0 then
     setg (set_pqueue_ready 1);;
     updp p (set_p_priority 0);;
     modify (fun k => set_kp (set_head_tail (replicate (Z.to_nat PRIO_MAX) (0, 0)) (kp k)) k)
   else mret tt);;
  updp p (set_p_state RUNNABLE);;
  enqueue_or_panic p;;
  unlock ptable_lock;;
  modify (fun k => set_kx (mkmuxtab (replicate (Z.to_nat MUX_MAXNUM) (mkmutex 0 (-1) (replicate (Z.to_nat WQSIZE) None)))
                                    (replicate (Z.to_nat WQSIZE) None)) k);;
  khw (initlock mutexes_lock "mutex_table");;
  khw (initlock wqueue_lock "wqueue").

(** ** Address spaces of processes *)

(** The register and descriptor writes of [switchuvm] on CPU [c]. *)
Definition set_seg_s (s : Z) (d : segdesc) : segdesc :=
  mkseg (lim_15_0 d) (base_15_0 d) (base_23_16 d) (sd_type d) s (sd_dpl d) (sd_p d) (lim_19_16 d)
        (sd_avl d) (sd_rsv1 d) (sd_db d) (sd_g d) (base_31_24 d).
Definition sizeof_taskstate : Z := 104.
Definition uvm_regs (kstack pgdir : Z) (r : cpuregs) : cpuregs :=
  mkcpuregs (<[Z.to_nat SEG_TSS := set_seg_s 0 (SEG16 STS_T32A (ts_addr r) (sizeof_taskstate - 1) 0)]> (gdt r))
    (ts_addr r) (Z.shiftl SEG_KDATA 3) (u32 (kstack + KSTACKSIZE)) 0xFFFF (Z.shiftl SEG_TSS 3) (V2P pgdir).

(** The CPU that executes a register write. *)
Definition this_cpu : M hw nat :=
  h ← get; of_option "this_cpu" (find_first (fun c => apicid c =? lapicid h) (cpus h)).

Definition switchkvm : M (kst F) unit :=
  pg ← gets (fun k => kpgdir (kg k));
  c ← khw this_cpu;
  modify (fun k => set_kc (alter (set_cr3 (V2P pg)) c (kc k)) k).

Definition kvmalloc : M (kst F) unit :=
  pg ← on_km setupkvm; setg (set_kpgdir pg);; switchkvm.

Definition switchuvm (op : option nat) : M (kst F) unit :=
  match op with
  | None => panic "switchuvm: no process"
  | Some p =>
      pr ← getp p;
      unless_panic (p_kstack pr =? 0) "switchuvm: no kstack";;
      unless_panic (p_pgdir pr =? 0) "switchuvm: no pgdir";;
      khw pushcli;;
      c ← khw mycpu;
      modify (fun k => set_kc (alter (uvm_regs (p_kstack pr) (p_pgdir pr)) c (kc k)) k);;
      khw popcli
  end.

Definition growproc (n : Z) : M (kst F) Z :=
  op ← myproc; cur ← nonnull op;
  pr ← getp cur;
  let finish sz :=
    updp cur (set_p_sz sz);; switchuvm (Some cur);; mret 0 in
  if 0 <? n then
    sz ← on_km (allocuvm (p_pgdir pr) (p_sz pr) (u32 (p_sz pr + n)));
    if sz =? 0 then mret (-1) else finish sz
  else if n <? 0 then
    sz ← on_km (deallocuvm (p_pgdir pr) (p_sz pr) (u32 (p_sz pr + n)));
    if sz =? 0 then mret (-1) else finish sz
  else finish (p_sz pr).

(** ** fork *)

(** The fields of a shared page record, read and written through a pointer
    into [shmtable.pages]. *)
Definition getshm (i : nat) : M (kst F) shm_pg := k ← get; of_option "shm_pg" (shm_pages (ks k) !! i).
Definition updshm (i : nat) (f : shm_pg -> shm_pg) : M (kst F) unit :=
  _ ← getshm i; modify (fun k => set_ks (set_shm_pages (alter f i (shm_pages (ks k))) (ks k)) k).
Definition nonnull_shm (o : option nat) : M (kst F) nat := of_option "null shm_pg" o.

(** One round of the shared page loop of [fork]: [np->shmpgs[i]->...] is
    dereferenced, never assigned. *)
Definition fork_shm (cur np i : nat) : M (kst F) unit :=
  pr ← getp cur;
  o ← of_option "shmpgs" (p_shmpgs pr !! i);
  match o with
  | None => mret tt
  | Some src =>
      npr ← getp np;
      od ← of_option "shmpgs" (p_shmpgs npr !! i);
      dst ← nonnull_shm od;
      pg ← getshm src;
      updshm dst (fun _ => mkshm (sp_allocated pg) (sp_name pg) (sp_pa pg) (sp_ref_count pg))
  end.

Definition fork_file (cur np i : nat) : M (kst F) unit :=
  pr ← getp cur;
  f ← of_option "ofile" (p_ofile pr !! i);
  if f =? 0 then mret tt
  else f' ← filedup f; updp np (fun q => set_p_ofile (<[i := f']> (p_ofile q)) q).

Definition fork : M (kst F) Z :=
  oc ← myproc; cur ← nonnull oc;
  onp ← allocproc;
  match onp with
  | None => mret (-1)
  | Some np =>
      pr ← getp cur;
      pgdir ← on_km (copyuvm (p_pgdir pr) (p_sz pr));
      updp np (set_p_pgdir pgdir);;
      if pgdir =? 0 then
        npr ← getp np;
        on_km (kfree (p_kstack npr));;
        updp np (set_p_kstack 0);;
        updp np (set_p_state UNUSED);;
        mret (-1)
      else
        each (seq 0 (Z.to_nat SHM_MAXNUM)) (fork_shm cur np);;
        pr ← getp cur;
        updp np (set_p_sz (p_sz pr));;
        updp np (set_p_parent (Some cur));;
        updp np (set_p_tfr (p_tfr pr));;
        updp np (fun q => set_p_tfr (set_tf_eax 0 (p_tfr q)) q);;
        each (seq 0 (Z.to_nat NOFILE)) (fork_file cur np);;
        pr ← getp cur;
        cwd ← idup (p_cwd pr);
        updp np (set_p_cwd cwd);;
        updp np (fun q => set_p_name (safestrcpy_array (p_name q) (p_name pr) 16) q);;
        npr ← getp np;
        let pid := p_pid npr in
        lock ptable_lock;;
        updp np (set_p_state RUNNABLE);;
        enqueue_or_panic np;;
        unlock ptable_lock;;
        pr ← getp cur;
        updp np (set_p_mux_ptrs (p_mux_ptrs pr));;
        updp np (set_p_priority (p_priority pr));;
        mret pid
  end.

(** ** Giving up the CPU *)

Definition sched : M (kst F) unit :=
  op ← myproc;
  h ← khw (holding ptable_lock);
  unless_panic (negb h) "sched ptable.lock";;
  c ← khw mycpu;
  x ← khw (get_cpu c);
  unless_panic (negb (ncli x =? 1)) "sched locks";;
  p ← nonnull op;
  pr ← getp p;
  unless_panic (bool_decide (p_state pr = RUNNING)) "sched running";;
  e ← khw readeflags;
  unless_panic (negb (Z.land e FL_IF =? 0)) "sched interruptible";;
  (* intena = mycpu()->intena; swtch(&p->context, mycpu()->scheduler) *)
  stall OnSched.

(** [intena] is the local variable of the suspended [sched]. *)
Definition sched_resume (intena : Z) : M (kst F) unit :=
  c ← khw mycpu; khw (upd_cpu c (set_intena intena)).

Definition yield : M (kst F) unit :=
  lock ptable_lock;;
  op ← myproc; p ← nonnull op;
  updp p (set_p_state RUNNABLE);;
  op ← myproc; p ← nonnull op;
  enqueue_or_panic p;;
  sched.

Definition yield_resume (intena : Z) : M (kst F) unit :=
  sched_resume intena;; unlock ptable_lock.

Definition forkret : M (kst F) unit :=
  unlock ptable_lock;;
  first ← gets (fun k => forkret_first (kg k));
  if first =? 0 then mret tt
  else setg (set_forkret_first 0);; iinit ROOTDEV;; initlog ROOTDEV.

(** ** Sleeping and waking *)

(** [lk] is the address of a lock, 0 for a null pointer. *)
Definition sleep (ch : chan) (lk : Z) : M (kst F) unit :=
  op ← myproc;
  match op with
  | None => panic "sleep"
  | Some p =>
      unless_panic (lk =? 0) "sleep without lk";;
      (if negb (lk =? ptable_lock) then lock ptable_lock;; unlock lk else mret tt);;
      updp p (set_p_chan ch);;
      updp p (set_p_state SLEEPING);;
      sched
  end.

Definition sleep_resume (p : nat) (lk intena : Z) : M (kst F) unit :=
  sched_resume intena;;
  updp p (set_p_chan ChNull);;
  if negb (lk =? ptable_lock) then unlock ptable_lock;; lock lk else mret tt.

Definition wakeup1_at (ch : chan) (p : nat) : M (kst F) unit :=
  pr ← getp p;
  if bool_decide (p_state pr = SLEEPING) && bool_decide (p_chan pr = ch) then
    updp p (set_p_state RUNNABLE);; enqueue_or_panic p
  else mret tt.
Definition wakeup1 (ch : chan) : M (kst F) unit := each (seq 0 (Z.to_nat NPROC)) (wakeup1_at ch).

Definition wakeup (ch : chan) : M (kst F) unit :=
  lock ptable_lock;; wakeup1 ch;; unlock ptable_lock.

Definition kill (pid : Z) : M (kst F) Z :=
  lock ptable_lock;;
  k ← get;
  match find_first (fun pr => p_pid pr =? pid) (take (Z.to_nat NPROC) (procs (kp k))) with
  | None => unlock ptable_lock;; mret (-1)
  | Some p =>
      updp p (set_p_killed 1);;
      pr ← getp p;
      (if bool_decide (p_state pr = SLEEPING) then updp p (set_p_state RUNNABLE);; enqueue_or_panic p else mret tt);;
      unlock ptable_lock;; mret 0
  end.

(** ** exit and wait *)

Definition exit_file (cur fd : nat) : M (kst F) unit :=
  pr ← getp cur;
  f ← of_option "ofile" (p_ofile pr !! fd);
  if f =? 0 then mret tt
  else fileclose f;; updp cur (fun q => set_p_ofile (<[fd := 0]> (p_ofile q)) q).

(** [char] is signed. *)
Definition i8 (x : Z) : Z := if x <? 128 then x else x - 256.

Definition exit_shm (cur i : nat) : M (kst F) unit :=
  pr ← getp cur;
  o ← of_option "shmpgs" (p_shmpgs pr !! i);
  match o with
  | None => mret tt
  | Some s =>
      pg ← getshm s;
      if sp_pa pg =? 0 then fault "exit: null pa"
      else
        b ← gets (fun k => u32 (i8 (ld8 (mem (km k)) (sp_pa pg))));
        _ ← on_km (deallocuvm (p_pgdir pr) b b);
        updshm i (fun q => set_sp_ref_count (u32 (sp_ref_count q - 1)) q)
  end.

(** The channel [wakeup1(p)] sleeps on for a process pointer. *)
Definition chan_of (o : option nat) : chan := match o with Some p => ChProc p | None => ChNull end.

Definition exit_child (cur p : nat) : M (kst F) unit :=
  q ← getp p;
  if bool_decide (p_parent q = Some cur) then
    ip ← gets (fun k => initproc (kg k));
    updp p (set_p_parent ip);;
    (if bool_decide (p_state q = ZOMBIE) then wakeup1 (chan_of ip) else mret tt)
  else mret tt.

Definition getmux (i : nat) : M (kst F) mutex := k ← get; of_option "mutex" (muxes (kx k) !! i).
Definition updmux (i : nat) (f : mutex -> mutex) : M (kst F) unit :=
  _ ← getmux i; modify (fun k => set_kx (set_muxes (alter f i (muxes (kx k))) (kx k)) k).

(** When the process is found in the mutex's [cv] the code shifts the queue
    through [p], which the loop over the table has left one past its end. *)
Definition exit_mux (cur i : nat) : M (kst F) unit :=
  pr ← getp cur;
  o ← of_option "mux_ptrs" (p_mux_ptrs pr !! i);
  match o with
  | None => mret tt
  | Some m =>
      updmux m (set_m_name 0);;
      updmux m (set_m_state 0);;
      mx ← getmux m;
      (if bool_decide (Some cur ∈ take (Z.to_nat WQSIZE) (m_cv mx)) then fault "exit: p is &ptable.proc[NPROC]" else mret tt);;
      updp cur (fun q => set_p_mux_ptrs (<[i := None]> (p_mux_ptrs q)) q)
  end.

(** [exit] from [acquire(&ptable.lock)] on. *)
Definition exit_locked (cur : nat) : M (kst F) unit :=
  lock ptable_lock;;
  pr ← getp cur;
  wakeup1 (chan_of (p_parent pr));;
  each (seq 0 (Z.to_nat SHM_MAXNUM)) (exit_shm cur);;
  each (seq 0 (Z.to_nat NPROC)) (exit_child cur);;
  each (seq 0 (Z.to_nat MUX_MAXNUM)) (exit_mux cur);;
  updp cur (set_p_state ZOMBIE);;
  sched;;
  panic "zombie exit".

Definition exit : M (kst F) unit :=
  oc ← myproc;
  ip ← gets (fun k => initproc (kg k));
  unless_panic (bool_decide (oc = ip)) "init exiting";;
  cur ← nonnull oc;
  each (seq 0 (Z.to_nat NOFILE)) (exit_file cur);;
  begin_op;;
  pr ← getp cur;
  iput (p_cwd pr);;
  end_op;;
  updp cur (set_p_cwd 0);;
  exit_locked cur.

(** One pass of [wait] over the table, with ptable.lock held. *)
Definition wait_pass (cur : nat) : M (kst F) Z :=
  k ← get;
  let tab := take (Z.to_nat NPROC) (procs (kp k)) in
  let child pr := bool_decide (p_parent pr = Some cur) in
  match find_first (fun pr => child pr && bool_decide (p_state pr = ZOMBIE)) tab with
  | Some p =>
      pr ← getp p;
      on_km (kfree (p_kstack pr));;
      updp p (set_p_kstack 0);;
      on_km (freevm (p_pgdir pr));;
      updp p (set_p_pid 0);;
      updp p (set_p_parent None);;
      updp p (fun q => set_p_name (<[0%nat := 0]> (p_name q)) q);;
      updp p (set_p_killed 0);;
      updp p (set_p_state UNUSED);;
      unlock ptable_lock;;
      mret (p_pid pr)
  | None =>
      cpr ← getp cur;
      if negb (existsb child tab) || negb (p_killed cpr =? 0) then unlock ptable_lock;; mret (-1)
      else sleep (ChProc cur) ptable_lock;; stall OnSched
  end.

Definition wait : M (kst F) Z :=
  oc ← myproc; cur ← nonnull oc; lock ptable_lock;; wait_pass cur.

Definition wait_resume (cur : nat) (intena : Z) : M (kst F) Z :=
  sleep_resume cur ptable_lock intena;; wait_pass cur.

(** ** The scheduler *)

Definition scheduler_enter : M (kst F) nat :=
  c ← khw mycpu; khw (upd_cpu c (set_cproc None));; mret c.

(** Run process [p] on CPU [c], up to the [swtch] into it. *)
Definition dispatch (c : nat) (op : option nat) : M (kst F) unit :=
  khw (upd_cpu c (set_cproc op));;
  switchuvm op;;
  p ← nonnull op;
  updp p (set_p_state RUNNING);;
  stall OnSched.

(** The first pass looks for runnable processes in the table, from slot [i]. *)
Definition scheduler_scan (c i : nat) : M (kst F) unit :=
  k ← get;
  match find_first (fun pr => bool_decide (p_state pr = RUNNABLE)) (drop i (take (Z.to_nat NPROC) (procs (kp k)))) with
  | Some j => dispatch c (Some (i + j)%nat)
  | None => unlock ptable_lock
  end.

(** One round of the scheduler's loop; it returns when there is nothing to run. *)
Definition scheduler_round (c : nat) : M (kst F) unit :=
  khw sti;;
  lock ptable_lock;;
  ft ← gets (fun k => first_time (kg k));
  if negb (ft =? 0) then setg (set_first_time 0);; scheduler_scan c 0
  else
    d ← on_kp pq_dequeue;
    match d with
    | DqNULL => unlock ptable_lock
    | DqProc op => dispatch c op
    end.

(** When the process switches back. *)
Definition scheduler_back (c : nat) : M (kst F) unit :=
  switchkvm;; khw (upd_cpu c (set_cproc None)).
Definition scheduler_resume (c : nat) : M (kst F) unit := scheduler_back c;; unlock ptable_lock.
Definition scheduler_scan_resume (c p : nat) : M (kst F) unit := scheduler_back c;; scheduler_scan c (S p).

End ops.
