(* ===== verification/ProcInv.v ===== *)
(** * The run queue invariant, and running kernel code under ptable.lock

    [runq] says that the priority queues hold exactly the RUNNABLE processes,
    each once.  The lemmas here run the pieces of proc.c that change the state
    of a process, with the lock taken or not. *)

From Stdlib Require Import ZArith Lia.
From stdpp Require Import base numbers strings gmap list.
From S2P Require Import Prelude.
From S2P Require Import Strings.
From S2P Require Import Machine.
From S2P Require Import Spinlock.
From S2P Require Import Kalloc.
From S2P Require Import Vm.
From S2P Require Import KState.
From S2P Require Import PQueue.
From S2P Require Import Proc.

Local Open Scope string_scope.
Local Open Scope list_scope.
Local Open Scope Z_scope.

(** ** The invariant of the table *)

Definition runnable (t : ptab) (p : nat) : Prop :=
  exists pr, procs t !! p = Some pr /\ p_state pr = RUNNABLE.

Definition table_wf (t : ptab) : Prop :=
  length (procs t) = Z.to_nat NPROC /\ Forall (fun pr => 0 <= p_priority pr < PRIO_MAX) (procs t).

Definition runq (t : ptab) (qs : list (list nat)) : Prop :=
  pq_rep t qs /\ NoDup (concat qs) /\ (forall p, p ∈ concat qs <-> runnable t p) /\ table_wf t.

(** No queue can hold more than NPROC processes, so none is ever full. *)
Lemma runq_length t qs i q : runq t qs -> qs !! i = Some q -> (length q <= 64)%nat.
Proof.
  intros (_ & Hnd & Hq & Hl & _) Hi.
  assert (Hle : (length q <= length (concat qs))%nat).
  { clear -Hi. revert i Hi. induction qs as [|q0 qs IH]; intros [|i] Hi; simpl in *; [done..| |].
    - injection Hi as ->. rewrite length_app. lia.
    - rewrite length_app. specialize (IH i Hi). lia. }
  assert (Hsub : concat qs ⊆+ seq 0 64).
  { apply NoDup_submseteq; [done|]. intros p Hp. apply Hq in Hp as (pr & Hp & _).
    apply lookup_lt_Some in Hp. rewrite Hl in Hp. apply elem_of_seq. change (Z.to_nat NPROC) with 64%nat in Hp. lia. }
  apply submseteq_length in Hsub. rewrite length_seq in Hsub. lia.
Qed.

(** Updates that change neither who is runnable nor the range of a priority. *)
Lemma runq_alter t qs p f :
  runq t qs ->
  (forall pr, procs t !! p = Some pr -> (p_state (f pr) = RUNNABLE <-> p_state pr = RUNNABLE)) ->
  (forall pr, procs t !! p = Some pr -> 0 <= p_priority pr < PRIO_MAX -> 0 <= p_priority (f pr) < PRIO_MAX) ->
  runq (set_procs (alter f p (procs t)) t) qs.
Proof.
  intros (Hrep & Hnd & Hq & Hl & Hp) Hst Hpr. split; [exact Hrep|]. split; [done|]. split; [|split; simpl].
  - intros x. rewrite Hq. unfold runnable. simpl. destruct (decide (p = x)) as [<-|Hne].
    + rewrite list_lookup_alter_eq. destruct (procs t !! p) as [pr|] eqn:E; simpl.
      * specialize (Hst pr eq_refl). split; intros (r & Hr & Hs); injection Hr as <-; eexists; (split; [done|]); tauto.
      * split; intros (r & Hr & _); done.
    + by rewrite list_lookup_alter_ne.
  - by rewrite length_alter.
  - apply Forall_lookup. intros x r Hx. rewrite Forall_lookup in Hp.
    destruct (decide (p = x)) as [<-|Hne].
    + rewrite list_lookup_alter_eq in Hx. destruct (procs t !! p) as [pr|] eqn:E; [|done]. injection Hx as <-. eauto.
    + rewrite list_lookup_alter_ne in Hx by done. eauto.
Qed.

Lemma concat_insert_perm (qs : list (list nat)) i q p :
  qs !! i = Some q -> concat (<[i := q ++ [p]]> qs) ≡ₚ p :: concat qs.
Proof.
  revert i. induction qs as [|q0 qs IH]; intros [|i] Hi; simpl in *; [done..| |].
  - injection Hi as ->. rewrite <- app_assoc. simpl. by rewrite Permutation_middle.
  - change (<[S i := q ++ [p]]> (q0 :: qs)) with (q0 :: <[i := q ++ [p]]> qs). simpl. rewrite IH by done.
    by rewrite Permutation_middle.
Qed.

Definition make_runnable (p : nat) (t : ptab) : ptab := set_procs (alter (set_p_state RUNNABLE) p (procs t)) t.

(** Making a process runnable and enqueueing it never fails and keeps the
    invariant. *)
Lemma enqueue_runq t qs p pr :
  runq t qs -> procs t !! p = Some pr -> p_state pr <> RUNNABLE ->
  exists t' qs', pq_enqueue p (make_runnable p t) = Ret 1 t' /\ procs t' = procs (make_runnable p t) /\
    runq t' qs' /\ qs' = spec_enqueue (Z.to_nat (p_priority pr)) p qs.
Proof.
  intros Hrq Hp Hs. pose proof Hrq as (Hrep & Hnd & Hq & Hl & Hpr).
  assert (Hprio : 0 <= p_priority pr < PRIO_MAX) by (rewrite Forall_lookup in Hpr; eauto).
  set (i := Z.to_nat (p_priority pr)). assert (i < 20)%nat as Hi by (unfold i; qsimp; lia).
  destruct (pq_rep_rings t qs i Hrep Hi) as (h & tl & row & q & _ & _ & Eq & _).
  assert (Hrep1 : pq_rep (make_runnable p t) qs) by exact Hrep.
  destruct (pq_enqueue_run (make_runnable p t) qs p i q Hrep1) as (t' & Ht' & Hprocs & Hrep').
  { exists (set_p_state RUNNABLE pr). simpl. rewrite list_lookup_alter_eq, Hp. split; [done|]. split; [done|].
    split; [|done]. simpl. unfold i. lia. }
  { done. }
  { pose proof (runq_length t qs i q Hrq Eq). lia. }
  exists t', (spec_enqueue i p qs). split; [done|]. split; [done|]. split; [|done].
  unfold spec_enqueue in *. rewrite (alter_insert_Some _ _ _ _ Eq) in *.
  pose proof (concat_insert_perm qs i q p Eq) as Hperm. split; [done|].
  assert (Hni : p ∉ concat qs) by (rewrite Hq; intros (r & Hr & Hrs); congruence).
  split; [rewrite Hperm; by apply NoDup_cons|]. split.
  - intros x. rewrite Hperm, elem_of_cons, Hq. unfold runnable. rewrite Hprocs. simpl.
    destruct (decide (p = x)) as [<-|Hne].
    + rewrite list_lookup_alter_eq, Hp. simpl. split; [|by left]. intros _. by eexists.
    + rewrite list_lookup_alter_ne by done. split; [intros [?|?]; [congruence|done]|by right].
  - split; rewrite Hprocs; simpl; [by rewrite length_alter|]. apply Forall_alter; [done|]. simpl. intros x Hx Hr.
    rewrite Forall_lookup in Hpr. eauto.
Qed.

(** ** Running code on the kernel state *)

Section kernel.
Context {F : Type}.
Implicit Types k : kst F.

Definition kh (k : kst F) : hw := mhw (km k).
Definition set_kh (h : hw) (k : kst F) : kst F := set_km (set_hw h (km k)) k.
Definition upd_k (p : nat) (f : proc -> proc) (k : kst F) : kst F :=
  set_kp (set_procs (alter f p (procs (kp k))) (kp k)) k.

Lemma set_kh_id k : set_kh (kh k) k = k.
Proof. by destruct k as [[] ? ? ? ? ? ?]. Qed.

Lemma kh_set_kh h k : kh (set_kh h k) = h.
Proof. done. Qed.

Lemma set_kh_set_kh h h' k : set_kh h (set_kh h' k) = set_kh h k.
Proof. done. Qed.

Lemma khw_run {A} (m : M hw A) k a h : m (kh k) = Ret a h -> khw m k = Ret a (set_kh h k).
Proof. intros H. unfold khw, on_km, on_hw, zoom. unfold kh in H. by rewrite H. Qed.

Lemma on_kp_run {A} (m : M ptab A) k a t : m (kp k) = Ret a t -> on_kp m k = Ret a (set_kp t k).
Proof. intros H. unfold on_kp, zoom. by rewrite H. Qed.

Lemma getp_run p pr k : procs (kp k) !! p = Some pr -> getp p k = Ret pr k.
Proof. intros H. unfold getp. mexec. by rewrite H. Qed.

Lemma updp_run p pr f k : procs (kp k) !! p = Some pr -> updp p f k = Ret tt (upd_k p f k).
Proof. intros H. unfold updp. rewrite bind_run, (getp_run p pr) by done. done. Qed.

Lemma upd_k_procs p f k : procs (kp (upd_k p f k)) = alter f p (procs (kp k)).
Proof. done. Qed.

Lemma upd_k_upd_k p f g k : upd_k p f (upd_k p g k) = upd_k p (fun x => f (g x)) k.
Proof. unfold upd_k, set_kp, set_procs; simpl. by rewrite alter_alter. Qed.

Lemma upd_k_lookup p f k pr : procs (kp k) !! p = Some pr -> procs (kp (upd_k p f k)) !! p = Some (f pr).
Proof. intros H. simpl. by rewrite list_lookup_alter_eq, H. Qed.

(** *** The lock *)

(** Process [p] runs on CPU [c]. *)
Definition running (k : kst F) (c p : nat) : Prop :=
  runs_on (kh k) c /\ exists x, cpus (kh k) !! c = Some x /\ cproc x = Some p.

Definition inside (c : nat) (lk : Z) (k : kst F) : kst F := set_kh (acq_hw c lk (kh k)) k.
Definition touched (c : nat) (k : kst F) : kst F := set_kh (touch c (kh k)) k.

Lemma lock_run k c lk : runs_on (kh k) c -> lock_ready (kh k) lk -> lock lk k = Ret tt (inside c lk k).
Proof. intros Hr Hl. apply khw_run, acquire_run; [done|]. by apply lock_ready_free. Qed.

Lemma lock_twice k c lk : runs_on (kh k) c -> lock lk (inside c lk k) = Panic "acquire".
Proof.
  intros Hr. unfold lock, khw, on_km, on_hw, zoom. rewrite (acquire_twice _ c); [done| |].
  - by apply acq_hw_runs_on.
  - unfold inside, set_kh; simpl. rewrite lookup_total_insert_eq. done.
Qed.

Lemma unlock_run k k' c lk :
  runs_on (kh k) c -> lock_ready (kh k) lk -> kh k' = acq_hw c lk (kh k) ->
  unlock lk k' = Ret tt (set_kh (touch c (kh k)) k').
Proof. intros Hr Hl Hk. apply khw_run. rewrite Hk. by apply release_run. Qed.

Lemma push_cpu_cproc e x : cproc (push_cpu e x) = cproc x.
Proof. unfold push_cpu. by destruct (ncli x =? 0). Qed.

Lemma myproc_hw h c x : runs_on h c -> cpus h !! c = Some x ->
  (pushcli;; c ← mycpu; x ← get_cpu c; popcli;; mret (cproc x)) h = Ret (cproc x) (touch c h).
Proof.
  intros Hr Hx. destruct (push_hw_runs_on h c Hr) as [Hr' Hoff].
  rewrite (bind_ret_run _ _ _ _ _ (pushcli_run h c Hr)), (bind_ret_run _ _ _ _ _ (mycpu_run _ c Hoff Hr')).
  unfold get_cpu. mexec. simpl. rewrite list_lookup_alter_eq, Hx. simpl.
  rewrite (popcli_push h c Hr). f_equal. apply push_cpu_cproc.
Qed.

Lemma myproc_run k c p : running k c p -> myproc k = Ret (Some p) (touched c k).
Proof. intros (Hr & x & Hx & Hc). apply khw_run. rewrite (myproc_hw _ c x Hr Hx). by rewrite Hc. Qed.

Lemma running_inside k c p lk : running k c p -> running (inside c lk k) c p.
Proof.
  intros (Hr & x & Hx & Hc). split; [by apply acq_hw_runs_on|]. exists (push_cpu (eflags (kh k)) x).
  simpl. rewrite list_lookup_alter_eq, Hx. split; [done|]. rewrite <- Hc. apply push_cpu_cproc.
Qed.

Lemma touched_inside k c lk : runs_on (kh k) c -> touched c (inside c lk k) = inside c lk k.
Proof. intros Hr. unfold touched, inside. by rewrite kh_set_kh, set_kh_set_kh, touch_acq. Qed.

(** Inside a critical section [myproc] leaves no trace. *)
Lemma myproc_locked k k' c p lk :
  running k c p -> kh k' = acq_hw c lk (kh k) -> myproc k' = Ret (Some p) k'.
Proof.
  intros Hr Hk. pose proof (running_inside k c p lk Hr) as Hr1.
  assert (running k' c p) as Hr2 by (unfold running in *; rewrite Hk; exact Hr1).
  rewrite (myproc_run k' c p Hr2). unfold touched. rewrite Hk, touch_acq by apply Hr. rewrite <- Hk. by rewrite set_kh_id.
Qed.

Lemma running_touched k c p : running k c p -> running (touched c k) c p.
Proof.
  intros (Hr & x & Hx & Hc). split; [by apply touch_runs_on|]. exists (touch_cpu (eflags (kh k)) x). simpl.
  rewrite list_lookup_alter_eq, Hx. split; [done|]. unfold touch_cpu. by destruct (ncli x =? 0).
Qed.

(** *** Waking processes *)

Lemma wake_run k qs p pr :
  runq (kp k) qs -> procs (kp k) !! p = Some pr -> p_state pr <> RUNNABLE ->
  exists t', (updp p (set_p_state RUNNABLE);; enqueue_or_panic p) k = Ret tt (set_kp t' k) /\
    procs t' = alter (set_p_state RUNNABLE) p (procs (kp k)) /\
    runq t' (spec_enqueue (Z.to_nat (p_priority pr)) p qs).
Proof.
  intros Hq Hp Hs. destruct (enqueue_runq (kp k) qs p pr Hq Hp Hs) as (t' & qs' & He & Hpr & Hrq & ->).
  exists t'. split; [|by split]. rewrite (bind_ret_run _ _ _ _ _ (updp_run p pr _ k Hp)).
  unfold enqueue_or_panic. by rewrite (bind_ret_run _ _ _ _ _ (on_kp_run _ (upd_k p _ k) _ _ He)).
Qed.

Definition wakes (ch : chan) (pr : proc) : bool :=
  bool_decide (p_state pr = SLEEPING) && bool_decide (p_chan pr = ch).
Definition woken (ch : chan) (pr : proc) : proc := if wakes ch pr then set_p_state RUNNABLE pr else pr.

Lemma wakeup1_at_run k qs ch p pr :
  runq (kp k) qs -> procs (kp k) !! p = Some pr ->
  exists t' qs', wakeup1_at ch p k = Ret tt (set_kp t' k) /\ runq t' qs' /\
    procs t' = alter (woken ch) p (procs (kp k)).
Proof.
  intros Hq Hp. unfold wakeup1_at. rewrite (bind_ret_run _ _ _ _ _ (getp_run p pr k Hp)).
  fold (wakes ch pr). destruct (wakes ch pr) eqn:E.
  - assert (p_state pr <> RUNNABLE) as Hs.
    { unfold wakes in E. apply andb_true_iff in E as [E _]. apply bool_decide_eq_true in E. congruence. }
    destruct (wake_run k qs p pr Hq Hp Hs) as (t' & H & Hpr & Hrq). exists t'. eexists.
    split; [exact H|]. split; [exact Hrq|]. rewrite Hpr. eapply alter_ext_Some; [done|]. unfold woken. by rewrite E.
  - exists (kp k), qs. split; [by destruct k|]. split; [done|].
    symmetry. eapply alter_id_Some; [done|]. unfold woken. by rewrite E.
Qed.

Lemma wakeup1_loop ch n k qs i :
  runq (kp k) qs -> (i + n <= 64)%nat ->
  exists t' qs', each (seq i n) (wakeup1_at ch) k = Ret tt (set_kp t' k) /\ runq t' qs' /\
    forall j, procs t' !! j = (if decide (i <= j < i + n)%nat then woken ch else id) <$> procs (kp k) !! j.
Proof.
  revert k qs i. induction n as [|n IH]; intros k qs i Hq Hn; simpl.
  { exists (kp k), qs. split; [by destruct k|]. split; [done|]. intros j. rewrite decide_False by lia.
    by destruct (procs (kp k) !! j). }
  destruct (lookup_lt_is_Some_2 (procs (kp k)) i) as [pr Hp].
  { destruct Hq as (_ & _ & _ & -> & _). change (Z.to_nat NPROC) with 64%nat. lia. }
  destruct (wakeup1_at_run k qs ch i pr Hq Hp) as (t1 & qs1 & H1 & Q1 & P1).
  destruct (IH (set_kp t1 k) qs1 (S i) Q1) as (t2 & qs2 & H2 & Q2 & P2); [lia|].
  exists t2, qs2. split; [by rewrite (bind_ret_run _ _ _ _ _ H1), H2|]. split; [done|].
  intros j. rewrite P2. simpl kp. rewrite P1. destruct (decide (i = j)) as [<-|Hne].
  - rewrite list_lookup_alter_eq, Hp. simpl. rewrite decide_False, decide_True by lia. done.
  - rewrite list_lookup_alter_ne by done. destruct (decide (S i <= j < S i + n)%nat).
    + by rewrite decide_True by lia.
    + by rewrite decide_False by lia.
Qed.

(** [wakeup1] with the lock held: all the sleepers on the channel, and only
    they, become runnable. *)
Lemma wakeup1_run k qs ch :
  runq (kp k) qs -> exists t' qs', wakeup1 ch k = Ret tt (set_kp t' k) /\ runq t' qs' /\
    procs t' = woken ch <$> procs (kp k).
Proof.
  intros Hq. destruct (wakeup1_loop ch 64 k qs 0 Hq) as (t' & qs' & H & Q & P); [lia|].
  exists t', qs'. split; [exact H|]. split; [done|]. apply list_eq. intros j. rewrite P, list_lookup_fmap.
  destruct (procs (kp k) !! j) as [pr|] eqn:E; [|done]. simpl. rewrite decide_True; [done|].
  apply lookup_lt_Some in E. destruct Hq as (_ & _ & _ & Hl & _). change (Z.to_nat NPROC) with 64%nat in Hl. lia.
Qed.

(** *** Switching away *)

(** What [sched] checks: ptable.lock is the only lock this CPU holds and the
    process has left the RUNNING state. *)
Lemma sched_run k k' c p pr :
  running k c p -> (exists x, cpus (kh k) !! c = Some x /\ ncli x = 0) ->
  kh k' = acq_hw c ptable_lock (kh k) -> procs (kp k') !! p = Some pr -> p_state pr <> RUNNING ->
  sched k' = Wait OnSched k'.
Proof.
  intros Hr (x & Hx & Hn) Hk Hp Hs. unfold sched.
  rewrite (bind_ret_run _ _ _ _ _ (myproc_locked k k' c p _ Hr Hk)).
  destruct (acq_hw_runs_on (kh k) c ptable_lock (proj1 Hr)) as [Hr1 Hoff]. rewrite <- Hk in Hr1, Hoff.
  assert (Hh : holding ptable_lock (kh k') = Ret true (kh k')).
  { rewrite (holding_held _ c ptable_lock (locks (kh k') !!! ptable_lock)); [|done|done|done|].
    - rewrite Hk. unfold acq_hw. rewrite set_lock_lookup_total. simpl. by rewrite bool_decide_eq_true_2.
    - rewrite Hk. unfold acq_hw. by rewrite set_lock_lookup_total. }
  rewrite (bind_ret_run _ _ _ _ _ (khw_run _ _ _ _ Hh)), set_kh_id. simpl negb.
  rewrite (bind_ret_run (unless_panic false _) _ k' tt k' eq_refl).
  rewrite (bind_ret_run _ _ _ _ _ (khw_run _ _ _ _ (mycpu_run _ c Hoff Hr1))), set_kh_id.
  assert (Hg : get_cpu c (kh k') = Ret (push_cpu (eflags (kh k)) x) (kh k')).
  { unfold get_cpu. mexec. rewrite Hk. simpl. by rewrite list_lookup_alter_eq, Hx. }
  rewrite (bind_ret_run _ _ _ _ _ (khw_run _ _ _ _ Hg)), set_kh_id.
  assert (ncli (push_cpu (eflags (kh k)) x) = 1) as -> by (unfold push_cpu; simpl; lia).
  mstep (eq_refl : unless_panic (negb (1 =? 1)) "sched locks" k' = Ret tt k').
  mstep (eq_refl : nonnull (Some p) k' = Ret p k'). mstep (getp_run p pr k' Hp).
  rewrite bool_decide_eq_false_2 by done. mstep (eq_refl : unless_panic false "sched running" k' = Ret tt k').
  mstep (khw_run readeflags k' (eflags (kh k')) (kh k') eq_refl). rewrite set_kh_id, Hoff. done.
Qed.
End kernel.
