(* ===== verification/Sched.v ===== *)
(** * Scheduling: switching between processes on several CPUs

    The run lemmas of the functions of proc.c that switch, the step relation
    in which every CPU runs the scheduler and the processes it picks, and the
    invariant of that relation: no process is lost and none runs twice. *)

From Stdlib Require Import ZArith Lia.
From stdpp Require Import base numbers strings gmap list.
From S2P Require Import Prelude.
From S2P Require Import Strings.
From S2P Require Import Machine.
From S2P Require Import Spinlock.
From S2P Require Import Kalloc.
From S2P Require Import Vm.
From S2P Require Import KState.
From S2P Require Import PQueue.
From S2P Require Import Proc.
From S2P Require Import ProcInv.

Local Open Scope string_scope.
Local Open Scope list_scope.
Local Open Scope Z_scope.

(** ** The CPU across a switch *)

(** Releasing a lock below the top one, as [sleep] does. *)
Lemma release_under h c lk lk' :
  runs_on h c -> lock_ready h lk -> lk <> lk' ->
  release lk (acq_hw c lk' (acq_hw c lk h)) = Ret tt (acq_hw c lk' h).
Proof.
  intros Hr [n Hl] Hne.
  destruct (acq_hw_runs_on h c lk Hr) as [Hr1 Hoff1]. destruct (acq_hw_runs_on _ c lk' Hr1) as [Hr2 Hoff2].
  set (h2 := acq_hw c lk' (acq_hw c lk h)) in *.
  assert (Hlk : locks h2 !!! lk = mklock 1 n (Some c)).
  { unfold h2. simpl. rewrite lookup_total_insert_ne by done. rewrite lookup_total_insert_eq. 
    by rewrite (lookup_total_lock _ _ _ Hl). }
  unfold release, release_clear, release_store. mexec.
  rewrite (holding_held _ c _ (mklock 1 n (Some c))) by done.
  rewrite bool_decide_eq_true_2 by done. simpl negb. cbv iota. rewrite !set_lock_set_lock.
  assert (E : set_lock lk (fun l => set_locked 0 (set_lcpu None l)) h2 =
              push_hw c (set_lock lk' (fun l => mklock 1 (lname l) (Some c)) (push_hw c h))).
  { unfold h2, acq_hw, set_lock, push_hw, set_cpus, set_eflags; simpl. f_equal.
    rewrite lookup_total_insert_ne by done. rewrite lookup_total_insert_eq. simpl.
    rewrite (lookup_total_lock _ _ _ Hl). simpl.
    rewrite lookup_total_insert_ne by done. rewrite (insert_insert_ne _ lk lk') by done.
    rewrite insert_insert_eq. unfold set_locked, set_lcpu; simpl. by rewrite (insert_id _ lk). }
  rewrite E. rewrite popcli_push by by apply push_hw_runs_on.
  f_equal. destruct Hr as [_ (x & Hx & Hn & _)].
  apply (touch_nested _ c (push_cpu (eflags h) x)); simpl; [by rewrite list_lookup_alter_eq, Hx|lia].
Qed.

(** Writing [c->proc] inside the critical section or before it is the same. *)
Lemma acq_set_cproc h c lk o :
  set_cpus (alter (set_cproc o) c) (acq_hw c lk h) = acq_hw c lk (set_cpus (alter (set_cproc o) c) h).
Proof.
  unfold acq_hw, set_lock, push_hw, set_cpus, set_eflags; simpl. f_equal. rewrite !alter_alter.
  apply alter_ext_all. intros x. unfold push_cpu, set_cproc, set_ncli, set_intena; simpl. by destruct (ncli x =? 0).
Qed.

Lemma set_cproc_runs_on h c o : runs_on h c -> runs_on (set_cpus (alter (set_cproc o) c) h) c.
Proof.
  intros [Hf (x & Hx & Hn & Hi)]. split; simpl; [by rewrite find_cpu_alter|].
  exists (set_cproc o x). by rewrite list_lookup_alter_eq, Hx.
Qed.

(** The flags register with the interrupt flag given by [i] ([intena]). *)
Definition with_if (i e : Z) : Z :=
  if i =? 0 then Z.land e (Z.lnot FL_IF) else Z.lor e FL_IF.

Lemma with_if_land i e : i = 0 \/ i = FL_IF -> Z.land (with_if i e) FL_IF = i.
Proof.
  intros [-> | ->]; unfold with_if; simpl; [apply cli_off|].
  rewrite land_IF, Z.lor_spec, orb_true_r. done.
Qed.

Lemma lor_cli e : Z.land (Z.lor e FL_IF) (Z.lnot FL_IF) = Z.land e (Z.lnot FL_IF).
Proof. by rewrite Z.land_lor_distr_l, Z.land_lnot_diag, Z.lor_0_r. Qed.

Lemma cli_cli e : Z.land (Z.land e (Z.lnot FL_IF)) (Z.lnot FL_IF) = Z.land e (Z.lnot FL_IF).
Proof. by rewrite <- Z.land_assoc, Z.land_diag. Qed.

(** Restoring [intena] inside the critical section is as if interrupts had been
    [i] when it was entered. *)
Lemma acq_set_intena h c x lk i :
  cpus h !! c = Some x -> ncli x = 0 -> i = 0 \/ i = FL_IF ->
  set_cpus (alter (set_intena i) c) (acq_hw c lk h) = acq_hw c lk (set_eflags (with_if i (eflags h)) h).
Proof.
  intros Hx Hn Hi. unfold acq_hw, set_lock, push_hw, set_cpus, set_eflags; simpl. f_equal.
  - rewrite alter_alter. eapply alter_ext_Some; [done|]. unfold push_cpu. rewrite Hn. simpl.
    unfold set_ncli, set_intena; simpl. by rewrite with_if_land.
  - unfold with_if. destruct (i =? 0); [by rewrite cli_cli|by rewrite lor_cli].
Qed.

Lemma set_eflags_runs_on h c x e :
  runs_on h c -> cpus h !! c = Some x -> ncli x = 0 -> runs_on (set_eflags e h) c.
Proof.
  intros [Hf (y & Hy & Hn & Hi)] Hx Hn0. split; simpl; [done|]. exists y. split; [done|]. split; [done|].
  intros ?. simplify_eq. lia.
Qed.

(** ** Dequeueing under the invariant *)

Definition set_running (p : nat) (t : ptab) : ptab := set_procs (alter (set_p_state RUNNING) p (procs t)) t.

Lemma dequeue_runq t qs p qs' :
  runq t qs -> spec_dequeue qs = Some (p, qs') ->
  exists t' pr, pq_dequeue t = Ret (DqProc (Some p)) t' /\ procs t' = procs t /\
    procs t !! p = Some pr /\ p_state pr = RUNNABLE /\ runq (set_running p t') qs'.
Proof.
  intros (Hrep & Hnd & Hq & Hl & Hpr) Hd. pose proof (pq_dequeue_run t qs Hrep) as Hrun. rewrite Hd in Hrun.
  destruct Hrun as (t' & Ht' & Hp & Hrep'). apply spec_dequeue_concat in Hd. rewrite Hd in Hnd, Hq.
  apply NoDup_cons in Hnd as [Hni Hnd].
  assert (runnable t p) as (pr & Hpp & Hps) by (apply Hq; left).
  exists t', pr. do 4 (split; [done|]). split; [exact Hrep'|]. split; [done|]. split.
  - intros x. unfold runnable. simpl. rewrite Hp. destruct (decide (p = x)) as [<-|Hne].
    + rewrite list_lookup_alter_eq, Hpp. simpl. split; [done|]. intros (r & [= <-] & Hr). done.
    + rewrite list_lookup_alter_ne by done. specialize (Hq x). unfold runnable in Hq. rewrite <- Hq, elem_of_cons.
      split; [by right|intros [->|?]; done].
  - split; simpl; rewrite Hp; [by rewrite length_alter|]. apply Forall_alter; [done|]. intros x Hx Hr. exact Hr.
Qed.

Section switch.
Context {F : Type}.
Implicit Types k : kst F.

(** CPU [c] holds no lock, ptable.lock is free, and [o] is its process. *)
Definition at_rest (k : kst F) (c : nat) (o : option nat) : Prop :=
  runs_on (kh k) c /\ lock_ready (kh k) ptable_lock /\
  exists x, cpus (kh k) !! c = Some x /\ ncli x = 0 /\ cproc x = o.

Lemma at_rest_running k c p : at_rest k c (Some p) -> running k c p.
Proof. intros (Hr & _ & x & Hx & _ & Hc). split; [done|]. by exists x. Qed.

Lemma at_rest_depth k c o : at_rest k c o -> exists x, cpus (kh k) !! c = Some x /\ ncli x = 0.
Proof. intros (_ & _ & x & Hx & Hn & _). by exists x. Qed.

Lemma at_rest_touched k c o : at_rest k c o -> at_rest (touched c k) c o.
Proof.
  intros (Hr & Hl & x & Hx & Hn & Hc). split; [by apply touch_runs_on|]. split; [exact Hl|].
  exists (touch_cpu (eflags (kh k)) x). simpl. rewrite list_lookup_alter_eq, Hx. split; [done|].
  unfold touch_cpu. by destruct (ncli x =? 0).
Qed.

(** *** The process side *)

Lemma yield_run k c p pr qs :
  at_rest k c (Some p) -> runq (kp k) qs -> procs (kp k) !! p = Some pr -> p_state pr <> RUNNABLE ->
  exists t', yield k = Wait OnSched (set_kp t' (inside c ptable_lock k)) /\
    procs t' = alter (set_p_state RUNNABLE) p (procs (kp k)) /\
    runq t' (spec_enqueue (Z.to_nat (p_priority pr)) p qs).
Proof.
  intros Hat Hq Hp Hs. pose proof (at_rest_running k c p Hat) as Hrun. pose proof Hat as (Hr & Hl & _).
  unfold yield. mstep (lock_run k c _ Hr Hl).
  mstep (myproc_locked k (inside c ptable_lock k) c p ptable_lock Hrun eq_refl).
  mstep (eq_refl : nonnull (Some p) (inside c ptable_lock k) = Ret p _).
  destruct (wake_run (inside c ptable_lock k) qs p pr Hq Hp Hs) as (t' & Hw & Hpr & Hrq).
  exists t'. split; [|by split].
  assert (Hp1 : procs (kp (inside c ptable_lock k)) !! p = Some pr) by exact Hp.
  rewrite (bind_ret_run _ _ _ _ _ (updp_run p pr _ _ Hp1)) in Hw.
  mstep (updp_run p pr (set_p_state RUNNABLE) _ Hp1).
  mstep (myproc_locked k (upd_k p (set_p_state RUNNABLE) (inside c ptable_lock k)) c p ptable_lock Hrun eq_refl).
  mstep (eq_refl : nonnull (Some p) (upd_k p (set_p_state RUNNABLE) (inside c ptable_lock k)) = Ret p _).
  mstep Hw. apply (sched_run k _ c p (set_p_state RUNNABLE pr) Hrun (at_rest_depth _ _ _ Hat)); [done| |done].
  change (procs t' !! p = Some (set_p_state RUNNABLE pr)). by rewrite Hpr, list_lookup_alter_eq, Hp1.
Qed.

(** [sleep], entered with [lk] held: the process sleeps on [ch], [lk] is free
    again and ptable.lock is held. *)
Lemma sleep_run k c p pr ch lk :
  at_rest k c (Some p) -> procs (kp k) !! p = Some pr -> lk <> 0 -> lock_ready (kh k) lk ->
  sleep ch lk (inside c lk k) =
    Wait OnSched (upd_k p (fun q => set_p_state SLEEPING (set_p_chan ch q)) (inside c ptable_lock k)).
Proof.
  intros Hat Hp Hlk Hlr. pose proof (at_rest_running k c p Hat) as Hrun. pose proof Hat as (Hr & Hl & _).
  unfold sleep. mstep (myproc_locked k (inside c lk k) c p lk Hrun eq_refl).
  assert ((lk =? 0) = false) as -> by lia. mstep (eq_refl : unless_panic false "sleep without lk" (inside c lk k) = Ret tt _).
  assert (Hin : (if negb (lk =? ptable_lock) then lock ptable_lock;; unlock lk else mret tt) (inside c lk k) =
                Ret tt (inside c ptable_lock k)).
  { destruct (Z.eqb_spec lk ptable_lock) as [->|Hne]; [done|]. cbn [negb].
    assert (Hr1 : runs_on (kh (inside c lk k)) c) by by apply acq_hw_runs_on.
    mstep (lock_run (inside c lk k) c ptable_lock Hr1 (lock_ready_acq _ c ptable_lock lk Hl Hne)).
    unfold unlock. erewrite khw_run; [|apply release_under; [exact Hr|done|done]]. done. }
  mstep Hin.
  assert (Hp1 : procs (kp (inside c ptable_lock k)) !! p = Some pr) by exact Hp.
  mstep (updp_run p pr (set_p_chan ch) _ Hp1). mstep (updp_run p _ (set_p_state SLEEPING) _ (upd_k_lookup p (set_p_chan ch) _ _ Hp1)).
  rewrite upd_k_upd_k. eapply (sched_run k _ c p); [done|by eapply at_rest_depth|done|by apply upd_k_lookup|done].
Qed.

(** *** The scheduler side *)

Lemma this_cpu_run h c : runs_on h c -> this_cpu h = Ret c h.
Proof. intros [Hf _]. unfold this_cpu. mexec. by rewrite Hf. Qed.

(** The state after the scheduler has taken the CPU back. *)
Definition switched_back (c : nat) (k k' : kst F) : kst F :=
  set_kc (alter (set_cr3 (V2P (kpgdir (kg k')))) c (kc k'))
    (set_kh (touch c (set_cpus (alter (set_cproc None) c) (kh k))) k').

Lemma scheduler_resume_run k k' c o :
  at_rest k c o -> kh k' = acq_hw c ptable_lock (kh k) ->
  scheduler_resume c k' = Ret tt (switched_back c k k').
Proof.
  intros (Hr & Hl & _) Hk. destruct (acq_hw_runs_on (kh k) c ptable_lock Hr) as [Hr1 _].
  unfold scheduler_resume, scheduler_back, switchkvm. rewrite !bind_assoc_run.
  mstep (eq_refl : gets (fun k => kpgdir (kg k)) k' = Ret (kpgdir (kg k')) k'). rewrite !bind_assoc_run.
  assert (Hr2 : runs_on (kh k') c) by by rewrite Hk.
  mstep (khw_run _ _ _ _ (this_cpu_run _ c Hr2)). rewrite set_kh_id.
  rewrite bind_modify. set (k1 := set_kc _ k').
  mstep (khw_run (upd_cpu c (set_cproc None)) k1 tt _ eq_refl).
  erewrite (unlock_run (set_kh (set_cpus (alter (set_cproc None) c) (kh k)) k) _ c); [done| |done|].
  - by apply set_cproc_runs_on.
  - transitivity (set_cpus (alter (set_cproc None) c) (kh k')); [reflexivity|]. rewrite Hk. apply acq_set_cproc.
Qed.
(** *** Picking a process *)

Lemma switchuvm_run k k' c p pr lk :
  runs_on (kh k) c -> kh k' = acq_hw c lk (kh k) ->
  procs (kp k') !! p = Some pr -> p_kstack pr <> 0 -> p_pgdir pr <> 0 ->
  switchuvm (Some p) k' = Ret tt (set_kc (alter (uvm_regs (p_kstack pr) (p_pgdir pr)) c (kc k')) k').
Proof.
  intros Hr Hk Hp Hks Hpg. unfold switchuvm. mstep (getp_run p pr k' Hp).
  assert ((p_kstack pr =? 0) = false) as -> by lia. rewrite bind_unless_false.
  assert ((p_pgdir pr =? 0) = false) as -> by lia. rewrite bind_unless_false.
  destruct (acq_hw_runs_on (kh k) c lk Hr) as [Hr1 _]. pose proof Hr1 as Hr2. rewrite <- Hk in Hr2.
  mstep (khw_run _ k' _ _ (pushcli_run _ c Hr2)). destruct (push_hw_runs_on _ c Hr2) as [Hr3 Hoff3].
  mstep (khw_run mycpu (set_kh (push_hw c (kh k')) k') _ _ (mycpu_run _ c Hoff3 Hr3)).
  rewrite bind_modify. erewrite khw_run; [|exact (popcli_push _ c Hr2)].
  rewrite Hk, touch_acq, <- Hk by done. by destruct k' as [[] ? ? ? ? ? ?].
Qed.

Definition sti_k (k : kst F) : kst F := set_kh (set_eflags (Z.lor (eflags (kh k)) FL_IF) (kh k)) k.

Lemma at_rest_sti k c o : at_rest k c o -> at_rest (sti_k k) c o.
Proof.
  intros (Hr & Hl & x & Hx & Hn & Hc). split; [by eapply set_eflags_runs_on|]. split; [done|]. by exists x.
Qed.

(** The state in which the scheduler switches to [p]. *)
Definition dispatched (c p : nat) (pr : proc) (t' : ptab) (k : kst F) : kst F :=
  set_kc (alter (uvm_regs (p_kstack pr) (p_pgdir pr)) c (kc k))
    (set_kp t' (inside c ptable_lock (set_kh (set_cpus (alter (set_cproc (Some p)) c) (kh (sti_k k))) k))).

Lemma dispatch_run k c p pr t o :
  at_rest k c o -> procs t !! p = Some pr -> p_kstack pr <> 0 -> p_pgdir pr <> 0 ->
  dispatch c (Some p) (set_kp t (inside c ptable_lock (sti_k k))) =
    Wait OnSched (dispatched c p pr (set_running p t) k).
Proof.
  intros Hat Hp Hks Hpg. pose proof (at_rest_sti k c o Hat) as (Hr & _ & _). unfold dispatch.
  set (k1 := set_kp t (inside c ptable_lock (sti_k k))).
  mstep (khw_run (upd_cpu c (set_cproc (Some p))) k1 tt _ eq_refl). set (k2 := set_kh _ k1).
  assert (Hk2 : kh k2 = acq_hw c ptable_lock (set_cpus (alter (set_cproc (Some p)) c) (kh (sti_k k)))).
  { transitivity (set_cpus (alter (set_cproc (Some p)) c) (acq_hw c ptable_lock (kh (sti_k k)))); [reflexivity|].
    apply acq_set_cproc. }
  assert (Hp2 : procs (kp k2) !! p = Some pr) by exact Hp.
  mstep (switchuvm_run (set_kh (set_cpus (alter (set_cproc (Some p)) c) (kh (sti_k k))) k) k2 c p pr ptable_lock
           (set_cproc_runs_on _ c _ Hr) Hk2 Hp2 Hks Hpg).
  unfold nonnull. rewrite bind_some.
  erewrite (bind_ret_run (updp p (set_p_state RUNNING))) by (apply (updp_run p pr); exact Hp2).
  unfold stall. f_equal.
  transitivity (set_kc (alter (uvm_regs (p_kstack pr) (p_pgdir pr)) c (kc k))
                  (set_kp (set_running p t) (set_kh (kh k2) k))); [reflexivity|]. by rewrite Hk2.
Qed.

(** The start of a round, before it has chosen. *)
Lemma scheduler_round_start k c o :
  at_rest k c o ->
  scheduler_round c k =
    (if negb (first_time (kg k) =? 0) then setg (set_first_time 0);; scheduler_scan c 0
     else d ← on_kp pq_dequeue; match d with DqNULL => unlock ptable_lock | DqProc op => dispatch c op end)
      (inside c ptable_lock (sti_k k)).
Proof.
  intros Hat. pose proof (at_rest_sti k c o Hat) as (Hr & Hl & _).
  unfold scheduler_round. mstep (khw_run sti k tt _ eq_refl). fold (sti_k k).
  mstep (lock_run (sti_k k) c _ Hr Hl). by rewrite bind_gets.
Qed.

Lemma scheduler_round_run k c qs :
  at_rest k c None -> runq (kp k) qs -> first_time (kg k) = 0 ->
  match spec_dequeue qs with
  | None => scheduler_round c k = Ret tt (touched c (sti_k k))
  | Some (p, qs') => forall pr, procs (kp k) !! p = Some pr -> p_kstack pr <> 0 -> p_pgdir pr <> 0 ->
      exists t', scheduler_round c k = Wait OnSched (dispatched c p pr t' k) /\
        procs t' = alter (set_p_state RUNNING) p (procs (kp k)) /\ runq t' qs'
  end.
Proof.
  intros Hat Hq Hft. pose proof (at_rest_sti k c None Hat) as (Hr & Hl & _).
  rewrite (scheduler_round_start k c None Hat), Hft. change (negb (0 =? 0)) with false. cbv iota.
  set (k1 := inside c ptable_lock (sti_k k)). destruct (spec_dequeue qs) as [[p qs']|] eqn:Hd.
  - intros pr Hp Hks Hpg. destruct (dequeue_runq (kp k) qs p qs' Hq Hd) as (t1 & pr' & Ht1 & Hpt & Hp' & _ & Hq').
    exists (set_running p t1). split; [|split; [simpl; by rewrite Hpt|done]].
    mstep (on_kp_run pq_dequeue k1 _ t1 Ht1). apply (dispatch_run k c p pr t1 None); [done| |done|done]. by rewrite Hpt.
  - pose proof (pq_dequeue_run (kp k) qs (proj1 Hq)) as Hrun. rewrite Hd in Hrun.
    mstep (on_kp_run pq_dequeue k1 _ (kp k) Hrun).
    by erewrite (unlock_run (sti_k k) _ c).
Qed.

(** *** The process runs again *)

(** The three ways the code at the other end of [swtch] continues: a new
    process in [forkret], or one that had called [yield] or [sleep]; in the
    last case it then releases the lock it slept with. *)
Inductive resumption := ResumeForkret | ResumeYield (i : Z) | ResumeSleep (lk i : Z).

Definition resume (p : nat) (r : resumption) : M (kst F) unit :=
  match r with
  | ResumeForkret => unlock ptable_lock
  | ResumeYield i => yield_resume i
  | ResumeSleep lk i => sleep_resume p lk i;; unlock lk
  end.

Definition resume_if (r : resumption) (e : Z) : Z :=
  match r with ResumeForkret => e | ResumeYield i => with_if i e | ResumeSleep _ i => with_if i e end.
Definition resume_proc (r : resumption) (pr : proc) : proc :=
  match r with ResumeSleep _ _ => set_p_chan ChNull pr | _ => pr end.
Definition resume_ok (r : resumption) (k : kst F) : Prop :=
  match r with
  | ResumeForkret => True
  | ResumeYield i => i = 0 \/ i = FL_IF
  | ResumeSleep lk i => (i = 0 \/ i = FL_IF) /\ lock_ready (kh k) lk
  end.

Lemma sched_resume_run k k' c o i :
  at_rest k c o -> kh k' = acq_hw c ptable_lock (kh k) -> i = 0 \/ i = FL_IF ->
  sched_resume i k' = Ret tt (set_kh (acq_hw c ptable_lock (set_eflags (with_if i (eflags (kh k))) (kh k))) k').
Proof.
  intros (Hr & Hl & x & Hx & Hn & _) Hk Hi. destruct (acq_hw_runs_on (kh k) c ptable_lock Hr) as [Hr1 Hoff].
  rewrite <- Hk in Hr1, Hoff. unfold sched_resume. mstep (khw_run _ _ _ _ (mycpu_run _ c Hoff Hr1)).
  rewrite set_kh_id. erewrite khw_run; [|reflexivity]. by rewrite Hk, (acq_set_intena _ c x).
Qed.

Lemma at_rest_if k c o e : at_rest k c o -> at_rest (set_kh (set_eflags e (kh k)) k) c o.
Proof.
  intros (Hr & Hl & x & Hx & Hn & Hc). split; [by eapply set_eflags_runs_on|]. split; [done|]. by exists x.
Qed.

(** The state in which the process goes on. *)
Definition resumed (c p : nat) (r : resumption) (k k' : kst F) : kst F :=
  set_kh (touch c (set_eflags (resume_if r (eflags (kh k))) (kh k))) (upd_k p (resume_proc r) k').

Lemma upd_k_id p k : upd_k p (fun x => x) k = k.
Proof.
  unfold upd_k. assert (alter (fun x : proc => x) p (procs (kp k)) = procs (kp k)) as ->.
  { apply list_eq. intros i. destruct (decide (p = i)) as [<-|Hne].
    - rewrite list_lookup_alter_eq. by destruct (procs (kp k) !! p).
    - by rewrite list_lookup_alter_ne. }
  by destruct k as [? [] ? ? ? ? ?].
Qed.

Lemma resume_run k k' c o p pr r :
  at_rest k c o -> kh k' = acq_hw c ptable_lock (kh k) -> procs (kp k') !! p = Some pr -> resume_ok r k ->
  resume p r k' = Ret tt (resumed c p r k k').
Proof.
  intros Hat Hk Hp Hok. pose proof Hat as (Hr & Hl & _).
  destruct r as [|i|lk i]; unfold resume, resumed; simpl.
  - rewrite (unlock_run k k' c) by done. rewrite upd_k_id. by destruct (kh k).
  - unfold yield_resume. mstep (sched_resume_run k k' c o i Hat Hk Hok).
    set (h1 := set_eflags _ (kh k)). pose proof (at_rest_if k c o (with_if i (eflags (kh k))) Hat) as (Hr1 & Hl1 & _).
    rewrite (unlock_run (set_kh h1 k) _ c) by done. by rewrite upd_k_id.
  - destruct Hok as [Hi Hlk]. unfold sleep_resume. rewrite !bind_assoc_run. mstep (sched_resume_run k k' c o i Hat Hk Hi).
    set (h1 := set_eflags _ (kh k)). pose proof (at_rest_if k c o (with_if i (eflags (kh k))) Hat) as (Hr1 & Hl1 & _).
    rewrite !bind_assoc_run. mstep (updp_run p pr (set_p_chan ChNull) (set_kh (acq_hw c ptable_lock h1) k') Hp).
    destruct (Z.eqb_spec lk ptable_lock) as [->|Hne]; cbn [negb].
    + rewrite bind_mret. by rewrite (unlock_run (set_kh h1 k) _ c).
    + rewrite bind_assoc_run. erewrite (bind_ret_run (unlock ptable_lock)); [|by apply (unlock_run (set_kh h1 k) _ c)].
      set (k2 := set_kh (touch c (kh (set_kh h1 k))) _).
      assert (Hr2 : runs_on (kh k2) c) by by apply touch_runs_on.
      mstep (lock_run k2 c lk Hr2 Hlk). rewrite (unlock_run k2 _ c) by done.
      unfold k2. rewrite !kh_set_kh, touch_touch. done.
Qed.

(** *** Waking and killing *)

Lemma wakeup_run k c o qs ch :
  at_rest k c o -> runq (kp k) qs ->
  exists t' qs', wakeup ch k = Ret tt (set_kp t' (touched c k)) /\ runq t' qs' /\ procs t' = woken ch <$> procs (kp k).
Proof.
  intros (Hr & Hl & _) Hq. unfold wakeup. mstep (lock_run k c _ Hr Hl).
  destruct (wakeup1_run (inside c ptable_lock k) qs ch Hq) as (t' & qs' & H & Q & P).
  exists t', qs'. mstep H. rewrite (unlock_run k _ c) by done. done.
Qed.

(** The table after [kill] found process [p]. *)
Definition killed (pr : proc) : proc :=
  if bool_decide (p_state pr = SLEEPING) then set_p_state RUNNABLE (set_p_killed 1 pr) else set_p_killed 1 pr.

Lemma runq_killed t qs p : runq t qs -> runq (set_procs (alter (set_p_killed 1) p (procs t)) t) qs.
Proof. intros Hq. apply runq_alter; [done| |]; done. Qed.

Lemma kill_run k c o qs pid :
  at_rest k c o -> runq (kp k) qs ->
  match find_first (fun pr => p_pid pr =? pid) (procs (kp k)) with
  | None => kill pid k = Ret (-1) (touched c k)
  | Some p => exists t' qs', kill pid k = Ret 0 (set_kp t' (touched c k)) /\ runq t' qs' /\
      procs t' = alter killed p (procs (kp k))
  end.
Proof.
  intros (Hr & Hl & _) Hq. unfold kill. mstep (lock_run k c _ Hr Hl). set (k1 := inside c ptable_lock k).
  rewrite bind_get. change (procs (kp k1)) with (procs (kp k)).
  pose proof Hq as (_ & _ & _ & Hlen & _). rewrite take_ge by lia.
  destruct (find_first (fun pr => p_pid pr =? pid) (procs (kp k))) as [p|] eqn:E.
  - apply find_first_Some in E as [(pr & Hp & _) _].
    assert (Hp1 : procs (kp k1) !! p = Some pr) by exact Hp.
    mstep (updp_run p pr (set_p_killed 1) k1 Hp1). set (k2 := upd_k p (set_p_killed 1) k1).
    assert (Hp2 : procs (kp k2) !! p = Some (set_p_killed 1 pr)) by by apply upd_k_lookup.
    mstep (getp_run p _ k2 Hp2). change (p_state (set_p_killed 1 pr)) with (p_state pr).
    pose proof (runq_killed (kp k) qs p Hq) as Hq2.
    destruct (bool_decide (p_state pr = SLEEPING)) eqn:Es.
    + destruct (wake_run k2 qs p _ Hq2 Hp2) as (t' & Hw & Hpr & Hrq).
      { apply bool_decide_eq_true in Es. simpl. congruence. }
      exists t'. eexists. mstep Hw. erewrite (bind_ret_run (unlock ptable_lock)); [|by apply (unlock_run k _ c)].
      split; [done|]. split; [exact Hrq|]. rewrite Hpr. unfold k2. rewrite upd_k_procs, alter_alter.
      eapply alter_ext_Some; [done|]. unfold killed. by rewrite Es.
    + exists (kp k2), qs. rewrite bind_mret. erewrite (bind_ret_run (unlock ptable_lock)); [|by apply (unlock_run k _ c)].
      split; [done|]. split; [done|]. unfold k2. rewrite upd_k_procs.
      eapply alter_ext_Some; [done|]. unfold killed. by rewrite Es.
  - erewrite (bind_ret_run (unlock ptable_lock)); [|by apply (unlock_run k _ c)]. done.
Qed.
(** *** The first pass *)

Lemma first_pass_empty k c o :
  at_rest k c o -> first_time (kg k) <> 0 -> Forall (fun pr => p_state pr <> RUNNABLE) (procs (kp k)) ->
  scheduler_round c k = Ret tt (touched c (sti_k (set_kg (set_first_time 0 (kg k)) k))).
Proof.
  intros Hat Hft Hno. rewrite (scheduler_round_start k c o Hat).
  destruct (Z.eqb_spec (first_time (kg k)) 0); [done|]. cbn [negb]. unfold setg. rewrite bind_modify.
  set (k1 := set_kg (set_first_time 0 (kg k)) k). unfold scheduler_scan. rewrite bind_get.
  rewrite (proj2 (find_first_None _ _)).
  - pose proof (at_rest_sti k1 c o Hat) as (Hr & Hl & _). by rewrite (unlock_run (sti_k k1) _ c).
  - rewrite drop_0. apply Forall_take. eapply Forall_impl; [exact Hno|]. intros pr Hpr. by apply bool_decide_eq_false_2.
Qed.

Lemma first_pass_run k c p pr :
  at_rest k c None -> first_time (kg k) <> 0 -> length (procs (kp k)) = Z.to_nat NPROC ->
  find_first (fun pr => bool_decide (p_state pr = RUNNABLE)) (procs (kp k)) = Some p ->
  procs (kp k) !! p = Some pr -> p_kstack pr <> 0 -> p_pgdir pr <> 0 ->
  scheduler_round c k =
    Wait OnSched (dispatched c p pr (set_running p (kp k)) (set_kg (set_first_time 0 (kg k)) k)).
Proof.
  intros Hat Hft Hlen Hf Hp Hks Hpg. rewrite (scheduler_round_start k c None Hat).
  destruct (Z.eqb_spec (first_time (kg k)) 0); [done|]. cbn [negb]. unfold setg. rewrite bind_modify.
  set (k1 := set_kg (set_first_time 0 (kg k)) k). unfold scheduler_scan. rewrite bind_get.
  change (procs (kp (set_kg _ (inside c ptable_lock (sti_k k))))) with (procs (kp k)).
  rewrite take_ge by lia. rewrite drop_0, Hf. simpl plus.
  assert (Hat1 : at_rest k1 c None) by exact Hat.
  exact (dispatch_run k1 c p pr (kp k) None Hat1 Hp Hks Hpg).
Qed.

End switch.


