(* ===== verification/SchedSys.v ===== *)
(** * The scheduler on several CPUs

    A transition system whose steps are runs of the functions of proc.c on one
    CPU: a round of the scheduler, the switch into a process and out of it
    ([yield], [sleep]), [wakeup] and [kill].  Each step is one critical section
    of ptable.lock, which the spin lock makes atomic.  The invariant says that
    the queues hold exactly the runnable processes and that the CPUs run
    exactly the RUNNING ones, each on one CPU. *)

From Stdlib Require Import ZArith Lia.
From stdpp Require Import base numbers strings gmap list.
From S2P Require Import Prelude.
From S2P Require Import Machine.
From S2P Require Import Spinlock.
From S2P Require Import Kalloc.
From S2P Require Import KState.
From S2P Require Import PQueue.
From S2P Require Import Proc.
From S2P Require Import ProcInv.
From S2P Require Import Sched.

Local Open Scope string_scope.
Local Open Scope list_scope.
Local Open Scope Z_scope.

Section system.
Context {F : Type}.

(** The shared state and the flags register of each CPU. *)
Record sys := mksys { sk : kst F; sef : list Z }.

Definition sview (s : sys) (c : nat) : option (kst F) :=
  x ← cpus (kh (sk s)) !! c; e ← sef s !! c;
  Some (set_kh (mkhw (cpus (kh (sk s))) (apicid x) e (locks (kh (sk s)))) (sk s)).

Definition scommit (s : sys) (c : nat) (k : kst F) : sys := mksys k (<[c := eflags (kh k)]> (sef s)).

(** The critical section in which [fork] makes the new process runnable (the
    one of [userinit] is the same once the queues are set up). *)
Definition start_proc (p : nat) : M (kst F) unit :=
  lock ptable_lock;; updp p (set_p_state RUNNABLE);; enqueue_or_panic p;; unlock ptable_lock.

(** The CPU is in the scheduler's loop. *)
Definition in_scheduler (k : kst F) (c : nat) : Prop :=
  exists x, cpus (kh k) !! c = Some x /\ cproc x = None.

(** A new process is complete when it is made runnable, and the scheduler has
    then made its first pass over the table (see the end of this file for what
    happens otherwise). *)
Definition startable (p : nat) (k : kst F) : Prop :=
  first_time (kg k) = 0 /\
  exists pr, procs (kp k) !! p = Some pr /\ p_state pr = EMBRYO /\ p_kstack pr <> 0 /\ p_pgdir pr <> 0.

Inductive sys_step (s : sys) : sys -> Prop :=
  | sys_idle c k k' : sview s c = Some k -> in_scheduler k c -> scheduler_round c k = Ret tt k' ->
      sys_step s (scommit s c k')
  | sys_switch_in c p r k k' k'' : sview s c = Some k -> in_scheduler k c ->
      scheduler_round c k = Wait OnSched k' -> myproc k' = Ret (Some p) k' -> resume_ok r k ->
      resume p r k' = Ret tt k'' -> sys_step s (scommit s c k'')
  | sys_yield c p k k' k'' : sview s c = Some k -> running k c p ->
      yield k = Wait OnSched k' -> scheduler_resume c k' = Ret tt k'' -> sys_step s (scommit s c k'')
  | sys_sleep c p ch lk k k' k'' : sview s c = Some k -> running k c p -> lk <> 0 -> lock_ready (kh k) lk ->
      (lock lk;; sleep ch lk) k = Wait OnSched k' -> scheduler_resume c k' = Ret tt k'' ->
      sys_step s (scommit s c k'')
  | sys_wakeup c ch k k' : sview s c = Some k -> wakeup ch k = Ret tt k' -> sys_step s (scommit s c k')
  | sys_kill c pid r k k' : sview s c = Some k -> kill pid k = Ret r k' -> sys_step s (scommit s c k')
  | sys_start c p k k' : sview s c = Some k -> startable p k -> start_proc p k = Ret tt k' -> sys_step s (scommit s c k').

Inductive sys_reach (s0 : sys) : sys -> Prop :=
  | sys_here : sys_reach s0 s0
  | sys_next s s' : sys_reach s0 s -> sys_step s s' -> sys_reach s0 s'.

(** ** The invariant *)

Definition is_running (ps : list proc) (p : nat) : Prop :=
  exists pr, ps !! p = Some pr /\ p_state pr = RUNNING.

(** [cs] lists the process of each CPU: exactly the RUNNING ones, once each. *)
Definition cpu_match (ps : list proc) (cs : list (option nat)) : Prop :=
  (forall p, is_running ps p <-> exists c, cs !! c = Some (Some p)) /\
  (forall c c' p, cs !! c = Some (Some p) -> cs !! c' = Some (Some p) -> c = c').

(** A process that can run has a kernel stack and a page table. *)
Definition can_run (st : procstate) : bool :=
  match st with SLEEPING | RUNNABLE | RUNNING => true | _ => false end.
Definition live (ps : list proc) : Prop :=
  Forall (fun pr => can_run (p_state pr) = true -> p_kstack pr <> 0 /\ p_pgdir pr <> 0) ps.

(** Until the scheduler's first pass, which does not use the queues, there is no
    process that can run: the other CPUs enter the scheduler in [startothers],
    before [userinit]. *)
Definition first_pass_ok (k : kst F) : Prop :=
  first_time (kg k) = 0 \/ Forall (fun pr => can_run (p_state pr) = false) (procs (kp k)).

Definition sys_inv (s : sys) : Prop :=
  let h := kh (sk s) in
  NoDup (apicid <$> cpus h) /\ length (sef s) = length (cpus h) /\
  Forall (fun x => ncli x = 0) (cpus h) /\ lock_ready h ptable_lock /\
  first_pass_ok (sk s) /\ (exists qs, runq (kp (sk s)) qs) /\ live (procs (kp (sk s))) /\
  cpu_match (procs (kp (sk s))) (cproc <$> cpus h).

Lemma match_keep ps ps' cs :
  cpu_match ps cs -> (forall p, is_running ps' p <-> is_running ps p) -> cpu_match ps' cs.
Proof. intros [H1 H2] H. split; [|done]. intros p. by rewrite H. Qed.

Lemma match_out ps ps' cs c p :
  cpu_match ps cs -> cs !! c = Some (Some p) ->
  (forall x, is_running ps' x <-> is_running ps x /\ x <> p) -> cpu_match ps' (<[c := None]> cs).
Proof.
  intros [H1 H2] Hc H. split.
  - intros x. rewrite H, H1. split.
    + intros [(c' & Hc') Hne]. exists c'. rewrite list_lookup_insert_ne; [done|]. intros <-. congruence.
    + intros (c' & Hc'). apply insert_lookup_cases in Hc' as [(_ & ? & _)|[Hne Hc']]; [done|].
      split; [by exists c'|]. intros ->. by apply Hne, (H2 c c' p).
  - intros c1 c2 x Hc1 Hc2. apply insert_lookup_cases in Hc1 as [(_ & ? & _)|[_ Hc1]]; [done|].
    apply insert_lookup_cases in Hc2 as [(_ & ? & _)|[_ Hc2]]; [done|]. eauto.
Qed.

Lemma match_in ps ps' cs c p :
  cpu_match ps cs -> cs !! c = Some None -> ~ is_running ps p ->
  (forall x, is_running ps' x <-> is_running ps x \/ x = p) -> cpu_match ps' (<[c := Some p]> cs).
Proof.
  intros [H1 H2] Hc Hp H. pose proof (lookup_lt_Some _ _ _ Hc) as Hlt. split.
  - intros x. rewrite H, H1. split.
    + intros [(c' & Hc')| ->].
      * exists c'. rewrite list_lookup_insert_ne; [done|]. intros <-. congruence.
      * exists c. by apply list_lookup_insert_eq.
    + intros (c' & Hc'). apply insert_lookup_cases in Hc' as [(_ & [= ->] & _)|[_ Hc']]; [by right|left; eauto].
  - intros c1 c2 x Hc1 Hc2. rewrite H1 in Hp.
    apply insert_lookup_cases in Hc1 as [(<- & E1 & _)|[_ Hc1]]; apply insert_lookup_cases in Hc2 as [(<- & E2 & _)|[_ Hc2]].
    + done.
    + injection E1 as <-. exfalso. apply Hp. eauto.
    + injection E2 as <-. exfalso. apply Hp. eauto.
    + eauto.
Qed.

(** How a change of one process changes who is running. *)
Lemma is_running_alter ps f p x pr :
  ps !! p = Some pr ->
  is_running (alter f p ps) x <-> (if decide (x = p) then p_state (f pr) = RUNNING else is_running ps x).
Proof.
  intros Hp. unfold is_running. destruct (decide (x = p)) as [->|Hne].
  - rewrite list_lookup_alter_eq, Hp. simpl. split; [by intros (r & [= <-] & H)|eauto].
  - by rewrite list_lookup_alter_ne.
Qed.

Lemma live_alter ps f p :
  live ps -> (forall pr, ps !! p = Some pr -> can_run (p_state (f pr)) = true ->
    can_run (p_state pr) = true /\ p_kstack (f pr) = p_kstack pr /\ p_pgdir (f pr) = p_pgdir pr) ->
  live (alter f p ps).
Proof.
  intros Hl Hf. apply Forall_alter; [done|]. intros pr Hp Hpr Hc. destruct (Hf pr Hp Hc) as (Hc' & -> & ->). auto.
Qed.

(** ** Preservation *)

Lemma sview_inv s c k :
  sys_inv s -> sview s c = Some k ->
  exists x qs, cpus (kh k) !! c = Some x /\ ncli x = 0 /\ at_rest k c (cproc x) /\ runq (kp k) qs /\
    live (procs (kp k)) /\ cpu_match (procs (kp k)) (cproc <$> cpus (kh k)) /\ first_pass_ok k /\
    NoDup (apicid <$> cpus (kh k)) /\ length (sef s) = length (cpus (kh k)) /\ Forall (fun y => ncli y = 0) (cpus (kh k)).
Proof.
  intros (Hnd & Hlen & Hn & Hl & Hft & (qs & Hq) & Hlive & Hm) Hv. unfold sview in Hv.
  destruct (cpus (kh (sk s)) !! c) as [x|] eqn:Hx; [|done]. destruct (sef s !! c) as [e|] eqn:He; [|done].
  injection Hv as <-. exists x, qs.
  assert (Hx0 : ncli x = 0) by (rewrite Forall_lookup in Hn; eauto).
  split; [done|]. split; [done|]. split; [|done]. split; [|split; [exact Hl|by exists x]].
  split; [by apply find_apicid|]. exists x. split; [done|]. lia.
Qed.

Lemma sys_commit s c k k' x f :
  sys_inv s -> sview s c = Some k -> cpus (kh k) !! c = Some x ->
  cpus (kh k') = alter f c (cpus (kh k)) -> (forall y, apicid (f y) = apicid y) -> ncli (f x) = 0 ->
  locks (kh k') = locks (kh k) -> first_pass_ok k' ->
  (exists qs, runq (kp k') qs) -> live (procs (kp k')) ->
  cpu_match (procs (kp k')) (<[c := cproc (f x)]> (cproc <$> cpus (kh k))) ->
  sys_inv (scommit s c k').
Proof.
  intros Hinv Hv Hx Hc Hf Hn Hl Hft Hq Hlive Hm.
  destruct (sview_inv s c k Hinv Hv) as (y & qs & Hy & _ & (_ & Hlr & _) & _ & _ & _ & Hft0 & Hnd & Hlen & Hall).
  assert (Halt : alter f c (cpus (kh k)) = <[c := f x]> (cpus (kh k))) by by apply alter_insert_Some.
  unfold sys_inv. simpl. rewrite Hc. split; [by rewrite fmap_alter_same|]. split; [by rewrite length_insert, length_alter|].
  split; [apply Forall_alter; [done|]; intros z Hz _; congruence|].
  split; [unfold lock_ready; by rewrite Hl|]. split; [exact Hft|]. split; [done|]. split; [done|].
  rewrite Halt, list_fmap_insert. done.
Qed.

(** The update of a CPU that leaves its process alone. *)
Lemma touch_cpu_keeps e x : apicid (touch_cpu e x) = apicid x /\ ncli (touch_cpu e x) = ncli x /\ cproc (touch_cpu e x) = cproc x.
Proof. unfold touch_cpu. by destruct (ncli x =? 0). Qed.

Lemma sys_commit_same s c k k' e :
  sys_inv s -> sview s c = Some k ->
  cpus (kh k') = alter (touch_cpu e) c (cpus (kh k)) -> locks (kh k') = locks (kh k) ->
  first_pass_ok k' -> (exists qs, runq (kp k') qs) -> live (procs (kp k')) ->
  (forall p, is_running (procs (kp k')) p <-> is_running (procs (kp k)) p) ->
  sys_inv (scommit s c k').
Proof.
  intros Hinv Hv Hc Hl Hft Hq Hlive Hr.
  destruct (sview_inv s c k Hinv Hv) as (x & qs & Hx & Hn & _ & _ & _ & Hm & _).
  destruct (touch_cpu_keeps e x) as (_ & Hn' & Hp').
  eapply sys_commit; [done..| |congruence|done|done|done|done|].
  - intros y. apply touch_cpu_keeps.
  - rewrite Hp'. rewrite list_insert_id by (by rewrite list_lookup_fmap, Hx). by eapply match_keep.
Qed.

Lemma woken_running ch pr : p_state (woken ch pr) = RUNNING <-> p_state pr = RUNNING.
Proof.
  unfold woken. destruct (wakes ch pr) eqn:E; [|done]. unfold wakes in E.
  apply andb_true_iff in E as [E _]. apply bool_decide_eq_true in E. simpl. by rewrite E.
Qed.

Lemma first_pass_running k p : first_pass_ok k -> is_running (procs (kp k)) p -> first_time (kg k) = 0.
Proof.
  intros [H|H] (pr & Hp & Hs); [done|]. rewrite Forall_lookup in H. specialize (H p pr Hp). by rewrite Hs in H.
Qed.

Lemma woken_can_run ch pr : can_run (p_state (woken ch pr)) = can_run (p_state pr).
Proof.
  unfold woken. destruct (wakes ch pr) eqn:E; [|done]. unfold wakes in E.
  apply andb_true_iff in E as [E _]. apply bool_decide_eq_true in E. simpl. by rewrite E.
Qed.

Lemma woken_live ch ps : live ps -> live (woken ch <$> ps).
Proof.
  intros Hl. apply Forall_fmap. eapply Forall_impl; [exact Hl|]. intros pr Hpr. simpl. unfold woken.
  destruct (wakes ch pr) eqn:E; [|done]. intros _. apply Hpr. unfold wakes in E.
  apply andb_true_iff in E as [E _]. apply bool_decide_eq_true in E. by rewrite E.
Qed.

Lemma step_wakeup s c ch k k' : sys_inv s -> sview s c = Some k -> wakeup ch k = Ret tt k' -> sys_inv (scommit s c k').
Proof.
  intros Hinv Hv Hw. destruct (sview_inv s c k Hinv Hv) as (x & qs & Hx & Hn & Hat & Hq & Hlive & Hm & Hft & _).
  destruct (wakeup_run k c _ qs ch Hat Hq) as (t' & qs' & Hw' & Hq' & Hp). rewrite Hw in Hw'. injection Hw' as ->.
  eapply sys_commit_same; [done..| | | |].
  - destruct Hft as [H|H]; [by left|right]. simpl. rewrite Hp. apply Forall_fmap. eapply Forall_impl; [exact H|].
    intros pr. simpl. by rewrite woken_can_run.
  - by exists qs'.
  - simpl. rewrite Hp. by apply woken_live.
  - intros p. simpl. rewrite Hp. unfold is_running. rewrite list_lookup_fmap.
    destruct (procs (kp k) !! p) as [pr|]; simpl; [|by split; intros (? & ? & _)].
    split; intros (r & [= <-] & Hr); (eexists; split; [done|]); by apply (woken_running ch).
Qed.

Lemma killed_facts pr :
  (p_state (killed pr) = RUNNING <-> p_state pr = RUNNING) /\
  (can_run (p_state (killed pr)) = true -> can_run (p_state pr) = true) /\
  p_kstack (killed pr) = p_kstack pr /\ p_pgdir (killed pr) = p_pgdir pr.
Proof.
  unfold killed. destruct (bool_decide (p_state pr = SLEEPING)) eqn:E; simpl; [|done].
  apply bool_decide_eq_true in E. by rewrite E.
Qed.

Lemma step_kill s c pid r k k' : sys_inv s -> sview s c = Some k -> kill pid k = Ret r k' -> sys_inv (scommit s c k').
Proof.
  intros Hinv Hv Hw. destruct (sview_inv s c k Hinv Hv) as (x & qs & Hx & Hn & Hat & Hq & Hlive & Hm & Hft & _).
  pose proof (kill_run k c _ qs pid Hat Hq) as Hk. destruct (find_first _ (procs (kp k))) as [p|] eqn:E.
  - destruct Hk as (t' & qs' & Hk & Hq' & Hp). rewrite Hw in Hk. injection Hk as -> ->.
    apply find_first_Some in E as [(pr & Hpr & _) _].
    eapply sys_commit_same; [done..| |by exists qs'| |].
    + destruct Hft as [H|H]; [by left|right]. simpl. rewrite Hp. apply Forall_alter; [exact H|].
      intros q _ Hc. destruct (can_run (p_state (killed q))) eqn:E; [|done].
      apply (proj1 (proj2 (killed_facts q))) in E. congruence.
    + simpl. rewrite Hp. apply live_alter; [done|]. intros q _ Hc. destruct (killed_facts q) as (_ & H1 & H2 & H3). auto.
    + intros y. simpl. rewrite Hp, (is_running_alter _ _ _ _ pr Hpr). destruct (decide (y = p)) as [->|]; [|done].
      destruct (killed_facts pr) as [-> _]. unfold is_running. rewrite Hpr. split; [eauto|by intros (? & [= <-] & ?)].
  - rewrite Hw in Hk. injection Hk as -> ->. eapply sys_commit_same; [done..|by exists qs|done|done].
Qed.

(** A process leaves the CPU: its entry changed by [g], which takes it out of
    the RUNNING state. *)
Lemma step_out s c p pr k k' k'' g :
  sys_inv s -> sview s c = Some k -> at_rest k c (Some p) -> procs (kp k) !! p = Some pr ->
  kh k' = acq_hw c ptable_lock (kh k) -> kg k' = kg k -> procs (kp k') = alter g p (procs (kp k)) ->
  p_state (g pr) <> RUNNING -> p_kstack (g pr) = p_kstack pr -> p_pgdir (g pr) = p_pgdir pr ->
  (exists qs, runq (kp k') qs) -> scheduler_resume c k' = Ret tt k'' -> sys_inv (scommit s c k'').
Proof.
  intros Hinv Hv Hat Hp Hk Hg Hprocs Hs Hks Hpg Hq Hres.
  destruct (sview_inv s c k Hinv Hv) as (x & qs & Hx & Hn & Hat' & _ & Hlive & Hm & Hft & _).
  rewrite (scheduler_resume_run k k' c _ Hat Hk) in Hres. injection Hres as <-.
  assert (Hc : cproc x = Some p) by (destruct Hat as (_ & _ & y & Hy & _ & ?); congruence).
  assert (Hrun : is_running (procs (kp k)) p).
  { apply (proj1 Hm). exists c. by rewrite list_lookup_fmap, Hx, <- Hc. }
  eapply sys_commit with (f := fun y => touch_cpu (eflags (kh k)) (set_cproc None y)); [done..|simpl; by rewrite alter_alter| | | | |done| |].
  - intros y. exact (proj1 (touch_cpu_keeps _ (set_cproc None y))).
  - destruct (touch_cpu_keeps (eflags (kh k)) (set_cproc None x)) as (_ & -> & _). done.
  - done.
  - left. simpl. rewrite Hg. by eapply first_pass_running.
  - simpl. rewrite Hprocs. apply live_alter; [done|]. intros q Hq' _. rewrite Hp in Hq'. injection Hq' as <-.
    destruct Hrun as (r & Hr & Hrs). rewrite Hp in Hr. injection Hr as <-. by rewrite Hrs.
  - destruct (touch_cpu_keeps (eflags (kh k)) (set_cproc None x)) as (_ & _ & ->). simpl. rewrite Hprocs.
    eapply match_out; [done|by rewrite list_lookup_fmap, Hx; simpl; rewrite Hc|]. intros y.
    rewrite (is_running_alter _ _ _ _ pr Hp). destruct (decide (y = p)); tauto.
Qed.

Lemma running_at_rest s c p k :
  sys_inv s -> sview s c = Some k -> running k c p -> exists pr qs,
    at_rest k c (Some p) /\ procs (kp k) !! p = Some pr /\ p_state pr = RUNNING /\ runq (kp k) qs.
Proof.
  intros Hinv Hv (_ & y & Hy & Hc). destruct (sview_inv s c k Hinv Hv) as (x & qs & Hx & Hn & Hat & Hq & _ & Hm & _).
  assert (x = y) as -> by congruence. rewrite Hc in Hat.
  assert (is_running (procs (kp k)) p) as (pr & Hp & Hs) by (apply (proj1 Hm); exists c; by rewrite list_lookup_fmap, Hx, <- Hc).
  by exists pr, qs.
Qed.

Lemma step_yield s c p k k' k'' :
  sys_inv s -> sview s c = Some k -> running k c p -> yield k = Wait OnSched k' ->
  scheduler_resume c k' = Ret tt k'' -> sys_inv (scommit s c k'').
Proof.
  intros Hinv Hv Hr Hy Hres. destruct (running_at_rest s c p k Hinv Hv Hr) as (pr & qs & Hat & Hp & Hs & Hq).
  destruct (yield_run k c p pr qs Hat Hq Hp) as (t' & Hy' & Hpr & Hrq); [congruence|].
  rewrite Hy in Hy'. injection Hy' as ->.
  eapply (step_out s c p pr k (set_kp t' (inside c ptable_lock k)) k'' (set_p_state RUNNABLE)); try done; by eexists.
Qed.

Lemma step_sleep s c p ch lk k k' k'' :
  sys_inv s -> sview s c = Some k -> running k c p -> lk <> 0 -> lock_ready (kh k) lk ->
  (lock lk;; sleep ch lk) k = Wait OnSched k' -> scheduler_resume c k' = Ret tt k'' -> sys_inv (scommit s c k'').
Proof.
  intros Hinv Hv Hr Hlk Hlr Hy Hres. destruct (running_at_rest s c p k Hinv Hv Hr) as (pr & qs & Hat & Hp & Hs & Hq).
  rewrite (bind_ret_run _ _ _ _ _ (lock_run k c lk (proj1 Hat) Hlr)) in Hy.
  rewrite (sleep_run k c p pr ch lk Hat Hp Hlk Hlr) in Hy. injection Hy as <-.
  eapply (step_out s c p pr k (upd_k p (fun q => set_p_state SLEEPING (set_p_chan ch q)) (inside c ptable_lock k)) k'');
    [done..| |done]. exists qs. apply runq_alter; [done| |done].
  intros q Hq'. change (procs (kp k) !! p = Some q) in Hq'. rewrite Hp in Hq'. injection Hq' as <-.
  simpl. rewrite Hs. done.
Qed.

Lemma live_lookup ps p pr : live ps -> ps !! p = Some pr -> can_run (p_state pr) = true -> p_kstack pr <> 0 /\ p_pgdir pr <> 0.
Proof. unfold live. rewrite Forall_lookup. eauto. Qed.

(** A round of the scheduler never panics or faults: it finds nothing, or it
    switches to the process at the front of the first non-empty queue.  When it
    is the first pass it finds nothing. *)
Lemma round_total s c k :
  sys_inv s -> sview s c = Some k -> in_scheduler k c ->
  (scheduler_round c k = Ret tt (touched c (sti_k (set_kg (set_first_time 0 (kg k)) k)))) \/
  (exists p pr t' qs', procs (kp k) !! p = Some pr /\ p_state pr = RUNNABLE /\ first_time (kg k) = 0 /\
     scheduler_round c k = Wait OnSched (dispatched c p pr t' k) /\
     procs t' = alter (set_p_state RUNNING) p (procs (kp k)) /\ runq t' qs').
Proof.
  intros Hinv Hv (y & Hy & Hc). destruct (sview_inv s c k Hinv Hv) as (x & qs & Hx & Hn & Hat & Hq & Hlive & _ & Hft & _).
  assert (x = y) as -> by congruence. rewrite Hc in Hat.
  destruct (decide (first_time (kg k) = 0)) as [H0|H0].
  - pose proof (scheduler_round_run k c qs Hat Hq H0) as Hrun.
    destruct (spec_dequeue qs) as [[p qs']|] eqn:Hd; [right|left].
    + destruct (dequeue_runq (kp k) qs p qs' Hq Hd) as (_ & pr & _ & _ & Hp & Hs & _).
      destruct (live_lookup _ p pr Hlive Hp) as [Hks Hpg]; [by rewrite Hs|].
      destruct (Hrun pr Hp Hks Hpg) as (t' & H1 & H2 & H3). by exists p, pr, t', qs'.
    + rewrite Hrun, <- H0. by destruct k as [? ? ? ? [] ? ?].
  - left. apply (first_pass_empty k c None Hat H0). destruct Hft as [?|Hno]; [done|].
    eapply Forall_impl; [exact Hno|]. intros pr Hpr. simpl in Hpr. by intros E; rewrite E in Hpr.
Qed.

Lemma step_idle s c k k' :
  sys_inv s -> sview s c = Some k -> in_scheduler k c -> scheduler_round c k = Ret tt k' -> sys_inv (scommit s c k').
Proof.
  intros Hinv Hv Hin Hr. destruct (sview_inv s c k Hinv Hv) as (x & qs & _ & _ & _ & Hq & Hlive & _).
  destruct (round_total s c k Hinv Hv Hin) as [Hr'|(p & pr & t' & qs' & _ & _ & _ & Hr' & _)]; [|congruence].
  rewrite Hr in Hr'. injection Hr' as ->. eapply sys_commit_same; [done..|by left|by exists qs|done|done].
Qed.

Lemma resume_proc_facts r pr :
  p_state (resume_proc r pr) = p_state pr /\ p_kstack (resume_proc r pr) = p_kstack pr /\
  p_pgdir (resume_proc r pr) = p_pgdir pr /\ p_priority (resume_proc r pr) = p_priority pr.
Proof. by destruct r. Qed.

(** The state as the dispatched process would have found it before the
    scheduler took the lock. *)
Definition before_dispatch (c p : nat) (k : kst F) : kst F :=
  set_kh (set_cpus (alter (set_cproc (Some p)) c) (kh (sti_k k))) k.

Lemma before_dispatch_rest c p o k : at_rest k c o -> at_rest (before_dispatch c p k) c (Some p).
Proof.
  intros Hat. apply at_rest_sti in Hat as (Hr & Hl & x & Hx & Hn & _).
  split; [by apply set_cproc_runs_on|]. split; [exact Hl|]. exists (set_cproc (Some p) x). simpl.
  simpl in Hx. by rewrite list_lookup_alter_eq, Hx.
Qed.

Lemma step_in s c p r k k' k'' :
  sys_inv s -> sview s c = Some k -> in_scheduler k c -> scheduler_round c k = Wait OnSched k' ->
  myproc k' = Ret (Some p) k' -> resume_ok r k -> resume p r k' = Ret tt k'' -> sys_inv (scommit s c k'').
Proof.
  intros Hinv Hv Hin Hr Hmp Hok Hres.
  destruct (sview_inv s c k Hinv Hv) as (x & qs & Hx & Hn & Hat & Hq & Hlive & Hm & _).
  assert (Hc : cproc x = None) by (destruct Hin as (y & Hy & ?); congruence).
  destruct (round_total s c k Hinv Hv Hin) as [Hr'|(p' & pr & t' & qs' & Hp & Hs & Hft & Hr' & Hpt & Hq')]; [congruence|].
  rewrite Hr in Hr'. injection Hr' as ->. set (kb := before_dispatch c p' k).
  pose proof (before_dispatch_rest c p' _ k Hat) as Hb. fold kb in Hb.
  rewrite (myproc_locked kb (dispatched c p' pr t' k) c p' ptable_lock (at_rest_running _ _ _ Hb) eq_refl) in Hmp.
  injection Hmp as <-.
  assert (Hp2 : procs (kp (dispatched c p' pr t' k)) !! p' = Some (set_p_state RUNNING pr)).
  { change (procs t' !! p' = Some (set_p_state RUNNING pr)). by rewrite Hpt, list_lookup_alter_eq, Hp. }
  rewrite (resume_run kb (dispatched c p' pr t' k) c _ p' _ r Hb eq_refl Hp2) in Hres by by destruct r.
  injection Hres as <-. set (e := resume_if r (eflags (kh kb))).
  assert (Hprocs : procs (kp (resumed c p' r kb (dispatched c p' pr t' k))) =
                   alter (fun q => resume_proc r (set_p_state RUNNING q)) p' (procs (kp k))).
  { unfold resumed. simpl. by rewrite Hpt, alter_alter. }
  eapply sys_commit with (f := fun y => touch_cpu e (set_cproc (Some p') y)); [done..|simpl; by rewrite alter_alter| | |done|by left| | |].
  - intros y. exact (proj1 (touch_cpu_keeps _ (set_cproc (Some p') y))).
  - by destruct (touch_cpu_keeps e (set_cproc (Some p') x)) as (_ & -> & _).
  - exists qs'. apply (runq_alter t' qs' p' (resume_proc r) Hq'); intros q _;
      destruct (resume_proc_facts r q) as (E1 & _ & _ & E2); rewrite ?E1, ?E2; done.
  - rewrite Hprocs. apply live_alter; [done|]. intros q Hq1 _. rewrite Hp in Hq1. injection Hq1 as <-.
    destruct (resume_proc_facts r (set_p_state RUNNING pr)) as (_ & -> & -> & _). by rewrite Hs.
  - destruct (touch_cpu_keeps e (set_cproc (Some p') x)) as (_ & _ & ->). rewrite Hprocs.
    eapply match_in; [done|by rewrite list_lookup_fmap, Hx; simpl; rewrite Hc| |].
    + intros (q & Hq1 & Hq2). congruence.
    + intros y. rewrite (is_running_alter _ _ _ _ pr Hp). destruct (resume_proc_facts r (set_p_state RUNNING pr)) as (-> & _).
      destruct (decide (y = p')); simpl; tauto.
Qed.

Lemma start_proc_run k c o qs p pr :
  at_rest k c o -> runq (kp k) qs -> procs (kp k) !! p = Some pr -> p_state pr <> RUNNABLE ->
  exists t' qs', start_proc p k = Ret tt (set_kp t' (touched c k)) /\ runq t' qs' /\
    procs t' = alter (set_p_state RUNNABLE) p (procs (kp k)).
Proof.
  intros (Hr & Hl & _) Hq Hp Hs. unfold start_proc. mstep (lock_run k c _ Hr Hl).
  destruct (wake_run (inside c ptable_lock k) qs p pr Hq Hp Hs) as (t' & Hw & Hpr & Hrq).
  exists t'. eexists. split; [|by split]. rewrite <- bind_assoc_run. mstep Hw. by rewrite (unlock_run k _ c).
Qed.

Lemma step_start s c p k k' :
  sys_inv s -> sview s c = Some k -> startable p k -> start_proc p k = Ret tt k' -> sys_inv (scommit s c k').
Proof.
  intros Hinv Hv (Hft & pr & Hp & Hs & Hks & Hpg) Hst.
  destruct (sview_inv s c k Hinv Hv) as (x & qs & Hx & Hn & Hat & Hq & Hlive & Hm & _).
  destruct (start_proc_run k c _ qs p pr Hat Hq Hp) as (t' & qs' & Hst' & Hq' & Hpr); [by rewrite Hs|].
  rewrite Hst in Hst'. injection Hst' as ->. eapply sys_commit_same; [done..|by left|by exists qs'| |].
  - simpl. rewrite Hpr. apply Forall_alter; [exact Hlive|]. intros q Hq1 _ _. rewrite Hp in Hq1. by injection Hq1 as <-.
  - intros y. simpl. rewrite Hpr, (is_running_alter _ _ _ _ pr Hp). destruct (decide (y = p)) as [->|]; [|done].
    unfold is_running. rewrite Hp. split; [done|]. intros (? & [= <-] & E). congruence.
Qed.

Lemma sys_step_inv s s' : sys_inv s -> sys_step s s' -> sys_inv s'.
Proof.
  intros Hinv Hs. destruct Hs; [eapply step_idle|eapply step_in|eapply step_yield|eapply step_sleep|eapply step_wakeup|eapply step_kill|eapply step_start]; done.
Qed.

Lemma sys_reach_inv s0 s : sys_inv s0 -> sys_reach s0 s -> sys_inv s.
Proof. intros H0 Hr. induction Hr; [done|]. by eapply sys_step_inv. Qed.

(** ** No step of the invariant's states panics *)

Lemma yield_total s c p k :
  sys_inv s -> sview s c = Some k -> running k c p ->
  exists k' k'', yield k = Wait OnSched k' /\ scheduler_resume c k' = Ret tt k''.
Proof.
  intros Hinv Hv Hr. destruct (running_at_rest s c p k Hinv Hv Hr) as (pr & qs & Hat & Hp & Hs & Hq).
  destruct (yield_run k c p pr qs Hat Hq Hp) as (t' & Hy & _ & _); [congruence|].
  eexists _, _. split; [exact Hy|]. by apply (scheduler_resume_run k _ c (Some p)).
Qed.

Lemma sleep_total s c p ch lk k :
  sys_inv s -> sview s c = Some k -> running k c p -> lk <> 0 -> lock_ready (kh k) lk ->
  exists k' k'', (lock lk;; sleep ch lk) k = Wait OnSched k' /\ scheduler_resume c k' = Ret tt k''.
Proof.
  intros Hinv Hv Hr Hlk Hlr. destruct (running_at_rest s c p k Hinv Hv Hr) as (pr & qs & Hat & Hp & Hs & Hq).
  eexists _, _. split.
  - mstep (lock_run k c lk (proj1 Hat) Hlr). exact (sleep_run k c p pr ch lk Hat Hp Hlk Hlr).
  - by apply (scheduler_resume_run k _ c (Some p)).
Qed.

(** What the scheduler has switched to goes on, whatever it had stopped in. *)
Lemma switch_in_total s c k k' :
  sys_inv s -> sview s c = Some k -> in_scheduler k c -> scheduler_round c k = Wait OnSched k' ->
  exists p, myproc k' = Ret (Some p) k' /\ forall r, resume_ok r k -> exists k'', resume p r k' = Ret tt k''.
Proof.
  intros Hinv Hv Hin Hr. destruct (sview_inv s c k Hinv Hv) as (x & qs & _ & _ & Hat & _).
  destruct (round_total s c k Hinv Hv Hin) as [Hr'|(p & pr & t' & qs' & Hp & _ & _ & Hr' & Hpt & _)]; [congruence|].
  rewrite Hr in Hr'. injection Hr' as ->. exists p. set (kb := before_dispatch c p k).
  pose proof (before_dispatch_rest c p _ k Hat) as Hb. fold kb in Hb. split.
  - exact (myproc_locked kb (dispatched c p pr t' k) c p ptable_lock (at_rest_running _ _ _ Hb) eq_refl).
  - intros r Hok. eexists. apply (resume_run kb (dispatched c p pr t' k) c _ p (set_p_state RUNNING pr) r Hb eq_refl); [|by destruct r].
    change (procs t' !! p = Some (set_p_state RUNNING pr)). by rewrite Hpt, list_lookup_alter_eq, Hp.
Qed.

Lemma wakeup_total s c ch k : sys_inv s -> sview s c = Some k -> exists k', wakeup ch k = Ret tt k'.
Proof.
  intros Hinv Hv. destruct (sview_inv s c k Hinv Hv) as (x & qs & _ & _ & Hat & Hq & _).
  destruct (wakeup_run k c _ qs ch Hat Hq) as (t' & _ & Hw & _). by eexists.
Qed.

Lemma kill_total s c pid k : sys_inv s -> sview s c = Some k -> exists r k', kill pid k = Ret r k'.
Proof.
  intros Hinv Hv. destruct (sview_inv s c k Hinv Hv) as (x & qs & _ & _ & Hat & Hq & _).
  pose proof (kill_run k c _ qs pid Hat Hq) as Hk. destruct (find_first _ _) as [p|]; [|by eexists _, _].
  destruct Hk as (t' & qs' & Hk & _). by eexists _, _.
Qed.

Lemma start_total s c p k : sys_inv s -> sview s c = Some k -> startable p k -> exists k', start_proc p k = Ret tt k'.
Proof.
  intros Hinv Hv (_ & pr & Hp & Hs & _). destruct (sview_inv s c k Hinv Hv) as (x & qs & _ & _ & Hat & Hq & _).
  destruct (start_proc_run k c _ qs p pr Hat Hq Hp) as (t' & _ & H & _); [by rewrite Hs|]. by eexists.
Qed.

End system.

(** ** Properties *)

(** C3. Scheduling safety.  The CPUs run the scheduler, switch into and out of
    processes, sleep, wake, kill and start new processes, from a state in which
    the queues are exact and, if the scheduler has not made its first pass yet,
    no process can run (as before [userinit]).  In every state they reach: a
    process runs on at most one CPU and is then RUNNING; the priority queues
    hold exactly the RUNNABLE processes, each once, so that no process is lost
    or scheduled twice; and no step panics or faults: a scheduler round finds
    nothing or switches to a process, which goes on from wherever it had
    stopped; [yield] and [sleep] give the CPU back to the scheduler; [wakeup],
    [kill] and the start of a new process return. *)
Theorem scheduler_safety {F} (s0 s : @sys F) :
  sys_inv s0 -> sys_reach s0 s ->
  let h := kh (sk s) in let t := kp (sk s) in
  (forall c c' x x' p, cpus h !! c = Some x -> cpus h !! c' = Some x' -> cproc x = Some p -> cproc x' = Some p -> c = c') /\
  (forall c x p, cpus h !! c = Some x -> cproc x = Some p -> is_running (procs t) p) /\
  (exists qs, pq_rep t qs /\ NoDup (concat qs) /\ forall p, p ∈ concat qs <-> runnable t p) /\
  (forall c k, sview s c = Some k -> in_scheduler k c ->
     (exists k', scheduler_round c k = Ret tt k') \/
     (exists k' p, scheduler_round c k = Wait OnSched k' /\ myproc k' = Ret (Some p) k' /\
        forall r, resume_ok r k -> exists k'', resume p r k' = Ret tt k'')) /\
  (forall c k p, sview s c = Some k -> running k c p ->
     (exists k' k'', yield k = Wait OnSched k' /\ scheduler_resume c k' = Ret tt k'') /\
     (forall ch lk, lk <> 0 -> lock_ready (kh k) lk ->
        exists k' k'', (lock lk;; sleep ch lk) k = Wait OnSched k' /\ scheduler_resume c k' = Ret tt k'')) /\
  (forall c k, sview s c = Some k ->
     (forall ch, exists k', wakeup ch k = Ret tt k') /\
     (forall pid, exists r k', kill pid k = Ret r k') /\
     (forall p, startable p k -> exists k', start_proc p k = Ret tt k')).
Proof.
  intros H0 Hr. apply (sys_reach_inv s0 s H0) in Hr as Hinv. clear H0 Hr.
  pose proof Hinv as (_ & _ & _ & _ & _ & (qs & Hrep & Hnd & Hq & _) & _ & Hm1 & Hm2). split; [|split; [|split; [|split; [|split]]]].
  - intros c c' x x' p Hx Hx' Hc Hc'. apply (Hm2 c c' p); rewrite list_lookup_fmap.
    + by rewrite Hx, <- Hc.
    + by rewrite Hx', <- Hc'.
  - intros c x p Hx Hc. apply Hm1. exists c. by rewrite list_lookup_fmap, Hx, <- Hc.
  - by exists qs.
  - intros c k Hv Hin. destruct (round_total s c k Hinv Hv Hin) as [H|(p & pr & t' & qs' & _ & _ & _ & H & _)]; [left; eauto|].
    right. destruct (switch_in_total s c k _ Hinv Hv Hin H) as (p' & Hmp & Hres). eauto.
  - intros c k p Hv Hrun. split; [by eapply yield_total|]. intros ch lk Hlk Hlr. by eapply sleep_total.
  - intros c k Hv. split; [|split]; intros; [by eapply wakeup_total|by eapply kill_total|by eapply start_total].
Qed.

(** Sleeping and waking in sequence.  A process that calls [sleep(ch, lk)] holding [lk] stops
    with [lk] released and ptable.lock held; once the scheduler has taken the
    CPU back, a [wakeup(ch)] makes it RUNNABLE and puts it into the run queue,
    and leaves every process that does not sleep on [ch] as it was. *)
Theorem sleep_wakeup {F} (k : kst F) c p pr qs ch lk :
  at_rest k c (Some p) -> runq (kp k) qs -> procs (kp k) !! p = Some pr -> p_state pr = RUNNING ->
  lk <> 0 -> lock_ready (kh k) lk ->
  exists k1 k2 k3 qs', (lock lk;; sleep ch lk) k = Wait OnSched k1 /\
    scheduler_resume c k1 = Ret tt k2 /\ wakeup ch k2 = Ret tt k3 /\
    runq (kp k3) qs' /\ p ∈ concat qs' /\ runnable (kp k3) p /\
    forall x q, x <> p -> procs (kp k) !! x = Some q -> procs (kp k3) !! x = Some (woken ch q).
Proof.
  intros Hat Hq Hp Hs Hlk Hlr. set (g := fun q => set_p_state SLEEPING (set_p_chan ch q)).
  set (k1 := upd_k p g (inside c ptable_lock k)). set (k2 := switched_back c k k1).
  assert (Hq1 : runq (kp k2) qs).
  { apply runq_alter; [done| |done]. intros q Hq'. change (procs (kp k) !! p = Some q) in Hq'.
    rewrite Hp in Hq'. injection Hq' as <-. simpl. by rewrite Hs. }
  assert (Hat2 : at_rest k2 c None).
  { destruct Hat as (Hr & Hl & x & Hx & Hn & Hc).
    split; [by apply touch_runs_on, set_cproc_runs_on|]. split; [exact Hl|].
    exists (touch_cpu (eflags (kh k)) (set_cproc None x)). simpl. rewrite alter_alter, list_lookup_alter_eq, Hx. split; [done|].
    by destruct (touch_cpu_keeps (eflags (kh k)) (set_cproc None x)) as (_ & -> & ->). }
  destruct (wakeup_run k2 c None qs ch Hat2 Hq1) as (t' & qs' & Hw & Hq' & Hpr).
  assert (Hrun : runnable t' p).
  { exists (set_p_state RUNNABLE (g pr)). rewrite Hpr, list_lookup_fmap.
    change (procs (kp k2)) with (alter g p (procs (kp k))). rewrite list_lookup_alter_eq, Hp. simpl. split; [|done].
    unfold woken, wakes. simpl. by rewrite !bool_decide_eq_true_2. }
  exists k1, k2. eexists. exists qs'. split; [|split; [by eapply scheduler_resume_run|split; [exact Hw|]]].
  - mstep (lock_run k c lk (proj1 Hat) Hlr). by eapply sleep_run.
  - split; [exact Hq'|]. split; [by apply Hq'|]. split; [done|]. intros x q Hne Hx. simpl. rewrite Hpr, list_lookup_fmap.
    change (procs (kp k2)) with (alter g p (procs (kp k))). by rewrite list_lookup_alter_ne, Hx.
Qed.

(** [kill(pid)] marks the first process with that pid as killed and makes it
    runnable if it was asleep; it changes no other process and keeps the run
    queue exact.  When no slot has the pid it returns -1 and changes nothing. *)
Theorem kill_spec {F} (k : kst F) c o qs pid :
  at_rest k c o -> runq (kp k) qs ->
  ((forall p pr, procs (kp k) !! p = Some pr -> p_pid pr <> pid) ->
     exists k', kill pid k = Ret (-1) k' /\ kp k' = kp k) /\
  (forall p pr, procs (kp k) !! p = Some pr -> p_pid pr = pid ->
     (forall x q, (x < p)%nat -> procs (kp k) !! x = Some q -> p_pid q <> pid) ->
     exists k' qs', kill pid k = Ret 0 k' /\ runq (kp k') qs' /\ procs (kp k') = alter killed p (procs (kp k)) /\
       p_killed (killed pr) = 1 /\ (p_state pr = SLEEPING -> p ∈ concat qs')).
Proof.
  intros Hat Hq. pose proof (kill_run k c o qs pid Hat Hq) as Hk. split.
  - intros Hno. rewrite (proj2 (find_first_None _ _)) in Hk; [by eexists|].
    apply Forall_lookup. intros i pr Hi. apply Z.eqb_neq. eauto.
  - intros p pr Hp Hpid Hmin. rewrite (proj2 (find_first_Some _ _ p)) in Hk.
    2:{ split; [exists pr; split; [done|lia]|]. intros j q Hj Hq'. apply Z.eqb_neq. eauto. }
    destruct Hk as (t' & qs' & Hk & Hq' & Hpr). eexists. exists qs'. split; [exact Hk|]. split; [exact Hq'|].
    split; [exact Hpr|]. unfold killed. split; [by destruct (bool_decide _)|]. intros Hs.
    apply Hq'. exists (killed pr). rewrite Hpr, list_lookup_alter_eq, Hp. split; [done|].
    unfold killed. by rewrite bool_decide_eq_true_2.
Qed.

(** ** The first pass

    The system as it would be had the scheduler made its first pass. *)
Definition past_first_pass {F} (s : @sys F) : sys := mksys (set_kg (set_first_time 0 (kg (sk s))) (sk s)) (sef s).

Lemma sview_past {F} (s : @sys F) c k :
  sview s c = Some k -> sview (past_first_pass s) c = Some (set_kg (set_first_time 0 (kg k)) k).
Proof.
  unfold sview, past_first_pass. simpl. unfold kh. simpl.
  destruct (cpus (mhw (km (sk s))) !! c); [|done]. destruct (sef s !! c); [|done]. by intros [= <-].
Qed.

Lemma only_runnable t qs p :
  runq t qs -> (forall x, runnable t x <-> x = p) ->
  (exists qs', spec_dequeue qs = Some (p, qs')) /\
  find_first (fun pr => bool_decide (p_state pr = RUNNABLE)) (procs t) = Some p.
Proof.
  intros (_ & _ & Hq & _) Hp. split.
  - destruct (spec_dequeue qs) as [[x qs']|] eqn:E.
    + exists qs'. assert (x = p) as ->; [|done]. apply Hp, Hq. rewrite (spec_dequeue_concat _ _ _ E). left.
    + assert (p ∈ concat qs) as Hin by by apply Hq, Hp. apply spec_dequeue_None in E.
      apply list_elem_of_In, in_concat in Hin as (q & Hin & Hx). apply list_elem_of_In in Hin.
      rewrite Forall_forall in E. rewrite (E q Hin) in Hx. done.
  - apply find_first_Some. destruct (proj2 (Hp p) eq_refl) as (pr & Hpr & Hs). split.
    + exists pr. split; [done|]. by apply bool_decide_eq_true_2.
    + intros j y Hj Hy. apply bool_decide_eq_false_2. intros E. assert (j = p); [|lia]. apply Hp. by exists y.
Qed.

(** A round by queue, in a table whose queues need not be exact. *)
Lemma round_by_queue {F} (k : kst F) c qs p qs' pr :
  at_rest k c None -> first_time (kg k) = 0 -> pq_rep (kp k) qs -> spec_dequeue qs = Some (p, qs') ->
  procs (kp k) !! p = Some pr -> p_kstack pr <> 0 -> p_pgdir pr <> 0 ->
  exists t', scheduler_round c k = Wait OnSched (dispatched c p pr t' k).
Proof.
  intros Hat Hft Hrep Hd Hp Hks Hpg. rewrite (scheduler_round_start k c None Hat), Hft.
  change (negb (0 =? 0)) with false. cbv iota. pose proof (pq_dequeue_run (kp k) qs Hrep) as Hrun. rewrite Hd in Hrun.
  destruct Hrun as (t1 & Ht1 & Hpt & _). exists (set_running p t1).
  mstep (on_kp_run pq_dequeue (inside c ptable_lock (sti_k k)) _ t1 Ht1).
  apply (dispatch_run k c p pr t1 None); [done| |done|done]. by rewrite Hpt.
Qed.

(** After CPU [c] has been switched into [p], whatever the queues are then, CPU
    [c'] finds itself in the scheduler as before. *)
Lemma other_cpu_rest {F} (s : @sys F) c c' k p pr t :
  sys_inv s -> sview s c = Some k -> in_scheduler k c -> first_time (kg k) = 0 -> procs (kp k) !! p = Some pr ->
  (forall x, runnable (kp k) x <-> x = p) -> c <> c' -> in_scheduler k c' ->
  let k2 := resumed c p ResumeForkret (before_dispatch c p k) (dispatched c p pr t k) in
  exists k', sview (scommit s c k2) c' = Some k' /\ at_rest k' c' None /\ kp k' = kp k2 /\ kg k' = kg k2 /\
    cpus (kh k') = cpus (kh k2).
Proof.
  intros Hinv Hv Hin Hft Hp Hone Hne (y & Hy & Hyc) k2.
  destruct (sview_inv s c k Hinv Hv) as (x & qs & Hx & Hn & Hat & Hq & Hlive & _ & _ & _ & Hlen & _).
  assert (Hrn : p_state pr = RUNNABLE) by (destruct (proj2 (Hone p) eq_refl) as (? & ? & ?); congruence).
  destruct (live_lookup _ p pr Hlive Hp) as [Hks Hpg]; [by rewrite Hrn|].
  assert (Hc : cproc x = None) by (destruct Hin as (z & Hz & ?); congruence). rewrite Hc in Hat.
  destruct (only_runnable (kp k) qs p Hq Hone) as [(qs' & Hd) _].
  pose proof (scheduler_round_run k c qs Hat Hq Hft) as Hr2. rewrite Hd in Hr2.
  destruct (Hr2 pr Hp Hks Hpg) as (t' & Hr & Hpt & _). set (kb := before_dispatch c p k) in *.
  pose proof (before_dispatch_rest c p _ k Hat) as Hb. fold kb in Hb.
  set (k2' := resumed c p ResumeForkret kb (dispatched c p pr t' k)).
  assert (Hinv2 : sys_inv (scommit s c k2')).
  { eapply sys_step_inv; [exact Hinv|]. eapply (sys_switch_in _ c p ResumeForkret k); [exact Hv|exact Hin|exact Hr| |done|].
    - exact (myproc_locked kb (dispatched c p pr t' k) c p ptable_lock (at_rest_running _ _ _ Hb) eq_refl).
    - apply (resume_run kb (dispatched c p pr t' k) c _ p (set_p_state RUNNING pr) ResumeForkret Hb eq_refl); [|done].
      change (procs t' !! p = Some (set_p_state RUNNING pr)). by rewrite Hpt, list_lookup_alter_eq, Hp. }
  assert (Hcp : cpus (kh k2) !! c' = Some y).
  { change (cpus (kh k2)) with (alter (touch_cpu (eflags (kh kb))) c (alter (set_cproc (Some p)) c (cpus (kh k)))).
    by rewrite !list_lookup_alter_ne. }
  destruct (lookup_lt_is_Some_2 (<[c := eflags (kh k2)]> (sef s)) c') as [e He].
  { rewrite length_insert, Hlen. by apply lookup_lt_Some in Hy. }
  set (h' := mkhw (cpus (kh k2)) (apicid y) e (locks (kh k2))).
  assert (Hv' : sview (scommit s c k2') c' = Some (set_kh h' k2') /\ sview (scommit s c k2) c' = Some (set_kh h' k2)).
  { unfold sview, scommit; cbn [sk sef]. change (cpus (kh k2')) with (cpus (kh k2)). change (eflags (kh k2')) with (eflags (kh k2)).
    rewrite Hcp. simpl in He |- *. rewrite He. done. }
  destruct (sview_inv _ c' _ Hinv2 (proj1 Hv')) as (y' & _ & Hy' & _ & Hat' & _).
  assert (y' = y) as -> by (change (cpus (kh k2) !! c' = Some y') in Hy'; congruence). rewrite Hyc in Hat'.
  exists (set_kh h' k2). split; [exact (proj2 Hv')|]. split; [exact Hat'|done].
Qed.

Lemma both_run_it {F} (k k' kd : kst F) c c' p pr' t x y :
  c <> c' -> cpus (kh k') = cpus (kh (resumed c p ResumeForkret (before_dispatch c p k) kd)) ->
  cpus (kh k) !! c = Some x -> cpus (kh k) !! c' = Some y ->
  exists x x', cpus (kh (dispatched c' p pr' t k')) !! c = Some x /\ cpus (kh (dispatched c' p pr' t k')) !! c' = Some x' /\
    cproc x = Some p /\ cproc x' = Some p.
Proof.
  intros Hne Hk Hx Hy.
  change (cpus (kh (dispatched c' p pr' t k'))) with
    (alter (push_cpu (Z.lor (eflags (kh k')) FL_IF)) c' (alter (set_cproc (Some p)) c' (cpus (kh k')))). rewrite Hk.
  set (e := eflags (kh (before_dispatch c p k))).
  change (cpus (kh (resumed c p ResumeForkret (before_dispatch c p k) kd))) with
    (alter (touch_cpu e) c (alter (set_cproc (Some p)) c (cpus (kh k)))).
  eexists _, _. split; [by rewrite !(list_lookup_alter_ne _ _ c' c), !list_lookup_alter_eq, Hx by done|].
  split; [by rewrite !list_lookup_alter_eq, !(list_lookup_alter_ne _ _ c c'), Hy by done|].
  destruct (touch_cpu_keeps e (set_cproc (Some p) x)) as (_ & _ & ->). by rewrite push_cpu_cproc.
Qed.

(** C35. A process that runs on two CPUs.  The scheduler's first pass takes a
    process from the table and leaves its entry in the queue.  When the first
    process is runnable before that pass (a CPU is the first in the scheduler
    after [userinit]), the pass runs it on CPU [c], and the next round on another
    CPU [c'] takes the entry from the queue and switches to the same process,
    which is RUNNING on [c], on the same kernel stack. *)
Theorem double_dispatch {F} (s : @sys F) c c' k p :
  sys_inv (past_first_pass s) -> first_time (kg (sk s)) <> 0 -> (forall x, runnable (kp (sk s)) x <-> x = p) ->
  c <> c' -> sview s c = Some k -> in_scheduler k c -> in_scheduler k c' ->
  exists k1 k2 k' k3, scheduler_round c k = Wait OnSched k1 /\ resume p ResumeForkret k1 = Ret tt k2 /\
    sview (scommit s c k2) c' = Some k' /\ is_running (procs (kp k')) p /\ scheduler_round c' k' = Wait OnSched k3 /\
    exists x x', cpus (kh k3) !! c = Some x /\ cpus (kh k3) !! c' = Some x' /\ cproc x = Some p /\ cproc x' = Some p.
Proof.
  intros Hinv Hft Hone Hne Hv Hin Hin'. pose proof (sview_past s c k Hv) as Hvp.
  set (kz := set_kg (set_first_time 0 (kg k)) k) in *.
  destruct (sview_inv _ c kz Hinv Hvp) as (x & qs & Hx & Hn & Hat & Hq & Hlive & _).
  assert (kp k = kp (sk s) /\ kg k = kg (sk s)) as [Ekp Ekg].
  { unfold sview in Hv. destruct (cpus (kh (sk s)) !! c); [|done]. simpl in Hv. destruct (sef s !! c); [|done]. by injection Hv as <-. }
  rewrite <- Ekp in Hone. rewrite <- Ekg in Hft.
  assert (Hc : cproc x = None) by (destruct Hin as (z & Hz & ?); change (cpus (kh kz)) with (cpus (kh k)) in Hx; congruence).
  rewrite Hc in Hat. destruct (only_runnable (kp k) qs p Hq Hone) as [(qs' & Hd) Hf].
  destruct (proj2 (Hone p) eq_refl) as (pr & Hp & Hs). pose proof Hin' as (y & Hy & _).
  destruct (live_lookup _ p pr Hlive Hp) as [Hks Hpg]; [by rewrite Hs|].
  pose proof Hq as (Hrep & _ & _ & Hlen & _). set (t := set_running p (kp k)).
  assert (Ht : procs t !! p = Some (set_p_state RUNNING pr)) by (simpl; by rewrite list_lookup_alter_eq, Hp).
  set (kb := before_dispatch c p kz). pose proof (before_dispatch_rest c p _ kz Hat) as Hb. fold kb in Hb.
  destruct (other_cpu_rest (past_first_pass s) c c' kz p pr t Hinv Hvp Hin eq_refl Hp Hone Hne Hin')
    as (k' & Hv' & Hat' & Ep' & Eg' & Ec').
  assert (Hp' : procs (kp k') !! p = Some (set_p_state RUNNING pr)).
  { rewrite Ep'. unfold resumed. simpl. by rewrite !list_lookup_alter_eq, Hp. }
  destruct (round_by_queue k' c' qs p qs' (set_p_state RUNNING pr)) as (t3 & Hr3);
    [exact Hat'|by rewrite Eg'|by rewrite Ep'|exact Hd|exact Hp'|done|done|].
  eexists _, _, k', _. split; [exact (first_pass_run k c p pr Hat Hft Hlen Hf Hp Hks Hpg)|].
  split; [exact (resume_run kb (dispatched c p pr t kz) c _ p (set_p_state RUNNING pr) ResumeForkret Hb eq_refl Ht I)|].
  split; [exact Hv'|]. split; [by eexists|]. split; [exact Hr3|].
  eapply both_run_it; [exact Hne|exact Ec'|exact Hx|exact Hy].
Qed.

(** ** Witnesses

    Two CPUs and a table in which slot 0 is in state [st], asleep on the
    clock's channel if [st] is SLEEPING. *)
Definition wit_proc (st : procstate) : proc :=
  set_p_state st (set_p_chan ChTicks (set_p_pid 7 (set_p_kstack 0x80400000 (set_p_pgdir 0x80401000 proc0)))).
Definition wit_tab (st : procstate) : ptab := empty_rings (wit_proc st :: replicate 63 proc0).
Definition wit_hw (o : option nat) : hw :=
  mkhw [mkcpu 0 0 0 o; mkcpu 1 0 0 None] 0 FL_IF
    {[ ptable_lock := mklock 0 "ptable" None; tickslock := mklock 0 "time" None ]}.
Definition wit_kst (o : option nat) (t : ptab) (ft : Z) : kst unit :=
  mkkst (mkmach (wit_hw o) ∅ 1 0 0x80100000 0x80108000) t (mkmuxtab [] []) (mkshmtab 0 [])
    (mkglobals 8 (Some 0%nat) 1 ft 0 0 0x803ff000) tt (replicate 2 (mkcpuregs [] 0 0 0 0 0 0)).

Lemma wit_rest o t ft : at_rest (wit_kst o t ft) 0 o.
Proof.
  split; [|split].
  - split; [done|]. eexists. split; [reflexivity|]. simpl. lia.
  - by exists "ptable".
  - by eexists.
Qed.

Lemma wit_table_wf st : table_wf (wit_tab st).
Proof. split; [done|]. constructor; [done|]. apply Forall_replicate. done. Qed.

Lemma wit_lookup st p pr : procs (wit_tab st) !! p = Some pr -> (p = 0%nat /\ pr = wit_proc st) \/ pr = proc0.
Proof.
  destruct p as [|p]; [intros [= <-]; by left|]. intros H. apply (lookup_replicate_1 63) in H as [-> _]. by right.
Qed.

Lemma wit_runq st : st <> RUNNABLE -> runq (wit_tab st) (replicate 20 []).
Proof.
  intros Hst. split; [apply empty_rings_rep|]. split; [apply NoDup_nil_2|]. split; [|apply wit_table_wf].
  intros p. split; [by intros ?%not_elem_of_nil|]. intros (pr & Hp & Hs). exfalso.
  apply wit_lookup in Hp as [[-> ->]| ->]; done.
Qed.

Lemma wit_live st : live (procs (wit_tab st)).
Proof. constructor; [done|]. apply Forall_replicate. done. Qed.

Lemma wit_sys_inv st ft : st <> RUNNABLE -> st <> RUNNING -> ft = 0 \/ can_run st = false ->
  sys_inv (mksys (wit_kst None (wit_tab st) ft) [FL_IF; FL_IF]).
Proof.
  intros Hs1 Hs2 Hf. unfold sys_inv. split; [apply (bool_decide_unpack _); vm_compute; exact I|]. split; [done|].
  split; [by repeat constructor|]. split; [by exists "ptable"|].
  split; [destruct Hf as [Hf|Hf]; [by left|right]; constructor; [exact Hf|by apply Forall_replicate]|].
  split; [exists (replicate 20 []); by apply wit_runq|]. split; [apply wit_live|]. split.
  - intros p. split.
    + intros (pr & Hp & Hs). apply wit_lookup in Hp as [[-> ->]| ->]; done.
    + intros ([|[|c]] & Hc); done.
  - intros [|[|c]] c' p Hc; done.
Qed.

(** The system at boot: the first process is being made, no CPU has been through
    the scheduler yet.  CPU 1 makes the first pass, then CPU 0 makes the process
    runnable. *)
Definition wit_start : @sys unit := mksys (wit_kst None (wit_tab EMBRYO) 1) [FL_IF; FL_IF].
Definition view_of (s : @sys unit) (c : nat) : kst unit := default (sk s) (sview s c).
Definition wit_passed : @sys unit :=
  let k := view_of wit_start 1 in scommit wit_start 1 (touched 1 (sti_k (set_kg (set_first_time 0 (kg k)) k))).

Lemma wit_passed_step : sys_step wit_start wit_passed.
Proof.
  assert (Hinv : sys_inv wit_start) by (apply wit_sys_inv; [done|done|by right]).
  destruct (sview_inv wit_start 1 (view_of wit_start 1) Hinv eq_refl) as (x & qs & Hx & _ & Hat & _).
  eapply (sys_idle _ 1 (view_of wit_start 1)); [reflexivity|eexists; split; reflexivity|]. eapply first_pass_empty; [exact Hat|done|].
  constructor; [done|by apply Forall_replicate].
Qed.

Lemma scheduler_safety_witness :
  exists s : @sys unit, sys_reach wit_start s /\
    runnable (kp (sk s)) 0 /\ exists qs, pq_rep (kp (sk s)) qs /\ (0%nat ∈ concat qs).
Proof.
  assert (Hinv : sys_inv wit_start) by (apply wit_sys_inv; [done|done|by right]).
  pose proof (sys_step_inv _ _ Hinv wit_passed_step) as Hinv1.
  destruct (sview_inv wit_passed 0 (view_of wit_passed 0) Hinv1 eq_refl) as (x & _ & _ & _ & Hat & _).
  destruct (start_proc_run (view_of wit_passed 0) 0 _ (replicate 20 []) 0 (wit_proc EMBRYO) Hat (wit_runq EMBRYO ltac:(done)) eq_refl ltac:(done))
    as (t' & qs' & Hst & Hq & Hp).
  set (s := scommit wit_passed 0 (set_kp t' (touched 0 (view_of wit_passed 0)))).
  assert (Hs : sys_reach wit_start s).
  { eapply sys_next; [eapply sys_next; [apply sys_here|exact wit_passed_step]|].
    eapply (sys_start _ 0 0); [reflexivity| |exact Hst]. split; [reflexivity|]. by eexists. }
  assert (Hrun : runnable (kp (sk s)) 0).
  { exists (set_p_state RUNNABLE (wit_proc EMBRYO)). change (procs (kp (sk s))) with (procs t'). by rewrite Hp. }
  exists s. split; [exact Hs|]. split; [exact Hrun|].
  destruct (scheduler_safety wit_start s Hinv Hs) as (_ & _ & (qs2 & H1 & _ & H3) & _).
  exists qs2. split; [exact H1|]. by apply H3.
Defined.

Lemma sleep_wakeup_witness :
  exists (k1 k2 k3 : kst unit), (lock tickslock;; sleep ChTicks tickslock) (wit_kst (Some 0%nat) (wit_tab RUNNING) 0) = Wait OnSched k1 /\
    scheduler_resume 0 k1 = Ret tt k2 /\ wakeup ChTicks k2 = Ret tt k3 /\ runnable (kp k3) 0.
Proof.
  destruct (sleep_wakeup (wit_kst (Some 0%nat) (wit_tab RUNNING) 0) 0 0 (wit_proc RUNNING) (replicate 20 []) ChTicks tickslock)
    as (k1 & k2 & k3 & qs' & H1 & H2 & H3 & _ & _ & H4 & _).
  - apply wit_rest.
  - by apply wit_runq.
  - reflexivity.
  - reflexivity.
  - done.
  - by exists "time".
  - exists k1, k2, k3. split; [exact H1|]. split; [exact H2|]. split; [exact H3|exact H4].
Defined.

Lemma kill_spec_witness :
  exists k', kill 7 (wit_kst None (wit_tab SLEEPING) 0) = Ret 0 k' /\ runnable (kp k') 0.
Proof.
  destruct (kill_spec (wit_kst None (wit_tab SLEEPING) 0) 0 None (replicate 20 []) 7) as [_ H].
  - apply wit_rest.
  - by apply wit_runq.
  - destruct (H 0%nat (wit_proc SLEEPING)) as (k' & qs' & H1 & H2 & H3 & _ & H4); [reflexivity|reflexivity|intros x q Hx; lia|].
    exists k'. split; [exact H1|]. apply H2, H4. reflexivity.
Defined.

(** A queue that holds slot 0, as [userinit] leaves it. *)
Definition wit_boot : ptab :=
  match pq_enqueue 0 (wit_tab RUNNABLE) with Ret _ t => t | _ => wit_tab RUNNABLE end.

Lemma wit_boot_runq : exists qs, runq wit_boot qs.
Proof.
  destruct (enqueue_runq (wit_tab EMBRYO) (replicate 20 []) 0 (wit_proc EMBRYO)) as (t' & qs' & He & _ & Hq & _);
    [by apply wit_runq|done|done|].
  exists qs'. unfold wit_boot. change (wit_tab RUNNABLE) with (make_runnable 0 (wit_tab EMBRYO)). by rewrite He.
Qed.


Lemma wit_boot_runnable x : runnable wit_boot x <-> x = 0%nat.
Proof.
  assert (procs wit_boot = wit_proc RUNNABLE :: replicate 63 proc0) as Hp by (vm_compute; reflexivity).
  unfold runnable. rewrite Hp. split.
  - intros (pr & Hx & Hs). destruct x as [|x]; [done|]. apply (lookup_replicate_1 63) in Hx as [-> _]. done.
  - intros ->. by eexists.
Qed.

Lemma wit_boot_inv : sys_inv (mksys (wit_kst None wit_boot 0) [FL_IF; FL_IF]).
Proof.
  assert (procs wit_boot = procs (wit_tab RUNNABLE)) as Hp by (vm_compute; reflexivity).
  unfold sys_inv. split; [apply (bool_decide_unpack _); vm_compute; exact I|]. split; [done|].
  split; [by repeat constructor|]. split; [by exists "ptable"|]. split; [by left|].
  split; [exact wit_boot_runq|]. split; [change (live (procs wit_boot)); rewrite Hp; apply wit_live|].
  change (cpu_match (procs wit_boot) [None; None]). rewrite Hp. split.
  - intros p. split.
    + intros (pr & Hpr & Hs). apply wit_lookup in Hpr as [[-> ->]| ->]; done.
    + intros ([|[|c]] & Hc); done.
  - intros [|[|c]] c' p Hc; done.
Qed.

(** Two CPUs enter the scheduler when [userinit] has made the first process. *)
Definition wit_two : @sys unit := mksys (wit_kst None wit_boot 1) [FL_IF; FL_IF].

Lemma double_dispatch_witness :
  exists k3 x x', cpus (kh k3) !! 0%nat = Some x /\ cpus (kh k3) !! 1%nat = Some x' /\ cproc x = Some 0%nat /\ cproc x' = Some 0%nat /\
    exists k', scheduler_round 1 k' = Wait OnSched (k3 : kst unit).
Proof.
  destruct (double_dispatch wit_two 0 1 (view_of wit_two 0) 0) as (k1 & k2 & k' & k3 & _ & _ & _ & _ & H & x & x' & H1 & H2 & H3 & H4).
  - exact wit_boot_inv.
  - done.
  - exact wit_boot_runnable.
  - done.
  - reflexivity.
  - eexists. split; reflexivity.
  - eexists. split; reflexivity.
  - exists k3, x, x'. split; [exact H1|]. split; [exact H2|]. split; [exact H3|]. split; [exact H4|]. exists k'. exact H.
Defined.
