(* ===== verification/Wakeup.v ===== *)
(** * Sleeping and waking, interleaved at every lock operation (proc.c)

    [sleep], what it does when it is resumed, and [wakeup] as lists of actions:
    taking a lock, releasing one, an access to the process table, giving up the
    CPU.  Running such a list on one CPU is the function of proc.c it stands
    for.  Here any number of kernel threads run these lists in any interleaving:
    some wait for a condition that a lock [lk] protects, in a loop around
    [sleep(ch, lk)]; others change it with [lk] held and call [wakeup(ch)].
    Locks exclude each other (Spinlock.v); the scheduler takes a thread that was
    made runnable from the priority queue and switches to it with ptable.lock
    held, and releases that lock when a thread has switched away. *)

From Stdlib Require Import ZArith Lia.
From stdpp Require Import base numbers strings gmap list.
From S2P Require Import Prelude.
From S2P Require Import Machine.
From S2P Require Import Spinlock.
From S2P Require Import KState.
From S2P Require Import PQueue.
From S2P Require Import Proc.
From S2P Require Import ProcInv.
From S2P Require Import Sched.
From S2P Require Import SchedSys.

Local Open Scope string_scope.
Local Open Scope list_scope.
Local Open Scope Z_scope.

(** ** Actions *)

Section actions.
Context {F : Type}.

Inductive act :=
  | ALock (l : Z)
  | AUnlock (l : Z)
  | ADo (m : M (kst F) unit)
  | ASched.

(** The actions of [sleep] for process [p] up to the switch, and after it. *)
Definition sleep_before (p : nat) (ch : chan) (lk : Z) : list act :=
  (if negb (lk =? ptable_lock) then [ALock ptable_lock; AUnlock lk] else []) ++
  [ADo (updp p (set_p_chan ch)); ADo (updp p (set_p_state SLEEPING)); ASched].

Definition sleep_after (p : nat) (lk : Z) : list act :=
  ADo (updp p (set_p_chan ChNull)) ::
  (if negb (lk =? ptable_lock) then [AUnlock ptable_lock; ALock lk] else []).

Definition wakeup_acts (ch : chan) : list act :=
  [ALock ptable_lock; ADo (wakeup1 ch); AUnlock ptable_lock].

(** An action, and a list of them, as code on one CPU. *)
Definition act_code (a : act) : M (kst F) unit :=
  match a with ALock l => lock l | AUnlock l => unlock l | ADo m => m | ASched => sched end.

Fixpoint acts_code (l : list act) : M (kst F) unit :=
  match l with
  | [] => mret tt
  | [a] => act_code a
  | a :: l => act_code a;; acts_code l
  end.

Lemma sleep_is_acts ch lk k :
  sleep ch lk k =
    (op ← myproc;
     match op with
     | None => panic "sleep"
     | Some p => unless_panic (lk =? 0) "sleep without lk";; acts_code (sleep_before p ch lk)
     end) k.
Proof.
  unfold sleep. rewrite !bind_run. destruct (myproc k) as [[p|] k1| | |]; [|done..].
  rewrite !bind_run. destruct (unless_panic (lk =? 0) _ k1) as [[] k2| | |]; [|done..].
  unfold sleep_before. destruct (negb (lk =? ptable_lock)); simpl; [by rewrite bind_assoc_run|by rewrite bind_mret].
Qed.

Lemma sleep_resume_is_acts p lk i k :
  sleep_resume p lk i k = (sched_resume i;; acts_code (sleep_after p lk)) k.
Proof.
  unfold sleep_resume, sleep_after. rewrite !bind_run. destruct (sched_resume i k) as [[] k1| | |]; [|done..].
  destruct (negb (lk =? ptable_lock)); simpl; [done|]. rewrite bind_run.
  by destruct (updp p (set_p_chan ChNull) k1) as [[] k2| | |].
Qed.

Lemma wakeup_is_acts ch k : wakeup ch k = acts_code (wakeup_acts ch) k.
Proof. done. Qed.

End actions.

(** ** Threads *)

Section waiting.
Context {F : Type} (lk : Z) (ch : chan) (cond : kst F -> bool) (fire take : M (kst F) unit).

(** An instruction of a thread: an action, the test of the loop, or the point
    at which the thread is off the CPU. *)
Inductive inst := IAct (a : @act F) | ITest | IOff.

(** [acquire(lk); while (!cond) sleep(ch, lk); take; release(lk)], run by a
    process, and [acquire(lk); fire; wakeup(ch); release(lk)]. *)
Definition sleeper_prog : list inst := [IAct (ALock lk); ITest; IAct (ADo take); IAct (AUnlock lk)].
Definition waker_prog : list inst := IAct <$> [ALock lk; ADo fire] ++ wakeup_acts ch ++ [AUnlock lk].
Definition sleep_prog (p : nat) : list inst := IAct <$> sleep_before p ch lk ++ sleep_after p lk.

(** A thread: the process that waits ([None]: a thread that wakes) and the code
    it has still to run. *)
Record thread := mkth { role : option nat; todo : list inst }.
Definition prog (r : option nat) : list inst := match r with Some _ => sleeper_prog | None => waker_prog end.

(** The kernel's state, the thread that holds each lock, and the threads. *)
Record wsys := mkwsys { wk : kst F; own : gmap Z nat; th : list thread }.

(** What the scheduler does to the table when it switches to [p]. *)
Definition picked (p : nat) (k k' : kst F) : Prop :=
  exists k1, on_kp pq_dequeue k = Ret (DqProc (Some p)) k1 /\ updp p (set_p_state RUNNING) k1 = Ret tt k'.

Inductive wstep (w : wsys) : wsys -> Prop :=
  | w_lock t r l rest : th w !! t = Some (mkth r (IAct (ALock l) :: rest)) -> own w !! l = None ->
      wstep w (mkwsys (wk w) (<[l := t]> (own w)) (<[t := mkth r rest]> (th w)))
  | w_unlock t r l rest : th w !! t = Some (mkth r (IAct (AUnlock l) :: rest)) -> own w !! l = Some t ->
      wstep w (mkwsys (wk w) (delete l (own w)) (<[t := mkth r rest]> (th w)))
  | w_do t r m rest k' : th w !! t = Some (mkth r (IAct (ADo m) :: rest)) -> m (wk w) = Ret tt k' ->
      wstep w (mkwsys k' (own w) (<[t := mkth r rest]> (th w)))
  | w_true t r rest : th w !! t = Some (mkth r (ITest :: rest)) -> cond (wk w) = true ->
      wstep w (mkwsys (wk w) (own w) (<[t := mkth r rest]> (th w)))
  | w_false t p rest : th w !! t = Some (mkth (Some p) (ITest :: rest)) -> cond (wk w) = false ->
      wstep w (mkwsys (wk w) (own w) (<[t := mkth (Some p) (sleep_prog p ++ ITest :: rest)]> (th w)))
  | w_off t r rest : th w !! t = Some (mkth r (IAct ASched :: rest)) -> own w !! ptable_lock = Some t ->
      wstep w (mkwsys (wk w) (delete ptable_lock (own w)) (<[t := mkth r (IOff :: rest)]> (th w)))
  | w_on t p rest k' : th w !! t = Some (mkth (Some p) (IOff :: rest)) -> own w !! ptable_lock = None ->
      picked p (wk w) k' ->
      wstep w (mkwsys k' (<[ptable_lock := t]> (own w)) (<[t := mkth (Some p) rest]> (th w)))
  | w_again t r : th w !! t = Some (mkth r []) ->
      wstep w (mkwsys (wk w) (own w) (<[t := mkth r (prog r)]> (th w))).

Inductive wreach (w0 : wsys) : wsys -> Prop :=
  | w_here : wreach w0 w0
  | w_next w w' : wreach w0 w -> wstep w w' -> wreach w0 w'.

(** No lock is held, every thread is at its start; the processes that wait are
    RUNNING, one thread each, and the queues are exact. *)
Definition winit (w : wsys) : Prop :=
  own w = ∅ /\ Forall (fun x => todo x = prog (role x)) (th w) /\ (exists qs, runq (kp (wk w)) qs) /\
  (forall t t' x x' p, th w !! t = Some x -> th w !! t' = Some x' -> role x = Some p -> role x' = Some p -> t = t') /\
  (forall t x p, th w !! t = Some x -> role x = Some p ->
     exists pr, procs (kp (wk w)) !! p = Some pr /\ p_state pr = RUNNING).

(** ** Control points *)

Inductive spc := SStart | STest | STake | SExit | SDone
  | SLockPt | SUnlockLk | SChan | SState | SSched | SOff | SClear | SUnlockPt | SLockLk.
Inductive wpc := WStart | WFire | WLockPt | WWake | WUnlockPt | WExit | WDone.
Inductive tpc := TS (p : nat) (x : spc) | TW (x : wpc).

Definition spc_index (x : spc) : nat :=
  match x with
  | SStart => 0 | STest => 1 | STake => 2 | SExit => 3 | SDone => 4
  | SLockPt => 0 | SUnlockLk => 1 | SChan => 2 | SState => 3 | SSched => 4
  | SOff => 5 | SClear => 5 | SUnlockPt => 6 | SLockLk => 7
  end.

Definition sleep_code (p : nat) : list inst :=
  IAct <$> [ALock ptable_lock; AUnlock lk; ADo (updp p (set_p_chan ch)); ADo (updp p (set_p_state SLEEPING)); ASched;
            ADo (updp p (set_p_chan ChNull)); AUnlock ptable_lock; ALock lk].

Definition thread_of (x : tpc) : thread :=
  match x with
  | TS p x =>
      mkth (Some p)
        match x with
        | SStart | STest | STake | SExit | SDone => drop (spc_index x) sleeper_prog
        | SOff => IOff :: drop (spc_index x) (sleep_code p) ++ drop 1 sleeper_prog
        | _ => drop (spc_index x) (sleep_code p) ++ drop 1 sleeper_prog
        end
  | TW x =>
      mkth None (drop (match x with WStart => 0 | WFire => 1 | WLockPt => 2 | WWake => 3 | WUnlockPt => 4
                       | WExit => 5 | WDone => 6 end)%nat waker_prog)
  end.

Definition has_lk (x : tpc) : bool :=
  match x with
  | TS _ (STest | STake | SExit | SLockPt | SUnlockLk) => true
  | TW (WFire | WLockPt | WWake | WUnlockPt | WExit) => true
  | _ => false
  end.
Definition has_pt (x : tpc) : bool :=
  match x with
  | TS _ (SUnlockLk | SChan | SState | SSched | SClear | SUnlockPt) => true
  | TW (WWake | WUnlockPt) => true
  | _ => false
  end.
Definition has (l : Z) (x : tpc) : bool :=
  if l =? lk then has_lk x else if l =? ptable_lock then has_pt x else false.

(** A thread that has changed the condition and not called [wakeup1] yet. *)
Definition pending (ts : list tpc) : Prop :=
  exists u : nat, ts !! u = Some (TW WLockPt) \/ ts !! u = Some (TW WWake).

Definition pstate_ok (x : spc) (pr : proc) : Prop :=
  match x with
  | SSched => p_state pr = SLEEPING /\ p_chan pr = ch
  | SOff => (p_state pr = SLEEPING /\ p_chan pr = ch) \/ p_state pr = RUNNABLE
  | SState => p_state pr = RUNNING /\ p_chan pr = ch
  | _ => p_state pr = RUNNING
  end.

(** What the thread knows of the condition. *)
Definition cond_ok (c : bool) (pend : Prop) (x : spc) (st : procstate) : Prop :=
  match x with
  | STake => c = true
  | SLockPt | SUnlockLk => c = false
  | SChan | SState | SSched => c = false \/ pend
  | SOff => st = SLEEPING -> c = false \/ pend
  | _ => True
  end.

Definition waiter_ok (k : kst F) (ts : list tpc) (p : nat) (x : spc) : Prop :=
  exists pr, procs (kp k) !! p = Some pr /\ pstate_ok x pr /\ cond_ok (cond k) (pending ts) x (p_state pr).

Definition own_ok (o : gmap Z nat) (ts : list tpc) : Prop :=
  forall l t x, ts !! t = Some x -> (o !! l = Some t <-> has l x = true).

Definition one_each (ts : list tpc) : Prop :=
  forall t t' p x x', ts !! t = Some (TS p x) -> ts !! t' = Some (TS p x') -> t = t'.

Definition winv (w : wsys) (ts : list tpc) : Prop :=
  th w = thread_of <$> ts /\ own_ok (own w) ts /\ one_each ts /\ (exists qs, runq (kp (wk w)) qs) /\
  (forall t p x, ts !! t = Some (TS p x) -> waiter_ok (wk w) ts p x).

(** ** Preservation *)

Context (Hlk : lk <> ptable_lock).
Context (cond_kp : forall t k, cond (set_kp t k) = cond k).
Context (fire_kp : forall k k', fire k = Ret tt k' -> kp k' = kp k).
Context (take_kp : forall k k', take k = Ret tt k' -> kp k' = kp k).

Lemma sleep_prog_code p : sleep_prog p = sleep_code p.
Proof. unfold sleep_prog, sleep_before, sleep_after. by destruct (Z.eqb_spec lk ptable_lock). Qed.

Lemma has_lk_pt x : has lk x = has_lk x /\ has ptable_lock x = has_pt x.
Proof. unfold has. rewrite Z.eqb_refl. destruct (Z.eqb_spec ptable_lock lk); [congruence|]. by rewrite Z.eqb_refl. Qed.

Lemma own_excl o ts l t u x y :
  own_ok o ts -> ts !! t = Some x -> ts !! u = Some y -> has l x = true -> has l y = true -> t = u.
Proof. intros Ho Hx Hy H1 H2. apply (Ho l t x Hx) in H1. apply (Ho l u y Hy) in H2. congruence. Qed.

(** The locks follow the control points. *)
Lemma own_step o o' ts t x x' :
  own_ok o ts -> ts !! t = Some x ->
  (forall l, o' !! l = Some t <-> has l x' = true) ->
  (forall l u, u <> t -> o' !! l = Some u <-> o !! l = Some u) ->
  own_ok o' (<[t := x']> ts).
Proof.
  intros Ho Hx H1 H2 l u y Hy. apply insert_lookup_cases in Hy as [(-> & -> & _)|[Hne Hy]]; [done|].
  rewrite H2 by done. by apply Ho.
Qed.

Lemma own_keep o ts t x x' :
  own_ok o ts -> ts !! t = Some x -> (forall l, has l x' = has l x) -> own_ok o (<[t := x']> ts).
Proof. intros Ho Hx H. eapply own_step; [done..| |done]. intros l. rewrite H. by apply Ho. Qed.

Lemma own_take o ts t x x' l :
  own_ok o ts -> ts !! t = Some x -> o !! l = None -> has l x' = true ->
  (forall l', l' <> l -> has l' x' = has l' x) -> own_ok (<[l := t]> o) (<[t := x']> ts).
Proof.
  intros Ho Hx Hl H1 H2. eapply own_step; [done..| |].
  - intros l'. destruct (decide (l' = l)) as [->|Hne]; [by rewrite lookup_insert_eq|].
    rewrite lookup_insert_ne by done. rewrite H2 by done. by apply Ho.
  - intros l' u Hu. destruct (decide (l' = l)) as [->|Hne]; [|by rewrite lookup_insert_ne].
    rewrite lookup_insert_eq, Hl. split; congruence.
Qed.

Lemma own_drop o ts t x x' l :
  own_ok o ts -> ts !! t = Some x -> o !! l = Some t -> has l x' = false ->
  (forall l', l' <> l -> has l' x' = has l' x) -> own_ok (delete l o) (<[t := x']> ts).
Proof.
  intros Ho Hx Hl H1 H2. eapply own_step; [done..| |].
  - intros l'. destruct (decide (l' = l)) as [->|Hne]; [rewrite lookup_delete_eq, H1; done|].
    rewrite lookup_delete_ne by done. rewrite H2 by done. by apply Ho.
  - intros l' u Hu. destruct (decide (l' = l)) as [->|Hne]; [|by rewrite lookup_delete_ne].
    rewrite lookup_delete_eq, Hl. split; congruence.
Qed.

Definition waits (x : tpc) : option nat := match x with TS p _ => Some p | TW _ => None end.

Lemma one_each_insert ts t x x' : one_each ts -> ts !! t = Some x -> waits x' = waits x -> one_each (<[t := x']> ts).
Proof.
  intros H Hx Hw. assert (Hback : forall u p y, <[t := x']> ts !! u = Some (TS p y) -> exists y', ts !! u = Some (TS p y')).
  { intros u p y Hy. apply insert_lookup_cases in Hy as [(-> & E & _)|[_ Hy]]; [|by eexists].
    subst x'. destruct x as [q z|z]; simpl in Hw; [|done]. injection Hw as ->. by eexists. }
  intros u u' p y y' Hy Hy'. destruct (Hback _ _ _ Hy). destruct (Hback _ _ _ Hy'). by eapply H.
Qed.

(** A step of thread [t] from [x] to [x']: what has to be shown of the state it
    leaves. *)
Lemma winv_step w ts t x x' k' o' v :
  winv w ts -> ts !! t = Some x -> waits x' = waits x -> thread_of x' = v ->
  own_ok o' (<[t := x']> ts) -> (exists qs, runq (kp k') qs) ->
  (forall p y, x' = TS p y -> waiter_ok k' (<[t := x']> ts) p y) ->
  (forall u p y, u <> t -> ts !! u = Some (TS p y) -> waiter_ok (wk w) ts p y -> waiter_ok k' (<[t := x']> ts) p y) ->
  winv (mkwsys k' o' (<[t := v]> (th w))) (<[t := x']> ts).
Proof.
  intros (Hth & Ho & H1 & Hq & Hw) Hx Hr Hc Ho' Hq' Hnew Hold. split; [|split; [done|split; [|split; [done|]]]].
  - simpl. by rewrite Hth, <- Hc, list_fmap_insert.
  - by eapply one_each_insert.
  - intros u p y Hy. apply insert_lookup_cases in Hy as [(-> & E & _)|[Hne Hy]]; [by apply Hnew|]. eauto.
Qed.

Lemma cond_ok_mono c (P Q : Prop) x st : (P -> Q) -> cond_ok c P x st -> cond_ok c Q x st.
Proof. intros H. destruct x; simpl; tauto. Qed.

Lemma pending_keep ts t x x' :
  ts !! t = Some x -> x <> TW WLockPt -> x <> TW WWake -> pending ts -> pending (<[t := x']> ts).
Proof.
  intros Hx H1 H2 (u & Hu). exists u. assert (u <> t) by (intros ->; destruct Hu; congruence).
  by rewrite list_lookup_insert_ne by done.
Qed.

Lemma pending_here ts t x x' : ts !! t = Some x -> x' = TW WLockPt \/ x' = TW WWake -> pending (<[t := x']> ts).
Proof.
  intros Hx H. exists t. rewrite list_lookup_insert_eq by by eapply lookup_lt_Some. destruct H as [-> | ->]; auto.
Qed.

Lemma waiter_pend k ts ts' p y : (pending ts -> pending ts') -> waiter_ok k ts p y -> waiter_ok k ts' p y.
Proof. intros H (pr & Hp & Hs & Hc). exists pr. split; [done|]. split; [done|]. by eapply cond_ok_mono. Qed.

(** A step that leaves the kernel's state alone. *)
Lemma winv_quiet w ts t x x' o' v :
  winv w ts -> ts !! t = Some x -> waits x' = waits x -> thread_of x' = v ->
  own_ok o' (<[t := x']> ts) -> (pending ts -> pending (<[t := x']> ts)) ->
  (forall p y y' pr, x = TS p y -> x' = TS p y' -> procs (kp (wk w)) !! p = Some pr ->
     pstate_ok y pr -> cond_ok (cond (wk w)) (pending ts) y (p_state pr) ->
     pstate_ok y' pr /\ cond_ok (cond (wk w)) (pending ts) y' (p_state pr)) ->
  winv (mkwsys (wk w) o' (<[t := v]> (th w))) (<[t := x']> ts).
Proof.
  intros Hinv Hx Hr Hc Ho Hp Hn. pose proof Hinv as (_ & _ & _ & Hq & Hw). eapply winv_step; [done..| |].
  - intros p y' ->. destruct x as [q y|]; simpl in Hr; [|done]. injection Hr as ->.
    apply (waiter_pend _ ts); [done|]. destruct (Hw t q y Hx) as (pr & Hpr & H1 & H2).
    exists pr. split; [done|]. by eapply Hn.
  - intros u p y _ _. by apply waiter_pend.
Qed.

(** A step of a waiting thread that changes its own process. *)
Lemma winv_own w ts t p y y' f qs k' o' v :
  winv w ts -> ts !! t = Some (TS p y) -> thread_of (TS p y') = v ->
  own_ok o' (<[t := TS p y']> ts) -> procs (kp k') = alter f p (procs (kp (wk w))) ->
  cond k' = cond (wk w) -> runq (kp k') qs ->
  (forall pr, pstate_ok y pr -> cond_ok (cond (wk w)) (pending ts) y (p_state pr) ->
     pstate_ok y' (f pr) /\ cond_ok (cond (wk w)) (pending ts) y' (p_state (f pr))) ->
  winv (mkwsys k' o' (<[t := v]> (th w))) (<[t := TS p y']> ts).
Proof.
  intros Hinv Hx Hc Ho Hk' Hck Hq Hn. pose proof Hinv as (_ & _ & H1 & _ & Hw).
  assert (Hp : pending ts -> pending (<[t := TS p y']> ts)) by by eapply pending_keep.
  eapply winv_step; [done..|by eexists| |].
  - intros q z [= <- <-]. destruct (Hw t p y Hx) as (pr & Hpr & H2 & H3). exists (f pr).
    rewrite Hk', list_lookup_alter_eq, Hpr, Hck. split; [done|]. destruct (Hn pr H2 H3) as [H4 H5].
    split; [done|]. by eapply cond_ok_mono.
  - intros u q z Hu Hz (pr & Hpr & H2 & H3). exists pr. rewrite Hk', list_lookup_alter_ne, Hck.
    + split; [done|]. split; [done|]. by eapply cond_ok_mono.
    + intros <-. by apply Hu, (H1 u t p z y).
Qed.

Lemma at_pc w ts t x : winv w ts -> th w !! t = Some x -> exists y, ts !! t = Some y /\ thread_of y = x.
Proof. intros (Hth & _) Hx. rewrite Hth, list_lookup_fmap in Hx. destruct (ts !! t) as [y|]; [|done]. exists y. by injection Hx. Qed.

(** The control points whose next instruction is the one of [E]. *)
Ltac points y E :=
  destruct y as [? []|[]]; cbn -[ptable_lock wakeup1 updp] in E; try discriminate E; inversion E; subst; clear E.
Ltac has_same := intros; unfold has; repeat case_match; subst; done || lia.
Ltac still_pending := first [by eapply pending_keep | intros _; eapply pending_here; [eassumption|auto]].
(** [quiet x' own_lemma]: a step to [x'] that leaves the kernel's state alone. *)
Ltac quiet t ts x' own :=
  exists (<[t := x']> ts);
  eapply winv_quiet; [eassumption|eassumption|reflexivity|reflexivity|
    eapply own; [eassumption|eassumption|try eassumption; try has_same..] | still_pending | intros; simplify_eq; simpl in *; tauto].

Lemma step_lock w ts t r l rest :
  winv w ts -> th w !! t = Some (mkth r (IAct (ALock l) :: rest)) -> own w !! l = None ->
  exists ts', winv (mkwsys (wk w) (<[l := t]> (own w)) (<[t := mkth r rest]> (th w))) ts'.
Proof.
  intros Hinv Ht Hl. destruct (at_pc w ts t _ Hinv Ht) as (y & Hy & E). pose proof Hinv as (_ & Ho & _).
  points y E; match goal with
    | H : ts !! t = Some (TS ?p SStart) |- _ => quiet t ts (TS p STest) own_take
    | H : ts !! t = Some (TS ?p SLockPt) |- _ => quiet t ts (TS p SUnlockLk) own_take
    | H : ts !! t = Some (TS ?p SLockLk) |- _ => quiet t ts (TS p STest) own_take
    | H : ts !! t = Some (TW WStart) |- _ => quiet t ts (TW WFire) own_take
    | H : ts !! t = Some (TW WLockPt) |- _ => quiet t ts (TW WWake) own_take
    end.
Qed.

Lemma step_unlock w ts t r l rest :
  winv w ts -> th w !! t = Some (mkth r (IAct (AUnlock l) :: rest)) -> own w !! l = Some t ->
  exists ts', winv (mkwsys (wk w) (delete l (own w)) (<[t := mkth r rest]> (th w))) ts'.
Proof.
  intros Hinv Ht Hl. destruct (at_pc w ts t _ Hinv Ht) as (y & Hy & E). pose proof Hinv as (_ & Ho & _).
  points y E; match goal with
    | H : ts !! t = Some (TS ?p SExit) |- _ => quiet t ts (TS p SDone) own_drop
    | H : ts !! t = Some (TS ?p SUnlockLk) |- _ => quiet t ts (TS p SChan) own_drop
    | H : ts !! t = Some (TS ?p SUnlockPt) |- _ => quiet t ts (TS p SLockLk) own_drop
    | H : ts !! t = Some (TW WUnlockPt) |- _ => quiet t ts (TW WExit) own_drop
    | H : ts !! t = Some (TW WExit) |- _ => quiet t ts (TW WDone) own_drop
    end.
Qed.

Lemma step_test w ts t r rest :
  winv w ts -> th w !! t = Some (mkth r (ITest :: rest)) -> cond (wk w) = true ->
  exists ts', winv (mkwsys (wk w) (own w) (<[t := mkth r rest]> (th w))) ts'.
Proof.
  intros Hinv Ht Hc. destruct (at_pc w ts t _ Hinv Ht) as (y & Hy & E). pose proof Hinv as (_ & Ho & _).
  points y E. quiet t ts (TS p STake) own_keep.
Qed.

Lemma step_loop w ts t p rest :
  winv w ts -> th w !! t = Some (mkth (Some p) (ITest :: rest)) -> cond (wk w) = false ->
  exists ts', winv (mkwsys (wk w) (own w) (<[t := mkth (Some p) (sleep_prog p ++ ITest :: rest)]> (th w))) ts'.
Proof.
  intros Hinv Ht Hc. destruct (at_pc w ts t _ Hinv Ht) as (y & Hy & E). pose proof Hinv as (_ & Ho & _).
  rewrite sleep_prog_code. points y E. quiet t ts (TS p SLockPt) own_keep.
Qed.

Lemma step_off w ts t r rest :
  winv w ts -> th w !! t = Some (mkth r (IAct ASched :: rest)) -> own w !! ptable_lock = Some t ->
  exists ts', winv (mkwsys (wk w) (delete ptable_lock (own w)) (<[t := mkth r (IOff :: rest)]> (th w))) ts'.
Proof.
  intros Hinv Ht Hc. destruct (at_pc w ts t _ Hinv Ht) as (y & Hy & E). pose proof Hinv as (_ & Ho & _).
  points y E. quiet t ts (TS p SOff) own_drop.
Qed.

Lemma step_again w ts t r :
  winv w ts -> th w !! t = Some (mkth r []) ->
  exists ts', winv (mkwsys (wk w) (own w) (<[t := mkth r (prog r)]> (th w))) ts'.
Proof.
  intros Hinv Ht. destruct (at_pc w ts t _ Hinv Ht) as (y & Hy & E). pose proof Hinv as (_ & Ho & _).
  points y E; match goal with
    | H : ts !! t = Some (TS ?p SDone) |- _ => quiet t ts (TS p SStart) own_keep
    | H : ts !! t = Some (TW WDone) |- _ => quiet t ts (TW WStart) own_keep
    end.
Qed.

(** With [lk] in the hands of another thread, all that a waiting thread can know
    is that the condition is false or that a wakeup is pending. *)
Lemma other_waiter w ts t u x p y st (c : bool) (P : Prop) :
  winv w ts -> ts !! t = Some x -> has_lk x = true -> u <> t -> ts !! u = Some (TS p y) ->
  (cond (wk w) = false \/ pending ts -> c = false \/ P) ->
  cond_ok (cond (wk w)) (pending ts) y st -> cond_ok c P y st.
Proof.
  intros (_ & Ho & _) Hx Hl Hu Hy HP. assert (Hno : has_lk (TS p y) = true -> False).
  { intros H. apply Hu. apply (own_excl (own w) ts lk u t (TS p y) x Ho Hy Hx); by rewrite (proj1 (has_lk_pt _)). }
  destruct y; simpl in *; try tauto; by destruct Hno.
Qed.

(** A step of the thread that holds [lk] which leaves the table alone. *)
Lemma winv_data w ts t x x' k' :
  winv w ts -> ts !! t = Some x -> has_lk x = true -> waits x' = waits x -> (forall l, has l x' = has l x) ->
  kp k' = kp (wk w) -> (cond (wk w) = false \/ pending ts -> cond k' = false \/ pending (<[t := x']> ts)) ->
  (forall p y, x' = TS p y -> waiter_ok k' (<[t := x']> ts) p y) ->
  winv (mkwsys k' (own w) (<[t := thread_of x']> (th w))) (<[t := x']> ts).
Proof.
  intros Hinv Hx Hl Hr Hh Ek Hc Hn. pose proof Hinv as (_ & Ho & _ & (qs & Hq) & _).
  eapply winv_step; [done|done|done|reflexivity| |exists qs; by rewrite Ek|done|].
  - by eapply own_keep.
  - intros u q z Hu Hz (pr & Hpr & Hs & Hc'). exists pr. rewrite Ek. split; [done|]. split; [done|].
    by eapply (other_waiter w ts t u x).
Qed.

Lemma step_take w ts t p k' :
  winv w ts -> ts !! t = Some (TS p STake) -> take (wk w) = Ret tt k' ->
  winv (mkwsys k' (own w) (<[t := thread_of (TS p SExit)]> (th w))) (<[t := TS p SExit]> ts).
Proof.
  intros Hinv Hy Hk. pose proof Hinv as (_ & Ho & _ & _ & Hw). pose proof (take_kp _ _ Hk) as Ek.
  destruct (Hw t p STake Hy) as (pr & Hpr & Hs & Hc). simpl in Hs, Hc.
  eapply winv_data; [done|done|done|done|has_same|done| |].
  - intros [?|(u & Hu)]; [congruence|]. exfalso. assert (u = t) as ->; [|destruct Hu; congruence].
    destruct Hu as [Hu|Hu]; apply (own_excl (own w) ts lk u t _ _ Ho Hu Hy); by rewrite (proj1 (has_lk_pt _)).
  - intros q z [= <- <-]. exists pr. by rewrite Ek.
Qed.

Lemma step_fire w ts t k' :
  winv w ts -> ts !! t = Some (TW WFire) -> fire (wk w) = Ret tt k' ->
  winv (mkwsys k' (own w) (<[t := thread_of (TW WLockPt)]> (th w))) (<[t := TW WLockPt]> ts).
Proof.
  intros Hinv Hy Hk. eapply winv_data; [done|done|done|done|has_same|by apply fire_kp| |done].
  intros _. right. eapply pending_here; [done|by left].
Qed.

(** [wakeup1] leaves no process asleep that waits here. *)
Lemma step_wake w ts t k' :
  winv w ts -> ts !! t = Some (TW WWake) -> wakeup1 ch (wk w) = Ret tt k' ->
  winv (mkwsys k' (own w) (<[t := thread_of (TW WUnlockPt)]> (th w))) (<[t := TW WUnlockPt]> ts).
Proof.
  intros Hinv Hy Hk. pose proof Hinv as (_ & Ho & _ & (qs & Hq) & _).
  destruct (wakeup1_run (wk w) qs ch Hq) as (t' & qs' & Hw & Hq' & Hp). rewrite Hk in Hw. injection Hw as ->.
  eapply winv_step; [done|done|done|reflexivity| |by exists qs'|done|].
  - eapply own_keep; [done..|has_same].
  - intros u q z Hu Hz (pr & Hpr & Hs & Hc). exists (woken ch pr).
    simpl. rewrite Hp, list_lookup_fmap, Hpr, cond_kp. split; [done|].
    assert (Hno : has_lk (TS q z) = true \/ has_pt (TS q z) = true -> False).
    { intros [H|H]; apply Hu;
        [apply (own_excl (own w) ts lk u t _ _ Ho Hz Hy)|apply (own_excl (own w) ts ptable_lock u t _ _ Ho Hz Hy)];
        by rewrite ?(proj1 (has_lk_pt _)), ?(proj2 (has_lk_pt _)). }
    unfold woken, wakes. destruct z; simpl in *; try (by destruct Hno; auto); try (rewrite Hs; simpl; done).
    destruct Hs as [[Hs1 Hs2]|Hs1].
    + rewrite !bool_decide_eq_true_2 by done. simpl. split; [by right|done].
    + rewrite (bool_decide_eq_false_2 (p_state pr = SLEEPING)) by congruence. simpl. split; [by right|congruence].
Qed.

Lemma runq_own t qs p f pr :
  runq t qs -> procs t !! p = Some pr -> (p_state (f pr) = RUNNABLE <-> p_state pr = RUNNABLE) -> p_priority (f pr) = p_priority pr ->
  runq (set_procs (alter f p (procs t)) t) qs.
Proof. intros Hq Hp Hs Hr. apply runq_alter; [done| |]; intros q Hq'; rewrite Hp in Hq'; injection Hq' as <-; [done|by rewrite Hr]. Qed.

(** The thread writes a field of its own process. *)
Lemma step_own w ts t p y y' f k' :
  winv w ts -> ts !! t = Some (TS p y) -> updp p f (wk w) = Ret tt k' -> (forall l, has l (TS p y') = has l (TS p y)) ->
  (forall pr, pstate_ok y pr -> (p_state (f pr) = RUNNABLE <-> p_state pr = RUNNABLE) /\ p_priority (f pr) = p_priority pr) ->
  (forall pr, pstate_ok y pr -> cond_ok (cond (wk w)) (pending ts) y (p_state pr) ->
     pstate_ok y' (f pr) /\ cond_ok (cond (wk w)) (pending ts) y' (p_state (f pr))) ->
  winv (mkwsys k' (own w) (<[t := thread_of (TS p y')]> (th w))) (<[t := TS p y']> ts).
Proof.
  intros Hinv Hy Hk Hh Hf Hn. pose proof Hinv as (_ & Ho & _ & (qs & Hq) & Hw).
  destruct (Hw t p y Hy) as (pr & Hpr & Hs & _). rewrite (updp_run p pr f _ Hpr) in Hk. injection Hk as <-.
  eapply (winv_own w ts t p y y' f qs); [done|done|reflexivity|by eapply own_keep|done|apply cond_kp| |done].
  destruct (Hf pr Hs). by eapply runq_own.
Qed.

Lemma step_do w ts t r m rest k' :
  winv w ts -> th w !! t = Some (mkth r (IAct (ADo m) :: rest)) -> m (wk w) = Ret tt k' ->
  exists ts', winv (mkwsys k' (own w) (<[t := mkth r rest]> (th w))) ts'.
Proof.
  intros Hinv Ht Hk. destruct (at_pc w ts t _ Hinv Ht) as (y & Hy & E). points y E.
  - eexists. by eapply step_take.
  - exists (<[t := TS p SState]> ts). eapply (step_own w ts t p SChan SState); [done..|has_same|done|].
    simpl. by intros pr ->.
  - exists (<[t := TS p SSched]> ts). eapply (step_own w ts t p SState SSched); [done..|has_same| |].
    + simpl. intros pr [-> _]. done.
    + simpl. by intros pr [_ ->].
  - exists (<[t := TS p SUnlockPt]> ts). eapply (step_own w ts t p SClear SUnlockPt); [done..|has_same|done|done].
  - eexists. by eapply step_fire.
  - eexists. by eapply step_wake.
Qed.

Lemma step_on w ts t p rest k' :
  winv w ts -> th w !! t = Some (mkth (Some p) (IOff :: rest)) -> own w !! ptable_lock = None -> picked p (wk w) k' ->
  exists ts', winv (mkwsys k' (<[ptable_lock := t]> (own w)) (<[t := mkth (Some p) rest]> (th w))) ts'.
Proof.
  intros Hinv Ht Hl (k1 & H1 & H2). destruct (at_pc w ts t _ Hinv Ht) as (y & Hy & E).
  pose proof Hinv as (_ & Ho & _ & (qs & Hq) & Hw). points y E.
  pose proof (pq_dequeue_run (kp (wk w)) qs (proj1 Hq)) as Hd. destruct (spec_dequeue qs) as [[q qs']|] eqn:Es.
  2:{ rewrite (on_kp_run _ (wk w) _ _ Hd) in H1. done. }
  destruct (dequeue_runq (kp (wk w)) qs q qs' Hq Es) as (t' & pr & Ht' & Hpt & Hp & _ & Hq').
  rewrite (on_kp_run _ (wk w) _ _ Ht') in H1. injection H1 as -> <-.
  assert (Hp1 : procs (kp (set_kp t' (wk w))) !! p = Some pr) by (simpl; by rewrite Hpt).
  rewrite (updp_run p pr _ _ Hp1) in H2. injection H2 as <-. exists (<[t := TS p SClear]> ts).
  eapply (winv_own w ts t p SOff SClear (set_p_state RUNNING) qs'); [done|done|reflexivity| | | |exact Hq'|done].
  - eapply own_take; [done..| |]; has_same.
  - simpl. by rewrite Hpt.
  - change (cond (set_kp (set_running p t') (wk w)) = cond (wk w)). apply cond_kp.
Qed.

Lemma wstep_inv w w' ts : winv w ts -> wstep w w' -> exists ts', winv w' ts'.
Proof.
  intros Hinv []; eauto using step_lock, step_unlock, step_do, step_test, step_loop, step_off, step_on, step_again.
Qed.

Definition start_pc (x : thread) : tpc := match role x with Some p => TS p SStart | None => TW WStart end.

Lemma winit_inv w : winit w -> winv w (start_pc <$> th w).
Proof.
  intros (Ho & Hp & Hq & H1 & Hr). rewrite Forall_lookup in Hp.
  assert (Hback : forall t p y, (start_pc <$> th w) !! t = Some (TS p y) -> exists x, th w !! t = Some x /\ role x = Some p /\ y = SStart).
  { intros t p y H. rewrite list_lookup_fmap in H. destruct (th w !! t) as [x|] eqn:E; [|done]. exists x.
    unfold start_pc in H. simpl in H. destruct (role x) eqn:Er; [|done]. by injection H as -> <-. }
  split; [|split; [|split; [|split; [done|]]]].
  - rewrite <- list_fmap_compose. apply list_eq. intros i. rewrite list_lookup_fmap.
    destruct (th w !! i) as [[r l]|] eqn:E; [|done]. specialize (Hp i _ E). simpl in *. subst l. by destruct r.
  - intros l t x Hx. rewrite Ho, lookup_empty. split; [done|]. rewrite list_lookup_fmap in Hx.
    destruct (th w !! t) as [y|]; [|done]. injection Hx as <-. unfold start_pc, has. by destruct (role y); repeat case_match.
  - intros t t' p x x' Hx Hx'. destruct (Hback _ _ _ Hx) as (? & ? & ? & _). destruct (Hback _ _ _ Hx') as (? & ? & ? & _). eauto.
  - intros t p x Hx. destruct (Hback _ _ _ Hx) as (y & Hy & Hry & ->). destruct (Hr t y p Hy Hry) as (pr & Hpr & Hs).
    by exists pr.
Qed.

Lemma wreach_inv w0 w : winit w0 -> wreach w0 w -> exists ts, winv w ts.
Proof.
  intros H0. induction 1 as [|w w' _ [ts IH] Hs]; [eexists; by apply winit_inv|]. by eapply wstep_inv.
Qed.

(** Some thread holds [lk] and has still to call [wakeup1]. *)
Definition will_wake (w : wsys) : Prop :=
  exists u r rest, own w !! lk = Some u /\ th w !! u = Some (mkth r rest) /\ IAct (ADo (wakeup1 ch)) ∈ rest.

Lemma pending_will_wake w ts : winv w ts -> pending ts -> will_wake w.
Proof.
  intros (Hth & Ho & _) (u & Hu).
  assert (exists y, ts !! u = Some y /\ has_lk y = true /\ IAct (ADo (wakeup1 ch)) ∈ todo (thread_of y)) as (y & Hy & Hl & Hin).
  { destruct Hu as [Hu|Hu]; eexists; (split; [exact Hu|split; [done|]]); set_solver. }
  exists u, (role (thread_of y)), (todo (thread_of y)). split; [|split; [|done]].
  - apply (Ho lk u y Hy). by rewrite (proj1 (has_lk_pt _)).
  - rewrite Hth, list_lookup_fmap, Hy. simpl. by destruct (thread_of y).
Qed.

(** What the invariant says of a thread that is off the CPU. *)
Lemma off_facts w ts t p rest :
  winv w ts -> th w !! t = Some (mkth (Some p) (IOff :: rest)) ->
  own w !! lk <> Some t /\ own w !! ptable_lock <> Some t /\ exists pr, procs (kp (wk w)) !! p = Some pr /\
    ((p_state pr = SLEEPING /\ p_chan pr = ch /\ (cond (wk w) = false \/ will_wake w)) \/
     (p_state pr = RUNNABLE /\ exists qs, runq (kp (wk w)) qs /\ p ∈ concat qs)).
Proof.
  intros Hinv Ht. destruct (at_pc w ts t _ Hinv Ht) as (y & Hy & E). pose proof Hinv as (_ & Ho & _ & (qs & Hq) & Hw).
  points y E. destruct (Hw t p SOff Hy) as (pr & Hpr & Hs & Hc).
  split; [|split].
  - intros H. apply (Ho lk t _ Hy) in H. by rewrite (proj1 (has_lk_pt _)) in H.
  - intros H. apply (Ho ptable_lock t _ Hy) in H. by rewrite (proj2 (has_lk_pt _)) in H.
  - exists pr. split; [done|]. destruct Hs as [[Hs1 Hs2]|Hs1]; [left|right].
    + split; [done|]. split; [done|]. destruct (Hc Hs1) as [?|?]; [by left|right]. by eapply pending_will_wake.
    + split; [done|]. exists qs. split; [done|]. apply Hq. by exists pr.
Qed.

Lemma take_facts w ts t p rest :
  winv w ts -> th w !! t = Some (mkth (Some p) (IAct (ADo take) :: rest)) -> length rest = 1%nat ->
  own w !! lk = Some t /\ cond (wk w) = true.
Proof.
  intros Hinv Ht Hr. destruct (at_pc w ts t _ Hinv Ht) as (y & Hy & E). pose proof Hinv as (_ & Ho & _ & _ & Hw).
  points y E; try done. destruct (Hw t p STake Hy) as (pr & Hpr & Hs & Hc). split; [|done].
  apply (Ho lk t _ Hy). by rewrite (proj1 (has_lk_pt _)).
Qed.

End waiting.

(** ** Properties *)

(** C34. No lost wakeup.  Any number of processes wait for a condition with
    [acquire(lk); while (!cond) sleep(ch, lk); ...; release(lk)] and any number
    of threads run [acquire(lk); ...; wakeup(ch); release(lk)], again and again
    and interleaved at every lock operation and every access to the table.
    Whenever a process is off the CPU it holds neither [lk] nor ptable.lock, and
    it is either asleep on [ch] while the condition is false or the thread that
    changed it has still to call [wakeup1], or it is RUNNABLE and in the run
    queue: once the condition holds and [lk] is free, no process is left asleep.
    A process comes out of its loop only with [lk] held and the condition true.
    The actions that are interleaved, run in sequence, are [sleep] up to the
    switch, [sleep] after it, and [wakeup]. *)
Theorem no_lost_wakeup {F} lk ch (cond : kst F -> bool) (fire take : M (kst F) unit) w0 w :
  lk <> ptable_lock ->
  (forall t k, cond (set_kp t k) = cond k) ->
  (forall k k', fire k = Ret tt k' -> kp k' = kp k) ->
  (forall k k', take k = Ret tt k' -> kp k' = kp k) ->
  winit lk ch fire take w0 -> wreach lk ch cond fire take w0 w ->
  (forall t p rest, th w !! t = Some (mkth (Some p) (IOff :: rest)) ->
     own w !! lk <> Some t /\ own w !! ptable_lock <> Some t /\ exists pr, procs (kp (wk w)) !! p = Some pr /\
     ((p_state pr = SLEEPING /\ p_chan pr = ch /\ (cond (wk w) = false \/ will_wake lk ch w)) \/
      (p_state pr = RUNNABLE /\ exists qs, runq (kp (wk w)) qs /\ p ∈ concat qs))) /\
  (cond (wk w) = true -> own w !! lk = None ->
     forall t p rest, th w !! t = Some (mkth (Some p) (IOff :: rest)) -> runnable (kp (wk w)) p) /\
  (forall t p, th w !! t = Some (mkth (Some p) [IAct (ADo take); IAct (AUnlock lk)]) ->
     own w !! lk = Some t /\ cond (wk w) = true) /\
  (forall k : kst F, sleep ch lk k =
     (op ← myproc; match op with
                   | None => panic "sleep"
                   | Some p => unless_panic (lk =? 0) "sleep without lk";; acts_code (sleep_before p ch lk)
                   end) k) /\
  (forall p i (k : kst F), sleep_resume p lk i k = (sched_resume i;; acts_code (sleep_after p lk)) k) /\
  (forall k : kst F, wakeup ch k = acts_code (wakeup_acts ch) k).
Proof.
  intros Hlk Hc Hf Ht H0 Hr. destruct (wreach_inv lk ch cond fire take Hlk Hc Hf Ht w0 w H0 Hr) as [ts Hinv].
  assert (Hoff := fun t p rest => off_facts lk ch cond fire take Hlk Hc Hf Ht w ts t p rest Hinv).
  split; [exact Hoff|]. split; [|split; [|split; [|split]]].
  - intros Hcond Hfree t p rest H. destruct (Hoff t p rest H) as (_ & _ & pr & Hp & [(_ & _ & [?|(u & r & l & Hu & _)])|(Hs & _)]);
      [congruence|congruence|by exists pr].
  - intros t p H. exact (take_facts lk ch cond fire take Hlk w ts t p _ Hinv H eq_refl).
  - intros k. apply sleep_is_acts.
  - intros p i k. apply sleep_resume_is_acts.
  - intros k. apply wakeup_is_acts.
Qed.

(** ** Witness

    Running the next instruction of thread [t], where that is determined. *)
Definition wexec {F} lk ch (cond : kst F -> bool) (w : wsys) (t : nat) : option wsys :=
  x ← th w !! t;
  match todo x with
  | IAct (ALock l) :: rest =>
      match own w !! l with None => Some (mkwsys (wk w) (<[l := t]> (own w)) (<[t := mkth (role x) rest]> (th w))) | _ => None end
  | IAct (AUnlock l) :: rest =>
      if decide (own w !! l = Some t) then Some (mkwsys (wk w) (delete l (own w)) (<[t := mkth (role x) rest]> (th w))) else None
  | IAct (ADo m) :: rest =>
      match m (wk w) with Ret tt k' => Some (mkwsys k' (own w) (<[t := mkth (role x) rest]> (th w))) | _ => None end
  | IAct ASched :: rest =>
      if decide (own w !! ptable_lock = Some t)
      then Some (mkwsys (wk w) (delete ptable_lock (own w)) (<[t := mkth (role x) (IOff :: rest)]> (th w))) else None
  | ITest :: rest =>
      if cond (wk w) then Some (mkwsys (wk w) (own w) (<[t := mkth (role x) rest]> (th w)))
      else p ← role x; Some (mkwsys (wk w) (own w) (<[t := mkth (Some p) (sleep_prog lk ch p ++ ITest :: rest)]> (th w)))
  | _ => None
  end.

Lemma wexec_step {F} lk ch cond fire take (w w' : @wsys F) t : wexec lk ch cond w t = Some w' -> wstep lk ch cond fire take w w'.
Proof.
  unfold wexec. intros H. destruct (th w !! t) as [[r l]|] eqn:E; [|done]. simpl in H.
  destruct l as [|[[l|l|m|]| |] rest]; [done| | | | | |done].
  - destruct (own w !! l) eqn:Eo; [done|]. injection H as <-. by eapply w_lock.
  - destruct (decide _); [|done]. injection H as <-. by eapply w_unlock.
  - destruct (m (wk w)) as [[] k'| | |] eqn:Em; [|done..]. injection H as <-. by eapply w_do.
  - destruct (decide _); [|done]. injection H as <-. by eapply w_off.
  - destruct (cond (wk w)) eqn:Ec; [injection H as <-; by eapply w_true|].
    destruct r as [p|]; [|done]. injection H as <-. by eapply w_false.
Qed.

Fixpoint wrun {F} lk ch (cond : kst F -> bool) (l : list nat) (w : wsys) : option wsys :=
  match l with [] => Some w | t :: l => w' ← wexec lk ch cond w t; wrun lk ch cond l w' end.

Lemma wrun_reach {F} lk ch cond fire take l (w0 w w' : @wsys F) :
  wreach lk ch cond fire take w0 w -> wrun lk ch cond l w = Some w' -> wreach lk ch cond fire take w0 w'.
Proof.
  revert w. induction l as [|t l IH]; intros w Hw H; simpl in H; [by injection H as <-|].
  destruct (wexec lk ch cond w t) as [w1|] eqn:E; [|done]. simpl in H. eapply IH; [|exact H].
  eapply w_next; [exact Hw|by eapply wexec_step].
Qed.

(** Process 0 waits for the clock to be set; a second thread sets it.  The
    process goes to sleep, then the other thread runs to its end. *)
Definition clock_set (k : kst unit) : bool := negb (ticks (kg k) =? 0).
Definition clock_wait : @wsys unit :=
  mkwsys (wit_kst None (wit_tab RUNNING) 0) ∅
    [mkth (Some 0%nat) (sleeper_prog tickslock (setg (set_ticks 0)));
     mkth None (waker_prog tickslock ChTicks (setg (set_ticks 1)))].
Definition clock_woken : @wsys unit :=
  default clock_wait (wrun tickslock ChTicks clock_set [0; 0; 0; 0; 0; 0; 0; 1; 1; 1; 1; 1; 1]%nat clock_wait).

Lemma clock_wait_init : winit tickslock ChTicks (setg (set_ticks 1)) (setg (set_ticks 0)) clock_wait.
Proof.
  split; [done|]. split; [by repeat constructor|]. split; [exists (replicate 20 []); by apply wit_runq|]. split.
  - intros [|[|t]] [|[|t']] x x' p; simpl; intros; simplify_eq; done.
  - intros [|[|t]] x p Hx Hr; [|by injection Hx as <-|done]. injection Hx as <-. injection Hr as <-. eexists. split; reflexivity.
Qed.

Lemma no_lost_wakeup_witness :
  clock_set (wk clock_woken) = true /\ own clock_woken !! tickslock = None /\
  (exists rest, th clock_woken !! 0%nat = Some (mkth (Some 0%nat) (IOff :: rest))) /\ runnable (kp (wk clock_woken)) 0.
Proof.
  assert (Hr : wreach tickslock ChTicks clock_set (setg (set_ticks 1)) (setg (set_ticks 0)) clock_wait clock_woken).
  { eapply (wrun_reach _ _ _ _ _ [0; 0; 0; 0; 0; 0; 0; 1; 1; 1; 1; 1; 1]%nat); [apply w_here|]. vm_compute. reflexivity. }
  assert (Hc : clock_set (wk clock_woken) = true) by (vm_compute; reflexivity).
  assert (Ho : own clock_woken !! tickslock = None) by (vm_compute; reflexivity).
  assert (Ht : exists rest, th clock_woken !! 0%nat = Some (mkth (Some 0%nat) (IOff :: rest))) by (eexists; vm_compute; reflexivity).
  split; [exact Hc|]. split; [exact Ho|]. split; [exact Ht|]. destruct Ht as [rest Ht].
  refine (proj1 (proj2 (no_lost_wakeup tickslock ChTicks clock_set (setg (set_ticks 1)) (setg (set_ticks 0)) clock_wait clock_woken _ _ _ _ clock_wait_init Hr)) Hc Ho 0%nat 0%nat rest Ht).
  - done.
  - done.
  - by intros k k' [= <-].
  - by intros k k' [= <-].
Defined.
