(* ===== verification/Args.v ===== *)
(** * System call arguments (the first half of syscall.c)

    Arguments live on the user stack.  The kernel reads user memory through
    the page table of the running process; an address without a present page
    is a page fault in the kernel, which [trap] turns into a panic. *)

From Stdlib Require Import ZArith Lia.
From stdpp Require Import base numbers strings gmap list.
From S2P Require Import Prelude.
From S2P Require Import Machine.
From S2P Require Import Spinlock.
From S2P Require Import Kalloc.
From S2P Require Import Vm.
From S2P Require Import KState.
From S2P Require Import PQueue.
From S2P Require Import Proc.

Local Open Scope string_scope.
Local Open Scope list_scope.
Local Open Scope Z_scope.

(** The byte and the (little endian) word at a virtual address. *)
Definition uread8 (pgdir va : Z) : M mach Z :=
  pte ← walkpgdir pgdir va false;
  unless_panic (pte =? 0) "trap";;
  e ← load pte;
  unless_panic (Z.land e PTE_P =? 0) "trap";;
  gets (fun k => ld8 (mem k) (P2V (PTE_ADDR e) + va mod PGSIZE)).

Definition uread32 (pgdir va : Z) : M mach Z :=
  b0 ← uread8 pgdir va;
  b1 ← uread8 pgdir (u32 (va + 1));
  b2 ← uread8 pgdir (u32 (va + 2));
  b3 ← uread8 pgdir (u32 (va + 3));
  mret (b0 + 256 * b1 + 65536 * b2 + 16777216 * b3).

Section args.
Context {F : Type}.

(** The running process, dereferenced. *)
Definition curproc : M (kst F) (nat * proc) :=
  op ← myproc; p ← nonnull op; pr ← getp p; mret (p, pr).

(** An [int *] out parameter is the result: [None] is the return value -1. *)
Definition fetchint (addr : Z) : M (kst F) (option Z) :=
  '(_, pr) ← curproc;
  if (p_sz pr <=? addr) || (p_sz pr <? u32 (addr + 4)) then mret None
  else w ← on_km (uread32 (p_pgdir pr) addr); mret (Some (i32 w)).

(** The scan of [fetchstr]: the length of the string at [s], if it ends before
    [ep]. *)
Fixpoint fetchstr_loop (fuel : nat) (pgdir s ep n : Z) : M mach (option Z) :=
  if s <? ep then
    match fuel with
    | O => fault "fetchstr: fuel"
    | S fuel =>
        b ← uread8 pgdir s;
        if b =? 0 then mret (Some n) else fetchstr_loop fuel pgdir (s + 1) ep (n + 1)
    end
  else mret None.

(** The string's address and its length. *)
Definition fetchstr (addr : Z) : M (kst F) (option (Z * Z)) :=
  '(_, pr) ← curproc;
  if p_sz pr <=? addr then mret None
  else
    r ← on_km (fetchstr_loop (Z.to_nat (p_sz pr - addr)) (p_pgdir pr) addr (p_sz pr) 0);
    mret (n ← r; Some (addr, n)).

Definition argint (n : Z) : M (kst F) (option Z) :=
  '(_, pr) ← curproc;
  fetchint (u32 (tf_esp (p_tfr pr) + 4 + 4 * n)).

Definition argptr (n size : Z) : M (kst F) (option Z) :=
  '(_, pr) ← curproc;
  oi ← argint n;
  match oi with
  | None => mret None
  | Some i =>
      if (size <? 0) || (p_sz pr <=? u32 i) || (p_sz pr <? u32 (u32 i + size)) then mret None
      else mret (Some (u32 i))
  end.

Definition argstr (n : Z) : M (kst F) (option (Z * Z)) :=
  oaddr ← argint n;
  match oaddr with
  | None => mret None
  | Some addr => fetchstr (u32 addr)
  end.
End args.
