(* ===== verification/ArgsSpec.v ===== *)
(** * What system call arguments a handler can see

    The run lemmas of [argint] and [argptr], and the theorem that every
    pointer and string that passes the checks of syscall.c lies inside the
    memory of the process. *)

From Stdlib Require Import ZArith Lia.
From stdpp Require Import base numbers strings gmap list.
From S2P Require Import Prelude.
From S2P Require Import Machine.
From S2P Require Import Spinlock.
From S2P Require Import Kalloc.
From S2P Require Import Vm.
From S2P Require Import KState.
From S2P Require Import PQueue.
From S2P Require Import Proc.
From S2P Require Import ProcInv.
From S2P Require Import Sched.
From S2P Require Import SchedSys.
From S2P Require Import Args.

Local Open Scope string_scope.
Local Open Scope list_scope.
Local Open Scope Z_scope.

(** ** Reading user memory, as a function of the memory *)

(** The address of the PTE of [va], if its page table is present. *)
Definition pte_at (m : gmap Z Z) (pgdir va : Z) : option Z :=
  let e := ld m (pgdir + 4 * PDX va) in
  if Z.land e PTE_P =? 0 then None
  else let pte := P2V (PTE_ADDR e) + 4 * PTX va in if pte =? 0 then None else Some pte.

Definition peek8 (m : gmap Z Z) (pgdir va : Z) : option Z :=
  pte ← pte_at m pgdir va;
  let e := ld m pte in
  if Z.land e PTE_P =? 0 then None else Some (ld8 m (P2V (PTE_ADDR e) + va mod PGSIZE)).

Definition peek32 (m : gmap Z Z) (pgdir va : Z) : option Z :=
  b0 ← peek8 m pgdir va; b1 ← peek8 m pgdir (u32 (va + 1));
  b2 ← peek8 m pgdir (u32 (va + 2)); b3 ← peek8 m pgdir (u32 (va + 3));
  Some (b0 + 256 * b1 + 65536 * b2 + 16777216 * b3).

Lemma walk_noalloc k pgdir va :
  walkpgdir pgdir va false k = Ret (default 0 (pte_at (mem k) pgdir va)) k.
Proof.
  unfold walkpgdir, load, pte_at. rewrite bind_gets. destruct (Z.land _ PTE_P =? 0); [done|]. cbn [negb].
  destruct (Z.eqb_spec (P2V (PTE_ADDR (ld (mem k) (pgdir + 4 * PDX va))) + 4 * PTX va) 0) as [->|]; done.
Qed.

(** [uread8] reads what [peek8] says and panics (by a page fault in the
    kernel) where there is no page. *)
Lemma uread8_run k pgdir va :
  uread8 pgdir va k = match peek8 (mem k) pgdir va with Some b => Ret b k | None => Panic "trap" end.
Proof.
  unfold uread8. mstep (walk_noalloc k pgdir va). unfold peek8. destruct (pte_at (mem k) pgdir va) as [pte|] eqn:E.
  - assert ((pte =? 0) = false) as Hne.
    { unfold pte_at in E. destruct (Z.land _ PTE_P =? 0); [done|].
      match type of E with (if ?b then _ else _) = _ => destruct b eqn:Eb end; [done|]. by injection E as <-. }
    simpl default. rewrite Hne, bind_unless_false. unfold load. rewrite bind_gets. simpl.
    destruct (Z.land (ld (mem k) pte) PTE_P =? 0); done.
  - done.
Qed.

Lemma uread32_run k pgdir va w : peek32 (mem k) pgdir va = Some w -> uread32 pgdir va k = Ret w k.
Proof.
  unfold peek32, uread32. intros H. rewrite !bind_run, uread8_run. destruct (peek8 _ _ va); [|done]. simpl in H.
  rewrite bind_run, uread8_run. destruct (peek8 _ _ (u32 (va + 1))); [|done]. simpl in H.
  rewrite bind_run, uread8_run. destruct (peek8 _ _ (u32 (va + 2))); [|done]. simpl in H.
  rewrite bind_run, uread8_run. destruct (peek8 _ _ (u32 (va + 3))); [|done]. simpl in H. by injection H as <-.
Qed.

Section args.
Context {F : Type}.
Implicit Types k : kst F.

(** The [n]th argument word of process [pr] in memory is [v]. *)
Definition arg_is (k : kst F) (pr : proc) (n v : Z) : Prop :=
  let addr := u32 (tf_esp (p_tfr pr) + 4 + 4 * n) in
  addr < p_sz pr /\ u32 (addr + 4) <= p_sz pr /\
  exists w, peek32 (mem (km k)) (p_pgdir pr) addr = Some w /\ i32 w = v.

Lemma curproc_run k c p pr : running k c p -> procs (kp k) !! p = Some pr -> curproc k = Ret (p, pr) (touched c k).
Proof.
  intros Hr Hp. unfold curproc. mstep (myproc_run k c p Hr). unfold nonnull. rewrite bind_some.
  by mstep (getp_run p pr (touched c k) Hp).
Qed.

Lemma touched_touched c k : touched c (touched c k) = touched c k.
Proof. unfold touched. by rewrite !kh_set_kh, touch_touch. Qed.

Lemma on_km_run {A} (m : M mach A) k a j : m (km k) = Ret a j -> on_km m k = Ret a (set_km j k).
Proof. intros H. unfold on_km, zoom. by rewrite H. Qed.

Lemma set_km_id k : set_km (km k) k = k.
Proof. by destruct k. Qed.

Lemma argint_run k c p pr n v :
  running k c p -> procs (kp k) !! p = Some pr -> arg_is k pr n v -> argint n k = Ret (Some v) (touched c k).
Proof.
  intros Hr Hp (H1 & H2 & w & Hw & Hv). unfold argint. mstep (curproc_run k c p pr Hr Hp). cbn beta iota.
  unfold fetchint. mstep (curproc_run (touched c k) c p pr (running_touched k c p Hr) Hp). cbn beta iota.
  rewrite touched_touched. set (addr := u32 _) in *.
  destruct (Z.leb_spec (p_sz pr) addr); [lia|]. destruct (Z.ltb_spec (p_sz pr) (u32 (addr + 4))); [lia|]. cbn [orb].
  mstep (on_km_run (uread32 (p_pgdir pr) addr) (touched c k) w _ (uread32_run (km (touched c k)) _ _ w Hw)).
  rewrite set_km_id. by rewrite Hv.
Qed.

(** An argument outside the process's memory: -1, and no memory is read. *)
Lemma argint_bad k c p pr n :
  running k c p -> procs (kp k) !! p = Some pr ->
  let addr := u32 (tf_esp (p_tfr pr) + 4 + 4 * n) in
  p_sz pr <= addr \/ p_sz pr < u32 (addr + 4) -> argint n k = Ret None (touched c k).
Proof.
  intros Hr Hp addr Ha. unfold argint. mstep (curproc_run k c p pr Hr Hp). cbn beta iota.
  unfold fetchint. mstep (curproc_run (touched c k) c p pr (running_touched k c p Hr) Hp). cbn beta iota.
  rewrite touched_touched. fold addr.
  destruct (Z.leb_spec (p_sz pr) addr), (Z.ltb_spec (p_sz pr) (u32 (addr + 4))); done || lia.
Qed.

(** The word is read when it is in bounds; no other case remains. *)
Lemma argint_total k c p pr n :
  running k c p -> procs (kp k) !! p = Some pr -> 0 <= p_sz pr <= KERNBASE ->
  (forall a, 0 <= a < p_sz pr -> exists b, peek8 (mem (km k)) (p_pgdir pr) a = Some b) ->
  let addr := u32 (tf_esp (p_tfr pr) + 4 + 4 * n) in
  (addr + 4 <= p_sz pr /\ exists w, peek32 (mem (km k)) (p_pgdir pr) addr = Some w /\ arg_is k pr n (i32 w) /\ argint n k = Ret (Some (i32 w)) (touched c k)) \/
  (p_sz pr < addr + 4 /\ (p_sz pr <= addr \/ p_sz pr < u32 (addr + 4))).
Proof.
  intros Hr Hp Hsz Hall addr. pose proof (u32_range (tf_esp (p_tfr pr) + 4 + 4 * n)) as Hat. fold addr in Hat. unfold KERNBASE, two32 in *.
  destruct (decide (addr + 4 <= p_sz pr)) as [Hin|Hout]; [left|right].
  - split; [done|]. destruct (Hall addr) as [b0 H0]; [lia|]. destruct (Hall (addr + 1)) as [b1 H1]; [lia|].
    destruct (Hall (addr + 2)) as [b2 H2]; [lia|]. destruct (Hall (addr + 3)) as [b3 H3]; [lia|].
    assert (Hw : peek32 (mem (km k)) (p_pgdir pr) addr = Some (b0 + 256 * b1 + 65536 * b2 + 16777216 * b3)).
    { unfold peek32. rewrite !(u32_id (addr + _)) by (unfold two32; lia). by rewrite H0, H1, H2, H3. }
    eexists. split; [exact Hw|].
    assert (Ha : arg_is k pr n (i32 (b0 + 256 * b1 + 65536 * b2 + 16777216 * b3))).
    { unfold arg_is. fold addr. rewrite (u32_id (addr + 4)) by (unfold two32; lia). split; [lia|]. split; [lia|]. by eexists. }
    split; [exact Ha|]. by eapply argint_run.
  - split; [lia|]. destruct (decide (p_sz pr <= addr)); [by left|right]. rewrite u32_id by (unfold two32; lia). lia.
Qed.

Lemma argptr_run k c p pr n v size :
  running k c p -> procs (kp k) !! p = Some pr -> arg_is k pr n v ->
  argptr n size k =
    Ret (if (size <? 0) || (p_sz pr <=? u32 v) || (p_sz pr <? u32 (u32 v + size)) then None else Some (u32 v)) (touched c k).
Proof.
  intros Hr Hp Ha. unfold argptr. mstep (curproc_run k c p pr Hr Hp). cbn beta iota.
  mstep (argint_run (touched c k) c p pr n v (running_touched k c p Hr) Hp Ha). cbn beta iota.
  rewrite touched_touched. by destruct (_ || _).
Qed.

(** [fetchstr]'s scan stops at the first 0 below [ep], if every byte up to
    there can be read. *)
Lemma fetchstr_loop_run j pgdir ep fuel s n :
  (Z.to_nat (ep - s) <= fuel)%nat ->
  (forall a, s <= a < ep -> exists b, peek8 (mem j) pgdir a = Some b) ->
  exists r, fetchstr_loop fuel pgdir s ep n j = Ret r j /\
    match r with
    | Some len => n <= len /\ s + (len - n) < ep /\ peek8 (mem j) pgdir (s + (len - n)) = Some 0 /\
        (forall i, 0 <= i < len - n -> peek8 (mem j) pgdir (s + i) <> Some 0)
    | None => forall i, 0 <= i -> s + i < ep -> peek8 (mem j) pgdir (s + i) <> Some 0
    end.
Proof.
  revert s n. induction fuel as [|fuel IH]; intros s n Hf Hall; simpl.
  { destruct (Z.ltb_spec s ep); [lia|]. exists None. split; [done|]. intros i ? ?. lia. }
  destruct (Z.ltb_spec s ep) as [Hlt|Hge].
  2:{ exists None. split; [done|]. intros i ? ?. lia. }
  destruct (Hall s ltac:(lia)) as [b Hb]. rewrite bind_run, uread8_run, Hb. destruct (Z.eqb_spec b 0) as [->|Hb0].
  { exists (Some n). split; [done|]. replace (s + (n - n)) with s by lia. split; [lia|]. split; [lia|]. split; [done|].
    intros i ?. lia. }
  assert (Hs : peek8 (mem j) pgdir s <> Some 0) by congruence.
  destruct (IH (s + 1) (n + 1)) as (r & Hr & Hspec); [lia|intros a ?; apply Hall; lia|].
  exists r. split; [done|]. destruct r as [len|].
  - destruct Hspec as (H1 & H2 & H3 & H4). replace (s + 1 + (len - (n + 1))) with (s + (len - n)) in * by lia.
    split; [lia|]. split; [lia|]. split; [done|]. intros i Hi. destruct (decide (i = 0)) as [->|]; [by rewrite Z.add_0_r|].
    specialize (H4 (i - 1) ltac:(lia)). by replace (s + 1 + (i - 1)) with (s + i) in H4 by lia.
  - intros i Hi Hlt'. destruct (decide (i = 0)) as [->|]; [by rewrite Z.add_0_r|].
    specialize (Hspec (i - 1) ltac:(lia) ltac:(lia)). by replace (s + 1 + (i - 1)) with (s + i) in Hspec by lia.
Qed.

Lemma fetchstr_run k c p pr addr :
  running k c p -> procs (kp k) !! p = Some pr ->
  (forall a, addr <= a < p_sz pr -> exists b, peek8 (mem (km k)) (p_pgdir pr) a = Some b) ->
  exists r, fetchstr addr k = Ret r (touched c k) /\
    match r with
    | Some (a, len) => a = addr /\ 0 <= len /\ addr + len < p_sz pr /\ peek8 (mem (km k)) (p_pgdir pr) (addr + len) = Some 0 /\
        (forall i, 0 <= i < len -> peek8 (mem (km k)) (p_pgdir pr) (addr + i) <> Some 0)
    | None => forall i, 0 <= i -> addr + i < p_sz pr -> peek8 (mem (km k)) (p_pgdir pr) (addr + i) <> Some 0
    end.
Proof.
  intros Hr Hp Hall. unfold fetchstr. mstep (curproc_run k c p pr Hr Hp). cbn beta iota.
  destruct (Z.leb_spec (p_sz pr) addr) as [Hge|Hlt].
  { exists None. split; [done|]. intros i ? ?. lia. }
  destruct (fetchstr_loop_run (km (touched c k)) (p_pgdir pr) (p_sz pr) (Z.to_nat (p_sz pr - addr)) addr 0)
    as (r & Hrun & Hspec); [done|exact Hall|].
  mstep (on_km_run _ (touched c k) r _ Hrun). rewrite set_km_id. exists (n ← r; Some (addr, n)). split; [done|].
  destruct r as [len|]; simpl.
  - replace (len - 0) with len in Hspec by lia. done.
  - done.
Qed.
End args.

(** ** Properties *)

(** C38. System call arguments, for any stack pointer, any number of the argument
    and any size, of a process whose memory is mapped.  [argint] returns the word
    on the process's stack when all four bytes are inside the process's memory and
    fails otherwise.  [argptr] accepts exactly the pointers whose whole block is
    inside that memory, with a size that is not negative.  [argstr] accepts
    exactly the addresses from which a 0 follows before the end of that memory,
    and returns the length up to the first one.  Nothing outside the process's
    memory is read, no call panics, and none changes anything. *)
Theorem arguments_in_bounds {F} (k : kst F) c p pr n size :
  running k c p -> procs (kp k) !! p = Some pr ->
  0 <= p_sz pr <= KERNBASE -> -2147483648 <= size < 2147483648 ->
  (forall a, 0 <= a < p_sz pr -> exists b, peek8 (mem (km k)) (p_pgdir pr) a = Some b) ->
  let at_ := u32 (tf_esp (p_tfr pr) + 4 + 4 * n) in
  let word := peek32 (mem (km k)) (p_pgdir pr) at_ in
  let byte := peek8 (mem (km k)) (p_pgdir pr) in
  (exists r, argint n k = Ret r (touched c k) /\
     match r with
     | Some v => at_ + 4 <= p_sz pr /\ exists w, word = Some w /\ v = i32 w
     | None => p_sz pr < at_ + 4
     end) /\
  (exists r, argptr n size k = Ret r (touched c k) /\
     match r with
     | Some a => at_ + 4 <= p_sz pr /\ (exists w, word = Some w /\ a = u32 w) /\ 0 <= size /\ 0 <= a < p_sz pr /\ a + size <= p_sz pr
     | None => p_sz pr < at_ + 4 \/ size < 0 \/ exists w, word = Some w /\ (p_sz pr <= u32 w \/ p_sz pr < u32 w + size)
     end) /\
  (exists r, argstr n k = Ret r (touched c k) /\
     match r with
     | Some (a, len) => at_ + 4 <= p_sz pr /\ (exists w, word = Some w /\ a = u32 w) /\ 0 <= a /\ 0 <= len /\ a + len < p_sz pr /\
         byte (a + len) = Some 0 /\ (forall i, 0 <= i < len -> byte (a + i) <> Some 0)
     | None => p_sz pr < at_ + 4 \/ exists w, word = Some w /\ forall i, 0 <= i -> u32 w + i < p_sz pr -> byte (u32 w + i) <> Some 0
     end).
Proof.
  intros Hr Hp Hsz Hsize Hall at_ word byte. pose proof (u32_range (tf_esp (p_tfr pr) + 4 + 4 * n)) as Hat. fold at_ in Hat.
  unfold KERNBASE, two32 in *. destruct (argint_total k c p pr n Hr Hp Hsz Hall) as [(Hin & w & Hw & Ha & Hi)|[Hout Hb]].
  - split; [by exists (Some (i32 w)); eauto|]. pose proof (u32_range w) as Hv. unfold two32 in Hv. split.
    + eexists. split; [by eapply argptr_run|]. rewrite u32_i32.
      destruct (Z.ltb_spec size 0); [by right; left|]. destruct (Z.leb_spec (p_sz pr) (u32 w)); [right; right; by eauto|]. simpl orb.
      rewrite (u32_id (u32 w + size)) by (unfold two32; lia).
      destruct (Z.ltb_spec (p_sz pr) (u32 w + size)); [right; right; by eauto|]. split; [done|]. split; [by eauto|]. lia.
    + unfold argstr. rewrite (bind_ret_run _ _ _ _ _ Hi). cbn beta iota. rewrite u32_i32.
      destruct (fetchstr_run (touched c k) c p pr (u32 w) (running_touched k c p Hr) Hp) as (r & Hrun & Hspec).
      { intros a ?. apply Hall. lia. }
      rewrite touched_touched in Hrun. exists r. split; [done|]. destruct r as [[a len]|]; [|right; by eauto].
      destruct Hspec as (-> & H1 & H2 & H3). split; [done|]. split; [by eauto|]. split; [lia|]. done.
  - pose proof (argint_bad k c p pr n Hr Hp Hb) as Hi. split; [by exists None|]. split.
    + exists None. split; [|by left]. unfold argptr. mstep (curproc_run k c p pr Hr Hp). cbn beta iota.
      mstep (argint_bad (touched c k) c p pr n (running_touched k c p Hr) Hp Hb). by rewrite touched_touched.
    + exists None. split; [|by left]. unfold argstr. by mstep Hi.
Qed.

(** A process of one page: its page table, and the stack words [args] from
    address 4004 on. *)
Definition user_pgdir : Z := 0x80401000.
Fixpoint store_words (m : gmap Z Z) (a : Z) (ws : list Z) : gmap Z Z :=
  match ws with [] => m | w :: ws => store_words (st m a w) (a + 4) ws end.
Definition user_mem (args : list Z) : gmap Z Z :=
  store_words (st (st ∅ user_pgdir (0x402000 + 7)) 0x80402000 (0x403000 + 7)) (0x80403000 + 4004) args.
Definition user_proc : proc :=
  set_p_sz 4096 (set_p_tfr (set_tf_esp 4000 zero_tf) (wit_proc RUNNING)).
Definition user_kst (args : list Z) : kst unit :=
  let k := wit_kst (Some 0%nat) (empty_rings (user_proc :: replicate 63 proc0)) 0 in
  set_km (set_mem (fun _ => user_mem args) (km k)) k.

Lemma user_running args : running (user_kst args) 0 0.
Proof. apply at_rest_running. exact (wit_rest (Some 0%nat) (wit_tab RUNNING) 0). Qed.

Lemma store_words_out args b m x : x < b -> ld (store_words m b args) x = ld m x.
Proof.
  revert b m. induction args as [|w ws IH]; intros b m Hb; [done|]. cbn [store_words].
  rewrite IH by lia. apply ld_st_ne. lia.
Qed.

Lemma user_mem_pde args : ld (user_mem args) user_pgdir = 0x402007.
Proof.
  unfold user_mem. rewrite store_words_out by (unfold user_pgdir; lia).
  rewrite ld_st_ne by (unfold user_pgdir; lia). apply ld_st_eq.
Qed.

Lemma user_mem_pte args : ld (user_mem args) 0x80402000 = 0x403007.
Proof. unfold user_mem. rewrite store_words_out by lia. apply ld_st_eq. Qed.

Lemma user_pte_at args a : 0 <= a < 4096 -> pte_at (user_mem args) user_pgdir a = Some 0x80402000.
Proof.
  intros Ha. unfold pte_at. rewrite PDX_eq, PTX_eq by (unfold two32; lia). rewrite !(Z.div_small a) by lia.
  rewrite Z.mod_0_l by lia. change (user_pgdir + 4 * 0) with user_pgdir. rewrite user_mem_pde. reflexivity.
Qed.

Lemma user_readable args a : 0 <= a < 4096 -> exists b, peek8 (user_mem args) user_pgdir a = Some b.
Proof.
  intros Ha. unfold peek8. rewrite user_pte_at by done. cbn [mbind option_bind]. rewrite user_mem_pte.
  change (Z.land 0x403007 PTE_P =? 0) with false. cbv iota. by eexists.
Qed.

(** The block of 4 bytes at address 100 is accepted, one of -1 bytes is not, and
    the argument after the end of the stack cannot be read. *)
Lemma arguments_in_bounds_witness :
  (exists r, argptr 0 4 (user_kst [100]) = Ret r (touched 0 (user_kst [100])) /\ is_Some r) /\
  argptr 0 (-1) (user_kst [100]) = Ret None (touched 0 (user_kst [100])) /\
  argint 1000 (user_kst [100]) = Ret None (touched 0 (user_kst [100])).
Proof.
  assert (Hz : 0 <= p_sz user_proc <= KERNBASE) by (vm_compute; split; discriminate).
  pose proof (fun n size Hs => arguments_in_bounds (user_kst [100]) 0 0 user_proc n size (user_running [100]) eq_refl Hz Hs (user_readable [100])) as H.
  split; [|split].
  - destruct (H 0 4 ltac:(lia)) as (_ & (r & H1 & H2) & _). exists r. split; [exact H1|]. destruct r as [a|]; [by eexists|]. exfalso.
    destruct H2 as [H2|[H2|(w & Hw & H2)]]; [vm_compute in H2; discriminate|lia|]. assert (w = 100) as -> by (vm_compute in Hw; congruence).
    destruct H2 as [H2|H2]; vm_compute in H2; [by apply H2|discriminate].
  - destruct (H 0 (-1) ltac:(lia)) as (_ & (r & H1 & H2) & _). destruct r as [a|]; [exfalso; lia|exact H1].
  - destruct (H 1000 0 ltac:(lia)) as ((r & H1 & H2) & _). destruct r as [v|]; [|exact H1]. exfalso. destruct H2 as [H2 _]. vm_compute in H2. apply H2. reflexivity.
Defined.
