(* ===== verification/Sysproc.v ===== *)
(** * Process, mutex, condition variable and priority system calls (sysproc.c)

    A handler is called through a table of functions without arguments, so a
    parameter such as [muxid] starts with whatever is on the stack ([muxid0])
    and keeps that value when [argint] fails. *)

From Stdlib Require Import ZArith Lia.
From stdpp Require Import base numbers strings gmap list.
From S2P Require Import Prelude.
From S2P Require Import Machine.
From S2P Require Import Spinlock.
From S2P Require Import Kalloc.
From S2P Require Import Vm.
From S2P Require Import KState.
From S2P Require Import PQueue.
From S2P Require Import Proc.
From S2P Require Import Args.

Local Open Scope string_scope.
Local Open Scope list_scope.
Local Open Scope Z_scope.

Section sysproc.
Context {F : Type} `{!FileOps F} `{!Image}.

Definition sys_fork : M (kst F) Z := fork.
Definition sys_exit : M (kst F) Z := exit;; mret 0.
Definition sys_wait : M (kst F) Z := wait.

Definition sys_kill : M (kst F) Z :=
  a ← argint 0;
  match a with None => mret (-1) | Some pid => kill pid end.

Definition sys_getpid : M (kst F) Z := '(_, pr) ← curproc; mret (p_pid pr).

Definition sys_sbrk : M (kst F) Z :=
  a ← argint 0;
  match a with
  | None => mret (-1)
  | Some n =>
      '(_, pr) ← curproc;
      let addr := i32 (p_sz pr) in
      r ← growproc n;
      if r <? 0 then mret (-1) else mret addr
  end.

(** The loop of [sys_sleep], with tickslock held; [n] is converted to unsigned
    by the comparison. *)
Definition sys_sleep_loop (n ticks0 : Z) : M (kst F) Z :=
  t ← gets (fun k => ticks (kg k));
  if u32 (t - ticks0) <? u32 n then
    '(_, pr) ← curproc;
    if negb (p_killed pr =? 0) then unlock tickslock;; mret (-1)
    else sleep ChTicks tickslock;; stall OnSched
  else unlock tickslock;; mret 0.

Definition sys_sleep : M (kst F) Z :=
  a ← argint 0;
  match a with
  | None => mret (-1)
  | Some n => lock tickslock;; t0 ← gets (fun k => ticks (kg k)); sys_sleep_loop n t0
  end.

Definition sys_sleep_resume (p : nat) (n ticks0 intena : Z) : M (kst F) Z :=
  sleep_resume p tickslock intena;; sys_sleep_loop n ticks0.

Definition sys_uptime : M (kst F) Z :=
  lock tickslock;; x ← gets (fun k => ticks (kg k)); unlock tickslock;; mret (i32 x).

(** ** Mutexes *)

(** [p->mux_ptrs[muxid]]: an index outside the array is out of bounds. *)
Definition mux_ptr (p : nat) (muxid : Z) : M (kst F) (option nat) :=
  pr ← getp p; of_option "mux_ptrs[muxid]" (zget (p_mux_ptrs pr) muxid).
Definition set_mux_ptr (p : nat) (muxid : Z) (o : option nat) : M (kst F) unit :=
  pr ← getp p;
  l ← of_option "mux_ptrs[muxid]" (zset muxid o (p_mux_ptrs pr));
  updp p (set_p_mux_ptrs l).
Definition nonnull_mux (o : option nat) : M (kst F) nat := of_option "null mutex" o.

Definition sys_mcreate (name0 : Z) : M (kst F) Z :=
  a ← argptr 0 1;
  let name := default name0 a in
  '(p, _) ← curproc;
  lock mutexes_lock;;
  k ← get;
  match find_first (fun m => m_name m =? 0) (take (Z.to_nat MUX_MAXNUM) (muxes (kx k))) with
  | Some i =>
      updmux i (set_m_name name);;
      updmux i (set_m_state 0);;
      set_mux_ptr p (Z.of_nat i) (Some i);;
      unlock mutexes_lock;;
      mret (Z.of_nat i)
  | None => unlock mutexes_lock;; mret (-1)
  end.

Definition sys_mdelete (muxid0 : Z) : M (kst F) Z :=
  a ← argint 0;
  let muxid := default muxid0 a in
  '(cur, _) ← curproc;
  o ← mux_ptr cur muxid;
  match o with
  | None => mret 0
  | Some m =>
      k ← get;
      let others := imap (fun i pr => negb (Nat.eqb i cur) && bool_decide (zget (p_mux_ptrs pr) muxid <> Some None))
                      (take (Z.to_nat NPROC) (procs (kp k))) in
      if existsb id others then set_mux_ptr cur muxid None;; mret 1
      else
        lock mutexes_lock;;
        updmux m (set_m_name 0);;
        updmux m (set_m_state (-1));;
        unlock mutexes_lock;;
        set_mux_ptr cur muxid None;;
        mret 1
  end.

(** One pass of the waiting loop of [sys_mlock], with MUTEXES.lock held.  The
    part up to [release(&MUTEXES.lock)] is [mlock_enqueue]: it returns
    whether the mutex is taken by somebody else and there is room to wait. *)
Definition wq_add (p : nat) (q : list (option nat)) : option (list (option nat)) :=
  match find_first (fun o => bool_decide (o = Some p) || bool_decide (o = None)) q with
  | Some i => Some (<[i := Some p]> q)
  | None => None
  end.

Definition mlock_enqueue (p : nat) : M (kst F) bool :=
  lock wqueue_lock;;
  q ← gets (fun k => wqueue (kx k));
  match wq_add p q with
  | Some q' => modify (fun k => set_kx (set_wqueue q' (kx k)) k);; unlock wqueue_lock;; mret true
  | None => unlock wqueue_lock;; mret false
  end.

Definition mlock_loop (p : nat) (muxid : Z) : M (kst F) Z :=
  o ← mux_ptr p muxid;
  m ← nonnull_mux o;
  mx ← getmux m;
  if m_state mx =? 1 then
    room ← mlock_enqueue p;
    if negb room then mret 0   (* MUTEXES.lock is still held *)
    else
      unlock mutexes_lock;;
      lock ptable_lock;;
      updp p (set_p_state SLEEPING);;
      sched;; stall OnSched
  else
    updmux m (set_m_state 1);;
    unlock mutexes_lock;;
    mret 1.

Definition sys_mlock (muxid0 : Z) : M (kst F) Z :=
  a ← argint 0;
  let muxid := default muxid0 a in
  '(p, _) ← curproc;
  o ← mux_ptr p muxid;
  match o with
  | None => mret 0
  | Some _ => lock mutexes_lock;; mlock_loop p muxid
  end.

Definition sys_mlock_resume (p : nat) (muxid intena : Z) : M (kst F) Z :=
  sched_resume intena;; unlock ptable_lock;; lock mutexes_lock;; mlock_loop p muxid.

(** The left shift of a wait queue by one. *)
Definition shift_queue (q : list (option nat)) : list (option nat) := drop 1 q ++ [None].

(** Make a process runnable, whatever its state was. *)
Definition wake_process (p : nat) : M (kst F) unit :=
  lock ptable_lock;; updp p (set_p_state RUNNABLE);; enqueue_or_panic p;; unlock ptable_lock.

Definition sys_munlock (muxid0 : Z) : M (kst F) Z :=
  a ← argint 0;
  let muxid := default muxid0 a in
  '(p, _) ← curproc;
  o ← mux_ptr p muxid;
  match o with
  | None => mret 0
  | Some m =>
      mx ← getmux m;
      if negb (m_state mx =? 1) then mret 0
      else
        lock mutexes_lock;;
        updmux m (set_m_state 0);;
        unlock mutexes_lock;;
        lock wqueue_lock;;
        q ← gets (fun k => wqueue (kx k));
        head ← of_option "wqueue[0]" (q !! 0%nat);
        match head with
        | None => unlock wqueue_lock;; mret 1
        | Some sleepy =>
            modify (fun k => set_kx (set_wqueue (shift_queue q) (kx k)) k);;
            unlock wqueue_lock;;
            wake_process sleepy;;
            mret 1
        end
  end.

(** ** Condition variables *)

Definition waitcv_enqueue (p : nat) (muxid : Z) : M (kst F) bool :=
  lock mutexes_lock;;
  o ← mux_ptr p muxid;
  m ← nonnull_mux o;
  mx ← getmux m;
  match wq_add p (m_cv mx) with
  | Some q' => updmux m (set_m_cv q');; unlock mutexes_lock;; mret true
  | None => unlock mutexes_lock;; mret false
  end.

Definition sys_waitcv (muxid0 : Z) : M (kst F) Z :=
  a ← argint 0;
  let muxid := default muxid0 a in
  '(p, _) ← curproc;
  room ← waitcv_enqueue p muxid;
  if negb room then mret 0
  else
    lock ptable_lock;;
    updp p (set_p_state SLEEPING);;
    r ← sys_munlock muxid;
    if r =? 0 then mret 0   (* ptable.lock is still held *)
    else sched;; stall OnSched.

Definition sys_waitcv_resume (p : nat) (muxid intena : Z) : M (kst F) Z :=
  sched_resume intena;;
  unlock ptable_lock;;
  r ← sys_mlock muxid;
  if r =? 0 then mret 0 else mret 1.

(** proc.c has a second copy of this function, [signalcv]. *)
Definition sys_signalcv (muxid0 : Z) : M (kst F) Z :=
  a ← argint 0;
  let muxid := default muxid0 a in
  '(p, _) ← curproc;
  o ← mux_ptr p muxid;
  match o with
  | None => mret 0
  | Some m =>
      mx ← getmux m;
      if negb (m_state mx =? 1) then mret 0
      else
        lock mutexes_lock;;
        mx ← getmux m;
        head ← of_option "cv[0]" (m_cv mx !! 0%nat);
        match head with
        | None => unlock mutexes_lock;; mret 0
        | Some sleepy =>
            updmux m (set_m_cv (shift_queue (m_cv mx)));;
            unlock mutexes_lock;;
            wake_process sleepy;;
            mret 1
        end
  end.

Definition signalcv (muxid0 : Z) : M (kst F) Z := sys_signalcv muxid0.

(** ** Priorities *)

(** The walk along parent links: is [cur] an ancestor?  [i] is the current
    link; a null link is dereferenced. *)
Fixpoint ancestor_loop (fuel : nat) (cur : nat) (i : option nat) : M (kst F) bool :=
  match fuel with
  | O => fault "prio_set: fuel"
  | S fuel =>
      x ← nonnull i;
      pr ← getp x;
      if 1 <? p_pid pr then
        if Nat.eqb x cur then mret true else ancestor_loop fuel cur (p_parent pr)
      else mret false
  end.

(** [priority < curproc->priority] compares as unsigned. *)
Definition sys_prio_set (pid0 priority0 : Z) : M (kst F) Z :=
  a ← argint 0;
  let pid := default pid0 a in
  b ← argint 1;
  let priority := default priority0 b in
  '(cur, pr) ← curproc;
  if PRIO_MAX <=? priority then mret (-1)
  else if u32 priority <? p_priority pr then mret (-1)
  else if p_pid pr =? pid then updp cur (set_p_priority (u32 priority));; mret 1
  else
    lock ptable_lock;;
    k ← get;
    let tab := imap (fun i q => negb (Nat.eqb i cur) && (p_pid q =? pid)) (take (Z.to_nat NPROC) (procs (kp k))) in
    match find_first id tab with
    | None => unlock ptable_lock;; mret (-1)
    | Some p =>
        q ← getp p;
        found ← ancestor_loop (S (Z.to_nat NPROC)) cur (p_parent q);
        if found : bool then
          updp p (set_p_priority (u32 priority));; unlock ptable_lock;; mret 1
        else unlock ptable_lock;; mret (-1)
    end.

(** ** Test entry points

    [sys_testpqeq] labels the process with its priority and tries to enqueue
    it.  [sys_testpqdq] dequeues, without the lock, until it has seen three
    processes labelled '1', '2' or '3'; the names it prints are the result. *)
Definition sys_testpqeq : M (kst F) unit :=
  lock ptable_lock;;
  '(p, pr) ← curproc;
  let prio_char := u8 (i32 (p_priority pr) + 47) in
  updp p (fun q => set_p_name (<[1%nat := 0]> (<[0%nat := prio_char]> (p_name q))) q);;
  _ ← on_kp (pq_enqueue p);
  unlock ptable_lock.

Definition labelled (pr : proc) : bool := existsb (fun c => bool_decide (p_name pr !! 0%nat = Some c)) [49; 50; 51].

Fixpoint testpqdq_loop (fuel : nat) (d : dequeued) (count : nat) : M (kst F) (list (list Z)) :=
  if (count <? 3)%nat then
    match fuel with
    | O => fault "testpqdq: fuel"
    | S fuel =>
        op ← match d with DqNULL => fault "testpqdq: NULL" | DqProc op => mret op end;
        p ← nonnull op;
        pr ← getp p;
        d' ← on_kp pq_dequeue;
        rest ← testpqdq_loop fuel d' (if labelled pr then S count else count);
        mret (if labelled pr then p_name pr :: rest else rest)
    end
  else mret [].

Definition sys_testpqdq (fuel : nat) : M (kst F) (list (list Z)) :=
  d ← on_kp pq_dequeue; testpqdq_loop fuel d 0.
End sysproc.
