(* ===== verification/Shm.v ===== *)
(** * Shared memory pages (shminit, shmget and shmrem of vm.c)

    A shared page is named by the user pointer passed in; names are compared
    as pointers.  [vm_NULL] is the macro NULL of proc.h, which is (void * )-1. *)

From Stdlib Require Import ZArith Lia.
From stdpp Require Import base numbers strings gmap list.
From S2P Require Import Prelude.
From S2P Require Import Machine.
From S2P Require Import Spinlock.
From S2P Require Import Kalloc.
From S2P Require Import Vm.
From S2P Require Import KState.
From S2P Require Import PQueue.
From S2P Require Import Proc.
From S2P Require Import Args.

Local Open Scope string_scope.
Local Open Scope list_scope.
Local Open Scope Z_scope.

Definition vm_NULL : Z := u32 (-1).

Section shm.
Context {F : Type}.

Definition shminit : M (kst F) unit :=
  modify (fun k => set_ks (mkshmtab 1 (replicate (Z.to_nat SHM_MAXNUM) (mkshm 0 0 0 0))) k).

(** [myproc()->shmpgs[n] = o]: [n] can run past the array. *)
Definition set_shmpg (n : nat) (o : option nat) : M (kst F) unit :=
  '(p, pr) ← curproc;
  l ← of_option "shmpgs[pg_num]" (zset (Z.of_nat n) o (p_shmpgs pr));
  updp p (set_p_shmpgs l).

(** Map the page at the end of the process and grow the process over it.  The
    result of [mappages] is not looked at. *)
Definition shm_map (pa : Z) : M (kst F) Z :=
  '(p, pr) ← curproc;
  _ ← on_km (mappages (p_pgdir pr) (PGROUNDUP (p_sz pr)) PGSIZE (V2P pa) (Z.lor PTE_W PTE_U));
  let vas := PGROUNDUP (p_sz pr) in
  updp p (fun q => set_p_sz (u32 (p_sz q + PGSIZE)) q);;
  mret vas.

(** [pg_num] is not reset between the two loops: in the second one it is
    SHM_MAXNUM more than the index of [pg]. *)
Definition shmget (name : Z) : M (kst F) Z :=
  if name =? 0 then mret vm_NULL
  else
    init ← gets (fun k => shm_initialized (ks k));
    (if init =? 0 then shminit else mret tt);;
    k ← get;
    match find_first (fun pg => sp_name pg =? name) (take (Z.to_nat SHM_MAXNUM) (shm_pages (ks k))) with
    | Some i =>
        pg ← getshm i;
        '(p, pr) ← curproc;
        _ ← on_km (mappages (p_pgdir pr) (PGROUNDUP (p_sz pr)) PGSIZE (V2P (sp_pa pg)) (Z.lor PTE_W PTE_U));
        updshm i (fun q => set_sp_ref_count (u32 (sp_ref_count q + 1)) q);;
        updp p (fun q => set_p_sz (u32 (p_sz q + PGSIZE)) q);;
        set_shmpg i (Some i);;
        mret (PGROUNDUP (p_sz pr))
    | None =>
        match find_first (fun pg => sp_name pg =? 0) (take (Z.to_nat SHM_MAXNUM) (shm_pages (ks k))) with
        | Some i =>
            updshm i (set_sp_name name);;
            updshm i (set_sp_allocated 1);;
            page ← on_km kalloc;
            updshm i (set_sp_pa page);;
            updshm i (set_sp_ref_count 1);;
            (if page =? 0 then fault "shmget: memset of a null page" else mret tt);;
            on_km (memset0_page page);;
            vas ← shm_map page;
            set_shmpg (Z.to_nat SHM_MAXNUM + i) (Some i);;
            mret vas
        | None => mret vm_NULL
        end
    end.

(** The loop of [shmrem] from index [i]: it goes on after a match that leaves
    references. *)
Fixpoint shmrem_loop (fuel : nat) (name : Z) (i : nat) : M (kst F) Z :=
  match fuel with
  | O => mret (-1)
  | S fuel =>
      pg ← getshm i;
      if sp_name pg =? name then
        updshm i (fun q => set_sp_ref_count (u32 (sp_ref_count q - 1)) q);;
        pg ← getshm i;
        if sp_ref_count pg =? 0 then
          set_shmpg i None;;
          on_km (kfree (sp_pa pg));;
          updshm i (set_sp_allocated 0);;
          updshm i (set_sp_pa 0);;
          updshm i (set_sp_name 0);;
          mret 0
        else shmrem_loop fuel name (S i)
      else shmrem_loop fuel name (S i)
  end.

Definition shmrem (name : Z) : M (kst F) Z :=
  if name =? 0 then mret (-1) else shmrem_loop (Z.to_nat SHM_MAXNUM) name 0.

(** [failed] is the address of the string constant that is returned when the
    argument is bad. *)
Definition sys_shmget (failed : Z) : M (kst F) Z :=
  a ← argptr 0 1;
  match a with None => mret failed | Some name => shmget name end.

Definition sys_shmrem : M (kst F) Z :=
  a ← argptr 0 1;
  match a with None => mret (-1) | Some name => shmrem name end.
End shm.
