(* ===== verification/Trap.v ===== *)
(** * System call dispatch and traps (the second half of syscall.c, trap.c)

    The file system's handlers and the device interrupts are given by the two
    classes below. *)

From Stdlib Require Import ZArith Lia.
From stdpp Require Import base numbers strings gmap list.
From S2P Require Import Prelude.
From S2P Require Import Machine.
From S2P Require Import Spinlock.
From S2P Require Import Kalloc.
From S2P Require Import Vm.
From S2P Require Import KState.
From S2P Require Import PQueue.
From S2P Require Import Proc.
From S2P Require Import ProcInv.
From S2P Require Import Args.
From S2P Require Import Sysproc.
From S2P Require Import Shm.

Local Open Scope string_scope.
Local Open Scope list_scope.
Local Open Scope Z_scope.

(** ** System call numbers *)

Definition SYS_fork : Z := 1.
Definition SYS_exit : Z := 2.
Definition SYS_wait : Z := 3.
Definition SYS_pipe : Z := 4.
Definition SYS_read : Z := 5.
Definition SYS_kill : Z := 6.
Definition SYS_exec : Z := 7.
Definition SYS_fstat : Z := 8.
Definition SYS_chdir : Z := 9.
Definition SYS_dup : Z := 10.
Definition SYS_getpid : Z := 11.
Definition SYS_sbrk : Z := 12.
Definition SYS_sleep : Z := 13.
Definition SYS_uptime : Z := 14.
Definition SYS_open : Z := 15.
Definition SYS_write : Z := 16.
Definition SYS_mknod : Z := 17.
Definition SYS_unlink : Z := 18.
Definition SYS_link : Z := 19.
Definition SYS_mkdir : Z := 20.
Definition SYS_close : Z := 21.
Definition SYS_mcreate : Z := 22.
Definition SYS_mdelete : Z := 23.
Definition SYS_mlock : Z := 24.
Definition SYS_munlock : Z := 25.
Definition SYS_waitcv : Z := 26.
Definition SYS_signalcv : Z := 27.
Definition SYS_prio_set : Z := 28.
Definition SYS_testpqeq : Z := 29.
Definition SYS_testpqdq : Z := 30.
Definition SYS_shmget : Z := 31.
Definition SYS_shmrem : Z := 32.

(** The handlers of sysfile.c. *)
Class FileSyscalls (F : Type) := {
  sys_pipe : M (kst F) Z; sys_read : M (kst F) Z; sys_exec : M (kst F) Z; sys_fstat : M (kst F) Z;
  sys_chdir : M (kst F) Z; sys_dup : M (kst F) Z; sys_open : M (kst F) Z; sys_write : M (kst F) Z;
  sys_mknod : M (kst F) Z; sys_unlink : M (kst F) Z; sys_link : M (kst F) Z; sys_mkdir : M (kst F) Z;
  sys_close : M (kst F) Z }.

(** Interrupt handlers of the devices, and the acknowledgement. *)
Class Devices (F : Type) := {
  ideintr : M (kst F) unit; kbdintr : M (kst F) unit; uartintr : M (kst F) unit; lapiceoi : M (kst F) unit }.

(** What a handler finds on the stack in place of its parameters, what a
    [void] handler leaves in the result register, the address of the string
    constant of [sys_shmget], and a bound for the loop of [sys_testpqdq]. *)
Record stack_junk := mkjunk { j_arg : Z; j_arg2 : Z; j_void : Z; j_failed : Z; j_fuel : nat }.

Section trap.
Context {F : Type} `{!FileOps F} `{!Image} `{!FileSyscalls F} `{!Devices F}.

Definition syscalls (j : stack_junk) : list (option (M (kst F) Z)) :=
  [ None;
    Some sys_fork; Some sys_exit; Some sys_wait; Some sys_pipe; Some sys_read; Some sys_kill;
    Some sys_exec; Some sys_fstat; Some sys_chdir; Some sys_dup; Some sys_getpid; Some sys_sbrk;
    Some sys_sleep; Some sys_uptime; Some sys_open; Some sys_write; Some sys_mknod; Some sys_unlink;
    Some sys_link; Some sys_mkdir; Some sys_close;
    Some (sys_mcreate (j_arg j)); Some (sys_mdelete (j_arg j)); Some (sys_mlock (j_arg j));
    Some (sys_munlock (j_arg j)); Some (sys_waitcv (j_arg j)); Some (sys_signalcv (j_arg j));
    Some (sys_prio_set (j_arg j) (j_arg2 j)); Some (sys_testpqeq;; mret (j_void j));
    Some (sys_testpqdq (j_fuel j);; mret (j_void j));
    Some (sys_shmget (j_failed j)); Some sys_shmrem ].

Definition set_eax (p : nat) (v : Z) : M (kst F) unit :=
  updp p (fun q => set_p_tfr (set_tf_eax (u32 v) (p_tfr q)) q).

(** The end of [syscall], which also runs after a handler that blocked. *)
Definition syscall_return (p : nat) (r : Z) : M (kst F) unit := set_eax p r.

Definition syscall (j : stack_junk) : M (kst F) unit :=
  '(p, pr) ← curproc;
  let num := i32 (tf_eax (p_tfr pr)) in
  match zget (syscalls j) num with
  | Some (Some handler) =>
      if 0 <? num then r ← handler; syscall_return p r else set_eax p (-1)
  | _ => set_eax p (-1)
  end.

(** ** trap *)

Definition killed_exit : M (kst F) unit :=
  '(_, pr) ← curproc; if negb (p_killed pr =? 0) then exit else mret tt.

(** [if (myproc() && myproc()->killed && (tf->cs & 3) == DPL_USER) exit();] *)
Definition exit_if_killed_user (tf : trapframe) : M (kst F) unit :=
  op ← myproc;
  match op with
  | None => mret tt
  | Some p =>
      pr ← getp p;
      if negb (p_killed pr =? 0) && (Z.land (tf_cs tf) 3 =? DPL_USER) then exit else mret tt
  end.

Definition trap_syscall (j : stack_junk) (tf : trapframe) : M (kst F) unit :=
  killed_exit;;
  '(p, _) ← curproc;
  updp p (set_p_tfr tf);;
  syscall j;;
  killed_exit.

(** The clock interrupt. *)
Definition trap_timer : M (kst F) unit :=
  id ← khw cpuid;
  (if Nat.eqb id 0 then
     lock tickslock;;
     setg (fun g => set_ticks (u32 (ticks g + 1)) g);;
     wakeup ChTicks;;
     unlock tickslock
   else mret tt);;
  lapiceoi.

Definition trap_default (tf : trapframe) : M (kst F) unit :=
  op ← myproc;
  match op with
  | None => panic "trap"
  | Some p => if Z.land (tf_cs tf) 3 =? 0 then panic "trap" else updp p (set_p_killed 1)
  end.

Definition trap_dispatch (tf : trapframe) : M (kst F) unit :=
  let n := tf_trapno tf in
  if n =? T_IRQ0 + IRQ_TIMER then trap_timer
  else if n =? T_IRQ0 + IRQ_IDE then ideintr;; lapiceoi
  else if n =? T_IRQ0 + IRQ_IDE + 1 then mret tt
  else if n =? T_IRQ0 + IRQ_KBD then kbdintr;; lapiceoi
  else if n =? T_IRQ0 + IRQ_COM1 then uartintr;; lapiceoi
  else if (n =? T_IRQ0 + 7) || (n =? T_IRQ0 + IRQ_SPURIOUS) then lapiceoi
  else trap_default tf.

Definition trap_yield (tf : trapframe) : M (kst F) unit :=
  op ← myproc;
  match op with
  | None => mret tt
  | Some p =>
      pr ← getp p;
      if bool_decide (p_state pr = RUNNING) && (tf_trapno tf =? T_IRQ0 + IRQ_TIMER) then yield else mret tt
  end.

Definition trap (j : stack_junk) (tf : trapframe) : M (kst F) unit :=
  if tf_trapno tf =? T_SYSCALL then trap_syscall j tf
  else
    trap_dispatch tf;;
    exit_if_killed_user tf;;
    trap_yield tf;;
    exit_if_killed_user tf.

(** The rest of [trap] once a process that yielded runs again. *)
Definition trap_resume (tf : trapframe) (intena : Z) : M (kst F) unit :=
  yield_resume intena;; exit_if_killed_user tf.
End trap.
