(* ===== verification/Asm.v ===== *)
(** * Assembly: context switches and trap entry (swtch.S, trapasm.S, vectors.S)

    The instructions these files use, on the registers of one processor and on the
    word-addressed memory of Kalloc.v; what the processor itself does at a trap and at
    [iret]; and the code of the files as lists of instructions.  The C functions they
    call are a parameter. *)

From Stdlib Require Import ZArith Lia.
From stdpp Require Import base numbers strings gmap list.
From S2P Require Import Prelude.
From S2P Require Import Machine.
From S2P Require Import Kalloc.
From S2P Require Import KState.

Local Open Scope string_scope.
Local Open Scope list_scope.
Local Open Scope Z_scope.

Inductive reg := EAX | ECX | EDX | EBX | ESP | EBP | ESI | EDI.
Inductive sreg := CS | DS | ES | FS | GS | SS.

Scheme Equality for reg.
Scheme Equality for sreg.

Record xcpu := mkx { x_reg : reg -> Z; x_seg : sreg -> Z; x_eip : Z; x_eflags : Z; x_mem : gmap Z Z }.

Definition setr (r : reg) (v : Z) (c : xcpu) : xcpu := mkx (fun r' => if reg_beq r' r then v else x_reg c r') (x_seg c) (x_eip c) (x_eflags c) (x_mem c).
Definition sets (s : sreg) (v : Z) (c : xcpu) : xcpu := mkx (x_reg c) (fun s' => if sreg_beq s' s then v else x_seg c s') (x_eip c) (x_eflags c) (x_mem c).
Definition jump (a : Z) (c : xcpu) : xcpu := mkx (x_reg c) (x_seg c) a (x_eflags c) (x_mem c).
Definition setf (f : Z) (c : xcpu) : xcpu := mkx (x_reg c) (x_seg c) (x_eip c) f (x_mem c).
Definition setm (m : gmap Z Z) (c : xcpu) : xcpu := mkx (x_reg c) (x_seg c) (x_eip c) (x_eflags c) m.

Definition esp (c : xcpu) : Z := x_reg c ESP.
Definition push (v : Z) (c : xcpu) : xcpu := setr ESP (esp c - 4) (setm (st (x_mem c) (esp c - 4) v) c).
Definition top (c : xcpu) : Z := ld (x_mem c) (esp c).
Definition drop4 (c : xcpu) : xcpu := setr ESP (esp c + 4) c.

Inductive instr :=
  | Movl_ld (off : Z) (b d : reg)      (* movl off(%b), %d *)
  | Movl_st (s b : reg)                (* movl %s, (%b) *)
  | Movl (s d : reg)
  | Movl_imm (v : Z) (d : reg)
  | Movw_imm (v : Z) (d : reg)
  | Movw_seg (s : reg) (d : sreg)
  | Pushl (r : reg) | Pushl_imm (v : Z) | Pushl_seg (s : sreg) | Pushal
  | Popl (r : reg) | Popl_seg (s : sreg) | Popal
  | Addl (v : Z) (r : reg)
  | RetI | Iret.

(** [iret] to an outer ring also loads the stack. *)
Definition iret (c : xcpu) : xcpu :=
  let m := x_mem c in let a := esp c in
  let c1 := setf (ld m (a + 8)) (sets CS (ld m (a + 4)) (jump (ld m a) (setr ESP (a + 12) c))) in
  if Z.land (x_seg c CS) 3 <? Z.land (ld m (a + 4)) 3 then sets SS (ld m (a + 16)) (setr ESP (ld m (a + 12)) c1) else c1.

Definition exec1 (i : instr) (c : xcpu) : xcpu :=
  match i with
  | Movl_ld off b d => setr d (ld (x_mem c) (x_reg c b + off)) c
  | Movl_st s b => setm (st (x_mem c) (x_reg c b) (x_reg c s)) c
  | Movl s d => setr d (x_reg c s) c
  | Movl_imm v d => setr d v c
  | Movw_imm v d => setr d (x_reg c d / 65536 * 65536 + v) c
  | Movw_seg s d => sets d (x_reg c s mod 65536) c
  | Pushl r => push (x_reg c r) c
  | Pushl_imm v => push v c
  | Pushl_seg s => push (x_seg c s) c
  | Pushal => push (x_reg c EDI) (push (x_reg c ESI) (push (x_reg c EBP) (push (esp c) (push (x_reg c EBX) (push (x_reg c EDX) (push (x_reg c ECX) (push (x_reg c EAX) c)))))))
  | Popl r => setr r (top c) (drop4 c)
  | Popl_seg s => sets s (top c) (drop4 c)
  | Popal =>
      let m := x_mem c in let a := esp c in
      setr ESP (a + 32) (setr EAX (ld m (a + 28)) (setr ECX (ld m (a + 24)) (setr EDX (ld m (a + 20)) (setr EBX (ld m (a + 16)) (setr EBP (ld m (a + 8)) (setr ESI (ld m (a + 4)) (setr EDI (ld m a) c)))))))
  | Addl v r => setr r (x_reg c r + v) c
  | RetI => jump (top c) (drop4 c)
  | Iret => iret c
  end.

Definition run (p : list instr) (c : xcpu) : xcpu := foldl (fun c i => exec1 i c) c p.

(** ** swtch.S *)

Definition swtch : list instr :=
  [Movl_ld 4 ESP EAX; Movl_ld 8 ESP EDX;
   Pushl EBP; Pushl EBX; Pushl ESI; Pushl EDI;
   Movl_st ESP EAX; Movl EDX ESP;
   Popl EDI; Popl ESI; Popl EBX; Popl EBP; RetI].

(** ** vectors.S and trapasm.S *)

(** Whether vectors.pl leaves the error code to the processor. *)
Definition has_err (i : Z) : bool := (i =? 8) || ((10 <=? i) && (i <=? 14)) || (i =? 17).

Definition vector (i : Z) : list instr := (if has_err i then [] else [Pushl_imm 0]) ++ [Pushl_imm i].

Definition alltraps : list instr :=
  [Pushl_seg DS; Pushl_seg ES; Pushl_seg FS; Pushl_seg GS; Pushal;
   Movw_imm (Z.shiftl SEG_KDATA 3) EAX; Movw_seg EAX DS; Movw_seg EAX ES; Pushl ESP].

Definition trapret_code : list instr := [Popal; Popl_seg GS; Popl_seg FS; Popl_seg ES; Popl_seg DS; Addl 8 ESP; Iret].

(** The exceptions with an error code, as the processor's manual lists them: double
    fault, invalid TSS, segment not present, stack fault, general protection, page
    fault and alignment check. *)
Definition pushes_err (i : Z) : bool := existsb (Z.eqb i) [8; 10; 11; 12; 13; 14; 17].

(** What the processor does at interrupt or exception [i] in user mode: the stack of
    the task state segment, and the gate, which clears the interrupt flag unless it is
    the one for system calls. *)
Definition deliver (esp0 ss0 i err : Z) (istrap : bool) (vec : Z) (c : xcpu) : xcpu :=
  let c1 := sets SS ss0 (setr ESP esp0 c) in
  let c2 := push (x_eip c) (push (x_seg c CS) (push (x_eflags c) (push (esp c) (push (x_seg c SS) c1)))) in
  let c3 := if pushes_err i then push err c2 else c2 in
  jump vec (sets CS (Z.shiftl SEG_KCODE 3) (setf (if istrap then x_eflags c else Z.land (x_eflags c) (Z.lnot FL_IF)) c3)).

(** From the trap to the call of [trap], and the way back. *)
Definition trap_entry (esp0 ss0 i err : Z) (istrap : bool) (vec : Z) (c : xcpu) : xcpu := run (vector i ++ alltraps) (deliver esp0 ss0 i err istrap vec c).
Definition trap_exit (c : xcpu) : xcpu := run (Addl 4 ESP :: trapret_code) c.

(** ** Words in memory *)

Definition words_at (m : gmap Z Z) (a : Z) (ws : list Z) : Prop := forall i w, ws !! i = Some w -> ld m (a + 4 * Z.of_nat i) = w.

Lemma words_cons m a w ws : words_at m a (w :: ws) <-> ld m a = w /\ words_at m (a + 4) ws.
Proof.
  split.
  - intros H. split; [specialize (H 0%nat w eq_refl); by rewrite Z.mul_0_r, Z.add_0_r in H|]. intros i v Hv. specialize (H (S i) v Hv). by replace (a + 4 + 4 * Z.of_nat i) with (a + 4 * Z.of_nat (S i)) by lia.
  - intros [H1 H2] [|i] v Hv; cbn in Hv; [injection Hv as <-; by rewrite Z.mul_0_r, Z.add_0_r|]. specialize (H2 i v Hv). by replace (a + 4 * Z.of_nat (S i)) with (a + 4 + 4 * Z.of_nat i) by lia.
Qed.

Lemma words_st m a b v ws : b < a -> words_at m a ws -> words_at (st m b v) a ws.
Proof. intros Hb H i w Hw. rewrite ld_st_ne by lia. by apply H. Qed.

Lemma words_frame m m' a ws : (forall p, a <= p < a + 4 * Z.of_nat (length ws) -> ld m' p = ld m p) -> words_at m a ws -> words_at m' a ws.
Proof. intros Hm H i w Hw. rewrite Hm; [by apply H|]. apply lookup_lt_Some in Hw. lia. Qed.

(** The words on the stack. *)
Definition stack_is (c : xcpu) (ws : list Z) : Prop := words_at (x_mem c) (esp c) ws.

Lemma stack_push v c ws : stack_is c ws -> stack_is (push v c) (v :: ws).
Proof. intros H. apply words_cons. split; [apply ld_st_eq|]. change (esp (push v c)) with (esp c - 4). replace (esp c - 4 + 4) with (esp c) by lia. apply words_st; [lia|done]. Qed.

Lemma ld_st_at m a b v : a = b -> ld (st m a v) b = v.
Proof. intros <-. apply ld_st_eq. Qed.

Ltac lds := repeat first [rewrite ld_st_ne by lia | rewrite ld_st_at by lia].

(** ** The context switch *)

(** Memory when the old context has been saved. *)
Definition saved (c : xcpu) : gmap Z Z :=
  let a := esp c in let m := x_mem c in
  st (st (st (st (st m (a - 4) (x_reg c EBP)) (a - 4 - 4) (x_reg c EBX)) (a - 4 - 4 - 4) (x_reg c ESI)) (a - 4 - 4 - 4 - 4) (x_reg c EDI)) (ld m (a + 4)) (a - 4 - 4 - 4 - 4).

Lemma swtch_run c : let c' := run swtch c in let m := saved c in let new := ld (x_mem c) (esp c + 8) in
  x_mem c' = m /\ x_reg c' EDI = ld m new /\ x_reg c' ESI = ld m (new + 4) /\ x_reg c' EBX = ld m (new + 8) /\ x_reg c' EBP = ld m (new + 12) /\ x_eip c' = ld m (new + 16) /\ esp c' = new + 20 /\ x_seg c' = x_seg c /\ x_eflags c' = x_eflags c.
Proof.
  cbv zeta. set (new := ld (x_mem c) (esp c + 8)). replace (new + 20) with (new + 4 + 4 + 4 + 4 + 4) by lia. replace (new + 16) with (new + 4 + 4 + 4 + 4) by lia. replace (new + 12) with (new + 4 + 4 + 4) by lia. replace (new + 8) with (new + 4 + 4) by lia.
  repeat split; reflexivity.
Qed.

(** C23. The context switch.  A processor calls [swtch(old, new)] in state [s], and
    later some processor calls it in state [t], with the context that the first call
    left in [*old] as the new one.  If nothing has written to the saved context in the
    meantime, and the second call saves its own elsewhere, the second call returns
    where the first one was made from, with the stack pointer as after a return and
    the registers that a function has to preserve. *)
Theorem swtch_resumes s t :
  let a := esp s in let old := ld (x_mem s) (a + 4) in let old' := ld (x_mem t) (esp t + 4) in
  (old < a - 16 \/ a < old) -> (forall p, a - 16 <= p <= a -> ld (x_mem t) p = ld (x_mem (run swtch s)) p) -> ld (x_mem t) (esp t + 8) = ld (x_mem (run swtch s)) old ->
  (esp t <= a - 16 \/ a + 16 < esp t) -> (old' < a - 16 \/ a < old') ->
  let t' := run swtch t in
  x_reg t' EBX = x_reg s EBX /\ x_reg t' ESI = x_reg s ESI /\ x_reg t' EDI = x_reg s EDI /\ x_reg t' EBP = x_reg s EBP /\ esp t' = a + 4 /\ x_eip t' = ld (x_mem s) a.
Proof.
  cbv zeta. intros Ho Hm Hn Ht Ho'. destruct (swtch_run s) as (Ms & _). cbv zeta in Ms. rewrite Ms in Hm, Hn. destruct (swtch_run t) as (_ & E1 & E2 & E3 & E4 & E5 & E6 & _). cbv zeta in *.
  assert (En : ld (x_mem t) (esp t + 8) = esp s - 16) by (rewrite Hn; unfold saved; lds; lia). rewrite En in *.
  assert (Hs : forall p, esp s - 16 <= p <= esp s -> ld (saved t) p = ld (saved s) p) by (intros p Hp; rewrite <- (Hm p Hp); unfold saved at 1; lds; done).
  rewrite E1, E2, E3, E4, E5, E6, !Hs by lia. unfold saved. split; [by lds|]. split; [by lds|]. split; [by lds|]. split; [by lds|]. split; [lia|]. lds. f_equal. lia.
Qed.

(** ** Traps *)

Definition tf_words (t : trapframe) : list Z :=
  [tf_edi t; tf_esi t; tf_ebp t; tf_oesp t; tf_ebx t; tf_edx t; tf_ecx t; tf_eax t; tf_gs t; tf_fs t; tf_es t; tf_ds t; tf_trapno t; tf_err t; tf_eip t; tf_cs t; tf_eflags t; tf_esp t; tf_ss t].

(** The frame of a processor that is interrupted in user mode; [oesp] is the stack
    pointer that [pushal] saves. *)
Definition user_frame (c : xcpu) (trapno err oesp : Z) : trapframe :=
  mktf (x_reg c EDI) (x_reg c ESI) (x_reg c EBP) oesp (x_reg c EBX) (x_reg c EDX) (x_reg c ECX) (x_reg c EAX)
    (x_seg c GS) (x_seg c FS) (x_seg c ES) (x_seg c DS) trapno err (x_eip c) (x_seg c CS) (x_eflags c) (esp c) (x_seg c SS).

(** The processor runs with the registers of a frame. *)
Definition in_frame (c : xcpu) (t : trapframe) : Prop :=
  tf_words (user_frame c (tf_trapno t) (tf_err t) (tf_oesp t)) = tf_words t.

Lemma stack_nth c ws i w a : stack_is c ws -> ws !! i = Some w -> a = esp c + 4 * Z.of_nat i -> ld (x_mem c) a = w.
Proof. intros H Hw ->. by apply H. Qed.

Lemma stack_drop c c' ws n : stack_is c ws -> x_mem c' = x_mem c -> esp c' = esp c + 4 * Z.of_nat n -> stack_is c' (drop n ws).
Proof. intros H Hm He i w Hw. rewrite lookup_drop in Hw. rewrite Hm, He. apply (stack_nth c ws (n + i)); [done|done|lia]. Qed.

Lemma popal_run c edi esi ebp oesp ebx edx ecx eax ws : stack_is c (edi :: esi :: ebp :: oesp :: ebx :: edx :: ecx :: eax :: ws) ->
  let c' := setr ESP (esp c + 32) (setr EAX eax (setr ECX ecx (setr EDX edx (setr EBX ebx (setr EBP ebp (setr ESI esi (setr EDI edi c))))))) in exec1 Popal c = c' /\ stack_is c' ws.
Proof.
  intros H. split; [|apply (stack_drop c _ _ 8 H); done]. cbn [exec1]. rewrite (stack_nth c _ 0 edi (esp c) H), (stack_nth c _ 1 esi (esp c + 4) H), (stack_nth c _ 2 ebp (esp c + 8) H), (stack_nth c _ 4 ebx (esp c + 16) H), (stack_nth c _ 5 edx (esp c + 20) H), (stack_nth c _ 6 ecx (esp c + 24) H), (stack_nth c _ 7 eax (esp c + 28) H) by (done || lia). done.
Qed.

Lemma popl_seg_run s c w ws : stack_is c (w :: ws) -> exec1 (Popl_seg s) c = sets s w (drop4 c) /\ stack_is (sets s w (drop4 c)) ws.
Proof. intros H. split; [|apply (stack_drop c _ _ 1 H); done]. cbn [exec1]. unfold top. by rewrite (stack_nth c _ 0 w (esp c) H) by (done || lia). Qed.

Lemma iret_run c e cs f sp ss : stack_is c [e; cs; f; sp; ss] -> x_seg c CS = Z.shiftl SEG_KCODE 3 -> Z.land cs 3 = 3 ->
  iret c = sets SS ss (setr ESP sp (setf f (sets CS cs (jump e (setr ESP (esp c + 12) c))))).
Proof.
  intros H Hk Hu. unfold iret. rewrite (stack_nth c _ 0 e (esp c) H), (stack_nth c _ 1 cs (esp c + 4) H), (stack_nth c _ 2 f (esp c + 8) H), (stack_nth c _ 3 sp (esp c + 12) H), (stack_nth c _ 4 ss (esp c + 16) H) by (done || lia). by rewrite Hk, Hu.
Qed.

Lemma trapret_run c t : stack_is c (tf_words t) -> x_seg c CS = Z.shiftl SEG_KCODE 3 -> Z.land (tf_cs t) 3 = 3 -> in_frame (run trapret_code c) t.
Proof.
  intros H0 Hk Hu. unfold run, trapret_code. cbn [foldl]. destruct (popal_run _ _ _ _ _ _ _ _ _ _ H0) as [-> H1]. destruct (popl_seg_run GS _ _ _ H1) as [-> H2]. destruct (popl_seg_run FS _ _ _ H2) as [-> H3]. destruct (popl_seg_run ES _ _ _ H3) as [-> H4]. destruct (popl_seg_run DS _ _ _ H4) as [-> H5].
  match goal with |- in_frame (exec1 Iret (exec1 (Addl 8 ESP) ?c')) _ => pose proof (stack_drop c' (exec1 (Addl 8 ESP) c') _ 2 H5 eq_refl eq_refl) as H6 end. cbn [drop] in H6. cbn [exec1]. cbn [exec1] in H6. rewrite (iret_run _ _ _ _ _ _ H6 Hk Hu). by destruct t.
Qed.

(** On the way in, the frame is built at the top of the kernel stack. *)
Lemma stack_same c c' ws : x_mem c' = x_mem c -> esp c' = esp c -> stack_is c ws -> stack_is c' ws.
Proof. unfold stack_is. by intros -> ->. Qed.

(** A processor that has pushed words [ws] since the stack pointer was [a], and has the
    other registers of [u]. *)
Record pushed (u : xcpu) (a : Z) (ws : list Z) (c : xcpu) : Prop := {
  pu_stack : stack_is c ws; pu_esp : esp c = a - 4 * Z.of_nat (length ws); pu_reg : forall r, r <> ESP -> x_reg c r = x_reg u r; pu_seg : forall s, s <> CS -> s <> SS -> x_seg c s = x_seg u s }.

Lemma pushed_push u a ws c v : pushed u a ws c -> pushed u a (v :: ws) (push v c).
Proof.
  intros [H1 H2 H3 H4]. split; [by apply stack_push|change (esp c - 4 = a - 4 * Z.of_nat (S (length ws))); lia| |exact H4]. intros r Hr. rewrite <- H3 by done. by destruct r.
Qed.

Lemma pushed_gate u a ws c vec cs f : pushed u a ws c -> pushed u a ws (jump vec (sets CS cs (setf f c))).
Proof.
  intros [H1 H2 H3 H4]. split; [by apply (stack_same c)|exact H2|exact H3|]. intros s Hs1 Hs2. rewrite <- H4 by done. by destruct s.
Qed.

(** The generated vectors push a zero exactly where the processor pushes nothing. *)
Lemma has_err_pushes i : has_err i = pushes_err i.
Proof.
  apply eq_true_iff_eq. unfold has_err, pushes_err. rewrite existsb_exists, !orb_true_iff, andb_true_iff, !Z.leb_le, !Z.eqb_eq. split.
  - intros H. exists i. split; [|apply Z.eqb_refl]. simpl. lia.
  - intros (j & Hj & <-%Z.eqb_eq). simpl in Hj. lia.
Qed.

Lemma deliver_run esp0 ss0 i err istrap vec u : let c := run (vector i) (deliver esp0 ss0 i err istrap vec u) in
  pushed u esp0 [i; if pushes_err i then err else 0; x_eip u; x_seg u CS; x_eflags u; esp u; x_seg u SS] c /\ x_seg c CS = Z.shiftl SEG_KCODE 3.
Proof.
  cbv zeta. unfold deliver. set (c1 := sets SS ss0 (setr ESP esp0 u)).
  assert (H1 : pushed u esp0 [] c1). { split; [intros j w Hw; by rewrite lookup_nil in Hw|change (esp0 = esp0 - 4 * Z.of_nat 0); lia|by intros []|by intros []]. }
  apply (pushed_push _ _ _ _ (x_seg u SS)) in H1. apply (pushed_push _ _ _ _ (esp u)) in H1. apply (pushed_push _ _ _ _ (x_eflags u)) in H1. apply (pushed_push _ _ _ _ (x_seg u CS)) in H1. apply (pushed_push _ _ _ _ (x_eip u)) in H1.
  unfold vector. rewrite has_err_pushes. set (f := if istrap then _ else _). destruct (pushes_err i); cbn [app run foldl exec1].
  - split; [|reflexivity]. by apply pushed_push, pushed_gate, pushed_push.
  - split; [|reflexivity]. by apply pushed_push, pushed_push, pushed_gate.
Qed.

Lemma pushal_run u a ws c : pushed u a ws c -> pushed u a ([x_reg u EDI; x_reg u ESI; x_reg u EBP; esp c; x_reg u EBX; x_reg u EDX; x_reg u ECX; x_reg u EAX] ++ ws) (exec1 Pushal c).
Proof. intros H. pose proof (pu_reg _ _ _ _ H) as E. rewrite <- !E by done. cbn [exec1 app]. by do 8 apply pushed_push. Qed.

Lemma push_seg_run u a ws c s : s <> CS -> s <> SS -> pushed u a ws c -> pushed u a (x_seg u s :: ws) (exec1 (Pushl_seg s) c).
Proof. intros H1 H2 H. rewrite <- (pu_seg _ _ _ _ H s H1 H2). by apply pushed_push. Qed.

Lemma push_seg_seg s c : x_seg (exec1 (Pushl_seg s) c) = x_seg c.
Proof. reflexivity. Qed.

Lemma pushal_seg c : x_seg (exec1 Pushal c) = x_seg c.
Proof. reflexivity. Qed.

Lemma run_cons i p c : run (i :: p) c = run p (exec1 i c).
Proof. reflexivity. Qed.

Lemma run_app p q c : run (p ++ q) c = run q (run p c).
Proof. apply foldl_app. Qed.

(** The kernel's data segments, and the address of the frame. *)
Definition kernel_segs : list instr := [Movw_imm (Z.shiftl SEG_KDATA 3) EAX; Movw_seg EAX DS; Movw_seg EAX ES; Pushl ESP].

Lemma kernel_segs_run c ws : stack_is c ws -> let c' := run kernel_segs c in
  stack_is c' (esp c :: ws) /\ esp c' = esp c - 4 /\ x_seg c' CS = x_seg c CS /\ x_seg c' DS = Z.shiftl SEG_KDATA 3 /\ x_seg c' ES = Z.shiftl SEG_KDATA 3.
Proof.
  intros H. cbv zeta. unfold kernel_segs. rewrite 3 run_cons. set (c3 := exec1 (Movw_seg EAX ES) _). assert (H3 : stack_is c3 ws) by exact (stack_same c c3 ws eq_refl eq_refl H).
  assert (Hsel : forall s, s = DS \/ s = ES -> x_seg c3 s = Z.shiftl SEG_KDATA 3). { intros s Hs. assert (E : x_seg c3 s = (x_reg c EAX / 65536 * 65536 + Z.shiftl SEG_KDATA 3) mod 65536) by (destruct Hs as [-> | ->]; reflexivity). rewrite E, Z.add_comm, Z.mod_add by lia. reflexivity. }
  assert (E : esp c3 = esp c) by reflexivity. assert (Ec : x_seg c3 CS = x_seg c CS) by reflexivity. clearbody c3. rewrite run_cons. change (run [] ?x) with x. change (exec1 (Pushl ESP) c3) with (push (esp c3) c3). rewrite <- E, <- Ec.
  split; [by apply stack_push|]. split; [done|]. split; [done|]. split; [apply (Hsel DS); by left|apply (Hsel ES); by right].
Qed.

Lemma trap_entry_run esp0 ss0 i err istrap vec u : let e := trap_entry esp0 ss0 i err istrap vec u in let fa := esp0 - sizeof_trapframe in
  stack_is e (fa :: tf_words (user_frame u i (if pushes_err i then err else 0) (fa + 32))) /\ esp e = fa - 4 /\ x_seg e CS = Z.shiftl SEG_KCODE 3 /\ x_seg e DS = Z.shiftl SEG_KDATA 3 /\ x_seg e ES = Z.shiftl SEG_KDATA 3.
Proof.
  cbv zeta. unfold trap_entry. rewrite run_app. destruct (deliver_run esp0 ss0 i err istrap vec u) as (H & Hc). set (c := run (vector i) _) in *. clearbody c. change alltraps with ([Pushl_seg DS; Pushl_seg ES; Pushl_seg FS; Pushl_seg GS; Pushal] ++ kernel_segs). rewrite run_app, !run_cons. change (run [] ?x) with x.
  apply (push_seg_run _ _ _ _ DS) in H; [|done..]. apply (push_seg_run _ _ _ _ ES) in H; [|done..]. apply (push_seg_run _ _ _ _ FS) in H; [|done..]. apply (push_seg_run _ _ _ _ GS) in H; [|done..]. pose proof (pu_esp _ _ _ _ H) as Eo. apply pushal_run in H. rewrite Eo in H.
  assert (Hc5 : x_seg (exec1 Pushal (exec1 (Pushl_seg GS) (exec1 (Pushl_seg FS) (exec1 (Pushl_seg ES) (exec1 (Pushl_seg DS) c))))) CS = Z.shiftl SEG_KCODE 3) by (rewrite pushal_seg, !push_seg_seg; exact Hc). set (c5 := exec1 Pushal _) in *. clearbody c5. destruct H as [H1 H2 _ _]. cbn [length app] in H1, H2.
  destruct (kernel_segs_run c5 _ H1) as (H3 & E3 & Ec & Ed & Ee). rewrite Ec, E3, H2. unfold sizeof_trapframe. split; [|split; [lia|done]].
  unfold tf_words, user_frame. cbn [tf_edi tf_esi tf_ebp tf_oesp tf_ebx tf_edx tf_ecx tf_eax tf_gs tf_fs tf_es tf_ds tf_trapno tf_err tf_eip tf_cs tf_eflags tf_esp tf_ss].
  replace (esp0 - 76 + 32) with (esp0 - 4 * Z.of_nat 11) by lia. replace (esp0 - 76) with (esp c5) by lia. exact H3.
Qed.

(** C21. Traps are transparent.  A trap in user mode builds at the top of the kernel
    stack, for each of the 256 vectors, with and without an error code from the
    processor, a trap frame of the one layout of x86.h: all registers of the
    interrupted program, the number of the vector and the error code or 0; and it
    calls [trap] with the address of the frame and the kernel's data segments.  When
    [trap] returns, with whatever it has done to the frame, the processor goes on in
    user mode with exactly the registers that are in the frame. *)
Theorem trap_roundtrip u esp0 ss0 i err istrap vec :
  let e := trap_entry esp0 ss0 i err istrap vec u in let fa := esp0 - sizeof_trapframe in
  (top e = fa /\ words_at (x_mem e) fa (tf_words (user_frame u i (if pushes_err i then err else 0) (fa + 32))) /\ x_seg e DS = Z.shiftl SEG_KDATA 3 /\ x_seg e ES = Z.shiftl SEG_KDATA 3) /\
  forall r tf, esp r = esp e -> x_seg r CS = x_seg e CS -> words_at (x_mem r) fa (tf_words tf) -> Z.land (tf_cs tf) 3 = 3 -> in_frame (trap_exit r) tf.
Proof.
  cbv zeta. destruct (trap_entry_run esp0 ss0 i err istrap vec u) as (H & He & Hc & Hd & Hs). set (e := trap_entry _ _ _ _ _ _ _) in *. clearbody e. unfold stack_is in H. apply words_cons in H as [Ht Hw]. rewrite He in Hw. replace (esp0 - sizeof_trapframe - 4 + 4) with (esp0 - sizeof_trapframe) in Hw by lia.
  split; [done|]. intros r tf Hr Hrc Hrw Hu. unfold trap_exit. rewrite run_cons. apply trapret_run; [|by rewrite <- Hc, <- Hrc|done].
  unfold stack_is. change (esp (exec1 (Addl 4 ESP) r)) with (esp r + 4). rewrite Hr, He. by replace (esp0 - sizeof_trapframe - 4 + 4) with (esp0 - sizeof_trapframe) by lia.
Qed.

(** The first run of a process.  A processor that switches to the context that
    [allocproc] has built on a new kernel stack continues in [forkret]; when that
    returns, it runs [trapret], which puts it into user mode with the registers of the
    process's trap frame. *)
Theorem first_run t ctx fk tr tf :
  let old := ld (x_mem t) (esp t + 4) in
  ld (x_mem t) (esp t + 8) = ctx -> words_at (x_mem t) ctx ([0; 0; 0; 0; fk] ++ [tr] ++ tf_words tf) ->
  (esp t <= ctx \/ ctx + 100 <= esp t - 16) -> (old < ctx \/ ctx + 100 <= old) -> Z.land (tf_cs tf) 3 = 3 ->
  let t' := run swtch t in
  x_eip t' = fk /\ esp t' = ctx + sizeof_context /\
  forall r, esp r = esp t' -> x_seg r CS = Z.shiftl SEG_KCODE 3 -> words_at (x_mem r) (ctx + sizeof_context) (tr :: tf_words tf) ->
    x_eip (exec1 RetI r) = tr /\ in_frame (run trapret_code (exec1 RetI r)) tf.
Proof.
  cbv zeta. intros Hn Hw Ht Ho Hu. destruct (swtch_run t) as (Em & _ & _ & _ & _ & E5 & E6 & _). cbv zeta in *. rewrite Hn in *.
  assert (Hs : words_at (saved t) ctx ([0; 0; 0; 0; fk] ++ [tr] ++ tf_words tf)) by (apply (words_frame (x_mem t)); [|done]; cbn [length app tf_words]; intros p Hp; unfold saved; lds; done).
  split; [rewrite E5; exact (Hs 4%nat fk eq_refl)|]. split; [exact E6|]. intros r Hr Hc Hrw. apply words_cons in Hrw as [H1 H2]. rewrite E6 in Hr. unfold sizeof_context in *.
  split; [change (top r = tr); unfold top; by rewrite Hr|]. apply trapret_run; [|done|done]. unfold stack_is. change (esp (exec1 RetI r)) with (esp r + 4). by rewrite Hr.
Qed.

(** ** Examples *)

Definition regs0 (sp : Z) : reg -> Z := fun r => match r with ESP => sp | EAX => 1 | ECX => 2 | EDX => 3 | EBX => 4 | EBP => 5 | ESI => 6 | EDI => 7 end.
Definition kernel0 (sp : Z) (m : gmap Z Z) : xcpu := mkx (regs0 sp) (fun s => match s with CS => 8 | _ => 16 end) 0 0 m.
Definition caller1 : xcpu := kernel0 0x1000 (st (st (st ∅ 0x1000 77) 0x1004 0x5000) 0x1008 0x2000).
Definition caller2 : xcpu := kernel0 0x3000 (st (st (x_mem (run swtch caller1)) 0x3004 0x6000) 0x3008 0xff0).

Lemma swtch_resumes_witness : x_eip (run swtch caller2) = 77 /\ esp (run swtch caller2) = 0x1004.
Proof.
  destruct (swtch_resumes caller1 caller2) as (_ & _ & _ & _ & H1 & H2); [vm_compute; by right| |vm_compute; reflexivity|right; vm_compute; reflexivity|right; vm_compute; reflexivity|by split; [exact H2|exact H1]].
  intros p Hp. change (esp caller1) with 0x1000 in Hp. change (x_mem caller2) with (st (st (x_mem (run swtch caller1)) 0x3004 0x6000) 0x3008 0xff0). by rewrite !ld_st_ne by lia.
Defined.

Definition user0 : xcpu := mkx (regs0 0x2ff0) (fun s => match s with CS => 27 | _ => 35 end) 0x1234 0x202 ∅.

Lemma trap_roundtrip_witness : in_frame (trap_exit (trap_entry 0x80100000 16 64 0 true 0x80105000 user0)) (user_frame user0 64 0 0x800fffd4).
Proof.
  destruct (trap_roundtrip user0 0x80100000 16 64 0 true 0x80105000) as ((_ & H1 & _) & H2). apply (H2 (trap_entry 0x80100000 16 64 0 true 0x80105000 user0)); [done|done|exact H1|vm_compute; reflexivity].
Defined.

(** A new process: its context, [trapret] and its frame. *)
Definition new_stack : list Z := [0; 0; 0; 0; 1111] ++ [2222] ++ tf_words (user_frame user0 0 0 0).
Definition switcher : xcpu := kernel0 0x3000 (st (st (foldr (fun e m => st m (0x1000 + 4 * Z.of_nat e.1) e.2) ∅ (imap (fun i w => (i, w)) new_stack)) 0x3004 0x5000) 0x3008 0x1000).

Lemma new_stack_at : words_at (x_mem switcher) 0x1000 new_stack.
Proof. intros i w Hw. do 25 (destruct i as [|i]; [injection Hw as <-; vm_compute; reflexivity|]). done. Qed.

Lemma first_run_witness : x_eip (run swtch switcher) = 1111 /\ x_eip (exec1 RetI (run swtch switcher)) = 2222 /\ in_frame (run trapret_code (exec1 RetI (run swtch switcher))) (user_frame user0 0 0 0).
Proof.
  destruct (first_run switcher 0x1000 1111 2222 (user_frame user0 0 0 0)) as (H1 & H2 & H3); [vm_compute; reflexivity|exact new_stack_at|right; vm_compute; discriminate|right; vm_compute; discriminate|vm_compute; reflexivity|].
  split; [exact H1|]. apply H3; [reflexivity|vm_compute; reflexivity|]. intros i w Hw. do 20 (destruct i as [|i]; [injection Hw as <-; vm_compute; reflexivity|]). done.
Defined.
