(* ===== verification/Mutex.v ===== *)
(** * Mutexes and condition variables: what the handlers of sysproc.c do

    The wait queues (the global one of the mutexes and the one of each
    condition variable) are FIFO lists of distinct processes; the theorems
    state every branch of the handlers on that abstraction. *)

From Stdlib Require Import ZArith Lia.
From stdpp Require Import base numbers strings gmap list.
From S2P Require Import Prelude.
From S2P Require Import Machine.
From S2P Require Import Spinlock.
From S2P Require Import Kalloc.
From S2P Require Import Vm.
From S2P Require Import KState.
From S2P Require Import PQueue.
From S2P Require Import Proc.
From S2P Require Import ProcInv.
From S2P Require Import Sched.
From S2P Require Import SchedSys.
From S2P Require Import Args.
From S2P Require Import ArgsSpec.
From S2P Require Import Sysproc.

Local Open Scope string_scope.
Local Open Scope list_scope.
Local Open Scope Z_scope.

(** ** Wait queues *)

(** The array [q] holds the distinct processes [l], in order of arrival. *)
Definition wq_rep (q : list (option nat)) (l : list nat) : Prop :=
  q = (Some <$> l) ++ replicate (1000 - length l) None /\ (length l <= 1000)%nat /\ NoDup l.

Lemma find_first_app_l {A} (f : A -> bool) l1 l2 i : find_first f l1 = Some i -> find_first f (l1 ++ l2) = Some i.
Proof.
  intros [(x & Hx & Hfx) Hmin]%find_first_Some. apply find_first_Some. split.
  - exists x. split; [by apply lookup_app_l_Some|done].
  - intros j y Hj Hy. apply (Hmin j); [done|]. rewrite lookup_app_l in Hy; [done|]. apply lookup_lt_Some in Hx. lia.
Qed.

Lemma find_first_app_r {A} (f : A -> bool) l1 x l2 :
  Forall (fun y => f y = false) l1 -> f x = true -> find_first f (l1 ++ x :: l2) = Some (length l1).
Proof.
  intros Hall Hx. apply find_first_Some. split.
  - exists x. split; [by apply list_lookup_middle|done].
  - intros j y Hj Hy. rewrite lookup_app_l in Hy by done. rewrite Forall_lookup in Hall. eauto.
Qed.

Definition wq_slot (p : nat) (o : option nat) : bool := bool_decide (o = Some p) || bool_decide (o = None).

(** Adding a process: it joins at the end unless it is already waiting. *)
Lemma wq_add_in q l p : wq_rep q l -> p ∈ l -> wq_add p q = Some q.
Proof.
  intros (-> & Hl & Hnd) Hp. unfold wq_add. fold (wq_slot p).
  assert (exists i, find_first (wq_slot p) (Some <$> l) = Some i /\ l !! i = Some p) as (i & Hf & Hi).
  { clear -Hp. induction l as [|x l IH]; [by apply elem_of_nil in Hp|].
    rewrite fmap_cons. cbn [find_first]. unfold wq_slot at 1.
    destruct (decide (x = p)) as [->|Hne].
    - rewrite bool_decide_eq_true_2 by done. by exists 0%nat.
    - rewrite !bool_decide_eq_false_2 by congruence. cbn [orb]. apply elem_of_cons in Hp as [->|Hp]; [done|].
      destruct (IH Hp) as (i & Hf & Hi). exists (S i). by rewrite Hf. }
  rewrite (find_first_app_l _ _ _ i Hf). f_equal. apply list_insert_id.
  apply lookup_app_l_Some. by rewrite list_lookup_fmap, Hi.
Qed.

Lemma wq_free q l p : wq_rep q l -> p ∉ l -> Forall (fun o => wq_slot p o = false) (Some <$> l).
Proof.
  intros _ Hp. apply Forall_fmap, Forall_forall. intros x Hx. simpl. unfold wq_slot.
  rewrite !bool_decide_eq_false_2; [done|done|]. intros [= ->]. done.
Qed.

Lemma wq_add_new q l p :
  wq_rep q l -> p ∉ l -> (length l < 1000)%nat -> exists q', wq_add p q = Some q' /\ wq_rep q' (l ++ [p]).
Proof.
  intros Hq Hp Hl. pose proof (wq_free q l p Hq Hp) as Hfree. destruct Hq as (-> & _ & Hnd). unfold wq_add. fold (wq_slot p).
  destruct (1000 - length l)%nat as [|n] eqn:E; [lia|]. cbn [replicate].
  rewrite (find_first_app_r _ _ None); [|done|unfold wq_slot; by rewrite orb_true_r].
  eexists. split; [done|]. split; [|split].
  - rewrite length_fmap, insert_app_r_alt by (rewrite length_fmap; lia). rewrite length_fmap, Nat.sub_diag.
    change (<[0%nat := Some p]> (None :: replicate n None)) with (Some p :: replicate n None).
    rewrite fmap_app, <- app_assoc, length_app. simpl. do 3 f_equal. lia.
  - rewrite length_app. simpl. lia.
  - apply NoDup_app. split; [done|]. split; [|apply NoDup_singleton]. intros x Hx ->%list_elem_of_singleton. done.
Qed.

Lemma wq_add_full q l p : wq_rep q l -> p ∉ l -> length l = 1000%nat -> wq_add p q = None.
Proof.
  intros Hq Hp Hl. pose proof (wq_free q l p Hq Hp) as Hfree. destruct Hq as (-> & _ & _). unfold wq_add. fold (wq_slot p).
  rewrite Hl, Nat.sub_diag. simpl. rewrite app_nil_r. by rewrite (proj2 (find_first_None _ _) Hfree).
Qed.

(** Shifting removes the first process. *)
Lemma wq_shift q x l : wq_rep q (x :: l) -> q !! 0%nat = Some (Some x) /\ wq_rep (shift_queue q) l.
Proof.
  intros (-> & Hl & Hnd). simpl in Hl. apply NoDup_cons in Hnd as [_ Hnd]. split; [done|]. split; [|split; [lia|done]].
  unfold shift_queue. rewrite fmap_cons, <- app_comm_cons. cbn [drop]. rewrite drop_0, <- app_assoc. f_equal.
  rewrite <- replicate_cons_app. cbn [length].
  change (None :: replicate (1000 - S (length l)) None) with (replicate (S (1000 - S (length l))) (@None nat)). f_equal. lia.
Qed.

Lemma wq_empty q : wq_rep q [] -> q !! 0%nat = Some None.
Proof. by intros (-> & _). Qed.

(** ** Runs of the handlers *)

Section mutex.
Context {F : Type}.
Implicit Types k : kst F.

Definition upd_mux (m : nat) (f : mutex -> mutex) (k : kst F) : kst F :=
  set_kx (set_muxes (alter f m (muxes (kx k))) (kx k)) k.
Definition put_wqueue (q : list (option nat)) (k : kst F) : kst F := set_kx (set_wqueue q (kx k)) k.

Lemma touched_upd_mux c m f k : touched c (upd_mux m f k) = upd_mux m f (touched c k).
Proof. done. Qed.

Lemma getmux_run m mx k : muxes (kx k) !! m = Some mx -> getmux m k = Ret mx k.
Proof. intros H. unfold getmux. mexec. by rewrite H. Qed.

Lemma updmux_run m mx f k : muxes (kx k) !! m = Some mx -> updmux m f k = Ret tt (upd_mux m f k).
Proof. intros H. unfold updmux. by rewrite bind_run, (getmux_run m mx). Qed.

Lemma mux_ptr_run p pr muxid o k :
  procs (kp k) !! p = Some pr -> zget (p_mux_ptrs pr) muxid = Some o -> mux_ptr p muxid k = Ret o k.
Proof. intros Hp Ho. unfold mux_ptr. mstep (getp_run p pr k Hp). mexec. by rewrite Ho. Qed.

(** A critical section under a lock other than ptable.lock whose body changes
    neither the CPU nor the locks: entered, run and left. *)
Lemma section_run {A B} k k' c lk (body : M (kst F) A) (rest : A -> M (kst F) B) a :
  runs_on (kh k) c -> lock_ready (kh k) lk -> touched c k = k ->
  body (inside c lk k) = Ret a k' -> kh k' = acq_hw c lk (kh k) ->
  (lock lk;; x ← body; unlock lk;; rest x) k = rest a (set_kh (kh k) k').
Proof.
  intros Hr Hl Ht Hb Hk. mstep (lock_run k c lk Hr Hl). mstep Hb.
  erewrite (bind_ret_run (unlock lk)); [|by apply (unlock_run k _ c)].
  assert (touch c (kh k) = kh k) as ->; [|done]. unfold touched in Ht. rewrite <- Ht at 2. done.
Qed.

(** The situation at the start of a handler: process [p] with entry [pr] runs
    on [c], [muxid] is its first argument and names mutex [m] of the table. *)
Definition handler_at (k : kst F) (c p : nat) (pr : proc) (muxid : Z) (o : option nat) : Prop :=
  running k c p /\ lock_ready (kh k) mutexes_lock /\ lock_ready (kh k) wqueue_lock /\
  procs (kp k) !! p = Some pr /\ arg_is k pr 0 muxid /\ zget (p_mux_ptrs pr) muxid = Some o.

(** Every handler first fetches [muxid] and the process. *)
Lemma handler_arg k c p pr muxid o : handler_at k c p pr muxid o -> argint 0 k = Ret (Some muxid) (touched c k).
Proof. intros (Hr & _ & _ & Hp & Ha & _). by apply (argint_run k c p pr). Qed.

Lemma handler_cur k c p pr muxid o : handler_at k c p pr muxid o -> curproc (touched c k) = Ret (p, pr) (touched c k).
Proof.
  intros (Hr & _ & _ & Hp & _ & _). rewrite (curproc_run (touched c k) c p pr); [by rewrite touched_touched| |done].
  by apply running_touched.
Qed.

Lemma handler_touched k c p pr muxid o : handler_at k c p pr muxid o -> handler_at (touched c k) c p pr muxid o.
Proof. intros (Hr & H). split; [by apply running_touched|exact H]. Qed.

(** *** sys_mlock *)

Lemma mlock_loop_free k c o p pr muxid m mx :
  at_rest k c o -> lock_ready (kh k) mutexes_lock -> procs (kp k) !! p = Some pr ->
  zget (p_mux_ptrs pr) muxid = Some (Some m) -> muxes (kx k) !! m = Some mx -> m_state mx <> 1 ->
  mlock_loop p muxid (inside c mutexes_lock k) = Ret 1 (touched c (upd_mux m (set_m_state 1) k)).
Proof.
  intros (Hr & _) Hl Hp Hz Hm Hs. unfold mlock_loop. set (k1 := inside c mutexes_lock k).
  mstep (mux_ptr_run p pr muxid (Some m) k1 Hp Hz). unfold nonnull_mux. rewrite bind_some.
  mstep (getmux_run m mx k1 Hm). destruct (Z.eqb_spec (m_state mx) 1); [done|].
  mstep (updmux_run m mx (set_m_state 1) k1 Hm).
  erewrite (bind_ret_run (unlock mutexes_lock)); [|by apply (unlock_run k _ c)]. done.
Qed.

Lemma mlock_enqueue_run k k' c o p q :
  at_rest k c o -> lock_ready (kh k) wqueue_lock -> wqueue (kx k) = q ->
  kh k' = acq_hw c mutexes_lock (kh k) -> kx k' = kx k ->
  mlock_enqueue p k' = match wq_add p q with Some q' => Ret true (put_wqueue q' k') | None => Ret false k' end.
Proof.
  intros (Hr & _) Hl Hq Hk Hx. destruct (acq_hw_runs_on (kh k) c mutexes_lock Hr) as [Hr1 _].
  assert (Hr2 : runs_on (kh k') c) by by rewrite Hk.
  assert (Hl2 : lock_ready (kh k') wqueue_lock) by (rewrite Hk; by apply lock_ready_acq).
  assert (Ht : touch c (kh k') = kh k') by (rewrite Hk; by apply touch_acq).
  unfold mlock_enqueue. mstep (lock_run k' c _ Hr2 Hl2). rewrite bind_gets.
  change (wqueue (kx (inside c wqueue_lock k'))) with (wqueue (kx k')). rewrite Hx, Hq.
  destruct (wq_add p q) as [q'|].
  - rewrite bind_modify. erewrite (bind_ret_run (unlock wqueue_lock)); [|by apply (unlock_run k' _ c)].
    rewrite Ht. by destruct k' as [[] ? ? ? ? ? ?].
  - erewrite (bind_ret_run (unlock wqueue_lock)); [|by apply (unlock_run k' _ c)].
    rewrite Ht. by destruct k' as [[] ? ? ? ? ? ?].
Qed.

Lemma mlock_loop_busy k c p pr muxid m mx q :
  at_rest k c (Some p) -> lock_ready (kh k) mutexes_lock -> lock_ready (kh k) wqueue_lock ->
  procs (kp k) !! p = Some pr -> zget (p_mux_ptrs pr) muxid = Some (Some m) ->
  muxes (kx k) !! m = Some mx -> m_state mx = 1 -> wqueue (kx k) = q -> touched c k = k ->
  mlock_loop p muxid (inside c mutexes_lock k) =
    match wq_add p q with
    | Some q' => Wait OnSched (upd_k p (set_p_state SLEEPING) (put_wqueue q' (inside c ptable_lock k)))
    | None => Ret 0 (inside c mutexes_lock k)
    end.
Proof.
  intros Hat Hl Hlw Hp Hz Hm Hs Hq Ht. pose proof Hat as (Hr & Hlp & _). unfold mlock_loop. set (k1 := inside c mutexes_lock k).
  mstep (mux_ptr_run p pr muxid (Some m) k1 Hp Hz). unfold nonnull_mux. rewrite bind_some.
  mstep (getmux_run m mx k1 Hm). destruct (Z.eqb_spec (m_state mx) 1); [|done].
  rewrite bind_run, (mlock_enqueue_run k k1 c _ p q Hat Hlw Hq eq_refl eq_refl).
  destruct (wq_add p q) as [q'|]; [|done]. cbn [negb].
  erewrite (bind_ret_run (unlock mutexes_lock)); [|by apply (unlock_run k _ c)].
  set (k2 := set_kh (touch c (kh k)) (put_wqueue q' k1)).
  assert (Hk2 : kh k2 = kh k) by (unfold k2; rewrite kh_set_kh; unfold touched in Ht; rewrite <- Ht at 2; done).
  assert (Hat2 : at_rest k2 c (Some p)) by (unfold at_rest; rewrite Hk2; exact Hat).
  mstep (lock_run k2 c ptable_lock (proj1 Hat2) (proj1 (proj2 Hat2))).
  mstep (updp_run p pr (set_p_state SLEEPING) (inside c ptable_lock k2) Hp).
  erewrite (bind_run sched), (sched_run k2 _ c p); [|by apply at_rest_running|by eapply at_rest_depth|done|by apply upd_k_lookup|done].
  f_equal. unfold inside. rewrite Hk2. done.
Qed.

Lemma sys_mlock_start k c p pr muxid muxid0 o :
  handler_at k c p pr muxid o ->
  sys_mlock muxid0 k = match o with
                       | None => Ret 0 (touched c k)
                       | Some _ => mlock_loop p muxid (inside c mutexes_lock (touched c k))
                       end.
Proof.
  intros Hh. unfold sys_mlock. mstep (handler_arg _ _ _ _ _ _ Hh). mstep (handler_cur _ _ _ _ _ _ Hh).
  cbn [default from_option id]. apply handler_touched in Hh. destruct Hh as ([Hr _] & Hl & _ & Hp & _ & Hz).
  mstep (mux_ptr_run p pr muxid o (touched c k) Hp Hz). destruct o; [|done].
  by mstep (lock_run (touched c k) c mutexes_lock Hr Hl).
Qed.

(** *** sys_munlock and sys_signalcv *)

Lemma wake_process_run k c o qs p pr :
  at_rest k c o -> runq (kp k) qs -> procs (kp k) !! p = Some pr -> p_state pr <> RUNNABLE ->
  exists t', wake_process p k = Ret tt (set_kp t' (touched c k)) /\
    procs t' = alter (set_p_state RUNNABLE) p (procs (kp k)) /\
    runq t' (spec_enqueue (Z.to_nat (p_priority pr)) p qs).
Proof.
  intros (Hr & Hl & _) Hq Hp Hs. destruct (wake_run (inside c ptable_lock k) qs p pr Hq Hp Hs) as (t' & Hw & Hpr & Hrq).
  exists t'. split; [|by split]. unfold wake_process. mstep (lock_run k c _ Hr Hl). rewrite <- bind_assoc_run. mstep Hw.
  by rewrite (unlock_run k _ c).
Qed.

(** The wakeup at the end of both handlers, from a state that has been touched. *)
Lemma touched_kh k c : touched c k = k -> touch c (kh k) = kh k.
Proof. intros H. unfold touched in H. rewrite <- H at 2. done. Qed.

Lemma munlock_tail k c q :
  runs_on (kh k) c -> lock_ready (kh k) wqueue_lock -> touched c k = k -> wqueue (kx k) = q ->
  (lock wqueue_lock;;
   q ← gets (fun k => wqueue (kx k));
   head ← of_option "wqueue[0]" (q !! 0%nat);
   match head with
   | None => unlock wqueue_lock;; mret 1
   | Some sleepy =>
       modify (fun k => set_kx (set_wqueue (shift_queue q) (kx k)) k);;
       unlock wqueue_lock;; wake_process sleepy;; mret 1
   end) k =
  match q !! 0%nat with
  | None => Fault "wqueue[0]"
  | Some None => Ret 1 k
  | Some (Some sleepy) => (wake_process sleepy;; mret 1) (put_wqueue (shift_queue q) k)
  end.
Proof.
  intros Hr Hl Ht Hq. pose proof (touched_kh k c Ht) as Ht'. mstep (lock_run k c _ Hr Hl). rewrite bind_gets.
  change (wqueue (kx (inside c wqueue_lock k))) with (wqueue (kx k)). rewrite Hq.
  destruct (q !! 0%nat) as [[sleepy|]|]; [| |done]; rewrite bind_some.
  - rewrite bind_modify. erewrite (bind_ret_run (unlock wqueue_lock)); [|by apply (unlock_run k _ c)].
    by rewrite Ht'.
  - erewrite (bind_ret_run (unlock wqueue_lock)); [|by apply (unlock_run k _ c)].
    rewrite Ht'. by destruct k as [[] ? ? ? ? ? ?].
Qed.

Lemma upd_mux_section k c m mx f {B} (rest : M (kst F) B) :
  runs_on (kh k) c -> lock_ready (kh k) mutexes_lock -> touched c k = k -> muxes (kx k) !! m = Some mx ->
  (lock mutexes_lock;; updmux m f;; unlock mutexes_lock;; rest) k = rest (upd_mux m f k).
Proof.
  intros Hr Hl Ht Hm.
  erewrite (section_run k _ c mutexes_lock (updmux m f) (fun _ => rest)); [|done..|by apply (updmux_run m mx)|done].
  by destruct k as [[] ? ? ? ? ? ?].
Qed.

(** The handler on a mutex that is taken. *)
Lemma sys_munlock_run k c p pr muxid muxid0 m mx q :
  handler_at k c p pr muxid (Some m) -> muxes (kx k) !! m = Some mx -> m_state mx = 1 -> wqueue (kx k) = q ->
  let k1 := upd_mux m (set_m_state 0) (touched c k) in
  sys_munlock muxid0 k =
    match q !! 0%nat with
    | None => Fault "wqueue[0]"
    | Some None => Ret 1 k1
    | Some (Some sleepy) => (wake_process sleepy;; mret 1) (put_wqueue (shift_queue q) k1)
    end.
Proof.
  intros Hh Hm Hs Hq k1. unfold sys_munlock. mstep (handler_arg _ _ _ _ _ _ Hh). mstep (handler_cur _ _ _ _ _ _ Hh). cbn [default from_option id].
  apply handler_touched in Hh. destruct Hh as ([Hr _] & Hl & Hlw & Hp & _ & Hz). cbn beta iota.
  mstep (mux_ptr_run p pr muxid (Some m) (touched c k) Hp Hz). cbn beta iota.
  mstep (getmux_run m mx (touched c k) Hm). rewrite Hs. cbn [Z.eqb Pos.eqb negb].
  rewrite (upd_mux_section (touched c k) c m mx (set_m_state 0) _ Hr Hl (touched_touched c k) Hm).
  apply (munlock_tail k1 c q); [exact Hr|exact Hlw| |done].
  unfold k1. by rewrite touched_upd_mux, touched_touched.
Qed.

(** Without access to the mutex, or on a mutex that is not taken, the handlers
    return 0 and change nothing. *)
Lemma sys_munlock_refused k c p pr muxid muxid0 o :
  handler_at k c p pr muxid o ->
  (forall m, o = Some m -> exists mx, muxes (kx k) !! m = Some mx /\ m_state mx <> 1) ->
  sys_munlock muxid0 k = Ret 0 (touched c k) /\ sys_signalcv muxid0 k = Ret 0 (touched c k).
Proof.
  intros Hh Ho. unfold sys_munlock, sys_signalcv. mstep (handler_arg _ _ _ _ _ _ Hh). mstep (handler_cur _ _ _ _ _ _ Hh).
  mstep (handler_arg _ _ _ _ _ _ Hh). mstep (handler_cur _ _ _ _ _ _ Hh). cbn [default from_option id].
  destruct Hh as (_ & _ & _ & Hp & _ & Hz).
  mstep (mux_ptr_run p pr muxid o (touched c k) Hp Hz). mstep (mux_ptr_run p pr muxid o (touched c k) Hp Hz).
  destruct o as [m|]; [|done]. destruct (Ho m eq_refl) as (mx & Hm & Hs).
  mstep (getmux_run m mx (touched c k) Hm). mstep (getmux_run m mx (touched c k) Hm).
  destruct (Z.eqb_spec (m_state mx) 1); done.
Qed.

Lemma sys_signalcv_run k c p pr muxid muxid0 m mx :
  handler_at k c p pr muxid (Some m) -> muxes (kx k) !! m = Some mx -> m_state mx = 1 ->
  sys_signalcv muxid0 k =
    match m_cv mx !! 0%nat with
    | None => Fault "cv[0]"
    | Some None => Ret 0 (touched c k)
    | Some (Some sleepy) =>
        (wake_process sleepy;; mret 1) (upd_mux m (set_m_cv (shift_queue (m_cv mx))) (touched c k))
    end.
Proof.
  intros Hh Hm Hs. unfold sys_signalcv. mstep (handler_arg _ _ _ _ _ _ Hh). mstep (handler_cur _ _ _ _ _ _ Hh).
  cbn [default from_option id]. destruct Hh as (Hrun & Hl & _ & Hp & _ & Hz). set (k1 := touched c k).
  mstep (mux_ptr_run p pr muxid (Some m) k1 Hp Hz). mstep (getmux_run m mx k1 Hm). rewrite Hs. cbn [Z.eqb Pos.eqb negb].
  assert (Hr1 : runs_on (kh k1) c) by apply (running_touched k c p Hrun).
  mstep (lock_run k1 c mutexes_lock Hr1 Hl).
  mstep (getmux_run m mx (inside c mutexes_lock k1) Hm).
  assert (Ht : touch c (kh k1) = kh k1) by (unfold k1, touched; rewrite kh_set_kh; apply touch_touch).
  destruct (m_cv mx !! 0%nat) as [[sleepy|]|]; [| |done]; rewrite bind_some.
  - mstep (updmux_run m mx (set_m_cv (shift_queue (m_cv mx))) (inside c mutexes_lock k1) Hm).
    erewrite (bind_ret_run (unlock mutexes_lock)); [|by apply (unlock_run k1 _ c)]. by rewrite Ht.
  - erewrite (bind_ret_run (unlock mutexes_lock)); [|by apply (unlock_run k1 _ c)].
    rewrite Ht. unfold inside. by rewrite set_kh_set_kh, set_kh_id.
Qed.

(** *** sys_waitcv *)

Lemma waitcv_enqueue_run k c p pr muxid m mx :
  runs_on (kh k) c -> lock_ready (kh k) mutexes_lock -> touched c k = k ->
  procs (kp k) !! p = Some pr -> zget (p_mux_ptrs pr) muxid = Some (Some m) -> muxes (kx k) !! m = Some mx ->
  waitcv_enqueue p muxid k =
    match wq_add p (m_cv mx) with Some q' => Ret true (upd_mux m (set_m_cv q') k) | None => Ret false k end.
Proof.
  intros Hr Hl Ht Hp Hz Hm. apply touched_kh in Ht. unfold waitcv_enqueue. mstep (lock_run k c mutexes_lock Hr Hl).
  mstep (mux_ptr_run p pr muxid (Some m) (inside c mutexes_lock k) Hp Hz). unfold nonnull_mux. rewrite bind_some.
  mstep (getmux_run m mx (inside c mutexes_lock k) Hm). destruct (wq_add p (m_cv mx)) as [q'|].
  - mstep (updmux_run m mx (set_m_cv q') (inside c mutexes_lock k) Hm).
    erewrite (bind_ret_run (unlock mutexes_lock)); [|by apply (unlock_run k _ c)].
    rewrite Ht. by destruct k as [[] ? ? ? ? ? ?].
  - erewrite (bind_ret_run (unlock mutexes_lock)); [|by apply (unlock_run k _ c)].
    rewrite Ht. unfold inside. by rewrite set_kh_set_kh, set_kh_id.
Qed.

(** The state in which [sys_waitcv] calls [sys_munlock]: the process is in the
    queue of the condition variable, asleep, and ptable.lock is held. *)
Definition waiting_state (c p m : nat) (q' : list (option nat)) (k : kst F) : kst F :=
  upd_k p (set_p_state SLEEPING) (inside c ptable_lock (upd_mux m (set_m_cv q') (touched c k))).

Lemma sys_waitcv_start k c p pr muxid muxid0 m mx q' :
  handler_at k c p pr muxid (Some m) -> at_rest k c (Some p) -> muxes (kx k) !! m = Some mx ->
  wq_add p (m_cv mx) = Some q' ->
  sys_waitcv muxid0 k =
    (r ← sys_munlock muxid; if r =? 0 then mret 0 else sched;; stall OnSched) (waiting_state c p m q' k).
Proof.
  intros Hh Hat Hm Hq. unfold sys_waitcv. mstep (handler_arg _ _ _ _ _ _ Hh). mstep (handler_cur _ _ _ _ _ _ Hh).
  cbn [default from_option id]. destruct Hh as (Hrun & Hl & _ & Hp & _ & Hz). set (k1 := touched c k).
  assert (Hr1 : runs_on (kh k1) c) by apply (running_touched k c p Hrun).
  cbn beta iota. rewrite bind_run, (waitcv_enqueue_run k1 c p pr muxid m mx Hr1 Hl (touched_touched c k) Hp Hz Hm), Hq. cbn [negb].
  assert (Hl1 : lock_ready (kh (upd_mux m (set_m_cv q') k1)) ptable_lock) by apply Hat.
  mstep (lock_run (upd_mux m (set_m_cv q') k1) c ptable_lock Hr1 Hl1).
  by mstep (updp_run p pr (set_p_state SLEEPING) (inside c ptable_lock (upd_mux m (set_m_cv q') k1)) Hp).
Qed.

Lemma waiting_handler k c p pr muxid m mx q' :
  handler_at k c p pr muxid (Some m) -> muxes (kx k) !! m = Some mx ->
  let k1 := waiting_state c p m q' k in
  handler_at k1 c p (set_p_state SLEEPING pr) muxid (Some m) /\ touched c k1 = k1 /\
  muxes (kx k1) !! m = Some (set_m_cv q' mx).
Proof.
  intros (Hrun & Hl & Hlw & Hp & Ha & Hz) Hm k1. pose proof (running_touched k c p Hrun) as Hr1. split; [|split].
  - split; [exact (running_inside (upd_mux m (set_m_cv q') (touched c k)) c p ptable_lock Hr1)|].
    split; [by apply lock_ready_acq|]. split; [by apply lock_ready_acq|].
    split; [by apply upd_k_lookup|]. by split.
  - transitivity (upd_k p (set_p_state SLEEPING) (touched c (inside c ptable_lock (upd_mux m (set_m_cv q') (touched c k)))));
      [done|]. rewrite touched_inside; [done|]. apply Hr1.
  - simpl. by rewrite list_lookup_alter_eq, Hm.
Qed.

(** The two ways [sys_waitcv] ends before it sleeps. *)
Lemma sys_waitcv_null k c p pr muxid muxid0 :
  handler_at k c p pr muxid None -> sys_waitcv muxid0 k = Fault "null mutex".
Proof.
  intros Hh. unfold sys_waitcv. mstep (handler_arg _ _ _ _ _ _ Hh). mstep (handler_cur _ _ _ _ _ _ Hh).
  cbn [default from_option id]. apply handler_touched in Hh. destruct Hh as ([Hr _] & Hl & _ & Hp & _ & Hz).
  cbn beta iota. unfold waitcv_enqueue. rewrite bind_run. mstep (lock_run (touched c k) c mutexes_lock Hr Hl).
  by mstep (mux_ptr_run p pr muxid None (inside c mutexes_lock (touched c k)) Hp Hz).
Qed.

Lemma sys_waitcv_full k c p pr muxid muxid0 m mx :
  handler_at k c p pr muxid (Some m) -> muxes (kx k) !! m = Some mx -> wq_add p (m_cv mx) = None ->
  sys_waitcv muxid0 k = Ret 0 (touched c k).
Proof.
  intros Hh Hm Hq. unfold sys_waitcv. mstep (handler_arg _ _ _ _ _ _ Hh). mstep (handler_cur _ _ _ _ _ _ Hh).
  cbn [default from_option id]. destruct Hh as (Hrun & Hl & _ & Hp & _ & Hz). cbn beta iota.
  assert (Hr1 : runs_on (kh (touched c k)) c) by apply (running_touched k c p Hrun).
  by rewrite bind_run, (waitcv_enqueue_run (touched c k) c p pr muxid m mx Hr1 Hl (touched_touched c k) Hp Hz Hm), Hq.
Qed.

(** *** A waiter runs again *)

(** The process is switched to again: ptable.lock is released and [sys_mlock]
    runs. *)
Lemma sys_waitcv_resume_start (kb k' : kst F) c p pr muxid o i :
  at_rest kb c (Some p) -> handler_at (set_kh (kh kb) k') c p pr muxid o -> kh k' = acq_hw c ptable_lock (kh kb) ->
  i = 0 \/ i = FL_IF ->
  let k2 := set_kh (touch c (set_eflags (with_if i (eflags (kh kb))) (kh kb))) k' in
  sys_waitcv_resume p muxid i k' = (r ← sys_mlock muxid; if r =? 0 then mret 0 else mret 1) k2 /\
  at_rest k2 c (Some p) /\ touched c k2 = k2 /\ handler_at k2 c p pr muxid o.
Proof.
  intros Hat (_ & Hl & Hlw & Hp & Ha & Hz) Hk Hi k2. pose proof (at_rest_if kb c _ (with_if i (eflags (kh kb))) Hat) as Hat1.
  assert (Hat3 : at_rest k2 c (Some p)) by exact (at_rest_touched _ _ _ Hat1). split; [|split; [done|split]].
  - unfold sys_waitcv_resume. mstep (sched_resume_run kb k' c _ i Hat Hk Hi).
    erewrite (bind_ret_run (unlock ptable_lock));
      [|apply (unlock_run (set_kh (set_eflags (with_if i (eflags (kh kb))) (kh kb)) kb) _ c); [apply Hat1|apply Hat1|done]].
    by rewrite set_kh_set_kh.
  - unfold k2, touched. by rewrite kh_set_kh, set_kh_set_kh, touch_touch.
  - split; [by apply at_rest_running|]. by split.
Qed.

Lemma sys_mlock_resume_start (kb k' : kst F) c p muxid i :
  at_rest kb c (Some p) -> lock_ready (kh kb) mutexes_lock -> kh k' = acq_hw c ptable_lock (kh kb) ->
  i = 0 \/ i = FL_IF ->
  let k2 := set_kh (touch c (set_eflags (with_if i (eflags (kh kb))) (kh kb))) k' in
  sys_mlock_resume p muxid i k' = mlock_loop p muxid (inside c mutexes_lock k2) /\
  at_rest k2 c (Some p) /\ touched c k2 = k2 /\ locks (kh k2) = locks (kh kb).
Proof.
  intros Hat Hl Hk Hi k2. pose proof (at_rest_if kb c _ (with_if i (eflags (kh kb))) Hat) as Hat1.
  pose proof (at_rest_touched _ _ _ Hat1) as Hat2.
  assert (Hat3 : at_rest k2 c (Some p)) by exact Hat2. split; [|split; [done|split; [|done]]].
  - unfold sys_mlock_resume. mstep (sched_resume_run kb k' c _ i Hat Hk Hi).
    erewrite (bind_ret_run (unlock ptable_lock));
      [|apply (unlock_run (set_kh (set_eflags (with_if i (eflags (kh kb))) (kh kb)) kb) _ c); [apply Hat1|apply Hat1|done]].
    rewrite set_kh_set_kh. fold k2. by mstep (lock_run k2 c mutexes_lock (proj1 Hat3) Hl).
  - unfold k2, touched. by rewrite kh_set_kh, set_kh_set_kh, touch_touch.
Qed.
End mutex.

(** ** Properties *)

(** The end of the wait queue after process [p] has asked to wait. *)
Definition joined (p : nat) (l : list nat) : list nat := if decide (p ∈ l) then l else l ++ [p].

Lemma wq_add_joined q l p :
  wq_rep q l -> p ∈ l \/ (length l < 1000)%nat -> exists q', wq_add p q = Some q' /\ wq_rep q' (joined p l).
Proof.
  intros Hq Hor. unfold joined. destruct (decide (p ∈ l)) as [Hin|Hni].
  - exists q. split; [by apply (wq_add_in q l)|done].
  - apply wq_add_new; [done|done|]. tauto.
Qed.

(** C36. [sys_mlock], on every branch.  Without access to the mutex it returns 0
    and changes nothing.  A free mutex is taken and 1 is returned, with no
    lock left held.  On a taken mutex the process joins the end of the wait
    queue (once) and gives up the CPU asleep, holding only ptable.lock, and
    the mutex is unchanged. *)
Theorem mutex_lock_spec {F} (k : kst F) c p pr muxid muxid0 o l :
  handler_at k c p pr muxid o -> at_rest k c (Some p) -> wq_rep (wqueue (kx k)) l ->
  (o = None -> sys_mlock muxid0 k = Ret 0 (touched c k)) /\
  (forall m mx, o = Some m -> muxes (kx k) !! m = Some mx ->
     (m_state mx <> 1 -> sys_mlock muxid0 k = Ret 1 (touched c (upd_mux m (set_m_state 1) k))) /\
     (m_state mx = 1 -> p ∈ l \/ (length l < 1000)%nat ->
        exists k', sys_mlock muxid0 k = Wait OnSched k' /\ kh k' = acq_hw c ptable_lock (kh (touched c k)) /\
          wq_rep (wqueue (kx k')) (joined p l) /\ muxes (kx k') = muxes (kx k) /\
          procs (kp k') = alter (set_p_state SLEEPING) p (procs (kp k)))).
Proof.
  intros Hh Hat Hq. rewrite (sys_mlock_start k c p pr muxid muxid0 o Hh). split; [by intros ->|]. intros m mx -> Hm.
  pose proof (at_rest_touched k c _ Hat) as Hat1. destruct Hh as (_ & Hl & Hlw & Hp & _ & Hz). split.
  - intros Hs. rewrite (mlock_loop_free (touched c k) c _ p pr muxid m mx Hat1 Hl Hp Hz Hm Hs).
    by rewrite !touched_upd_mux, touched_touched.
  - intros Hs Hroom. destruct (wq_add_joined _ l p Hq Hroom) as (q' & Ha & Hq').
    rewrite (mlock_loop_busy (touched c k) c p pr muxid m mx _ Hat1 Hl Hlw Hp Hz Hm Hs eq_refl (touched_touched c k)).
    change (wqueue (kx (touched c k))) with (wqueue (kx k)). rewrite Ha. by eexists.
Qed.

(** [sys_munlock] on a taken mutex frees it and, when processes wait, takes
    the first one off the wait queue, makes it RUNNABLE and enqueues it; the
    run queue stays exact.  Without access, or on a mutex that is not taken,
    it returns 0 and changes nothing. *)
Theorem mutex_unlock_spec {F} (k : kst F) c p pr muxid muxid0 o l qs :
  handler_at k c p pr muxid o -> at_rest k c (Some p) -> wq_rep (wqueue (kx k)) l -> runq (kp k) qs ->
  (o = None -> sys_munlock muxid0 k = Ret 0 (touched c k)) /\
  (forall m mx, o = Some m -> muxes (kx k) !! m = Some mx ->
     (m_state mx <> 1 -> sys_munlock muxid0 k = Ret 0 (touched c k)) /\
     (m_state mx = 1 -> l = [] -> sys_munlock muxid0 k = Ret 1 (upd_mux m (set_m_state 0) (touched c k))) /\
     (forall x l' q, m_state mx = 1 -> l = x :: l' -> procs (kp k) !! x = Some q -> p_state q = SLEEPING ->
        exists k' qs', sys_munlock muxid0 k = Ret 1 k' /\ kh k' = kh (touched c k) /\
          muxes (kx k') = alter (set_m_state 0) m (muxes (kx k)) /\ wq_rep (wqueue (kx k')) l' /\
          procs (kp k') = alter (set_p_state RUNNABLE) x (procs (kp k)) /\ runq (kp k') qs' /\ x ∈ concat qs')).
Proof.
  intros Hh Hat Hq Hrq. split; [|intros m mx -> Hm; split; [|split]].
  - intros ->. eapply sys_munlock_refused; [done|]. done.
  - intros Hs. eapply sys_munlock_refused; [done|]. intros ? [= <-]. eauto.
  - intros Hs ->. rewrite (sys_munlock_run k c p pr muxid muxid0 m mx _ Hh Hm Hs eq_refl).
    by rewrite (wq_empty _ Hq).
  - intros x l' q Hs -> Hx Hxs. rewrite (sys_munlock_run k c p pr muxid muxid0 m mx _ Hh Hm Hs eq_refl).
    destruct (wq_shift _ x l' Hq) as [-> Hq']. cbn beta iota.
    set (k1 := put_wqueue _ _).
    assert (Hat1 : at_rest k1 c (Some p)) by exact (at_rest_touched k c _ Hat).
    destruct (wake_process_run k1 c _ qs x q Hat1 Hrq Hx) as (t' & Hw & Hpr & Hrq'); [congruence|].
    eexists. exists (spec_enqueue (Z.to_nat (p_priority q)) x qs).
    split; [by rewrite (bind_ret_run _ _ _ _ _ Hw)|].
    assert (Hk : touched c k1 = k1) by (unfold k1; exact (f_equal (fun y => put_wqueue (shift_queue (wqueue (kx k))) (upd_mux m (set_m_state 0) y)) (touched_touched c k))).
    rewrite Hk. split; [done|]. split; [done|]. split; [exact Hq'|]. split; [exact Hpr|]. split; [exact Hrq'|].
    apply Hrq'. exists (set_p_state RUNNABLE q). rewrite Hpr. change (procs (kp k1)) with (procs (kp k)).
    by rewrite list_lookup_alter_eq, Hx.
Qed.

(** A process that waited for a mutex and runs again takes the mutex if it
    is free now, returning 1 with every lock released; if somebody else took
    it first, the process goes back to the end of the wait queue and sleeps
    again. *)
Theorem mutex_waiter_resumes {F} (kb k' : kst F) c p pr muxid m mx i l :
  at_rest kb c (Some p) -> lock_ready (kh kb) mutexes_lock -> lock_ready (kh kb) wqueue_lock ->
  kh k' = acq_hw c ptable_lock (kh kb) -> i = 0 \/ i = FL_IF ->
  procs (kp k') !! p = Some pr -> zget (p_mux_ptrs pr) muxid = Some (Some m) -> muxes (kx k') !! m = Some mx ->
  wq_rep (wqueue (kx k')) l ->
  (m_state mx <> 1 -> exists k'', sys_mlock_resume p muxid i k' = Ret 1 k'' /\
     muxes (kx k'') = alter (set_m_state 1) m (muxes (kx k')) /\ kp k'' = kp k' /\
     at_rest k'' c (Some p) /\ lock_ready (kh k'') mutexes_lock) /\
  (m_state mx = 1 -> p ∈ l \/ (length l < 1000)%nat -> exists k'', sys_mlock_resume p muxid i k' = Wait OnSched k'' /\
     wq_rep (wqueue (kx k'')) (joined p l) /\ muxes (kx k'') = muxes (kx k') /\
     procs (kp k'') = alter (set_p_state SLEEPING) p (procs (kp k'))).
Proof.
  intros Hat Hl Hlw Hk Hi Hp Hz Hm Hq.
  destruct (sys_mlock_resume_start kb k' c p muxid i Hat Hl Hk Hi) as (Hrun & Hat2 & Ht2 & Hlk). set (k2 := set_kh _ k') in *.
  assert (Hl2 : lock_ready (kh k2) mutexes_lock) by (unfold lock_ready; by rewrite Hlk).
  assert (Hlw2 : lock_ready (kh k2) wqueue_lock) by (unfold lock_ready; by rewrite Hlk).
  rewrite Hrun. split.
  - intros Hs. rewrite (mlock_loop_free k2 c _ p pr muxid m mx Hat2 Hl2 Hp Hz Hm Hs). eexists. split; [done|].
    split; [done|]. split; [done|]. split; [exact (at_rest_touched _ _ _ Hat2)|exact Hl2].
  - intros Hs Hroom. destruct (wq_add_joined _ l p Hq Hroom) as (q' & Ha & Hq').
    rewrite (mlock_loop_busy k2 c p pr muxid m mx _ Hat2 Hl2 Hlw2 Hp Hz Hm Hs eq_refl Ht2).
    change (wqueue (kx k2)) with (wqueue (kx k')). rewrite Ha. by eexists.
Qed.

(** When all 1000 places of the wait queue are taken, [sys_mlock] gives up
    but returns with MUTEXES.lock still held: the next mutex operation of this
    CPU panics in [acquire]. *)
Theorem mutex_queue_full {F} (k : kst F) c p pr muxid muxid0 m mx l :
  handler_at k c p pr muxid (Some m) -> at_rest k c (Some p) -> muxes (kx k) !! m = Some mx -> m_state mx = 1 ->
  wq_rep (wqueue (kx k)) l -> length l = 1000%nat -> p ∉ l ->
  exists k', sys_mlock muxid0 k = Ret 0 k' /\ lock mutexes_lock k' = Panic "acquire".
Proof.
  intros Hh Hat Hm Hs Hq Hl Hp.
  rewrite (sys_mlock_start k c p pr muxid muxid0 _ Hh). apply handler_touched in Hh. destruct Hh as ([Hr _] & Hlm & Hlw & Hpp & _ & Hz).
  rewrite (mlock_loop_busy (touched c k) c p pr muxid m mx _ (at_rest_touched _ _ _ Hat) Hlm Hlw Hpp Hz Hm Hs eq_refl (touched_touched c k)).
  change (wqueue (kx (touched c k))) with (wqueue (kx k)). rewrite (wq_add_full _ l p Hq Hp Hl).
  eexists. split; [done|]. by apply lock_twice.
Qed.

Lemma waitcv_sleeps {F} (k : kst F) c p pr muxid muxid0 m mx cvl l :
  handler_at k c p pr muxid (Some m) -> at_rest k c (Some p) -> muxes (kx k) !! m = Some mx ->
  wq_rep (m_cv mx) cvl -> p ∈ cvl \/ (length cvl < 1000)%nat -> wq_rep (wqueue (kx k)) l ->
  (m_state mx = 1 -> l = [] -> exists k' mx', sys_waitcv muxid0 k = Wait OnSched k' /\
     kh k' = acq_hw c ptable_lock (kh (touched c k)) /\ muxes (kx k') !! m = Some mx' /\
     m_state mx' = 0 /\ wq_rep (m_cv mx') (joined p cvl) /\
     procs (kp k') = alter (set_p_state SLEEPING) p (procs (kp k))) /\
  (m_state mx = 1 -> l <> [] -> sys_waitcv muxid0 k = Panic "acquire") /\
  (m_state mx <> 1 -> exists k', sys_waitcv muxid0 k = Ret 0 k' /\ lock ptable_lock k' = Panic "acquire").
Proof.
  intros Hh Hat Hm Hcv Hroom Hq. destruct (wq_add_joined _ cvl p Hcv Hroom) as (q' & Ha & Hq').
  rewrite (sys_waitcv_start k c p pr muxid muxid0 m mx q' Hh Hat Hm Ha).
  pose proof (waiting_handler k c p pr muxid m mx q' Hh Hm) as Hw. cbv zeta in Hw.
  set (k1 := waiting_state c p m q' k) in *. destruct Hw as (Hh1 & Ht1 & Hm1).
  assert (Hrt : runs_on (kh (touched c k)) c) by apply (at_rest_touched _ _ _ Hat).
  split; [|split].
  - intros Hs ->. rewrite bind_run, (sys_munlock_run k1 c p _ muxid muxid m _ _ Hh1 Hm1 Hs eq_refl).
    change (wqueue (kx k1)) with (wqueue (kx k)). rewrite (wq_empty _ Hq). cbn [Z.eqb].
    rewrite bind_run, (sched_run (touched c k) _ c p (set_p_state SLEEPING pr)).
    + eexists. exists (set_m_state 0 (set_m_cv q' mx)). split; [done|]. split; [by rewrite Ht1|].
      split; [|by split]. change (alter (set_m_state 0) m (muxes (kx k1)) !! m = Some (set_m_state 0 (set_m_cv q' mx))).
      by rewrite list_lookup_alter_eq, Hm1.
    + by apply running_touched, at_rest_running.
    + eapply at_rest_depth. by apply at_rest_touched.
    + by rewrite Ht1.
    + rewrite Ht1. apply Hh1.
    + done.
  - intros Hs Hl. rewrite bind_run, (sys_munlock_run k1 c p _ muxid muxid m _ _ Hh1 Hm1 Hs eq_refl).
    change (wqueue (kx k1)) with (wqueue (kx k)). destruct l as [|x l]; [done|].
    destruct (wq_shift _ x l Hq) as [-> _]. rewrite Ht1.
    assert (Hp : lock ptable_lock (put_wqueue (shift_queue (wqueue (kx k))) (upd_mux m (set_m_state 0) k1)) = Panic "acquire").
    { exact (lock_twice (put_wqueue (shift_queue (wqueue (kx k))) (upd_mux m (set_m_state 0) (upd_k p (set_p_state SLEEPING)
        (upd_mux m (set_m_cv q') (touched c k))))) c ptable_lock Hrt). }
    unfold wake_process. rewrite !bind_run, Hp. done.
  - intros Hs. destruct (sys_munlock_refused k1 c p _ muxid muxid _ Hh1) as [Hr _].
    { intros ? [= <-]. eexists. split; [exact Hm1|done]. }
    rewrite bind_run, Hr. eexists. split; [done|]. rewrite Ht1.
    exact (lock_twice (upd_k p (set_p_state SLEEPING) (upd_mux m (set_m_cv q') (touched c k))) c ptable_lock Hrt).
Qed.

(** What [sys_waitcv] does after it has been woken. *)
Lemma waitcv_wakes {F} (kb k' : kst F) c p pr muxid o i l :
  at_rest kb c (Some p) -> handler_at (set_kh (kh kb) k') c p pr muxid o -> kh k' = acq_hw c ptable_lock (kh kb) ->
  i = 0 \/ i = FL_IF -> wq_rep (wqueue (kx k')) l ->
  (o = None -> exists k'', sys_waitcv_resume p muxid i k' = Ret 0 k'' /\ at_rest k'' c (Some p) /\ kx k'' = kx k') /\
  (forall m mx, o = Some m -> muxes (kx k') !! m = Some mx ->
     (m_state mx <> 1 -> exists k'', sys_waitcv_resume p muxid i k' = Ret 1 k'' /\ at_rest k'' c (Some p) /\
        kp k'' = kp k' /\ muxes (kx k'') = alter (set_m_state 1) m (muxes (kx k'))) /\
     (m_state mx = 1 -> p ∈ l \/ (length l < 1000)%nat -> exists k'', sys_waitcv_resume p muxid i k' = Wait OnSched k'' /\
        wq_rep (wqueue (kx k'')) (joined p l) /\ muxes (kx k'') = muxes (kx k') /\
        procs (kp k'') = alter (set_p_state SLEEPING) p (procs (kp k'))) /\
     (m_state mx = 1 -> p ∉ l -> length l = 1000%nat -> exists k'', sys_waitcv_resume p muxid i k' = Ret 0 k'' /\
        lock mutexes_lock k'' = Panic "acquire")).
Proof.
  intros Hat Hh Hk Hi Hq. destruct (sys_waitcv_resume_start kb k' c p pr muxid o i Hat Hh Hk Hi) as (Hrun & Hat2 & Ht2 & Hh2).
  set (k2 := set_kh (touch c _) k') in *. rewrite Hrun, bind_run, (sys_mlock_start k2 c p pr muxid muxid o Hh2), Ht2.
  split; [intros ->; by eexists|]. intros m mx -> Hm. destruct Hh2 as ([Hr2 _] & Hl & Hlw & Hp & _ & Hz). split; [|split].
  - intros Hs. rewrite (mlock_loop_free k2 c _ p pr muxid m mx Hat2 Hl Hp Hz Hm Hs). eexists. split; [done|].
    split; [exact (at_rest_touched _ _ _ Hat2)|done].
  - intros Hs Hroom. destruct (wq_add_joined _ l p Hq Hroom) as (q' & Ha & Hq').
    rewrite (mlock_loop_busy k2 c p pr muxid m mx _ Hat2 Hl Hlw Hp Hz Hm Hs eq_refl Ht2).
    change (wqueue (kx k2)) with (wqueue (kx k')). rewrite Ha. by eexists.
  - intros Hs Hni Hlen. rewrite (mlock_loop_busy k2 c p pr muxid m mx _ Hat2 Hl Hlw Hp Hz Hm Hs eq_refl Ht2).
    change (wqueue (kx k2)) with (wqueue (kx k')). rewrite (wq_add_full _ l p Hq Hni Hlen).
    eexists. split; [done|]. by apply lock_twice.
Qed.

(** C37. [sys_waitcv], on every branch.  Without access to the mutex it
    dereferences the null pointer.  When the queue of the condition variable is
    full it returns 0 and changes nothing.  Otherwise the process joins that
    queue.  When it holds the mutex and no process waits for any mutex, the
    mutex is released and the process sleeps with only ptable.lock held.  But if
    some process waits for a mutex, [sys_munlock] takes ptable.lock a second time
    and the kernel panics; and if the mutex is not taken the call returns 0 with
    ptable.lock still held.  When the process runs again it takes the mutex and
    returns 1 with no lock held, if the mutex is free; otherwise it joins the
    wait queue of the mutexes and sleeps, or, when that is full, returns 0 with
    MUTEXES.lock still held.  It returns 0 if it has no access to the mutex any
    more. *)
Theorem waitcv_spec {F} (k : kst F) c p pr muxid muxid0 o l :
  handler_at k c p pr muxid o -> at_rest k c (Some p) -> wq_rep (wqueue (kx k)) l ->
  (o = None -> sys_waitcv muxid0 k = Fault "null mutex") /\
  (forall m mx cvl, o = Some m -> muxes (kx k) !! m = Some mx -> wq_rep (m_cv mx) cvl ->
     (p ∉ cvl -> length cvl = 1000%nat -> sys_waitcv muxid0 k = Ret 0 (touched c k)) /\
     (p ∈ cvl \/ (length cvl < 1000)%nat ->
        (m_state mx = 1 -> l = [] -> exists k' mx', sys_waitcv muxid0 k = Wait OnSched k' /\
           kh k' = acq_hw c ptable_lock (kh (touched c k)) /\ muxes (kx k') !! m = Some mx' /\
           m_state mx' = 0 /\ wq_rep (m_cv mx') (joined p cvl) /\
           procs (kp k') = alter (set_p_state SLEEPING) p (procs (kp k))) /\
        (m_state mx = 1 -> l <> [] -> sys_waitcv muxid0 k = Panic "acquire") /\
        (m_state mx <> 1 -> exists k', sys_waitcv muxid0 k = Ret 0 k' /\ lock ptable_lock k' = Panic "acquire"))) /\
  (forall (kb k' : kst F) pr' o' i l', at_rest kb c (Some p) -> handler_at (set_kh (kh kb) k') c p pr' muxid o' ->
     kh k' = acq_hw c ptable_lock (kh kb) -> i = 0 \/ i = FL_IF -> wq_rep (wqueue (kx k')) l' ->
     (o' = None -> exists k'', sys_waitcv_resume p muxid i k' = Ret 0 k'' /\ at_rest k'' c (Some p) /\ kx k'' = kx k') /\
     (forall m mx, o' = Some m -> muxes (kx k') !! m = Some mx ->
        (m_state mx <> 1 -> exists k'', sys_waitcv_resume p muxid i k' = Ret 1 k'' /\ at_rest k'' c (Some p) /\
           kp k'' = kp k' /\ muxes (kx k'') = alter (set_m_state 1) m (muxes (kx k'))) /\
        (m_state mx = 1 -> p ∈ l' \/ (length l' < 1000)%nat -> exists k'', sys_waitcv_resume p muxid i k' = Wait OnSched k'' /\
           wq_rep (wqueue (kx k'')) (joined p l') /\ muxes (kx k'') = muxes (kx k') /\
           procs (kp k'') = alter (set_p_state SLEEPING) p (procs (kp k'))) /\
        (m_state mx = 1 -> p ∉ l' -> length l' = 1000%nat -> exists k'', sys_waitcv_resume p muxid i k' = Ret 0 k'' /\
           lock mutexes_lock k'' = Panic "acquire"))).
Proof.
  intros Hh Hat Hq. split; [|split].
  - intros ->. by eapply sys_waitcv_null.
  - intros m mx cvl -> Hm Hcv. split.
    + intros Hni Hlen. eapply sys_waitcv_full; [done..|]. by eapply wq_add_full.
    + intros Hroom. by eapply waitcv_sleeps.
  - intros kb k' pr' o' i l'. apply waitcv_wakes.
Qed.

(** [sys_signalcv] by the holder of the mutex wakes the process that has
    waited longest on the condition variable and returns 1, or returns 0 when
    none waits; the mutex stays taken. *)
Theorem signalcv_spec {F} (k : kst F) c p pr muxid muxid0 m mx cvl qs :
  handler_at k c p pr muxid (Some m) -> at_rest k c (Some p) -> muxes (kx k) !! m = Some mx ->
  m_state mx = 1 -> wq_rep (m_cv mx) cvl -> runq (kp k) qs ->
  (cvl = [] -> sys_signalcv muxid0 k = Ret 0 (touched c k)) /\
  (forall x l' q, cvl = x :: l' -> procs (kp k) !! x = Some q -> p_state q = SLEEPING ->
     exists k' mx' qs', sys_signalcv muxid0 k = Ret 1 k' /\ muxes (kx k') !! m = Some mx' /\
       m_state mx' = 1 /\ wq_rep (m_cv mx') l' /\ wqueue (kx k') = wqueue (kx k) /\
       procs (kp k') = alter (set_p_state RUNNABLE) x (procs (kp k)) /\ runq (kp k') qs' /\ x ∈ concat qs').
Proof.
  intros Hh Hat Hm Hs Hcv Hrq. rewrite (sys_signalcv_run k c p pr muxid muxid0 m mx Hh Hm Hs). split.
  - intros ->. by rewrite (wq_empty _ Hcv).
  - intros x l' q -> Hx Hxs. destruct (wq_shift _ x l' Hcv) as [-> Hcv']. set (k1 := upd_mux m _ (touched c k)).
    assert (Hat1 : at_rest k1 c (Some p)) by exact (at_rest_touched k c _ Hat).
    destruct (wake_process_run k1 c _ qs x q Hat1 Hrq Hx) as (t' & Hw & Hpr & Hrq'); [congruence|].
    eexists. exists (set_m_cv (shift_queue (m_cv mx)) mx), (spec_enqueue (Z.to_nat (p_priority q)) x qs).
    split; [by rewrite (bind_ret_run _ _ _ _ _ Hw)|]. split; [simpl; by rewrite list_lookup_alter_eq, Hm|].
    split; [done|]. split; [exact Hcv'|]. split; [done|]. split; [exact Hpr|]. split; [exact Hrq'|].
    apply Hrq'. exists (set_p_state RUNNABLE q). rewrite Hpr. change (procs (kp k1)) with (procs (kp k)).
    by rewrite list_lookup_alter_eq, Hx.
Qed.

(** The wait queue is shared by all mutexes, and [sys_munlock] wakes its
    first process whatever mutex that process waits for.  Here [x] waits for
    the taken mutex [m1] and, behind it, [y] waits for [m].  Unlocking [m]
    wakes [x]; when [x] runs it finds [m1] taken and queues again.  Mutex [m]
    is then free while [y], which waits for it, still sleeps behind it: the
    wakeup is lost. *)
Theorem munlock_wakes_wrong_process {F} (k : kst F) c p pr muxid muxid0 m mx x y qx qy id1 m1 mx1 qs :
  handler_at k c p pr muxid (Some m) -> at_rest k c (Some p) -> runq (kp k) qs ->
  muxes (kx k) !! m = Some mx -> m_state mx = 1 -> wq_rep (wqueue (kx k)) [x; y] -> x <> y ->
  procs (kp k) !! x = Some qx -> p_state qx = SLEEPING -> zget (p_mux_ptrs qx) id1 = Some (Some m1) ->
  muxes (kx k) !! m1 = Some mx1 -> m_state mx1 = 1 -> m1 <> m ->
  procs (kp k) !! y = Some qy -> p_state qy = SLEEPING -> zget (p_mux_ptrs qy) muxid = Some (Some m) ->
  exists k', sys_munlock muxid0 k = Ret 1 k' /\ procs (kp k') !! y = Some qy /\
    forall (kb k3 : kst F) c3 i pr3,   (* the scheduler has switched to [x] on CPU [c3] *)
      at_rest kb c3 (Some x) -> lock_ready (kh kb) mutexes_lock -> lock_ready (kh kb) wqueue_lock ->
      kh k3 = acq_hw c3 ptable_lock (kh kb) -> i = 0 \/ i = FL_IF -> kx k3 = kx k' ->
      procs (kp k3) !! x = Some pr3 -> p_mux_ptrs pr3 = p_mux_ptrs qx -> procs (kp k3) !! y = Some qy ->
      exists k4 mx', sys_mlock_resume x id1 i k3 = Wait OnSched k4 /\ wq_rep (wqueue (kx k4)) [y; x] /\
        muxes (kx k4) !! m = Some mx' /\ m_state mx' = 0 /\ procs (kp k4) !! y = Some qy.
Proof.
  intros Hh Hat Hrq Hm Hs Hq Hxy Hx Hxs Hxz Hm1 Hs1 Hne Hy Hys Hyz.
  rewrite (sys_munlock_run k c p pr muxid muxid0 m mx _ Hh Hm Hs eq_refl).
  destruct (wq_shift _ x [y] Hq) as [-> Hq']. cbn beta iota. set (k1 := put_wqueue _ _).
  assert (Hat1 : at_rest k1 c (Some p)) by exact (at_rest_touched k c _ Hat).
  destruct (wake_process_run k1 c _ qs x qx Hat1 Hrq Hx) as (t' & Hw & Hpr & _); [congruence|].
  eexists. split; [by rewrite (bind_ret_run _ _ _ _ _ Hw)|]. split.
  { change (procs t' !! y = Some qy). rewrite Hpr. change (procs (kp k1)) with (procs (kp k)).
    by rewrite list_lookup_alter_ne. }
  intros kb k3 c3 i pr3 Hatb Hl Hlw Hk Hi Hx3 Hp3 Hmp Hy3.
  destruct (sys_mlock_resume_start kb k3 c3 x id1 i Hatb Hl Hk Hi) as (Hrun & Hat2 & Ht2 & Hlk). set (k2 := set_kh _ k3) in *.
  assert (Hl2 : lock_ready (kh k2) mutexes_lock) by (unfold lock_ready; by rewrite Hlk).
  assert (Hlw2 : lock_ready (kh k2) wqueue_lock) by (unfold lock_ready; by rewrite Hlk).
  destruct (wq_add_new _ [y] x Hq') as (q' & Ha & Hq2); [by intros ?%list_elem_of_singleton|simpl; lia|].
  assert (Hmux : muxes (kx k2) = alter (set_m_state 0) m (muxes (kx k))) by (change (kx k2) with (kx k3); by rewrite Hx3).
  assert (Hwq : wqueue (kx k2) = shift_queue (wqueue (kx k))) by (change (kx k2) with (kx k3); by rewrite Hx3).
  assert (Hz3 : zget (p_mux_ptrs pr3) id1 = Some (Some m1)) by by rewrite Hmp.
  assert (Hm3 : muxes (kx k2) !! m1 = Some mx1) by (rewrite Hmux; by rewrite list_lookup_alter_ne).
  rewrite Hrun, (mlock_loop_busy k2 c3 x pr3 id1 m1 mx1 _ Hat2 Hl2 Hlw2 Hp3 Hz3 Hm3 Hs1 Hwq Ht2), Ha.
  eexists. exists (set_m_state 0 mx). split; [done|]. split; [exact Hq2|]. split; [|split; [done|]].
  - change (muxes (kx k2) !! m = Some (set_m_state 0 mx)). by rewrite Hmux, list_lookup_alter_eq, Hm.
  - change (alter (set_p_state SLEEPING) x (procs (kp k3)) !! y = Some qy). by rewrite list_lookup_alter_ne.
Qed.

(** ** Witnesses

    A process on CPU 0 that calls with the argument 0, which names mutex 0;
    slots 1 and 2 sleep; mutex 0 is in state [s], mutex 1 is taken, and [w] and
    [cv] wait for a mutex and on condition variable 0. *)
Definition queue_of (l : list nat) : list (option nat) := (Some <$> l) ++ replicate (1000 - length l) None.
Definition mux_proc (st : procstate) : proc :=
  set_p_state st (set_p_mux_ptrs ([Some 0; Some 1]%nat ++ replicate 18 None) user_proc).
Definition mux_hw : hw :=
  mkhw [mkcpu 0 0 0 (Some 0%nat)] 0 FL_IF
    {[ ptable_lock := mklock 0 "ptable" None; mutexes_lock := mklock 0 "mutex_table" None; wqueue_lock := mklock 0 "wqueue" None ]}.
Definition mux_kst (s : Z) (w cv : list nat) : kst unit :=
  mkkst (mkmach mux_hw (user_mem [0]) 1 0 0x80100000 0x80108000)
    (empty_rings (mux_proc RUNNING :: mux_proc SLEEPING :: mux_proc SLEEPING :: replicate 61 proc0))
    (mkmuxtab [mkmutex 100 s (queue_of cv); mkmutex 200 1 (queue_of [])] (queue_of w)) (mkshmtab 0 [])
    (mkglobals 8 (Some 0%nat) 1 0 0 0 0x803ff000) tt [mkcpuregs [] 0 0 0 0 0 0].

Lemma mux_rest s w cv : at_rest (mux_kst s w cv) 0 (Some 0%nat).
Proof.
  split; [|split; [by exists "ptable"|by eexists]]. split; [done|]. eexists. split; [reflexivity|]. simpl. lia.
Qed.

Lemma mux_handler s w cv : handler_at (mux_kst s w cv) 0 0 (mux_proc RUNNING) 0 (Some 0%nat).
Proof.
  split; [apply at_rest_running, mux_rest|]. split; [by exists "mutex_table"|]. split; [by exists "wqueue"|].
  split; [done|]. split; [|done]. split; [vm_compute; reflexivity|]. split; [vm_compute; congruence|].
  exists 0. split; vm_compute; reflexivity.
Qed.

Lemma queue_rep l : (length l <= 1000)%nat -> NoDup l -> wq_rep (queue_of l) l.
Proof. by split. Qed.

Lemma mux_runq s w cv : runq (kp (mux_kst s w cv)) (replicate 20 []).
Proof.
  split; [apply empty_rings_rep|]. split; [apply NoDup_nil_2|]. split.
  - intros p. split; [by intros ?%not_elem_of_nil|]. intros (pr & Hp & Hs). exfalso.
    destruct p as [|[|[|p]]]; [injection Hp as <-; done..|]. apply (lookup_replicate_1 61) in Hp as [-> _]. done.
  - split; [done|]. do 3 (constructor; [done|]). apply Forall_replicate. done.
Qed.

Lemma mutex_lock_spec_witness :
  exists k', sys_mlock 0 (mux_kst 1 [1%nat] []) = Wait OnSched k' /\ wq_rep (wqueue (kx k')) [1; 0]%nat.
Proof.
  destruct (mutex_lock_spec (mux_kst 1 [1%nat] []) 0 0 (mux_proc RUNNING) 0 0 (Some 0%nat) [1%nat]) as [_ H].
  - apply mux_handler.
  - apply mux_rest.
  - apply queue_rep; [simpl; lia|apply NoDup_singleton].
  - destruct (H 0%nat _ eq_refl eq_refl) as [_ Hb].
    destruct (Hb eq_refl) as (k' & H1 & _ & H2 & _); [right; simpl; lia|]. exists k'. split; [exact H1|exact H2].
Defined.

Lemma mutex_unlock_spec_witness :
  exists k', sys_munlock 0 (mux_kst 1 [1%nat] []) = Ret 1 k' /\ wq_rep (wqueue (kx k')) [].
Proof.
  destruct (mutex_unlock_spec (mux_kst 1 [1%nat] []) 0 0 (mux_proc RUNNING) 0 0 (Some 0%nat) [1%nat] (replicate 20 [])) as [_ H].
  - apply mux_handler.
  - apply mux_rest.
  - apply queue_rep; [simpl; lia|apply NoDup_singleton].
  - apply mux_runq.
  - destruct (H 0%nat _ eq_refl eq_refl) as (_ & _ & Hb).
    destruct (Hb 1%nat [] (mux_proc SLEEPING) eq_refl eq_refl eq_refl eq_refl) as (k' & qs' & H1 & _ & _ & H2 & _).
    exists k'. split; [exact H1|exact H2].
Defined.

Lemma mutex_waiter_resumes_witness :
  exists k'', sys_mlock_resume 0 0 FL_IF (inside 0 ptable_lock (mux_kst 0 [] [])) = Ret 1 k''.
Proof.
  destruct (mutex_waiter_resumes (mux_kst 0 [] []) (inside 0 ptable_lock (mux_kst 0 [] [])) 0 0 (mux_proc RUNNING) 0 0
              (mkmutex 100 0 (queue_of [])) FL_IF []) as [H _].
  - apply mux_rest.
  - by exists "mutex_table".
  - by exists "wqueue".
  - done.
  - by right.
  - done.
  - done.
  - done.
  - apply queue_rep; [simpl; lia|apply NoDup_nil_2].
  - destruct (H ltac:(done)) as (k'' & H1 & _). exists k''. exact H1.
Defined.

Lemma mutex_queue_full_witness :
  exists k', sys_mlock 0 (mux_kst 1 (seq 1 1000) []) = Ret 0 k' /\ lock mutexes_lock k' = Panic "acquire".
Proof.
  eapply (mutex_queue_full (mux_kst 1 (seq 1 1000) []) 0 0 (mux_proc RUNNING) 0 0 0 (mkmutex 100 1 (queue_of [])) (seq 1 1000)).
  - apply mux_handler.
  - apply mux_rest.
  - done.
  - done.
  - apply queue_rep; [by rewrite length_seq|apply NoDup_seq].
  - by rewrite length_seq.
  - rewrite elem_of_seq. lia.
Defined.

Lemma waitcv_spec_witness :
  sys_waitcv 0 (mux_kst 1 [1%nat] []) = Panic "acquire" /\ (exists k', sys_waitcv 0 (mux_kst 1 [] []) = Wait OnSched k') /\
  (exists k'', sys_waitcv_resume 0 0 FL_IF (inside 0 ptable_lock (mux_kst 0 [] [])) = Ret 1 k'').
Proof.
  destruct (waitcv_spec (mux_kst 1 [1%nat] []) 0 0 (mux_proc RUNNING) 0 0 (Some 0%nat) [1%nat]) as (_ & H1 & _);
    [apply mux_handler|apply mux_rest|apply queue_rep; [simpl; lia|apply NoDup_singleton]|].
  destruct (waitcv_spec (mux_kst 1 [] []) 0 0 (mux_proc RUNNING) 0 0 (Some 0%nat) []) as (_ & H2 & H3);
    [apply mux_handler|apply mux_rest|apply queue_rep; [simpl; lia|apply NoDup_nil_2]|].
  assert (He : wq_rep (queue_of []) []) by (apply queue_rep; [simpl; lia|apply NoDup_nil_2]).
  split; [|split].
  - destruct (H1 0%nat (mkmutex 100 1 (queue_of [])) [] eq_refl eq_refl He) as [_ H].
    destruct (H ltac:(right; simpl; lia)) as (_ & H' & _). apply H'; [reflexivity|discriminate].
  - destruct (H2 0%nat (mkmutex 100 1 (queue_of [])) [] eq_refl eq_refl He) as [_ H].
    destruct (H ltac:(right; simpl; lia)) as (H' & _). destruct (H' eq_refl eq_refl) as (k' & mx' & H4 & _). exists k'. exact H4.
  - destruct (H3 (mux_kst 0 [] []) (inside 0 ptable_lock (mux_kst 0 [] [])) (mux_proc RUNNING) (Some 0%nat) FL_IF []) as [_ H];
      [apply mux_rest|exact (mux_handler 0 [] [])|reflexivity|by right|exact He|].
    destruct (H 0%nat (mkmutex 100 0 (queue_of [])) eq_refl eq_refl) as [H' _].
    destruct (H' ltac:(discriminate)) as (k'' & H4 & _). exists k''. exact H4.
Defined.

Lemma signalcv_spec_witness : exists k', sys_signalcv 0 (mux_kst 1 [] [2%nat]) = Ret 1 k'.
Proof.
  destruct (signalcv_spec (mux_kst 1 [] [2%nat]) 0 0 (mux_proc RUNNING) 0 0 0 (mkmutex 100 1 (queue_of [2%nat])) [2%nat] (replicate 20 []))
    as [_ H]; [apply mux_handler|apply mux_rest|done|done|apply queue_rep; [simpl; lia|apply NoDup_singleton]|apply mux_runq|].
  destruct (H 2%nat [] (mux_proc SLEEPING) eq_refl eq_refl eq_refl) as (k' & mx' & qs' & H1 & _). exists k'. exact H1.
Defined.

Lemma munlock_wakes_wrong_process_witness :
  exists k', sys_munlock 0 (mux_kst 1 [1; 2]%nat []) = Ret 1 k' /\ procs (kp k') !! 2%nat = Some (mux_proc SLEEPING).
Proof.
  destruct (munlock_wakes_wrong_process (mux_kst 1 [1; 2]%nat []) 0 0 (mux_proc RUNNING) 0 0 0 (mkmutex 100 1 (queue_of []))
              1 2 (mux_proc SLEEPING) (mux_proc SLEEPING) 1 1 (mkmutex 200 1 (queue_of [])) (replicate 20 []))
    as (k' & H1 & H2 & _); [apply mux_handler|apply mux_rest|apply mux_runq|done|done| |done..|].
  - apply queue_rep; [simpl; lia|]. apply NoDup_cons. split; [by intros ?%list_elem_of_singleton|apply NoDup_singleton].
  - exists k'. split; [exact H1|exact H2].
Defined.
