(* ===== verification/Prio.v ===== *)
(** * Setting priorities (sys_prio_set of sysproc.c) *)

From Stdlib Require Import ZArith Lia.
From stdpp Require Import base numbers strings gmap list.
From S2P Require Import Prelude.
From S2P Require Import Machine.
From S2P Require Import Spinlock.
From S2P Require Import Kalloc.
From S2P Require Import Vm.
From S2P Require Import KState.
From S2P Require Import PQueue.
From S2P Require Import Proc.
From S2P Require Import ProcInv.
From S2P Require Import Sched.
From S2P Require Import SchedSys.
From S2P Require Import Args.
From S2P Require Import ArgsSpec.
From S2P Require Import Sysproc.

Local Open Scope string_scope.
Local Open Scope list_scope.
Local Open Scope Z_scope.

(** ** Ancestors *)

(** [l] are the processes met when following parent links from [i], up to the
    first one whose pid is at most 1. *)
Inductive chain (ps : list proc) : option nat -> list nat -> Prop :=
  | chain_end x pr : ps !! x = Some pr -> p_pid pr <= 1 -> chain ps (Some x) []
  | chain_step x pr l : ps !! x = Some pr -> 1 < p_pid pr -> chain ps (p_parent pr) l -> chain ps (Some x) (x :: l).

Lemma chain_det ps i l l' : chain ps i l -> chain ps i l' -> l = l'.
Proof.
  intros H. revert l'. induction H as [x pr Hx Hp|x pr l Hx Hp Hc IH]; intros l' H'; inversion H'; simplify_eq; [done|lia|lia|].
  f_equal. by apply IH.
Qed.

Lemma chain_suffix ps i l x : chain ps i l -> x ∈ l -> exists l', chain ps (Some x) (x :: l') /\ (length (x :: l') <= length l)%nat.
Proof.
  induction 1 as [|y pr l Hy Hp Hc IH]; intros Hx; [by apply elem_of_nil in Hx|].
  apply elem_of_cons in Hx as [->|Hx].
  - exists l. split; [by econstructor|done].
  - destruct (IH Hx) as (l' & H1 & H2). exists l'. split; [done|]. simpl in *. lia.
Qed.

(** A chain never comes back to a process, so it is no longer than the table. *)
Lemma chain_NoDup ps i l : chain ps i l -> NoDup l.
Proof.
  induction 1 as [|x pr l Hx Hp Hc IH]; [apply NoDup_nil_2|]. apply NoDup_cons. split; [|done]. intros Hin.
  destruct (chain_suffix ps _ l x Hc Hin) as (l' & Hc' & Hlen).
  assert (x :: l = x :: l') as E by (apply (chain_det ps (Some x)); [by econstructor|done]).
  apply (f_equal length) in E. simpl in *. lia.
Qed.

Lemma chain_lt ps i l x : chain ps i l -> x ∈ l -> (x < length ps)%nat.
Proof.
  induction 1 as [|y pr l Hy Hp Hc IH]; [by intros ?%elem_of_nil|]. intros [->|?]%elem_of_cons; [by eapply lookup_lt_Some|auto].
Qed.

Lemma chain_length ps i l : chain ps i l -> (length l <= length ps)%nat.
Proof.
  intros Hc. transitivity (length (seq 0 (length ps))); [|by rewrite length_seq].
  apply submseteq_length, NoDup_submseteq; [by eapply chain_NoDup|].
  intros x Hx. apply elem_of_seq. pose proof (chain_lt ps i l x Hc Hx). lia.
Qed.

Section prio.
Context {F : Type}.
Implicit Types k : kst F.

(** The loop of [sys_prio_set] decides whether [cur] is on the chain. *)
Lemma ancestor_loop_run k cur i l fuel :
  chain (procs (kp k)) i l -> (length l < fuel)%nat -> ancestor_loop fuel cur i k = Ret (bool_decide (cur ∈ l)) k.
Proof.
  intros Hc. revert fuel. induction Hc as [x pr Hx Hp|x pr l Hx Hp Hc IH]; intros fuel Hf;
    (destruct fuel as [|fuel]; [simpl in Hf; lia|]); cbn [ancestor_loop]; unfold nonnull; rewrite bind_some;
    mstep (getp_run x pr k Hx); destruct (Z.ltb_spec 1 (p_pid pr)); try lia.
  - rewrite bool_decide_eq_false_2; [done|]. apply not_elem_of_nil.
  - destruct (Nat.eqb_spec x cur) as [->|Hne].
    + rewrite bool_decide_eq_true_2; [done|]. left.
    + rewrite IH by (simpl in Hf; lia). f_equal. apply bool_decide_ext. rewrite elem_of_cons. intuition congruence.
Qed.

(** The handler's situation: its two arguments. *)
Definition prio_at (k : kst F) (c cur : nat) (pr : proc) (pid priority : Z) : Prop :=
  at_rest k c (Some cur) /\ procs (kp k) !! cur = Some pr /\ arg_is k pr 0 pid /\ arg_is k pr 1 priority.

(** After the arguments, with the checks still to do. *)
Definition prio_body (cur : nat) (pr : proc) (pid priority : Z) : M (kst F) Z :=
  if PRIO_MAX <=? priority then mret (-1)
  else if u32 priority <? p_priority pr then mret (-1)
  else if p_pid pr =? pid then updp cur (set_p_priority (u32 priority));; mret 1
  else
    lock ptable_lock;;
    k ← get;
    let tab := imap (fun i q => negb (Nat.eqb i cur) && (p_pid q =? pid)) (take (Z.to_nat NPROC) (procs (kp k))) in
    match find_first id tab with
    | None => unlock ptable_lock;; mret (-1)
    | Some p =>
        q ← getp p;
        found ← ancestor_loop (S (Z.to_nat NPROC)) cur (p_parent q);
        if found : bool then
          updp p (set_p_priority (u32 priority));; unlock ptable_lock;; mret 1
        else unlock ptable_lock;; mret (-1)
    end.

Lemma prio_start k c cur pr pid priority pid0 priority0 :
  prio_at k c cur pr pid priority -> sys_prio_set pid0 priority0 k = prio_body cur pr pid priority (touched c k).
Proof.
  intros (Hat & Hp & Ha & Hb). pose proof (at_rest_running _ _ _ Hat) as Hr. unfold sys_prio_set.
  mstep (argint_run k c cur pr 0 pid Hr Hp Ha). pose proof (running_touched k c cur Hr) as Hr1.
  mstep (argint_run (touched c k) c cur pr 1 priority Hr1 Hp Hb). rewrite touched_touched.
  mstep (curproc_run (touched c k) c cur pr Hr1 Hp). by rewrite touched_touched.
Qed.

(** The search for another process with the pid. *)
Definition prio_target (cur : nat) (pid : Z) (ps : list proc) : option nat :=
  find_first id (imap (fun i q => negb (Nat.eqb i cur) && (p_pid q =? pid)) ps).

Lemma prio_target_None cur pid ps :
  (forall x q, ps !! x = Some q -> p_pid q <> pid) -> prio_target cur pid ps = None.
Proof.
  intros Hno. apply find_first_None, Forall_lookup. intros i b. rewrite list_lookup_imap.
  destruct (ps !! i) as [q|] eqn:E; [|done]. intros [= <-]. apply andb_false_iff. right. apply Z.eqb_neq. eauto.
Qed.

Lemma prio_target_Some cur pid ps p q :
  ps !! p = Some q -> p_pid q = pid -> p <> cur ->
  (forall x r, (x < p)%nat -> ps !! x = Some r -> p_pid r <> pid) -> prio_target cur pid ps = Some p.
Proof.
  intros Hq Hpid Hne Hmin. apply find_first_Some. split.
  - eexists. rewrite list_lookup_imap, Hq. split; [done|]. simpl. rewrite Hpid, Z.eqb_refl.
    destruct (Nat.eqb_spec p cur); done.
  - intros j b Hj. rewrite list_lookup_imap. destruct (ps !! j) as [r|] eqn:E; [|done]. intros [= <-].
    apply andb_false_iff. right. apply Z.eqb_neq. eauto.
Qed.

(** The part under ptable.lock. *)
Lemma prio_locked_run k c o cur pr pid priority :
  at_rest k c o -> touched c k = k -> length (procs (kp k)) = Z.to_nat NPROC ->
  p_priority pr <= priority < PRIO_MAX -> 0 <= priority -> p_pid pr <> pid ->
  prio_body cur pr pid priority k =
    match prio_target cur pid (procs (kp k)) with
    | None => Ret (-1) k
    | Some p => (q ← getp p;
                 found ← ancestor_loop (S (Z.to_nat NPROC)) cur (p_parent q);
                 if found : bool then updp p (set_p_priority priority);; unlock ptable_lock;; mret 1
                 else unlock ptable_lock;; mret (-1)) (inside c ptable_lock k)
    end.
Proof.
  intros (Hr & Hl & _) Ht Hlen Hp H0 Hpid. unfold prio_body.
  destruct (Z.leb_spec PRIO_MAX priority); [lia|]. rewrite u32_id by (unfold PRIO_MAX, two32 in *; lia).
  destruct (Z.ltb_spec priority (p_priority pr)); [lia|]. destruct (Z.eqb_spec (p_pid pr) pid); [done|].
  mstep (lock_run k c ptable_lock Hr Hl). rewrite bind_get.
  change (procs (kp (inside c ptable_lock k))) with (procs (kp k)). rewrite take_ge by lia. cbv zeta.
  fold (prio_target cur pid (procs (kp k))). destruct (prio_target cur pid (procs (kp k))) as [p|]; [done|].
  erewrite (bind_ret_run (unlock ptable_lock)); [|by apply (unlock_run k _ c)].
  unfold inside. rewrite set_kh_set_kh. fold (touched c k). by rewrite Ht.
Qed.

Lemma prio_found_run k c o cur p q priority l :
  at_rest k c o -> touched c k = k -> length (procs (kp k)) = Z.to_nat NPROC ->
  procs (kp k) !! p = Some q -> chain (procs (kp k)) (p_parent q) l ->
  (q ← getp p;
   found ← ancestor_loop (S (Z.to_nat NPROC)) cur (p_parent q);
   if found : bool then updp p (set_p_priority priority);; unlock ptable_lock;; mret 1
   else unlock ptable_lock;; mret (-1)) (inside c ptable_lock k) =
  if decide (cur ∈ l) then Ret 1 (upd_k p (set_p_priority priority) k) else Ret (-1) k.
Proof.
  intros (Hr & Hl & _) Ht Hlen Hq Hc.
  assert (Ht' : touch c (kh k) = kh k) by (rewrite <- Ht at 2; done).
  mstep (getp_run p q (inside c ptable_lock k) Hq). erewrite (bind_ret_run (ancestor_loop _ _ _)).
  2:{ apply (ancestor_loop_run _ cur _ l); [exact Hc|]. pose proof (chain_length _ _ _ Hc). lia. }
  destruct (decide (cur ∈ l)) as [Hin|Hni].
  - rewrite bool_decide_eq_true_2 by done.
    mstep (updp_run p q (set_p_priority priority) (inside c ptable_lock k) Hq).
    erewrite (bind_ret_run (unlock ptable_lock)); [|by apply (unlock_run k _ c)]. rewrite Ht'.
    by destruct k as [[] ? ? ? ? ? ?].
  - rewrite bool_decide_eq_false_2 by done.
    erewrite (bind_ret_run (unlock ptable_lock)); [|by apply (unlock_run k _ c)].
    rewrite Ht'. unfold inside. by rewrite set_kh_set_kh, set_kh_id.
Qed.
End prio.

(** ** Properties *)

(** [sys_prio_set] on valid priorities.  A priority out of range, or above
    the caller's own, is refused; the caller may lower its own priority; and
    it may set the priority of another process exactly when it is an ancestor
    of that process on the chain of parents below pid 1.  A refused call
    changes nothing, a successful one changes only the target's priority,
    and no lock stays held. *)
Theorem prio_set_spec {F} (k : kst F) c cur pr pid priority pid0 priority0 :
  prio_at k c cur pr pid priority -> length (procs (kp k)) = Z.to_nat NPROC -> 0 <= priority ->
  (PRIO_MAX <= priority \/ priority < p_priority pr -> priority < two32 -> sys_prio_set pid0 priority0 k = Ret (-1) (touched c k)) /\
  (p_priority pr <= priority < PRIO_MAX -> p_pid pr = pid ->
     sys_prio_set pid0 priority0 k = Ret 1 (upd_k cur (set_p_priority priority) (touched c k))) /\
  (p_priority pr <= priority < PRIO_MAX -> p_pid pr <> pid -> 
     (forall x q, procs (kp k) !! x = Some q -> p_pid q <> pid) -> sys_prio_set pid0 priority0 k = Ret (-1) (touched c k)) /\
  (forall p q l, p_priority pr <= priority < PRIO_MAX -> p_pid pr <> pid ->
     procs (kp k) !! p = Some q -> p_pid q = pid ->
     (forall x r, (x < p)%nat -> procs (kp k) !! x = Some r -> p_pid r <> pid) ->
     chain (procs (kp k)) (p_parent q) l ->
     sys_prio_set pid0 priority0 k =
       if decide (cur ∈ l) then Ret 1 (upd_k p (set_p_priority priority) (touched c k)) else Ret (-1) (touched c k)).
Proof.
  intros Hpa Hlen H0. rewrite (prio_start k c cur pr pid priority pid0 priority0 Hpa).
  destruct Hpa as (Hat & Hp & _ & _).
  assert (Hat1 : at_rest (touched c k) c (Some cur)) by by apply at_rest_touched.
  pose proof (touched_touched c k) as Ht. split; [|split; [|split]].
  - intros Hbad Hlt. unfold prio_body. destruct (Z.leb_spec PRIO_MAX priority); [done|]. rewrite u32_id by lia.
    destruct (Z.ltb_spec priority (p_priority pr)); [done|lia].
  - intros Hr Hpid. unfold prio_body. destruct (Z.leb_spec PRIO_MAX priority); [lia|].
    rewrite u32_id by (unfold PRIO_MAX, two32 in *; lia). destruct (Z.ltb_spec priority (p_priority pr)); [lia|].
    rewrite Hpid, Z.eqb_refl. by mstep (updp_run cur pr (set_p_priority priority) (touched c k) Hp).
  - intros Hr Hpid Hno. rewrite (prio_locked_run (touched c k) c _ cur pr pid priority Hat1 Ht Hlen Hr H0 Hpid).
    by rewrite (prio_target_None cur pid (procs (kp (touched c k))) Hno).
  - intros p q l Hr Hpid Hq Hqp Hmin Hc.
    rewrite (prio_locked_run (touched c k) c _ cur pr pid priority Hat1 Ht Hlen Hr H0 Hpid).
    rewrite (prio_target_Some cur pid (procs (kp (touched c k))) p q Hq Hqp); [|congruence|done].
    apply (prio_found_run (touched c k) c _ cur p q priority l Hat1 Ht Hlen Hq Hc).
Qed.

(** The priority argument is not checked from below.  A negative priority
    passes both tests (the second compares as unsigned), is stored as a huge
    unsigned number, and the next time the process gives up the CPU
    [pq_enqueue] indexes the queues with it, outside their bounds. *)
Theorem prio_set_negative {F} (k : kst F) c cur pr pid priority pid0 priority0 :
  prio_at k c cur pr pid priority -> p_pid pr = pid -> - 2147483648 <= priority < 0 ->
  0 <= p_priority pr < PRIO_MAX ->
  exists k', sys_prio_set pid0 priority0 k = Ret 1 k' /\
    procs (kp k') !! cur = Some (set_p_priority (priority + two32) pr) /\
    yield k' = Fault "pq_enqueue: head_tail".
Proof.
  intros Hpa Hpid Hneg Hpr. rewrite (prio_start k c cur pr pid priority pid0 priority0 Hpa).
  destruct Hpa as (Hat & Hp & _ & _). unfold prio_body, PRIO_MAX, two32 in *.
  assert (Hu : u32 priority = priority + 4294967296).
  { unfold u32, two32. rewrite <- (Z_mod_plus_full priority 1 4294967296), Z.mod_small by lia. lia. }
  destruct (Z.leb_spec 20 priority); [lia|]. rewrite Hu. destruct (Z.ltb_spec (priority + 4294967296) (p_priority pr)); [lia|].
  rewrite Hpid, Z.eqb_refl. mstep (updp_run cur pr (set_p_priority (priority + 4294967296)) (touched c k) Hp).
  set (k1 := upd_k cur _ (touched c k)).
  assert (Hp1 : procs (kp k1) !! cur = Some (set_p_priority (priority + 4294967296) pr)) by by apply upd_k_lookup.
  exists k1. split; [done|]. split; [done|].
  assert (Hat1 : at_rest k1 c (Some cur)) by exact (at_rest_touched k c _ Hat).
  pose proof (at_rest_running _ _ _ Hat1) as Hr1. unfold yield.
  mstep (lock_run k1 c _ (proj1 Hat1) (proj1 (proj2 Hat1))).
  mstep (myproc_locked k1 (inside c ptable_lock k1) c cur ptable_lock Hr1 eq_refl). unfold nonnull. rewrite bind_some.
  mstep (updp_run cur _ (set_p_state RUNNABLE) (inside c ptable_lock k1) Hp1).
  mstep (myproc_locked k1 (upd_k cur (set_p_state RUNNABLE) (inside c ptable_lock k1)) c cur ptable_lock Hr1 eq_refl).
  rewrite bind_some. unfold enqueue_or_panic, on_kp, zoom, pq_enqueue. mexec.
  change (procs (kp (upd_k cur (set_p_state RUNNABLE) (inside c ptable_lock k1)))) with
    (alter (set_p_state RUNNABLE) cur (procs (kp k1))).
  rewrite list_lookup_alter_eq, Hp1. cbn [fmap option_fmap option_map]. simpl p_state. rewrite bool_decide_eq_true_2 by done.
  cbn [negb]. simpl p_priority.
  assert (Hi : i32 (priority + 4294967296) = priority).
  { unfold i32. rewrite <- Hu, u32_u32, Hu. destruct (Z.ltb_spec (priority + 4294967296) 2147483648); unfold two32; lia. }
  rewrite Hi. unfold zget. destruct (Z.leb_spec 0 priority); [lia|]. done.
Qed.

(** Witnesses: slot 0 (pid 7) is the caller, slot 1 (pid 9) its child, and slot
    2 is init. *)
Definition prio_kst (args : list Z) : kst unit :=
  let k := user_kst args in
  set_kp (empty_rings (set_p_parent (Some 2%nat) user_proc :: set_p_pid 9 (set_p_parent (Some 0%nat) proc0) ::
                       set_p_pid 1 proc0 :: replicate 61 proc0)) k.

Lemma prio_kst_at pid priority :
  i32 pid = pid -> 0 <= pid < 256 -> 0 <= priority < 4294967296 ->
  peek32 (user_mem [pid; priority]) user_pgdir 4004 = Some pid ->
  peek32 (user_mem [pid; priority]) user_pgdir 4008 = Some priority ->
  prio_at (prio_kst [pid; priority]) 0 0 (set_p_parent (Some 2%nat) user_proc) pid (i32 priority).
Proof.
  intros Hi _ _ H1 H2. split; [exact (wit_rest (Some 0%nat) (wit_tab RUNNING) 0)|]. split; [done|].
  split; (split; [vm_compute; reflexivity|]; split; [vm_compute; congruence|]).
  - exists pid. by split.
  - by exists priority.
Qed.

Lemma prio_set_spec_witness : exists k', sys_prio_set 0 0 (prio_kst [9; 5]) = Ret 1 k' /\
  procs (kp k') !! 1%nat = Some (set_p_priority 5 (set_p_pid 9 (set_p_parent (Some 0%nat) proc0))).
Proof.
  destruct (prio_set_spec (prio_kst [9; 5]) 0 0 (set_p_parent (Some 2%nat) user_proc) 9 5 0 0) as (_ & _ & _ & H).
  - exact (prio_kst_at 9 5 eq_refl ltac:(lia) ltac:(lia) ltac:(vm_compute; reflexivity) ltac:(vm_compute; reflexivity)).
  - reflexivity.
  - lia.
  - rewrite (H 1%nat (set_p_pid 9 (set_p_parent (Some 0%nat) proc0)) [0%nat]).
    + eexists. split; [reflexivity|]. reflexivity.
    + vm_compute. split; congruence.
    + vm_compute. congruence.
    + reflexivity.
    + reflexivity.
    + intros x r Hx Hr. assert (x = 0%nat) as -> by lia. injection Hr as <-. vm_compute. congruence.
    + eapply chain_step; [reflexivity|reflexivity|]. eapply chain_end; [reflexivity|vm_compute; congruence].
Defined.

Lemma prio_set_negative_witness : exists k', sys_prio_set 0 0 (prio_kst [7; 4294967295]) = Ret 1 k' /\
  yield k' = Fault "pq_enqueue: head_tail".
Proof.
  destruct (prio_set_negative (prio_kst [7; 4294967295]) 0 0 (set_p_parent (Some 2%nat) user_proc) 7 (-1) 0 0) as (k' & H1 & _ & H2).
  - exact (prio_kst_at 7 4294967295 eq_refl ltac:(lia) ltac:(lia) ltac:(vm_compute; reflexivity) ltac:(vm_compute; reflexivity)).
  - reflexivity.
  - lia.
  - vm_compute. split; congruence.
  - exists k'. split; [exact H1|exact H2].
Defined.
