(* ===== verification/Grep.v ===== *)
(** * grep (grep.c)

    C strings are lists of non-zero bytes; a pointer into a string is a
    suffix of it, and reading at its end gives the terminating NUL.  The
    pattern matcher is modelled function by function, and the main loop with
    its buffer: [b] is what is in [buf[0..m)]. *)

From Stdlib Require Import ZArith Lia.
From stdpp Require Import base numbers strings gmap list.
From S2P Require Import Prelude.

Local Open Scope list_scope.
Local Open Scope Z_scope.

(** The characters the code names. *)
Definition ch_caret : Z := 94.
Definition ch_dollar : Z := 36.
Definition ch_star : Z := 42.
Definition ch_dot : Z := 46.
Definition ch_nl : Z := 10.

(** [c] matches the character [x]. *)
Definition one (c x : Z) : bool := (c =? ch_dot) || (c =? x).

(** [matchstar(c, re, text)], given [matchhere(re, .)]: the loop moves along
    [text]. *)
Fixpoint matchstar (mh : list Z -> bool) (c : Z) (text : list Z) : bool :=
  mh text || match text with [] => false | x :: t => ((x =? c) || (c =? ch_dot)) && matchstar mh c t end.

Fixpoint matchhere (re : list Z) (text : list Z) {struct re} : bool :=
  match re with
  | [] => true
  | c :: re1 =>
      match re1 with
      | s :: re2 =>
          if s =? ch_star then matchstar (matchhere re2) c text
          else match text with [] => false | x :: t => one c x && matchhere re1 t end
      | [] =>
          if c =? ch_dollar then match text with [] => true | _ => false end
          else match text with [] => false | x :: t => one c x && matchhere re1 t end
      end
  end.

(** The [do ... while] of [match] for a pattern without [^]. *)
Fixpoint match_loop (re text : list Z) : bool :=
  matchhere re text || match text with [] => false | _ :: t => match_loop re t end.

Definition match_re (re text : list Z) : bool :=
  match re with
  | c :: re1 => if c =? ch_caret then matchhere re1 text else match_loop re text
  | [] => match_loop re text
  end.

(** ** The main loop *)

(** [strchr(p, '\n')]: the line before the newline and what follows it; a NUL
    stops the search. *)
Fixpoint next_line (p : list Z) : option (list Z * list Z) :=
  match p with
  | [] => None
  | c :: p =>
      if c =? 0 then None
      else if c =? ch_nl then Some ([], p)
      else match next_line p with Some (l, r) => Some (c :: l, r) | None => None end
  end.

(** The inner loop: the bytes written, and the rest [p] of the buffer. *)
Fixpoint scan_lines (fuel : nat) (re p : list Z) : list Z * list Z :=
  match fuel with
  | O => ([], p)
  | S fuel =>
      match next_line p with
      | None => ([], p)
      | Some (l, r) =>
          let '(out, rest) := scan_lines fuel re r in
          ((if match_re re l then l ++ [ch_nl] else []) ++ out, rest)
      end
  end.

(** One iteration of the outer loop on a non-empty read: what is written and
    the new contents of the buffer.  When no line was found, [p == buf], the
    buffer is emptied. *)
Definition grep_step (re b chunk : list Z) : list Z * list Z :=
  let buf := b ++ chunk in
  let '(out, p) := scan_lines (length buf) re buf in
  (out, if Nat.eqb (length p) (length buf) then [] else p).

(** [grep] on the successive results of [read]; the loop ends at the first
    empty one. *)
Fixpoint grep (re b : list Z) (reads : list (list Z)) : list Z :=
  match reads with
  | [] => []
  | [] :: _ => []
  | chunk :: reads => let '(out, b') := grep_step re b chunk in out ++ grep re b' reads
  end.

(** ** What a pattern denotes *)

Inductive here : list Z -> list Z -> Prop :=
  | here_nil text : here [] text
  | here_star c re pre text :
      Forall (fun x => one c x = true) pre -> here re text -> here (c :: ch_star :: re) (pre ++ text)
  | here_end : here [ch_dollar] []
  | here_one c re x text :
      head re <> Some ch_star -> ~ (c = ch_dollar /\ re = []) -> one c x = true -> here re text ->
      here (c :: re) (x :: text).

Inductive denotes : list Z -> list Z -> Prop :=
  | den_caret re text : here re text -> denotes (ch_caret :: re) text
  | den_any re pre text : head re <> Some ch_caret -> here re text -> denotes re (pre ++ text).

Lemma one_sym c x : ((x =? c) || (c =? ch_dot)) = one c x.
Proof. unfold one. rewrite orb_comm, (Z.eqb_sym x c). done. Qed.

(** [matchstar] looks for a split of the text. *)
Lemma matchstar_spec (mh : list Z -> bool) c text :
  matchstar mh c text = true <-> exists pre rest, text = pre ++ rest /\ Forall (fun x => one c x = true) pre /\ mh rest = true.
Proof.
  induction text as [|x t IH]; simpl.
  - rewrite orb_false_r. split.
    + intros H. exists [], []. done.
    + intros (pre & rest & Ht & _ & H). symmetry in Ht. apply app_nil in Ht as [_ ->]. done.
  - rewrite orb_true_iff, andb_true_iff, one_sym, IH. split.
    + intros [H|[Hx (pre & rest & -> & Hp & H)]]; [by exists [], (x :: t)|]. exists (x :: pre), rest. by split; [|split; [constructor|]].
    + intros ([|y pre] & rest & Ht & Hp & H); simpl in Ht; [left; by subst rest|]. injection Ht as <- ->.
      apply Forall_cons in Hp as [Hx Hp]. right. split; [done|]. by exists pre, rest.
Qed.

Lemma here_cons_cons c s re text :
  s <> ch_star -> (here (c :: s :: re) text <-> exists x t, text = x :: t /\ one c x = true /\ here (s :: re) t).
Proof.
  intros Hs. split.
  - intros H. inversion H; subst; [done|]. eauto.
  - intros (x & t & -> & Hx & H). apply here_one; [|by intros []|done|done]. simpl. congruence.
Qed.

Lemma here_star_iff c re text :
  here (c :: ch_star :: re) text <-> exists pre rest, text = pre ++ rest /\ Forall (fun x => one c x = true) pre /\ here re rest.
Proof.
  split.
  - intros H. inversion H; subst; [eauto|]. done.
  - intros (pre & rest & -> & Hp & H). by constructor.
Qed.

Lemma matchhere_spec re text : matchhere re text = true <-> here re text.
Proof.
  revert text. induction re as [re IH] using (induction_ltof1 _ (@length Z)). intros text.
  unfold ltof in IH. destruct re as [|c [|s re]].
  - split; [constructor|done].
  - cbn [matchhere]. destruct (Z.eqb_spec c ch_dollar) as [->|Hc].
    + destruct text as [|x t]; [by split; [constructor|]|]. split; [done|]. intros H. inversion H; subst. by exfalso; eauto.
    + destruct text as [|x t]; [split; [done|intros H; inversion H; subst; done]|]. rewrite andb_true_r. split.
      * intros Hx. apply here_one; [done|by intros [? _]|done|constructor].
      * intros H. by inversion H.
  - change (matchhere (c :: s :: re) text) with
      (if s =? ch_star then matchstar (matchhere re) c text
       else match text with [] => false | x :: t => one c x && matchhere (s :: re) t end).
    destruct (Z.eqb_spec s ch_star) as [->|Hs].
    + rewrite matchstar_spec, here_star_iff. do 2 (f_equiv; intros ?). do 2 f_equiv. apply IH. simpl. lia.
    + rewrite here_cons_cons by done. destruct text as [|x t]; [split; [done|by intros (? & ? & ? & _)]|].
      rewrite andb_true_iff. split.
      * intros [Hx H]. exists x, t. split; [done|]. split; [done|]. apply IH; [simpl; lia|done].
      * intros (x' & t' & [= <- <-] & Hx & H). split; [done|]. apply IH; [simpl; lia|done].
Qed.

Lemma match_loop_spec re text : match_loop re text = true <-> exists pre rest, text = pre ++ rest /\ here re rest.
Proof.
  induction text as [|x t IH]; simpl.
  - rewrite orb_false_r, matchhere_spec. split; [intros H; by exists [], []|].
    intros (pre & rest & Ht & H). symmetry in Ht. by apply app_nil in Ht as [_ ->].
  - rewrite orb_true_iff, matchhere_spec, IH. split.
    + intros [H|(pre & rest & -> & H)]; [by exists [], (x :: t)|by exists (x :: pre), rest].
    + intros ([|y pre] & rest & Ht & H); simpl in Ht; [left; by subst rest|]. injection Ht as <- ->. right. by exists pre, rest.
Qed.

(** ** Lines *)

(** The complete lines of a text, and what follows the last newline. *)
Fixpoint lines (s : list Z) : list (list Z) * list Z :=
  match s with
  | [] => ([], [])
  | c :: s =>
      let '(ls, r) := lines s in
      if c =? ch_nl then ([] :: ls, r)
      else match ls with [] => ([], c :: r) | l :: ls => ((c :: l) :: ls, r) end
  end.

Definition text_ok (s : list Z) : Prop := Forall (fun c => c <> 0) s.

(** What [grep] writes for a list of lines. *)
Definition selected (re : list Z) (ls : list (list Z)) : list Z :=
  concat ((fun l => if match_re re l then l ++ [ch_nl] else []) <$> ls).

Lemma next_line_none p : text_ok p -> (next_line p = None <-> (lines p).1 = []).
Proof.
  induction p as [|c p IH]; intros Hp; [done|]. apply Forall_cons in Hp as [Hc Hp]. cbn [next_line lines].
  rewrite (proj2 (Z.eqb_neq _ _) Hc). specialize (IH Hp). destruct (lines p) as [ls r].
  destruct (c =? ch_nl); [done|]. simpl in IH. destruct IH as [IH1 IH2].
  destruct (next_line p) as [[l r']|], ls as [|l2 ls]; split; intros Hx; try done; [by specialize (IH2 eq_refl)|by specialize (IH1 eq_refl)].
Qed.

Lemma next_line_some p l r :
  text_ok p -> next_line p = Some (l, r) -> p = l ++ ch_nl :: r /\ text_ok r /\ (lines p).1 = l :: (lines r).1 /\ (lines p).2 = (lines r).2.
Proof.
  revert l. induction p as [|c p IH]; intros l Hp; [done|]. apply Forall_cons in Hp as [Hc Hp]. cbn [next_line lines].
  rewrite (proj2 (Z.eqb_neq _ _) Hc). destruct (Z.eqb_spec c ch_nl) as [->|Hn].
  - intros [= <- <-]. by destruct (lines p).
  - destruct (next_line p) as [[l' r']|] eqn:E; [|done]. intros [= <- <-].
    destruct (IH l' Hp eq_refl) as (-> & Hr & H1 & H2). destruct (lines (l' ++ ch_nl :: r')) as [ls r2]. simpl in *. by subst.
Qed.

Lemma lines_rest_short p : (length (lines p).2 <= length p)%nat /\ ((lines p).1 = [] -> (lines p).2 = p) /\
  ((lines p).1 <> [] -> (length (lines p).2 < length p)%nat).
Proof.
  induction p as [|c p IH]; [done|]. cbn [lines length]. destruct (lines p) as [ls r]. simpl in IH.
  destruct (c =? ch_nl); simpl; [split; [lia|]; split; [done|]; destruct IH; lia|].
  destruct ls as [|l ls]; simpl; destruct IH as (H1 & H2 & H3).
  - rewrite H2 by done. split; [lia|]. by split.
  - split; [lia|]. split; [done|]. intros _. specialize (H3 ltac:(done)). lia.
Qed.

Lemma scan_lines_spec fuel re p :
  text_ok p -> (length p <= fuel)%nat -> scan_lines fuel re p = (selected re (lines p).1, (lines p).2).
Proof.
  revert p. induction fuel as [|fuel IH]; intros p Hp Hlen; [by destruct p; simpl in *; [|lia]|]. cbn [scan_lines].
  destruct (next_line p) as [[l r]|] eqn:E.
  - destruct (next_line_some p l r Hp E) as (-> & Hr & H1 & H2). rewrite H1, H2.
    rewrite length_app in Hlen. simpl in Hlen. rewrite IH by (done || lia). done.
  - apply next_line_none in E; [|done]. destruct (lines_rest_short p) as (_ & Hr & _). rewrite (Hr E), E. done.
Qed.

Lemma lines_app s t :
  lines (s ++ t) = let '(ls, r) := lines s in let '(ls2, r2) := lines (r ++ t) in (ls ++ ls2, r2).
Proof.
  induction s as [|c s IH]; cbn [app lines]; [by destruct (lines t)|]. rewrite IH. destruct (lines s) as [ls r].
  destruct (lines (r ++ t)) as [ls2 r2] eqn:E. destruct (Z.eqb_spec c ch_nl) as [->|Hn]; [by rewrite E|].
  destruct ls as [|l ls]; cbn [app lines].
  - rewrite E, (proj2 (Z.eqb_neq _ _) Hn). by destruct ls2.
  - by rewrite E.
Qed.

(** Each read completes a line, so that the buffer is never emptied. *)
Fixpoint reads_ok (b : list Z) (reads : list (list Z)) : Prop :=
  match reads with
  | [] => True
  | chunk :: reads => chunk <> [] /\ text_ok chunk /\ (lines (b ++ chunk)).1 <> [] /\ reads_ok (lines (b ++ chunk)).2 reads
  end.

Lemma lines_text_ok s : text_ok s -> text_ok (lines s).2.
Proof.
  induction s as [|c s IH]; [done|]. intros Hs. apply Forall_cons in Hs as [Hc Hs]. cbn [lines]. specialize (IH Hs).
  destruct (lines s) as [ls r]. destruct (c =? ch_nl); [done|]. destruct ls; [by constructor|done].
Qed.

(** ** Properties *)

(** C40. The matcher.  [match(re, text)] succeeds exactly when the pattern
    denotes a match: with a leading [^] the rest matches at the start of the
    text, otherwise at some position; a match is [c*] over any number of
    characters, [$] at the end, [.] for any character, or the character
    itself. *)
Theorem match_re_spec re text : match_re re text = true <-> denotes re text.
Proof.
  unfold match_re. destruct re as [|c re1]; [|destruct (Z.eqb_spec c ch_caret) as [->|Hc]].
  - rewrite match_loop_spec. split; [intros (pre & rest & -> & H); by apply den_any|]. intros H. inversion H; subst; eauto.
  - rewrite matchhere_spec. split; [by constructor|]. intros H. inversion H; subst; [done|]. by simpl in *.
  - rewrite match_loop_spec. split.
    + intros (pre & rest & -> & H). apply den_any; [simpl; congruence|done].
    + intros H. inversion H; subst; [done|eauto].
Qed.

(** The main loop.  When every read completes at least one line, [grep]
    writes exactly the complete lines of the input that match, in order,
    however the input is cut into reads. *)
Theorem grep_spec re reads :
  reads_ok [] reads -> grep re [] reads = selected re (lines (concat reads)).1.
Proof.
  assert (Hgen : forall b, text_ok b -> (lines b).1 = [] -> reads_ok b reads -> grep re b reads = selected re (lines (b ++ concat reads)).1).
  { induction reads as [|chunk reads IH]; intros b Hb Hb0 Hok; simpl.
    { rewrite app_nil_r, Hb0. done. }
    destruct Hok as (Hne & Hc & Hl & Hok). destruct chunk as [|c0 chunk]; [done|]. unfold grep_step.
    assert (Hbc : text_ok (b ++ c0 :: chunk)) by by apply Forall_app.
    rewrite (scan_lines_spec _ re _ Hbc) by lia. destruct (lines_rest_short (b ++ c0 :: chunk)) as (_ & _ & Hlt).
    destruct (Nat.eqb_spec (length (lines (b ++ c0 :: chunk)).2) (length (b ++ c0 :: chunk))) as [Heq|_]; [specialize (Hlt Hl); lia|].
    rewrite app_assoc, (lines_app (b ++ c0 :: chunk) (concat reads)). destruct (lines (b ++ c0 :: chunk)) as [ls r] eqn:E. cbn [fst snd] in *.
    assert (Hr0 : (lines r).1 = []).
    { pose proof (lines_app (b ++ c0 :: chunk) []) as Ha. rewrite app_nil_r, E, app_nil_r in Ha.
      destruct (lines r) as [ls2 r2]. injection Ha as Ha _. simpl. apply (f_equal length) in Ha. rewrite length_app in Ha. apply nil_length_inv. lia. }
    rewrite IH; [|pose proof (lines_text_ok _ Hbc) as Hx; rewrite E in Hx; exact Hx|done|done].
    destruct (lines (r ++ concat reads)) as [ls2 r2]. simpl. unfold selected. by rewrite fmap_app, concat_app. }
  intros Hok. by apply (Hgen []); [constructor| |].
Qed.

(** Two reads that cut a line: [^a.*c$] on ab, ac and xc. *)
Lemma grep_spec_witness :
  grep [94; 97; 46; 42; 99; 36] [] [[97; 98; 10; 97]; [99; 10; 120; 99; 10]] = [97; 99; 10].
Proof.
  rewrite (grep_spec [94; 97; 46; 42; 99; 36] [[97; 98; 10; 97]; [99; 10; 120; 99; 10]]); [reflexivity|].
  repeat (split; [done || (repeat constructor; done)|]). done.
Defined.
