(* ===== verification/Utils.v ===== *)
(** * User programs (cat.c, wc.c, echo.c, kill.c, ln.c, mkdir.c, rm.c, ls.c, init.c, zombie.c)

    A user program is an interaction tree: its nodes are the system calls it makes
    and it goes on with what the call returns.  [printf] is one node; what it
    writes is Printf.v.  A call gives back its value and the bytes, or for
    [fstat] the fields of [struct stat] and for [pipe] the descriptors, that it
    stored for the caller.  [exit]
    never returns.

    Strings are lists of characters without the final NUL. *)

From Stdlib Require Import ZArith Lia List String.
From S2P Require Import Prelude.
From ITree Require Import ITree ITreeFacts.

Import ITreeNotations.
Import ListNotations.
Local Open Scope itree_scope.
Local Open Scope bool_scope.
Local Open Scope string_scope.
Local Open Scope list_scope.
Local Open Scope Z_scope.

Inductive uarg := AInt (v : Z) | AStr (s : list Z).

Inductive ucall :=
  | Uopen (path : list Z) (mode : Z)
  | Uclose (fd : Z)
  | Uread (fd n : Z)
  | Uwrite (fd : Z) (data : list Z)
  | Uprintf (fd : Z) (fmt : string) (args : list uarg)
  | Ufork
  | Uwait
  | Uexit
  | Ukill (pid : Z)
  | Ulink (old new : list Z)
  | Uunlink (path : list Z)
  | Umkdir (path : list Z)
  | Umknod (path : list Z) (major minor : Z)
  | Udup (fd : Z)
  | Uexec (path : list Z) (argv : list (list Z))
  | Ufstat (fd : Z)
  | Usleep (n : Z)
  | Uchdir (path : list Z)
  | Upipe.

(** What a call returns and stores. *)
Record uans := mkans { a_ret : Z; a_data : list Z }.

Variant callE : Type -> Type := Call (c : ucall) : callE uans.

Definition sys (c : ucall) : itree callE Z := a <- ITree.trigger (Call c);; Ret (a_ret a).
Definition do_ (c : ucall) : itree callE unit := ITree.trigger (Call c);; Ret tt.
Definition exit {R} : itree callE R := Vis (Call Uexit) (fun _ => ITree.spin).
Definition printf (fd : Z) (fmt : string) (args : list uarg) : itree callE unit := do_ (Uprintf fd fmt args).

(** [for (x in l) f(x);] *)
Fixpoint for_each {A} (l : list A) (f : A -> itree callE unit) : itree callE unit :=
  match l with [] => Ret tt | x :: l => f x;; for_each l f end.

(** ** cat.c *)

Definition cat (fd : Z) : itree callE unit :=
  n <- ITree.iter (fun _ : unit =>
         a <- ITree.trigger (Call (Uread fd 512));;
         if 0 <? a_ret a then
           w <- sys (Uwrite 1 (firstn (Z.to_nat (a_ret a)) (a_data a)));;
           if negb (w =? a_ret a) then printf 1 "cat: write error\n" [];; exit else Ret (inl tt)
         else Ret (inr (a_ret a))) tt;;
  if n <? 0 then printf 1 "cat: read error\n" [];; exit else Ret tt.

(** [argv] without the program's name. *)
Definition cat_main (args : list (list Z)) : itree callE unit :=
  match args with
  | [] => cat 0;; exit
  | _ =>
      for_each args (fun arg =>
        fd <- sys (Uopen arg 0);;
        if fd <? 0 then printf 1 "cat: cannot open %s\n" [AStr arg];; exit
        else cat fd;; do_ (Uclose fd));;
      exit
  end.

(** ** wc.c *)

(** The characters of the string searched by [strchr]. *)
Definition is_space (c : Z) : bool := existsb (Z.eqb c) [32; 13; 9; 10; 11].

(** [l], [w], [c] and [inword]. *)
Record counts := mkcounts { n_lines : Z; n_words : Z; n_chars : Z; inword : bool }.

Definition count1 (s : counts) (b : Z) : counts :=
  let c := i32 (n_chars s + 1) in
  let l := if b =? 10 then i32 (n_lines s + 1) else n_lines s in
  if is_space b then mkcounts l (n_words s) c false
  else if negb (inword s) then mkcounts l (i32 (n_words s + 1)) c true
  else mkcounts l (n_words s) c true.

Definition wc (fd : Z) (name : list Z) : itree callE unit :=
  r <- ITree.iter (fun s : counts =>
         a <- ITree.trigger (Call (Uread fd 512));;
         if 0 <? a_ret a then Ret (inl (fold_left count1 (firstn (Z.to_nat (a_ret a)) (a_data a)) s))
         else Ret (inr (a_ret a, s))) (mkcounts 0 0 0 false);;
  if fst r <? 0 then printf 1 "wc: read error\n" [];; exit
  else printf 1 "%d %d %d %s\n" [AInt (n_lines (snd r)); AInt (n_words (snd r)); AInt (n_chars (snd r)); AStr name].

Definition wc_main (args : list (list Z)) : itree callE unit :=
  match args with
  | [] => wc 0 [];; exit
  | _ =>
      for_each args (fun arg =>
        fd <- sys (Uopen arg 0);;
        if fd <? 0 then printf 1 "wc: cannot open %s\n" [AStr arg];; exit
        else wc fd arg;; do_ (Uclose fd));;
      exit
  end.

(** ** echo.c, kill.c, ln.c, mkdir.c, rm.c, zombie.c *)

Fixpoint echo_loop (args : list (list Z)) : itree callE unit :=
  match args with
  | [] => Ret tt
  | arg :: args => printf 1 "%s%s" [AStr arg; AStr (match args with [] => [10] | _ => [32] end)];; echo_loop args
  end.
Definition echo_main (args : list (list Z)) : itree callE unit := echo_loop args;; exit.

(** [atoi] of ulib.c on a string. *)
Fixpoint atoi_from (n : Z) (s : list Z) : Z :=
  match s with
  | [] => n
  | c :: s => if (48 <=? c) && (c <=? 57) then atoi_from (i32 (n * 10 + c - 48)) s else n
  end.
Definition atoi (s : list Z) : Z := atoi_from 0 s.

Definition kill_main (args : list (list Z)) : itree callE unit :=
  match args with
  | [] => printf 2 "usage: kill pid...\n" [];; exit
  | _ => for_each args (fun arg => do_ (Ukill (atoi arg)));; exit
  end.

Definition ln_main (args : list (list Z)) : itree callE unit :=
  match args with
  | [old; new] =>
      r <- sys (Ulink old new);;
      (if r <? 0 then printf 2 "link %s %s: failed\n" [AStr old; AStr new] else Ret tt);;
      exit
  | _ => printf 2 "Usage: ln old new\n" [];; exit
  end.

(** The loop of mkdir.c and rm.c, which ends at the first failure. *)
Fixpoint until_failure (call : list Z -> ucall) (msg : string) (args : list (list Z)) : itree callE unit :=
  match args with
  | [] => Ret tt
  | arg :: args => r <- sys (call arg);; if r <? 0 then printf 2 msg [AStr arg] else until_failure call msg args
  end.
Definition mkdir_main (args : list (list Z)) : itree callE unit :=
  match args with
  | [] => printf 2 "Usage: mkdir files...\n" [];; exit
  | _ => until_failure Umkdir "mkdir: %s failed to create\n" args;; exit
  end.
Definition rm_main (args : list (list Z)) : itree callE unit :=
  match args with
  | [] => printf 2 "Usage: rm files...\n" [];; exit
  | _ => until_failure Uunlink "rm: %s failed to delete\n" args;; exit
  end.

Definition zombie_main : itree callE unit :=
  pid <- sys Ufork;;
  (if 0 <? pid then do_ (Usleep 5) else Ret tt);;
  exit.

(** ** ls.c *)

(** [struct stat] as [fstat] stores it. *)
Record ustat := mkstat { st_type : Z; st_dev : Z; st_ino : Z; st_nlink : Z; st_size : Z }.
Definition stat_of (l : list Z) : ustat := mkstat (nth 0 l 0) (nth 1 l 0) (nth 2 l 0) (nth 3 l 0) (nth 4 l 0).

(** [stat] of ulib.c. *)
Definition stat (path : list Z) : itree callE (Z * ustat) :=
  fd <- sys (Uopen path 0);;
  if fd <? 0 then Ret (-1, stat_of [])
  else a <- ITree.trigger (Call (Ufstat fd));; do_ (Uclose fd);; Ret (a_ret a, stat_of (a_data a)).

(** The part behind the last slash. *)
Fixpoint after_slash (path : list Z) : list Z :=
  match path with
  | [] => []
  | c :: rest => if existsb (Z.eqb 47) (c :: rest) then after_slash rest else c :: rest
  end.
Definition fmtname (path : list Z) : list Z :=
  let p := after_slash path in
  if 14 <=? Z.of_nat (List.length p) then p else p ++ repeat 32 (14 - List.length p).

(** The string in an array. *)
Fixpoint cstring (l : list Z) : list Z := match l with [] => [] | c :: l => if c =? 0 then [] else c :: cstring l end.

Definition ls_line (path : list Z) (st : ustat) : itree callE unit :=
  printf 1 "%s %d %d %d\n" [AStr (fmtname path); AInt (st_type st); AInt (st_ino st); AInt (st_size st)].

(** The loop over the entries; [buf] holds [path], a slash and the name. *)
Definition ls_entries (fd : Z) (path : list Z) : itree callE unit :=
  ITree.iter (fun _ : unit =>
    a <- ITree.trigger (Call (Uread fd 16));;
    if negb (a_ret a =? 16) then Ret (inr tt)
    else
      let inum := nth 0 (a_data a) 0 + 256 * nth 1 (a_data a) 0 in
      if inum =? 0 then Ret (inl tt)
      else
        let buf := path ++ [47] ++ cstring (firstn 14 (skipn 2 (a_data a))) in
        r <- stat buf;;
        (if fst r <? 0 then printf 1 "ls: cannot stat %s\n" [AStr buf] else ls_line buf (snd r));;
        Ret (inl tt)) tt.

Definition ls (path : list Z) : itree callE unit :=
  fd <- sys (Uopen path 0);;
  if fd <? 0 then printf 2 "ls: cannot open %s\n" [AStr path]
  else
    a <- ITree.trigger (Call (Ufstat fd));;
    if a_ret a <? 0 then printf 2 "ls: cannot stat %s\n" [AStr path];; do_ (Uclose fd)
    else
      let st := stat_of (a_data a) in
      (if st_type st =? 2 then ls_line path st
       else if st_type st =? 1 then
         if 512 <? Z.of_nat (List.length path) + 1 + 14 + 1 then printf 1 "ls: path too long\n" [] else ls_entries fd path
       else Ret tt);;
      do_ (Uclose fd).

Definition ls_main (args : list (list Z)) : itree callE unit :=
  match args with [] => ls [46];; exit | _ => for_each args ls;; exit end.

(** ** init.c *)

Definition console : list Z := [99; 111; 110; 115; 111; 108; 101].
Definition sh : list Z := [115; 104].

(** [while ((wpid = wait()) >= 0 && wpid != pid) printf(1, "zombie!\n");] *)
Definition reap (pid : Z) : itree callE unit :=
  ITree.iter (fun _ : unit =>
    wpid <- sys Uwait;;
    if (0 <=? wpid) && negb (wpid =? pid) then printf 1 "zombie!\n" [];; Ret (inl tt) else Ret (inr tt)) tt.

Definition init_loop : itree callE unit :=
  ITree.iter (fun _ : unit =>
    printf 1 "init: starting sh\n" [];;
    pid <- sys Ufork;;
    if pid <? 0 then printf 1 "init: fork failed\n" [];; exit
    else if pid =? 0 then do_ (Uexec sh [sh]);; printf 1 "init: exec sh failed\n" [];; exit
    else reap pid;; Ret (inl tt)) tt.

Definition init_main : itree callE unit :=
  fd <- sys (Uopen console 2);;
  (if fd <? 0 then do_ (Umknod console 1 1);; do_ (Uopen console 2) else Ret tt);;
  do_ (Udup 0);;
  do_ (Udup 0);;
  init_loop.
