(* ===== verification/UtilsSpec.v ===== *)
(** * What the user programs do

    A run of a program is the list of its system calls with what they returned.
    The theorems give the run for every way the kernel may answer: [wc] counts
    the same however [read] splits the file, [cat] writes what it reads, [ls]
    prints one line for each entry in use, and [init] starts the shell again
    whenever it ends, after collecting the zombies. *)

From Stdlib Require Import ZArith Lia List String.
From S2P Require Import Prelude.
From ITree Require Import ITree ITreeFacts.
From S2P Require Import Utils.

Import ITreeNotations.
Import ListNotations.
Local Open Scope itree_scope.
Local Open Scope bool_scope.
Local Open Scope string_scope.
Local Open Scope list_scope.
Local Open Scope Z_scope.

(** ** Runs *)

Definition trace : Type := list (ucall * uans).
Inductive final (R : Type) := Returned (r : R) | Exited | Running.
Arguments Returned {R} r.
Arguments Exited {R}.
Arguments Running {R}.

Inductive runs {R} : itree callE R -> trace -> final R -> Prop :=
  | runs_ret t r : observe t = RetF r -> runs t [] (Returned r)
  | runs_now t : runs t [] Running
  | runs_tau t t' l o : observe t = TauF t' -> runs t' l o -> runs t l o
  | runs_exit t k : observe t = VisF (Call Uexit) k -> runs t [] Exited
  | runs_call t c k a l o : c <> Uexit -> observe t = VisF (Call c) k -> runs (k a) l o -> runs t ((c, a) :: l) o.

Lemma runs_observe {R} (t u : itree callE R) l o : observe t = observe u -> runs t l o -> runs u l o.
Proof.
  intros E H. destruct H as [t r H|t|t t' l o H H'|t k H|t c k a l o Hc H H']; [apply runs_ret|apply runs_now|apply (runs_tau _ t')|apply (runs_exit _ k)|apply (runs_call _ c k)]; congruence || assumption.
Qed.

Lemma observe_bind {R U} (t : itree callE R) (k : R -> itree callE U) :
  observe (ITree.bind t k) = match observe t with RetF r => observe (k r) | TauF t => TauF (ITree.bind t k) | VisF e h => VisF e (fun x => ITree.bind (h x) k) end.
Proof. unfold observe. cbn. change (observe t) with (_observe t). destruct (_observe t); reflexivity. Qed.

Lemma observe_iter {I R} (f : I -> itree callE (I + R)) i :
  observe (ITree.iter f i) = observe (ITree.bind (f i) (fun r => match r with inl i => Tau (ITree.iter f i) | inr r => Ret r end)).
Proof. reflexivity. Qed.

(** Sequences. *)
Lemma runs_bind {R U} (t : itree callE R) (k : R -> itree callE U) l r l' o : runs t l (Returned r) -> runs (k r) l' o -> runs (ITree.bind t k) (l ++ l') o.
Proof.
  intros H Hk. remember (Returned r) as f eqn:Ef. induction H as [t r' H|t|t t' l f H H' IH|t h H|t c h a l f Hc H H' IH]; try discriminate; simpl.
  - injection Ef as ->. apply (runs_observe (k r)); [|exact Hk]. rewrite observe_bind, H. reflexivity.
  - apply (runs_tau _ (ITree.bind t' k)); [rewrite observe_bind, H; reflexivity|auto].
  - apply (runs_call _ c (fun x => ITree.bind (h x) k)); [exact Hc|rewrite observe_bind, H; reflexivity|auto].
Qed.

Lemma runs_bind_stop {R U} (t : itree callE R) (k : R -> itree callE U) l : (runs t l Exited -> runs (ITree.bind t k) l Exited) /\ (runs t l Running -> runs (ITree.bind t k) l Running).
Proof.
  split; intros H.
  - remember Exited as f eqn:Ef. induction H as [t r' H|t|t t' l f H H' IH|t h H|t c h a l f Hc H H' IH]; try discriminate.
    + apply (runs_tau _ (ITree.bind t' k)); [rewrite observe_bind, H; reflexivity|auto].
    + apply (runs_exit _ (fun x => ITree.bind (h x) k)). rewrite observe_bind, H. reflexivity.
    + apply (runs_call _ c (fun x => ITree.bind (h x) k)); [exact Hc|rewrite observe_bind, H; reflexivity|auto].
  - remember Running as f eqn:Ef. induction H as [t r' H|t|t t' l f H H' IH|t h H|t c h a l f Hc H H' IH]; try discriminate.
    + apply runs_now.
    + apply (runs_tau _ (ITree.bind t' k)); [rewrite observe_bind, H; reflexivity|auto].
    + apply (runs_call _ c (fun x => ITree.bind (h x) k)); [exact Hc|rewrite observe_bind, H; reflexivity|auto].
Qed.

(** Loops. *)
Lemma runs_again {I R} (f : I -> itree callE (I + R)) i j l l' o : runs (f i) l (Returned (inl j)) -> runs (ITree.iter f j) l' o -> runs (ITree.iter f i) (l ++ l') o.
Proof.
  intros H H'. eapply runs_observe; [symmetry; apply observe_iter|]. apply (runs_bind _ _ _ (inl j)); [exact H|]. eapply runs_tau; [reflexivity|exact H'].
Qed.
Lemma runs_done {I R} (f : I -> itree callE (I + R)) i l r : runs (f i) l (Returned (inr r)) -> runs (ITree.iter f i) l (Returned r).
Proof.
  intros H. eapply runs_observe; [symmetry; apply observe_iter|]. rewrite <- (app_nil_r l). apply (runs_bind _ _ _ (inr r)); [exact H|]. apply runs_ret. reflexivity.
Qed.
Lemma runs_break {I R} (f : I -> itree callE (I + R)) i l : runs (f i) l Exited -> runs (ITree.iter f i) l Exited.
Proof. intros H. eapply runs_observe; [symmetry; apply observe_iter|]. apply runs_bind_stop, H. Qed.

(** Single calls. *)
Lemma runs_trigger {R} c a (k : uans -> itree callE R) l o : c <> Uexit -> runs (k a) l o -> runs (a <- ITree.trigger (Call c);; k a) ((c, a) :: l) o.
Proof. intros Hc H. apply (runs_bind (ITree.trigger (Call c)) k [(c, a)] a); [|exact H]. eapply (runs_call _ c); [exact Hc|reflexivity|]. apply runs_ret. reflexivity. Qed.
Lemma runs_sys {R} c a (k : Z -> itree callE R) l o : c <> Uexit -> runs (k (a_ret a)) l o -> runs (n <- sys c;; k n) ((c, a) :: l) o.
Proof. intros Hc H. apply (runs_bind (sys c) k [(c, a)] (a_ret a)); [|exact H]. unfold sys. apply runs_trigger; [exact Hc|]. apply runs_ret. reflexivity. Qed.
Lemma runs_do {R} c a (k : itree callE R) l o : c <> Uexit -> runs k l o -> runs (do_ c;; k) ((c, a) :: l) o.
Proof. intros Hc H. apply (runs_bind (do_ c) (fun _ => k) [(c, a)] tt); [|exact H]. unfold do_. apply runs_trigger; [exact Hc|]. apply runs_ret. reflexivity. Qed.
Lemma runs_do_last c a : c <> Uexit -> runs (do_ c) [(c, a)] (Returned tt).
Proof. intros Hc. unfold do_. apply runs_trigger; [exact Hc|]. apply runs_ret. reflexivity. Qed.
Lemma runs_Ret {R} (r : R) : runs (Ret r) [] (Returned r).
Proof. apply runs_ret. reflexivity. Qed.
Lemma runs_the_exit {R} : runs (exit (R := R)) [] Exited.
Proof. eapply runs_exit. reflexivity. Qed.

(** ** A program's calls depend on the answers only *)

Lemma call_inj {R} c c' (k k' : uans -> itree callE R) : (VisF (Call c) k : itree' callE R) = VisF (Call c') k' -> c = c' /\ k = k'.
Proof.
  intros E. inversion E as [[E1 E2]]. split; [reflexivity|]. apply Eqdep.EqdepTheory.inj_pair2 in E2. exact E2.
Qed.

Lemma runs_det {R} (t : itree callE R) l l' o o' : runs t l o -> runs t l' o' -> List.map snd l = List.map snd l' -> o <> Running -> o' <> Running -> l = l' /\ o = o'.
Proof.
  intros H. revert l' o'. induction H as [t r H|t|t t' l o H H' IH|t k H|t c k a l o Hc H H' IH]; intros l' o' H2 Ea Ho Ho'.
  - inversion H2 as [? ? E|?|? ? ? ? E|? ? E|? ? ? ? ? ? ? E]; subst; try congruence; rewrite H in E; try discriminate E. injection E as ->. auto.
  - congruence.
  - inversion H2 as [? ? E|?|? ? ? ? E R2|? ? E|? ? ? ? ? ? ? E]; subst; try congruence; rewrite H in E; try discriminate E. injection E as ->. auto.
  - inversion H2 as [? ? E|?|? ? ? ? E R2|? ? E|? ? ? ? ? ? Hc2 E]; subst; try congruence; rewrite H in E; try discriminate E; [auto|]. apply call_inj in E as [E _]. congruence.
  - inversion H2 as [? ? E|?|? ? ? ? E R2|? ? E|? c2 k2 a2 l2 ? Hc2 E R2]; subst; try congruence; rewrite H in E; try discriminate E.
    + apply call_inj in E as [E _]. congruence.
    + apply call_inj in E as [-> ->]. simpl in Ea. injection Ea as -> Ea. destruct (IH _ _ R2 Ea Ho Ho') as [-> ->]. auto.
Qed.

(** ** Reading a file *)

(** The [read]s of a file that comes in the pieces [chunks], and the last one. *)
Definition read_ans (c : list Z) : uans := mkans (Z.of_nat (List.length c)) c.
Definition reads (fd : Z) (chunks : list (list Z)) : trace := List.map (fun c => (Uread fd 512, read_ans c)) chunks.
Definition at_eof (fd : Z) : ucall * uans := (Uread fd 512, read_ans []).

Definition pieces (chunks : list (list Z)) : Prop := Forall (fun c => c <> [] /\ (List.length c <= 512)%nat) chunks.

Lemma length_pos (c : list Z) : c <> [] -> (0 <? Z.of_nat (List.length c)) = true.
Proof. destruct c; [congruence|]. intros _. apply Z.ltb_lt. simpl. lia. Qed.

Lemma firstn_read (c : list Z) : firstn (Z.to_nat (a_ret (read_ans c))) (a_data (read_ans c)) = c.
Proof. simpl. rewrite Nat2Z.id. apply firstn_all. Qed.

(** ** wc *)

(** The words: the pieces between white space that are not empty. *)
Fixpoint split (l : list Z) : list (list Z) :=
  match l with
  | [] => [[]]
  | c :: l => if is_space c then [] :: split l else match split l with [] => [[c]] | w :: ws => (c :: w) :: ws end
  end.
Definition words (l : list Z) : list (list Z) := List.filter (fun w => match w with [] => false | _ => true end) (split l).
Definition lines (l : list Z) : list Z := List.filter (Z.eqb 10) l.

Lemma split_not_nil l : split l <> [].
Proof. destruct l as [|c l]; simpl; [congruence|]. destruct (is_space c); [congruence|]. destruct (split l); congruence. Qed.

(** How many words start in [l], if [inw] says whether one goes on. *)
Fixpoint starts (inw : bool) (l : list Z) : Z :=
  match l with
  | [] => 0
  | c :: l => if is_space c then starts false l else (if inw then 0 else 1) + starts true l
  end.

Lemma starts_words l : starts false l = Z.of_nat (List.length (words l)) /\
  starts true l = Z.of_nat (List.length (List.filter (fun w => match w with [] => false | _ => true end) (tl (split l)))).
Proof.
  induction l as [|c l [IH1 IH2]]; [split; reflexivity|]. cbn [starts]. unfold words in *. cbn [split]. destruct (is_space c).
  - cbn [tl List.filter]. split; exact IH1.
  - pose proof (split_not_nil l). destruct (split l) as [|w ws]; [congruence|]. cbn [tl List.filter List.length] in *. rewrite IH2. split; lia.
Qed.

Lemma starts_bounds inw l : 0 <= starts inw l <= Z.of_nat (List.length l).
Proof. revert inw. induction l as [|c l IH]; intros inw; simpl; [lia|]. destruct (is_space c); [specialize (IH false)|specialize (IH true)]; destruct inw; lia. Qed.

Lemma lines_cons c l : Z.of_nat (List.length (lines (c :: l))) = (if c =? 10 then 1 else 0) + Z.of_nat (List.length (lines l)).
Proof. unfold lines. cbn [List.filter]. rewrite Z.eqb_sym. destruct (c =? 10); simpl; lia. Qed.

Lemma lines_bounds l : 0 <= Z.of_nat (List.length (lines l)) <= Z.of_nat (List.length l).
Proof. induction l as [|c l IH]; [simpl; lia|]. rewrite lines_cons. cbn [List.length]. destruct (c =? 10); lia. Qed.

(** The counters run through the data. *)
Lemma count_run l : forall s, 0 <= n_lines s -> 0 <= n_words s -> 0 <= n_chars s -> n_lines s <= n_chars s -> n_words s <= n_chars s -> n_chars s + Z.of_nat (List.length l) < 2147483648 ->
  let r := fold_left count1 l s in
  n_lines r = n_lines s + Z.of_nat (List.length (lines l)) /\ n_words r = n_words s + starts (inword s) l /\ n_chars r = n_chars s + Z.of_nat (List.length l).
Proof.
  induction l as [|c l IH]; intros s H1 H2 H3 H4 H5 Hlen; cbn [fold_left]; [simpl; lia|]. cbn [List.length] in Hlen. rewrite Nat2Z.inj_succ in Hlen.
  assert (E : count1 s c = mkcounts (n_lines s + if c =? 10 then 1 else 0) (n_words s + (if is_space c then 0 else if inword s then 0 else 1)) (n_chars s + 1) (negb (is_space c))).
  { unfold count1. rewrite !i32_small by lia. destruct (c =? 10), (is_space c), (inword s); cbn [negb]; f_equal; lia. }
  rewrite E. specialize (IH (mkcounts (n_lines s + if c =? 10 then 1 else 0) (n_words s + (if is_space c then 0 else if inword s then 0 else 1)) (n_chars s + 1) (negb (is_space c)))).
  cbn [n_lines n_words n_chars inword] in IH. cbn [starts]. rewrite lines_cons. cbn [List.length]. rewrite Nat2Z.inj_succ.
  destruct IH as (-> & -> & ->); try (destruct (c =? 10), (is_space c), (inword s); lia). destruct (is_space c), (inword s); cbn [negb]; lia.
Qed.

Lemma wc_loop_run fd : forall chunks s, pieces chunks ->
  runs (ITree.iter (fun s : counts =>
         a <- ITree.trigger (Call (Uread fd 512));;
         if 0 <? a_ret a then Ret (inl (fold_left count1 (firstn (Z.to_nat (a_ret a)) (a_data a)) s)) else Ret (inr (a_ret a, s))) s)
    (reads fd chunks ++ [at_eof fd]) (Returned (0, fold_left count1 (List.concat chunks) s)).
Proof.
  induction chunks as [|c chunks IH]; intros s Hp.
  - apply runs_done. apply runs_trigger; [congruence|]. apply runs_Ret.
  - inversion Hp as [|? ? [Hc _] Hp']; subst. cbn [reads List.map app List.concat]. rewrite fold_left_app.
    apply (runs_again _ s (fold_left count1 c s) [(Uread fd 512, read_ans c)]); [|apply IH, Hp']. apply runs_trigger; [congruence|]. cbn [a_ret read_ans]. rewrite length_pos by exact Hc.
    pose proof (firstn_read c) as E. cbn [a_ret read_ans] in E. rewrite E. apply runs_Ret.
Qed.

Definition wc_line (name data : list Z) : ucall :=
  Uprintf 1 "%d %d %d %s\n" [AInt (Z.of_nat (List.length (lines data))); AInt (Z.of_nat (List.length (words data))); AInt (Z.of_nat (List.length data)); AStr name].

(** [wc] counts lines, words and characters.  For every file of less than 2^31
    bytes and every way in which [read] delivers it in pieces, [wc] reads up to the
    end and prints the number of newlines, of maximal sequences without white
    space, and of bytes; it makes no other call. *)
Theorem wc_counts fd name chunks a :
  pieces chunks -> Z.of_nat (List.length (List.concat chunks)) < 2147483648 ->
  let l := reads fd chunks ++ [at_eof fd; (wc_line name (List.concat chunks), a)] in
  runs (wc fd name) l (Returned tt) /\
  forall l' o, runs (wc fd name) l' o -> o <> Running -> List.map snd l' = List.map snd l -> l' = l /\ o = Returned tt.
Proof.
  intros Hp Hlen l. assert (H : runs (wc fd name) l (Returned tt)).
  { unfold wc, l. replace (reads fd chunks ++ [at_eof fd; (wc_line name (List.concat chunks), a)]) with ((reads fd chunks ++ [at_eof fd]) ++ [(wc_line name (List.concat chunks), a)]) by (rewrite <- app_assoc; reflexivity).
    eapply runs_bind; [apply wc_loop_run, Hp|]. cbn [fst snd]. change (0 <? 0) with false. cbv iota. destruct (count_run (List.concat chunks) (mkcounts 0 0 0 false)) as (E1 & E2 & E3); try (simpl; lia).
    rewrite E1, E2, E3. cbn [n_lines n_words n_chars inword]. rewrite (proj1 (starts_words _)), !Z.add_0_l. apply runs_do_last. discriminate. }
  split; [exact H|]. intros l' o H' Ho E. destruct (runs_det _ _ _ _ _ H' H E Ho) as [-> ->]; [congruence|]. split; reflexivity.
Qed.

Lemma wc_counts_witness :
  runs (wc 3 [102]) [(Uread 3 512, mkans 3 [97; 32; 98]); (Uread 3 512, mkans 2 [99; 10]); (Uread 3 512, mkans 0 []); (Uprintf 1 "%d %d %d %s\n" [AInt 1; AInt 2; AInt 5; AStr [102]], mkans 0 [])] (Returned tt).
Proof.
  assert (Hp : pieces [[97; 32; 98]; [99; 10]]) by (repeat constructor; simpl; try lia; discriminate). assert (Hl : Z.of_nat (List.length (List.concat [[97; 32; 98]; [99; 10]])) < 2147483648) by (simpl; lia).
  exact (proj1 (wc_counts 3 [102] [[97; 32; 98]; [99; 10]] (mkans 0 []) Hp Hl)).
Defined.

(** ** cat *)

(** The calls of [cat] for a file in the pieces [chunks], when everything is
    written. *)
Fixpoint copies (fd : Z) (chunks : list (list Z)) : trace :=
  match chunks with
  | [] => []
  | c :: chunks => (Uread fd 512, read_ans c) :: (Uwrite 1 c, mkans (Z.of_nat (List.length c)) []) :: copies fd chunks
  end.

(** What goes to the standard output. *)
Fixpoint stdout (l : trace) : list Z :=
  match l with [] => [] | (Uwrite 1 d, a) :: l => firstn (Z.to_nat (a_ret a)) d ++ stdout l | _ :: l => stdout l end.

Lemma stdout_app l l' : stdout (l ++ l') = stdout l ++ stdout l'.
Proof. induction l as [|[[] a] l IH]; simpl; try exact IH; [reflexivity|]. destruct fd as [|[]|]; rewrite ?IH, ?app_assoc; reflexivity. Qed.

Lemma stdout_copies fd chunks : stdout (copies fd chunks) = List.concat chunks.
Proof. induction chunks as [|c chunks IH]; [reflexivity|]. cbn [copies stdout a_ret List.concat]. rewrite Nat2Z.id, firstn_all, IH. reflexivity. Qed.

Lemma cat_run fd chunks : pieces chunks -> runs (cat fd) (copies fd chunks ++ [at_eof fd]) (Returned tt).
Proof.
  intros Hp. unfold cat. rewrite <- (app_nil_r (copies fd chunks ++ [at_eof fd])). apply (runs_bind _ _ _ 0); [|apply runs_Ret]. induction Hp as [|c chunks [Hc _] _ IH].
  - apply runs_done. apply runs_trigger; [congruence|]. apply runs_Ret.
  - cbn [copies app]. apply (runs_again _ tt tt [_; _]); [|exact IH]. apply runs_trigger; [congruence|]. cbn [a_ret read_ans]. rewrite length_pos by exact Hc.
    pose proof (firstn_read c) as E. cbn [a_ret read_ans] in E. rewrite E. apply runs_sys; [congruence|]. cbn [a_ret]. rewrite Z.eqb_refl. apply runs_Ret.
Qed.

(** A file argument: its name, the descriptor [open] gives, and its pieces. *)
Definition file_calls (f : list Z * Z * list (list Z)) : trace :=
  let '(path, fd, chunks) := f in (Uopen path 0, mkans fd []) :: copies fd chunks ++ [at_eof fd; (Uclose fd, mkans 0 [])].

Lemma for_each_run {A} (f : A -> itree callE unit) (tr : A -> trace) (l : list A) : Forall (fun x => runs (f x) (tr x) (Returned tt)) l -> runs (for_each l f) (flat_map tr l) (Returned tt).
Proof. induction 1 as [|x l Hx _ IH]; [apply runs_Ret|]. cbn [for_each flat_map]. apply (runs_bind _ _ _ tt); assumption. Qed.

Lemma for_each_map {A B} (g : A -> B) (f : B -> itree callE unit) l : for_each (List.map g l) f = for_each l (fun x => f (g x)).
Proof. induction l as [|x l IH]; [reflexivity|]. cbn [List.map for_each]. rewrite IH. reflexivity. Qed.

(** [cat] copies.  With files that can be opened and read, in any pieces, and an
    output that takes what is written, [cat] of these files opens, copies and
    closes them one after the other and exits, and the bytes it writes to the
    standard output are the contents of the files in this order. *)
Theorem cat_copies files :
  files <> [] -> Forall (fun f => 0 <= snd (fst f) /\ pieces (snd f)) files ->
  runs (cat_main (List.map (fun f => fst (fst f)) files)) (flat_map file_calls files) Exited /\
  stdout (flat_map file_calls files) = List.concat (List.map (fun f => List.concat (snd f)) files).
Proof.
  intros Hne Hf. split.
  - unfold cat_main. assert (H : runs (for_each (List.map (fun f => fst (fst f)) files) (fun arg => fd <- sys (Uopen arg 0);; if fd <? 0 then printf 1 "cat: cannot open %s\n" [AStr arg];; exit else cat fd;; do_ (Uclose fd))) (flat_map file_calls files) (Returned tt)).
    { rewrite for_each_map. apply for_each_run. eapply Forall_impl; [|exact Hf]. intros [[path fd] chunks] [Hfd Hp]. cbn [fst snd file_calls] in *. apply runs_sys; [congruence|]. cbn [a_ret]. destruct (Z.ltb_spec fd 0); [lia|].
      replace (copies fd chunks ++ [at_eof fd; (Uclose fd, mkans 0 [])]) with ((copies fd chunks ++ [at_eof fd]) ++ [(Uclose fd, mkans 0 [])]) by (rewrite <- app_assoc; reflexivity).
      apply (runs_bind _ _ _ tt); [apply cat_run, Hp|]. apply runs_do_last. congruence. }
    destruct files as [|f files]; [congruence|]. rewrite <- (app_nil_r (flat_map _ _)). apply (runs_bind _ _ _ tt); [exact H|apply runs_the_exit].
  - clear Hne Hf. induction files as [|[[path fd] chunks] files IH]; [reflexivity|]. cbn [flat_map List.map List.concat]. rewrite stdout_app, IH. cbn [fst snd file_calls stdout]. rewrite stdout_app, stdout_copies. cbn [stdout]. rewrite app_nil_r. reflexivity.
Qed.

Lemma cat_copies_witness : runs (cat_main [[97]]) [(Uopen [97] 0, mkans 3 []); (Uread 3 512, mkans 2 [104; 105]); (Uwrite 1 [104; 105], mkans 2 []); (Uread 3 512, mkans 0 []); (Uclose 3, mkans 0 [])] Exited.
Proof.
  assert (Hf : Forall (fun f => 0 <= snd (fst f) /\ pieces (snd f)) [([97], 3, [[104; 105]])]) by (repeat constructor; simpl; try lia; discriminate).
  exact (proj1 (cat_copies [([97], 3, [[104; 105]])] ltac:(discriminate) Hf)).
Defined.

(** ** init *)

Definition done : uans := mkans 0 [].

(** One life of the shell: its pid, and the zombies collected before it. *)
Definition round_calls (r : Z * list Z) : trace :=
  [(Uprintf 1 "init: starting sh\n" [], done); (Ufork, mkans (fst r) [])] ++
  flat_map (fun z => [(Uwait, mkans z []); (Uprintf 1 "zombie!\n" [], done)]) (snd r) ++ [(Uwait, mkans (fst r) [])].
Definition round_ok (r : Z * list Z) : Prop := 0 < fst r /\ Forall (fun z => 0 <= z /\ z <> fst r) (snd r).

Lemma reap_run pid zs : 0 < pid -> Forall (fun z => 0 <= z /\ z <> pid) zs ->
  runs (reap pid) (flat_map (fun z => [(Uwait, mkans z []); (Uprintf 1 "zombie!\n" [], done)]) zs ++ [(Uwait, mkans pid [])]) (Returned tt).
Proof.
  intros Hp. unfold reap. induction 1 as [|z zs [Hz Hne] _ IH].
  - apply runs_done, runs_sys; [discriminate|]. cbn [a_ret]. rewrite Z.eqb_refl, Bool.andb_false_r. apply runs_Ret.
  - cbn [flat_map]. rewrite <- app_assoc. apply (runs_again _ tt tt); [|exact IH]. apply runs_sys; [discriminate|]. cbn [a_ret]. destruct (Z.leb_spec 0 z); [|lia]. destruct (Z.eqb_spec z pid); [congruence|]. cbn [negb andb].
    apply runs_do; [discriminate|]. apply runs_Ret.
Qed.

Lemma init_rounds rounds l o : Forall round_ok rounds -> runs init_loop l o -> runs init_loop (flat_map round_calls rounds ++ l) o.
Proof.
  intros Hr Hl. induction Hr as [|[pid zs] rounds [Hp Hz] _ IH]; [exact Hl|]. cbn [flat_map]. rewrite <- app_assoc. unfold init_loop in *. apply (runs_again _ tt tt); [|exact IH].
  unfold round_calls. cbn [fst snd app] in *. apply runs_do; [discriminate|]. apply runs_sys; [discriminate|]. cbn [a_ret]. destruct (Z.ltb_spec pid 0); [lia|]. destruct (Z.eqb_spec pid 0); [lia|].
  rewrite <- (app_nil_r (_ ++ [_])). apply (runs_bind _ _ _ tt); [apply reap_run; assumption|apply runs_Ret].
Qed.

(** [init] keeps a shell running.  It opens the console as descriptors 0, 1 and 2,
    making the device if it is not there.  Then, for any number of times, it starts
    a shell and waits for it, collecting and reporting the zombies that end before;
    after every shell it goes on.  It ends only when [fork] fails; the child runs
    the shell. *)
Theorem init_restarts rounds fd :
  Forall round_ok rounds ->
  let setup := (Uopen console 2, mkans fd []) :: (if fd <? 0 then [(Umknod console 1 1, done); (Uopen console 2, done)] else []) ++ [(Udup 0, mkans 1 []); (Udup 0, mkans 2 [])] in
  let next pid := (Uprintf 1 "init: starting sh\n" [], done) :: (Ufork, mkans pid []) :: nil in
  runs init_main (setup ++ flat_map round_calls rounds ++ next 4) Running /\
  runs init_main (setup ++ flat_map round_calls rounds ++ next (-1) ++ [(Uprintf 1 "init: fork failed\n" [], done)]) Exited /\
  runs init_main (setup ++ flat_map round_calls rounds ++ next 0 ++ [(Uexec sh [sh], mkans (-1) []); (Uprintf 1 "init: exec sh failed\n" [], done)]) Exited.
Proof.
  intros Hr setup next. assert (H : forall l o, runs init_loop l o -> runs init_main (setup ++ flat_map round_calls rounds ++ l) o).
  { intros l o Hl. unfold init_main, setup. cbn [app]. apply runs_sys; [discriminate|]. cbn [a_ret]. rewrite <- app_assoc. apply (runs_bind _ _ _ tt).
    - destruct (fd <? 0); [apply runs_do; [discriminate|]; apply runs_do_last; discriminate|apply runs_Ret].
    - cbn [app]. apply runs_do; [discriminate|]. apply runs_do; [discriminate|]. apply init_rounds; assumption. }
  split; [|split]; apply H; unfold next; cbn [app].
  - unfold init_loop. eapply runs_observe; [symmetry; apply observe_iter|]. apply runs_bind_stop. apply runs_do; [discriminate|]. apply runs_sys; [discriminate|]. apply runs_now.
  - apply runs_break. apply runs_do; [discriminate|]. apply runs_sys; [discriminate|]. cbn [a_ret]. change (-1 <? 0) with true. cbv iota. apply runs_do; [discriminate|]. apply runs_the_exit.
  - apply runs_break. apply runs_do; [discriminate|]. apply runs_sys; [discriminate|]. cbn [a_ret]. change (0 <? 0) with false. change (0 =? 0) with true. cbv iota. apply runs_do; [discriminate|]. apply runs_do; [discriminate|]. apply runs_the_exit.
Qed.

Lemma init_restarts_witness : runs init_main
  [(Uopen console 2, mkans 0 []); (Udup 0, mkans 1 []); (Udup 0, mkans 2 []); (Uprintf 1 "init: starting sh\n" [], done); (Ufork, mkans 2 []); (Uwait, mkans 5 []); (Uprintf 1 "zombie!\n" [], done); (Uwait, mkans 2 []);
   (Uprintf 1 "init: starting sh\n" [], done); (Ufork, mkans (-1) []); (Uprintf 1 "init: fork failed\n" [], done)] Exited.
Proof.
  assert (Hr : Forall round_ok [(2, [5])]) by (repeat constructor; simpl; lia). exact (proj1 (proj2 (init_restarts [(2, [5])] 0 Hr))).
Defined.

(** ** ls *)

Definition no_slash (s : list Z) : Prop := Forall (fun c => c <> 47) s.

Lemma no_slash_existsb s : no_slash s -> existsb (Z.eqb 47) s = false.
Proof. induction 1 as [|c s Hc _ IH]; [reflexivity|]. cbn [existsb]. rewrite IH. destruct (Z.eqb_spec 47 c); [congruence|reflexivity]. Qed.

Lemma last_elem_dir path name : no_slash name -> after_slash (path ++ [47] ++ name) = name.
Proof.
  intros Hn. induction path as [|c path IH].
  - cbn [app after_slash existsb]. rewrite Z.eqb_refl. cbn [orb]. destruct name as [|d name]; [reflexivity|]. cbn [after_slash]. rewrite (no_slash_existsb (d :: name) Hn). reflexivity.
  - cbn [app after_slash]. assert (E : existsb (Z.eqb 47) (c :: path ++ [47] ++ name) = true) by (rewrite app_comm_cons, existsb_app; cbn [existsb app]; rewrite Z.eqb_refl; apply Bool.orb_true_r). cbn [app] in E, IH. rewrite E. exact IH.
Qed.

Definition pad14 (name : list Z) : list Z := name ++ repeat 32 (14 - List.length name).

Lemma fmtname_dir path name : no_slash name -> (List.length name <= 14)%nat -> fmtname (path ++ [47] ++ name) = pad14 name.
Proof.
  intros Hn Hl. unfold fmtname. rewrite last_elem_dir by exact Hn. destruct (Z.leb_spec 14 (Z.of_nat (List.length name))) as [H|H]; [|reflexivity].
  unfold pad14. replace (14 - List.length name)%nat with 0%nat by lia. cbn [repeat]. rewrite app_nil_r. reflexivity.
Qed.

(** An entry of the directory as [ls] reads it, and what [stat] says of its
    file: the descriptor and the fields. *)
Record lsent := mklsent { le_bytes : list Z; le_fd : Z; le_stat : list Z }.
Definition le_inum (e : lsent) : Z := nth 0 (le_bytes e) 0 + 256 * nth 1 (le_bytes e) 0.
Definition le_name (e : lsent) : list Z := cstring (firstn 14 (skipn 2 (le_bytes e))).
Definition lsent_ok (e : lsent) : Prop := 0 <= le_fd e /\ no_slash (le_name e).

(** The calls for an entry; the last is the line that is printed. *)
Definition lsent_calls (fd : Z) (path : list Z) (e : lsent) : trace :=
  (Uread fd 16, mkans 16 (le_bytes e)) ::
  if le_inum e =? 0 then []
  else
    let st := stat_of (le_stat e) in
    [(Uopen (path ++ [47] ++ le_name e) 0, mkans (le_fd e) []); (Ufstat (le_fd e), mkans 0 (le_stat e)); (Uclose (le_fd e), done);
     (Uprintf 1 "%s %d %d %d\n" [AStr (pad14 (le_name e)); AInt (st_type st); AInt (st_ino st); AInt (st_size st)], done)].

Lemma cstring_le l n : (List.length (cstring (firstn n l)) <= n)%nat.
Proof. revert l. induction n as [|n IH]; intros [|c l]; simpl; try lia. destruct (c =? 0); simpl; [lia|]. specialize (IH l). lia. Qed.

Lemma ls_entries_run fd path es : Forall lsent_ok es -> runs (ls_entries fd path) (flat_map (lsent_calls fd path) es ++ [(Uread fd 16, mkans 0 [])]) (Returned tt).
Proof.
  unfold ls_entries. induction 1 as [|e es [Hfd Hn] _ IH].
  - apply runs_done, runs_trigger; [discriminate|]. apply runs_Ret.
  - cbn [flat_map]. rewrite <- app_assoc. apply (runs_again _ tt tt); [|exact IH]. unfold lsent_calls. apply runs_trigger; [discriminate|]. cbn [a_ret a_data]. change (16 =? 16) with true. cbn [negb]. fold (le_inum e). fold (le_name e). cbv zeta.
    destruct (le_inum e =? 0); [apply runs_Ret|]. apply (runs_bind _ _ [_; _; _] (0, stat_of (le_stat e))).
    + unfold stat. apply runs_sys; [discriminate|]. cbn [a_ret]. destruct (Z.ltb_spec (le_fd e) 0); [lia|]. apply runs_trigger; [discriminate|]. apply runs_do; [discriminate|]. apply runs_Ret.
    + cbn [fst snd]. change (0 <? 0) with false. cbv iota. unfold ls_line. rewrite fmtname_dir by (exact Hn || apply cstring_le). apply runs_do; [discriminate|]. apply runs_Ret.
Qed.

(** [ls] lists a directory.  For a directory whose path is short enough, [ls]
    prints exactly one line for every entry that is in use, in order: the name,
    filled up to [DIRSIZ] characters, and the type, the inode number and the size
    of the file; entries with inode number 0 are left out.  It closes every
    descriptor it opened. *)
Theorem ls_directory path fd st es :
  0 <= fd -> st_type (stat_of st) = 1 -> (List.length path <= 496)%nat -> Forall lsent_ok es ->
  runs (ls path) ([(Uopen path 0, mkans fd []); (Ufstat fd, mkans 0 st)] ++ flat_map (lsent_calls fd path) es ++ [(Uread fd 16, mkans 0 []); (Uclose fd, done)]) (Returned tt).
Proof.
  intros Hfd Ht Hlen Hes. unfold ls. cbn [app]. apply runs_sys; [discriminate|]. cbn [a_ret]. destruct (Z.ltb_spec fd 0); [lia|]. apply runs_trigger; [discriminate|]. cbn [a_ret a_data]. change (0 <? 0) with false. cbv iota zeta. rewrite Ht. change (1 =? 2) with false. change (1 =? 1) with true. cbv iota.
  destruct (Z.ltb_spec 512 (Z.of_nat (List.length path) + 1 + 14 + 1)); [lia|].
  replace (flat_map (lsent_calls fd path) es ++ [(Uread fd 16, mkans 0 []); (Uclose fd, done)]) with ((flat_map (lsent_calls fd path) es ++ [(Uread fd 16, mkans 0 [])]) ++ [(Uclose fd, done)]) by (rewrite <- app_assoc; reflexivity).
  apply (runs_bind _ _ _ tt); [apply ls_entries_run, Hes|]. apply runs_do_last. discriminate.
Qed.

Lemma ls_directory_witness : runs (ls [46])
  [(Uopen [46] 0, mkans 3 []); (Ufstat 3, mkans 0 [1; 1; 1; 1; 512]); (Uread 3 16, mkans 16 (2 :: 0 :: [99; 97; 116] ++ repeat 0 11)); (Uopen [46; 47; 99; 97; 116] 0, mkans 4 []); (Ufstat 4, mkans 0 [2; 1; 2; 1; 812]); (Uclose 4, done);
   (Uprintf 1 "%s %d %d %d\n" [AStr ([99; 97; 116] ++ repeat 32 11); AInt 2; AInt 2; AInt 812], done); (Uread 3 16, mkans 16 (repeat 0 16)); (Uread 3 16, mkans 0 []); (Uclose 3, done)] (Returned tt).
Proof.
  assert (He : Forall lsent_ok [mklsent (2 :: 0 :: [99; 97; 116] ++ repeat 0 11) 4 [2; 1; 2; 1; 812]; mklsent (repeat 0 16) 0 []]) by (repeat constructor; simpl; lia || discriminate).
  exact (ls_directory [46] 3 [1; 1; 1; 1; 512] _ ltac:(lia) eq_refl ltac:(simpl; lia) He).
Defined.
