(* ===== verification/GrepMain.v ===== *)
(** * grep as a program (grep.c)

    The calls of [grep] and its [main]: reads into what is left of the buffer, one write
    for each line that matches, the files one after the other.  What is written is what
    the loop of Grep.v computes, so that the theorem on the lines is one on the program. *)

From Stdlib Require Import ZArith Lia List String.
From S2P Require Import Prelude.
From S2P Require Import Grep.
From ITree Require Import ITree ITreeFacts.
From S2P Require Import Utils.
From S2P Require Import UtilsSpec.

Import ITreeNotations.
Import ListNotations.
Local Open Scope itree_scope.
Local Open Scope bool_scope.
Local Open Scope string_scope.
Local Open Scope list_scope.
Local Open Scope Z_scope.

(** The inner loop, on the text [p] up to the end of the buffer. *)
Fixpoint print_lines (fuel : nat) (re p : list Z) : itree callE (list Z) :=
  match fuel with
  | O => Ret p
  | S fuel =>
      match next_line p with
      | None => Ret p
      | Some (l, r) =>
          (if match_re re l then do_ (Uwrite 1 (l ++ [ch_nl])) else Ret tt);;
          print_lines fuel re r
      end
  end.

(** One round of the outer loop; [b] is what is in [buf[0..m)]. *)
Definition grep_round (re : list Z) (fd : Z) (b : list Z) : itree callE (list Z + unit) :=
  a <- ITree.trigger (Call (Uread fd (1024 - Z.of_nat (List.length b) - 1)));;
  if 0 <? a_ret a then
    let buf := b ++ firstn (Z.to_nat (a_ret a)) (a_data a) in
    p <- print_lines (List.length buf) re buf;;
    Ret (inl (if Nat.eqb (List.length p) (List.length buf) then [] else p))
  else Ret (inr tt).
Definition grep_fd (re : list Z) (fd : Z) : itree callE unit := ITree.iter (grep_round re fd) [].

(** [argv] without the program's name. *)
Definition grep_main (args : list (list Z)) : itree callE unit :=
  match args with
  | [] => printf 2 "usage: grep pattern [file ...]\n" [];; exit
  | [pattern] => grep_fd pattern 0;; exit
  | pattern :: files =>
      for_each files (fun arg =>
        fd <- sys (Uopen arg 0);;
        if fd <? 0 then printf 1 "grep: cannot open %s\n" [AStr arg];; exit
        else grep_fd pattern fd;; do_ (Uclose fd));;
      exit
  end.

(** ** Its calls *)

Definition written (d : list Z) : ucall * uans := (Uwrite 1 d, mkans (Z.of_nat (List.length d)) []).

(** The writes for the lines of [p]. *)
Fixpoint line_writes (fuel : nat) (re p : list Z) : trace :=
  match fuel with
  | O => []
  | S fuel => match next_line p with None => [] | Some (l, r) => (if match_re re l then [written (l ++ [ch_nl])] else []) ++ line_writes fuel re r end
  end.

(** A file in the pieces [chunks], with [b] in the buffer. *)
Fixpoint grep_calls (re : list Z) (fd : Z) (b : list Z) (chunks : list (list Z)) : trace :=
  let room := 1024 - Z.of_nat (List.length b) - 1 in
  match chunks with
  | [] => [(Uread fd room, read_ans [])]
  | c :: chunks => (Uread fd room, read_ans c) :: line_writes (List.length (b ++ c)) re (b ++ c) ++ grep_calls re fd (snd (grep_step re b c)) chunks
  end.

Definition grep_file (re : list Z) (f : list Z * Z * list (list Z)) : trace :=
  let '(path, fd, chunks) := f in (Uopen path 0, mkans fd []) :: grep_calls re fd [] chunks ++ [(Uclose fd, mkans 0 [])].

Lemma print_lines_run fuel re : forall p, runs (print_lines fuel re p) (line_writes fuel re p) (Returned (snd (scan_lines fuel re p))).
Proof.
  induction fuel as [|fuel IH]; intros p; [apply runs_Ret|]. cbn [print_lines line_writes scan_lines]. destruct (next_line p) as [[l r]|]; [|apply runs_Ret]. specialize (IH r). destruct (scan_lines fuel re r) as [out rest]. cbn [snd] in *.
  apply (runs_bind _ _ _ tt); [|exact IH]. destruct (match_re re l); [apply runs_do_last; discriminate|apply runs_Ret].
Qed.

Lemma line_writes_out fuel re : forall p, stdout (line_writes fuel re p) = fst (scan_lines fuel re p).
Proof.
  induction fuel as [|fuel IH]; intros p; [reflexivity|]. cbn [line_writes scan_lines]. destruct (next_line p) as [[l r]|]; [|reflexivity]. rewrite stdout_app, IH. destruct (scan_lines fuel re r) as [out rest]. cbn [fst].
  destruct (match_re re l); [|reflexivity]. cbn [stdout written a_ret]. rewrite Nat2Z.id, firstn_all, app_nil_r. reflexivity.
Qed.

Definition nonempty (chunks : list (list Z)) : Prop := Forall (fun c => c <> []) chunks.

Lemma grep_fd_run re fd chunks : nonempty chunks -> runs (grep_fd re fd) (grep_calls re fd [] chunks) (Returned tt).
Proof.
  intros Hc. unfold grep_fd. generalize (@nil Z) as b. induction Hc as [|c chunks Hc _ IH]; intros b; cbn [grep_calls].
  - apply runs_done, runs_trigger; [discriminate|]. apply runs_Ret.
  - rewrite app_comm_cons. eapply (runs_again _ b (snd (grep_step re b c))); [|apply IH]. apply runs_trigger; [discriminate|]. cbn [a_ret read_ans]. rewrite length_pos by exact Hc. pose proof (firstn_read c) as E. cbn [a_ret read_ans] in E. rewrite E. cbv zeta.
    rewrite <- (app_nil_r (line_writes _ _ _)). eapply runs_bind; [apply print_lines_run|]. unfold grep_step. destruct (scan_lines (List.length (b ++ c)) re (b ++ c)) as [out p]. apply runs_Ret.
Qed.

Lemma grep_calls_out re fd chunks : nonempty chunks -> forall b, stdout (grep_calls re fd b chunks) = grep re b chunks.
Proof.
  induction 1 as [|c chunks Hc _ IH]; intros b; [reflexivity|]. cbn [grep_calls stdout]. rewrite stdout_app, line_writes_out, IH. destruct c as [|c0 c]; [congruence|]. cbn [grep]. unfold grep_step. destruct (scan_lines _ re _) as [out p]. reflexivity.
Qed.

(** [grep] prints the lines that match.  With files that can be opened, each read in any
    pieces of text that complete a line, and an output that takes what is written, [grep]
    opens, reads and closes the files one after the other and exits, and it writes the
    lines of each of them that the pattern denotes, in their order. *)
Theorem grep_prints re files :
  files <> [] -> Forall (fun f => 0 <= snd (fst f) /\ nonempty (snd f) /\ reads_ok [] (snd f)) files ->
  runs (grep_main (re :: List.map (fun f => fst (fst f)) files)) (flat_map (grep_file re) files) Exited /\
  stdout (flat_map (grep_file re) files) = List.concat (List.map (fun f => selected re (fst (Grep.lines (List.concat (snd f))))) files).
Proof.
  intros Hne Hf. split.
  - assert (H : runs (for_each (List.map (fun f => fst (fst f)) files) (fun arg => fd <- sys (Uopen arg 0);; if fd <? 0 then printf 1 "grep: cannot open %s\n" [AStr arg];; exit else grep_fd re fd;; do_ (Uclose fd))) (flat_map (grep_file re) files) (Returned tt)).
    { rewrite for_each_map. apply for_each_run. eapply Forall_impl; [|exact Hf]. intros [[path fd] chunks] (Hfd & Hc & _). cbn [fst snd grep_file] in *. apply runs_sys; [congruence|]. cbn [a_ret]. destruct (Z.ltb_spec fd 0); [lia|].
      apply (runs_bind _ _ _ tt); [apply grep_fd_run, Hc|]. apply runs_do_last. congruence. }
    destruct files as [|f files]; [congruence|]. cbn [grep_main List.map]. rewrite <- (app_nil_r (flat_map _ _)). apply (runs_bind _ _ _ tt); [exact H|apply runs_the_exit].
  - clear Hne. induction Hf as [|[[path fd] chunks] files (_ & Hc & Hr) _ IH]; [reflexivity|]. cbn [flat_map List.map List.concat]. rewrite stdout_app, IH. cbn [fst snd grep_file stdout] in *. rewrite stdout_app, grep_calls_out by exact Hc. cbn [stdout]. rewrite app_nil_r, grep_spec by exact Hr. reflexivity.
Qed.
