(* ===== verification/Ulib.v ===== *)
(** * The user library (ulib.c)

    The functions of ulib.c that work on memory, on the byte memory of
    Strings.v.  [gets] reads standard input: [stdin] holds the bytes the
    successive one-byte reads deliver, a read at its end returns 0.  The loops
    run to a terminating NUL and take the number of mapped bytes as fuel. *)

From Stdlib Require Import ZArith Lia.
From stdpp Require Import base numbers strings gmap list.
From S2P Require Import Prelude.
From S2P Require Import Strings.

Local Open Scope string_scope.
Local Open Scope list_scope.
Local Open Scope Z_scope.

Fixpoint strcpy_loop (fuel : nat) (s t : Z) : M bmem unit :=
  match fuel with
  | O => fault "strcpy: fuel"
  | S fuel => x ← rd t; wr s x;; if x =? 0 then mret tt else strcpy_loop fuel (s + 1) (t + 1)
  end.
Definition strcpy (s t : Z) : M bmem Z := m ← get; strcpy_loop (size m) s t;; mret s.

Fixpoint strcmp_loop (fuel : nat) (p q : Z) : M bmem Z :=
  match fuel with
  | O => fault "strcmp: fuel"
  | S fuel =>
      a ← rd p;
      if a =? 0 then b ← rd q; mret (a - b)
      else
        b ← rd q;
        if a =? b then strcmp_loop fuel (p + 1) (q + 1) else mret (a - b)
  end.
Definition strcmp (p q : Z) : M bmem Z := m ← get; strcmp_loop (size m) p q.

Fixpoint strlen_loop (fuel : nat) (s n : Z) : M bmem Z :=
  match fuel with
  | O => fault "strlen: fuel"
  | S fuel => x ← rd (s + n); if x =? 0 then mret n else strlen_loop fuel s (n + 1)
  end.
Definition strlen (s : Z) : M bmem Z := m ← get; strlen_loop (size m) s 0.

Definition memset (dst c n : Z) : M bmem Z := stosb dst c (Z.to_nat n);; mret dst.

Fixpoint strchr_loop (fuel : nat) (s c : Z) : M bmem Z :=
  match fuel with
  | O => fault "strchr: fuel"
  | S fuel => x ← rd s; if x =? 0 then mret 0 else if x =? c then mret s else strchr_loop fuel (s + 1) c
  end.
Definition strchr (s c : Z) : M bmem Z := m ← get; strchr_loop (size m) s c.

(** [n = n * 10 + *s++ - '0'] on an [int]. *)
Fixpoint atoi_loop (fuel : nat) (s n : Z) : M bmem Z :=
  match fuel with
  | O => fault "atoi: fuel"
  | S fuel =>
      x ← rd s;
      if (48 <=? x) && (x <=? 57) then atoi_loop fuel (s + 1) (i32 (n * 10 + x - 48)) else mret n
  end.
Definition atoi (s : Z) : M bmem Z := m ← get; atoi_loop (size m) s 0.

(** The user's memmove only copies forwards. *)
Definition memmove (vdst vsrc n : Z) : M bmem Z := copy_forward (Z.to_nat n) vdst vsrc;; mret vdst.

(** ** Reading a line *)

Record uio := mkuio { umem : bmem; stdin : list Z }.
Definition on_umem {A} (m : M bmem A) : M uio A := zoom umem (fun b u => mkuio b (stdin u)) m.

(** [read(0, &c, 1)]: the byte, or [None] when [cc < 1]. *)
Definition read1 : M uio (option Z) :=
  u ← get;
  match stdin u with
  | [] => mret None
  | c :: r => put (mkuio (umem u) r);; mret (Some c)
  end.

(** [n] is how many more characters fit: [max - 1 - i]. *)
Fixpoint gets_loop (n : nat) (buf i : Z) : M uio Z :=
  match n with
  | O => mret i
  | S n =>
      r ← read1;
      match r with
      | None => mret i
      | Some c =>
          on_umem (wr (buf + i) c);;
          if (c =? 10) || (c =? 13) then mret (i + 1) else gets_loop n buf (i + 1)
      end
  end.

Definition gets (buf max : Z) : M uio Z :=
  i ← gets_loop (Z.to_nat (max - 1)) buf 0;
  on_umem (wr (buf + i) 0);;
  mret buf.

(** ** What they do *)

Lemma cstr_fuel m a s : cstr m a s -> (length s < size m)%nat.
Proof. intros H. apply cstr_mapped, mapped_size in H. lia. Qed.

Lemma strcpy_loop_run fuel m s t x :
  cstr m t x -> mapped m s (S (length x)) -> (s + Z.of_nat (length x) < t \/ t + Z.of_nat (length x) < s) ->
  (length x < fuel)%nat -> strcpy_loop fuel s t m = Ret tt (wlist s (x ++ [0]) m).
Proof.
  revert m s t x. induction fuel as [|fuel IH]; intros m s t x Ht Hs Hd Hf; [lia|]. apply mapped_S in Hs as [Hs0 Hs].
  destruct x as [|c x]; cbn [strcpy_loop].
  - apply cstr_nil in Ht. mstep (rd_run _ _ _ Ht). mstep (wr_run _ s 0 Hs0). done.
  - apply cstr_cons in Ht as (Hc & Hc1 & Ht). mstep (rd_run _ _ _ Hc). mstep (wr_run _ s c Hs0). simpl in Hd, Hf.
    destruct (Z.eqb_spec c 0); [lia|]. rewrite u8_id by lia. rewrite IH with (x := x); [done|apply cstr_insert; [done|lia]|by apply mapped_insert|lia|lia].
Qed.

Lemma strcmp_loop_run fuel m p q s t :
  cstr m p s -> cstr m q t -> (length s < fuel)%nat -> strcmp_loop fuel p q m = Ret (str_cmp (S (length s)) s t) m.
Proof.
  revert p q s t. induction fuel as [|fuel IH]; intros p q s t Hs Ht Hf; [lia|]. cbn [strcmp_loop].
  destruct s as [|x s].
  - apply cstr_nil in Hs. mstep (rd_run _ _ _ Hs). cbn [Z.eqb].
    destruct t as [|y t]; [apply cstr_nil in Ht; by mstep (rd_run _ _ _ Ht)|].
    apply cstr_cons in Ht as (Hy & _ & _). by mstep (rd_run _ _ _ Hy).
  - apply cstr_cons in Hs as (Hx & Hx1 & Hs). mstep (rd_run _ _ _ Hx). destruct (Z.eqb_spec x 0); [lia|].
    destruct t as [|y t].
    + apply cstr_nil in Ht. mstep (rd_run _ _ _ Ht). destruct (Z.eqb_spec x 0); [lia|]. simpl. by rewrite Z.sub_0_r.
    + apply cstr_cons in Ht as (Hy & Hy1 & Ht). mstep (rd_run _ _ _ Hy). simpl in Hf. cbn [length str_cmp].
      destruct (x =? y); [|done]. by rewrite (IH _ _ s t) by (done || lia).
Qed.

(** One byte more than [s] has is enough to compare with it. *)
Lemma take_longer s t : (s = take (S (length s)) t <-> s = t) /\ lex_lt s (take (S (length s)) t) = lex_lt s t.
Proof.
  revert t. induction s as [|x s IH]; intros [|y t]; simpl; [done|by destruct t|done|]. destruct (IH t) as [IH1 IH2].
  split; [|simpl in IH2; by rewrite IH2]. split; intros [= -> H]; f_equal; by apply IH1.
Qed.

Lemma ustrlen_loop_run fuel m a n s :
  cstr m (a + n) s -> (length s < fuel)%nat -> strlen_loop fuel a n m = Ret (n + Z.of_nat (length s)) m.
Proof. exact (Strings.strlen_loop_run m a s fuel n). Qed.

(** The position of the first [c]. *)
Definition index_of (c : Z) (s : list Z) : option nat := fst <$> list_find (fun x => x = c) s.

Lemma strchr_loop_run fuel m a s c :
  cstr m a s -> (length s < fuel)%nat ->
  strchr_loop fuel a c m = Ret (match index_of c s with Some i => a + Z.of_nat i | None => 0 end) m.
Proof.
  revert a s. induction fuel as [|fuel IH]; intros a s Hs Hf; [lia|]. cbn [strchr_loop]. destruct s as [|x s].
  - apply cstr_nil in Hs. by mstep (rd_run _ _ _ Hs).
  - apply cstr_cons in Hs as (Hx & Hx1 & Hs). mstep (rd_run _ _ _ Hx). destruct (Z.eqb_spec x 0); [lia|].
    unfold index_of. cbn [list_find]. destruct (Z.eqb_spec x c) as [->|Hne].
    + rewrite decide_True by done. simpl. by rewrite Z.add_0_r.
    + rewrite decide_False by done. simpl in Hf. rewrite (IH _ s) by (done || lia). unfold index_of.
      destruct (list_find _ s) as [[i y]|]; simpl; [|done]. f_equal. lia.
Qed.

(** The value of a string of digits. *)
Definition digits_value (n : Z) (ds : list Z) : Z := foldl (fun n d => n * 10 + (d - 48)) n ds.
Definition digit (d : Z) : Prop := 48 <= d <= 57.

Lemma i32_mod x y : u32 x = u32 y -> i32 x = i32 y.
Proof. unfold i32. by intros ->. Qed.

Lemma atoi_loop_run fuel m a n ds x rest :
  bytes_at m a (ds ++ x :: rest) -> Forall digit ds -> ~ digit x -> (length ds < fuel)%nat ->
  atoi_loop fuel a (i32 n) m = Ret (i32 (digits_value n ds)) m.
Proof.
  revert a n ds. induction fuel as [|fuel IH]; intros a n ds Hm Hd Hx Hf; [lia|]. cbn [atoi_loop].
  unfold digit in *. destruct ds as [|d ds]; simpl in Hm; apply bytes_at_cons in Hm as [Hc Hm]; mstep (rd_run _ _ _ Hc).
  - destruct (Z.leb_spec 48 x), (Z.leb_spec x 57); try done; lia.
  - apply Forall_cons in Hd as [Hd0 Hd]. destruct (Z.leb_spec 48 d), (Z.leb_spec d 57); try lia. simpl in Hf |- *.
    rewrite <- (IH (a + 1) (n * 10 + (d - 48)) ds) by (done || lia). f_equal. apply i32_mod.
    replace (i32 n * 10 + d - 48) with (i32 n * 10 + (d - 48)) by lia. unfold u32.
    rewrite (Zplus_mod (i32 n * 10)), (Zplus_mod (n * 10)), (Zmult_mod (i32 n)), (Zmult_mod n).
    fold (u32 (i32 n)) (u32 n). by rewrite u32_i32.
Qed.

(** What [gets] takes from the input: up to [n] bytes, ending with the first
    newline or carriage return. *)
Fixpoint line_of (n : nat) (inp : list Z) : list Z :=
  match n, inp with
  | S n, c :: inp => c :: (if (c =? 10) || (c =? 13) then [] else line_of n inp)
  | _, _ => []
  end.

Lemma line_of_length n inp : (length (line_of n inp) <= n)%nat /\ line_of n inp ++ drop (length (line_of n inp)) inp = inp.
Proof.
  revert inp. induction n as [|n IH]; intros [|c inp]; simpl; try (split; [lia|done]).
  destruct (_ || _); simpl; [split; [lia|done]|]. destruct (IH inp) as [H1 H2]. split; [lia|by rewrite H2].
Qed.

Lemma gets_loop_run n m inp buf i :
  bytes inp -> mapped m (buf + i) n ->
  gets_loop n buf i (mkuio m inp) =
    Ret (i + Z.of_nat (length (line_of n inp))) (mkuio (wlist (buf + i) (line_of n inp) m) (drop (length (line_of n inp)) inp)).
Proof.
  revert m inp i. induction n as [|n IH]; intros m inp i Hb Hm; [simpl; rewrite Z.add_0_r; by destruct inp|].
  cbn [gets_loop]. unfold read1. rewrite !bind_run. unfold get; simpl. destruct inp as [|c inp]; simpl; [by rewrite Z.add_0_r|].
  apply Forall_cons in Hb as [Hc Hb]. apply mapped_S in Hm as [Hm0 Hm]. unfold on_umem, zoom. simpl.
  rewrite bind_run. simpl. rewrite (wr_run _ _ _ Hm0), u8_id by done. destruct (_ || _); simpl; [done|].
  rewrite IH; [|done|rewrite Z.add_assoc; by apply mapped_insert]. f_equal; [lia|]. by rewrite Z.add_assoc.
Qed.

(** ** Properties *)

(** The user's string functions.  On C strings (and a large enough,
    disjoint destination) they all terminate: [strcpy] copies the string with
    its NUL and touches nothing else, [strlen] is the length, [strcmp] is 0
    exactly on equal strings and negative exactly when the first is smaller,
    [strchr] finds the first occurrence, and [atoi] is the value of the
    leading digits, modulo 2^32. *)
Theorem ulib_strings_spec m p q s t c ds x rest :
  cstr m p s -> cstr m q t -> mapped m q (S (length s)) ->
  (q + Z.of_nat (length s) < p \/ p + Z.of_nat (length s) < q) ->
  s = ds ++ rest -> Forall digit ds -> (rest = [] \/ exists r, rest = x :: r /\ ~ digit x) ->
  strcpy q p m = Ret q (wlist q (s ++ [0]) m) /\
  strlen p m = Ret (Z.of_nat (length s)) m /\
  (exists r, strcmp p q m = Ret r m /\ (r = 0 <-> s = t) /\ (r < 0 <-> lex_lt s t = true)) /\
  strchr p c m = Ret (match index_of c s with Some i => p + Z.of_nat i | None => 0 end) m /\
  atoi p m = Ret (i32 (digits_value 0 ds)) m.
Proof.
  intros Hs Ht Hm Hd He Hds Hx. pose proof (cstr_fuel _ _ _ Hs) as Hf.
  split; [|split; [|split; [|split]]].
  - unfold strcpy. rewrite bind_get. by mstep (strcpy_loop_run (size m) m q p s Hs Hm Hd Hf).
  - unfold strlen. rewrite bind_get. rewrite (ustrlen_loop_run _ m p 0 s); [done|by rewrite Z.add_0_r|done].
  - unfold strcmp. rewrite bind_get, (strcmp_loop_run _ _ _ _ _ _ Hs Ht Hf). eexists. split; [done|].
    pose proof (str_cmp_spec (S (length s)) s t (proj2 Hs) (proj2 Ht)) as [H1 H2]. rewrite (take_ge s) in H1, H2 by lia.
    rewrite H1, H2. by destruct (take_longer s t) as [-> ->].
  - unfold strchr. rewrite bind_get. by apply strchr_loop_run.
  - unfold atoi. rewrite bind_get. change 0 with (i32 0) at 1. destruct Hs as [Hb Hs]. rewrite He, <- app_assoc in Hb.
    rewrite He, length_app in Hf. destruct Hx as [->|(r & -> & Hx)].
    + eapply atoi_loop_run; [exact Hb|done|unfold digit; lia|lia].
    + eapply atoi_loop_run; [exact Hb|done|done|lia].
Qed.

(** [gets] reads one line.  It stores the bytes up to and including the
    first newline or carriage return, at most [max - 1] of them, followed by a
    NUL, stays inside its buffer, and leaves the rest of the input unread. *)
Theorem gets_spec m inp buf max :
  0 < max -> bytes inp -> mapped m buf (Z.to_nat max) ->
  let l := line_of (Z.to_nat (max - 1)) inp in
  gets buf max (mkuio m inp) = Ret buf (mkuio (wlist buf (l ++ [0]) m) (drop (length l) inp)) /\
  l ++ drop (length l) inp = inp /\ (length l < Z.to_nat max)%nat.
Proof.
  intros Hmax Hb Hm l. destruct (line_of_length (Z.to_nat (max - 1)) inp) as [Hl1 Hl2]. fold l in Hl1, Hl2.
  split; [|split; [done|lia]]. unfold gets.
  rewrite (bind_ret_run _ _ _ _ _ (gets_loop_run (Z.to_nat (max - 1)) m inp buf 0 Hb ltac:(rewrite Z.add_0_r; eapply mapped_le; [done|lia]))).
  fold l. rewrite Z.add_0_r, Z.add_0_l. unfold on_umem, zoom. rewrite bind_run. simpl. rewrite wr_run.
  - change (u8 0) with 0. rewrite wlist_snoc. simpl. do 2 f_equal. apply map_eq. intros b.
    destruct (decide (b = buf + Z.of_nat (length l))) as [->|Hne].
    + rewrite lookup_insert_eq, lookup_wlist_out by lia. by rewrite lookup_insert_eq.
    + rewrite lookup_insert_ne by done. rewrite !lookup_wlist. by rewrite lookup_insert_ne by done.
  - rewrite lookup_wlist_out by lia. apply Hm. lia.
Qed.

(** The strings 42x at 16 and 421 at 32. *)
Definition umem0 : bmem := wlist 16 [52; 50; 120; 0] (wlist 32 [52; 50; 49; 0] ∅).

Lemma umem0_cstr : cstr umem0 16 [52; 50; 120] /\ cstr umem0 32 [52; 50; 49] /\ mapped umem0 32 4.
Proof.
  split; [|split].
  - split; [apply wlist_bytes_at|repeat constructor; lia].
  - split; [|repeat constructor; lia]. intros i x Hx. pose proof (lookup_lt_Some _ _ _ Hx) as Hi. simpl in Hi. unfold umem0.
    rewrite lookup_wlist_out by (simpl; lia). by rewrite lookup_wlist_in.
  - intros b Hb. unfold umem0. rewrite lookup_wlist_out by (simpl; lia). rewrite lookup_wlist, decide_True by (simpl; lia).
    apply lookup_lt_is_Some_2. simpl. lia.
Qed.

Lemma ulib_strings_spec_witness :
  strlen 16 umem0 = Ret 3 umem0 /\ atoi 16 umem0 = Ret 42 umem0 /\ strchr 16 50 umem0 = Ret 17 umem0.
Proof.
  destruct umem0_cstr as (H1 & H2 & H3).
  destruct (ulib_strings_spec umem0 16 32 [52; 50; 120] [52; 50; 49] 50 [52; 50] 120 [120] H1 H2 H3) as (_ & A & _ & B & C).
  - simpl. lia.
  - done.
  - repeat constructor; unfold digit; lia.
  - right. exists []. split; [done|unfold digit; lia].
  - split; [exact A|]. split; [exact C|exact B].
Defined.

Lemma gets_spec_witness :
  gets 32 4 (mkuio umem0 [65; 10; 66]) = Ret 32 (mkuio (wlist 32 [65; 10; 0] umem0) [66]).
Proof. apply (gets_spec umem0 [65; 10; 66] 32 4); [lia|repeat constructor; lia|exact (proj2 (proj2 umem0_cstr))]. Defined.
