(* ===== verification/Printf.v ===== *)
(** * Formatted output of user programs (printf.c)

    Each [putc] is one byte of output; a run is the list of bytes written, or
    [None] when the code reads an argument that is not there, a string that is
    not in memory, or writes past its local buffer. *)

From Stdlib Require Import ZArith Lia.
From stdpp Require Import base numbers strings gmap list.
From S2P Require Import Prelude.
From S2P Require Import Strings.
From S2P Require Import Ulib.

Local Open Scope list_scope.
Local Open Scope Z_scope.

(** [digits[]] of printf.c and of console.c. *)
Definition digits_upper : list Z := [48; 49; 50; 51; 52; 53; 54; 55; 56; 57; 65; 66; 67; 68; 69; 70].
Definition digits_lower : list Z := [48; 49; 50; 51; 52; 53; 54; 55; 56; 57; 97; 98; 99; 100; 101; 102].

(** [buf[i++] = v], for [char buf[16]]. *)
Definition push16 (v : Z) (buf : list Z) : option (list Z) :=
  if (length buf <? 16)%nat then Some (buf ++ [v]) else None.

(** The [do ... while] of [printint]; 32 rounds are enough for a [uint] in
    any base from 2 on. *)
Fixpoint int_digits (digits : list Z) (fuel : nat) (x base : Z) (buf : list Z) : option (list Z) :=
  match fuel with
  | O => None
  | S fuel =>
      d ← digits !! Z.to_nat (x mod base);
      buf ← push16 d buf;
      if x / base =? 0 then Some buf else int_digits digits fuel (x / base) base buf
  end.

Definition printint (digits : list Z) (xx base : Z) (sgn : bool) : option (list Z) :=
  let neg := sgn && (xx <? 0) in
  let x := if neg then u32 (- xx) else u32 xx in
  buf ← int_digits digits 32 x base [];
  buf ← (if neg then push16 45 buf else Some buf);
  Some (rev buf).

(** The bytes of the C string at [a]. *)
Fixpoint str_at (fuel : nat) (m : bmem) (a : Z) : option (list Z) :=
  match fuel with
  | O => None
  | S fuel => x ← m !! a; if x =? 0 then Some [] else s ← str_at fuel m (a + 1); Some (x :: s)
  end.

Definition null_str : list Z := [40; 110; 117; 108; 108; 41].

Definition out_str (m : bmem) (a : Z) : option (list Z) := if a =? 0 then Some null_str else str_at (size m) m a.

(** [state] is whether the last character was a [%]; [ap] are the arguments
    not used yet. *)
Fixpoint printf_loop (m : bmem) (fmt : list Z) (state : bool) (ap : list Z) : option (list Z) :=
  match fmt with
  | [] => Some []
  | c :: fmt =>
      if negb state then
        if c =? 37 then printf_loop m fmt true ap
        else r ← printf_loop m fmt false ap; Some (c :: r)
      else if c =? 100 then
        match ap with [] => None | v :: ap => o ← printint digits_upper (i32 v) 10 true; r ← printf_loop m fmt false ap; Some (o ++ r) end
      else if (c =? 120) || (c =? 112) then
        match ap with [] => None | v :: ap => o ← printint digits_upper (i32 v) 16 false; r ← printf_loop m fmt false ap; Some (o ++ r) end
      else if c =? 115 then
        match ap with [] => None | v :: ap => o ← out_str m v; r ← printf_loop m fmt false ap; Some (o ++ r) end
      else if c =? 99 then
        match ap with [] => None | v :: ap => r ← printf_loop m fmt false ap; Some (u8 v :: r) end
      else if c =? 37 then r ← printf_loop m fmt false ap; Some (c :: r)
      else r ← printf_loop m fmt false ap; Some (37 :: c :: r)
  end.

Definition printf (m : bmem) (fmt ap : list Z) : option (list Z) := printf_loop m fmt false ap.

(** ** Numerals *)

(** [ds] is the usual numeral of [x]: the digits with the values of [ds] in
    base [base] add up to [x], and there is no leading zero. *)
Definition value (base : Z) (vs : list Z) : Z := foldl (fun n v => n * base + v) 0 vs.

Definition numeral (digits : list Z) (base x : Z) (ds : list Z) : Prop :=
  exists vs, Forall2 (fun v d => 0 <= v < base /\ digits !! Z.to_nat v = Some d) vs ds /\
    value base vs = x /\ vs <> [] /\ (head vs = Some 0 -> vs = [0]).

Lemma value_snoc base vs v : value base (vs ++ [v]) = value base vs * base + v.
Proof. unfold value. by rewrite foldl_app. Qed.

Lemma int_digits_run digits fuel x base buf :
  2 <= base <= Z.of_nat (length digits) -> 0 <= x < base ^ Z.of_nat fuel -> (length buf + fuel <= 16)%nat -> (0 < fuel)%nat ->
  exists ds, int_digits digits fuel x base buf = Some (buf ++ ds) /\ numeral digits base x (rev ds) /\ (length ds <= fuel)%nat.
Proof.
  intros Hb. revert x buf. induction fuel as [|fuel IH]; intros x buf Hx Hlen Hf; [lia|]. cbn [int_digits].
  pose proof (Z.mod_pos_bound x base ltac:(lia)) as Hm. pose proof (Z.div_mod x base ltac:(lia)) as Hdm.
  destruct (lookup_lt_is_Some_2 digits (Z.to_nat (x mod base))) as [d Hd]; [lia|]. rewrite Hd. simpl. unfold push16.
  destruct (Nat.ltb_spec (length buf) 16); [|lia]. simpl. destruct (Z.eqb_spec (x / base) 0) as [H0|H0].
  - exists [d]. split; [done|]. split; [|simpl; lia]. exists [x mod base]. split; [constructor; [done|constructor]|].
    split; [unfold value; simpl; lia|]. split; [done|]. simpl. by intros [= ->].
  - assert (Hx' : 0 <= x / base < base ^ Z.of_nat fuel).
    { split; [apply Z.div_pos; lia|]. apply Z.div_lt_upper_bound; [lia|]. rewrite Nat2Z.inj_succ, Z.pow_succ_r in Hx by lia. lia. }
    destruct fuel as [|fuel']; [simpl in Hx'; lia|].
    destruct (IH (x / base) (buf ++ [d])) as (ds & Hrun & (vs & Hvs & Hv & Hne & Hlead) & Hl); [done|rewrite length_app; simpl; lia|lia|].
    exists (d :: ds). rewrite Hrun, <- app_assoc. split; [done|]. split; [|simpl; lia].
    exists (vs ++ [x mod base]). simpl. split; [apply Forall2_app; [done|constructor; [done|constructor]]|].
    split; [rewrite value_snoc; lia|]. split; [by destruct vs|]. destruct vs as [|v vs]; [done|]. simpl. intros [= ->].
    specialize (Hlead eq_refl). injection Hlead as ->. unfold value in Hv. simpl in Hv. lia.
Qed.

(** More fuel does not change the result. *)
Lemma int_digits_fuel digits fuel fuel' x base buf r :
  int_digits digits fuel x base buf = Some r -> (fuel <= fuel')%nat -> int_digits digits fuel' x base buf = Some r.
Proof.
  revert fuel' x buf. induction fuel as [|fuel IH]; intros fuel' x buf H Hle; [done|]. destruct fuel' as [|fuel']; [lia|].
  cbn [int_digits] in *. destruct (digits !! _) as [d|]; [|done]. simpl in *. destruct (push16 d buf) as [b|]; [|done]. simpl in *.
  destruct (x / base =? 0); [done|]. apply IH; [done|lia].
Qed.

(** [printint] in base 10 or 16: the numeral, with a sign when asked for. *)
Lemma printint_run digits xx base sgn :
  (base = 10 \/ base = 16) -> (16 <= length digits)%nat -> -2147483648 <= xx < 2147483648 ->
  exists ds, printint digits xx base sgn = Some ((if sgn && (xx <? 0) then [45] else []) ++ ds) /\
    numeral digits base (if sgn && (xx <? 0) then - xx else u32 xx) ds.
Proof.
  intros Hb Hd Hx. unfold printint. set (neg := sgn && (xx <? 0)).
  assert (Hneg : neg = true -> xx < 0) by (unfold neg; rewrite andb_true_iff, Z.ltb_lt; tauto).
  set (x := if neg then u32 (- xx) else u32 xx). assert (Hxr : 0 <= x < two32) by (unfold x; destruct neg; apply u32_range).
  destruct (int_digits_run digits 10 x base []) as (ds & Hrun & Hnum & Hl).
  - lia.
  - unfold two32 in Hxr. destruct Hb as [->| ->]; [change (10 ^ Z.of_nat 10) with 10000000000|change (16 ^ Z.of_nat 10) with 1099511627776]; lia.
  - simpl. lia.
  - lia.
  - rewrite (int_digits_fuel _ _ 32 _ _ _ _ Hrun) by lia. simpl. exists (rev ds). unfold x in Hnum. destruct neg.
    + unfold push16. destruct (Nat.ltb_spec (length ds) 16); [|lia]. simpl. rewrite rev_app_distr. split; [done|].
      specialize (Hneg eq_refl). rewrite u32_id in Hnum by (unfold two32; lia). done.
    + done.
Qed.

(** ** Formats *)

Inductive tok :=
  | TLit (c : Z) | TPct | TInt (v : Z) | THex (p : bool) (v : Z) | TStr (a : Z) | TChr (v : Z) | TUnk (c : Z).

Definition fmt_of (t : tok) : list Z :=
  match t with
  | TLit c => [c] | TPct => [37; 37] | TInt _ => [37; 100] | THex p _ => [37; if p then 112 else 120]
  | TStr _ => [37; 115] | TChr _ => [37; 99] | TUnk c => [37; c]
  end.

Definition args_of (t : tok) : list Z :=
  match t with TInt v | THex _ v | TStr v | TChr v => [v] | _ => [] end.

Definition tok_ok (t : tok) : Prop :=
  match t with
  | TLit c => c <> 37
  | TUnk c => c ∉ [100; 120; 112; 115; 99; 37]
  | _ => True
  end.

(** What a token prints. *)
Definition renders (m : bmem) (t : tok) (o : list Z) : Prop :=
  match t with
  | TLit c => o = [c]
  | TPct => o = [37]
  | TInt v => exists ds, o = (if i32 v <? 0 then [45] else []) ++ ds /\ numeral digits_upper 10 (Z.abs (i32 v)) ds
  | THex _ v => numeral digits_upper 16 (u32 v) o
  | TStr a => if a =? 0 then o = null_str else cstr m a o
  | TChr v => o = [u8 v]
  | TUnk c => o = [37; c]
  end.

Lemma str_at_run fuel m a s : cstr m a s -> (length s < fuel)%nat -> str_at fuel m a = Some s.
Proof.
  revert a s. induction fuel as [|fuel IH]; intros a s Hs Hf; [lia|]. cbn [str_at]. destruct s as [|x s].
  - apply cstr_nil in Hs. by rewrite Hs.
  - apply cstr_cons in Hs as (Hx & Hx1 & Hs). rewrite Hx. simpl. destruct (Z.eqb_spec x 0); [lia|]. simpl in Hf.
    rewrite (IH _ s) by (done || lia). done.
Qed.

Lemma printint_dec v :
  exists o, printint digits_upper (i32 v) 10 true = Some o /\ renders ∅ (TInt v) o.
Proof.
  assert (Hr : -2147483648 <= i32 v < 2147483648).
  { unfold i32. pose proof (u32_range v). destruct (Z.ltb_spec (u32 v) 2147483648); unfold two32 in *; lia. }
  destruct (printint_run digits_upper (i32 v) 10 true) as (ds & Hrun & Hn); [by left|simpl; lia|done|].
  eexists. split; [exact Hrun|]. exists ds. simpl andb in *. split; [done|].
  destruct (Z.ltb_spec (i32 v) 0); [by rewrite Z.abs_neq by lia|]. rewrite Z.abs_eq by lia.
  by rewrite u32_id in Hn by (unfold two32; lia).
Qed.

Lemma printint_hex v : exists o, printint digits_upper (i32 v) 16 false = Some o /\ numeral digits_upper 16 (u32 v) o.
Proof.
  assert (Hr : -2147483648 <= i32 v < 2147483648).
  { unfold i32. pose proof (u32_range v). destruct (Z.ltb_spec (u32 v) 2147483648); unfold two32 in *; lia. }
  destruct (printint_run digits_upper (i32 v) 16 false) as (ds & Hrun & Hn); [by right|simpl; lia|done|].
  exists ds. split; [exact Hrun|]. simpl in Hn. by rewrite u32_i32 in Hn.
Qed.

(** ** Properties *)

(** printf.  On a format made of literal characters and conversions, with
    an argument for each conversion and a C string behind each [%s], [printf]
    writes, in order, each literal, the decimal or hexadecimal numeral of each
    number (with a minus sign for negative [%d], no leading zeros), each
    string ([(null)] for a null pointer), each character, and unknown
    conversions unchanged; it uses exactly the given arguments and never
    overruns its buffer. *)
Theorem printf_spec m toks :
  Forall tok_ok toks ->
  (forall a, TStr a ∈ toks -> a <> 0 -> exists s, cstr m a s) ->
  exists outs, printf m (concat (fmt_of <$> toks)) (concat (args_of <$> toks)) = Some (concat outs) /\
    Forall2 (renders m) toks outs.
Proof.
  unfold printf. induction toks as [|t toks IH]; intros Hok Hstr; [exists []; by split|].
  apply Forall_cons in Hok as [Ht Hok]. destruct (IH Hok) as (outs & Hrun & Hall).
  { intros a Ha. apply Hstr. by right. }
  assert (Hdo : forall o, renders m t o ->
    printf_loop m (concat (fmt_of <$> (t :: toks))) false (concat (args_of <$> (t :: toks))) =
      (r ← printf_loop m (concat (fmt_of <$> toks)) false (concat (args_of <$> toks)); Some (o ++ r)) ->
    exists outs, printf_loop m (concat (fmt_of <$> (t :: toks))) false (concat (args_of <$> (t :: toks))) = Some (concat outs) /\
      Forall2 (renders m) (t :: toks) outs).
  { intros o Ho E. exists (o :: outs). rewrite E, Hrun. simpl. split; [done|by constructor]. }
  destruct t as [c| |v|p v|a|v|c]; simpl in Ht.
  - apply (Hdo [c]); [done|]. simpl. by rewrite (proj2 (Z.eqb_neq _ _) Ht).
  - by apply (Hdo [37]).
  - destruct (printint_dec v) as (o & Ho & Hr). apply (Hdo o); [exact Hr|]. simpl. by rewrite Ho.
  - destruct (printint_hex v) as (o & Ho & Hr). apply (Hdo o); [exact Hr|]. destruct p; simpl; by rewrite Ho.
  - destruct (Z.eqb_spec a 0) as [->|Ha]; [by apply (Hdo null_str)|].
    destruct (Hstr a ltac:(left) Ha) as [s Hs]. apply (Hdo s); [simpl; by rewrite (proj2 (Z.eqb_neq _ _) Ha)|]. simpl.
    unfold out_str. rewrite (proj2 (Z.eqb_neq _ _) Ha), (str_at_run _ _ _ _ Hs) by by eapply cstr_fuel. done.
  - by apply (Hdo [u8 v]).
  - apply (Hdo [37; c]); [done|]. rewrite !not_elem_of_cons in Ht. destruct Ht as (H1 & H2 & H3 & H4 & H5 & H6 & _). simpl.
    by rewrite !(proj2 (Z.eqb_neq _ _)) by done.
Qed.

(** The format d=%d s=%s%% on -7 and the string 42x. *)
Lemma printf_spec_witness :
  exists outs, printf umem0 [100; 61; 37; 100; 32; 115; 61; 37; 115; 37; 37] [4294967289; 16] = Some (concat outs) /\
    Forall2 (renders umem0) [TLit 100; TLit 61; TInt 4294967289; TLit 32; TLit 115; TLit 61; TStr 16; TPct] outs.
Proof.
  apply (printf_spec umem0 [TLit 100; TLit 61; TInt 4294967289; TLit 32; TLit 115; TLit 61; TStr 16; TPct]).
  - repeat constructor; done.
  - intros a Ha _. exists [52; 50; 120]. repeat (apply elem_of_cons in Ha as [Ha|Ha]; [try done|]); [|by apply elem_of_nil in Ha].
    injection Ha as ->. apply umem0_cstr.
Defined.

(** Printing and reading back.  The decimal numeral [printint] writes for a
    non-negative [int] is read by [atoi] as the same number. *)
Theorem printint_atoi m a x s :
  0 <= x < 2147483648 -> printint digits_upper x 10 true = Some s -> cstr m a s -> atoi a m = Ret x m.
Proof.
  intros Hx Hp Hs. destruct (printint_run digits_upper x 10 true) as (ds & Hrun & vs & Hvs & Hv & _); [by left|simpl; lia|lia|].
  assert ((true && (x <? 0)) = false) as Hneg by (simpl; apply Z.ltb_ge; lia). rewrite Hneg in *.
  rewrite Hp in Hrun. injection Hrun as ->. simpl in *. rewrite u32_id in Hv by (unfold two32; lia).
  assert (Hdig : Forall digit ds /\ forall n, digits_value n ds = foldl (fun n v => n * 10 + v) n vs).
  { clear -Hvs. induction Hvs as [|v d vs ds [Hv Hd] _ [IH1 IH2]]; [done|].
    assert (d = v + 48) as ->.
    { assert (Hc : v = 0 \/ v = 1 \/ v = 2 \/ v = 3 \/ v = 4 \/ v = 5 \/ v = 6 \/ v = 7 \/ v = 8 \/ v = 9) by lia.
      destruct Hc as [->|[->|[->|[->|[->|[->|[->|[->|[->| ->]]]]]]]]]; vm_compute in Hd; by injection Hd as <-. }
    split; [constructor; [unfold digit; lia|done]|]. intros n. simpl. rewrite IH2. do 2 f_equal. lia. }
  destruct Hdig as [Hdig Hval]. unfold atoi. rewrite bind_get. change 0 with (i32 0) at 1.
  pose proof (cstr_fuel _ _ _ Hs). destruct Hs as [Hs _].
  rewrite (atoi_loop_run _ _ _ 0 ds 0 [] Hs Hdig) by (unfold digit; lia || done). rewrite Hval. fold (value 10 vs). rewrite Hv.
  by rewrite i32_small by lia.
Qed.

Lemma printint_atoi_witness : atoi 16 (wlist 16 [49; 50; 48; 0] ∅) = Ret 120 (wlist 16 [49; 50; 48; 0] ∅).
Proof.
  apply (printint_atoi _ 16 120 [49; 50; 48]); [lia|reflexivity|]. split; [apply wlist_bytes_at|repeat constructor; lia].
Defined.
