(* ===== verification/Sh.v ===== *)
(** * The shell (sh.c)

    The parser works on the command line in place: a token is a pair of
    positions in the buffer, and [nulterminate] ends the strings when the line
    has been parsed.  [runcmd] is a tree of system calls.  [panic] of the shell
    prints its message and exits. *)

From Stdlib Require Import ZArith Lia.
From stdpp Require Import base numbers strings gmap list.
From S2P Require Import Prelude.

Local Open Scope string_scope.
Local Open Scope list_scope.
Local Open Scope Z_scope.

(** ** Commands *)

(** [A] is what stands for a string: the two pointers that [gettoken] returns
    while the line is parsed, and the text afterwards. *)
Inductive cmd (A : Type) :=
  | EXEC (argv : list A)
  | REDIR (c : cmd A) (file : A) (mode fd : Z)
  | PIPE (left right : cmd A)
  | LIST (left right : cmd A)
  | BACK (c : cmd A).
Arguments EXEC {A} argv.
Arguments REDIR {A} c file mode fd.
Arguments PIPE {A} left right.
Arguments LIST {A} left right.
Arguments BACK {A} c.

Definition MAXARGS : nat := 10.
Definition O_RDONLY : Z := 0.
Definition O_WRONLY : Z := 1.
Definition O_CREATE : Z := 512.

(** [whitespace] and [symbols]; [strchr] does not find the NUL at the end. *)
Definition is_space (c : Z) : bool := bool_decide (c ∈ [32; 9; 13; 10; 11]).
Definition symbols : list Z := [60; 124; 62; 38; 59; 40; 41].
Definition is_symbol (c : Z) : bool := bool_decide (c ∈ symbols).

(** The token that stands for a word, and the one for [>>]. *)
Definition tok_word : Z := 97.
Definition tok_append : Z := 43.

(** A pointer to the start and one past the end. *)
Definition ptrs : Type := nat * nat.

(** ** Parsing

    [b] is the buffer and [es] points to the NUL; the state is [*ps]. *)
Section parse.
Context (b : list Z) (es : nat).

Definition byte (s : nat) : M nat Z := of_option "buf" (b !! s).

(** [while (s < es && test( *s)) s++], with [n = es - s]. *)
Fixpoint scan (test : Z -> bool) (n s : nat) : nat :=
  match n with
  | O => s
  | S n => if test (default 0 (b !! s)) then scan test n (S s) else s
  end.

Definition is_word (c : Z) : bool := negb (is_space c) && negb (is_symbol c).

Definition gettoken : M nat (Z * ptrs) :=
  s ← get;
  let s := scan is_space (es - s) s in
  c ← byte s;
  r ← (if c =? 0 then mret (c, s)
       else if bool_decide (c ∈ [124; 40; 41; 59; 38; 60]) then mret (c, S s)
       else if c =? 62 then
         c2 ← byte (S s);
         if c2 =? 62 then mret (tok_append, S (S s)) else mret (c, S s)
       else mret (tok_word, scan is_word (es - s) s));
  put (scan is_space (es - r.2) r.2);;
  mret (r.1, (s, r.2)).

Definition peek (toks : list Z) : M nat bool :=
  s ← get;
  let s := scan is_space (es - s) s in
  put s;;
  c ← byte s;
  mret (negb (c =? 0) && bool_decide (c ∈ toks)).

(** One redirection: the file and how it is opened. *)
Definition redir : Type := ptrs * Z * Z.

Definition redircmd (c : cmd ptrs) (r : redir) : cmd ptrs := REDIR c r.1.1 r.1.2 r.2.

(** The loop of [parseredirs].  The command is a pointer that the redirections
    are wrapped around, and [parseexec] fills in its arguments afterwards; the
    result is the redirections. *)
Fixpoint parseredirs (n : nat) : M nat (list redir) :=
  more ← peek [60; 62];
  if (more : bool) then
    match n with
    | O => fault "parseredirs: fuel"
    | S n =>
        tok ← gettoken;
        f ← gettoken;
        unless_panic (negb (f.1 =? tok_word)) "missing file for redirection";;
        rs ← parseredirs n;
        mret ((if tok.1 =? 60 then (f.2, O_RDONLY, 0) else (f.2, Z.lor O_WRONLY O_CREATE, 1)) :: rs)
    end
  else mret [].

(** The loop of [parseexec], with [n = MAXARGS - argc]: the arguments and the
    redirections from here on. *)
Fixpoint parseargs (n : nat) : M nat (list ptrs * list redir) :=
  stop ← peek [124; 41; 38; 59];
  if (stop : bool) then mret ([], [])
  else
    tok ← gettoken;
    if tok.1 =? 0 then mret ([], [])
    else
      unless_panic (negb (tok.1 =? tok_word)) "syntax";;
      match n with
      | O | S O => panic "too many args"
      | S n =>
          rs ← parseredirs es;
          r ← parseargs n;
          mret (tok.2 :: r.1, rs ++ r.2)
      end.

(** [while (peek(ps, es, "&"))] of [parseline]. *)
Fixpoint parsebacks (n : nat) (c : cmd ptrs) : M nat (cmd ptrs) :=
  amp ← peek [38];
  if (amp : bool) then
    match n with
    | O => fault "parseline: fuel"
    | S n => gettoken;; parsebacks n (BACK c)
    end
  else mret c.

Fixpoint parseline (n : nat) : M nat (cmd ptrs) :=
  match n with
  | O => fault "parseline: fuel"
  | S n =>
      c ← parsepipe n;
      c ← parsebacks es c;
      semi ← peek [59];
      if (semi : bool) then
        gettoken;;
        r ← parseline n;
        mret (LIST c r)
      else mret c
  end
with parsepipe (n : nat) : M nat (cmd ptrs) :=
  match n with
  | O => fault "parsepipe: fuel"
  | S n =>
      c ← parseexec n;
      bar ← peek [124];
      if (bar : bool) then
        gettoken;;
        r ← parsepipe n;
        mret (PIPE c r)
      else mret c
  end
with parseexec (n : nat) : M nat (cmd ptrs) :=
  match n with
  | O => fault "parseexec: fuel"
  | S n =>
      open ← peek [40];
      if (open : bool) then parseblock n
      else
        rs ← parseredirs es;
        r ← parseargs MAXARGS;
        mret (fold_left redircmd (rs ++ r.2) (EXEC r.1))
  end
with parseblock (n : nat) : M nat (cmd ptrs) :=
  match n with
  | O => fault "parseblock: fuel"
  | S n =>
      open ← peek [40];
      unless_panic (negb open) "parseblock";;
      gettoken;;
      c ← parseline n;
      close ← peek [41];
      unless_panic (negb close) "syntax - missing )";;
      gettoken;;
      rs ← parseredirs es;
      mret (fold_left redircmd rs c)
  end.

(** [parsecmd] up to [nulterminate]. *)
Definition parsewhole : M nat (cmd ptrs) :=
  c ← parseline (4 * es + 4);
  peek [];;
  s ← get;
  unless_panic (negb (s =? es)%nat) "syntax";;
  mret c.
End parse.

(** [*p = 0] *)
Definition terminate (e : nat) : M (list Z) unit := b ← get; b' ← of_option "buf" (zset (Z.of_nat e) 0 b); put b'.

Fixpoint nulterminate (c : cmd ptrs) : M (list Z) unit :=
  match c with
  | EXEC argv => each argv (fun p => terminate p.2)
  | REDIR c file _ _ => nulterminate c;; terminate file.2
  | PIPE l r | LIST l r => nulterminate l;; nulterminate r
  | BACK c => nulterminate c
  end.

Definition parsecmd : M (list Z) (cmd ptrs) :=
  b ← get;
  es ← of_option "strlen" (find_first (fun c => c =? 0) b);
  c ← zoom (fun _ => 0%nat) (fun _ b => b) (parsewhole b es);
  nulterminate c;;
  mret c.

(** ** Running

    A process of the shell is a tree of system calls that branches on their
    results; [pipe] stores its two descriptors in [p]. *)
Inductive call :=
  | Sexec (path : list Z) (argv : list (list Z))
  | Sclose (fd : Z)
  | Sopen (path : list Z) (mode : Z)
  | Sdup (fd : Z)
  | Sfork
  | Swait
  | Sprint (msg : string) (arg : list Z).

Inductive prog :=
  | Sexit
  | Do (c : call) (k : Z -> prog)
  | DoPipe (k : Z -> Z -> Z -> prog).

Definition sh_panic (msg : string) : prog := Do (Sprint msg []) (fun _ => Sexit).

Definition fork1 (k : Z -> prog) : prog := Do Sfork (fun pid => if pid =? -1 then sh_panic "fork" else k pid).

(** [close(p[0]); close(p[1]);] *)
Definition close2 (p0 p1 : Z) (k : prog) : prog := Do (Sclose p0) (fun _ => Do (Sclose p1) (fun _ => k)).

Fixpoint runcmd (c : cmd (list Z)) : prog :=
  match c with
  | EXEC [] => Sexit
  | EXEC (a :: argv) => Do (Sexec a (a :: argv)) (fun _ => Do (Sprint "exec %s failed" a) (fun _ => Sexit))
  | REDIR c file mode fd =>
      Do (Sclose fd) (fun _ =>
      Do (Sopen file mode) (fun r =>
      if r <? 0 then Do (Sprint "open %s failed" file) (fun _ => Sexit) else runcmd c))
  | LIST l r => fork1 (fun pid => if pid =? 0 then runcmd l else Do Swait (fun _ => runcmd r))
  | PIPE l r =>
      DoPipe (fun res p0 p1 =>
      if res <? 0 then sh_panic "pipe"
      else
        fork1 (fun pid =>
        if pid =? 0 then Do (Sclose 1) (fun _ => Do (Sdup p1) (fun _ => close2 p0 p1 (runcmd l)))
        else fork1 (fun pid =>
        if pid =? 0 then Do (Sclose 0) (fun _ => Do (Sdup p0) (fun _ => close2 p0 p1 (runcmd r)))
        else close2 p0 p1 (Do Swait (fun _ => Do Swait (fun _ => Sexit))))))
  | BACK c => fork1 (fun pid => if pid =? 0 then runcmd c else Sexit)
  end.
