(* ===== verification/ShSpec.v ===== *)
(** * What the shell's parser accepts

    The command line is a sequence of tokens, and the grammar of the shell is a
    type of syntax trees.  [parsecmd] returns exactly when the tokens of the line
    are those of a tree, and then the strings of its command are the words of
    the tree.  The second part follows the descriptors through [runcmd]. *)

From Stdlib Require Import ZArith Lia.
From stdpp Require Import base numbers strings gmap list.
From S2P Require Import Prelude.
From S2P Require Import Sh.

Local Open Scope string_scope.
Local Open Scope list_scope.
Local Open Scope Z_scope.

(** ** Tokens *)

Inductive token := TWord (w : list Z) | TSym (c : Z) | TAppend.

Definition flush (w : list Z) (l : list token) : list token := match w with [] => l | _ => TWord w :: l end.

(** The tokens of a text; [w] is the part of a word that has been read. *)
Fixpoint lex (w t : list Z) : list token :=
  match t with
  | [] => flush w []
  | c :: t =>
      if is_space c then flush w (lex [] t)
      else if is_symbol c then
        flush w (match t with
                 | d :: t' => if (c =? 62) && (d =? 62) then TAppend :: lex [] t' else TSym c :: lex [] t
                 | [] => [TSym c]
                 end)
      else lex (w ++ [c]) t
  end.

(** The length of the longest prefix whose characters pass the test. *)
Fixpoint span (test : Z -> bool) (l : list Z) : nat := match l with [] => 0 | c :: l => if test c then S (span test l) else 0 end.

Lemma span_le test l : (span test l <= length l)%nat.
Proof. induction l as [|c l IH]; simpl; [lia|]. destruct (test c); lia. Qed.

Lemma span_stop test l c : drop (span test l) l !! 0%nat = Some c -> test c = false.
Proof. induction l as [|d l IH]; simpl; [done|]. destruct (test d) eqn:E; [done|]. intros [= <-]. done. Qed.

Lemma span_pass test l i c : (i < span test l)%nat -> l !! i = Some c -> test c = true.
Proof.
  revert i. induction l as [|d l IH]; simpl; intros i Hi Hc; [lia|]. destruct (test d) eqn:E; [|lia]. destruct i as [|i]; simpl in Hc; [congruence|].
  apply (IH i); [lia|done].
Qed.

Lemma lex_spaces l : lex [] (drop (span is_space l) l) = lex [] l.
Proof. induction l as [|c l IH]; simpl; [done|]. destruct (is_space c) eqn:E; simpl; [done|]. by rewrite E. Qed.

Lemma lex_word w l : w <> [] -> lex w l = TWord (w ++ take (span is_word l) l) :: lex [] (drop (span is_word l) l).
Proof.
  revert w. induction l as [|c l IH]; intros w Hw; simpl. { rewrite app_nil_r. by destruct w. }
  unfold is_word. destruct (is_space c) eqn:E1; simpl. { rewrite app_nil_r, E1. by destruct w. }
  destruct (is_symbol c) eqn:E2; simpl. { rewrite app_nil_r, E1, E2. by destruct w. }
  rewrite IH by by destruct w. fold is_word. by rewrite <- app_assoc.
Qed.

Lemma length_flush w l : length (flush w l) = (length (flush w []) + length l)%nat.
Proof. by destruct w. Qed.

Lemma lex_length n w l : (length l <= n)%nat -> (length (lex w l) <= length l + length (flush w []))%nat.
Proof.
  revert w l. induction n as [|n IH]; intros w [|c l] Hl; simpl in *; try lia. destruct (is_space c).
  { rewrite length_flush. specialize (IH [] l ltac:(lia)). simpl in IH. lia. }
  destruct (is_symbol c); [|specialize (IH (w ++ [c]) l ltac:(lia)); destruct w; simpl in *; lia].
  rewrite length_flush. destruct l as [|d l]; [simpl; lia|]. destruct ((c =? 62) && (d =? 62)).
  - specialize (IH [] l ltac:(simpl in Hl; lia)). simpl in *. lia.
  - pose proof (IH [] (d :: l) ltac:(simpl in *; lia)) as IH'. cbn [length] in *. simpl (length (flush [] [])) in IH'. lia.
Qed.

(** ** Reading tokens *)

Section text.
Context (t b : list Z) (Hb : exists junk, b = t ++ 0 :: junk) (Ht : Forall (fun c => c <> 0) t).
Local Notation es := (length t).

Definition at_toks (s : nat) (ts : list token) : Prop := (s <= es)%nat /\ lex [] (drop s t) = ts.

(** The pointers enclose the word, which is not part of a longer one. *)
Record word_at (p : ptrs) (w : list Z) : Prop := {
  wa_text : drop p.1 t = w ++ drop p.2 t;
  wa_end : (p.2 <= es)%nat /\ p.2 = (p.1 + length w)%nat;
  wa_word : Forall (fun c => is_word c = true) w;
  wa_stop : forall c, t !! p.2 = Some c -> is_word c = false }.

Lemma byte_in s c : t !! s = Some c -> b !! s = Some c.
Proof. destruct Hb as [junk ->]. intros H. by apply lookup_app_l_Some. Qed.

Lemma byte_es : b !! es = Some 0.
Proof. destruct Hb as [junk ->]. by apply list_lookup_middle. Qed.

Lemma byte_run s c (σ : nat) : b !! s = Some c -> byte b s σ = Ret c σ.
Proof. intros H. unfold byte. by rewrite H. Qed.

Lemma scan_run test s : (s <= es)%nat -> scan b test (es - s) s = (s + span test (drop s t))%nat.
Proof.
  remember (es - s)%nat as n eqn:En. revert s En. induction n as [|n IH]; intros s En Hs; simpl.
  { rewrite drop_ge by lia. simpl. lia. }
  destruct (lookup_lt_is_Some_2 t s) as [c Hc]; [lia|]. rewrite (byte_in _ _ Hc), (drop_S _ _ _ Hc). simpl.
  destruct (test c); [|lia]. rewrite IH by lia. lia.
Qed.

(** The white space before a token. *)
Lemma skip_run s ts : at_toks s ts ->
  exists s1, scan b is_space (es - s) s = s1 /\ at_toks s1 ts /\
    ((s1 = es /\ ts = []) \/ exists c, t !! s1 = Some c /\ is_space c = false /\ c <> 0).
Proof.
  intros [Hs <-]. rewrite scan_run by done. set (k := span is_space (drop s t)). exists (s + k)%nat. split; [done|].
  pose proof (span_le is_space (drop s t)) as Hk. rewrite length_drop in Hk. fold k in Hk.
  assert (E : drop (s + k) t = drop k (drop s t)) by (by rewrite drop_drop). split.
  - split; [lia|]. rewrite E. apply lex_spaces.
  - destruct (decide (s + k = es)%nat) as [Ee|Ne].
    + left. split; [done|]. rewrite <- lex_spaces. fold k. by rewrite <- E, Ee, drop_all.
    + right. destruct (lookup_lt_is_Some_2 t (s + k)) as [c Hc]; [lia|]. exists c. split; [done|]. split.
      * apply (span_stop is_space (drop s t)). fold k. rewrite <- E. by rewrite lookup_drop, Nat.add_0_r.
      * rewrite Forall_lookup in Ht. by apply (Ht _ _ Hc).
Qed.

(** What [gettoken] says about the first token. *)
Definition tok_is (ts : list token) (r : Z) (p : ptrs) : Prop :=
  match ts with
  | [] => r = 0
  | TWord w :: _ => r = tok_word /\ word_at p w
  | TSym c :: _ => r = c /\ is_symbol c = true
  | TAppend :: _ => r = tok_append
  end.

Lemma lex_symbol c l : is_space c = false -> is_symbol c = true -> c <> 62 -> lex [] (c :: l) = TSym c :: lex [] l.
Proof. intros E1 E2 Hc. cbn [lex]. rewrite E1, E2. cbn [flush]. destruct (Z.eqb_spec c 62); [done|]. by destruct l. Qed.

Lemma symbol_cases c : is_symbol c = bool_decide (c ∈ [124; 40; 41; 59; 38; 60]) || (c =? 62).
Proof.
  unfold is_symbol, symbols. destruct (Z.eqb_spec c 62) as [->|Hc]; [done|]. rewrite orb_false_r.
  apply bool_decide_ext. rewrite !elem_of_cons, !elem_of_nil. intuition.
Qed.

(** The word that starts at [s]. *)
Lemma word_run s c : t !! s = Some c -> is_space c = false -> is_symbol c = false ->
  let e := scan b is_word (es - s) s in
  exists w, lex [] (drop s t) = TWord w :: lex [] (drop e t) /\ word_at (s, e) w /\ (e <= es)%nat.
Proof.
  intros Hc E1 E2 e. pose proof (lookup_lt_Some _ _ _ Hc) as Hs. unfold e. rewrite scan_run by lia. set (k := span is_word (drop s t)).
  pose proof (span_le is_word (drop s t)) as Hk. fold k in Hk. rewrite length_drop in Hk.
  assert (Ed : drop (s + k) t = drop k (drop s t)) by (by rewrite drop_drop). exists (take k (drop s t)). split; [|split; [|lia]].
  - assert (El : lex [] (drop s t) = lex [c] (drop (S s) t)) by (rewrite (drop_S _ _ _ Hc); cbn [lex]; by rewrite E1, E2). rewrite El, lex_word by done.
    assert (Ew : is_word c = true) by (unfold is_word; by rewrite E1, E2). rewrite Ed. unfold k. rewrite (drop_S _ _ _ Hc). cbn [span]. by rewrite Ew.
  - split; cbn [fst snd].
    + by rewrite Ed, take_drop.
    + rewrite length_take, length_drop. lia.
    + apply Forall_lookup. intros i x Hi. apply lookup_take_Some in Hi as [Hx Hi]. by apply (span_pass is_word (drop s t) i).
    + intros x Hx. apply (span_stop is_word (drop s t)). fold k. rewrite <- Ed. by rewrite lookup_drop, Nat.add_0_r.
Qed.

Lemma sh_gettoken_run s ts : at_toks s ts ->
  exists r p s', gettoken b es s = Ret (r, p) s' /\ tok_is ts r p /\ at_toks s' (tail ts).
Proof.
  intros H. destruct (skip_run s ts H) as (s1 & E & H1 & Hc). unfold gettoken. rewrite bind_get, E. cbv zeta.
  assert (Hend : forall e r ts', at_toks e ts' -> tok_is ts r (s1, e) -> ts' = tail ts ->
    exists r' p s', (put (scan b is_space (es - e) e);; mret (r, (s1, e))) s = Ret (r', p) s' /\ tok_is ts r' p /\ at_toks s' (tail ts)).
  { intros e r ts' He Hr ->. destruct (skip_run e _ He) as (s2 & E2 & H2 & _). rewrite E2. by exists r, (s1, e), s2. }
  destruct Hc as [[-> ->]|(c & Hc & Hsp & Hc0)].
  { mstep (byte_run _ _ s byte_es). cbn [Z.eqb]. rewrite bind_mret. by apply (Hend es 0 []). }
  mstep (byte_run _ _ s (byte_in _ _ Hc)). destruct (Z.eqb_spec c 0); [done|]. destruct H1 as [Hs1 Hts]. pose proof (lookup_lt_Some _ _ _ Hc) as Hlt.
  pose proof (symbol_cases c) as Esym. case_bool_decide as Hin.
  { rewrite bind_mret. apply (Hend (S s1) c (lex [] (drop (S s1) t))); [by split|..];
      rewrite <- Hts, (drop_S _ _ _ Hc), lex_symbol by (done || (intros ->; revert Hin; rewrite !elem_of_cons, elem_of_nil; clear; lia)); done. }
  destruct (Z.eqb_spec c 62) as [->|Hgt].
  - assert (Hr : exists c2, b !! S s1 = Some c2 /\ ((c2 = 62 /\ t !! S s1 = Some 62) \/ (c2 <> 62 /\ t !! S s1 <> Some 62))).
    { destruct (decide (S s1 = es)) as [Ee|]; [exists 0; rewrite Ee, byte_es; split; [done|right; split; [done|]]; rewrite lookup_ge_None_2 by lia; done|].
      destruct (lookup_lt_is_Some_2 t (S s1)) as [c2 Hc2]; [lia|]. exists c2. split; [by apply byte_in|]. rewrite Hc2. destruct (decide (c2 = 62)); [left; by subst|right; split; congruence]. }
    destruct Hr as (c2 & Hb2 & Hc2). rewrite bind_assoc_run. mstep (byte_run _ _ s Hb2). rewrite (drop_S _ _ _ Hc) in Hts. cbn [lex] in Hts. rewrite Hsp, Esym in Hts.
    destruct Hc2 as [[-> Hc2]|[Hne Hc2]].
    + rewrite (drop_S _ _ _ Hc2) in Hts. simpl in Hts. cbn [Z.eqb Pos.eqb]. rewrite bind_mret. pose proof (lookup_lt_Some _ _ _ Hc2).
      apply (Hend (S (S s1)) tok_append (lex [] (drop (S (S s1)) t))); [by split|by rewrite <- Hts|by rewrite <- Hts].
    + destruct (Z.eqb_spec c2 62); [done|]. rewrite bind_mret.
      assert (Hts' : TSym 62 :: lex [] (drop (S s1) t) = ts).
      { rewrite <- Hts. destruct (drop (S s1) t) as [|d l] eqn:El; [done|]. simpl. destruct (Z.eqb_spec d 62) as [->|]; [|done].
        destruct Hc2. by rewrite <- (Nat.add_0_r (S s1)), <- lookup_drop, El. }
      apply (Hend (S s1) 62 (lex [] (drop (S s1) t))); [by split|by rewrite <- Hts'|by rewrite <- Hts'].
  - rewrite bind_mret. destruct (word_run s1 c Hc Hsp) as (w & Hw & Hat & He); [by rewrite Esym|]. rewrite Hw in Hts.
    apply (Hend _ tok_word (lex [] (drop (scan b is_word (es - s1) s1) t))); [by split|by rewrite <- Hts|by rewrite <- Hts].
Qed.

(** The first token begins with one of the symbols. *)
Definition starts (toks : list Z) (ts : list token) : bool :=
  match ts with TSym c :: _ => bool_decide (c ∈ toks) | TAppend :: _ => bool_decide (62 ∈ toks) | _ => false end.

Lemma sh_peek_run toks s ts : Forall (fun c => is_symbol c = true) toks -> at_toks s ts ->
  exists s', peek b es toks s = Ret (starts toks ts) s' /\ at_toks s' ts.
Proof.
  intros Hsub H. destruct (skip_run s ts H) as (s1 & E & H1 & Hc). unfold peek. rewrite bind_get, E. cbv zeta. exists s1. split; [|done].
  change (((put s1 : M nat unit) ≫= (fun _ => c ← byte b s1; mret (negb (c =? 0) && bool_decide (c ∈ toks)))) s)
    with ((c ← byte b s1; mret (negb (c =? 0) && bool_decide (c ∈ toks))) s1).
  destruct Hc as [[-> ->]|(c & Hc & Hsp & Hc0)]; [by mstep (byte_run _ _ es byte_es)|]. mstep (byte_run _ _ s1 (byte_in _ _ Hc)).
  destruct (Z.eqb_spec c 0); [done|]. cbn [negb andb]. destruct H1 as [_ <-]. destruct (is_symbol c) eqn:Esym.
  - rewrite (drop_S _ _ _ Hc). cbn [lex]. rewrite Hsp, Esym. cbn [flush]. destruct (drop (S s1) t) as [|d l]; [done|].
    destruct (Z.eqb_spec c 62) as [->|]; [|done]. by destruct (d =? 62).
  - destruct (word_run s1 c Hc Hsp Esym) as (w & -> & _). rewrite bool_decide_eq_false_2; [done|]. intros Hin. rewrite Forall_forall in Hsub. apply Hsub in Hin. congruence.
Qed.

Lemma lex_nonempty c l : is_space c = false -> lex [] (c :: l) <> [].
Proof.
  intros E. cbn [lex]. rewrite E. destruct (is_symbol c); [|by rewrite lex_word]. destruct l as [|d l]; [done|]. by destruct ((c =? 62) && (d =? 62)).
Qed.

Lemma sh_peek_end toks s : at_toks s [] -> peek b es toks s = Ret false es.
Proof.
  intros H. destruct (skip_run s [] H) as (s1 & E & [_ H1] & Hc). unfold peek. rewrite bind_get, E. cbv zeta.
  destruct Hc as [[-> _]|(c & Hc & Hsp & _)]; [|rewrite (drop_S _ _ _ Hc) in H1; by apply lex_nonempty in H1].
  change (((put es : M nat unit) ≫= (fun _ => c ← byte b es; mret (negb (c =? 0) && bool_decide (c ∈ toks)))) s)
    with ((c ← byte b es; mret (negb (c =? 0) && bool_decide (c ∈ toks))) es). by mstep (byte_run _ _ es byte_es).
Qed.
End text.

(** ** The grammar *)

Inductive rkind := RIn | ROut | RAppend.
Definition wredir : Type := rkind * list Z.

Inductive line :=
  | Line (p : pipeline) (amps : nat)
  | Seq (p : pipeline) (amps : nat) (l : line)
with pipeline :=
  | Single (e : simple)
  | Bar (e : simple) (p : pipeline)
with simple :=
  | Words (rs : list wredir) (args : list (list Z * list wredir))
  | Block (l : line) (rs : list wredir).

(** The tokens of a tree. *)
Definition rtoks (r : wredir) : list token :=
  [match r.1 with RIn => TSym 60 | ROut => TSym 62 | RAppend => TAppend end; TWord r.2].
Definition rstoks (rs : list wredir) : list token := concat (map rtoks rs).
Definition atoks (args : list (list Z * list wredir)) : list token := concat (map (fun a => TWord a.1 :: rstoks a.2) args).

Fixpoint ltoks (l : line) : list token :=
  match l with
  | Line p n => ptoks p ++ replicate n (TSym 38)
  | Seq p n l => ptoks p ++ replicate n (TSym 38) ++ TSym 59 :: ltoks l
  end
with ptoks (p : pipeline) : list token :=
  match p with Single e => etoks e | Bar e p => etoks e ++ TSym 124 :: ptoks p end
with etoks (e : simple) : list token :=
  match e with
  | Words rs args => rstoks rs ++ atoks args
  | Block l rs => TSym 40 :: ltoks l ++ TSym 41 :: rstoks rs
  end.

(** The command a tree stands for. *)
Definition wrap (c : cmd (list Z)) (r : wredir) : cmd (list Z) :=
  match r.1 with RIn => REDIR c r.2 O_RDONLY 0 | ROut | RAppend => REDIR c r.2 (Z.lor O_WRONLY O_CREATE) 1 end.

Fixpoint backs (n : nat) (c : cmd (list Z)) : cmd (list Z) := match n with O => c | S n => backs n (BACK c) end.

Fixpoint lcmd (l : line) : cmd (list Z) :=
  match l with Line p n => backs n (pcmd p) | Seq p n l => LIST (backs n (pcmd p)) (lcmd l) end
with pcmd (p : pipeline) : cmd (list Z) :=
  match p with Single e => ecmd e | Bar e p => PIPE (ecmd e) (pcmd p) end
with ecmd (e : simple) : cmd (list Z) :=
  match e with
  | Words rs args => fold_left wrap (rs ++ concat (map snd args)) (EXEC (map fst args))
  | Block l rs => fold_left wrap rs (lcmd l)
  end.

(** Each command has fewer than [MAXARGS] words. *)
Fixpoint lfits (l : line) : Prop := match l with Line p _ => pfits p | Seq p _ l => pfits p /\ lfits l end
with pfits (p : pipeline) : Prop := match p with Single e => efits e | Bar e p => efits e /\ pfits p end
with efits (e : simple) : Prop := match e with Words _ args => (length args < MAXARGS)%nat | Block l _ => lfits l end.

(** ** Soundness *)

(** A run that ends: it returns with [Q], or panics. *)
Definition ends {S A} (m : M S A) (s : S) (Q : A -> S -> Prop) : Prop :=
  match m s with Ret a s' => Q a s' | Panic _ => True | _ => False end.

Lemma ends_bind {S A B} (m : M S A) (k : A -> M S B) s Q R :
  ends m s Q -> (forall a s', Q a s' -> ends (k a) s' R) -> ends (m ≫= k) s R.
Proof. unfold ends. rewrite bind_run. destruct (m s); intros H1 H2; try done. by apply H2. Qed.

Lemma ends_mono {S A} (m : M S A) s (Q R : A -> S -> Prop) : ends m s Q -> (forall a s', Q a s' -> R a s') -> ends m s R.
Proof. unfold ends. destruct (m s); auto. Qed.

Lemma ends_step {S A B} (m : M S A) (k : A -> M S B) s a s' R : m s = Ret a s' -> ends (k a) s' R -> ends (m ≫= k) s R.
Proof. intros E. unfold ends. by rewrite (bind_ret_run _ _ _ _ _ E). Qed.

Lemma ends_unless {S B} (p : bool) msg (k : unit -> M S B) s R : (p = false -> ends (k tt) s R) -> ends (unless_panic p msg ≫= k) s R.
Proof. destruct p; [done|]. intros H. by apply H. Qed.

Section parsing.
Context (t b : list Z) (Hb : exists junk, b = t ++ 0 :: junk) (Ht : Forall (fun c => c <> 0) t).
Local Notation es := (length t).
Local Notation at_toks := (at_toks t).
Local Notation word_at := (word_at t).

(** The command of the parser and the command with the words. *)
Fixpoint crel (c : cmd ptrs) (d : cmd (list Z)) : Prop :=
  match c, d with
  | EXEC ps, EXEC ws => Forall2 word_at ps ws
  | REDIR c p m f, REDIR d w m' f' => crel c d /\ word_at p w /\ m = m' /\ f = f'
  | PIPE c1 c2, PIPE d1 d2 | LIST c1 c2, LIST d1 d2 => crel c1 d1 /\ crel c2 d2
  | BACK c, BACK d => crel c d
  | _, _ => False
  end.

Definition rrel (r : redir) (w : wredir) : Prop :=
  word_at r.1.1 w.2 /\ match w.1 with RIn => r.1.2 = O_RDONLY /\ r.2 = 0 | _ => r.1.2 = Z.lor O_WRONLY O_CREATE /\ r.2 = 1 end.

Lemma crel_wraps rs ws c d : Forall2 rrel rs ws -> crel c d -> crel (fold_left redircmd rs c) (fold_left wrap ws d).
Proof.
  intros H. revert c d. induction H as [|r w rs ws [Hw Hr] _ IH]; intros c d Hc; [done|]. cbn [fold_left]. apply IH.
  unfold redircmd, wrap. destruct w as [[] w], r as [[p m] f]; simpl in *; destruct Hr; subst; done.
Qed.

Lemma at_toks_le s ts : at_toks s ts -> (length ts <= es)%nat.
Proof. intros [Hs <-]. pose proof (lex_length es [] (drop s t)) as H. rewrite length_drop in *. simpl in H. lia. Qed.

(** A peeked symbol is the first token. *)
Lemma starts_inv toks ts : starts toks ts = true ->
  (exists c ts', ts = TSym c :: ts' /\ c ∈ toks) \/ (exists ts', ts = TAppend :: ts' /\ 62 ∈ toks).
Proof. destruct ts as [|[] ts]; simpl; intros H; try done; apply bool_decide_eq_true in H; eauto. Qed.

Ltac sub := by repeat constructor.

Lemma parseredirs_ends n s ts : at_toks s ts -> (length ts <= n)%nat ->
  ends (parseredirs b es n) s (fun rs s' => exists ws ts', at_toks s' ts' /\ ts = rstoks ws ++ ts' /\ Forall2 rrel rs ws).
Proof.
  revert s ts. induction n as [|n IH]; intros s ts H Hn; cbn [parseredirs];
    (destruct (sh_peek_run t b Hb Ht [60; 62] s ts) as (s1 & E1 & H1); [sub|done|]; eapply ends_step; [exact E1|]).
  { destruct ts; [|simpl in Hn; lia]. exists [], []. split; [done|split; [done|constructor]]. }
  destruct (starts [60; 62] ts) eqn:Es; [|exists [], ts; split; [done|split; [done|constructor]]].
  destruct (sh_gettoken_run t b Hb Ht s1 ts H1) as (r & p & s2 & E2 & Hr & H2). eapply ends_step; [exact E2|].
  destruct (sh_gettoken_run t b Hb Ht s2 _ H2) as (r3 & p3 & s3 & E3 & Hr3 & H3). eapply ends_step; [exact E3|]. cbn [fst snd].
  apply ends_unless. intros Ew. apply negb_false_iff, Z.eqb_eq in Ew.
  assert (Hk : exists k ts', ts = (match k with RIn => TSym 60 | ROut => TSym 62 | RAppend => TAppend end) :: ts' /\
    r = match k with RIn => 60 | ROut => 62 | RAppend => tok_append end).
  { apply starts_inv in Es as [(c & ts' & -> & Hc)|(ts' & -> & _)]; simpl in Hr; [|by exists RAppend, ts'].
    destruct Hr as [-> _]. rewrite !elem_of_cons, elem_of_nil in Hc. destruct Hc as [->|[->|[]]]; [by exists RIn, ts'|by exists ROut, ts']. }
  destruct Hk as (k & ts' & -> & Ek). simpl in Hr3, H3, Hn. destruct ts' as [|[w|c|] ts']; cbn [tok_is] in Hr3; [by rewrite Hr3 in Ew| |destruct Hr3 as [-> Hr3]; by rewrite Ew in Hr3|by rewrite Hr3 in Ew].
  destruct Hr3 as [_ Hw]. simpl in H3, Hn. eapply ends_bind; [apply (IH s3 ts' H3); lia|]. intros rs s4 (ws & ts4 & H4 & -> & Hrs).
  exists ((k, w) :: ws), ts4. split; [done|]. split; [by destruct k|]. constructor; [|done]. rewrite Ek. by destruct k.
Qed.

Lemma parseargs_ends n s ts : at_toks s ts -> (1 <= n)%nat ->
  ends (parseargs b es n) s (fun r s' => exists args ts', at_toks s' ts' /\ ts = atoks args ++ ts' /\
    Forall2 word_at r.1 (map fst args) /\ Forall2 rrel r.2 (concat (map snd args)) /\ (length args < n)%nat).
Proof.
  revert s ts. induction n as [|n IH]; intros s ts H Hn; [lia|]. cbn [parseargs].
  assert (Hnil : forall s' ts', at_toks s' ts' -> exists args ts'', at_toks s' ts'' /\ ts' = atoks args ++ ts'' /\
    Forall2 word_at [] (map fst args) /\ Forall2 rrel [] (concat (map snd args)) /\ (length args < S n)%nat).
  { intros s' ts' H'. exists [], ts'. split; [done|]. split; [done|]. split; [constructor|]. split; [constructor|simpl; lia]. }
  destruct (sh_peek_run t b Hb Ht [124; 41; 38; 59] s ts) as (s1 & E1 & H1); [sub|done|]. eapply ends_step; [exact E1|].
  destruct (starts [124; 41; 38; 59] ts) eqn:Es; [by apply Hnil|].
  destruct (sh_gettoken_run t b Hb Ht s1 ts H1) as (r & p & s2 & E2 & Hr & H2). eapply ends_step; [exact E2|]. cbn [fst snd].
  destruct ts as [|[w|c|] ts]; cbn [tok_is tail] in *.
  - subst r. cbn [Z.eqb]. by apply Hnil.
  - destruct Hr as [-> Hw]. change (tok_word =? 0) with false. change (tok_word =? tok_word) with true. apply ends_unless. intros _.
    destruct n as [|n]; [done|]. eapply ends_bind; [apply (parseredirs_ends es s2 ts H2), (at_toks_le s2 ts H2)|]. intros rs s3 (ws & ts3 & H3 & -> & Hrs).
    eapply ends_bind; [apply (IH s3 ts3 H3); lia|]. intros [ps rs'] s4 (args & ts4 & H4 & -> & Hps & Hrs' & Hl). cbn [fst snd] in *.
    exists ((w, ws) :: args), ts4. split; [done|]. split; [unfold atoks; simpl; by rewrite <- app_assoc|]. split; [by constructor|].
    split; [simpl; by apply Forall2_app|simpl; lia].
  - destruct Hr as [-> Hc]. destruct (Z.eqb_spec c 0) as [->|]; [done|]. apply ends_unless. intros Ew. apply negb_false_iff, Z.eqb_eq in Ew. by rewrite Ew in Hc.
  - subst r. change (tok_append =? 0) with false. by apply ends_unless.
Qed.

Lemma parsebacks_ends n c d s ts : at_toks s ts -> (length ts <= n)%nat -> crel c d ->
  ends (parsebacks b es n c) s (fun c' s' => exists k ts', at_toks s' ts' /\ ts = replicate k (TSym 38) ++ ts' /\ crel c' (backs k d)).
Proof.
  revert c d s ts. induction n as [|n IH]; intros c d s ts H Hn Hc; cbn [parsebacks];
    (destruct (sh_peek_run t b Hb Ht [38] s ts) as (s1 & E1 & H1); [sub|done|]; eapply ends_step; [exact E1|]).
  { destruct ts; [|simpl in Hn; lia]. by exists 0%nat, []. }
  destruct (starts [38] ts) eqn:Es; [|by exists 0%nat, ts].
  destruct (sh_gettoken_run t b Hb Ht s1 ts H1) as (r & p & s2 & E2 & Hr & H2). eapply ends_step; [exact E2|].
  apply starts_inv in Es as [(c' & ts' & -> & Hc')|(ts' & -> & Hin)]; [|by apply list_elem_of_singleton in Hin].
  apply list_elem_of_singleton in Hc' as ->. simpl in H2, Hn.
  eapply ends_mono; [apply (IH (BACK c) (BACK d) s2 ts' H2); [lia|done]|]. intros c2 s3 (k & ts3 & H3 & -> & Hc2). exists (S k), ts3. done.
Qed.

(** The token that was peeked at. *)
Lemma take_token c s ts : starts [c] ts = true -> c <> 62 -> at_toks s ts ->
  exists ts' r s', ts = TSym c :: ts' /\ gettoken b es s = Ret r s' /\ at_toks s' ts'.
Proof.
  intros Es Hc H. destruct (sh_gettoken_run t b Hb Ht s ts H) as (r & p & s2 & E2 & Hr & H2).
  apply starts_inv in Es as [(c' & ts' & -> & Hc')|(ts' & -> & Hin)]; [|apply list_elem_of_singleton in Hin; congruence].
  apply list_elem_of_singleton in Hc' as ->. eexists _, _, _. done.
Qed.

Definition line_out (ts : list token) (c : cmd ptrs) (s' : nat) : Prop :=
  exists l ts', at_toks s' ts' /\ ts = ltoks l ++ ts' /\ crel c (lcmd l) /\ lfits l.
Definition pipe_out (ts : list token) (c : cmd ptrs) (s' : nat) : Prop :=
  exists p ts', at_toks s' ts' /\ ts = ptoks p ++ ts' /\ crel c (pcmd p) /\ pfits p.
Definition simple_out (ts : list token) (c : cmd ptrs) (s' : nat) : Prop :=
  exists e ts', at_toks s' ts' /\ ts = etoks e ++ ts' /\ crel c (ecmd e) /\ efits e.

Lemma parse_ends n :
  (forall s ts, at_toks s ts -> (4 * length ts + 4 <= n)%nat -> ends (parseline b es n) s (line_out ts)) /\
  (forall s ts, at_toks s ts -> (4 * length ts + 3 <= n)%nat -> ends (parsepipe b es n) s (pipe_out ts)) /\
  (forall s ts, at_toks s ts -> (4 * length ts + 2 <= n)%nat -> ends (parseexec b es n) s (simple_out ts)) /\
  (forall s ts, at_toks s ts -> (4 * length ts + 1 <= n)%nat -> starts [40] ts = true -> ends (parseblock b es n) s (simple_out ts)).
Proof.
  induction n as [|n (IHl & IHp & IHe & IHb)]; [split_and!; lia|]. split_and!; intros s ts H Hn.
  - cbn [parseline]. eapply ends_bind; [apply (IHp s ts H); lia|]. intros c1 s1 (p & ts1 & H1 & -> & Hc1 & Hf1). rewrite length_app in Hn.
    eapply ends_bind; [apply (parsebacks_ends es c1 (pcmd p) s1 ts1 H1 (at_toks_le s1 ts1 H1) Hc1)|]. intros c2 s2 (k & ts2 & H2 & -> & Hc2).
    destruct (sh_peek_run t b Hb Ht [59] s2 ts2) as (s3 & E3 & H3); [sub|done|]. eapply ends_step; [exact E3|].
    destruct (starts [59] ts2) eqn:Es; [|exists (Line p k), ts2; simpl; by rewrite <- app_assoc].
    destruct (take_token 59 s3 ts2 Es) as (ts4 & r & s4 & -> & E4 & H4); [done|done|]. eapply ends_step; [exact E4|].
    rewrite length_app in Hn. simpl in Hn. eapply ends_bind; [apply (IHl s4 ts4 H4); lia|]. intros c5 s5 (l & ts5 & H5 & -> & Hc5 & Hf5).
    exists (Seq p k l), ts5. split; [done|]. split; [simpl; by rewrite <- !app_assoc|]. by split.
  - cbn [parsepipe]. eapply ends_bind; [apply (IHe s ts H); lia|]. intros c1 s1 (e & ts1 & H1 & -> & Hc1 & Hf1). rewrite length_app in Hn.
    destruct (sh_peek_run t b Hb Ht [124] s1 ts1) as (s3 & E3 & H3); [sub|done|]. eapply ends_step; [exact E3|].
    destruct (starts [124] ts1) eqn:Es; [|by exists (Single e), ts1].
    destruct (take_token 124 s3 ts1 Es) as (ts4 & r & s4 & -> & E4 & H4); [done|done|]. eapply ends_step; [exact E4|]. simpl in Hn.
    eapply ends_bind; [apply (IHp s4 ts4 H4); lia|]. intros c5 s5 (p & ts5 & H5 & -> & Hc5 & Hf5).
    exists (Bar e p), ts5. split; [done|]. split; [simpl; by rewrite <- app_assoc|]. by split.
  - cbn [parseexec]. destruct (sh_peek_run t b Hb Ht [40] s ts) as (s1 & E1 & H1); [sub|done|]. eapply ends_step; [exact E1|].
    destruct (starts [40] ts) eqn:Es; [apply IHb; [done|lia|done]|].
    eapply ends_bind; [apply (parseredirs_ends es s1 ts H1 (at_toks_le s1 ts H1))|]. intros rs s2 (ws & ts2 & H2 & -> & Hrs).
    eapply ends_bind; [apply (parseargs_ends MAXARGS s2 ts2 H2); unfold MAXARGS; lia|]. intros [ps rs'] s3 (args & ts3 & H3 & -> & Hps & Hrs' & Hl). cbn [fst snd] in *.
    exists (Words ws args), ts3. split; [done|]. split; [simpl; by rewrite <- app_assoc|]. split; [|done]. simpl. apply crel_wraps; [by apply Forall2_app|done].
  - intros Es. cbn [parseblock]. destruct (sh_peek_run t b Hb Ht [40] s ts) as (s1 & E1 & H1); [sub|done|]. eapply ends_step; [exact E1|]. rewrite Es. apply ends_unless. intros _.
    destruct (take_token 40 s1 ts Es) as (ts2 & r & s2 & -> & E2 & H2); [done|done|]. eapply ends_step; [exact E2|]. simpl in Hn.
    eapply ends_bind; [apply (IHl s2 ts2 H2); lia|]. intros c3 s3 (l & ts3 & H3 & -> & Hc3 & Hf3).
    destruct (sh_peek_run t b Hb Ht [41] s3 ts3) as (s4 & E4 & H4); [sub|done|]. eapply ends_step; [exact E4|]. apply ends_unless. intros Ec. apply negb_false_iff in Ec.
    destruct (take_token 41 s4 ts3 Ec) as (ts5 & r' & s5 & -> & E5 & H5); [done|done|]. eapply ends_step; [exact E5|].
    eapply ends_bind; [apply (parseredirs_ends es s5 ts5 H5 (at_toks_le s5 ts5 H5))|]. intros rs s6 (ws & ts6 & H6 & -> & Hrs).
    exists (Block l ws), ts6. split; [done|]. split; [simpl; by rewrite <- app_assoc|]. split; [by apply crel_wraps|done].
Qed.

(** ** Completeness *)

(** What can follow a part of the line. *)
Definition follows (toks : list Z) (ts : list token) : Prop := ts = [] \/ starts toks ts = true.

Lemma follows_not toks toks' ts : follows toks ts -> 62 ∉ toks -> (forall c, c ∈ toks -> c ∉ toks') -> starts toks' ts = false.
Proof.
  intros [->|Hs] Hgt Hd; [done|]. apply starts_inv in Hs as [(c & ts' & -> & Hc)|(ts' & _ & ?)]; [|done].
  simpl. apply bool_decide_eq_false_2. by apply Hd.
Qed.

Lemma follows_mono toks toks' ts : follows toks ts -> (forall c, c ∈ toks -> c ∈ toks') -> follows toks' ts.
Proof.
  intros [->|Hs] Hsub; [by left|]. right. apply starts_inv in Hs as [(c & ts' & -> & Hc)|(ts' & -> & Hc)]; simpl; apply bool_decide_eq_true_2; by apply Hsub.
Qed.

Lemma parseredirs_complete n s ws rest :
  at_toks s (rstoks ws ++ rest) -> starts [60; 62] rest = false -> (length ws <= n)%nat ->
  exists rs s', parseredirs b es n s = Ret rs s' /\ at_toks s' rest /\ Forall2 rrel rs ws.
Proof.
  intros H Hr. revert n s H. induction ws as [|[k w] ws IH]; intros n s H Hn.
  - destruct (sh_peek_run t b Hb Ht [60; 62] s rest) as (s1 & E1 & H1); [sub|done|]. rewrite Hr in E1.
    exists [], s1. split; [|by split]. destruct n; cbn [parseredirs]; by mstep E1.
  - destruct n as [|n]; [simpl in Hn; lia|]. cbn [parseredirs]. destruct (sh_peek_run t b Hb Ht [60; 62] s _ ltac:(sub) H) as (s1 & E1 & H1).
    match type of E1 with _ = Ret ?x _ => assert (Es : x = true) by by destruct k end. rewrite Es in E1. mstep E1.
    destruct (sh_gettoken_run t b Hb Ht s1 _ H1) as (r & p & s2 & E2 & Hr2 & H2). mstep E2.
    assert (H2' : at_toks s2 (TWord w :: rstoks ws ++ rest)) by by destruct k. clear H2.
    destruct (sh_gettoken_run t b Hb Ht s2 _ H2') as (r3 & p3 & s3 & E3 & Hr3 & H3). mstep E3. destruct Hr3 as [-> Hw]. cbn [fst snd].
    change (tok_word =? tok_word) with true. cbn [negb]. rewrite bind_unless_false.
    destruct (IH n s3 H3) as (rs & s4 & E4 & H4 & Hrs); [simpl in Hn; lia|]. mstep E4. eexists _, s4. split; [done|]. split; [done|]. constructor; [|done].
    destruct k; simpl in Hr2; [destruct Hr2 as [-> _]|destruct Hr2 as [-> _]|subst r]; done.
Qed.

Lemma parseargs_complete n s args rest :
  at_toks s (atoks args ++ rest) -> follows [124; 41; 38; 59] rest -> (length args < n)%nat ->
  exists r s', parseargs b es n s = Ret r s' /\ at_toks s' rest /\ Forall2 word_at r.1 (map fst args) /\ Forall2 rrel r.2 (concat (map snd args)).
Proof.
  intros H Hf. revert n s H. induction args as [|[w ws] args IH]; intros n s H Hn.
  - destruct (sh_peek_run t b Hb Ht [124; 41; 38; 59] s rest) as (s1 & E1 & H1); [sub|done|].
    assert (Hex : exists s', parseargs b es n s = Ret ([], []) s' /\ at_toks s' rest).
    { destruct Hf as [->|Hs].
      - destruct (sh_gettoken_run t b Hb Ht s1 _ H1) as (r & p & s2 & E2 & Hr2 & H2). simpl in Hr2. subst r. exists s2. split; [|done].
        destruct n; cbn [parseargs]; mstep E1; cbn [starts]; by mstep E2.
      - exists s1. split; [|done]. rewrite Hs in E1. destruct n; cbn [parseargs]; by mstep E1. }
    destruct Hex as (s' & E & H'). exists ([], []), s'. split; [done|]. split; [done|]. by split.
  - destruct n as [|n]; [lia|]. cbn [parseargs]. destruct (sh_peek_run t b Hb Ht [124; 41; 38; 59] s _ ltac:(sub) H) as (s1 & E1 & H1). mstep E1. cbn [atoks map concat app starts].
    destruct (sh_gettoken_run t b Hb Ht s1 _ H1) as (r & p & s2 & E2 & [-> Hw] & H2). mstep E2. cbn [fst snd].
    change (tok_word =? 0) with false. change (tok_word =? tok_word) with true. cbn [negb]. rewrite bind_unless_false. destruct n as [|n]; [simpl in Hn; lia|].
    cbn [tail atoks map concat app fst snd] in H2. rewrite <- app_assoc in H2.
    assert (Hst : starts [60; 62] (atoks args ++ rest) = false).
    { destruct args as [|[w' ws'] args]; [|done]. eapply follows_not; [exact Hf|..]; [|intros c]; rewrite !elem_of_cons, !elem_of_nil; lia. }
    destruct (parseredirs_complete es s2 ws (atoks args ++ rest) H2 Hst) as (rs & s3 & E3 & H3 & Hrs).
    { pose proof (at_toks_le _ _ H2) as Hle. rewrite length_app in Hle. assert (length ws <= length (rstoks ws))%nat; [|lia].
      clear. unfold rstoks. induction ws as [|r ws IH]; simpl; lia. }
    mstep E3. destruct (IH (S n) s3 H3) as ([ps rs'] & s4 & E4 & H4 & Hps & Hrs'); [simpl in Hn; lia|]. mstep E4. cbn [fst snd] in *.
    eexists _, s4. split; [done|]. split; [done|]. split; [by constructor|]. simpl. by apply Forall2_app.
Qed.

Lemma parsebacks_complete n c d k s rest :
  at_toks s (replicate k (TSym 38) ++ rest) -> starts [38] rest = false -> (k <= n)%nat -> crel c d ->
  exists c' s', parsebacks b es n c s = Ret c' s' /\ at_toks s' rest /\ crel c' (backs k d).
Proof.
  intros H Hr. revert n c d s H. induction k as [|k IH]; intros n c d s H Hn Hc.
  - destruct (sh_peek_run t b Hb Ht [38] s rest) as (s1 & E1 & H1); [sub|done|]. rewrite Hr in E1. exists c, s1. split; [|done]. destruct n; cbn [parsebacks]; by mstep E1.
  - destruct n as [|n]; [lia|]. cbn [parsebacks]. destruct (sh_peek_run t b Hb Ht [38] s _ ltac:(sub) H) as (s1 & E1 & H1).
    match type of E1 with _ = Ret ?x _ => assert (Es : x = true) by done end. rewrite Es in E1. mstep E1.
    destruct (sh_gettoken_run t b Hb Ht s1 _ H1) as (r & p & s2 & E2 & _ & H2). mstep E2. apply (IH n (BACK c) (BACK d)); [done|lia|done].
Qed.

Scheme line_mut := Induction for line Sort Prop with pipeline_mut := Induction for pipeline Sort Prop with simple_mut := Induction for simple Sort Prop.
Combined Scheme grammar_mut from line_mut, pipeline_mut, simple_mut.

Lemma rstoks_length ws : (length ws <= length (rstoks ws))%nat.
Proof. unfold rstoks. induction ws as [|r ws IH]; simpl; lia. Qed.

Lemma backs_follow k rest : starts [59] rest = true \/ follows [41] rest -> follows [41; 38; 59] (replicate k (TSym 38) ++ rest).
Proof.
  destruct k; [|by right]. simpl. intros [Hs|Hf]; [right|by eapply follows_mono; [done|]; intros c; rewrite !elem_of_cons, !elem_of_nil; tauto].
  apply starts_inv in Hs as [(c & ts' & -> & Hc)|(ts' & -> & Hc)]; apply list_elem_of_singleton in Hc; [by subst|done].
Qed.

Lemma backs_le k rest s : at_toks s (replicate k (TSym 38) ++ rest) -> (k <= es)%nat.
Proof. intros H. apply at_toks_le in H. rewrite length_app, length_replicate in H. lia. Qed.

(** [peek] and then [gettoken] of a symbol that is there. *)
Lemma peek_take c s ts : at_toks s (TSym c :: ts) -> is_symbol c = true -> c <> 62 ->
  exists s1 r s2, peek b es [c] s = Ret true s1 /\ gettoken b es s1 = Ret r s2 /\ at_toks s2 ts.
Proof.
  intros H Hc Hne. destruct (sh_peek_run t b Hb Ht [c] s _ ltac:(by repeat constructor) H) as (s1 & E1 & H1).
  assert (Es : starts [c] (TSym c :: ts) = true) by (apply bool_decide_eq_true_2; left). rewrite Es in E1.
  destruct (take_token c s1 _ Es Hne H1) as (ts' & r & s2 & [= <-] & E2 & H2). by exists s1, r, s2.
Qed.

(** A word that is not there: the sets of symbols in the grammar are disjoint. *)
Ltac apart H := eapply follows_not; [exact H|..]; [|intros ?c]; rewrite !elem_of_cons, !elem_of_nil; lia.

Lemma parse_complete :
  (forall l n s rest, at_toks s (ltoks l ++ rest) -> follows [41] rest -> lfits l -> (4 * length (ltoks l ++ rest) + 4 <= n)%nat ->
     exists c s', parseline b es n s = Ret c s' /\ at_toks s' rest /\ crel c (lcmd l)) /\
  (forall p n s rest, at_toks s (ptoks p ++ rest) -> follows [41; 38; 59] rest -> pfits p -> (4 * length (ptoks p ++ rest) + 3 <= n)%nat ->
     exists c s', parsepipe b es n s = Ret c s' /\ at_toks s' rest /\ crel c (pcmd p)) /\
  (forall e n s rest, at_toks s (etoks e ++ rest) -> follows [124; 41; 38; 59] rest -> efits e -> (4 * length (etoks e ++ rest) + 2 <= n)%nat ->
     exists c s', parseexec b es n s = Ret c s' /\ at_toks s' rest /\ crel c (ecmd e)).
Proof.
  apply grammar_mut.
  - intros p IH k n s rest H Hf Hw Hn. simpl in *. rewrite <- app_assoc in *. destruct n as [|n]; [lia|]. cbn [parseline].
    destruct (IH n s _ H) as (c1 & s1 & E1 & H1 & Hc1); [apply backs_follow; by right|done|lia|]. mstep E1.
    destruct (parsebacks_complete es c1 (pcmd p) k s1 rest H1) as (c2 & s2 & E2 & H2 & Hc2); [apart Hf|by apply (backs_le k rest s1)|done|]. mstep E2.
    destruct (sh_peek_run t b Hb Ht [59] s2 rest ltac:(sub) H2) as (s3 & E3 & H3). assert (Es : starts [59] rest = false) by apart Hf. rewrite Es in E3. mstep E3.
    by exists c2, s3.
  - intros p IH k l IHl n s rest H Hf [Hw Hwl] Hn. simpl in *. rewrite <- !app_assoc in *. simpl in H, Hn. destruct n as [|n]; [lia|]. cbn [parseline].
    destruct (IH n s _ H) as (c1 & s1 & E1 & H1 & Hc1); [apply backs_follow; by left|done|lia|]. mstep E1.
    destruct (parsebacks_complete es c1 (pcmd p) k s1 _ H1) as (c2 & s2 & E2 & H2 & Hc2); [done|by eapply (backs_le k)|done|]. mstep E2.
    destruct (peek_take 59 s2 _ H2) as (s3 & r & s4 & E3 & E4 & H4); [done|done|]. mstep E3. mstep E4.
    destruct (IHl n s4 rest H4) as (c5 & s5 & E5 & H5 & Hc5); [done|done|rewrite !length_app in *; simpl in Hn; rewrite length_app in Hn; lia|]. mstep E5.
    by exists (LIST c2 c5), s5.
  - intros e IH n s rest H Hf Hw Hn. simpl in *. destruct n as [|n]; [lia|]. cbn [parsepipe].
    assert (Hfe : follows [124; 41; 38; 59] rest) by (eapply follows_mono; [done|]; intros c; rewrite !elem_of_cons; tauto).
    destruct (IH n s _ H) as (c1 & s1 & E1 & H1 & Hc1); [done|done|lia|]. mstep E1.
    destruct (sh_peek_run t b Hb Ht [124] s1 rest ltac:(sub) H1) as (s3 & E3 & H3). assert (Es : starts [124] rest = false) by apart Hf. rewrite Es in E3. mstep E3.
    by exists c1, s3.
  - intros e IH p IHp n s rest H Hf [Hw Hwp] Hn. simpl in *. rewrite <- !app_assoc in *. simpl in H, Hn. destruct n as [|n]; [lia|]. cbn [parsepipe].
    destruct (IH n s _ H) as (c1 & s1 & E1 & H1 & Hc1); [by right|done|lia|]. mstep E1.
    destruct (peek_take 124 s1 _ H1) as (s3 & r & s4 & E3 & E4 & H4); [done|done|]. mstep E3. mstep E4.
    destruct (IHp n s4 rest H4) as (c5 & s5 & E5 & H5 & Hc5); [done|done|rewrite !length_app in *; simpl in Hn; rewrite length_app in Hn; lia|]. mstep E5.
    by exists (PIPE c1 c5), s5.
  - intros rs args n s rest H Hf Hw Hn. simpl in *. rewrite <- app_assoc in *. destruct n as [|n]; [lia|]. cbn [parseexec].
    destruct (sh_peek_run t b Hb Ht [40] s _ ltac:(sub) H) as (s1 & E1 & H1).
    match type of E1 with _ = Ret ?x _ => assert (Es : x = false) end.
    { destruct rs as [|[[] w] rs]; [|done..]. destruct args as [|[w ws] args]; [simpl|done]. apart Hf. }
    rewrite Es in E1. mstep E1.
    destruct (parseredirs_complete es s1 rs _ H1) as (ps & s2 & E2 & H2 & Hrs).
    { destruct args as [|[w ws] args]; [simpl|done]. apart Hf. }
    { apply at_toks_le in H1. rewrite length_app in H1. pose proof (rstoks_length rs). lia. }
    mstep E2. destruct (parseargs_complete MAXARGS s2 args rest H2 Hf Hw) as ([qs rs'] & s3 & E3 & H3 & Hps & Hrs'). mstep E3. cbn [fst snd] in *.
    eexists _, s3. split; [done|]. split; [done|]. apply crel_wraps; [by apply Forall2_app|done].
  - intros l IH rs n s rest H Hf Hw Hn. simpl in *. rewrite <- !app_assoc in *. simpl in H, Hn. destruct n as [|n]; [lia|]. cbn [parseexec].
    destruct (sh_peek_run t b Hb Ht [40] s _ ltac:(sub) H) as (s1 & E1 & H1). match type of E1 with _ = Ret ?x _ => assert (Es : x = true) by done end. rewrite Es in E1. mstep E1.
    destruct n as [|n]; [lia|]. cbn [parseblock]. destruct (peek_take 40 s1 _ H1) as (s2 & r & s3 & E2 & E3 & H3); [done|done|]. mstep E2. cbn [negb]. rewrite bind_unless_false. mstep E3.
    destruct (IH n s3 _ H3) as (c4 & s4 & E4 & H4 & Hc4); [by right|done|rewrite !length_app in *; simpl in *; rewrite length_app in *; lia|]. mstep E4.
    destruct (peek_take 41 s4 _ H4) as (s5 & r' & s6 & E5 & E6 & H6); [done|done|]. mstep E5. cbn [negb]. rewrite bind_unless_false. mstep E6.
    destruct (parseredirs_complete es s6 rs _ H6) as (ps & s7 & E7 & H7 & Hrs); [apart Hf| |].
    { apply at_toks_le in H6. rewrite length_app in H6. pose proof (rstoks_length rs). lia. }
    mstep E7. eexists _, s7. split; [done|]. split; [done|]. by apply crel_wraps.
Qed.

(** ** The strings *)

(** The bytes of the words are still there. *)
Definition words_kept (b1 : list Z) : Prop := length b1 = length b /\ forall i c, t !! i = Some c -> is_word c = true -> b1 !! i = Some c.

Fixpoint ended (b1 : list Z) (c : cmd ptrs) : Prop :=
  match c with
  | EXEC ps => Forall (fun p => b1 !! p.2 = Some 0) ps
  | REDIR c p _ _ => ended b1 c /\ b1 !! p.2 = Some 0
  | PIPE c1 c2 | LIST c1 c2 => ended b1 c1 /\ ended b1 c2
  | BACK c => ended b1 c
  end.

Definition keeps_nul (b1 b2 : list Z) : Prop := forall e, b1 !! e = Some 0 -> b2 !! e = Some 0.

Lemma ended_mono b1 b2 c : keeps_nul b1 b2 -> ended b1 c -> ended b2 c.
Proof. intros Hk. induction c; simpl; [|intuition..]. intros H. eapply Forall_impl; [exact H|]. auto. Qed.

Lemma terminate_run p w b1 : word_at p w -> words_kept b1 ->
  exists b2, terminate p.2 b1 = Ret tt b2 /\ words_kept b2 /\ keeps_nul b1 b2 /\ b2 !! p.2 = Some 0.
Proof.
  intros [_ [He _] _ Hs] [Hl Hw]. destruct Hb as [junk Eb]. assert (Hlt : (p.2 < length b1)%nat) by (rewrite Hl, Eb, length_app; simpl; lia).
  exists (<[p.2 := 0]> b1). unfold terminate. rewrite bind_get, zset_Some, bind_some by lia. rewrite Nat2Z.id. split; [done|]. split; [|split].
  - split; [by rewrite length_insert|]. intros i c Hc Hword. rewrite list_lookup_insert_ne; [by apply Hw|]. intros <-. specialize (Hs c Hc). congruence.
  - intros e Hz. destruct (decide (p.2 = e)) as [<-|]; [by apply list_lookup_insert_eq|by rewrite list_lookup_insert_ne].
  - by apply list_lookup_insert_eq.
Qed.

Lemma nulterminate_run c d b1 : crel c d -> words_kept b1 ->
  exists b2, nulterminate c b1 = Ret tt b2 /\ words_kept b2 /\ keeps_nul b1 b2 /\ ended b2 c.
Proof.
  revert d b1. induction c as [ps|c IH p m f|c1 IH1 c2 IH2|c1 IH1 c2 IH2|c IH]; intros [ws|d p' m' f'|d1 d2|d1 d2|d] b1 Hc Hk; try done; simpl in Hc.
  - cbn [nulterminate]. revert b1 Hk. induction Hc as [|p w ps ws Hp _ IHps]; intros b1 Hk.
    { exists b1. split; [done|]. split; [done|]. split; [by intros e|constructor]. }
    cbn [each].
    destruct (terminate_run p w b1 Hp Hk) as (b2 & E2 & K2 & N2 & Z2). mstep E2. destruct (IHps b2 K2) as (b3 & E3 & K3 & N3 & Z3). exists b3. split; [done|]. split; [done|].
    split; [intros e He; by apply N3, N2|]. constructor; [by apply N3|done].
  - destruct Hc as (Hc & Hp & _). cbn [nulterminate]. destruct (IH d b1 Hc Hk) as (b2 & E2 & K2 & N2 & Z2). mstep E2.
    destruct (terminate_run p p' b2 Hp K2) as (b3 & E3 & K3 & N3 & Z3). exists b3. split; [done|]. split; [done|]. split; [intros e He; by apply N3, N2|].
    split; [by eapply ended_mono|done].
  - destruct Hc as [H1 H2]. cbn [nulterminate]. destruct (IH1 d1 b1 H1 Hk) as (b2 & E2 & K2 & N2 & Z2). mstep E2. destruct (IH2 d2 b2 H2 K2) as (b3 & E3 & K3 & N3 & Z3).
    exists b3. split; [done|]. split; [done|]. split; [intros e He; by apply N3, N2|]. split; [by eapply ended_mono|done].
  - destruct Hc as [H1 H2]. cbn [nulterminate]. destruct (IH1 d1 b1 H1 Hk) as (b2 & E2 & K2 & N2 & Z2). mstep E2. destruct (IH2 d2 b2 H2 K2) as (b3 & E3 & K3 & N3 & Z3).
    exists b3. split; [done|]. split; [done|]. split; [intros e He; by apply N3, N2|]. split; [by eapply ended_mono|done].
  - by apply (IH d b1).
Qed.
End parsing.

(** The C string at a pointer, and the command that [runcmd] sees. *)
Definition cstring (b : list Z) (q : nat) : list Z := take (span (fun c => negb (c =? 0)) (drop q b)) (drop q b).

Fixpoint resolve (b : list Z) (c : cmd ptrs) : cmd (list Z) :=
  match c with
  | EXEC ps => EXEC ((fun p => cstring b p.1) <$> ps)
  | REDIR c p m f => REDIR (resolve b c) (cstring b p.1) m f
  | PIPE c1 c2 => PIPE (resolve b c1) (resolve b c2)
  | LIST c1 c2 => LIST (resolve b c1) (resolve b c2)
  | BACK c => BACK (resolve b c)
  end.

Lemma span_app test l c r : Forall (fun x => test x = true) l -> test c = false -> span test (l ++ c :: r) = length l.
Proof. intros H Hc. induction H as [|x l Hx _ IH]; simpl; [by rewrite Hc|]. by rewrite Hx, IH. Qed.

Lemma word_string t b b1 p w :
  word_at t p w -> words_kept t b b1 -> b1 !! p.2 = Some 0 -> Forall (fun c => c <> 0) t -> cstring b1 p.1 = w.
Proof.
  intros [Hx [He Hp] Hw _] [_ Hk] Hz Ht. assert (Hsub : forall i c, w !! i = Some c -> t !! (p.1 + i)%nat = Some c /\ b1 !! (p.1 + i)%nat = Some c).
  { intros i c Hc. assert (E : t !! (p.1 + i)%nat = Some c) by (rewrite <- lookup_drop, Hx; by apply lookup_app_l_Some). split; [done|].
    apply Hk; [done|]. rewrite Forall_lookup in Hw. by apply (Hw i). }
  assert (E : drop p.1 b1 = w ++ 0 :: drop (S p.2) b1).
  { rewrite <- (drop_S _ _ _ Hz), Hp. apply list_eq. intros i. destruct (decide (i < length w)%nat) as [Hi|Hi].
    - destruct (lookup_lt_is_Some_2 w i Hi) as [c Hc]. rewrite lookup_drop, (lookup_app_l_Some _ _ _ _ Hc). by apply Hsub.
    - rewrite lookup_app_r, !lookup_drop by lia. f_equal. lia. }
  unfold cstring. rewrite E, (span_app _ w 0); [by apply take_app_length| |done]. apply Forall_lookup. intros i c Hc.
  destruct (Hsub i c Hc) as [Hc' _]. rewrite Forall_lookup in Ht. apply Ht in Hc'. destruct (Z.eqb_spec c 0); done.
Qed.

Lemma resolve_run t b b1 c d : crel t c d -> words_kept t b b1 -> ended b1 c -> Forall (fun c => c <> 0) t -> resolve b1 c = d.
Proof.
  intros Hc Hk He Ht. revert d Hc He. induction c as [ps|c IH p m f|c1 IH1 c2 IH2|c1 IH1 c2 IH2|c IH]; intros [ws|d p' m' f'|d1 d2|d1 d2|d] Hc He; try done; simpl in *.
  - f_equal. induction Hc as [|p w ps ws Hp _ IH]; [done|]. apply Forall_cons in He as [Hz He]. cbn. f_equal; [by eapply word_string|by apply IH].
  - destruct Hc as (Hc & Hp & -> & ->), He as [He Hz]. f_equal; [by apply IH|by eapply word_string].
  - destruct Hc as [H1 H2], He as [E1 E2]. f_equal; [by apply IH1|by apply IH2].
  - destruct Hc as [H1 H2], He as [E1 E2]. f_equal; [by apply IH1|by apply IH2].
  - f_equal. by apply IH.
Qed.

(** ** The parser *)

Lemma strlen_split b es : find_first (fun c => c =? 0) b = Some es ->
  exists junk, b = take es b ++ 0 :: junk /\ Forall (fun c => c <> 0) (take es b) /\ length (take es b) = es.
Proof.
  intros H. pose proof (find_first_lt _ _ _ H) as Hlt. apply find_first_Some in H as [(x & Hx & Ex) Hmin]. apply Z.eqb_eq in Ex as ->.
  exists (drop (S es) b). split; [by rewrite <- (drop_S _ _ _ Hx), take_drop|]. split; [|rewrite length_take; lia].
  apply Forall_lookup. intros i c Hc. apply lookup_take_Some in Hc as [Hc Hi]. specialize (Hmin i c Hi Hc). by apply Z.eqb_neq.
Qed.

Lemma parsewhole_ends t b :
  (exists junk, b = t ++ 0 :: junk) -> Forall (fun c => c <> 0) t ->
  ends (parsewhole b (length t)) 0%nat (fun c _ => exists l, lex [] t = ltoks l /\ crel t c (lcmd l) /\ lfits l).
Proof.
  intros Hb Ht. assert (H0 : at_toks t 0 (lex [] t)) by (split; [lia|done]). pose proof (at_toks_le t 0 _ H0) as Hle.
  unfold parsewhole. eapply ends_bind; [apply (proj1 (parse_ends t b Hb Ht (4 * length t + 4)) 0%nat _ H0); lia|].
  intros c s (l & ts & H & E & Hc & Hf). destruct (sh_peek_run t b Hb Ht [] s ts (Forall_nil_2 _) H) as (s1 & E1 & H1). eapply ends_step; [exact E1|].
  eapply ends_step; [done|]. apply ends_unless. intros Es. apply negb_false_iff, Nat.eqb_eq in Es. subst s1. exists l. split; [|done].
  rewrite E. destruct H1 as [_ <-]. by rewrite drop_all, app_nil_r.
Qed.

Lemma parsewhole_complete t b l :
  (exists junk, b = t ++ 0 :: junk) -> Forall (fun c => c <> 0) t -> lex [] t = ltoks l -> lfits l ->
  exists c, parsewhole b (length t) 0%nat = Ret c (length t) /\ crel t c (lcmd l).
Proof.
  intros Hb Ht E Hf. assert (H0 : at_toks t 0 (ltoks l ++ [])) by (split; [lia|by rewrite app_nil_r]). pose proof (at_toks_le t 0 _ H0) as Hle.
  destruct (proj1 (parse_complete t b Hb Ht) l (4 * length t + 4)%nat 0%nat [] H0) as (c & s & E1 & H1 & Hc); [by left|done|lia|].
  unfold parsewhole. mstep E1. mstep (sh_peek_end t b Hb Ht [] s H1). rewrite bind_get, Nat.eqb_refl. cbn [negb]. rewrite bind_unless_false. by exists c.
Qed.

Lemma parsed_tree b es c b' :
  find_first (fun c => c =? 0) b = Some es -> parsecmd b = Ret c b' ->
  exists l, lfits l /\ lex [] (take es b) = ltoks l /\ resolve b' c = lcmd l.
Proof.
  intros Hes. destruct (strlen_split b es Hes) as (junk & Eb & Ht & Hlen). set (t := take es b) in *. assert (Hb : exists junk, b = t ++ 0 :: junk) by by exists junk.
  unfold parsecmd. rewrite bind_get, Hes, bind_some. pose proof (parsewhole_ends t b Hb Ht) as Hend. rewrite Hlen in Hend. unfold ends in Hend.
  rewrite bind_run. unfold zoom at 1. destruct (parsewhole b es 0%nat) as [c1 s|msg|why|w s] eqn:E; try done.
  destruct Hend as (l & El & Hc & Hf). assert (Hk : words_kept t b b) by (split; [done|]; intros i x Hx _; by apply (byte_in t b Hb)).
  destruct (nulterminate_run t b Hb c1 (lcmd l) b Hc Hk) as (b2 & E2 & K2 & _ & Z2). mstep E2. intros [= <- <-]. exists l. split; [done|]. split; [done|]. by eapply resolve_run.
Qed.

(** [parsecmd] ends, and panics only on a line that is not in the grammar. *)
Lemma parsecmd_ends b es :
  find_first (fun c => c =? 0) b = Some es ->
  match parsecmd b with Ret _ _ => True | Panic _ => ~ exists l, lfits l /\ lex [] (take es b) = ltoks l | _ => False end.
Proof.
  intros Hes. destruct (strlen_split b es Hes) as (junk & Eb & Ht & Hlen). set (t := take es b) in *. assert (Hb : exists junk, b = t ++ 0 :: junk) by by exists junk.
  unfold parsecmd. rewrite bind_get, Hes, bind_some. pose proof (parsewhole_ends t b Hb Ht) as Hend. rewrite Hlen in Hend. unfold ends in Hend.
  rewrite bind_run. unfold zoom at 1. destruct (parsewhole b es 0%nat) as [c s|msg|why|w s] eqn:E; try done.
  - destruct Hend as (l & El & Hc & Hf). assert (Hk : words_kept t b b) by (split; [done|]; intros i x Hx _; by apply (byte_in t b Hb)).
    destruct (nulterminate_run t b Hb c (lcmd l) b Hc Hk) as (b2 & E2 & _). by mstep E2.
  - intros (l & Hf & El). destruct (parsewhole_complete t b l Hb Ht El Hf) as (c & Ec & _). rewrite Hlen in Ec. congruence.
Qed.

(** C12. The parser of the shell.  On a command line, which ends in a NUL,
    [parsecmd] terminates; it returns exactly when the tokens of the line are
    those of a tree of the grammar in which no command has [MAXARGS] words or
    more, and otherwise panics.  The command it returns, with its strings read
    from the buffer that [nulterminate] has changed, is the command of the
    tree. *)
Theorem parsecmd_spec b es :
  find_first (fun c => c =? 0) b = Some es ->
  match parsecmd b with
  | Ret c b' => exists l, lfits l /\ lex [] (take es b) = ltoks l /\ resolve b' c = lcmd l
  | Panic _ => ~ exists l, lfits l /\ lex [] (take es b) = ltoks l
  | _ => False
  end.
Proof.
  intros Hes. pose proof (parsecmd_ends b es Hes) as H. destruct (parsecmd b) as [c b'| | |] eqn:E; try done. by apply (parsed_tree b es c b').
Qed.

(** [ls -l | wc > f ; (cat < g) &] *)
Definition line0 : list Z := [108; 115; 32; 45; 108; 32; 124; 32; 119; 99; 62; 32; 102; 59; 40; 99; 97; 116; 60; 103; 41; 38; 10; 0].

Definition cmd0 : cmd (list Z) :=
  LIST (PIPE (EXEC [[108; 115]; [45; 108]]) (REDIR (EXEC [[119; 99]]) [102] 513 1)) (BACK (REDIR (EXEC [[99; 97; 116]]) [103] 0 0)).

Lemma parsecmd_spec_witness :
  match parsecmd line0 with
  | Ret c b' => resolve b' c = cmd0
  | _ => False
  end /\ find_first (fun c => c =? 0) line0 = Some 23%nat.
Proof.
  assert (E : find_first (fun c => c =? 0) line0 = Some 23%nat) by reflexivity. split; [|exact E].
  pose proof (parsecmd_spec line0 23 E) as H.
  assert (Er : match parsecmd line0 with Ret c b' => Some (resolve b' c) | _ => None end = Some cmd0) by (vm_compute; reflexivity).
  revert H Er. destruct (parsecmd line0) as [c b'| | |]; intros H Er; [|discriminate Er..]. injection Er as Er. exact Er.
Defined.

(** ** Descriptors

    What a descriptor refers to; a pipe is named by the process that made it, a
    process by the forks that led to it. *)

Inductive desc := Dfile (path : list Z) (mode : Z) | Dread (p : list bool) | Dwrite (p : list bool) | Dother (n : nat).

Notation fdtable := (list (option desc)).

Definition is_free (o : option desc) : bool := match o with None => true | Some _ => false end.

(** The system calls: a new descriptor is the lowest free one. *)
Definition fd_close (fd : Z) (tb : fdtable) : fdtable := <[Z.to_nat fd := None]> tb.
Definition fd_new (d : desc) (tb : fdtable) : Z * fdtable :=
  match find_first is_free tb with Some i => (Z.of_nat i, <[i := Some d]> tb) | None => (-1, tb) end.
Definition fd_dup (fd : Z) (tb : fdtable) : Z * fdtable :=
  match tb !! Z.to_nat fd with Some (Some d) => fd_new d tb | _ => (-1, tb) end.
Definition fd_pipe (who : list bool) (tb : fdtable) : option (Z * Z * fdtable) :=
  let '(r, tb1) := fd_new (Dread who) tb in
  let '(w, tb2) := fd_new (Dwrite who) tb1 in
  if (r <? 0) || (w <? 0) then None else Some (r, w, tb2).

(** The programs that the process [who] and its children execute, each with its
    descriptors, when no other call fails. *)
Fixpoint execs (p : prog) (who : list bool) (tb : fdtable) : list (list (list Z) * fdtable) :=
  match p with
  | Sexit => []
  | Do (Sexec _ argv) _ => [(argv, tb)]
  | Do (Sclose fd) k => execs (k 0) who (fd_close fd tb)
  | Do (Sopen path mode) k => let r := fd_new (Dfile path mode) tb in execs (k r.1) who r.2
  | Do (Sdup fd) k => let r := fd_dup fd tb in execs (k r.1) who r.2
  | Do Sfork k => execs (k 0) (who ++ [false]) tb ++ execs (k 1) (who ++ [true]) tb
  | Do Swait k | Do (Sprint _ _) k => execs (k 0) who tb
  | DoPipe k => match fd_pipe who tb with Some (r, w, tb') => execs (k 0 r w) who tb' | None => execs (k (-1) 0 0) who tb end
  end.

(** What a command is to do: a redirection replaces a descriptor, and the two
    sides of a pipeline differ from the shell in one descriptor each. *)
Fixpoint wiring (c : cmd (list Z)) (who : list bool) (tb : fdtable) : list (list (list Z) * fdtable) :=
  match c with
  | EXEC [] => []
  | EXEC argv => [(argv, tb)]
  | REDIR c file mode fd => wiring c who (<[Z.to_nat fd := Some (Dfile file mode)]> tb)
  | LIST l r => wiring l (who ++ [false]) tb ++ wiring r (who ++ [true]) tb
  | PIPE l r =>
      wiring l (who ++ [false]) (<[1%nat := Some (Dwrite who)]> tb) ++
      wiring r (who ++ [true; false]) (<[0%nat := Some (Dread who)]> tb)
  | BACK c => wiring c (who ++ [false]) tb
  end.

(** The redirections are of the standard descriptors, as the parser's are. *)
Fixpoint std (c : cmd (list Z)) : Prop :=
  match c with
  | EXEC _ => True
  | REDIR c _ _ fd => std c /\ (fd = 0 \/ fd = 1)
  | PIPE l r | LIST l r => std l /\ std r
  | BACK c => std c
  end.

(** Descriptors 0 to 2 are open, and [i] and [j] are the first two free ones. *)
Record fd_ok (tb : fdtable) (i j : nat) : Prop := {
  fo_std : forall k, (k < 3)%nat -> exists d, tb !! k = Some (Some d);
  fo_i : tb !! i = Some None;
  fo_j : tb !! j = Some None;
  fo_ij : (i < j)%nat;
  fo_first : forall k, (k < j)%nat -> k <> i -> exists d, tb !! k = Some (Some d) }.

Lemma find_free tb i : tb !! i = Some None -> (forall k, (k < i)%nat -> exists d, tb !! k = Some (Some d)) -> find_first is_free tb = Some i.
Proof.
  intros Hi Hlt. apply find_first_Some. split; [by exists None|]. intros k o Hk Ho. destruct (Hlt k Hk) as [d Hd]. rewrite Hd in Ho. by injection Ho as <-.
Qed.

Lemma fd_ok_insert tb i j k d : fd_ok tb i j -> (k < 3)%nat -> fd_ok (<[k := Some d]> tb) i j.
Proof.
  intros [A1 A2 A3 A4 A5] Hk. assert (Hi : i <> k) by (intros ->; destruct (A1 k Hk); congruence). assert (Hj : j <> k) by (intros ->; destruct (A1 k Hk); congruence).
  assert (Hlk : forall k', (exists d', tb !! k' = Some (Some d')) -> exists d', <[k := Some d]> tb !! k' = Some (Some d')).
  { intros k' [d' Hd]. destruct (decide (k = k')) as [<-|]; [exists d; apply list_lookup_insert_eq; by eapply lookup_lt_Some|].
    exists d'. by rewrite list_lookup_insert_ne. }
  split; try done; [intros k' Hk'; by apply Hlk, A1|by rewrite list_lookup_insert_ne|by rewrite list_lookup_insert_ne|].
  intros k' Hk' Hne. by apply Hlk, A5.
Qed.

(** Closing a standard descriptor and opening something in its place. *)
Lemma close_new tb i j k d : fd_ok tb i j -> (k < 2)%nat ->
  fd_new d (<[k := None]> tb) = (Z.of_nat k, <[k := Some d]> tb).
Proof.
  intros H Hk. pose proof (fo_std _ _ _ H) as Hs. destruct (Hs k ltac:(lia)) as [d0 Hd0]. unfold fd_new. rewrite (find_free _ k).
  - by rewrite list_insert_insert_eq.
  - apply list_lookup_insert_eq. by eapply lookup_lt_Some.
  - intros k' Hk'. rewrite list_lookup_insert_ne by lia. apply Hs. lia.
Qed.

Lemma pipe_run tb i j who : fd_ok tb i j ->
  fd_pipe who tb = Some (Z.of_nat i, Z.of_nat j, <[j := Some (Dwrite who)]> (<[i := Some (Dread who)]> tb)).
Proof.
  intros [A1 A2 A3 A4 A5]. assert (Hi : find_first is_free tb = Some i) by (apply find_free; [done|]; intros k Hk; apply A5; lia).
  unfold fd_pipe, fd_new at 1. rewrite Hi. unfold fd_new. rewrite (find_free _ j).
  - destruct (Z.ltb_spec (Z.of_nat i) 0), (Z.ltb_spec (Z.of_nat j) 0); try lia. done.
  - by rewrite list_lookup_insert_ne by lia.
  - intros k Hk. destruct (decide (i = k)) as [<-|]; [exists (Dread who); apply list_lookup_insert_eq; by eapply lookup_lt_Some|].
    rewrite list_lookup_insert_ne by done. by apply A5.
Qed.

(** A child of a pipeline: [close(k); dup(p); close(p0); close(p1);] *)
Lemma pipe_child tb i j k d dr dw p : fd_ok tb i j -> (k < 2)%nat -> (p = i /\ d = dr) \/ (p = j /\ d = dw) ->
  let tb1 := <[j := Some dw]> (<[i := Some dr]> tb) in
  fd_close (Z.of_nat j) (fd_close (Z.of_nat i) (fd_dup (Z.of_nat p) (fd_close (Z.of_nat k) tb1)).2) = <[k := Some d]> tb.
Proof.
  intros H Hk Hp tb1. pose proof H as [A1 A2 A3 A4 A5]. destruct (A1 k ltac:(lia)) as [d0 Hd0].
  assert (Hik : i <> k) by (intros ->; congruence). assert (Hjk : j <> k) by (intros ->; congruence).
  pose proof (lookup_lt_Some _ _ _ A2). pose proof (lookup_lt_Some _ _ _ A3). pose proof (lookup_lt_Some _ _ _ Hd0). unfold fd_close. rewrite !Nat2Z.id.
  assert (Hp1 : <[k := None]> tb1 !! p = Some (Some d)).
  { rewrite list_lookup_insert_ne by (destruct Hp as [[-> _]|[-> _]]; done). unfold tb1. destruct Hp as [[-> ->]|[-> ->]].
    - rewrite list_lookup_insert_ne by lia. by apply list_lookup_insert_eq.
    - apply list_lookup_insert_eq. by rewrite length_insert. }
  assert (Hnew : fd_new d (<[k := None]> tb1) = (Z.of_nat k, <[k := Some d]> (<[k := None]> tb1))).
  { unfold fd_new. rewrite (find_free _ k); [done|apply list_lookup_insert_eq; unfold tb1; by rewrite !length_insert|].
    intros k' Hk'. rewrite list_lookup_insert_ne by lia. unfold tb1. destruct (A1 k' ltac:(lia)) as [d' Hd'].
    assert (i <> k') by (intros ->; congruence). assert (j <> k') by (intros ->; congruence). rewrite !list_lookup_insert_ne by done. by exists d'. }
  unfold fd_dup. rewrite Nat2Z.id, Hp1, Hnew. cbn [snd]. rewrite list_insert_insert_eq. unfold tb1.
  apply list_eq. intros x. destruct (decide (x = k)) as [->|Hxk].
  { rewrite 2 list_lookup_insert_ne by done. rewrite !list_lookup_insert_eq; rewrite ?length_insert; done. }
  destruct (decide (x = j)) as [->|Hxj].
  { rewrite (list_lookup_insert_ne tb) by done. rewrite A3. apply list_lookup_insert_eq. by rewrite !length_insert. }
  rewrite (list_lookup_insert_ne _ j) by done. destruct (decide (x = i)) as [->|Hxi].
  { rewrite (list_lookup_insert_ne tb) by done. rewrite A2. apply list_lookup_insert_eq. by rewrite !length_insert. }
  rewrite !list_lookup_insert_ne by done. done.
Qed.

Lemma runcmd_run c who tb i j : std c -> fd_ok tb i j -> execs (runcmd c) who tb = wiring c who tb.
Proof.
  revert who tb. induction c as [[|a argv]|c IH f m fd|l IHl r IHr|l IHl r IHr|c IH]; intros who tb Hs H; try done; simpl in Hs.
  - destruct Hs as [Hs Hfd]. cbn [runcmd execs wiring]. assert (Hn : fd_new (Dfile f m) (fd_close fd tb) = (fd, <[Z.to_nat fd := Some (Dfile f m)]> tb)).
    { unfold fd_close. rewrite (close_new tb i j) by (done || lia). f_equal. lia. }
    rewrite Hn. cbn [fst snd]. destruct (Z.ltb_spec fd 0); [lia|]. apply IH; [done|]. apply fd_ok_insert; [done|lia].
  - destruct Hs as [Hl Hr]. cbn [runcmd execs wiring]. rewrite (pipe_run tb i j who H). cbn [fork1 execs Z.eqb Z.ltb Z.compare].
    f_equal.
    + pose proof (pipe_child tb i j 1 (Dwrite who) (Dread who) (Dwrite who) j H ltac:(lia) ltac:(by right)) as E. cbv zeta in E.
      cbn [close2 execs]. change 1 with (Z.of_nat 1). rewrite E. apply IHl; [done|]. apply fd_ok_insert; [done|lia].
    + unfold fork1. cbn [execs Z.eqb]. rewrite <- app_assoc. cbn [app]. rewrite app_nil_r.
      pose proof (pipe_child tb i j 0 (Dread who) (Dread who) (Dwrite who) i H ltac:(lia) ltac:(by left)) as E. cbv zeta in E.
      cbn [close2 execs]. change 0 with (Z.of_nat 0) at 1. rewrite E. apply IHr; [done|]. apply fd_ok_insert; [done|lia].
  - destruct Hs as [Hl Hr]. cbn [runcmd execs wiring]. unfold fork1. cbn [execs Z.eqb]. f_equal; [by apply IHl|by apply IHr].
  - cbn [runcmd wiring]. unfold fork1. cbn [execs Z.eqb]. rewrite app_nil_r. by apply IH.
Qed.

Lemma wraps_std ws c : std c -> std (fold_left wrap ws c).
Proof. revert c. induction ws as [|[[] w] ws IH]; intros c Hc; [done|..]; apply IH; split; auto. Qed.

Lemma backs_std k c : std c -> std (backs k c).
Proof. revert c. induction k as [|k IH]; intros c Hc; [done|]. by apply IH. Qed.

Lemma grammar_std : (forall l, std (lcmd l)) /\ (forall p, std (pcmd p)) /\ (forall e, std (ecmd e)).
Proof.
  apply grammar_mut; simpl; intros; [by apply backs_std|split; [by apply backs_std|done]|done|by split|by apply wraps_std|by apply wraps_std].
Qed.

(** C24. The descriptors of a command line.  Of every line that [parsecmd]
    accepts, [runcmd] executes the programs that the command names, in order,
    each with the descriptors of the shell except that redirections replace
    descriptor 0 or 1 and the two sides of a pipeline have the ends of a pipe of
    their own there; no other descriptor of a program refers to a pipe that the
    line has made.  Descriptors 0 to 2 are open and two others are free when the
    shell runs the line, and the calls other than [pipe] succeed. *)
Theorem runcmd_wiring b es c b' who tb i j :
  find_first (fun c => c =? 0) b = Some es -> parsecmd b = Ret c b' -> fd_ok tb i j ->
  execs (runcmd (resolve b' c)) who tb = wiring (resolve b' c) who tb.
Proof.
  intros Hes Hp H. destruct (parsed_tree b es c b' Hes Hp) as (l & _ & _ & ->). apply (runcmd_run _ who tb i j); [apply grammar_std|done].
Qed.

Definition shell_fds : fdtable := [Some (Dother 0); Some (Dother 0); Some (Dother 0)] ++ replicate 13 None.

Lemma shell_fds_ok : fd_ok shell_fds 3 4.
Proof.
  split; [|reflexivity|reflexivity|lia|].
  - intros k Hk. exists (Dother 0). destruct k as [|[|[|k]]]; [reflexivity..|lia].
  - intros k Hk Hne. exists (Dother 0). destruct k as [|[|[|[|k]]]]; [reflexivity..|done|lia].
Qed.

Lemma runcmd_wiring_witness :
  match parsecmd line0 with
  | Ret c b' => execs (runcmd (resolve b' c)) [] shell_fds = wiring (resolve b' c) [] shell_fds
  | _ => False
  end.
Proof.
  assert (E : match parsecmd line0 with Ret _ _ => true | _ => false end = true) by (vm_compute; reflexivity).
  pose proof (fun c b' => runcmd_wiring line0 23 c b' [] shell_fds 3 4 eq_refl) as H. revert E H.
  destruct (parsecmd line0) as [c b'| | |]; intros E H; [|discriminate E..]. exact (H c b' eq_refl shell_fds_ok).
Defined.
