(* ===== verification/ShMain.v ===== *)
(** * The command loop of the shell (sh.c)

    [main] reads a line, and runs it in a child that parses it; [cd] is done by
    the shell itself.  The tree of system calls that [runcmd] is goes on in the
    child.  For a line of the grammar the child runs the command that the line
    stands for. *)

From Stdlib Require Import ZArith Lia List String Ascii.
From S2P Require Import Prelude.
From S2P Require Import Sh.
From S2P Require Import ShSpec.
From ITree Require Import ITree ITreeFacts.
From S2P Require Import Utils.
From S2P Require Import UtilsSpec.

Import ITreeNotations.
Import ListNotations.
Local Open Scope itree_scope.
Local Open Scope bool_scope.
Local Open Scope string_scope.
Local Open Scope list_scope.
Local Open Scope Z_scope.

Definition chars (s : string) : list Z := List.map (fun a => Z.of_nat (nat_of_ascii a)) (list_ascii_of_string s).

Definition ucall_of (c : Sh.call) : ucall :=
  match c with
  | Sexec path argv => Uexec path argv
  | Sclose fd => Uclose fd
  | Sopen path mode => Uopen path mode
  | Sdup fd => Udup fd
  | Sfork => Ufork
  | Swait => Uwait
  | Sprint msg arg => Uprintf 2 msg [AStr arg]
  end.

(** The process that a tree of the shell stands for. *)
Fixpoint process (p : prog) : itree callE unit :=
  match p with
  | Sexit => exit
  | Do c k => r <- sys (ucall_of c);; process (k r)
  | DoPipe k => a <- ITree.trigger (Call Upipe);; process (k (a_ret a) (nth 0 (a_data a) 0) (nth 1 (a_data a) 0))
  end.

(** [runcmd(parsecmd(buf))] *)
Definition child (buf : list Z) : itree callE unit :=
  match parsecmd buf with
  | Prelude.Ret c buf => process (runcmd (resolve buf c))
  | Panic msg => printf 2 "%s\n" [AStr (chars msg)];; exit
  | _ => ITree.spin
  end.

(** [gets] for [n] more characters. *)
Fixpoint gets (n : nat) : itree callE (list Z) :=
  match n with
  | O => Ret []
  | S n =>
      a <- ITree.trigger (Call (Uread 0 1));;
      if a_ret a <? 1 then Ret []
      else
        let c := nth 0 (a_data a) 0 in
        if (c =? 10) || (c =? 13) then Ret [c] else l <- gets n;; Ret (c :: l)
  end.

(** The buffer of 100 characters after [getcmd]. *)
Definition getcmd : itree callE (list Z) :=
  printf 2 "$ " [];;
  l <- gets 99;;
  Ret (l ++ repeat 0 (100 - List.length l)).

Definition open_fds : itree callE unit :=
  ITree.iter (fun _ : unit =>
    fd <- sys (Uopen console 2);;
    if 0 <=? fd then if 3 <=? fd then do_ (Uclose fd);; Ret (inr tt) else Ret (inl tt)
    else Ret (inr tt)) tt.

Definition is_cd (buf : list Z) : bool := (nth 0 buf 0 =? 99) && (nth 1 buf 0 =? 100) && (nth 2 buf 0 =? 32).

Definition command : itree callE (unit + unit) :=
  buf <- getcmd;;
  if nth 0 buf 0 =? 0 then Ret (inr tt)
  else if is_cd buf then
    let dir := skipn 3 (removelast (cstring buf)) in
    r <- sys (Uchdir dir);;
    (if r <? 0 then printf 2 "cannot cd %s\n" [AStr dir] else Ret tt);;
    Ret (inl tt)
  else
    pid <- sys Ufork;;
    if pid =? -1 then printf 2 "%s\n" [AStr (chars "fork")];; exit
    else (if pid =? 0 then child buf else Ret tt);; do_ Uwait;; Ret (inl tt).

Definition sh_main : itree callE unit :=
  open_fds;;
  ITree.iter (fun _ : unit => command) tt;;
  exit.

(** ** Sessions *)

(** A line as [gets] reads it: at most 99 characters, the last of which is the
    first newline, or there are 99. *)
Definition typed (l : list Z) : trace := List.map (fun c => (Uread 0 1, mkans 1 [c])) l.
Definition is_nl (c : Z) : bool := (c =? 10) || (c =? 13).
Definition whole_line (l : list Z) : Prop := exists s c, l = s ++ [c] /\ is_nl c = true /\ Forall (fun c => is_nl c = false) s /\ Forall (fun c => c <> 0) l /\ (List.length l <= 99)%nat.
Definition prompt : ucall * uans := (Uprintf 2 "$ " [], done).

Lemma gets_run s c n : Forall (fun c => is_nl c = false) s -> is_nl c = true -> (List.length s < n)%nat -> runs (gets n) (typed (s ++ [c])) (Returned (s ++ [c])).
Proof.
  intros Hs Hc. revert n. induction Hs as [|d s Hd _ IH]; intros [|n] Hn; cbn [List.length] in Hn; try lia; cbn [gets app typed List.map]; (apply runs_trigger; [discriminate|]); cbn [a_ret a_data nth]; change (1 <? 1) with false; cbv iota zeta.
  - unfold is_nl in Hc. rewrite Hc. apply runs_Ret.
  - unfold is_nl in Hd. rewrite Hd. rewrite <- (app_nil_r (List.map _ _)). eapply runs_bind; [apply (IH n); lia|apply runs_Ret].
Qed.

Definition buffer (l : list Z) : list Z := l ++ repeat 0 (100 - List.length l).

Lemma getcmd_run l : whole_line l -> runs getcmd (prompt :: typed l) (Returned (buffer l)).
Proof.
  intros (s & c & -> & Hc & Hs & _ & Hl). unfold getcmd. apply runs_do; [discriminate|]. rewrite <- (app_nil_r (typed _)). rewrite length_app in Hl. cbn [List.length] in Hl. eapply runs_bind; [apply gets_run; try assumption; lia|apply runs_Ret].
Qed.

Lemma buffer_first l : whole_line l -> (nth 0 (buffer l) 0 =? 0) = false.
Proof.
  intros (s & c & E & _ & _ & Hz & _). unfold buffer. destruct l as [|d l]; [destruct s; discriminate E|]. inversion Hz as [|? ? Hd]; subst. cbn [app nth]. apply Z.eqb_neq, Hd.
Qed.

(** The position of the NUL. *)
Lemma find_nul (l : list Z) k : Forall (fun c => c <> 0) l -> find_first (fun c => c =? 0) (l ++ 0 :: k) = Some (List.length l).
Proof. induction 1 as [|c l Hc _ IH]; [reflexivity|]. cbn [app find_first List.length]. destruct (Z.eqb_spec c 0); [congruence|]. rewrite IH. reflexivity. Qed.

Lemma buffer_nul l : whole_line l -> find_first (fun c => c =? 0) (buffer l) = Some (List.length l) /\ firstn (List.length l) (buffer l) = l.
Proof.
  intros (s & c & _ & _ & _ & Hz & Hl). unfold buffer. replace (100 - List.length l)%nat with (S (99 - List.length l)) by lia. cbn [repeat]. split; [apply find_nul, Hz|]. rewrite firstn_app, Nat.sub_diag, firstn_all. cbn [firstn]. apply app_nil_r.
Qed.

(** What the shell does with a line. *)
Inductive session := Run (line : list Z) (pid : Z) | Cd (dir : list Z).
Definition session_ok (i : session) : Prop :=
  match i with
  | Run line pid => whole_line line /\ is_cd line = false /\ 0 < pid
  | Cd dir => whole_line ([99; 100; 32] ++ dir ++ [10])
  end.
Definition session_calls (i : session) : trace :=
  match i with
  | Run line pid => prompt :: typed line ++ [(Ufork, mkans pid []); (Uwait, mkans pid [])]
  | Cd dir => prompt :: typed ([99; 100; 32] ++ dir ++ [10]) ++ [(Uchdir dir, done)]
  end.

Lemma is_cd_buffer l : whole_line l -> is_cd (buffer l) = is_cd l.
Proof. intros _. unfold is_cd, buffer. destruct l as [|a [|b [|c l]]]; reflexivity. Qed.

Lemma cstring_app l k : Forall (fun c => c <> 0) l -> cstring (l ++ 0 :: k) = l.
Proof. induction 1 as [|c l Hc _ IH]; [reflexivity|]. cbn [app cstring]. destruct (Z.eqb_spec c 0); [congruence|]. rewrite IH. reflexivity. Qed.

Lemma cstring_buffer l : whole_line l -> cstring (buffer l) = l.
Proof. intros (s & c & _ & _ & _ & Hz & Hl). unfold buffer. replace (100 - List.length l)%nat with (S (99 - List.length l)) by lia. apply cstring_app, Hz. Qed.

Lemma session_run i : session_ok i -> runs command (session_calls i) (Returned (inl tt)).
Proof.
  destruct i as [line pid|dir]; intros H; unfold command, session_calls; rewrite app_comm_cons.
  - destruct H as (Hl & Hcd & Hp). eapply runs_bind; [apply getcmd_run, Hl|]. rewrite buffer_first, is_cd_buffer, Hcd by exact Hl. apply runs_sys; [discriminate|]. cbn [a_ret]. destruct (Z.eqb_spec pid (-1)); [lia|]. destruct (Z.eqb_spec pid 0); [lia|].
    apply (runs_bind _ _ [] tt); [apply runs_Ret|]. apply runs_do; [discriminate|]. apply runs_Ret.
  - eapply runs_bind; [apply getcmd_run, H|]. rewrite buffer_first, is_cd_buffer by exact H. change (is_cd ([99; 100; 32] ++ dir ++ [10])) with true. cbv iota zeta. rewrite cstring_buffer by exact H. rewrite app_assoc, removelast_last. cbn [app skipn].
    apply runs_sys; [discriminate|]. cbn [a_ret done]. change (0 <? 0) with false. cbv iota. apply (runs_bind _ _ [] tt); [apply runs_Ret|apply runs_Ret].
Qed.

(** [open] until a descriptor from 3 on comes. *)
Definition setup_calls (fds : list Z) (fd : Z) : trace := List.map (fun f => (Uopen console 2, mkans f [])) fds ++ [(Uopen console 2, mkans fd []); (Uclose fd, done)].

Lemma open_fds_run fds fd : Forall (fun f => 0 <= f < 3) fds -> 3 <= fd -> runs open_fds (setup_calls fds fd) (Returned tt).
Proof.
  intros Hf Hfd. unfold open_fds, setup_calls. induction Hf as [|f fds Hf _ IH].
  - apply runs_done, runs_sys; [discriminate|]. cbn [a_ret]. destruct (Z.leb_spec 0 fd), (Z.leb_spec 3 fd); try lia. apply runs_do; [discriminate|]. apply runs_Ret.
  - cbn [List.map app]. apply (runs_again _ tt tt [_]); [|exact IH]. apply runs_sys; [discriminate|]. cbn [a_ret]. destruct (Z.leb_spec 0 f), (Z.leb_spec 3 f); try lia. apply runs_Ret.
Qed.

Lemma sessions_run ss l o : Forall session_ok ss -> runs (ITree.iter (fun _ : unit => command) tt) l o -> runs (ITree.iter (fun _ : unit => command) tt) (flat_map session_calls ss ++ l) o.
Proof.
  intros Hi Hl. induction Hi as [|i ss Hi _ IH]; [exact Hl|]. cbn [flat_map]. rewrite <- app_assoc. apply (runs_again _ tt tt); [apply session_run, Hi|exact IH].
Qed.

(** The first command of a loop that is not over. *)
Lemma runs_iter_stop {R} (f : unit -> itree callE (unit + R)) l o : o = Exited \/ o = Running -> runs (f tt) l (match o with Exited => Exited | _ => Running end) -> runs (ITree.iter f tt) l o.
Proof. intros Ho H. eapply runs_observe; [symmetry; apply observe_iter|]. destruct Ho as [-> | ->]; apply runs_bind_stop, H. Qed.

Lemma runs_stop {R U} (t : itree callE R) (k : R -> itree callE U) l (o : final unit) : o = Exited \/ o = Running -> runs t l (match o with Exited => Exited | _ => Running end) -> runs (ITree.bind t k) l (match o with Exited => Exited | _ => Running end).
Proof. intros [-> | ->] H; apply runs_bind_stop, H. Qed.

(** C30. The shell runs the commands that are typed.  After opening the console on
    three descriptors it handles any number of lines: a [cd] line changes its
    directory, for any other it forks and waits for the child, and at the end of the
    input it exits.  In the child, a line of the grammar becomes the system calls of
    [runcmd] for the command of its syntax tree; for any other line the child
    prints a message and exits. *)
Theorem sh_session fds fd ss :
  Forall (fun f => 0 <= f < 3) fds -> 3 <= fd -> Forall session_ok ss ->
  let before := setup_calls fds fd ++ flat_map session_calls ss in
  runs sh_main (before ++ [prompt; (Uread 0 1, mkans 0 [])]) Exited /\
  forall line, whole_line line -> is_cd line = false ->
    (exists l, lfits l /\ lex [] line = ltoks l /\ forall tr (o : final unit), o = Exited \/ o = Running ->
       runs (process (runcmd (lcmd l))) tr o -> runs sh_main (before ++ prompt :: typed line ++ [(Ufork, mkans 0 [])] ++ tr) o) \/
    ((~ exists l, lfits l /\ lex [] line = ltoks l) /\ exists msg,
       runs sh_main (before ++ prompt :: typed line ++ [(Ufork, mkans 0 []); (Uprintf 2 "%s\n" [AStr msg], done)]) Exited).
Proof.
  intros Hf Hfd Hi before. assert (H : forall l (o : final unit), o = Exited \/ o = Running -> runs command l (match o with Exited => Exited | _ => Running end) -> runs sh_main (before ++ l) o).
  { intros l o Ho Hc. unfold sh_main, before. rewrite <- app_assoc. apply (runs_bind _ _ _ tt); [apply open_fds_run; assumption|].
    assert (Hl : runs (ITree.iter (fun _ : unit => command) tt) (flat_map session_calls ss ++ l) o) by (apply sessions_run; [exact Hi|]; apply runs_iter_stop; assumption).
    destruct Ho as [-> | ->]; apply runs_bind_stop, Hl. }
  split.
  - unfold sh_main, before. rewrite <- app_assoc. apply (runs_bind _ _ _ tt); [apply open_fds_run; assumption|]. rewrite <- (app_nil_r (flat_map session_calls ss ++ _)). apply (runs_bind _ _ _ tt); [|apply runs_the_exit]. apply sessions_run; [exact Hi|].
    apply runs_done. unfold command. rewrite <- (app_nil_r [prompt; _]). apply (runs_bind _ _ _ (buffer [])); [|apply runs_Ret]. unfold getcmd. apply runs_do; [discriminate|]. rewrite <- (app_nil_r [_]). apply (runs_bind _ _ _ []); [|apply runs_Ret].
    cbn [gets]. apply runs_trigger; [discriminate|]. apply runs_Ret.
  - intros line Hl Hcd. destruct (buffer_nul line Hl) as [Hnul Htake]. assert (Hchild : forall tr (o : final unit), o = Exited \/ o = Running -> runs (child (buffer line)) tr o -> runs sh_main (before ++ prompt :: typed line ++ [(Ufork, mkans 0 [])] ++ tr) o).
    { intros tr o Ho Hr. apply H; [exact Ho|]. unfold command. rewrite app_comm_cons. eapply runs_bind; [apply getcmd_run, Hl|]. rewrite buffer_first, is_cd_buffer, Hcd by exact Hl. cbn [app]. apply runs_sys; [discriminate|]. cbn [a_ret].
      change (0 =? -1) with false. change (0 =? 0) with true. cbv iota. apply runs_stop; [exact Ho|]. destruct Ho as [-> | ->]; exact Hr. }
    pose proof (parsecmd_ends (buffer line) (List.length line) Hnul) as He. unfold child in Hchild. destruct (parsecmd (buffer line)) as [c b'|msg| |] eqn:Ep; try contradiction.
    + left. destruct (parsed_tree (buffer line) (List.length line) c b' Hnul Ep) as (l & Hlf & Hlex & Hres). exists l. split; [exact Hlf|]. split; [|rewrite Hres in Hchild; exact Hchild]. rewrite <- Hlex. f_equal. symmetry. exact Htake.
    + right. split.
      * intros (l & Hlf & Hlex). apply He. exists l. split; [exact Hlf|]. rewrite <- Hlex. f_equal. exact Htake.
      * exists (chars msg). apply (Hchild [_]); [left; reflexivity|]. apply runs_do; [discriminate|]. apply runs_the_exit.
Qed.

Lemma sh_session_witness : runs sh_main
  [(Uopen console 2, mkans 3 []); (Uclose 3, done); prompt; (Uread 0 1, mkans 1 [108]); (Uread 0 1, mkans 1 [115]); (Uread 0 1, mkans 1 [10]); (Ufork, mkans 4 []); (Uwait, mkans 4 []); prompt; (Uread 0 1, mkans 0 [])] Exited.
Proof.
  assert (Hl : whole_line [108; 115; 10]) by (exists [108; 115], 10; split; [reflexivity|]; split; [reflexivity|]; split; [repeat constructor|]; split; [repeat constructor; discriminate|simpl; lia]).
  assert (Hs : Forall session_ok [Run [108; 115; 10] 4]) by (repeat constructor; [exact Hl|lia..]).
  exact (proj1 (sh_session [] 3 [Run [108; 115; 10] 4] (Forall_nil _) ltac:(lia) Hs)).
Defined.
