(* ===== verification/Umalloc.v ===== *)
(** * The memory allocator of user programs (umalloc.c)

    The allocator of Kernighan and Ritchie: a circular list of free blocks in
    the order of their addresses, whose headers are in the blocks.  Addresses
    count headers, 8 bytes each.  [sbrk] is a system call: the kernel grants it
    or not, and then the end of the memory moves by that many bytes. *)

From Stdlib Require Import ZArith Lia.
From stdpp Require Import base numbers strings gmap list.
From S2P Require Import Prelude.

Local Open Scope string_scope.
Local Open Scope list_scope.
Local Open Scope Z_scope.

(** [union header] *)
Record hdr := mkhdr { h_ptr : Z; h_size : Z }.

(** The headers, the variable [freep] (0 before the first call), and the end of
    the memory. *)
Record uheap := mkuheap { u_mem : gmap Z hdr; u_freep : Z; u_brk : Z }.

Definition rdh (p : Z) : M uheap hdr := s ← get; of_option "header" (u_mem s !! p).
Definition wrh (p : Z) (h : hdr) : M uheap unit := modify (fun s => mkuheap (<[p := h]> (u_mem s)) (u_freep s) (u_brk s)).
Definition set_ptr (p q : Z) : M uheap unit := h ← rdh p; wrh p (mkhdr q (h_size h)).
Definition set_size (p n : Z) : M uheap unit := h ← rdh p; wrh p (mkhdr (h_ptr h) n).
(** The size of a header in memory that may not have been one before. *)
Definition put_size (p n : Z) : M uheap unit := s ← get; wrh p (mkhdr (default 0 (h_ptr <$> u_mem s !! p)) n).
Definition set_freep (p : Z) : M uheap unit := modify (fun s => mkuheap (u_mem s) p (u_brk s)).

Section umalloc.
Context (base : Z) (grant : Z -> Z -> bool).

(** The loop of [free]. *)
Fixpoint free_loop (fuel : nat) (bp p : Z) : M uheap Z :=
  match fuel with
  | O => fault "free: fuel"
  | S fuel =>
      h ← rdh p;
      if (p <? bp) && (bp <? h_ptr h) then mret p
      else if (h_ptr h <=? p) && ((p <? bp) || (bp <? h_ptr h)) then mret p
      else free_loop fuel bp (h_ptr h)
  end.

Definition free (ap : Z) : M uheap unit :=
  let bp := ap - 1 in
  s ← get;
  p ← free_loop (S (size (u_mem s))) bp (u_freep s);
  h ← rdh p;
  b ← rdh bp;
  (if bp + h_size b =? h_ptr h then
     q ← rdh (h_ptr h);
     set_size bp (u32 (h_size b + h_size q));;
     set_ptr bp (h_ptr q)
   else set_ptr bp (h_ptr h));;
  h ← rdh p;
  b ← rdh bp;
  (if p + h_size h =? bp then
     set_size p (u32 (h_size h + h_size b));;
     set_ptr p (h_ptr b)
   else set_ptr p bp);;
  set_freep p.

(** [sbrk(n)] for a multiple of 8 bytes; [None] is -1.  A negative [n] gives
    memory back. *)
Definition sbrk (n : Z) : M uheap (option Z) :=
  s ← get;
  if grant (u_brk s) n then put (mkuheap (u_mem s) (u_freep s) (u_brk s + n / 8));; mret (Some (u_brk s)) else mret None.

Definition morecore (nu : Z) : M uheap Z :=
  let nu := if nu <? 4096 then 4096 else nu in
  r ← sbrk (i32 (u32 (nu * 8)));
  match r with
  | None => mret 0
  | Some hp => put_size hp nu;; free (hp + 1);; gets u_freep
  end.

(** The loop of [malloc]. *)
Fixpoint malloc_loop (fuel : nat) (nunits prevp p : Z) : M uheap Z :=
  match fuel with
  | O => fault "malloc: fuel"
  | S fuel =>
      h ← rdh p;
      if nunits <=? h_size h then
        r ← (if h_size h =? nunits then set_ptr prevp (h_ptr h);; mret p
             else
               set_size p (h_size h - nunits);;
               let q := p + (h_size h - nunits) in
               put_size q nunits;; mret q);
        set_freep prevp;;
        mret (r + 1)
      else
        freep ← gets u_freep;
        if p =? freep then
          p ← morecore nunits;
          if p =? 0 then mret 0
          else h ← rdh p; malloc_loop fuel nunits p (h_ptr h)
        else malloc_loop fuel nunits p (h_ptr h)
  end.

Definition malloc (nbytes : Z) : M uheap Z :=
  let nunits := u32 (nbytes + 8 - 1) / 8 + 1 in
  s ← get;
  (if u_freep s =? 0 then wrh base (mkhdr base 0);; set_freep base else mret tt);;
  s ← get;
  let prevp := u_freep s in
  h ← rdh prevp;
  malloc_loop (2 * size (u_mem s) + 4) nunits prevp (h_ptr h).
End umalloc.
