(* ===== verification/UmallocSpec.v ===== *)
(** * The user allocator hands out disjoint blocks

    The invariant says that the headers form a circular list of free blocks, in
    the order of their addresses and with no two adjacent, and that free and
    allocated blocks divide the memory.  [malloc] and [free] keep it. *)

From Stdlib Require Import ZArith Lia.
From stdpp Require Import base numbers strings gmap list.
From S2P Require Import Prelude.
From S2P Require Import Machine.
From S2P Require Import Umalloc.

Local Open Scope string_scope.
Local Open Scope list_scope.
Local Open Scope Z_scope.

(** A block: its address and its size in headers. *)
Notation block := (Z * Z)%type.

(** The headers of the blocks [l] are linked, the last one to [e]. *)
Definition first (l : list block) (e : Z) : Z := match l with [] => e | b :: _ => b.1 end.

Fixpoint chain (m : gmap Z hdr) (l : list block) (e : Z) : Prop :=
  match l with
  | [] => True
  | b :: l => m !! b.1 = Some (mkhdr (first l e) b.2) /\ chain m l e
  end.

Lemma first_app l1 l2 e : first (l1 ++ l2) e = first l1 (first l2 e).
Proof. by destruct l1. Qed.

Lemma chain_app m l1 l2 e : chain m (l1 ++ l2) e <-> chain m l1 (first l2 e) /\ chain m l2 e.
Proof. induction l1 as [|b l1 IH]; simpl; [tauto|]. rewrite first_app. tauto. Qed.

Lemma chain_insert m l e a h : a ∉ l.*1 -> chain m l e -> chain (<[a := h]> m) l e.
Proof.
  induction l as [|b l IH]; simpl; [done|]. intros Hn [H1 H2]. apply not_elem_of_cons in Hn as [Hb Hn]. split; [by rewrite lookup_insert_ne|by apply IH].
Qed.

(** ** The blocks in order *)

(** There is a gap after every block. *)
Fixpoint gaps (l : list block) : Prop :=
  match l with
  | [] => True
  | b :: l => match l with [] => True | b' :: _ => b.1 + b.2 < b'.1 end /\ gaps l
  end.

(** The headers that belong to a block. *)
Definition units (l : list block) : list Z := concat (map (fun b => seqZ b.1 b.2) l).

Lemma units_app l1 l2 : units (l1 ++ l2) = units l1 ++ units l2.
Proof. unfold units. by rewrite map_app, concat_app. Qed.

Lemma elem_of_units l z : z ∈ units l <-> exists b, b ∈ l /\ b.1 <= z < b.1 + b.2.
Proof.
  unfold units. induction l as [|b l IH]; simpl.
  - split; [by intros ?%elem_of_nil|]. intros (b & Hb & _). by apply elem_of_nil in Hb.
  - rewrite elem_of_app, elem_of_seqZ, IH. split.
    + intros [H|(b' & H1 & H2)]; [exists b; split; [left|lia]|exists b'; split; [by right|done]].
    + intros (b' & Hb & H). apply elem_of_cons in Hb as [->|Hb]; [by left|right; by exists b'].
Qed.

Definition disjoint (x y : block) : Prop := x.1 + x.2 <= y.1 \/ y.1 + y.2 <= x.1.

Lemma units_disjoint l x y : NoDup (units (x :: l)) -> y ∈ l -> 1 <= x.2 -> 1 <= y.2 -> disjoint x y.
Proof.
  intros Hnd Hy Hx1 Hy1. unfold units in Hnd. simpl in Hnd. apply NoDup_app in Hnd as (_ & Hd & _).
  destruct (decide (disjoint x y)) as [?|Hn]; [done|]. unfold disjoint in Hn. exfalso.
  apply (Hd (Z.max x.1 y.1)); [apply elem_of_seqZ; lia|]. apply elem_of_units. exists y. split; [done|lia].
Qed.

#[local] Instance disjoint_dec x y : Decision (disjoint x y).
Proof. unfold disjoint. apply _. Qed.

(** ** The circular list by index *)

Definition nxt (n i : nat) : nat := if (S i =? n)%nat then 0%nat else S i.
Definition addr (l : list block) (i : nat) : Z := (default (0, 0) (l !! i)).1.

Lemma chain_lookup m l i b : chain m l (first l 0) -> l !! i = Some b -> m !! b.1 = Some (mkhdr (addr l (nxt (length l) i)) b.2).
Proof.
  intros H Hb. rewrite <- (take_drop_middle l i b Hb) in H at 1. rewrite chain_app in H. simpl in H. destruct H as (_ & H & _). rewrite H.
  pose proof (lookup_lt_Some _ _ _ Hb) as Hi. do 2 f_equal. unfold nxt, addr. destruct (Nat.eqb_spec (S i) (length l)) as [E|E].
  - rewrite drop_ge by lia. simpl. by destruct l.
  - destruct (lookup_lt_is_Some_2 l (S i)) as [b' Hb']; [lia|]. by rewrite (drop_S _ _ _ Hb'), Hb'.
Qed.

Lemma gaps_lt l i j x y : gaps l -> Forall (fun b => 0 <= b.2) l -> l !! i = Some x -> l !! j = Some y -> (i < j)%nat -> x.1 + x.2 < y.1.
Proof.
  revert i j x. induction l as [|b l IH]; intros i j x G P Hi Hj Hij; [done|]. apply Forall_cons in P as [Pb P]. destruct j as [|j]; [lia|]. simpl in Hj. destruct i as [|i].
  - injection Hi as <-. destruct l as [|b' l]; [done|]. destruct G as [G1 G2]. destruct j as [|j]; [by injection Hj as <-|].
    pose proof (IH 0%nat (S j) b' G2 P eq_refl Hj ltac:(lia)). apply Forall_cons in P as [P' _]. simpl in *. lia.
  - destruct G as [_ G]. apply (IH i j x G P Hi Hj). lia.
Qed.

Section umalloc.
Context (base : Z) (grant : Z -> Z -> bool).

(** The memory starts at [lo]; [fl] are the free blocks and [al] the allocated
    ones. *)
Record heap_ok (lo : Z) (s : uheap) (fl al : list block) : Prop := {
  hk_base : 0 < base < lo;
  hk_brk : lo <= u_brk s < 536870912;
  hk_chain : chain (u_mem s) ((base, 0) :: fl) base;
  hk_freep : exists i b, ((base, 0) :: fl) !! i = Some b /\ u_freep s = b.1;
  hk_gaps : gaps ((base, 0) :: fl);
  hk_pos : Forall (fun b => 1 <= b.2) (fl ++ al);
  hk_al : Forall (fun b => h_size <$> u_mem s !! b.1 = Some b.2) al;
  hk_part : units (fl ++ al) ≡ₚ seqZ lo (u_brk s - lo) }.

Section facts.
Context (lo : Z) (s : uheap) (fl al : list block) (H : heap_ok lo s fl al).
Local Notation c := ((base, 0) :: fl).

Lemma hk_in b : b ∈ fl ++ al -> lo <= b.1 /\ b.1 + b.2 <= u_brk s /\ 1 <= b.2.
Proof.
  intros Hb. pose proof (hk_pos _ _ _ _ H) as Hp. rewrite Forall_forall in Hp. pose proof (Hp b Hb) as H1.
  assert (Hu : forall z, b.1 <= z < b.1 + b.2 -> lo <= z < lo + (u_brk s - lo)).
  { intros z Hz. apply elem_of_seqZ. rewrite <- (hk_part _ _ _ _ H). apply elem_of_units. by exists b. }
  pose proof (Hu b.1 ltac:(lia)). pose proof (Hu (b.1 + b.2 - 1) ltac:(lia)). lia.
Qed.

Lemma hk_nonneg : Forall (fun b => 0 <= b.2) c.
Proof.
  constructor; [done|]. pose proof (hk_pos _ _ _ _ H) as Hp. apply Forall_app in Hp as [Hp _]. eapply Forall_impl; [exact Hp|]. simpl. lia.
Qed.

Lemma hk_lt i j x y : c !! i = Some x -> c !! j = Some y -> (i < j)%nat -> x.1 + x.2 < y.1.
Proof. apply gaps_lt; [apply H|apply hk_nonneg]. Qed.

Lemma hk_addr_lt i j x y : c !! i = Some x -> c !! j = Some y -> (i < j)%nat <-> x.1 < y.1.
Proof.
  intros Hx Hy. pose proof hk_nonneg as Hp. rewrite Forall_lookup in Hp. split.
  - intros Hij. pose proof (hk_lt i j x y Hx Hy Hij). pose proof (Hp i x Hx). lia.
  - intros Hlt. destruct (decide (i < j)%nat) as [?|Hn]; [done|]. destruct (decide (i = j)) as [->|]; [rewrite Hx in Hy; injection Hy as ->; lia|].
    pose proof (hk_lt j i y x Hy Hx ltac:(lia)). pose proof (Hp j y Hy). lia.
Qed.

Lemma hk_header i b : c !! i = Some b -> u_mem s !! b.1 = Some (mkhdr (addr c (nxt (length c) i)) b.2).
Proof. apply chain_lookup. apply H. Qed.

Lemma hk_rdh i b : c !! i = Some b -> rdh b.1 s = Ret (mkhdr (addr c (nxt (length c) i)) b.2) s.
Proof. intros Hb. unfold rdh. rewrite bind_get, (hk_header i b Hb). done. Qed.

Lemma hk_nodup : NoDup c.*1.
Proof.
  apply NoDup_alt. intros i j a Hi Hj. apply list_lookup_fmap_Some in Hi as (x & -> & Hx), Hj as (y & E & Hy).
  destruct (decide (i = j)) as [?|]; [done|]. destruct (decide (i < j)%nat) as [Hlt|].
  - apply (hk_addr_lt i j x y Hx Hy) in Hlt. lia.
  - assert (Hlt : (j < i)%nat) by lia. apply (hk_addr_lt j i y x Hy Hx) in Hlt. lia.
Qed.

Lemma hk_length : (length c <= size (u_mem s))%nat.
Proof.
  rewrite <- (length_fmap fst c), <- (size_list_to_set (C := gset Z) _ hk_nodup), <- size_dom. apply subseteq_size. intros a Ha. apply elem_of_list_to_set in Ha.
  apply list_elem_of_fmap in Ha as (b & -> & Hb). apply list_elem_of_lookup in Hb as [i Hb]. apply elem_of_dom. rewrite (hk_header i b Hb). by eexists.
Qed.

Lemma hk_apart x y : x ∈ fl -> y ∈ al -> disjoint x y.
Proof.
  intros Hx Hy. apply elem_of_Permutation in Hx as [fl' Hf]. pose proof (hk_in x ltac:(rewrite Hf; by left)). pose proof (hk_in y ltac:(apply elem_of_app; by right)).
  apply (units_disjoint (fl' ++ al)); [|apply elem_of_app; by right|lia|lia].
  assert (E : units (x :: fl' ++ al) ≡ₚ seqZ lo (u_brk s - lo)).
  { rewrite <- (hk_part _ _ _ _ H). unfold units. apply concat_Permutation || (rewrite Hf). done. }
  rewrite E. apply NoDup_seqZ.
Qed.
End facts.

#[local] Instance units_proper : Proper ((≡ₚ) ==> (≡ₚ)) units.
Proof. intros l1 l2 H. unfold units. by rewrite H. Qed.

(** ** [free] *)

(** The blocks below an address and those above it. *)
Lemma split_addr (l : list block) a : exists l1 l2, l = l1 ++ l2 /\ Forall (fun b => b.1 < a) l1 /\ match l2 with [] => True | b :: _ => a <= b.1 end.
Proof.
  induction l as [|b l (l1 & l2 & -> & H1 & H2)]; [by exists [], []|]. destruct (decide (b.1 < a)); [exists (b :: l1), l2|exists [], (b :: l1 ++ l2)].
  - split; [done|]. split; [by constructor|done].
  - split; [done|]. split; [constructor|lia].
Qed.

Lemma addr_lookup (l : list block) i b : l !! i = Some b -> addr l i = b.1.
Proof. intros H. unfold addr. by rewrite H. Qed.

Lemma free_loop_run lo s fl al bp j :
  heap_ok lo s fl al -> let c := (base, 0) :: fl in
  base < bp -> (j < length c)%nat -> (forall i b, c !! i = Some b -> b.1 < bp <-> (i <= j)%nat) -> (forall i b, c !! i = Some b -> b.1 <> bp) ->
  forall fuel i, (i < length c)%nat -> ((if decide (i <= j) then j - i else length c - i + j) < fuel)%nat -> free_loop fuel bp (addr c i) s = Ret (addr c j) s.
Proof.
  intros H c Hb Hj Hlt Hne. induction fuel as [|fuel IH]; intros i Hi Hf; [lia|]. destruct (lookup_lt_is_Some_2 c i Hi) as [x Hx]. rewrite (addr_lookup c i x Hx).
  cbn [free_loop]. mstep (hk_rdh lo s fl al H i x Hx). cbn [h_ptr]. fold c. set (k := nxt (length c) i).
  assert (Hk : (k < length c)%nat) by (unfold k, nxt; destruct (Nat.eqb_spec (S i) (length c)); lia). destruct (lookup_lt_is_Some_2 c k Hk) as [y Hy]. rewrite (addr_lookup c k y Hy).
  pose proof (Hlt i x Hx) as Lx. pose proof (Hlt k y Hy) as Ly. pose proof (Hne i x Hx). pose proof (Hne k y Hy).
  pose proof (hk_addr_lt lo s fl al H i k x y Hx Hy) as Lik. pose proof (hk_addr_lt lo s fl al H k i y x Hy Hx) as Lki.
  assert (Hc0 : c !! 0%nat = Some (base, 0)) by done.
  destruct (decide (i = j)) as [->|Hij].
  - rewrite (addr_lookup c j x Hx). unfold k, nxt in *. destruct (Nat.eqb_spec (S j) (length c)) as [E|E].
    + rewrite Hc0 in Hy. injection Hy as <-. cbn [fst] in *. destruct (Z.ltb_spec x.1 bp); [|lia]. destruct (Z.ltb_spec bp base); [lia|]. cbn [andb].
      destruct (Z.leb_spec base x.1); [done|]. lia.
    + destruct (Z.ltb_spec x.1 bp); [|lia]. destruct (Z.ltb_spec bp y.1); [done|lia].
  - assert (Hstep : free_loop fuel bp y.1 s = Ret (addr c j) s).
    { rewrite <- (addr_lookup c k y Hy). apply (IH k Hk). unfold k, nxt. destruct (Nat.eqb_spec (S i) (length c)); repeat destruct (decide _); lia. }
    unfold k, nxt in *. destruct (Nat.eqb_spec (S i) (length c)) as [E|E].
    + rewrite Hc0 in Hy. injection Hy as <-. cbn [fst] in *. destruct (Z.ltb_spec x.1 bp); [lia|]. cbn [andb orb]. destruct (Z.ltb_spec bp base); [lia|]. by rewrite andb_false_r.
    + destruct (Z.ltb_spec x.1 bp), (Z.ltb_spec bp y.1), (Z.leb_spec y.1 x.1); cbn [andb orb]; try exact Hstep; lia.
Qed.

Lemma gaps_snoc l x l2 : gaps (l ++ x :: l2) <-> gaps (l ++ [x]) /\ gaps (x :: l2).
Proof.
  induction l as [|b l IH]; [simpl; tauto|]. destruct l as [|b' l]; [simpl in *; tauto|]. change ((b :: b' :: l) ++ x :: l2) with (b :: ((b' :: l) ++ x :: l2)).
  change ((b :: b' :: l) ++ [x]) with (b :: ((b' :: l) ++ [x])). cbn [gaps]. rewrite IH. simpl. tauto.
Qed.

Lemma gaps_last l x y : x.1 = y.1 -> gaps (l ++ [x]) -> gaps (l ++ [y]).
Proof. intros E. induction l as [|b l IH]; [done|]. destruct l as [|b' l]; simpl in *; [rewrite E; tauto|]. intros [H1 H2]. split; [done|by apply IH]. Qed.

Lemma rdh_run s p h : u_mem s !! p = Some h -> rdh p s = Ret h s.
Proof. intros H. unfold rdh. by rewrite bind_get, H. Qed.

Definition setm (s : uheap) (m : gmap Z hdr) : uheap := mkuheap m (u_freep s) (u_brk s).

Lemma set_size_run s p h n : u_mem s !! p = Some h -> set_size p n s = Ret tt (setm s (<[p := mkhdr (h_ptr h) n]> (u_mem s))).
Proof. intros H. unfold set_size. by mstep (rdh_run s p h H). Qed.
Lemma set_ptr_run s p h q : u_mem s !! p = Some h -> set_ptr p q s = Ret tt (setm s (<[p := mkhdr q (h_size h)]> (u_mem s))).
Proof. intros H. unfold set_ptr. by mstep (rdh_run s p h H). Qed.

(** Setting both fields. *)
Lemma set_both_run s p h n q : u_mem s !! p = Some h -> (set_size p n;; set_ptr p q) s = Ret tt (setm s (<[p := mkhdr q n]> (u_mem s))).
Proof.
  intros H. mstep (set_size_run s p h n H). rewrite (set_ptr_run _ p (mkhdr (h_ptr h) n)); [|apply lookup_insert_eq]. unfold setm. simpl. by rewrite insert_insert_eq.
Qed.

(** The first half of [free]: the block above. *)
Lemma free_right s bp bs ptr l2 e :
  u_mem s !! bp = Some (mkhdr ptr bs) -> chain (u_mem s) l2 e -> e < bp -> 1 <= bs -> gaps l2 -> Forall (fun b => 1 <= b.2) l2 ->
  match l2 with [] => True | b :: _ => bp + bs <= b.1 end -> Forall (fun b => b.1 + b.2 <= u_brk s) l2 -> bp + bs <= u_brk s < 536870912 -> 0 < bp ->
  exists nb l2',
    (if bp + bs =? first l2 e then q ← rdh (first l2 e); set_size bp (u32 (bs + h_size q));; set_ptr bp (h_ptr q) else set_ptr bp (first l2 e)) s =
      Ret tt (setm s (<[bp := mkhdr (first l2' e) nb]> (u_mem s))) /\
    seqZ bp bs ++ units l2 = seqZ bp nb ++ units l2' /\ chain (u_mem s) l2' e /\ gaps ((bp, nb) :: l2') /\ bs <= nb /\
    (forall x, x ∈ l2' -> x ∈ l2) /\ bp + nb <= u_brk s /\ (length l2' <= length l2)%nat.
Proof.
  intros Hb Hc He Hbs Hg Hp Hn Hi Hbrk H0. destruct l2 as [|[q qs] l2]; [change (first [] e) with e|change (first ((q, qs) :: l2) e) with q].
  - destruct (Z.eqb_spec (bp + bs) e); [lia|]. cbv iota. exists bs, []. rewrite (set_ptr_run _ _ _ _ Hb). repeat split; try done. lia.
  - destruct Hc as [Hq Hc]. simpl in Hq, Hn. apply Forall_cons in Hp as [Hqs Hp]. apply Forall_cons in Hi as [Hi _]. simpl in Hqs, Hi.
    destruct (Z.eqb_spec (bp + bs) q) as [E|E]; cbv iota.
    + exists (bs + qs), l2. mstep (rdh_run s q _ Hq). cbn [h_size h_ptr]. rewrite u32_id by (unfold two32; lia). rewrite (set_both_run _ _ _ _ _ Hb).
      split; [done|]. split; [|split; [done|split; [|split; [lia|split; [intros x Hx; by right|split; [lia|simpl; lia]]]]]].
      * unfold units. simpl. rewrite (seqZ_app bp bs qs) by lia. by rewrite E, app_assoc.
      * destruct l2 as [|[q2 qs2] l2]; [done|]. simpl in *. split; [lia|tauto].
    + exists bs, ((q, qs) :: l2). rewrite (set_ptr_run _ _ _ _ Hb). split; [done|]. split; [done|]. split; [by split|].
      split; [split; [simpl; lia|done]|]. split; [lia|]. split; [done|]. split; [lia|done].
Qed.

(** The second half: the block below. *)
Lemma free_left {B} s p ps pq bp nb bq (K : M uheap B) :
  u_mem s !! p = Some (mkhdr pq ps) -> u_mem s !! bp = Some (mkhdr bq nb) -> 0 <= ps -> 0 <= nb -> ps + nb < 536870912 ->
  (h ← rdh p; b ← rdh bp; (if p + h_size h =? bp then set_size p (u32 (h_size h + h_size b));; set_ptr p (h_ptr b) else set_ptr p bp);; K) s =
  K (setm s (<[p := (if p + ps =? bp then mkhdr bq (ps + nb) else mkhdr bp ps)]> (u_mem s))).
Proof.
  intros Hp Hb Hps Hnb Hlt. mstep (rdh_run s p _ Hp). mstep (rdh_run s bp _ Hb). cbn [h_size h_ptr]. destruct (Z.eqb_spec (p + ps) bp); cbv iota.
  - rewrite u32_id by (unfold two32; lia). by mstep (set_both_run _ _ _ (ps + nb) bq Hp).
  - by mstep (set_ptr_run _ _ _ bp Hp).
Qed.

Lemma al_apart lo s fl al bp bs b : heap_ok lo s fl ((bp, bs) :: al) -> b ∈ al -> disjoint (bp, bs) b.
Proof.
  intros H Hb. pose proof (hk_in lo s fl _ H (bp, bs) ltac:(apply elem_of_app; right; left)). pose proof (hk_in lo s fl _ H b ltac:(apply elem_of_app; right; by right)).
  apply (units_disjoint (al ++ fl)); [|apply elem_of_app; by left|simpl in *; lia|lia]. assert (E : units ((bp, bs) :: al ++ fl) ≡ₚ seqZ lo (u_brk s - lo)).
  { rewrite <- (hk_part _ _ _ _ H). apply units_proper. rewrite (Permutation_app_comm fl). done. }
  rewrite E. apply NoDup_seqZ.
Qed.

(** A heap in which the block [(bp, bs)] has been given back. *)
Lemma rebuild lo s fl al bp bs s' fl' :
  heap_ok lo s fl ((bp, bs) :: al) -> u_brk s' = u_brk s -> chain (u_mem s') ((base, 0) :: fl') base ->
  (exists i b, ((base, 0) :: fl') !! i = Some b /\ u_freep s' = b.1) -> gaps ((base, 0) :: fl') -> Forall (fun b => 1 <= b.2) fl' ->
  units (fl' ++ al) ≡ₚ units (fl ++ (bp, bs) :: al) ->
  (forall a, a <> bp -> (forall b, b ∈ (base, 0) :: fl -> b.1 <> a) -> u_mem s' !! a = u_mem s !! a) -> heap_ok lo s' fl' al.
Proof.
  intros H E1 Hc Hf Hg Hp Hu Hm. pose proof H as [A1 A2 A3 A4 A5 A6 A7 A8]. apply Forall_app in A6 as [_ A6]. apply Forall_cons in A6 as [_ A6]. apply Forall_cons in A7 as [_ A7].
  split; rewrite ?E1; try done; [by apply Forall_app| |by rewrite Hu].
  apply Forall_forall. intros b Hb. rewrite Forall_forall in A7. rewrite Hm; [by apply A7| |].
  - pose proof (al_apart lo s fl al bp bs b H Hb) as Hd. unfold disjoint in Hd. simpl in Hd.
    pose proof (hk_in lo s fl _ H (bp, bs) ltac:(apply elem_of_app; right; left)). pose proof (hk_in lo s fl _ H b ltac:(apply elem_of_app; right; by right)). simpl in *. lia.
  - intros x Hx. pose proof (hk_in lo s fl _ H b ltac:(apply elem_of_app; right; by right)) as Hb1. apply elem_of_cons in Hx as [->|Hx]; [simpl; lia|].
    pose proof (hk_in lo s fl _ H x ltac:(apply elem_of_app; by left)). pose proof (hk_apart lo s fl _ H x b Hx ltac:(by right)) as Hd. unfold disjoint in Hd. lia.
Qed.

(** Linking the block in, or joining it with the one below. *)
Lemma relink m pre p l2 l2' bp nb e :
  chain m (pre ++ p :: l2) e -> chain m l2' e -> (forall x, x ∈ l2' -> x ∈ l2) -> NoDup (pre ++ p :: l2).*1 ->
  (forall b, b ∈ pre ++ p :: l2 -> b.1 <> bp) ->
  let m1 := <[bp := mkhdr (first l2' e) nb]> m in
  chain (<[p.1 := mkhdr bp p.2]> m1) (pre ++ p :: (bp, nb) :: l2') e /\
  chain (<[p.1 := mkhdr (first l2' e) (p.2 + nb)]> m1) (pre ++ (p.1, p.2 + nb) :: l2') e.
Proof.
  intros Hc Hc' Hsub Hnd Hbp m1. rewrite fmap_app in Hnd. apply NoDup_app in Hnd as (_ & Hd & Hnd). apply NoDup_cons in Hnd as [Hp _].
  assert (Hp1 : p.1 ∉ pre.*1) by (intros Hin; apply (Hd p.1 Hin); left).
  assert (Hb1 : bp ∉ pre.*1). { intros Hin. apply list_elem_of_fmap in Hin as (b & Eb & Hb). apply (Hbp b); [apply elem_of_app; by left|done]. }
  assert (Hp2 : p.1 ∉ l2'.*1). { intros Hin. apply list_elem_of_fmap in Hin as (b & Eb & Hb). apply Hp. rewrite Eb. apply list_elem_of_fmap. exists b. split; [done|by apply Hsub]. }
  assert (Hb2 : bp ∉ l2'.*1). { intros Hin. apply list_elem_of_fmap in Hin as (b & Eb & Hb). apply (Hbp b); [apply elem_of_app; right; right; by apply Hsub|done]. }
  assert (Hpb : p.1 <> bp) by (apply Hbp, elem_of_app; right; left). rewrite chain_app in Hc. simpl in Hc. destruct Hc as (Hpre & Hph & _).
  assert (Hl : forall h, chain (<[p.1 := h]> m1) l2' e) by (intros h; unfold m1; by repeat apply chain_insert).
  assert (Hpr : forall h, chain (<[p.1 := h]> m1) pre p.1) by (intros h; unfold m1; by repeat apply chain_insert).
  split; apply chain_app; (split; [apply Hpr|]); cbn [chain fst snd first]; (split; [by rewrite lookup_insert_eq|]).
  - split; [|apply Hl]. unfold m1. rewrite lookup_insert_ne by done. apply lookup_insert_eq.
  - apply Hl.
Qed.

(** Where the block goes. *)
Lemma free_place lo s fl al bp bs :
  heap_ok lo s fl ((bp, bs) :: al) ->
  exists pre p l2, (base, 0) :: fl = pre ++ p :: l2 /\ p.1 + p.2 <= bp /\ match l2 with [] => True | b :: _ => bp + bs <= b.1 end /\
    (forall x, x ∈ l2 -> bp < x.1) /\ free_loop (S (size (u_mem s))) bp (u_freep s) s = Ret p.1 s /\ (pre = [] -> p = (base, 0)) /\ (forall x, x ∈ pre ++ p :: l2 -> x.1 <> bp).
Proof.
  intros H. pose proof (hk_in lo s fl _ H (bp, bs) ltac:(apply elem_of_app; right; left)) as Hbp. simpl in Hbp. pose proof (hk_base _ _ _ _ H) as Hbase.
  assert (Hd : forall x, x ∈ fl -> x.1 + x.2 <= bp \/ bp + bs <= x.1) by (intros x Hx; apply (hk_apart lo s fl _ H x (bp, bs) Hx); left).
  assert (Hpos : forall x, x ∈ fl -> 1 <= x.2) by (intros x Hx; apply (hk_in lo s fl _ H x), elem_of_app; by left).
  destruct (split_addr fl bp) as (l1 & l2 & E & F1 & F2). rewrite Forall_forall in F1.
  destruct (exists_last (l := (base, 0) :: l1)) as (pre & p & Ep); [done|]. exists pre, p, l2.
  assert (Ec : (base, 0) :: fl = pre ++ p :: l2). { rewrite E. change ((base, 0) :: l1 ++ l2) with (((base, 0) :: l1) ++ l2). by rewrite Ep, <- app_assoc. }
  assert (Hlow : forall x, x ∈ (base, 0) :: l1 -> x.1 + x.2 <= bp /\ x.1 < bp).
  { intros x Hx. apply elem_of_cons in Hx as [->|Hx]; [simpl; lia|]. pose proof (F1 x Hx). pose proof (Hd x ltac:(rewrite E; apply elem_of_app; by left)).
    pose proof (Hpos x ltac:(rewrite E; apply elem_of_app; by left)). lia. }
  assert (Hup : forall i x, l2 !! i = Some x -> bp + bs <= x.1).
  { intros i x Hx. assert (Hin : x ∈ fl) by (rewrite E; apply elem_of_app; right; by eapply list_elem_of_lookup_2). pose proof (Hpos x Hin). destruct (Hd x Hin) as [Hbad|]; [|done]. exfalso.
    destruct l2 as [|y l2]; [done|]. destruct i as [|i]; [injection Hx as ->; lia|].
    assert (Hlt : y.1 < x.1). { apply (hk_addr_lt lo s fl _ H (length pre + 1) (length pre + 1 + S i)); [| |lia]; rewrite Ec.
      - rewrite lookup_app_r by lia. by replace (length pre + 1 - length pre)%nat with 1%nat by lia.
      - rewrite lookup_app_r by lia. by replace (length pre + 1 + S i - length pre)%nat with (S (S i)) by lia. }
    lia. }
  assert (Hp : p ∈ (base, 0) :: l1) by (rewrite Ep; apply elem_of_app; right; left).
  assert (Hall : forall i b, (pre ++ p :: l2) !! i = Some b -> (b.1 < bp <-> (i <= length pre)%nat) /\ b.1 <> bp).
  { intros i b Hb. replace (pre ++ p :: l2) with ((pre ++ [p]) ++ l2) in Hb by by rewrite <- app_assoc. apply lookup_app_Some in Hb as [Hb|[Hi Hb]].
    - pose proof (lookup_lt_Some _ _ _ Hb) as Hi. rewrite length_app in Hi. simpl in Hi. rewrite <- Ep in Hb. apply list_elem_of_lookup_2, Hlow in Hb. lia.
    - rewrite length_app in Hi. simpl in Hi. apply Hup in Hb. lia. }
  split; [done|]. split; [apply Hlow, Hp|]. split; [destruct l2 as [|y l2]; [done|by apply (Hup 0%nat)]|]. split; [intros x Hx; apply list_elem_of_lookup in Hx as [i Hx]; apply Hup in Hx; lia|].
  split; [|split].
  - destruct (hk_freep _ _ _ _ H) as (i & b & Hi & ->). pose proof (hk_length lo s fl _ H) as Hlen. pose proof (lookup_lt_Some _ _ _ Hi) as Hlt.
    rewrite <- (addr_lookup _ i b Hi). rewrite (free_loop_run lo s fl _ bp (length pre) H).
    + rewrite Ec. unfold addr. by rewrite list_lookup_middle.
    + lia.
    + rewrite Ec, length_app. simpl. lia.
    + intros k x Hx. rewrite Ec in Hx. by apply Hall.
    + intros k x Hx. rewrite Ec in Hx. by apply (Hall k).
    + done.
    + rewrite Ec in *. rewrite length_app in *. simpl in *. destruct (decide _); lia.
  - intros ->. by injection Ep as <- _.
  - intros x Hx. apply list_elem_of_lookup in Hx as [i Hx]. by apply (Hall i).
Qed.

Lemma units_base l : units ((base, 0) :: l) = units l.
Proof. done. Qed.

(** The free list after [free]: the block is linked in, or joined with the one
    below. *)
Section freeing.
Context (lo : Z) (s : uheap) (fl al : list block) (bp bs nb : Z) (pre : list block) (p : block) (l2 l2' : list block).
Context (H : heap_ok lo s fl ((bp, bs) :: al)) (Ec : (base, 0) :: fl = pre ++ p :: l2) (Hpre : pre = [] -> p = (base, 0)).
Context (Hne : forall x, x ∈ pre ++ p :: l2 -> x.1 <> bp) (Hpb : p.1 + p.2 <= bp) (Hup : forall x, x ∈ l2 -> bp < x.1).
Context (Hc3 : chain (u_mem s) l2' base) (Hsub : forall x, x ∈ l2' -> x ∈ l2) (Eu : seqZ bp bs ++ units l2 = seqZ bp nb ++ units l2').
Context (Hg3 : gaps ((bp, nb) :: l2')) (Hnb : bs <= nb).
Local Notation m1 := (<[bp := mkhdr (first l2' base) nb]> (u_mem s)).

Lemma freeing_bp : lo <= bp /\ bp + bs <= u_brk s /\ 1 <= bs.
Proof. pose proof (hk_in lo s fl _ H (bp, bs) ltac:(apply elem_of_app; right; left)) as Hb. simpl in Hb. tauto. Qed.

Lemma freeing_pos x : x ∈ pre ++ p :: l2 -> x = (base, 0) \/ 1 <= x.2.
Proof.
  rewrite <- Ec. intros Hx. apply elem_of_cons in Hx as [->|Hx]; [by left|right]. apply (hk_in lo s fl _ H x), elem_of_app. by left.
Qed.

Lemma freeing_pos' x : x ∈ l2' -> 1 <= x.2.
Proof.
  intros Hx. apply Hsub in Hx. destruct (freeing_pos x) as [->|]; [apply elem_of_app; right; by right| |done]. apply Hup in Hx. simpl in Hx.
  pose proof freeing_bp. pose proof (hk_base _ _ _ _ H). lia.
Qed.

Lemma freeing_fl x : x ∈ fl -> 1 <= x.2.
Proof. intros Hx. apply (hk_in lo s fl _ H x), elem_of_app. by left. Qed.

(** The rest of the memory is not touched. *)
Lemma freeing_frame h a : a <> bp -> (forall b, b ∈ (base, 0) :: fl -> b.1 <> a) -> <[p.1 := h]> m1 !! a = u_mem s !! a.
Proof.
  intros Ha Hn. rewrite lookup_insert_ne; [by rewrite lookup_insert_ne|]. apply Hn. rewrite Ec. apply elem_of_app. right. left.
Qed.

Lemma freeing_chains :
  chain (<[p.1 := mkhdr bp p.2]> m1) (pre ++ p :: (bp, nb) :: l2') base /\
  chain (<[p.1 := mkhdr (first l2' base) (p.2 + nb)]> m1) (pre ++ (p.1, p.2 + nb) :: l2') base.
Proof.
  pose proof (hk_chain _ _ _ _ H) as Hc. pose proof (hk_nodup lo s fl _ H) as Hnd. rewrite Ec in Hc, Hnd. by apply (relink (u_mem s) pre p l2 l2' bp nb base).
Qed.

Lemma freeing_link : p.1 + p.2 <> bp ->
  exists fl', heap_ok lo (mkuheap (<[p.1 := mkhdr bp p.2]> m1) p.1 (u_brk s)) fl' al /\ (exists b, b ∈ fl' /\ bs <= b.2) /\ (base, 0) :: fl' = pre ++ p :: (bp, nb) :: l2'.
Proof.
  intros E. pose proof freeing_chains as [C _]. pose proof freeing_bp as Hbp.
  assert (Hex : exists fl', (base, 0) :: fl' = pre ++ p :: (bp, nb) :: l2' /\ (forall x, x ∈ fl' -> 1 <= x.2) /\ (bp, nb) ∈ fl').
  { pose proof Ec as E1. pose proof Hpre as E2. pose proof freeing_pos' as P1. pose proof freeing_fl as P2. clear - E1 E2 P1 P2 Hbp Hnb. destruct pre as [|b0 pre'].
    - rewrite (E2 eq_refl). exists ((bp, nb) :: l2'). split; [done|]. split; [|left]. intros x Hx. apply elem_of_cons in Hx as [->|Hx]; [simpl; lia|by apply P1].
    - injection E1 as <- E1. exists (pre' ++ p :: (bp, nb) :: l2'). split; [done|]. split; [|apply elem_of_app; right; right; left]. intros x Hx.
      apply elem_of_app in Hx as [Hx|Hx]; [apply P2; rewrite E1; apply elem_of_app; by left|].
      apply elem_of_cons in Hx as [->|Hx]; [apply P2; rewrite E1; apply elem_of_app; right; left|].
      apply elem_of_cons in Hx as [->|Hx]; [simpl; lia|by apply P1]. }
  destruct Hex as (fl' & Ef & Hp & Hin). exists fl'. split; [|split; [by exists (bp, nb)|done]].
  apply (rebuild lo s fl al bp bs _ fl' H); try done.
  - rewrite Ef. exact C.
  - exists (length pre), p. split; [|done]. rewrite Ef. by apply list_lookup_middle.
  - rewrite Ef. apply gaps_snoc. pose proof (hk_gaps _ _ _ _ H) as Hg. rewrite Ec in Hg. apply gaps_snoc in Hg as [Hg _]. split; [done|]. split; [simpl; lia|done].
  - by apply Forall_forall.
  - rewrite !units_app, <- (units_base fl'), <- (units_base fl), Ef, Ec. rewrite !units_app. unfold units at 2 4. simpl. fold (units l2') (units l2). rewrite <- Eu.
    change (units ((bp, bs) :: al)) with (seqZ bp bs ++ units al). solve_Permutation.
  - intros a. apply freeing_frame.
Qed.

Lemma freeing_join : p.1 + p.2 = bp ->
  exists fl', heap_ok lo (mkuheap (<[p.1 := mkhdr (first l2' base) (p.2 + nb)]> m1) p.1 (u_brk s)) fl' al /\ (exists b, b ∈ fl' /\ bs <= b.2) /\
    (base, 0) :: fl' = pre ++ (p.1, p.2 + nb) :: l2'.
Proof.
  intros E. pose proof freeing_chains as [_ C]. pose proof freeing_bp as Hbp. pose proof (hk_base _ _ _ _ H) as Hbase. pose proof (hk_nonneg lo s fl _ H) as H0.
  assert (Hps : 0 <= p.2). { rewrite Ec in H0. apply Forall_app in H0 as [_ H0]. by apply Forall_cons in H0 as [? _]. }
  assert (Hex : exists fl', (base, 0) :: fl' = pre ++ (p.1, p.2 + nb) :: l2' /\ (forall x, x ∈ fl' -> 1 <= x.2) /\ (p.1, p.2 + nb) ∈ fl').
  { pose proof Ec as E1. pose proof Hpre as E2. pose proof freeing_pos' as P1. pose proof freeing_fl as P2. clear - E1 E2 P1 P2 Hbp Hnb E Hbase Hps. destruct pre as [|b0 pre'].
    - rewrite (E2 eq_refl) in E. simpl in E. lia.
    - injection E1 as <- E1. exists (pre' ++ (p.1, p.2 + nb) :: l2'). split; [done|]. split; [|apply elem_of_app; right; left]. intros x Hx.
      apply elem_of_app in Hx as [Hx|Hx]; [apply P2; rewrite E1; apply elem_of_app; by left|]. apply elem_of_cons in Hx as [->|Hx]; [simpl; lia|by apply P1]. }
  destruct Hex as (fl' & Ef & Hp & Hin). exists fl'. split; [|split; [exists (p.1, p.2 + nb); split; [done|simpl; lia]|done]].
  apply (rebuild lo s fl al bp bs _ fl' H); try done.
  - rewrite Ef. exact C.
  - exists (length pre), (p.1, p.2 + nb). split; [|done]. rewrite Ef. by apply list_lookup_middle.
  - rewrite Ef. apply gaps_snoc. pose proof (hk_gaps _ _ _ _ H) as Hg. rewrite Ec in Hg. apply gaps_snoc in Hg as [Hg _]. split; [by apply (gaps_last pre p)|].
    destruct Hg3 as [G1 G2]. split; [|done]. destruct l2' as [|x l]; [done|]. simpl in *. lia.
  - by apply Forall_forall.
  - rewrite !units_app, <- (units_base fl'), <- (units_base fl), Ef, Ec. rewrite !units_app. unfold units at 2 4. simpl. fold (units l2') (units l2).
    rewrite (seqZ_app p.1 p.2 nb), E by lia. rewrite <- (app_assoc (seqZ p.1 p.2)), <- Eu. change (units ((bp, bs) :: al)) with (seqZ bp bs ++ units al). solve_Permutation.
  - intros a. apply freeing_frame.
Qed.
End freeing.

Lemma free_run lo s fl al bp bs :
  heap_ok lo s fl ((bp, bs) :: al) ->
  exists s' fl', free (bp + 1) s = Ret tt s' /\ heap_ok lo s' fl' al /\ u_brk s' = u_brk s /\ (exists b, b ∈ fl' /\ bs <= b.2) /\ (length fl' <= S (length fl))%nat.
Proof.
  intros H. destruct (free_place lo s fl al bp bs H) as (pre & p & l2 & Ec & Hpb & Hn & Hup & Hloop & Hpre & Hne).
  pose proof (hk_in lo s fl _ H (bp, bs) ltac:(apply elem_of_app; right; left)) as Hbp. simpl in Hbp. pose proof (hk_base _ _ _ _ H) as Hbase. pose proof (hk_brk _ _ _ _ H) as Hbrk.
  pose proof (hk_chain _ _ _ _ H) as Hc. pose proof (hk_gaps _ _ _ _ H) as Hg. pose proof (hk_nonneg lo s fl _ H) as H0.
  assert (Hin2 : forall x, x ∈ l2 -> x.1 + x.2 <= u_brk s /\ 1 <= x.2).
  { intros x Hx. apply (hk_in lo s fl _ H x), elem_of_app. left. assert (Hin : x ∈ (base, 0) :: fl) by (rewrite Ec; apply elem_of_app; right; by right).
    apply elem_of_cons in Hin as [->|]; [|done]. apply Hup in Hx. simpl in Hx. lia. }
  rewrite Ec in Hc, Hg, H0. rewrite chain_app in Hc. simpl in Hc. destruct Hc as (_ & Hph & Hc2). apply gaps_snoc in Hg as [_ Hg2].
  assert (Hbh : exists ptr, u_mem s !! bp = Some (mkhdr ptr bs)).
  { pose proof (hk_al _ _ _ _ H) as Ha. apply Forall_cons in Ha as [Ha _]. simpl in Ha. destruct (u_mem s !! bp) as [[ptr sz]|]; [|done]. injection Ha as ->. by exists ptr. }
  destruct Hbh as [ptr Hbh]. apply Forall_app in H0 as [_ H0]. apply Forall_cons in H0 as [Hps _].
  assert (Hp0 : 0 <= p.1). { assert (Hin : p ∈ (base, 0) :: fl) by (rewrite Ec; apply elem_of_app; right; left). apply elem_of_cons in Hin as [->|Hin]; [simpl; lia|].
    pose proof (hk_in lo s fl _ H p ltac:(apply elem_of_app; by left)). lia. }
  destruct (free_right s bp bs ptr l2 base Hbh Hc2) as (nb & l2' & R1 & Eu & Hc3 & Hg3 & Hnb & Hsub & Hnbl & Hll); try lia; try done; [apply Hg2| | |];
    [apply Forall_forall; intros x Hx; by apply Hin2|apply Forall_forall; intros x Hx; by apply Hin2|].
  assert (Hpne : p.1 <> bp) by (apply Hne, elem_of_app; right; left).
  unfold free. replace (bp + 1 - 1) with bp by lia. rewrite bind_get. mstep Hloop. mstep (rdh_run s p.1 _ Hph). mstep (rdh_run s bp _ Hbh). cbn [h_size h_ptr]. mstep R1.
  rewrite (free_left (setm s _) p.1 p.2 (first l2 base) bp nb (first l2' base) (set_freep p.1)); [|simpl; by rewrite lookup_insert_ne|apply lookup_insert_eq|lia|lia|lia].
  assert (Hlen : S (length fl) = (length pre + S (length l2))%nat) by (change (S (length fl)) with (length ((base, 0) :: fl)); rewrite Ec, length_app; done).
  destruct (Z.eqb_spec (p.1 + p.2) bp) as [E|E].
  - destruct (freeing_join lo s fl al bp bs nb pre p l2 l2' H Ec Hpre Hne Hup Hc3 Hsub Eu Hg3 Hnb E) as (fl' & Hok & Hex & Ef).
    eexists _, fl'. split; [done|]. split; [exact Hok|]. split; [done|]. split; [done|]. apply (f_equal length) in Ef. rewrite length_app in Ef. simpl in Ef. lia.
  - destruct (freeing_link lo s fl al bp bs nb pre p l2 l2' H Ec Hpre Hne Hpb Hup Hc3 Hsub Eu Hg3 Hnb E) as (fl' & Hok & Hex & Ef).
    eexists _, fl'. split; [done|]. split; [exact Hok|]. split; [done|]. split; [done|]. apply (f_equal length) in Ef. rewrite length_app in Ef. simpl in Ef. lia.
Qed.

(** ** [malloc] *)

(** A heap in which the block [(r, n)] has been handed out. *)
Lemma rebuild_alloc lo s fl al s' fl' r n :
  heap_ok lo s fl al -> u_brk s' = u_brk s -> chain (u_mem s') ((base, 0) :: fl') base ->
  (exists i b, ((base, 0) :: fl') !! i = Some b /\ u_freep s' = b.1) -> gaps ((base, 0) :: fl') -> Forall (fun b => 1 <= b.2) fl' -> 1 <= n ->
  h_size <$> u_mem s' !! r = Some n -> units (fl' ++ (r, n) :: al) ≡ₚ units (fl ++ al) ->
  (forall b, b ∈ al -> u_mem s' !! b.1 = u_mem s !! b.1) -> heap_ok lo s' fl' ((r, n) :: al).
Proof.
  intros H E1 Hc Hf Hg Hp Hn Hr Hu Hm. pose proof H as [A1 A2 A3 A4 A5 A6 A7 A8]. apply Forall_app in A6 as [_ A6].
  split; rewrite ?E1; try done; [apply Forall_app; split; [done|by constructor]| |by rewrite Hu].
  constructor; [done|]. apply Forall_forall. intros b Hb. rewrite Forall_forall in A7. rewrite Hm by done. by apply A7.
Qed.

Section taking.
Context (lo : Z) (s : uheap) (fl al : list block) (P : list block) (y x : block) (Q : list block) (n : Z).
Context (H : heap_ok lo s fl al) (Ec : (base, 0) :: fl = P ++ y :: x :: Q) (Hn : 1 <= n <= x.2).
Local Notation c := ((base, 0) :: fl).

Lemma taking_tail : exists F, P ++ [y] = (base, 0) :: F /\ fl = F ++ x :: Q.
Proof.
  pose proof Ec as E. clear - E. destruct P as [|b0 P']; simpl in E; injection E as <- ->; [by exists []|]. exists (P' ++ [y]). split; [done|]. by rewrite <- app_assoc.
Qed.

Lemma taking_x : x ∈ fl.
Proof. destruct taking_tail as (F & _ & ->). apply elem_of_app. right. left. Qed.

(** The headers of the allocated blocks are elsewhere. *)
Lemma taking_al b : b ∈ al -> b.1 <> y.1 /\ ~ (x.1 <= b.1 < x.1 + x.2).
Proof.
  intros Hb. pose proof (hk_in lo s fl al H b ltac:(apply elem_of_app; by right)) as Hb1. pose proof (hk_base _ _ _ _ H). split.
  - assert (Hy : y ∈ c) by (rewrite Ec; apply elem_of_app; right; left). apply elem_of_cons in Hy as [->|Hy]; [simpl; lia|].
    pose proof (hk_apart lo s fl al H y b Hy Hb) as Hd. unfold disjoint in Hd. pose proof (hk_in lo s fl al H y ltac:(apply elem_of_app; by left)). lia.
  - pose proof (hk_apart lo s fl al H x b taking_x Hb) as Hd. unfold disjoint in Hd. lia.
Qed.

(** No other header lies in the block. *)
Lemma taking_other b : b ∈ P ++ y :: Q -> b.1 < x.1 \/ x.1 + x.2 < b.1.
Proof.
  intros Hb. assert (Hx : c !! S (length P) = Some x) by (rewrite Ec, lookup_app_r by lia; by replace (S (length P) - length P)%nat with 1%nat by lia).
  pose proof (hk_nonneg lo s fl al H) as H0. rewrite Forall_forall in H0.
  replace (P ++ y :: Q) with ((P ++ [y]) ++ Q) in Hb by by rewrite <- app_assoc. apply elem_of_app in Hb as [Hb|Hb]; apply list_elem_of_lookup in Hb as [i Hi]; pose proof (lookup_lt_Some _ _ _ Hi) as Hl.
  - left. rewrite length_app in Hl. simpl in Hl. apply (hk_addr_lt lo s fl al H i (S (length P)) b x); [|done|lia].
    rewrite Ec. replace (P ++ y :: x :: Q) with ((P ++ [y]) ++ x :: Q) by by rewrite <- app_assoc. rewrite lookup_app_l; [done|]. rewrite length_app. simpl. lia.
  - right. apply (hk_lt lo s fl al H (S (length P)) (S (S (length P)) + i) x b Hx); [|lia].
    rewrite Ec, lookup_app_r by lia. by replace (S (S (length P)) + i - length P)%nat with (S (S i)) by lia.
Qed.

Lemma taking_headers : u_mem s !! y.1 = Some (mkhdr x.1 y.2) /\ u_mem s !! x.1 = Some (mkhdr (first Q base) x.2) /\ chain (u_mem s) P y.1 /\ chain (u_mem s) Q base.
Proof. pose proof (hk_chain _ _ _ _ H) as Hc. rewrite Ec, chain_app in Hc. simpl in Hc. destruct Hc as (A & B & C & D). done. Qed.

Lemma taking_nodup : (y.1 ∉ P.*1) /\ (y.1 ∉ Q.*1) /\ (x.1 ∉ P.*1) /\ (x.1 ∉ Q.*1) /\ y.1 <> x.1.
Proof.
  pose proof (hk_nodup lo s fl al H) as Hnd. rewrite Ec in Hnd. rewrite fmap_app in Hnd. simpl in Hnd. apply NoDup_app in Hnd as (_ & Hd & Hnd).
  apply NoDup_cons in Hnd as [Hy Hnd]. apply NoDup_cons in Hnd as [Hx _]. apply not_elem_of_cons in Hy as [Hyx Hy]. split_and!; try done; intros Hin; apply (Hd _ Hin); [left|right; left].
Qed.

Lemma taking_gaps : gaps (P ++ [y]) /\ gaps (y :: Q) /\ gaps (x :: Q) /\ y.1 + y.2 < x.1.
Proof.
  pose proof (hk_gaps _ _ _ _ H) as Hg. rewrite Ec in Hg. apply gaps_snoc in Hg as (G1 & G2 & G3). split; [done|]. split; [|by split].
  destruct G3 as [G3 G4]. split; [|done]. destruct Q as [|z Q']; [done|]. simpl in *. lia.
Qed.

(** The block fits exactly. *)
Lemma take_all : x.2 = n -> exists fl', heap_ok lo (mkuheap (<[y.1 := mkhdr (first Q base) y.2]> (u_mem s)) y.1 (u_brk s)) fl' ((x.1, n) :: al).
Proof.
  intros E. destruct taking_tail as (F & EF & Efl). destruct taking_headers as (Hy & Hx & HP & HQ). destruct taking_nodup as (N1 & N2 & N3 & N4 & N5). destruct taking_gaps as (G1 & G2 & _ & _).
  exists (F ++ Q). assert (Ec' : (base, 0) :: F ++ Q = P ++ y :: Q). { change ((base, 0) :: F ++ Q) with (((base, 0) :: F) ++ Q). rewrite <- EF. by rewrite <- app_assoc. }
  apply (rebuild_alloc lo s fl al _ (F ++ Q) x.1 n H); try done.
  - rewrite Ec'. apply chain_app. split; [by apply chain_insert|]. split; [simpl; by rewrite lookup_insert_eq|by apply chain_insert].
  - exists (length P), y. split; [|done]. rewrite Ec'. by apply list_lookup_middle.
  - rewrite Ec'. by apply gaps_snoc.
  - pose proof (hk_pos _ _ _ _ H) as Hp. rewrite Efl in Hp. apply Forall_app in Hp as [Hp _]. apply Forall_app in Hp as [HF HQ']. apply Forall_cons in HQ' as [_ HQ']. by apply Forall_app.
  - lia.
  - simpl. rewrite lookup_insert_ne by done. rewrite Hx. simpl. by rewrite E.
  - rewrite Efl. rewrite !units_app. change (units ((x.1, n) :: al)) with (seqZ x.1 n ++ units al). change (units (x :: Q)) with (seqZ x.1 x.2 ++ units Q). rewrite E. solve_Permutation.
  - intros b Hb. simpl. rewrite lookup_insert_ne; [done|]. destruct (taking_al b Hb). done.
Qed.

(** The end of the block is taken. *)
Lemma take_part q h : n < x.2 -> q = x.1 + (x.2 - n) -> h_size h = n ->
  exists fl', heap_ok lo (mkuheap (<[q := h]> (<[x.1 := mkhdr (first Q base) (x.2 - n)]> (u_mem s))) y.1 (u_brk s)) fl' ((q, n) :: al).
Proof.
  intros E -> Hh. destruct taking_tail as (F & EF & Efl). destruct taking_headers as (Hy & Hx & HP & HQ). destruct taking_nodup as (N1 & N2 & N3 & N4 & N5). destruct taking_gaps as (G1 & _ & G2 & G3).
  set (q := x.1 + (x.2 - n)). assert (Hq : forall b, b ∈ P ++ y :: Q -> b.1 <> q) by (intros b Hb; pose proof (taking_other b Hb); lia).
  assert (HqP : q ∉ P.*1). { intros Hin. apply list_elem_of_fmap in Hin as (b & Eb & Hb). apply (Hq b); [apply elem_of_app; by left|done]. }
  assert (HqQ : q ∉ Q.*1). { intros Hin. apply list_elem_of_fmap in Hin as (b & Eb & Hb). apply (Hq b); [apply elem_of_app; right; by right|done]. }
  assert (Hqy : q <> y.1) by (intros E'; apply (Hq y); [apply elem_of_app; right; left|done]).
  exists (F ++ (x.1, x.2 - n) :: Q). assert (Ec' : (base, 0) :: F ++ (x.1, x.2 - n) :: Q = P ++ y :: (x.1, x.2 - n) :: Q).
  { change ((base, 0) :: F ++ (x.1, x.2 - n) :: Q) with (((base, 0) :: F) ++ (x.1, x.2 - n) :: Q). rewrite <- EF. by rewrite <- app_assoc. }
  apply (rebuild_alloc lo s fl al _ (F ++ (x.1, x.2 - n) :: Q) q n H); try done.
  - rewrite Ec'. apply chain_app. split; [by repeat apply chain_insert|]. split; [simpl; rewrite !lookup_insert_ne by (done || lia); done|].
    split; [simpl; rewrite lookup_insert_ne by lia; by rewrite lookup_insert_eq|by repeat apply chain_insert].
  - exists (length P), y. split; [|done]. rewrite Ec'. by apply list_lookup_middle.
  - rewrite Ec'. apply gaps_snoc. split; [done|]. split; [done|]. destruct G2 as [G2 G4]. split; [|done]. destruct Q as [|z Q']; [done|]. simpl in *. lia.
  - pose proof (hk_pos _ _ _ _ H) as Hp. rewrite Efl in Hp. apply Forall_app in Hp as [Hp _]. apply Forall_app in Hp as [HF HQ']. apply Forall_cons in HQ' as [_ HQ'].
    apply Forall_app. split; [done|]. constructor; [simpl; lia|done].
  - lia.
  - simpl. rewrite lookup_insert_eq. simpl. by rewrite Hh.
  - rewrite Efl. rewrite !units_app. change (units ((q, n) :: al)) with (seqZ q n ++ units al). change (units (x :: Q)) with (seqZ x.1 x.2 ++ units Q).
    change (units ((x.1, x.2 - n) :: Q)) with (seqZ x.1 (x.2 - n) ++ units Q). replace x.2 with (x.2 - n + n) at 2 by lia. rewrite (seqZ_app x.1 (x.2 - n) n) by lia. fold q. solve_Permutation.
  - intros b Hb. simpl. destruct (taking_al b Hb) as [_ Hb']. rewrite !lookup_insert_ne by lia. done.
Qed.
End taking.

Lemma malloc_take lo s fl al j y x n fuel :
  heap_ok lo s fl al -> ((base, 0) :: fl) !! j = Some y -> ((base, 0) :: fl) !! S j = Some x -> 1 <= n <= x.2 ->
  exists r s' fl', malloc_loop grant (S fuel) n y.1 x.1 s = Ret (r + 1) s' /\ heap_ok lo s' fl' ((r, n) :: al) /\ u_brk s' = u_brk s.
Proof.
  intros H Hy Hx Hn. set (P := take j ((base, 0) :: fl)). set (Q := drop (S (S j)) ((base, 0) :: fl)).
  assert (Ec : (base, 0) :: fl = P ++ y :: x :: Q). { unfold P, Q. by rewrite <- (drop_S _ _ _ Hx), (take_drop_middle _ _ _ Hy). }
  destruct (taking_headers lo s fl al P y x Q H Ec) as (My & Mx & _ & _). destruct (taking_nodup lo s fl al P y x Q H Ec) as (_ & _ & _ & _ & Nyx).
  cbn [malloc_loop]. mstep (rdh_run s x.1 _ Mx). cbn [h_size h_ptr]. destruct (Z.leb_spec n x.2); [|lia]. destruct (Z.eqb_spec x.2 n) as [E|E].
  - rewrite bind_assoc_run. mstep (set_ptr_run s y.1 _ (first Q base) My). rewrite bind_mret. cbn [h_size].
    destruct (take_all lo s fl al P y x Q n H Ec Hn E) as [fl' Hok]. eexists x.1, _, fl'. split; [done|]. by split.
  - rewrite bind_assoc_run. mstep (set_size_run s x.1 _ (x.2 - n) Mx). cbv zeta. rewrite bind_assoc_run. unfold put_size, wrh. rewrite bind_assoc_run, bind_get, bind_modify, bind_mret. cbn [h_ptr].
    destruct (take_part lo s fl al P y x Q n H Ec Hn _ (mkhdr (default 0 (h_ptr <$> <[x.1 := mkhdr (first Q base) (x.2 - n)]> (u_mem s) !! (x.1 + (x.2 - n)))) n) ltac:(lia) eq_refl eq_refl) as [fl' Hok].
    eexists _, _, fl'. split; [done|]. by split.
Qed.

Definition dist (N f k : nat) : nat := if decide (k <= f)%nat then f - k else N - k + f.

(** The search from the block at index [i] up to [freep]. *)
Lemma malloc_seek lo s fl al n f fb :
  heap_ok lo s fl al -> 1 <= n -> let c := (base, 0) :: fl in let N := length c in
  c !! f = Some fb -> u_freep s = fb.1 ->
  forall d i fuel, (i < N)%nat -> dist N f (nxt N i) = d -> (d < fuel)%nat ->
  (exists j y x fuel', c !! j = Some y /\ c !! S j = Some x /\ n <= x.2 /\ malloc_loop grant fuel n (addr c i) (addr c (nxt N i)) s = malloc_loop grant (S fuel') n y.1 x.1 s) \/
  (exists i' fuel', (forall k b, c !! k = Some b -> (dist N f k <= d)%nat -> b.2 < n) /\ (fuel = d + S fuel')%nat /\
     malloc_loop grant fuel n (addr c i) (addr c (nxt N i)) s = malloc_loop grant (S fuel') n (addr c i') fb.1 s).
Proof.
  intros H Hn c N Hf Hfp. assert (HN : N = S (length fl)) by done. induction d as [|d IH]; intros i fuel Hi Hd Hfuel; set (k := nxt N i) in *;
    (assert (Hk : (k < N)%nat) by (unfold k, nxt; destruct (Nat.eqb_spec (S i) N); lia)); pose proof (lookup_lt_Some _ _ _ Hf) as HfN; fold N in HfN;
    destruct (lookup_lt_is_Some_2 c k Hk) as [x Hx]; destruct (lookup_lt_is_Some_2 c i Hi) as [y Hy]; rewrite (addr_lookup c k x Hx);
    (destruct fuel as [|fuel]; [lia|]); (destruct (decide (n <= x.2)) as [Hfit|Hfit];
      [left; exists i, y, x, fuel; rewrite (addr_lookup c i y Hy); split; [done|]; split; [|done];
       unfold k, nxt in Hx; destruct (Nat.eqb_spec (S i) N); [injection Hx as <-; simpl in Hfit; lia|done]|]).
  - right. assert (k = f) as Ekf. { unfold dist in Hd. destruct (decide _); lia. } rewrite Ekf, Hf in Hx. injection Hx as <-. exists i, fuel. split; [|done].
    intros k' b Hb Hd'. assert (k' = f) as ->. { pose proof (lookup_lt_Some _ _ _ Hb) as Hl. fold N in Hl. unfold dist in Hd'. destruct (decide _); lia. } rewrite Hf in Hb. injection Hb as <-. lia.
  - assert (Hkf : k <> f). { intros ->. unfold dist in Hd. destruct (decide _); lia. }
    assert (Hxf : x.1 <> fb.1). { intros E. destruct (decide (k < f)%nat) as [Hlt|Hge]; [apply (hk_addr_lt lo s fl al H k f x fb Hx Hf) in Hlt; lia|].
      assert (Hlt : (f < k)%nat) by lia. apply (hk_addr_lt lo s fl al H f k fb x Hf Hx) in Hlt. lia. }
    assert (Hstep : malloc_loop grant (S fuel) n (addr c i) x.1 s = malloc_loop grant fuel n (addr c k) (addr c (nxt N k)) s).
    { cbn [malloc_loop]. mstep (hk_rdh lo s fl al H k x Hx). cbn [h_size h_ptr]. destruct (Z.leb_spec n x.2); [lia|]. rewrite bind_gets, Hfp. destruct (Z.eqb_spec x.1 fb.1); [done|].
      by rewrite (addr_lookup c k x Hx). }
    rewrite Hstep. assert (Hd' : dist N f (nxt N k) = d). { unfold dist, nxt in *. destruct (Nat.eqb_spec (S k) N); repeat destruct (decide _); lia. }
    destruct (IH k fuel Hk Hd' ltac:(lia)) as [(j & y' & x' & fuel' & ?)|(i' & fuel' & A1 & A2 & A3)]; [left; by exists j, y', x', fuel'|right].
    exists i', fuel'. split; [|split; [lia|done]]. intros k' b Hb Hdk. destruct (decide (dist N f k' <= d)%nat) as [?|]; [by apply (A1 k')|].
    assert (k' = k) as ->. { pose proof (lookup_lt_Some _ _ _ Hb) as Hl. fold N in Hl. unfold dist, nxt in *. destruct (Nat.eqb_spec (S k) N); repeat destruct (decide _); lia. }
    rewrite Hx in Hb. injection Hb as <-. lia.
Qed.

(** The memory after [sbrk], the new part as an allocated block. *)
Lemma grown_ok lo s fl al nu h :
  heap_ok lo s fl al -> 1 <= nu -> u_brk s + nu < 536870912 -> h_size h = nu ->
  heap_ok lo (mkuheap (<[u_brk s := h]> (u_mem s)) (u_freep s) (u_brk s + nu)) fl ((u_brk s, nu) :: al).
Proof.
  intros H Hnu Hlt Hh. pose proof H as [A1 A2 A3 A4 A5 A6 A7 A8]. split; simpl; try done.
  - lia.
  - change (chain (<[u_brk s := h]> (u_mem s)) ((base, 0) :: fl) base). apply chain_insert; [|done]. intros Hin. apply list_elem_of_fmap in Hin as (b & Eb & Hb).
    apply elem_of_cons in Hb as [->|Hb]; [simpl in Eb; lia|]. pose proof (hk_in lo s fl al H b ltac:(apply elem_of_app; by left)). lia.
  - apply Forall_app in A6 as [P1 P2]. apply Forall_app. split; [done|]. by constructor.
  - constructor; [simpl; by rewrite lookup_insert_eq; simpl; rewrite Hh|]. apply Forall_forall. intros b Hb. rewrite Forall_forall in A7.
    pose proof (hk_in lo s fl al H b ltac:(apply elem_of_app; by right)). rewrite lookup_insert_ne by lia. by apply A7.
  - rewrite units_app in *. change (units ((u_brk s, nu) :: al)) with (seqZ (u_brk s) nu ++ units al). replace (u_brk s + nu - lo) with (u_brk s - lo + nu) by lia.
    rewrite (seqZ_app lo (u_brk s - lo) nu) by lia. rewrite <- A8. replace (lo + (u_brk s - lo)) with (u_brk s) by lia. solve_Permutation.
Qed.

(** What the kernel grants ends below KERNBASE (allocuvm). *)
Context (Hgrant : forall b n, 0 <= n -> grant b n = true -> 8 * b + n < KERNBASE).

Lemma morecore_run lo s fl al n :
  heap_ok lo s fl al -> 1 <= n < 268435456 ->
  (morecore grant n s = Ret 0 s /\ grant (u_brk s) (Z.max n 4096 * 8) = false) \/
  exists s' fl', morecore grant n s = Ret (u_freep s') s' /\ heap_ok lo s' fl' al /\ u_brk s < u_brk s' /\ (exists b, b ∈ fl' /\ n <= b.2) /\ (length fl' <= S (length fl))%nat.
Proof.
  intros H Hn. unfold morecore, sbrk. replace (if n <? 4096 then 4096 else n) with (Z.max n 4096) by (destruct (Z.ltb_spec n 4096); lia).
  set (nu := Z.max n 4096). assert (Hnu : n <= nu /\ 1 <= nu < 268435456) by lia. clearbody nu.
  rewrite (u32_id (nu * 8)), (i32_small (nu * 8)) by (unfold two32; lia).
  rewrite bind_assoc_run, bind_get. destruct (grant (u_brk s) (nu * 8)) eqn:Eg; [|by left]. right. apply Hgrant in Eg; [|lia]. unfold KERNBASE in Eg. rewrite Z.div_mul by lia.
  set (s1 := mkuheap (u_mem s) (u_freep s) (u_brk s + nu)). assert (Hs1 : (put s1;; mret (Some (u_brk s)) : M uheap (option Z)) s = Ret (Some (u_brk s)) s1) by done. mstep Hs1.
  unfold put_size, wrh. rewrite bind_assoc_run, bind_get, bind_modify. set (h := mkhdr _ nu).
  pose proof (grown_ok lo s fl al nu h H ltac:(lia) ltac:(lia) eq_refl) as H2. set (s2 := mkuheap _ _ _) in H2.
  destruct (free_run lo s2 fl al (u_brk s) nu H2) as (s3 & fl3 & R3 & H3 & E3 & (b & Hb & Hbs) & Hl).
  change (mkuheap (<[u_brk s := h]> (u_mem s1)) (u_freep s1) (u_brk s1)) with s2. mstep R3. exists s3, fl3. split; [done|]. split; [done|]. rewrite E3. unfold s2. simpl. split; [lia|].
  split; [|done]. exists b. split; [done|lia].
Qed.

Lemma malloc_run lo s fl al n fuel :
  heap_ok lo s fl al -> 1 <= n < 268435456 -> (2 * length fl + 4 <= fuel)%nat ->
  exists h, u_mem s !! u_freep s = Some h /\
  ((malloc_loop grant fuel n (u_freep s) (h_ptr h) s = Ret 0 s /\ grant (u_brk s) (Z.max n 4096 * 8) = false) \/
   exists r s' fl', malloc_loop grant fuel n (u_freep s) (h_ptr h) s = Ret (r + 1) s' /\ heap_ok lo s' fl' ((r, n) :: al) /\ u_brk s <= u_brk s').
Proof.
  intros H Hn Hfuel. destruct (hk_freep _ _ _ _ H) as (f & fb & Hf & Ef). rewrite Ef. exists (mkhdr (addr ((base, 0) :: fl) (nxt (length ((base, 0) :: fl)) f)) fb.2).
  split; [by apply (hk_header lo s fl al H)|]. cbn [h_ptr]. pose proof (lookup_lt_Some _ _ _ Hf) as Hlf.
  set (c := (base, 0) :: fl) in *. set (N := length c) in *. assert (HN : N = S (length fl)) by done.
  assert (Hd : (dist N f (nxt N f) < N)%nat). { unfold dist, nxt. destruct (Nat.eqb_spec (S f) N); repeat destruct (decide _); lia. }
  rewrite <- (addr_lookup c f fb Hf).
  destruct (malloc_seek lo s fl al n f fb H ltac:(lia) Hf Ef _ f fuel Hlf eq_refl ltac:(fold c N; lia)) as [(j & y & x & fuel' & Hy & Hx & Hfit & E)|(i' & fuel' & Hno & Efu & E)];
    fold c N in E; rewrite E; clear E.
  { right. destruct (malloc_take lo s fl al j y x n fuel' H Hy Hx ltac:(lia)) as (r & s' & fl' & R & H' & Eb). exists r, s', fl'. split; [done|]. split; [done|]. lia. }
  fold c N in Efu. cbn [malloc_loop]. mstep (hk_rdh lo s fl al H f fb Hf). cbn [h_size h_ptr].
  assert (Hfb : fb.2 < n). { apply (Hno f fb Hf). fold c N. unfold dist at 1. destruct (decide _); lia. }
  destruct (Z.leb_spec n fb.2); [lia|]. rewrite bind_gets, Ef, Z.eqb_refl.
  destruct (morecore_run lo s fl al n H Hn) as [[E Eg]|(s2 & fl2 & E & H2 & Eb & (b & Hb & Hbs) & Hl2)]; [left; by mstep E|right]. mstep E.
  destruct (hk_freep _ _ _ _ H2) as (f2 & fb2 & Hf2 & Ef2). rewrite Ef2. pose proof (lookup_lt_Some _ _ _ Hf2) as Hlf2.
  assert (Hpos : 0 < fb2.1). { pose proof (hk_base _ _ _ _ H2). apply list_elem_of_lookup_2, elem_of_cons in Hf2 as [->|Hin]; [simpl; lia|].
    pose proof (hk_in lo s2 fl2 al H2 fb2 ltac:(apply elem_of_app; by left)). lia. }
  destruct (Z.eqb_spec fb2.1 0); [lia|]. mstep (hk_rdh lo s2 fl2 al H2 f2 fb2 Hf2). cbn [h_ptr].
  set (c2 := (base, 0) :: fl2) in *. set (N2 := length c2) in *. assert (HN2 : N2 = S (length fl2)) by done.
  assert (Hd2 : (dist N2 f2 (nxt N2 f2) < N2)%nat). { unfold dist, nxt. destruct (Nat.eqb_spec (S f2) N2); repeat destruct (decide _); lia. }
  rewrite <- (addr_lookup c2 f2 fb2 Hf2).
  destruct (malloc_seek lo s2 fl2 al n f2 fb2 H2 ltac:(lia) Hf2 Ef2 _ f2 fuel' Hlf2 eq_refl ltac:(fold c2 N2; lia)) as [(j & y & x & fuel2 & Hy & Hx & Hfit & E2)|(i2 & fuel2 & Hno2 & _)].
  - fold c2 N2 in E2. rewrite E2. destruct (malloc_take lo s2 fl2 al j y x n fuel2 H2 Hy Hx ltac:(lia)) as (r & s' & fl' & R & H' & Eb'). exists r, s', fl'. split; [done|]. split; [done|]. lia.
  - exfalso. apply list_elem_of_lookup in Hb as [k Hb]. assert (Hk : c2 !! S k = Some b) by exact Hb. pose proof (lookup_lt_Some _ _ _ Hk) as Hlk. fold N2 in Hlk.
    assert (b.2 < n); [|lia]. apply (Hno2 (S k) b Hk). fold c2 N2. unfold dist, nxt. destruct (Nat.eqb_spec (S f2) N2); repeat destruct (decide _); lia.
Qed.

(** ** A program that uses the allocator *)

Definition nunits (nbytes : Z) : Z := (nbytes + 7) / 8 + 1.
Definition fits_int (nbytes : Z) : Prop := 0 <= nbytes <= 2147483632.

(** The heap before the first call is all zero. *)
Definition new_heap (lo : Z) : uheap := mkuheap ∅ 0 lo.

Lemma new_heap_ok lo : 0 < base < lo -> lo < 536870912 -> heap_ok lo (mkuheap {[base := mkhdr base 0]} base lo) [] [].
Proof.
  intros Hb Hlo. split; simpl; try done; try lia.
  - split; [|done]. apply lookup_insert_eq.
  - by exists 0%nat, (base, 0).
  - by rewrite Z.sub_diag.
Qed.

Definition heap_inv (lo : Z) (s : uheap) (al : list block) : Prop :=
  (s = new_heap lo /\ al = [] /\ 0 < base < lo /\ lo < 536870912) \/ exists fl, heap_ok lo s fl al.

Lemma malloc_ok lo s fl al nbytes :
  heap_ok lo s fl al -> fits_int nbytes ->
  (malloc base grant nbytes s = Ret 0 s /\ grant (u_brk s) (Z.max (nunits nbytes) 4096 * 8) = false) \/
  exists r s' fl', malloc base grant nbytes s = Ret (r + 1) s' /\ heap_ok lo s' fl' ((r, nunits nbytes) :: al).
Proof.
  intros H Hn. unfold fits_int in Hn. assert (Hr : 1 <= nunits nbytes < 268435456). { unfold nunits. pose proof (Z.div_le_mono (nbytes + 7) 2147483639 8). change (2147483639 / 8) with 268435454 in *. pose proof (Z.div_pos (nbytes + 7) 8). lia. }
  unfold malloc. rewrite u32_id by (unfold two32; lia). replace (nbytes + 8 - 1) with (nbytes + 7) by lia. change ((nbytes + 7) / 8 + 1) with (nunits nbytes).
  rewrite bind_get. pose proof (hk_freep _ _ _ _ H) as (i & b & Hb & Ef). pose proof (hk_base _ _ _ _ H).
  assert (Hne : u_freep s <> 0). { rewrite Ef. apply list_elem_of_lookup_2, elem_of_cons in Hb as [->|Hin]; [simpl; lia|]. pose proof (hk_in lo s fl al H b ltac:(apply elem_of_app; by left)). lia. }
  destruct (Z.eqb_spec (u_freep s) 0); [done|]. rewrite bind_mret, bind_get.
  destruct (malloc_run lo s fl al (nunits nbytes) (2 * size (u_mem s) + 4) H Hr) as (h & Eh & R); [pose proof (hk_length lo s fl al H); simpl in *; lia|].
  assert (Hh : rdh (u_freep s) s = Ret h s) by (unfold rdh; by rewrite bind_get, Eh). mstep Hh.
  destruct R as [[R Eg]|(r & s' & fl' & R & H' & _)]; [by left|right]. by exists r, s', fl'.
Qed.

Lemma malloc_first lo nbytes : 0 < base -> malloc base grant nbytes (new_heap lo) = malloc base grant nbytes (mkuheap {[base := mkhdr base 0]} base lo).
Proof.
  intros Hb. unfold malloc. rewrite !bind_get. change (u_freep (new_heap lo) =? 0) with true. cbv iota. cbn [u_freep].
  destruct (Z.eqb_spec base 0); [lia|]. rewrite bind_mret. unfold wrh, set_freep. rewrite bind_assoc_run, bind_modify, bind_modify. done.
Qed.

Lemma malloc_inv lo s al nbytes :
  heap_inv lo s al -> fits_int nbytes ->
  (exists s', malloc base grant nbytes s = Ret 0 s' /\ heap_inv lo s' al /\ grant (u_brk s) (Z.max (nunits nbytes) 4096 * 8) = false) \/
  exists r s', malloc base grant nbytes s = Ret (r + 1) s' /\ 0 <= r /\ heap_inv lo s' ((r, nunits nbytes) :: al).
Proof.
  intros Hinv Hn. assert (E : exists s0 fl, malloc base grant nbytes s = malloc base grant nbytes s0 /\ u_brk s = u_brk s0 /\ heap_ok lo s0 fl al).
  { destruct Hinv as [(-> & -> & Hb & Hlo)|(fl & H)]; [|by exists s, fl]. eexists _, []. rewrite malloc_first by lia. split; [done|]. split; [done|by apply new_heap_ok]. }
  destruct E as (s0 & fl & -> & -> & H). destruct (malloc_ok lo s0 fl al nbytes H Hn) as [[E Eg]|(r & s' & fl' & E & H')]; [left; exists s0|right; exists r, s'].
  - split; [done|]. split; [by right; exists fl|done].
  - split; [done|]. split; [|by right; exists fl']. pose proof (hk_base _ _ _ _ H'). pose proof (hk_in lo s' fl' _ H' (r, nunits nbytes) ltac:(apply elem_of_app; right; by left)). simpl in *. lia.
Qed.

Lemma heap_ok_perm lo s fl al al' : al ≡ₚ al' -> heap_ok lo s fl al -> heap_ok lo s fl al'.
Proof.
  intros E [A1 A2 A3 A4 A5 A6 A7 A8]. split; try done; [by rewrite <- E|by rewrite <- E|]. rewrite <- A8, !units_app. apply Permutation_app_head. unfold units. by rewrite E.
Qed.

Lemma heap_inv_live lo s b al : heap_inv lo s (b :: al) -> exists fl, heap_ok lo s fl (b :: al).
Proof. by intros [(_ & ? & _)|H]. Qed.

(** What is stored in an allocated block, after its header, is not looked at. *)
Lemma store_ok lo s fl r n al a h :
  heap_ok lo s fl ((r, n) :: al) -> r < a < r + n -> heap_ok lo (mkuheap (<[a := h]> (u_mem s)) (u_freep s) (u_brk s)) fl ((r, n) :: al).
Proof.
  intros H Ha. pose proof H as [A1 A2 A3 A4 A5 A6 A7 A8].
  assert (Hr : lo <= r /\ r + n <= u_brk s) by (pose proof (hk_in lo s fl _ H (r, n) ltac:(apply elem_of_app; right; by left)) as Hi; simpl in Hi; lia).
  split; try done.
  - apply chain_insert; [|done]. intros Hin. apply list_elem_of_fmap in Hin as (b & -> & Hb). apply elem_of_cons in Hb as [->|Hb]; [simpl in *; lia|].
    pose proof (hk_in lo s fl _ H b ltac:(apply elem_of_app; by left)). pose proof (hk_apart lo s fl _ H b (r, n) Hb ltac:(by left)) as D. unfold disjoint in D. simpl in *. lia.
  - apply Forall_forall. intros b Hb. rewrite Forall_forall in A7. simpl. rewrite lookup_insert_ne; [by apply A7|]. apply elem_of_cons in Hb as [->|Hb]; [simpl; lia|].
    pose proof (al_apart lo s fl al r n b H Hb) as D. pose proof (hk_in lo s fl _ H b ltac:(apply elem_of_app; right; by right)). unfold disjoint in D. simpl in *. lia.
Qed.

(** What a program does with the allocator: it asks for a block, gives its
    [i]-th block back, or stores into it (8 bytes at a time). *)
Inductive request := Malloc (nbytes : Z) | Free (i : nat) | Store (i : nat) (off : Z) (h : hdr).

(** The blocks the program holds: the pointer and the size it asked for. *)
Fixpoint client (l : list request) (live : list (Z * Z)) : M uheap (list (Z * Z)) :=
  match l with
  | [] => mret live
  | Malloc n :: l => r ← malloc base grant n; client l (if r =? 0 then live else (r, n) :: live)
  | Free i :: l =>
      match live !! i with
      | Some (r, _) => free r;; client l (delete i live)
      | None => client l live
      end
  | Store i off h :: l =>
      match live !! i with
      | Some (r, n) => if (0 <=? off) && (8 * off <? n) then wrh (r + off) h;; client l live else client l live
      | None => client l live
      end
  end.

Definition request_ok (q : request) : Prop := match q with Malloc n => fits_int n | _ => True end.

Definition owned (b : Z * Z) : block := (b.1 - 1, nunits b.2).

Lemma nunits_room n : 0 <= n -> n <= 8 * (nunits n - 1) /\ 1 <= nunits n.
Proof. intros Hn. unfold nunits. pose proof (Z.div_mod (n + 7) 8 ltac:(lia)). pose proof (Z.mod_pos_bound (n + 7) 8 ltac:(lia)). lia. Qed.

Lemma owned_delete (live : list (Z * Z)) i b : live !! i = Some b -> owned b :: map owned (delete i live) ≡ₚ map owned live.
Proof. intros H. rewrite (delete_Permutation _ _ _ H) at 2. done. Qed.

Lemma live_ok lo s live i b : heap_inv lo s (map owned live) -> live !! i = Some b -> exists fl, heap_ok lo s fl (owned b :: map owned (delete i live)).
Proof.
  intros H Hi. pose proof (owned_delete live i b Hi) as E. destruct H as [(_ & E0 & _)|(fl & H)].
  - rewrite E0 in E. by apply Permutation_nil_r in E.
  - exists fl. by apply (heap_ok_perm lo s fl (map owned live)).
Qed.

Definition held (live : list (Z * Z)) : Prop := Forall (fun b => 0 <= b.2) live.

Lemma client_run lo l : forall s live,
  heap_inv lo s (map owned live) -> held live -> Forall request_ok l ->
  exists live' s', client l live s = Ret live' s' /\ heap_inv lo s' (map owned live') /\ held live'.
Proof.
  induction l as [|q l IH]; intros s live H Hh Hl; [by exists live, s|]. apply Forall_cons in Hl as [Hq Hl]. destruct q as [n|i|i off h]; cbn [client].
  - destruct (malloc_inv lo s (map owned live) n H Hq) as [(s' & E & H' & _)|(r & s' & E & Hr & H')]; mstep E; [by apply IH|].
    destruct (Z.eqb_spec (r + 1) 0); [lia|]. apply IH; [|constructor; [simpl; unfold request_ok, fits_int in Hq; lia|done]|done].
    simpl. unfold owned at 1. simpl. by replace (r + 1 - 1) with r by lia.
  - destruct (live !! i) as [[r n]|] eqn:Ei; [|by apply IH]. destruct (live_ok lo s live i _ H Ei) as (fl & H').
    destruct (free_run lo s fl _ _ _ H') as (s' & fl' & E & H2 & _). simpl in E. replace (r - 1 + 1) with r in E by lia. mstep E.
    apply IH; [by right; exists fl'|by apply Forall_delete|done].
  - destruct (live !! i) as [[r n]|] eqn:Ei; [|by apply IH]. destruct (Z.leb_spec 0 off); [|by apply IH]. destruct (Z.ltb_spec (8 * off) n); [|by apply IH].
    simpl. destruct (live_ok lo s live i _ H Ei) as (fl & H'). unfold wrh. rewrite bind_modify. pose proof (nunits_room n ltac:(lia)).
    apply (store_ok lo s fl (r - 1) (nunits n) _ (r + off) h) in H'; [|lia]. apply IH; [|done|done]. right. exists fl.
    apply (heap_ok_perm lo _ fl (owned (r, n) :: map owned (delete i live))); [|done]. by apply owned_delete.
Qed.

(** Nothing allocated: the memory is one free block. *)
Lemma all_free lo s fl : heap_ok lo s fl [] -> lo < u_brk s -> fl = [(lo, u_brk s - lo)].
Proof.
  intros H Hlt. pose proof (hk_part _ _ _ _ H) as E. rewrite app_nil_r in E. destruct fl as [|b fl].
  { symmetry in E. apply Permutation_nil_r in E. apply (f_equal (@length Z)) in E. rewrite length_seqZ in E. simpl in E. lia. }
  pose proof (hk_in lo s (b :: fl) [] H) as Hin. pose proof (Hin b ltac:(left)) as (Hb & _ & _).
  assert (Hcov : forall z, lo <= z < u_brk s -> exists b', b' ∈ b :: fl /\ b'.1 <= z < b'.1 + b'.2). { intros z Hz. apply elem_of_units. rewrite E. apply elem_of_seqZ. lia. }
  assert (Hord : forall b', b' ∈ fl -> b.1 + b.2 < b'.1).
  { intros b' Hb'. apply list_elem_of_lookup in Hb' as [i Hi]. apply (gaps_lt (b :: fl) 0 (S i)); [by destruct (hk_gaps _ _ _ _ H)| |done|done|lia].
    apply Forall_forall. intros x Hx. pose proof (Hin x ltac:(apply elem_of_app; by left)). lia. }
  assert (b.1 = lo). { destruct (Hcov lo ltac:(lia)) as (b' & Hb' & Hz). apply elem_of_cons in Hb' as [->|Hb']; [lia|]. pose proof (Hord b' Hb'). pose proof (Hin b ltac:(left)). lia. }
  assert (u_brk s <= b.1 + b.2). { destruct (decide (u_brk s <= b.1 + b.2)) as [?|Hn]; [done|]. pose proof (Hin b ltac:(left)). destruct (Hcov (b.1 + b.2) ltac:(lia)) as (b' & Hb' & Hz). apply elem_of_cons in Hb' as [->|Hb']; [lia|]. pose proof (Hord b' Hb'). lia. }
  pose proof (Hin b ltac:(left)). destruct fl as [|b' fl].
  - f_equal. destruct b as [x y]. simpl in *. f_equal; lia.
  - pose proof (Hord b' ltac:(left)). pose proof (Hin b' ltac:(right; left)). lia.
Qed.
End umalloc.

(** C14. Whatever requests a program makes - [malloc] of at most 2147483632
    bytes, [free] of the
    blocks it holds in any order, stores anywhere inside them - every call
    returns, and the blocks it holds are where it asked for: each lies in the
    memory obtained from the kernel with room for its bytes, and no two of them,
    nor a block and the header of another, overlap.  When it has given everything
    back the memory is again one free block: [free] joins neighbours.  And
    [malloc] fails only when the kernel refuses to extend the memory. *)
Theorem allocator_safety (base lo : Z) (grant : Z -> Z -> bool) (l : list request) :
  (forall b n, 0 <= n -> grant b n = true -> 8 * b + n < KERNBASE) ->
  0 < base < lo -> 8 * lo < KERNBASE -> Forall request_ok l ->
  exists live s, client base grant l [] (new_heap lo) = Ret live s /\
    (forall i r n, live !! i = Some (r, n) -> 8 * lo < 8 * r /\ 8 * r + n <= 8 * u_brk s) /\
    (forall i j r n r' n', i <> j -> live !! i = Some (r, n) -> live !! j = Some (r', n') -> 8 * r + n <= 8 * (r' - 1) \/ 8 * r' + n' <= 8 * (r - 1)) /\
    (live = [] -> lo < u_brk s -> u_mem s !! base = Some (mkhdr lo 0) /\ u_mem s !! lo = Some (mkhdr base (u_brk s - lo))) /\
    (forall n, fits_int n -> exists r s', malloc base grant n s = Ret r s' /\ (r = 0 -> grant (u_brk s) (Z.max (nunits n) 4096 * 8) = false)).
Proof.
  intros Hg Hb Hlo Hl. unfold KERNBASE in Hlo. destruct (client_run base grant Hg lo l (new_heap lo) []) as (live & s & E & H & Hh); [left; repeat split; lia|constructor|done|].
  exists live, s. split; [done|]. assert (Hin : forall i r n, live !! i = Some (r, n) -> exists fl, heap_ok base lo s fl (owned (r, n) :: map owned (delete i live)) /\ 0 <= n).
  { intros i r n Hi. destruct (live_ok base lo s live i _ H Hi) as (fl & H'). exists fl. split; [done|]. by apply (Forall_lookup_1 _ _ _ _ Hh Hi). }
  split; [|split; [|split]].
  - intros i r n Hi. destruct (Hin i r n Hi) as (fl & H' & Hn). pose proof (hk_in base lo s fl _ H' (owned (r, n)) ltac:(apply elem_of_app; right; left)) as Hr.
    pose proof (nunits_room n Hn). simpl in Hr. lia.
  - intros i j r n r' n' Hij Hi Hj. destruct (Hin i r n Hi) as (fl & H' & Hn). destruct (Hin j r' n' Hj) as (_ & _ & Hn').
    assert (Hj' : owned (r', n') ∈ map owned (delete i live)).
    { apply list_elem_of_fmap. exists (r', n'). split; [done|]. apply list_elem_of_lookup. destruct (decide (j < i)%nat).
      - exists j. by rewrite list_lookup_delete_lt.
      - exists (pred j). rewrite list_lookup_delete_ge by lia. by replace (S (pred j)) with j by lia. }
    pose proof (al_apart base lo s fl _ _ _ _ H' Hj') as D. unfold disjoint, owned in D. simpl in D. pose proof (nunits_room n Hn). pose proof (nunits_room n' Hn'). lia.
  - intros -> Hlt. destruct H as [(-> & _)|(fl & H)]; [simpl in Hlt; lia|]. pose proof (all_free base lo s fl H Hlt) as ->. pose proof (hk_chain _ _ _ _ _ H) as C. by destruct C as (C1 & C2 & _).
  - intros n Hn. destruct (malloc_inv base grant Hg lo s _ n H Hn) as [(s' & Em & _ & Eg)|(r & s' & Em & Hr & _)]; [by exists 0, s'|exists (r + 1), s'; split; [done|lia]].
Qed.

(** A program that takes three blocks, stores into one, and gives them back. *)
Definition kernel_ok (b n : Z) : bool := 8 * b + n <? KERNBASE.
Definition some_requests : list request := [Malloc 100; Malloc 50000; Store 1 12 (mkhdr 0 7); Free 1; Malloc 20; Free 1; Malloc 0; Free 0; Free 0].

Lemma allocator_safety_witness :
  exists live s, client 10 kernel_ok some_requests [] (new_heap 20) = Ret live s /\
    (live = [] -> 20 < u_brk s -> u_mem s !! 10 = Some (mkhdr 20 0) /\ u_mem s !! 20 = Some (mkhdr 10 (u_brk s - 20))).
Proof.
  destruct (allocator_safety 10 20 kernel_ok some_requests) as (live & s & E & _ & _ & H & _).
  - intros b n _ Hg. by apply Z.ltb_lt.
  - lia.
  - unfold KERNBASE. lia.
  - repeat constructor; unfold fits_int; lia.
  - exists live, s. split; [exact E|exact H].
Defined.

(** The run of that program: 10347 headers, all of them free at the end. *)
Lemma some_requests_run : match client 10 kernel_ok some_requests [] (new_heap 20) with Ret [] s => u_brk s = 10367 | _ => False end.
Proof. vm_compute. reflexivity. Qed.

(** The number of bytes is rounded up in 32 bits: near the end of that range
    [malloc] hands out a header with no room behind it. *)
Lemma malloc_wraps : match client 10 kernel_ok [Malloc 4294967295; Malloc 1] [] (new_heap 20) with Ret [(r', _); (r, n)] s => n = 4294967295 /\ r' = r - 2 /\ r = u_brk s | _ => False end.
Proof. vm_compute. repeat split. Qed.
