(* ===== verification/Pipe.v ===== *)
(** * Pipes (pipe.c)

    [pipewrite] and [piperead] hold the pipe's lock except while they sleep, so
    a call is a sequence of atomic sections, each ending in a return or in a
    [sleep].  A section is a function of the pipe; besides the new pipe it
    gives the channels it calls [wakeup] on.  The interleavings of readers,
    writers and closes are a step relation on the pipe and its threads. *)

From Stdlib Require Import ZArith Lia.
From stdpp Require Import base numbers strings gmap list.
From S2P Require Import Prelude.

Local Open Scope list_scope.
Local Open Scope Z_scope.

Definition PIPESIZE : Z := 512.

Record pipe := mkpipe {
  pp_data : list Z; pp_nread : Z; pp_nwrite : Z; pp_readopen : Z; pp_writeopen : Z }.

(** The addresses processes sleep on: [&p->nread] and [&p->nwrite]. *)
Inductive pchan := ChNread | ChNwrite.

(** How a section ends: the call returns [r] (having read [got]), or sleeps on
    a channel. *)
Inductive pend := PReturn (r : Z) (got : list Z) | PSleep (ch : pchan).

(** The fields [pipealloc] sets; [data] is what the page contained. *)
Definition pipe_init (data : list Z) : pipe := mkpipe data 0 0 1 1.

(** [p->data[p->nwrite++ % PIPESIZE] = b] *)
Definition pipe_put (b : Z) (p : pipe) : pipe :=
  mkpipe (<[Z.to_nat (pp_nwrite p mod PIPESIZE) := b]> (pp_data p)) (pp_nread p) (u32 (pp_nwrite p + 1)) (pp_readopen p) (pp_writeopen p).

(** The loop of [pipewrite] on the bytes still to be written, of [n] in all. *)
Fixpoint pipewrite (killed : bool) (n : Z) (todo : list Z) (p : pipe) : pend * list pchan * list Z * pipe :=
  match todo with
  | [] => (PReturn n [], [ChNread], [], p)
  | b :: rest =>
      if pp_nwrite p =? u32 (pp_nread p + PIPESIZE) then
        if (pp_readopen p =? 0) || killed then (PReturn (-1) [], [], todo, p)
        else (PSleep ChNwrite, [ChNread], todo, p)
      else pipewrite killed n rest (pipe_put b p)
  end.

(** The copying loop of [piperead]. *)
Fixpoint pipe_take (n : nat) (p : pipe) : list Z * pipe :=
  match n with
  | O => ([], p)
  | S n =>
      if pp_nread p =? pp_nwrite p then ([], p)
      else
        let b := pp_data p !!! Z.to_nat (pp_nread p mod PIPESIZE) in
        let '(bs, p') := pipe_take n (mkpipe (pp_data p) (u32 (pp_nread p + 1)) (pp_nwrite p) (pp_readopen p) (pp_writeopen p)) in
        (b :: bs, p')
  end.

Definition piperead (killed : bool) (n : Z) (p : pipe) : pend * list pchan * pipe :=
  if (pp_nread p =? pp_nwrite p) && negb (pp_writeopen p =? 0) then
    if killed then (PReturn (-1) [], [], p) else (PSleep ChNread, [], p)
  else
    let '(bs, p') := pipe_take (Z.to_nat n) p in
    (PReturn (Z.of_nat (length bs)) bs, [ChNwrite], p').

(** The new pipe and whether it is freed. *)
Definition pipeclose (writable : bool) (p : pipe) : list pchan * bool * pipe :=
  let p' := if writable then mkpipe (pp_data p) (pp_nread p) (pp_nwrite p) (pp_readopen p) 0
            else mkpipe (pp_data p) (pp_nread p) (pp_nwrite p) 0 (pp_writeopen p) in
  ([if writable then ChNread else ChNwrite], (pp_readopen p' =? 0) && (pp_writeopen p' =? 0), p').

(** ** What is in a pipe *)

Definition count (p : pipe) : Z := u32 (pp_nwrite p - pp_nread p).
Definition contents (p : pipe) : list Z :=
  (fun k => pp_data p !!! Z.to_nat ((pp_nread p + Z.of_nat k) mod PIPESIZE)) <$> seq 0 (Z.to_nat (count p)).

Record pipe_wf (p : pipe) : Prop := {
  pw_len : length (pp_data p) = 512%nat;
  pw_read : 0 <= pp_nread p < two32;
  pw_write : 0 <= pp_nwrite p < two32;
  pw_count : count p <= 512 }.

Lemma mod512_u32 x : u32 x mod 512 = x mod 512.
Proof.
  unfold u32, two32. pose proof (Z.div_mod x 4294967296 ltac:(lia)) as H. rewrite H at 2.
  replace (4294967296 * (x / 4294967296)) with ((8388608 * (x / 4294967296)) * 512) by lia.
  rewrite Z.add_comm. by rewrite Z.mod_add by lia.
Qed.

(** The full and empty tests compare the counters modulo 2^32. *)
Lemma full_iff p : pipe_wf p -> (pp_nwrite p = u32 (pp_nread p + PIPESIZE) <-> count p = 512).
Proof.
  intros [_ Hr Hw _]. unfold count, PIPESIZE, u32, two32 in *. split.
  - intros ->. rewrite Zminus_mod_idemp_l. replace (pp_nread p + 512 - pp_nread p) with 512 by lia. done.
  - intros H. rewrite <- (Z.mod_small (pp_nwrite p) 4294967296) by lia.
    replace (pp_nread p + 512) with (512 + pp_nread p) by lia. rewrite <- H, Zplus_mod_idemp_l. f_equal. lia.
Qed.

Lemma empty_iff p : pipe_wf p -> (pp_nread p = pp_nwrite p <-> count p = 0).
Proof.
  intros [_ Hr Hw _]. unfold count, u32, two32 in *. split; [intros ->; by rewrite Z.sub_diag|].
  intros H. apply Z.mod_divide in H as [q Hq]; lia.
Qed.

Lemma put_wf b p : pipe_wf p -> count p < 512 -> pipe_wf (pipe_put b p) /\ contents (pipe_put b p) = contents p ++ [b].
Proof.
  intros [Hl Hr Hw Hc] Hlt. pose proof (u32_range (pp_nwrite p - pp_nread p)) as Hc0. fold (count p) in Hc0.
  assert (Hcount : count (pipe_put b p) = count p + 1).
  { unfold count, pipe_put; simpl. rewrite u32_sub_l. replace (pp_nwrite p + 1 - pp_nread p) with ((pp_nwrite p - pp_nread p) + 1) by lia.
    rewrite <- u32_add_l. apply u32_id. fold (count p). unfold two32. lia. }
  split.
  - split; simpl; [by rewrite length_insert|done|apply u32_range|lia].
  - unfold contents. rewrite Hcount. replace (Z.to_nat (count p + 1)) with (Z.to_nat (count p) + 1)%nat by lia.
    rewrite seq_app, fmap_app. simpl. unfold PIPESIZE.
    assert (Hn : forall k, (k <= Z.to_nat (count p))%nat -> 
              (pp_nread p + Z.of_nat k) mod 512 = pp_nwrite p mod 512 -> k = Z.to_nat (count p)).
    { intros k Hk He. destruct (decide (k = Z.to_nat (count p))); [done|]. exfalso.
      assert (Hm : (pp_nwrite p - pp_nread p - Z.of_nat k) mod 512 = 0).
      { replace (pp_nwrite p - pp_nread p - Z.of_nat k) with (pp_nwrite p - (pp_nread p + Z.of_nat k)) by lia.
        rewrite Zminus_mod, He, Z.sub_diag. done. }
      assert (Hm2 : (count p - Z.of_nat k) mod 512 = 0).
      { rewrite <- Hm. unfold count. rewrite <- (mod512_u32 (u32 _ - _)), <- (mod512_u32 (_ - _ - _)). by rewrite u32_sub_l. }
      rewrite Z.mod_small in Hm2; lia. }
    f_equal.
    + apply list_fmap_ext. intros i k Hk. apply lookup_seq in Hk as [-> Hk]. simpl. rewrite list_lookup_total_insert_ne; [done|].
      intros He. apply Z2Nat.inj in He; [|apply Z.mod_pos_bound; lia..]. symmetry in He. specialize (Hn i ltac:(lia) He). lia.
    + f_equal. assert (He : (pp_nread p + Z.of_nat (Z.to_nat (count p))) mod 512 = pp_nwrite p mod 512).
      { rewrite Z2Nat.id by lia. unfold count. rewrite <- mod512_u32, u32_add_r.
        replace (pp_nread p + (pp_nwrite p - pp_nread p)) with (pp_nwrite p) by lia. apply mod512_u32. }
      rewrite He. apply list_lookup_total_insert_eq. rewrite Hl. pose proof (Z.mod_pos_bound (pp_nwrite p) 512). lia.
Qed.

Lemma take_one p : pipe_wf p -> count p <> 0 ->
  let p' := mkpipe (pp_data p) (u32 (pp_nread p + 1)) (pp_nwrite p) (pp_readopen p) (pp_writeopen p) in
  pipe_wf p' /\ contents p = pp_data p !!! Z.to_nat (pp_nread p mod PIPESIZE) :: contents p'.
Proof.
  intros [Hl Hr Hw Hc] Hne p'. pose proof (u32_range (pp_nwrite p - pp_nread p)) as Hc0. fold (count p) in Hc0.
  assert (Hcount : count p' = count p - 1).
  { unfold count, p'; simpl. rewrite u32_sub_r. replace (pp_nwrite p - (pp_nread p + 1)) with ((pp_nwrite p - pp_nread p) - 1) by lia.
    rewrite <- u32_sub_l. apply u32_id. fold (count p). lia. }
  split; [split; simpl; [done|apply u32_range|done|lia]|].
  unfold contents. rewrite Hcount. replace (Z.to_nat (count p)) with (S (Z.to_nat (count p - 1))) by lia.
  change (seq 0 (S (Z.to_nat (count p - 1)))) with (0%nat :: seq 1 (Z.to_nat (count p - 1))). rewrite fmap_cons. f_equal; [by rewrite Z.add_0_r|].
  rewrite <- fmap_S_seq, <- list_fmap_compose. apply list_fmap_ext. intros i k _. unfold compose, PIPESIZE. simpl. do 2 f_equal.
  rewrite <- (mod512_u32 (u32 _ + _)), u32_add_l, mod512_u32. f_equal. lia.
Qed.

(** ** Sections *)

Lemma pipewrite_run killed n todo p e w rest p' :
  pipe_wf p -> pipewrite killed n todo p = (e, w, rest, p') ->
  exists done, todo = done ++ rest /\ pipe_wf p' /\ contents p' = contents p ++ done /\
    pp_readopen p' = pp_readopen p /\ pp_writeopen p' = pp_writeopen p /\
    ((e = PReturn n [] /\ w = [ChNread] /\ rest = []) \/
     (e = PReturn (-1) [] /\ w = [] /\ count p' = 512 /\ (pp_readopen p = 0 \/ killed = true)) \/
     (e = PSleep ChNwrite /\ w = [ChNread] /\ rest <> [] /\ count p' = 512 /\ pp_readopen p <> 0)).
Proof.
  revert p. induction todo as [|b todo IH]; intros p Hwf H; cbn [pipewrite] in H.
  { injection H as <- <- <- <-. exists []. do 2 (split; [done|]). split; [by rewrite app_nil_r|]. do 2 (split; [done|]). by left. }
  destruct (Z.eqb_spec (pp_nwrite p) (u32 (pp_nread p + PIPESIZE))) as [Hf|Hf].
  - apply full_iff in Hf; [|done]. destruct (Z.eqb_spec (pp_readopen p) 0) as [Ho|Ho]; [|destruct killed]; simpl in H;
      injection H as <- <- <- <-; exists []; do 2 (split; [done|]); (split; [by rewrite app_nil_r|]); do 2 (split; [done|]); right; [left|left|right]; naive_solver.
  - rewrite full_iff in Hf by done. destruct (put_wf b p Hwf) as [Hwf' Hc']; [destruct Hwf; lia|].
    destruct (IH _ Hwf' H) as (done & -> & A & B & C & D & E). exists (b :: done). split; [done|]. split; [done|].
    split; [by rewrite B, Hc', <- app_assoc|]. done.
Qed.

Lemma pipe_take_run n p bs p' :
  pipe_wf p -> pipe_take n p = (bs, p') ->
  pipe_wf p' /\ contents p = bs ++ contents p' /\ bs = take n (contents p) /\ pp_readopen p' = pp_readopen p /\ pp_writeopen p' = pp_writeopen p.
Proof.
  revert p bs. induction n as [|n IH]; intros p bs Hwf H; cbn [pipe_take] in H; [by injection H as <- <-|].
  destruct (Z.eqb_spec (pp_nread p) (pp_nwrite p)) as [He|He].
  - injection H as <- <-. apply empty_iff in He; [|done]. assert (contents p = []) as Hc by (unfold contents; by rewrite He).
    split; [done|]. split; [done|]. split; [by rewrite Hc|done].
  - destruct (take_one p Hwf) as [Hwf' Hc']; [by rewrite <- empty_iff|]. cbv zeta in *.
    destruct (pipe_take n _) as [bs0 p0] eqn:E. injection H as <- <-. destruct (IH _ _ Hwf' E) as (A & B & C & D & F).
    split; [done|]. rewrite Hc'. split; [by rewrite B|]. split; [simpl; by rewrite <- C|done].
Qed.

Lemma contents_length p : pipe_wf p -> Z.of_nat (length (contents p)) = count p.
Proof. intros _. unfold contents. rewrite length_fmap, length_seq. pose proof (u32_range (pp_nwrite p - pp_nread p)). unfold count. lia. Qed.

(** ** Readers, writers and closes *)

(** A process in a pipe call: about to run a section, asleep, or returned. *)
Inductive thread :=
  | WRun (n : Z) (todo : list Z) | WSleep (n : Z) (todo : list Z)
  | RRun (n : Z) | RSleep (n : Z)
  | Fin (r : Z) (got : list Z).

(** [ps_sent] and [ps_recv] record the bytes put into and taken out of the pipe
    so far.  [ps_stale] says that bytes are in the pipe that readers were not woken
    for: it is set by a write that fails after it has put bytes in, and reset by
    the next wakeup of the readers and when the pipe is empty. *)
Record psys := mkpsys {
  ps_pipe : pipe; ps_threads : list thread; ps_sent : list Z; ps_recv : list Z; ps_stale : bool }.

Definition is_nread (c : pchan) : bool := match c with ChNread => true | ChNwrite => false end.

Definition wake (chs : list pchan) (t : thread) : thread :=
  match t with
  | RSleep n => if existsb is_nread chs then RRun n else t
  | WSleep n todo => if existsb (fun c => negb (is_nread c)) chs then WRun n todo else t
  | _ => t
  end.

Definition after_write (e : pend) (n : Z) (rest : list Z) : thread :=
  match e with PReturn r _ => Fin r [] | PSleep _ => WSleep n rest end.
Definition after_read (e : pend) (n : Z) : thread :=
  match e with PReturn r got => Fin r got | PSleep _ => RSleep n end.
Definition got_of (e : pend) : list Z := match e with PReturn _ got => got | PSleep _ => [] end.
(** The new [ps_stale] after a section that makes the wakeups [w], and whether it
    failed with bytes put in. *)
Definition stale_after (w : list pchan) (p' : pipe) (failed stale : bool) : bool :=
  negb (existsb is_nread w) && negb (pp_nread p' =? pp_nwrite p') && (stale || failed).
Definition failed_with (e : pend) (put : nat) : bool :=
  match e with PReturn r _ => (r =? -1) && negb (put =? 0)%nat | PSleep _ => false end.

Inductive pstep : psys -> psys -> Prop :=
  | step_write s i killed n todo e w rest p' :
      ps_threads s !! i = Some (WRun n todo) -> pipewrite killed n todo (ps_pipe s) = (e, w, rest, p') ->
      pstep s (mkpsys p' (<[i := after_write e n rest]> (wake w <$> ps_threads s))
                 (ps_sent s ++ take (length todo - length rest) todo) (ps_recv s) (stale_after w p' (failed_with e (length todo - length rest)) (ps_stale s)))
  | step_read s i killed n e w p' :
      ps_threads s !! i = Some (RRun n) -> piperead killed n (ps_pipe s) = (e, w, p') ->
      pstep s (mkpsys p' (<[i := after_read e n]> (wake w <$> ps_threads s)) (ps_sent s) (ps_recv s ++ got_of e) (stale_after w p' false (ps_stale s)))
  | step_close s writable w p' :
      pipeclose writable (ps_pipe s) = (w, false, p') ->
      pstep s (mkpsys p' (wake w <$> ps_threads s) (ps_sent s) (ps_recv s) (stale_after w p' false (ps_stale s)))
  | step_kill s i t :
      ps_threads s !! i = Some t ->
      pstep s (mkpsys (ps_pipe s) (<[i := wake [ChNread; ChNwrite] t]> (ps_threads s)) (ps_sent s) (ps_recv s) (ps_stale s)).

Inductive preach (s0 : psys) : psys -> Prop :=
  | preach_refl : preach s0 s0
  | preach_step s s' : preach s0 s -> pstep s s' -> preach s0 s'.

(** A sleeping process has a reason to sleep. *)
Definition sleep_ok (p : pipe) (stale : bool) (t : thread) : Prop :=
  match t with
  | RSleep _ => (contents p = [] \/ stale = true) /\ pp_writeopen p <> 0
  | WSleep _ todo => count p = 512 /\ pp_readopen p <> 0 /\ todo <> []
  | _ => True
  end.

Record psys_inv (s : psys) : Prop := {
  pv_wf : pipe_wf (ps_pipe s);
  pv_fifo : ps_sent s = ps_recv s ++ contents (ps_pipe s);
  pv_sleep : Forall (sleep_ok (ps_pipe s) (ps_stale s)) (ps_threads s) }.

Lemma sleep_ok_insert p f ts i t :
  Forall (sleep_ok p f) ts -> sleep_ok p f t -> Forall (sleep_ok p f) (<[i := t]> ts).
Proof. intros H Ht. by apply Forall_insert. Qed.

Lemma contents_nil p : pipe_wf p -> contents p = [] <-> pp_nread p = pp_nwrite p.
Proof.
  intros H. rewrite (empty_iff p H), <- (contents_length p H). destruct (contents p); simpl; split; (done || lia).
Qed.

(** The readers and writers that sleep through a section. *)
Lemma sleepers p p' failed stale w t :
  pipe_wf p' -> sleep_ok p stale t ->
  (contents p = [] -> contents p' = [] \/ existsb is_nread w = true \/ failed = true) ->
  (count p = 512 -> count p' = 512 \/ existsb (fun c => negb (is_nread c)) w = true) ->
  (pp_readopen p' = pp_readopen p \/ existsb (fun c => negb (is_nread c)) w = true) -> (pp_writeopen p' = pp_writeopen p \/ existsb is_nread w = true) ->
  sleep_ok p' (stale_after w p' failed stale) (wake w t).
Proof.
  intros Hwf Ht Hc Hfull Hr Hw. destruct t; simpl in *; try done.
  - destruct (existsb (fun c => negb (is_nread c)) w); simpl; [done|]. destruct Ht as (A & B & C). destruct Hr as [->|?]; [|done]. destruct (Hfull A) as [?|?]; done.
  - unfold stale_after. destruct (existsb is_nread w) eqn:E; simpl; [done|]. destruct Ht as [Ht Ho]. destruct Hw as [->|?]; [|done]. split; [|done].
    destruct (Z.eqb_spec (pp_nread p') (pp_nwrite p')) as [Ee|Ee]; [left; by apply contents_nil|simpl].
    destruct Ht as [Ht|Ht]; [|right; by rewrite Ht]. destruct (Hc Ht) as [?|[?| ->]]; [by left|done|right; by rewrite orb_true_r].
Qed.

Lemma wake_all_ok p f t : sleep_ok p f t -> sleep_ok p f (wake [ChNread; ChNwrite] t).
Proof. by destruct t. Qed.

Lemma write_inv s i killed n todo e w rest p' :
  psys_inv s -> pipewrite killed n todo (ps_pipe s) = (e, w, rest, p') ->
  psys_inv (mkpsys p' (<[i := after_write e n rest]> (wake w <$> ps_threads s)) (ps_sent s ++ take (length todo - length rest) todo) (ps_recv s)
    (stale_after w p' (failed_with e (length todo - length rest)) (ps_stale s))).
Proof.
  intros [Hwf Hfifo Hsl] Hw. destruct (pipewrite_run _ _ _ _ _ _ _ _ Hwf Hw) as (dn & -> & Hwf' & Hcon & Hro & Hwo & Hcase).
  rewrite length_app. replace (length dn + length rest - length rest)%nat with (length dn) by lia. rewrite take_app_length.
  split; simpl; [done|by rewrite Hfifo, Hcon, app_assoc|]. apply sleep_ok_insert.
  - apply Forall_fmap. eapply Forall_impl; [exact Hsl|]. intros t Ht. unfold compose. apply sleepers with (p := ps_pipe s); try done; [| |by left|by left].
    + intros Hnil. rewrite Hcon, Hnil. destruct Hcase as [(-> & -> & _)|[(-> & -> & _)|(-> & -> & _)]]; [by right; left| |by right; left].
      destruct dn; [by left|by right; right].
    + intros Hfull. left. pose proof (contents_length _ Hwf') as Hl. rewrite Hcon, length_app, Nat2Z.inj_add, contents_length in Hl by done.
      pose proof (pw_count _ Hwf'). lia.
  - destruct Hcase as [(-> & _)|[(-> & _)|(-> & _ & Hne & Hc & Ho)]]; simpl; [done|done|]. rewrite Hro. done.
Qed.

Lemma read_inv s i killed n e w p' :
  psys_inv s -> piperead killed n (ps_pipe s) = (e, w, p') ->
  psys_inv (mkpsys p' (<[i := after_read e n]> (wake w <$> ps_threads s)) (ps_sent s) (ps_recv s ++ got_of e) (stale_after w p' false (ps_stale s))).
Proof.
  intros [Hwf Hfifo Hsl] Hr. unfold piperead in Hr. destruct (_ && _) eqn:E.
  - apply andb_true_iff in E as [E1 E2]. apply Z.eqb_eq in E1. apply negb_true_iff, Z.eqb_neq in E2. apply contents_nil in E1; [|done].
    destruct killed; injection Hr as <- <- <-; split; simpl; try done; try (by rewrite app_nil_r).
    all: apply sleep_ok_insert; [|simpl; first [done|split; [by left|done]]].
    all: apply Forall_fmap; eapply Forall_impl; [exact Hsl|]; intros t Ht; unfold compose; apply sleepers with (p := ps_pipe s); by try left.
  - destruct (pipe_take (Z.to_nat n) (ps_pipe s)) as [bs p0] eqn:Et. injection Hr as <- <- <-.
    destruct (pipe_take_run _ _ _ _ Hwf Et) as (Hwf' & Hcon & _ & Hro & Hwo). split; simpl; [done|by rewrite Hfifo, Hcon, app_assoc|].
    apply sleep_ok_insert; [|done]. apply Forall_fmap. eapply Forall_impl; [exact Hsl|]. intros t Ht. unfold compose.
    apply sleepers with (p := ps_pipe s); try done; [|by right|by left|by left]. intros Hnil. left. rewrite Hnil in Hcon. symmetry in Hcon. by apply app_nil in Hcon as [_ ?].
Qed.

Lemma pstep_inv s s' : psys_inv s -> pstep s s' -> psys_inv s'.
Proof.
  intros I Hst. destruct Hst as [s i killed n todo e w rest p' Hi Hw|s i killed n e w p' Hi Hr|s writable w p' Hc|s i t Hi].
  - by eapply write_inv.
  - by eapply read_inv.
  - destruct I as [Hwf Hfifo Hsl]. injection Hc as <- Hfr <-. assert (Hwf' : pipe_wf (if writable then mkpipe (pp_data (ps_pipe s)) (pp_nread (ps_pipe s)) (pp_nwrite (ps_pipe s)) (pp_readopen (ps_pipe s)) 0
      else mkpipe (pp_data (ps_pipe s)) (pp_nread (ps_pipe s)) (pp_nwrite (ps_pipe s)) 0 (pp_writeopen (ps_pipe s)))) by (destruct Hwf; by destruct writable).
    split; simpl; [done|rewrite Hfifo; by destruct writable|].
    apply Forall_fmap. eapply Forall_impl; [exact Hsl|]. intros t Ht. unfold compose. destruct writable; apply sleepers with (p := ps_pipe s); try done; by (left + right).
  - destruct I as [Hwf Hfifo Hsl]. split; simpl; [done|done|]. apply sleep_ok_insert; [done|]. apply wake_all_ok. by eapply Forall_lookup_1 in Hi.
Qed.

(** ** Properties *)

(** C32. Pipes deliver what is written.  In every state reached by any
    interleaving of the sections of readers and writers, closes and kills,
    from a new pipe: the bytes put in are exactly the bytes taken out followed
    by those in the pipe, in order, and there are at most PIPESIZE of the
    latter (the counters may wrap around).  A writer sleeps only on a full
    pipe with an open read end.  A reader sleeps only while the write end is open,
    and on an empty pipe, with one exception: a write that fails on a full pipe
    after it has put bytes in wakes no reader (pipe.c:81), and until the next
    wakeup of the readers or until the pipe is empty again ([ps_stale]) a reader
    may be asleep next to bytes.  A read that returns 0 for a positive count means
    that the pipe is empty and its write end closed. *)
Theorem pipe_safety data ts s :
  length data = 512%nat -> Forall (fun t => exists n todo, t = WRun n todo \/ t = RRun n) ts ->
  preach (mkpsys (pipe_init data) ts [] [] false) s ->
  ps_sent s = ps_recv s ++ contents (ps_pipe s) /\ (length (contents (ps_pipe s)) <= 512)%nat /\
  Forall (sleep_ok (ps_pipe s) (ps_stale s)) (ps_threads s) /\
  (forall killed n w p', piperead killed n (ps_pipe s) = (PReturn 0 [], w, p') -> 0 < n ->
     contents (ps_pipe s) = [] /\ pp_writeopen (ps_pipe s) = 0).
Proof.
  intros Hd Hts Hr. assert (Hinv : psys_inv s).
  { induction Hr as [|s s' _ IH Hst]; [|by eapply pstep_inv]. split; simpl; [by split; simpl; unfold two32; try lia; vm_compute|done|].
    eapply Forall_impl; [exact Hts|]. by intros t (n & todo & [->| ->]). }
  destruct Hinv as [Hwf Hfifo Hsl]. split; [done|]. split.
  { pose proof (contents_length _ Hwf). pose proof (pw_count _ Hwf). lia. }
  split; [done|]. intros killed n w p' Hread Hn. unfold piperead in Hread.
  destruct (Z.eqb_spec (pp_nread (ps_pipe s)) (pp_nwrite (ps_pipe s))) as [E|E]; simpl in Hread.
  - apply empty_iff in E; [|done]. split; [unfold contents; by rewrite E|].
    destruct (Z.eqb_spec (pp_writeopen (ps_pipe s)) 0); [done|]. simpl in Hread. by destruct killed.
  - destruct (pipe_take (Z.to_nat n) (ps_pipe s)) as [bs p0] eqn:Et. injection Hread as Hl -> _ _.
    destruct (pipe_take_run _ _ _ _ Hwf Et) as (_ & _ & Hb & _). exfalso. apply E. apply empty_iff; [done|].
    rewrite <- contents_length by done. destruct (contents (ps_pipe s)); [done|]. destruct (Z.to_nat n) eqn:En; [lia|]. done.
Qed.

(** A reader goes to sleep, a writer fills the pipe with two bytes. *)
Lemma pipe_safety_witness :
  let s := mkpsys (pipe_put 8 (pipe_put 7 (pipe_init (replicate 512 0)))) [RRun 4; Fin 2 []] [7; 8] [] false in
  ps_sent s = ps_recv s ++ contents (ps_pipe s) /\ (length (contents (ps_pipe s)) <= 512)%nat.
Proof.
  intros s. enough (H : preach (mkpsys (pipe_init (replicate 512 0)) [RRun 4; WRun 2 [7; 8]] [] [] false) s).
  { destruct (pipe_safety (replicate 512 0) [RRun 4; WRun 2 [7; 8]] s) as (A & B & _); [done| |exact H|by split].
    constructor; [by exists 4, []; right|]. constructor; [by exists 2, [7; 8]; left|constructor]. }
  set (s0 := mkpsys (pipe_init (replicate 512 0)) [RRun 4; WRun 2 [7; 8]] [] [] false).
  set (s1 := mkpsys (pipe_init (replicate 512 0)) [RSleep 4; WRun 2 [7; 8]] [] [] false).
  apply (preach_step s0 s1 s); [apply (preach_step s0 s0 s1); [apply preach_refl|]|].
  - exact (step_read s0 0%nat false 4 (PSleep ChNread) [] (pipe_init (replicate 512 0)) eq_refl eq_refl).
  - exact (step_write s1 1%nat false 2 [7; 8] (PReturn 2 []) [ChNread] [] (pipe_put 8 (pipe_put 7 (pipe_init (replicate 512 0)))) eq_refl eq_refl).
Defined.

(** The exception above is real: a killed writer that fills the pipe
    returns without calling [wakeup(&p->nread)], and a reader that went to
    sleep before stays asleep next to a full pipe. *)
Lemma full_write :
  pipewrite true 513 (replicate 513 7) (pipe_init (replicate 512 0)) =
  (PReturn (-1) [], [], [7], mkpipe (replicate 512 7) 0 512 1 1).
Proof. vm_compute. reflexivity. Qed.

Theorem killed_write_loses_wakeup :
  let s0 := mkpsys (pipe_init (replicate 512 0)) [RRun 4; WRun 513 (replicate 513 7)] [] [] false in
  exists s, preach s0 s /\ ps_threads s !! 0%nat = Some (RSleep 4) /\ length (contents (ps_pipe s)) = 512%nat.
Proof.
  intros s0. set (s1 := mkpsys (pipe_init (replicate 512 0)) [RSleep 4; WRun 513 (replicate 513 7)] [] [] false).
  eexists. split; [apply (preach_step s0 s1)|split].
  - apply (preach_step s0 s0 s1); [apply preach_refl|].
    exact (step_read s0 0%nat false 4 (PSleep ChNread) [] (pipe_init (replicate 512 0)) eq_refl eq_refl).
  - exact (step_write s1 1%nat true 513 (replicate 513 7) (PReturn (-1) []) [] [7] _ eq_refl full_write).
  - reflexivity.
  - vm_compute. reflexivity.
Qed.
