(* ===== verification/FState.v ===== *)
(** * The state of the file system

    The data structures of buf.h, sleeplock.h, log.c, fs.h and file.h, and the
    state the file-system code works on.

    Disk blocks are lists of BSIZE bytes.  The disk of memide.c is an image and
    the sequence of blocks written to it since, newest first, so that the
    states of the disk in between, which matter after a crash, are there too.
    The doubly linked list of the buffer cache is the list [f_lru] of buffer
    numbers from [head.next] on.  Pointers to buffers, inodes and files are
    indices of their tables.

    Spin locks do not appear here: each critical section is one step of the
    model, which is what Spinlock.v shows about them.  Sleep locks, which are
    held across operations, are part of the state. *)

From Stdlib Require Import ZArith Lia.
From stdpp Require Import base numbers strings gmap list.
From S2P Require Import Prelude.
From S2P Require Import Machine.

Local Open Scope list_scope.
Local Open Scope Z_scope.

Definition BSIZE : Z := 512.
Definition ROOTINO : Z := 1.
Definition NDIRECT : Z := 12.
Definition NINDIRECT : Z := 128.
Definition MAXFILE : Z := NDIRECT + NINDIRECT.
Definition IPB : Z := 8.
Definition BPB : Z := BSIZE * 8.
Definition DIRSIZ : Z := 14.

Definition B_VALID : Z := 2.
Definition B_DIRTY : Z := 4.

Definition T_DIR : Z := 1.
Definition T_FILE : Z := 2.
Definition T_DEV : Z := 3.
Definition CONSOLE : Z := 1.

(** [struct sleeplock], without its spin lock and name. *)
Record sleeplk := mksleep {
  sl_locked : Z;
  sl_pid : Z }.


(** [struct buf], without the links. *)
Record buf := mkbuf {
  b_flags : Z;
  b_dev : Z;
  b_blockno : Z;
  b_lock : sleeplk;
  b_refcnt : Z;
  b_data : list Z }.

Definition set_b_flags (x : Z) (r : buf) : buf := mkbuf x (b_dev r) (b_blockno r) (b_lock r) (b_refcnt r) (b_data r).
Definition set_b_dev (x : Z) (r : buf) : buf := mkbuf (b_flags r) x (b_blockno r) (b_lock r) (b_refcnt r) (b_data r).
Definition set_b_blockno (x : Z) (r : buf) : buf := mkbuf (b_flags r) (b_dev r) x (b_lock r) (b_refcnt r) (b_data r).
Definition set_b_lock (x : sleeplk) (r : buf) : buf := mkbuf (b_flags r) (b_dev r) (b_blockno r) x (b_refcnt r) (b_data r).
Definition set_b_refcnt (x : Z) (r : buf) : buf := mkbuf (b_flags r) (b_dev r) (b_blockno r) (b_lock r) x (b_data r).
Definition set_b_data (x : list Z) (r : buf) : buf := mkbuf (b_flags r) (b_dev r) (b_blockno r) (b_lock r) (b_refcnt r) x.

(** [struct log] with its header. *)
Record logst := mklog {
  lg_start : Z;
  lg_size : Z;
  lg_outstanding : Z;
  lg_committing : Z;
  lg_dev : Z;
  lh_n : Z;
  lh_block : list Z }.

Definition set_lg_start (x : Z) (r : logst) : logst := mklog x (lg_size r) (lg_outstanding r) (lg_committing r) (lg_dev r) (lh_n r) (lh_block r).
Definition set_lg_size (x : Z) (r : logst) : logst := mklog (lg_start r) x (lg_outstanding r) (lg_committing r) (lg_dev r) (lh_n r) (lh_block r).
Definition set_lg_outstanding (x : Z) (r : logst) : logst := mklog (lg_start r) (lg_size r) x (lg_committing r) (lg_dev r) (lh_n r) (lh_block r).
Definition set_lg_committing (x : Z) (r : logst) : logst := mklog (lg_start r) (lg_size r) (lg_outstanding r) x (lg_dev r) (lh_n r) (lh_block r).
Definition set_lg_dev (x : Z) (r : logst) : logst := mklog (lg_start r) (lg_size r) (lg_outstanding r) (lg_committing r) x (lh_n r) (lh_block r).
Definition set_lh_n (x : Z) (r : logst) : logst := mklog (lg_start r) (lg_size r) (lg_outstanding r) (lg_committing r) (lg_dev r) x (lh_block r).
Definition set_lh_block (x : list Z) (r : logst) : logst := mklog (lg_start r) (lg_size r) (lg_outstanding r) (lg_committing r) (lg_dev r) (lh_n r) x.

(** [struct superblock]. *)
Record superblock := mksb {
  sb_size : Z;
  sb_nblocks : Z;
  sb_ninodes : Z;
  sb_nlog : Z;
  sb_logstart : Z;
  sb_inodestart : Z;
  sb_bmapstart : Z }.


(** [struct inode], the in-memory copy. *)
Record inode := mkinode {
  i_dev : Z;
  i_inum : Z;
  i_ref : Z;
  i_lock : sleeplk;
  i_valid : Z;
  i_type : Z;
  i_major : Z;
  i_minor : Z;
  i_nlink : Z;
  i_size : Z;
  i_addrs : list Z }.

Definition set_i_dev (x : Z) (r : inode) : inode := mkinode x (i_inum r) (i_ref r) (i_lock r) (i_valid r) (i_type r) (i_major r) (i_minor r) (i_nlink r) (i_size r) (i_addrs r).
Definition set_i_inum (x : Z) (r : inode) : inode := mkinode (i_dev r) x (i_ref r) (i_lock r) (i_valid r) (i_type r) (i_major r) (i_minor r) (i_nlink r) (i_size r) (i_addrs r).
Definition set_i_ref (x : Z) (r : inode) : inode := mkinode (i_dev r) (i_inum r) x (i_lock r) (i_valid r) (i_type r) (i_major r) (i_minor r) (i_nlink r) (i_size r) (i_addrs r).
Definition set_i_lock (x : sleeplk) (r : inode) : inode := mkinode (i_dev r) (i_inum r) (i_ref r) x (i_valid r) (i_type r) (i_major r) (i_minor r) (i_nlink r) (i_size r) (i_addrs r).
Definition set_i_valid (x : Z) (r : inode) : inode := mkinode (i_dev r) (i_inum r) (i_ref r) (i_lock r) x (i_type r) (i_major r) (i_minor r) (i_nlink r) (i_size r) (i_addrs r).
Definition set_i_type (x : Z) (r : inode) : inode := mkinode (i_dev r) (i_inum r) (i_ref r) (i_lock r) (i_valid r) x (i_major r) (i_minor r) (i_nlink r) (i_size r) (i_addrs r).
Definition set_i_major (x : Z) (r : inode) : inode := mkinode (i_dev r) (i_inum r) (i_ref r) (i_lock r) (i_valid r) (i_type r) x (i_minor r) (i_nlink r) (i_size r) (i_addrs r).
Definition set_i_minor (x : Z) (r : inode) : inode := mkinode (i_dev r) (i_inum r) (i_ref r) (i_lock r) (i_valid r) (i_type r) (i_major r) x (i_nlink r) (i_size r) (i_addrs r).
Definition set_i_nlink (x : Z) (r : inode) : inode := mkinode (i_dev r) (i_inum r) (i_ref r) (i_lock r) (i_valid r) (i_type r) (i_major r) (i_minor r) x (i_size r) (i_addrs r).
Definition set_i_size (x : Z) (r : inode) : inode := mkinode (i_dev r) (i_inum r) (i_ref r) (i_lock r) (i_valid r) (i_type r) (i_major r) (i_minor r) (i_nlink r) x (i_addrs r).
Definition set_i_addrs (x : list Z) (r : inode) : inode := mkinode (i_dev r) (i_inum r) (i_ref r) (i_lock r) (i_valid r) (i_type r) (i_major r) (i_minor r) (i_nlink r) (i_size r) x.

Inductive fdtype := FD_NONE | FD_PIPE | FD_INODE.

(** [struct file]. *)
Record file := mkfile {
  fl_type : fdtype;
  fl_ref : Z;
  fl_readable : Z;
  fl_writable : Z;
  fl_pipe : Z;
  fl_ip : nat;
  fl_off : Z }.

Definition set_fl_type (x : fdtype) (r : file) : file := mkfile x (fl_ref r) (fl_readable r) (fl_writable r) (fl_pipe r) (fl_ip r) (fl_off r).
Definition set_fl_ref (x : Z) (r : file) : file := mkfile (fl_type r) x (fl_readable r) (fl_writable r) (fl_pipe r) (fl_ip r) (fl_off r).
Definition set_fl_readable (x : Z) (r : file) : file := mkfile (fl_type r) (fl_ref r) x (fl_writable r) (fl_pipe r) (fl_ip r) (fl_off r).
Definition set_fl_writable (x : Z) (r : file) : file := mkfile (fl_type r) (fl_ref r) (fl_readable r) x (fl_pipe r) (fl_ip r) (fl_off r).
Definition set_fl_pipe (x : Z) (r : file) : file := mkfile (fl_type r) (fl_ref r) (fl_readable r) (fl_writable r) x (fl_ip r) (fl_off r).
Definition set_fl_ip (x : nat) (r : file) : file := mkfile (fl_type r) (fl_ref r) (fl_readable r) (fl_writable r) (fl_pipe r) x (fl_off r).
Definition set_fl_off (x : Z) (r : file) : file := mkfile (fl_type r) (fl_ref r) (fl_readable r) (fl_writable r) (fl_pipe r) (fl_ip r) x.

(** [f_pid] and [f_cwd] are the calling process's [pid] and [cwd]. *)
Record fstate := mkfs {
  f_img : gmap Z (list Z);
  f_writes : list (Z * list Z);
  f_disksize : Z;
  f_bufs : list buf;
  f_lru : list nat;
  f_log : logst;
  f_sb : superblock;
  f_inodes : list inode;
  f_files : list file;
  f_pid : Z;
  f_cwd : nat }.

Definition set_f_img (x : gmap Z (list Z)) (r : fstate) : fstate := mkfs x (f_writes r) (f_disksize r) (f_bufs r) (f_lru r) (f_log r) (f_sb r) (f_inodes r) (f_files r) (f_pid r) (f_cwd r).
Definition set_f_writes (x : list (Z * list Z)) (r : fstate) : fstate := mkfs (f_img r) x (f_disksize r) (f_bufs r) (f_lru r) (f_log r) (f_sb r) (f_inodes r) (f_files r) (f_pid r) (f_cwd r).
Definition set_f_disksize (x : Z) (r : fstate) : fstate := mkfs (f_img r) (f_writes r) x (f_bufs r) (f_lru r) (f_log r) (f_sb r) (f_inodes r) (f_files r) (f_pid r) (f_cwd r).
Definition set_f_bufs (x : list buf) (r : fstate) : fstate := mkfs (f_img r) (f_writes r) (f_disksize r) x (f_lru r) (f_log r) (f_sb r) (f_inodes r) (f_files r) (f_pid r) (f_cwd r).
Definition set_f_lru (x : list nat) (r : fstate) : fstate := mkfs (f_img r) (f_writes r) (f_disksize r) (f_bufs r) x (f_log r) (f_sb r) (f_inodes r) (f_files r) (f_pid r) (f_cwd r).
Definition set_f_log (x : logst) (r : fstate) : fstate := mkfs (f_img r) (f_writes r) (f_disksize r) (f_bufs r) (f_lru r) x (f_sb r) (f_inodes r) (f_files r) (f_pid r) (f_cwd r).
Definition set_f_sb (x : superblock) (r : fstate) : fstate := mkfs (f_img r) (f_writes r) (f_disksize r) (f_bufs r) (f_lru r) (f_log r) x (f_inodes r) (f_files r) (f_pid r) (f_cwd r).
Definition set_f_inodes (x : list inode) (r : fstate) : fstate := mkfs (f_img r) (f_writes r) (f_disksize r) (f_bufs r) (f_lru r) (f_log r) (f_sb r) x (f_files r) (f_pid r) (f_cwd r).
Definition set_f_files (x : list file) (r : fstate) : fstate := mkfs (f_img r) (f_writes r) (f_disksize r) (f_bufs r) (f_lru r) (f_log r) (f_sb r) (f_inodes r) x (f_pid r) (f_cwd r).
Definition set_f_pid (x : Z) (r : fstate) : fstate := mkfs (f_img r) (f_writes r) (f_disksize r) (f_bufs r) (f_lru r) (f_log r) (f_sb r) (f_inodes r) (f_files r) x (f_cwd r).
Definition set_f_cwd (x : nat) (r : fstate) : fstate := mkfs (f_img r) (f_writes r) (f_disksize r) (f_bufs r) (f_lru r) (f_log r) (f_sb r) (f_inodes r) (f_files r) (f_pid r) x.

(** Zeroed memory. *)
Definition inode0 : inode := mkinode 0 0 0 (mksleep 0 0) 0 0 0 0 0 0 (replicate 13 0).
Definition file0 : file := mkfile FD_NONE 0 0 0 0 0 0.
