(* ===== verification/Blocks.v ===== *)
(** * Bytes of a block

    A block is a list of bytes; the file system reads and writes 16- and 32-bit
    little-endian fields and byte ranges inside it. *)

From Stdlib Require Import ZArith Lia.
From stdpp Require Import base numbers strings gmap list.
From S2P Require Import Prelude.

Local Open Scope list_scope.
Local Open Scope Z_scope.

(** [memmove(d + off, bs, length bs)] *)
Definition splice (off : nat) (bs d : list Z) : list Z := take off d ++ bs ++ drop (off + length bs) d.
(** The [n] bytes at [off]. *)
Definition slice (off n : nat) (d : list Z) : list Z := take n (drop off d).

Definition le16 (v : Z) : list Z := [v mod 256; v / 256 mod 256].
Definition le32 (v : Z) : list Z := [v mod 256; v / 256 mod 256; v / 65536 mod 256; v / 16777216 mod 256].
Definition of_le (bs : list Z) : Z := foldr (fun b r => b + 256 * r) 0 bs.

Definition get16 (d : list Z) (off : nat) : Z := of_le (slice off 2 d).
Definition get32 (d : list Z) (off : nat) : Z := of_le (slice off 4 d).
Definition put16 (off : nat) (v : Z) (d : list Z) : list Z := splice off (le16 v) d.
Definition put32 (off : nat) (v : Z) (d : list Z) : list Z := splice off (le32 v) d.

Lemma length_splice off bs d : (off + length bs <= length d)%nat -> length (splice off bs d) = length d.
Proof. intros H. unfold splice. rewrite !length_app, length_take, length_drop. lia. Qed.

Lemma lookup_splice off bs d i :
  (off + length bs <= length d)%nat ->
  splice off bs d !! i = if decide (off <= i < off + length bs)%nat then bs !! (i - off)%nat else d !! i.
Proof.
  intros H. unfold splice. destruct (decide _) as [Hi|Hi].
  - rewrite lookup_app_r by (rewrite length_take; lia). rewrite length_take. rewrite lookup_app_l by lia. f_equal. lia.
  - destruct (decide (i < off)%nat).
    + rewrite lookup_app_l by (rewrite length_take; lia). rewrite lookup_take_lt by done. done.
    + rewrite lookup_app_r by (rewrite length_take; lia). rewrite length_take. rewrite lookup_app_r by lia.
      rewrite lookup_drop. f_equal. lia.
Qed.

Lemma lookup_slice off n d i : slice off n d !! i = if decide (i < n)%nat then d !! (off + i)%nat else None.
Proof.
  unfold slice. destruct (decide (i < n)%nat); [by rewrite lookup_take_lt, lookup_drop by done|]. by rewrite lookup_take_ge by lia.
Qed.

Lemma length_slice off n d : (off + n <= length d)%nat -> length (slice off n d) = n.
Proof. intros H. unfold slice. rewrite length_take, length_drop. lia. Qed.

Lemma slice_splice_eq off bs d : (off + length bs <= length d)%nat -> slice off (length bs) (splice off bs d) = bs.
Proof.
  intros H. apply list_eq. intros i. rewrite lookup_slice. destruct (decide _) as [Hi|Hi].
  - rewrite lookup_splice, decide_True by lia. f_equal. lia.
  - symmetry. apply lookup_ge_None_2. lia.
Qed.

Lemma slice_splice_ne off bs d off' n :
  (off + length bs <= length d)%nat -> (off' + n <= off \/ off + length bs <= off')%nat ->
  slice off' n (splice off bs d) = slice off' n d.
Proof.
  intros H Hd. apply list_eq. intros i. rewrite !lookup_slice. destruct (decide _) as [Hi|Hi]; [|done].
  rewrite lookup_splice, decide_False by lia. done.
Qed.

Lemma of_le_le16 v : 0 <= v < 65536 -> of_le (le16 v) = v.
Proof.
  intros H. unfold of_le, le16. simpl. pose proof (Z.div_mod v 256). pose proof (Z.mod_pos_bound v 256).
  rewrite (Z.mod_small (v / 256)); [lia|]. split; [apply Z.div_pos; lia|apply Z.div_lt_upper_bound; lia].
Qed.

Lemma of_le_le32 v : 0 <= v < two32 -> of_le (le32 v) = v.
Proof.
  unfold two32. intros H. unfold of_le, le32. simpl.
  assert (E1 : v = 256 * (v / 256) + v mod 256) by (apply Z.div_mod; lia).
  assert (E2 : v / 256 = 256 * (v / 65536) + v / 256 mod 256) by (change 65536 with (256 * 256); rewrite <- Z.div_div by lia; apply Z.div_mod; lia).
  assert (E3 : v / 65536 = 256 * (v / 16777216) + v / 65536 mod 256)
    by (change 16777216 with (65536 * 256); rewrite <- Z.div_div by lia; apply Z.div_mod; lia).
  rewrite (Z.mod_small (v / 16777216)); [lia|]. split; [apply Z.div_pos; lia|apply Z.div_lt_upper_bound; lia].
Qed.

Lemma get32_put32 off v d : 0 <= v < two32 -> (off + 4 <= length d)%nat -> get32 (put32 off v d) off = v.
Proof. intros Hv Hd. unfold get32, put32. rewrite (slice_splice_eq off (le32 v)) by done. by apply of_le_le32. Qed.

Lemma get32_put32_ne off off' v d :
  (off + 4 <= length d)%nat -> (off' + 4 <= off \/ off + 4 <= off')%nat -> get32 (put32 off v d) off' = get32 d off'.
Proof. intros Hd Ho. unfold get32, put32. by rewrite slice_splice_ne. Qed.

Lemma length_put32 off v d : (off + 4 <= length d)%nat -> length (put32 off v d) = length d.
Proof. intros H. unfold put32. by rewrite length_splice. Qed.

Lemma get16_put16 off v d : 0 <= v < 65536 -> (off + 2 <= length d)%nat -> get16 (put16 off v d) off = v.
Proof. intros Hv Hd. unfold get16, put16. rewrite (slice_splice_eq off (le16 v)) by done. by apply of_le_le16. Qed.

(** [m] consecutive 32-bit fields from [off] on. *)
Fixpoint put32s (off : nat) (vs : list Z) (d : list Z) : list Z :=
  match vs with [] => d | v :: vs => put32s (off + 4) vs (put32 off v d) end.
Fixpoint get32s (off n : nat) (d : list Z) : list Z :=
  match n with O => [] | S n => get32 d off :: get32s (off + 4) n d end.

Lemma length_put32s off vs d : (off + 4 * length vs <= length d)%nat -> length (put32s off vs d) = length d.
Proof.
  revert off d. induction vs as [|v vs IH]; intros off d H; [done|]. simpl in *. rewrite IH; [by rewrite length_put32 by lia|].
  rewrite length_put32 by lia. lia.
Qed.

Lemma get32_put32s_before off vs d off' :
  (off + 4 * length vs <= length d)%nat -> (off' + 4 <= off)%nat -> get32 (put32s off vs d) off' = get32 d off'.
Proof.
  revert off d. induction vs as [|v vs IH]; intros off d H Ho; [done|]. simpl in *.
  rewrite IH; [by rewrite get32_put32_ne by lia| |lia]. rewrite length_put32 by lia. lia.
Qed.

Lemma get32s_put32s off vs d :
  Forall (fun v => 0 <= v < two32) vs -> (off + 4 * length vs <= length d)%nat -> get32s off (length vs) (put32s off vs d) = vs.
Proof.
  revert off d. induction vs as [|v vs IH]; intros off d Hv H; [done|]. apply Forall_cons in Hv as [Hv0 Hv]. simpl in *. f_equal.
  - rewrite get32_put32s_before; [apply get32_put32; [done|lia]|rewrite length_put32 by lia; lia|lia].
  - apply IH; [done|]. rewrite length_put32 by lia. lia.
Qed.
