(* ===== verification/Ide.v ===== *)
(** * The IDE disk driver (ide.c)

    The driver talks to the disk through ports.  The disk itself is a parameter:
    the class [Ata] has the port instructions of x86.h on the state of the
    device, and the step the device makes by itself when it finishes a command.
    Loops that poll a port are given [polls] iterations; after that the processor
    is still spinning.

    [idelock] makes [ideintr], and [iderw] up to its sleep and from there on, one
    step each.  The processes that sleep in [iderw] are recorded by the buffer
    they sleep on. *)

From Stdlib Require Import ZArith Lia.
From stdpp Require Import base numbers strings gmap list.
From S2P Require Import Prelude.
From S2P Require Import Machine.
From S2P Require Import FState.

Local Open Scope string_scope.
Local Open Scope list_scope.
Local Open Scope Z_scope.

Definition SECTOR_SIZE : Z := 512.
Definition IDE_BSY : Z := 128.
Definition IDE_DRDY : Z := 64.
Definition IDE_DF : Z := 32.
Definition IDE_ERR : Z := 1.
Definition IDE_CMD_READ : Z := 32.
Definition IDE_CMD_WRITE : Z := 48.
Definition IDE_CMD_RDMUL : Z := 196.
Definition IDE_CMD_WRMUL : Z := 197.

(** The device as the processor sees it. *)
Class Ata (D : Type) := {
  ata_in : Z -> D -> Z * D;
  ata_out : Z -> Z -> D -> D;
  ata_insl : Z -> nat -> D -> list Z * D;
  ata_outsl : Z -> list Z -> D -> D;
  ata_finish : D -> D -> Prop;
  polls : nat }.

Section ide.
Context {D : Type} `{A : Ata D}.

(** The device, the buffers with their links [qnext], the queue, the buffers a
    process sleeps on, and the interrupts that were enabled. *)
Record ide := mkide {
  id_dev : D;
  id_bufs : list buf;
  id_qnext : list (option nat);
  idequeue : option nat;
  havedisk1 : Z;
  id_sleep : list nat;
  id_routes : list (Z * Z) }.

Definition set_id_dev (x : D) (s : ide) : ide := mkide x (id_bufs s) (id_qnext s) (idequeue s) (havedisk1 s) (id_sleep s) (id_routes s).
Definition set_id_bufs (x : list buf) (s : ide) : ide := mkide (id_dev s) x (id_qnext s) (idequeue s) (havedisk1 s) (id_sleep s) (id_routes s).
Definition set_id_qnext (x : list (option nat)) (s : ide) : ide := mkide (id_dev s) (id_bufs s) x (idequeue s) (havedisk1 s) (id_sleep s) (id_routes s).
Definition set_idequeue (x : option nat) (s : ide) : ide := mkide (id_dev s) (id_bufs s) (id_qnext s) x (havedisk1 s) (id_sleep s) (id_routes s).
Definition set_havedisk1 (x : Z) (s : ide) : ide := mkide (id_dev s) (id_bufs s) (id_qnext s) (idequeue s) x (id_sleep s) (id_routes s).
Definition set_id_sleep (x : list nat) (s : ide) : ide := mkide (id_dev s) (id_bufs s) (id_qnext s) (idequeue s) (havedisk1 s) x (id_routes s).
Definition set_id_routes (x : list (Z * Z)) (s : ide) : ide := mkide (id_dev s) (id_bufs s) (id_qnext s) (idequeue s) (havedisk1 s) (id_sleep s) x.

(** The instructions. *)
Definition inb (port : Z) : M ide Z := fun s => let r := ata_in port (id_dev s) in Ret r.1 (set_id_dev r.2 s).
Definition outb (port v : Z) : M ide unit := modify (fun s => set_id_dev (ata_out port v (id_dev s)) s).
Definition insl (port : Z) (cnt : nat) : M ide (list Z) := fun s => let r := ata_insl port cnt (id_dev s) in Ret r.1 (set_id_dev r.2 s).
Definition outsl (port : Z) (data : list Z) : M ide unit := modify (fun s => set_id_dev (ata_outsl port data (id_dev s)) s).

Definition getbuf (b : nat) : M ide buf := s ← get; of_option "buf" (id_bufs s !! b).
Definition updbuf (b : nat) (f : buf -> buf) : M ide unit := _ ← getbuf b; modify (fun s => set_id_bufs (alter f b (id_bufs s)) s).

(** Wait for the disk to become ready. *)
Fixpoint idewait_loop (fuel : nat) : M ide Z :=
  r ← inb 503;
  if Z.land r (Z.lor IDE_BSY IDE_DRDY) =? IDE_DRDY then mret r
  else match fuel with O => stall OnLock | S fuel => idewait_loop fuel end.
Definition idewait (checkerr : bool) : M ide Z :=
  r ← idewait_loop polls;
  if checkerr && negb (Z.land r (Z.lor IDE_DF IDE_ERR) =? 0) then mret (-1) else mret 0.

Fixpoint probe (n : nat) : M ide unit :=
  match n with
  | O => mret tt
  | S n => r ← inb 503; if negb (r =? 0) then modify (set_havedisk1 1) else probe n
  end.
Definition ideinit (ncpu : Z) : M ide unit :=
  modify (fun s => set_id_routes ((IRQ_IDE, ncpu - 1) :: id_routes s) s);;
  idewait false;;
  outb 502 (Z.lor 224 (Z.shiftl 1 4));;
  probe 1000;;
  outb 502 (Z.lor 224 (Z.shiftl 0 4)).

(** Start the request for a buffer. *)
Definition idestart (b : option nat) : M ide unit :=
  match b with
  | None => panic "idestart"
  | Some b =>
      x ← getbuf b;
      unless_panic (FSSIZE <=? b_blockno x) "incorrect blockno";;
      let sector_per_block := BSIZE / SECTOR_SIZE in
      let sector := i32 (b_blockno x * sector_per_block) in
      let read_cmd := if sector_per_block =? 1 then IDE_CMD_READ else IDE_CMD_RDMUL in
      let write_cmd := if sector_per_block =? 1 then IDE_CMD_WRITE else IDE_CMD_WRMUL in
      unless_panic (7 <? sector_per_block) "idestart";;
      idewait false;;
      outb 1014 0;;
      outb 498 sector_per_block;;
      outb 499 (Z.land sector 255);;
      outb 500 (Z.land (Z.shiftr sector 8) 255);;
      outb 501 (Z.land (Z.shiftr sector 16) 255);;
      outb 502 (Z.lor (Z.lor 224 (Z.shiftl (Z.land (b_dev x) 1) 4)) (Z.land (Z.shiftr sector 24) 15));;
      if negb (Z.land (b_flags x) B_DIRTY =? 0) then outb 503 write_cmd;; outsl 496 (b_data x)
      else outb 503 read_cmd
  end.

(** The interrupt handler. *)
Definition wakeup (b : nat) : M ide unit := modify (fun s => set_id_sleep (filter (fun c => c <> b) (id_sleep s)) s).
Definition ideintr : M ide unit :=
  q ← gets idequeue;
  match q with
  | None => mret tt
  | Some b =>
      s ← get;
      n ← of_option "qnext" (id_qnext s !! b);
      modify (set_idequeue n);;
      x ← getbuf b;
      (if Z.land (b_flags x) B_DIRTY =? 0 then
         r ← idewait true;
         if 0 <=? r then data ← insl 496 (Z.to_nat (BSIZE / 4)); updbuf b (set_b_data data) else mret tt
       else mret tt);;
      updbuf b (fun x => set_b_flags (Z.land (Z.lor (b_flags x) B_VALID) (Z.lnot B_DIRTY)) x);;
      wakeup b;;
      q ← gets idequeue;
      match q with None => mret tt | Some _ => idestart q end
  end.

(** [pp] points to [idequeue] or to the link of a buffer; the loop ends at the
    link that is null. *)
Definition deref (pp : option nat) : M ide (option nat) :=
  s ← get;
  match pp with None => mret (idequeue s) | Some i => of_option "qnext" (id_qnext s !! i) end.
Definition assign (pp : option nat) (v : option nat) : M ide unit :=
  match pp with
  | None => modify (set_idequeue v)
  | Some i => _ ← deref pp; modify (fun s => set_id_qnext (<[i := v]> (id_qnext s)) s)
  end.
Fixpoint last_link (fuel : nat) (pp : option nat) : M ide (option nat) :=
  v ← deref pp;
  match v with
  | None => mret pp
  | Some i => match fuel with O => fault "iderw: fuel" | S fuel => last_link fuel (Some i) end
  end.

Definition busy_flags (x : buf) : bool := negb (Z.land (b_flags x) (Z.lor B_VALID B_DIRTY) =? B_VALID).

(** The loop that waits for the request to finish; entered again after each
    [wakeup]. *)
Definition iderw_wait (b : nat) : M ide unit :=
  x ← getbuf b;
  if busy_flags x then modify (fun s => set_id_sleep (b :: id_sleep s) s);; stall OnSched
  else mret tt.

Definition iderw (b : nat) : M ide unit :=
  x ← getbuf b;
  unless_panic (sl_locked (b_lock x) =? 0) "iderw: buf not locked";;
  unless_panic (negb (busy_flags x)) "iderw: nothing to do";;
  hd1 ← gets havedisk1;
  unless_panic (negb (b_dev x =? 0) && (hd1 =? 0)) "iderw: ide disk 1 not present";;
  assign (Some b) None;;
  s ← get;
  pp ← last_link (length (id_bufs s)) None;
  assign pp (Some b);;
  q ← gets idequeue;
  (if bool_decide (q = Some b) then idestart (Some b) else mret tt);;
  iderw_wait b.
End ide.
Arguments ide D : clear implicits.
