(* ===== verification/IdeSpec.v ===== *)
(** * The disk driver serves its queue

    What an ATA disk does with the commands of the driver is stated as a class of
    laws.  With any such disk, the processes, the interrupt handler and the device
    running in any order, [iderw] is an atomic transfer between the buffer and the
    disk, and the requests are served in the order in which they were made. *)

From Stdlib Require Import ZArith Lia.
From stdpp Require Import base numbers strings gmap list relations.
From S2P Require Import Prelude.
From S2P Require Import Machine.
From S2P Require Import FState.
From S2P Require Import Ide.

Local Open Scope string_scope.
Local Open Scope list_scope.
Local Open Scope Z_scope.

(** ** The disk *)

(** The registers of a command, and the drive and the sector they name. *)
Record taskfile := mktask { tf_count : Z; tf_lba0 : Z; tf_lba1 : Z; tf_lba2 : Z; tf_drive : Z }.
Definition tf_sector (t : taskfile) : Z := tf_lba0 t + 256 * tf_lba1 t + 65536 * tf_lba2 t + 16777216 * (tf_drive t mod 16).
Definition tf_unit (t : taskfile) : Z := tf_drive t / 16 mod 2.

Inductive op := Rd (unit sector : Z) | Wr (unit sector : Z) (data : list Z).
Inductive job := JNone | JBusy (o : op) | JDone (o : op).
Definition is_busy (j : job) : bool := match j with JBusy _ => true | _ => false end.

(** What is on the disk after a command. *)
Definition after (o : op) (d : Z -> Z -> list Z) (u n : Z) : list Z :=
  match o with Wr u' n' data => if (u =? u') && (n =? n') then data else d u n | Rd _ _ => d u n end.

Fixpoint poll {D} `{Ata D} (k : nat) (d : D) : D := match k with O => d | S k => poll k (ata_in 503 d).2 end.
Definition is_ready (r : Z) : bool := Z.land r (Z.lor IDE_BSY IDE_DRDY) =? IDE_DRDY.

(** An ATA disk with at least [FSSIZE] sectors, that has no errors. *)
Class AtaLaws (D : Type) `{A : Ata D} := {
  task : D -> taskfile;
  work : D -> job;
  sectors : D -> Z -> Z -> list Z;
  al_poll : forall d, let d' := (ata_in 503 d).2 in task d' = task d /\ work d' = work d /\ sectors d' = sectors d;
  al_ready : forall d, is_busy (work d) = false -> exists k, (k <= polls)%nat /\ is_ready (ata_in 503 (poll k d)).1 = true;
  al_ok : forall d, is_ready (ata_in 503 d).1 = true -> Z.land (ata_in 503 d).1 (Z.lor IDE_DF IDE_ERR) = 0;
  al_control : forall d, let d' := ata_out 1014 0 d in task d' = task d /\ work d' = work d /\ sectors d' = sectors d;
  al_task : forall d p v, is_busy (work d) = false -> 498 <= p <= 502 -> 0 <= v < 256 -> let d' := ata_out p v d in
    task d' = (let t := task d in mktask (if p =? 498 then v else tf_count t) (if p =? 499 then v else tf_lba0 t) (if p =? 500 then v else tf_lba1 t)
                                         (if p =? 501 then v else tf_lba2 t) (if p =? 502 then v else tf_drive t)) /\ work d' = work d /\ sectors d' = sectors d;
  al_read : forall d, is_busy (work d) = false -> tf_count (task d) = 1 -> 0 <= tf_sector (task d) < FSSIZE -> let d' := ata_out 503 IDE_CMD_READ d in
    work d' = JBusy (Rd (tf_unit (task d)) (tf_sector (task d))) /\ sectors d' = sectors d;
  al_write : forall d data, is_busy (work d) = false -> tf_count (task d) = 1 -> 0 <= tf_sector (task d) < FSSIZE -> length data = 512%nat ->
    let d' := ata_outsl 496 data (ata_out 503 IDE_CMD_WRITE d) in
    work d' = JBusy (Wr (tf_unit (task d)) (tf_sector (task d)) data) /\ sectors d' = sectors d;
  al_finish : forall d d', ata_finish d d' -> exists o, work d = JBusy o /\ work d' = JDone o /\ forall u n, sectors d' u n = after o (sectors d) u n;
  al_finishes : forall d o, work d = JBusy o -> exists d', ata_finish d d';
  al_data : forall d u n, work d = JDone (Rd u n) -> let r := ata_insl 496 128 d in r.1 = sectors d u n /\ is_busy (work r.2) = false /\ sectors r.2 = sectors d }.

(** ** The system: processes in [iderw], the interrupt and the disk *)

Section sys.
Context {D : Type} `{A : Ata D}.

(** [s_irq]: the disk has raised its interrupt; [s_in]: the buffers whose process
    is in [iderw]. *)
Record sys := mksys { s_ide : ide D; s_irq : bool; s_in : list nat }.

(** What the callers of [iderw] see to: the buffer is locked and needs the
    disk. *)
Record request_ok (x : buf) : Prop := {
  ro_lock : sl_locked (b_lock x) <> 0;
  ro_flags : b_flags x = 0 \/ b_flags x = B_DIRTY \/ b_flags x = Z.lor B_VALID B_DIRTY;
  ro_dev : b_dev x = 0 \/ b_dev x = 1;
  ro_block : 0 <= b_blockno x < FSSIZE;
  ro_data : length (b_data x) = 512%nat }.

Inductive dev_step : sys -> sys -> Prop :=
  | st_finish i ins d' : ata_finish (id_dev i) d' -> dev_step (mksys i false ins) (mksys (set_id_dev d' i) true ins)
  | st_intr i i' ins : ideintr i = Ret tt i' -> dev_step (mksys i true ins) (mksys i' false ins).

(** Only the lock of a buffer gives the right to use it, so no process calls
    [iderw] for, or changes, a buffer that another process has in [iderw]. *)
Inductive step : sys -> sys -> Prop :=
  | st_dev s s' : dev_step s s' -> step s s'
  | st_call i irq ins b x i' : b ∉ ins -> id_bufs i !! b = Some x -> request_ok x -> iderw b i = Wait OnSched i' -> step (mksys i irq ins) (mksys i' irq (b :: ins))
  | st_again i irq ins b i' : b ∈ ins -> b ∉ id_sleep i -> iderw_wait b i = Wait OnSched i' -> step (mksys i irq ins) (mksys i' irq ins)
  | st_return i irq ins b i' : b ∈ ins -> b ∉ id_sleep i -> iderw_wait b i = Ret tt i' -> step (mksys i irq ins) (mksys i' irq (filter (fun c => c <> b) ins))
  | st_use i irq ins b x : b ∉ ins -> step (mksys i irq ins) (mksys (set_id_bufs (<[b := x]> (id_bufs i)) i) irq ins).

(** The queue from [h] on. *)
Fixpoint queue_from (fuel : nat) (qn : list (option nat)) (h : option nat) : list nat :=
  match fuel, h with S fuel, Some b => b :: queue_from fuel qn (mjoin (qn !! b)) | _, _ => [] end.
Definition queue (i : ide D) : list nat := queue_from (S (length (id_qnext i))) (id_qnext i) (idequeue i).
End sys.
Arguments sys D : clear implicits.

(** ** What the driver promises *)

(** The disk and the buffers; the requests that are not done yet, in order, and
    those whose process has not returned. *)
Record astate := mka { a_disk : Z -> Z -> list Z; a_bufs : list buf; a_queue : list nat; a_in : list nat }.

Definition is_write (x : buf) : bool := negb (Z.land (b_flags x) B_DIRTY =? 0).
Definition op_of (x : buf) : op := if is_write x then Wr (b_dev x) (b_blockno x) (b_data x) else Rd (b_dev x) (b_blockno x).
(** The buffer after the transfer. *)
Definition synced_buf (disk : Z -> Z -> list Z) (x : buf) : buf :=
  set_b_flags B_VALID (if is_write x then x else set_b_data (disk (b_dev x) (b_blockno x)) x).

Inductive astep : astate -> astate -> Prop :=
  | as_request d bs q ins b x : b ∉ ins -> bs !! b = Some x -> request_ok x -> astep (mka d bs q ins) (mka d bs (q ++ [b]) (b :: ins))
  | as_serve d bs q ins b x : bs !! b = Some x -> astep (mka d bs (b :: q) ins) (mka (after (op_of x) d) (<[b := synced_buf d x]> bs) q ins)
  | as_return d bs q ins b x : b ∈ ins -> b ∉ q -> bs !! b = Some x -> b_flags x = B_VALID -> astep (mka d bs q ins) (mka d bs q (filter (fun c => c <> b) ins))
  | as_use d bs q ins b x : b ∉ ins -> astep (mka d bs q ins) (mka d (<[b := x]> bs) q ins).

(** ** Running the operations *)

Section run.
Context {D : Type} `{AL : AtaLaws D}.

Lemma idewait_loop_run fuel : forall (s : ide D) k, (k <= fuel)%nat -> is_ready (ata_in 503 (poll k (id_dev s))).1 = true ->
  exists d r, idewait_loop fuel s = Ret r (set_id_dev d s) /\ is_ready r = true /\ Z.land r (Z.lor IDE_DF IDE_ERR) = 0 /\ task d = task (id_dev s) /\ work d = work (id_dev s) /\ sectors d = sectors (id_dev s).
Proof.
  induction fuel as [|fuel IH]; intros s k Hk Hr; cbn [idewait_loop]; unfold inb; rewrite bind_run; cbv zeta; fold (is_ready (ata_in 503 (id_dev s)).1);
    (destruct (is_ready (ata_in 503 (id_dev s)).1) eqn:E; [eexists _, _; split; [done|]; split; [done|]; split; [by apply al_ok|]; apply al_poll|]).
  { replace k with 0%nat in Hr by lia. simpl in Hr. congruence. }
  destruct k as [|k]; [simpl in Hr; congruence|]. destruct (IH (set_id_dev (ata_in 503 (id_dev s)).2 s) k) as (d & r & R & H1 & H2 & H3 & H4 & H5); [lia|done|]. destruct (al_poll (id_dev s)) as (P1 & P2 & P3).
  exists d, r. split; [exact R|]. split; [done|]. split; [done|]. simpl in *. split_and!; congruence.
Qed.

Lemma idewait_run c (s : ide D) : is_busy (work (id_dev s)) = false ->
  exists d, idewait c s = Ret 0 (set_id_dev d s) /\ task d = task (id_dev s) /\ work d = work (id_dev s) /\ sectors d = sectors (id_dev s).
Proof.
  intros Hb. destruct (al_ready _ Hb) as (k & Hk & Hr). destruct (idewait_loop_run polls s k Hk Hr) as (d & r & R & _ & H2 & H). exists d. split; [|done].
  unfold idewait. mstep R. rewrite H2. simpl. by rewrite andb_false_r.
Qed.

(** The bytes of the sector number make it up again. *)
Lemma sector_bytes n u : 0 <= n < FSSIZE -> u = 0 \/ u = 1 ->
  let t := mktask 1 (Z.land n 255) (Z.land (Z.shiftr n 8) 255) (Z.land (Z.shiftr n 16) 255) (Z.lor (Z.lor 224 (Z.shiftl (Z.land u 1) 4)) (Z.land (Z.shiftr n 24) 15)) in
  tf_sector t = n /\ tf_unit t = u /\ 0 <= tf_lba0 t < 256 /\ 0 <= tf_lba1 t < 256 /\ 0 <= tf_lba2 t < 256 /\ 0 <= tf_drive t < 256.
Proof.
  change FSSIZE with 1000. intros Hn Hu. assert (E2 : Z.shiftr n 16 = 0) by (rewrite Z.shiftr_div_pow2 by lia; apply Z.div_small; lia). assert (E3 : Z.shiftr n 24 = 0) by (rewrite Z.shiftr_div_pow2 by lia; apply Z.div_small; lia).
  rewrite E2, E3. change 255 with (Z.ones 8). change (Z.land 0 (Z.ones 8)) with 0. change (Z.land 0 15) with 0. rewrite !Z.land_ones by lia. rewrite Z.shiftr_div_pow2 by lia. change (2 ^ 8) with 256.
  unfold tf_sector, tf_unit; simpl. assert (Ed : Z.lor (Z.lor 224 (Z.shiftl (Z.land u 1) 4)) 0 = 224 + 16 * u) by (destruct Hu as [-> | ->]; done). rewrite Ed.
  destruct Hu as [-> | ->]; Z.div_mod_to_equations; lia.
Qed.

Lemma getbuf_run (s : ide D) b x : id_bufs s !! b = Some x -> getbuf b s = Ret x s.
Proof. intros H. unfold getbuf. rewrite bind_get. by rewrite H. Qed.

(** The registers are loaded one after the other. *)
Definition regs (c l0 l1 l2 dr : Z) (d : D) : D := ata_out 502 dr (ata_out 501 l2 (ata_out 500 l1 (ata_out 499 l0 (ata_out 498 c d)))).

Lemma regs_run d c l0 l1 l2 dr : is_busy (work d) = false -> 0 <= c < 256 -> 0 <= l0 < 256 -> 0 <= l1 < 256 -> 0 <= l2 < 256 -> 0 <= dr < 256 ->
  task (regs c l0 l1 l2 dr d) = mktask c l0 l1 l2 dr /\ work (regs c l0 l1 l2 dr d) = work d /\ sectors (regs c l0 l1 l2 dr d) = sectors d.
Proof.
  intros Hb Hc H0 H1 H2 Hd. unfold regs. destruct (al_task d 498 c Hb ltac:(lia) Hc) as (T1 & W1 & S1). set (d1 := ata_out 498 c d) in *. rewrite <- W1 in Hb.
  destruct (al_task d1 499 l0 Hb ltac:(lia) H0) as (T2 & W2 & S2). set (d2 := ata_out 499 l0 d1) in *. rewrite <- W2 in Hb.
  destruct (al_task d2 500 l1 Hb ltac:(lia) H1) as (T3 & W3 & S3). set (d3 := ata_out 500 l1 d2) in *. rewrite <- W3 in Hb.
  destruct (al_task d3 501 l2 Hb ltac:(lia) H2) as (T4 & W4 & S4). set (d4 := ata_out 501 l2 d3) in *. rewrite <- W4 in Hb.
  destruct (al_task d4 502 dr Hb ltac:(lia) Hd) as (T5 & W5 & S5). rewrite T5, T4, T3, T2, T1. simpl. split; [done|]. split; congruence.
Qed.

Lemma load_task (s : ide D) c l0 l1 l2 dr (K : M (ide D) unit) :
  is_busy (work (id_dev s)) = false -> 0 <= c < 256 -> 0 <= l0 < 256 -> 0 <= l1 < 256 -> 0 <= l2 < 256 -> 0 <= dr < 256 ->
  exists d, (outb 498 c;; outb 499 l0;; outb 500 l1;; outb 501 l2;; outb 502 dr;; K) s = K (set_id_dev d s) /\ task d = mktask c l0 l1 l2 dr /\ work d = work (id_dev s) /\ sectors d = sectors (id_dev s).
Proof. intros Hb Hc H0 H1 H2 Hd. exists (regs c l0 l1 l2 dr (id_dev s)). split; [done|]. by apply regs_run. Qed.

Lemma idestart_run (s : ide D) b x : id_bufs s !! b = Some x -> request_ok x -> is_busy (work (id_dev s)) = false ->
  exists d, idestart (Some b) s = Ret tt (set_id_dev d s) /\ work d = JBusy (op_of x) /\ sectors d = sectors (id_dev s).
Proof.
  intros Hx [R1 R2 R3 R4 R5] Hb. unfold idestart. mstep (getbuf_run _ _ _ Hx). destruct (Z.leb_spec FSSIZE (b_blockno x)); [lia|]. rewrite bind_unless_false.
  change (BSIZE / SECTOR_SIZE) with 1. cbv zeta. cbn [Z.eqb Pos.eqb]. change (7 <? 1) with false. rewrite bind_unless_false. rewrite Z.mul_1_r.
  rewrite i32_small by (change FSSIZE with 1000 in R4; lia). destruct (idewait_run false s Hb) as (d1 & E1 & T1 & W1 & S1). mstep E1. destruct (al_control d1) as (T2 & W2 & S2). set (d2 := ata_out 1014 0 d1) in *.
  assert (E2 : outb 1014 0 (set_id_dev d1 s) = Ret tt (set_id_dev d2 s)) by done. mstep E2. destruct (sector_bytes (b_blockno x) (b_dev x) R4 R3) as (Q1 & Q2 & Q3 & Q4 & Q5 & Q6). simpl in Q3, Q4, Q5, Q6.
  set (K := if negb (Z.land (b_flags x) B_DIRTY =? 0) then _ else _).
  destruct (load_task (set_id_dev d2 s) 1 _ _ _ _ K ltac:(simpl; congruence) ltac:(lia) Q3 Q4 Q5 Q6) as (d3 & -> & T3 & W3 & S3). rewrite <- T3 in Q1, Q2.
  assert (Hb3 : is_busy (work d3) = false) by (simpl in *; congruence). assert (Hc : tf_count (task d3) = 1) by by rewrite T3. rewrite <- Q1 in R4. unfold K, op_of, is_write.
  change (set_id_dev d3 (set_id_dev d2 s)) with (set_id_dev d3 s). destruct (negb (Z.land (b_flags x) B_DIRTY =? 0)).
  - destruct (al_write d3 (b_data x) Hb3 Hc R4 R5) as [W4 S4]. exists (ata_outsl 496 (b_data x) (ata_out 503 IDE_CMD_WRITE d3)). split; [done|]. rewrite W4, Q1, Q2. split; [done|]. simpl in *. congruence.
  - destruct (al_read d3 Hb3 Hc R4) as [W4 S4]. exists (ata_out 503 IDE_CMD_READ d3). split; [done|]. rewrite W4, Q1, Q2. split; [done|]. simpl in *. congruence.
Qed.

(** The list through the links from [h] on. *)
Fixpoint chain (qn : list (option nat)) (h : option nat) (l : list nat) : Prop :=
  match l with [] => h = None | b :: l => h = Some b /\ exists n, qn !! b = Some n /\ chain qn n l end.

Lemma chain_queue qn : forall l h fuel, chain qn h l -> (length l <= fuel)%nat -> queue_from fuel qn h = l.
Proof.
  induction l as [|b l IH]; intros h fuel H Hf; simpl in H; [subst h; by destruct fuel|]. destruct H as (-> & n & Hn & H). destruct fuel as [|fuel]; simpl in Hf; [lia|]. simpl. rewrite Hn. simpl. f_equal. apply IH; [done|lia].
Qed.

Lemma links_lt qn h l : chain qn h l -> Forall (fun b => b < length qn)%nat l.
Proof. revert h. induction l as [|b l IH]; intros h; [constructor|]. intros (_ & n & Hn & H). constructor; [by apply lookup_lt_Some in Hn|by apply (IH n)]. Qed.

Lemma links_length qn h l : chain qn h l -> NoDup l -> (length l <= length qn)%nat.
Proof.
  intros H Hd. apply links_lt in H. rewrite <- (length_seq (length qn) 0). apply submseteq_length, NoDup_submseteq; [done|]. intros b Hb. rewrite Forall_forall in H. apply elem_of_seq. specialize (H b Hb). simpl in *. lia.
Qed.

Lemma links_insert qn h l b v : chain qn h l -> b ∉ l -> chain (<[b := v]> qn) h l.
Proof.
  revert h. induction l as [|c l IH]; intros h; [done|]. intros (-> & n & Hn & H) Hb. apply not_elem_of_cons in Hb as [Hne Hb]. split; [done|]. exists n. split; [by rewrite list_lookup_insert_ne|]. by apply IH.
Qed.

(** The new last element. *)
Lemma chain_snoc qn b : qn !! b = Some None -> forall l h c, chain qn h l -> b ∉ l -> NoDup l -> last l = Some c -> chain (<[c := Some b]> qn) h (l ++ [b]).
Proof.
  intros Hb. induction l as [|c0 l IH]; intros h c H Hn Hd Hl; [done|]. destruct H as (-> & n & Hc0 & H). apply not_elem_of_cons in Hn as [Hne Hn]. apply NoDup_cons in Hd as [Hc Hd]. cbn [app chain]. split; [done|].
  destruct l as [|c1 l].
  - injection Hl as <-. exists (Some b). split; [apply list_lookup_insert_eq; by apply lookup_lt_Some in Hc0|]. simpl. split; [done|]. exists None. split; [by rewrite list_lookup_insert_ne|done].
  - assert (Hcl : c ∈ c1 :: l). { apply last_Some in Hl as [l' El]. destruct l' as [|z l']; [simplify_eq|]. injection El as _ ->. apply elem_of_app. right. by apply list_elem_of_singleton. }
    exists n. split; [rewrite list_lookup_insert_ne; [done|intros ->; done]|]. apply IH; [done|done|done|exact Hl].
Qed.

Lemma last_link_run (s : ide D) : forall l fuel pp h, deref pp s = Ret h s -> chain (id_qnext s) h l -> (length l <= fuel)%nat ->
  last_link fuel pp s = Ret (match last l with None => pp | Some b => Some b end) s.
Proof.
  induction l as [|b l IH]; intros fuel pp h Hd H Hf.
  - simpl in H. subst h. destruct fuel; cbn [last_link]; by mstep Hd.
  - destruct H as (-> & n & Hn & H). destruct fuel as [|fuel]; simpl in Hf; [lia|]. cbn [last_link]. mstep Hd.
    rewrite (IH fuel (Some b) n); [|unfold deref; rewrite bind_get; by rewrite Hn|done|lia]. rewrite last_cons. by destruct (last l).
Qed.

(** Up to the queue: what [iderw] has done. *)
Lemma iderw_append (s : ide D) b x l (K : M (ide D) unit) :
  chain (id_qnext s) (idequeue s) l -> NoDup l -> b ∉ l -> id_bufs s !! b = Some x -> length (id_qnext s) = length (id_bufs s) ->
  exists qn' h', (assign (Some b) None;; s1 ← get; pp ← last_link (length (id_bufs s1)) None; assign pp (Some b);; K) s = K (set_idequeue h' (set_id_qnext qn' s)) /\
    chain qn' h' (l ++ [b]) /\ length qn' = length (id_qnext s).
Proof.
  intros H Hd Hb Hx Hl. pose proof (lookup_lt_Some _ _ _ Hx) as Hlt. destruct (lookup_lt_is_Some_2 (id_qnext s) b) as [v Hv]; [lia|].
  assert (E1 : assign (Some b) None s = Ret tt (set_id_qnext (<[b := None]> (id_qnext s)) s)) by (unfold assign, deref; rewrite bind_assoc_run, bind_get; by rewrite Hv). mstep E1.
  set (s1 := set_id_qnext _ s). rewrite bind_get. pose proof (links_insert _ _ _ b None H Hb) as H1. pose proof (links_length _ _ _ H Hd) as Hlen.
  mstep (last_link_run s1 l (length (id_bufs s1)) None (idequeue s) eq_refl H1 ltac:(simpl; lia)). assert (Hq : id_qnext s1 !! b = Some None) by (apply list_lookup_insert_eq; lia). destruct (last l) as [c|] eqn:El.
  - pose proof (chain_snoc _ b Hq l _ c H1 Hb Hd El) as H2. exists (<[c := Some b]> (id_qnext s1)), (idequeue s). split; [|split; [exact H2|simpl; by rewrite !length_insert]].
    assert (Hc : c ∈ l). { apply last_Some in El as [l' ->]. apply elem_of_app. right. by apply list_elem_of_singleton. } pose proof (links_lt _ _ _ H1) as Hlts. rewrite Forall_forall in Hlts. specialize (Hlts c Hc). destruct (lookup_lt_is_Some_2 _ c Hlts) as [v2 Hv2].
    assert (E2 : assign (Some c) (Some b) s1 = Ret tt (set_id_qnext (<[c := Some b]> (id_qnext s1)) s1)) by (unfold assign, deref; rewrite bind_assoc_run, bind_get; simpl in *; by rewrite Hv2). mstep E2. by destruct s.
  - apply last_None in El as ->. exists (id_qnext s1), (Some b). split; [by destruct s|]. split; [split; [done|]; by exists None|simpl; by rewrite length_insert].
Qed.

Lemma request_busy x : request_ok x -> busy_flags x = true.
Proof. intros [_ [E|[E|E]] _ _ _]; unfold busy_flags; by rewrite E. Qed.

Lemma iderw_wait_busy (s : ide D) b x : id_bufs s !! b = Some x -> busy_flags x = true -> iderw_wait b s = Wait OnSched (set_id_sleep (b :: id_sleep s) s).
Proof. intros Hx Hb. unfold iderw_wait. mstep (getbuf_run _ _ _ Hx). by rewrite Hb. Qed.

(** [iderw] puts the buffer at the end of the queue, starts the disk if there is
    nothing before it, and sleeps. *)
Lemma iderw_run (s : ide D) b x l :
  chain (id_qnext s) (idequeue s) l -> NoDup l -> b ∉ l -> id_bufs s !! b = Some x -> length (id_qnext s) = length (id_bufs s) -> request_ok x -> (l = [] -> is_busy (work (id_dev s)) = false) ->
  if negb (b_dev x =? 0) && (havedisk1 s =? 0) then exists msg, iderw b s = Panic msg
  else exists qn' h' d', iderw b s = Wait OnSched (set_id_sleep (b :: id_sleep s) (set_id_dev d' (set_idequeue h' (set_id_qnext qn' s)))) /\
    chain qn' h' (l ++ [b]) /\ length qn' = length (id_qnext s) /\ sectors d' = sectors (id_dev s) /\ work d' = if bool_decide (l = []) then JBusy (op_of x) else work (id_dev s).
Proof.
  intros H Hd Hb Hx Hl Hr Hw. unfold iderw. mstep (getbuf_run _ _ _ Hx). destruct (Z.eqb_spec (sl_locked (b_lock x)) 0) as [E|_]; [by destruct (ro_lock _ Hr)|]. rewrite bind_unless_false.
  rewrite (request_busy x Hr). cbn [negb]. rewrite bind_unless_false, bind_gets. destruct (negb (b_dev x =? 0) && (havedisk1 s =? 0)); [by eexists|]. rewrite bind_unless_false.
  destruct (iderw_append s b x l (q ← gets idequeue; (if bool_decide (q = Some b) then idestart (Some b) else mret tt);; iderw_wait b) H Hd Hb Hx Hl) as (qn' & h' & -> & H' & Hl').
  rewrite bind_gets. set (s1 := set_idequeue h' _). assert (Hx1 : id_bufs s1 !! b = Some x) by done. assert (Eh : bool_decide (idequeue s1 = Some b) = bool_decide (l = [])).
  { change (idequeue s1) with h'. destruct l as [|c l]; simpl in H'; destruct H' as [-> _]; [by rewrite !bool_decide_eq_true_2|]. rewrite !bool_decide_eq_false_2; [done|done|]. intros [= ->]. by apply Hb, list_elem_of_here. }
  rewrite Eh. clear Eh. destruct (bool_decide_reflect (l = [])) as [El|El].
  - destruct (idestart_run s1 b x Hx1 Hr (Hw El)) as (d & R & W & Sd). mstep R. exists qn', h', d. rewrite (iderw_wait_busy (set_id_dev d s1) b x Hx1 (request_busy x Hr)). split; [done|]. split; [done|]. split; [done|]. by rewrite W, Sd.
  - rewrite bind_mret, (iderw_wait_busy _ b x Hx1 (request_busy x Hr)). exists qn', h', (id_dev s). split; [done|]. done.
Qed.

Lemma flags_done x : request_ok x -> Z.land (Z.lor (b_flags x) B_VALID) (Z.lnot B_DIRTY) = B_VALID.
Proof. intros [_ [E|[E|E]] _ _ _]; by rewrite E. Qed.

Lemma updbuf_run (s : ide D) b x f : id_bufs s !! b = Some x -> updbuf b f s = Ret tt (set_id_bufs (<[b := f x]> (id_bufs s)) s).
Proof. intros Hx. unfold updbuf. mstep (getbuf_run _ _ _ Hx). unfold modify. do 2 f_equal. by apply alter_insert_Some. Qed.

(** The transfer of the data at the interrupt. *)
Lemma transfer_run (s : ide D) b x (K : M (ide D) unit) : id_bufs s !! b = Some x -> request_ok x -> work (id_dev s) = JDone (op_of x) ->
  exists d, ((if Z.land (b_flags x) B_DIRTY =? 0 then r ← idewait true; if 0 <=? r then data ← insl 496 (Z.to_nat (BSIZE / 4)); updbuf b (set_b_data data) else mret tt else mret tt);;
      updbuf b (fun x => set_b_flags (Z.land (Z.lor (b_flags x) B_VALID) (Z.lnot B_DIRTY)) x);; K) s = K (set_id_bufs (<[b := synced_buf (sectors (id_dev s)) x]> (id_bufs s)) (set_id_dev d s)) /\
    is_busy (work d) = false /\ sectors d = sectors (id_dev s).
Proof.
  intros Hx Hr Hw. pose proof (lookup_lt_Some _ _ _ Hx) as Hlt. pose proof (flags_done x Hr) as Hf. unfold synced_buf. unfold op_of in Hw. fold (is_write x). unfold is_write in *. destruct (Z.eqb_spec (Z.land (b_flags x) B_DIRTY) 0) as [E|E]; cbn [negb] in *.
  - destruct (idewait_run true s ltac:(by rewrite Hw)) as (d1 & R1 & _ & W1 & S1). rewrite bind_assoc_run. mstep R1. change (0 <=? 0) with true. cbv iota beta. rewrite bind_assoc_run. change (Z.to_nat (BSIZE / 4)) with 128%nat. rewrite Hw in W1. destruct (al_data d1 _ _ W1) as (D1 & D2 & D3). rewrite S1 in D1, D3.
    set (d2 := (ata_insl 496 128 d1).2) in *. assert (R2 : insl 496 128 (set_id_dev d1 s) = Ret (sectors (id_dev s) (b_dev x) (b_blockno x)) (set_id_dev d2 s)) by (unfold insl; by rewrite <- D1). mstep R2.
    mstep (updbuf_run (set_id_dev d2 s) b x (set_b_data (sectors (id_dev s) (b_dev x) (b_blockno x))) Hx). set (x1 := set_b_data _ x). exists d2. split; [|done].
    set (s1 := set_id_bufs _ _). assert (Hx1 : id_bufs s1 !! b = Some x1) by (apply list_lookup_insert_eq; exact Hlt). mstep (updbuf_run s1 b x1 (fun x => set_b_flags (Z.land (Z.lor (b_flags x) B_VALID) (Z.lnot B_DIRTY)) x) Hx1). unfold s1. cbn [id_bufs set_id_bufs]. rewrite list_insert_insert_eq. change (b_flags x1) with (b_flags x). by rewrite Hf.
  - rewrite bind_mret. exists (id_dev s). mstep (updbuf_run s b x (fun x => set_b_flags (Z.land (Z.lor (b_flags x) B_VALID) (Z.lnot B_DIRTY)) x) Hx). split; [|by rewrite Hw]. rewrite Hf. by destruct s.
Qed.

Lemma ideintr_run (s : ide D) b x l :
  chain (id_qnext s) (idequeue s) (b :: l) -> id_bufs s !! b = Some x -> request_ok x -> work (id_dev s) = JDone (op_of x) -> NoDup (b :: l) ->
  (forall c, c ∈ l -> exists y, id_bufs s !! c = Some y /\ request_ok y) ->
  exists h' d', ideintr s = Ret tt (set_id_sleep (filter (fun c => c <> b) (id_sleep s)) (set_id_bufs (<[b := synced_buf (sectors (id_dev s)) x]> (id_bufs s)) (set_idequeue h' (set_id_dev d' s)))) /\
    chain (id_qnext s) h' l /\ sectors d' = sectors (id_dev s) /\
    match l with [] => is_busy (work d') = false | c :: _ => exists y, id_bufs s !! c = Some y /\ work d' = JBusy (op_of y) end.
Proof.
  intros (Eq & n & Hn & H) Hx Hr Hw Hd Hl. apply NoDup_cons in Hd as [Hbl Hd]. unfold ideintr. rewrite bind_gets, Eq, bind_get, Hn, bind_some, bind_modify. set (s1 := set_idequeue n s). mstep (getbuf_run s1 b x Hx).
  set (K := wakeup b;; _). destruct (transfer_run s1 b x K Hx Hr Hw) as (d & -> & Hb & Sd).
  unfold K, wakeup. rewrite bind_modify, bind_gets. set (s3 := set_id_sleep _ _). change (idequeue s3) with n. change (id_dev s1) with (id_dev s) in *. destruct l as [|c l].
  - simpl in H. subst n. exists None, d. split; [done|]. done.
  - destruct H as (-> & n2 & Hn2 & H). destruct (Hl c (list_elem_of_here _ _)) as (y & Hy & Hry). assert (Hne : b <> c) by (intros ->; by apply Hbl, list_elem_of_here).
    assert (Hy3 : id_bufs s3 !! c = Some y) by (simpl; by rewrite list_lookup_insert_ne). destruct (idestart_run s3 c y Hy3 Hry Hb) as (d' & R' & W' & S'). exists (Some c), d'. rewrite R'. split; [done|].
    split; [split; [done|]; by exists n2|]. split; [by rewrite S'|]. by exists y.
Qed.
End run.

(** ** The simulation *)

Section sim.
Context {D : Type} `{AL : AtaLaws D}.

(** The driver's state and the one it stands for.  The disk works on the first
    request; a write it has finished counts as done at the interrupt. *)
Record sim (s : sys D) (a : astate) : Prop := {
  si_bufs : a_bufs a = id_bufs (s_ide s);
  si_in : a_in a = s_in s;
  si_chain : chain (id_qnext (s_ide s)) (idequeue (s_ide s)) (a_queue a);
  si_nodup : NoDup (a_queue a);
  si_sub : forall b, b ∈ a_queue a -> b ∈ a_in a;
  si_len : length (id_qnext (s_ide s)) = length (id_bufs (s_ide s));
  si_req : forall b, b ∈ a_queue a -> exists x, id_bufs (s_ide s) !! b = Some x /\ request_ok x;
  si_done : forall b, b ∈ a_in a -> b ∉ a_queue a -> exists x, id_bufs (s_ide s) !! b = Some x /\ b_flags x = B_VALID;
  si_sleep : forall b, b ∈ id_sleep (s_ide s) -> b ∈ a_queue a;
  si_work : match a_queue a with
            | [] => is_busy (work (id_dev (s_ide s))) = false /\ s_irq s = false /\ forall u n, sectors (id_dev (s_ide s)) u n = a_disk a u n
            | b :: _ => exists x, id_bufs (s_ide s) !! b = Some x /\ work (id_dev (s_ide s)) = (if s_irq s then JDone (op_of x) else JBusy (op_of x)) /\
                forall u n, sectors (id_dev (s_ide s)) u n = (if s_irq s then after (op_of x) (a_disk a) u n else a_disk a u n)
            end }.

(** The driver before the first request. *)
Record ide_start (i : ide D) : Prop := {
  is_queue : idequeue i = None;
  is_len : length (id_qnext i) = length (id_bufs i);
  is_sleep : id_sleep i = [];
  is_idle : is_busy (work (id_dev i)) = false }.
Definition abs0 (i : ide D) : astate := mka (sectors (id_dev i)) (id_bufs i) [] [].

Lemma sim_start i : ide_start i -> sim (mksys i false []) (abs0 i).
Proof.
  intros [H1 H2 H3 H4]. split; simpl; try done; [constructor|..]; intros b Hb; rewrite ?H3 in Hb; by apply elem_of_nil in Hb.
Qed.

Lemma sim_finish i ins d' a : sim (mksys i false ins) a -> ata_finish (id_dev i) d' -> sim (mksys (set_id_dev d' i) true ins) a.
Proof.
  intros [A1 A2 A3 A4 A5 A6 A7 A8 A9 A10] Hf. destruct (al_finish _ _ Hf) as (o & W1 & W2 & Sd). simpl in *. split; try done. simpl. destruct (a_queue a) as [|b q].
  - destruct A10 as [Hb _]. by rewrite W1 in Hb.
  - destruct A10 as (x & Hx & W & S0). exists x. rewrite W in W1. injection W1 as <-. split; [done|]. split; [done|]. intros u n. rewrite Sd. unfold after. destruct (op_of x); by rewrite S0.
Qed.

Lemma after_ext o d d' u n : (forall u n, d u n = d' u n) -> after o d u n = after o d' u n.
Proof. intros H. destruct o; simpl; by rewrite H. Qed.

(** What is read is what was on the disk before the command, which a read does
    not change. *)
Lemma synced_after x d d' : (forall u n, d' u n = after (op_of x) d u n) -> synced_buf d' x = synced_buf d x.
Proof. intros H. unfold synced_buf. destruct (is_write x) eqn:E; [done|]. rewrite H. unfold op_of. rewrite E. done. Qed.

Lemma sim_intr i ins a : sim (mksys i true ins) a ->
  exists i' a', ideintr i = Ret tt i' /\ sim (mksys i' false ins) a' /\ astep a a' /\ a_queue a' = tail (a_queue a) /\ a_queue a <> [] /\ a_in a' = a_in a.
Proof.
  intros [A1 A2 A3 A4 A5 A6 A7 A8 A9 A10]. simpl in *. destruct (a_queue a) as [|b q] eqn:Eq; [by destruct A10 as (_ & ? & _)|]. destruct A10 as (x & Hx & W & S0).
  destruct (A7 b (list_elem_of_here _ _)) as (x' & Hx' & Hr). rewrite Hx in Hx'. injection Hx' as <-. pose proof (lookup_lt_Some _ _ _ Hx) as Hlt. apply NoDup_cons in A4 as [Hbq Hnd].
  destruct (ideintr_run i b x q A3 Hx Hr W ltac:(by apply NoDup_cons)) as (h' & d' & R & C' & S' & W'); [intros c Hc; apply A7; by apply list_elem_of_further|].
  eexists _, (mka (after (op_of x) (a_disk a)) (<[b := synced_buf (a_disk a) x]> (a_bufs a)) q ins). split; [exact R|].
  assert (Hst : astep a (mka (after (op_of x) (a_disk a)) (<[b := synced_buf (a_disk a) x]> (a_bufs a)) q ins)). { destruct a as [d bs qq ins']. simpl in *. subst. by constructor. }
  split; [|by split_and!]. assert (Es : synced_buf (sectors (id_dev i)) x = synced_buf (a_disk a) x) by (apply synced_after; done). rewrite Es. split; simpl; try done.
  - by rewrite A1.
  - intros c Hc. rewrite <- A2. apply A5. by apply list_elem_of_further.
  - by rewrite length_insert.
  - intros c Hc. rewrite list_lookup_insert_ne by (intros ->; done). apply A7. by apply list_elem_of_further.
  - intros c Hc Hcq. destruct (decide (c = b)) as [->|Hne]; [eexists; split; [by apply list_lookup_insert_eq|]; done|]. rewrite list_lookup_insert_ne by done. apply A8; [by rewrite A2|]. by apply not_elem_of_cons.
  - intros c Hc. apply list_elem_of_filter in Hc as [Hne Hc]. specialize (A9 c Hc). by apply elem_of_cons in A9 as [?|?].
  - destruct q as [|c q]; simpl.
    + split; [done|]. split; [done|]. intros u n. by rewrite S'.
    + destruct W' as (y & Hy & W'). exists y. assert (Hne : b <> c) by (intros ->; by apply Hbq, list_elem_of_here). rewrite list_lookup_insert_ne by done. split; [done|]. split; [done|]. intros u n. by rewrite S'.
Qed.

Lemma sim_call i irq ins a b x i' : sim (mksys i irq ins) a -> b ∉ ins -> id_bufs i !! b = Some x -> request_ok x -> iderw b i = Wait OnSched i' ->
  exists a', sim (mksys i' irq (b :: ins)) a' /\ astep a a' /\ a_queue a' = a_queue a ++ [b].
Proof.
  intros [A1 A2 A3 A4 A5 A6 A7 A8 A9 A10] Hb Hx Hr R. simpl in *. assert (Hbq : b ∉ a_queue a) by (intros H; apply Hb; rewrite <- A2; by apply A5).
  pose proof (iderw_run i b x (a_queue a) A3 A4 Hbq Hx A6 Hr) as H. destruct (negb (b_dev x =? 0) && (havedisk1 i =? 0)); [destruct H as [msg H]; [intros E; rewrite E in A10; apply A10|congruence]|].
  destruct H as (qn' & h' & d' & R' & C' & L' & S' & W'); [intros E; rewrite E in A10; apply A10|]. rewrite R in R'. injection R' as ->. exists (mka (a_disk a) (a_bufs a) (a_queue a ++ [b]) (b :: ins)).
  assert (Hst : astep a (mka (a_disk a) (a_bufs a) (a_queue a ++ [b]) (b :: ins))). { destruct a as [d bs q ins']. simpl in *. subst. by apply (as_request _ _ _ _ _ x). }
  split; [|done]. split; simpl; try done.
  - apply NoDup_app. split; [done|]. split; [|by apply NoDup_singleton]. intros c Hc Hcb. apply list_elem_of_singleton in Hcb as ->. done.
  - intros c Hc. apply elem_of_app in Hc as [Hc|Hc]; [apply list_elem_of_further; rewrite <- A2; by apply A5|]. apply list_elem_of_singleton in Hc as ->. apply list_elem_of_here.
  - by rewrite L'.
  - intros c Hc. apply elem_of_app in Hc as [Hc|Hc]; [by apply A7|]. apply list_elem_of_singleton in Hc as ->. by exists x.
  - intros c Hc Hcq. apply not_elem_of_app in Hcq as [Hcq Hcb]. apply elem_of_cons in Hc as [->|Hc]; [by destruct Hcb; apply list_elem_of_singleton|]. apply A8; [by rewrite A2|done].
  - intros c Hc. apply elem_of_cons in Hc as [->|Hc]; apply elem_of_app; [right; by apply list_elem_of_singleton|left; by apply A9].
  - destruct (a_queue a) as [|c q]; simpl in *.
    + destruct A10 as (_ & -> & S0). exists x. split; [done|]. split; [done|]. intros u n. by rewrite S'.
    + destruct A10 as (y & Hy & W & S0). exists y. split; [done|]. split; [by rewrite W'|]. intros u n. by rewrite S'.
Qed.

(** The wait loop: the process goes on exactly when its buffer is out of the
    queue. *)
Lemma sim_wait i irq ins a b : sim (mksys i irq ins) a -> b ∈ ins ->
  iderw_wait b i = if bool_decide (b ∈ a_queue a) then Wait OnSched (set_id_sleep (b :: id_sleep i) i) else Ret tt i.
Proof.
  intros [A1 A2 A3 A4 A5 A6 A7 A8 A9 A10] Hb. simpl in *. case_bool_decide as Hq.
  - destruct (A7 b Hq) as (x & Hx & Hr). by apply (iderw_wait_busy i b x Hx), request_busy.
  - destruct (A8 b ltac:(by rewrite A2) Hq) as (x & Hx & Hf). unfold iderw_wait. mstep (getbuf_run _ _ _ Hx). unfold busy_flags. by rewrite Hf.
Qed.

Lemma sim_again i irq ins a b : sim (mksys i irq ins) a -> b ∈ a_queue a -> sim (mksys (set_id_sleep (b :: id_sleep i) i) irq ins) a.
Proof. intros [A1 A2 A3 A4 A5 A6 A7 A8 A9 A10] Hb. split; try done. simpl. intros c Hc. apply elem_of_cons in Hc as [->|Hc]; [done|by apply A9]. Qed.

Lemma sim_return i irq ins a b : sim (mksys i irq ins) a -> b ∈ ins -> b ∉ a_queue a ->
  exists a', sim (mksys i irq (filter (fun c => c <> b) ins)) a' /\ astep a a' /\ a_queue a' = a_queue a.
Proof.
  intros [A1 A2 A3 A4 A5 A6 A7 A8 A9 A10] Hb Hq. simpl in *. destruct (A8 b ltac:(by rewrite A2) Hq) as (x & Hx & Hf). exists (mka (a_disk a) (a_bufs a) (a_queue a) (filter (fun c => c <> b) ins)).
  assert (Hst : astep a (mka (a_disk a) (a_bufs a) (a_queue a) (filter (fun c => c <> b) ins))). { destruct a as [d bs q ins']. simpl in *. subst. by apply (as_return _ _ _ _ _ x). }
  split; [|done]. split; simpl; try done.
  - intros c Hc. apply list_elem_of_filter. split; [intros ->; done|]. rewrite <- A2. by apply A5.
  - intros c Hc Hcq. apply list_elem_of_filter in Hc as [_ Hc]. apply A8; [by rewrite A2|done].
Qed.

Lemma sim_use i irq ins a b x : sim (mksys i irq ins) a -> b ∉ ins ->
  exists a', sim (mksys (set_id_bufs (<[b := x]> (id_bufs i)) i) irq ins) a' /\ astep a a' /\ a_queue a' = a_queue a.
Proof.
  intros [A1 A2 A3 A4 A5 A6 A7 A8 A9 A10] Hb. simpl in *. exists (mka (a_disk a) (<[b := x]> (a_bufs a)) (a_queue a) ins).
  assert (Hst : astep a (mka (a_disk a) (<[b := x]> (a_bufs a)) (a_queue a) ins)). { destruct a as [d bs q ins']. simpl in *. subst. by constructor. }
  assert (Hne : forall c, c ∈ a_queue a -> <[b := x]> (id_bufs i) !! c = id_bufs i !! c) by (intros c Hc; apply list_lookup_insert_ne; intros ->; apply Hb; rewrite <- A2; by apply A5).
  split; [|done]. split; simpl; try done.
  - by rewrite A1.
  - intros c Hc. rewrite <- A2. by apply A5.
  - by rewrite length_insert.
  - intros c Hc. rewrite Hne by done. by apply A7.
  - intros c Hc Hcq. rewrite list_lookup_insert_ne by (intros ->; done). apply A8; [by rewrite A2|done].
  - destruct (a_queue a) as [|c q]; [done|]. by rewrite Hne by apply list_elem_of_here.
Qed.

Lemma sim_step s s' a : sim s a -> step s s' -> exists a', sim s' a' /\ rtc astep a a'.
Proof.
  intros Hs Hst. destruct Hst as [? ? [i ins d' Hf|i i' ins R]|i irq ins b x i' Hb Hx Hr R|i irq ins b i' Hb Hsl R|i irq ins b i' Hb Hsl R|i irq ins b x Hb].
  - exists a. split; [by apply sim_finish|done].
  - destruct (sim_intr _ _ _ Hs) as (i2 & a' & R' & Hs' & Ha & _). rewrite R in R'. injection R' as ->. exists a'. split; [done|by apply rtc_once].
  - destruct (sim_call _ _ _ _ _ _ _ Hs Hb Hx Hr R) as (a' & Hs' & Ha & _). exists a'. split; [done|by apply rtc_once].
  - rewrite (sim_wait _ _ _ _ _ Hs Hb) in R. case_bool_decide; [|done]. injection R as <-. exists a. split; [by apply sim_again|done].
  - rewrite (sim_wait _ _ _ _ _ Hs Hb) in R. case_bool_decide; [done|]. injection R as <-. destruct (sim_return _ _ _ _ _ Hs Hb H) as (a' & Hs' & Ha & _). exists a'. split; [done|by apply rtc_once].
  - destruct (sim_use _ _ _ _ _ x Hs Hb) as (a' & Hs' & Ha & _). exists a'. split; [done|by apply rtc_once].
Qed.

Lemma sim_reach i s : ide_start i -> rtc step (mksys i false []) s -> exists a, sim s a /\ rtc astep (abs0 i) a.
Proof.
  intros Hi Hr. apply (rtc_ind_r (R := step) (fun s => exists a, sim s a /\ rtc astep (abs0 i) a) (mksys i false [])); [exists (abs0 i); split; [by apply sim_start|done]| |done].
  intros s1 s2 _ Hst IH.
  destruct IH as (a & Hs & Ha). destruct (sim_step _ _ _ Hs Hst) as (a' & Hs' & Ha'). exists a'. split; [done|by etransitivity].
Qed.

Lemma sim_queue s a : sim s a -> queue (s_ide s) = a_queue a.
Proof. intros [A1 A2 A3 A4 A5 A6 A7 A8 A9 A10]. apply chain_queue; [done|]. pose proof (links_length _ _ _ A3 A4). lia. Qed.

(** C9. [iderw] is an atomic transfer.  With a disk that keeps the laws of [AtaLaws],
    the processes, the interrupt handler and the disk running in any order, every
    state of the driver stands for one of the abstract disk: requests are queued in
    the order of the calls, each is served in one step, from the front, which
    writes a dirty buffer to its sector or fills the buffer from it and leaves it
    valid, and a process returns only after that.  Whenever the disk has no
    interrupt pending its sectors are those of the abstract disk. *)
Theorem ide_refines i s :
  ide_start i -> rtc step (mksys i false []) s ->
  exists a, rtc astep (abs0 i) a /\ a_bufs a = id_bufs (s_ide s) /\ a_queue a = queue (s_ide s) /\ a_in a = s_in s /\
    (s_irq s = false -> forall u n, sectors (id_dev (s_ide s)) u n = a_disk a u n).
Proof.
  intros Hi Hr. destruct (sim_reach i s Hi Hr) as (a & Hs & Ha). exists a. split; [done|]. split; [apply Hs|]. split; [symmetry; by apply sim_queue|]. split; [apply Hs|].
  intros Hirq u n. pose proof (si_work _ _ Hs) as W. rewrite Hirq in W. destruct (a_queue a); [by apply W|]. destruct W as (x & _ & _ & W). apply W.
Qed.

(** The steps of the disk that are left until the buffer is served. *)
Definition remaining (b : nat) (s : sys D) : nat :=
  match find_first (fun c => bool_decide (c = b)) (queue (s_ide s)) with Some k => (2 * k + if s_irq s then 1 else 2)%nat | None => 0%nat end.

Lemma find_first_app_le {X} (p : X -> bool) l l' k : find_first p l = Some k -> find_first p (l ++ l') = Some k.
Proof. revert k. induction l as [|y l IH]; intros k; [done|]. simpl. destruct (p y); [done|]. destruct (find_first p l); [|done]. intros [= <-]. by rewrite (IH n). Qed.

Lemma remaining_same b (s s' : sys D) : queue (s_ide s') = queue (s_ide s) -> s_irq s' = s_irq s -> (remaining b s' <= remaining b s)%nat.
Proof. unfold remaining. intros -> ->. done. Qed.

Lemma dev_step_less s s' a b : sim s a -> dev_step s s' -> b ∈ a_queue a -> (remaining b s' < remaining b s)%nat.
Proof.
  intros Hs Hd Hb. pose proof (sim_queue _ _ Hs) as Q. assert (Hf : exists k, find_first (fun c => bool_decide (c = b)) (a_queue a) = Some k).
  { destruct (find_first _ (a_queue a)) eqn:E; [by eexists|]. apply find_first_None in E. rewrite Forall_forall in E. specialize (E b Hb). simpl in E. by rewrite bool_decide_eq_true_2 in E. }
  destruct Hf as [k Hk]. unfold remaining. rewrite Q, Hk. destruct Hd as [i ins d' Hf|i i' ins R]; simpl in *.
  - rewrite <- (sim_queue _ _ (sim_finish _ _ _ _ Hs Hf)) in Hk. simpl in Hk. rewrite Hk. lia.
  - destruct (sim_intr _ _ _ Hs) as (i2 & a' & R' & Hs' & _ & Eq & Hne & _). rewrite R in R'. injection R' as ->. pose proof (sim_queue _ _ Hs') as Q'. simpl in Q'. rewrite Q', Eq. destruct (a_queue a) as [|c q] eqn:Eqa; [done|]. simpl in Hk |- *.
    destruct (bool_decide (c = b)) eqn:Ec.
    + injection Hk as <-. destruct (find_first _ q) eqn:E2; [|lia]. exfalso. apply bool_decide_eq_true in Ec as ->. apply find_first_Some in E2 as [(z & Hz & Ez) _]. apply bool_decide_eq_true in Ez as ->. pose proof (si_nodup _ _ Hs) as Hnd.
      rewrite Eqa in Hnd. apply NoDup_cons in Hnd as [Hn _]. apply Hn. by eapply list_elem_of_lookup_2.
    + destruct (find_first _ q) as [k'|]; [|done]. injection Hk as <-. lia.
Qed.

Lemma step_no_more s s' a b : sim s a -> step s s' -> b ∈ a_queue a -> (remaining b s' <= remaining b s)%nat.
Proof.
  intros Hs Hst Hb. pose proof (sim_queue _ _ Hs) as Q. destruct Hst as [s s' Hd|i irq ins c x i' Hc Hx Hr R|i irq ins c i' Hc Hsl R|i irq ins c i' Hc Hsl R|i irq ins c x Hc].
  - by apply Nat.lt_le_incl, (dev_step_less s s' a).
  - destruct (sim_call _ _ _ _ _ _ _ Hs Hc Hx Hr R) as (a' & Hs' & _ & Eq). pose proof (sim_queue _ _ Hs') as Q'. unfold remaining. simpl in *. rewrite Q, Q', Eq.
    destruct (find_first _ (a_queue a)) as [k|] eqn:E; [by rewrite (find_first_app_le _ _ [c] k E)|]. apply find_first_None in E. rewrite Forall_forall in E. specialize (E b Hb). simpl in E. by rewrite bool_decide_eq_true_2 in E.
  - rewrite (sim_wait _ _ _ _ _ Hs Hc) in R. case_bool_decide; [|done]. injection R as <-. by apply remaining_same.
  - rewrite (sim_wait _ _ _ _ _ Hs Hc) in R. case_bool_decide; [done|]. injection R as <-. by apply remaining_same.
  - by apply remaining_same.
Qed.

Lemma dev_step_exists s a b : sim s a -> b ∈ a_queue a -> exists s', dev_step s s'.
Proof.
  intros Hs Hb. destruct s as [i [] ins].
  - destruct (sim_intr _ _ _ Hs) as (i' & _ & R & _). eexists. by apply st_intr.
  - pose proof (si_work _ _ Hs) as W. simpl in W. destruct (a_queue a) as [|c q]; [by apply elem_of_nil in Hb|]. destruct W as (x & _ & W & _). destruct (al_finishes _ _ W) as [d' Hd]. eexists. by apply st_finish.
Qed.

(** C22. Every request is served.  In every state that the driver can reach: a call of
    [iderw] with disk 1 present, and as its callers make it, with a buffer that is locked
    and needs the disk, does not panic; while a
    buffer is in the queue, the disk can make a step, finish its command or have
    its interrupt handled; each such step brings the buffer nearer to the front, no
    other step moves it back, and when it is out of the queue its process is awake
    and returns from [iderw]. *)
Theorem ide_progress i s :
  ide_start i -> rtc step (mksys i false []) s ->
  (forall b x, b ∉ s_in s -> id_bufs (s_ide s) !! b = Some x -> request_ok x -> havedisk1 (s_ide s) <> 0 -> exists i', iderw b (s_ide s) = Wait OnSched i') /\
  (forall b, b ∈ s_in s -> b ∈ queue (s_ide s) -> (exists s', dev_step s s') /\ (forall s', dev_step s s' -> (remaining b s' < remaining b s)%nat) /\ (forall s', step s s' -> (remaining b s' <= remaining b s)%nat)) /\
  (forall b, b ∈ s_in s -> b ∉ queue (s_ide s) -> b ∉ id_sleep (s_ide s) /\ iderw_wait b (s_ide s) = Ret tt (s_ide s)).
Proof.
  intros Hi Hr. destruct (sim_reach i s Hi Hr) as (a & Hs & _). rewrite (sim_queue _ _ Hs). split; [|split].
  - intros b x Hb Hx Hok Hd1. pose proof Hs as [A1 A2 A3 A4 A5 A6 A7 A8 A9 A10]. assert (Hbq : b ∉ a_queue a) by (intros H; apply Hb; rewrite <- A2; by apply A5).
    pose proof (iderw_run (s_ide s) b x (a_queue a) A3 A4 Hbq Hx A6 Hok) as H. rewrite (proj2 (Z.eqb_neq _ _) Hd1), andb_false_r in H. destruct H as (qn' & h' & d' & R & _); [intros E; rewrite E in A10; apply A10|]. by eexists.
  - intros b _ Hb. split; [by apply (dev_step_exists s a b)|]. split; [intros s' Hd; by apply (dev_step_less s s' a)|intros s' Hd; by apply (step_no_more s s' a)].
  - intros b Hb Hq. split; [intros H; by apply Hq, (si_sleep _ _ Hs)|]. destruct s as [j irq ins]. simpl in *. rewrite (sim_wait _ _ _ _ _ Hs Hb). by rewrite bool_decide_eq_false_2.
Qed.
End sim.

(** ** A disk with these laws *)

Record simdisk := mksim { sd_task : taskfile; sd_job : job; sd_disk : Z -> Z -> list Z }.

Definition sd_out (p v : Z) (d : simdisk) : simdisk :=
  let t := sd_task d in
  if (498 <=? p) && (p <=? 502) then
    mksim (mktask (if p =? 498 then v else tf_count t) (if p =? 499 then v else tf_lba0 t) (if p =? 500 then v else tf_lba1 t) (if p =? 501 then v else tf_lba2 t) (if p =? 502 then v else tf_drive t)) (sd_job d) (sd_disk d)
  else if (p =? 503) && (v =? 32) then mksim t (JBusy (Rd (tf_unit t) (tf_sector t))) (sd_disk d)
  else d.
Definition sd_outsl (p : Z) (data : list Z) (d : simdisk) : simdisk := mksim (sd_task d) (JBusy (Wr (tf_unit (sd_task d)) (tf_sector (sd_task d)) data)) (sd_disk d).
Definition sd_insl (p : Z) (n : nat) (d : simdisk) : list Z * simdisk :=
  match sd_job d with JDone (Rd u k) => (sd_disk d u k, mksim (sd_task d) JNone (sd_disk d)) | _ => ([], d) end.
Definition sd_finish (d : simdisk) : simdisk := match sd_job d with JBusy o => mksim (sd_task d) (JDone o) (after o (sd_disk d)) | _ => d end.

#[export] Instance simdisk_ata : Ata simdisk := {
  ata_in := fun p d => (if is_busy (sd_job d) then 128 else 64, d);
  ata_out := sd_out;
  ata_insl := sd_insl;
  ata_outsl := sd_outsl;
  ata_finish := fun d d' => is_busy (sd_job d) = true /\ d' = sd_finish d;
  polls := 1 }.

#[export] Instance simdisk_laws : AtaLaws simdisk.
Proof.
  refine {| task := sd_task; work := sd_job; sectors := sd_disk |}; try done.
  - intros d Hb. exists 0%nat. split; [simpl; lia|]. simpl. by rewrite Hb.
  - intros d. simpl. by destruct (is_busy (sd_job d)).
  - intros d p v Hb Hp Hv. simpl. unfold sd_out. destruct (Z.leb_spec 498 p), (Z.leb_spec p 502); try lia. done.
  - intros d d' [Hb ->]. unfold sd_finish. destruct (sd_job d) as [|o|o]; [done| |done]. by exists o.
  - intros d o Ho. exists (sd_finish d). simpl. by rewrite Ho.
  - intros d u n Hw. simpl. unfold sd_insl. by rewrite Hw.
Defined.

(** One dirty buffer for sector 5 of disk 1. *)
Definition ide1 : ide simdisk :=
  mkide (mksim (mktask 0 0 0 0 0) JNone (fun _ _ => [])) [mkbuf 4 1 5 (mksleep 1 1) 1 (replicate 512 7)] [None] None 1 [] [].
Definition ide1_called : ide simdisk :=
  mkide (mksim (mktask 1 5 0 0 240) (JBusy (Wr 1 5 (replicate 512 7))) (fun _ _ => [])) [mkbuf 4 1 5 (mksleep 1 1) 1 (replicate 512 7)] [None] (Some 0%nat) 1 [0%nat] [].

Lemma ide1_start : ide_start ide1.
Proof. by split. Qed.

Lemma ide1_runs : rtc step (mksys ide1 false []) (mksys ide1_called false [0%nat]).
Proof.
  apply rtc_once, (st_call ide1 false [] 0 (mkbuf 4 1 5 (mksleep 1 1) 1 (replicate 512 7))); [apply not_elem_of_nil|done| |vm_compute; reflexivity].
  split; try done; [by right; left|by right].
Qed.

Lemma ide_refines_witness : exists a, rtc astep (abs0 ide1) a /\ a_queue a = [0%nat].
Proof. destruct (ide_refines ide1 _ ide1_start ide1_runs) as (a & Ha & _ & Hq & _). exists a. split; [exact Ha|exact Hq]. Defined.

Lemma ide_progress_witness : exists s', dev_step (mksys ide1_called false [0%nat]) s'.
Proof.
  destruct (ide_progress ide1 _ ide1_start ide1_runs) as (_ & H & _). destruct (H 0%nat (list_elem_of_here _ _) (list_elem_of_here _ _)) as [Hd _]. exact Hd.
Defined.
