(* ===== verification/Bootmain.v ===== *)
(** * The boot loader (bootmain.c)

    [bootmain] reads the ELF image of the kernel from the disk, sector by sector,
    to the physical addresses that its program headers name.  The disk is the one
    of Ide.v; the loader does not use interrupts, so the device goes on with its
    command while the loader polls: [tick] is what it does between two polls.

    Memory is a function from physical addresses to bytes. *)

From Stdlib Require Import ZArith Lia.
From stdpp Require Import base numbers strings gmap list.
From S2P Require Import Prelude.
From S2P Require Import Machine.
From S2P Require Import FState.
From S2P Require Import Blocks.
From S2P Require Import Ide.
From S2P Require Import IdeSpec.

Local Open Scope string_scope.
Local Open Scope list_scope.
Local Open Scope Z_scope.

Definition SECTSIZE : Z := 512.
Definition ELF_MAGIC : Z := 0x464C457F.

(** Bytes of memory. *)
Definition load (m : Z -> Z) (a n : Z) : list Z := m <$> seqZ a n.
Definition store (a : Z) (bs : list Z) (m : Z -> Z) (p : Z) : Z :=
  if (a <=? p) && (p <? a + Z.of_nat (length bs)) then default 0 (bs !! Z.to_nat (p - a)) else m p.
Definition ld32 (m : Z -> Z) (a : Z) : Z := of_le (load m a 4).
Definition ld16 (m : Z -> Z) (a : Z) : Z := of_le (load m a 2).

(** The fields of [struct proghdr] that are used. *)
Record seg := mkseg { sg_off : Z; sg_paddr : Z; sg_filesz : Z; sg_memsz : Z }.
Definition seg_at (m : Z -> Z) (ph : Z) : seg := mkseg (ld32 m (ph + 4)) (ld32 m (ph + 12)) (ld32 m (ph + 16)) (ld32 m (ph + 20)).

Section boot.
Context {D : Type} `{A : Ata D} (tick : D -> D).

Record bstate := mkbs { bt_dev : D; bt_mem : Z -> Z }.

Definition binb (port : Z) : M bstate Z := fun s => let r := ata_in port (bt_dev s) in Ret r.1 (mkbs r.2 (bt_mem s)).
Definition boutb (port v : Z) : M bstate unit := modify (fun s => mkbs (ata_out port (u8 v) (bt_dev s)) (bt_mem s)).
Definition binsl (port dst : Z) (cnt : nat) : M bstate unit :=
  modify (fun s => let r := ata_insl port cnt (bt_dev s) in mkbs r.2 (store dst r.1 (bt_mem s))).
Definition bstosb (dst c cnt : Z) : M bstate unit := modify (fun s => mkbs (bt_dev s) (store dst (replicate (Z.to_nat cnt) c) (bt_mem s))).

Fixpoint waitdisk_loop (fuel : nat) : M bstate unit :=
  r ← binb 503;
  if Z.land r 192 =? 64 then mret tt
  else match fuel with O => stall OnLock | S fuel => modify (fun s => mkbs (tick (bt_dev s)) (bt_mem s));; waitdisk_loop fuel end.
Definition waitdisk : M bstate unit := waitdisk_loop polls.

Definition readsect (dst offset : Z) : M bstate unit :=
  waitdisk;;
  boutb 498 1;;
  boutb 499 offset;;
  boutb 500 (Z.shiftr offset 8);;
  boutb 501 (Z.shiftr offset 16);;
  boutb 502 (Z.lor (Z.shiftr offset 24) 224);;
  boutb 503 32;;
  waitdisk;;
  binsl 496 dst (Z.to_nat (SECTSIZE / 4)).

Fixpoint readseg_loop (fuel : nat) (pa epa offset : Z) : M bstate unit :=
  if pa <? epa then
    match fuel with
    | O => fault "readseg: fuel"
    | S fuel => readsect pa offset;; readseg_loop fuel (u32 (pa + SECTSIZE)) epa (u32 (offset + 1))
    end
  else mret tt.
Definition readseg (pa count offset : Z) : M bstate unit :=
  let epa := u32 (pa + count) in
  let pa := u32 (pa - offset mod SECTSIZE) in
  readseg_loop (Z.to_nat (count / SECTSIZE + 2)) pa epa (u32 (offset / SECTSIZE + 1)).

(** The loop over the program headers. *)
Fixpoint load_loop (n : nat) (ph : Z) : M bstate unit :=
  match n with
  | O => mret tt
  | S n =>
      s ← get;
      let h := seg_at (bt_mem s) ph in
      readseg (sg_paddr h) (sg_filesz h) (sg_off h);;
      (if sg_filesz h <? sg_memsz h then bstosb (u32 (sg_paddr h + sg_filesz h)) 0 (sg_memsz h - sg_filesz h) else mret tt);;
      load_loop n (ph + 32)
  end.

(** The entry point it jumps to, or [None] when it returns. *)
Definition bootmain : M bstate (option Z) :=
  let elf := 0x10000 in
  readseg elf 4096 0;;
  s ← get;
  if negb (ld32 (bt_mem s) elf =? ELF_MAGIC) then mret None
  else
    let ph := u32 (elf + ld32 (bt_mem s) (elf + 28)) in
    load_loop (Z.to_nat (ld16 (bt_mem s) (elf + 44))) ph;;
    s ← get;
    mret (Some (ld32 (bt_mem s) (elf + 24))).
End boot.
Arguments bstate D : clear implicits.

(** ** Reading a sector *)

Fixpoint spin {D} `{Ata D} (tick : D -> D) (k : nat) (d : D) : D := match k with O => d | S k => spin tick k (tick (ata_in 503 d).2) end.

(** The device while it is polled: it may finish its command, it is ready only
    when it has, and it is ready after some time. *)
Class AtaTicks (D : Type) `{AL : AtaLaws D} (tick : D -> D) := {
  tk_step : forall d, (work (tick d) = work d /\ sectors (tick d) = sectors d) \/ ata_finish d (tick d);
  tk_busy : forall d, is_ready (ata_in 503 d).1 = true -> is_busy (work d) = false;
  tk_ready : forall d, exists k, (k <= polls)%nat /\ is_ready (ata_in 503 (spin tick k d)).1 = true }.

Section run.
Context {D : Type} (tick : D -> D) `{AT : AtaTicks D tick}.

(** A command that reads is over, and the disk is the same. *)
Definition settled (d d' : D) : Prop :=
  is_busy (work d') = false /\ (forall u n, sectors d' u n = sectors d u n) /\ forall u n, work d = JBusy (Rd u n) -> work d' = JDone (Rd u n).

Definition no_write (d : D) : Prop := forall u n data, work d <> JBusy (Wr u n data).

Lemma waitdisk_loop_run fuel : forall (s : bstate D) k, (k <= fuel)%nat -> is_ready (ata_in 503 (spin tick k (bt_dev s))).1 = true -> no_write (bt_dev s) ->
  exists d, waitdisk_loop tick fuel s = Ret tt (mkbs d (bt_mem s)) /\ settled (bt_dev s) d /\ (is_busy (work (bt_dev s)) = false -> work d = work (bt_dev s)).
Proof.
  induction fuel as [|fuel IH]; intros s k Hk Hr Hw; cbn [waitdisk_loop]; unfold binb; rewrite bind_run; cbv zeta; change (Z.land (ata_in 503 (bt_dev s)).1 192 =? 64) with (is_ready (ata_in 503 (bt_dev s)).1);
    destruct (al_poll (bt_dev s)) as (P1 & P2 & P3); (destruct (is_ready (ata_in 503 (bt_dev s)).1) eqn:E;
    [pose proof (tk_busy _ E) as Hb; eexists; split; [reflexivity|]; split; [split; [by rewrite P2|]; split; [by rewrite P3|intros u n Hn; by rewrite Hn in Hb]|by rewrite P2]|]).
  { replace k with 0%nat in Hr by lia. simpl in Hr. congruence. }
  destruct k as [|k]; [simpl in Hr; congruence|]. rewrite bind_modify. cbn [bt_dev bt_mem]. set (d1 := (ata_in 503 (bt_dev s)).2) in *. destruct (tk_step d1) as [[W1 S1]|F1].
  - destruct (IH (mkbs (tick d1) (bt_mem s)) k) as (d & R & (B1 & B2 & B3) & B4); [lia|done|intros u n data; simpl; rewrite W1, P2; apply Hw|]. exists d. split; [exact R|]. simpl in *. rewrite W1, P2 in B3, B4. split; [|done].
    split; [done|]. split; [|done]. intros u n. by rewrite B2, S1, P3.
  - destruct (al_finish _ _ F1) as (o & W1 & W2 & Sf). rewrite P2 in W1. destruct o as [u n|u n data]; [|by destruct (Hw u n data)].
    destruct (IH (mkbs (tick d1) (bt_mem s)) k) as (d & R & (B1 & B2 & B3) & B4); [lia|done|intros u' n' data; simpl; by rewrite W2|]. exists d. split; [exact R|]. simpl in *. rewrite W1. split; [|done].
    split; [done|]. split; [intros u' n'; by rewrite B2, Sf, P3|]. intros u' n' Hn. rewrite W1 in Hn. injection Hn as <- <-. rewrite B4 by by rewrite W2. done.
Qed.

Lemma waitdisk_run (s : bstate D) : no_write (bt_dev s) ->
  exists d, waitdisk tick s = Ret tt (mkbs d (bt_mem s)) /\ settled (bt_dev s) d /\ (is_busy (work (bt_dev s)) = false -> work d = work (bt_dev s)).
Proof. intros Hw. destruct (tk_ready (bt_dev s)) as (k & Hk & Hr). by apply (waitdisk_loop_run polls s k). Qed.

Lemma u8_small v : 0 <= v < 256 -> u8 v = v.
Proof. intros H. unfold u8. by apply Z.mod_small. Qed.

Lemma boot_bytes n : 0 <= n < FSSIZE ->
  let t := mktask 1 (u8 n) (u8 (Z.shiftr n 8)) (u8 (Z.shiftr n 16)) (u8 (Z.lor (Z.shiftr n 24) 224)) in
  tf_sector t = n /\ tf_unit t = 0 /\ 0 <= tf_lba0 t < 256 /\ 0 <= tf_lba1 t < 256 /\ 0 <= tf_lba2 t < 256 /\ 0 <= tf_drive t < 256.
Proof.
  change FSSIZE with 1000. intros Hn. assert (E2 : Z.shiftr n 16 = 0) by (rewrite Z.shiftr_div_pow2 by lia; apply Z.div_small; lia). assert (E3 : Z.shiftr n 24 = 0) by (rewrite Z.shiftr_div_pow2 by lia; apply Z.div_small; lia).
  rewrite E2, E3, Z.shiftr_div_pow2 by lia. change (2 ^ 8) with 256. change (u8 (Z.lor 0 224)) with 224. change (u8 0) with 0. unfold tf_sector, tf_unit, u8; simpl. Z.div_mod_to_equations; lia.
Qed.

(** [readsect] puts the sector of drive 0 into memory. *)
Lemma readsect_run (s : bstate D) dst n : is_busy (work (bt_dev s)) = false -> 0 <= n < FSSIZE ->
  exists d, readsect tick dst n s = Ret tt (mkbs d (store dst (sectors (bt_dev s) 0 n) (bt_mem s))) /\ is_busy (work d) = false /\ forall u k, sectors d u k = sectors (bt_dev s) u k.
Proof.
  intros Hb Hn. unfold readsect. destruct (waitdisk_run s) as (d1 & R1 & (_ & S1 & _) & W1); [intros u k data E; by rewrite E in Hb|]. mstep R1. specialize (W1 Hb).
  destruct (boot_bytes n Hn) as (Q1 & Q2 & Q3 & Q4 & Q5 & Q6). simpl in Q3, Q4, Q5, Q6. rewrite <- W1 in Hb. destruct (regs_run d1 1 _ _ _ _ Hb ltac:(lia) Q3 Q4 Q5 Q6) as (T2 & W2 & S2). set (d2 := regs 1 _ _ _ _ d1) in *.
  rewrite <- T2 in Q1, Q2. rewrite <- W2 in Hb. rewrite <- Q1 in Hn. destruct (al_read d2 Hb ltac:(by rewrite T2) Hn) as [W3 S3]. rewrite Q1, Q2 in W3. set (d3 := ata_out 503 IDE_CMD_READ d2) in *.
  unfold boutb at 1 2 3 4 5 6. rewrite !bind_modify. cbn [bt_dev bt_mem]. rewrite (u8_small 1), (u8_small 32) by lia. change (ata_out 503 32 (ata_out 502 _ _)) with d3.
  destruct (waitdisk_run (mkbs d3 (bt_mem s))) as (d4 & R4 & (B4 & S4 & W4) & _); [intros u k data; simpl; by rewrite W3|]. mstep R4. cbn [bt_dev bt_mem] in *. specialize (W4 _ _ W3). destruct (al_data d4 _ _ W4) as (D1 & D2 & D3).
  unfold binsl, modify. cbn [bt_dev bt_mem]. change (Z.to_nat (SECTSIZE / 4)) with 128%nat. eexists. split; [rewrite D1, S4, S3, S2, S1; done|]. split; [done|]. intros u k. by rewrite D3, S4, S3, S2, S1.
Qed.

(** The bytes of the image, which starts at sector 1. *)
Definition image (d : D) (p : Z) : Z := default 0 (sectors d 0 (p / 512 + 1) !! Z.to_nat (p mod 512)).
Definition whole_sectors (d : D) : Prop := forall n, length (sectors d 0 n) = 512%nat.

Lemma image_ext d d' p : (forall u n, sectors d' u n = sectors d u n) -> image d' p = image d p.
Proof. intros H. unfold image. by rewrite H. Qed.

Lemma readseg_loop_run fuel : forall (s : bstate D) pa epa k n,
  is_busy (work (bt_dev s)) = false -> whole_sectors (bt_dev s) -> 0 <= pa -> pa + 512 * n < two32 -> 0 <= k -> k + n + 1 < FSSIZE -> 0 <= n <= Z.of_nat fuel -> (n = 0 -> epa <= pa) -> (0 < n -> pa + 512 * (n - 1) < epa <= pa + 512 * n) ->
  exists d m, readseg_loop tick fuel pa epa (k + 1) s = Ret tt (mkbs d m) /\ is_busy (work d) = false /\ (forall u j, sectors d u j = sectors (bt_dev s) u j) /\
    forall p, m p = if (pa <=? p) && (p <? pa + 512 * n) then image (bt_dev s) (512 * k + (p - pa)) else bt_mem s p.
Proof.
  induction fuel as [|fuel IH]; intros s pa epa k n Hb Hw Hpa Hlim Hk Hkn Hn H0 H1; cbn [readseg_loop].
  - destruct (Z.ltb_spec pa epa); [lia|]. exists (bt_dev s), (bt_mem s). split; [by destruct s|]. split; [done|]. split; [done|]. intros p. destruct (Z.leb_spec pa p), (Z.ltb_spec p (pa + 512 * n)); try done; lia.
  - destruct (Z.ltb_spec pa epa) as [Hlt|Hge].
    2: { exists (bt_dev s), (bt_mem s). split; [by destruct s|]. split; [done|]. split; [done|]. intros p. destruct (Z.leb_spec pa p), (Z.ltb_spec p (pa + 512 * n)); try done; lia. }
    assert (Hn1 : 0 < n) by lia. specialize (H1 Hn1). destruct (readsect_run s pa (k + 1) Hb ltac:(lia)) as (d1 & R1 & B1 & S1). mstep R1. change SECTSIZE with 512. unfold two32 in Hlim. change FSSIZE with 1000 in *. rewrite !u32_id by (unfold two32; lia).
    destruct (IH (mkbs d1 (store pa (sectors (bt_dev s) 0 (k + 1)) (bt_mem s))) (pa + 512) epa (k + 1) (n - 1)) as (d & m & R & B & S2 & Hm); simpl; try done; try lia.
    { intros j. simpl. rewrite S1. apply Hw. } { unfold two32. lia. }
    exists d, m. split; [exact R|]. split; [done|]. split; [intros u j; by rewrite S2, S1|]. intros p. rewrite Hm. simpl. rewrite (image_ext (bt_dev s) d1) by done.
    destruct (Z.leb_spec (pa + 512) p), (Z.ltb_spec p (pa + 512 + 512 * (n - 1))), (Z.leb_spec pa p), (Z.ltb_spec p (pa + 512 * n)); try lia; cbn [andb]; try (f_equal; lia);
      unfold store; rewrite Hw; destruct (Z.leb_spec pa p), (Z.ltb_spec p (pa + Z.of_nat 512)); try lia; cbn [andb]; try done.
    unfold image. replace ((512 * k + (p - pa)) / 512) with k by (Z.div_mod_to_equations; lia). by replace ((512 * k + (p - pa)) mod 512) with (p - pa) by (Z.div_mod_to_equations; lia).
Qed.

(** How many sectors [readseg] reads, and from which address on it writes. *)
Definition nsect (count off : Z) : Z := (count + off mod 512 + 511) / 512.

Lemma readseg_run (s : bstate D) pa count off :
  is_busy (work (bt_dev s)) = false -> whole_sectors (bt_dev s) -> 512 <= pa -> 0 <= count -> 0 <= off -> pa + count + 512 < two32 -> (off + count) / 512 + 3 < FSSIZE ->
  exists d m, readseg tick pa count off s = Ret tt (mkbs d m) /\ is_busy (work d) = false /\ (forall u j, sectors d u j = sectors (bt_dev s) u j) /\
    forall p, m p = if (pa - off mod 512 <=? p) && (p <? pa - off mod 512 + 512 * nsect count off) then image (bt_dev s) (off + (p - pa)) else bt_mem s p.
Proof.
  intros Hb Hw Hpa Hc Ho Hlim Hs. unfold readseg. change SECTSIZE with 512. change FSSIZE with 1000 in *. pose proof (Z.mod_pos_bound off 512 ltac:(lia)). assert (0 <= off / 512) by (apply Z.div_pos; lia). unfold two32 in Hlim.
  assert (off / 512 <= (off + count) / 512) by (apply Z.div_le_mono; lia). rewrite !u32_id by (unfold two32; lia). pose proof (Z.div_mod (count + off mod 512 + 511) 512 ltac:(lia)). pose proof (Z.mod_pos_bound (count + off mod 512 + 511) 512 ltac:(lia)).
  assert (Hns : 0 <= nsect count off <= count / 512 + 2 /\ off / 512 + nsect count off <= (off + count) / 512 + 1 /\ count + off mod 512 <= 512 * nsect count off < count + off mod 512 + 512) by (unfold nsect; Z.div_mod_to_equations; lia).
  set (ns := nsect count off) in *. destruct Hns as (Hn1 & Hn2 & Hn3).
  destruct (readseg_loop_run (Z.to_nat (count / 512 + 2)) s (pa - off mod 512) (pa + count) (off / 512) ns Hb Hw) as (d & m & R & B & S1 & Hm); [lia|unfold two32; lia|lia|change FSSIZE with 1000; lia|lia|lia|lia|].
  exists d, m. split; [exact R|]. split; [done|]. split; [done|]. intros p. rewrite Hm. destruct (_ && _); [|done]. f_equal. pose proof (Z.div_mod off 512 ltac:(lia)). lia.
Qed.

(** ** Loading the segments *)

(** The addresses that are written for a segment. *)
Definition seg_lo (h : seg) : Z := sg_paddr h - sg_off h mod 512.
Definition seg_hi (h : seg) : Z := Z.max (seg_lo h + 512 * nsect (sg_filesz h) (sg_off h)) (sg_paddr h + sg_memsz h).

Record seg_ok (h : seg) : Prop := {
  so_paddr : 512 <= sg_paddr h;
  so_sizes : 0 <= sg_filesz h <= sg_memsz h;
  so_off : 0 <= sg_off h;
  so_end : sg_paddr h + sg_memsz h + 512 < two32;
  so_disk : (sg_off h + sg_filesz h) / 512 + 3 < FSSIZE;
  so_header : seg_hi h <= 0x10000 \/ 0x11000 <= seg_lo h }.

(** Loading [h] leaves the memory of [h'] alone. *)
Definition apart (h h' : seg) : Prop := seg_hi h <= sg_paddr h' \/ sg_paddr h' + sg_memsz h' <= seg_lo h.

(** The memory of the segment: the bytes of the file, and then zeroes. *)
Definition loaded (d : D) (m : Z -> Z) (h : seg) : Prop :=
  forall k, 0 <= k < sg_memsz h -> m (sg_paddr h + k) = if k <? sg_filesz h then image d (sg_off h + k) else 0.

Lemma seg_run (s : bstate D) h (K : M (bstate D) unit) : is_busy (work (bt_dev s)) = false -> whole_sectors (bt_dev s) -> seg_ok h ->
  exists d m, (readseg tick (sg_paddr h) (sg_filesz h) (sg_off h);;
      (if sg_filesz h <? sg_memsz h then bstosb (u32 (sg_paddr h + sg_filesz h)) 0 (sg_memsz h - sg_filesz h) else mret tt);; K) s = K (mkbs d m) /\
    is_busy (work d) = false /\ (forall u j, sectors d u j = sectors (bt_dev s) u j) /\ loaded (bt_dev s) m h /\ forall p, p < seg_lo h \/ seg_hi h <= p -> m p = bt_mem s p.
Proof.
  intros Hb Hw [H1 H2 H3 H4 H5 _]. unfold seg_hi, seg_lo. unfold two32 in H4. destruct (readseg_run s (sg_paddr h) (sg_filesz h) (sg_off h) Hb Hw H1 ltac:(lia) H3 ltac:(unfold two32; lia) H5) as (d & m & R & B & S1 & Hm). mstep R.
  pose proof (Z.mod_pos_bound (sg_off h) 512 ltac:(lia)) as Hmod. assert (Hns : sg_filesz h + sg_off h mod 512 <= 512 * nsect (sg_filesz h) (sg_off h)) by (unfold nsect; Z.div_mod_to_equations; lia). set (ns := nsect _ _) in *.
  destruct (Z.ltb_spec (sg_filesz h) (sg_memsz h)) as [Hlt|Hge].
  - unfold bstosb. rewrite bind_modify. cbn [bt_dev bt_mem]. eexists d, _. split; [done|]. split; [done|]. split; [done|]. rewrite u32_id by (unfold two32; lia). unfold store. rewrite length_replicate. split.
    + intros k Hk. destruct (Z.ltb_spec k (sg_filesz h)) as [Hk1|Hk1].
      * destruct (Z.leb_spec (sg_paddr h + sg_filesz h) (sg_paddr h + k)); [lia|]. cbn [andb]. rewrite Hm. destruct (Z.leb_spec (sg_paddr h - sg_off h mod 512) (sg_paddr h + k)), (Z.ltb_spec (sg_paddr h + k) (sg_paddr h - sg_off h mod 512 + 512 * ns)); try lia. cbn [andb]. f_equal. lia.
      * destruct (Z.leb_spec (sg_paddr h + sg_filesz h) (sg_paddr h + k)), (Z.ltb_spec (sg_paddr h + k) (sg_paddr h + sg_filesz h + Z.of_nat (Z.to_nat (sg_memsz h - sg_filesz h)))); try lia. cbn [andb]. by rewrite lookup_replicate_2 by lia.
    + intros p Hp. destruct (Z.leb_spec (sg_paddr h + sg_filesz h) p), (Z.ltb_spec p (sg_paddr h + sg_filesz h + Z.of_nat (Z.to_nat (sg_memsz h - sg_filesz h)))); try lia; cbn [andb]; rewrite Hm;
        destruct (Z.leb_spec (sg_paddr h - sg_off h mod 512) p), (Z.ltb_spec p (sg_paddr h - sg_off h mod 512 + 512 * ns)); try lia; done.
  - rewrite bind_mret. exists d, m. split; [done|]. split; [done|]. split; [done|]. split.
    + intros k Hk. destruct (Z.ltb_spec k (sg_filesz h)); [|lia]. rewrite Hm. destruct (Z.leb_spec (sg_paddr h - sg_off h mod 512) (sg_paddr h + k)), (Z.ltb_spec (sg_paddr h + k) (sg_paddr h - sg_off h mod 512 + 512 * ns)); try lia. cbn [andb]. f_equal. lia.
    + intros p Hp. rewrite Hm. destruct (Z.leb_spec (sg_paddr h - sg_off h mod 512) p), (Z.ltb_spec p (sg_paddr h - sg_off h mod 512 + 512 * ns)); try lia; done.
Qed.

Lemma load_ext (m m' : Z -> Z) a n : 0 <= n -> (forall p, a <= p < a + n -> m' p = m p) -> load m' a n = load m a n.
Proof. intros Hn H. unfold load. apply list_fmap_ext. intros i p Hp. apply lookup_seqZ in Hp as [-> Hi]. apply H. lia. Qed.

Lemma seg_at_ext (m m' : Z -> Z) ph : (forall p, ph <= p < ph + 32 -> m' p = m p) -> seg_at m' ph = seg_at m ph.
Proof. intros H. unfold seg_at, ld32. rewrite !(load_ext m m') by (lia || intros p Hp; apply H; lia). done. Qed.

(** The segments one after the other; [m0] has the program headers. *)
Lemma load_loop_run m0 : forall (hs : list seg) (s : bstate D) ph,
  is_busy (work (bt_dev s)) = false -> whole_sectors (bt_dev s) -> 0x10000 <= ph -> ph + 32 * Z.of_nat (length hs) <= 0x11000 ->
  (forall p, 0x10000 <= p < 0x11000 -> bt_mem s p = m0 p) -> (forall i h, hs !! i = Some h -> seg_at m0 (ph + 32 * Z.of_nat i) = h) ->
  Forall seg_ok hs -> (forall i j h h', (i < j)%nat -> hs !! i = Some h -> hs !! j = Some h' -> apart h' h) ->
  exists d m, load_loop tick (length hs) ph s = Ret tt (mkbs d m) /\ (forall h, h ∈ hs -> loaded (bt_dev s) m h) /\
    (forall p, 0x10000 <= p < 0x11000 -> m p = m0 p) /\ forall a n, 0 <= n -> (forall h, h ∈ hs -> seg_hi h <= a \/ a + n <= seg_lo h) -> forall p, a <= p < a + n -> m p = bt_mem s p.
Proof.
  induction hs as [|h hs IH]; intros s ph Hb Hw Hph Hend Hpage Hhs Hok Hap.
  { exists (bt_dev s), (bt_mem s). split; [by destruct s|]. split; [intros h Hh; by apply elem_of_nil in Hh|]. split; done. }
  cbn [length load_loop] in *. rewrite bind_get. pose proof (Hhs 0%nat h eq_refl) as E0. rewrite Z.mul_0_r, Z.add_0_r in E0. assert (Eh : seg_at (bt_mem s) ph = h) by (rewrite <- E0; apply seg_at_ext; intros p Hp; apply Hpage; lia). rewrite Eh.
  apply Forall_cons in Hok as [Hh Hok]. destruct (seg_run s h (load_loop tick (length hs) (ph + 32)) Hb Hw Hh) as (d1 & m1 & -> & B1 & S1 & L1 & O1).
  destruct (IH (mkbs d1 m1) (ph + 32)) as (d & m & R & L & P & O); simpl; try done; try lia.
  { intros n. rewrite S1. apply Hw. } { intros p Hp. rewrite O1; [by apply Hpage|]. destruct (so_header _ Hh); lia. }
  { intros i h' Hi. specialize (Hhs (S i) h' Hi). by replace (ph + 32 + 32 * Z.of_nat i) with (ph + 32 * Z.of_nat (S i)) by lia. } { intros i j h1 h2 Hij H1 H2. by apply (Hap (S i) (S j)); [lia|..]. }
  exists d, m. split; [exact R|]. split; [|split; [done|]].
  - intros h' Hin. apply elem_of_cons in Hin as [->|Hin].
    + intros k Hk. rewrite (O (sg_paddr h) (sg_memsz h)); [by apply L1|lia| |lia]. intros h2 H2. apply list_elem_of_lookup in H2 as [j Hj]. by apply (Hap 0%nat (S j) h h2); [lia|..].
    + intros k Hk. rewrite (L h' Hin k Hk). destruct (k <? sg_filesz h'); [|done]. by apply image_ext.
  - intros a n Hn Ha p Hp. rewrite (O a n); [|done|intros h' Hin; apply Ha; by apply list_elem_of_further|done]. simpl. apply O1. destruct (Ha h (list_elem_of_here _ _)); lia.
Qed.

(** C28. The boot loader loads the kernel.  If the image that starts at sector 1 of the
    disk begins with an ELF header whose program headers are in its first page, and
    the segments do not overlap each other or the header, counting the whole sectors
    that are read, [bootmain] ends by jumping to the entry point, with the file's
    bytes of every segment at its physical address and zeroes up to its size in
    memory.  If the magic number is wrong it returns. *)
Theorem bootmain_loads (s : bstate D) :
  is_busy (work (bt_dev s)) = false -> whole_sectors (bt_dev s) ->
  let m0 := fun p => image (bt_dev s) (p - 0x10000) in
  let ph := 0x10000 + ld32 m0 (0x10000 + 28) in
  let hs := seg_at m0 <$> ((fun i => ph + 32 * i) <$> seqZ 0 (ld16 m0 (0x10000 + 44))) in
  if ld32 m0 0x10000 =? ELF_MAGIC then
    0x10000 <= ph -> 0 <= ld16 m0 (0x10000 + 44) -> ph + 32 * ld16 m0 (0x10000 + 44) <= 0x11000 ->
    Forall seg_ok hs -> (forall i j h h', (i < j)%nat -> hs !! i = Some h -> hs !! j = Some h' -> apart h' h) ->
    exists s', bootmain tick s = Ret (Some (ld32 m0 (0x10000 + 24))) s' /\ forall h, h ∈ hs -> loaded (bt_dev s) (bt_mem s') h
  else exists s', bootmain tick s = Ret None s'.
Proof.
  intros Hb Hw m0 ph hs. unfold bootmain. destruct (readseg_run s 0x10000 4096 0 Hb Hw ltac:(lia) ltac:(lia) ltac:(lia) ltac:(unfold two32; lia) ltac:(vm_compute; reflexivity)) as (d1 & m1 & R1 & B1 & S1 & Hm). mstep R1. rewrite bind_get. cbn [bt_mem].
  assert (Hpage : forall p, 0x10000 <= p < 0x11000 -> m1 p = m0 p). { intros p Hp. rewrite Hm. change (0x10000 - 0 mod 512) with 0x10000. change (512 * nsect 4096 0) with 4096. destruct (Z.leb_spec 0x10000 p), (Z.ltb_spec p (0x10000 + 4096)); try lia. done. }
  assert (Hld : forall a, 0x10000 <= a -> a + 4 <= 0x11000 -> ld32 m1 a = ld32 m0 a) by (intros a Ha Ha'; unfold ld32; f_equal; apply load_ext; [lia|]; intros p Hp; apply Hpage; lia).
  assert (Hl16 : ld16 m1 (0x10000 + 44) = ld16 m0 (0x10000 + 44)) by (unfold ld16; f_equal; apply load_ext; [lia|]; intros p Hp; apply Hpage; lia).
  rewrite (Hld 0x10000), (Hld (0x10000 + 28)), Hl16 by lia. destruct (ld32 m0 0x10000 =? ELF_MAGIC); cbn [negb]; [|by eexists]. intros Hph Hn Hend Hok Hap.
  rewrite u32_id by (unfold two32; fold ph; lia). fold ph. assert (Hlen : length hs = Z.to_nat (ld16 m0 (0x10000 + 44))) by (unfold hs; by rewrite !length_fmap, length_seqZ). rewrite <- Hlen.
  destruct (load_loop_run m0 hs (mkbs d1 m1) ph B1) as (d & m & R & L & P & _); try done; [intros n; simpl; rewrite S1; apply Hw|rewrite Hlen; lia| |].
  { intros i h Hi. unfold hs in Hi. rewrite !list_lookup_fmap in Hi. destruct (seqZ 0 _ !! i) as [z|] eqn:Ez; [|done]. apply lookup_seqZ in Ez as [-> _]. by injection Hi as <-. }
  exists (mkbs d m). mstep R. rewrite bind_get. cbn [bt_mem]. split; [|intros h Hh k Hk; rewrite (L h Hh k Hk); simpl; by rewrite (image_ext (bt_dev s) d1)].
  unfold mret, M_ret. f_equal. f_equal. unfold ld32. f_equal. apply load_ext; [lia|]. intros p Hp. apply P. lia.
Qed.
End run.

(** ** A disk that finishes its command between two polls *)

#[export] Instance simdisk_ticks : AtaTicks simdisk sd_finish.
Proof.
  split.
  - intros d. destruct (sd_job d) as [|o|o] eqn:E; [left|right|left]; simpl; unfold sd_finish; rewrite ?E; done.
  - intros d. simpl. by destruct (is_busy (sd_job d)).
  - intros d. exists 1%nat. split; [simpl; lia|]. simpl. unfold sd_finish. destruct (sd_job d) as [|o|o] eqn:E; simpl; by rewrite ?E.
Defined.

(** A kernel of two segments: four bytes, and two bytes of a segment of ten. *)
Definition pad (l : list Z) : list Z := l ++ replicate (512 - length l) 0.
Definition hdr : list Z :=
  le32 ELF_MAGIC ++ replicate 20 0 ++ le32 0x100002 ++ le32 52 ++ replicate 12 0 ++ le16 2 ++ replicate 6 0 ++
  (le32 1 ++ le32 1024 ++ le32 0 ++ le32 0x100000 ++ le32 4 ++ le32 4 ++ le32 5 ++ le32 0x1000) ++
  (le32 1 ++ le32 1028 ++ le32 0 ++ le32 0x101004 ++ le32 2 ++ le32 10 ++ le32 6 ++ le32 0x1000).
Definition boot0 : bstate simdisk :=
  mkbs (mksim (mktask 0 0 0 0 0) JNone (fun _ n => if n =? 1 then pad hdr else if n =? 3 then pad [10; 11; 12; 13; 14; 15; 99; 99] else replicate 512 0)) (fun _ => 255).

Lemma boot0_whole : whole_sectors (bt_dev boot0).
Proof. intros n. cbn. by destruct (n =? 1), (n =? 3). Qed.

Lemma bootmain_loads_witness : exists s', bootmain sd_finish boot0 = Ret (Some 0x100002) s' /\ (bt_mem s' <$> seqZ 0x100000 4) = [10; 11; 12; 13] /\ (bt_mem s' <$> seqZ 0x101004 10) = [14; 15; 0; 0; 0; 0; 0; 0; 0; 0].
Proof.
  pose proof (bootmain_loads sd_finish boot0 eq_refl boot0_whole) as H. cbv zeta in H.
  set (hs := seg_at _ <$> _) in H. assert (E : hs = [mkseg 1024 0x100000 4 4; mkseg 1028 0x101004 2 10]) by (vm_compute; reflexivity). clearbody hs. subst hs.
  match type of H with if ?b then _ else _ => assert (Eb : b = true) by (vm_compute; reflexivity); rewrite Eb in H end.
  destruct H as (s' & R & L); [vm_compute; discriminate|vm_compute; discriminate|vm_compute; discriminate| | |].
  - repeat constructor; vm_compute; (reflexivity || discriminate || (left; discriminate) || (right; discriminate)).
  - intros i j h h' Hij H1 H2. destruct i as [|[|i]], j as [|[|j]]; simplify_eq/=; try lia. right. vm_compute. discriminate.
  - exists s'. split; [rewrite R; f_equal; vm_compute; reflexivity|]. pose proof (L _ (list_elem_of_here _ _)) as L1. pose proof (L _ (list_elem_of_further _ _ _ (list_elem_of_here _ _))) as L2. split.
    + change (seqZ 0x100000 4) with [0x100000 + 0; 0x100000 + 1; 0x100000 + 2; 0x100000 + 3]. cbn [fmap list_fmap]. rewrite !(L1 _) by (simpl; lia). vm_compute. reflexivity.
    + change (seqZ 0x101004 10) with ((fun k => 0x101004 + k) <$> [0; 1; 2; 3; 4; 5; 6; 7; 8; 9]). rewrite <- list_fmap_compose. cbn [fmap list_fmap]. unfold compose. rewrite !(L2 _) by (simpl; lia). vm_compute. reflexivity.
Defined.
