(* ===== verification/Entry.v ===== *)
(** * Into protected mode and paging (bootasm.S, entry.S, entryother.S, asm.h)

    A processor with what these files set up: segment registers with the descriptors
    they were loaded with, the control registers, the table of descriptors, the address
    line A20 with the keyboard controller that switches it, and the translation of
    addresses by segments and by pages of both sizes.  It fetches each instruction
    through this translation, so that a program that changes the translation under its
    own feet has to go on at the same place.

    Memory is a function from physical addresses to bytes.  The assembler decides how
    long instructions are: instruction [i] of a file is at [pos i]. *)

From Stdlib Require Import ZArith Lia.
From stdpp Require Import base numbers strings gmap list relations.
From S2P Require Import Prelude.
From S2P Require Import Machine.
From S2P Require Import Kalloc.
From S2P Require Import KState.
From S2P Require Import Asm.

Local Open Scope string_scope.
Local Open Scope list_scope.
Local Open Scope Z_scope.

Definition CR0_PE : Z := 0x00000001.
Definition CR0_WP : Z := 0x00010000.
Definition CR0_PG : Z := 0x80000000.
Definition CR4_PSE : Z := 0x00000010.

Definition bit (x b : Z) : bool := negb (Z.land x b =? 0).

(** ** The processor *)

(** The part of a segment register that the processor uses. *)
Record scache := mksc { sc_base : Z; sc_limit : Z; sc_32 : bool }.

Record pcpu := mkpc {
  pc_eax : Z; pc_edx : Z; pc_esp : Z; pc_eip : Z; pc_zf : bool; pc_if : bool;
  pc_seg : sreg -> scache;
  pc_gdt : Z * Z;                 (* limit and base *)
  pc_cr0 : Z; pc_cr3 : Z; pc_cr4 : Z }.

(** [bd_cmd]: the keyboard controller expects the value of its output port;
    [bd_busy]: how often it is polled in vain before each command. *)
Record board := mkbd { bd_cpu : pcpu; bd_mem : Z -> Z; bd_a20 : bool; bd_cmd : bool; bd_busy : list nat }.

Definition set_cpu (f : pcpu -> pcpu) (b : board) : board := mkbd (f (bd_cpu b)) (bd_mem b) (bd_a20 b) (bd_cmd b) (bd_busy b).
Definition set_eax (v : Z) (c : pcpu) : pcpu := mkpc v (pc_edx c) (pc_esp c) (pc_eip c) (pc_zf c) (pc_if c) (pc_seg c) (pc_gdt c) (pc_cr0 c) (pc_cr3 c) (pc_cr4 c).
Definition set_edx (v : Z) (c : pcpu) : pcpu := mkpc (pc_eax c) v (pc_esp c) (pc_eip c) (pc_zf c) (pc_if c) (pc_seg c) (pc_gdt c) (pc_cr0 c) (pc_cr3 c) (pc_cr4 c).
Definition set_esp (v : Z) (c : pcpu) : pcpu := mkpc (pc_eax c) (pc_edx c) v (pc_eip c) (pc_zf c) (pc_if c) (pc_seg c) (pc_gdt c) (pc_cr0 c) (pc_cr3 c) (pc_cr4 c).
Definition set_eip (v : Z) (c : pcpu) : pcpu := mkpc (pc_eax c) (pc_edx c) (pc_esp c) v (pc_zf c) (pc_if c) (pc_seg c) (pc_gdt c) (pc_cr0 c) (pc_cr3 c) (pc_cr4 c).
Definition set_zf (v : bool) (c : pcpu) : pcpu := mkpc (pc_eax c) (pc_edx c) (pc_esp c) (pc_eip c) v (pc_if c) (pc_seg c) (pc_gdt c) (pc_cr0 c) (pc_cr3 c) (pc_cr4 c).
Definition set_if (v : bool) (c : pcpu) : pcpu := mkpc (pc_eax c) (pc_edx c) (pc_esp c) (pc_eip c) (pc_zf c) v (pc_seg c) (pc_gdt c) (pc_cr0 c) (pc_cr3 c) (pc_cr4 c).
Definition set_seg (s : sreg) (v : scache) (c : pcpu) : pcpu := mkpc (pc_eax c) (pc_edx c) (pc_esp c) (pc_eip c) (pc_zf c) (pc_if c) (fun s' => if sreg_beq s' s then v else pc_seg c s') (pc_gdt c) (pc_cr0 c) (pc_cr3 c) (pc_cr4 c).
Definition set_gdt (v : Z * Z) (c : pcpu) : pcpu := mkpc (pc_eax c) (pc_edx c) (pc_esp c) (pc_eip c) (pc_zf c) (pc_if c) (pc_seg c) v (pc_cr0 c) (pc_cr3 c) (pc_cr4 c).
Definition set_cr0 (v : Z) (c : pcpu) : pcpu := mkpc (pc_eax c) (pc_edx c) (pc_esp c) (pc_eip c) (pc_zf c) (pc_if c) (pc_seg c) (pc_gdt c) v (pc_cr3 c) (pc_cr4 c).
Definition set_cr3 (v : Z) (c : pcpu) : pcpu := mkpc (pc_eax c) (pc_edx c) (pc_esp c) (pc_eip c) (pc_zf c) (pc_if c) (pc_seg c) (pc_gdt c) (pc_cr0 c) v (pc_cr4 c).
Definition set_cr4 (v : Z) (c : pcpu) : pcpu := mkpc (pc_eax c) (pc_edx c) (pc_esp c) (pc_eip c) (pc_zf c) (pc_if c) (pc_seg c) (pc_gdt c) (pc_cr0 c) (pc_cr3 c) v.

Definition with_ax (v e : Z) : Z := e / 65536 * 65536 + v.
Definition with_al (v e : Z) : Z := e / 256 * 256 + v.

(** Physical memory behind the address lines. *)
Definition wire (a20 : bool) (a : Z) : Z := if a20 then a else Z.land a (Z.lnot 0x100000).
Definition peek (b : board) (a : Z) : Z := bd_mem b (wire (bd_a20 b) a).
Definition rd32 (rd : Z -> Z) (a : Z) : Z := rd a + 256 * rd (a + 1) + 65536 * rd (a + 2) + 16777216 * rd (a + 3).
Definition wr32 (m : Z -> Z) (a v x : Z) : Z :=
  if x =? a then v mod 256 else if x =? a + 1 then v / 256 mod 256 else if x =? a + 2 then v / 65536 mod 256 else if x =? a + 3 then v / 16777216 mod 256 else m x.

(** Translation by pages of 4 Kbyte and of 4 Mbyte. *)
Definition translate (b : board) (lin : Z) : option Z :=
  let c := bd_cpu b in
  if negb (bit (pc_cr0 c) CR0_PG) then Some lin
  else
    let pde := rd32 (peek b) (PTE_ADDR (pc_cr3 c) + 4 * PDX lin) in
    if negb (bit pde PTE_P) then None
    else if bit pde PTE_PS && bit (pc_cr4 c) CR4_PSE then Some (pde / 4194304 * 4194304 + lin mod 4194304)
    else
      let pte := rd32 (peek b) (PTE_ADDR pde + 4 * PTX lin) in
      if negb (bit pte PTE_P) then None else Some (PTE_ADDR pte + lin mod PGSIZE).

(** The physical address of [n] bytes at an offset of a segment, inside one page. *)
Definition address (b : board) (s : sreg) (off n : Z) : option Z :=
  let sc := pc_seg (bd_cpu b) s in
  if off + n - 1 <=? sc_limit sc then translate b (u32 (sc_base sc + off)) else None.

(** ** Segments *)

(** The descriptor at [a]: whether it is present and code, and what it says. *)
Definition descriptor (rd : Z -> Z) (a : Z) : bool * bool * scache :=
  let lim := rd a + 256 * rd (a + 1) + 65536 * (rd (a + 6) mod 16) in
  (bit (rd (a + 5)) 0x80, bit (rd (a + 5)) STA_X,
   mksc (rd (a + 2) + 256 * rd (a + 3) + 65536 * rd (a + 4) + 16777216 * rd (a + 7)) (if bit (rd (a + 6)) 0x80 then lim * 4096 + 4095 else lim) (bit (rd (a + 6)) 0x40)).

Definition no_segment : scache := mksc 0 (-1) false.

Definition load_seg (s : sreg) (sel : Z) (b : board) : option board :=
  let c := bd_cpu b in
  if negb (bit (pc_cr0 c) CR0_PE) then Some (set_cpu (set_seg s (mksc (16 * sel) (sc_limit (pc_seg c s)) (sc_32 (pc_seg c s)))) b)
  else if sel / 8 =? 0 then (if sreg_beq s CS || sreg_beq s SS then None else Some (set_cpu (set_seg s no_segment) b))
  else if sel / 8 * 8 + 7 <=? (pc_gdt c).1 then
    let '(present, code, sc) := descriptor (peek b) ((pc_gdt c).2 + sel / 8 * 8) in
    if present && Bool.eqb code (sreg_beq s CS) then Some (set_cpu (set_seg s sc) b) else None
  else None.

(** ** Instructions *)

Inductive pinstr :=
  | P_cli
  | P_xorw_ax
  | P_movw_sreg (s : sreg)          (* movw %ax, %s *)
  | P_movw_ax (v : Z) | P_movw_dx | P_outw
  | P_inb (port : Z) | P_testb (v : Z) | P_jnz (a : Z) | P_movb_al (v : Z) | P_outb (port : Z)
  | P_lgdt (a : Z)
  | P_from_cr0 | P_to_cr0 | P_from_cr4 | P_to_cr4 | P_to_cr3
  | P_orl (v : Z)
  | P_ljmp (sel off : Z)
  | P_movl_eax (v : Z) | P_movl_esp (v : Z) | P_load_eax (a : Z) | P_load_esp (a : Z)
  | P_call (a : Z) | P_call_at (a : Z) | P_jmp_eax | P_jmp (a : Z).

Definition push (v : Z) (b : board) : option board :=
  let sp := u32 (pc_esp (bd_cpu b) - 4) in
  pa ← address b SS sp 4;
  Some (mkbd (set_esp sp (bd_cpu b)) (wr32 (bd_mem b) (wire (bd_a20 b) pa) v) (bd_a20 b) (bd_cmd b) (bd_busy b)).

Definition load (b : board) (a : Z) : option Z := pa ← address b DS a 4; Some (rd32 (peek b) pa).

(** The status and the two commands of the keyboard controller; other ports are not
    connected to what is modelled here. *)
Definition inb (port : Z) (b : board) : Z * board :=
  if port =? 0x64 then
    match bd_busy b with
    | S n :: r => (2, mkbd (bd_cpu b) (bd_mem b) (bd_a20 b) (bd_cmd b) (n :: r))
    | _ => (0, b)
    end
  else (0, b).
Definition outb (port v : Z) (b : board) : board :=
  if port =? 0x64 then mkbd (bd_cpu b) (bd_mem b) (bd_a20 b) (v =? 0xd1) (tail (bd_busy b))
  else if (port =? 0x60) && bd_cmd b then mkbd (bd_cpu b) (bd_mem b) (bit v 2) false (tail (bd_busy b))
  else b.

(** [b] has the address of the next instruction in eip. *)
Definition exec (i : pinstr) (b : board) : option board :=
  let c := bd_cpu b in
  match i with
  | P_cli => Some (set_cpu (set_if false) b)
  | P_xorw_ax => Some (set_cpu (set_eax (with_ax 0 (pc_eax c))) b)
  | P_movw_sreg s => load_seg s (pc_eax c mod 65536) b
  | P_movw_ax v => Some (set_cpu (set_eax (with_ax v (pc_eax c))) b)
  | P_movw_dx => Some (set_cpu (set_edx (with_ax (pc_eax c mod 65536) (pc_edx c))) b)
  | P_outw => Some b
  | P_inb port => let '(v, b) := inb port b in Some (set_cpu (set_eax (with_al v (pc_eax c))) b)
  | P_testb v => Some (set_cpu (set_zf (Z.land (pc_eax c mod 256) v =? 0)) b)
  | P_jnz a => Some (if pc_zf c then b else set_cpu (set_eip a) b)
  | P_movb_al v => Some (set_cpu (set_eax (with_al v (pc_eax c))) b)
  | P_outb port => Some (outb port (pc_eax c mod 256) b)
  | P_lgdt a => pa ← address b DS a 6; Some (set_cpu (set_gdt (peek b pa + 256 * peek b (pa + 1), rd32 (peek b) (pa + 2))) b)
  | P_from_cr0 => Some (set_cpu (set_eax (pc_cr0 c)) b)
  | P_to_cr0 => Some (set_cpu (set_cr0 (pc_eax c)) b)
  | P_from_cr4 => Some (set_cpu (set_eax (pc_cr4 c)) b)
  | P_to_cr4 => Some (set_cpu (set_cr4 (pc_eax c)) b)
  | P_to_cr3 => Some (set_cpu (set_cr3 (pc_eax c)) b)
  | P_orl v => Some (set_cpu (set_eax (Z.lor (pc_eax c) v)) b)
  | P_ljmp sel off => b ← load_seg CS sel b; Some (set_cpu (set_eip off) b)
  | P_movl_eax v => Some (set_cpu (set_eax v) b)
  | P_movl_esp v => Some (set_cpu (set_esp v) b)
  | P_load_eax a => v ← load b a; Some (set_cpu (set_eax v) b)
  | P_load_esp a => v ← load b a; Some (set_cpu (set_esp v) b)
  | P_call a => b ← push (pc_eip c) b; Some (set_cpu (set_eip a) b)
  | P_call_at a => v ← load b a; b ← push (pc_eip c) b; Some (set_cpu (set_eip v) b)
  | P_jmp_eax => Some (set_cpu (set_eip (pc_eax c)) b)
  | P_jmp a => Some (set_cpu (set_eip a) b)
  end.

(** [code]: the instruction at a physical address, and its length. *)
Definition step (code : Z -> option (pinstr * Z)) (b : board) : option board :=
  pa ← address b CS (pc_eip (bd_cpu b)) 1;
  '(i, n) ← code (wire (bd_a20 b) pa);
  exec i (set_cpu (set_eip (pc_eip (bd_cpu b) + n)) b).

Definition steps (code : Z -> option (pinstr * Z)) : relation board := rtc (fun b b' => step code b = Some b').

(** ** The files *)

Definition SEG_NULLASM : list Z := [0; 0; 0; 0; 0; 0; 0; 0].
Definition SEG_ASM (type base lim : Z) : list Z :=
  let w1 := Z.land (Z.shiftr lim 12) 0xffff in let w2 := Z.land base 0xffff in
  [w1 mod 256; w1 / 256; w2 mod 256; w2 / 256; Z.land (Z.shiftr base 16) 0xff; Z.lor 0x90 type; Z.lor 0xC0 (Z.land (Z.shiftr lim 28) 0xf); Z.land (Z.shiftr base 24) 0xff].

(** The same three descriptors in bootasm.S and entryother.S. *)
Definition boot_gdt : list Z := SEG_NULLASM ++ SEG_ASM (Z.lor STA_X STA_R) 0 0xffffffff ++ SEG_ASM STA_W 0 0xffffffff.
Definition gdtdesc (gdt : Z) : list Z := [23; 0; gdt mod 256; gdt / 256 mod 256; gdt / 65536 mod 256; gdt / 16777216 mod 256].

(** The labels are positions: seta20.1 is 5, seta20.2 is 10, start32 is 20. *)
Definition bootasm (pos : nat -> Z) (gdtdesc bootmain : Z) : list pinstr :=
  [ P_cli; P_xorw_ax; P_movw_sreg DS; P_movw_sreg ES; P_movw_sreg SS;
    P_inb 0x64; P_testb 2; P_jnz (pos 5%nat); P_movb_al 0xd1; P_outb 0x64;
    P_inb 0x64; P_testb 2; P_jnz (pos 10%nat); P_movb_al 0xdf; P_outb 0x60;
    P_lgdt gdtdesc; P_from_cr0; P_orl CR0_PE; P_to_cr0; P_ljmp (Z.shiftl SEG_KCODE 3) (pos 20%nat);
    P_movw_ax (Z.shiftl SEG_KDATA 3); P_movw_sreg DS; P_movw_sreg ES; P_movw_sreg SS;
    P_movw_ax 0; P_movw_sreg FS; P_movw_sreg GS;
    P_movl_esp (pos 0%nat); P_call bootmain;
    P_movw_ax 0x8a00; P_movw_dx; P_outw; P_movw_ax 0x8ae0; P_outw; P_jmp (pos 34%nat) ].

Definition entry (entrypgdir stack main : Z) : list pinstr :=
  [ P_from_cr4; P_orl CR4_PSE; P_to_cr4;
    P_movl_eax (V2P entrypgdir); P_to_cr3;
    P_from_cr0; P_orl (Z.lor CR0_PG CR0_WP); P_to_cr0;
    P_movl_esp (stack + KSTACKSIZE);
    P_movl_eax main; P_jmp_eax ].

(** start32 is 10. *)
Definition entryother (pos : nat -> Z) (gdtdesc : Z) : list pinstr :=
  let start := pos 0%nat in
  [ P_cli; P_xorw_ax; P_movw_sreg DS; P_movw_sreg ES; P_movw_sreg SS;
    P_lgdt gdtdesc; P_from_cr0; P_orl CR0_PE; P_to_cr0; P_ljmp (Z.shiftl SEG_KCODE 3) (pos 10%nat);
    P_movw_ax (Z.shiftl SEG_KDATA 3); P_movw_sreg DS; P_movw_sreg ES; P_movw_sreg SS;
    P_movw_ax 0; P_movw_sreg FS; P_movw_sreg GS;
    P_from_cr4; P_orl CR4_PSE; P_to_cr4;
    P_load_eax (start - 12); P_to_cr3;
    P_from_cr0; P_orl (Z.lor CR0_PE (Z.lor CR0_PG CR0_WP)); P_to_cr0;
    P_load_esp (start - 4); P_call_at (start - 8);
    P_movw_ax 0x8a00; P_movw_dx; P_outw; P_movw_ax 0x8ae0; P_outw; P_jmp (pos 32%nat) ].

(** The boot page table of main.c. *)
Definition entrypgdir : list Z :=
  <[Z.to_nat (Z.shiftr KERNBASE PDXSHIFT) := Z.lor (Z.lor (Z.lor 0 PTE_P) PTE_W) PTE_PS]>
    (<[0%nat := Z.lor (Z.lor (Z.lor 0 PTE_P) PTE_W) PTE_PS]> (replicate (Z.to_nat NPDENTRIES) 0)).

(** ** Running a file *)

Definition placed (code : Z -> option (pinstr * Z)) (pos : nat -> Z) (prog : list pinstr) : Prop :=
  forall i ins, prog !! i = Some ins -> code (pos i) = Some (ins, pos (S i) - pos i).

Definition mem_has (m : Z -> Z) (a : Z) (bs : list Z) : Prop := forall i x, bs !! i = Some x -> m (a + Z.of_nat i) = x.

(** The first megabyte is the same with and without A20. *)
Lemma wire_low a20 a : 0 <= a < 0x100000 -> wire a20 a = a.
Proof.
  intros Ha. unfold wire. destruct a20; [done|]. apply Z.bits_inj'. intros i Hi. rewrite Z.land_spec, Z.lnot_spec by done. destruct (Z.eq_dec i 20) as [->|Hne].
  - assert (Z.testbit a 20 = false) as ->; [|done]. replace a with (a mod 2 ^ 20) by (apply Z.mod_small; lia). apply Z.mod_pow2_bits_high. lia.
  - change 0x100000 with (2 ^ 20). rewrite Z.pow2_bits_false by lia. by rewrite andb_true_r.
Qed.

(** Fetching without paging, from a code segment at [base]. *)
Lemma step_real code pos prog i ins b base : placed code pos prog -> prog !! i = Some ins -> bit (pc_cr0 (bd_cpu b)) CR0_PG = false -> sc_base (pc_seg (bd_cpu b) CS) = base ->
  pc_eip (bd_cpu b) = pos i - base -> 0 <= pos i < 0x100000 -> pos i - base <= sc_limit (pc_seg (bd_cpu b) CS) -> step code b = exec ins (set_cpu (set_eip (pos (S i) - base)) b).
Proof.
  intros Hp Hi Hg Hb He Hl Hlim. unfold step, address. rewrite He. replace (pos i - base + 1 - 1) with (pos i - base) by lia. destruct (Z.leb_spec (pos i - base) (sc_limit (pc_seg (bd_cpu b) CS))); [|lia].
  unfold translate. rewrite Hg, Hb. cbn [negb mbind option_bind]. replace (base + (pos i - base)) with (pos i) by lia. rewrite u32_id by (unfold two32; lia). cbn [mbind option_bind]. rewrite wire_low, (Hp i ins Hi) by done. cbn [mbind option_bind].
  by replace (pos i - base + (pos (S i) - pos i)) with (pos (S i) - base) by lia.
Qed.

Lemma ax_with_ax v e : 0 <= v < 65536 -> with_ax v e mod 65536 = v.
Proof. intros Hv. unfold with_ax. rewrite Z.add_comm, Z.mod_add by lia. by apply Z.mod_small. Qed.

Lemma al_with_al v e : 0 <= v < 256 -> with_al v e mod 256 = v.
Proof. intros Hv. unfold with_al. rewrite Z.add_comm, Z.mod_add by lia. by apply Z.mod_small. Qed.

Lemma bit_lor x b : bit b b = true -> bit (Z.lor x b) b = true.
Proof.
  unfold bit. intros Hb. apply negb_true_iff in Hb. apply Z.eqb_neq in Hb. apply negb_true_iff, Z.eqb_neq. intros E. apply Hb. rewrite Z.land_diag in *. rewrite Z.land_lor_distr_l, Z.land_diag in E. by apply Z.lor_eq_0_iff in E as [_ E].
Qed.

Lemma bit_lor_other x a b : Z.land a b = 0 -> bit (Z.lor x a) b = bit x b.
Proof. intros E. unfold bit. by rewrite Z.land_lor_distr_l, E, Z.lor_0_r. Qed.

(** The segments after the switch. *)
Definition flat (s : sreg) : scache := match s with FS | GS => no_segment | _ => mksc 0 0xffffffff true end.

Lemma boot_descriptor rd gdt i : mem_has rd gdt boot_gdt -> i = 1 \/ i = 2 -> descriptor rd (gdt + i * 8) = (true, i =? 1, mksc 0 0xffffffff true).
Proof.
  intros Hm Hi. assert (E : forall j, 0 <= j < 24 -> rd (gdt + j) = nth (Z.to_nat j) boot_gdt 0).
  { intros j Hj. destruct (lookup_lt_is_Some_2 boot_gdt (Z.to_nat j)) as [x Hx]; [change (length boot_gdt) with 24%nat; lia|]. rewrite (nth_lookup_Some _ _ _ _ Hx). rewrite <- (Hm _ _ Hx). f_equal. lia. }
  unfold descriptor. destruct Hi as [-> | ->]; rewrite <- !Z.add_assoc, !E by lia; reflexivity.
Qed.

(** The instructions from [lgdt] to the load of GS, which both files have; [i] is the
    position of [lgdt]. *)
Definition protect (pos : nat -> Z) (i : nat) (gdtdesc : Z) : list pinstr :=
  [ P_lgdt gdtdesc; P_from_cr0; P_orl CR0_PE; P_to_cr0; P_ljmp (Z.shiftl SEG_KCODE 3) (pos (i + 5)%nat);
    P_movw_ax (Z.shiftl SEG_KDATA 3); P_movw_sreg DS; P_movw_sreg ES; P_movw_sreg SS; P_movw_ax 0; P_movw_sreg FS; P_movw_sreg GS ].

Ltac norm := unfold set_cpu, set_eax, set_edx, set_esp, set_eip, set_zf, set_if, set_seg, set_gdt, set_cr0, set_cr3, set_cr4; cbn [bd_cpu bd_mem bd_a20 bd_cmd bd_busy pc_eax pc_edx pc_esp pc_eip pc_zf pc_if pc_seg pc_gdt pc_cr0 pc_cr3 pc_cr4 sc_base sc_limit sc_32 sreg_beq exec mbind option_bind fst snd];
  unfold set_cpu, set_eax, set_edx, set_esp, set_eip, set_zf, set_if, set_seg, set_gdt, set_cr0, set_cr3, set_cr4; cbn [bd_cpu bd_mem bd_a20 bd_cmd bd_busy pc_eax pc_edx pc_esp pc_eip pc_zf pc_if pc_seg pc_gdt pc_cr0 pc_cr3 pc_cr4].

Section protect.
Context (code : Z -> option (pinstr * Z)) (pos : nat -> Z) (prog : list pinstr) (i0 : nat) (desc gdt base : Z).
Hypothesis (Hcode : placed code pos prog) (Hprog : forall j ins, protect pos i0 desc !! j = Some ins -> prog !! (i0 + j)%nat = Some ins) (Hlow : forall j, (j < length prog)%nat -> 0 <= pos j < 0x100000).
Context (m : Z -> Z) (a20 cmd : bool) (busy : list nat).
Hypothesis (Hdesc : mem_has m desc (gdtdesc gdt)) (Hgdt : mem_has m gdt boot_gdt) (Hd : 0 <= desc <= 0xfffa) (Hg : 0 <= gdt <= 0xfff0).

(** The load of a data segment in protected mode. *)
Lemma load_data s eax edx esp eip zf iff seg cr0 cr3 cr4 : s = DS \/ s = ES \/ s = SS -> bit cr0 CR0_PE = true -> eax mod 65536 = 16 ->
  let b := mkbd (mkpc eax edx esp eip zf iff seg (23, gdt) cr0 cr3 cr4) m a20 cmd busy in load_seg s (eax mod 65536) b = Some (set_cpu (set_seg s (mksc 0 0xffffffff true)) b).
Proof using Hgdt Hg.
  intros Hs Hpe Hax b. rewrite Hax. unfold load_seg, b. norm. rewrite Hpe. cbn [negb]. change (16 / 8) with 2. change (2 =? 0) with false. cbv iota. change (2 * 8 + 7 <=? 23) with true. cbv iota.
  rewrite boot_descriptor with (i := 2); [|intros i x Hx; pose proof (lookup_lt_Some _ _ _ Hx) as Hlt; change (length boot_gdt) with 24%nat in Hlt; unfold peek; norm; rewrite wire_low by lia; by apply Hgdt|by right]. by destruct Hs as [-> |[-> | ->]].
Qed.

Lemma load_null s eax edx esp eip zf iff seg cr0 cr3 cr4 : s = FS \/ s = GS -> bit cr0 CR0_PE = true -> eax mod 65536 = 0 ->
  let b := mkbd (mkpc eax edx esp eip zf iff seg (23, gdt) cr0 cr3 cr4) m a20 cmd busy in load_seg s (eax mod 65536) b = Some (set_cpu (set_seg s no_segment) b).
Proof. intros Hs Hpe Hax b. rewrite Hax. unfold load_seg, b. norm. rewrite Hpe. by destruct Hs as [-> | ->]. Qed.

Lemma load_code edx esp eax eip zf iff seg cr0 cr3 cr4 : bit cr0 CR0_PE = true ->
  let b := mkbd (mkpc eax edx esp eip zf iff seg (23, gdt) cr0 cr3 cr4) m a20 cmd busy in load_seg CS (Z.shiftl SEG_KCODE 3) b = Some (set_cpu (set_seg CS (mksc 0 0xffffffff true)) b).
Proof using Hgdt Hg.
  intros Hpe b. unfold load_seg, b. norm. rewrite Hpe. cbn [negb]. change (Z.shiftl SEG_KCODE 3 / 8) with 1. change (1 =? 0) with false. cbv iota. change (1 * 8 + 7 <=? 23) with true. cbv iota.
  rewrite boot_descriptor with (i := 1); [done|intros i x Hx; pose proof (lookup_lt_Some _ _ _ Hx) as Hlt; change (length boot_gdt) with 24%nat in Hlt; unfold peek; norm; rewrite wire_low by lia; by apply Hgdt|by left].
Qed.

Lemma lgdt_run eax edx esp eip zf iff seg g cr0 cr3 cr4 : bit cr0 CR0_PG = false -> sc_base (seg DS) = 0 -> 0xffff <= sc_limit (seg DS) ->
  let b := mkbd (mkpc eax edx esp eip zf iff seg g cr0 cr3 cr4) m a20 cmd busy in exec (P_lgdt desc) b = Some (set_cpu (set_gdt (23, gdt)) b).
Proof using Hdesc Hd Hg.
  intros Hpg Hb Hl b. unfold exec, address, b. norm. destruct (Z.leb_spec (desc + 6 - 1) (sc_limit (seg DS))); [|lia]. unfold translate. norm. rewrite Hpg, Hb. cbn [negb mbind option_bind]. rewrite Z.add_0_l, u32_id by (unfold two32; lia). cbn [mbind option_bind].
  assert (E : forall j, 0 <= j < 6 -> peek b (desc + j) = nth (Z.to_nat j) (gdtdesc gdt) 0).
  { intros j Hj. destruct (lookup_lt_is_Some_2 (gdtdesc gdt) (Z.to_nat j)) as [x Hx]; [cbn; lia|]. rewrite (nth_lookup_Some _ _ _ _ Hx), <- (Hdesc _ _ Hx). unfold peek, b. norm. rewrite wire_low by lia. f_equal. lia. }
  fold b. assert (E0 : peek b desc = 23) by (rewrite <- (Z.add_0_r desc); by rewrite E). assert (E1 : peek b (desc + 1) = 0) by (by rewrite E). assert (E2 : rd32 (peek b) (desc + 2) = gdt).
  { unfold rd32. rewrite <- !Z.add_assoc, !E by lia. change (gdt mod 256 + (256 * (gdt / 256 mod 256) + (65536 * (gdt / 65536 mod 256) + 16777216 * (gdt / 16777216 mod 256))) = gdt). rewrite (Z.div_small gdt 65536), (Z.div_small gdt 16777216) by lia. rewrite (Z.mod_small (gdt / 256)) by (split; [apply Z.div_pos; lia|apply Z.div_lt_upper_bound; lia]). pose proof (Z.div_mod gdt 256). change (0 mod 256) with 0. lia. }
  by rewrite E0, E1, E2.
Qed.

Lemma protect_run eax edx esp zf iff seg g cr0 cr3 cr4 : (i0 + 12 <= length prog)%nat -> bit cr0 CR0_PG = false -> sc_base (seg CS) = base -> 0xffff <= sc_limit (seg CS) -> sc_base (seg DS) = 0 -> 0xffff <= sc_limit (seg DS) ->
  (forall j, (j < 5)%nat -> pos (i0 + j)%nat - base <= 0xffff) ->
  exists eax' seg', steps code (mkbd (mkpc eax edx esp (pos i0 - base) zf iff seg g cr0 cr3 cr4) m a20 cmd busy) (mkbd (mkpc eax' edx esp (pos (i0 + 12)%nat) zf iff seg' (23, gdt) (Z.lor cr0 CR0_PE) cr3 cr4) m a20 cmd busy) /\ forall s, seg' s = flat s.
Proof using All.
  intros Hlen Hpg Hcb Hcl Hdb Hdl Hoff. assert (Hpe : bit (Z.lor cr0 CR0_PE) CR0_PE = true) by (by apply bit_lor). assert (Hpg' : bit (Z.lor cr0 CR0_PE) CR0_PG = false) by (by rewrite bit_lor_other).
  assert (F : forall j ins b b' bs, protect pos i0 desc !! j = Some ins -> bit (pc_cr0 (bd_cpu b)) CR0_PG = false -> sc_base (pc_seg (bd_cpu b) CS) = bs -> pc_eip (bd_cpu b) = pos (i0 + j)%nat - bs -> pos (i0 + j)%nat - bs <= sc_limit (pc_seg (bd_cpu b) CS) -> exec ins (set_cpu (set_eip (pos (i0 + S j)%nat - bs)) b) = Some b' -> step code b = Some b').
  { intros j ins b b' bs Hj G1 G2 G3 G4 G5. rewrite <- G5. replace (i0 + S j)%nat with (S (i0 + j)) by lia. apply (step_real code pos prog (i0 + j) ins b bs Hcode); [by apply Hprog|done|done|done| |done]. apply Hlow. apply lookup_lt_Some in Hj. cbn in Hj. lia. }
  assert (L : forall j, (j < 12)%nat -> pos (i0 + j)%nat - 0 <= 0xffffffff) by (intros j Hj; specialize (Hlow (i0 + j)%nat); lia).
  eexists _, _. split.
  - eapply rtc_l. { eapply (F 0%nat _ _ _ base); [reflexivity|exact Hpg|exact Hcb|by rewrite Nat.add_0_r|specialize (Hoff 0%nat); norm; lia|]. apply lgdt_run; [done|done|done]. } norm.
    eapply rtc_l. { eapply (F 1%nat _ _ _ base); [reflexivity|exact Hpg|exact Hcb|done|specialize (Hoff 1%nat); norm; lia|reflexivity]. } norm.
    eapply rtc_l. { eapply (F 2%nat _ _ _ base); [reflexivity|exact Hpg|exact Hcb|done|specialize (Hoff 2%nat); norm; lia|reflexivity]. } norm.
    eapply rtc_l. { eapply (F 3%nat _ _ _ base); [reflexivity|exact Hpg|exact Hcb|done|specialize (Hoff 3%nat); norm; lia|reflexivity]. } norm.
    eapply rtc_l. { eapply (F 4%nat _ _ _ base); [reflexivity|exact Hpg'|exact Hcb|done|specialize (Hoff 4%nat); norm; lia|]. norm. rewrite load_code by exact Hpe. reflexivity. } norm.
    eapply rtc_l. { eapply (F 5%nat _ _ _ 0); [reflexivity|exact Hpg'|reflexivity|norm; lia|norm; apply L; lia|reflexivity]. } norm.
    eapply rtc_l. { eapply (F 6%nat _ _ _ 0); [reflexivity|exact Hpg'|reflexivity|reflexivity|norm; apply L; lia|]. norm. apply load_data; [tauto|exact Hpe|by apply ax_with_ax]. } norm.
    eapply rtc_l. { eapply (F 7%nat _ _ _ 0); [reflexivity|exact Hpg'|reflexivity|reflexivity|norm; apply L; lia|]. norm. apply load_data; [tauto|exact Hpe|by apply ax_with_ax]. } norm.
    eapply rtc_l. { eapply (F 8%nat _ _ _ 0); [reflexivity|exact Hpg'|reflexivity|reflexivity|norm; apply L; lia|]. norm. apply load_data; [tauto|exact Hpe|by apply ax_with_ax]. } norm.
    eapply rtc_l. { eapply (F 9%nat _ _ _ 0); [reflexivity|exact Hpg'|reflexivity|reflexivity|norm; apply L; lia|reflexivity]. } norm.
    eapply rtc_l. { eapply (F 10%nat _ _ _ 0); [reflexivity|exact Hpg'|reflexivity|reflexivity|norm; apply L; lia|]. norm. apply load_null; [tauto|exact Hpe|by apply ax_with_ax]. } norm.
    eapply rtc_l. { eapply (F 11%nat _ _ _ 0); [reflexivity|exact Hpg'|reflexivity|reflexivity|norm; apply L; lia|]. norm. apply load_null; [tauto|exact Hpe|by apply ax_with_ax]. } norm.
    rewrite Z.sub_0_r. apply rtc_refl.
  - by intros [].
Qed.
End protect.

Section files.
Context (code : Z -> option (pinstr * Z)) (pos : nat -> Z) (prog : list pinstr) (base : Z).
Hypothesis (Hcode : placed code pos prog) (Hlow : forall j, (j < length prog)%nat -> 0 <= pos j < 0x100000).
Context (m : Z -> Z).

(** Instruction [i] in real mode. *)
Lemma step_low i ins b b' : prog !! i = Some ins -> bit (pc_cr0 (bd_cpu b)) CR0_PG = false -> sc_base (pc_seg (bd_cpu b) CS) = base -> pc_eip (bd_cpu b) = pos i - base -> pos i - base <= sc_limit (pc_seg (bd_cpu b) CS) ->
  exec ins (set_cpu (set_eip (pos (S i) - base)) b) = Some b' -> step code b = Some b'.
Proof using Hcode Hlow. intros Hi H1 H2 H3 H4 <-. apply (step_real code pos prog i ins b base Hcode); try done. apply Hlow. by apply lookup_lt_Some in Hi. Qed.

(** [cli], and zero in the data segments. *)
Lemma zero_run eax edx esp zf iff seg g cr0 cr3 cr4 a20 cmd busy : take 5 prog = [P_cli; P_xorw_ax; P_movw_sreg DS; P_movw_sreg ES; P_movw_sreg SS] ->
  bit cr0 CR0_PE = false -> bit cr0 CR0_PG = false -> sc_base (seg CS) = base -> (forall j, (j < 5)%nat -> pos j - base <= sc_limit (seg CS)) ->
  exists eax' seg', steps code (mkbd (mkpc eax edx esp (pos 0%nat - base) zf iff seg g cr0 cr3 cr4) m a20 cmd busy) (mkbd (mkpc eax' edx esp (pos 5%nat - base) zf false seg' g cr0 cr3 cr4) m a20 cmd busy) /\
    seg' CS = seg CS /\ sc_base (seg' DS) = 0 /\ sc_limit (seg' DS) = sc_limit (seg DS).
Proof using Hcode Hlow.
  intros Ht Hpe Hpg Hcs Hlim. assert (P : forall j ins, [P_cli; P_xorw_ax; P_movw_sreg DS; P_movw_sreg ES; P_movw_sreg SS] !! j = Some ins -> prog !! j = Some ins) by (intros j ins Hj; rewrite <- Ht in Hj; by apply lookup_take_Some in Hj as [Hj _]).
  assert (R : forall s v b, bit (pc_cr0 (bd_cpu b)) CR0_PE = false -> v = 0 -> load_seg s v b = Some (set_cpu (set_seg s (mksc 0 (sc_limit (pc_seg (bd_cpu b) s)) (sc_32 (pc_seg (bd_cpu b) s)))) b)) by (intros s v b Hb ->; unfold load_seg; by rewrite Hb).
  eexists _, _. split; [|split; [|split; [|]]].
  - eapply rtc_l. { eapply (step_low 0); [by apply (P 0%nat)|exact Hpg|exact Hcs|reflexivity|norm; apply Hlim; lia|reflexivity]. } norm.
    eapply rtc_l. { eapply (step_low 1); [by apply (P 1%nat)|exact Hpg|exact Hcs|reflexivity|norm; apply Hlim; lia|reflexivity]. } norm.
    eapply rtc_l. { eapply (step_low 2); [by apply (P 2%nat)|exact Hpg|exact Hcs|reflexivity|norm; apply Hlim; lia|]. norm. apply R; [exact Hpe|by apply ax_with_ax]. } norm.
    eapply rtc_l. { eapply (step_low 3); [by apply (P 3%nat)|exact Hpg|exact Hcs|reflexivity|norm; apply Hlim; lia|]. norm. apply R; [exact Hpe|by apply ax_with_ax]. } norm.
    eapply rtc_l. { eapply (step_low 4); [by apply (P 4%nat)|exact Hpg|exact Hcs|reflexivity|norm; apply Hlim; lia|]. norm. apply R; [exact Hpe|by apply ax_with_ax]. } norm. apply rtc_refl.
  - reflexivity.
  - reflexivity.
  - reflexivity.
Qed.

(** Waiting for the keyboard controller, and one command. *)
Lemma kbc_run n i port v eax edx esp zf iff seg g cr0 cr3 cr4 a20 cmd r : (forall j ins, [P_inb 0x64; P_testb 2; P_jnz (pos i); P_movb_al v; P_outb port] !! j = Some ins -> prog !! (i + j)%nat = Some ins) -> 0 <= v < 256 ->
  bit cr0 CR0_PG = false -> sc_base (seg CS) = base -> base = 0 -> (forall j, (j < 5)%nat -> pos (i + j)%nat - base <= sc_limit (seg CS)) ->
  exists eax' zf', let c := mkpc eax' edx esp (pos (i + 5)%nat - base) zf' iff seg g cr0 cr3 cr4 in
    steps code (mkbd (mkpc eax edx esp (pos i - base) zf iff seg g cr0 cr3 cr4) m a20 cmd (n :: r)) (outb port v (mkbd c m a20 cmd (0%nat :: r))).
Proof using Hcode Hlow.
  intros P Hv Hpg Hcs Hb0 Hlim. revert eax zf. induction n as [|n IH]; intros eax zf.
  - eexists _, _. cbv zeta.
    eapply rtc_l. { eapply (step_low i); [rewrite <- (Nat.add_0_r i); by apply (P 0%nat)|exact Hpg|exact Hcs|reflexivity|norm; specialize (Hlim 0%nat); rewrite Nat.add_0_r in Hlim; apply Hlim; lia|reflexivity]. } norm.
    eapply rtc_l. { eapply (step_low (S i)); [replace (S i) with (i + 1)%nat by lia; by apply (P 1%nat)|exact Hpg|exact Hcs|reflexivity|norm; replace (S i) with (i + 1)%nat by lia; apply Hlim; lia|reflexivity]. } norm.
    rewrite al_with_al by lia. change (Z.land 0 2 =? 0) with true.
    eapply rtc_l. { eapply (step_low (S (S i))); [replace (S (S i)) with (i + 2)%nat by lia; by apply (P 2%nat)|exact Hpg|exact Hcs|reflexivity|norm; replace (S (S i)) with (i + 2)%nat by lia; apply Hlim; lia|reflexivity]. } norm.
    eapply rtc_l. { eapply (step_low (S (S (S i)))); [replace (S (S (S i))) with (i + 3)%nat by lia; by apply (P 3%nat)|exact Hpg|exact Hcs|reflexivity|norm; replace (S (S (S i))) with (i + 3)%nat by lia; apply Hlim; lia|reflexivity]. } norm.
    eapply rtc_l. { eapply (step_low (S (S (S (S i))))); [replace (S (S (S (S i)))) with (i + 4)%nat by lia; by apply (P 4%nat)|exact Hpg|exact Hcs|reflexivity|norm; replace (S (S (S (S i)))) with (i + 4)%nat by lia; apply Hlim; lia|reflexivity]. } norm.
    rewrite al_with_al by lia. replace (S (S (S (S (S i))))) with (i + 5)%nat by lia. apply rtc_refl.
  - destruct (IH (with_al 2 eax) false) as (eax' & zf' & Hs). exists eax', zf'. cbv zeta in *.
    eapply rtc_l. { eapply (step_low i); [rewrite <- (Nat.add_0_r i); by apply (P 0%nat)|exact Hpg|exact Hcs|reflexivity|norm; specialize (Hlim 0%nat); rewrite Nat.add_0_r in Hlim; apply Hlim; lia|reflexivity]. } norm.
    eapply rtc_l. { eapply (step_low (S i)); [replace (S i) with (i + 1)%nat by lia; by apply (P 1%nat)|exact Hpg|exact Hcs|reflexivity|norm; replace (S i) with (i + 1)%nat by lia; apply Hlim; lia|reflexivity]. } norm.
    rewrite al_with_al by lia. change (Z.land 2 2 =? 0) with false.
    eapply rtc_l. { eapply (step_low (S (S i))); [replace (S (S i)) with (i + 2)%nat by lia; by apply (P 2%nat)|exact Hpg|exact Hcs|reflexivity|norm; replace (S (S i)) with (i + 2)%nat by lia; apply Hlim; lia|reflexivity]. } norm.
    rewrite Hb0, Z.sub_0_r in Hs. rewrite Hb0. exact Hs.
Qed.
End files.

(** The processor of [c] with other values where the files write. *)
Definition entered_c (c : pcpu) (esp eip : Z) (gdt cr0 cr3 cr4 : Z) (c' : pcpu) : Prop :=
  pc_esp c' = esp /\ pc_eip c' = eip /\ pc_if c' = false /\ (forall s, pc_seg c' s = flat s) /\ pc_gdt c' = (23, gdt) /\ pc_cr0 c' = cr0 /\ pc_cr3 c' = cr3 /\ pc_cr4 c' = cr4.

Lemma step_flat code pos prog i ins b b' : placed code pos prog -> prog !! i = Some ins -> bit (pc_cr0 (bd_cpu b)) CR0_PG = false -> (pc_seg (bd_cpu b) CS) = flat CS -> pc_eip (bd_cpu b) = pos i -> 0 <= pos i < 0x100000 ->
  exec ins (set_cpu (set_eip (pos (S i))) b) = Some b' -> step code b = Some b'.
Proof.
  intros Hp Hi Hg Hs He Hl <-. rewrite (step_real code pos prog i ins b 0 Hp Hi Hg); [by rewrite Z.sub_0_r|by rewrite Hs|by rewrite Z.sub_0_r|done|rewrite Hs; cbn; lia].
Qed.

(** Into protected mode.  The boot sector, started by the BIOS in real mode at 0x7c00
    with any state of A20 and a keyboard controller that is busy for any time, calls
    [bootmain] in protected mode: interrupts off, A20 on, code, data and stack segments
    that cover all of memory, and a stack below the boot sector. *)
Theorem bootasm_protected code pos gdt desc bootmain m c a20 cmd n1 n2 rest :
  placed code pos (bootasm pos desc bootmain) -> pos 0%nat = 0x7c00 -> (forall j, (j < 35)%nat -> 0x7c00 <= pos j < 0x7e00) ->
  mem_has m desc (gdtdesc gdt) -> mem_has m gdt boot_gdt -> 0x7c00 <= desc <= 0x7dfa -> 0x7c00 <= gdt <= 0x7de8 ->
  pc_eip c = 0x7c00 -> bit (pc_cr0 c) CR0_PE = false -> bit (pc_cr0 c) CR0_PG = false -> pc_seg c CS = mksc 0 0xffff false -> sc_limit (pc_seg c DS) = 0xffff ->
  exists c', steps code (mkbd c m a20 cmd (n1 :: n2 :: rest)) (mkbd c' (wr32 m 0x7bfc (pos 29%nat)) true false rest) /\ entered_c c 0x7bfc bootmain gdt (Z.lor (pc_cr0 c) CR0_PE) (pc_cr3 c) (pc_cr4 c) c'.
Proof.
  intros Hp H0 Hpos Hd Hg Hdr Hgr He Hpe Hpg Hcs Hds. set (prog := bootasm pos desc bootmain) in *. assert (Hlow : forall j, (j < length prog)%nat -> 0 <= pos j < 0x100000) by (intros j Hj; specialize (Hpos j); cbn in Hj; lia).
  assert (Hlim : forall j, (j < 35)%nat -> pos j - 0 <= 0xffff) by (intros j Hj; specialize (Hpos j); lia). destruct c as [eax edx esp eip zf iff seg g cr0 cr3 cr4]. cbn [pc_eip pc_cr0 pc_seg pc_cr3 pc_cr4] in *. subst eip.
  destruct (zero_run code pos prog 0 Hp Hlow m eax edx esp zf iff seg g cr0 cr3 cr4 a20 cmd (n1 :: n2 :: rest)) as (eax1 & seg1 & S1 & C1 & D1 & L1); [done|done|done|by rewrite Hcs|intros j Hj; rewrite Hcs; cbn [sc_limit]; apply Hlim; lia|]. rewrite H0 in S1. rewrite Hcs in C1.
  destruct (kbc_run code pos prog 0 Hp Hlow m n1 5 0x64 0xd1 eax1 edx esp zf false seg1 g cr0 cr3 cr4 a20 cmd (n2 :: rest)) as (eax2 & zf2 & S2); [intros j ins Hj; do 5 (destruct j as [|j]; [by injection Hj as <-|]); done|done|done|by rewrite C1|done|intros j Hj; rewrite C1; cbn [sc_limit]; apply Hlim; lia|].
  destruct (kbc_run code pos prog 0 Hp Hlow m n2 10 0x60 0xdf eax2 edx esp zf2 false seg1 g cr0 cr3 cr4 a20 true rest) as (eax3 & zf3 & S3); [intros j ins Hj; do 5 (destruct j as [|j]; [by injection Hj as <-|]); done|done|done|by rewrite C1|done|intros j Hj; rewrite C1; cbn [sc_limit]; apply Hlim; lia|].
  destruct (protect_run code pos prog 15 desc gdt 0 Hp) with (m := m) (a20 := true) (cmd := false) (busy := rest) (eax := eax3) (edx := edx) (esp := esp) (zf := zf3) (iff := false) (seg := seg1) (g := g) (cr0 := cr0) (cr3 := cr3) (cr4 := cr4) as (eax4 & seg4 & S4 & F4);
    [intros j ins Hj; do 12 (destruct j as [|j]; [by injection Hj as <-|]); done|done|done|done|lia|lia|cbn; lia|done|by rewrite C1|by rewrite C1|done|rewrite L1, Hds; lia|intros j Hj; apply Hlim; lia|].
  assert (Hpg' : bit (Z.lor cr0 CR0_PE) CR0_PG = false) by (by rewrite bit_lor_other).
  eexists. split.
  - etransitivity; [exact S1|]. etransitivity; [exact S2|]. etransitivity; [exact S3|]. etransitivity; [exact S4|].
    eapply rtc_l. { eapply (step_flat code pos prog 27); [exact Hp|reflexivity|exact Hpg'|apply F4|reflexivity|specialize (Hpos 27%nat); lia|reflexivity]. } norm. rewrite H0.
    eapply rtc_l. { eapply (step_flat code pos prog 28); [exact Hp|reflexivity|exact Hpg'|apply F4|reflexivity|specialize (Hpos 28%nat); lia|]. unfold exec, push, address. norm. rewrite (F4 SS). cbn [flat sc_limit sc_base]. change (u32 (31744 - 4) + 4 - 1 <=? 4294967295) with true. cbv iota. unfold translate. norm. rewrite Hpg'. cbn [negb mbind option_bind]. reflexivity. }
    norm. apply rtc_refl.
  - split; [done|]. split; [done|]. split; [done|]. split; [exact F4|]. done.
Qed.

(** ** Paging *)

Definition mem_words (m : Z -> Z) (a : Z) (ws : list Z) : Prop := forall i w, ws !! i = Some w -> rd32 m (a + 4 * Z.of_nat i) = w.

(** What [entrypgdir] maps. *)
Definition window (lin : Z) : option Z := if lin <? 4194304 then Some lin else if (KERNBASE <=? lin) && (lin <? KERNBASE + 4194304) then Some (lin - KERNBASE) else None.

Lemma entrypgdir_entry i : (i < 1024)%nat -> entrypgdir !! i = Some (if (i =? 0)%nat || (i =? 512)%nat then 0x83 else 0).
Proof.
  intros Hi. unfold entrypgdir. change (Z.to_nat (Z.shiftr KERNBASE PDXSHIFT)) with 512%nat. change (Z.to_nat NPDENTRIES) with 1024%nat. change (Z.lor (Z.lor (Z.lor 0 PTE_P) PTE_W) PTE_PS) with 0x83.
  destruct (Nat.eqb_spec i 512) as [->|H1]; [rewrite orb_true_r; apply list_lookup_insert_eq; rewrite length_insert, length_replicate; lia|]. rewrite list_lookup_insert_ne by done.
  destruct (Nat.eqb_spec i 0) as [->|H2]; [apply list_lookup_insert_eq; rewrite length_replicate; lia|]. rewrite list_lookup_insert_ne by done. by apply lookup_replicate_2.
Qed.

Lemma entry_translate b a lin : bd_a20 b = true -> bit (pc_cr0 (bd_cpu b)) CR0_PG = true -> bit (pc_cr4 (bd_cpu b)) CR4_PSE = true -> PTE_ADDR (pc_cr3 (bd_cpu b)) = a -> mem_words (bd_mem b) a entrypgdir -> 0 <= lin < two32 ->
  translate b lin = window lin.
Proof.
  intros Ha Hpg Hpse Hcr Hm Hl. unfold translate. rewrite Hpg, Hpse, Hcr. cbn [negb]. rewrite PDX_eq by done. assert (Hd : 0 <= lin / 4194304 < 1024) by (unfold two32 in Hl; split; [apply Z.div_pos; lia|apply Z.div_lt_upper_bound; lia]).
  assert (E : rd32 (peek b) (a + 4 * (lin / 4194304)) = if (Z.to_nat (lin / 4194304) =? 0)%nat || (Z.to_nat (lin / 4194304) =? 512)%nat then 0x83 else 0).
  { replace (a + 4 * (lin / 4194304)) with (a + 4 * Z.of_nat (Z.to_nat (lin / 4194304))) by lia. assert (Ep : forall x, rd32 (peek b) x = rd32 (bd_mem b) x) by (intros x; unfold rd32, peek; rewrite Ha; done). rewrite Ep. apply Hm, entrypgdir_entry. lia. }
  rewrite E. unfold window, KERNBASE. pose proof (Z.div_mod lin 4194304). pose proof (Z.mod_pos_bound lin 4194304).
  destruct (Nat.eqb_spec (Z.to_nat (lin / 4194304)) 0) as [E0|E0]; [cbn [orb]|destruct (Nat.eqb_spec (Z.to_nat (lin / 4194304)) 512) as [E1|E1]; cbn [orb]].
  - change (bit 131 PTE_P) with true. change (bit 131 PTE_PS) with true. cbn [negb andb]. change (131 / 4194304 * 4194304) with 0. destruct (Z.ltb_spec lin 4194304); [|lia]. f_equal. lia.
  - change (bit 131 PTE_P) with true. change (bit 131 PTE_PS) with true. cbn [negb andb]. change (131 / 4194304 * 4194304) with 0. destruct (Z.ltb_spec lin 4194304); [lia|]. destruct (Z.leb_spec 2147483648 lin); [|lia]. destruct (Z.ltb_spec lin (2147483648 + 4194304)); [|lia]. cbn [andb]. f_equal. lia.
  - change (bit 0 PTE_P) with false. cbn [negb]. destruct (Z.ltb_spec lin 4194304); [lia|]. destruct (Z.leb_spec 2147483648 lin); [|done]. destruct (Z.ltb_spec lin (2147483648 + 4194304)); [lia|done].
Qed.

(** Paging is on with [entrypgdir], at physical address [a], as the page directory. *)
Record paged (a : Z) (b : board) : Prop := {
  pg_a20 : bd_a20 b = true; pg_on : bit (pc_cr0 (bd_cpu b)) CR0_PG = true; pg_pse : bit (pc_cr4 (bd_cpu b)) CR4_PSE = true; pg_cr3 : PTE_ADDR (pc_cr3 (bd_cpu b)) = a; pg_mem : mem_words (bd_mem b) a entrypgdir }.

Lemma step_paged code pos prog i ins b b' a : placed code pos prog -> prog !! i = Some ins -> paged a b -> pc_seg (bd_cpu b) CS = flat CS -> pc_eip (bd_cpu b) = pos i -> 0 <= pos i < 4194304 ->
  exec ins (set_cpu (set_eip (pos (S i))) b) = Some b' -> step code b = Some b'.
Proof.
  intros Hp Hi [G1 G2 G3 G4 G5] Hs He Hl <-. unfold step, address. rewrite Hs, He. cbn [flat sc_limit sc_base]. destruct (Z.leb_spec (pos i + 1 - 1) 4294967295); [|lia]. rewrite Z.add_0_l, u32_id by (unfold two32; lia). rewrite (entry_translate b a) by (done || unfold two32; lia).
  unfold window. destruct (Z.ltb_spec (pos i) 4194304); [|lia]. cbn [mbind option_bind]. rewrite G1. cbn [wire]. rewrite (Hp i ins Hi). cbn [mbind option_bind]. by replace (pos i + (pos (S i) - pos i)) with (pos (S i)) by lia.
Qed.

Lemma step_flat_any code pos prog i ins b b' : placed code pos prog -> prog !! i = Some ins -> bd_a20 b = true -> bit (pc_cr0 (bd_cpu b)) CR0_PG = false -> pc_seg (bd_cpu b) CS = flat CS -> pc_eip (bd_cpu b) = pos i -> 0 <= pos i < 4194304 ->
  exec ins (set_cpu (set_eip (pos (S i))) b) = Some b' -> step code b = Some b'.
Proof.
  intros Hp Hi Ha Hg Hs He Hl <-. unfold step, address. rewrite Hs, He. cbn [flat sc_limit sc_base]. destruct (Z.leb_spec (pos i + 1 - 1) 4294967295); [|lia]. unfold translate. rewrite Hg. cbn [negb]. rewrite Z.add_0_l, u32_id by (unfold two32; lia).
  cbn [mbind option_bind]. rewrite Ha. cbn [wire]. rewrite (Hp i ins Hi). cbn [mbind option_bind]. by replace (pos i + (pos (S i) - pos i)) with (pos (S i)) by lia.
Qed.

Lemma pgdir_addr pgd : KERNBASE <= pgd < KERNBASE + 4194304 -> pgd mod 4096 = 0 -> PTE_ADDR (V2P pgd) = V2P pgd /\ V2P pgd = pgd - KERNBASE.
Proof.
  intros Hr Ha. unfold KERNBASE in *. assert (E : V2P pgd = pgd - 2147483648) by (unfold V2P, KERNBASE; rewrite (u32_id pgd), u32_id by (unfold two32; lia); done). split; [|done]. rewrite E, PTE_ADDR_eq by (unfold two32; lia).
  apply Z.div_exact in Ha; [|done]. replace (pgd - 2147483648) with ((pgd / 4096 - 524288) * 4096) by lia. by rewrite Z.div_mul.
Qed.

Lemma fetch_high b p a : paged p b -> pc_seg (bd_cpu b) CS = flat CS -> KERNBASE <= a < KERNBASE + 4194304 -> address b CS a 1 = Some (a - KERNBASE).
Proof.
  intros [G1 G2 G3 G4 G5] Hcs Hmain. unfold address. rewrite Hcs. cbn [flat sc_limit sc_base]. unfold KERNBASE in *. destruct (Z.leb_spec (a + 1 - 1) 4294967295); [|lia]. rewrite Z.add_0_l, u32_id by (unfold two32; lia). rewrite (entry_translate _ p) by (done || unfold two32; lia).
  unfold window, KERNBASE. destruct (Z.ltb_spec a 4194304); [lia|]. destruct (Z.leb_spec 2147483648 a); [|lia]. destruct (Z.ltb_spec a (2147483648 + 4194304)); [done|lia].
Qed.

(** One instruction, before and after paging is on. *)
Ltac unpaged i := eapply rtc_l; [match goal with Hp : placed _ _ _, Hcs : _ CS = flat CS, Hpos : (forall j, (j < _)%nat -> 0 <= _ j < 4194304), Hpg : bit _ CR0_PG = false |- _ => eapply (step_flat_any _ _ _ i); [exact Hp|reflexivity|reflexivity|exact Hpg|exact Hcs|reflexivity|apply Hpos; lia|reflexivity] end|]; norm.
Ltac on_pages i := eapply rtc_l; [match goal with Hp : placed _ _ _, Hcs : _ CS = flat CS, Hpos : (forall j, (j < _)%nat -> 0 <= _ j < 4194304), Hpaged : (forall _ _ _, paged _ _) |- _ => eapply (step_paged _ _ _ i); [exact Hp|reflexivity|apply Hpaged|exact Hcs|reflexivity|apply Hpos; lia|reflexivity] end|]; norm.

(** Paging on the boot processor.  [entry], started in protected mode at its physical
    address, turns on paging while it runs at that address, goes on there, and jumps to
    [main] at its high address, on the kernel's stack.  The translation is then that of
    [window]: the first 4 Mbyte of memory, at 0 and at KERNBASE, and nothing else; so
    [main] is fetched from where it was loaded. *)
Theorem entry_paging code pos pgd stack main m c cmd busy :
  placed code pos (entry pgd stack main) -> (forall j, (j < 11)%nat -> 0 <= pos j < 4194304) -> KERNBASE <= pgd < KERNBASE + 4194304 -> pgd mod 4096 = 0 -> mem_words m (V2P pgd) entrypgdir ->
  pc_eip c = pos 0%nat -> bit (pc_cr0 c) CR0_PG = false -> pc_seg c CS = flat CS ->
  exists c', let b' := mkbd c' m true cmd busy in steps code (mkbd c m true cmd busy) b' /\
    pc_eip c' = main /\ pc_esp c' = stack + KSTACKSIZE /\ pc_cr3 c' = V2P pgd /\ bit (pc_cr0 c') CR0_WP = true /\ pc_seg c' = pc_seg c /\ (forall lin, 0 <= lin < two32 -> translate b' lin = window lin) /\
    (KERNBASE <= main < KERNBASE + 4194304 -> address b' CS main 1 = Some (main - KERNBASE)).
Proof.
  intros Hp Hpos Hpgd Hal Hm He Hpg Hcs. set (prog := entry pgd stack main) in *. destruct (pgdir_addr pgd Hpgd Hal) as [Ea Ev]. destruct c as [eax edx esp eip zf iff seg g cr0 cr3 cr4]. cbn [pc_eip pc_cr0 pc_seg] in *. subst eip.
  assert (Hpse : bit (Z.lor cr4 CR4_PSE) CR4_PSE = true) by (by apply bit_lor). assert (Hon : bit (Z.lor cr0 (Z.lor CR0_PG CR0_WP)) CR0_PG = true) by (rewrite (Z.lor_comm CR0_PG), Z.lor_assoc; by apply bit_lor). assert (Hwp : bit (Z.lor cr0 (Z.lor CR0_PG CR0_WP)) CR0_WP = true) by (rewrite Z.lor_assoc; by apply bit_lor).
  assert (Hpaged : forall eax esp eip, paged (V2P pgd) (mkbd (mkpc eax edx esp eip zf iff seg g (Z.lor cr0 (Z.lor CR0_PG CR0_WP)) (V2P pgd) (Z.lor cr4 CR4_PSE)) m true cmd busy)) by (intros; by split).
  eexists. cbv zeta. split; [|split; [|split; [|split; [|split; [|split; [|split]]]]]].
  - unpaged 0%nat. unpaged 1%nat. unpaged 2%nat. unpaged 3%nat. unpaged 4%nat. unpaged 5%nat. unpaged 6%nat. unpaged 7%nat. on_pages 8%nat. on_pages 9%nat. on_pages 10%nat. apply rtc_refl.
  - reflexivity.
  - reflexivity.
  - reflexivity.
  - exact Hwp.
  - reflexivity.
  - intros lin Hl. by apply (entry_translate _ (V2P pgd)).
  - intros Hmain. by apply (fetch_high _ (V2P pgd)); [apply Hpaged| |].
Qed.

(** Loads and the push, with flat segments. *)
Lemma load_flat b a : bd_a20 b = true -> bit (pc_cr0 (bd_cpu b)) CR0_PG = false -> pc_seg (bd_cpu b) DS = flat DS -> 0 <= a < 4194300 -> load b a = Some (rd32 (bd_mem b) a).
Proof.
  intros Ha Hg Hs Hr. unfold load, address. rewrite Hs. cbn [flat sc_limit sc_base]. destruct (Z.leb_spec (a + 4 - 1) 4294967295); [|lia]. unfold translate. rewrite Hg. cbn [negb mbind option_bind]. rewrite Z.add_0_l, u32_id by (unfold two32; lia). unfold rd32, peek. by rewrite Ha.
Qed.

Lemma load_paged b p a : paged p b -> pc_seg (bd_cpu b) DS = flat DS -> 0 <= a < 4194300 -> load b a = Some (rd32 (bd_mem b) a).
Proof.
  intros [G1 G2 G3 G4 G5] Hs Hr. unfold load, address. rewrite Hs. cbn [flat sc_limit sc_base]. destruct (Z.leb_spec (a + 4 - 1) 4294967295); [|lia]. rewrite Z.add_0_l, u32_id by (unfold two32; lia). rewrite (entry_translate b p) by (done || unfold two32; lia).
  unfold window. destruct (Z.ltb_spec a 4194304); [|lia]. cbn [mbind option_bind]. unfold rd32, peek. by rewrite G1.
Qed.

Lemma push_paged b p v sp : paged p b -> pc_seg (bd_cpu b) SS = flat SS -> pc_esp (bd_cpu b) = sp -> KERNBASE + 4 <= sp <= KERNBASE + 4194304 ->
  push v b = Some (mkbd (set_esp (sp - 4) (bd_cpu b)) (wr32 (bd_mem b) (sp - 4 - KERNBASE) v) (bd_a20 b) (bd_cmd b) (bd_busy b)).
Proof.
  intros [G1 G2 G3 G4 G5] Hs He Hr. unfold KERNBASE in Hr. unfold push, address. rewrite Hs, He. cbn [flat sc_limit sc_base]. rewrite (u32_id (sp - 4)) by (unfold two32; lia). destruct (Z.leb_spec (sp - 4 + 4 - 1) 4294967295); [|lia].
  rewrite Z.add_0_l, u32_id by (unfold two32; lia). rewrite (entry_translate b p) by (done || unfold two32; lia). unfold window, KERNBASE. destruct (Z.ltb_spec (sp - 4) 4194304); [lia|]. destruct (Z.leb_spec 2147483648 (sp - 4)); [|lia]. destruct (Z.ltb_spec (sp - 4) (2147483648 + 4194304)); [|lia].
  cbn [andb mbind option_bind]. by rewrite G1.
Qed.

Lemma mem_words_wr m a ws x v : mem_words m a ws -> x + 4 <= a \/ a + 4 * Z.of_nat (length ws) <= x -> mem_words (wr32 m x v) a ws.
Proof.
  intros Hm Hx i w Hi. rewrite <- (Hm i w Hi). pose proof (lookup_lt_Some _ _ _ Hi). assert (E : forall j, 0 <= j < 4 -> wr32 m x v (a + 4 * Z.of_nat i + j) = m (a + 4 * Z.of_nat i + j)).
  { intros j Hj. unfold wr32. repeat (case_match; [rewrite Z.eqb_eq in *; lia|]). done. }
  unfold rd32. rewrite <- (Z.add_0_r (a + 4 * Z.of_nat i)) at 1. rewrite !E by lia. by rewrite Z.add_0_r.
Qed.

Lemma length_entrypgdir : length entrypgdir = 1024%nat.
Proof. unfold entrypgdir. by rewrite !length_insert, length_replicate. Qed.

Section entryother.
Context (code : Z -> option (pinstr * Z)) (pos : nat -> Z) (desc gdt pgd sp mpenter : Z) (m : Z -> Z) (cmd : bool) (busy : list nat).
Hypothesis (Hp : placed code pos (entryother pos desc)) (H0 : pos 0%nat = 0x7000) (Hrange : forall j, (j < 33)%nat -> 0x7000 <= pos j < 0x8000).
Hypothesis (Hd : mem_has m desc (gdtdesc gdt)) (Hg : mem_has m gdt boot_gdt) (Hdr : 0x7000 <= desc <= 0x7ffa) (Hgr : 0x7000 <= gdt <= 0x7fe8).
Hypothesis (Hpgd : KERNBASE <= pgd < KERNBASE + 4194304) (Hal : pgd mod 4096 = 0) (Hm : mem_words m (V2P pgd) entrypgdir).
Hypothesis (Hsp : KERNBASE + 4 <= sp <= KERNBASE + 4194304) (Hdis : sp <= pgd \/ pgd + 4096 <= sp - 4).
Hypothesis (W1 : rd32 m (0x7000 - 4) = sp) (W2 : rd32 m (0x7000 - 8) = mpenter) (W3 : rd32 m (0x7000 - 12) = V2P pgd).

(** From the load of GS on. *)
Lemma entryother_pages eax edx esp zf seg g cr0 cr3 cr4 : bit cr0 CR0_PG = false -> (forall s, seg s = flat s) ->
  exists eax', steps code (mkbd (mkpc eax edx esp (pos 17%nat) zf false seg g cr0 cr3 cr4) m true cmd busy)
    (mkbd (mkpc eax' edx (sp - 4) mpenter zf false seg g (Z.lor cr0 (Z.lor CR0_PE (Z.lor CR0_PG CR0_WP))) (V2P pgd) (Z.lor cr4 CR4_PSE)) (wr32 m (sp - 4 - KERNBASE) (pos 27%nat)) true cmd busy).
Proof using All.
  intros Hpg Hseg. set (cr0' := Z.lor cr0 (Z.lor CR0_PE (Z.lor CR0_PG CR0_WP))). pose proof (Hseg CS) as Hcs. assert (Hpos : forall j, (j < 33)%nat -> 0 <= pos j < 4194304) by (intros j Hj; specialize (Hrange j Hj); lia).
  assert (Hpse : bit (Z.lor cr4 CR4_PSE) CR4_PSE = true) by (by apply bit_lor). assert (Hon : bit cr0' CR0_PG = true) by (unfold cr0'; rewrite (Z.lor_comm CR0_PG), !Z.lor_assoc; by apply bit_lor). destruct (pgdir_addr pgd Hpgd Hal) as [Ea Ev].
  assert (Hpaged : forall eax esp eip, paged (V2P pgd) (mkbd (mkpc eax edx esp eip zf false seg g cr0' (V2P pgd) (Z.lor cr4 CR4_PSE)) m true cmd busy)) by (intros; by split).
  eexists. unpaged 17%nat. unpaged 18%nat. unpaged 19%nat.
  eapply rtc_l. { eapply (step_flat_any _ _ _ 20); [exact Hp|reflexivity|reflexivity|exact Hpg|exact Hcs|reflexivity|apply Hpos; lia|]. cbn [exec]. rewrite load_flat; [|done|exact Hpg|apply (Hseg DS)|lia]. norm. rewrite H0, W3. reflexivity. } norm.
  unpaged 21%nat. unpaged 22%nat. unpaged 23%nat. unpaged 24%nat. fold cr0'.
  eapply rtc_l. { eapply (step_paged _ _ _ 25); [exact Hp|reflexivity|apply Hpaged|exact Hcs|reflexivity|apply Hpos; lia|]. cbn [exec]. rewrite (load_paged _ (V2P pgd)); [|apply Hpaged|apply (Hseg DS)|lia]. norm. rewrite H0, W1. reflexivity. } norm.
  eapply rtc_l. { eapply (step_paged _ _ _ 26); [exact Hp|reflexivity|apply Hpaged|exact Hcs|reflexivity|apply Hpos; lia|]. cbn [exec]. rewrite (load_paged _ (V2P pgd)); [|apply Hpaged|apply (Hseg DS)|lia]. norm. rewrite H0, W2. rewrite (push_paged _ (V2P pgd) _ sp); [|apply Hpaged|apply (Hseg SS)|done|done]. norm. reflexivity. } norm.
  apply rtc_refl.
Qed.

(** C16. Another processor enters the kernel.  A processor that the start-up interrupt has
    put at the copy of entryother.S at 0x7000, in real mode, calls the [mpenter] that
    [startothers] left there, with interrupts off, flat segments, and paging on with
    [entrypgdir], the page directory that was left there too; its return address is on
    the stack that was left there, and the next instruction comes from the place where
    the kernel has [mpenter] in memory.  The stack has to be in the first 4 Mbyte, the
    only ones [entrypgdir] maps: so [startothers] has to run before [kinit2] frees the
    rest of the memory. *)
Theorem entryother_starts c :
  pc_eip c = 0 -> bit (pc_cr0 c) CR0_PE = false -> bit (pc_cr0 c) CR0_PG = false -> pc_seg c CS = mksc 0x7000 0xffff false -> sc_limit (pc_seg c DS) = 0xffff -> KERNBASE <= mpenter < KERNBASE + 4194304 ->
  exists c', let b' := mkbd c' (wr32 m (sp - 4 - KERNBASE) (pos 27%nat)) true cmd busy in
    steps code (mkbd c m true cmd busy) b' /\
    entered_c c (sp - 4) mpenter gdt (Z.lor (Z.lor (pc_cr0 c) CR0_PE) (Z.lor CR0_PE (Z.lor CR0_PG CR0_WP))) (V2P pgd) (Z.lor (pc_cr4 c) CR4_PSE) c' /\
    (forall lin, 0 <= lin < two32 -> translate b' lin = window lin) /\ address b' CS mpenter 1 = Some (mpenter - KERNBASE).
Proof using All.
  intros He Hpe Hpg Hcs Hds Hmp. set (prog := entryother pos desc) in *. assert (Hlow : forall j, (j < length prog)%nat -> 0 <= pos j < 0x100000) by (intros j Hj; specialize (Hrange j); cbn in Hj; lia).
  assert (Hlim : forall j, (j < 33)%nat -> pos j - 0x7000 <= 0xffff) by (intros j Hj; specialize (Hrange j); lia). destruct c as [eax edx esp eip zf iff seg g cr0 cr3 cr4]. cbn [pc_eip pc_cr0 pc_seg pc_cr3 pc_cr4] in *. subst eip.
  destruct (zero_run code pos prog 0x7000 Hp Hlow m eax edx esp zf iff seg g cr0 cr3 cr4 true cmd busy) as (eax1 & seg1 & S1 & C1 & D1 & L1); [done|done|done|by rewrite Hcs|intros j Hj; rewrite Hcs; cbn [sc_limit]; apply Hlim; lia|]. rewrite H0 in S1. rewrite Hcs in C1.
  destruct (protect_run code pos prog 5 desc gdt 0x7000 Hp) with (m := m) (a20 := true) (cmd := cmd) (busy := busy) (eax := eax1) (edx := edx) (esp := esp) (zf := zf) (iff := false) (seg := seg1) (g := g) (cr0 := cr0) (cr3 := cr3) (cr4 := cr4) as (eax2 & seg2 & S2 & F2);
    [intros j ins Hj; do 12 (destruct j as [|j]; [by injection Hj as <-|]); done|done|done|done|lia|lia|cbn; lia|done|by rewrite C1|by rewrite C1|done|rewrite L1, Hds; lia|intros j Hj; apply Hlim; lia|].
  destruct (entryother_pages eax2 edx esp zf seg2 (23, gdt) (Z.lor cr0 CR0_PE) cr3 cr4) as (eax3 & S3); [by rewrite bit_lor_other|done|]. destruct (pgdir_addr pgd Hpgd Hal) as [Ea Ev].
  eexists. cbv zeta. assert (Hpaged : forall eax, paged (V2P pgd) (mkbd (mkpc eax edx (sp - 4) mpenter zf false seg2 (23, gdt) (Z.lor (Z.lor cr0 CR0_PE) (Z.lor CR0_PE (Z.lor CR0_PG CR0_WP))) (V2P pgd) (Z.lor cr4 CR4_PSE)) (wr32 m (sp - 4 - KERNBASE) (pos 27%nat)) true cmd busy)).
  { intros eax'. split; [done|cbn [bd_cpu pc_cr0]; rewrite (Z.lor_comm CR0_PG), !Z.lor_assoc; by apply bit_lor|by apply bit_lor|done|]. apply mem_words_wr; [done|]. rewrite Ev, length_entrypgdir. lia. }
  split; [|split; [|split]].
  - etransitivity; [exact S1|]. etransitivity; [exact S2|]. exact S3.
  - repeat split; done.
  - intros lin Hl. destruct (Hpaged eax3). by apply (entry_translate _ (V2P pgd)).
  - by apply (fetch_high _ (V2P pgd)); [apply Hpaged|apply F2|].
Qed.
End entryother.

Lemma index_check {A} (P : nat -> A -> bool) (l : list A) : forallb id (imap P l) = true -> forall i x, l !! i = Some x -> P i x = true.
Proof. rewrite forallb_forall. intros Hl i x Hi. apply Hl, list_elem_of_In, list_elem_of_lookup. exists i. by rewrite list_lookup_imap, Hi. Qed.

(** A machine with the copy of entryother.S, four bytes to an instruction, and a kernel. *)
Definition wit_pos (i : nat) : Z := 0x7000 + 4 * Z.of_nat i.
Definition wit_code (a : Z) : option (pinstr * Z) := if (a - 0x7000) mod 4 =? 0 then ins ← entryother wit_pos 0x7118 !! Z.to_nat ((a - 0x7000) / 4); Some (ins, 4) else None.
Definition wit_pde (x : Z) : Z := if (x =? 0x109000) || (x =? 0x109800) then 0x83 else 0.
Definition wit_mem : Z -> Z :=
  wr32 (wr32 (wr32 (fun x => if (0x7100 <=? x) && (x <? 0x711e) then nth (Z.to_nat (x - 0x7100)) (boot_gdt ++ gdtdesc 0x7100) 0 else wit_pde x) 0x6ffc 0x80200000) 0x6ff8 0x80103000) 0x6ff4 0x109000.
Definition wit_cpu : pcpu := mkpc 0 0 0 0 false false (fun s => match s with CS => mksc 0x7000 0xffff false | _ => mksc 0 0xffff false end) (0, 0) 0x60000010 0 0.

Lemma entryother_starts_witness : exists c', let b' := mkbd c' (wr32 wit_mem 0x1ffffc 0x706c) true false [] in
  steps wit_code (mkbd wit_cpu wit_mem true false []) b' /\ pc_eip c' = 0x80103000 /\ pc_esp c' = 0x801ffffc /\ address b' CS 0x80103000 1 = Some 0x103000.
Proof.
  destruct (entryother_starts wit_code wit_pos 0x7118 0x7100 0x80109000 0x80200000 0x80103000 wit_mem false []) with (c := wit_cpu) as (c' & S & (E1 & E2 & _) & _ & F).
  - intros i ins Hi. unfold wit_code, wit_pos. replace (28672 + 4 * Z.of_nat i - 28672) with (Z.of_nat i * 4) by lia. rewrite Z.mod_mul, Z.div_mul, Nat2Z.id by done. unfold wit_pos in Hi. cbn [Z.eqb]. rewrite Hi. cbn [mbind option_bind]. do 2 f_equal. lia.
  - reflexivity.
  - intros j Hj. unfold wit_pos. lia.
  - intros i x Hi. apply Z.eqb_eq. apply (index_check (fun i x => wit_mem (0x7118 + Z.of_nat i) =? x) (gdtdesc 0x7100)); [by vm_compute|done].
  - intros i x Hi. apply Z.eqb_eq. apply (index_check (fun i x => wit_mem (0x7100 + Z.of_nat i) =? x) boot_gdt); [by vm_compute|done].
  - lia.
  - lia.
  - unfold KERNBASE. lia.
  - reflexivity.
  - intros i x Hi. apply Z.eqb_eq. apply (index_check (fun i x => rd32 wit_mem (V2P 0x80109000 + 4 * Z.of_nat i) =? x) entrypgdir); [by vm_compute|done].
  - unfold KERNBASE. lia.
  - lia.
  - reflexivity.
  - reflexivity.
  - reflexivity.
  - reflexivity.
  - reflexivity.
  - reflexivity.
  - reflexivity.
  - reflexivity.
  - unfold KERNBASE. lia.
  - exists c'. cbv zeta. split; [exact S|]. split; [exact E2|]. split; [exact E1|exact F].
Defined.
