(* ===== verification/Mp.v ===== *)
(** * The multiprocessor tables (mp.c)

    [mpinit] looks for the configuration table that the firmware leaves in memory,
    and takes the processors, the I/O APIC and the address of the local APIC from
    it.  Memory is a function from kernel addresses to bytes, as in Bootmain.v. *)

From Stdlib Require Import ZArith Lia.
From stdpp Require Import base numbers strings gmap list.
From S2P Require Import Prelude.
From S2P Require Import Machine.
From S2P Require Import Blocks.
From S2P Require Import Bootmain.

Local Open Scope string_scope.
Local Open Scope list_scope.
Local Open Scope Z_scope.

Definition MPPROC : Z := 0.
Definition MPBUS : Z := 1.
Definition MPIOAPIC : Z := 2.
Definition MPIOINTR : Z := 3.
Definition MPLINTR : Z := 4.

Definition sum (m : Z -> Z) (addr len : Z) : Z := u8 (foldl Z.add 0 (load m addr len)).

(** The test of [mpsearch1]. *)
Definition is_mp (m : Z -> Z) (p : Z) : bool := bool_decide (load m p 4 = [95; 77; 80; 95]) && (sum m p 16 =? 0).

Fixpoint mpsearch1_loop (fuel : nat) (m : Z -> Z) (p e : Z) : Z :=
  match fuel with
  | O => 0
  | S fuel => if p <? e then (if is_mp m p then p else mpsearch1_loop fuel m (p + 16) e) else 0
  end.
Definition mpsearch1 (m : Z -> Z) (a len : Z) : Z :=
  let addr := P2V a in mpsearch1_loop (Z.to_nat (len / 16 + 1)) m addr (addr + len).

Definition mpsearch (m : Z -> Z) : Z :=
  let bda := P2V 0x400 in
  let p := Z.shiftl (Z.lor (Z.shiftl (m (bda + 15)) 8) (m (bda + 14))) 4 in
  let mp := if negb (p =? 0) then mpsearch1 m p 1024
            else let p := Z.lor (Z.shiftl (m (bda + 20)) 8) (m (bda + 19)) * 1024 in mpsearch1 m (u32 (p - 1024)) 1024 in
  if negb (mp =? 0) then mp else mpsearch1 m 0xF0000 0x10000.

(** The floating pointer and the table, or [None]. *)
Definition mpconfig (m : Z -> Z) : option (Z * Z) :=
  let mp := mpsearch m in
  if (mp =? 0) || (ld32 m (mp + 4) =? 0) then None
  else
    let conf := P2V (ld32 m (mp + 4)) in
    if negb (bool_decide (load m conf 4 = [80; 67; 77; 80])) then None
    else if negb (m (conf + 6) =? 1) && negb (m (conf + 6) =? 4) then None
    else if negb (sum m conf (ld16 m (conf + 4)) =? 0) then None
    else Some (mp, conf).

(** What [mpinit] sets: the [apicid] of the first [ncpu] entries of [cpus],
    [ioapicid] and [lapic]; [mp_io] has the writes to ports, [mp_imcr] is what port
    0x23 reads. *)
Record mpst := mkmpst { mp_cpus : list Z; mp_ioapicid : Z; mp_lapic : Z; mp_io : list (Z * Z); mp_imcr : Z }.

Definition add_cpu (apicid : Z) (s : mpst) : mpst :=
  if Z.of_nat (length (mp_cpus s)) <? NCPU then mkmpst (mp_cpus s ++ [apicid]) (mp_ioapicid s) (mp_lapic s) (mp_io s) (mp_imcr s) else s.
Definition set_ioapicid (i : Z) (s : mpst) : mpst := mkmpst (mp_cpus s) i (mp_lapic s) (mp_io s) (mp_imcr s).
Definition set_lapic (l : Z) (s : mpst) : mpst := mkmpst (mp_cpus s) (mp_ioapicid s) l (mp_io s) (mp_imcr s).
Definition mp_outb (p v : Z) : M mpst unit := modify (fun s => mkmpst (mp_cpus s) (mp_ioapicid s) (mp_lapic s) (mp_io s ++ [(p, u8 v)]) (mp_imcr s)).

(** The loop over the entries.  The [break] of the default case leaves the
    [switch] and not the loop. *)
Fixpoint mpinit_loop (fuel : nat) (m : Z -> Z) (p e : Z) (ismp : bool) : M mpst bool :=
  match fuel with
  | O => stall OnLock
  | S fuel =>
      if p <? e then
        if m p =? MPPROC then modify (add_cpu (m (p + 1)));; mpinit_loop fuel m (p + 20) e ismp
        else if m p =? MPIOAPIC then modify (set_ioapicid (m (p + 1)));; mpinit_loop fuel m (p + 8) e ismp
        else if (m p =? MPBUS) || (m p =? MPIOINTR) || (m p =? MPLINTR) then mpinit_loop fuel m (p + 8) e ismp
        else mpinit_loop fuel m p e false
      else mret ismp
  end.

Definition mpinit (fuel : nat) (m : Z -> Z) : M mpst unit :=
  match mpconfig m with
  | None => panic "Expect to run on an SMP"
  | Some (mp, conf) =>
      modify (set_lapic (ld32 m (conf + 36)));;
      ismp ← mpinit_loop fuel m (conf + 44) (conf + ld16 m (conf + 4)) true;
      unless_panic (negb ismp) "Didn't find a suitable machine";;
      if negb (m (mp + 12) =? 0) then
        mp_outb 0x22 0x70;; v ← gets mp_imcr; mp_outb 0x23 (Z.lor v 1)
      else mret tt
  end.

(** ** The search, as a list of places *)

Definition area (a len : Z) : list Z := (fun i => P2V a + 16 * i) <$> seqZ 0 (len / 16).

(** The BIOS data area: where the extended one is, and the end of base memory. *)
Definition ebda (m : Z -> Z) : Z := 16 * (256 * m (P2V 0x400 + 15) + m (P2V 0x400 + 14)).
Definition base (m : Z -> Z) : Z := 1024 * (256 * m (P2V 0x400 + 20) + m (P2V 0x400 + 19)).

Definition places (m : Z -> Z) : list Z :=
  (if ebda m =? 0 then area (u32 (base m - 1024)) 1024 else area (ebda m) 1024) ++ area 0xF0000 0x10000.

(** The first floating pointer, if it has a good table. *)
Definition first_table (m : Z -> Z) : option (Z * Z) :=
  mp ← head (filter (fun p => is_mp m p = true) (places m));
  let conf := P2V (ld32 m (mp + 4)) in
  if bool_decide (ld32 m (mp + 4) <> 0 /\ load m conf 4 = [80; 67; 77; 80] /\ m (conf + 6) ∈ [1; 4] /\ sum m conf (ld16 m (conf + 4)) = 0) then Some (mp, conf) else None.

Lemma seqZ_cons_S a n : 0 <= n -> seqZ a (n + 1) = a :: seqZ (a + 1) n.
Proof. intros Hn. rewrite seqZ_cons by lia. f_equal; [f_equal; lia]. Qed.

Lemma mpsearch1_loop_spec m fuel : forall n p, 0 <= n < Z.of_nat fuel -> 0 < p ->
  mpsearch1_loop fuel m p (p + 16 * n) = default 0 (head (filter (fun q => is_mp m q = true) ((fun i => p + 16 * i) <$> seqZ 0 n))).
Proof.
  induction fuel as [|fuel IH]; intros n p Hn Hp; [lia|]. cbn [mpsearch1_loop]. destruct (Z.ltb_spec p (p + 16 * n)) as [H|H]; [|by replace n with 0 by lia].
  replace n with ((n - 1) + 1) at 2 by lia. rewrite seqZ_cons_S by lia. cbn [fmap list_fmap]. replace (p + 16 * 0) with p by lia. destruct (is_mp m p) eqn:E; [by rewrite filter_cons_True|]. rewrite filter_cons_False by congruence.
  replace (p + 16 * n) with (p + 16 + 16 * (n - 1)) by lia. rewrite IH by lia. do 2 f_equal. change (0 + 1) with 1. rewrite <- (fmap_add_seqZ 1 0). rewrite <- list_fmap_compose. f_equal. apply list_fmap_ext. intros i x _. unfold compose. lia.
Qed.

Lemma mpsearch1_spec m a len : 0 <= len -> len mod 16 = 0 -> 0 < P2V a -> mpsearch1 m a len = default 0 (head (filter (fun q => is_mp m q = true) (area a len))).
Proof. intros Hl Hm Hp. unfold mpsearch1. replace (P2V a + len) with (P2V a + 16 * (len / 16)) by (Z.div_mod_to_equations; lia). apply mpsearch1_loop_spec; [|done]. assert (0 <= len / 16) by (apply Z.div_pos; lia). lia. Qed.

Definition bytes (m : Z -> Z) : Prop := forall p, 0 <= m p < 256.

Lemma lor_bytes hi lo : 0 <= lo < 256 -> Z.lor (Z.shiftl hi 8) lo = 256 * hi + lo.
Proof.
  intros Hl. rewrite Z.shiftl_mul_pow2 by lia. change (2 ^ 8) with 256. rewrite Z.add_comm, (Z.mul_comm 256), <- Z.lxor_lor, <- Z.add_nocarry_lxor; [lia|..]; apply Z.bits_inj'; intros i Hi; rewrite Z.land_spec, Z.bits_0;
    change 256 with (2 ^ 8); rewrite <- Z.shiftl_mul_pow2 by lia; (destruct (Z.ltb_spec i 8); [by rewrite Z.shiftl_spec_low by lia|]); rewrite <- (Z.mod_small lo 256) by lia; change 256 with (2 ^ 8); rewrite Z.mod_pow2_bits_high by lia; by rewrite andb_false_r.
Qed.

Lemma head_filter_app (P : Z -> bool) l1 l2 : Forall (fun p => 0 < p) l1 ->
  default 0 (head (filter (fun p => P p = true) (l1 ++ l2))) =
  if default 0 (head (filter (fun p => P p = true) l1)) =? 0 then default 0 (head (filter (fun p => P p = true) l2)) else default 0 (head (filter (fun p => P p = true) l1)).
Proof.
  intros Hp. rewrite filter_app. destruct (filter _ l1) as [|x l] eqn:E; [done|]. simpl. assert (Hx : x ∈ filter (fun p => P p = true) l1) by (rewrite E; apply list_elem_of_here).
  apply list_elem_of_filter in Hx as [_ Hx]. rewrite Forall_forall in Hp. specialize (Hp _ Hx). destruct (Z.eqb_spec x 0); [lia|done].
Qed.

Lemma area_pos a len : 0 < P2V a -> Forall (fun p => 0 < p) (area a len).
Proof. intros H. unfold area. apply Forall_fmap, Forall_forall. intros i Hi. apply elem_of_seqZ in Hi. simpl. lia. Qed.

Lemma bda_pos m : bytes m -> 0 < P2V (ebda m) /\ 0 < P2V (u32 (base m - 1024)).
Proof.
  intros Hb. unfold ebda, base. pose proof (Hb (P2V 0x400 + 14)). pose proof (Hb (P2V 0x400 + 15)). pose proof (Hb (P2V 0x400 + 19)). pose proof (Hb (P2V 0x400 + 20)). split.
  - unfold P2V at 1. unfold KERNBASE. rewrite u32_id; unfold two32; lia.
  - unfold P2V at 1. rewrite u32_add_l. unfold KERNBASE, u32, two32. set (b := 256 * m _ + m _). destruct (decide (b = 0)) as [E|]; [by rewrite E|]. rewrite Z.mod_small; lia.
Qed.

Lemma places_pos m : bytes m -> Forall (fun p => 0 < p) (places m).
Proof.
  intros Hb. destruct (bda_pos m Hb) as [Q1 Q2]. apply Forall_app. split; [case_match; by apply area_pos|by apply area_pos].
Qed.

Lemma mpsearch_spec m : bytes m -> mpsearch m = default 0 (head (filter (fun p => is_mp m p = true) (places m))).
Proof.
  intros Hb. unfold mpsearch, places. rewrite !lor_bytes by apply Hb. rewrite Z.shiftl_mul_pow2 by lia. change (2 ^ 4) with 16. rewrite (Z.mul_comm _ 16), (Z.mul_comm _ 1024).
  fold (ebda m) (base m). destruct (bda_pos m Hb) as [Q1 Q2].
  rewrite !(mpsearch1_spec m) by (done || lia). destruct (ebda m =? 0); cbn [negb]; rewrite head_filter_app by (by apply area_pos); by destruct (default 0 _ =? 0).
Qed.

Lemma mpconfig_first m : bytes m -> mpconfig m = first_table m.
Proof.
  intros Hb. unfold mpconfig, first_table. rewrite mpsearch_spec by done. assert (Hpos : forall x, head (filter (fun p => is_mp m p = true) (places m)) = Some x -> 0 < x).
  { intros x Hx. assert (Hin : x ∈ filter (fun p => is_mp m p = true) (places m)) by (destruct (filter _ (places m)); [done|]; injection Hx as ->; apply list_elem_of_here). apply list_elem_of_filter in Hin as [_ Hin].
    revert x Hx Hin. intros x _. apply (proj1 (Forall_forall _ _) (places_pos m Hb)). }
  destruct (head _) as [mp|]; [|done]. specialize (Hpos mp eq_refl). cbn [default]. unfold mbind, option_bind, from_option, id. destruct (Z.eqb_spec mp 0); [lia|]. cbn [orb].
  set (conf := P2V _). destruct (bool_decide_reflect (ld32 m (mp + 4) <> 0 /\ load m conf 4 = [80; 67; 77; 80] /\ m (conf + 6) ∈ [1; 4] /\ sum m conf (ld16 m (conf + 4)) = 0)) as [(C1 & C2 & C3 & C4)|Hn].
  - destruct (Z.eqb_spec (ld32 m (mp + 4)) 0); [done|]. rewrite bool_decide_true by done. cbn [negb]. rewrite C4. rewrite !elem_of_cons in C3. destruct C3 as [->|[->|C3]]; [done|done|by apply elem_of_nil in C3].
  - destruct (Z.eqb_spec (ld32 m (mp + 4)) 0); [done|]. destruct (bool_decide_reflect (load m conf 4 = [80; 67; 77; 80])); [|done]. cbn [negb].
    destruct (Z.eqb_spec (sum m conf (ld16 m (conf + 4))) 0); cbn [negb]; [|by case_match]. destruct (Z.eqb_spec (m (conf + 6)) 1) as [E|E]; [destruct Hn; rewrite E; set_solver|]. destruct (Z.eqb_spec (m (conf + 6)) 4) as [E'|E']; [destruct Hn; rewrite E'; set_solver|]. done.
Qed.

(** ** The entries of a table *)

Inductive mpentry := EProc (apicid : Z) (rest : list Z) | EIoapic (apicno : Z) (rest : list Z) | EOther (type : Z) (rest : list Z).

Definition entry_ok (x : mpentry) : Prop :=
  match x with EProc _ r => length r = 18%nat | EIoapic _ r => length r = 6%nat | EOther t r => t ∈ [MPBUS; MPIOINTR; MPLINTR] /\ length r = 7%nat end.
Definition enc (x : mpentry) : list Z :=
  match x with EProc a r => MPPROC :: a :: r | EIoapic a r => MPIOAPIC :: a :: r | EOther t r => t :: r end.
Definition apicids (es : list mpentry) : list Z := omap (fun x => match x with EProc a _ => Some a | _ => None end) es.
Definition ioapics (es : list mpentry) : list Z := omap (fun x => match x with EIoapic a _ => Some a | _ => None end) es.

(** The state when the entries have been seen. *)
Definition seen (es : list mpentry) (s : mpst) : mpst :=
  mkmpst (take 8 (mp_cpus s ++ apicids es)) (default (mp_ioapicid s) (last (ioapics es))) (mp_lapic s) (mp_io s) (mp_imcr s).

Lemma load_at m a n i : 0 <= i < n -> load m a n !! Z.to_nat i = Some (m (a + i)).
Proof. intros H. unfold load. rewrite list_lookup_fmap, lookup_seqZ_lt by lia. simpl. do 2 f_equal. lia. Qed.

Lemma load_app m a l1 l2 : load m a (Z.of_nat (length (l1 ++ l2))) = l1 ++ l2 -> load m (a + Z.of_nat (length l1)) (Z.of_nat (length l2)) = l2.
Proof.
  intros H. rewrite length_app, Nat2Z.inj_add in H. unfold load in *. rewrite seqZ_app, fmap_app in H by lia. apply app_inj_1 in H as [_ H]; [done|]. rewrite length_fmap, length_seqZ. lia.
Qed.

Lemma seen_add a es s : (length (mp_cpus s) <= 8)%nat -> take 8 (mp_cpus (add_cpu a s) ++ apicids es) = take 8 (mp_cpus s ++ a :: apicids es).
Proof.
  intros H. unfold add_cpu, NCPU. destruct (Z.ltb_spec (Z.of_nat (length (mp_cpus s))) 8); cbn [mp_cpus]; [by rewrite <- app_assoc|]. by rewrite !take_app_le by lia.
Qed.

Lemma mpinit_loop_run m e fuel : forall es p tail ismp s, (length es < fuel)%nat -> (length (mp_cpus s) <= 8)%nat -> Forall entry_ok es ->
  load m p (Z.of_nat (length (concat (enc <$> es) ++ tail))) = concat (enc <$> es) ++ tail -> e = p + Z.of_nat (length (concat (enc <$> es) ++ tail)) ->
  exists fuel', mpinit_loop fuel m p e ismp s = mpinit_loop fuel' m (e - Z.of_nat (length tail)) e ismp (seen es s) /\ (fuel' = fuel - length es)%nat.
Proof.
  induction fuel as [|fuel IH]; intros es p tail ismp s Hf Hc Hok Hl He; [lia|]. destruct es as [|x es].
  { exists (S fuel). split; [|simpl; lia]. simpl in He. replace (e - _) with p by lia. f_equal. unfold seen. simpl. rewrite app_nil_r, take_ge by done. by destruct s. }
  apply Forall_cons in Hok as [Hx Hok]. cbn [fmap list_fmap concat] in Hl, He. rewrite <- app_assoc in Hl, He.
  assert (Hlen : length (enc x) = match x with EProc _ _ => 20 | _ => 8 end%nat) by (destruct x; simpl in *; [lia|lia|destruct Hx; lia]).
  assert (Hget : forall i v, enc x !! i = Some v -> m (p + Z.of_nat i) = v).
  { intros i v Hi. pose proof (lookup_lt_Some _ _ _ Hi). apply (lookup_app_l_Some _ (concat (enc <$> es) ++ tail)) in Hi. rewrite <- Hl, <- (Nat2Z.id i), load_at in Hi by (rewrite length_app; lia). by injection Hi as <-. }
  pose proof (load_app _ _ _ _ Hl) as Hl'. rewrite Hlen in Hl'. assert (He' : e = p + Z.of_nat (length (enc x)) + Z.of_nat (length (concat (enc <$> es) ++ tail))) by (rewrite He, length_app; lia). rewrite Hlen in He'.
  cbn [mpinit_loop]. destruct (Z.ltb_spec p e) as [_|]; [|destruct x; lia]. cbn [length] in Hf. destruct x as [a r|a r|t r].
  - pose proof (Hget 0%nat _ eq_refl) as E0. pose proof (Hget 1%nat _ eq_refl) as E1. change (Z.of_nat 1) with 1 in E1. rewrite Z.add_0_r in E0. rewrite E0, E1. cbn. rewrite bind_modify.
    destruct (IH es (p + 20) tail ismp (add_cpu a s)) as (f' & R & F); [lia| |done|exact Hl'|exact He'|]. { unfold add_cpu, NCPU. destruct (Z.ltb_spec (Z.of_nat (length (mp_cpus s))) 8); simpl; rewrite ?length_app; simpl; lia. }
    exists f'. split; [|simpl; lia]. rewrite R. f_equal. unfold seen. rewrite seen_add by done. cbn. f_equal; unfold add_cpu; by case_match.
  - pose proof (Hget 0%nat _ eq_refl) as E0. pose proof (Hget 1%nat _ eq_refl) as E1. change (Z.of_nat 1) with 1 in E1. rewrite Z.add_0_r in E0. rewrite E0, E1. cbn. rewrite bind_modify.
    destruct (IH es (p + 8) tail ismp (set_ioapicid a s)) as (f' & R & F); [lia|done|done|exact Hl'|exact He'|]. exists f'. split; [|simpl; lia]. rewrite R. f_equal. unfold seen. cbn. f_equal. unfold ioapics. simpl. fold (ioapics es). rewrite last_cons. by destruct (last (ioapics es)).
  - pose proof (Hget 0%nat _ eq_refl) as E0. rewrite Z.add_0_r in E0. rewrite E0. destruct Hx as [Ht Hx]. rewrite !elem_of_cons in Ht.
    destruct (IH es (p + 8) tail ismp s) as (f' & R & F); [lia|done|done|exact Hl'|exact He'|]. exists f'. split; [|simpl; lia].
    destruct Ht as [->|[->|[->|Ht]]]; [| | |by apply elem_of_nil in Ht]; cbn; rewrite R; done.
Qed.

Lemma mpinit_loop_stuck m p e s : p < e -> 4 < m p -> forall fuel ismp, mpinit_loop fuel m p e ismp s = Wait OnLock s.
Proof.
  intros Hp Hm. induction fuel as [|fuel IH]; intros ismp; [done|]. cbn [mpinit_loop]. destruct (Z.ltb_spec p e); [|lia]. unfold MPPROC, MPIOAPIC, MPBUS, MPIOINTR, MPLINTR.
  destruct (Z.eqb_spec (m p) 0), (Z.eqb_spec (m p) 2), (Z.eqb_spec (m p) 1), (Z.eqb_spec (m p) 3), (Z.eqb_spec (m p) 4); try lia. apply IH.
Qed.

Lemma mpinit_loop_more m e fuel : forall p ismp s, (exists s', mpinit_loop fuel m p e ismp s = Wait OnLock s') \/ exists b s', forall n, mpinit_loop (fuel + n) m p e ismp s = Ret b s'.
Proof.
  induction fuel as [|fuel IH]; intros p ismp s; [left; by exists s|]. cbn [Nat.add mpinit_loop]. repeat (case_match; try (rewrite bind_modify; setoid_rewrite bind_modify)); try apply IH. right. by exists ismp, s.
Qed.

(** C29. The multiprocessor table.  [mpinit] panics when the first floating pointer of
    the search (the first kilobyte of the extended BIOS data area, or else the last
    one of base memory, and then the ROM) is missing or has no good table.  When the
    table consists of entries of the known types, [mpinit] returns with the APIC
    identifiers of its first [NCPU] processors in order, the identifier of its last
    I/O APIC, and the address of the local APIC.  When an entry of another type
    follows the known ones, it never returns. *)
Theorem mpinit_spec m s : bytes m -> (length (mp_cpus s) <= 8)%nat ->
  match first_table m with
  | None => forall fuel, mpinit fuel m s = Panic "Expect to run on an SMP"
  | Some (mp, conf) => forall es tail, Forall entry_ok es -> ld16 m (conf + 4) = 44 + Z.of_nat (length (concat (enc <$> es) ++ tail)) ->
      load m (conf + 44) (ld16 m (conf + 4) - 44) = concat (enc <$> es) ++ tail ->
      match tail with
      | [] => forall fuel, (length es < fuel)%nat -> mpinit fuel m s =
          Ret tt (mkmpst (take 8 (mp_cpus s ++ apicids es)) (default (mp_ioapicid s) (last (ioapics es))) (ld32 m (conf + 36))
                    (mp_io s ++ if m (mp + 12) =? 0 then [] else [(0x22, 0x70); (0x23, u8 (Z.lor (mp_imcr s) 1))]) (mp_imcr s))
      | t :: _ => 4 < t -> forall fuel, exists s', mpinit fuel m s = Wait OnLock s'
      end
  end.
Proof.
  intros Hb Hc. unfold mpinit. rewrite mpconfig_first by done. destruct (first_table m) as [[mp conf]|]; [|done]. intros es tail Hok Hlen Hl. set (n := Z.of_nat (length (concat (enc <$> es) ++ tail))) in *.
  replace (ld16 m (conf + 4) - 44) with n in Hl by lia. assert (He : conf + ld16 m (conf + 4) = conf + 44 + n) by lia. set (s1 := set_lapic (ld32 m (conf + 36)) s).
  destruct tail as [|t tail].
  - intros fuel Hf. rewrite bind_modify. fold s1. destruct (mpinit_loop_run m _ fuel es _ [] true s1 Hf Hc Hok Hl He) as (f' & R & F). cbn [length] in R. rewrite Z.sub_0_r in R. destruct f' as [|f']; [lia|]. cbn [mpinit_loop] in R. rewrite Z.ltb_irrefl in R. mstep R.
    rewrite bind_unless_false. destruct (m (mp + 12) =? 0); cbn [negb]; [unfold seen; by rewrite app_nil_r|]. unfold mp_outb. rewrite bind_modify, bind_gets. unfold modify. cbn. by rewrite <- app_assoc.
  - intros Ht fuel. rewrite bind_modify. fold s1. destruct (mpinit_loop_more m (conf + ld16 m (conf + 4)) fuel (conf + 44) true s1) as [[s' R]|(b & s' & R)]; [exists s'; by rewrite bind_run, R|exfalso].
    specialize (R (S (length es))). destruct (mpinit_loop_run m _ (fuel + S (length es)) es _ (t :: tail) true s1 ltac:(lia) Hc Hok Hl He) as (f' & R' & F). rewrite R in R'. rewrite mpinit_loop_stuck in R'; [done|cbn [length]; lia|].
    pose proof (load_app _ _ _ _ Hl) as Hl2. assert (Hv : m (conf + 44 + Z.of_nat (length (concat (enc <$> es)))) = t). { cbn [length] in Hl2. rewrite Nat2Z.inj_succ in Hl2. unfold load in Hl2. rewrite seqZ_cons in Hl2 by lia. cbn [fmap list_fmap] in Hl2. by injection Hl2. }
    replace (conf + ld16 m (conf + 4) - Z.of_nat (length (t :: tail))) with (conf + 44 + Z.of_nat (length (concat (enc <$> es)))) by (unfold n in He; rewrite length_app in He; lia). lia.
Qed.

(** A machine of two processors: the floating pointer in the ROM, its table at
    0x1000. *)
Definition table2 : list Z :=
  let es := concat (enc <$> [EProc 0 (replicate 18 0); EProc 1 (replicate 18 0); EOther 1 (replicate 7 0); EIoapic 2 (replicate 6 0); EOther 3 (replicate 7 0)]) in
  let t := [80; 67; 77; 80] ++ le16 (44 + Z.of_nat (length es)) ++ [4] ++ [0] ++ replicate 28 0 ++ le32 0xFEE00000 ++ replicate 4 0 ++ es in
  <[7%nat := u8 (- foldl Z.add 0 t)]> t.
Definition float2 : list Z := let t := [95; 77; 80; 95] ++ le32 0x1000 ++ [1; 4; 0; 0; 0x80; 0; 0; 0] in <[10%nat := u8 (- foldl Z.add 0 t)]> t.
Definition mem2 : Z -> Z := store (P2V 0x1000) table2 (store (P2V 0xF0040) float2 (fun _ => 0)).

Lemma store_bytes a l m : Forall (fun v => 0 <= v < 256) l -> bytes m -> bytes (store a l m).
Proof. intros Hl Hm p. unfold store. case_match; [|apply Hm]. destruct (l !! _) eqn:E; simpl; [|lia]. by apply (proj1 (Forall_lookup _ _) Hl _ _ E). Qed.

Lemma mem2_bytes : bytes mem2.
Proof. apply store_bytes; [apply (bool_decide_unpack _); vm_compute; exact I|]. apply store_bytes; [apply (bool_decide_unpack _); vm_compute; exact I|]. intros p. lia. Qed.

Lemma mpinit_spec_witness : mpinit 6 mem2 (mkmpst [] 0 0 [] 0) = Ret tt (mkmpst [0; 1] 2 0xFEE00000 [(0x22, 0x70); (0x23, 1)] 0).
Proof.
  pose proof (mpinit_spec mem2 (mkmpst [] 0 0 [] 0) mem2_bytes ltac:(simpl; lia)) as H. assert (E : first_table mem2 = Some (P2V 0xF0040, P2V 0x1000)) by (vm_compute; reflexivity). rewrite E in H.
  rewrite (H [EProc 0 (replicate 18 0); EProc 1 (replicate 18 0); EOther 1 (replicate 7 0); EIoapic 2 (replicate 6 0); EOther 3 (replicate 7 0)] []); [vm_compute; reflexivity| |vm_compute; reflexivity|vm_compute; reflexivity|simpl; lia].
  repeat constructor; set_solver.
Defined.
