(* ===== verification/Bio.v ===== *)
(** * Sleep locks, the memory disk and the buffer cache
    (sleeplock.c, memide.c, bio.c)

    The operations, the invariant of the cache, and what [bread], [bwrite] and
    [brelse] do to the current contents of the blocks ([view]) for a caller
    that holds the buffers [held]. *)

From Stdlib Require Import ZArith Lia.
From stdpp Require Import base numbers strings gmap list.
From S2P Require Import Prelude.
From S2P Require Import Machine.
From S2P Require Import FState.

Local Open Scope string_scope.
Local Open Scope list_scope.
Local Open Scope Z_scope.

(** ** Sleep locks *)

Inductive lockref := LBuf (i : nat) | LInode (i : nat).

Definition getb (i : nat) : M fstate buf := s ← get; of_option "buf" (f_bufs s !! i).
Definition updb (i : nat) (f : buf -> buf) : M fstate unit := modify (fun s => set_f_bufs (alter f i (f_bufs s)) s).
Definition geti (i : nat) : M fstate inode := s ← get; of_option "inode" (f_inodes s !! i).
Definition updi (i : nat) (f : inode -> inode) : M fstate unit := modify (fun s => set_f_inodes (alter f i (f_inodes s)) s).

Definition getlk (l : lockref) : M fstate sleeplk :=
  match l with LBuf i => b ← getb i; mret (b_lock b) | LInode i => ip ← geti i; mret (i_lock ip) end.
Definition setlk (l : lockref) (x : sleeplk) : M fstate unit :=
  match l with LBuf i => updb i (set_b_lock x) | LInode i => updi i (set_i_lock x) end.

Definition initsleeplock (l : lockref) : M fstate unit := setlk l (mksleep 0 0).

(** A lock that is taken makes the caller sleep. *)
Definition acquiresleep (l : lockref) : M fstate unit :=
  lk ← getlk l;
  if negb (sl_locked lk =? 0) then stall OnSched
  else pid ← gets f_pid; setlk l (mksleep 1 pid).

Definition releasesleep (l : lockref) : M fstate unit := setlk l (mksleep 0 0).

Definition holdingsleep (l : lockref) : M fstate Z := lk ← getlk l; mret (sl_locked lk).

(** ** The disk *)

Fixpoint dget (img : gmap Z (list Z)) (ws : list (Z * list Z)) (b : Z) : list Z :=
  match ws with
  | [] => default [] (img !! b)
  | (b', d) :: ws => if b =? b' then d else dget img ws b
  end.

Definition disk (s : fstate) (b : Z) : list Z := dget (f_img s) (f_writes s) b.

Definition is_valid (x : buf) : bool := negb (Z.land (b_flags x) B_VALID =? 0).
Definition is_dirty (x : buf) : bool := negb (Z.land (b_flags x) B_DIRTY =? 0).

Definition iderw (i : nat) : M fstate unit :=
  h ← holdingsleep (LBuf i);
  unless_panic (h =? 0) "iderw: buf not locked";;
  b ← getb i;
  s ← get;
  unless_panic (Z.land (b_flags b) (Z.lor B_VALID B_DIRTY) =? B_VALID) "iderw: nothing to do";;
  unless_panic (negb (b_dev b =? 1)) "iderw: request not for disk 1";;
  unless_panic (f_disksize s <=? b_blockno b) "iderw: block out of range";;
  (if is_dirty b then
     updb i (fun x => set_b_flags (Z.land (b_flags x) (Z.lnot B_DIRTY)) x);;
     modify (fun s => set_f_writes ((b_blockno b, b_data b) :: f_writes s) s)
   else updb i (set_b_data (disk s (b_blockno b))));;
  updb i (fun x => set_b_flags (Z.lor (b_flags x) B_VALID) x).

(** ** The buffer cache *)

(** The buffers in memory that was never written are zero. *)
Definition buf0 : buf := mkbuf 0 0 0 (mksleep 0 0) 0 (replicate (Z.to_nat BSIZE) 0).

(** Each buffer is linked in at the head. *)
Fixpoint binit_loop (n : nat) (i : nat) : M fstate unit :=
  match n with
  | O => mret tt
  | S n =>
      initsleeplock (LBuf i);;
      modify (fun s => set_f_lru (i :: f_lru s) s);;
      binit_loop n (S i)
  end.
Definition binit : M fstate unit := modify (set_f_lru []);; binit_loop (Z.to_nat NBUF) 0.

(** The first buffer of a list that satisfies [P]. *)
Fixpoint scan (P : buf -> bool) (order : list nat) (bufs : list buf) : option nat :=
  match order with
  | [] => None
  | i :: order => match bufs !! i with Some x => if P x then Some i else scan P order bufs | None => scan P order bufs end
  end.

Definition bget (dev blockno : Z) : M fstate nat :=
  s ← get;
  match scan (fun x => (b_dev x =? dev) && (b_blockno x =? blockno)) (f_lru s) (f_bufs s) with
  | Some i =>
      updb i (fun x => set_b_refcnt (u32 (b_refcnt x + 1)) x);;
      acquiresleep (LBuf i);;
      mret i
  | None =>
      match scan (fun x => (b_refcnt x =? 0) && negb (is_dirty x)) (rev (f_lru s)) (f_bufs s) with
      | Some i =>
          updb i (fun x => mkbuf 0 dev blockno (b_lock x) 1 (b_data x));;
          acquiresleep (LBuf i);;
          mret i
      | None => panic "bget: no buffers"
      end
  end.

Definition bread (dev blockno : Z) : M fstate nat :=
  i ← bget dev blockno;
  b ← getb i;
  (if is_valid b then mret tt else iderw i);;
  mret i.

Definition bwrite (i : nat) : M fstate unit :=
  h ← holdingsleep (LBuf i);
  unless_panic (h =? 0) "bwrite";;
  updb i (fun x => set_b_flags (Z.lor (b_flags x) B_DIRTY) x);;
  iderw i.

Definition brelse (i : nat) : M fstate unit :=
  h ← holdingsleep (LBuf i);
  unless_panic (h =? 0) "brelse";;
  releasesleep (LBuf i);;
  updb i (fun x => set_b_refcnt (u32 (b_refcnt x - 1)) x);;
  b ← getb i;
  if b_refcnt b =? 0 then modify (fun s => set_f_lru (i :: filter (fun j => j <> i) (f_lru s)) s) else mret tt.

(** ** The invariant *)

(** The current contents of a block: the cached copy, or the disk's. *)
Definition caches (b : Z) (x : buf) : Prop := b_dev x = 1 /\ b_blockno x = b /\ b_flags x <> 0.
#[global] Instance caches_dec b x : Decision (caches b x).
Proof. unfold caches. apply _. Defined.

Definition view (s : fstate) (b : Z) : list Z :=
  match list_find (caches b) (f_bufs s) with Some (_, x) => b_data x | None => disk s b end.

(** The block is cached and has to be written. *)
Definition dirty_block (s : fstate) (b : Z) : Prop := exists i x, f_bufs s !! i = Some x /\ caches b x /\ b_flags x = 6.

(** A buffer, held by the caller or not, over a disk. *)
Record buf_ok (img : gmap Z (list Z)) (ws : list (Z * list Z)) (size : Z) (held : bool) (x : buf) : Prop := {
  bo_ref : b_refcnt x = if held then 1 else 0;
  bo_lock : if held then sl_locked (b_lock x) = 1 else sl_locked (b_lock x) = 0;
  bo_flags : b_flags x = 0 \/ b_flags x = 2 \/ b_flags x = 6;
  bo_dev : b_dev x = 1 \/ (b_dev x = 0 /\ b_flags x = 0 /\ held = false);
  bo_range : b_dev x = 1 -> 0 <= b_blockno x < size;
  bo_len : b_flags x <> 0 -> length (b_data x) = 512%nat;
  bo_clean : b_dev x = 1 -> b_flags x = 2 -> b_data x = dget img ws (b_blockno x);
  bo_held : held = true -> b_flags x <> 0 }.

Record bio_inv (held : list nat) (s : fstate) : Prop := {
  bi_len : length (f_bufs s) = 30%nat;
  bi_lru : f_lru s ≡ₚ seq 0 30;
  bi_nodup : NoDup held;
  bi_uniq : forall i j x y, f_bufs s !! i = Some x -> f_bufs s !! j = Some y ->
    b_dev x = 1 -> b_dev y = 1 -> b_blockno x = b_blockno y -> i = j;
  bi_buf : forall i x, f_bufs s !! i = Some x ->
    buf_ok (f_img s) (f_writes s) (f_disksize s) (bool_decide (i ∈ held)) x;
  bi_disk : forall b, 0 <= b < f_disksize s -> length (disk s b) = 512%nat }.

(** Everything but the cache is unchanged. *)
Definition same_but_cache (s s' : fstate) : Prop :=
  f_img s' = f_img s /\ f_writes s' = f_writes s /\ f_disksize s' = f_disksize s /\ f_log s' = f_log s /\ f_sb s' = f_sb s /\
  f_inodes s' = f_inodes s /\ f_files s' = f_files s /\ f_pid s' = f_pid s /\ f_cwd s' = f_cwd s.

Lemma view_cached held s i x b : bio_inv held s -> f_bufs s !! i = Some x -> caches b x -> view s b = b_data x.
Proof.
  intros H Hi Hc. unfold view. destruct (list_find (caches b) (f_bufs s)) as [[j y]|] eqn:E.
  - apply list_find_Some in E as (Hj & Hy & _). destruct Hc as (H1 & H2 & _), Hy as (H3 & H4 & _).
    assert (i = j) as -> by (eapply (bi_uniq _ _ H); [done|done|done|done|congruence]). congruence.
  - apply list_find_None in E. rewrite Forall_lookup in E. by specialize (E i x Hi).
Qed.

Lemma view_uncached s b : (forall i x, f_bufs s !! i = Some x -> ~ caches b x) -> view s b = disk s b.
Proof.
  intros H. unfold view. destruct (list_find (caches b) (f_bufs s)) as [[j y]|] eqn:E; [|done].
  apply list_find_Some in E as (Hj & Hy & _). by destruct (H j y Hj).
Qed.

(** The block's contents, whichever holds them. *)
Lemma view_cases held s b : bio_inv held s ->
  (exists i x, f_bufs s !! i = Some x /\ caches b x /\ view s b = b_data x) \/
  ((forall i x, f_bufs s !! i = Some x -> ~ caches b x) /\ view s b = disk s b).
Proof.
  intros H. unfold view. destruct (list_find (caches b) (f_bufs s)) as [[j y]|] eqn:E.
  - left. apply list_find_Some in E as (Hj & Hy & _). eauto.
  - right. apply list_find_None in E. rewrite Forall_lookup in E. split; [|done]. intros i x Hi. by apply E with i.
Qed.

Lemma view_length held s b : bio_inv held s -> 0 <= b < f_disksize s -> length (view s b) = 512%nat.
Proof.
  intros H Hb. destruct (view_cases held s b H) as [(i & x & Hi & Hc & ->)|(_ & ->)].
  - apply (bo_len _ _ _ _ _ (bi_buf _ _ H i x Hi)). apply Hc.
  - by apply H.
Qed.

(** ** Runs of the operations *)

Definition setb (i : nat) (y : buf) (s : fstate) : fstate := set_f_bufs (<[i := y]> (f_bufs s)) s.

Lemma setb_setb i y z s : setb i y (setb i z s) = setb i y s.
Proof. unfold setb. simpl. by rewrite list_insert_insert_eq. Qed.

Lemma lookup_setb i y s x : f_bufs s !! i = Some x -> f_bufs (setb i y s) !! i = Some y.
Proof. intros H. simpl. apply list_lookup_insert_eq. by eapply lookup_lt_Some. Qed.

Lemma getb_run s i x : f_bufs s !! i = Some x -> getb i s = Ret x s.
Proof. intros H. unfold getb. mexec. by rewrite H. Qed.

Lemma updb_run s i x f : f_bufs s !! i = Some x -> updb i f s = Ret tt (setb i (f x) s).
Proof. intros H. unfold updb, setb. mexec. by rewrite (alter_insert_Some _ _ _ _ H). Qed.

Lemma acquiresleep_buf s i x :
  f_bufs s !! i = Some x -> sl_locked (b_lock x) = 0 ->
  acquiresleep (LBuf i) s = Ret tt (setb i (set_b_lock (mksleep 1 (f_pid s)) x) s).
Proof.
  intros H Hl. unfold acquiresleep, getlk. rewrite bind_assoc_run. mstep (getb_run _ _ _ H). rewrite bind_mret, Hl. cbn [Z.eqb negb].
  rewrite bind_gets. unfold setlk. by rewrite (updb_run _ _ _ _ H).
Qed.

Lemma holdingsleep_buf s i x : f_bufs s !! i = Some x -> holdingsleep (LBuf i) s = Ret (sl_locked (b_lock x)) s.
Proof. intros H. unfold holdingsleep, getlk. rewrite bind_assoc_run. by mstep (getb_run _ _ _ H). Qed.

Lemma iderw_read s i x :
  f_bufs s !! i = Some x -> sl_locked (b_lock x) = 1 -> b_flags x = 0 -> b_dev x = 1 -> b_blockno x < f_disksize s ->
  iderw i s = Ret tt (setb i (mkbuf 2 1 (b_blockno x) (b_lock x) (b_refcnt x) (disk s (b_blockno x))) s).
Proof.
  intros H Hl Hf Hd Hb. unfold iderw. mstep (holdingsleep_buf _ _ _ H). rewrite Hl. cbn [Z.eqb]. rewrite bind_unless_false.
  mstep (getb_run _ _ _ H). rewrite bind_get, Hf, Hd. change (Z.land 0 (Z.lor B_VALID B_DIRTY) =? B_VALID) with false.
  rewrite bind_unless_false. change (negb (1 =? 1)) with false. rewrite bind_unless_false.
  destruct (Z.leb_spec (f_disksize s) (b_blockno x)); [lia|]. rewrite bind_unless_false.
  unfold is_dirty. rewrite Hf. change (negb (Z.land 0 B_DIRTY =? 0)) with false.
  mstep (updb_run _ _ _ (set_b_data (disk s (b_blockno x))) H).
  rewrite (updb_run _ _ _ _ (lookup_setb _ _ _ _ H)), setb_setb. unfold set_b_data, set_b_flags. simpl. by rewrite Hf, Hd.
Qed.

Lemma iderw_write s i x :
  f_bufs s !! i = Some x -> sl_locked (b_lock x) = 1 -> b_flags x = 6 -> b_dev x = 1 -> b_blockno x < f_disksize s ->
  iderw i s = Ret tt (set_f_writes ((b_blockno x, b_data x) :: f_writes s)
                        (setb i (mkbuf 2 1 (b_blockno x) (b_lock x) (b_refcnt x) (b_data x)) s)).
Proof.
  intros H Hl Hf Hd Hb. unfold iderw. mstep (holdingsleep_buf _ _ _ H). rewrite Hl. cbn [Z.eqb]. rewrite bind_unless_false.
  mstep (getb_run _ _ _ H). rewrite bind_get, Hf, Hd. change (Z.land 6 (Z.lor B_VALID B_DIRTY) =? B_VALID) with false.
  rewrite bind_unless_false. change (negb (1 =? 1)) with false. rewrite bind_unless_false.
  destruct (Z.leb_spec (f_disksize s) (b_blockno x)); [lia|]. rewrite bind_unless_false.
  unfold is_dirty. rewrite Hf. change (negb (Z.land 6 B_DIRTY =? 0)) with true. cbv iota. rewrite bind_assoc_run.
  mstep (updb_run _ _ _ (fun x => set_b_flags (Z.land (b_flags x) (Z.lnot B_DIRTY)) x) H). rewrite bind_modify.
  set (s1 := set_f_writes _ _). assert (H1 : f_bufs s1 !! i = Some (set_b_flags (Z.land (b_flags x) (Z.lnot B_DIRTY)) x))
    by (apply (lookup_setb _ _ _ _ H)).
  rewrite (updb_run _ _ _ _ H1). f_equal. unfold s1, setb, set_b_flags. simpl. rewrite list_insert_insert_eq, Hf, Hd. done.
Qed.

(** ** Keeping the invariant *)

Lemma scan_Some P order bufs i :
  scan P order bufs = Some i -> i ∈ order /\ exists x, bufs !! i = Some x /\ P x = true.
Proof.
  induction order as [|j order IH]; simpl; [done|]. destruct (bufs !! j) as [x|] eqn:Hj; [destruct (P x) eqn:Hp|].
  - intros [= <-]. split; [left|eauto].
  - intros H. destruct (IH H). split; [by right|done].
  - intros H. destruct (IH H). split; [by right|done].
Qed.

Lemma scan_None P order bufs i x : scan P order bufs = None -> i ∈ order -> bufs !! i = Some x -> P x = false.
Proof.
  induction order as [|j order IH]; simpl; [intros _ H; by apply elem_of_nil in H|].
  destruct (bufs !! j) as [y|] eqn:Hj; [destruct (P y) eqn:Hp; [done|]|]; intros H [->|Hi]%elem_of_cons Hx; auto; congruence.
Qed.

(** Buffer [i] is replaced by [y], and the disk changes at most at [y]'s block. *)
Lemma bio_replace held held' s s' i x y :
  bio_inv held s -> f_bufs s !! i = Some x ->
  f_bufs s' = <[i := y]> (f_bufs s) -> f_lru s' ≡ₚ f_lru s -> f_img s' = f_img s -> f_disksize s' = f_disksize s ->
  (forall b, (b <> b_blockno y \/ b_dev y <> 1) -> disk s' b = disk s b) ->
  (b_dev y = 1 -> length (disk s' (b_blockno y)) = 512%nat) ->
  NoDup held' -> (forall j, j <> i -> (j ∈ held' <-> j ∈ held)) ->
  buf_ok (f_img s') (f_writes s') (f_disksize s') (bool_decide (i ∈ held')) y ->
  (b_dev y = 1 -> forall j z, j <> i -> f_bufs s !! j = Some z -> b_dev z = 1 -> b_blockno z <> b_blockno y) ->
  bio_inv held' s'.
Proof.
  intros H Hi Hbufs Hlru Himg Hsz Hdisk Hdl Hnd Hheld Hy Hu. split.
  - rewrite Hbufs, length_insert. apply H.
  - rewrite Hlru. apply H.
  - done.
  - intros j k z w Hj Hk Hz Hw Hzw. rewrite Hbufs in Hj, Hk.
    apply insert_lookup_cases in Hj as [(<- & <- & _)|[Hij Hj]]; apply insert_lookup_cases in Hk as [(<- & <- & _)|[Hik Hk]]; [done| | |].
    + exfalso. eapply (Hu Hz k w); [congruence|done|done|congruence].
    + exfalso. eapply (Hu Hw j z); [congruence|done|done|congruence].
    + by eapply (bi_uniq _ _ H).
  - intros j z Hj. rewrite Hbufs in Hj. apply insert_lookup_cases in Hj as [(<- & <- & _)|[Hij Hj]]; [done|].
    pose proof (bi_buf _ _ H j z Hj) as Hok. rewrite Himg, Hsz in *.
    assert (bool_decide (j ∈ held') = bool_decide (j ∈ held)) as -> by (apply bool_decide_ext, Hheld; congruence).
    destruct Hok as [A1 A2 A3 A4 A5 A6 A7 A8]. split; try done. intros Hd Hf. rewrite A7 by done.
    specialize (Hdisk (b_blockno z)). unfold disk in Hdisk. rewrite Himg in Hdisk. rewrite Hdisk; [done|].
    destruct (decide (b_dev y = 1)) as [Hyd|]; [left|by right]. by apply (Hu Hyd j z).
  - intros b Hb. rewrite Hsz in Hb. destruct (decide (b = b_blockno y /\ b_dev y = 1)) as [[-> Hd]|Hn]; [by apply Hdl|].
    rewrite Hdisk; [by apply H|]. destruct (decide (b = b_blockno y)) as [He|He]; [right; intros Hd; by apply Hn|by left].
Qed.

(** The contents of the blocks after such a change: a buffer that is given to
    another block held a copy of the disk. *)
Lemma view_replace held held' s s' i x y :
  bio_inv held s -> bio_inv held' s' -> f_bufs s !! i = Some x -> f_bufs s' = <[i := y]> (f_bufs s) ->
  caches (b_blockno y) y -> (b_blockno x = b_blockno y \/ b_flags x <> 6) ->
  (forall b, b <> b_blockno y -> disk s' b = disk s b) ->
  forall b, view s' b = if decide (b = b_blockno y) then b_data y else view s b.
Proof.
  intros H H' Hi Hb Hy Hx Hd b. assert (Hi' : f_bufs s' !! i = Some y).
  { rewrite Hb. apply list_lookup_insert_eq. by eapply lookup_lt_Some. }
  destruct (decide (b = b_blockno y)) as [->|Hne]; [by eapply view_cached|].
  assert (Hun : forall j z, j <> i -> f_bufs s' !! j = Some z -> f_bufs s !! j = Some z).
  { intros j z Hji Hj. rewrite Hb in Hj. by apply insert_lookup_cases in Hj as [(<- & _)|[_ Hj]]. }
  destruct (view_cases _ s b H) as [(j & z & Hj & Hz & ->)|[Hn ->]].
  - destruct (decide (j = i)) as [->|Hji].
    + rewrite Hi in Hj. injection Hj as <-. destruct Hz as (Hz1 & Hz2 & Hz3). rewrite view_uncached.
      * rewrite Hd by done. pose proof (bi_buf _ _ H i x Hi) as Hok. destruct Hx as [Hx|Hx]; [congruence|].
        rewrite (bo_clean _ _ _ _ _ Hok Hz1), Hz2; [done|]. destruct (bo_flags _ _ _ _ _ Hok) as [?|[?|?]]; done.
      * intros j w Hj Hw. destruct (decide (j = i)) as [->|Hji].
        -- rewrite Hi' in Hj. injection Hj as <-. destruct Hw as (_ & Hw & _). congruence.
        -- apply Hun in Hj; [|done]. apply Hji. destruct Hw as (Hw1 & Hw2 & _). eapply (bi_uniq _ _ H); [done|done|done|done|congruence].
    + eapply view_cached; [done| |done]. by rewrite Hb, list_lookup_insert_ne by done.
  - rewrite view_uncached; [by apply Hd|]. intros j w Hj Hw. destruct (decide (j = i)) as [->|Hji].
    + rewrite Hi' in Hj. injection Hj as <-. destruct Hw as (_ & Hw & _). congruence.
    + apply (Hn j w); [by apply Hun|done].
Qed.

(** Some buffer can be recycled. *)
Definition free_buf (held : list nat) (s : fstate) : Prop :=
  exists i x, f_bufs s !! i = Some x /\ (i ∉ held) /\ b_flags x <> 6.

(** The buffer [i] is held and contains block [b]. *)
Definition holds (s : fstate) (i : nat) (b : Z) (d : list Z) : Prop :=
  exists x, f_bufs s !! i = Some x /\ b_dev x = 1 /\ b_blockno x = b /\ b_data x = d.

Definition same_dirty (s s' : fstate) : Prop := forall b, dirty_block s' b <-> dirty_block s b.

Lemma same_dirty_replace s s' i x y :
  f_bufs s !! i = Some x -> f_bufs s' = <[i := y]> (f_bufs s) ->
  (b_flags x = 6 <-> b_flags y = 6) -> (b_flags x = 6 -> b_dev y = b_dev x /\ b_blockno y = b_blockno x) -> same_dirty s s'.
Proof.
  intros Hi Hb Hf Hk b. pose proof (lookup_lt_Some _ _ _ Hi) as Hlt. split.
  - intros (j & z & Hj & Hc & Hz). rewrite Hb in Hj. apply insert_lookup_cases in Hj as [(<- & <- & _)|[Hij Hj]].
    + apply Hf in Hz. destruct (Hk Hz) as [H1 H2]. exists i, x. split; [done|]. destruct Hc as (? & ? & ?). split; [|done].
      split; [congruence|]. split; [congruence|]. by rewrite Hz.
    + by exists j, z.
  - intros (j & z & Hj & Hc & Hz). destruct (decide (i = j)) as [<-|Hij].
    + rewrite Hi in Hj. injection Hj as <-. exists i, y. split; [rewrite Hb; by apply list_lookup_insert_eq|].
      destruct (Hk Hz) as [H1 H2]. apply Hf in Hz. destruct Hc as (? & ? & ?). split; [|done].
      split; [congruence|]. split; [congruence|]. by rewrite Hz.
    + exists j, z. split; [by rewrite Hb, list_lookup_insert_ne|done].
Qed.

(** Taking a buffer: the state differs only in buffer [i]. *)
Lemma take_buf held s i x y :
  bio_inv held s -> f_bufs s !! i = Some x -> i ∉ held ->
  buf_ok (f_img s) (f_writes s) (f_disksize s) true y -> b_dev y = 1 ->
  (b_flags x = 6 -> b_flags y = 6 /\ b_blockno x = b_blockno y /\ b_dev x = 1) -> (b_flags y = 6 -> b_flags x = 6) ->
  b_data y = view s (b_blockno y) ->
  (forall j z, j <> i -> f_bufs s !! j = Some z -> b_dev z = 1 -> b_blockno z <> b_blockno y) ->
  bio_inv (i :: held) (setb i y s) /\ (forall b, view (setb i y s) b = view s b) /\ same_dirty s (setb i y s).
Proof.
  intros H Hi Hn Hy Hd Hf1 Hf2 Hv Hu. pose proof (bo_held _ _ _ _ _ Hy eq_refl) as Hfl.
  assert (Hinv : bio_inv (i :: held) (setb i y s)).
  { eapply (bio_replace held _ s _ i x y); [done|done|done|done|done|done|done| | | | |done].
    - intros _. apply H. by apply (bo_range _ _ _ _ _ Hy).
    - apply NoDup_cons. split; [done|apply H].
    - intros j Hj. rewrite elem_of_cons. split; [by intros [?|?]|by right].
    - rewrite bool_decide_true by left. done. }
  split; [done|]. split.
  - intros b. rewrite (view_replace held _ s _ i x y H Hinv Hi eq_refl).
    + destruct (decide (b = b_blockno y)) as [->|]; done.
    + done.
    + destruct (decide (b_flags x = 6)) as [H6|H6]; [left; by apply Hf1|by right].
    + done.
  - eapply same_dirty_replace; [done|done| |].
    + split; [intros H6; by apply Hf1|done].
    + intros H6. destruct (Hf1 H6) as (_ & -> & ->). done.
Qed.

Lemma lru_all held s i x : bio_inv held s -> f_bufs s !! i = Some x -> i ∈ f_lru s.
Proof.
  intros H Hi. rewrite (bi_lru _ _ H). apply elem_of_seq. apply lookup_lt_Some in Hi. rewrite (bi_len _ _ H) in Hi. lia.
Qed.

(** The flags of a buffer, as the code tests them. *)
Lemma flags_tests x : b_flags x = 0 \/ b_flags x = 2 \/ b_flags x = 6 ->
  is_valid x = negb (b_flags x =? 0) /\ is_dirty x = (b_flags x =? 6).
Proof. unfold is_valid, is_dirty. by intros [->|[->| ->]]. Qed.

(** A buffer with its lock taken. *)
Definition locked (s : fstate) (x : buf) : buf := set_b_lock (mksleep 1 (f_pid s)) x.

Lemma bget_hit held s b i x :
  bio_inv held s -> scan (fun x => (b_dev x =? 1) && (b_blockno x =? b)) (f_lru s) (f_bufs s) = Some i ->
  f_bufs s !! i = Some x -> i ∉ held ->
  bget 1 b s = Ret i (setb i (locked s (set_b_refcnt (u32 (b_refcnt x + 1)) x)) s).
Proof.
  intros H E Hi Hn. unfold bget. rewrite bind_get, E.
  pose proof (bi_buf _ _ H i x Hi) as Hok. rewrite bool_decide_false in Hok by done.
  mstep (updb_run _ _ _ (fun x => set_b_refcnt (u32 (b_refcnt x + 1)) x) Hi).
  mstep (acquiresleep_buf _ _ _ (lookup_setb _ (set_b_refcnt (u32 (b_refcnt x + 1)) x) _ _ Hi) (bo_lock _ _ _ _ _ Hok)). by rewrite setb_setb.
Qed.

Lemma bget_miss held s b i x :
  bio_inv held s -> scan (fun x => (b_dev x =? 1) && (b_blockno x =? b)) (f_lru s) (f_bufs s) = None ->
  scan (fun x => (b_refcnt x =? 0) && negb (is_dirty x)) (rev (f_lru s)) (f_bufs s) = Some i ->
  f_bufs s !! i = Some x -> i ∉ held ->
  bget 1 b s = Ret i (setb i (locked s (mkbuf 0 1 b (b_lock x) 1 (b_data x))) s).
Proof.
  intros H E1 E2 Hi Hn. unfold bget. rewrite bind_get, E1, E2.
  pose proof (bi_buf _ _ H i x Hi) as Hok. rewrite bool_decide_false in Hok by done.
  mstep (updb_run _ _ _ (fun x => mkbuf 0 1 b (b_lock x) 1 (b_data x)) Hi).
  mstep (acquiresleep_buf _ _ _ (lookup_setb _ (mkbuf 0 1 b (b_lock x) 1 (b_data x)) _ _ Hi) (bo_lock _ _ _ _ _ Hok)). by rewrite setb_setb.
Qed.

(** [bread] of a block that the caller does not hold. *)
Lemma bread_run held s b :
  bio_inv held s -> 0 <= b < f_disksize s ->
  (forall i d, i ∈ held -> ~ holds s i b d) ->
  free_buf held s \/ (exists i x, f_bufs s !! i = Some x /\ caches b x) ->
  exists i s', bread 1 b s = Ret i s' /\ (i ∉ held) /\ bio_inv (i :: held) s' /\ holds s' i b (view s b) /\
    (forall b', view s' b' = view s b') /\ same_dirty s s' /\ same_but_cache s s' /\ (forall j, j <> i -> f_bufs s' !! j = f_bufs s !! j).
Proof.
  intros H Hb Hnh Hroom. unfold bread.
  destruct (scan (fun x => (b_dev x =? 1) && (b_blockno x =? b)) (f_lru s) (f_bufs s)) as [i|] eqn:E1.
  - pose proof E1 as E1'. apply scan_Some in E1 as (_ & x & Hi & Hp). apply andb_true_iff in Hp as [Hdev Hbn]. apply Z.eqb_eq in Hdev, Hbn.
    assert (Hni : i ∉ held). { intros Hin. apply (Hnh i (b_data x) Hin). by exists x. }
    pose proof (bi_buf _ _ H i x Hi) as Hok. rewrite bool_decide_false in Hok by done. destruct Hok as [A1 A2 A3 A4 A5 A6 A7 A8].
    destruct (flags_tests x A3) as [Hval _].
    mstep (bget_hit held s b i x H E1' Hi Hni). set (y := locked s (set_b_refcnt (u32 (b_refcnt x + 1)) x)).
    mstep (getb_run _ _ _ (lookup_setb i y s x Hi)).
    change (is_valid y) with (is_valid x). rewrite Hval.
    assert (Hun : forall j z, j <> i -> f_bufs s !! j = Some z -> b_dev z = 1 -> b_blockno z <> b).
    { intros j z Hji Hj Hz He. apply Hji. eapply (bi_uniq _ _ H); [done|done|done|done|congruence]. }
    destruct (Z.eqb_spec (b_flags x) 0) as [Hf|Hf]; cbn [negb].
    + pose proof (iderw_read (setb i y s) i y (lookup_setb i y s x Hi) eq_refl Hf Hdev) as Hrd.
      change (b_blockno y) with (b_blockno x) in Hrd. rewrite Hbn in Hrd. specialize (Hrd (proj2 Hb)). mstep Hrd. rewrite setb_setb.
      change (disk (setb i y s)) with (disk s). set (y2 := mkbuf 2 1 b _ _ _).
      assert (Hv : view s b = disk s b).
      { apply view_uncached. intros j z Hj (Hz1 & Hz2 & Hz3). destruct (decide (j = i)) as [->|Hji]; [congruence|]. by apply (Hun j z). }
      destruct (take_buf held s i x y2 H Hi Hni) as (I1 & I2 & I3); [|done|by rewrite Hf|done|by symmetry|done|].
      { split; try done; [simpl; by rewrite A1|by right; left|by left|intros _; by apply H]. }
      exists i, (setb i y2 s). split; [done|]. split; [done|]. split; [done|]. split; [exists y2; by rewrite Hv, (lookup_setb i y2 s x Hi)|].
      split; [done|]. split; [done|]. split; [done|]. intros j Hj. simpl. by rewrite list_lookup_insert_ne.
    + rewrite bind_mret. assert (Hv : view s b = b_data x) by (eapply view_cached; [done|done|by split]).
      destruct (take_buf held s i x y H Hi Hni) as (I1 & I2 & I3).
      { split; simpl; [by rewrite A1|done|done|by left|done|done|done|done]. }
      { done. } { done. } { done. } { simpl. rewrite Hbn. by rewrite Hv. } { simpl. by rewrite Hbn. }
      exists i, (setb i y s). split; [done|]. split; [done|]. split; [done|]. split; [exists y; by rewrite Hv, (lookup_setb i y s x Hi)|].
      split; [done|]. split; [done|]. split; [done|]. intros j Hj. simpl. by rewrite list_lookup_insert_ne.
  - assert (Hun : forall j z, f_bufs s !! j = Some z -> b_dev z = 1 -> b_blockno z <> b).
    { intros j z Hj Hz He. pose proof (scan_None _ _ _ _ _ E1 (lru_all _ _ _ _ H Hj) Hj) as Hs. cbv beta in Hs. by rewrite Hz, He, !Z.eqb_refl in Hs. }
    assert (Hnc : forall j z, f_bufs s !! j = Some z -> ~ caches b z) by (intros j z Hj (Hz1 & Hz2 & _); by apply (Hun j z)).
    destruct Hroom as [(f & w & Hf & Hfn & Hfd)|(f & w & Hf & Hfc)]; [|by destruct (Hnc f w Hf)].
    destruct (scan (fun x => (b_refcnt x =? 0) && negb (is_dirty x)) (rev (f_lru s)) (f_bufs s)) as [i|] eqn:E2.
    2:{ pose proof (scan_None _ _ _ f w E2) as Hs. rewrite list_elem_of_In, <- in_rev, <- list_elem_of_In in Hs. specialize (Hs (lru_all _ _ _ _ H Hf) Hf).
        pose proof (bi_buf _ _ H f w Hf) as Hok. rewrite bool_decide_false in Hok by done. destruct (flags_tests w (bo_flags _ _ _ _ _ Hok)) as [_ Hdt].
        cbv beta in Hs. rewrite (bo_ref _ _ _ _ _ Hok), Hdt, (proj2 (Z.eqb_neq _ _) Hfd) in Hs. done. }
    pose proof E2 as E2'. apply scan_Some in E2 as (_ & x & Hi & Hp). apply andb_true_iff in Hp as [Href Hnd]. apply Z.eqb_eq in Href.
    pose proof (bi_buf _ _ H i x Hi) as Hok. destruct (flags_tests x (bo_flags _ _ _ _ _ Hok)) as [_ Hdt]. rewrite Hdt in Hnd.
    apply negb_true_iff, Z.eqb_neq in Hnd.
    assert (Hni : i ∉ held). { intros Hin. pose proof (bo_ref _ _ _ _ _ Hok) as Hr. rewrite bool_decide_true in Hr by done. lia. }
    rewrite bool_decide_false in Hok by done.
    mstep (bget_miss held s b i x H E1 E2' Hi Hni). set (y := locked s (mkbuf 0 1 b (b_lock x) 1 (b_data x))).
    mstep (getb_run _ _ _ (lookup_setb i y s x Hi)).
    change (is_valid y) with false. cbv iota.
    pose proof (iderw_read (setb i y s) i y (lookup_setb i y s x Hi) eq_refl eq_refl eq_refl (proj2 Hb)) as Hrd. mstep Hrd. rewrite setb_setb.
    change (disk (setb i y s)) with (disk s). set (y2 := mkbuf 2 1 _ _ _ _).
    assert (Hv : view s b = disk s b) by (by apply view_uncached).
    destruct (take_buf held s i x y2 H Hi Hni) as (I1 & I2 & I3); [|done|by intros ?|done|by symmetry|intros j z _; apply Hun|].
    { split; try done; [by right; left|by left|intros _; by apply H]. }
    exists i, (setb i y2 s). split; [done|]. split; [done|]. split; [done|]. split; [exists y2; by rewrite Hv, (lookup_setb i y2 s x Hi)|].
    split; [done|]. split; [done|]. split; [done|]. intros j Hj. simpl. by rewrite list_lookup_insert_ne.
Qed.

Lemma bio_inv_perm held held' s : bio_inv held s -> held ≡ₚ held' -> bio_inv held' s.
Proof.
  intros H Hp. destruct H as [A1 A2 A3 A4 A5 A6]. split; [done|done|by rewrite <- Hp|done| |done].
  intros i x Hi. assert (bool_decide (i ∈ held') = bool_decide (i ∈ held)) as ->; [|by apply A5].
  apply bool_decide_ext. by rewrite Hp.
Qed.

(** A buffer in use: its fields. *)
Lemma held_buf held s i x :
  bio_inv held s -> i ∈ held -> f_bufs s !! i = Some x ->
  b_refcnt x = 1 /\ sl_locked (b_lock x) = 1 /\ b_dev x = 1 /\ 0 <= b_blockno x < f_disksize s /\ (b_flags x = 2 \/ b_flags x = 6) /\
  length (b_data x) = 512%nat.
Proof.
  intros H Hin Hi. pose proof (bi_buf _ _ H i x Hi) as Hok. rewrite bool_decide_true in Hok by done. destruct Hok as [A1 A2 A3 A4 A5 A6 A7 A8].
  specialize (A8 eq_refl). destruct A4 as [A4|(_ & _ & ?)]; [|done]. do 2 (split; [done|]). split; [done|]. split; [auto|].
  split; [|auto]. destruct A3 as [?|?]; [done|done].
Qed.

Lemma held_lookup held s i : bio_inv held s -> i ∈ held -> (i < 30)%nat -> exists x, f_bufs s !! i = Some x.
Proof. intros H _ Hlt. apply lookup_lt_is_Some_2. by rewrite (bi_len _ _ H). Qed.

Lemma brelse_run held s i x :
  bio_inv (i :: held) s -> f_bufs s !! i = Some x ->
  exists s', brelse i s = Ret tt s' /\ bio_inv held s' /\ (forall b, view s' b = view s b) /\ same_dirty s s' /\
    same_but_cache s s' /\ (forall j, j <> i -> f_bufs s' !! j = f_bufs s !! j).
Proof.
  intros H Hi. destruct (held_buf _ _ _ _ H ltac:(left) Hi) as (Hr & Hl & Hd & Hbr & Hf & Hlen). unfold brelse.
  mstep (holdingsleep_buf _ _ _ Hi). rewrite Hl. cbn [Z.eqb]. rewrite bind_unless_false. unfold releasesleep, setlk.
  mstep (updb_run _ _ _ (set_b_lock (mksleep 0 0)) Hi). set (x1 := set_b_lock (mksleep 0 0) x).
  mstep (updb_run _ _ _ (fun x => set_b_refcnt (u32 (b_refcnt x - 1)) x) (lookup_setb i x1 s x Hi)). rewrite setb_setb.
  change (b_refcnt x1) with (b_refcnt x). rewrite Hr. change (u32 (1 - 1)) with 0.
  set (y := set_b_refcnt 0 x1). mstep (getb_run _ _ _ (lookup_setb i y s x Hi)). change (b_refcnt y =? 0) with true. cbv iota.
  pose (s' := set_f_lru (i :: filter (fun j => j <> i) (f_lru s)) (setb i y s)). assert (Hnd : (i ∉ held) /\ NoDup held) by (pose proof (bi_nodup _ _ H) as Hn; by apply NoDup_cons in Hn).
  assert (Hlru : i :: filter (fun j => j <> i) (f_lru s) ≡ₚ f_lru s).
  { pose proof (lru_all _ _ _ _ H Hi) as Hin. assert (HndL : NoDup (f_lru s)) by (rewrite (bi_lru _ _ H); apply NoDup_seq).
    apply NoDup_Permutation; [|done|].
    - apply NoDup_cons. split; [|by apply NoDup_filter]. intros Hx. apply list_elem_of_filter in Hx as [? _]. done.
    - intros j. rewrite elem_of_cons, list_elem_of_filter. split; [intros [->|[_ ?]]; done|]. intros Hj.
      destruct (decide (j = i)); [by left|by right]. }
  assert (Hinv : bio_inv held s').
  { pose proof (bi_buf _ _ H i x Hi) as Hok. rewrite bool_decide_true in Hok by left. destruct Hok as [A1 A2 A3 A4 A5 A6 A7 A8].
    eapply (bio_replace (i :: held) held s s' i x y); try done; [intros _; by apply H|apply Hnd| | |].
    - intros j Hj. rewrite elem_of_cons. split; [by right|]. by intros [?|?].
    - rewrite bool_decide_false by apply Hnd. split; try done. by left.
    - intros _ j z Hji Hj Hz He. apply Hji. eapply (bi_uniq _ _ H); [done|done|done|done|exact He]. }
  exists s'. split; [done|]. split; [done|]. split.
  - intros b. rewrite (view_replace _ _ s s' i x y H Hinv Hi eq_refl); [|split; [done|split; [done|]]; simpl; lia|by left|done].
    destruct (decide (b = b_blockno y)) as [->|]; [|done]. symmetry. apply (view_cached _ s i x _ H Hi).
    split; [done|]. split; [done|]. lia.
  - split; [by eapply same_dirty_replace|]. split; [done|]. intros j Hj. simpl. by rewrite list_lookup_insert_ne.
Qed.

(** The fields that neither the cache nor the disk touch. *)
Definition same_but_disk (s s' : fstate) : Prop :=
  f_img s' = f_img s /\ f_disksize s' = f_disksize s /\ f_log s' = f_log s /\ f_sb s' = f_sb s /\
  f_inodes s' = f_inodes s /\ f_files s' = f_files s /\ f_pid s' = f_pid s /\ f_cwd s' = f_cwd s.

(** Filling a held buffer and writing it to the disk. *)
Lemma bwrite_run held s i b d0 d :
  bio_inv (i :: held) s -> holds s i b d0 -> length d = 512%nat ->
  exists s', (updb i (set_b_data d);; bwrite i) s = Ret tt s' /\ bio_inv (i :: held) s' /\ holds s' i b d /\
    f_writes s' = (b, d) :: f_writes s /\ (forall b', view s' b' = if decide (b' = b) then d else view s b') /\
    (forall b', dirty_block s' b' <-> dirty_block s b' /\ b' <> b) /\ same_but_disk s s' /\
    (forall j, j <> i -> f_bufs s' !! j = f_bufs s !! j).
Proof.
  intros H (x & Hi & _ & Hxb & _) Hd. destruct (held_buf _ _ _ _ H ltac:(left) Hi) as (Hr & Hl & Hdev & Hbr & Hf & Hlen).
  rewrite Hxb in Hbr. mstep (updb_run _ _ _ (set_b_data d) Hi). set (x1 := set_b_data d x). unfold bwrite.
  mstep (holdingsleep_buf _ _ _ (lookup_setb i x1 s x Hi)). change (sl_locked (b_lock x1)) with (sl_locked (b_lock x)). rewrite Hl. cbn [Z.eqb].
  rewrite bind_unless_false. mstep (updb_run _ _ _ (fun x => set_b_flags (Z.lor (b_flags x) B_DIRTY) x) (lookup_setb i x1 s x Hi)).
  rewrite setb_setb. assert (Z.lor (b_flags x1) B_DIRTY = 6) as -> by (change (b_flags x1) with (b_flags x); by destruct Hf as [-> | ->]).
  set (x2 := set_b_flags 6 x1). rewrite (iderw_write _ i x2 (lookup_setb i x2 s x Hi)); [|done|done|done|simpl; lia]. rewrite setb_setb.
  simpl b_blockno. simpl b_data. simpl b_lock. simpl b_refcnt. rewrite Hxb.
  set (y := mkbuf 2 1 b (b_lock x) (b_refcnt x) d). set (s' := set_f_writes _ _).
  assert (Hdk : forall b', disk s' b' = if decide (b' = b) then d else disk s b').
  { intros b'. unfold disk, s'. simpl. destruct (Z.eqb_spec b' b); [by rewrite decide_True|by rewrite decide_False]. }
  assert (Hun : forall j z, j <> i -> f_bufs s !! j = Some z -> b_dev z = 1 -> b_blockno z <> b).
  { intros j z Hji Hj Hz He. apply Hji. eapply (bi_uniq _ _ H); [done|done|done|done|congruence]. }
  assert (Hinv : bio_inv (i :: held) s').
  { eapply (bio_replace (i :: held) (i :: held) s s' i x y); try done.
    - intros b' [Hb'|Hb']; [|done]. rewrite Hdk, decide_False by done. done.
    - intros _. rewrite Hdk, decide_True by done. done.
    - apply H.
    - rewrite bool_decide_true by left. split; try done; [by right; left|by left|].
      intros _ _. simpl. by rewrite Z.eqb_refl. }
  exists s'. split; [done|]. split; [done|]. split; [exists y; split; [by apply (lookup_setb i y s x)|done]|]. split; [done|]. split.
  - apply (view_replace _ _ s s' i x y H Hinv Hi eq_refl); [done|by left|]. intros b' Hb'. rewrite Hdk, decide_False by done. done.
  - split; [|split; [done|intros j Hj; simpl; by rewrite list_lookup_insert_ne]]. intros b'. split.
    + intros (j & z & Hj & Hc & Hz). simpl in Hj. apply insert_lookup_cases in Hj as [(<- & <- & _)|[Hij Hj]]; [done|].
      split; [by exists j, z|]. destruct Hc as (Hc1 & <- & _). apply (Hun j z); [congruence|done|done].
    + intros [(j & z & Hj & Hc & Hz) Hne]. exists j, z. split; [|done]. simpl. rewrite list_lookup_insert_ne; [done|].
      intros <-. rewrite Hi in Hj. injection Hj as <-. destruct Hc as (_ & Hc & _). congruence.
Qed.
