(* ===== verification/Log.v ===== *)
(** * The log (log.c) and the superblock

    The operations of log.c as written, on the buffer cache of Bio.v.  An
    operation that has to wait in [begin_op] ends in [Wait].  [readsb] is the
    function of fs.c that [initlog] calls. *)

From Stdlib Require Import ZArith Lia.
From stdpp Require Import base numbers strings gmap list.
From S2P Require Import Prelude.
From S2P Require Import Machine.
From S2P Require Import FState.
From S2P Require Import Blocks.
From S2P Require Import Bio.

Local Open Scope string_scope.
Local Open Scope list_scope.
Local Open Scope Z_scope.

Definition updlog (f : logst -> logst) : M fstate unit := modify (fun s => set_f_log (f (f_log s)) s).
Definition bdata (i : nat) : M fstate (list Z) := b ← getb i; mret (b_data b).
Definition set_bdata (i : nat) (d : list Z) : M fstate unit := updb i (set_b_data d).

Definition decode_sb (d : list Z) : superblock :=
  mksb (get32 d 0) (get32 d 4) (get32 d 8) (get32 d 12) (get32 d 16) (get32 d 20) (get32 d 24).

Definition readsb (dev : Z) : M fstate superblock :=
  bp ← bread dev 1;
  d ← bdata bp;
  brelse bp;;
  mret (decode_sb d).

(** The loop of [install_trans] from [tail] on. *)
Fixpoint install_loop (n : nat) (tail : Z) : M fstate unit :=
  match n with
  | O => mret tt
  | S n =>
      lg ← gets f_log;
      lbuf ← bread (lg_dev lg) (lg_start lg + tail + 1);
      b ← of_option "lh.block" (zget (lh_block lg) tail);
      dbuf ← bread (lg_dev lg) b;
      d ← bdata lbuf;
      set_bdata dbuf d;;
      bwrite dbuf;;
      brelse lbuf;;
      brelse dbuf;;
      install_loop n (tail + 1)
  end.
Definition install_trans : M fstate unit := lg ← gets f_log; install_loop (Z.to_nat (lh_n lg)) 0.

(** [log.lh.block[i] = lh->block[i]] for [i < n]. *)
Fixpoint read_blocks (n : nat) (d : list Z) (i : nat) (bl : list Z) : option (list Z) :=
  match n with
  | O => Some bl
  | S n => bl' ← zset (Z.of_nat i) (get32 d (4 + 4 * i)) bl; read_blocks n d (S i) bl'
  end.

Definition read_head : M fstate unit :=
  lg ← gets f_log;
  buf ← bread (lg_dev lg) (lg_start lg);
  d ← bdata buf;
  let n := i32 (get32 d 0) in
  bl ← of_option "lh.block" (read_blocks (Z.to_nat n) d 0 (lh_block lg));
  updlog (fun lg => set_lh_block bl (set_lh_n n lg));;
  brelse buf.

Definition write_head : M fstate unit :=
  lg ← gets f_log;
  buf ← bread (lg_dev lg) (lg_start lg);
  d ← bdata buf;
  set_bdata buf (put32s 4 (take (Z.to_nat (lh_n lg)) (lh_block lg)) (put32 0 (u32 (lh_n lg)) d));;
  bwrite buf;;
  brelse buf.

Definition recover_from_log : M fstate unit :=
  read_head;;
  install_trans;;
  updlog (set_lh_n 0);;
  write_head.

(** [sizeof(struct logheader)] is 4 + 4 * LOGSIZE. *)
Definition initlog (dev : Z) : M fstate unit :=
  unless_panic (BSIZE <=? 4 + 4 * LOGSIZE) "initlog: too big logheader";;
  sb ← readsb dev;
  updlog (fun lg => set_lg_dev dev (set_lg_size (sb_nlog sb) (set_lg_start (sb_logstart sb) lg)));;
  recover_from_log.

Definition begin_op : M fstate unit :=
  lg ← gets f_log;
  if negb (lg_committing lg =? 0) then stall OnSched
  else if LOGSIZE <? lh_n lg + (lg_outstanding lg + 1) * MAXOPBLOCKS then stall OnSched
  else updlog (fun lg => set_lg_outstanding (lg_outstanding lg + 1) lg).

Fixpoint write_log_loop (n : nat) (tail : Z) : M fstate unit :=
  match n with
  | O => mret tt
  | S n =>
      lg ← gets f_log;
      to ← bread (lg_dev lg) (lg_start lg + tail + 1);
      b ← of_option "lh.block" (zget (lh_block lg) tail);
      from ← bread (lg_dev lg) b;
      d ← bdata from;
      set_bdata to d;;
      bwrite to;;
      brelse from;;
      brelse to;;
      write_log_loop n (tail + 1)
  end.
Definition write_log : M fstate unit := lg ← gets f_log; write_log_loop (Z.to_nat (lh_n lg)) 0.

Definition commit : M fstate unit :=
  lg ← gets f_log;
  if 0 <? lh_n lg then
    write_log;;
    write_head;;
    install_trans;;
    updlog (set_lh_n 0);;
    write_head
  else mret tt.

Definition end_op : M fstate unit :=
  updlog (fun lg => set_lg_outstanding (lg_outstanding lg - 1) lg);;
  lg ← gets f_log;
  unless_panic (negb (lg_committing lg =? 0)) "log.committing";;
  if lg_outstanding lg =? 0 then
    updlog (set_lg_committing 1);;
    commit;;
    updlog (set_lg_committing 0)
  else mret tt.

Definition log_write (i : nat) : M fstate unit :=
  lg ← gets f_log;
  b ← getb i;
  unless_panic ((LOGSIZE <=? lh_n lg) || (lg_size lg - 1 <=? lh_n lg)) "too big a transaction";;
  unless_panic (lg_outstanding lg <? 1) "log_write outside of trans";;
  let pos := default (Z.to_nat (lh_n lg)) (find_first (fun x => x =? b_blockno b) (take (Z.to_nat (lh_n lg)) (lh_block lg))) in
  bl ← of_option "lh.block" (zset (Z.of_nat pos) (b_blockno b) (lh_block lg));
  updlog (fun lg => set_lh_n (if Z.of_nat pos =? lh_n lg then lh_n lg + 1 else lh_n lg) (set_lh_block bl lg));;
  updb i (fun x => set_b_flags (Z.lor (b_flags x) B_DIRTY) x).
