(* ===== verification/LogSpec.v ===== *)
(** * The log: commit, recovery and crashes

    [commit] is followed through its disk writes, and recovery is run on the
    disk as it is after any prefix of them. *)

From Stdlib Require Import ZArith Lia.
From stdpp Require Import base numbers strings gmap list.
From S2P Require Import Prelude.
From S2P Require Import Machine.
From S2P Require Import FState.
From S2P Require Import Blocks.
From S2P Require Import Bio.
From S2P Require Import Log.

Local Open Scope string_scope.
Local Open Scope list_scope.
Local Open Scope Z_scope.

(** ** Room in the cache *)

(** At most [n] blocks are dirty. *)
Definition dirty_at_most (n : nat) (s : fstate) : Prop :=
  exists D, (length D <= n)%nat /\ forall b, dirty_block s b -> b ∈ D.

Lemma dirty_same n s s' : dirty_at_most n s -> (forall b, dirty_block s' b -> dirty_block s b) -> dirty_at_most n s'.
Proof. intros (D & Hl & HD) H. exists D. split; [done|]. auto. Qed.

Lemma capacity held n s :
  bio_inv held s -> dirty_at_most n s -> (n + length held < 30)%nat -> free_buf held s.
Proof.
  intros H (D & Hl & HD) Hlt.
  set (idx := filter (fun i => (i ∉ held)) (seq 0 30)).
  destruct (decide (Exists (fun i => b_flags (default buf0 (f_bufs s !! i)) <> 6) idx)) as [He|Hne].
  - apply Exists_exists in He as (i & Hi & Hx). apply list_elem_of_filter in Hi as [Hn Hi]. apply elem_of_seq in Hi.
    destruct (lookup_lt_is_Some_2 (f_bufs s) i) as [x E]; [rewrite (bi_len _ _ H); lia|]. rewrite E in Hx. by exists i, x.
  - exfalso. assert (Hall : forall i, i ∈ idx -> exists x, f_bufs s !! i = Some x /\ b_flags x = 6 /\ caches (b_blockno x) x).
    { intros i Hi. pose proof Hi as Hi'. apply list_elem_of_filter in Hi' as [Hn Hs]. apply elem_of_seq in Hs.
      destruct (lookup_lt_is_Some_2 (f_bufs s) i) as [x Hx]; [rewrite (bi_len _ _ H); lia|]. exists x. split; [done|].
      assert (b_flags x = 6) as H6.
      { destruct (decide (b_flags x = 6)); [done|]. destruct Hne. apply Exists_exists. exists i. by rewrite Hx. }
      split; [done|]. split; [|split; [done|by rewrite H6]].
      destruct (bo_dev _ _ _ _ _ (bi_buf _ _ H i x Hx)) as [?|(_ & ? & _)]; [done|congruence]. }
    set (bl := (fun i => match f_bufs s !! i with Some x => b_blockno x | None => 0 end) <$> idx).
    assert (Hnd : NoDup bl).
    { apply NoDup_fmap_2_strong; [|apply NoDup_filter, NoDup_seq]. intros i j Hi Hj He.
      destruct (Hall i Hi) as (x & Hx & _ & Hc & _), (Hall j Hj) as (y & Hy & _ & Hc' & _). rewrite Hx, Hy in He.
      by eapply (bi_uniq _ _ H). }
    assert (Hsub : bl ⊆+ D).
    { apply NoDup_submseteq; [done|]. intros b Hb. apply list_elem_of_fmap in Hb as (i & -> & Hi).
      destruct (Hall i Hi) as (x & Hx & H6 & Hc). rewrite Hx. apply HD. by exists i, x. }
    apply submseteq_length in Hsub. unfold bl in Hsub. rewrite length_fmap in Hsub.
    assert (30 <= length idx + length held)%nat; [|lia].
    rewrite <- length_app. change 30%nat with (length (seq 0 30)) at 1. apply submseteq_length, NoDup_submseteq; [apply NoDup_seq|].
    intros i Hi. rewrite elem_of_app. destruct (decide (i ∈ held)); [by right|left]. by apply list_elem_of_filter.
Qed.

(** ** One block copied to the disk *)

(** [b] was written to the disk with contents [d], by a caller that holds no
    buffer before and after. *)
Definition wrote (s s' : fstate) (b : Z) (d : list Z) : Prop :=
  bio_inv [] s' /\ f_writes s' = (b, d) :: f_writes s /\
  (forall b', view s' b' = if decide (b' = b) then d else view s b') /\
  (forall b', dirty_block s' b' <-> dirty_block s b' /\ b' <> b) /\ same_but_disk s s'.

Lemma same_but_cache_disk s s' : same_but_cache s s' -> same_but_disk s s'.
Proof. intros (? & ? & ? & ? & ? & ? & ? & ? & ?). by repeat split. Qed.

Lemma same_but_disk_trans s1 s2 s3 : same_but_disk s1 s2 -> same_but_disk s2 s3 -> same_but_disk s1 s3.
Proof. intros (? & ? & ? & ? & ? & ? & ? & ?) (? & ? & ? & ? & ? & ? & ? & ?). repeat split; congruence. Qed.

Lemma bdata_run s i b d : holds s i b d -> bdata i s = Ret d s.
Proof. intros (x & Hx & _ & _ & <-). unfold bdata. by mstep (getb_run _ _ _ Hx). Qed.

Lemma holds_other s s' i j b d :
  holds s i b d -> i <> j -> (forall k, k <> j -> f_bufs s' !! k = f_bufs s !! k) -> holds s' i b d.
Proof. intros (x & Hx & R) Hne Hs. exists x. by rewrite Hs. Qed.

(** Two buffers read, the contents of one put into the other, which is written
    ([w] first or second), and both released. *)
Lemma copy_first {B} s a b bl t (K : unit -> M fstate B) :
  bio_inv [] s -> 0 <= a < f_disksize s -> 0 <= b < f_disksize s -> a <> b ->
  zget bl t = Some b -> dirty_at_most 29 s -> dirty_block s b ->
  exists s', (to ← bread 1 a; b0 ← of_option "lh.block" (zget bl t); from ← bread 1 b0; d ← bdata from;
              set_bdata to d;; bwrite to;; brelse from;; brelse to ≫= K) s = K tt s' /\ wrote s s' a (view s b).
Proof.
  intros H Ha Hb Hab Hz Hd Hdb.
  destruct (bread_run [] s a H Ha) as (i & s1 & Hr1 & _ & H1 & Hi1 & Hv1 & Hd1 & Hs1 & Ho1).
  { intros i d Hi. by apply elem_of_nil in Hi. } { left. eapply capacity; [done|done|simpl; lia]. }
  mstep Hr1. rewrite Hz, bind_some.
  assert (Hb1 : 0 <= b < f_disksize s1) by (destruct Hs1 as (_ & _ & -> & _); done).
  destruct (bread_run [i] s1 b H1 Hb1) as (j & s2 & Hr2 & Hji & H2 & Hj2 & Hv2 & Hd2 & Hs2 & Ho2).
  { intros k d Hk (x & Hx & _ & Hxb & _). apply list_elem_of_singleton in Hk as ->. destruct Hi1 as (y & Hy & _ & Hyb & _). congruence. }
  { right. apply Hd1 in Hdb. destruct Hdb as (k & x & Hk & Hc & _). eauto. }
  assert (Hne : i <> j) by (intros ->; apply Hji; by left).
  mstep Hr2. mstep (bdata_run _ _ _ _ Hj2). rewrite Hv1 in Hj2 |- *.
  assert (Hlen : length (view s b) = 512%nat) by by eapply view_length.
  assert (H2' : bio_inv [i; j] s2) by (eapply bio_inv_perm; [exact H2|apply perm_swap]).
  pose proof (holds_other _ _ _ _ _ _ Hi1 Hne Ho2) as Hi2.
  destruct (bwrite_run [j] s2 i a _ (view s b) H2' Hi2 Hlen) as (s3 & Hr3 & H3 & Hi3 & Hw3 & Hv3 & Hd3 & Hs3 & Ho3).
  unfold set_bdata. rewrite <- (bind_assoc_run (updb i (set_b_data (view s b))) (fun _ => bwrite i)). mstep Hr3.
  pose proof (holds_other _ _ _ _ _ _ Hj2 (not_eq_sym Hne) Ho3) as (xj & Hxj & _).
  destruct (brelse_run [i] s3 j xj) as (s4 & Hr4 & H4 & Hv4 & Hd4 & Hs4 & Ho4); [eapply bio_inv_perm; [exact H3|apply perm_swap]|done|].
  mstep Hr4. destruct (holds_other _ _ _ _ _ _ Hi3 Hne Ho4) as (xi & Hxi & _).
  destruct (brelse_run [] s4 i xi H4 Hxi) as (s5 & Hr5 & H5 & Hv5 & Hd5 & Hs5 & _). mstep Hr5. exists s5. split; [done|].
  split; [done|]. split.
  { destruct Hs1 as (_ & E1 & _), Hs2 as (_ & E2 & _), Hs4 as (_ & E4 & _), Hs5 as (_ & E5 & _). congruence. }
  split. { intros b'. rewrite Hv5, Hv4, Hv3. destruct (decide (b' = a)); [done|]. by rewrite Hv2, Hv1. }
  split. { intros b'. rewrite (Hd5 b'), (Hd4 b'), Hd3, (Hd2 b'), (Hd1 b'). done. }
  eapply same_but_disk_trans; [by apply same_but_cache_disk|]. eapply same_but_disk_trans; [by apply same_but_cache_disk|].
  eapply same_but_disk_trans; [done|]. eapply same_but_disk_trans; apply same_but_cache_disk; done.
Qed.

Lemma copy_second {B} s a b bl t (K : unit -> M fstate B) :
  bio_inv [] s -> 0 <= a < f_disksize s -> 0 <= b < f_disksize s -> a <> b ->
  zget bl t = Some b -> dirty_at_most 29 s -> dirty_block s b \/ dirty_at_most 28 s ->
  exists s', (lbuf ← bread 1 a; b0 ← of_option "lh.block" (zget bl t); dbuf ← bread 1 b0; d ← bdata lbuf;
              set_bdata dbuf d;; bwrite dbuf;; brelse lbuf;; brelse dbuf ≫= K) s = K tt s' /\ wrote s s' b (view s a).
Proof.
  intros H Ha Hb Hab Hz Hd Hdb.
  destruct (bread_run [] s a H Ha) as (i & s1 & Hr1 & _ & H1 & Hi1 & Hv1 & Hd1 & Hs1 & Ho1).
  { intros i d Hi. by apply elem_of_nil in Hi. } { left. eapply capacity; [done|done|simpl; lia]. }
  mstep Hr1. rewrite Hz, bind_some.
  assert (Hb1 : 0 <= b < f_disksize s1) by (destruct Hs1 as (_ & _ & -> & _); done).
  destruct (bread_run [i] s1 b H1 Hb1) as (j & s2 & Hr2 & Hji & H2 & Hj2 & Hv2 & Hd2 & Hs2 & Ho2).
  { intros k d Hk (x & Hx & _ & Hxb & _). apply list_elem_of_singleton in Hk as ->. destruct Hi1 as (y & Hy & _ & Hyb & _). congruence. }
  { destruct Hdb as [Hdb|Hdb]; [right; apply Hd1 in Hdb; destruct Hdb as (k & x & Hk & Hc & _); eauto|left].
    eapply capacity; [done|eapply (dirty_same 28 s); [done|intros b'; apply Hd1]|simpl; lia]. }
  assert (Hne : i <> j) by (intros ->; apply Hji; by left).
  mstep Hr2. pose proof (holds_other _ _ _ _ _ _ Hi1 Hne Ho2) as Hi2. mstep (bdata_run _ _ _ _ Hi2).
  assert (Hlen : length (view s a) = 512%nat) by by eapply view_length.
  destruct (bwrite_run [i] s2 j b _ (view s a) H2 Hj2 Hlen) as (s3 & Hr3 & H3 & Hj3 & Hw3 & Hv3 & Hd3 & Hs3 & Ho3).
  unfold set_bdata. rewrite <- (bind_assoc_run (updb j (set_b_data (view s a))) (fun _ => bwrite j)). mstep Hr3.
  pose proof (holds_other _ _ _ _ _ _ Hi2 Hne Ho3) as (xi & Hxi & _).
  destruct (brelse_run [j] s3 i xi) as (s4 & Hr4 & H4 & Hv4 & Hd4 & Hs4 & Ho4); [eapply bio_inv_perm; [exact H3|apply perm_swap]|done|].
  mstep Hr4. destruct (holds_other _ _ _ _ _ _ Hj3 (not_eq_sym Hne) Ho4) as (xj & Hxj & _).
  destruct (brelse_run [] s4 j xj H4 Hxj) as (s5 & Hr5 & H5 & Hv5 & Hd5 & Hs5 & _). mstep Hr5. exists s5. split; [done|].
  split; [done|]. split.
  { destruct Hs1 as (_ & E1 & _), Hs2 as (_ & E2 & _), Hs4 as (_ & E4 & _), Hs5 as (_ & E5 & _). congruence. }
  split. { intros b'. rewrite Hv5, Hv4, Hv3. destruct (decide (b' = b)); [done|]. by rewrite Hv2, Hv1. }
  split. { intros b'. rewrite (Hd5 b'), (Hd4 b'), Hd3, (Hd2 b'), (Hd1 b'). done. }
  eapply same_but_disk_trans; [by apply same_but_cache_disk|]. eapply same_but_disk_trans; [by apply same_but_cache_disk|].
  eapply same_but_disk_trans; [done|]. eapply same_but_disk_trans; apply same_but_cache_disk; done.
Qed.

(** ** Sequences of writes, newest first *)

Fixpoint over (ws : list (Z * list Z)) (v : Z -> list Z) (b : Z) : list Z :=
  match ws with [] => v b | (b', d) :: ws => if b =? b' then d else over ws v b end.

Lemma over_app ws1 ws2 v b : over (ws1 ++ ws2) v b = over ws1 (over ws2 v) b.
Proof. induction ws1 as [|[b' d] ws1 IH]; simpl; [done|]. by destruct (b =? b'). Qed.

Lemma over_out ws v b : b ∉ ws.*1 -> over ws v b = v b.
Proof.
  induction ws as [|[b' d] ws IH]; simpl; [done|]. intros [Hne Hb]%not_elem_of_cons. rewrite (proj2 (Z.eqb_neq _ _) Hne). auto.
Qed.

Lemma over_in ws v b d : NoDup ws.*1 -> (b, d) ∈ ws -> over ws v b = d.
Proof.
  induction ws as [|[b' d'] ws IH]; simpl; [intros _ H; by apply elem_of_nil in H|].
  intros [Hn Hnd]%NoDup_cons [[= -> ->]|Hin]%elem_of_cons; [by rewrite Z.eqb_refl|].
  destruct (Z.eqb_spec b b') as [->|]; [|auto]. exfalso. apply Hn. apply list_elem_of_fmap. by exists (b', d).
Qed.

Lemma over_ext ws v v' b : v b = v' b -> over ws v b = over ws v' b.
Proof. induction ws as [|[b' d] ws IH]; simpl; [done|]. intros H. destruct (b =? b'); auto. Qed.

Lemma dget_app img W ws b : dget img (W ++ ws) b = over W (dget img ws) b.
Proof. induction W as [|[b' d] W IH]; simpl; [done|]. by destruct (b =? b'). Qed.

(** The blocks of [W] were written, by a caller that holds no buffer. *)
Definition wrotes (s s' : fstate) (W : list (Z * list Z)) : Prop :=
  bio_inv [] s' /\ f_writes s' = W ++ f_writes s /\ (forall b, view s' b = over W (view s) b) /\
  (forall b, dirty_block s' b <-> dirty_block s b /\ b ∉ W.*1) /\ same_but_disk s s'.

Lemma wrotes_refl s : bio_inv [] s -> wrotes s s [].
Proof. intros H. split; [done|]. split; [done|]. split; [done|]. split; [|done]. intros b. simpl. rewrite elem_of_nil. tauto. Qed.

Lemma wrotes_one s s' b d : wrote s s' b d -> wrotes s s' [(b, d)].
Proof.
  intros (H1 & H2 & H3 & H4 & H5). split; [done|]. split; [done|]. split; [|split; [|done]].
  - intros b'. rewrite H3. simpl. destruct (Z.eqb_spec b' b); [by rewrite decide_True|by rewrite decide_False].
  - intros b'. rewrite H4. simpl. by rewrite list_elem_of_singleton.
Qed.

Lemma wrotes_trans s1 s2 s3 W1 W2 : wrotes s1 s2 W1 -> wrotes s2 s3 W2 -> wrotes s1 s3 (W2 ++ W1).
Proof.
  intros (A1 & A2 & A3 & A4 & A5) (B1 & B2 & B3 & B4 & B5). split; [done|]. split; [by rewrite B2, A2, app_assoc|].
  split; [|split; [|by eapply same_but_disk_trans]].
  - intros b. rewrite B3, over_app. by apply over_ext.
  - intros b. rewrite B4, A4, fmap_app, elem_of_app. tauto.
Qed.

Lemma wrotes_disk s s' W b : wrotes s s' W -> disk s' b = over W (disk s) b.
Proof. intros (_ & H2 & _ & _ & (H5 & _)). unfold disk. by rewrite H2, H5, dget_app. Qed.

(** ** The writes of a commit *)

(** In chronological order: the log blocks from position [t] on. *)
Fixpoint log_writes (ls t : Z) (ds : list (list Z)) : list (Z * list Z) :=
  match ds with [] => [] | d :: ds => (ls + t + 1, d) :: log_writes ls (t + 1) ds end.

Definition log_data (v : Z -> list Z) (ls t : Z) (n : nat) : list (list Z) := (fun i => v (ls + (t + Z.of_nat i) + 1)) <$> seq 0 n.

Lemma log_writes_addr ls t ds b : b ∈ (log_writes ls t ds).*1 <-> exists i, (i < length ds)%nat /\ b = ls + (t + Z.of_nat i) + 1.
Proof.
  revert t. induction ds as [|d ds IH]; intros t; simpl.
  - rewrite elem_of_nil. split; [done|]. intros (i & Hi & _). lia.
  - rewrite elem_of_cons, IH. split.
    + intros [->|(i & Hi & ->)]; [exists 0%nat; split; [lia|f_equal; lia]|]. exists (S i). split; [lia|f_equal; lia].
    + intros ([|i] & Hi & ->); [left; f_equal; lia|right]. exists i. split; [lia|f_equal; lia].
Qed.

Lemma log_data_S v ls t n : log_data v ls t (S n) = v (ls + t + 1) :: log_data v ls (t + 1) n.
Proof.
  unfold log_data. change (seq 0 (S n)) with (0%nat :: seq 1 n). rewrite fmap_cons. f_equal; [f_equal; lia|].
  rewrite <- fmap_S_seq, <- list_fmap_compose. apply list_fmap_ext. intros i x _. simpl. f_equal. lia.
Qed.

(** The log blocks of a transaction of [n] blocks are on the disk, apart from
    the home blocks. *)
Record log_geom (s : fstate) (n : nat) (bs : list Z) : Prop := {
  lo_dev : lg_dev (f_log s) = 1;
  lo_start : 0 <= lg_start (f_log s) /\ lg_start (f_log s) + 30 <= f_disksize s;
  lo_n : length bs = n /\ (n <= 29)%nat;
  lo_len : length (lh_block (f_log s)) = 30%nat;
  lo_bs : take n (lh_block (f_log s)) = bs;
  lo_nodup : NoDup bs;
  lo_home : Forall (fun b => 0 <= b < f_disksize s /\ ~ (lg_start (f_log s) <= b < lg_start (f_log s) + 30)) bs }.

Lemma log_geom_disk s s' n bs : log_geom s n bs -> same_but_disk s s' -> log_geom s' n bs.
Proof. intros [A1 A2 A3 A4 A5 A6 A7] (_ & E2 & E3 & _). split; rewrite ?E2, ?E3; done. Qed.

Lemma log_geom_get s n bs t b : log_geom s n bs -> bs !! t = Some b -> zget (lh_block (f_log s)) (Z.of_nat t) = Some b.
Proof.
  intros [A1 A2 A3 A4 A5 A6 A7] Hb. rewrite zget_nat. rewrite <- A5 in Hb. apply lookup_take_Some in Hb. tauto.
Qed.

Lemma write_log_loop_run m s n bs t :
  bio_inv [] s -> log_geom s n bs -> (t + m = n)%nat -> dirty_at_most 29 s ->
  (forall b, b ∈ drop t bs -> dirty_block s b) ->
  exists s', write_log_loop m (Z.of_nat t) s = Ret tt s' /\
    wrotes s s' (rev (log_writes (lg_start (f_log s)) (Z.of_nat t) (view s <$> drop t bs))).
Proof.
  revert s t. induction m as [|m IH]; intros s t H Hg Htm Hd Hdirty; cbn [write_log_loop].
  { exists s. split; [done|]. rewrite drop_ge by (destruct Hg as [_ _ [? _] _ _ _ _]; lia). by apply wrotes_refl. }
  pose proof Hg as [A1 A2 [A3 A3'] A4 A5 A6 A7]. rewrite bind_gets, A1.
  destruct (lookup_lt_is_Some_2 bs t) as [b Hb]; [lia|]. pose proof (drop_S _ _ _ Hb) as Hdrop. rewrite Hdrop in *.
  rewrite Forall_forall in A7. destruct (A7 b ltac:(by eapply list_elem_of_lookup_2)) as [Hbr Hbl].
  destruct (copy_first s (lg_start (f_log s) + Z.of_nat t + 1) b (lh_block (f_log s)) (Z.of_nat t)
              (fun _ => write_log_loop m (Z.of_nat t + 1)) H) as (s1 & Hr1 & Hw1);
    [lia|done|lia|by eapply log_geom_get|done|apply Hdirty; left|].
  rewrite Hr1. apply wrotes_one in Hw1. pose proof Hw1 as (B1 & B2 & B3 & B4 & B5).
  replace (Z.of_nat t + 1) with (Z.of_nat (S t)) by lia.
  assert (Hlog : f_log s1 = f_log s) by (destruct B5 as (_ & _ & ? & _); done).
  assert (Hap : forall b', b' ∈ drop (S t) bs -> b' ∉ [(lg_start (f_log s) + Z.of_nat t + 1, view s b)].*1).
  { intros b' Hb'. simpl. rewrite list_elem_of_singleton. destruct (A7 b') as [_ Hh]; [|lia]. eapply subseteq_drop. exact Hb'. }
  destruct (IH s1 (S t) B1) as (s2 & Hr2 & Hw2); [by eapply log_geom_disk|lia|eapply dirty_same; [done|]; intros b'; rewrite B4; tauto| |].
  { intros b' Hb'. rewrite B4. split; [apply Hdirty; by right|by apply Hap]. }
  exists s2. split; [exact Hr2|]. rewrite Hlog in Hw2. simpl.
  replace (Z.of_nat t + 1) with (Z.of_nat (S t)) by lia.
  assert (view s1 <$> drop (S t) bs = view s <$> drop (S t) bs) as Hveq.
  { apply list_fmap_ext. intros i b' Hb'. rewrite B3. apply over_out, Hap. by eapply list_elem_of_lookup_2. }
  rewrite Hveq in Hw2. by eapply wrotes_trans.
Qed.

Lemma install_loop_run m s n bs t :
  bio_inv [] s -> log_geom s n bs -> (t + m = n)%nat -> dirty_at_most 29 s ->
  ((forall b, b ∈ drop t bs -> dirty_block s b) \/ dirty_at_most 28 s) ->
  exists s', install_loop m (Z.of_nat t) s = Ret tt s' /\
    wrotes s s' (rev (zip (drop t bs) (log_data (view s) (lg_start (f_log s)) (Z.of_nat t) m))).
Proof.
  revert s t. induction m as [|m IH]; intros s t H Hg Htm Hd Hdirty; cbn [install_loop].
  { exists s. split; [done|]. rewrite drop_ge by (destruct Hg as [_ _ [? _] _ _ _ _]; lia). by apply wrotes_refl. }
  pose proof Hg as [A1 A2 [A3 A3'] A4 A5 A6 A7]. rewrite bind_gets, A1.
  destruct (lookup_lt_is_Some_2 bs t) as [b Hb]; [lia|]. pose proof (drop_S _ _ _ Hb) as Hdrop. rewrite Hdrop in *.
  rewrite Forall_forall in A7. destruct (A7 b ltac:(by eapply list_elem_of_lookup_2)) as [Hbr Hbl].
  destruct (copy_second s (lg_start (f_log s) + Z.of_nat t + 1) b (lh_block (f_log s)) (Z.of_nat t)
              (fun _ => install_loop m (Z.of_nat t + 1)) H) as (s1 & Hr1 & Hw1);
    [lia|done|lia|by eapply log_geom_get|done|destruct Hdirty as [Hx|Hx]; [left; apply Hx; left|by right]|].
  rewrite Hr1. apply wrotes_one in Hw1. pose proof Hw1 as (B1 & B2 & B3 & B4 & B5).
  replace (Z.of_nat t + 1) with (Z.of_nat (S t)) by lia.
  assert (Hlog : f_log s1 = f_log s) by (destruct B5 as (_ & _ & ? & _); done).
  assert (Hnd : b ∉ drop (S t) bs).
  { rewrite <- (take_drop t bs), Hdrop in A6. apply NoDup_app in A6 as (_ & _ & A6). apply NoDup_cons in A6. tauto. }
  destruct (IH s1 (S t) B1) as (s2 & Hr2 & Hw2); [by eapply log_geom_disk|lia|eapply dirty_same; [done|]; intros b'; rewrite B4; tauto| |].
  { destruct Hdirty as [Hx|Hx]; [left|right; eapply dirty_same; [done|]; intros b'; rewrite B4; tauto].
    intros b' Hb'. rewrite B4. split; [apply Hx; by right|]. simpl. rewrite list_elem_of_singleton. congruence. }
  exists s2. split; [exact Hr2|]. rewrite Hlog in Hw2. rewrite log_data_S. simpl.
  replace (Z.of_nat t + 1) with (Z.of_nat (S t)) by lia.
  assert (log_data (view s1) (lg_start (f_log s)) (Z.of_nat (S t)) m = log_data (view s) (lg_start (f_log s)) (Z.of_nat (S t)) m) as Hveq.
  { unfold log_data. apply list_fmap_ext. intros i x Hx. apply lookup_seq in Hx as [-> Hx]. rewrite B3. apply over_out. simpl.
    rewrite list_elem_of_singleton. lia. }
  rewrite Hveq in Hw2. by eapply wrotes_trans.
Qed.

(** ** The header block *)

Definition hdr (bs : list Z) (d : list Z) : list Z := put32s 4 bs (put32 0 (u32 (Z.of_nat (length bs))) d).

Lemma hdr_length bs d : length d = 512%nat -> (length bs <= 30)%nat -> length (hdr bs d) = 512%nat.
Proof. intros Hd Hb. unfold hdr. rewrite length_put32s, length_put32; lia || (rewrite length_put32; lia). Qed.

Lemma hdr_n bs d : length d = 512%nat -> (length bs <= 30)%nat -> get32 (hdr bs d) 0 = Z.of_nat (length bs).
Proof.
  intros Hd Hb. unfold hdr. rewrite get32_put32s_before by (rewrite ?length_put32; lia).
  rewrite u32_id by (unfold two32; lia). apply get32_put32; [unfold two32; lia|lia].
Qed.

Lemma hdr_blocks bs d : length d = 512%nat -> (length bs <= 30)%nat -> Forall (fun b => 0 <= b < two32) bs ->
  get32s 4 (length bs) (hdr bs d) = bs.
Proof. intros Hd Hb Hbs. unfold hdr. apply get32s_put32s; [done|]. rewrite length_put32; lia. Qed.

Lemma write_head_run s n bs :
  bio_inv [] s -> log_geom s n bs -> lh_n (f_log s) = Z.of_nat n -> dirty_at_most 29 s ->
  exists s', write_head s = Ret tt s' /\ wrotes s s' [(lg_start (f_log s), hdr bs (view s (lg_start (f_log s))))].
Proof.
  intros H [A1 A2 [A3 A3'] A4 A5 A6 A7] Hn Hd. unfold write_head. rewrite bind_gets, A1. set (ls := lg_start (f_log s)) in *.
  assert (Hls : 0 <= ls < f_disksize s) by lia.
  destruct (bread_run [] s ls H Hls) as (i & s1 & Hr1 & _ & H1 & Hi1 & Hv1 & Hd1 & Hs1 & Ho1).
  { intros i d Hi. by apply elem_of_nil in Hi. } { left. eapply capacity; [done|done|simpl; lia]. }
  mstep Hr1. mstep (bdata_run _ _ _ _ Hi1). rewrite Hn, Nat2Z.id, A5.
  assert (Hlen : length (view s ls) = 512%nat) by by eapply view_length.
  replace (Z.of_nat n) with (Z.of_nat (length bs)) by lia. fold (hdr bs (view s ls)).
  destruct (bwrite_run [] s1 i ls _ (hdr bs (view s ls)) H1 Hi1) as (s2 & Hr2 & H2 & Hi2 & Hw2 & Hv2 & Hd2 & Hs2 & Ho2);
    [apply hdr_length; [done|lia]|].
  unfold set_bdata. rewrite <- (bind_assoc_run (updb i (set_b_data (hdr bs (view s ls)))) (fun _ => bwrite i)). mstep Hr2.
  destruct Hi2 as (x & Hx & _). destruct (brelse_run [] s2 i x H2 Hx) as (s3 & Hr3 & H3 & Hv3 & Hd3 & Hs3 & _). rewrite Hr3.
  exists s3. split; [done|]. apply wrotes_one. split; [done|]. split.
  { destruct Hs1 as (_ & E1 & _), Hs3 as (_ & E3 & _). congruence. }
  split. { intros b'. rewrite Hv3, Hv2. destruct (decide (b' = ls)); [done|]. by rewrite Hv1. }
  split. { intros b'. rewrite (Hd3 b'), Hd2, (Hd1 b'). done. }
  eapply same_but_disk_trans; [by apply same_but_cache_disk|]. eapply same_but_disk_trans; [done|]. by apply same_but_cache_disk.
Qed.

(** Changing the log's fields in memory. *)
Lemma bio_inv_log held s lg : bio_inv held s -> bio_inv held (set_f_log lg s).
Proof. intros [A1 A2 A3 A4 A5 A6]. by split. Qed.

Lemma clean_view s b : bio_inv [] s -> ~ dirty_block s b -> view s b = disk s b.
Proof.
  intros H Hn. destruct (view_cases _ s b H) as [(i & x & Hi & Hc & ->)|[_ ->]]; [|done].
  pose proof (bi_buf _ _ H i x Hi) as Hok. destruct Hc as (H1 & H2 & H3). unfold disk. rewrite <- H2. apply (bo_clean _ _ _ _ _ Hok H1).
  destruct (bo_flags _ _ _ _ _ Hok) as [?|[?|H6]]; [done|done|]. destruct Hn. by exists i, x.
Qed.

(** ** Commit *)

(** Between transactions: the dirty blocks are exactly the logged ones, and
    the header on the disk says that the log is empty. *)
Record log_ready (s : fstate) (bs : list Z) : Prop := {
  lr_bio : bio_inv [] s;
  lr_geom : log_geom s (length bs) bs;
  lr_n : lh_n (f_log s) = Z.of_nat (length bs);
  lr_dirty : forall b, dirty_block s b <-> b ∈ bs;
  lr_clear : get32 (disk s (lg_start (f_log s))) 0 = 0;
  lr_size : f_disksize s < two32 }.

(** The writes of a commit, in order. *)
Definition commit_writes (s : fstate) (bs : list Z) : list (Z * list Z) :=
  let ls := lg_start (f_log s) in
  let ds := view s <$> bs in
  let h := hdr bs (disk s ls) in
  log_writes ls 0 ds ++ [(ls, h)] ++ zip bs ds ++ [(ls, hdr [] h)].

Lemma log_writes_length ls t ds : length (log_writes ls t ds) = length ds.
Proof. revert t. induction ds as [|d ds IH]; intros t; simpl; [done|]. by rewrite IH. Qed.

Lemma log_writes_nodup ls t ds : NoDup (log_writes ls t ds).*1.
Proof.
  revert t. induction ds as [|d ds IH]; intros t; simpl; [constructor|]. apply NoDup_cons. split; [|apply IH].
  rewrite log_writes_addr. intros (i & _ & He). lia.
Qed.

Lemma log_writes_in ls t ds i d : ds !! i = Some d -> (ls + (t + Z.of_nat i) + 1, d) ∈ log_writes ls t ds.
Proof.
  revert t i. induction ds as [|d0 ds IH]; intros t i Hi; [done|]. simpl. destruct i as [|i]; simpl in Hi.
  - injection Hi as ->. replace (ls + (t + Z.of_nat 0) + 1) with (ls + t + 1) by lia. left.
  - right. specialize (IH (t + 1) i Hi). by replace (ls + (t + 1 + Z.of_nat i) + 1) with (ls + (t + Z.of_nat (S i)) + 1) in IH by lia.
Qed.

Lemma over_rev_in ws v b d : NoDup ws.*1 -> (b, d) ∈ ws -> over (rev ws) v b = d.
Proof. intros Hnd Hin. apply over_in; by rewrite <- (Permutation_rev ws). Qed.

Lemma over_rev_out ws v b : b ∉ ws.*1 -> over (rev ws) v b = v b.
Proof. intros H. apply over_out. by rewrite <- (Permutation_rev ws). Qed.

(** The log blocks, read back. *)
Lemma log_data_written ls ds v : log_data (over (rev (log_writes ls 0 ds)) v) ls 0 (length ds) = ds.
Proof.
  apply list_eq. intros i. unfold log_data. rewrite list_lookup_fmap. destruct (decide (i < length ds)%nat) as [Hi|Hi].
  - rewrite lookup_seq_lt by done. simpl. destruct (lookup_lt_is_Some_2 ds i Hi) as [d Hd]. rewrite Hd. f_equal.
    apply over_rev_in; [apply log_writes_nodup|]. by apply log_writes_in.
  - rewrite lookup_seq_ge by lia. symmetry. apply lookup_ge_None_2. lia.
Qed.

Lemma log_data_ext v v' ls t n :
  (forall i, (i < n)%nat -> v (ls + (t + Z.of_nat i) + 1) = v' (ls + (t + Z.of_nat i) + 1)) -> log_data v ls t n = log_data v' ls t n.
Proof. intros H. apply list_fmap_ext. intros i x Hx. apply lookup_seq in Hx as [-> Hx]. by apply H. Qed.

Lemma dirty_of bs s : (forall b, dirty_block s b <-> b ∈ bs) -> (length bs <= 29)%nat -> dirty_at_most 29 s.
Proof. intros H Hl. exists bs. split; [done|]. intros b. apply H. Qed.

Lemma zip_fst {A B} (l : list A) (k : list B) : length l = length k -> (zip l k).*1 = l.
Proof. intros H. apply fst_zip. lia. Qed.

(** The first half of a commit: the log blocks, then the header. *)
Lemma log_phase_run s bs :
  log_ready s bs ->
  exists s1 s2, write_log s = Ret tt s1 /\ write_head s1 = Ret tt s2 /\
    wrotes s s2 ([(lg_start (f_log s), hdr bs (disk s (lg_start (f_log s))))] ++ rev (log_writes (lg_start (f_log s)) 0 (view s <$> bs))).
Proof.
  intros [H Hg Hn Hd Hc Hsz]. set (ls := lg_start (f_log s)) in *. set (ds := view s <$> bs).
  pose proof (lo_n _ _ _ Hg) as [_ Hle]. pose proof (lo_home _ _ _ Hg) as Hhome. fold ls in Hhome. rewrite Forall_forall in Hhome.
  unfold write_log. rewrite bind_gets, Hn, Nat2Z.id.
  destruct (write_log_loop_run (length bs) s (length bs) bs 0 H Hg) as (s1 & Hr1 & Hw1); [lia|by eapply dirty_of|intros b; apply Hd|].
  rewrite drop_0 in Hw1. fold ls ds in Hw1. pose proof Hw1 as (B1 & B2 & B3 & B4 & B5).
  assert (Hlog1 : f_log s1 = f_log s) by (destruct B5 as (_ & _ & ? & _); done).
  assert (Hls1 : ls ∉ (rev (log_writes ls 0 ds)).*1).
  { rewrite <- (Permutation_rev (log_writes ls 0 ds)), log_writes_addr. intros (i & Hi & ?). lia. }
  assert (Hdm1 : dirty_at_most 29 s1) by (eapply dirty_same; [by eapply dirty_of|]; intros b; rewrite B4; tauto).
  assert (Hlsv : view s ls = disk s ls).
  { apply clean_view; [done|]. rewrite Hd. intros Hin. destruct (Hhome _ Hin) as [_ Hh]. lia. }
  destruct (write_head_run s1 (length bs) bs B1) as (s2 & Hr2 & Hw2); [by eapply log_geom_disk|by rewrite Hlog1|done|].
  rewrite Hlog1 in Hw2. fold ls in Hw2. rewrite B3, over_out, Hlsv in Hw2 by done.
  exists s1, s2. split; [done|]. split; [done|]. by apply (wrotes_trans _ _ _ _ _ Hw1 Hw2).
Qed.

(** The second half: the home blocks. *)
Lemma install_phase_run s bs s2 :
  log_ready s bs ->
  wrotes s s2 ([(lg_start (f_log s), hdr bs (disk s (lg_start (f_log s))))] ++ rev (log_writes (lg_start (f_log s)) 0 (view s <$> bs))) ->
  exists s3, install_trans s2 = Ret tt s3 /\ wrotes s2 s3 (rev (zip bs (view s <$> bs))).
Proof.
  intros [H Hg Hn Hd Hc Hsz] Hw12. set (ls := lg_start (f_log s)) in *. set (ds := view s <$> bs) in *.
  pose proof (lo_n _ _ _ Hg) as [_ Hle]. pose proof (lo_home _ _ _ Hg) as Hhome. fold ls in Hhome. rewrite Forall_forall in Hhome.
  assert (Hdl : length ds = length bs) by apply length_fmap.
  pose proof Hw12 as (C1 & C2 & C3 & C4 & C5). assert (Hlog2 : f_log s2 = f_log s) by (destruct C5 as (_ & _ & ? & _); done).
  assert (Hd2 : forall b, b ∈ bs -> dirty_block s2 b).
  { intros b Hb. rewrite C4. split; [by apply Hd|]. destruct (Hhome _ Hb) as [_ Hh]. rewrite fmap_app. simpl. rewrite not_elem_of_cons. split; [lia|].
    rewrite <- (Permutation_rev (log_writes ls 0 ds)), log_writes_addr. intros (i & Hi & ->). lia. }
  unfold install_trans. rewrite bind_gets, Hlog2, Hn, Nat2Z.id.
  destruct (install_loop_run (length bs) s2 (length bs) bs 0 C1) as (s3 & Hr3 & Hw3);
    [by eapply log_geom_disk|lia|eapply dirty_same; [by eapply dirty_of|]; intros b; rewrite C4; tauto|left; intros b; apply Hd2|].
  rewrite drop_0, Hlog2 in Hw3. fold ls in Hw3.
  assert (log_data (view s2) ls (Z.of_nat 0) (length bs) = ds) as Hlds.
  { rewrite <- Hdl. etransitivity; [|apply (log_data_written ls ds (view s))]. apply log_data_ext. intros i Hi. rewrite C3. simpl.
    destruct (Z.eqb_spec (ls + (0 + Z.of_nat i) + 1) ls); [lia|done]. }
  rewrite Hlds in Hw3. by exists s3.
Qed.

Lemma commit_run s bs :
  log_ready s bs -> bs <> [] ->
  exists s', commit s = Ret tt s' /\ bio_inv [] s' /\ f_writes s' = rev (commit_writes s bs) ++ f_writes s /\
    (forall b, ~ dirty_block s' b) /\ f_log s' = set_lh_n 0 (f_log s) /\ f_img s' = f_img s /\ f_disksize s' = f_disksize s /\
    f_sb s' = f_sb s /\ f_inodes s' = f_inodes s /\ f_files s' = f_files s /\ f_pid s' = f_pid s /\ f_cwd s' = f_cwd s.
Proof.
  intros Hrdy Hne. destruct (log_phase_run _ _ Hrdy) as (s1 & s2 & Hr1 & Hr2 & Hw12). destruct (install_phase_run _ _ _ Hrdy Hw12) as (s3 & Hr3 & Hw3).
  destruct Hrdy as [H Hg Hn Hd Hc Hsz]. set (ls := lg_start (f_log s)) in *. set (ds := view s <$> bs) in *.
  pose proof (lo_home _ _ _ Hg) as Hhome. fold ls in Hhome. rewrite Forall_forall in Hhome.
  assert (Hdl : length bs = length ds) by (symmetry; apply length_fmap).
  unfold commit. rewrite bind_gets, Hn. destruct (Z.ltb_spec 0 (Z.of_nat (length bs))) as [_|]; [|destruct bs; simpl in *; done || lia].
  mstep Hr1. mstep Hr2. mstep Hr3. pose proof (wrotes_trans _ _ _ _ _ Hw12 Hw3) as (D1 & D2 & D3 & D4 & D5).
  unfold updlog. rewrite bind_modify. assert (Hlog3 : f_log s3 = f_log s) by (destruct D5 as (_ & _ & ? & _); done).
  set (s4 := set_f_log (set_lh_n 0 (f_log s3)) s3).
  assert (Hnd3 : forall b, ~ dirty_block s4 b).
  { intros b Hb. change (dirty_block s3 b) in Hb. rewrite D4, Hd in Hb. destruct Hb as [Hb Hn']. apply Hn'. rewrite fmap_app, elem_of_app. left.
    rewrite <- (Permutation_rev (zip bs ds)), zip_fst by done. done. }
  destruct (write_head_run s4 0 []) as (s5 & Hr5 & Hw5).
  { by apply bio_inv_log. }
  { destruct Hg as [A1 A2 _ A4 _ _ _]. destruct D5 as (_ & E2 & _). split; simpl; rewrite ?Hlog3, ?E2; try done. split; [done|lia]. constructor. }
  { done. }
  { exists []. split; [simpl; lia|]. intros b Hb. by apply Hnd3 in Hb. }
  rewrite Hr5. change (lg_start (f_log s4)) with (lg_start (f_log s3)) in Hw5. rewrite Hlog3 in Hw5. fold ls in Hw5.
  change (view s4 ls) with (view s3 ls) in Hw5.
  assert (view s3 ls = hdr bs (disk s ls)) as Hv3.
  { rewrite D3, over_app, over_rev_out; [simpl; by rewrite Z.eqb_refl|]. rewrite zip_fst by done. intros Hb. destruct (Hhome _ Hb) as [_ Hh]. lia. }
  rewrite Hv3 in Hw5. destruct Hw5 as (F1 & F2 & F3 & F4 & (G1 & G2 & G3 & G4 & G5 & G6 & G7 & G8)). destruct D5 as (I1 & I2 & I3 & I4 & I5 & I6 & I7 & I8).
  exists s5. split; [done|]. split; [done|]. split.
  { rewrite F2. change (f_writes s4) with (f_writes s3). rewrite D2. unfold commit_writes. fold ls ds.
    rewrite !rev_app_distr. simpl. by rewrite <- !app_assoc. }
  split. { intros b Hb. rewrite F4 in Hb. destruct Hb as [Hb _]. by apply (Hnd3 b). }
  rewrite G3, G1, G2, G4, G5, G6, G7, G8. simpl. rewrite Hlog3. done.
Qed.
