(* ===== verification/Crash.v ===== *)
(** * Crashes

    The disk is the image it was given and the writes it has received, so a
    crash is a prefix of the writes.  The kernel that starts afterwards has
    zeroed memory and runs [binit] and [initlog].  The file shows that a
    commit is atomic under any number of crashes, during the commit and during
    the recoveries that follow it. *)

From Stdlib Require Import ZArith Lia.
From stdpp Require Import base numbers strings gmap list.
From S2P Require Import Prelude.
From S2P Require Import Machine.
From S2P Require Import FState.
From S2P Require Import Blocks.
From S2P Require Import Bio.
From S2P Require Import Log.
From S2P Require Import LogSpec.

Local Open Scope string_scope.
Local Open Scope list_scope.
Local Open Scope Z_scope.

(** The machine when it starts with the disk [ws]. *)
Definition reboot (s : fstate) (ws : list (Z * list Z)) : fstate :=
  mkfs (f_img s) ws (f_disksize s) (replicate (Z.to_nat NBUF) buf0) [] (mklog 0 0 0 0 0 0 (replicate (Z.to_nat LOGSIZE) 0))
    (mksb 0 0 0 0 0 0 0) (replicate (Z.to_nat NINODE) inode0) (replicate (Z.to_nat NFILE) file0) 0 0.

Definition recovery : M fstate unit := binit;; initlog 1.

Lemma binit_run s ws : binit (reboot s ws) = Ret tt (set_f_lru (rev (seq 0 30)) (reboot s ws)).
Proof. reflexivity. Qed.

Lemma boot_bufs i x s ws : f_bufs (reboot s ws) !! i = Some x -> x = buf0.
Proof. intros H. by apply lookup_replicate in H as [-> _]. Qed.

Lemma boot_inv s ws :
  (forall b, 0 <= b < f_disksize s -> length (dget (f_img s) ws b) = 512%nat) ->
  let s0 := set_f_lru (rev (seq 0 30)) (reboot s ws) in
  bio_inv [] s0 /\ (forall b, ~ dirty_block s0 b) /\ (forall b, view s0 b = dget (f_img s) ws b).
Proof.
  intros Hl s0. assert (Hb : forall i x, f_bufs s0 !! i = Some x -> x = buf0) by (intros i x; apply boot_bufs). split; [|split].
  - split; [done|symmetry; apply Permutation_rev|constructor| | |done].
    + intros i j x y Hx _ Hd. apply Hb in Hx as ->. done.
    + intros i x Hx. apply Hb in Hx as ->. rewrite bool_decide_false by apply not_elem_of_nil. split; simpl; try done; [by left|by right].
  - intros b (i & x & Hx & _ & H6). apply Hb in Hx as ->. done.
  - intros b. apply view_uncached. intros i x Hx (Hd & _). apply Hb in Hx as ->. done.
Qed.

(** ** Recovery *)

(** What recovery does not look at. *)
Definition same_upper (s s' : fstate) : Prop :=
  f_sb s' = f_sb s /\ f_inodes s' = f_inodes s /\ f_files s' = f_files s /\ f_pid s' = f_pid s /\ f_cwd s' = f_cwd s.

Lemma read_blocks_run n d i bl :
  (i + n <= length bl)%nat ->
  exists bl', read_blocks n d i bl = Some bl' /\ length bl' = length bl /\ take (i + n) bl' = take i bl ++ get32s (4 + 4 * i) n d.
Proof.
  revert i bl. induction n as [|n IH]; intros i bl H; cbn [read_blocks get32s].
  { exists bl. split; [done|]. split; [done|]. by rewrite Nat.add_0_r, app_nil_r. }
  rewrite zset_Some by lia. rewrite Nat2Z.id. cbn [mbind option_bind].
  destruct (IH (S i) (<[i := get32 d (4 + 4 * i)]> bl)) as (bl' & Hr & Hl & Ht); [rewrite length_insert; lia|].
  exists bl'. split; [done|]. rewrite length_insert in Hl. split; [done|]. replace (i + S n)%nat with (S i + n)%nat by lia. rewrite Ht.
  rewrite (take_S_r _ _ (get32 d (4 + 4 * i))) by (apply list_lookup_insert_eq; lia).
  rewrite take_insert_ge by lia. rewrite <- app_assoc. simpl. do 3 f_equal. lia.
Qed.

Lemma read_head_run s n bs :
  bio_inv [] s -> (forall b, ~ dirty_block s b) -> lg_dev (f_log s) = 1 -> length (lh_block (f_log s)) = 30%nat ->
  0 <= lg_start (f_log s) < f_disksize s -> (n <= 29)%nat -> get32 (view s (lg_start (f_log s))) 0 = Z.of_nat n ->
  get32s 4 n (view s (lg_start (f_log s))) = bs ->
  exists s' bl, read_head s = Ret tt s' /\ bio_inv [] s' /\ (forall b, ~ dirty_block s' b) /\ (forall b, view s' b = view s b) /\
    f_log s' = set_lh_block bl (set_lh_n (Z.of_nat n) (f_log s)) /\ length bl = 30%nat /\ take n bl = bs /\
    f_img s' = f_img s /\ f_writes s' = f_writes s /\ f_disksize s' = f_disksize s /\ same_upper s s'.
Proof.
  intros H Hc Hdev Hlen Hls Hn Hget Hbs. unfold read_head. rewrite bind_gets, Hdev. set (ls := lg_start (f_log s)) in *.
  assert (Hd0 : dirty_at_most 0 s). { exists []. split; [done|]. intros b Hb. by apply Hc in Hb. }
  destruct (bread_run [] s ls H Hls) as (i & s1 & Hr1 & _ & H1 & Hi1 & Hv1 & Hd1 & Hs1 & _).
  { intros i d Hi. by apply elem_of_nil in Hi. } { left. eapply capacity; [done|done|simpl; lia]. }
  mstep Hr1. mstep (bdata_run _ _ _ _ Hi1). rewrite Hget, i32_small, Nat2Z.id by lia.
  destruct (read_blocks_run n (view s ls) 0 (lh_block (f_log s))) as (bl & Hrb & Hl & Ht); [lia|]. rewrite Hrb. rewrite bind_some.
  unfold updlog. rewrite bind_modify. destruct Hi1 as (x & Hx & _).
  set (s2 := set_f_log (set_lh_block bl (set_lh_n (Z.of_nat n) (f_log s1))) s1).
  destruct (brelse_run [] s2 i x) as (s3 & Hr3 & H3 & Hv3 & Hd3 & Hs3 & _); [by apply bio_inv_log|done|]. rewrite Hr3.
  destruct Hs1 as (E1 & E2 & E3 & E4 & E5 & E6 & E7 & E8 & E9), Hs3 as (F1 & F2 & F3 & F4 & F5 & F6 & F7 & F8 & F9).
  exists s3, bl. split; [done|]. split; [done|]. split. { intros b Hb. rewrite (Hd3 b) in Hb. apply (Hc b). by rewrite <- (Hd1 b). }
  split. { intros b. rewrite Hv3. apply Hv1. }
  unfold same_upper. rewrite F1, F2, F3, F4, F5, F6, F7, F8, F9. simpl. rewrite E4. repeat split; try done; [lia|]. simpl in Ht. by rewrite Ht.
Qed.

Lemma readsb_run s :
  bio_inv [] s -> (forall b, ~ dirty_block s b) -> 1 < f_disksize s ->
  exists s', readsb 1 s = Ret (decode_sb (view s 1)) s' /\ bio_inv [] s' /\ (forall b, ~ dirty_block s' b) /\
    (forall b, view s' b = view s b) /\ same_but_cache s s'.
Proof.
  intros H Hc Hsz. unfold readsb. assert (Hd0 : dirty_at_most 0 s). { exists []. split; [done|]. intros b Hb. by apply Hc in Hb. }
  destruct (bread_run [] s 1 H ltac:(lia)) as (i & s1 & Hr1 & _ & H1 & Hi1 & Hv1 & Hd1 & Hs1 & _).
  { intros i d Hi. by apply elem_of_nil in Hi. } { left. eapply capacity; [done|done|simpl; lia]. }
  mstep Hr1. mstep (bdata_run _ _ _ _ Hi1). destruct Hi1 as (x & Hx & _).
  destruct (brelse_run [] s1 i x H1 Hx) as (s2 & Hr2 & H2 & Hv2 & Hd2 & Hs2 & _). mstep Hr2.
  exists s2. split; [done|]. split; [done|]. split. { intros b Hb. rewrite (Hd2 b), (Hd1 b) in Hb. by apply (Hc b). }
  split. { intros b. by rewrite Hv2. }
  destruct Hs1 as (A1 & A2 & A3 & A4 & A5 & A6 & A7 & A8 & A9), Hs2 as (B1 & B2 & B3 & B4 & B5 & B6 & B7 & B8 & B9). repeat split; congruence.
Qed.

(** ** Disks that recovery understands *)

(** A block that is neither the log's nor outside the disk. *)
Definition home (s : fstate) (ls b : Z) : Prop := 0 <= b < f_disksize s /\ ~ (ls <= b < ls + 30).

(** The log on the disk [ws] names the blocks [bs]; with them installed the
    home blocks are [final]. *)
Record recoverable (s : fstate) (ls : Z) (bs : list Z) (final : Z -> list Z) (ws : list (Z * list Z)) : Prop := {
  rc_len : forall b, 0 <= b < f_disksize s -> length (dget (f_img s) ws b) = 512%nat;
  rc_sb : sb_logstart (decode_sb (dget (f_img s) ws 1)) = ls;
  rc_range : 0 <= ls /\ ls + 30 <= f_disksize s;
  rc_one : home s ls 1;
  rc_n : get32 (dget (f_img s) ws ls) 0 = Z.of_nat (length bs) /\ (length bs <= 29)%nat;
  rc_bs : get32s 4 (length bs) (dget (f_img s) ws ls) = bs;
  rc_nodup : NoDup bs;
  rc_home : Forall (fun b => home s ls b /\ b <> 1) bs;
  rc_final : forall b, home s ls b ->
    over (zip bs (log_data (dget (f_img s) ws) ls 0 (length bs))) (dget (f_img s) ws) b = final b }.

(** What recovery writes, in order. *)
Definition recovery_writes (s : fstate) (ls : Z) (bs : list Z) (ws : list (Z * list Z)) : list (Z * list Z) :=
  zip bs (log_data (dget (f_img s) ws) ls 0 (length bs)) ++ [(ls, hdr [] (dget (f_img s) ws ls))].

Lemma length_log_data v ls t n : length (log_data v ls t n) = n.
Proof. unfold log_data. by rewrite length_fmap, length_seq. Qed.

Lemma recover_from_log_run s ls bs v :
  bio_inv [] s -> (forall b, ~ dirty_block s b) -> (forall b, view s b = v b) ->
  lg_dev (f_log s) = 1 -> lg_start (f_log s) = ls -> length (lh_block (f_log s)) = 30%nat -> 0 <= ls /\ ls + 30 <= f_disksize s ->
  get32 (v ls) 0 = Z.of_nat (length bs) /\ (length bs <= 29)%nat -> get32s 4 (length bs) (v ls) = bs -> NoDup bs -> Forall (home s ls) bs ->
  exists r, recover_from_log s = Ret tt r /\ bio_inv [] r /\ (forall b, ~ dirty_block r b) /\
    f_writes r = rev (zip bs (log_data v ls 0 (length bs)) ++ [(ls, hdr [] (v ls))]) ++ f_writes s /\ f_img r = f_img s /\
    f_disksize r = f_disksize s /\ lh_n (f_log r) = 0 /\ lg_start (f_log r) = ls /\ lg_dev (f_log r) = 1 /\ length (lh_block (f_log r)) = 30%nat /\
    lg_outstanding (f_log r) = lg_outstanding (f_log s) /\ lg_committing (f_log r) = lg_committing (f_log s) /\ lg_size (f_log r) = lg_size (f_log s) /\ same_upper s r.
Proof.
  intros H Hd Hv Hdev Hst Hlen Hrg [Hn Hn'] Hbs Hnd Hh. unfold recover_from_log.
  destruct (read_head_run s (length bs) bs) as (s3 & bl & Hr3 & H3 & Hd3 & Hv3 & Hl3 & Hbl & Htk & F1 & F2 & F3 & (U1 & U2 & U3 & U4 & U5));
    [done|done|done|done|rewrite Hst; lia|done|by rewrite Hst, Hv|by rewrite Hst, Hv|]. mstep Hr3.
  assert (Hg3 : log_geom s3 (length bs) bs). { split; rewrite ?Hl3, ?F3; simpl; rewrite ?Hst; done. }
  assert (Hz3 : forall n, dirty_at_most n s3). { intros n. exists []. split; [simpl; lia|]. intros b Hb. by apply Hd3 in Hb. }
  unfold install_trans. rewrite bind_assoc_run, bind_gets. replace (lh_n (f_log s3)) with (Z.of_nat (length bs)) by by rewrite Hl3. rewrite Nat2Z.id.
  destruct (install_loop_run (length bs) s3 (length bs) bs 0 H3 Hg3) as (s4 & Hr4 & Hw4); [lia|done|by right|]. mstep Hr4.
  assert (Hst3 : lg_start (f_log s3) = ls) by (rewrite Hl3; exact Hst).
  rewrite drop_0, Hst3 in Hw4.
  assert (log_data (view s3) ls (Z.of_nat 0) (length bs) = log_data v ls 0 (length bs)) as Hld.
  { apply log_data_ext. intros i _. by rewrite Hv3, Hv. }
  rewrite Hld in Hw4. destruct Hw4 as (B1 & B2 & B3 & B4 & (I1 & I2 & I3 & I4 & I5 & I6 & I7 & I8)). unfold updlog. rewrite bind_modify. set (s5 := set_f_log _ s4).
  assert (Hd4 : forall b, ~ dirty_block s5 b). { intros b Hb. change (dirty_block s4 b) in Hb. rewrite B4 in Hb. destruct Hb as [Hb _]. by apply (Hd3 b). }
  assert (Hl5 : f_log s5 = set_lh_n 0 (f_log s3)) by (unfold s5; simpl; by rewrite I3).
  destruct (write_head_run s5 0 []) as (s6 & Hr6 & Hw6).
  { by apply bio_inv_log. }
  { split; rewrite ?Hl5, ?Hl3; simpl; rewrite ?I2, ?F3, ?Hst; try done. split; [done|lia]. constructor. }
  { by rewrite Hl5. } { exists []. split; [simpl; lia|]. intros b Hb. by apply Hd4 in Hb. }
  rewrite Hr6. replace (lg_start (f_log s5)) with ls in Hw6 by (symmetry; rewrite Hl5; exact Hst3). change (view s5 ls) with (view s4 ls) in Hw6.
  rewrite B3, over_rev_out, Hv3, Hv in Hw6.
  2:{ rewrite zip_fst by by rewrite length_log_data. intros Hin. rewrite Forall_forall in Hh. destruct (Hh _ Hin) as [_ ?]. lia. }
  destruct Hw6 as (C1 & C2 & C3 & C4 & (J1 & J2 & J3 & J4 & J5 & J6 & J7 & J8)). exists s6. split; [done|]. split; [done|]. split.
  { intros b Hb. rewrite C4 in Hb. destruct Hb as [Hb _]. by apply (Hd4 b). }
  unfold same_upper. rewrite C2, J1, J2, J3, J4, J5, J6, J7, J8, Hl5. simpl. rewrite I1, I2, I4, I5, I6, I7, I8, B2, F2, F3, F1, U1, U2, U3, U4, U5, Hst3, Hl3.
  split; [|done]. rewrite rev_app_distr. by rewrite <- app_assoc.
Qed.

(** [initlog] on a machine that has just started. *)
Lemma initlog_run s0 s ls bs final ws :
  bio_inv [] s0 -> (forall b, ~ dirty_block s0 b) -> (forall b, view s0 b = dget (f_img s) ws b) -> f_img s0 = f_img s -> f_writes s0 = ws -> f_disksize s0 = f_disksize s ->
  length (lh_block (f_log s0)) = 30%nat -> recoverable s ls bs final ws ->
  exists r, initlog 1 s0 = Ret tt r /\ bio_inv [] r /\ (forall b, ~ dirty_block r b) /\
    f_writes r = rev (recovery_writes s ls bs ws) ++ ws /\ f_img r = f_img s /\ f_disksize r = f_disksize s /\
    lh_n (f_log r) = 0 /\ lg_start (f_log r) = ls /\ lg_dev (f_log r) = 1 /\ length (lh_block (f_log r)) = 30%nat /\
    lg_outstanding (f_log r) = lg_outstanding (f_log s0) /\ lg_committing (f_log r) = lg_committing (f_log s0) /\ lg_size (f_log r) = sb_nlog (decode_sb (dget (f_img s) ws 1)) /\ same_upper s0 r.
Proof.
  intros H0 Hd0 Hv0 Ei Ew Ez Hlh [A1 A2 A3 A4 A5 A6 A7 A8 A9]. unfold initlog. change (BSIZE <=? 4 + 4 * LOGSIZE) with false. rewrite bind_unless_false.
  destruct (readsb_run s0 H0 Hd0) as (s1 & Hr1 & H1 & Hd1 & Hv1 & (E1 & E2 & E3 & E4 & E5 & E6 & E7 & E8 & E9)). { unfold home in A4. rewrite Ez. lia. }
  mstep Hr1. rewrite Hv0, A2. unfold updlog. rewrite bind_modify. set (s2 := set_f_log _ s1).
  destruct (recover_from_log_run s2 ls bs (dget (f_img s) ws)) as (r & Hr & B1 & B2 & B3 & B4 & B5 & B6 & B7 & B8 & B9 & B10 & B11 & B12 & (U1 & U2 & U3 & U4 & U5)); try done.
  { by apply bio_inv_log. } { intros b. unfold s2. transitivity (view s1 b); [done|]. by rewrite Hv1. } { unfold s2. simpl. by rewrite E4. } { unfold s2. simpl. by rewrite E3, Ez. }
  { eapply Forall_impl; [exact A8|]. intros b [Hb _]. unfold home, s2. simpl. by rewrite E3, Ez. }
  exists r. split; [exact Hr|]. unfold same_upper. rewrite B3, B4, B5, B10, B11, B12, U1, U2, U3, U4, U5. unfold s2. simpl. rewrite E1, E2, E3, E4, E5, E6, E7, E8, E9. rewrite ?Ei, ?Ew, ?Ez. done.
Qed.

Lemma recovery_run s ls bs final ws :
  recoverable s ls bs final ws ->
  exists r, recovery (reboot s ws) = Ret tt r /\ bio_inv [] r /\ (forall b, ~ dirty_block r b) /\
    f_writes r = rev (recovery_writes s ls bs ws) ++ ws /\ f_img r = f_img s /\ f_disksize r = f_disksize s /\
    lh_n (f_log r) = 0 /\ lg_start (f_log r) = ls /\ lg_dev (f_log r) = 1 /\ length (lh_block (f_log r)) = 30%nat.
Proof.
  intros R. destruct (boot_inv s ws (rc_len _ _ _ _ _ R)) as (H0 & Hd0 & Hv0). unfold recovery. mstep (binit_run s ws).
  destruct (initlog_run _ s ls bs final ws H0 Hd0 Hv0 eq_refl eq_refl eq_refl eq_refl R) as (r & Hr & B1 & B2 & B3 & B4 & B5 & B6 & B7 & B8 & B9 & _). by exists r.
Qed.

(** ** Writes that did not all arrive *)

Lemma over_mem ws v b : b ∈ ws.*1 -> NoDup ws.*1 -> exists d, (b, d) ∈ ws /\ over ws v b = d /\ over (rev ws) v b = d.
Proof.
  intros H Hnd. apply list_elem_of_fmap in H as ([b' d] & -> & Hin). exists d. split; [done|]. split; [by apply over_in|by apply over_rev_in].
Qed.

Lemma over_rev ws v b : NoDup ws.*1 -> over (rev ws) v b = over ws v b.
Proof.
  intros Hnd. destruct (decide (b ∈ ws.*1)) as [Hin|Hout]; [|by rewrite over_rev_out, over_out].
  by destruct (over_mem ws v b Hin Hnd) as (d & _ & -> & ->).
Qed.

Lemma over_length ws v b n : Forall (fun w => length w.2 = n) ws -> length (v b) = n -> length (over ws v b) = n.
Proof. intros H Hv. induction H as [|[b' d] ws Hd _ IH]; simpl; [done|]. by destruct (b =? b'). Qed.

Lemma over_absorb ws k v b : NoDup ws.*1 -> over ws (over (rev (take k ws)) v) b = over ws v b.
Proof.
  intros Hnd. destruct (decide (b ∈ ws.*1)) as [Hin|Hout].
  - destruct (over_mem ws v b Hin Hnd) as (d & Hd & -> & _). by apply over_in.
  - rewrite !(over_out ws) by done. apply over_rev_out. intros Hin. apply Hout. rewrite <- (take_drop k ws), fmap_app, elem_of_app. by left.
Qed.

Lemma prefix_addr (ws : list (Z * list Z)) k b : b ∈ (take k ws).*1 -> b ∈ ws.*1.
Proof. intros H. rewrite <- (take_drop k ws), fmap_app, elem_of_app. by left. Qed.

Section recovering.
Context (s : fstate) (ls : Z) (bs : list Z) (final : Z -> list Z) (ws : list (Z * list Z)).
Context (R : recoverable s ls bs final ws).
Local Notation v := (dget (f_img s) ws).
Local Notation Zs := (zip bs (log_data (dget (f_img s) ws) ls 0 (length bs))).

Lemma installs_addr : Zs.*1 = bs.
Proof. apply zip_fst. by rewrite length_log_data. Qed.

Lemma installs_nodup : NoDup Zs.*1.
Proof. rewrite installs_addr. apply R. Qed.

Lemma installs_home b : b ∈ Zs.*1 -> home s ls b /\ b <> 1.
Proof. rewrite installs_addr. pose proof (rc_home _ _ _ _ _ R) as H. rewrite Forall_forall in H. apply H. Qed.

Lemma installs_length : Forall (fun w => length w.2 = 512%nat) Zs.
Proof.
  apply Forall_forall. intros [b d] Hin. apply list_elem_of_lookup in Hin as [i Hi]. apply lookup_zip_Some in Hi as [_ Hi].
  unfold log_data in Hi. apply list_lookup_fmap_Some in Hi as (j & -> & Hj). apply lookup_seq in Hj as [-> Hj]. simpl.
  destruct R as [A1 A2 A3 A4 [A5 A5'] A6 A7 A8 A9]. apply A1. lia.
Qed.

Lemma installing k : (k <= length bs)%nat -> recoverable s ls bs final (rev (take k (recovery_writes s ls bs ws)) ++ ws).
Proof.
  intros Hk. unfold recovery_writes. rewrite take_app_le by (rewrite length_zip_with, length_log_data; lia).
  set (P := rev (take k Zs)). assert (Hout : forall b, (~ home s ls b \/ b = 1) -> over P v b = v b).
  { intros b Hb. apply over_rev_out. intros Hin. apply prefix_addr, installs_home in Hin. tauto. }
  assert (Hld : log_data (dget (f_img s) (P ++ ws)) ls 0 (length bs) = log_data v ls 0 (length bs)).
  { apply log_data_ext. intros i Hi. rewrite dget_app. apply Hout. left. unfold home. destruct R as [_ _ _ _ [_ ?] _ _ _ _]. lia. }
  pose proof R as [A1 A2 A3 A4 A5 A6 A7 A8 A9]. assert (Hls : ~ home s ls ls) by (unfold home; lia).
  split; try done.
  - intros b Hb. rewrite dget_app. apply over_length; [|by apply A1]. unfold P. rewrite <- (Permutation_rev (take k Zs)). apply Forall_take, installs_length.
  - rewrite dget_app, Hout by tauto. done.
  - rewrite dget_app, Hout by tauto. done.
  - rewrite dget_app, Hout by tauto. done.
  - intros b Hb. rewrite Hld. rewrite <- A9 by done. rewrite <- (over_absorb Zs k v b installs_nodup). apply over_ext, dget_app.
Qed.

Lemma installed_all : recoverable s ls [] final (rev (recovery_writes s ls bs ws) ++ ws).
Proof.
  unfold recovery_writes. rewrite rev_app_distr. set (P := rev Zs). pose proof R as [A1 A2 A3 A4 A5 A6 A7 A8 A9].
  set (h := hdr [] (v ls)). change (rev [(ls, h)] ++ P) with ((ls, h) :: P). change (((ls, h) :: P) ++ ws) with ((ls, h) :: (P ++ ws)).
  assert (Hlen : length h = 512%nat) by (apply hdr_length; [apply A1; lia|simpl; lia]).
  assert (H1 : 1 <> ls) by (unfold home in A4; lia). split; try done.
  - intros b Hb. simpl. destruct (b =? ls); [done|]. rewrite dget_app. apply over_length; [|by apply A1].
    unfold P. rewrite <- (Permutation_rev Zs). apply installs_length.
  - cbn [dget]. rewrite (proj2 (Z.eqb_neq 1 ls)) by done. rewrite dget_app. unfold P. rewrite over_rev_out; [done|]. intros Hin. by apply installs_home in Hin as [_ ?].
  - cbn [dget]. rewrite Z.eqb_refl. split; [|simpl; lia]. unfold h. rewrite hdr_n; [done|apply A1; lia|simpl; lia].
  - constructor.
  - intros b Hb. cbn [length zip_with over dget]. assert (b <> ls) by (unfold home in Hb; lia). rewrite (proj2 (Z.eqb_neq b ls)) by done. rewrite dget_app. unfold P.
    rewrite over_rev by apply installs_nodup. by apply A9.
Qed.

Lemma recovering_prefix k : exists bs', recoverable s ls bs' final (rev (take k (recovery_writes s ls bs ws)) ++ ws).
Proof.
  destruct (decide (k <= length bs)%nat) as [Hk|Hk]; [eexists; by apply installing|]. exists [].
  rewrite take_ge; [apply installed_all|]. unfold recovery_writes. rewrite length_app, length_zip_with, length_log_data. simpl. lia.
Qed.
End recovering.

(** ** Crashes of a commit *)

(** The superblock on the disk agrees with the log in memory, and the
    transaction does not touch it. *)
Record super_ok (s : fstate) (bs : list Z) : Prop := {
  so_start : sb_logstart (decode_sb (disk s 1)) = lg_start (f_log s);
  so_one : home s (lg_start (f_log s)) 1;
  so_fresh : (1 ∉ bs) }.

Section committing.
Context (s : fstate) (bs : list Z) (L : log_ready s bs) (SB : super_ok s bs).
Local Notation ls := (lg_start (f_log s)).
Local Notation ds := (view s <$> bs).

Lemma log_writes_home k b : home s ls b -> b ∉ (rev (take k (log_writes ls 0 ds))).*1.
Proof.
  intros [_ Hb] Hin. rewrite <- (Permutation_rev (take k (log_writes ls 0 ds))) in Hin. apply prefix_addr in Hin.
  apply log_writes_addr in Hin as (i & Hi & ->). rewrite length_fmap in Hi. pose proof (lo_n _ _ _ (lr_geom _ _ L)) as [_ ?]. lia.
Qed.

Lemma log_writes_start k : ls ∉ (rev (take k (log_writes ls 0 ds))).*1.
Proof.
  intros Hin. rewrite <- (Permutation_rev (take k (log_writes ls 0 ds))) in Hin. apply prefix_addr in Hin.
  apply log_writes_addr in Hin as (i & Hi & ?). lia.
Qed.

Lemma logged_home b : b ∈ bs -> home s ls b /\ b <> 1.
Proof.
  intros Hb. pose proof (lo_home _ _ _ (lr_geom _ _ L)) as Hh. rewrite Forall_forall in Hh. split; [by apply Hh|].
  intros ->. by apply (so_fresh _ _ SB).
Qed.

Lemma log_writes_lengths k : Forall (fun w => length w.2 = 512%nat) (rev (take k (log_writes ls 0 ds))).
Proof.
  rewrite <- (Permutation_rev (take k (log_writes ls 0 ds))). apply Forall_take.
  assert (H : Forall (fun d => length d = 512%nat) ds).
  { apply Forall_fmap, Forall_forall. intros b Hb. eapply view_length; [apply L|]. by apply logged_home. }
  generalize 0 at 1. induction H as [|d l Hd _ IH]; intros t; simpl; [constructor|]. constructor; [done|]. apply IH.
Qed.

Lemma disk_lengths b : 0 <= b < f_disksize s -> length (disk s b) = 512%nat.
Proof. apply (bi_disk _ _ (lr_bio _ _ L)). Qed.

(** While the log blocks are written the header still says that the log is
    empty. *)
Lemma logging k : recoverable s ls [] (disk s) (rev (take k (log_writes ls 0 ds)) ++ f_writes s).
Proof.
  pose proof (lo_start _ _ _ (lr_geom _ _ L)) as Hrg. pose proof (so_one _ _ SB) as H1. split; try done.
  - intros b Hb. rewrite dget_app. apply over_length; [apply log_writes_lengths|by apply disk_lengths].
  - rewrite dget_app, over_out by by apply log_writes_home. apply SB.
  - rewrite dget_app, over_out by apply log_writes_start. split; [apply L|simpl; lia].
  - constructor.
  - intros b Hb. cbn [length zip_with over]. rewrite dget_app, over_out by by apply log_writes_home. done.
Qed.

Local Notation h := (hdr bs (disk s ls)).
Local Notation ws1 := ((ls, h) :: rev (log_writes ls 0 ds) ++ f_writes s).

Lemma logged_data : log_data (dget (f_img s) ws1) ls 0 (length bs) = ds.
Proof.
  rewrite <- (length_fmap (view s) bs) at 1. etransitivity; [|apply (log_data_written ls ds (disk s))]. apply log_data_ext.
  intros i Hi. cbn [dget]. destruct (Z.eqb_spec (ls + (0 + Z.of_nat i) + 1) ls); [lia|]. by rewrite dget_app.
Qed.

(** Once the header is written the transaction is on the disk. *)
Lemma logged : recoverable s ls bs (view s) ws1.
Proof.
  pose proof (lr_geom _ _ L) as [B1 B2 [_ B3] B4 B5 B6 B7]. pose proof (so_one _ _ SB) as H1. pose proof (log_writes_lengths (length ds)) as HL.
  assert (HW : take (length ds) (log_writes ls 0 ds) = log_writes ls 0 ds) by (apply take_ge; by rewrite log_writes_length).
  assert (Hout : forall b, home s ls b -> dget (f_img s) ws1 b = disk s b).
  { intros b Hb. cbn [dget]. destruct (Z.eqb_spec b ls) as [->|_]; [unfold home in Hb; lia|]. rewrite dget_app, over_out; [done|].
    rewrite <- HW. by apply log_writes_home. }
  assert (Hls : 0 <= ls < f_disksize s) by lia.
  assert (Hh : dget (f_img s) ws1 ls = h) by (cbn [dget]; by rewrite Z.eqb_refl). split; try done.
  - intros b Hb. cbn [dget]. destruct (b =? ls); [apply hdr_length; [by apply disk_lengths|lia]|]. rewrite dget_app. rewrite HW in HL.
    apply over_length; [done|by apply disk_lengths].
  - rewrite Hout by done. apply SB.
  - rewrite Hh, hdr_n; [done|by apply disk_lengths|lia].
  - rewrite Hh. apply hdr_blocks; [by apply disk_lengths|lia|]. eapply Forall_impl; [exact B7|]. intros b [? _]. pose proof (lr_size _ _ L). lia.
  - apply Forall_forall, logged_home.
  - intros b Hb. rewrite logged_data. destruct (decide (b ∈ bs)) as [Hin|Hn].
    + apply over_in; [by rewrite zip_fst by by rewrite length_fmap|]. apply list_elem_of_lookup in Hin as [i Hi]. apply (list_elem_of_lookup_2 _ i).
      apply lookup_zip_Some. split; [done|]. by rewrite list_lookup_fmap, Hi.
    + rewrite over_out by by rewrite zip_fst by by rewrite length_fmap. rewrite Hout by done. symmetry. apply clean_view; [apply L|]. by rewrite (lr_dirty _ _ L).
Qed.

Lemma commit_prefix W1 W2 :
  rev (commit_writes s bs) = W2 ++ W1 ->
  exists bs', recoverable s ls bs' (if (length W1 <=? length bs)%nat then disk s else view s) (W1 ++ f_writes s).
Proof.
  intros HW. assert (HW1 : W1 = rev (take (length W1) (commit_writes s bs))).
  { rewrite <- (rev_involutive (commit_writes s bs)), HW, rev_app_distr, take_app_le, take_ge, rev_involutive by (rewrite length_rev; lia). done. }
  set (k := length W1) in *. rewrite HW1. unfold commit_writes. destruct (Nat.leb_spec k (length bs)) as [Hk|Hk].
  - rewrite take_app_le by (rewrite log_writes_length, length_fmap; lia). exists []. apply logging.
  - rewrite take_app_ge by (rewrite log_writes_length, length_fmap; lia). rewrite log_writes_length, length_fmap.
    destruct (recovering_prefix s ls bs (view s) ws1 logged (k - length bs - 1)) as [bs' HR]. exists bs'.
    unfold recovery_writes in HR. rewrite logged_data in HR. cbn [dget] in HR. rewrite Z.eqb_refl in HR.
    destruct (k - length bs)%nat as [|j] eqn:E; [lia|]. rewrite Nat.sub_succ, Nat.sub_0_r in HR. cbn [app take].
    rewrite rev_app_distr. cbn [rev]. by rewrite <- !app_assoc.
Qed.
End committing.

(** The disks that can be there after any number of crashes of recovery. *)
Inductive crashes (s : fstate) : list (Z * list Z) -> list (Z * list Z) -> Prop :=
  | no_crash ws : crashes s ws ws
  | crash_again ws W1 W2 ws' r :
      recovery (reboot s ws) = Ret tt r -> f_writes r = W2 ++ W1 ++ ws -> crashes s (W1 ++ ws) ws' -> crashes s ws ws'.

Lemma prefix_of_rev {A} (W W1 W2 ws : list A) : rev W ++ ws = W2 ++ W1 ++ ws -> W1 = rev (take (length W1) W) /\ rev W = W2 ++ W1.
Proof.
  rewrite app_assoc. intros H. apply app_inv_tail in H. split; [|done].
  rewrite <- (rev_involutive W), H, rev_app_distr, take_app_le, take_ge, rev_involutive by (rewrite length_rev; lia). done.
Qed.

Lemma crashes_recoverable s ls bs final ws ws' :
  recoverable s ls bs final ws -> crashes s ws ws' -> exists bs', recoverable s ls bs' final ws'.
Proof.
  intros R H. revert bs R. induction H as [ws|ws W1 W2 ws' r Hr HW _ IH]; intros bs R; [by exists bs|].
  destruct (recovery_run _ _ _ _ _ R) as (r' & Hr' & _ & _ & HW' & _). assert (r' = r) as -> by congruence. rewrite HW' in HW.
  apply prefix_of_rev in HW as [HW _]. destruct (recovering_prefix _ _ _ _ _ R (length W1)) as [bs' R']. rewrite <- HW in R'. by apply (IH bs').
Qed.

Lemma cleared_ready s ls final :
  bio_inv [] s -> (forall b, ~ dirty_block s b) -> lh_n (f_log s) = 0 -> lg_start (f_log s) = ls -> lg_dev (f_log s) = 1 ->
  length (lh_block (f_log s)) = 30%nat -> f_disksize s < two32 -> recoverable s ls [] final (f_writes s) -> log_ready s [].
Proof.
  intros H Hd Hn Hst Hdev Hl Hz [A1 A2 A3 A4 [A5 _] A6 A7 A8 A9]. split; try done.
  - split; rewrite ?Hst; try done; try constructor; simpl; lia.
  - intros b. split; [intros Hb; by apply Hd in Hb|intros Hb; by apply elem_of_nil in Hb].
  - rewrite Hst. apply A5.
Qed.

Lemma recovered s ls bs final ws :
  recoverable s ls bs final ws -> f_disksize s < two32 ->
  exists r, recovery (reboot s ws) = Ret tt r /\ log_ready r [] /\ lg_start (f_log r) = ls /\ forall b, home s ls b -> disk r b = final b.
Proof.
  intros R Hz. destruct (recovery_run _ _ _ _ _ R) as (r & Hr & H & Hd & HW & Hi & Hs & Hn & Hst & Hdev & Hl). exists r. split; [done|].
  pose proof (installed_all _ _ _ _ _ R) as R'. rewrite <- HW in R'. split; [|split; [done|]].
  - apply (cleared_ready r ls final); try done; [by rewrite Hs|]. destruct R' as [A1 A2 A3 A4 A5 A6 A7 A8 A9].
    unfold home in *. split; unfold home; rewrite ?Hi, ?Hs; done.
  - intros b Hb. unfold disk. rewrite Hi. apply (rc_final _ _ _ _ _ R' b Hb).
Qed.

(** What a commit leaves alone, the log's header apart. *)
Definition same_but_log (s s' : fstate) : Prop :=
  f_log s' = set_lh_n 0 (f_log s) /\ f_img s' = f_img s /\ f_disksize s' = f_disksize s /\ f_sb s' = f_sb s /\ f_inodes s' = f_inodes s /\
  f_files s' = f_files s /\ f_pid s' = f_pid s /\ f_cwd s' = f_cwd s.

(** A commit that has something to write. *)
Lemma commit_done s bs :
  log_ready s bs -> super_ok s bs -> bs <> [] ->
  exists s', commit s = Ret tt s' /\ log_ready s' [] /\ same_but_log s s' /\ f_writes s' = rev (commit_writes s bs) ++ f_writes s /\
    (forall b, home s (lg_start (f_log s)) b -> disk s' b = view s b).
Proof.
  intros L SB Hne. destruct (commit_run _ _ L Hne) as (s' & Hr & H & HW & Hd & Hlog & Hi & Hs & Hrest). exists s'. split; [done|].
  pose proof (logged _ _ L SB) as R. pose proof (installed_all _ _ _ _ _ R) as R'. unfold recovery_writes in R'. rewrite logged_data in R' by done.
  cbn [dget] in R'. rewrite Z.eqb_refl in R'.
  assert (HWs : f_writes s' = rev (zip bs (view s <$> bs) ++ [(lg_start (f_log s), hdr [] (hdr bs (disk s (lg_start (f_log s)))))])
     ++ (lg_start (f_log s), hdr bs (disk s (lg_start (f_log s)))) :: rev (log_writes (lg_start (f_log s)) 0 (view s <$> bs)) ++ f_writes s).
  { rewrite HW. unfold commit_writes. rewrite !rev_app_distr. simpl. by rewrite <- !app_assoc. }
  rewrite <- HWs in R'. split; [|split; [done|split; [done|]]].
  - apply (cleared_ready s' (lg_start (f_log s)) (view s)); rewrite ?Hlog; try done; [apply L|apply L|rewrite Hs; apply L|].
    destruct R' as [A1 A2 A3 A4 A5 A6 A7 A8 A9]. unfold home in *. split; unfold home; rewrite ?Hi, ?Hs; done.
  - intros b Hb. unfold disk. rewrite Hi. apply (rc_final _ _ _ _ _ R' b Hb).
Qed.

(** The disk after a crash in the middle of the commit's writes. *)
Lemma commit_crashed s bs W1 W2 ws :
  log_ready s bs -> super_ok s bs -> rev (commit_writes s bs) ++ f_writes s = W2 ++ W1 ++ f_writes s -> crashes s (W1 ++ f_writes s) ws ->
  exists r, recovery (reboot s ws) = Ret tt r /\ log_ready r [] /\ lg_start (f_log r) = lg_start (f_log s) /\
    forall b, home s (lg_start (f_log s)) b -> disk r b = if (length W1 <=? length bs)%nat then disk s b else view s b.
Proof.
  intros L SB HW Hc. apply prefix_of_rev in HW as [_ HW].
  destruct (commit_prefix _ _ L SB _ _ HW) as [bs' R1]. destruct (crashes_recoverable _ _ _ _ _ _ R1 Hc) as [bs2 R2].
  destruct (recovered _ _ _ _ _ R2) as (r & Hr2 & Hrdy & Hst & Hf); [apply L|]. exists r. split; [done|]. split; [done|]. split; [done|].
  intros b Hb. rewrite Hf by done. by destruct (length W1 <=? length bs)%nat.
Qed.

(** A crash between commits. *)
Lemma idle_crashed s ws :
  log_ready s [] -> super_ok s [] -> crashes s (f_writes s) ws ->
  exists r, recovery (reboot s ws) = Ret tt r /\ log_ready r [] /\ lg_start (f_log r) = lg_start (f_log s) /\
    forall b, home s (lg_start (f_log s)) b -> disk r b = disk s b.
Proof.
  intros L SB Hc. destruct (crashes_recoverable _ _ _ _ _ _ (logging s [] L SB 0) Hc) as [bs R]. eapply recovered; [done|]. apply L.
Qed.

(** C1. A commit is atomic.  From a state whose dirty blocks are the logged
    ones, [commit] returns with every home block on the disk as it was in the
    cache and the log empty.  If the machine crashes after any of the commit's
    disk writes, and recovery then crashes any number of times, a recovery that
    completes leaves the home blocks all as they were on the disk before the
    commit, if the header had not been written, and all as they were in the
    cache otherwise. *)
Theorem commit_crash_atomic s bs :
  log_ready s bs -> super_ok s bs -> bs <> [] ->
  exists s', commit s = Ret tt s' /\ log_ready s' [] /\
    (forall b, home s (lg_start (f_log s)) b -> disk s' b = view s b) /\
    forall W1 W2 ws, f_writes s' = W2 ++ W1 ++ f_writes s -> crashes s (W1 ++ f_writes s) ws ->
      exists r, recovery (reboot s ws) = Ret tt r /\ log_ready r [] /\ lg_start (f_log r) = lg_start (f_log s) /\
        forall b, home s (lg_start (f_log s)) b -> disk r b = if (length W1 <=? length bs)%nat then disk s b else view s b.
Proof.
  intros L SB Hne. destruct (commit_done _ _ L SB Hne) as (s' & Hr & L' & _ & HW & Hd). exists s'. split; [done|]. split; [done|]. split; [done|].
  intros W1 W2 ws. rewrite HW. by apply commit_crashed.
Qed.

(** A disk of 40 blocks with the log at block 2, and block 32 in the cache and
    in the transaction. *)
Definition disk40 : gmap Z (list Z) :=
  <[1 := put32 16 2 (replicate 512 0)]> (list_to_map ((fun b => (b, replicate 512 0)) <$> seqZ 0 40)).
Definition tx_buf : buf := mkbuf 6 1 32 (mksleep 0 0) 0 (replicate 512 7).
Definition tx0 : fstate :=
  mkfs disk40 [] 40 (tx_buf :: replicate 29 buf0) (seq 0 30) (mklog 2 30 0 1 1 1 (32 :: replicate 29 0)) (mksb 0 0 0 0 0 0 0) [] [] 1 0.

Lemma tx0_bufs i x : f_bufs tx0 !! i = Some x -> (i = 0%nat /\ x = tx_buf) \/ x = buf0.
Proof.
  destruct i as [|i]; cbn [tx0 f_bufs]; [intros [= <-]; by left|]. rewrite lookup_cons. intros H. apply lookup_replicate in H as [-> _]. by right.
Qed.

Lemma tx0_inv : bio_inv [] tx0.
Proof.
  split; [done|done|constructor| | |].
  - intros i j x y Hi Hj Hx Hy _. apply tx0_bufs in Hi as [[-> ->] | ->]; [|done]. by apply tx0_bufs in Hj as [[-> ->] | ->].
  - intros i x Hi. rewrite bool_decide_false by apply not_elem_of_nil.
    apply tx0_bufs in Hi as [[-> ->] | ->].
    + split; [done|done|by right; right|by left|intros _; change (0 <= 32 < 40); lia|done|intros _ [=]|done].
    + split; [done|done|by left|by right|intros [=]|done|intros [=]|done].
  - assert (H : Forall (fun b => length (disk tx0 b) = 512%nat) (seqZ 0 40)) by (apply (bool_decide_unpack _); by vm_compute).
    intros b Hb. rewrite Forall_forall in H. apply H. apply elem_of_seqZ. exact Hb.
Qed.

Lemma tx0_ready : log_ready tx0 [32].
Proof.
  split; [apply tx0_inv| |done| |by vm_compute|by vm_compute].
  - split; [done|simpl; lia|split; [done|simpl; lia]|done|done|by apply NoDup_singleton|]. constructor; [|constructor]. simpl. lia.
  - intros b. rewrite list_elem_of_singleton. split.
    + intros (i & x & Hi & (_ & Hb & _) & H6). by apply tx0_bufs in Hi as [[_ ->] | ->].
    + intros ->. by exists 0%nat, tx_buf.
Qed.

Lemma tx0_super : super_ok tx0 [32].
Proof. split; [by vm_compute|unfold home; simpl; lia|]. rewrite list_elem_of_singleton. done. Qed.

Lemma commit_crash_atomic_witness :
  exists s', commit tx0 = Ret tt s' /\ disk s' 32 = replicate 512 7.
Proof.
  destruct (commit_crash_atomic tx0 [32] tx0_ready tx0_super) as (s' & Hr & _ & Hd & _); [done|].
  exists s'. split; [exact Hr|]. rewrite Hd; [by vm_compute|]. unfold home. simpl. lia.
Defined.
