(* ===== verification/Tx.v ===== *)
(** * Inside a transaction

    The file system reads and changes blocks with [bread], [log_write] and
    [brelse].  [tx held s bs] is the invariant of a transaction that has logged
    the blocks [bs], whose caller holds the buffers [held].  The three
    operations are described by their effect on [view], the contents of the
    blocks as the file system sees them. *)

From Stdlib Require Import ZArith Lia.
From stdpp Require Import base numbers strings gmap list.
From S2P Require Import Prelude.
From S2P Require Import Machine.
From S2P Require Import FState.
From S2P Require Import Blocks.
From S2P Require Import Bio.
From S2P Require Import Log.
From S2P Require Import LogSpec.

Local Open Scope string_scope.
Local Open Scope list_scope.
Local Open Scope Z_scope.

Record tx (held : list nat) (s : fstate) (bs : list Z) : Prop := {
  tx_bio : bio_inv held s;
  tx_geom : log_geom s (length bs) bs;
  tx_n : lh_n (f_log s) = Z.of_nat (length bs);
  tx_dirty : forall b, dirty_block s b <-> b ∈ bs;
  tx_out : 1 <= lg_outstanding (f_log s);
  tx_logsize : lg_size (f_log s) = 30;
  tx_clear : get32 (disk s (lg_start (f_log s))) 0 = 0;
  tx_size : f_disksize s < two32 }.

(** What the operations on blocks leave alone. *)
Record frame (s s' : fstate) : Prop := {
  fr_img : f_img s' = f_img s;
  fr_writes : f_writes s' = f_writes s;
  fr_size : f_disksize s' = f_disksize s;
  fr_sb : f_sb s' = f_sb s;
  fr_inodes : f_inodes s' = f_inodes s;
  fr_files : f_files s' = f_files s;
  fr_pid : f_pid s' = f_pid s;
  fr_cwd : f_cwd s' = f_cwd s;
  fr_start : lg_start (f_log s') = lg_start (f_log s);
  fr_out : lg_outstanding (f_log s') = lg_outstanding (f_log s);
  fr_committing : lg_committing (f_log s') = lg_committing (f_log s) }.

#[export] Instance frame_preorder : PreOrder frame.
Proof.
  split; [by intros s; split|]. intros s1 s2 s3 [A1 A2 A3 A4 A5 A6 A7 A8 A9 A10 A11] [B1 B2 B3 B4 B5 B6 B7 B8 B9 B10 B11]. split; congruence.
Qed.

Lemma frame_cache s s' : same_but_cache s s' -> frame s s'.
Proof. intros (A1 & A2 & A3 & A4 & A5 & A6 & A7 & A8 & A9). split; congruence. Qed.

(** A transaction that holds no buffer can be committed. *)
Lemma tx_ready s bs : tx [] s bs -> log_ready s bs.
Proof. intros []. by split. Qed.

Lemma tx_le held s bs : tx held s bs -> (length bs <= 29)%nat.
Proof. intros [_ G _ _ _ _ _ _]. apply G. Qed.

(** A block of the disk outside the log. *)
Definition data_block (s : fstate) (b : Z) : Prop :=
  0 <= b < f_disksize s /\ ~ (lg_start (f_log s) <= b < lg_start (f_log s) + 30).

Lemma data_block_frame s s' b : frame s s' -> data_block s' b <-> data_block s b.
Proof. intros [_ _ E1 _ _ _ _ _ E2 _ _]. unfold data_block. by rewrite E1, E2. Qed.

Definition not_held (held : list nat) (s : fstate) (b : Z) : Prop := forall j d, j ∈ held -> ~ holds s j b d.

Lemma not_held_nil s b : not_held [] s b.
Proof. intros j d Hj. by apply elem_of_nil in Hj. Qed.

(** The buffers in [held] are the same. *)
Definition keeps (held : list nat) (s s' : fstate) : Prop := forall j, j ∈ held -> f_bufs s' !! j = f_bufs s !! j.

#[export] Instance keeps_preorder held : PreOrder (keeps held).
Proof. split; [by intros s j|]. intros s1 s2 s3 H1 H2 j Hj. by rewrite H2, H1. Qed.

Lemma keeps_tail i held s s' : keeps (i :: held) s s' -> keeps held s s'.
Proof. intros H j Hj. apply H. by right. Qed.

Lemma keeps_holds held s s' j b d : keeps held s s' -> j ∈ held -> holds s' j b d <-> holds s j b d.
Proof. intros H Hj. unfold holds. by rewrite (H j Hj). Qed.

Lemma keeps_not_held held s s' b : keeps held s s' -> not_held held s b -> not_held held s' b.
Proof. intros H Hn j d Hj Hh. apply (Hn j d Hj). by apply (keeps_holds held s s' j b d H Hj). Qed.

Lemma tx_bread held s bs b :
  tx held s bs -> 0 <= b < f_disksize s -> not_held held s b -> (length bs + length held < 30)%nat ->
  exists i s', bread 1 b s = Ret i s' /\ tx (i :: held) s' bs /\ holds s' i b (view s b) /\ (forall b', view s' b' = view s b') /\
    frame s s' /\ keeps held s s' /\ (i ∉ held).
Proof.
  intros [H G N D O Z' C S] Hb Hn Hl.
  destruct (bread_run held s b H Hb Hn) as (i & s' & Hr & Hi & H' & Hh & Hv & Hd & Hs & Ho).
  { left. eapply capacity; [done|exists bs; split; [done|]; intros b'; apply D|lia]. }
  exists i, s'. split; [done|]. split; [|split; [done|split; [done|split; [by apply frame_cache|split; [|done]]]]].
  - pose proof Hs as (E1 & E2 & E3 & E4 & _).
    split; rewrite ?E3, ?E4; try done; [eapply log_geom_disk; [done|by apply same_but_cache_disk]| |unfold disk; by rewrite E1, E2].
    intros b'. rewrite (Hd b'). apply D.
  - intros j Hj. apply Ho. by intros ->.
Qed.

Lemma tx_brelse held s bs i :
  tx (i :: held) s bs -> (i < 30)%nat ->
  exists s', brelse i s = Ret tt s' /\ tx held s' bs /\ (forall b, view s' b = view s b) /\ frame s s' /\ keeps held s s'.
Proof.
  intros [H G N D O Z' C S] Hi. destruct (held_lookup _ _ i H ltac:(left) Hi) as [x Hx].
  destruct (brelse_run held s i x H Hx) as (s' & Hr & H' & Hv & Hd & Hs & Ho).
  pose proof (bi_nodup _ _ H) as Hnd. apply NoDup_cons in Hnd as [Hni _].
  exists s'. split; [done|]. split; [|split; [done|split; [by apply frame_cache|]]].
  - pose proof Hs as (E1 & E2 & E3 & E4 & _).
    split; rewrite ?E3, ?E4; try done; [eapply log_geom_disk; [done|by apply same_but_cache_disk]| |unfold disk; by rewrite E1, E2].
    intros b'. rewrite (Hd b'). apply D.
  - intros j Hj. apply Ho. by intros ->.
Qed.

Lemma holds_lt held s i b d : bio_inv held s -> holds s i b d -> (i < 30)%nat.
Proof. intros H (x & Hx & _). apply lookup_lt_Some in Hx. by rewrite (bi_len _ _ H) in Hx. Qed.

(** The logged blocks after [log_write] of block [b]. *)
Definition log_add (b : Z) (bs : list Z) : list Z := if decide (b ∈ bs) then bs else bs ++ [b].

Lemma elem_of_log_add b b' bs : b' ∈ log_add b bs <-> b' ∈ bs \/ b' = b.
Proof.
  unfold log_add. destruct (decide (b ∈ bs)); [split; [by left|by intros [?| ->]]|]. by rewrite elem_of_app, list_elem_of_singleton.
Qed.

Lemma length_log_add b bs : (length bs <= length (log_add b bs) <= S (length bs))%nat.
Proof. unfold log_add. destruct (decide (b ∈ bs)); [lia|]. rewrite length_app. simpl. lia. Qed.

(** The header in memory after [log_write]. *)
Lemma log_add_header bs bl b n :
  (n < 30)%nat -> length bl = 30%nat -> length bs = n -> take n bl = bs ->
  let pos := default n (find_first (fun x => x =? b) (take n bl)) in
  exists bl', zset (Z.of_nat pos) b bl = Some bl' /\ length bl' = 30%nat /\
    (if Z.of_nat pos =? Z.of_nat n then Z.of_nat n + 1 else Z.of_nat n) = Z.of_nat (length (log_add b bs)) /\
    take (length (log_add b bs)) bl' = log_add b bs.
Proof.
  intros Hn Hl Hb Ht. cbv zeta. rewrite Ht. unfold log_add. destruct (find_first (fun x => x =? b) bs) as [p|] eqn:E; simpl default.
  - pose proof (find_first_lt _ _ _ E) as Hp. apply find_first_Some in E as [(y & Hy & Hyb) _]. apply Z.eqb_eq in Hyb as ->.
    rewrite decide_True by by eapply list_elem_of_lookup_2. rewrite zset_Some by lia. rewrite Nat2Z.id.
    assert (Hbl : bl !! p = Some b) by (rewrite <- Ht in Hy; apply lookup_take_Some in Hy; tauto).
    exists (<[p := b]> bl). split; [done|]. rewrite length_insert. split; [done|]. split; [|rewrite list_insert_id by done; by rewrite Hb].
    destruct (Z.eqb_spec (Z.of_nat p) (Z.of_nat n)); lia.
  - assert (Hnb : b ∉ bs). { apply find_first_None in E. rewrite Forall_forall in E. intros Hin. apply E in Hin. by rewrite Z.eqb_refl in Hin. }
    rewrite decide_False by done. rewrite zset_Some by lia. rewrite Nat2Z.id. exists (<[n := b]> bl). split; [done|].
    rewrite length_insert, length_app. simpl. split; [done|]. rewrite Z.eqb_refl. split; [lia|].
    rewrite Hb, Nat.add_1_r. rewrite (take_S_r _ _ b) by (apply list_lookup_insert_eq; lia). by rewrite take_insert_ge, Ht by lia.
Qed.

Lemma log_add_geom s s' bs b :
  log_geom s (length bs) bs -> data_block s b -> (length bs < 29)%nat -> lg_dev (f_log s') = lg_dev (f_log s) ->
  lg_start (f_log s') = lg_start (f_log s) -> f_disksize s' = f_disksize s -> length (lh_block (f_log s')) = 30%nat ->
  take (length (log_add b bs)) (lh_block (f_log s')) = log_add b bs -> log_geom s' (length (log_add b bs)) (log_add b bs).
Proof.
  intros [A1 A2 A3 A4 A5 A6 A7] Hb Hl E1 E2 E3 E4 E5. pose proof (length_log_add b bs). split; rewrite ?E1, ?E2, ?E3; try done.
  - split; [done|lia].
  - unfold log_add. destruct (decide (b ∈ bs)); [done|]. apply NoDup_app. split; [done|]. split; [|apply NoDup_singleton].
    intros b' Hb' Hin. apply list_elem_of_singleton in Hin as ->. done.
  - apply Forall_forall. intros b' Hin. apply elem_of_log_add in Hin as [Hin| ->]; [|exact Hb]. rewrite Forall_forall in A7. by apply A7.
Qed.

Lemma tx_write held s bs i b d0 d :
  tx (i :: held) s bs -> holds s i b d0 -> data_block s b -> length d = 512%nat -> (length bs < 29)%nat ->
  exists s', (set_bdata i d;; log_write i) s = Ret tt s' /\ tx (i :: held) s' (log_add b bs) /\ holds s' i b d /\
    (forall b', view s' b' = if decide (b' = b) then d else view s b') /\ frame s s' /\ keeps held s s'.
Proof.
  intros [H G N D O Zs C S] (x & Hi & _ & Hxb & _) Hdb Hd Hl.
  destruct (held_buf _ _ _ _ H ltac:(left) Hi) as (Hr & Hlk & Hdev & Hbr & Hf & Hlen).
  pose proof G as [G1 G2 [_ _] G4 G5 G6 G7]. unfold set_bdata. mstep (updb_run _ _ _ (set_b_data d) Hi). set (x1 := set_b_data d x).
  unfold log_write. rewrite bind_gets. change (f_log (setb i x1 s)) with (f_log s). mstep (getb_run _ _ _ (lookup_setb i x1 s x Hi)).
  rewrite Zs, N. change (b_blockno x1) with (b_blockno x). rewrite Hxb.
  destruct (Z.leb_spec LOGSIZE (Z.of_nat (length bs))) as [Hx|_]; [change LOGSIZE with 30 in Hx; lia|].
  destruct (Z.leb_spec (30 - 1) (Z.of_nat (length bs))); [lia|]. cbn [orb]. rewrite bind_unless_false.
  destruct (Z.ltb_spec (lg_outstanding (f_log s)) 1); [lia|]. rewrite bind_unless_false. rewrite Nat2Z.id.
  destruct (log_add_header bs (lh_block (f_log s)) b (length bs)) as (bl & Hz & Hbl & Hn & Ht); [lia|done|done|done|].
  cbv zeta in *. rewrite Hz, bind_some. unfold updlog. rewrite bind_modify. set (s1 := set_f_log _ _).
  assert (Hi1 : f_bufs s1 !! i = Some x1) by apply (lookup_setb i x1 s x Hi). rewrite (updb_run _ _ _ _ Hi1).
  set (y := set_b_flags _ x1). set (s' := setb i y s1).
  assert (Hy6 : b_flags y = 6) by (unfold y; change (b_flags x1) with (b_flags x); simpl; by destruct Hf as [-> | ->]).
  assert (Hbufs : f_bufs s' = <[i := y]> (f_bufs s)) by (unfold s', s1; simpl; by rewrite list_insert_insert_eq).
  assert (Hun : forall j z, j <> i -> f_bufs s !! j = Some z -> b_dev z = 1 -> b_blockno z <> b).
  { intros j z Hji Hj Hzd He. apply Hji. eapply (bi_uniq _ _ H); [done|done|done|done|congruence]. }
  assert (Hcy : caches (b_blockno y) y) by (split; [done|]; split; [done|]; by rewrite Hy6).
  assert (Hinv : bio_inv (i :: held) s').
  { eapply (bio_replace (i :: held) (i :: held) s s' i x y); try done.
    - intros _. apply H. exact Hbr.
    - apply H.
    - rewrite bool_decide_true by left. split; try done; [by right; right|by left|by rewrite Hy6|by rewrite Hy6].
    - intros _ j z Hji Hj Hzd. change (b_blockno y) with (b_blockno x). rewrite Hxb. by apply (Hun j z). }
  assert (Hh : holds s' i b d). { exists y. rewrite Hbufs. split; [by apply (lookup_setb i y s x)|done]. }
  assert (Hk : keeps held s s').
  { intros j Hj. rewrite Hbufs. apply list_lookup_insert_ne. intros ->. pose proof (bi_nodup _ _ H) as Hnd. apply NoDup_cons in Hnd. tauto. }
  exists s'. split; [done|]. split; [|split; [done|split; [|split; [by split|done]]]].
  - split; try done; [by eapply log_add_geom; try done| |].
    + unfold s', s1. cbn [setb f_log set_f_bufs set_f_log set_lh_n set_lh_block lh_n]. rewrite ?N. exact Hn.
    + intros b'. rewrite elem_of_log_add, <- D. split.
      * intros (j & z & Hj & Hc & Hz6). rewrite Hbufs in Hj. apply insert_lookup_cases in Hj as [(<- & <- & _)|[Hij Hj]].
        -- right. destruct Hc as (_ & <- & _). done.
        -- left. by exists j, z.
      * intros [(j & z & Hj & Hc & Hz6)| ->]; [|exists i, y; rewrite Hbufs; split; [by apply (lookup_setb i y s x)|]; split; [|done]; by rewrite <- Hxb].
        destruct (decide (j = i)) as [->|Hji]; [|exists j, z; rewrite Hbufs, list_lookup_insert_ne by done; done].
        rewrite Hi in Hj. injection Hj as <-. exists i, y. rewrite Hbufs. split; [by apply (lookup_setb i y s x)|]. split; [|done].
        destruct Hc as (_ & <- & _). done.
  - intros b'. rewrite (view_replace _ _ s s' i x y H Hinv Hi Hbufs Hcy); [|by left|done]. change (b_blockno y) with (b_blockno x). by rewrite Hxb.
Qed.

(** A held buffer changed, logged and released. *)
Lemma tx_finish held s bs i b d0 d :
  tx (i :: held) s bs -> holds s i b d0 -> data_block s b -> length d = 512%nat -> (length bs < 29)%nat ->
  exists s', (forall B (K : unit -> M fstate B), (set_bdata i d;; log_write i;; brelse i ≫= K) s = K tt s') /\
    (set_bdata i d;; log_write i;; brelse i) s = Ret tt s' /\ tx held s' (log_add b bs) /\
    (forall b', view s' b' = if decide (b' = b) then d else view s b') /\ frame s s' /\ keeps held s s'.
Proof.
  intros H Hh Hb Hd Hl. destruct (tx_write held s bs i b d0 d H Hh Hb Hd Hl) as (s1 & Hr1 & H1 & Hh1 & Hv1 & F1 & K1).
  destruct (tx_brelse held s1 (log_add b bs) i H1) as (s2 & Hr2 & H2 & Hv2 & F2 & K2); [eapply holds_lt; [apply H1|done]|].
  exists s2. split; [|split; [|split; [done|split; [|split; [by etransitivity|by etransitivity]]]]].
  - intros B K. rewrite <- (bind_assoc_run (set_bdata i d) (fun _ => log_write i)). mstep Hr1. by mstep Hr2.
  - rewrite <- (bind_assoc_run (set_bdata i d) (fun _ => log_write i)). by mstep Hr1.
  - intros b'. by rewrite Hv2.
Qed.
