(* ===== verification/Fs.v ===== *)
(** * The file system (fs.c)

    Every function of fs.c, as written.  A pointer to an inode is its index in
    the inode cache; a function that can return a null pointer returns an
    [option].  A C string is the list of its bytes before the terminating 0,
    and an array of characters is the list of its bytes.  The device functions
    that [readi] and [writei] call through [devsw] are the class [Devsw]. *)

From Stdlib Require Import ZArith Lia.
From stdpp Require Import base numbers strings gmap list.
From S2P Require Import Prelude.
From S2P Require Import Machine.
From S2P Require Import FState.
From S2P Require Import Blocks.
From S2P Require Import Bio.
From S2P Require Import Log.

Local Open Scope string_scope.
Local Open Scope list_scope.
Local Open Scope Z_scope.

(** The conversion to [short]. *)
Definition i16 (x : Z) : Z := let y := x mod 65536 in if y <? 32768 then y else y - 65536.

Definition BBLOCK (b : Z) (sb : superblock) : Z := u32 (b / BPB + sb_bmapstart sb).
Definition IBLOCK (i : Z) (sb : superblock) : Z := u32 (i / IPB + sb_inodestart sb).

(** ** Blocks *)

Definition bzero (dev bno : Z) : M fstate unit :=
  bp ← bread dev bno;
  set_bdata bp (replicate (Z.to_nat BSIZE) 0);;
  log_write bp;;
  brelse bp.

(** [bp->data[bi / 8] & (1 << (bi % 8))], [|=] and [&= ~]. *)
Definition bit (d : list Z) (bi : Z) : bool :=
  negb (Z.land (default 0 (d !! Z.to_nat (bi / 8))) (Z.shiftl 1 (bi mod 8)) =? 0).
Definition set_bit (bi : Z) (d : list Z) : list Z :=
  alter (fun x => Z.lor x (Z.shiftl 1 (bi mod 8))) (Z.to_nat (bi / 8)) d.
Definition clear_bit (bi : Z) (d : list Z) : list Z :=
  alter (fun x => Z.ldiff x (Z.shiftl 1 (bi mod 8))) (Z.to_nat (bi / 8)) d.

(** The inner loop of [balloc], from [bi] on. *)
Fixpoint free_bit (n : nat) (bi b size : Z) (d : list Z) : option Z :=
  match n with
  | O => None
  | S n => if b + bi <? size then (if bit d bi then free_bit n (bi + 1) b size d else Some bi) else None
  end.

Fixpoint balloc_loop (n : nat) (dev b : Z) : M fstate Z :=
  match n with
  | O => panic "balloc: out of blocks"
  | S n =>
      sb ← gets f_sb;
      if b <? sb_size sb then
        bp ← bread dev (BBLOCK b sb);
        d ← bdata bp;
        match free_bit (Z.to_nat BPB) 0 b (sb_size sb) d with
        | Some bi =>
            set_bdata bp (set_bit bi d);;
            log_write bp;;
            brelse bp;;
            bzero dev (b + bi);;
            mret (b + bi)
        | None => brelse bp;; balloc_loop n dev (b + BPB)
        end
      else panic "balloc: out of blocks"
  end.
Definition balloc (dev : Z) : M fstate Z := sb ← gets f_sb; balloc_loop (Z.to_nat (sb_size sb / BPB + 1)) dev 0.

Definition bfree (dev b : Z) : M fstate unit :=
  sb ← readsb dev;
  modify (set_f_sb sb);;
  bp ← bread dev (BBLOCK b sb);
  d ← bdata bp;
  let bi := b mod BPB in
  unless_panic (negb (bit d bi)) "freeing free block";;
  set_bdata bp (clear_bit bi d);;
  log_write bp;;
  brelse bp.

(** ** Inodes *)

Fixpoint iinit_loop (n : nat) (i : nat) : M fstate unit :=
  match n with O => mret tt | S n => initsleeplock (LInode i);; iinit_loop n (S i) end.
Definition iinit (dev : Z) : M fstate unit :=
  iinit_loop (Z.to_nat NINODE) 0;;
  sb ← readsb dev;
  modify (set_f_sb sb).

(** The first entry of the cache for [(dev, inum)], or else the first free
    entry. *)
Definition iget (dev inum : Z) : M fstate nat :=
  l ← gets f_inodes;
  match find_first (fun x => (0 <? i_ref x) && (i_dev x =? dev) && (i_inum x =? inum)) l with
  | Some ip => updi ip (fun x => set_i_ref (i_ref x + 1) x);; mret ip
  | None =>
      match find_first (fun x => i_ref x =? 0) l with
      | Some ip => updi ip (fun x => set_i_valid 0 (set_i_ref 1 (set_i_inum inum (set_i_dev dev x))));; mret ip
      | None => panic "iget: no inodes"
      end
  end.

(** [struct dinode]: the byte offset of [dip], and its fields. *)
Definition dip_at (inum : Z) : nat := Z.to_nat (64 * (inum mod IPB)).
Definition put_dinode (o : nat) (x : inode) (d : list Z) : list Z :=
  put32s (o + 12) (i_addrs x) (put32 (o + 8) (i_size x) (put16 (o + 6) (i_nlink x)
    (put16 (o + 4) (i_minor x) (put16 (o + 2) (i_major x) (put16 o (i_type x) d))))).
Definition get_dinode (o : nat) (d : list Z) (x : inode) : inode :=
  mkinode (i_dev x) (i_inum x) (i_ref x) (i_lock x) (i_valid x)
    (i16 (get16 d o)) (i16 (get16 d (o + 2))) (i16 (get16 d (o + 4))) (i16 (get16 d (o + 6)))
    (get32 d (o + 8)) (get32s (o + 12) 13 d).

Fixpoint ialloc_loop (n : nat) (dev inum type : Z) : M fstate nat :=
  match n with
  | O => panic "ialloc: no inodes"
  | S n =>
      sb ← gets f_sb;
      bp ← bread dev (IBLOCK inum sb);
      d ← bdata bp;
      if get16 d (dip_at inum) =? 0 then
        set_bdata bp (put16 (dip_at inum) type (splice (dip_at inum) (replicate 64 0) d));;
        log_write bp;;
        brelse bp;;
        iget dev inum
      else brelse bp;; ialloc_loop n dev (inum + 1) type
  end.
Definition ialloc (dev type : Z) : M fstate nat :=
  sb ← gets f_sb; ialloc_loop (Z.to_nat (sb_ninodes sb - 1)) dev 1 type.

Definition iupdate (ip : nat) : M fstate unit :=
  x ← geti ip;
  sb ← gets f_sb;
  bp ← bread (i_dev x) (IBLOCK (i_inum x) sb);
  d ← bdata bp;
  set_bdata bp (put_dinode (dip_at (i_inum x)) x d);;
  log_write bp;;
  brelse bp.

Definition idup (ip : nat) : M fstate nat := _ ← geti ip; updi ip (fun x => set_i_ref (i_ref x + 1) x);; mret ip.

Definition ilock (ip : nat) : M fstate unit :=
  x ← geti ip;
  unless_panic (i_ref x <? 1) "ilock";;
  acquiresleep (LInode ip);;
  x ← geti ip;
  if i_valid x =? 0 then
    sb ← gets f_sb;
    bp ← bread (i_dev x) (IBLOCK (i_inum x) sb);
    d ← bdata bp;
    updi ip (get_dinode (dip_at (i_inum x)) d);;
    brelse bp;;
    updi ip (set_i_valid 1);;
    x ← geti ip;
    unless_panic (i_type x =? 0) "ilock: no type"
  else mret tt.

Definition iunlock (ip : nat) : M fstate unit :=
  h ← holdingsleep (LInode ip);
  x ← geti ip;
  unless_panic ((h =? 0) || (i_ref x <? 1)) "iunlock";;
  releasesleep (LInode ip).

(** The two loops of [itrunc]. *)
Fixpoint itrunc_direct (n : nat) (i : nat) (ip : nat) : M fstate unit :=
  match n with
  | O => mret tt
  | S n =>
      x ← geti ip;
      a ← of_option "addrs" (i_addrs x !! i);
      (if negb (a =? 0) then bfree (i_dev x) a;; updi ip (fun x => set_i_addrs (<[i := 0]> (i_addrs x)) x) else mret tt);;
      itrunc_direct n (S i) ip
  end.
Fixpoint itrunc_indirect (n : nat) (j : nat) (dev : Z) (bp : nat) : M fstate unit :=
  match n with
  | O => mret tt
  | S n =>
      d ← bdata bp;
      let a := get32 d (4 * j) in
      (if negb (a =? 0) then bfree dev a else mret tt);;
      itrunc_indirect n (S j) dev bp
  end.

Definition itrunc (ip : nat) : M fstate unit :=
  itrunc_direct (Z.to_nat NDIRECT) 0 ip;;
  x ← geti ip;
  a ← of_option "addrs" (zget (i_addrs x) NDIRECT);
  (if negb (a =? 0) then
     bp ← bread (i_dev x) a;
     itrunc_indirect (Z.to_nat NINDIRECT) 0 (i_dev x) bp;;
     brelse bp;;
     bfree (i_dev x) a;;
     updi ip (fun x => set_i_addrs (<[Z.to_nat NDIRECT := 0]> (i_addrs x)) x)
   else mret tt);;
  updi ip (set_i_size 0);;
  iupdate ip.

Definition iput (ip : nat) : M fstate unit :=
  acquiresleep (LInode ip);;
  x ← geti ip;
  (if negb (i_valid x =? 0) && (i_nlink x =? 0) && (i_ref x =? 1) then
     itrunc ip;;
     updi ip (set_i_type 0);;
     iupdate ip;;
     updi ip (set_i_valid 0)
   else mret tt);;
  releasesleep (LInode ip);;
  updi ip (fun x => set_i_ref (i_ref x - 1) x).

Definition iunlockput (ip : nat) : M fstate unit := iunlock ip;; iput ip.

(** ** Content *)

Definition set_addr (n : Z) (a : Z) (x : inode) : inode := set_i_addrs (<[Z.to_nat n := a]> (i_addrs x)) x.

Definition bmap (ip : nat) (bn : Z) : M fstate Z :=
  x ← geti ip;
  if bn <? NDIRECT then
    addr ← of_option "addrs" (zget (i_addrs x) bn);
    if addr =? 0 then addr ← balloc (i_dev x); updi ip (set_addr bn addr);; mret addr
    else mret addr
  else
    let bn := bn - NDIRECT in
    if bn <? NINDIRECT then
      addr ← of_option "addrs" (zget (i_addrs x) NDIRECT);
      addr ← (if addr =? 0 then addr ← balloc (i_dev x); updi ip (set_addr NDIRECT addr);; mret addr else mret addr);
      bp ← bread (i_dev x) addr;
      d ← bdata bp;
      let addr := get32 d (Z.to_nat (4 * bn)) in
      addr ← (if addr =? 0 then
                addr ← balloc (i_dev x);
                d ← bdata bp;
                set_bdata bp (put32 (Z.to_nat (4 * bn)) addr d);;
                log_write bp;;
                mret addr
              else mret addr);
      brelse bp;;
      mret addr
    else panic "bmap: out of range".

(** [struct stat]. *)
Record stat := mkstat { st_type : Z; st_dev : Z; st_ino : Z; st_nlink : Z; st_size : Z }.
Definition stati (ip : nat) : M fstate stat :=
  x ← geti ip; mret (mkstat (i_type x) (i_dev x) (i_inum x) (i_nlink x) (i_size x)).

(** [devsw]: a device may have a read and a write function, called with the
    inode and the number of bytes, or the bytes. *)
Class Devsw := {
  dev_read : Z -> option (nat -> Z -> M fstate (Z * list Z));
  dev_write : Z -> option (nat -> list Z -> Z -> M fstate Z) }.

(** The table before the drivers fill it in. *)
Definition no_devices : Devsw := {| dev_read := fun _ => None; dev_write := fun _ => None |}.

Section fs.
Context `{Devsw}.

(** The loop of [readi]; [acc] is what has been copied to [dst]. *)
Fixpoint readi_loop (fuel : nat) (ip : nat) (off n tot : Z) (acc : list Z) : M fstate (list Z) :=
  if tot <? n then
    match fuel with
    | O => fault "readi: fuel"
    | S fuel =>
        x ← geti ip;
        a ← bmap ip (off / BSIZE);
        bp ← bread (i_dev x) a;
        let m := Z.min (n - tot) (BSIZE - off mod BSIZE) in
        d ← bdata bp;
        brelse bp;;
        readi_loop fuel ip (u32 (off + m)) n (tot + m) (acc ++ slice (Z.to_nat (off mod BSIZE)) (Z.to_nat m) d)
    end
  else mret acc.

(** The result of [readi] and the bytes at [dst]. *)
Definition readi (ip : nat) (off n : Z) : M fstate (Z * list Z) :=
  x ← geti ip;
  if i_type x =? T_DEV then
    if (i_major x <? 0) || (NDEV <=? i_major x) then mret (-1, [])
    else match dev_read (i_major x) with None => mret (-1, []) | Some f => f ip n end
  else if (i_size x <? off) || (u32 (off + n) <? off) then mret (-1, [])
  else
    let n := if i_size x <? u32 (off + n) then i_size x - off else n in
    bs ← readi_loop (Z.to_nat n) ip off n 0 [];
    mret (n, bs).

Definition src_bytes (src : list Z) (tot m : Z) : option (list Z) :=
  if tot + m <=? Z.of_nat (length src) then Some (slice (Z.to_nat tot) (Z.to_nat m) src) else None.

(** The loop of [writei]; it returns the final [off]. *)
Fixpoint writei_loop (fuel : nat) (ip : nat) (src : list Z) (off n tot : Z) : M fstate Z :=
  if tot <? n then
    match fuel with
    | O => fault "writei: fuel"
    | S fuel =>
        x ← geti ip;
        a ← bmap ip (off / BSIZE);
        bp ← bread (i_dev x) a;
        let m := Z.min (n - tot) (BSIZE - off mod BSIZE) in
        bs ← of_option "src" (src_bytes src tot m);
        d ← bdata bp;
        set_bdata bp (splice (Z.to_nat (off mod BSIZE)) bs d);;
        log_write bp;;
        brelse bp;;
        writei_loop fuel ip src (u32 (off + m)) n (tot + m)
    end
  else mret off.

Definition writei (ip : nat) (src : list Z) (off n : Z) : M fstate Z :=
  x ← geti ip;
  if i_type x =? T_DEV then
    if (i_major x <? 0) || (NDEV <=? i_major x) then mret (-1)
    else match dev_write (i_major x) with None => mret (-1) | Some f => f ip src n end
  else if (i_size x <? off) || (u32 (off + n) <? off) then mret (-1)
  else if MAXFILE * BSIZE <? u32 (off + n) then mret (-1)
  else
    off ← writei_loop (Z.to_nat n) ip src off n 0;
    x ← geti ip;
    (if (0 <? n) && (i_size x <? off) then updi ip (set_i_size off);; iupdate ip else mret tt);;
    mret n.

(** ** Directories *)

(** [strncmp] and [strncpy] of string.c on arrays; [None] is an access past
    the end of an array. *)
Fixpoint lstrncmp (n : nat) (p q : list Z) : option Z :=
  match n with
  | O => Some 0
  | S n =>
      match p, q with
      | a :: p, b :: q => if a =? 0 then Some (a - b) else if a =? b then lstrncmp n p q else Some (a - b)
      | _, _ => None
      end
  end.
Fixpoint lstrncpy (n : nat) (t : list Z) : option (list Z) :=
  match n with
  | O => Some []
  | S n =>
      match t with
      | [] => None
      | x :: t => if x =? 0 then Some (replicate (S n) 0) else r ← lstrncpy n t; Some (x :: r)
      end
  end.

Definition namecmp (s t : list Z) : M fstate Z := of_option "namecmp" (lstrncmp (Z.to_nat DIRSIZ) s t).

(** [struct dirent]: the inode number and the name. *)
Definition de_inum (de : list Z) : Z := get16 de 0.
Definition de_name (de : list Z) : list Z := drop 2 de.
Definition mk_dirent (inum : Z) (name : list Z) : list Z := le16 inum ++ name.

(** The loop of [dirlookup]: the entry's inode number and offset. *)
Fixpoint dirlookup_loop (fuel : nat) (dp : nat) (name : list Z) (off : Z) : M fstate (option (Z * Z)) :=
  x ← geti dp;
  if off <? i_size x then
    match fuel with
    | O => fault "dirlookup: fuel"
    | S fuel =>
        r ← readi dp off 16;
        unless_panic (negb (r.1 =? 16)) "dirlookup read";;
        if de_inum r.2 =? 0 then dirlookup_loop fuel dp name (u32 (off + 16))
        else
          c ← namecmp name (de_name r.2);
          if c =? 0 then mret (Some (de_inum r.2, off)) else dirlookup_loop fuel dp name (u32 (off + 16))
    end
  else mret None.

(** [dirlookup]: the inode and [*poff]. *)
Definition dirlookup (dp : nat) (name : list Z) : M fstate (option (nat * Z)) :=
  x ← geti dp;
  unless_panic (negb (i_type x =? T_DIR)) "dirlookup not DIR";;
  e ← dirlookup_loop (Z.to_nat (i_size x)) dp name 0;
  match e with
  | Some (inum, off) => ip ← iget (i_dev x) inum; mret (Some (ip, off))
  | None => mret None
  end.

(** The offset of the first free entry, or the size. *)
Fixpoint dirlink_loop (fuel : nat) (dp : nat) (off : Z) : M fstate Z :=
  x ← geti dp;
  if off <? i_size x then
    match fuel with
    | O => fault "dirlink: fuel"
    | S fuel =>
        r ← readi dp off 16;
        unless_panic (negb (r.1 =? 16)) "dirlink read";;
        if de_inum r.2 =? 0 then mret off else dirlink_loop fuel dp (off + 16)
    end
  else mret off.

Definition dirlink (dp : nat) (name : list Z) (inum : Z) : M fstate Z :=
  e ← dirlookup dp name;
  match e with
  | Some (ip, _) => iput ip;; mret (-1)
  | None =>
      x ← geti dp;
      off ← dirlink_loop (Z.to_nat (i_size x)) dp 0;
      nm ← of_option "strncpy" (lstrncpy (Z.to_nat DIRSIZ) name);
      r ← writei dp (mk_dirent inum nm) off 16;
      unless_panic (negb (r =? 16)) "dirlink";;
      mret 0
  end.

(** ** Paths *)

Definition slash : Z := 47.
Fixpoint skip_slashes (path : list Z) : list Z :=
  match path with c :: path' => if c =? slash then skip_slashes path' else path | [] => [] end.
(** The characters up to the next slash, and the rest. *)
Fixpoint elem_of_path (path : list Z) : list Z * list Z :=
  match path with
  | c :: path' => if c =? slash then ([], path) else let '(e, r) := elem_of_path path' in (c :: e, r)
  | [] => ([], [])
  end.

(** The rest of the path and the array [name]. *)
Definition skipelem (path name : list Z) : option (list Z * list Z) :=
  match skip_slashes path with
  | [] => None
  | path =>
      let '(s, path) := elem_of_path path in
      let len := Z.of_nat (length s) in
      let name := if DIRSIZ <=? len then splice 0 (take (Z.to_nat DIRSIZ) s) name else splice 0 (s ++ [0]) name in
      Some (skip_slashes path, name)
  end.

(** The loop of [namex]: the inode, or null, and the array [name]. *)
Fixpoint namex_loop (fuel : nat) (ip : nat) (path : list Z) (parent : bool) (name : list Z) : M fstate (option nat * list Z) :=
  match skipelem path name with
  | None => if parent then iput ip;; mret (None, name) else mret (Some ip, name)
  | Some (path, name) =>
      match fuel with
      | O => fault "namex: fuel"
      | S fuel =>
          ilock ip;;
          x ← geti ip;
          if negb (i_type x =? T_DIR) then iunlockput ip;; mret (None, name)
          else if parent && bool_decide (path = []) then iunlock ip;; mret (Some ip, name)
          else
            next ← dirlookup ip name;
            match next with
            | None => iunlockput ip;; mret (None, name)
            | Some (next, _) => iunlockput ip;; namex_loop fuel next path parent name
            end
      end
  end.

Definition namex (path : list Z) (parent : bool) (name : list Z) : M fstate (option nat * list Z) :=
  ip ← (if bool_decide (head path = Some slash) then iget ROOTDEV ROOTINO else cwd ← gets f_cwd; idup cwd);
  namex_loop (length path) ip path parent name.

(** The array [name] on the stack of [namei] is not initialised; its first
    contents are an argument. *)
Definition namei (path stack : list Z) : M fstate (option nat) := r ← namex path false stack; mret r.1.
Definition nameiparent (path name : list Z) : M fstate (option nat * list Z) := namex path true name.
End fs.
