(* ===== verification/FsAlloc.v ===== *)
(** * The block allocator of fs.c

    [balloc] and [bfree] inside a transaction, as operations on the set of
    blocks whose bit in the bitmap is set. *)

From Stdlib Require Import ZArith Lia.
From stdpp Require Import base numbers strings gmap list.
From S2P Require Import Prelude.
From S2P Require Import Machine.
From S2P Require Import FState.
From S2P Require Import Blocks.
From S2P Require Import Bio.
From S2P Require Import Log.
From S2P Require Import LogSpec.
From S2P Require Import Tx.
From S2P Require Import Fs.

Local Open Scope string_scope.
Local Open Scope list_scope.
Local Open Scope Z_scope.

(** ** Bits *)

Lemma land_bit x k : 0 <= k -> negb (Z.land x (Z.shiftl 1 k) =? 0) = Z.testbit x k.
Proof.
  intros Hk. rewrite Z.shiftl_1_l. destruct (Z.testbit x k) eqn:E.
  - destruct (Z.eqb_spec (Z.land x (2 ^ k)) 0) as [H|]; [|done]. apply (f_equal (fun z => Z.testbit z k)) in H.
    rewrite Z.land_spec, Z.pow2_bits_true, E, Z.bits_0 in H by done. done.
  - rewrite (proj2 (Z.eqb_eq _ 0)); [done|]. apply Z.bits_inj'. intros j Hj. rewrite Z.land_spec, Z.bits_0, Z.pow2_bits_eqb by done.
    destruct (Z.eqb_spec k j) as [<-|]; [by rewrite E|by rewrite andb_false_r].
Qed.

Lemma bit_testbit d bi : bit d bi = Z.testbit (default 0 (d !! Z.to_nat (bi / 8))) (bi mod 8).
Proof. unfold bit. apply land_bit. apply Z.mod_pos_bound. lia. Qed.

Lemma same_bit bi bj : 0 <= bi -> 0 <= bj -> Z.to_nat (bi / 8) = Z.to_nat (bj / 8) -> bi mod 8 = bj mod 8 -> bi = bj.
Proof.
  intros Hi Hj H1 H2. rewrite (Z.div_mod bi 8), (Z.div_mod bj 8) by lia. rewrite H2. apply Z2Nat.inj in H1; [congruence| |]; apply Z.div_pos; lia.
Qed.

Lemma bit_alter (op : Z -> Z -> Z) (bop : bool -> bool -> bool) bi bj d :
  (forall x y k, Z.testbit (op x y) k = bop (Z.testbit x k) (Z.testbit y k)) -> (forall b, bop b false = b) ->
  0 <= bi < 4096 -> 0 <= bj < 4096 -> length d = 512%nat ->
  bit (alter (fun x => op x (Z.shiftl 1 (bi mod 8))) (Z.to_nat (bi / 8)) d) bj = if bi =? bj then bop (bit d bj) true else bit d bj.
Proof.
  intros Hop Hb Hi Hj Hd. rewrite !bit_testbit. pose proof (Z.mod_pos_bound bi 8 ltac:(lia)). pose proof (Z.mod_pos_bound bj 8 ltac:(lia)).
  destruct (decide (Z.to_nat (bi / 8) = Z.to_nat (bj / 8))) as [E|E].
  - rewrite E. destruct (lookup_lt_is_Some_2 d (Z.to_nat (bj / 8))) as [x Hx]. { rewrite Hd. Z.div_mod_to_equations. lia. }
    rewrite list_lookup_alter_eq, Hx. simpl. rewrite Hop, Z.shiftl_1_l, Z.pow2_bits_eqb by lia.
    destruct (Z.eqb_spec bi bj) as [<-|Hne]; [by rewrite Z.eqb_refl|]. destruct (Z.eqb_spec (bi mod 8) (bj mod 8)) as [E'|]; [|by rewrite Hb].
    destruct Hne. apply same_bit; [lia|lia|done|done].
  - rewrite list_lookup_alter_ne by done. destruct (Z.eqb_spec bi bj) as [->|]; done.
Qed.

Lemma bit_set_bit bi bj d : 0 <= bi < 4096 -> 0 <= bj < 4096 -> length d = 512%nat -> bit (set_bit bi d) bj = (bi =? bj) || bit d bj.
Proof.
  intros Hi Hj Hd. unfold set_bit. rewrite (bit_alter Z.lor orb) by (done || apply Z.lor_spec || apply orb_false_r).
  destruct (bi =? bj); [by rewrite orb_true_r|done].
Qed.

Lemma bit_clear_bit bi bj d : 0 <= bi < 4096 -> 0 <= bj < 4096 -> length d = 512%nat -> bit (clear_bit bi d) bj = negb (bi =? bj) && bit d bj.
Proof.
  intros Hi Hj Hd. unfold clear_bit. rewrite (bit_alter Z.ldiff (fun a b => a && negb b)) by (done || apply Z.ldiff_spec || (intros []; done)).
  destruct (bi =? bj); [by rewrite andb_false_r|done].
Qed.

Lemma free_bit_Some n bi b size d r :
  free_bit n bi b size d = Some r ->
  bi <= r < bi + Z.of_nat n /\ b + r < size /\ bit d r = false /\ forall k, bi <= k < r -> bit d k = true.
Proof.
  revert bi. induction n as [|n IH]; intros bi; simpl; [done|]. destruct (Z.ltb_spec (b + bi) size) as [Hs|]; [|done].
  destruct (bit d bi) eqn:E.
  - intros H. destruct (IH _ H) as (H1 & H2 & H3 & H4). split; [lia|]. split; [done|]. split; [done|].
    intros k Hk. destruct (decide (k = bi)) as [->|]; [done|]. apply H4. lia.
  - intros [= <-]. split; [lia|]. split; [done|]. split; [done|]. lia.
Qed.

Lemma free_bit_None n bi b size d :
  free_bit n bi b size d = None -> forall k, bi <= k < bi + Z.of_nat n -> b + k < size -> bit d k = true.
Proof.
  revert bi. induction n as [|n IH]; intros bi; simpl; [lia|]. destruct (Z.ltb_spec (b + bi) size) as [Hs|Hs]; [|intros _ k; lia].
  destruct (bit d bi) eqn:E; [|done]. intros H k Hk Hks. destruct (decide (k = bi)) as [->|]; [done|]. apply (IH _ H); lia.
Qed.

(** ** The bitmap *)

Definition used (v : Z -> list Z) (sb : superblock) (b : Z) : bool := bit (v (BBLOCK b sb)) (b mod BPB).

(** The bitmap is on the disk outside the log, and a free block is neither in
    the log nor in the bitmap. *)
Record bitmap_ok (s : fstate) : Prop := {
  bm_size : 0 <= sb_size (f_sb s) <= f_disksize s;
  bm_start : 0 <= sb_bmapstart (f_sb s);
  bm_blocks : forall b, 0 <= b < sb_size (f_sb s) -> data_block s (b / BPB + sb_bmapstart (f_sb s));
  bm_free : forall b, 0 <= b < sb_size (f_sb s) -> used (view s) (f_sb s) b = false ->
    data_block s b /\ forall b', 0 <= b' < sb_size (f_sb s) -> b <> b' / BPB + sb_bmapstart (f_sb s) }.

Lemma BBLOCK_eq s b : bitmap_ok s -> f_disksize s < two32 -> 0 <= b < sb_size (f_sb s) -> BBLOCK b (f_sb s) = b / BPB + sb_bmapstart (f_sb s).
Proof.
  intros [A1 A2 A3 A4] Hz Hb. unfold BBLOCK. apply u32_id. destruct (A3 b Hb) as [? _]. lia.
Qed.

Definition block0 : list Z := replicate (Z.to_nat BSIZE) 0.

Lemma bzero_run held s bs b :
  tx held s bs -> data_block s b -> not_held held s b -> (length bs + length held < 29)%nat ->
  exists s', bzero 1 b s = Ret tt s' /\ tx held s' (log_add b bs) /\
    (forall b', view s' b' = if decide (b' = b) then block0 else view s b') /\ frame s s' /\ keeps held s s'.
Proof.
  intros H Hb Hn Hl. unfold bzero. destruct (tx_bread held s bs b H) as (i & s1 & Hr1 & H1 & Hh1 & Hv1 & F1 & K1 & Hi); [apply Hb|done|lia|].
  mstep Hr1. destruct (tx_finish held s1 bs i b _ block0 H1 Hh1) as (s2 & _ & Hr2 & H2 & Hv2 & F2 & K2); [by apply (data_block_frame s s1)|done|lia|].
  exists s2. split; [done|]. split; [done|]. split; [|split; by etransitivity]. intros b'. rewrite Hv2. by destruct (decide (b' = b)).
Qed.

(** The blocks after block [b] has been allocated. *)
Definition alloc_view (sb : superblock) (b : Z) (v : Z -> list Z) (x : Z) : list Z :=
  if decide (x = b) then block0 else if decide (x = BBLOCK b sb) then set_bit (b mod BPB) (v x) else v x.

Definition first_free (s : fstate) (b : Z) : Prop :=
  0 <= b < sb_size (f_sb s) /\ used (view s) (f_sb s) b = false /\ forall b', 0 <= b' < b -> used (view s) (f_sb s) b' = true.

(** Two states with the same blocks have the same bitmap. *)
Section same_bitmap.
Context (s s2 : fstate) (F : frame s s2) (V : forall x, view s2 x = view s x).

Lemma used_same b : used (view s2) (f_sb s2) b = used (view s) (f_sb s) b.
Proof. unfold used. by rewrite (fr_sb _ _ F), V. Qed.

Lemma first_free_same b : first_free s2 b <-> first_free s b.
Proof.
  unfold first_free. rewrite used_same, (fr_sb _ _ F).
  split; intros (? & ? & Hb'); (split; [done|]; split; [done|]; intros b' ?; specialize (Hb' b')); [rewrite <- used_same|rewrite <- (fr_sb _ _ F), used_same];
    rewrite ?(fr_sb _ _ F) in *; auto.
Qed.

Lemma bitmap_same : bitmap_ok s -> bitmap_ok s2.
Proof.
  intros [A1 A2 A3 A4].
  split; rewrite ?(fr_sb _ _ F), ?(fr_size _ _ F); try done; intros b; rewrite <- ?(fr_sb _ _ F), ?used_same, ?(fr_sb _ _ F), !(data_block_frame s s2) by done; auto.
Qed.
End same_bitmap.

Lemma chunk b k : b mod 4096 = 0 -> 0 <= k < 4096 -> (b + k) / 4096 = b / 4096 /\ (b + k) mod 4096 = k.
Proof. intros Hb Hk. Z.div_mod_to_equations. lia. Qed.

Lemma balloc_loop_run n held s bs b0 :
  tx held s bs -> bitmap_ok s -> b0 mod 4096 = 0 -> 0 <= b0 -> sb_size (f_sb s) < b0 + 4096 * Z.of_nat n ->
  (forall b, 0 <= b < b0 -> b < sb_size (f_sb s) -> used (view s) (f_sb s) b = true) ->
  (forall b, 0 <= b < sb_size (f_sb s) -> not_held held s (b / BPB + sb_bmapstart (f_sb s))) ->
  (forall b, first_free s b -> not_held held s b) ->
  (length bs + length held < 28)%nat ->
  (exists b s', first_free s b /\ balloc_loop n 1 b0 s = Ret b s' /\ tx held s' (log_add b (log_add (b / BPB + sb_bmapstart (f_sb s)) bs)) /\
     (forall x, view s' x = alloc_view (f_sb s) b (view s) x) /\ frame s s' /\ keeps held s s') \/
  ((forall b, 0 <= b < sb_size (f_sb s) -> used (view s) (f_sb s) b = true) /\ balloc_loop n 1 b0 s = Panic "balloc: out of blocks").
Proof.
  revert s b0. induction n as [|n IH]; intros s b0 H Hbm Hm H0 Hn Hall Hnh Hnf Hl; cbn [balloc_loop].
  { right. split; [intros b Hb; apply Hall; lia|done]. }
  rewrite bind_gets. destruct (Z.ltb_spec b0 (sb_size (f_sb s))) as [Hlt|Hge].
  2:{ right. split; [intros b Hb; apply Hall; lia|done]. }
  pose proof (tx_size _ _ _ H) as Hz. assert (Hb0 : 0 <= b0 < sb_size (f_sb s)) by lia. rewrite (BBLOCK_eq s b0 Hbm Hz Hb0).
  pose proof (bm_blocks _ Hbm b0 Hb0) as Hdb. set (bb := b0 / BPB + sb_bmapstart (f_sb s)) in *.
  destruct (tx_bread held s bs bb H) as (i & s1 & Hr1 & H1 & Hh1 & Hv1 & F1 & K1 & Hi); [apply Hdb|by apply Hnh|lia|].
  mstep Hr1. mstep (bdata_run _ _ _ _ Hh1). assert (Hlen : length (view s bb) = 512%nat) by (eapply view_length; [apply H|apply Hdb]).
  assert (Hchunk : forall k, 0 <= k < 4096 -> b0 + k < sb_size (f_sb s) -> used (view s) (f_sb s) (b0 + k) = bit (view s bb) k).
  { intros k Hk Hks. unfold used. rewrite (BBLOCK_eq s (b0 + k) Hbm Hz) by lia. change BPB with 4096. destruct (chunk b0 k Hm Hk) as [-> ->]. done. }
  destruct (free_bit (Z.to_nat BPB) 0 b0 (sb_size (f_sb s)) (view s bb)) as [k|] eqn:Ef.
  - left. apply free_bit_Some in Ef as (Hk & Hks & Hbit & Hbefore). change (Z.of_nat (Z.to_nat BPB)) with 4096 in Hk.
    assert (Hff : first_free s (b0 + k)).
    { split; [lia|]. split; [by rewrite Hchunk by lia|]. intros b' Hb'. destruct (decide (b' < b0)); [apply Hall; lia|].
      replace b' with (b0 + (b' - b0)) by lia. rewrite Hchunk by lia. apply Hbefore. lia. }
    destruct (bm_free _ Hbm (b0 + k) ltac:(lia) (proj1 (proj2 Hff))) as [Hdk Hnb].
    destruct (tx_finish held s1 bs i bb _ (set_bit k (view s bb)) H1 Hh1) as (s2 & Hr2 & _ & H2 & Hv2 & F2 & K2);
      [by apply (data_block_frame s s1)|unfold set_bit; by rewrite length_alter|lia|]. rewrite Hr2.
    pose proof (length_log_add bb bs) as Hll1. assert (F12 : frame s s2) by by etransitivity. assert (K12 : keeps held s s2) by by etransitivity.
    destruct (bzero_run held s2 (log_add bb bs) (b0 + k) H2) as (s3 & Hr3 & H3 & Hv3 & F3 & K3);
      [by apply (data_block_frame s s2)|eapply keeps_not_held; [done|by apply Hnf]|lia|]. mstep Hr3.
    assert (Ebb : (b0 + k) / BPB + sb_bmapstart (f_sb s) = bb).
    { change BPB with 4096. destruct (chunk b0 k Hm ltac:(lia)) as [-> _]. done. }
    exists (b0 + k), s3. rewrite Ebb. split; [done|]. split; [done|]. split; [done|]. split; [|split; by etransitivity].
    intros x. rewrite Hv3, Hv2, Hv1. unfold alloc_view. rewrite (BBLOCK_eq s (b0 + k) Hbm Hz) by lia.
    change BPB with 4096. destruct (chunk b0 k Hm ltac:(lia)) as [-> ->]. fold bb. change (b0 / 4096 + sb_bmapstart (f_sb s)) with bb.
    destruct (decide (x = b0 + k)); [done|]. by destruct (decide (x = bb)) as [->|].
  - destruct (tx_brelse held s1 bs i H1) as (s2 & Hr2 & H2 & Hv2 & F2 & K2); [eapply holds_lt; [apply H1|done]|]. mstep Hr2.
    assert (F12 : frame s s2) by by etransitivity. assert (K12 : keeps held s s2) by by etransitivity.
    assert (Hv12 : forall x, view s2 x = view s x) by (intros x; by rewrite Hv2). pose proof (fr_sb _ _ F12) as Esb.
    pose proof (used_same s s2 F12 Hv12) as Hus. pose proof (first_free_same s s2 F12 Hv12) as Hff.
    assert (Hall' : forall b, 0 <= b < b0 + BPB -> b < sb_size (f_sb s) -> used (view s) (f_sb s) b = true).
    { intros b Hb Hbs. change BPB with 4096 in Hb. destruct (decide (b < b0)); [apply Hall; lia|]. replace b with (b0 + (b - b0)) by lia.
      rewrite Hchunk by lia. apply (free_bit_None _ _ _ _ _ Ef); [change (Z.of_nat (Z.to_nat BPB)) with 4096; lia|lia]. }
    destruct (IH s2 (b0 + BPB) H2 (bitmap_same s s2 F12 Hv12 Hbm)) as [(b & s' & B1 & B2 & B3 & B5 & B6 & B7)|[B1 B2]]; rewrite ?Esb.
    + change BPB with 4096. Z.div_mod_to_equations. lia.
    + change BPB with 4096. lia.
    + change BPB with 4096. lia.
    + intros b Hb Hbs. rewrite <- Esb, Hus. by apply Hall'.
    + intros b Hb. eapply keeps_not_held; [done|by apply Hnh].
    + intros b Hb. eapply keeps_not_held; [done|]. by apply Hnf, Hff.
    + lia.
    + left. exists b, s'. rewrite Esb in B3. split; [by apply Hff|]. split; [done|]. split; [done|]. split; [|split; by etransitivity].
      intros x. rewrite B5, Esb. unfold alloc_view. by rewrite !Hv12.
    + right. split; [|done]. intros b Hb. rewrite <- Hus. apply B1. by rewrite Esb.
Qed.

Lemma used_alloc held s b b' :
  bitmap_ok s -> f_disksize s < two32 -> bio_inv held s -> first_free s b -> 0 <= b' < sb_size (f_sb s) ->
  used (alloc_view (f_sb s) b (view s)) (f_sb s) b' = (b =? b') || used (view s) (f_sb s) b'.
Proof.
  intros Hbm Hz H (Hb & Hf & _) Hb'. pose proof (bm_free _ Hbm b Hb Hf) as [_ Hnb]. unfold used, alloc_view.
  rewrite !(BBLOCK_eq s) by done. rewrite decide_False by (intros He; by apply (Hnb b')). change BPB with 4096.
  pose proof (Z.mod_pos_bound b 4096 ltac:(lia)). pose proof (Z.mod_pos_bound b' 4096 ltac:(lia)).
  destruct (decide (b' / 4096 + sb_bmapstart (f_sb s) = b / 4096 + sb_bmapstart (f_sb s))) as [E|E].
  - rewrite E. rewrite bit_set_bit; [|lia|lia|eapply view_length; [done|by apply (bm_blocks _ Hbm)]].
    f_equal. destruct (Z.eqb_spec b b') as [->|Hne]; [by rewrite Z.eqb_refl|]. apply Z.eqb_neq. intros Em.
    apply Hne. rewrite (Z.div_mod b 4096), (Z.div_mod b' 4096) by lia. lia.
  - destruct (Z.eqb_spec b b') as [->|]; done.
Qed.

Lemma tx_readsb held s bs :
  tx held s bs -> 1 < f_disksize s -> not_held held s 1 -> (length bs + length held < 30)%nat ->
  exists s', readsb 1 s = Ret (decode_sb (view s 1)) s' /\ tx held s' bs /\ (forall b, view s' b = view s b) /\ frame s s' /\ keeps held s s'.
Proof.
  intros H H1 Hn Hl. unfold readsb. destruct (tx_bread held s bs 1 H) as (i & s1 & Hr1 & T1 & Hh1 & Hv1 & F1 & K1 & _); [lia|done|done|].
  mstep Hr1. mstep (bdata_run _ _ _ _ Hh1). destruct (tx_brelse held s1 bs i T1) as (s2 & Hr2 & T2 & Hv2 & F2 & K2); [eapply holds_lt; [apply T1|done]|].
  mstep Hr2. exists s2. split; [done|]. split; [done|]. split; [intros b; by rewrite Hv2|]. split; by etransitivity.
Qed.

(** The blocks after block [b] has been freed. *)
Definition free_view (sb : superblock) (b : Z) (v : Z -> list Z) (x : Z) : list Z :=
  if decide (x = BBLOCK b sb) then clear_bit (b mod BPB) (v x) else v x.

Lemma set_sb_same s : set_f_sb (f_sb s) s = s.
Proof. by destruct s. Qed.

Lemma bfree_run held s bs b :
  tx held s bs -> bitmap_ok s -> 1 < f_disksize s -> decode_sb (view s 1) = f_sb s -> 0 <= b < sb_size (f_sb s) ->
  not_held held s 1 -> not_held held s (b / BPB + sb_bmapstart (f_sb s)) -> (length bs + length held < 29)%nat ->
  if used (view s) (f_sb s) b then
    exists s', bfree 1 b s = Ret tt s' /\ tx held s' (log_add (b / BPB + sb_bmapstart (f_sb s)) bs) /\
      (forall x, view s' x = free_view (f_sb s) b (view s) x) /\ frame s s' /\ keeps held s s'
  else bfree 1 b s = Panic "freeing free block".
Proof.
  intros H Hbm H1 Hsb Hb Hn1 Hnb Hl. pose proof (tx_size _ _ _ H) as Hz. unfold bfree.
  destruct (tx_readsb held s bs H H1 Hn1) as (s1 & Hr1 & T1 & Hv1 & F1 & K1); [lia|]. mstep Hr1. rewrite Hsb, bind_modify.
  rewrite <- (fr_sb _ _ F1), set_sb_same. rewrite (fr_sb _ _ F1), (BBLOCK_eq s b Hbm Hz Hb).
  pose proof (bm_blocks _ Hbm b Hb) as Hdb. set (bb := b / BPB + sb_bmapstart (f_sb s)) in *.
  destruct (tx_bread held s1 bs bb T1) as (i & s2 & Hr2 & T2 & Hh2 & Hv2 & F2 & K2 & _);
    [rewrite (fr_size _ _ F1); apply Hdb|by eapply keeps_not_held|lia|]. mstep Hr2. mstep (bdata_run _ _ _ _ Hh2). rewrite Hv1.
  unfold used. rewrite (BBLOCK_eq s b Hbm Hz Hb). fold bb. destruct (bit (view s bb) (b mod BPB)); [|done].
  rewrite bind_unless_false. assert (F12 : frame s s2) by by etransitivity.
  destruct (tx_finish held s2 bs i bb _ (clear_bit (b mod BPB) (view s bb)) T2 Hh2) as (s3 & _ & Hr3 & T3 & Hv3 & F3 & K3);
    [by apply (data_block_frame s s2)| |lia|].
  { unfold clear_bit. rewrite length_alter. eapply view_length; [apply H|apply Hdb]. }
  exists s3. split; [done|]. split; [done|]. split; [|split; [by etransitivity|etransitivity; [exact K1|by etransitivity]]].
  intros x. rewrite Hv3, Hv2, Hv1. unfold free_view. rewrite (BBLOCK_eq s b Hbm Hz Hb). fold bb. by destruct (decide (x = bb)) as [->|].
Qed.

Lemma used_free held s b b' :
  bitmap_ok s -> f_disksize s < two32 -> bio_inv held s -> 0 <= b < sb_size (f_sb s) -> 0 <= b' < sb_size (f_sb s) ->
  used (free_view (f_sb s) b (view s)) (f_sb s) b' = negb (b =? b') && used (view s) (f_sb s) b'.
Proof.
  intros Hbm Hz H Hb Hb'. unfold used, free_view. rewrite !(BBLOCK_eq s) by done. change BPB with 4096.
  pose proof (Z.mod_pos_bound b 4096 ltac:(lia)). pose proof (Z.mod_pos_bound b' 4096 ltac:(lia)).
  destruct (decide (b' / 4096 + sb_bmapstart (f_sb s) = b / 4096 + sb_bmapstart (f_sb s))) as [E|E].
  - rewrite E. rewrite bit_clear_bit; [|lia|lia|eapply view_length; [done|by apply (bm_blocks _ Hbm)]].
    f_equal. f_equal. destruct (Z.eqb_spec b b') as [->|Hne]; [by rewrite Z.eqb_refl|]. apply Z.eqb_neq. intros Em.
    apply Hne. rewrite (Z.div_mod b 4096), (Z.div_mod b' 4096) by lia. lia.
  - destruct (Z.eqb_spec b b') as [->|]; done.
Qed.

(** A block of the bitmap. *)
Definition is_bitmap (s : fstate) (x : Z) : Prop := exists b, 0 <= b < sb_size (f_sb s) /\ x = b / BPB + sb_bmapstart (f_sb s).

Lemma bitmap_alloc held s s' b :
  bitmap_ok s -> f_disksize s < two32 -> bio_inv held s -> first_free s b -> frame s s' ->
  (forall x, view s' x = alloc_view (f_sb s) b (view s) x) -> bitmap_ok s'.
Proof.
  intros Hbm Hz H Hff F Hv. pose proof Hbm as [A1 A2 A3 A4]. split; rewrite ?(fr_sb _ _ F), ?(fr_size _ _ F); try done.
  - intros b' Hb'. rewrite (data_block_frame s s') by done. by apply A3.
  - intros b' Hb' Hu. rewrite (data_block_frame s s') by done. apply A4; [done|].
    assert (used (view s') (f_sb s) b' = used (alloc_view (f_sb s) b (view s)) (f_sb s) b') as E by (unfold used; by rewrite Hv).
    rewrite E, (used_alloc held s b b') in Hu by done. apply orb_false_iff in Hu. tauto.
Qed.

Lemma balloc_run held s bs :
  tx held s bs -> bitmap_ok s -> (forall x, is_bitmap s x -> not_held held s x) -> (forall b, first_free s b -> not_held held s b) ->
  (length bs + length held < 28)%nat ->
  (exists b s', first_free s b /\ balloc 1 s = Ret b s' /\ tx held s' (log_add b (log_add (b / BPB + sb_bmapstart (f_sb s)) bs)) /\ bitmap_ok s' /\
     (forall x, view s' x = alloc_view (f_sb s) b (view s) x) /\ frame s s' /\ keeps held s s') \/
  ((forall b, 0 <= b < sb_size (f_sb s) -> used (view s) (f_sb s) b = true) /\ balloc 1 s = Panic "balloc: out of blocks").
Proof.
  intros H Hbm Hnb Hnf Hl. unfold balloc. rewrite bind_gets. pose proof (bm_size _ Hbm) as Hsz.
  assert (0 <= sb_size (f_sb s) / 4096) by (apply Z.div_pos; lia).
  destruct (balloc_loop_run (Z.to_nat (sb_size (f_sb s) / BPB + 1)) held s bs 0 H Hbm) as [(b & s' & A1 & A2 & A3 & A5 & A6 & A7)|?];
    [done|done|change BPB with 4096; rewrite Z2Nat.id by lia; Z.div_mod_to_equations; lia|lia|intros b Hb; apply Hnb; by exists b|done|done| |by right].
  left. exists b, s'. split; [done|]. split; [done|]. split; [done|]. split; [|done].
  eapply bitmap_alloc; [done|apply H|apply H|done|done|done].
Qed.

(** C20. The block allocator, inside a transaction.  [balloc] returns the first
    block whose bit is clear, sets that bit and no other, zeroes that block and
    leaves the blocks outside the bitmap alone; it panics exactly when every
    block is in use.  [bfree] clears the bit of a block in use, no other, and
    changes nothing outside the bitmap; it panics on a block that is free.  Both
    keep the invariant of the transaction. *)
Theorem block_allocator_spec s bs :
  tx [] s bs -> bitmap_ok s -> 1 < f_disksize s -> decode_sb (view s 1) = f_sb s -> (length bs < 28)%nat ->
  ((exists b s' bs', first_free s b /\ balloc 1 s = Ret b s' /\ tx [] s' bs' /\ bitmap_ok s' /\ view s' b = block0 /\
      (forall b', 0 <= b' < sb_size (f_sb s) -> used (view s') (f_sb s) b' = (b =? b') || used (view s) (f_sb s) b') /\
      (forall x, x <> b -> ~ is_bitmap s x -> view s' x = view s x)) \/
   ((forall b, 0 <= b < sb_size (f_sb s) -> used (view s) (f_sb s) b = true) /\ balloc 1 s = Panic "balloc: out of blocks")) /\
  (forall b, 0 <= b < sb_size (f_sb s) ->
    if used (view s) (f_sb s) b then
      exists s' bs', bfree 1 b s = Ret tt s' /\ tx [] s' bs' /\
        (forall b', 0 <= b' < sb_size (f_sb s) -> used (view s') (f_sb s) b' = negb (b =? b') && used (view s) (f_sb s) b') /\
        (forall x, ~ is_bitmap s x -> view s' x = view s x)
    else bfree 1 b s = Panic "freeing free block").
Proof.
  intros H Hbm H1 Hsb Hl. pose proof (tx_size _ _ _ H) as Hz. split.
  - destruct (balloc_run [] s bs H Hbm) as [(b & s' & A1 & A2 & A3 & A5 & A6 & A7 & A8)|?];
      [intros; apply not_held_nil|intros; apply not_held_nil|simpl; lia| |by right].
    left. eexists b, s', _. do 4 (split; [done|]). split; [rewrite A6; unfold alloc_view; by rewrite decide_True|]. split.
    + intros b' Hb'. rewrite <- (used_alloc [] s b b') by (done || apply H). unfold used. by rewrite A6.
    + intros x Hx Hnb. rewrite A6. unfold alloc_view. rewrite decide_False by done. rewrite decide_False; [done|].
      intros ->. apply Hnb. exists b. split; [apply A1|]. apply BBLOCK_eq; [done|done|apply A1].
  - intros b Hb. pose proof (bfree_run [] s bs b H Hbm H1 Hsb Hb (not_held_nil _ _) (not_held_nil _ _) ltac:(simpl; lia)) as Hr.
    destruct (used (view s) (f_sb s) b); [|done]. destruct Hr as (s' & B1 & B2 & B3 & B4 & B5). exists s', (log_add (b / BPB + sb_bmapstart (f_sb s)) bs).
    split; [done|]. split; [done|]. split.
    + intros b' Hb'. rewrite <- (used_free [] s b b') by (done || apply H). unfold used. by rewrite B3.
    + intros x Hnb. rewrite B3. unfold free_view. rewrite decide_False; [done|]. intros ->. apply Hnb. exists b. split; [done|]. by apply BBLOCK_eq.
Qed.

(** A disk of 40 blocks with the log at block 2 and the bitmap at block 33; all
    blocks but 38 and 39 are in use.  Inode 1 is an empty file, in entry 0 of the
    inode cache. *)
Definition sb40 : superblock := mksb 40 6 8 30 2 32 33.
Definition ino40 : inode := mkinode 1 1 1 (mksleep 1 1) 1 T_FILE 0 0 1 0 (replicate 13 0).
Definition small_disk : gmap Z (list Z) :=
  <[32 := put_dinode 64 ino40 (replicate 512 0)]>
  (<[1 := put32s 0 [40; 6; 8; 30; 2; 32; 33] (replicate 512 0)]>
  (<[33 := splice 0 [255; 255; 255; 255; 63] (replicate 512 0)]> (list_to_map ((fun b => (b, replicate 512 0)) <$> seqZ 0 40)))).
Definition fs0 : fstate :=
  mkfs small_disk [] 40 (replicate 30 buf0) (seq 0 30) (mklog 2 30 1 0 1 0 (replicate 30 0)) sb40 (ino40 :: replicate 49 inode0) [] 1 0.

Lemma fs0_bufs i x : f_bufs fs0 !! i = Some x -> x = buf0.
Proof. intros H. by apply lookup_replicate in H as [-> _]. Qed.

Lemma fs0_view b : view fs0 b = disk fs0 b.
Proof. apply view_uncached. intros i x Hx (Hd & _). by apply fs0_bufs in Hx as ->. Qed.

Lemma fs0_tx : tx [] fs0 [].
Proof.
  split; [| |done| |done|done|by vm_compute|by vm_compute].
  - split; [done|done|constructor| | |].
    + intros i j x y Hx _ Hd. by apply fs0_bufs in Hx as ->.
    + intros i x Hx. apply fs0_bufs in Hx as ->. rewrite bool_decide_false by apply not_elem_of_nil.
      split; [done|done|by left|by right|intros [=]|done|intros [=]|done].
    + assert (H : Forall (fun b => length (disk fs0 b) = 512%nat) (seqZ 0 40)) by (apply (bool_decide_unpack _); by vm_compute).
      intros b Hb. rewrite Forall_forall in H. apply H, elem_of_seqZ. exact Hb.
  - split; [done|change (0 <= 2 /\ 2 + 30 <= 40); lia|split; [done|simpl; lia]|done|done|constructor|constructor].
  - intros b. split; [|intros Hb; by apply elem_of_nil in Hb]. intros (i & x & Hx & _ & H6). by apply fs0_bufs in Hx as ->.
Qed.

Lemma fs0_bitmap : bitmap_ok fs0.
Proof.
  assert (Hu : Forall (fun b => used (disk fs0) sb40 b = true \/ b = 38 \/ b = 39) (seqZ 0 40)) by (apply (bool_decide_unpack _); by vm_compute).
  assert (Hd : forall b, 0 <= b < 40 -> b / BPB + sb_bmapstart sb40 = 33).
  { intros b Hb. change BPB with 4096. rewrite Z.div_small by lia. done. }
  split; change (f_sb fs0) with sb40; [change (0 <= 40 <= 40); lia|done| |].
  - intros b Hb. rewrite Hd by exact Hb. unfold data_block. change (0 <= 33 < 40 /\ ~ (2 <= 33 < 2 + 30)). lia.
  - intros b Hb Hf. rewrite Forall_forall in Hu. assert (Hf' : used (disk fs0) sb40 b = false) by (rewrite <- Hf; unfold used; by rewrite fs0_view).
    destruct (Hu b) as [Ht|Hb']; [apply elem_of_seqZ; exact Hb|congruence|].
    split; [unfold data_block; change (0 <= b < 40 /\ ~ (2 <= b < 2 + 30)); lia|]. intros b' Hb2. rewrite Hd by exact Hb2. lia.
Qed.

Lemma block_allocator_spec_witness : balloc 1 fs0 <> Panic "balloc: out of blocks" /\ exists s', bfree 1 37 fs0 = Ret tt s'.
Proof.
  destruct (block_allocator_spec fs0 [] fs0_tx fs0_bitmap) as [H1 H2]; [done|by rewrite fs0_view; vm_compute|simpl; lia|]. split.
  - destruct H1 as [(b & s' & bs' & _ & -> & _)|[H _]]; [done|]. specialize (H 38). unfold used in H. rewrite fs0_view in H.
    assert (E : bit (disk fs0 (BBLOCK 38 sb40)) (38 mod BPB) = false) by by vm_compute. change (f_sb fs0) with sb40 in H. rewrite E in H.
    assert (0 <= 38 < sb_size sb40) by (change (0 <= 38 < 40); lia). intuition congruence.
  - specialize (H2 37). unfold used in H2. rewrite fs0_view in H2. change (f_sb fs0) with sb40 in H2.
    assert (E : bit (disk fs0 (BBLOCK 37 sb40)) (37 mod BPB) = true) by by vm_compute. rewrite E in H2.
    destruct H2 as (s' & bs' & Hr & _); [change (0 <= 37 < 40); lia|]. by exists s'.
Defined.
