(* ===== verification/FsData.v ===== *)
(** * The content of a file

    An inode maps the blocks of its file to disk blocks, directly for the first
    12 and through the indirect block for the others.  [bmap] finds or allocates
    the block; [readi] and [writei] are a read and an update of the bytes of the
    file. *)

From Stdlib Require Import ZArith Lia.
From stdpp Require Import base numbers strings gmap list.
From S2P Require Import Prelude.
From S2P Require Import Machine.
From S2P Require Import FState.
From S2P Require Import Blocks.
From S2P Require Import Bio.
From S2P Require Import Log.
From S2P Require Import LogSpec.
From S2P Require Import Tx.
From S2P Require Import Fs.
From S2P Require Import FsAlloc.

Local Open Scope string_scope.
Local Open Scope list_scope.
Local Open Scope Z_scope.

(** ** The block map of an inode *)

Definition ind_addr (x : inode) : Z := default 0 (i_addrs x !! 12%nat).

(** The disk block of block [bn] of the file; 0 when there is none. *)
Definition addr_at (v : Z -> list Z) (x : inode) (bn : Z) : Z :=
  if bn <? 12 then default 0 (i_addrs x !! Z.to_nat bn)
  else if ind_addr x =? 0 then 0 else get32 (v (ind_addr x)) (Z.to_nat (4 * (bn - 12))).

(** All the blocks an inode owns: 140 of data, and the indirect block. *)
Definition slot (v : Z -> list Z) (x : inode) (k : Z) : Z := if k =? 140 then ind_addr x else addr_at v x k.

(** The contents of block [bn] and of byte [p] of the file; a block that is not
    allocated reads as zeroes. *)
Definition blk (v : Z -> list Z) (x : inode) (bn : Z) : list Z := if slot v x bn =? 0 then block0 else v (slot v x bn).
Definition fbyte (v : Z -> list Z) (x : inode) (p : Z) : Z := default 0 (blk v x (p / 512) !! Z.to_nat (p mod 512)).

Definition bb (s : fstate) : Z := sb_bmapstart (f_sb s).

(** A disk of one bitmap block. *)
Record layout (s : fstate) : Prop := {
  ly_bm : bitmap_ok s;
  ly_size : 0 < sb_size (f_sb s) <= 4096;
  ly_boot : used (view s) (f_sb s) 0 = true }.

(** A block in use that is neither in the log nor the bitmap. *)
Definition good (s : fstate) (a : Z) : Prop :=
  0 <= a < sb_size (f_sb s) /\ data_block s a /\ used (view s) (f_sb s) a = true /\ a <> bb s.

Record inode_ok (s : fstate) (x : inode) : Prop := {
  ik_dev : i_dev x = 1;
  ik_len : length (i_addrs x) = 13%nat;
  ik_good : forall k, 0 <= k <= 140 -> slot (view s) x k <> 0 -> good s (slot (view s) x k);
  ik_inj : forall k k', 0 <= k <= 140 -> 0 <= k' <= 140 -> slot (view s) x k = slot (view s) x k' -> slot (view s) x k <> 0 -> k = k' }.

Lemma bitmap_block s b : layout s -> 0 <= b < sb_size (f_sb s) -> b / BPB + sb_bmapstart (f_sb s) = bb s.
Proof. intros [_ H _] Hb. change BPB with 4096. rewrite Z.div_small by lia. done. Qed.

Lemma bb_block s : layout s -> data_block s (bb s).
Proof. intros H. destruct (ly_size _ H). rewrite <- (bitmap_block s 0) by (done || lia). apply (bm_blocks _ (ly_bm _ H)). lia. Qed.

Lemma bb_BBLOCK s b : layout s -> f_disksize s < two32 -> 0 <= b < sb_size (f_sb s) -> BBLOCK b (f_sb s) = bb s.
Proof. intros H Hz Hb. rewrite BBLOCK_eq by (done || apply H). by apply bitmap_block. Qed.

(** The map depends on the inode and the contents of the indirect block. *)
Lemma slot_ext v v' x k : v' (ind_addr x) = v (ind_addr x) -> slot v' x k = slot v x k.
Proof. intros E. unfold slot, addr_at. by rewrite E. Qed.

Lemma slot_ind v x : slot v x 140 = ind_addr x.
Proof. done. Qed.

(** ** Running the parts *)

Lemma geti_run s ip x : f_inodes s !! ip = Some x -> geti ip s = Ret x s.
Proof. intros H. unfold geti. rewrite bind_get, H. done. Qed.

Definition seti (ip : nat) (x : inode) (s : fstate) : fstate := set_f_inodes (<[ip := x]> (f_inodes s)) s.

Lemma updi_run s ip x f : f_inodes s !! ip = Some x -> updi ip f s = Ret tt (seti ip (f x) s).
Proof.
  intros H. unfold updi, modify, seti. f_equal. f_equal. apply list_eq. intros j. destruct (decide (ip = j)) as [<-|Hne].
  - rewrite list_lookup_alter_eq, H, list_lookup_insert_eq; [done|by eapply lookup_lt_Some].
  - by rewrite list_lookup_alter_ne, list_lookup_insert_ne.
Qed.

Lemma seti_lookup s ip x y : f_inodes s !! ip = Some x -> f_inodes (seti ip y s) !! ip = Some y.
Proof. intros H. simpl. apply list_lookup_insert_eq. by eapply lookup_lt_Some. Qed.

Lemma seti_seti s ip x y : seti ip x (seti ip y s) = seti ip x s.
Proof. unfold seti. simpl. by rewrite list_insert_insert_eq. Qed.

Lemma view_seti ip x s b : view (seti ip x s) b = view s b.
Proof. done. Qed.

Lemma tx_seti held ip x s bs : tx held s bs -> tx held (seti ip x s) bs.
Proof.
  intros [[A1 A2 A3 A4 A5 A6] [B1 B2 B3 B4 B5 B6 B7] C D E F G H]. split; try done.
Qed.

(** ** Counting *)

Definition nfree (s : fstate) : nat := length (filter (fun b => used (view s) (f_sb s) b = false) (seqZ 0 (sb_size (f_sb s)))).

Lemma filter_flip (P Q : Z -> Prop) `{!forall b, Decision (P b)} `{!forall b, Decision (Q b)} (l : list Z) b :
  NoDup l -> b ∈ l -> P b -> (forall x, x ∈ l -> Q x <-> P x /\ x <> b) -> length (filter P l) = S (length (filter Q l)).
Proof.
  intros Hnd. induction Hnd as [|y l Hy Hnd IH]; intros Hb HP HQ; [by apply elem_of_nil in Hb|]. rewrite !filter_cons.
  destruct (decide (y = b)) as [->|Hne].
  - rewrite decide_True by done. rewrite decide_False; [|intros Hq; apply HQ in Hq as [_ ?]; [done|left]]. simpl. f_equal.
    assert (forall l', b ∉ l' -> (forall x, x ∈ l' -> Q x <-> P x /\ x <> b) -> length (filter P l') = length (filter Q l')) as Hsame.
    { clear. intros l'. induction l' as [|z l' IH]; intros Hn HH; [done|]. rewrite !filter_cons. apply not_elem_of_cons in Hn as [Hn1 Hn2].
      specialize (IH Hn2 (fun x Hx => HH x (list_elem_of_further _ _ _ Hx))). specialize (HH z (list_elem_of_here _ _)). assert (z <> b) by congruence.
      destruct (decide (P z)), (decide (Q z)); simpl; first [by rewrite IH|exfalso; tauto]. }
    apply Hsame; [done|]. intros x Hx. apply HQ. by right.
  - apply elem_of_cons in Hb as [?|Hb]; [done|]. specialize (IH Hb HP (fun x Hx => HQ x (list_elem_of_further _ _ _ Hx))).
    specialize (HQ y (list_elem_of_here _ _)). destruct (decide (P y)), (decide (Q y)); simpl; first [by rewrite IH|exfalso; tauto].
Qed.

Definition indicator (P : Prop) `{Decision P} : nat := if decide P then 0 else 1.

(** The number of logged blocks, counting the bitmap and the indirect block as
    logged already. *)
Definition pot (bm ind : Z) (bs : list Z) : nat := length bs + indicator (bm ∈ bs) + indicator (ind <> 0%Z /\ ind ∈ bs).

Lemma pot_length bm ind bs : (length bs <= pot bm ind bs)%nat.
Proof. unfold pot. lia. Qed.
Lemma indicator_mono P Q `{Decision P, Decision Q} : (P -> Q) -> (indicator Q <= indicator P)%nat.
Proof. intros HPQ. unfold indicator. repeat destruct (decide _); try lia. tauto. Qed.
Lemma log_add_old b bs : b ∈ bs -> log_add b bs = bs.
Proof. intros H. unfold log_add. by rewrite decide_True. Qed.
Lemma log_add_new b bs : b ∉ bs -> log_add b bs = bs ++ [b].
Proof. intros H. unfold log_add. by rewrite decide_False. Qed.
Lemma in_log_add b bs : b ∈ log_add b bs.
Proof. apply elem_of_log_add. by right. Qed.

Lemma pot_add bm ind b bs : (pot bm ind (log_add b bs) <= S (pot bm ind bs))%nat.
Proof.
  unfold pot. pose proof (length_log_add b bs). assert (indicator (bm ∈ log_add b bs) <= indicator (bm ∈ bs))%nat.
  { apply indicator_mono. intros ?. apply elem_of_log_add. by left. }
  assert (indicator (ind <> 0%Z /\ ind ∈ log_add b bs) <= indicator (ind <> 0%Z /\ ind ∈ bs))%nat; [|lia].
  apply indicator_mono. intros [? ?]. split; [done|]. apply elem_of_log_add. by left.
Qed.
Lemma pot_bm bm ind bs : (pot bm ind (log_add bm bs) <= pot bm ind bs)%nat.
Proof.
  destruct (decide (bm ∈ bs)) as [?|Hn]; [by rewrite log_add_old|]. unfold pot at 1. rewrite log_add_new by done.
  rewrite length_app. simpl. unfold pot, indicator. rewrite (decide_False (P := bm ∈ bs)) by done.
  rewrite decide_True by (apply elem_of_app; right; left).
  destruct (decide (ind <> 0 /\ ind ∈ bs)) as [[? ?]|]; [rewrite decide_True; [lia|split; [done|apply elem_of_app; by left]]|].
  destruct (decide _); lia.
Qed.
Lemma pot_ind bm ind bs : ind <> 0 -> (pot bm ind (log_add ind bs) <= pot bm 0%Z bs)%nat.
Proof.
  intros H0. unfold pot. pose proof (length_log_add ind bs) as Hl. unfold indicator.
  rewrite (decide_True (P := ind <> 0 /\ _)) by (split; [done|apply in_log_add]). rewrite (decide_False (P := 0 <> 0 /\ _)) by tauto.
  destruct (decide (bm ∈ bs)) as [?|]; [rewrite decide_True by (apply elem_of_log_add; by left); lia|]. destruct (decide _); lia.
Qed.
Lemma pot_ind_same bm ind bs : ind <> 0 -> (pot bm ind (log_add ind bs) <= pot bm ind bs)%nat.
Proof.
  intros H0. destruct (decide (ind ∈ bs)); [by rewrite log_add_old|]. etransitivity; [by apply pot_ind|].
  unfold pot, indicator. rewrite (decide_False (P := 0 <> 0 /\ _)) by tauto. rewrite (decide_False (P := ind <> 0 /\ _)) by tauto. done.
Qed.

(** ** Allocating a block *)

(** What does not change at all. *)
Definition dframe (s s' : fstate) : Prop :=
  f_disksize s' = f_disksize s /\ f_sb s' = f_sb s /\ lg_start (f_log s') = lg_start (f_log s).

#[export] Instance dframe_preorder : PreOrder dframe.
Proof. split; [by intros s|]. intros s1 s2 s3 (A1 & A2 & A3) (B1 & B2 & B3). split_and!; congruence. Qed.

Lemma frame_dframe s s' : frame s s' -> dframe s s'.
Proof. by intros []. Qed.

Lemma data_block_dframe s s' b : dframe s s' -> data_block s' b <-> data_block s b.
Proof. intros (E1 & _ & E2). unfold data_block. by rewrite E1, E2. Qed.

Lemma bb_dframe s s' : dframe s s' -> bb s' = bb s.
Proof. intros (_ & E & _). unfold bb. by rewrite E. Qed.

(** Block [b] has been allocated between [s] and [s']; the contents of other
    blocks are the same, the bitmap and block [e] excepted. *)
Record alloced (s s' : fstate) (b : Z) (e : Z) : Prop := {
  al_range : 0 < b < sb_size (f_sb s);
  al_free : used (view s) (f_sb s) b = false;
  al_data : data_block s b;
  al_bb : b <> bb s;
  al_view : forall y, y <> b -> y <> bb s -> y <> e -> view s' y = view s y;
  al_used : forall b', 0 <= b' < sb_size (f_sb s) -> used (view s') (f_sb s) b' = (b =? b') || used (view s) (f_sb s) b';
  al_nfree : nfree s = S (nfree s');
  al_layout : layout s';
  al_frame : dframe s s' }.

Lemma nfree_alloc s s' b :
  f_sb s' = f_sb s -> 0 <= b < sb_size (f_sb s) -> used (view s) (f_sb s) b = false ->
  (forall b', 0 <= b' < sb_size (f_sb s) -> used (view s') (f_sb s) b' = (b =? b') || used (view s) (f_sb s) b') -> nfree s = S (nfree s').
Proof.
  intros E Hb Hf Hu. unfold nfree. rewrite E. apply (filter_flip _ _ _ b); [apply NoDup_seqZ|apply elem_of_seqZ; lia|done|].
  intros x Hx. apply elem_of_seqZ in Hx. rewrite Hu by lia. destruct (Z.eqb_spec b x), (used (view s) (f_sb s) x); simpl; intuition congruence.
Qed.

Lemma nfree_pos s : (1 <= nfree s)%nat -> ~ forall b, 0 <= b < sb_size (f_sb s) -> used (view s) (f_sb s) b = true.
Proof.
  intros H Hall. unfold nfree in H. destruct (filter _ _) as [|b l] eqn:E; simpl in H; [lia|].
  assert (Hb : b ∈ b :: l) by left. rewrite <- E in Hb. apply list_elem_of_filter in Hb as [Hf Hb]. apply elem_of_seqZ in Hb.
  rewrite Hall in Hf by lia. done.
Qed.

Lemma balloc_alloc held s bs e :
  tx held s bs -> layout s -> (1 <= nfree s)%nat -> not_held held s (bb s) ->
  (forall b, 0 <= b < sb_size (f_sb s) -> used (view s) (f_sb s) b = false -> not_held held s b) -> (length bs + length held < 28)%nat ->
  exists b s', balloc 1 s = Ret b s' /\ tx held s' (log_add b (log_add (bb s) bs)) /\ alloced s s' b e /\
    (forall y, y <> b -> y <> bb s -> view s' y = view s y) /\ view s' b = block0 /\ frame s s' /\ keeps held s s'.
Proof.
  intros H L Hn Hbb Hnh Hl. pose proof (tx_size _ _ _ H) as Hz.
  destruct (balloc_run held s bs H (ly_bm _ L)) as [(b & s' & A1 & A2 & A3 & A4 & A5 & A6 & A7)|[A1 _]].
  - intros x (b & Hb & ->). by rewrite bitmap_block.
  - intros b (Hb & Hf & _). by apply Hnh.
  - done.
  - pose proof A1 as (Hb & Hf & _). rewrite (bitmap_block s b L Hb) in A3. exists b, s'.
    assert (Hu : forall b', 0 <= b' < sb_size (f_sb s) -> used (view s') (f_sb s) b' = (b =? b') || used (view s) (f_sb s) b').
    { intros b' Hb'. rewrite <- (used_alloc held s b b') by (done || apply L || apply H). unfold used. by rewrite A5. }
    destruct (bm_free _ (ly_bm _ L) b Hb Hf) as [Hd Hne]. assert (b <> 0) by (intros ->; by rewrite (ly_boot _ L) in Hf).
    assert (b <> bb s) by (rewrite <- (bitmap_block s b) by done; by apply Hne).
    assert (Hv : forall y, y <> b -> y <> bb s -> view s' y = view s y).
    { intros y Hy1 Hy2. rewrite A5. unfold alloc_view. rewrite decide_False by done. by rewrite (bb_BBLOCK s b L Hz Hb), decide_False. }
    split; [done|]. split; [done|]. split; [|split; [done|split; [rewrite A5; unfold alloc_view; by rewrite decide_True|done]]].
    split; try done; [lia|intros; by apply Hv|by eapply nfree_alloc; [apply A6|..]| |by apply frame_dframe].
    + split; [done|rewrite (fr_sb _ _ A6); apply L|]. rewrite (fr_sb _ _ A6), Hu by (destruct L; lia). rewrite (ly_boot _ L). by rewrite orb_true_r.
  - by apply nfree_pos in Hn.
Qed.

(** The inode has the same content in [s'] as in [s] and possibly more blocks,
    which were free; blocks of others are unchanged. *)
Record grow (s : fstate) (x : inode) (s' : fstate) (x' : inode) : Prop := {
  gr_ok : inode_ok s' x';
  gr_lay : layout s';
  gr_rest : x' = set_i_addrs (i_addrs x') x;
  gr_slot : forall k, 0 <= k <= 140 -> slot (view s) x k <> 0 -> slot (view s') x' k = slot (view s) x k;
  gr_new : forall k, 0 <= k <= 140 -> slot (view s) x k = 0 -> slot (view s') x' k <> 0 -> used (view s) (f_sb s) (slot (view s') x' k) = false;
  gr_blk : forall bn, 0 <= bn < 140 -> blk (view s') x' bn = blk (view s) x bn;
  gr_view : forall b, 0 <= b < sb_size (f_sb s) -> used (view s) (f_sb s) b = true -> b <> bb s -> b <> ind_addr x -> view s' b = view s b;
  gr_used : forall b, 0 <= b < sb_size (f_sb s) -> used (view s) (f_sb s) b = true -> used (view s') (f_sb s) b = true;
  gr_frame : dframe s s' }.

Lemma good_used s s' a :
  dframe s s' -> (used (view s) (f_sb s) a = true -> used (view s') (f_sb s) a = true) -> good s a -> good s' a.
Proof.
  intros D Hu (H1 & H2 & H3 & H4). split; [by rewrite (proj1 (proj2 D))|]. split; [by apply (data_block_dframe s s')|].
  split; [rewrite (proj1 (proj2 D)); by apply Hu|]. by rewrite (bb_dframe s s').
Qed.

Lemma grow_alloc s x s' x' k0 b :
  inode_ok s x -> alloced s s' b (ind_addr x) -> 0 <= k0 <= 140 -> slot (view s) x k0 = 0 ->
  (forall k, 0 <= k <= 140 -> slot (view s') x' k = if k =? k0 then b else slot (view s) x k) ->
  (k0 < 140 -> view s' b = block0) -> x' = set_i_addrs (i_addrs x') x -> length (i_addrs x') = 13%nat -> grow s x s' x'.
Proof.
  intros [O1 O2 O3 O4] [A1 A2 A3 A4 A5 A6 A7 A8 A9] Hk H0 Hs Hb Hx Hl.
  assert (Hmono : forall a, 0 <= a < sb_size (f_sb s) -> used (view s) (f_sb s) a = true -> used (view s') (f_sb s) a = true).
  { intros a Ha Hu. rewrite A6, Hu by done. apply orb_true_r. }
  assert (Hfresh : forall k, 0 <= k <= 140 -> slot (view s) x k <> b).
  { intros k Hkr He. destruct (O3 k Hkr) as (_ & _ & Hu & _); [lia|]. congruence. }
  split; try done.
  - split; try done; [by rewrite Hx| |].
    + intros k Hkr. rewrite Hs by done. destruct (Z.eqb_spec k k0) as [->|].
      * intros _. split; [rewrite (proj1 (proj2 A9)); lia|]. split; [by apply (data_block_dframe s s')|].
        split; [rewrite (proj1 (proj2 A9)), A6, Z.eqb_refl by lia; done|]. by rewrite (bb_dframe s s').
      * intros Hne. pose proof (O3 k Hkr Hne) as Hg. eapply good_used; [done| |done]. apply Hmono. apply Hg.
    + intros k k' Hkr Hkr'. rewrite !Hs by done. destruct (Z.eqb_spec k k0), (Z.eqb_spec k' k0); intros E Hne; subst; try done.
      * by destruct (Hfresh k').
      * by destruct (Hfresh k).
      * by apply O4.
  - intros k Hkr Hne. rewrite Hs by done. destruct (Z.eqb_spec k k0) as [->|]; [done|done].
  - intros k Hkr He. rewrite Hs by done. destruct (Z.eqb_spec k k0); [done|]. intros ?. congruence.
  - intros bn Hbn. unfold blk. rewrite Hs by lia. destruct (Z.eqb_spec bn k0) as [->|].
    + rewrite H0. simpl. destruct (Z.eqb_spec b 0); [lia|]. apply Hb. lia.
    + destruct (Z.eqb_spec (slot (view s) x bn) 0) as [|Hne]; [done|]. destruct (O3 bn ltac:(lia) Hne) as (_ & _ & _ & Hg).
      apply A5; [apply Hfresh; lia|done|]. intros E. assert (bn = 140); [|lia]. apply O4; [lia|lia|done|done].
  - intros b' Hb' Hu Hne1 Hne2. apply A5; [|done|done]. congruence.
Qed.

Lemma grow_trans s x s1 x1 s2 x2 : inode_ok s x -> grow s x s1 x1 -> grow s1 x1 s2 x2 -> grow s x s2 x2.
Proof.
  intros O [A1 A2 A3 A4 A5 A6 A7 A8 A9] [B1 B2 B3 B4 B5 B6 B7 B8 B9]. pose proof A9 as (_ & Esb & _).
  assert (Ebb := bb_dframe s s1 A9). split; try done.
  - rewrite B3, A3. done.
  - intros k Hk Hne. rewrite B4; [by apply A4|done|]. by rewrite A4.
  - intros k Hk H0 Hne. destruct (decide (slot (view s1) x1 k = 0)) as [E|E].
    + specialize (B5 k Hk E Hne). rewrite Esb in B5. destruct (used (view s) (f_sb s) (slot (view s2) x2 k)) eqn:Eu; [|done].
      rewrite A8 in B5; [done| |done]. destruct (ik_good _ _ B1 k Hk Hne) as [Hr _]. by rewrite (proj1 (proj2 B9)), Esb in Hr.
    + rewrite B4 by done. by apply A5.
  - intros bn Hbn. rewrite B6, A6 by done. done.
  - intros b Hb Hu Hne1 Hne2. rewrite B7; [by apply A7|by rewrite Esb|rewrite Esb; by apply A8|by rewrite Ebb|].
    intros ->. destruct (decide (ind_addr x = 0)) as [E|E].
    + destruct (decide (ind_addr x1 = 0)) as [E1|E1].
      * congruence.
      * pose proof (A5 140 ltac:(lia)) as Hf. rewrite !slot_ind in Hf. rewrite Hf in Hu; done.
    + apply Hne2. pose proof (A4 140 ltac:(lia)) as Hf. by rewrite !slot_ind in Hf; rewrite Hf.
  - intros b Hb Hu. rewrite <- Esb. apply B8; rewrite ?Esb; [done|]. by apply A8.
  - by etransitivity.
Qed.

Lemma grow_refl s x : inode_ok s x -> layout s -> grow s x s x.
Proof. intros O L. split; try done. by destruct x. Qed.

(** States with the same bitmap. *)
Section same_bits.
Context (s s' : fstate) (L : layout s) (Hz : f_disksize s < two32) (D : dframe s s') (V : view s' (bb s) = view s (bb s)).

Lemma used_bits b : 0 <= b < sb_size (f_sb s) -> used (view s') (f_sb s) b = used (view s) (f_sb s) b.
Proof. intros Hb. unfold used. by rewrite (bb_BBLOCK s b L Hz Hb), V. Qed.

Lemma layout_bits : layout s'.
Proof.
  pose proof D as (_ & E & _). destruct (ly_bm _ L) as [A1 A2 A3 A4]. split.
  - split; rewrite ?E, ?(proj1 D); try done.
    + intros b Hb. apply (data_block_dframe s s'); [done|by apply A3].
    + intros b Hb. rewrite used_bits by done. intros Hf. destruct (A4 b Hb Hf) as [H1 H2]. split; [by apply (data_block_dframe s s')|done].
  - rewrite E. apply L.
  - rewrite E, used_bits by (destruct L; lia). apply L.
Qed.

Lemma nfree_bits : nfree s' = nfree s.
Proof.
  unfold nfree. pose proof D as (_ & -> & _).
  assert (H : forall l, Forall (fun b => 0 <= b < sb_size (f_sb s)) l ->
    length (filter (fun b => used (view s') (f_sb s) b = false) l) = length (filter (fun b => used (view s) (f_sb s) b = false) l)).
  { intros l Hl. induction Hl as [|b l Hb Hl IH]; [done|]. rewrite !filter_cons, used_bits by done. destruct (decide _); simpl; by rewrite IH. }
  apply H. apply Forall_forall. intros b Hb. apply elem_of_seqZ in Hb. lia.
Qed.

Lemma inode_ok_bits x :
  (forall k, 0 <= k <= 140 -> slot (view s') x k = slot (view s) x k) -> inode_ok s x -> inode_ok s' x.
Proof.
  intros Hs [O1 O2 O3 O4]. split; try done.
  - intros k Hk. rewrite Hs by done. intros Hne. eapply good_used; [done| |by apply O3].
    intros Hu. rewrite used_bits; [done|]. apply (O3 k Hk Hne).
  - intros k k' Hk Hk'. rewrite !Hs by done. by apply O4.
Qed.
End same_bits.

Lemma alloced_ext s s1 s2 s3 b e :
  layout s -> f_disksize s < two32 -> dframe s s1 -> (forall y, view s1 y = view s y) -> alloced s1 s2 b e -> dframe s2 s3 ->
  (forall y, y <> e -> view s3 y = view s2 y) -> e <> bb s -> alloced s s3 b e.
Proof.
  intros L Hz D1 V1 [A1 A2 A3 A4 A5 A6 A7 A8 A9] D2 V2 He. pose proof D1 as (Ez & Esb & _).
  assert (Ebb := bb_dframe s s1 D1). assert (Hu1 : forall b', used (view s1) (f_sb s) b' = used (view s) (f_sb s) b') by (intros b'; unfold used; by rewrite V1).
  assert (E2 : bb s2 = bb s) by (rewrite (bb_dframe s1 s2 A9); done).
  assert (Hz2 : f_disksize s2 < two32) by (rewrite (proj1 A9), Ez; done).
  assert (V2' : view s3 (bb s2) = view s2 (bb s2)) by (apply V2; congruence).
  split.
  - by rewrite Esb in A1.
  - by rewrite Esb, Hu1 in A2.
  - by apply (data_block_dframe s s1).
  - by rewrite Ebb in A4.
  - intros y H1 H2 H3. rewrite V2, A5, V1 by congruence. done.
  - intros b' Hb'. rewrite <- Hu1, <- Esb, <- A6 by (rewrite Esb; done). rewrite <- (proj1 (proj2 A9)). apply used_bits; try done.
    by rewrite (proj1 (proj2 A9)), Esb.
  - rewrite (nfree_bits s2 s3 A8 Hz2 D2 V2'), <- A7. symmetry. apply nfree_bits; [done|done|done|]. apply V1.
  - by apply (layout_bits s2 s3).
  - etransitivity; [done|]. by etransitivity.
Qed.

(** ** bmap *)

Lemma alloced_seti s s' b e ip x : alloced s s' b e -> alloced s (seti ip x s') b e.
Proof. intros [A1 A2 A3 A4 A5 A6 A7 A8 A9]. split; try done. by destruct A8 as [[? ? ? ?] ? ?]. Qed.

Lemma layout_seti s ip x : layout s -> layout (seti ip x s).
Proof. intros [[? ? ? ?] ? ?]. done. Qed.

(** Storing a block number in the inode. *)
Lemma slot_set_addr v v' x k0 b k :
  length (i_addrs x) = 13%nat -> 0 <= k0 < 12 -> 0 <= k <= 140 -> (ind_addr x <> 0 -> v' (ind_addr x) = v (ind_addr x)) ->
  slot v' (set_addr k0 b x) k = if k =? k0 then b else slot v x k.
Proof.
  intros Hl Hk0 Hk Hv. assert (Ei : ind_addr (set_addr k0 b x) = ind_addr x).
  { unfold ind_addr, set_addr. simpl. rewrite list_lookup_insert_ne by lia. done. }
  unfold slot. rewrite Ei. destruct (Z.eqb_spec k 140) as [->|]; [destruct (Z.eqb_spec 140 k0); [lia|done]|].
  unfold addr_at. rewrite Ei. destruct (Z.ltb_spec k 12).
  - unfold set_addr. simpl. destruct (Z.eqb_spec k k0) as [->|]; [rewrite list_lookup_insert_eq by lia; done|].
    by rewrite list_lookup_insert_ne by lia.
  - destruct (Z.eqb_spec k k0); [lia|]. destruct (Z.eqb_spec (ind_addr x) 0); [done|]. by rewrite Hv.
Qed.

Lemma get32_block0 n : get32 block0 n = 0.
Proof.
  unfold get32, slice, block0. rewrite drop_replicate, take_replicate. induction (_ `min` _)%nat as [|m IH]; [done|].
  cbn [replicate]. unfold of_le in *. simpl in *. lia.
Qed.

(** Storing the number of the new, empty indirect block. *)
Lemma slot_set_ind v v' x b k :
  length (i_addrs x) = 13%nat -> ind_addr x = 0 -> 0 <= k <= 140 -> v' b = block0 ->
  slot v' (set_addr NDIRECT b x) k = if k =? 140 then b else slot v x k.
Proof.
  intros Hl H0 Hk Hb. assert (Ei : ind_addr (set_addr NDIRECT b x) = b).
  { unfold ind_addr, set_addr. simpl. change (Z.to_nat NDIRECT) with 12%nat. rewrite list_lookup_insert_eq by lia. done. }
  unfold slot. rewrite Ei. destruct (Z.eqb_spec k 140) as [->|]; [done|].
  unfold addr_at. rewrite Ei. destruct (Z.ltb_spec k 12).
  - unfold set_addr. simpl. change (Z.to_nat NDIRECT) with 12%nat. by rewrite list_lookup_insert_ne by lia.
  - rewrite H0. simpl. destruct (b =? 0); [done|]. by rewrite Hb, get32_block0.
Qed.

(** Storing a block number in the indirect block. *)
Lemma slot_set_entry v v' x k0 b k :
  ind_addr x <> 0 -> 12 <= k0 < 140 -> 0 <= k <= 140 -> 0 <= b < two32 -> length (v (ind_addr x)) = 512%nat ->
  v' (ind_addr x) = put32 (Z.to_nat (4 * (k0 - 12))) b (v (ind_addr x)) ->
  slot v' x k = if k =? k0 then b else slot v x k.
Proof.
  intros Hi Hk0 Hk Hb Hl Hv. unfold slot. destruct (Z.eqb_spec k 140) as [->|]; [destruct (Z.eqb_spec 140 k0); [lia|done]|].
  unfold addr_at. destruct (Z.ltb_spec k 12); [destruct (Z.eqb_spec k k0); [lia|done]|].
  destruct (Z.eqb_spec (ind_addr x) 0); [done|]. rewrite Hv. destruct (Z.eqb_spec k k0) as [->|].
  - apply get32_put32; [done|]. rewrite Hl. lia.
  - apply get32_put32_ne; [rewrite Hl; lia|lia].
Qed.

(** How many blocks the indirect block may still take. *)
Definition noind (x : inode) : nat := if decide (ind_addr x = 0) then 1 else 0.

(** The blocks logged since [bs]: the bitmap and blocks of the inode. *)
Definition logs (s : fstate) (x : inode) (bs bs' : list Z) : Prop :=
  forall b, b ∈ bs' -> b ∈ bs \/ b = bb s \/ (b <> 0 /\ exists k, 0 <= k <= 140 /\ slot (view s) x k = b).

Lemma logs_refl s x bs : logs s x bs bs.
Proof. intros b Hb. by left. Qed.

Lemma logs_add s x bs bs' b : b = bb s \/ (b <> 0 /\ exists k, 0 <= k <= 140 /\ slot (view s) x k = b) -> logs s x bs bs' -> logs s x bs (log_add b bs').
Proof. intros Hb H b' Hb'. apply elem_of_log_add in Hb' as [?| ->]; [by apply H|by right]. Qed.

Lemma logs_trans s1 x1 s2 x2 bs bs1 bs2 :
  dframe s1 s2 -> (forall k, 0 <= k <= 140 -> slot (view s1) x1 k <> 0 -> slot (view s2) x2 k = slot (view s1) x1 k) ->
  logs s1 x1 bs bs1 -> logs s2 x2 bs1 bs2 -> logs s2 x2 bs bs2.
Proof.
  intros D Hs H1 H2 b Hb. apply H2 in Hb as [Hb|Hb]; [|by right]. apply H1 in Hb as [Hb|[->|(H0 & k & Hk & E)]]; [by left|right; left; symmetry; by apply bb_dframe|].
  right; right. split; [done|]. exists k. split; [done|]. rewrite Hs; [done|done|congruence].
Qed.

(** The outcome of an operation that may give the inode blocks. *)
Record grown (ip : nat) (s : fstate) (x : inode) (bs : list Z) (s' : fstate) (x' : inode) (bs' : list Z) : Prop := {
  gn_tx : tx [] s' bs';
  gn_grow : grow s x s' x';
  gn_frame : frame (seti ip x' s) s';
  gn_log : logs s' x' bs bs' }.

Lemma bmap_direct ip s x bs bn :
  tx [] s bs -> layout s -> inode_ok s x -> f_inodes s !! ip = Some x -> 0 <= bn < 12 ->
  (pot (bb s) (ind_addr x) bs <= 24)%nat -> (1 + noind x <= nfree s)%nat ->
  exists a s' x' bs', bmap ip bn s = Ret a s' /\ grown ip s x bs s' x' bs' /\ a = slot (view s') x' bn /\ a <> 0 /\ (slot (view s) x bn <> 0 -> x' = x) /\
    (pot (bb s) (ind_addr x') (log_add a bs') <= S (pot (bb s) (ind_addr x) bs))%nat /\ (nfree s + noind x' <= nfree s' + noind x + 1)%nat.
Proof.
  intros H L O Hx Hbn Hp Hf. pose proof (ik_len _ _ O) as Hlen. unfold bmap. mstep (geti_run _ _ _ Hx). change NDIRECT with 12.
  destruct (Z.ltb_spec bn 12); [|lia]. destruct (lookup_lt_is_Some_2 (i_addrs x) (Z.to_nat bn)) as [a Ha]; [lia|].
  assert (Hz : zget (i_addrs x) bn = Some a) by (apply zget_Some; split; [lia|done]). rewrite Hz, bind_some.
  assert (Hs : slot (view s) x bn = a). { unfold slot, addr_at. destruct (Z.eqb_spec bn 140); [lia|]. destruct (Z.ltb_spec bn 12); [|lia]. by rewrite Ha. }
  destruct (Z.eqb_spec a 0) as [->|Hne].
  - rewrite (ik_dev _ _ O). pose proof (pot_length (bb s) (ind_addr x) bs).
    destruct (balloc_alloc [] s bs (ind_addr x) H L) as (b & s1 & B1 & B2 & B3 & Bv & B4 & B5 & _); [lia|apply not_held_nil|intros; apply not_held_nil|simpl; lia|].
    mstep B1. assert (Hx1 : f_inodes s1 !! ip = Some x) by by rewrite (fr_inodes _ _ B5). mstep (updi_run s1 ip x (set_addr bn b) Hx1).
    set (x' := set_addr bn b x). pose proof B3 as [A1 A2 A3 A4 A5 A6 A7 A8 A9]. exists b, (seti ip x' s1), x', (log_add b (log_add (bb s) bs)).
    assert (Hslots : forall k, 0 <= k <= 140 -> slot (view (seti ip x' s1)) x' k = if k =? bn then b else slot (view s) x k).
    { intros k Hk. apply slot_set_addr; [done|done|done|]. intros Hi. destruct (ik_good _ _ O 140 ltac:(lia) Hi) as (_ & _ & Hu & Hbb).
      apply Bv; rewrite ?slot_ind in *; congruence. }
    assert (Ei : ind_addr x' = ind_addr x).
    { unfold ind_addr, x', set_addr. simpl. by rewrite list_lookup_insert_ne by lia. }
    split; [done|]. split; [|split; [rewrite Hslots, Z.eqb_refl by lia; done|split; [lia|split; [done|split]]]].
    + split; [by apply tx_seti| | |].
      * apply (grow_alloc s x _ x' bn b); [done|by apply alloced_seti|lia|done|done|done|done|]. unfold x', set_addr. simpl. by rewrite length_insert.
      * destruct B5 as [F1 F2 F3 F4 F5 F6 F7 F8 F9 F10]. split; try done. simpl. by rewrite F5.
      * apply logs_add; [right; split; [lia|]; exists bn; rewrite Hslots, Z.eqb_refl by lia; split; [lia|done]|].
        apply logs_add; [left; symmetry; exact (bb_dframe s s1 A9)|apply logs_refl].
    + rewrite (log_add_old b) by apply in_log_add. rewrite Ei. etransitivity; [apply pot_add|]. apply le_n_S, pot_bm.
    + unfold noind. rewrite Ei. rewrite A7. change (nfree (seti ip x' s1)) with (nfree s1). lia.
  - exists a, s, x, bs. split; [done|]. split; [split; [done|by apply grow_refl| |apply logs_refl]|].
    + unfold seti. rewrite list_insert_id by done. by destruct s.
    + split; [done|]. split; [done|]. split; [done|]. split; [apply pot_add|lia].
Qed.

Lemma seti_same s ip x : f_inodes s !! ip = Some x -> seti ip x s = s.
Proof. intros H. unfold seti. rewrite list_insert_id by done. by destruct s. Qed.

Lemma grow_same s x s' : layout s -> f_disksize s < two32 -> inode_ok s x -> frame s s' -> (forall y, view s' y = view s y) -> grow s x s' x.
Proof.
  intros L Hz O F V. pose proof (frame_dframe _ _ F) as D. assert (Hs : forall k, slot (view s') x k = slot (view s) x k) by (intros k; by apply slot_ext).
  split; try done.
  - by apply (inode_ok_bits s s').
  - by apply (layout_bits s s').
  - by destruct x.
  - intros k _ H0. by rewrite Hs.
  - intros bn _. unfold blk. rewrite Hs. by destruct (_ =? 0).
  - intros b _ Hu. unfold used. by rewrite V.
Qed.

(** The part of [bmap] that finds the indirect block. *)
Lemma bmap_ind ip s x bs :
  tx [] s bs -> layout s -> inode_ok s x -> f_inodes s !! ip = Some x ->
  (pot (bb s) (ind_addr x) bs <= 24)%nat -> (1 + noind x <= nfree s)%nat ->
  exists s1 x1 bs1, (if ind_addr x =? 0 then addr ← balloc (i_dev x); updi ip (set_addr NDIRECT addr);; mret addr else mret (ind_addr x)) s
      = Ret (ind_addr x1) s1 /\
    grown ip s x bs s1 x1 bs1 /\ ind_addr x1 <> 0 /\ (ind_addr x <> 0 -> x1 = x) /\ (pot (bb s) (ind_addr x1) bs1 <= pot (bb s) (ind_addr x) bs)%nat /\ nfree s = (nfree s1 + noind x)%nat.
Proof.
  intros H L O Hx Hp Hf. pose proof (ik_len _ _ O) as Hlen. destruct (Z.eqb_spec (ind_addr x) 0) as [E|Hne].
  - rewrite (ik_dev _ _ O). pose proof (pot_length (bb s) (ind_addr x) bs).
    destruct (balloc_alloc [] s bs (ind_addr x) H L) as (b & s1 & B1 & B2 & B3 & Bv & B4 & B5 & _); [lia|apply not_held_nil|intros; apply not_held_nil|simpl; lia|].
    mstep B1. assert (Hx1 : f_inodes s1 !! ip = Some x) by by rewrite (fr_inodes _ _ B5). mstep (updi_run s1 ip x (set_addr NDIRECT b) Hx1).
    set (x' := set_addr NDIRECT b x). pose proof B3 as [A1 A2 A3 A4 A5 A6 A7 A8 A9]. exists (seti ip x' s1), x', (log_add b (log_add (bb s) bs)).
    assert (Ei : ind_addr x' = b).
    { unfold ind_addr, x', set_addr. simpl. change (Z.to_nat NDIRECT) with 12%nat. by rewrite list_lookup_insert_eq by lia. }
    rewrite Ei. split; [done|]. split; [split; [by apply tx_seti| | |]|].
    + apply (grow_alloc s x _ x' 140 b); [done|by apply alloced_seti|lia|done| |lia|done|unfold x', set_addr; simpl; by rewrite length_insert].
      intros k Hk. by apply slot_set_ind.
    + destruct B5 as [F1 F2 F3 F4 F5 F6 F7 F8 F9 F10]. split; try done. simpl. by rewrite F5.
    + apply logs_add; [right; split; [lia|]; exists 140; split; [lia|exact Ei]|].
      apply logs_add; [left; symmetry; exact (bb_dframe s s1 A9)|apply logs_refl].
    + split; [lia|]. split; [done|]. split; [rewrite E; etransitivity; [apply pot_ind; lia|apply pot_bm]|].
      unfold noind. rewrite decide_True by done. rewrite A7. change (nfree (seti ip x' s1)) with (nfree s1). lia.
  - exists s, x, bs. split; [done|]. split; [split; [done|by apply grow_refl|by rewrite seti_same|apply logs_refl]|]. split; [done|]. split; [done|]. split; [done|].
    unfold noind. rewrite decide_False by done. lia.
Qed.

(** The part that looks up the entry [bn - NDIRECT] of the indirect block. *)
Definition bmap_entry (dev addr bn : Z) : M fstate Z :=
  bp ← bread dev addr;
  d ← bdata bp;
  let addr := get32 d (Z.to_nat (4 * bn)) in
  addr ← (if addr =? 0 then
            addr ← balloc dev;
            d ← bdata bp;
            set_bdata bp (put32 (Z.to_nat (4 * bn)) addr d);;
            log_write bp;;
            mret addr
          else mret addr);
  brelse bp;;
  mret addr.

Lemma write_release i d (b : Z) s :
  (set_bdata i d ≫= fun _ => (log_write i ≫= fun _ => mret b) ≫= fun addr => brelse i ≫= fun _ => mret addr) s =
  (set_bdata i d;; log_write i;; brelse i ≫= fun _ => mret b) s.
Proof.
  rewrite !(bind_run (set_bdata i d)). destruct (set_bdata i d s) as [u s1| | |]; try done. rewrite bind_assoc_run, !(bind_run (log_write i)).
  by destruct (log_write i s1).
Qed.

Lemma bmap_entry_run ip s x bs bn :
  tx [] s bs -> layout s -> inode_ok s x -> f_inodes s !! ip = Some x -> ind_addr x <> 0 -> 12 <= bn < 140 ->
  (pot (bb s) (ind_addr x) bs <= 24)%nat -> (1 <= nfree s)%nat ->
  exists a s' bs', bmap_entry 1 (ind_addr x) (bn - 12) s = Ret a s' /\ grown ip s x bs s' x bs' /\ a = slot (view s') x bn /\ a <> 0 /\
    (pot (bb s) (ind_addr x) (log_add a bs') <= S (pot (bb s) (ind_addr x) bs))%nat /\ (nfree s <= nfree s' + 1)%nat.
Proof.
  intros H L O Hx Hi Hbn Hp Hf. pose proof (tx_size _ _ _ H) as Hz. pose proof (pot_length (bb s) (ind_addr x) bs) as Hpl.
  destruct (ik_good _ _ O 140 ltac:(lia) Hi) as (Hir & Hid & Hiu & Hib). rewrite !slot_ind in *.
  set (ind := ind_addr x) in *. assert (Hind : 0 <= ind < f_disksize s) by apply Hid.
  assert (Hlen : length (view s ind) = 512%nat) by (eapply view_length; [apply H|done]).
  assert (Hslot : slot (view s) x bn = get32 (view s ind) (Z.to_nat (4 * (bn - 12)))).
  { unfold slot, addr_at. destruct (Z.eqb_spec bn 140); [lia|]. destruct (Z.ltb_spec bn 12); [lia|]. fold ind. by destruct (Z.eqb_spec ind 0). }
  unfold bmap_entry. destruct (tx_bread [] s bs ind H Hind (not_held_nil _ _)) as (i & s2 & R2 & H2 & Hh2 & V2 & F2 & K2 & _); [simpl; lia|].
  mstep R2. mstep (bdata_run _ _ _ _ Hh2). rewrite <- Hslot. destruct (Z.eqb_spec (slot (view s) x bn) 0) as [E|Hne].
  - (* allocate *)
    assert (L2 : layout s2) by (apply (layout_bits s s2); [done|done|by apply frame_dframe|apply V2]).
    assert (D2 := frame_dframe _ _ F2). assert (Ebb := bb_dframe s s2 D2).
    assert (Hnh : forall b, b <> ind -> not_held [i] s2 b).
    { intros b Hb j d Hj (y & Hy & _ & Hyb & _). apply list_elem_of_singleton in Hj as ->. destruct Hh2 as (z & Hz2 & _ & Hzb & _). congruence. }
    destruct (balloc_alloc [i] s2 bs ind H2 L2) as (b & s3 & B1 & B2 & B3 & Bv & B4 & B5 & B6).
    { rewrite (nfree_bits s s2); [done|done|done|done|apply V2]. }
    { apply Hnh. congruence. }
    { intros b Hb Hfr. apply Hnh. intros ->. unfold used in Hfr, Hiu. rewrite V2, (proj1 (proj2 D2)) in Hfr. congruence. }
    { simpl. lia. }
    rewrite bind_assoc_run. mstep B1. rewrite bind_assoc_run.
    assert (Hh3 : holds s3 i ind (view s ind)) by (apply (keeps_holds [i] s2 s3 i ind (view s ind) B6); [left|done]).
    mstep (bdata_run _ _ _ _ Hh3). set (d' := put32 (Z.to_nat (4 * (bn - 12))) b (view s ind)). rewrite bind_assoc_run.
    rewrite write_release. pose proof B3 as [A1 A2 A3 A4 A5 A6 A7 A8 A9].
    pose proof (length_log_add (bb s2) bs). pose proof (length_log_add b (log_add (bb s2) bs)).
    destruct (tx_finish [] s3 (log_add b (log_add (bb s2) bs)) i ind (view s ind) d' B2 Hh3) as (s4 & R4 & _ & H4 & V4 & F4 & _);
      [apply (data_block_dframe s2 s3 _ A9), (data_block_dframe s s2 _ D2); done|unfold d'; rewrite length_put32; lia|lia|]. rewrite R4.
    set (bs' := log_add ind (log_add b (log_add (bb s2) bs))).
    assert (HA : alloced s s4 b ind).
    { eapply (alloced_ext s s2 s3 s4); [done|done|done|done|done|by apply frame_dframe| |done]. intros y Hy. rewrite V4. by rewrite decide_False. }
    assert (Hslots : forall k, 0 <= k <= 140 -> slot (view s4) x k = if k =? bn then b else slot (view s) x k).
    { intros k Hk. apply slot_set_entry; [done|done|done| |done|fold ind; by rewrite V4, decide_True].
      destruct (al_data _ _ _ _ HA). unfold two32 in *. lia. }
    assert (b <> ind). { intros ->. rewrite (al_free _ _ _ _ HA) in Hiu. done. }
    exists b, s4, bs'. split; [done|]. split; [split; [done| | |]|].
    + apply (grow_alloc s x s4 x bn b); try done; [lia| |by destruct x|apply O]. intros _. by rewrite V4, decide_False.
    + rewrite seti_same by done. etransitivity; [done|]. by etransitivity.
    + assert (E4 : bb s4 = bb s) by (apply bb_dframe, HA). assert (slot (view s4) x 140 = ind) by (rewrite Hslots by lia; by destruct (Z.eqb_spec 140 bn); [lia|]).
      apply logs_add; [right; split; [done|]; by exists 140|].
      apply logs_add; [right; split; [destruct HA; lia|]; exists bn; rewrite Hslots, Z.eqb_refl by lia; split; [lia|done]|].
      apply logs_add; [left; congruence|apply logs_refl].
    + split; [rewrite Hslots, Z.eqb_refl by lia; done|]. split; [destruct HA; lia|]. split; [|pose proof (al_nfree _ _ _ _ HA); lia].
      unfold bs'. rewrite Ebb. rewrite (log_add_old b) by (apply elem_of_log_add; left; apply in_log_add).
      etransitivity; [by apply pot_ind_same|]. etransitivity; [apply pot_add|]. apply le_n_S, pot_bm.
  - rewrite bind_mret. destruct (tx_brelse [] s2 bs i H2) as (s3 & R3 & H3 & V3 & F3 & K3); [eapply holds_lt; [apply H2|done]|]. mstep R3.
    assert (F : frame s s3) by by etransitivity. assert (V : forall y, view s3 y = view s y) by (intros y; by rewrite V3).
    exists (slot (view s) x bn), s3, bs. split; [done|]. split; [split; [done|by apply grow_same|by rewrite seti_same|apply logs_refl]|].
    split; [symmetry; by apply slot_ext|]. split; [done|]. split; [apply pot_add|]. rewrite (nfree_bits s s3); [lia|done|done|by apply frame_dframe|apply V].
Qed.

Lemma grown_inode ip s x bs s' x' bs' : f_inodes s !! ip = Some x -> grown ip s x bs s' x' bs' -> f_inodes s' !! ip = Some x'.
Proof. intros Hx [_ _ F _]. rewrite (fr_inodes _ _ F). simpl. apply list_lookup_insert_eq. by eapply lookup_lt_Some. Qed.

Lemma iframe_trans ip s x1 s1 x2 s2 : frame (seti ip x1 s) s1 -> frame (seti ip x2 s1) s2 -> frame (seti ip x2 s) s2.
Proof.
  intros [A1 A2 A3 A4 A5 A6 A7 A8 A9 A10 A11] [B1 B2 B3 B4 B5 B6 B7 B8 B9 B10 B11]. simpl in *. split; simpl; try congruence.
  rewrite B5, A5. by rewrite list_insert_insert_eq.
Qed.

Lemma grown_trans ip s x bs s1 x1 bs1 s2 x2 bs2 :
  inode_ok s x -> grown ip s x bs s1 x1 bs1 -> grown ip s1 x1 bs1 s2 x2 bs2 -> grown ip s x bs s2 x2 bs2.
Proof.
  intros O [A1 A2 A3 A4] [B1 B2 B3 B4]. split; [done|by eapply grow_trans|by eapply iframe_trans|].
  eapply logs_trans; [apply B2|apply B2|done|done].
Qed.

Lemma bmap_run ip s x bs bn :
  tx [] s bs -> layout s -> inode_ok s x -> f_inodes s !! ip = Some x -> 0 <= bn < 140 ->
  (pot (bb s) (ind_addr x) bs <= 24)%nat -> (1 + noind x <= nfree s)%nat ->
  exists a s' x' bs', bmap ip bn s = Ret a s' /\ grown ip s x bs s' x' bs' /\ a = slot (view s') x' bn /\ a <> 0 /\ (slot (view s) x bn <> 0 -> x' = x) /\
    (pot (bb s) (ind_addr x') (log_add a bs') <= S (pot (bb s) (ind_addr x) bs))%nat /\ (nfree s + noind x' <= nfree s' + noind x + 1)%nat.
Proof.
  intros H L O Hx Hbn Hp Hf. destruct (decide (bn < 12)); [apply bmap_direct; (done || lia)|]. unfold bmap. mstep (geti_run _ _ _ Hx).
  change NDIRECT with 12. change NINDIRECT with 128. destruct (Z.ltb_spec bn 12); [lia|]. destruct (Z.ltb_spec (bn - 12) 128); [|lia].
  assert (Hz : zget (i_addrs x) 12 = Some (ind_addr x)).
  { apply zget_Some. split; [lia|]. change (Z.to_nat 12) with 12%nat. unfold ind_addr. destruct (lookup_lt_is_Some_2 (i_addrs x) 12) as [a ->]; [rewrite (ik_len _ _ O); lia|done]. }
  rewrite Hz, bind_some. destruct (bmap_ind ip s x bs H L O Hx Hp Hf) as (s1 & x1 & bs1 & R1 & G1 & Hi & X1 & P1 & N1). change NDIRECT with 12 in R1. mstep R1.
  pose proof G1 as [T1 Gr1 Fr1 Lg1]. assert (Ebb := bb_dframe _ _ (gr_frame _ _ _ _ Gr1)). rewrite (ik_dev _ _ O).
  destruct (bmap_entry_run ip s1 x1 bs1 bn T1 (gr_lay _ _ _ _ Gr1) (gr_ok _ _ _ _ Gr1) (grown_inode _ _ _ _ _ _ _ Hx G1) Hi)
    as (a & s2 & bs2 & R2 & G2 & Ha & Ha0 & P2 & N2); [lia|rewrite Ebb; lia|unfold noind in *; lia|].
  exists a, s2, x1, bs2. split; [exact R2|]. split; [by eapply grown_trans|]. split; [done|]. split; [done|]. rewrite Ebb in P2. split; [|split; [lia|]].
  { intros Hs. apply X1. intros E. apply Hs. unfold slot, addr_at. rewrite E. destruct (Z.eqb_spec bn 140); [lia|]. by destruct (Z.ltb_spec bn 12); [lia|]. }
  unfold noind in *. rewrite (decide_False (P := ind_addr x1 = 0)) by done. lia.
Qed.

(** ** Writing *)

(** A block of the file is overwritten. *)
Lemma write_block s x bs i bn d d0 :
  tx [i] s bs -> layout s -> inode_ok s x -> 0 <= bn < 140 -> slot (view s) x bn <> 0 -> holds s i (slot (view s) x bn) d0 ->
  length d = 512%nat -> (length bs < 29)%nat ->
  exists s', (forall B (K : unit -> M fstate B), (set_bdata i d;; log_write i;; brelse i ≫= K) s = K tt s') /\
    tx [] s' (log_add (slot (view s) x bn) bs) /\ layout s' /\ inode_ok s' x /\ frame s s' /\ nfree s' = nfree s /\
    (forall k, 0 <= k <= 140 -> slot (view s') x k = slot (view s) x k) /\
    (forall bn', 0 <= bn' < 140 -> blk (view s') x bn' = if bn' =? bn then d else blk (view s) x bn') /\
    (forall b, b <> slot (view s) x bn -> view s' b = view s b).
Proof.
  intros H L O Hbn Hne Hh Hd Hl. destruct (ik_good _ _ O bn ltac:(lia) Hne) as (_ & Hdb & _ & Hbb).
  destruct (tx_finish [] s bs i _ d0 d H Hh Hdb Hd Hl) as (s' & R & _ & T & V & F & _). exists s'.
  assert (Vo : forall b, b <> slot (view s) x bn -> view s' b = view s b) by (intros b Hb; rewrite V; by rewrite decide_False).
  assert (Hz := tx_size _ _ _ H). assert (D := frame_dframe _ _ F). assert (Vb : view s' (bb s) = view s (bb s)) by by apply Vo.
  assert (Hs : forall k, 0 <= k <= 140 -> slot (view s') x k = slot (view s) x k).
  { intros k Hk. destruct (decide (ind_addr x = 0)) as [E|E].
    - unfold slot, addr_at. rewrite E. done.
    - apply slot_ext, Vo. intros E'. assert (140 = bn); [|lia]. apply (ik_inj _ _ O); [lia|lia|done|done]. }
  split; [done|]. split; [done|]. split; [by apply (layout_bits s s')|]. split; [by apply (inode_ok_bits s s')|]. split; [done|].
  split; [by apply (nfree_bits s s')|]. split; [done|]. split; [|done].
  intros bn' Hbn'. unfold blk. rewrite Hs by lia. destruct (Z.eqb_spec bn' bn) as [->|Hnb].
  - destruct (Z.eqb_spec (slot (view s) x bn) 0); [done|]. rewrite V. by rewrite decide_True.
  - destruct (Z.eqb_spec (slot (view s) x bn') 0); [done|]. apply Vo. intros E. apply Hnb. apply (ik_inj _ _ O); [lia|lia|done|done].
Qed.

(** The inode may have got blocks that were free, and blocks of others are
    unchanged. *)
Record wrote (s : fstate) (x : inode) (s' : fstate) (x' : inode) : Prop := {
  wr_ok : inode_ok s' x';
  wr_lay : layout s';
  wr_rest : x' = set_i_addrs (i_addrs x') x;
  wr_slot : forall k, 0 <= k <= 140 -> slot (view s) x k <> 0 -> slot (view s') x' k = slot (view s) x k;
  wr_new : forall k, 0 <= k <= 140 -> slot (view s) x k = 0 -> slot (view s') x' k <> 0 -> used (view s) (f_sb s) (slot (view s') x' k) = false;
  wr_view : forall b, 0 < b < sb_size (f_sb s) -> used (view s) (f_sb s) b = true -> b <> bb s ->
    (forall k, 0 <= k <= 140 -> slot (view s) x k <> b) -> view s' b = view s b;
  wr_used : forall b, 0 <= b < sb_size (f_sb s) -> used (view s) (f_sb s) b = true -> used (view s') (f_sb s) b = true;
  wr_frame : dframe s s' }.

Lemma grow_wrote s x s' x' : grow s x s' x' -> wrote s x s' x'.
Proof. intros []. split; try done. intros b Hb Hu Hbb Hk. apply gr_view0; [lia|done|done|]. intros ->. by apply (Hk 140). Qed.

Lemma wrote_trans s x s1 x1 s2 x2 : inode_ok s x -> wrote s x s1 x1 -> wrote s1 x1 s2 x2 -> wrote s x s2 x2.
Proof.
  intros O [A1 A2 A3 A4 A5 A6 A7 A8] [B1 B2 B3 B4 B5 B6 B7 B8]. pose proof A8 as (_ & Esb & _).
  assert (Ebb := bb_dframe s s1 A8). split; try done.
  - rewrite B3, A3. done.
  - intros k Hk Hne. rewrite B4; [by apply A4|done|]. by rewrite A4.
  - intros k Hk H0 Hne. destruct (decide (slot (view s1) x1 k = 0)) as [E|E].
    + specialize (B5 k Hk E Hne). rewrite Esb in B5. destruct (used (view s) (f_sb s) (slot (view s2) x2 k)) eqn:Eu; [|done].
      rewrite A7 in B5; [done| |done]. destruct (ik_good _ _ B1 k Hk Hne) as [Hr _]. by rewrite (proj1 (proj2 B8)), Esb in Hr.
    + rewrite B4 by done. by apply A5.
  - intros b Hb Hu Hne1 Hne2. rewrite B6; [by apply A6|by rewrite Esb|rewrite Esb; apply A7; (done || lia)|by rewrite Ebb|].
    intros k Hk E. destruct (decide (slot (view s) x k = 0)) as [E0|E0].
    + rewrite <- E in Hu. rewrite A5 in Hu; [done|done|done|lia].
    + apply (Hne2 k Hk). by rewrite <- (A4 k Hk E0).
  - intros b Hb Hu. rewrite <- Esb. apply B7; rewrite ?Esb; [done|]. by apply A7.
  - by etransitivity.
Qed.

Lemma wrote_refl s x : inode_ok s x -> layout s -> wrote s x s x.
Proof. intros O L. by apply grow_wrote, grow_refl. Qed.

Lemma blk_length held s x bn : bio_inv held s -> inode_ok s x -> 0 <= bn <= 140 -> length (blk (view s) x bn) = 512%nat.
Proof.
  intros H O Hbn. unfold blk. destruct (Z.eqb_spec (slot (view s) x bn) 0); [done|].
  destruct (ik_good _ _ O bn Hbn ltac:(done)) as (_ & [Hr _] & _). by eapply view_length.
Qed.

(** The bytes [bs] at [off] in a file with the bytes [f]. *)
Definition put_bytes (f : Z -> Z) (off : Z) (bs : list Z) (p : Z) : Z :=
  if bool_decide (off <= p < off + Z.of_nat (length bs)) then default 0 (bs !! Z.to_nat (p - off)) else f p.

Lemma fbyte_splice v v' x x' off bs :
  0 <= off -> off mod 512 + Z.of_nat (length bs) <= 512 -> length (blk v x (off / 512)) = 512%nat ->
  (forall bn, 0 <= bn < 140 -> blk v' x' bn = if bn =? off / 512 then splice (Z.to_nat (off mod 512)) bs (blk v x (off / 512)) else blk v x bn) ->
  forall p, 0 <= p < 71680 -> fbyte v' x' p = put_bytes (fbyte v x) off bs p.
Proof.
  intros Hoff Hm Hlen Hb p Hp. unfold fbyte, put_bytes. pose proof (Z.mod_pos_bound p 512 ltac:(lia)) as Hpm. pose proof (Z.mod_pos_bound off 512 ltac:(lia)) as Hom.
  pose proof (Z.div_mod p 512 ltac:(lia)) as Hpd. pose proof (Z.div_mod off 512 ltac:(lia)) as Hod.
  rewrite Hb by (Z.div_mod_to_equations; lia). destruct (Z.eqb_spec (p / 512) (off / 512)) as [E|E].
  - rewrite E. rewrite lookup_splice by lia. case_bool_decide as Hr.
    + rewrite decide_True by lia. do 2 f_equal. lia.
    + rewrite decide_False by lia. done.
  - rewrite bool_decide_eq_false_2; [done|]. intros Hr. apply E. Z.div_mod_to_equations. lia.
Qed.

Record writing (ip : nat) (s : fstate) (x : inode) (bs : list Z) (s' : fstate) (x' : inode) (bs' : list Z) : Prop := {
  wg_tx : tx [] s' bs';
  wg_wrote : wrote s x s' x';
  wg_frame : frame (seti ip x' s) s';
  wg_log : logs s' x' bs bs' }.

(** One round of the loop of [writei]. *)
Lemma writei_round {B} ip s x bs off bs0 (K : unit -> M fstate B) :
  tx [] s bs -> layout s -> inode_ok s x -> f_inodes s !! ip = Some x -> 0 <= off < 71680 -> (length bs0 <= 512)%nat ->
  off mod 512 + Z.of_nat (length bs0) <= 512 ->
  (pot (bb s) (ind_addr x) bs <= 24)%nat -> (1 + noind x <= nfree s)%nat ->
  exists s' x' bs', (a ← bmap ip (off / BSIZE); bp ← bread 1 a; src ← of_option "src" (Some bs0); d ← bdata bp;
      set_bdata bp (splice (Z.to_nat (off mod BSIZE)) src d);; log_write bp;; brelse bp ≫= K) s = K tt s' /\
    writing ip s x bs s' x' bs' /\ slot (view s') x' (off / 512) <> 0 /\ (slot (view s) x (off / 512) <> 0 -> x' = x) /\
    (forall p, 0 <= p < 71680 -> fbyte (view s') x' p = put_bytes (fbyte (view s) x) off bs0 p) /\
    (pot (bb s) (ind_addr x') bs' <= S (pot (bb s) (ind_addr x) bs))%nat /\ (nfree s + noind x' <= nfree s' + noind x + 1)%nat.
Proof.
  intros H L O Hx Hoff Hb0 Hm Hp Hf. change BSIZE with 512. assert (Hbn : 0 <= off / 512 < 140) by (Z.div_mod_to_equations; lia).
  destruct (bmap_run ip s x bs (off / 512) H L O Hx Hbn Hp Hf) as (a & s1 & x1 & bs1 & R1 & G1 & Ha & Ha0 & X1 & P1 & N1). mstep R1.
  pose proof G1 as [T1 Gr1 Fr1 Lg1]. pose proof (gr_ok _ _ _ _ Gr1) as O1. assert (Ebb := bb_dframe _ _ (gr_frame _ _ _ _ Gr1)).
  destruct (ik_good _ _ O1 (off / 512) ltac:(lia)) as (_ & [Har _] & _); [congruence|]. rewrite <- Ha in Har.
  pose proof (pot_length (bb s) (ind_addr x1) (log_add a bs1)). pose proof (length_log_add a bs1).
  destruct (tx_bread [] s1 bs1 a T1 Har (not_held_nil _ _)) as (i & s2 & R2 & T2 & Hh2 & V2 & F2 & _ & _); [simpl; lia|]. mstep R2. rewrite bind_some. mstep (bdata_run _ _ _ _ Hh2).
  assert (Hz1 := tx_size _ _ _ T1). pose proof (grow_same s1 x1 s2 (gr_lay _ _ _ _ Gr1) Hz1 O1 F2 V2) as Gr2.
  assert (Hslot2 : slot (view s2) x1 (off / 512) = a) by (rewrite Ha; apply slot_ext, V2).
  assert (Hblk : view s1 a = blk (view s) x (off / 512)).
  { rewrite <- (gr_blk _ _ _ _ Gr1) by lia. unfold blk. rewrite <- Ha. by destruct (Z.eqb_spec a 0). }
  assert (Hblen : length (blk (view s) x (off / 512)) = 512%nat) by (eapply blk_length; [apply H|done|lia]).
  pose proof (Z.mod_pos_bound off 512 ltac:(lia)).
  destruct (write_block s2 x1 bs1 i (off / 512) (splice (Z.to_nat (off mod 512)) bs0 (view s1 a)) (view s1 a) T2 (gr_lay _ _ _ _ Gr2) (gr_ok _ _ _ _ Gr2))
    as (s3 & R3 & T3 & L3 & O3 & F3 & N3 & Hs3 & Hb3 & V3); [lia|by rewrite Hslot2|by rewrite Hslot2|rewrite length_splice; rewrite Hblk, Hblen; lia|lia|].
  rewrite R3. rewrite Hslot2 in *. exists s3, x1, (log_add a bs1). split; [done|]. split; [split; [done| | |]|].
  - eapply wrote_trans; [done|by apply grow_wrote|]. eapply wrote_trans; [done|by apply grow_wrote|].
    split; try done; [by destruct x1|intros k Hk _; by apply Hs3|intros k Hk E; rewrite Hs3, E by done; done| | |by apply frame_dframe].
    + intros b Hb Hu Hbb Hk. apply V3. intros ->. apply (Hk (off / 512)); [lia|done].
    + intros b Hb Hu. unfold used in *. rewrite V3; [done|]. intros E. destruct (ik_good _ _ (gr_ok _ _ _ _ Gr2) (off / 512) ltac:(lia)) as (_ & _ & _ & Hbb); [by rewrite Hslot2|].
      rewrite Hslot2 in Hbb. apply Hbb. rewrite <- E. apply bb_BBLOCK; [apply Gr2|by apply T2|done].
  - eapply iframe_trans; [done|]. etransitivity; [|done]. rewrite seti_same; [done|]. by eapply grown_inode.
  - assert (D : dframe s1 s3) by (apply frame_dframe; by etransitivity).
    assert (Hs13 : forall k, 0 <= k <= 140 -> slot (view s3) x1 k = slot (view s1) x1 k) by (intros k Hk; rewrite Hs3 by done; apply slot_ext, V2).
    apply logs_add; [right; split; [done|]; exists (off / 512); rewrite Hs13 by lia; split; [lia|done]|].
    eapply logs_trans; [exact D|intros k Hk _; by apply Hs13|exact Lg1|apply logs_refl].
  - split; [rewrite Hs3 by lia; congruence|]. split; [done|]. split; [|split; [done|]].
    + apply fbyte_splice; [lia|done|done|]. intros bn Hbn'. rewrite Hb3 by done. destruct (Z.eqb_spec bn (off / 512)); [by rewrite Hblk|].
      rewrite (gr_blk _ _ _ _ Gr2) by done. by apply (gr_blk _ _ _ _ Gr1).
    + rewrite N3. rewrite (nfree_bits s1 s2); [done|apply Gr1|done|by apply frame_dframe|apply V2].
Qed.

Lemma writing_trans ip s x bs s1 x1 bs1 s2 x2 bs2 :
  inode_ok s x -> writing ip s x bs s1 x1 bs1 -> writing ip s1 x1 bs1 s2 x2 bs2 -> writing ip s x bs s2 x2 bs2.
Proof.
  intros O [A1 A2 A3 A4] [B1 B2 B3 B4]. split; [done|by eapply wrote_trans|by eapply iframe_trans|].
  eapply logs_trans; [apply B2|apply B2|done|done].
Qed.

Lemma writing_inode ip s x bs s' x' bs' : f_inodes s !! ip = Some x -> writing ip s x bs s' x' bs' -> f_inodes s' !! ip = Some x'.
Proof. intros Hx [_ _ F _]. rewrite (fr_inodes _ _ F). simpl. apply list_lookup_insert_eq. by eapply lookup_lt_Some. Qed.

(** The number of blocks that the [n] bytes from [off] on touch. *)
Definition nblocks (off n : Z) : nat := if n =? 0 then 0 else Z.to_nat ((off + n - 1) / 512 - off / 512 + 1).

Lemma nblocks_last off n : 0 <= off -> 0 < n -> off mod 512 + n <= 512 -> nblocks off n = 1%nat.
Proof.
  intros Ho Hn Hm. unfold nblocks. destruct (Z.eqb_spec n 0); [lia|]. replace ((off + n - 1) / 512) with (off / 512); [lia|]. Z.div_mod_to_equations. lia.
Qed.
Lemma nblocks_step off n m :
  0 <= off -> m = 512 - off mod 512 -> m < n -> nblocks off n = S (nblocks (off + m) (n - m)).
Proof.
  intros Ho -> Hm. pose proof (Z.mod_pos_bound off 512 ltac:(lia)). unfold nblocks.
  destruct (Z.eqb_spec n 0); [lia|]. destruct (Z.eqb_spec (n - (512 - off mod 512)) 0); [lia|].
  replace (off + (512 - off mod 512) + (n - (512 - off mod 512)) - 1) with (off + n - 1) by lia.
  assert ((off + (512 - off mod 512)) / 512 = off / 512 + 1) as -> by (Z.div_mod_to_equations; lia).
  assert (off / 512 + 1 <= (off + n - 1) / 512) by (Z.div_mod_to_equations; lia). lia.
Qed.

Lemma put_bytes_app f off b1 b2 p :
  put_bytes (put_bytes f off b1) (off + Z.of_nat (length b1)) b2 p = put_bytes f off (b1 ++ b2) p.
Proof.
  unfold put_bytes. rewrite length_app. repeat case_bool_decide; try lia; try done.
  - rewrite lookup_app_r by lia. do 2 f_equal. lia.
  - rewrite lookup_app_l by lia. done.
Qed.
Lemma slice_app (a n m : nat) (l : list Z) : slice a (n + m) l = slice a n l ++ slice (a + n) m l.
Proof. unfold slice. rewrite <- drop_drop. apply take_take_drop || by rewrite <- take_take_drop. Qed.
Lemma put_bytes_ext f g off bs p : f p = g p -> put_bytes f off bs p = put_bytes g off bs p.
Proof. intros E. unfold put_bytes. by rewrite E. Qed.

Section rw.
Context `{Devsw}.

Lemma writing_nothing ip s x bs (src : list Z) off n tot :
  tx [] s bs -> layout s -> inode_ok s x -> f_inodes s !! ip = Some x -> n <= tot ->
  exists s' x' bs', (mret off : M fstate Z) s = Ret (off + 0) s' /\ writing ip s x bs s' x' bs' /\
    (forall p, 0 <= p < 71680 -> fbyte (view s') x' p = put_bytes (fbyte (view s) x) off (slice (Z.to_nat tot) (Z.to_nat 0) src) p) /\
    (forall bn, off / 512 <= bn <= (off + 0 - 1) / 512 -> tot < n -> slot (view s') x' bn <> 0) /\
    ((forall bn, off / 512 <= bn <= (off + 0 - 1) / 512 -> slot (view s) x bn <> 0) -> x' = x) /\
    (pot (bb s) (ind_addr x') bs' <= pot (bb s) (ind_addr x) bs + nblocks off 0)%nat /\ (nfree s + noind x' <= nfree s' + noind x + nblocks off 0)%nat.
Proof.
  intros T L O Hx Hn. exists s, x, bs. rewrite Z.add_0_r.
  split; [done|]. split; [split; [done|by apply wrote_refl|by rewrite seti_same|apply logs_refl]|]. split; [|split; [lia|split; [done|unfold nblocks; simpl; lia]]].
  intros p _. unfold put_bytes, slice. simpl. rewrite bool_decide_eq_false_2; [done|lia].
Qed.

Lemma writei_loop_run fuel ip s x bs src off n tot :
  tx [] s bs -> layout s -> inode_ok s x -> f_inodes s !! ip = Some x -> 0 <= off -> 0 <= tot <= n -> off + (n - tot) <= 71680 ->
  n <= Z.of_nat (length src) -> (Z.to_nat (n - tot) <= fuel)%nat ->
  (pot (bb s) (ind_addr x) bs + nblocks off (n - tot) <= 25)%nat -> (nblocks off (n - tot) + noind x <= nfree s)%nat ->
  exists s' x' bs', writei_loop fuel ip src off n tot s = Ret (off + (n - tot)) s' /\ writing ip s x bs s' x' bs' /\
    (forall p, 0 <= p < 71680 -> fbyte (view s') x' p = put_bytes (fbyte (view s) x) off (slice (Z.to_nat tot) (Z.to_nat (n - tot)) src) p) /\
    (forall bn, off / 512 <= bn <= (off + (n - tot) - 1) / 512 -> tot < n -> slot (view s') x' bn <> 0) /\
    ((forall bn, off / 512 <= bn <= (off + (n - tot) - 1) / 512 -> slot (view s) x bn <> 0) -> x' = x) /\
    (pot (bb s) (ind_addr x') bs' <= pot (bb s) (ind_addr x) bs + nblocks off (n - tot))%nat /\
    (nfree s + noind x' <= nfree s' + noind x + nblocks off (n - tot))%nat.
Proof.
  revert s x bs off tot. induction fuel as [|fuel IH]; intros s x bs off tot T L O Hx Hoff Ht Hmax Hsrc Hfuel Hp Hf; cbn [writei_loop].
  { replace (n - tot) with 0 by lia. destruct (Z.ltb_spec tot n); [lia|]. by apply writing_nothing. }
  destruct (Z.ltb_spec tot n) as [Hlt|]; [|replace (n - tot) with 0 by lia; by apply writing_nothing].
  mstep (geti_run _ _ _ Hx). rewrite (ik_dev _ _ O). set (m := Z.min (n - tot) (BSIZE - off mod BSIZE)).
  pose proof (Z.mod_pos_bound off 512 ltac:(lia)) as Hom. assert (Hm : m = Z.min (n - tot) (512 - off mod 512)) by done.
  assert (Hsb : src_bytes src tot m = Some (slice (Z.to_nat tot) (Z.to_nat m) src)).
  { unfold src_bytes. destruct (Z.leb_spec (tot + m) (Z.of_nat (length src))); [done|lia]. }
  rewrite Hsb. set (bs0 := slice (Z.to_nat tot) (Z.to_nat m) src). assert (Hl0 : length bs0 = Z.to_nat m) by (apply length_slice; lia).
  assert (Hnb : nblocks off (n - tot) = S (nblocks (off + m) (n - (tot + m)))).
  { destruct (decide (m = n - tot)) as [E|E].
    - rewrite nblocks_last by lia. unfold nblocks. destruct (Z.eqb_spec (n - (tot + m)) 0); [done|lia].
    - rewrite (nblocks_step off (n - tot) m) by lia. do 2 f_equal. lia. }
  destruct (writei_round ip s x bs off bs0 (fun _ => writei_loop fuel ip src (u32 (off + m)) n (tot + m)) T L O Hx)
    as (s1 & x1 & bs1 & R1 & W1 & S1 & X1 & B1 & P1 & N1); [lia|lia|lia|lia|lia|]. rewrite R1.
  pose proof W1 as [T1 Wr1 F1 Lg1]. assert (Ebb := bb_dframe _ _ (wr_frame _ _ _ _ Wr1)). rewrite (u32_id (off + m)) by (unfold two32; lia).
  destruct (IH s1 x1 bs1 (off + m) (tot + m) T1 (wr_lay _ _ _ _ Wr1) (wr_ok _ _ _ _ Wr1) (writing_inode _ _ _ _ _ _ _ Hx W1))
    as (s2 & x2 & bs2 & R2 & W2 & B2 & S2 & X2 & P2 & N2); [lia|lia|lia|lia|lia|rewrite Ebb; lia|lia|].
  exists s2, x2, bs2. split; [rewrite R2; f_equal; lia|]. split; [by eapply writing_trans|]. rewrite Ebb in P2. split; [|split; [|split; [|lia]]].
  - intros p Hp'. rewrite B2 by done. rewrite (put_bytes_ext _ _ _ _ _ (B1 p Hp')). replace (off + m) with (off + Z.of_nat (length bs0)) by lia.
    rewrite put_bytes_app. f_equal. unfold bs0.
    replace (Z.to_nat (tot + m)) with (Z.to_nat tot + Z.to_nat m)%nat by lia. rewrite <- slice_app. f_equal. lia.
  - intros bn Hbn _. destruct (decide (bn = off / 512)) as [->|Hne].
    + rewrite (wr_slot _ _ _ _ (wg_wrote _ _ _ _ _ _ _ W2)); [done|Z.div_mod_to_equations; lia|done].
    + apply S2; [Z.div_mod_to_equations; lia|Z.div_mod_to_equations; lia].
  - intros Hall. assert (x1 = x) as -> by (apply X1, Hall; Z.div_mod_to_equations; lia). apply X2. intros bn Hbn.
    assert (off / 512 <= bn <= (off + (n - tot) - 1) / 512) by (Z.div_mod_to_equations; lia).
    rewrite (wr_slot _ _ _ _ Wr1); [by apply Hall|Z.div_mod_to_equations; lia|by apply Hall].
Qed.
End rw.
