(* ===== verification/FsRw.v ===== *)
(** * Reading and writing files

    What [readi] and [writei] do to the bytes of a file, and that the inode on
    the disk follows. *)

From Stdlib Require Import ZArith Lia.
From stdpp Require Import base numbers strings gmap list.
From S2P Require Import Prelude.
From S2P Require Import Machine.
From S2P Require Import FState.
From S2P Require Import Blocks.
From S2P Require Import Bio.
From S2P Require Import Log.
From S2P Require Import LogSpec.
From S2P Require Import Tx.
From S2P Require Import Fs.
From S2P Require Import FsAlloc.
From S2P Require Import FsData.

Local Open Scope string_scope.
Local Open Scope list_scope.
Local Open Scope Z_scope.

(** ** Inodes on the disk *)

Lemma of_le_le16_mod v : of_le (le16 v) = v mod 65536.
Proof.
  unfold of_le, le16. simpl. rewrite Z.add_0_r. replace 65536 with (256 * 256) by lia. rewrite Z.rem_mul_r by lia. lia.
Qed.

Lemma get16_put16_mod off v d : (off + 2 <= length d)%nat -> get16 (put16 off v d) off = v mod 65536.
Proof. intros Hd. unfold get16, put16. rewrite (slice_splice_eq off (le16 v)) by done. apply of_le_le16_mod. Qed.

Lemma i16_mod v : -32768 <= v < 32768 -> i16 (v mod 65536) = v.
Proof.
  intros Hv. unfold i16. rewrite Z.mod_mod by lia. destruct (decide (0 <= v)).
  - rewrite Z.mod_small by lia. destruct (Z.ltb_spec v 32768); lia.
  - replace (v mod 65536) with (v + 65536); [destruct (Z.ltb_spec (v + 65536) 32768); lia|].
    symmetry. rewrite <- (Z.mod_add v 1 65536) by lia. apply Z.mod_small. lia.
Qed.

Lemma slice_put32s_before off vs d off' n :
  (off + 4 * length vs <= length d)%nat -> (off' + n <= off)%nat -> slice off' n (put32s off vs d) = slice off' n d.
Proof.
  revert off d. induction vs as [|v vs IH]; intros off d H Ho; [done|]. simpl in *.
  rewrite IH; [|rewrite length_put32; lia|lia]. unfold put32. apply slice_splice_ne; simpl; lia.
Qed.

Lemma slice_put32s_after off vs d off' n :
  (off + 4 * length vs <= length d)%nat -> (off + 4 * length vs <= off')%nat -> slice off' n (put32s off vs d) = slice off' n d.
Proof.
  revert off d. induction vs as [|v vs IH]; intros off d H Ho; [done|]. simpl in *.
  rewrite IH; [|rewrite length_put32; lia|lia]. unfold put32. apply slice_splice_ne; simpl; lia.
Qed.

(** The fields fit into their types. *)
Definition short (v : Z) : Prop := -32768 <= v < 32768.
Record fits (x : inode) : Prop := {
  ft_type : short (i_type x); ft_major : short (i_major x); ft_minor : short (i_minor x); ft_nlink : short (i_nlink x);
  ft_size : 0 <= i_size x < two32; ft_len : length (i_addrs x) = 13%nat; ft_addrs : Forall (fun a => 0 <= a < two32) (i_addrs x) }.

Lemma length_put16 off v d : (off + 2 <= length d)%nat -> length (put16 off v d) = length d.
Proof. intros H. unfold put16. by rewrite length_splice. Qed.

(** The steps of [put_dinode]. *)
Ltac dinode_steps x o d :=
  unfold put_dinode;
  set (d1 := put16 o (i_type x) d); assert (length d1 = length d) by (apply length_put16; lia);
  set (d2 := put16 (o + 2) (i_major x) d1); assert (length d2 = length d1) by (apply length_put16; lia);
  set (d3 := put16 (o + 4) (i_minor x) d2); assert (length d3 = length d2) by (apply length_put16; lia);
  set (d4 := put16 (o + 6) (i_nlink x) d3); assert (length d4 = length d3) by (apply length_put16; lia);
  set (d5 := put32 (o + 8) (i_size x) d4); assert (length d5 = length d4) by (apply length_put32; lia).

Lemma length_put_dinode o x d : (o + 64 <= length d)%nat -> length (i_addrs x) = 13%nat -> length (put_dinode o x d) = length d.
Proof. intros Ho Hl. dinode_steps x o d. rewrite length_put32s; lia. Qed.

Lemma get16_ne off off' v d : (off + 2 <= length d)%nat -> (off' + 2 <= off \/ off + 2 <= off')%nat -> get16 (put16 off v d) off' = get16 d off'.
Proof. intros Hd Ho. unfold get16, put16. by rewrite slice_splice_ne. Qed.
Lemma get16_put32_ne off off' v d : (off + 4 <= length d)%nat -> (off' + 2 <= off)%nat -> get16 (put32 off v d) off' = get16 d off'.
Proof. intros Hd Ho. unfold get16, put32. rewrite slice_splice_ne; [done|done|by left]. Qed.
Lemma get16_put32s off vs d off' : (off + 4 * length vs <= length d)%nat -> (off' + 2 <= off)%nat -> get16 (put32s off vs d) off' = get16 d off'.
Proof. intros Hd Ho. unfold get16. by rewrite slice_put32s_before. Qed.

(** Writing an inode to its place and reading it back. *)
Lemma dinode_roundtrip o x d : (o + 64 <= length d)%nat -> fits x -> get_dinode o (put_dinode o x d) x = x.
Proof.
  intros Ho [F1 F2 F3 F4 F5 F6 F7]. dinode_steps x o d. unfold get_dinode. rewrite !get16_put32s by lia.
  unfold d5. rewrite !get16_put32_ne by lia. fold d5.
  assert (get16 d4 (o + 6) = i_nlink x mod 65536) as -> by (apply get16_put16_mod; lia).
  unfold d4. rewrite !(get16_ne (o + 6)) by lia. fold d4.
  assert (get16 d3 (o + 4) = i_minor x mod 65536) as -> by (apply get16_put16_mod; lia).
  unfold d3. rewrite !(get16_ne (o + 4)) by lia. fold d3.
  assert (get16 d2 (o + 2) = i_major x mod 65536) as -> by (apply get16_put16_mod; lia).
  unfold d2. rewrite !(get16_ne (o + 2)) by lia. fold d2.
  assert (get16 d1 o = i_type x mod 65536) as -> by (apply get16_put16_mod; lia).
  rewrite !i16_mod by done. rewrite get32_put32s_before by lia.
  assert (get32 d5 (o + 8) = i_size x) as -> by (apply get32_put32; [done|lia]).
  rewrite <- F6, get32s_put32s by (done || lia). by destruct x.
Qed.

(** Only the 64 bytes of the inode change. *)
Lemma slice_put_dinode o x d off n :
  (o + 64 <= length d)%nat -> length (i_addrs x) = 13%nat -> (off + n <= o \/ o + 64 <= off)%nat -> slice off n (put_dinode o x d) = slice off n d.
Proof.
  intros Ho Hl Hn. dinode_steps x o d.
  assert (slice off n (put32s (o + 12) (i_addrs x) d5) = slice off n d5) as ->.
  { destruct Hn; [apply slice_put32s_before|apply slice_put32s_after]; lia. }
  transitivity (slice off n d4); [apply slice_splice_ne; simpl; lia|]. transitivity (slice off n d3); [apply slice_splice_ne; simpl; lia|].
  transitivity (slice off n d2); [apply slice_splice_ne; simpl; lia|]. transitivity (slice off n d1); [apply slice_splice_ne; simpl; lia|].
  apply slice_splice_ne; simpl; lia.
Qed.

(** The block of an inode, and the inode in it. *)
Definition iblock (s : fstate) (x : inode) : Z := IBLOCK (i_inum x) (f_sb s).
Definition synced (s : fstate) (x : inode) : Prop := get_dinode (dip_at (i_inum x)) (view s (iblock s x)) x = x.

Lemma dip_at_le inum : (dip_at inum + 64 <= 512)%nat.
Proof. unfold dip_at. change IPB with 8. pose proof (Z.mod_pos_bound inum 8 ltac:(lia)). lia. Qed.

Lemma iupdate_run ip s x bs :
  tx [] s bs -> f_inodes s !! ip = Some x -> i_dev x = 1 -> fits x -> data_block s (iblock s x) -> (length bs < 29)%nat ->
  exists s', iupdate ip s = Ret tt s' /\ tx [] s' (log_add (iblock s x) bs) /\ frame s s' /\ synced s' x /\
    (forall b, b <> iblock s x -> view s' b = view s b) /\
    (forall off n, (off + n <= dip_at (i_inum x) \/ dip_at (i_inum x) + 64 <= off)%nat ->
       slice off n (view s' (iblock s x)) = slice off n (view s (iblock s x))).
Proof.
  intros T Hx Hd Hf Hb Hl. unfold iupdate. mstep (geti_run _ _ _ Hx). rewrite bind_gets, Hd. fold (iblock s x). set (ib := iblock s x) in *.
  assert (Hlen : length (view s ib) = 512%nat) by (eapply view_length; [apply T|apply Hb]). pose proof (dip_at_le (i_inum x)) as Ho.
  destruct (tx_bread [] s bs ib T) as (i & s1 & R1 & T1 & Hh1 & V1 & F1 & _ & _); [apply Hb|apply not_held_nil|simpl; lia|]. mstep R1. mstep (bdata_run _ _ _ _ Hh1).
  destruct (tx_finish [] s1 bs i ib _ (put_dinode (dip_at (i_inum x)) x (view s ib)) T1 Hh1) as (s2 & _ & R2 & T2 & V2 & F2 & _);
    [by apply (data_block_frame s s1)|rewrite length_put_dinode; [done|lia|apply Hf]|done|].
  assert (F : frame s s2) by by etransitivity. exists s2. split; [done|]. split; [done|]. split; [done|]. split; [|split].
  - unfold synced, iblock. rewrite (fr_sb _ _ F). fold ib. fold (iblock s x). change (iblock s x) with ib. rewrite V2, decide_True by done.
    apply dinode_roundtrip; [lia|done].
  - intros b Hne. by rewrite V2, decide_False, V1.
  - intros off n Hn. rewrite V2, decide_True by done. apply slice_put_dinode; [lia|apply Hf|done].
Qed.

(** ** Reading *)

(** The cache has room: the dirty blocks are [bs]. *)
Record rd (s : fstate) (bs : list Z) : Prop := {
  rd_bio : bio_inv [] s;
  rd_dirty : forall b, dirty_block s b <-> b ∈ bs;
  rd_room : (length bs < 30)%nat }.

Lemma tx_rd s bs : tx [] s bs -> rd s bs.
Proof. intros T. split; [apply T|apply T|]. pose proof (tx_le _ _ _ T). lia. Qed.

(** Only the cache changes, and not what it holds. *)
Definition peeked (s s' : fstate) : Prop := same_but_cache s s' /\ forall b, view s' b = view s b.

#[export] Instance peeked_preorder : PreOrder peeked.
Proof.
  split; [by intros s|]. intros s1 s2 s3 [(A1 & A2 & A3 & A4 & A5 & A6 & A7 & A8 & A9) A] [(B1 & B2 & B3 & B4 & B5 & B6 & B7 & B8 & B9) B].
  split; [|intros b; by rewrite B]. repeat split; congruence.
Qed.

Lemma peek_run s bs b :
  rd s bs -> 0 <= b < f_disksize s ->
  exists i s1 s2, bread 1 b s = Ret i s1 /\ bdata i s1 = Ret (view s b) s1 /\ brelse i s1 = Ret tt s2 /\ rd s2 bs /\ peeked s s2.
Proof.
  intros [H D Hl] Hb. destruct (bread_run [] s b H Hb) as (i & s1 & R1 & _ & H1 & Hh & V1 & D1 & C1 & _).
  { intros j d Hj. by apply elem_of_nil in Hj. }
  { left. eapply capacity; [done|exists bs; split; [done|]; intros b'; apply D|simpl; lia]. }
  pose proof Hh as (y & Hy & _). destruct (brelse_run [] s1 i y H1 Hy) as (s2 & R2 & H2 & V2 & D2 & C2 & _).
  exists i, s1, s2. split; [done|]. split; [by eapply bdata_run|]. split; [done|]. split.
  - split; [done| |done]. intros b'. rewrite (D2 b'), (D1 b'). apply D.
  - transitivity s1; by split.
Qed.

Lemma bmap_peek ip s x bs bn :
  rd s bs -> inode_ok s x -> f_inodes s !! ip = Some x -> 0 <= bn < 140 -> slot (view s) x bn <> 0 ->
  exists s', bmap ip bn s = Ret (slot (view s) x bn) s' /\ rd s' bs /\ peeked s s'.
Proof.
  intros H O Hx Hbn Hne. unfold bmap. mstep (geti_run _ _ _ Hx). change NDIRECT with 12. change NINDIRECT with 128.
  revert Hne. unfold slot, addr_at. destruct (Z.eqb_spec bn 140); [lia|]. destruct (Z.ltb_spec bn 12).
  - destruct (lookup_lt_is_Some_2 (i_addrs x) (Z.to_nat bn)) as [a Ha]; [rewrite (ik_len _ _ O); lia|]. rewrite Ha. simpl. intros Hne.
    assert (Hz : zget (i_addrs x) bn = Some a) by (apply zget_Some; split; [lia|done]). rewrite Hz, bind_some.
    destruct (Z.eqb_spec a 0); [done|]. exists s. split; [done|]. split; [done|]. done.
  - destruct (Z.ltb_spec (bn - 12) 128); [|lia]. destruct (Z.eqb_spec (ind_addr x) 0) as [|Hi]; [done|]. intros Hne.
    assert (Hz : zget (i_addrs x) 12 = Some (ind_addr x)).
    { apply zget_Some. split; [lia|]. change (Z.to_nat 12) with 12%nat. unfold ind_addr. destruct (lookup_lt_is_Some_2 (i_addrs x) 12) as [a ->]; [rewrite (ik_len _ _ O); lia|done]. }
    rewrite Hz, bind_some. destruct (Z.eqb_spec (ind_addr x) 0); [done|]. rewrite bind_mret. rewrite (ik_dev _ _ O).
    destruct (ik_good _ _ O 140 ltac:(lia) Hi) as (_ & [Hr _] & _). rewrite slot_ind in Hr.
    destruct (peek_run s bs (ind_addr x) H Hr) as (i & s1 & s2 & R1 & R2 & R3 & H2 & P2). mstep R1. mstep R2.
    destruct (Z.eqb_spec (get32 (view s (ind_addr x)) (Z.to_nat (4 * (bn - 12)))) 0); [done|]. rewrite bind_mret. mstep R3. by exists s2.
Qed.

Definition fbytes (v : Z -> list Z) (x : inode) (off n : Z) : list Z := fbyte v x <$> seqZ off n.

Lemma slice_blk v x off m :
  0 <= off -> 0 <= m -> off mod 512 + m <= 512 -> length (blk v x (off / 512)) = 512%nat ->
  slice (Z.to_nat (off mod 512)) (Z.to_nat m) (blk v x (off / 512)) = fbytes v x off m.
Proof.
  intros Ho Hm Hs Hl. pose proof (Z.mod_pos_bound off 512 ltac:(lia)). apply list_eq. intros i. rewrite lookup_slice. unfold fbytes. rewrite list_lookup_fmap.
  destruct (decide (i < Z.to_nat m)%nat).
  - rewrite lookup_seqZ_lt by lia. simpl. unfold fbyte. assert (E : (off + Z.of_nat i) / 512 = off / 512) by (Z.div_mod_to_equations; lia).
    assert (E2 : (off + Z.of_nat i) mod 512 = off mod 512 + Z.of_nat i) by (Z.div_mod_to_equations; lia). rewrite E, E2.
    destruct (lookup_lt_is_Some_2 (blk v x (off / 512)) (Z.to_nat (off mod 512) + i)) as [b Hb]; [lia|]. rewrite Hb.
    replace (Z.to_nat (off mod 512 + Z.of_nat i)) with (Z.to_nat (off mod 512) + i)%nat by lia. by rewrite Hb.
  - rewrite lookup_seqZ_ge by lia. done.
Qed.

Lemma fbytes_app v x off m n : 0 <= m -> 0 <= n -> fbytes v x off m ++ fbytes v x (off + m) n = fbytes v x off (m + n).
Proof. intros Hm Hn. unfold fbytes. rewrite <- fmap_app, <- seqZ_app by done. done. Qed.

Section rw.
Context `{DW : Devsw}.

Lemma readi_loop_run fuel ip s0 s x bs off n tot acc :
  inode_ok s0 x -> f_inodes s0 !! ip = Some x -> i_size x <= 71680 -> (forall bn, 0 <= bn -> 512 * bn < i_size x -> slot (view s0) x bn <> 0) -> bio_inv [] s0 ->
  rd s bs -> peeked s0 s -> 0 <= off -> 0 <= tot <= n -> off + (n - tot) <= i_size x -> (Z.to_nat (n - tot) <= fuel)%nat ->
  exists s', readi_loop fuel ip off n tot acc s = Ret (acc ++ fbytes (view s0) x off (n - tot)) s' /\ rd s' bs /\ peeked s0 s'.
Proof.
  intros O Hx Hmax Hholes Hbio. revert s off tot acc. induction fuel as [|fuel IH]; intros s off tot acc H Hpk Hoff Ht Hsz Hfuel; cbn [readi_loop].
  { destruct (Z.ltb_spec tot n); [lia|]. exists s. replace (n - tot) with 0 by lia. by rewrite app_nil_r. }
  destruct (Z.ltb_spec tot n) as [Hlt|]; [|exists s; replace (n - tot) with 0 by lia; by rewrite app_nil_r].
  pose proof (Z.mod_pos_bound off 512 ltac:(lia)) as Hom. pose proof Hpk as [(C1 & C2 & C3 & C4 & C5 & C6 & _) V].
  assert (Hxs : f_inodes s !! ip = Some x) by by rewrite C6. mstep (geti_run _ _ _ Hxs). change BSIZE with 512.
  assert (Hbn : 0 <= off / 512 < 140) by (Z.div_mod_to_equations; lia).
  assert (Hs0 : slot (view s0) x (off / 512) <> 0) by (apply Hholes; Z.div_mod_to_equations; lia).
  assert (Hslot : slot (view s) x (off / 512) = slot (view s0) x (off / 512)) by apply slot_ext, V.
  assert (Os : inode_ok s x).
  { destruct O as [O1 O2 O3 O4]. assert (Hs : forall k, slot (view s) x k = slot (view s0) x k) by (intros k; apply slot_ext, V). split; try done.
    - intros k Hk. rewrite Hs. intros Hne. destruct (O3 k Hk Hne) as (G1 & G2 & G3 & G4). unfold good, data_block, bb, used in *. by rewrite C3, C4, C5, V.
    - intros k k' Hk Hk'. rewrite !Hs. by apply O4. }
  destruct (bmap_peek ip s x bs (off / 512) H Os Hxs Hbn) as (s1 & R1 & H1 & P1); [by rewrite Hslot|]. mstep R1. rewrite (ik_dev _ _ O), Hslot.
  set (a := slot (view s0) x (off / 512)) in *. assert (Hpk1 : peeked s0 s1) by by etransitivity.
  destruct (ik_good _ _ O (off / 512) ltac:(lia) Hs0) as (_ & [Har _] & _). fold a in Har.
  destruct (peek_run s1 bs a H1) as (i & s2 & s3 & Q1 & Q2 & Q3 & H3 & P3); [by rewrite (proj1 (proj2 (proj2 (proj1 Hpk1))))|].
  mstep Q1. mstep Q2. mstep Q3. set (m := Z.min (n - tot) (512 - off mod 512)). rewrite (proj2 Hpk1 a).
  rewrite u32_id by (unfold two32; lia).
  destruct (IH s3 (off + m) (tot + m) (acc ++ slice (Z.to_nat (off mod 512)) (Z.to_nat m) (view s0 a))) as (s4 & R4 & H4 & P4);
    [done|by etransitivity|lia|lia|lia|lia|].
  exists s4. split; [|done]. rewrite R4. f_equal. rewrite <- app_assoc. f_equal.
  assert (Hblk : view s0 a = blk (view s0) x (off / 512)) by (unfold blk; fold a; by destruct (Z.eqb_spec a 0)).
  rewrite Hblk, slice_blk; [|lia|lia|lia|by eapply blk_length; [done|done|lia]]. rewrite fbytes_app by lia. f_equal. lia.
Qed.

(** A regular file or a directory: the inode is in the cache and on the disk, and
    every block below its size is allocated. *)
Record file_ok (s : fstate) (ip : nat) (x : inode) : Prop := {
  fo_inode : f_inodes s !! ip = Some x;
  fo_ok : inode_ok s x;
  fo_lay : layout s;
  fo_type : i_type x <> T_DEV;
  fo_fits : fits x;
  fo_size : i_size x <= 71680;
  fo_holes : forall bn, 0 <= bn -> 512 * bn < i_size x -> slot (view s) x bn <> 0;
  fo_ib : good s (iblock s x) /\ 0 < iblock s x;
  fo_ibne : forall k, 0 <= k <= 140 -> slot (view s) x k <> iblock s x;
  fo_sync : synced s x }.

Lemma u32_wraps off n : 0 <= off < two32 -> 0 <= n < two32 -> (u32 (off + n) <? off) = bool_decide (two32 <= off + n).
Proof.
  intros Hoff Hn. unfold u32. case_bool_decide; [apply Z.ltb_lt|apply Z.ltb_ge].
  - rewrite <- (Z.mod_add (off + n) (-1) two32) by done. rewrite Z.mod_small; lia.
  - rewrite Z.mod_small; lia.
Qed.

Lemma readi_run ip s x bs off n :
  rd s bs -> file_ok s ip x -> 0 <= off < two32 -> 0 <= n < two32 ->
  if bool_decide (i_size x < off \/ two32 <= off + n) then readi ip off n s = Ret (-1, []) s
  else let m := Z.min n (i_size x - off) in
       exists s', readi ip off n s = Ret (m, fbytes (view s) x off m) s' /\ rd s' bs /\ peeked s s'.
Proof.
  intros H [A1 A2 A3 A4 A5 A6 A7 A8 A9 A10] Hoff Hn. unfold readi. mstep (geti_run _ _ _ A1). destruct (Z.eqb_spec (i_type x) T_DEV); [done|].
  rewrite (u32_wraps off n Hoff Hn). destruct (Z.ltb_spec (i_size x) off).
  { rewrite bool_decide_eq_true_2 by (by left). done. }
  destruct (decide (two32 <= off + n)) as [E1|E1]; [rewrite !bool_decide_eq_true_2 by tauto; done|]. rewrite !bool_decide_eq_false_2 by lia. cbn [orb].
  rewrite u32_id by lia. cbv zeta.
  assert (Em : (if i_size x <? off + n then i_size x - off else n) = Z.min n (i_size x - off)) by (destruct (Z.ltb_spec (i_size x) (off + n)); lia). rewrite Em.
  destruct (readi_loop_run (Z.to_nat (Z.min n (i_size x - off))) ip s s x bs off (Z.min n (i_size x - off)) 0 []) as (s' & R & H' & P'); try done; try lia; [apply H|].
  exists s'. mstep R. rewrite Z.sub_0_r. done.
Qed.

(** After the loop of [writei] the inode block is as before, and not a block of
    the file. *)
Lemma wrote_iblock ip s x s1 x1 :
  file_ok s ip x -> wrote s x s1 x1 ->
  iblock s1 x1 = iblock s x /\ good s1 (iblock s x) /\ view s1 (iblock s x) = view s (iblock s x) /\
  (forall k, 0 <= k <= 140 -> slot (view s1) x1 k <> iblock s x).
Proof.
  intros [A1 A2 A3 A4 A5 A6 A7 [A8 A8'] A9 A10] [B1 B2 B3 B4 B5 B6 B7 B8]. pose proof A8 as (G1 & G2 & G3 & G4). pose proof B8 as (_ & Esb & _).
  split; [unfold iblock; rewrite Esb, B3; done|]. split; [eapply good_used; [done| |done]; by apply B7|]. split; [apply B6; (done || lia)|].
  intros k Hk E. destruct (decide (slot (view s) x k = 0)) as [E0|E0].
  - rewrite <- E in G3. rewrite B5 in G3; [done|done|done|]. lia.
  - apply (A9 k Hk). by rewrite <- B4.
Qed.

Lemma inode_ok_fits s x y :
  inode_ok s x -> f_disksize s < two32 -> fits y -> i_type x = i_type y -> i_major x = i_major y -> i_minor x = i_minor y -> i_nlink x = i_nlink y ->
  0 <= i_size x < two32 -> fits x.
Proof.
  intros O Hz [F1 F2 F3 F4 F5 F6 F7] E1 E2 E3 E4 E5. split; try congruence; [apply O|]. apply Forall_lookup. intros k a Ha.
  pose proof (lookup_lt_Some _ _ _ Ha) as Hlt. rewrite (ik_len _ _ O) in Hlt. destruct (decide (a = 0)) as [->|Hne]; [done|].
  set (k' := if decide (k = 12)%nat then 140 else Z.of_nat k). assert (Hs : slot (view s) x k' = a).
  { unfold k', slot, addr_at, ind_addr. destruct (decide (k = 12%nat)) as [->|]; [simpl; by rewrite Ha|].
    destruct (Z.eqb_spec (Z.of_nat k) 140); [lia|]. destruct (Z.ltb_spec (Z.of_nat k) 12); [|lia]. by rewrite Nat2Z.id, Ha. }
  destruct (ik_good _ _ O k') as (_ & [Hr _] & _); [unfold k'; destruct (decide _); lia|congruence|]. rewrite Hs in Hr. unfold two32 in *. lia.
Qed.

(** The end of [writei] when the file has grown. *)
Lemma writei_grow ip s x bs s1 x1 bs1 sz :
  file_ok s ip x -> writing ip s x bs s1 x1 bs1 -> i_size x <= sz <= 71680 ->
  (forall bn, 0 <= bn -> 512 * bn < sz -> slot (view s1) x1 bn <> 0) -> (length bs1 < 29)%nat ->
  exists s3 bs3, (updi ip (set_i_size sz);; iupdate ip) s1 = Ret tt s3 /\ tx [] s3 bs3 /\ file_ok s3 ip (set_i_size sz x1) /\
    (forall k, 0 <= k <= 140 -> slot (view s3) (set_i_size sz x1) k = slot (view s1) x1 k) /\
    (forall p, 0 <= p < 71680 -> fbyte (view s3) (set_i_size sz x1) p = fbyte (view s1) x1 p) /\
    (forall b, b <> iblock s x -> view s3 b = view s1 b) /\ frame (seti ip (set_i_size sz x1) s1) s3 /\ bs3 = log_add (iblock s x) bs1 /\ nfree s3 = nfree s1 /\
    (forall b, 0 <= b < sb_size (f_sb s) -> used (view s3) (f_sb s) b = used (view s1) (f_sb s) b).
Proof.
  intros F W Hsz Hholes Hl. pose proof F as [A1 A2 A3 A4 A5 A6 A7 [A8 A8'] A9 A10]. pose proof W as [T1 Wr1 F1 Lg1].
  destruct (wrote_iblock ip s x s1 x1 F Wr1) as (Eib & Gib & Vib & Nib). pose proof (writing_inode _ _ _ _ _ _ _ A1 W) as Hx1.
  pose proof (wr_rest _ _ _ _ Wr1) as Er. pose proof (wr_ok _ _ _ _ Wr1) as O1. assert (Hz := tx_size _ _ _ T1).
  set (x2 := set_i_size sz x1). set (s2 := seti ip x2 s1). mstep (updi_run s1 ip x1 (set_i_size sz) Hx1). fold x2. fold s2.
  assert (Hx2 : f_inodes s2 !! ip = Some x2) by (simpl; apply list_lookup_insert_eq; by eapply lookup_lt_Some).
  assert (O2 : inode_ok s1 x2) by (destruct O1; by split).
  assert (Hft : fits x2).
  { eapply (inode_ok_fits s1 x2 x O2 Hz A5); simpl; try (by rewrite Er). destruct A5. unfold two32. lia. }
  assert (Eib2 : iblock s2 x2 = iblock s x) by exact Eib.
  destruct (iupdate_run ip s2 x2 bs1) as (s3 & R3 & T3 & F3 & Y3 & V3 & _); [by apply tx_seti|done|apply O2|done|rewrite Eib2; apply Gib|done|].
  rewrite Eib2 in *. exists s3, (log_add (iblock s x) bs1). split; [done|]. split; [done|].
  assert (Hv : forall b, b <> iblock s x -> view s3 b = view s1 b) by (intros b Hb; by rewrite V3).
  assert (Hs : forall k, 0 <= k <= 140 -> slot (view s3) x2 k = slot (view s1) x1 k).
  { intros k Hk. transitivity (slot (view s1) x2 k); [|done]. destruct (decide (ind_addr x2 = 0)) as [E|E].
    - unfold slot, addr_at. by rewrite E.
    - apply slot_ext, Hv. apply (Nib 140). lia. }
  pose proof (frame_dframe _ _ F3) as D3. assert (Vbb : view s3 (bb s1) = view s1 (bb s1)).
  { apply Hv. intros E. destruct Gib as (_ & _ & _ & G). by apply G. }
  assert (D13 : dframe s1 s3) by exact D3. assert (Eib3 : iblock s3 x2 = iblock s x) by (unfold iblock; rewrite (proj1 (proj2 D13)); exact Eib).
  split; [|split; [done|split; [|split; [done|split; [done|split; [done|split; [apply nfree_bits; try done; apply Wr1|]]]]]]].
  - split; try done.
    + by rewrite (fr_inodes _ _ F3).
    + apply (inode_ok_bits s1 s3); try done. apply Wr1.
    + apply (layout_bits s1 s3); try done. apply Wr1.
    + unfold x2. rewrite Er. done.
    + simpl. lia.
    + intros bn H0 Hb. simpl in Hb. rewrite Hs by lia. by apply Hholes.
    + rewrite Eib3. split; [|done]. eapply good_used; [done| |done]. intros Hu. rewrite (used_bits s1 s3); [done|apply Wr1|done|done|].
      rewrite (proj1 (proj2 (wr_frame _ _ _ _ Wr1))). apply A8.
    + intros k Hk. rewrite Hs, Eib3 by done. by apply Nib.
  - intros p Hp. unfold fbyte, blk. assert (0 <= p / 512 <= 139) by (Z.div_mod_to_equations; lia). rewrite Hs by lia.
    destruct (Z.eqb_spec (slot (view s1) x1 (p / 512)) 0); [done|]. rewrite Hv; [done|]. apply Nib. lia.
  - pose proof (proj1 (proj2 (wr_frame _ _ _ _ Wr1))) as Esb. intros b. rewrite <- Esb. intros Hb. apply (used_bits s1 s3); try done. apply Wr1.
Qed.

Lemma wrote_slots s x s' x' k :
  wrote s x s' x' -> 0 <= k <= 140 -> slot (view s') x' k <> 0 ->
  slot (view s') x' k = slot (view s) x k \/ used (view s) (f_sb s) (slot (view s') x' k) = false.
Proof.
  intros W Hk Hne. destruct (decide (slot (view s) x k = 0)) as [E|E]; [right; by apply (wr_new _ _ _ _ W)|left; by apply (wr_slot _ _ _ _ W)].
Qed.

Lemma noind_le x : (noind x <= 1)%nat.
Proof. unfold noind. destruct (decide _); lia. Qed.

Lemma writei_run ip s x bs src off n :
  tx [] s bs -> file_ok s ip x -> 0 <= off < two32 -> 0 <= n < two32 -> n <= Z.of_nat (length src) ->
  if bool_decide (i_size x < off \/ 71680 < off + n) then writei ip src off n s = Ret (-1) s
  else (length bs + nblocks off n <= 22)%nat -> (nblocks off n + noind x <= nfree s)%nat ->
    exists s' x' bs', writei ip src off n s = Ret n s' /\ tx [] s' bs' /\ file_ok s' ip x' /\ i_size x' = Z.max (i_size x) (off + n) /\
      (forall p, 0 <= p < 71680 -> fbyte (view s') x' p = put_bytes (fbyte (view s) x) off (take (Z.to_nat n) src) p) /\
      (forall b, 0 < b < sb_size (f_sb s) -> used (view s) (f_sb s) b = true -> b <> bb s -> b <> iblock s x ->
         (forall k, 0 <= k <= 140 -> slot (view s) x k <> b) -> view s' b = view s b) /\
      frame (seti ip x' s) s' /\
      (forall b, b ∈ bs' -> b ∈ bs \/ b = bb s \/ b = iblock s x \/ (b <> 0 /\ exists k, 0 <= k <= 140 /\ slot (view s') x' k = b)) /\
      (forall k, 0 <= k <= 140 -> slot (view s') x' k <> 0 -> slot (view s') x' k = slot (view s) x k \/ used (view s) (f_sb s) (slot (view s') x' k) = false) /\
      x' = set_i_size (i_size x') (set_i_addrs (i_addrs x') x) /\ (nfree s + noind x' <= nfree s' + noind x + nblocks off n)%nat /\
      (forall b, 0 <= b < sb_size (f_sb s) -> used (view s) (f_sb s) b = true -> used (view s') (f_sb s) b = true).
Proof.
  intros T F Hoff Hn Hsrc. pose proof F as [A1 A2 A3 A4 A5 A6 A7 A8 A9 A10]. unfold writei. mstep (geti_run _ _ _ A1). destruct (Z.eqb_spec (i_type x) T_DEV); [done|].
  destruct (Z.ltb_spec (i_size x) off). { rewrite bool_decide_eq_true_2 by (by left). done. }
  rewrite (u32_wraps off n Hoff Hn). destruct (decide (two32 <= off + n)) as [E1|E1]. { unfold two32 in *. rewrite !bool_decide_eq_true_2 by lia. done. }
  rewrite (bool_decide_eq_false_2 (two32 <= _)) by done.
  rewrite u32_id by lia. change (MAXFILE * BSIZE) with 71680. cbn [orb]. destruct (Z.ltb_spec 71680 (off + n)).
  { rewrite bool_decide_eq_true_2 by (by right). done. }
  rewrite bool_decide_eq_false_2 by lia. intros Hl Hfr. assert (Hpot : (pot (bb s) (ind_addr x) bs <= length bs + 2)%nat).
  { unfold pot, indicator. repeat destruct (decide _); lia. }
  destruct (writei_loop_run (Z.to_nat n) ip s x bs src off n 0 T A3 A2 A1) as (s1 & x1 & bs1 & R1 & W1 & B1 & S1 & X1 & P1 & N1); rewrite ?Z.sub_0_r in *; try lia.
  mstep R1. pose proof W1 as [T1 Wr1 F1 Lg1]. pose proof (writing_inode _ _ _ _ _ _ _ A1 W1) as Hx1. mstep (geti_run _ _ _ Hx1).
  destruct (wrote_iblock ip s x s1 x1 F Wr1) as (Eib & Gib & Vib & Nib). assert (Esz : i_size x1 = i_size x) by by rewrite (wr_rest _ _ _ _ Wr1).
  assert (Ebb := bb_dframe _ _ (wr_frame _ _ _ _ Wr1)).
  assert (Hslice : slice (Z.to_nat 0) (Z.to_nat n) src = take (Z.to_nat n) src) by done. rewrite Hslice in B1.
  rewrite Esz. destruct (decide (0 < n /\ i_size x < off + n)) as [[Hn0 Hgrow]|Hsame].
  - destruct (Z.ltb_spec 0 n); [|lia]. destruct (Z.ltb_spec (i_size x) (off + n)); [|lia]. cbn [andb].
    pose proof (pot_length (bb s) (ind_addr x1) bs1).
    destruct (writei_grow ip s x bs s1 x1 bs1 (off + n) F W1) as (s3 & bs3 & R3 & T3 & F3 & Hs13 & B3 & V3 & I3 & -> & N3 & U3); [lia| |lia|].
    { intros bn Hbn0 Hb. destruct (decide (512 * bn < i_size x)).
      - rewrite (wr_slot _ _ _ _ Wr1); [by apply A7|lia|by apply A7].
      - apply S1; [Z.div_mod_to_equations; lia|lia]. }
    mstep R3. eexists s3, (set_i_size (off + n) x1), _. split; [done|]. split; [done|]. split; [done|]. split; [simpl; lia|]. split; [|split; [|split; [|split; [|split; [|split; [|split]]]]]].
    + intros p Hp. rewrite B3 by done. by apply B1.
    + intros b Hb Hu Hbb Hib Hk. rewrite V3 by done. by apply (wr_view _ _ _ _ Wr1).
    + by eapply iframe_trans.
    + intros b Hb. apply elem_of_log_add in Hb as [Hb| ->]; [|tauto]. apply Lg1 in Hb as [?|[?|(Hb0 & k & Hk & E)]]; [tauto|rewrite Ebb in *; tauto|].
      right; right; right. split; [done|]. exists k. split; [done|]. rewrite <- E. rewrite (Hs13 k Hk). done.
    + intros k Hk. rewrite (Hs13 k Hk). by apply wrote_slots.
    + rewrite (wr_rest _ _ _ _ Wr1). done.
    + rewrite N3. exact N1.
    + intros b Hb Hu. rewrite U3 by done. by apply (wr_used _ _ _ _ Wr1).
  - replace ((0 <? n) && (i_size x <? off + n)) with false by (destruct (Z.ltb_spec 0 n), (Z.ltb_spec (i_size x) (off + n)); simpl; lia). rewrite bind_mret.
    assert (x1 = x) as ->. { apply X1. intros bn Hbn. apply A7; Z.div_mod_to_equations; lia. }
    exists s1, x, bs1. split; [done|]. split; [done|]. split; [|split; [lia|split; [done|split; [|split; [done|split; [|split; [intros k Hk; by apply wrote_slots|split; [by destruct x|split; [done|apply Wr1]]]]]]]]].
    + split; try done; [apply Wr1|apply Wr1| |split; [by rewrite Eib|rewrite Eib; apply A8]|by rewrite Eib|unfold synced; by rewrite Eib, Vib].
      intros bn Hb0 Hbs. rewrite (wr_slot _ _ _ _ Wr1); [by apply A7|lia|by apply A7].
    + intros b Hb Hu Hbb _ Hk. by apply (wr_view _ _ _ _ Wr1).
    + intros b Hb. apply Lg1 in Hb. rewrite Ebb in Hb. tauto.
Qed.

Lemma put_bytes_in f off bs i : (i < length bs)%nat -> put_bytes f off bs (off + Z.of_nat i) = default 0 (bs !! i).
Proof. intros Hi. unfold put_bytes. rewrite bool_decide_eq_true_2 by lia. do 2 f_equal. lia. Qed.
Lemma put_bytes_out f off bs p : p < off \/ off + Z.of_nat (length bs) <= p -> put_bytes f off bs p = f p.
Proof. intros Hp. unfold put_bytes. rewrite bool_decide_eq_false_2; [done|lia]. Qed.

Lemma fbytes_put v v' x x' off n bs :
  (forall p, 0 <= p < 71680 -> fbyte v' x' p = put_bytes (fbyte v x) off bs p) -> 0 <= off -> n = Z.of_nat (length bs) -> off + n <= 71680 ->
  fbytes v' x' off n = bs.
Proof.
  intros H Hoff -> Hn. apply list_eq. intros i. unfold fbytes. rewrite list_lookup_fmap. destruct (decide (i < length bs)%nat).
  - rewrite lookup_seqZ_lt by lia. simpl. rewrite H by lia. rewrite put_bytes_in by done. by destruct (lookup_lt_is_Some_2 bs i) as [b ->].
  - rewrite lookup_seqZ_ge by lia. symmetry. apply lookup_ge_None_2. lia.
Qed.

Lemma fbytes_other v v' x x' off bs off' n' :
  (forall p, 0 <= p < 71680 -> fbyte v' x' p = put_bytes (fbyte v x) off bs p) -> 0 <= off' -> off' + n' <= 71680 ->
  off' + n' <= off \/ off + Z.of_nat (length bs) <= off' -> fbytes v' x' off' n' = fbytes v x off' n'.
Proof.
  intros H Ho Hn Hd. unfold fbytes. apply list_fmap_ext. intros i p Hp. apply lookup_seqZ in Hp as [-> Hi]. rewrite H by lia. apply put_bytes_out. lia.
Qed.

(** C15. The bytes of a file.  [readi] fails when the offset is past the end or
    wraps around, and else returns the bytes of the file up to its end, and
    changes nothing.  [writei], inside a transaction with enough room in the log
    and enough free blocks, fails when the offset is past the end or the file
    would become too large, and else replaces the bytes at the offset and makes
    the file longer if needed.  Then every block of the file is allocated, the
    inode on the disk is the one in memory, and the blocks in use that are not
    the file's, the bitmap and the block of the inode excepted, are unchanged. *)
Theorem file_content_spec ip s x bs :
  tx [] s bs -> file_ok s ip x ->
  (forall off n, 0 <= off < two32 -> 0 <= n < two32 ->
     if bool_decide (i_size x < off \/ two32 <= off + n) then readi ip off n s = Ret (-1, []) s
     else let m := Z.min n (i_size x - off) in exists s', readi ip off n s = Ret (m, fbytes (view s) x off m) s' /\ peeked s s') /\
  (forall src off n, 0 <= off < two32 -> 0 <= n < two32 -> n <= Z.of_nat (length src) ->
     if bool_decide (i_size x < off \/ 71680 < off + n) then writei ip src off n s = Ret (-1) s
     else (length bs + nblocks off n <= 22)%nat -> (nblocks off n + 1 <= nfree s)%nat ->
       exists s' x' bs', writei ip src off n s = Ret n s' /\ tx [] s' bs' /\ file_ok s' ip x' /\ i_size x' = Z.max (i_size x) (off + n) /\
         (forall p, 0 <= p < 71680 -> fbyte (view s') x' p = put_bytes (fbyte (view s) x) off (take (Z.to_nat n) src) p) /\
         (forall b, 0 < b < sb_size (f_sb s) -> used (view s) (f_sb s) b = true -> b <> bb s -> b <> iblock s x ->
            (forall k, 0 <= k <= 140 -> slot (view s) x k <> b) -> view s' b = view s b)).
Proof.
  intros T F. split.
  - intros off n Hoff Hn. pose proof (readi_run ip s x bs off n (tx_rd _ _ T) F Hoff Hn) as H. case_bool_decide; [done|].
    destruct H as (s' & R & _ & P). by exists s'.
  - intros src off n Hoff Hn Hs. pose proof (writei_run ip s x bs src off n T F Hoff Hn Hs) as H. case_bool_decide; [done|].
    intros Hl Hf. pose proof (noind_le x). destruct (H Hl ltac:(lia)) as (s' & x' & bs' & R & T' & F' & E & B & V & _). by exists s', x', bs'.
Qed.

(** C31. What is written is read back.  After [writei] of [n] bytes at [off], a
    [readi] there returns these bytes, and a [readi] of other bytes of the file
    returns what it did before. *)
Theorem write_then_read ip s x bs src off n :
  tx [] s bs -> file_ok s ip x -> 0 <= off <= i_size x -> 0 <= n -> off + n <= 71680 -> n <= Z.of_nat (length src) ->
  (length bs + nblocks off n <= 22)%nat -> (nblocks off n + 1 <= nfree s)%nat ->
  exists s', writei ip src off n s = Ret n s' /\
    (exists s2, readi ip off n s' = Ret (n, take (Z.to_nat n) src) s2) /\
    (forall off' n', 0 <= off' -> 0 <= n' -> off' + n' <= i_size x -> off' + n' <= off \/ off + n <= off' ->
       exists s1 s2, readi ip off' n' s = Ret (n', fbytes (view s) x off' n') s1 /\ readi ip off' n' s' = Ret (n', fbytes (view s) x off' n') s2).
Proof.
  intros T F Hoff Hn Hmax Hs Hl Hf. pose proof (fo_size _ _ _ F) as Hsz. assert (H32 : 71680 < two32) by done.
  pose proof (writei_run ip s x bs src off n T F ltac:(lia) ltac:(lia) Hs) as H. rewrite bool_decide_eq_false_2 in H by lia.
  pose proof (noind_le x). destruct (H Hl ltac:(lia)) as (s' & x' & bs' & R & T' & F' & E & B & _). exists s'. split; [done|].
  assert (Hlen : n = Z.of_nat (length (take (Z.to_nat n) src))) by (rewrite length_take; lia). split.
  - pose proof (readi_run ip s' x' bs' off n (tx_rd _ _ T') F' ltac:(lia) ltac:(lia)) as Hr. rewrite bool_decide_eq_false_2 in Hr by lia.
    destruct Hr as (s2 & Hr & _). rewrite Z.min_l in Hr by lia. exists s2. by rewrite Hr, (fbytes_put _ _ _ _ _ _ _ B) by lia.
  - intros off' n' Ho' Hn' Hin Hd. pose proof (readi_run ip s x bs off' n' (tx_rd _ _ T) F ltac:(lia) ltac:(lia)) as H1. rewrite bool_decide_eq_false_2 in H1 by lia.
    pose proof (readi_run ip s' x' bs' off' n' (tx_rd _ _ T') F' ltac:(lia) ltac:(lia)) as H2. rewrite bool_decide_eq_false_2 in H2 by lia.
    destruct H1 as (s1 & H1 & _), H2 as (s2 & H2 & _). rewrite Z.min_l in H1, H2 by lia. exists s1, s2. split; [done|].
    rewrite H2, (fbytes_other _ _ _ _ _ _ _ _ B) by lia. done.
Qed.
End rw.

(** The empty file of [fs0]. *)
Lemma ino40_slot v k : 0 <= k <= 140 -> slot v ino40 k = 0.
Proof.
  intros Hk. unfold slot, addr_at. change (ind_addr ino40) with 0. destruct (k =? 140); [done|]. destruct (Z.ltb_spec k 12); [|done].
  change (i_addrs ino40) with (replicate 13 0). by rewrite lookup_replicate_2 by lia.
Qed.

Lemma fs0_layout : layout fs0.
Proof. split; [apply fs0_bitmap|change (0 < 40 <= 4096); lia|by vm_compute]. Qed.

Lemma fs0_iblock : iblock fs0 ino40 = 32.
Proof. by vm_compute. Qed.

Lemma ino40_ok : inode_ok fs0 ino40.
Proof.
  split; [done|done| |].
  - intros k Hk H0. exfalso. apply H0, ino40_slot, Hk.
  - intros k k' Hk _ _ H0. exfalso. apply H0, ino40_slot, Hk.
Qed.

Lemma ino40_fits : fits ino40.
Proof.
  split; [by vm_compute|by vm_compute|by vm_compute|by vm_compute|by vm_compute|done|].
  apply Forall_replicate. split; [lia|by vm_compute].
Qed.

Lemma ino40_block : good fs0 32.
Proof.
  split; [change (0 <= 32 < 40); lia|]. split; [unfold data_block; change (0 <= 32 < 40 /\ ~ (2 <= 32 < 2 + 30)); lia|].
  split; [by vm_compute|done].
Qed.

Lemma ino40_synced : synced fs0 ino40.
Proof. unfold synced. rewrite fs0_iblock, fs0_view. by vm_compute. Qed.

Lemma fs0_file : file_ok fs0 0 ino40.
Proof.
  split; [reflexivity|apply ino40_ok|apply fs0_layout|done|apply ino40_fits|by vm_compute| | | |apply ino40_synced]; rewrite ?fs0_iblock.
  - intros bn H0 H1. change (i_size ino40) with 0 in H1. lia.
  - split; [apply ino40_block|lia].
  - intros k Hk. rewrite ino40_slot by exact Hk. lia.
Qed.

(** A write of three bytes needs one block of the two that are free. *)
Lemma fs0_room : (nblocks 0 3 = 1 /\ nfree fs0 = 2)%nat.
Proof. by vm_compute. Qed.

Lemma file_content_spec_witness : exists s', @writei no_devices 0 [1; 2; 3] 0 3 fs0 = Ret 3 s'.
Proof.
  destruct (@file_content_spec no_devices 0 fs0 ino40 [] fs0_tx fs0_file) as [_ H]. destruct fs0_room as [H1 H2].
  assert (B : forall z, 0 <= z <= 3 -> 0 <= z < two32) by (unfold two32; lia).
  specialize (H [1; 2; 3] 0 3 (B 0 ltac:(lia)) (B 3 ltac:(lia)) (Z.le_refl 3)).
  assert (E : bool_decide (i_size ino40 < 0 \/ 71680 < 0 + 3) = false) by reflexivity. rewrite E, H1, H2 in H.
  destruct H as (s' & _ & _ & H & _); [simpl; lia|simpl; lia|]. exists s'. exact H.
Defined.

Lemma write_then_read_witness :
  exists s' s2, @writei no_devices 0 [1; 2; 3] 0 3 fs0 = Ret 3 s' /\ @readi no_devices 0 0 3 s' = Ret (3, [1; 2; 3]) s2.
Proof.
  pose proof (@write_then_read no_devices 0 fs0 ino40 [] [1; 2; 3] 0 3 fs0_tx fs0_file) as H. destruct fs0_room as [H1 H2]. rewrite H1, H2 in H.
  destruct H as (s' & R & (s2 & R2) & _); [split; [lia|exact (Z.le_refl 0)]|lia|lia|simpl; lia|simpl; lia|simpl; lia|].
  exists s', s2. split; [exact R|exact R2].
Defined.
