(* ===== verification/FsTrunc.v ===== *)
(** * Freeing an inode

    [itrunc] and the branch of [iput] that drops the last reference to an inode
    without links: the blocks of the file go back to the bitmap, and the inode on
    the disk is marked free. *)

From Stdlib Require Import ZArith Lia.
From stdpp Require Import base numbers strings gmap list.
From S2P Require Import Prelude.
From S2P Require Import Machine.
From S2P Require Import FState.
From S2P Require Import Blocks.
From S2P Require Import Bio.
From S2P Require Import Log.
From S2P Require Import LogSpec.
From S2P Require Import Tx.
From S2P Require Import Fs.
From S2P Require Import FsAlloc.
From S2P Require Import FsData.
From S2P Require Import FsRw.

Local Open Scope string_scope.
Local Open Scope list_scope.
Local Open Scope Z_scope.

(** The superblock on the disk is the one in memory, and not in the bitmap. *)
Definition sb_read (s : fstate) : Prop := 1 < f_disksize s /\ decode_sb (view s 1) = f_sb s /\ 1 <> bb s.

(** The blocks of [l] that are not 0 have been freed between [s] and [s']; the
    other blocks are in use or free as before, and only the bitmap was written. *)
Record freed (s s' : fstate) (l : list Z) : Prop := {
  fd_used : forall b, 0 <= b < sb_size (f_sb s) ->
    used (view s') (f_sb s) b = if decide (b ∈ l /\ b <> 0) then false else used (view s) (f_sb s) b;
  fd_view : forall y, y <> bb s -> view s' y = view s y;
  fd_frame : dframe s s';
  fd_layout : layout s' }.

(** The blocks of [l] can be freed one after the other. *)
Definition freeable (s : fstate) (l : list Z) : Prop :=
  (forall i j a, l !! i = Some a -> l !! j = Some a -> a <> 0 -> i = j) /\ Forall (fun a => a <> 0 -> good s a) l.

Lemma freed_nil s : layout s -> freed s s [].
Proof. intros L. by split. Qed.

Lemma freed_seti s s' l ip x : freed s s' l -> freed s (seti ip x s') l.
Proof. intros [A1 A2 A3 A4]. split; [done|done|done|by apply layout_seti]. Qed.

Lemma freed_zero s s' l : freed s s' l -> freed s s' (0 :: l).
Proof.
  intros [A1 A2 A3 A4]. split; try done. intros b Hb. rewrite A1 by done.
  destruct (decide (b ∈ l /\ b <> 0)) as [[H1 H2]|N], (decide (b ∈ 0 :: l /\ b <> 0)) as [[H3 H4]|N']; try done.
  - destruct N'. split; [by right|done].
  - apply elem_of_cons in H3 as [?|?]; [done|]. by destruct N.
Qed.

Lemma freed_app s s1 s2 l1 l2 : freed s s1 l1 -> freed s1 s2 l2 -> freed s s2 (l1 ++ l2).
Proof.
  intros [A1 A2 A3 A4] [B1 B2 B3 B4]. pose proof A3 as (_ & E & _). rewrite E in B1. split; [| |by etransitivity|done].
  - intros b Hb. rewrite B1, A1 by done. destruct (decide (b ∈ l1 ++ l2 /\ b <> 0)) as [[H1 H2]|N].
    + apply elem_of_app in H1 as [H1|H1]; [|by rewrite decide_True]. destruct (decide (b ∈ l2 /\ b <> 0)); [done|]. by rewrite decide_True.
    + rewrite !decide_False; [done|intros [H1 H2]; apply N; split; [|done]; apply elem_of_app; tauto..].
  - intros y Hy. rewrite B2 by (by rewrite (bb_dframe s s1)). by apply A2.
Qed.

Lemma freed_sb s s' l : freed s s' l -> sb_read s -> sb_read s'.
Proof.
  intros [_ A2 A3 _] (H1 & H2 & H3). pose proof A3 as (E1 & E2 & _). unfold sb_read. rewrite E1, E2, (bb_dframe s s'), A2 by done. done.
Qed.

Lemma lookup_app_add (l1 l2 : list Z) j : (l1 ++ l2) !! (length l1 + j)%nat = l2 !! j.
Proof. rewrite lookup_app_r by lia. f_equal. lia. Qed.

Lemma freeable_app s s' l1 l2 : freeable s (l1 ++ l2) -> freed s s' l1 -> freeable s' l2.
Proof.
  intros [H1 H2] [A1 A2 A3 A4]. split.
  - intros i j a Hi Hj Ha. assert (length l1 + i = length l1 + j)%nat; [|lia]. apply (H1 _ _ a); [by rewrite lookup_app_add|by rewrite lookup_app_add|done].
  - apply Forall_app in H2 as [_ H2]. apply Forall_lookup. intros j a Hj Ha. rewrite Forall_lookup in H2. pose proof (H2 j a Hj Ha) as G.
    eapply good_used; [done| |done]. intros Hu. rewrite A1 by apply G. destruct (decide _) as [[Hin _]|]; [|done]. exfalso.
    apply list_elem_of_lookup in Hin as [i Hi]. assert (i = length l1 + j)%nat; [|apply lookup_lt_Some in Hi; lia].
    apply (H1 _ _ a); [by apply lookup_app_l_Some|by rewrite lookup_app_add|done].
Qed.

Lemma freeable_l s l1 l2 : freeable s (l1 ++ l2) -> freeable s l1.
Proof.
  intros [H1 H2]. split; [|by apply Forall_app in H2 as [? _]]. intros i j a Hi Hj. apply H1; by apply lookup_app_l_Some.
Qed.

(** What has been logged: the bitmap block at most. *)
Definition logged_bb (s : fstate) (bs bs' : list Z) : Prop := bs' = bs \/ bs' = log_add (bb s) bs.

Lemma logged_bb_le s bs bs' : logged_bb s bs bs' -> (length bs' <= S (length bs))%nat.
Proof. intros [->| ->]; [lia|]. pose proof (length_log_add (bb s) bs). lia. Qed.

Lemma logged_bb_trans s s1 bs bs1 bs2 : bb s1 = bb s -> logged_bb s bs bs1 -> logged_bb s1 bs1 bs2 -> logged_bb s bs bs2.
Proof.
  unfold logged_bb. intros ->. intros [->| ->] [->| ->]; try tauto. right. by rewrite log_add_old by apply in_log_add.
Qed.

(** ** One block *)
Lemma bfree_good held s bs b :
  tx held s bs -> layout s -> sb_read s -> good s b -> b <> 0 -> not_held held s 1 -> not_held held s (bb s) -> (length bs + length held < 29)%nat ->
  exists s', bfree 1 b s = Ret tt s' /\ tx held s' (log_add (bb s) bs) /\ freed s s' [b] /\ frame s s' /\ keeps held s s'.
Proof.
  intros T L (S1 & S2 & S3) (G1 & G2 & G3 & G4) H0 N1 Nb Hl. pose proof (tx_size _ _ _ T) as Hz.
  pose proof (bfree_run held s bs b T (ly_bm _ L) S1 S2 G1 N1) as R. rewrite (bitmap_block s b L G1), G3 in R.
  destruct (R Nb Hl) as (s' & R' & T' & V & F & K). exists s'. split; [done|]. split; [done|]. split; [|done].
  pose proof (frame_dframe _ _ F) as D. pose proof D as (E1 & E2 & _).
  assert (Hu : forall b', 0 <= b' < sb_size (f_sb s) -> used (view s') (f_sb s) b' = if decide (b' ∈ [b] /\ b' <> 0) then false else used (view s) (f_sb s) b').
  { intros b' Hb'. transitivity (used (free_view (f_sb s) b (view s)) (f_sb s) b'); [unfold used; by rewrite V|].
    rewrite (used_free held s b b' (ly_bm _ L) Hz (tx_bio _ _ _ T) G1 Hb'). destruct (Z.eqb_spec b b') as [->|Hne]; cbn [negb andb].
    - rewrite decide_True; [done|]. split; [by left|done].
    - rewrite decide_False; [done|]. rewrite list_elem_of_singleton. intros [-> _]. done. }
  split; [done| |done|].
  - intros y Hy. rewrite V. unfold free_view. rewrite (bb_BBLOCK s b L Hz G1), decide_False; done.
  - destruct (ly_bm _ L) as [A1 A2 A3 A4]. split; [split|by rewrite E2; apply L|].
    + by rewrite E1, E2.
    + by rewrite E2.
    + intros b' Hb'. rewrite E2 in *. apply (data_block_dframe s s'); [done|by apply A3].
    + intros b' Hb'. rewrite E2 in *. rewrite Hu by done. destruct (decide _) as [[Hin _]|_].
      * apply list_elem_of_singleton in Hin as ->. intros _. split; [by apply (data_block_dframe s s')|]. intros b' Hb2. by rewrite bitmap_block.
      * intros Hf. destruct (A4 b' Hb' Hf) as [H1 H2]. split; [by apply (data_block_dframe s s')|done].
    + rewrite E2, Hu by (destruct (ly_size _ L); lia). rewrite decide_False by tauto. apply L.
Qed.

(** The log has room for the bitmap block, with [h] buffers held. *)
Definition room (s : fstate) (bs : list Z) (h : nat) : Prop := (length (log_add (bb s) bs) + h < 29)%nat.

Lemma room_lt s bs h : room s bs h -> (length bs + h < 29)%nat.
Proof. unfold room. pose proof (length_log_add (bb s) bs). lia. Qed.

Lemma room_next s s1 bs h : bb s1 = bb s -> room s bs h -> room s1 (log_add (bb s) bs) h.
Proof. unfold room. intros ->. by rewrite (log_add_old _ (log_add _ _)) by apply in_log_add. Qed.

Lemma frame_seti s s' ip x : frame s s' -> frame (seti ip x s) (seti ip x s').
Proof. intros [A1 A2 A3 A4 A5 A6 A7 A8 A9 A10 A11]. split; try done. simpl. by rewrite A5. Qed.

(** ** The two loops *)

(** The addresses after the first loop. *)
Fixpoint zeros (n i : nat) (l : list Z) : list Z := match n with O => l | S n => zeros n (S i) (<[i := 0]> l) end.

Lemma itrunc_direct_run n i ip s x bs :
  tx [] s bs -> layout s -> sb_read s -> f_inodes s !! ip = Some x -> i_dev x = 1 -> (i + n <= length (i_addrs x))%nat ->
  freeable s (take n (drop i (i_addrs x))) -> room s bs 0 ->
  exists s' bs', itrunc_direct n i ip s = Ret tt s' /\ tx [] s' bs' /\ logged_bb s bs bs' /\ freed s s' (take n (drop i (i_addrs x))) /\
    frame (seti ip (set_i_addrs (zeros n i (i_addrs x)) x) s) s'.
Proof.
  revert i s x bs. induction n as [|n IH]; intros i s x bs T L Sb Hx Hd Hi Fr Rm.
  - exists s, bs. split; [done|]. split; [done|]. split; [by left|]. split; [by apply freed_nil|]. simpl. rewrite seti_same; [done|by destruct x].
  - cbn [itrunc_direct zeros]. mstep (geti_run _ _ _ Hx). destruct (lookup_lt_is_Some_2 (i_addrs x) i) as [a Ha]; [lia|]. rewrite Ha, bind_some.
    rewrite (drop_S _ _ _ Ha) in Fr |- *. cbn [take] in Fr |- *. rewrite Hd. destruct (Z.eqb_spec a 0) as [->|Hne]; cbn [negb].
    + rewrite bind_mret, (list_insert_id _ _ _ Ha). destruct (IH (S i) s x bs) as (s' & bs' & R & T' & B & Fd & F); try done; [lia|apply (freeable_app s s [0]); [done|by apply freed_zero, freed_nil]|].
      exists s', bs'. split; [done|]. split; [done|]. split; [done|]. split; [by apply freed_zero|done].
    + destruct (bfree_good [] s bs a T L Sb) as (s1 & R1 & T1 & Fd1 & F1 & _);
        [destruct Fr as [_ Fr]; apply Forall_cons in Fr as [Fr _]; by apply Fr|done|apply not_held_nil|apply not_held_nil|by apply (room_lt s)|]. rewrite bind_assoc_run. mstep R1.
      assert (Hx1 : f_inodes s1 !! ip = Some x) by by rewrite (fr_inodes _ _ F1). set (x1 := set_i_addrs (<[i := 0]> (i_addrs x)) x). mstep (updi_run s1 ip x (fun x => set_i_addrs (<[i := 0]> (i_addrs x)) x) Hx1). fold x1.
      set (s2 := seti ip x1 s1). assert (Fd2 : freed s s2 [a]) by by apply freed_seti. assert (Ed : drop (S i) (i_addrs x1) = drop (S i) (i_addrs x)) by (simpl; apply drop_insert_lt; lia).
      assert (Eb : bb s2 = bb s) by by eapply bb_dframe, Fd2.
      destruct (IH (S i) s2 x1 (log_add (bb s) bs)) as (s' & bs' & R & T' & B & Fd & F);
        [by apply tx_seti|apply Fd2|by eapply freed_sb|simpl; apply list_lookup_insert_eq; by eapply lookup_lt_Some|done|simpl; rewrite length_insert; lia|rewrite Ed; by eapply (freeable_app s s2 [a])|by apply room_next|].
      exists s', bs'. split; [done|]. split; [done|]. split; [apply (logged_bb_trans s s2 bs (log_add (bb s) bs)); [done|by right|done]|]. split; [rewrite Ed in Fd; by apply (freed_app s s2 s' [a])|].
      eapply iframe_trans; [|exact F]. by apply frame_seti.
Qed.

(** The entries of an indirect block. *)
Definition ents (d : list Z) (j n : nat) : list Z := (fun j => get32 d (4 * j)) <$> seq j n.

Lemma itrunc_indirect_run n j bp a d s bs :
  tx [bp] s bs -> layout s -> sb_read s -> holds s bp a d -> a <> 1 -> a <> bb s -> freeable s (ents d j n) -> room s bs 1 ->
  exists s' bs', itrunc_indirect n j 1 bp s = Ret tt s' /\ tx [bp] s' bs' /\ logged_bb s bs bs' /\ freed s s' (ents d j n) /\ frame s s' /\ keeps [bp] s s'.
Proof.
  revert j s bs. induction n as [|n IH]; intros j s bs T L Sb Hh H1 Hb Fr Rm.
  - exists s, bs. split; [done|]. split; [done|]. split; [by left|]. split; [by apply freed_nil|]. done.
  - cbn [itrunc_indirect]. mstep (bdata_run _ _ _ _ Hh). unfold ents in *. cbn [seq fmap list_fmap] in *. fold (ents d (S j) n) in *. set (e := get32 d (4 * j)) in *.
    destruct (Z.eqb_spec e 0) as [->|Hne]; cbn [negb].
    + rewrite bind_mret. destruct (IH (S j) s bs) as (s' & bs' & R & T' & B & Fd & F & K); try done; [apply (freeable_app s s [0]); [done|by apply freed_zero, freed_nil]|].
      exists s', bs'. split; [done|]. split; [done|]. split; [done|]. split; [by apply freed_zero|done].
    + assert (Nh : forall b, a <> b -> not_held [bp] s b).
      { intros b Hab k d' Hk Hh'. apply list_elem_of_singleton in Hk as ->. destruct Hh as (y & Hy & _ & Hd & _), Hh' as (y' & Hy' & _ & Hd' & _). rewrite Hy in Hy'. injection Hy' as <-. congruence. }
      destruct (bfree_good [bp] s bs e T L Sb) as (s1 & R1 & T1 & Fd1 & F1 & K1);
        [destruct Fr as [_ Fr]; apply Forall_cons in Fr as [Fr _]; by apply Fr|done|by apply Nh|by apply Nh|by apply (room_lt s)|]. mstep R1.
      assert (Eb : bb s1 = bb s) by by eapply bb_dframe, Fd1.
      destruct (IH (S j) s1 (log_add (bb s) bs)) as (s' & bs' & R & T' & B & Fd & F & K);
        [done|apply Fd1|by eapply freed_sb|by apply (keeps_holds [bp] s s1); [|left|]|done|by rewrite Eb|by eapply (freeable_app s s1 [e])|by apply room_next|].
      exists s', bs'. split; [done|]. split; [done|]. split; [apply (logged_bb_trans s s1 bs (log_add (bb s) bs)); [done|by right|done]|]. split; [by apply (freed_app s s1 s' [e])|]. split; by etransitivity.
Qed.

(** ** The blocks of a file *)

(** In the order in which [itrunc] frees them. *)
Definition owned (v : Z -> list Z) (x : inode) : list Z :=
  take 12 (i_addrs x) ++ (if ind_addr x =? 0 then [] else ents (v (ind_addr x)) 0 128) ++ [ind_addr x].

Lemma ents_lookup d j n i : ents d j n !! i = if decide (i < n)%nat then Some (get32 d (4 * (j + i))) else None.
Proof.
  unfold ents. rewrite list_lookup_fmap. destruct (decide (i < n)%nat); [by rewrite lookup_seq_lt|]. by rewrite lookup_seq_ge by lia.
Qed.

Lemma owned_lookup v x i a :
  length (i_addrs x) = 13%nat -> a <> 0 -> owned v x !! i = Some a <-> Z.of_nat i <= 140 /\ slot v x (Z.of_nat i) = a.
Proof.
  intros Hl H0. unfold owned, slot, addr_at. assert (L12 : length (take 12 (i_addrs x)) = 12%nat) by (rewrite length_take; lia).
  destruct (Z.ltb_spec (Z.of_nat i) 12).
  - rewrite lookup_app_l, lookup_take by lia. rewrite decide_True by lia. destruct (Z.eqb_spec (Z.of_nat i) 140); [lia|]. rewrite Nat2Z.id.
    destruct (lookup_lt_is_Some_2 (i_addrs x) i) as [y ->]; [lia|]. simpl. split; [intros [= ->]; split; [lia|done]|intros [_ ->]; done].
  - rewrite lookup_app_r, L12 by lia. destruct (Z.eqb_spec (ind_addr x) 0) as [E|E]; cbn [app].
    + rewrite E. split; [intros Hs|intros [_ Hs]; destruct (Z.of_nat i =? 140); congruence]. apply list_lookup_singleton_Some in Hs as [_ <-]. done.
    + destruct (decide (i < 140)%nat).
      * rewrite lookup_app_l by (unfold ents; rewrite length_fmap, length_seq; lia). rewrite ents_lookup, decide_True by lia.
        destruct (Z.eqb_spec (Z.of_nat i) 140); [lia|]. replace (Z.to_nat (4 * (Z.of_nat i - 12))) with (4 * (0 + (i - 12)))%nat by lia.
        generalize (get32 (v (ind_addr x)) (4 * (0 + (i - 12)))). intros e. split; [intros [= ->]; split; [lia|done]|intros [_ ->]; done].
      * rewrite lookup_app_r by (unfold ents; rewrite length_fmap, length_seq; lia). unfold ents at 1. rewrite length_fmap, length_seq, list_lookup_singleton_Some.
        split; [intros [Hi <-]|intros [Hi Hs]]; (destruct (Z.eqb_spec (Z.of_nat i) 140); [|lia]).
        -- split; [lia|done].
        -- split; [lia|done].
Qed.

Lemma owned_slot v x b :
  length (i_addrs x) = 13%nat -> b <> 0 -> b ∈ owned v x <-> exists k, 0 <= k <= 140 /\ slot v x k = b.
Proof.
  intros Hl H0. rewrite list_elem_of_lookup. split.
  - intros [i Hi]. apply owned_lookup in Hi as [? ?]; [|done|done]. exists (Z.of_nat i). split; [lia|done].
  - intros (k & Hk & Hs). exists (Z.to_nat k). apply owned_lookup; [done|done|]. rewrite Z2Nat.id by lia. split; [lia|done].
Qed.

Lemma owned_freeable s x : inode_ok s x -> freeable s (owned (view s) x).
Proof.
  intros [O1 O2 O3 O4]. split.
  - intros i j a Hi Hj Ha. apply owned_lookup in Hi as [? Hi], Hj as [? Hj]; [|done..]. assert (Z.of_nat i = Z.of_nat j); [|lia].
    apply O4; [lia|lia|congruence|congruence].
  - apply Forall_lookup. intros i a Hi Ha. apply owned_lookup in Hi as [? <-]; [|done..]. apply O3; [lia|done].
Qed.

(** The blocks of the file of [x] have been freed and its inode written: no other
    block is freed or allocated, and no other block or inode changes. *)
Record cleared (ip : nat) (s : fstate) (x : inode) (s' : fstate) (x' : inode) : Prop := {
  cl_used : forall b, 0 <= b < sb_size (f_sb s) ->
    used (view s') (f_sb s) b = if decide (b ∈ owned (view s) x /\ b <> 0) then false else used (view s) (f_sb s) b;
  cl_view : forall y, y <> bb s -> y <> iblock s x -> view s' y = view s y;
  cl_rest : forall off n, (off + n <= dip_at (i_inum x) \/ dip_at (i_inum x) + 64 <= off)%nat ->
    slice off n (view s' (iblock s x)) = slice off n (view s (iblock s x));
  cl_inum : i_inum x' = i_inum x;
  cl_frame : frame (seti ip x' s) s';
  cl_layout : layout s' }.

(** A field of the inode is set and the inode written. *)
Lemma cleared_update ip s x s1 x1 f bs :
  cleared ip s x s1 x1 -> layout s -> tx [] s1 bs -> f_inodes s1 !! ip = Some x1 -> data_block s (iblock s x) -> iblock s x <> bb s -> i_dev (f x1) = 1 -> i_inum (f x1) = i_inum x1 -> fits (f x1) ->
  (length bs < 29)%nat ->
  exists s2, (updi ip f;; iupdate ip) s1 = Ret tt s2 /\ tx [] s2 (log_add (iblock s x) bs) /\ cleared ip s x s2 (f x1) /\ synced s2 (f x1).
Proof.
  intros [A1 A2 A3 A4 A5 A6] L T Hx Hib Hne Hd En Hf Hl. mstep (updi_run s1 ip x1 f Hx). set (x2 := f x1) in *. pose proof (frame_dframe _ _ A5) as D1. pose proof D1 as (_ & Esb & _). simpl in Esb.
  assert (Eib : iblock (seti ip x2 s1) x2 = iblock s x) by (unfold iblock; simpl; by rewrite Esb, En, A4). assert (Edp : i_inum x2 = i_inum x) by congruence.
  destruct (iupdate_run ip (seti ip x2 s1) x2 bs) as (s2 & R & T2 & F2 & Y & V & Sl);
    [by apply tx_seti|simpl; apply list_lookup_insert_eq; by eapply lookup_lt_Some|done|done|rewrite Eib; by apply (data_block_dframe s s1)|done|]. rewrite Eib, ?Edp in *.
  exists s2. split; [done|]. split; [done|]. split; [|done]. assert (D : dframe s1 s2) by exact (frame_dframe _ _ F2).
  assert (Vb : view s2 (bb s1) = view s1 (bb s1)) by (apply V; by rewrite (bb_dframe s s1 D1)).
  assert (Hz : f_disksize s1 < two32) by apply T.
  split; [|intros y H1 H2; rewrite V by done; by apply A2|intros off n Hn; rewrite Sl by done; by apply A3|done|exact (iframe_trans _ _ _ _ _ _ A5 F2)|by apply (layout_bits s1 s2)].
  intros b Hb. rewrite <- A1 by done. rewrite <- Esb. apply used_bits; [done|done|done|by rewrite Esb].
Qed.

Lemma fits_set x f :
  fits x -> length (i_addrs (f x)) = 13%nat -> Forall (fun a => 0 <= a < two32) (i_addrs (f x)) -> 0 <= i_size (f x) < two32 -> short (i_type (f x)) ->
  i_major (f x) = i_major x -> i_minor (f x) = i_minor x -> i_nlink (f x) = i_nlink x -> fits (f x).
Proof. intros [A1 A2 A3 A4 A5 A6 A7] B1 B2 B3 B4 E1 E2 E3. split; try done; congruence. Qed.

(** The part of [itrunc] that frees blocks. *)
Definition itrunc_blocks (ip : nat) : M fstate unit :=
  itrunc_direct (Z.to_nat NDIRECT) 0 ip;;
  x ← geti ip;
  a ← of_option "addrs" (zget (i_addrs x) NDIRECT);
  if negb (a =? 0) then
    bp ← bread (i_dev x) a;
    itrunc_indirect (Z.to_nat NINDIRECT) 0 (i_dev x) bp;;
    brelse bp;;
    bfree (i_dev x) a;;
    updi ip (fun x => set_i_addrs (<[Z.to_nat NDIRECT := 0]> (i_addrs x)) x)
  else mret tt.

Lemma itrunc_split ip s : itrunc ip s = (itrunc_blocks ip;; updi ip (set_i_size 0);; iupdate ip) s.
Proof.
  unfold itrunc, itrunc_blocks. rewrite bind_assoc_run. apply bind_ext. intros _ s1. rewrite bind_assoc_run. apply bind_ext. intros x s2.
  by rewrite bind_assoc_run.
Qed.

(** The indirect block [a] and the blocks it names. *)
Lemma indirect_run s bs a :
  tx [] s bs -> layout s -> sb_read s -> freeable s (ents (view s a) 0 128 ++ [a]) -> a <> 0 -> a <> 1 -> room s bs 1 ->
  exists s' bs', (bp ← bread 1 a; itrunc_indirect 128 0 1 bp;; brelse bp;; bfree 1 a) s = Ret tt s' /\ tx [] s' bs' /\ logged_bb s bs bs' /\
    freed s s' (ents (view s a) 0 128 ++ [a]) /\ frame s s'.
Proof.
  intros T L Sb Fr H0 H1 Rm. pose proof (room_lt _ _ _ Rm) as Hl. assert (G : good s a) by (destruct Fr as [_ Fr]; apply Forall_app in Fr as [_ Fr]; apply Forall_cons in Fr as [Fr _]; by apply Fr).
  destruct (tx_bread [] s bs a T) as (bp & s1 & R1 & T1 & Hh & V1 & F1 & _ & _); [apply G|apply not_held_nil|simpl; lia|]. mstep R1.
  pose proof (frame_dframe _ _ F1) as D1. assert (Eb1 : bb s1 = bb s) by by apply bb_dframe. assert (Hz := tx_size _ _ _ T).
  assert (L1 : layout s1) by (by apply (layout_bits s s1)). assert (Fd1 : freed s s1 []).
  { split; [|intros y _; apply V1|done|done]. intros b Hb. rewrite decide_False by (intros [Hn _]; by apply elem_of_nil in Hn). by apply used_bits. }
  assert (Fr1 : freeable s1 (ents (view s a) 0 128 ++ [a])) by (by apply (freeable_app s s1 [])).
  destruct (itrunc_indirect_run 128 0 bp a (view s a) s1 bs T1 L1) as (s2 & bs2 & R2 & T2 & B2 & Fd2 & F2 & _);
    [by eapply freed_sb|done|done|rewrite Eb1; apply G|by eapply freeable_l|unfold room in *; by rewrite Eb1|]. mstep R2.
  destruct (tx_brelse [] s2 bs2 bp T2) as (s3 & R3 & T3 & V3 & F3 & _); [eapply holds_lt; [apply T1|done]|]. mstep R3.
  pose proof (frame_dframe _ _ F3) as D3. assert (Eb2 : bb s2 = bb s) by (rewrite <- Eb1; by eapply bb_dframe, Fd2). assert (Eb3 : bb s3 = bb s) by (rewrite <- Eb2; by apply bb_dframe).
  assert (L3 : layout s3) by (apply (layout_bits s2 s3); [apply Fd2|apply T2|done|done]). assert (Fd3 : freed s2 s3 []).
  { split; [|intros y _; apply V3|done|done]. intros b Hb. rewrite decide_False by (intros [Hn _]; by apply elem_of_nil in Hn). apply used_bits; [apply Fd2|apply T2|done|done]. }
  assert (Fd : freed s s3 (ents (view s a) 0 128)).
  { rewrite <- (app_nil_r (ents _ _ _)). apply (freed_app s s2); [|done]. by apply (freed_app s s1 s2 []). }
  pose proof (logged_bb_le s1 bs bs2 B2) as Hl2.
  assert (Bs : logged_bb s bs bs2) by (unfold logged_bb in *; by rewrite Eb1 in B2).
  destruct (bfree_good [] s3 bs2 a T3 L3) as (s4 & R4 & T4 & Fd4 & F4 & _); [by eapply freed_sb| |done|apply not_held_nil|apply not_held_nil| |].
  { pose proof (freeable_app _ _ _ _ Fr Fd) as [_ Fa]. apply Forall_cons in Fa as [Fa _]. by apply Fa. }
  { destruct Bs as [->| ->]; simpl; unfold room in Rm; lia. }
  exists s4, (log_add (bb s3) bs2). split; [done|]. split; [done|]. split; [apply (logged_bb_trans s s3 bs bs2); [done|done|by right]|]. split; [by apply (freed_app s s3 s4)|].
  etransitivity; [exact F1|]. etransitivity; [exact F2|]. by etransitivity.
Qed.

Lemma zeros_12 l : length l = 13%nat -> zeros 12 0 l = replicate 12 0 ++ drop 12 l.
Proof. intros H. do 13 (destruct l as [|? l]; [done|]). destruct l; [done|done]. Qed.

Lemma drop_12 (l : list Z) : length l = 13%nat -> drop 12 l = [default 0 (l !! 12%nat)].
Proof. intros H. do 13 (destruct l as [|? l]; [done|]). destruct l; [done|done]. Qed.

Lemma room_logged s s1 bs bs1 h : bb s1 = bb s -> logged_bb s bs bs1 -> room s bs h -> room s1 bs1 h.
Proof. intros Eb [->| ->]; [unfold room; by rewrite Eb|by apply room_next]. Qed.

Lemma itrunc_blocks_run ip s x bs :
  tx [] s bs -> layout s -> sb_read s -> inode_ok s x -> f_inodes s !! ip = Some x -> ind_addr x <> 1 -> room s bs 1 ->
  exists s' bs', itrunc_blocks ip s = Ret tt s' /\ tx [] s' bs' /\ logged_bb s bs bs' /\ freed s s' (owned (view s) x) /\
    frame (seti ip (set_i_addrs (replicate 13 0) x) s) s'.
Proof.
  intros T L Sb O Hx H1 Rm. pose proof (owned_freeable s x O) as Fr. pose proof (ik_len _ _ O) as Hlen. unfold itrunc_blocks. change (Z.to_nat NDIRECT) with 12%nat. change (Z.to_nat NINDIRECT) with 128%nat.
  destruct (itrunc_direct_run 12 0 ip s x bs T L Sb Hx (ik_dev _ _ O)) as (s1 & bs1 & R1 & T1 & B1 & Fd1 & F1); [lia|by eapply freeable_l|unfold room in *; lia|]. mstep R1.
  rewrite drop_0 in Fd1. rewrite zeros_12 in F1 by done. set (x1 := set_i_addrs _ x) in F1. assert (Hx1 : f_inodes s1 !! ip = Some x1).
  { rewrite (fr_inodes _ _ F1). simpl. apply list_lookup_insert_eq. by eapply lookup_lt_Some. }
  mstep (geti_run _ _ _ Hx1). change (i_dev x1) with (i_dev x). rewrite (ik_dev _ _ O).
  assert (E12 : i_addrs x1 = replicate 12 0 ++ [ind_addr x]) by (simpl; by rewrite drop_12). assert (Hz : zget (i_addrs x1) NDIRECT = Some (ind_addr x)) by by rewrite E12.
  rewrite Hz, bind_some. unfold owned in Fr |- *. destruct (Z.eqb_spec (ind_addr x) 0) as [E|E]; cbn [negb].
  - exists s1, bs1. split; [done|]. split; [done|]. split; [done|]. split; [rewrite E; apply (freed_app s s1 s1); [done|by apply freed_zero, freed_nil, Fd1]|].
    replace (set_i_addrs (replicate 13 0) x) with x1; [done|]. unfold x1. rewrite drop_12 by done. fold (ind_addr x). by rewrite E.
  - assert (G : good s (ind_addr x)) by (rewrite <- slot_ind with (v := view s); apply (ik_good _ _ O); [lia|done]).
    assert (Ev : view s1 (ind_addr x) = view s (ind_addr x)) by (apply (fd_view _ _ _ Fd1), G). assert (Eb : bb s1 = bb s) by by eapply bb_dframe, Fd1.
    destruct (indirect_run s1 bs1 (ind_addr x) T1 (fd_layout _ _ _ Fd1)) as (s2 & bs2 & R2 & T2 & B2 & Fd2 & F2);
      [by eapply freed_sb|rewrite Ev; by eapply freeable_app|done|done|by apply (room_logged s s1 bs)|].
    assert (Hx2 : f_inodes s2 !! ip = Some x1) by by rewrite (fr_inodes _ _ F2).
    exists (seti ip (set_i_addrs (replicate 13 0) x) s2), bs2. rewrite Ev in Fd2. split; [|split; [by apply tx_seti|]; split; [by apply (logged_bb_trans s s1 bs bs1)|]; split; [by apply freed_seti, (freed_app s s1)|]].
    + assert (Rr : forall k : M fstate unit, (bp ← bread 1 (ind_addr x); itrunc_indirect 128 0 1 bp;; brelse bp;; bfree 1 (ind_addr x);; k) s1 =
        ((bp ← bread 1 (ind_addr x); itrunc_indirect 128 0 1 bp;; brelse bp;; bfree 1 (ind_addr x));; k) s1).
      { intros k. rewrite bind_assoc_run. apply bind_ext. intros bp t. rewrite bind_assoc_run. apply bind_ext. intros [] t'. by rewrite bind_assoc_run. }
      rewrite Rr. mstep R2. rewrite (updi_run s2 ip x1 _ Hx2). do 2 f_equal. unfold x1. cbn [i_addrs set_i_addrs]. by rewrite drop_12.
    + apply (iframe_trans ip s x1 s1); [done|]. by apply frame_seti.
Qed.

Lemma cleared_inode ip s x s' x' y : f_inodes s !! ip = Some y -> cleared ip s x s' x' -> f_inodes s' !! ip = Some x'.
Proof. intros Hy C. rewrite (fr_inodes _ _ (cl_frame _ _ _ _ _ C)). simpl. apply list_lookup_insert_eq. by eapply lookup_lt_Some. Qed.

Lemma cleared_seti ip s x s' x' x2 : i_inum x2 = i_inum x' -> cleared ip s x s' x' -> cleared ip s x (seti ip x2 s') x2.
Proof.
  intros E [A1 A2 A3 A4 A5 A6]. split; [done|done|done|congruence| |by apply layout_seti]. apply (iframe_trans ip s x' s' x2); [done|done].
Qed.

Lemma cleared_from ip s x y s' x' : owned (view s) y = owned (view s) x -> i_inum y = i_inum x -> cleared ip (seti ip y s) y s' x' -> cleared ip s x s' x'.
Proof.
  intros Eo En [A1 A2 A3 A4 A5 A6]. unfold iblock in *. rewrite En in *. split; try done; [intros b Hb; rewrite A1 by done; change (view (seti ip y s)) with (view s); by rewrite Eo|].
  apply (iframe_trans ip s y (seti ip y s) x'); done.
Qed.

(** [itrunc]: the file is empty, in the cache and on the disk, and its blocks are
    free. *)
Lemma itrunc_run ip s x bs :
  tx [] s bs -> layout s -> sb_read s -> inode_ok s x -> f_inodes s !! ip = Some x -> ind_addr x <> 1 -> fits x -> data_block s (iblock s x) -> iblock s x <> bb s -> (length bs <= 26)%nat ->
  exists s' bs', itrunc ip s = Ret tt s' /\ tx [] s' bs' /\ (length bs' <= length bs + 2)%nat /\ iblock s x ∈ bs' /\
    cleared ip s x s' (set_i_size 0 (set_i_addrs (replicate 13 0) x)).
Proof.
  intros T L Sb O Hx H1 Hf Hib Hne Hl. rewrite itrunc_split.
  destruct (itrunc_blocks_run ip s x bs) as (s1 & bs1 & R1 & T1 & B1 & [U1 V1 D1 L1] & F1); try done; [unfold room; pose proof (length_log_add (bb s) bs); lia|]. mstep R1.
  pose proof (logged_bb_le _ _ _ B1) as Hl1. set (x1 := set_i_addrs (replicate 13 0) x) in *.
  assert (C1 : cleared ip s x s1 x1) by (split; try done; [intros y Hy _; by apply V1|intros off n _; by rewrite V1]).
  destruct (cleared_update ip s x s1 x1 (set_i_size 0) bs1) as (s2 & R2 & T2 & C2 & _); try done; [by eapply cleared_inode|apply O| |lia|].
  { apply (fits_set x (fun x => set_i_size 0 (set_i_addrs (replicate 13 0) x))); try done; [|apply Hf]. apply Forall_replicate. done. }
  exists s2, (log_add (iblock s x) bs1). split; [done|]. split; [done|]. split; [pose proof (length_log_add (iblock s x) bs1); lia|]. split; [apply in_log_add|done].
Qed.

(** An inode in the cache without links and with one reference. *)
Record unlinked (s : fstate) (ip : nat) (x : inode) : Prop := {
  ul_inode : f_inodes s !! ip = Some x;
  ul_ok : inode_ok s x;
  ul_lay : layout s;
  ul_sb : sb_read s;
  ul_ind : ind_addr x <> 1;
  ul_fits : fits x;
  ul_ib : data_block s (iblock s x) /\ iblock s x <> bb s;
  ul_valid : i_valid x <> 0;
  ul_nlink : i_nlink x = 0;
  ul_ref : i_ref x = 1;
  ul_lock : sl_locked (i_lock x) = 0 }.

(** The entry of the cache, and the inode on the disk, after it has been freed. *)
Definition freed_inode (x : inode) : inode := mkinode (i_dev x) (i_inum x) 0 (mksleep 0 0) 0 0 (i_major x) (i_minor x) 0 0 (replicate 13 0).

Lemma iput_frees ip s x bs :
  tx [] s bs -> unlinked s ip x -> (length bs <= 26)%nat ->
  exists s' bs', iput ip s = Ret tt s' /\ tx [] s' bs' /\ cleared ip s x s' (freed_inode x) /\ synced s' (freed_inode x).
Proof.
  intros T [Hx O L Sb H1 Hf [Hib Hne] Hv Hn Hr Hlk] Hl. unfold iput. set (y := set_i_lock (mksleep 1 (f_pid s)) x). set (s0 := seti ip y s).
  assert (R0 : acquiresleep (LInode ip) s = Ret tt s0).
  { unfold acquiresleep, getlk. rewrite bind_assoc_run. mstep (geti_run _ _ _ Hx). rewrite bind_mret, Hlk. cbn [Z.eqb negb]. rewrite bind_gets. by apply updi_run. }
  assert (Hy : f_inodes s0 !! ip = Some y) by (simpl; apply list_lookup_insert_eq; by eapply lookup_lt_Some).
  mstep R0. mstep (geti_run _ _ _ Hy). change (i_valid y) with (i_valid x). change (i_nlink y) with (i_nlink x). change (i_ref y) with (i_ref x). rewrite Hn, Hr.
  destruct (Z.eqb_spec (i_valid x) 0); [done|]. cbn [negb andb Z.eqb].
  destruct (itrunc_run ip s0 y bs) as (s1 & bs1 & R1 & T1 & Hl1 & _ & C1); try done; [by apply tx_seti|by apply layout_seti|by destruct O|by destruct Hf|].
  change (1 =? 1)%positive with true. cbv iota. rewrite bind_assoc_run. mstep R1. set (x1 := set_i_size 0 _) in C1. pose proof (cleared_inode _ _ _ _ _ _ Hy C1) as Hx1.
  destruct (cleared_update ip s0 y s1 x1 (set_i_type 0) bs1) as (s2 & R2 & T2 & C2 & Y2); try done; [by apply layout_seti|apply O| |lia|].
  { apply (fits_set x (fun x => set_i_type 0 (set_i_size 0 (set_i_addrs (replicate 13 0) (set_i_lock (mksleep 1 (f_pid s)) x))))); try done. apply Forall_replicate. done. }
  set (x2 := set_i_type 0 x1) in *. pose proof (cleared_inode _ _ _ _ _ _ Hy C2) as Hx2.
  assert (Rr : forall k : M fstate unit, ((updi ip (set_i_type 0);; iupdate ip;; updi ip (set_i_valid 0));; k) s1 = ((updi ip (set_i_type 0);; iupdate ip);; updi ip (set_i_valid 0);; k) s1).
  { intros k. rewrite !bind_assoc_run. apply bind_ext. intros [] t. by rewrite bind_assoc_run. }
  rewrite Rr. mstep R2. mstep (updi_run _ _ _ (set_i_valid 0) Hx2). set (x3 := set_i_valid 0 x2). unfold releasesleep, setlk. mstep (updi_run _ _ _ (set_i_lock (mksleep 0 0)) (seti_lookup s2 ip x2 x3 Hx2)).
  rewrite seti_seti. set (x4 := set_i_lock (mksleep 0 0) x3). rewrite (updi_run _ _ _ _ (seti_lookup s2 ip x2 x4 Hx2)), seti_seti.
  replace (set_i_ref (i_ref x4 - 1) x4) with (freed_inode x) by (unfold freed_inode, set_i_ref; simpl; by rewrite Hr, Hn).
  exists (seti ip (freed_inode x) s2), (log_add (iblock s x) bs1). split; [done|]. split; [by apply tx_seti|]. split.
  - apply (cleared_seti ip s x s2 x2); [done|]. by apply (cleared_from ip s x y).
  - unfold synced, iblock in *. transitivity (set_i_ref 0 (set_i_lock (mksleep 0 0) (set_i_valid 0 (get_dinode (dip_at (i_inum x2)) (view s2 (IBLOCK (i_inum x2) (f_sb s2))) x2)))); [done|].
    rewrite Y2. unfold freed_inode, set_i_ref. simpl. by rewrite Hn.
Qed.

(** A file of one block, 36, without links but still open. *)
Definition gone_ino : inode := mkinode 1 1 1 (mksleep 0 0) 1 T_FILE 0 0 0 100 (36 :: replicate 12 0).
Definition gone_fs : fstate := seti 0 gone_ino fs0.

Lemma gone_slots v k : 0 <= k <= 140 -> slot v gone_ino k = if k =? 0 then 36 else 0.
Proof.
  intros Hk. unfold slot, addr_at. change (ind_addr gone_ino) with 0. destruct (Z.eqb_spec k 140) as [->|]; [done|]. destruct (Z.ltb_spec k 12); [|by destruct (Z.eqb_spec k 0); [lia|]].
  destruct (Z.eqb_spec k 0) as [->|]; [done|]. change (i_addrs gone_ino) with (36 :: replicate 12 0). replace (Z.to_nat k) with (S (Z.to_nat (k - 1))) by lia.
  change ((36 :: replicate 12 0) !! S (Z.to_nat (k - 1))) with (replicate 12 0 !! Z.to_nat (k - 1)). by rewrite lookup_replicate_2 by lia.
Qed.

Lemma gone_slot : slot (view gone_fs) gone_ino 0 <> 0.
Proof. by rewrite gone_slots by lia. Qed.

Lemma gone_tx : tx [] gone_fs [].
Proof. apply tx_seti, fs0_tx. Qed.

Lemma gone_good : good gone_fs 36.
Proof.
  split; [change (0 <= 36 < 40); lia|]. split; [unfold data_block; change (0 <= 36 < 40 /\ ~ (2 <= 36 < 2 + 30)); lia|].
  split; [by vm_compute|done].
Qed.

Lemma gone_ok : unlinked gone_fs 0 gone_ino.
Proof.
  split; try done.
  - split; [done|done| |].
    + intros k Hk. rewrite gone_slots by done. destruct (k =? 0); [|done]. intros _. apply gone_good.
    + intros k k' Hk Hk'. rewrite !gone_slots by done. destruct (Z.eqb_spec k 0), (Z.eqb_spec k' 0); (done || lia).
  - apply layout_seti, fs0_layout.
  - split; try done. simpl. repeat (constructor; [by vm_compute|]). constructor.
  - split; [|by vm_compute]. change (iblock gone_fs gone_ino) with (iblock fs0 ino40). rewrite fs0_iblock. apply ino40_block.
Qed.

Lemma gone_other : 37 ∉ owned (view gone_fs) gone_ino.
Proof.
  rewrite owned_slot by done. intros (k & Hk & E). rewrite gone_slots in E by done. by destruct (k =? 0).
Qed.

Lemma gone_37 : used (view gone_fs) sb40 37 = true.
Proof. by vm_compute. Qed.
