(* ===== verification/FsPath.v ===== *)
(** * Path names (fs.c)

    [skipelem] and [namecmp] against the list of a path's components, and the
    termination of [namex]. *)

From Stdlib Require Import ZArith Lia.
From stdpp Require Import base numbers strings gmap list.
From S2P Require Import Prelude.
From S2P Require Import Machine.
From S2P Require Import FState.
From S2P Require Import Blocks.
From S2P Require Import Bio.
From S2P Require Import Fs.

Local Open Scope list_scope.
Local Open Scope Z_scope.

(** The pieces between slashes; the components are those that are not empty. *)
Fixpoint pieces (p : list Z) : list (list Z) :=
  match p with
  | [] => [[]]
  | c :: p =>
      if c =? slash then [] :: pieces p
      else match pieces p with [] => [[c]] | e :: es => (c :: e) :: es end
  end.
Definition components (p : list Z) : list (list Z) := filter (fun e => e <> []) (pieces p).

(** The string in a character array. *)
Fixpoint cname (name : list Z) : list Z :=
  match name with [] => [] | c :: name => if c =? 0 then [] else c :: cname name end.

Lemma pieces_not_nil p : pieces p <> [].
Proof. destruct p as [|c p]; simpl; [done|]. destruct (c =? slash); [done|]. by destruct (pieces p). Qed.

Lemma components_slash p : components (slash :: p) = components p.
Proof. done. Qed.

Lemma components_skip p : components (skip_slashes p) = components p.
Proof.
  induction p as [|c p IH]; [done|]. simpl. destruct (Z.eqb_spec c slash) as [->|Hn]; [by rewrite components_slash|done].
Qed.

Lemma skip_slashes_head p c r : skip_slashes p = c :: r -> c <> slash.
Proof. induction p as [|c' p IH]; simpl; [done|]. destruct (Z.eqb_spec c' slash); [done|]. by intros [= <- <-]. Qed.

Lemma skip_slashes_length p : (length (skip_slashes p) <= length p)%nat.
Proof. induction p as [|c p IH]; simpl; [done|]. destruct (c =? slash); simpl; lia. Qed.

Lemma elem_of_path_spec p e r :
  elem_of_path p = (e, r) -> p = e ++ r /\ pieces p = (e :: tail (pieces p)) /\ Forall (fun c => c <> slash) e /\ (r = [] \/ head r = Some slash).
Proof.
  revert e r. induction p as [|c p IH]; intros e r; simpl.
  { intros [= <- <-]. split; [done|]. split; [done|]. split; [constructor|by left]. }
  destruct (Z.eqb_spec c slash) as [->|Hn].
  { intros [= <- <-]. split; [done|]. split; [done|]. split; [constructor|by right]. }
  destruct (elem_of_path p) as [e' r'] eqn:E. intros [= <- <-]. destruct (IH _ _ eq_refl) as (H1 & H2 & H3 & H4).
  split; [simpl; congruence|]. split; [by rewrite H2|]. split; [by constructor|done].
Qed.

Lemma pieces_app e r : Forall (fun c => c <> slash) e -> (r = [] \/ head r = Some slash) ->
  pieces (e ++ r) = e :: match r with [] => [] | _ :: r => pieces r end.
Proof.
  intros He Hr. induction He as [|c e Hc _ IH]; simpl.
  - destruct r as [|c r]; [done|]. destruct Hr as [?|Hr]; [done|]. injection Hr as ->. done.
  - rewrite (proj2 (Z.eqb_neq c slash)) by done. by rewrite IH.
Qed.

Lemma components_elem e r : e <> [] -> Forall (fun c => c <> slash) e -> (r = [] \/ head r = Some slash) ->
  components (e ++ r) = e :: components (skip_slashes r).
Proof.
  intros Hn He Hr. unfold components at 1. rewrite pieces_app by done. rewrite filter_cons_True by done. f_equal.
  rewrite components_skip. destruct r as [|c r]; [done|]. destruct Hr as [?|Hr]; [done|]. injection Hr as ->. by rewrite components_slash.
Qed.

Lemma components_nil p : skip_slashes p = [] <-> components p = [].
Proof.
  rewrite <- components_skip. split; [by intros ->|]. intros H. destruct (skip_slashes p) as [|c q] eqn:E; [done|].
  pose proof (skip_slashes_head _ _ _ E) as Hc. destruct (elem_of_path (c :: q)) as [e r] eqn:Ee.
  pose proof (elem_of_path_spec _ _ _ Ee) as (H1 & _ & H3 & H4). simpl in Ee. rewrite (proj2 (Z.eqb_neq c slash)) in Ee by done.
  destruct (elem_of_path q). injection Ee as <- <-. rewrite H1, components_elem in H by done. done.
Qed.

Lemma cname_app e rest : Forall (fun c => c <> 0) e -> cname (e ++ 0 :: rest) = e.
Proof. intros H. induction H as [|c e Hc _ IH]; simpl; [done|]. by rewrite (proj2 (Z.eqb_neq c 0)), IH. Qed.

Lemma cname_full e : Forall (fun c => c <> 0) e -> cname e = e.
Proof. intros H. induction H as [|c e Hc _ IH]; simpl; [done|]. by rewrite (proj2 (Z.eqb_neq c 0)), IH. Qed.

Lemma lstrncmp_spec n p q : length p = n -> length q = n -> exists r, lstrncmp n p q = Some r /\ (r = 0 <-> cname p = cname q).
Proof.
  revert p q. induction n as [|n IH]; intros [|a p] [|b q] Hp Hq; try done; [by exists 0|]. simpl in Hp, Hq. injection Hp as Hp. injection Hq as Hq. cbn [lstrncmp cname].
  destruct (Z.eqb_spec a 0) as [->|Ha].
  - exists (0 - b). split; [done|]. destruct (Z.eqb_spec b 0) as [->|]; [done|]. split; [lia|done].
  - destruct (Z.eqb_spec a b) as [<-|Hab].
    + rewrite (proj2 (Z.eqb_neq a 0)) by done. destruct (IH p q Hp Hq) as (r & -> & Hr). exists r. split; [done|]. rewrite Hr. split; congruence.
    + exists (a - b). split; [done|]. split; [lia|]. destruct (Z.eqb_spec b 0) as [->|]; [done|]. congruence.
Qed.

Lemma splice_0 bs d : splice 0 bs d = bs ++ drop (length bs) d.
Proof. unfold splice. done. Qed.

(** The array [name] after [skipelem], and the rest of the path. *)
Lemma skipelem_run path name :
  Forall (fun c => c <> 0) path -> length name = 14%nat ->
  match components path with
  | [] => skipelem path name = None
  | c :: cs => exists rest name', skipelem path name = Some (rest, name') /\ components rest = cs /\ (rest = [] <-> cs = []) /\
      (length rest < length path)%nat /\ length name' = 14%nat /\ cname name' = take 14 c
  end.
Proof.
  intros H0 Hl. pose proof (skip_slashes_length path) as Hsl. unfold skipelem. destruct (skip_slashes path) as [|c q] eqn:E.
  { apply components_nil in E. by rewrite E. }
  pose proof (skip_slashes_head _ _ _ E) as Hc. assert (Hnz : Forall (fun c => c <> 0) (c :: q)).
  { rewrite <- E. clear -H0. induction H0 as [|c p Hc Hp IH]; simpl; [constructor|]. destruct (c =? slash); [done|by constructor]. }
  rewrite <- components_skip, E. destruct (elem_of_path (c :: q)) as [e r] eqn:Ee.
  pose proof (elem_of_path_spec _ _ _ Ee) as (H1 & _ & H3 & H4). assert (Hen : e <> []).
  { simpl in Ee. rewrite (proj2 (Z.eqb_neq c slash)) in Ee by done. destruct (elem_of_path q). injection Ee as <- <-. done. }
  rewrite H1, components_elem by done. rewrite H1 in Hnz, Hsl. apply Forall_app in Hnz as [He _]. rewrite length_app in Hsl.
  pose proof (skip_slashes_length r). assert (0 < length e)%nat by (destruct e; [done|simpl; lia]).
  eexists _, _. split; [done|]. split; [done|]. split; [by rewrite components_skip, <- components_nil|]. split; [lia|].
  change DIRSIZ with 14. destruct (Z.leb_spec 14 (Z.of_nat (length e))) as [Hle|Hgt]; rewrite splice_0.
  - change (Z.to_nat 14) with 14%nat. rewrite drop_ge, app_nil_r by (rewrite length_take; lia). rewrite length_take. split; [lia|].
    apply cname_full. by apply Forall_take.
  - split; [rewrite !length_app, length_drop; cbn [length]; lia|]. rewrite (take_ge e) by lia. rewrite <- app_assoc. by apply cname_app.
Qed.

(** Path names.  [skipelem] removes the first component of the path: it
    returns null exactly when the path has no component; otherwise the rest has
    the remaining components, is empty only if there are none, and [name] holds
    the component cut at [DIRSIZ] characters.  [namecmp] of two such arrays is 0
    exactly when they hold the same string. *)
Theorem skipelem_spec path name :
  Forall (fun c => c <> 0) path -> length name = 14%nat ->
  (match components path with
   | [] => skipelem path name = None
   | c :: cs => exists rest name', skipelem path name = Some (rest, name') /\ components rest = cs /\ (rest = [] <-> cs = []) /\
       (length rest < length path)%nat /\ length name' = 14%nat /\ cname name' = take 14 c
   end) /\
  (forall name2 (s : fstate), length name2 = 14%nat ->
    exists r, namecmp name name2 s = Ret r s /\ (r = 0 <-> cname name = cname name2)).
Proof.
  intros H0 Hl. split; [by apply skipelem_run|]. intros name2 s Hl2. destruct (lstrncmp_spec 14 name name2 Hl Hl2) as (r & Hr & He). exists r. split; [|done].
  unfold namecmp. change (Z.to_nat DIRSIZ) with 14%nat. by rewrite Hr.
Qed.

Lemma skipelem_spec_witness :
  skipelem [47; 97; 47; 98] (replicate 14 0) = Some ([98], 97 :: replicate 13 0) /\ components [98] = [[98]].
Proof.
  destruct (skipelem_spec [47; 97; 47; 98] (replicate 14 0)) as [(rest & name' & Hs & Hc & _) _]; [by repeat constructor|done|].
  vm_compute in Hs. injection Hs as <- <-. split; [done|]. exact Hc.
Defined.

Lemma skipelem_shrinks path name rest name' : skipelem path name = Some (rest, name') -> (length rest < length path)%nat.
Proof.
  unfold skipelem. pose proof (skip_slashes_length path) as Hsl. destruct (skip_slashes path) as [|c q] eqn:E; [done|].
  pose proof (skip_slashes_head _ _ _ E) as Hc. destruct (elem_of_path (c :: q)) as [e r] eqn:Ee.
  pose proof (elem_of_path_spec _ _ _ Ee) as (H1 & _). simpl in Ee. rewrite (proj2 (Z.eqb_neq c slash)) in Ee by done.
  destruct (elem_of_path q). injection Ee as <- <-. intros [= <- _]. pose proof (skip_slashes_length l0). rewrite H1, length_app in Hsl. simpl in Hsl. lia.
Qed.

Lemma skip_slashes_nz p : Forall (fun c => c <> 0) p -> Forall (fun c => c <> 0) (skip_slashes p).
Proof. induction 1 as [|c p Hc Hp IH]; simpl; [constructor|]. destruct (c =? slash); [done|by constructor]. Qed.

Lemma skipelem_nz path name rest name' : Forall (fun c => c <> 0) path -> skipelem path name = Some (rest, name') -> Forall (fun c => c <> 0) rest.
Proof.
  intros H. apply skip_slashes_nz in H. unfold skipelem. destruct (skip_slashes path) as [|c q]; [done|]. destruct (elem_of_path (c :: q)) as [e r] eqn:E.
  apply elem_of_path_spec in E as (E & _). rewrite E in H. apply Forall_app in H as [_ H]. intros [= <- _]. by apply skip_slashes_nz.
Qed.

(** Any fuel from the length of the path on gives the same result. *)
Lemma namex_fuel `{Devsw} fuel ip path parent name s :
  (length path <= fuel)%nat -> namex_loop fuel ip path parent name s = namex_loop (length path) ip path parent name s.
Proof.
  intros Hf. remember (length path) as n eqn:En. assert (Hn : (length path <= n)%nat) by lia. clear En. revert fuel ip path name s Hf Hn.
  induction n as [n IH] using lt_wf_ind. intros fuel ip path name s Hf Hn.
  assert (Hstep : forall k, (length path <= k)%nat -> (k <= fuel)%nat -> (n <= k)%nat ->
    namex_loop k ip path parent name s = namex_loop n ip path parent name s).
  2:{ by apply Hstep; [lia|lia|lia]. }
  intros k Hk Hkf Hnk. destruct (skipelem path name) as [[rest name']|] eqn:E.
  2:{ destruct k, n; simpl; by rewrite E. }
  pose proof (skipelem_shrinks _ _ _ _ E) as Hs. destruct n as [|n]; [lia|]. destruct k as [|k]; [lia|]. cbn [namex_loop]. rewrite E.
  apply bind_ext. intros _ s1. apply bind_ext. intros x s2. destruct (negb (i_type x =? T_DIR)); [done|].
  destruct (parent && bool_decide (rest = [])); [done|]. apply bind_ext. intros [[next off]|] s3; [|done]. apply bind_ext. intros _ s4.
  apply (IH n); lia.
Qed.
