(* ===== verification/Kbd.v ===== *)
(** * The keyboard (kbd.c, kbd.h)

    The key tables of kbd.h and the decoder [kbdgetc], whose static variable
    [shift] is its state.  The controller's data port is the list of the scan
    codes that are waiting. *)

From Stdlib Require Import ZArith Lia.
From stdpp Require Import base numbers strings list.
From S2P Require Import Prelude.

Local Open Scope list_scope.
Local Open Scope Z_scope.

Definition NO : Z := 0.
Definition SHIFT : Z := Z.shiftl 1 0.
Definition CTL : Z := Z.shiftl 1 1.
Definition ALT : Z := Z.shiftl 1 2.
Definition CAPSLOCK : Z := Z.shiftl 1 3.
Definition NUMLOCK : Z := Z.shiftl 1 4.
Definition SCROLLLOCK : Z := Z.shiftl 1 5.
Definition E0ESC : Z := Z.shiftl 1 6.

Definition KEY_HOME : Z := 0xE0.
Definition KEY_END : Z := 0xE1.
Definition KEY_UP : Z := 0xE2.
Definition KEY_DN : Z := 0xE3.
Definition KEY_LF : Z := 0xE4.
Definition KEY_RT : Z := 0xE5.
Definition KEY_PGUP : Z := 0xE6.
Definition KEY_PGDN : Z := 0xE7.
Definition KEY_INS : Z := 0xE8.
Definition KEY_DEL : Z := 0xE9.

(** [C(x)]: the control character of [x]; the result is stored in a [uchar]. *)
Definition C (x : Z) : Z := u8 (x - 64).

(** An array of 256 [uchar] with its first elements and its designated ones. *)
Definition uchars (l : list Z) (des : list (Z * Z)) : list Z :=
  foldl (fun t d => <[Z.to_nat d.1 := d.2]> t) (l ++ replicate (256 - length l) 0) des.

Definition shiftcode : list Z := uchars [] [(0x1D, CTL); (0x2A, SHIFT); (0x36, SHIFT); (0x38, ALT); (0x9D, CTL); (0xB8, ALT)].
Definition togglecode : list Z := uchars [] [(0x3A, CAPSLOCK); (0x45, NUMLOCK); (0x46, SCROLLLOCK)].

Definition normalmap : list Z := uchars
  [
   NO; 27; 49; 50; 51; 52; 53; 54; 55; 56; 57; 48; 45; 61; 8; 9;
   113; 119; 101; 114; 116; 121; 117; 105; 111; 112; 91; 93; 10; NO; 97; 115;
   100; 102; 103; 104; 106; 107; 108; 59; 39; 96; NO; 92; 122; 120; 99; 118;
   98; 110; 109; 44; 46; 47; NO; 42; NO; 32; NO; NO; NO; NO; NO; NO;
   NO; NO; NO; NO; NO; NO; NO; 55; 56; 57; 45; 52; 53; 54; 43; 49;
   50; 51; 48; 46; NO; NO; NO; NO]
  [(0x9C, 10); (0xB5, 47); (0xC8, KEY_UP); (0xD0, KEY_DN); (0xC9, KEY_PGUP); (0xD1, KEY_PGDN); (0xCB, KEY_LF); (0xCD, KEY_RT); (0x97, KEY_HOME); (0xCF, KEY_END); (0xD2, KEY_INS); (0xD3, KEY_DEL)].

Definition shiftmap : list Z := uchars
  [
   NO; 27; 33; 64; 35; 36; 37; 94; 38; 42; 40; 41; 95; 43; 8; 9;
   81; 87; 69; 82; 84; 89; 85; 73; 79; 80; 123; 125; 10; NO; 65; 83;
   68; 70; 71; 72; 74; 75; 76; 58; 34; 126; NO; 124; 90; 88; 67; 86;
   66; 78; 77; 60; 62; 63; NO; 42; NO; 32; NO; NO; NO; NO; NO; NO;
   NO; NO; NO; NO; NO; NO; NO; 55; 56; 57; 45; 52; 53; 54; 43; 49;
   50; 51; 48; 46; NO; NO; NO; NO]
  [(0x9C, 10); (0xB5, 47); (0xC8, KEY_UP); (0xD0, KEY_DN); (0xC9, KEY_PGUP); (0xD1, KEY_PGDN); (0xCB, KEY_LF); (0xCD, KEY_RT); (0x97, KEY_HOME); (0xCF, KEY_END); (0xD2, KEY_INS); (0xD3, KEY_DEL)].

Definition ctlmap : list Z := uchars
  [
   NO; NO; NO; NO; NO; NO; NO; NO; NO; NO; NO; NO; NO; NO; NO; NO;
   C 81; C 87; C 69; C 82; C 84; C 89; C 85; C 73; C 79; C 80; NO; NO; 13; NO; C 65; C 83;
   C 68; C 70; C 71; C 72; C 74; C 75; C 76; NO; NO; NO; NO; C 92; C 90; C 88; C 67; C 86;
   C 66; C 78; C 77; NO; NO; C 47; NO; NO]
  [(0x9C, 13); (0xB5, C 47); (0xC8, KEY_UP); (0xD0, KEY_DN); (0xC9, KEY_PGUP); (0xD1, KEY_PGDN); (0xCB, KEY_LF); (0xCD, KEY_RT); (0x97, KEY_HOME); (0xCF, KEY_END); (0xD2, KEY_INS); (0xD3, KEY_DEL)].

Definition charcode : list (list Z) := [normalmap; shiftmap; ctlmap; ctlmap].

(** The part of [kbdgetc] after a byte [data] has been read, with [shift]. *)
Definition kbd_decode (data : Z) : M Z Z :=
  shift ← get;
  if data =? 0xE0 then put (Z.lor shift E0ESC);; mret 0
  else if negb (Z.land data 0x80 =? 0) then
    let data := if negb (Z.land shift E0ESC =? 0) then data else Z.land data 0x7F in
    sc ← of_option "shiftcode" (zget shiftcode data);
    put (Z.ldiff shift (Z.lor sc E0ESC));;
    mret 0
  else
    let '(data, shift) := if negb (Z.land shift E0ESC =? 0) then (Z.lor data 0x80, Z.ldiff shift E0ESC) else (data, shift) in
    sc ← of_option "shiftcode" (zget shiftcode data);
    let shift := Z.lor shift sc in
    tc ← of_option "togglecode" (zget togglecode data);
    let shift := Z.lxor shift tc in
    put shift;;
    tab ← of_option "charcode" (zget charcode (Z.land shift (Z.lor CTL SHIFT)));
    c ← of_option "charcode" (zget tab data);
    mret (if negb (Z.land shift CAPSLOCK =? 0) then
            (if (97 <=? c) && (c <=? 122) then c + (65 - 97) else if (65 <=? c) && (c <=? 90) then c + (97 - 65) else c)
          else c).

(** [kbdgetc] with the bytes that the controller has: -1 when there is none. *)
Definition kbdgetc : M (Z * list Z) Z :=
  p ← get;
  match p.2 with
  | [] => mret (-1)
  | data :: port =>
      put (p.1, port);;
      zoom fst (fun shift q => (shift, q.2)) (kbd_decode data)
  end.

(** The scan codes of the letters. *)
Definition letter_keys : list (Z * Z) :=
  zip (seqZ 0x10 10 ++ seqZ 0x1E 9 ++ seqZ 0x2C 7)
    [113; 119; 101; 114; 116; 121; 117; 105; 111; 112; 97; 115; 100; 102; 103; 104; 106; 107; 108; 122; 120; 99; 118; 98; 110; 109].

(** The character of a letter key under the modifiers. *)
Definition letter_char (shift letter : Z) : Z :=
  if Z.testbit shift 1 then letter - 96
  else if xorb (Z.testbit shift 0) (Z.testbit shift 3) then letter - 32 else letter.

Definition decode_ok (shift data : Z) : bool :=
  match kbd_decode data shift with
  | Ret c shift' => (0 <=? c) && (c <? 256) && (0 <=? shift') && (shift' <? 128)
  | _ => false
  end.

(** A modifier key pressed and released: the bit is set, then cleared. *)
Definition modifier_ok (shift : Z) (k : Z * Z) : bool :=
  match kbd_decode k.1 shift with
  | Ret _ shift1 =>
      (shift1 =? Z.lor shift k.2) &&
      match kbd_decode (k.1 + 0x80) shift1 with Ret c shift2 => (c =? 0) && (shift2 =? Z.ldiff shift k.2) | _ => false end
  | _ => false
  end.

Definition letter_ok (shift : Z) (k : Z * Z) : bool :=
  match kbd_decode k.1 shift with Ret c shift' => (c =? letter_char shift k.2) && (shift' =? shift) | _ => false end.

Definition modifier_keys : list (Z * Z) := [(0x2A, SHIFT); (0x36, SHIFT); (0x1D, CTL); (0x38, ALT)].

Lemma decode_all : forallb (fun sh => forallb (decode_ok sh) (seqZ 0 256)) (seqZ 0 128) = true.
Proof. by vm_compute. Qed.
Lemma keys_all : forallb (fun sh => forallb (modifier_ok sh) modifier_keys && forallb (letter_ok sh) letter_keys) (seqZ 0 64) = true.
Proof. by vm_compute. Qed.

Lemma forallb_seqZ (f : Z -> bool) n x : forallb f (seqZ 0 n) = true -> 0 <= x < n -> f x = true.
Proof. intros H Hx. rewrite forallb_forall in H. apply H, list_elem_of_In, elem_of_seqZ. lia. Qed.

(** The keyboard decoder.  From any modifier state, any byte is decoded
    without reading outside the tables, the result is a byte and the modifier
    state keeps its seven bits.  With no escape pending, pressing a modifier key
    sets its bit and releasing it clears it, and a letter key gives the control
    character under CTL, and otherwise the capital letter exactly when one of
    SHIFT and CAPSLOCK is on. *)
Theorem kbd_decode_spec shift :
  0 <= shift < 128 ->
  (forall data, 0 <= data < 256 -> exists c shift', kbd_decode data shift = Ret c shift' /\ 0 <= c < 256 /\ 0 <= shift' < 128) /\
  (shift < 64 ->
   (forall k m, (k, m) ∈ modifier_keys -> exists c, kbd_decode k shift = Ret c (Z.lor shift m) /\
      kbd_decode (k + 0x80) (Z.lor shift m) = Ret 0 (Z.ldiff shift m)) /\
   (forall k l, (k, l) ∈ letter_keys -> kbd_decode k shift = Ret (letter_char shift l) shift)).
Proof.
  intros Hs. split.
  - intros data Hd. pose proof (forallb_seqZ _ _ _ (forallb_seqZ _ _ _ decode_all Hs) Hd) as H. unfold decode_ok in H.
    destruct (kbd_decode data shift) as [c sh'| | |]; try done. exists c, sh'. split; [done|]. lia.
  - intros Hlt. pose proof (forallb_seqZ _ _ shift keys_all ltac:(lia)) as H. apply andb_true_iff in H as [Hm Hl].
    rewrite forallb_forall in Hm, Hl. split.
    + intros k m Hin. apply list_elem_of_In in Hin. specialize (Hm _ Hin). unfold modifier_ok in Hm. simpl in Hm.
      destruct (kbd_decode k shift) as [c sh1| | |]; try done. apply andb_true_iff in Hm as [H1 H2]. apply Z.eqb_eq in H1 as ->. exists c. split; [done|].
      destruct (kbd_decode (k + 128) (Z.lor shift m)) as [c2 sh2| | |]; try done. apply andb_true_iff in H2 as [H2 H3].
      by apply Z.eqb_eq in H2 as ->, H3 as ->.
    + intros k l Hin. apply list_elem_of_In in Hin. specialize (Hl _ Hin). unfold letter_ok in Hl. simpl in Hl.
      destruct (kbd_decode k shift) as [c sh1| | |]; try done. apply andb_true_iff in Hl as [H1 H2]. by apply Z.eqb_eq in H1 as ->, H2 as ->.
Qed.

Lemma kbd_decode_spec_witness : kbd_decode 0x1E CAPSLOCK = Ret 65 CAPSLOCK /\ (0x1E, 97) ∈ letter_keys.
Proof.
  assert (Hin : (0x1E, 97) ∈ letter_keys) by (apply list_elem_of_In; vm_compute; tauto).
  split; [|exact Hin]. destruct (kbd_decode_spec CAPSLOCK) as [_ H]; [by vm_compute|]. destruct H as [_ H]; [by vm_compute|].
  exact (H _ _ Hin).
Defined.
