(* ===== verification/Console.v ===== *)
(** * The console (console.c)

    The screen is the CGA memory and the two bytes of the cursor register; what
    goes to the serial port is a list.  [consoleintr] takes the characters that
    its argument [getc] returns before -1.  [consoleread] either returns or goes
    to sleep with what it has read so far, and is called again with the rest.
    [cons.lock] is held throughout each of them; [procdump], which prints the
    process table, is represented here by the flag that it was called for, and is in
    Procdump.v. *)

From Stdlib Require Import ZArith Lia.
From stdpp Require Import base numbers strings gmap list.
From S2P Require Import Prelude.
From S2P Require Import Strings.
From S2P Require Import Printf.
From S2P Require Import Kbd.
From S2P Require Import FState.
From S2P Require Import Blocks.
From S2P Require Import Bio.
From S2P Require Import Log.
From S2P Require Import Fs.

Local Open Scope string_scope.
Local Open Scope list_scope.
Local Open Scope Z_scope.

Definition BACKSPACE : Z := 0x100.
Definition INPUT_BUF : Z := 128.

Record input := mkinput { in_buf : list Z; in_r : Z; in_w : Z; in_e : Z }.
Record cons := mkcons {
  c_crt : list Z;
  c_hi : Z;
  c_lo : Z;
  c_uart : bool;
  c_tx : list Z;
  c_panicked : bool;
  c_input : input;
  c_wakeups : nat }.

Definition set_screen (crt : list Z) (hi lo : Z) (k : cons) : cons :=
  mkcons crt hi lo (c_uart k) (c_tx k) (c_panicked k) (c_input k) (c_wakeups k).
Definition set_c_tx (x : list Z) (k : cons) : cons :=
  mkcons (c_crt k) (c_hi k) (c_lo k) (c_uart k) x (c_panicked k) (c_input k) (c_wakeups k).
Definition set_c_panicked (x : bool) (k : cons) : cons :=
  mkcons (c_crt k) (c_hi k) (c_lo k) (c_uart k) (c_tx k) x (c_input k) (c_wakeups k).
Definition set_c_input (x : input) (k : cons) : cons :=
  mkcons (c_crt k) (c_hi k) (c_lo k) (c_uart k) (c_tx k) (c_panicked k) x (c_wakeups k).
Definition set_c_wakeups (x : nat) (k : cons) : cons :=
  mkcons (c_crt k) (c_hi k) (c_lo k) (c_uart k) (c_tx k) (c_panicked k) (c_input k) x.

(** ** Output *)

(** The transmitter is waited for at most 128 times, then written. *)
Definition uartputc (c : Z) : M cons unit :=
  k ← get; if c_uart k then put (set_c_tx (c_tx k ++ [u8 c]) k) else mret tt.

Definition scroll (crt : list Z) (pos : Z) : list Z :=
  splice (Z.to_nat pos) (replicate (Z.to_nat (24 * 80 - pos)) 0) (splice 0 (slice 80 (23 * 80) crt) crt).

Definition cgaputc (c : Z) : M cons unit :=
  k ← get;
  let pos := Z.lor (Z.shiftl (c_hi k) 8) (c_lo k) in
  p ← (if c =? 10 then mret (c_crt k, pos + (80 - pos mod 80))
       else if c =? BACKSPACE then mret (c_crt k, if 0 <? pos then pos - 1 else pos)
       else crt ← of_option "crt" (zset pos (Z.lor (Z.land c 0xff) 0x0700) (c_crt k)); mret (crt, pos + 1));
  let '(crt, pos) := p in
  unless_panic ((pos <? 0) || (25 * 80 <? pos)) "pos under/overflow";;
  let '(crt, pos) := if 24 <=? pos / 80 then (scroll crt (pos - 80), pos - 80) else (crt, pos) in
  crt ← of_option "crt" (zset pos (Z.lor 32 0x0700) crt);
  modify (set_screen crt (u8 (Z.shiftr pos 8)) (u8 pos)).

Definition consputc (c : Z) : M cons unit :=
  k ← get;
  if c_panicked k then fault "halted"
  else
    (if c =? BACKSPACE then uartputc 8;; uartputc 32;; uartputc 8 else uartputc c);;
    cgaputc c.

Fixpoint consputs (l : list Z) : M cons unit :=
  match l with [] => mret tt | c :: l => consputc c;; consputs l end.

(** The characters that [cprintf] prints. *)
Fixpoint cprintf_chars (m : bmem) (fmt ap : list Z) (state : bool) : option (list Z) :=
  match fmt with
  | [] => Some []
  | c :: fmt =>
      if negb state then
        if c =? 37 then cprintf_chars m fmt ap true
        else r ← cprintf_chars m fmt ap false; Some (c :: r)
      else if c =? 100 then
        match ap with [] => None | v :: ap => o ← printint digits_lower (i32 v) 10 true; r ← cprintf_chars m fmt ap false; Some (o ++ r) end
      else if (c =? 120) || (c =? 112) then
        match ap with [] => None | v :: ap => o ← printint digits_lower (i32 v) 16 false; r ← cprintf_chars m fmt ap false; Some (o ++ r) end
      else if c =? 115 then
        match ap with [] => None | v :: ap => o ← out_str m v; r ← cprintf_chars m fmt ap false; Some (o ++ r) end
      else if c =? 37 then r ← cprintf_chars m fmt ap false; Some (37 :: r)
      else r ← cprintf_chars m fmt ap false; Some (37 :: c :: r)
  end.
Definition cprintf (m : bmem) (fmt ap : list Z) : M cons unit :=
  l ← of_option "cprintf" (cprintf_chars m fmt ap false); consputs l.

(** ** Input *)

Definition updin (f : input -> input) : M cons unit := modify (fun k => set_c_input (f (c_input k)) k).
Definition set_in_r (x : Z) (i : input) : input := mkinput (in_buf i) x (in_w i) (in_e i).
Definition set_in_w (x : Z) (i : input) : input := mkinput (in_buf i) (in_r i) x (in_e i).
Definition set_in_e (x : Z) (i : input) : input := mkinput (in_buf i) (in_r i) (in_w i) x.

(** The loop of control-U; there are at most [e - w] characters to erase. *)
Fixpoint kill_line (fuel : nat) : M cons unit :=
  i ← gets c_input;
  if in_e i =? in_w i then mret tt
  else
    c ← of_option "input.buf" (zget (in_buf i) (u32 (in_e i - 1) mod INPUT_BUF));
    if c =? 10 then mret tt
    else match fuel with
         | O => fault "kill_line: fuel"
         | S fuel => updin (set_in_e (u32 (in_e i - 1)));; consputc BACKSPACE;; kill_line fuel
         end.

(** One round of the loop of [consoleintr]; the result is [doprocdump]. *)
Definition console_char (c : Z) : M cons bool :=
  i ← gets c_input;
  if c =? C 80 then mret true
  else if c =? C 85 then kill_line (Z.to_nat (u32 (in_e i - in_w i)));; mret false
  else if (c =? C 72) || (c =? 0x7f) then
    if negb (in_e i =? in_w i) then updin (set_in_e (u32 (in_e i - 1)));; consputc BACKSPACE;; mret false else mret false
  else if negb (c =? 0) && (u32 (in_e i - in_r i) <? INPUT_BUF) then
    let c := if c =? 13 then 10 else c in
    buf ← of_option "input.buf" (zset (in_e i mod INPUT_BUF) (u8 c) (in_buf i));
    let i := mkinput buf (in_r i) (in_w i) (u32 (in_e i + 1)) in
    updin (fun _ => i);;
    consputc c;;
    if (c =? 10) || (c =? C 68) || (in_e i =? u32 (in_r i + INPUT_BUF)) then
      updin (set_in_w (in_e i));;
      modify (fun k => set_c_wakeups (S (c_wakeups k)) k);;
      mret false
    else mret false
  else mret false.

Fixpoint consoleintr (chars : list Z) (doprocdump : bool) : M cons bool :=
  match chars with
  | [] => mret doprocdump
  | c :: chars => d ← console_char c; consoleintr chars (doprocdump || d)
  end.

(** The characters that [kbdgetc] returns until the port is empty, and the new
    modifier state. *)
Fixpoint kbd_chars (shift : Z) (port : list Z) : option (list Z * Z) :=
  match port with
  | [] => Some ([], shift)
  | data :: port =>
      match kbd_decode data shift with
      | Ret c shift => r ← kbd_chars shift port; Some (c :: r.1, r.2)
      | _ => None
      end
  end.
Definition kbdintr (shift : Z) (port : list Z) : M cons (bool * Z) :=
  r ← of_option "kbdgetc" (kbd_chars shift port); d ← consoleintr r.1 false; mret (d, r.2).

(** ** Reading and writing *)

(** [CReturn r dst]: the call returns [r] with [dst] stored; [CSleep n dst]: it
    sleeps on [input.r] with [n] bytes still wanted. *)
Inductive cread := CReturn (r : Z) (dst : list Z) | CSleep (n : Z) (dst : list Z).

Fixpoint consoleread_loop (fuel : nat) (killed : bool) (target n : Z) (dst : list Z) : M cons cread :=
  if 0 <? n then
    match fuel with
    | O => fault "consoleread: fuel"
    | S fuel =>
        i ← gets c_input;
        if in_r i =? in_w i then mret (if killed then CReturn (-1) dst else CSleep n dst)
        else
          c ← of_option "input.buf" (zget (in_buf i) (in_r i mod INPUT_BUF));
          if c =? C 68 then
            (if n <? target then mret tt else updin (set_in_r (u32 (in_r i + 1))));;
            mret (CReturn (target - n) dst)
          else
            updin (set_in_r (u32 (in_r i + 1)));;
            if c =? 10 then mret (CReturn (target - (n - 1)) (dst ++ [c]))
            else consoleread_loop fuel killed target (n - 1) (dst ++ [c])
    end
  else mret (CReturn (target - n) dst).

(** The file system and the console. *)
Record kio := mkkio { io_fs : fstate; io_con : cons }.
Definition on_fs {A} (m : M fstate A) : M kio A := zoom io_fs (fun s k => mkkio s (io_con k)) m.
Definition on_con {A} (m : M cons A) : M kio A := zoom io_con (fun s k => mkkio (io_fs k) s) m.

(** The part of [consoleread] from where the lock is held: entered first with
    [n = target] and after each wakeup with what was left. *)
Definition consoleread_resume (ip : nat) (killed : bool) (target n : Z) (dst : list Z) : M kio cread :=
  r ← on_con (consoleread_loop (Z.to_nat n) killed target n dst);
  match r with
  | CReturn _ _ => on_fs (ilock ip);; mret r
  | CSleep _ _ => mret r
  end.
Definition consoleread (ip : nat) (killed : bool) (n : Z) : M kio cread :=
  on_fs (iunlock ip);; consoleread_resume ip killed n n [].

Definition consolewrite (ip : nat) (buf : list Z) (n : Z) : M kio Z :=
  on_fs (iunlock ip);;
  l ← of_option "consolewrite" (if n <=? Z.of_nat (length buf) then Some (take (Z.to_nat n) buf) else None);
  on_con (consputs (u8 <$> l));;
  on_fs (ilock ip);;
  mret n.

(** [panic], up to its endless loop. *)
Definition panic_prints (m : bmem) (lapicid : Z) (msg pcs : list Z) : M cons unit :=
  cprintf m [108; 97; 112; 105; 99; 105; 100; 32; 37; 100; 58; 32; 112; 97; 110; 105; 99; 58; 32] [lapicid];;
  cprintf m msg [];;
  cprintf m [10] [];;
  (fix loop pcs := match pcs with [] => mret tt | pc :: pcs => cprintf m [32; 37; 112] [pc];; loop pcs end) (take 10 pcs);;
  modify (set_c_panicked true).
