(* ===== verification/ConsoleSpec.v ===== *)
(** * The console: screen and line discipline

    The screen stays within its 24 lines and scrolls; the input buffer is a
    queue of finished input followed by the line being edited, whatever the
    counters' wrap-around. *)

From Stdlib Require Import ZArith Lia.
From stdpp Require Import base numbers strings gmap list.
From S2P Require Import Prelude.
From S2P Require Import Blocks.
From S2P Require Import Kbd.
From S2P Require Import Console.

Local Open Scope string_scope.
Local Open Scope list_scope.
Local Open Scope Z_scope.

(** ** The screen *)

Definition cursor (k : cons) : Z := Z.lor (Z.shiftl (c_hi k) 8) (c_lo k).

Record screen_ok (k : cons) : Prop := {
  sc_len : length (c_crt k) = 2000%nat;
  sc_pos : 0 <= cursor k < 1920 }.

Lemma cursor_bytes pos : 0 <= pos < 65536 -> Z.lor (Z.shiftl (u8 (Z.shiftr pos 8)) 8) (u8 pos) = pos.
Proof.
  intros H. assert (Z.shiftr pos 8 < 256) by (rewrite Z.shiftr_div_pow2 by lia; change (2 ^ 8) with 256; Z.div_mod_to_equations; lia).
  assert (0 <= Z.shiftr pos 8) by (apply Z.shiftr_nonneg; lia). unfold u8. rewrite (Z.mod_small (Z.shiftr pos 8)) by lia.
  apply Z.bits_inj'. intros n Hn. rewrite Z.lor_spec, Z.shiftl_spec by done. change 256 with (2 ^ 8). destruct (decide (n < 8)).
  - rewrite Z.testbit_neg_r by lia. by rewrite Z.mod_pow2_bits_low.
  - rewrite Z.shiftr_spec by lia. rewrite Z.mod_pow2_bits_high by lia. rewrite orb_false_r. f_equal. lia.
Qed.

Lemma length_scroll crt : length crt = 2000%nat -> length (scroll crt 1840) = 2000%nat.
Proof.
  intros H. unfold scroll. change (Z.to_nat 1840) with 1840%nat. change (Z.to_nat (24 * 80 - 1840)) with 80%nat.
  assert (length (splice 0 (slice 80 (23 * 80) crt) crt) = 2000%nat) by (rewrite length_splice; rewrite ?length_slice; lia).
  rewrite length_splice; rewrite ?length_replicate; lia.
Qed.

Lemma scroll_lookup crt i : length crt = 2000%nat -> (i < 1840)%nat -> scroll crt 1840 !! i = crt !! (i + 80)%nat.
Proof.
  intros H Hi. unfold scroll. change (Z.to_nat 1840) with 1840%nat. change (Z.to_nat (24 * 80 - 1840)) with 80%nat.
  assert (Hl : length (slice 80 (23 * 80) crt) = 1840%nat) by (rewrite length_slice; lia).
  assert (length (splice 0 (slice 80 (23 * 80) crt) crt) = 2000%nat) by (rewrite length_splice; lia).
  rewrite lookup_splice by (rewrite length_replicate; lia). rewrite decide_False by lia.
  rewrite lookup_splice by lia. rewrite Hl. rewrite decide_True by lia. rewrite Nat.sub_0_r, lookup_slice, decide_True by lia. f_equal. lia.
Qed.

Lemma scroll_blank crt i : length crt = 2000%nat -> (1840 <= i < 1920)%nat -> scroll crt 1840 !! i = Some 0.
Proof.
  intros H Hi. unfold scroll. change (Z.to_nat 1840) with 1840%nat. change (Z.to_nat (24 * 80 - 1840)) with 80%nat.
  assert (length (splice 0 (slice 80 (23 * 80) crt) crt) = 2000%nat) by (rewrite length_splice; rewrite ?length_slice; lia).
  rewrite lookup_splice by (rewrite length_replicate; lia). rewrite length_replicate, decide_True by lia. apply lookup_replicate_2. lia.
Qed.

(** Where the cursor goes, before scrolling, and the cell that is written. *)
Definition moved (c pos : Z) : Z :=
  if c =? 10 then pos + (80 - pos mod 80) else if c =? BACKSPACE then Z.max 0 (pos - 1) else pos + 1.
Definition written (c pos : Z) (crt : list Z) : list Z :=
  if (c =? 10) || (c =? BACKSPACE) then crt else <[Z.to_nat pos := Z.lor (Z.land c 0xff) 0x0700]> crt.

Lemma moved_range c pos : 0 <= pos < 1920 -> 0 <= moved c pos <= 1920.
Proof.
  intros H. unfold moved. destruct (c =? 10); [|destruct (c =? BACKSPACE); lia].
  Z.div_mod_to_equations. lia.
Qed.

Lemma length_written c pos crt : length (written c pos crt) = length crt.
Proof. unfold written. destruct (_ || _); [done|apply length_insert]. Qed.

Definition at_screen (k : cons) (crt : list Z) (pos : Z) : cons := set_screen crt (u8 (Z.shiftr pos 8)) (u8 pos) k.

Lemma at_screen_ok k crt pos : length crt = 2000%nat -> 0 <= pos < 1920 -> screen_ok (at_screen k crt pos) /\ cursor (at_screen k crt pos) = pos.
Proof.
  intros Hl Hp. assert (cursor (at_screen k crt pos) = pos) as E by (apply cursor_bytes; lia). split; [|done]. split; [done|]. by rewrite E.
Qed.

Lemma cgaputc_run c k :
  screen_ok k ->
  let w := written c (cursor k) (c_crt k) in
  let p := moved c (cursor k) in
  cgaputc c k = Ret tt (if p <? 1920 then at_screen k (<[Z.to_nat p := 0x720]> w) p else at_screen k (<[1840%nat := 0x720]> (scroll w 1840)) 1840).
Proof.
  intros [Hl Hp] w p. pose proof (moved_range c _ Hp) as Hm. fold p in Hm. unfold cgaputc. rewrite bind_get. fold (cursor k).
  assert (Hlw : length w = 2000%nat) by (unfold w; by rewrite length_written).
  assert (E : forall B (K : list Z * Z -> M cons B),
    ((if c =? 10 then mret (c_crt k, cursor k + (80 - cursor k mod 80))
      else if c =? BACKSPACE then mret (c_crt k, if 0 <? cursor k then cursor k - 1 else cursor k)
      else crt ← of_option "crt" (zset (cursor k) (Z.lor (Z.land c 0xff) 0x0700) (c_crt k)); mret (crt, cursor k + 1)) ≫= K) k = K (w, p) k).
  { intros B K. unfold w, p, written, moved. destruct (c =? 10); [by rewrite bind_mret|]. destruct (c =? BACKSPACE); cbn [orb].
    - rewrite bind_mret. destruct (Z.ltb_spec 0 (cursor k)); [rewrite Z.max_r by lia|rewrite Z.max_l by lia; replace (cursor k) with 0 by lia]; done.
    - rewrite bind_assoc_run. rewrite zset_Some by lia. rewrite bind_some, bind_mret. done. }
  rewrite E. destruct (Z.ltb_spec p 0); [lia|]. destruct (Z.ltb_spec (25 * 80) p); [lia|]. cbn [orb]. rewrite bind_unless_false.
  assert (Hs : (24 <=? p / 80) = negb (p <? 1920)).
  { destruct (Z.ltb_spec p 1920); [apply Z.leb_gt|apply Z.leb_le]; Z.div_mod_to_equations; lia. }
  rewrite Hs. destruct (Z.ltb_spec p 1920); cbn [negb].
  - rewrite zset_Some by lia. by rewrite bind_some.
  - replace (p - 80) with 1840 by lia. rewrite zset_Some by (rewrite length_scroll; lia). by rewrite bind_some.
Qed.

(** The screen.  With the cursor on the 24 lines [cgaputc] never panics nor
    writes outside the screen, and the cursor stays on the 24 lines.  A
    character is stored with its attribute where the cursor was and the cursor
    advances; a newline goes to the start of the next line; a backspace goes
    one cell back.  Past the last line the screen scrolls: line [r] shows what
    line [r + 1] showed and the last line is empty. *)
Theorem cgaputc_spec c k :
  screen_ok k ->
  exists k', cgaputc c k = Ret tt k' /\ screen_ok k' /\ k' = set_screen (c_crt k') (c_hi k') (c_lo k') k /\
    if moved c (cursor k) <? 1920 then
      cursor k' = moved c (cursor k) /\
      forall i, (i < 1920)%nat -> Z.of_nat i <> cursor k' -> c_crt k' !! i = written c (cursor k) (c_crt k) !! i
    else
      cursor k' = 1840 /\
      (forall i, (i < 1840)%nat -> c_crt k' !! i = written c (cursor k) (c_crt k) !! (i + 80)%nat) /\
      (forall i, (1840 < i < 1920)%nat -> c_crt k' !! i = Some 0).
Proof.
  intros H. rewrite (cgaputc_run c k H). cbv zeta. set (w := written _ _ _). set (p := moved _ _). pose proof (moved_range c _ (sc_pos _ H)) as Hm. fold p in Hm.
  assert (Hlw : length w = 2000%nat) by (unfold w; rewrite length_written; apply H). eexists. split; [done|]. destruct (Z.ltb_spec p 1920).
  - destruct (at_screen_ok k (<[Z.to_nat p := 1824]> w) p) as [H1 H2]; [by rewrite length_insert|lia|]. split; [done|]. split; [done|]. split; [done|].
    intros i Hi Hne. rewrite H2 in Hne. simpl. apply list_lookup_insert_ne. lia.
  - destruct (at_screen_ok k (<[1840%nat := 1824]> (scroll w 1840)) 1840) as [H1 H2]; [rewrite length_insert; by apply length_scroll|lia|].
    split; [done|]. split; [done|]. split; [done|]. split; intros i Hi; simpl; rewrite list_lookup_insert_ne by lia;
      [by apply scroll_lookup|apply scroll_blank; [done|lia]].
Qed.

Definition cons0 : cons := mkcons (replicate 2000 0) 7 127 true [] false (mkinput (replicate 128 0) 0 0 0) 0.

Lemma cgaputc_spec_witness : exists k', cgaputc 65 cons0 = Ret tt k' /\ cursor k' = 1840 /\ c_crt k' !! 1839%nat = Some (0x0700 + 65).
Proof.
  destruct (cgaputc_spec 65 cons0) as (k' & Hr & _ & _ & Hs).
  - split; [done|]. vm_compute. by split.
  - change (moved 65 (cursor cons0) <? 1920) with false in Hs. destruct Hs as (H1 & H2 & _). exists k'. split; [exact Hr|]. split; [exact H1|].
    rewrite H2 by lia. by vm_compute.
Defined.

Lemma uartputc_run c k : uartputc c k = Ret tt (set_c_tx (c_tx k ++ (if c_uart k then [u8 c] else [])) k).
Proof. unfold uartputc. rewrite bind_get. destruct k as [a b c' [] d e f g]; cbn; [done|]. by rewrite app_nil_r. Qed.

Lemma consputc_run c k :
  screen_ok k -> c_panicked k = false ->
  exists k', consputc c k = Ret tt k' /\ screen_ok k' /\ c_panicked k' = false /\ c_input k' = c_input k /\ c_wakeups k' = c_wakeups k /\ c_uart k' = c_uart k /\
    c_tx k' = c_tx k ++ (if c_uart k then (if c =? BACKSPACE then [8; 32; 8] else [u8 c]) else []).
Proof.
  intros H Hp. unfold consputc. rewrite bind_get, Hp.
  set (k1 := set_c_tx (c_tx k ++ (if c_uart k then (if c =? BACKSPACE then [8; 32; 8] else [u8 c]) else [])) k).
  assert (E : (if c =? BACKSPACE then uartputc 8;; uartputc 32;; uartputc 8 else uartputc c) k = Ret tt k1).
  { destruct (c =? BACKSPACE); [|apply uartputc_run]. mstep (uartputc_run 8 k). mstep (uartputc_run 32 (set_c_tx (c_tx k ++ (if c_uart k then [u8 8] else [])) k)).
    rewrite uartputc_run. unfold k1. destruct k as [a b c' u d e f g]. cbn. destruct u; rewrite <- ?app_assoc, ?app_nil_r; done. }
  mstep E. assert (H1 : screen_ok k1) by (destruct H; by split). rewrite (cgaputc_run c k1 H1). cbv zeta.
  pose proof (moved_range c _ (sc_pos _ H1)) as Hm. assert (Hlw : length (written c (cursor k1) (c_crt k1)) = 2000%nat) by (rewrite length_written; apply H1).
  destruct (Z.ltb_spec (moved c (cursor k1)) 1920); (eexists; split; [done|]; split; [|done]); apply at_screen_ok; rewrite ?length_insert; try lia.
  by apply length_scroll.
Qed.

(** ** The line discipline *)

(** Input that can be read, and the line being edited. *)
Record editor := mked { ready : list Z; line : list Z }.

(** The character [c] ends the line. *)
Definition commits (rd l : list Z) (c : Z) : bool := (c =? 10) || (c =? C 68) || (length rd + length (l ++ [c]) =? 128)%nat.

Definition ed_key (c : Z) (st : editor) : editor :=
  if c =? C 85 then mked (ready st) []
  else if (c =? C 72) || (c =? 0x7f) then mked (ready st) (take (length (line st) - 1) (line st))
  else if (c =? C 80) || (c =? 0) || (128 <=? length (ready st) + length (line st))%nat then st
  else
    let c := if c =? 13 then 10 else c in
    if commits (ready st) (line st) c then mked (ready st ++ line st ++ [c]) [] else mked (ready st) (line st ++ [c]).

(** What is echoed. *)
Definition ed_echo (c : Z) (st : editor) : list Z :=
  if c =? C 85 then replicate (length (line st)) BACKSPACE
  else if (c =? C 72) || (c =? 0x7f) then (if decide (line st = []) then [] else [BACKSPACE])
  else if (c =? C 80) || (c =? 0) || (128 <=? length (ready st) + length (line st))%nat then []
  else [if c =? 13 then 10 else c].

Fixpoint ed_keys (cs : list Z) (st : editor) : editor * list Z :=
  match cs with [] => (st, []) | c :: cs => let '(st', es) := ed_keys cs (ed_key c st) in (st', ed_echo c st ++ es) end.

(** The bytes sent to the serial port for echoed characters. *)
Definition serial (es : list Z) : list Z := mjoin ((fun c => if c =? BACKSPACE then [8; 32; 8] else [u8 c]) <$> es).

Definition ring_at (buf : list Z) (a : Z) (l : list Z) : Prop :=
  forall j x, l !! j = Some x -> zget buf ((a + Z.of_nat j) mod INPUT_BUF) = Some x.

(** The input buffer holds [st], with [R] characters read before. *)
Record input_at (R : Z) (i : input) (st : editor) : Prop := {
  ia_len : length (in_buf i) = 128%nat;
  ia_r : in_r i = u32 R;
  ia_w : in_w i = u32 (R + Z.of_nat (length (ready st)));
  ia_e : in_e i = u32 (R + Z.of_nat (length (ready st)) + Z.of_nat (length (line st)));
  ia_cap : (length (ready st) + length (line st) <= 128)%nat;
  ia_ring : ring_at (in_buf i) R (ready st ++ line st);
  ia_line : Forall (fun c => c <> 10) (line st) }.
Definition input_rep (i : input) (st : editor) : Prop := exists R, input_at R i st.

Lemma u32_diff a d : 0 <= d < two32 -> u32 (u32 (a + d) - u32 a) = d.
Proof. intros H. rewrite u32_sub_l, u32_sub_r. replace (a + d - a) with d by lia. by apply u32_id. Qed.

Lemma u32_eq_near a d : 0 <= d < two32 -> (u32 (a + d) =? u32 a) = (d =? 0).
Proof.
  intros H. destruct (Z.eqb_spec d 0) as [->|Hd]; [by rewrite Z.add_0_r, Z.eqb_refl|]. apply Z.eqb_neq. intros E.
  pose proof (u32_diff a d H) as D. rewrite E, Z.sub_diag in D. change (u32 0) with 0 in D. lia.
Qed.

Lemma mod128_u32 x : u32 x mod INPUT_BUF = x mod INPUT_BUF.
Proof.
  unfold u32, two32, INPUT_BUF. pose proof (Z.div_mod x 4294967296 ltac:(lia)) as H. rewrite H at 2.
  replace (4294967296 * (x / 4294967296)) with ((33554432 * (x / 4294967296)) * 128) by lia.
  rewrite Z.add_comm. by rewrite Z.mod_add by lia.
Qed.

Lemma ring_at_app buf a l1 l2 : ring_at buf a (l1 ++ l2) <-> ring_at buf a l1 /\ ring_at buf (a + Z.of_nat (length l1)) l2.
Proof.
  split.
  - intros H. split; intros j x Hj; [apply H; by apply lookup_app_l_Some|].
    replace (a + Z.of_nat (length l1) + Z.of_nat j) with (a + Z.of_nat (length l1 + j)) by lia. apply H.
    rewrite lookup_app_r by lia. by replace (length l1 + j - length l1)%nat with j by lia.
  - intros [H1 H2] j x Hj. apply lookup_app_Some in Hj as [Hj|[Hl Hj]]; [by apply H1|]. apply H2 in Hj.
    by replace (a + Z.of_nat (length l1) + Z.of_nat (j - length l1)) with (a + Z.of_nat j) in Hj by lia.
Qed.

(** Storing the next character. *)
Lemma ring_at_snoc buf buf' a l x :
  length buf = 128%nat -> (length l < 128)%nat -> ring_at buf a l -> zset ((a + Z.of_nat (length l)) mod INPUT_BUF) x buf = Some buf' -> ring_at buf' a (l ++ [x]).
Proof.
  intros Hb Hl H Hz. pose proof (Z.mod_pos_bound (a + Z.of_nat (length l)) 128 ltac:(lia)) as Hm. rewrite zset_Some in Hz by (unfold INPUT_BUF; lia). injection Hz as <-.
  apply ring_at_app. split.
  - intros j y Hj. specialize (H j y Hj). apply lookup_lt_Some in Hj. apply zget_Some in H as [H0 H]. apply zget_Some. split; [done|].
    rewrite list_lookup_insert_ne; [done|]. intros E. apply Z2Nat.inj in E; [|unfold INPUT_BUF; lia|done]. unfold INPUT_BUF in E.
    assert ((a + Z.of_nat (length l) - (a + Z.of_nat j)) mod 128 = 0) by (rewrite Zminus_mod, E, Z.sub_diag; done).
    replace (a + Z.of_nat (length l) - (a + Z.of_nat j)) with (Z.of_nat (length l) - Z.of_nat j) in * by lia. rewrite Z.mod_small in *; lia.
  - intros [|j] y Hj; [|done]. injection Hj as <-. rewrite Z.add_0_r. apply zget_Some. unfold INPUT_BUF. split; [lia|].
    apply list_lookup_insert_eq. lia.
Qed.

(** The states with the same screen, apart from the input. *)
Record console_ok (k : cons) (st : editor) : Prop := {
  co_screen : screen_ok k;
  co_alive : c_panicked k = false;
  co_input : input_rep (c_input k) st }.

Definition echoed (k k' : cons) (es : list Z) : Prop := c_uart k' = c_uart k /\ c_tx k' = c_tx k ++ (if c_uart k then serial es else []).

Lemma echoed_nil k : echoed k k [].
Proof. split; [done|]. destruct (c_uart k); by rewrite app_nil_r. Qed.

Lemma echoed_app k1 k2 k3 es1 es2 : echoed k1 k2 es1 -> echoed k2 k3 es2 -> echoed k1 k3 (es1 ++ es2).
Proof.
  intros [U1 T1] [U2 T2]. split; [congruence|]. rewrite T2, T1, U1. destruct (c_uart k1); rewrite <- ?app_assoc; [|done].
  unfold serial. by rewrite fmap_app, join_app.
Qed.

Lemma consputc_echo c k st :
  screen_ok k -> c_panicked k = false -> input_rep (c_input k) st ->
  exists k', consputc c k = Ret tt k' /\ console_ok k' st /\ c_input k' = c_input k /\ c_wakeups k' = c_wakeups k /\ echoed k k' [c].
Proof.
  intros H1 H2 H3. destruct (consputc_run c k H1 H2) as (k' & Hr & A1 & A2 & A3 & A4 & A5 & A6). exists k'. split; [done|].
  split; [split; [done|done|by rewrite A3]|]. split; [done|]. split; [done|]. split; [done|]. rewrite A6. unfold serial. simpl. by rewrite app_nil_r.
Qed.

(** Taking the last character off the line. *)
Lemma input_unsnoc i rd l x :
  input_rep i (mked rd (l ++ [x])) ->
  (in_e i =? in_w i) = false /\ zget (in_buf i) (u32 (in_e i - 1) mod INPUT_BUF) = Some x /\ x <> 10 /\
  input_rep (set_in_e (u32 (in_e i - 1)) i) (mked rd l).
Proof.
  intros [R [A1 A2 A3 A4 A5 A6 A7]]. simpl in *. rewrite length_app in *. simpl in *.
  set (W := R + Z.of_nat (length rd)) in *. apply Forall_app in A7 as [A7 A8]. apply Forall_cons in A8 as [A8 _].
  assert (E : u32 (in_e i - 1) = u32 (W + Z.of_nat (length l))) by (rewrite A4, u32_sub_l; f_equal; lia).
  rewrite app_assoc in A6. apply ring_at_app in A6 as [A6 A9]. split; [|split; [|split; [done|]]].
  - rewrite A3, A4. rewrite u32_eq_near by (unfold two32; lia). apply Z.eqb_neq. lia.
  - rewrite E, mod128_u32. specialize (A9 0%nat x eq_refl). rewrite length_app in A9. rewrite <- A9. do 2 f_equal. lia.
  - exists R. split; simpl; try done. lia.
Qed.

Lemma input_line_empty i rd l : input_rep i (mked rd l) -> (in_e i =? in_w i) = bool_decide (l = []).
Proof.
  intros [R [A1 A2 A3 A4 A5 A6 A7]]. simpl in *. rewrite A3, A4. rewrite u32_eq_near by (unfold two32; lia).
  destruct l; [done|]. rewrite bool_decide_false by done. apply Z.eqb_neq. simpl. lia.
Qed.

(** Erasing one character. *)
Lemma erase_run k rd l x {B} (K : unit -> M cons B) :
  console_ok k (mked rd (l ++ [x])) ->
  exists k', (updin (set_in_e (u32 (in_e (c_input k) - 1)));; consputc BACKSPACE ≫= K) k = K tt k' /\ console_ok k' (mked rd l) /\
    c_wakeups k' = c_wakeups k /\ echoed k k' [BACKSPACE].
Proof.
  intros [H1 H2 H3]. destruct (input_unsnoc _ _ _ _ H3) as (_ & _ & _ & H4). unfold updin. rewrite bind_modify.
  set (k1 := set_c_input _ k). assert (S1 : screen_ok k1) by (destruct H1; by split).
  destruct (consputc_echo BACKSPACE k1 (mked rd l) S1 H2 H4) as (k' & Hr & C' & _ & W' & E'). mstep Hr. by exists k'.
Qed.

Lemma kill_line_run l k rd fuel :
  console_ok k (mked rd l) -> (length l <= fuel)%nat ->
  exists k', kill_line fuel k = Ret tt k' /\ console_ok k' (mked rd []) /\ c_wakeups k' = c_wakeups k /\ echoed k k' (replicate (length l) BACKSPACE).
Proof.
  revert k fuel. induction l as [|x l IH] using rev_ind; intros k fuel H Hf.
  - exists k. split; [|split; [done|split; [done|apply echoed_nil]]]. destruct fuel; cbn [kill_line]; rewrite bind_gets, (input_line_empty _ _ _ (co_input _ _ H)); done.
  - rewrite length_app in Hf. simpl in Hf. destruct fuel as [|fuel]; [lia|]. cbn [kill_line]. rewrite bind_gets.
    destruct (input_unsnoc _ _ _ _ (co_input _ _ H)) as (E1 & E2 & E3 & _). rewrite E1, E2, bind_some. rewrite (proj2 (Z.eqb_neq x 10)) by done.
    destruct (erase_run k rd l x (fun _ => kill_line fuel) H) as (k1 & Hr1 & C1 & W1 & Ec1). rewrite Hr1.
    destruct (IH k1 fuel C1 ltac:(lia)) as (k2 & Hr2 & C2 & W2 & Ec2). exists k2. split; [done|]. split; [done|]. split; [congruence|].
    rewrite length_app, Nat.add_1_r. change (replicate (S (length l)) BACKSPACE) with ([BACKSPACE] ++ replicate (length l) BACKSPACE). by eapply echoed_app.
Qed.

(** A character added to the line. *)
Lemma input_snoc i rd l c :
  input_rep i (mked rd l) -> (length rd + length l < 128)%nat -> 0 <= c < 256 -> c <> 10 ->
  exists buf, zset (in_e i mod INPUT_BUF) (u8 c) (in_buf i) = Some buf /\
    input_rep (mkinput buf (in_r i) (in_w i) (u32 (in_e i + 1))) (mked rd (l ++ [c])).
Proof.
  intros [R [A1 A2 A3 A4 A5 A6 A7]] Hl Hc Hn. simpl in *. pose proof (Z.mod_pos_bound (in_e i) 128 ltac:(lia)).
  assert (Hu : u8 c = c) by (unfold u8; by apply Z.mod_small). rewrite Hu.
  destruct (zset (in_e i mod INPUT_BUF) c (in_buf i)) as [buf|] eqn:E; [|rewrite zset_Some in E by (unfold INPUT_BUF; lia); done].
  exists buf. split; [done|]. exists R. split; simpl; try done.
  - rewrite zset_Some in E by (unfold INPUT_BUF; lia). injection E as <-. by rewrite length_insert.
  - rewrite A4, u32_add_l, length_app. simpl. f_equal. lia.
  - rewrite length_app. simpl. lia.
  - rewrite app_assoc. eapply ring_at_snoc; [exact A1|rewrite length_app; lia|done|]. rewrite <- E. rewrite A4, mod128_u32, length_app.
    do 2 f_equal. lia.
  - apply Forall_app. split; [done|]. by constructor.
Qed.

(** The line, with the newline, becomes readable. *)
Lemma input_commit i rd l c buf :
  input_rep i (mked rd l) -> (length rd + length l < 128)%nat -> 0 <= c < 256 -> zset (in_e i mod INPUT_BUF) (u8 c) (in_buf i) = Some buf ->
  input_rep (mkinput buf (in_r i) (u32 (in_e i + 1)) (u32 (in_e i + 1))) (mked (rd ++ l ++ [c]) []).
Proof.
  intros [R [A1 A2 A3 A4 A5 A6 A7]] Hl Hc E. simpl in *. pose proof (Z.mod_pos_bound (in_e i) 128 ltac:(lia)).
  assert (Hu : u8 c = c) by (unfold u8; by apply Z.mod_small). rewrite Hu in E.
  assert (Hlen : Z.of_nat (length (rd ++ l ++ [c])) = Z.of_nat (length rd) + Z.of_nat (length l) + 1) by (rewrite !length_app; simpl; lia).
  exists R. split; simpl; try done.
  - rewrite zset_Some in E by (unfold INPUT_BUF; lia). injection E as <-. by rewrite length_insert.
  - rewrite A4, u32_add_l, Hlen. f_equal. lia.
  - rewrite A4, u32_add_l, Hlen. f_equal. lia.
  - lia.
  - rewrite app_nil_r, app_assoc. eapply ring_at_snoc; [exact A1|rewrite length_app; lia|done|]. rewrite <- E. rewrite A4, mod128_u32, length_app.
    do 2 f_equal. lia.
Qed.

Lemma input_full i st c buf :
  input_rep i st -> (length (ready st) + length (line st) < 128)%nat ->
  (u32 (in_e i - in_r i) <? INPUT_BUF) = true /\
  (in_e (mkinput buf (in_r i) (in_w i) (u32 (in_e i + 1))) =? u32 (in_r i + INPUT_BUF)) = (length (ready st) + length (line st ++ [c]) =? 128)%nat.
Proof.
  intros [R [A1 A2 A3 A4 A5 A6 A7]] Hl. simpl. rewrite A2, A4. rewrite <- Z.add_assoc. rewrite u32_diff by (unfold two32; lia).
  split; [apply Z.ltb_lt; unfold INPUT_BUF; lia|]. rewrite !u32_add_l. rewrite length_app. simpl. unfold INPUT_BUF.
  destruct (Nat.eqb_spec (length (ready st) + (length (line st) + 1)) 128) as [E|E].
  - apply Z.eqb_eq. f_equal. lia.
  - replace (R + 128) with (R + (Z.of_nat (length (ready st)) + Z.of_nat (length (line st))) + 1 + (128 - (Z.of_nat (length (ready st)) + Z.of_nat (length (line st))) - 1)) by lia.
    rewrite Z.eqb_sym, u32_eq_near by (unfold two32; lia). apply Z.eqb_neq. lia.
Qed.

Lemma input_over i st : input_rep i st -> (128 <= length (ready st) + length (line st))%nat -> (u32 (in_e i - in_r i) <? INPUT_BUF) = false.
Proof.
  intros [R [A1 A2 A3 A4 A5 A6 A7]] Hl. rewrite A2, A4. rewrite <- Z.add_assoc. rewrite u32_diff by (unfold two32; lia). apply Z.ltb_ge. unfold INPUT_BUF. lia.
Qed.

Definition dumps (c : Z) : bool := c =? C 80.

(** The default case of the switch. *)
Lemma plain_char_run c k rd l :
  console_ok k (mked rd l) -> 0 <= c < 256 -> (length rd + length l < 128)%nat ->
  let i := c_input k in
  let c := if c =? 13 then 10 else c in
  exists k', (buf ← of_option "input.buf" (zset (in_e i mod INPUT_BUF) (u8 c) (in_buf i));
    let i := mkinput buf (in_r i) (in_w i) (u32 (in_e i + 1)) in
    updin (fun _ => i);;
    consputc c;;
    if (c =? 10) || (c =? C 68) || (in_e i =? u32 (in_r i + INPUT_BUF)) then
      updin (set_in_w (in_e i));;
      modify (fun k => set_c_wakeups (S (c_wakeups k)) k);;
      mret false
    else mret false) k = Ret false k' /\
    console_ok k' (if commits rd l c then mked (rd ++ l ++ [c]) [] else mked rd (l ++ [c])) /\
    c_wakeups k' = (c_wakeups k + (if commits rd l c then 1 else 0))%nat /\ echoed k k' [c].
Proof.
  intros [H1 H2 H3] Hc0 Hl i c1. assert (Hc : 0 <= c1 < 256) by (unfold c1; destruct (c =? 13); lia). clearbody c1. clear c Hc0. rename c1 into c.
  pose proof (Z.mod_pos_bound (in_e i) 128 ltac:(lia)) as Hm.
  assert (Hb : exists buf, zset (in_e i mod INPUT_BUF) (u8 c) (in_buf i) = Some buf).
  { destruct H3 as [R [A1 _ _ _ _ _ _]]. fold i in A1. rewrite zset_Some by (unfold INPUT_BUF; lia). by eexists. }
  destruct Hb as [buf Hb]. rewrite Hb, bind_some. cbv zeta. unfold updin. rewrite bind_modify. set (k1 := set_c_input _ k).
  assert (S1 : screen_ok k1) by (destruct H1; by split).
  destruct (consputc_run c k1 S1 H2) as (k2 & Hr2 & S2 & P2 & I2 & W2 & U2 & T2). mstep Hr2.
  assert (He : echoed k k2 [c]). { split; [done|]. rewrite T2. unfold serial. simpl. by rewrite app_nil_r. }
  destruct (input_full _ _ c buf H3 Hl) as [_ Hfull]. simpl in Hfull. fold i in Hfull. simpl. rewrite Hfull. fold (commits rd l c).
  destruct (commits rd l c) eqn:Ec.
  - rewrite bind_modify. unfold modify. mexec. eexists. split; [reflexivity|]. split; [split|]; simpl.
    + destruct S2; by split.
    + done.
    + rewrite I2. simpl. by apply (input_commit _ _ _ _ _ H3 Hl Hc Hb).
    + split; [rewrite W2; unfold k1; simpl; lia|]. exact He.
  - eexists. split; [reflexivity|]. unfold commits in Ec. apply orb_false_iff in Ec as [Ec _]. apply orb_false_iff in Ec as [Ec _]. apply Z.eqb_neq in Ec.
    destruct (input_snoc _ _ _ c H3 Hl Hc Ec) as (buf' & Hb' & Hrep). fold i in Hb', Hrep. rewrite Hb in Hb'. injection Hb' as <-.
    split; [split; [done|done|by rewrite I2]|]. split; [rewrite W2; unfold k1; simpl; lia|]. exact He.
Qed.

Lemma console_char_run c k st :
  console_ok k st -> 0 <= c < 256 ->
  exists k', console_char c k = Ret (dumps c) k' /\ console_ok k' (ed_key c st) /\ echoed k k' (ed_echo c st) /\
    (c_wakeups k <= c_wakeups k')%nat /\ (ready (ed_key c st) <> ready st -> (c_wakeups k < c_wakeups k')%nat).
Proof.
  intros H Hc. destruct st as [rd l]. unfold console_char, ed_key, ed_echo, dumps. rewrite bind_gets. cbn [ready line].
  destruct (Z.eqb_spec c (C 80)) as [->|H80]. { exists k. split; [done|]. split; [done|]. split; [apply echoed_nil|]. split; [lia|]. done. }
  destruct (Z.eqb_spec c (C 85)) as [->|H85].
  { destruct (kill_line_run l k rd (Z.to_nat (u32 (in_e (c_input k) - in_w (c_input k)))) H) as (k' & Hr & C' & W' & E').
    - destruct (co_input _ _ H) as [R [A1 A2 A3 A4 A5 A6 A7]]. simpl in *. rewrite A3, A4, u32_diff by (unfold two32; lia). lia.
    - mstep Hr. exists k'. split; [done|]. split; [done|]. split; [done|]. split; [lia|]. done. }
  destruct ((c =? C 72) || (c =? 127)).
  { rewrite (input_line_empty _ _ _ (co_input _ _ H)). destruct (decide (l = [])) as [->|Hne].
    - exists k. split; [done|]. split; [done|]. split; [apply echoed_nil|]. split; [lia|done].
    - rewrite bool_decide_false by done. cbn [negb]. destruct (exists_last Hne) as (l' & x & ->).
      destruct (erase_run k rd l' x (fun _ => mret false) H) as (k' & Hr & C' & W' & E'). rewrite Hr. exists k'. split; [done|].
      rewrite length_app. replace (length l' + length [x] - 1)%nat with (length l') by (simpl; lia). rewrite take_app_length.
      split; [done|]. split; [done|]. split; [lia|]. done. }
  destruct (Z.eqb_spec c 0) as [->|H0]. { exists k. split; [done|]. split; [done|]. split; [apply echoed_nil|]. split; [lia|done]. }
  cbn [negb andb orb]. destruct (Nat.leb_spec 128 (length rd + length l)) as [Hle|Hgt].
  { rewrite (input_over _ _ (co_input _ _ H)) by done. exists k. split; [done|]. split; [done|]. split; [apply echoed_nil|]. split; [lia|done]. }
  rewrite (proj1 (input_full _ _ 0 [] (co_input _ _ H) Hgt)).
  destruct (plain_char_run c k rd l H Hc Hgt) as (k' & Hr & C' & W' & E'). cbv zeta in *. exists k'. split; [exact Hr|]. split; [exact C'|]. split; [exact E'|].
  rewrite W'. split; [lia|]. destruct (commits _ _ _); [lia|]. done.
Qed.

Lemma ed_keys_app cs c st : (ed_keys (c :: cs) st).1 = (ed_keys cs (ed_key c st)).1 /\ (ed_keys (c :: cs) st).2 = ed_echo c st ++ (ed_keys cs (ed_key c st)).2.
Proof. simpl. by destruct (ed_keys cs (ed_key c st)). Qed.

(** C33. The line discipline.  [consoleintr] implements an editor: characters are
    added to the current line, backspace and control-U take them off, and a
    newline, control-D or a full buffer of 128 makes the line readable and wakes
    the readers; what is typed is echoed.  The counters of the ring buffer may
    wrap around.  Control-P asks for the process listing. *)
Theorem consoleintr_refines cs k st :
  console_ok k st -> Forall (fun c => 0 <= c < 256) cs ->
  exists k', consoleintr cs false k = Ret (existsb dumps cs) k' /\ console_ok k' (ed_keys cs st).1 /\ echoed k k' (ed_keys cs st).2 /\
    (ready (ed_keys cs st).1 <> ready st -> (c_wakeups k < c_wakeups k')%nat).
Proof.
  intros H Hcs. cut (forall d, exists k', consoleintr cs d k = Ret (d || existsb dumps cs) k' /\ console_ok k' (ed_keys cs st).1 /\ echoed k k' (ed_keys cs st).2 /\
    (c_wakeups k <= c_wakeups k')%nat /\ (ready (ed_keys cs st).1 <> ready st -> (c_wakeups k < c_wakeups k')%nat)).
  { intros G. destruct (G false) as (k' & A & B & E & _ & W). by exists k'. }
  revert k st H. induction Hcs as [|c cs Hc _ IH]; intros k st H d.
  { exists k. rewrite orb_false_r. split; [done|]. split; [done|]. split; [apply echoed_nil|]. split; [lia|done]. }
  destruct (ed_keys_app cs c st) as [-> ->]. cbn [consoleintr existsb].
  destruct (console_char_run c k st H Hc) as (k1 & Hr1 & C1 & E1 & L1 & W1). mstep Hr1.
  destruct (IH k1 _ C1 (d || dumps c)) as (k2 & Hr2 & C2 & E2 & L2 & W2). exists k2. rewrite Hr2, orb_assoc. split; [done|]. split; [done|].
  split; [by eapply echoed_app|]. split; [lia|]. intros Hne. destruct (decide (ready (ed_key c st) = ready st)) as [E|E]; [|specialize (W1 E); lia].
  rewrite <- E in Hne. specialize (W2 Hne). lia.
Qed.

Lemma console_ok0 : console_ok cons0 (mked [] []).
Proof.
  split; [split; [done|vm_compute; by split]|done|]. exists 0. split; try done; simpl; lia.
Qed.

(** The keys a, b, backspace, c, newline. *)
Lemma consoleintr_refines_witness :
  exists k', consoleintr [97; 98; 8; 99; 10] false cons0 = Ret false k' /\ console_ok k' (mked [97; 99; 10] []) /\ (0 < c_wakeups k')%nat.
Proof.
  destruct (consoleintr_refines [97; 98; 8; 99; 10] cons0 (mked [] []) console_ok0) as (k' & Hr & Hk & _ & Hw); [by repeat constructor|].
  exists k'. split; [exact Hr|]. split; [exact Hk|]. apply Hw. done.
Defined.

(** ** Reading *)

(** What a read of at most [n] bytes takes from the readable input: whether the
    read is complete, the bytes, and what is left.  A control-D ends the read;
    it stays in the queue if the read has already got something. *)
Fixpoint ed_read (n : nat) (started : bool) (rd : list Z) : bool * list Z * list Z :=
  match n, rd with
  | O, _ => (true, [], rd)
  | S _, [] => (false, [], [])
  | S n, c :: rd' =>
      if c =? C 68 then (true, [], if started then rd else rd')
      else if c =? 10 then (true, [c], rd')
      else let '(b, l, r) := ed_read n true rd' in (b, c :: l, r)
  end.

Lemma input_uncons i c rd l :
  input_rep i (mked (c :: rd) l) ->
  (in_r i =? in_w i) = false /\ zget (in_buf i) (in_r i mod INPUT_BUF) = Some c /\ input_rep (set_in_r (u32 (in_r i + 1)) i) (mked rd l).
Proof.
  intros [R [A1 A2 A3 A4 A5 A6 A7]]. simpl in *. split; [|split].
  - rewrite A2, A3. rewrite Z.eqb_sym, u32_eq_near by (unfold two32; lia). apply Z.eqb_neq. lia.
  - rewrite A2, mod128_u32. specialize (A6 0%nat c eq_refl). by rewrite Z.add_0_r in A6.
  - exists (R + 1). split; simpl; try done.
    + by rewrite A2, u32_add_l.
    + rewrite A3. f_equal. lia.
    + rewrite A4. f_equal. lia.
    + lia.
    + change (c :: rd ++ l) with ([c] ++ (rd ++ l)) in A6. apply ring_at_app in A6 as [_ A6]. exact A6.
Qed.

(** Reading the console.  [consoleread] takes the bytes that are readable, in
    order and at most [n]: it stops after a newline or at a control-D, which it
    leaves for the next read if it has already got something; with nothing left
    to read it sleeps, or returns -1 if the process was killed. *)
Theorem consoleread_refines killed target n dst k rd l :
  console_ok k (mked rd l) -> 0 <= n <= target ->
  exists k', console_ok k' (mked (ed_read (Z.to_nat n) (n <? target) rd).2 l) /\
    let '(complete, bs) := (ed_read (Z.to_nat n) (n <? target) rd).1 in
    consoleread_loop (Z.to_nat n) killed target n dst k =
      Ret (if complete then CReturn (target - n + Z.of_nat (length bs)) (dst ++ bs)
           else if killed then CReturn (-1) (dst ++ bs) else CSleep (n - Z.of_nat (length bs)) (dst ++ bs)) k'.
Proof.
  remember (Z.to_nat n) as m eqn:Em. revert n Em dst k rd. induction m as [|m IH]; intros n Em dst k rd H Hn.
  - exists k. split; [done|]. simpl. destruct (Z.ltb_spec 0 n); [lia|]. rewrite app_nil_r. do 2 f_equal. lia.
  - cbn [consoleread_loop]. destruct (Z.ltb_spec 0 n); [|lia]. rewrite bind_gets. destruct rd as [|c rd]; cbn [ed_read].
    + exists k. split; [done|]. cbn [fst snd]. destruct (co_input _ _ H) as [R [A1 A2 A3 A4 A5 A6 A7]]. simpl in A3. rewrite Z.add_0_r in A3.
      rewrite A2, A3, Z.eqb_refl. rewrite app_nil_r. destruct killed; [done|]. do 2 f_equal. simpl. lia.
    + destruct (input_uncons _ _ _ _ (co_input _ _ H)) as (E1 & E2 & E3). rewrite E1, E2, bind_some.
      assert (H' : console_ok (set_c_input (set_in_r (u32 (in_r (c_input k) + 1)) (c_input k)) k) (mked rd l)).
      { destruct H as [[] H2 H3]. split; [by split|done|done]. }
      destruct (c =? C 68).
      * destruct (Z.ltb_spec n target); cbn [fst snd length]; rewrite app_nil_r.
        -- exists k. split; [done|]. rewrite bind_mret. do 2 f_equal. lia.
        -- eexists. split; [exact H'|]. unfold updin. rewrite bind_modify. do 2 f_equal. lia.
      * unfold updin. rewrite bind_modify. destruct (c =? 10).
        -- eexists. split; [exact H'|]. cbn [fst snd length]. do 2 f_equal. lia.
        -- destruct (IH (n - 1) ltac:(lia) (dst ++ [c]) _ rd H' ltac:(lia)) as (k' & C' & Hr). replace (n - 1 <? target) with true in * by (symmetry; apply Z.ltb_lt; lia).
           destruct (ed_read m true rd) as [[b bs] r]. cbn [fst snd] in *. exists k'. split; [exact C'|]. rewrite Hr. rewrite <- app_assoc. cbn [length app].
           destruct b; [do 2 f_equal; lia|]. destruct killed; [done|]. do 2 f_equal. lia.
Qed.

Definition cons_typed : cons :=
  mkcons (replicate 2000 0) 0 0 true [] false (mkinput (97 :: 10 :: 98 :: replicate 125 0) 0 2 3) 1.

Lemma consoleread_refines_witness :
  exists k', consoleread_loop 10 false 10 10 [] cons_typed = Ret (CReturn 2 [97; 10]) k' /\ console_ok k' (mked [] [98]).
Proof.
  destruct (consoleread_refines false 10 10 [] cons_typed [97; 10] [98]) as (k' & Hk & Hr).
  - split; [split; [done|vm_compute; by split]|done|]. exists 0. split; try done; [simpl; lia| |by constructor].
    intros [|[|[|j]]] x Hj; try (injection Hj as <-; done). by destruct j.
  - lia.
  - exists k'. split; [exact Hr|exact Hk].
Defined.
