(* ===== verification/Procdump.v ===== *)
(** * The process listing (procdump of proc.c)

    What control-P prints on the console: one line for each slot of the process table
    that is in use.  The strings that [cprintf] is given are in memory, by address. *)

From Stdlib Require Import ZArith Lia.
From stdpp Require Import base numbers strings gmap list.
From S2P Require Import Prelude.
From S2P Require Import Strings.
From S2P Require Import Printf.
From S2P Require Import Machine.
From S2P Require Import Spinlock.
From S2P Require Import KState.
From S2P Require Import Console.

Local Open Scope string_scope.
Local Open Scope list_scope.
Local Open Scope Z_scope.

(** [states[]] *)
Definition state_name (s : procstate) : list Z :=
  match s with
  | UNUSED => [117; 110; 117; 115; 101; 100]
  | EMBRYO => [101; 109; 98; 114; 121; 111]
  | SLEEPING => [115; 108; 101; 101; 112; 32]
  | RUNNABLE => [114; 117; 110; 98; 108; 101]
  | RUNNING => [114; 117; 110; 32; 32; 32]
  | ZOMBIE => [122; 111; 109; 98; 105; 101]
  end.

(** The callers that are printed: the ten entries up to the first 0. *)
Fixpoint until_zero (pcs : list Z) : list Z := match pcs with [] => [] | pc :: pcs => if pc =? 0 then [] else pc :: until_zero pcs end.

Section procdump.
(** The strings in [m]: [states s] and [name i] are the addresses of [states[s]] and of
    [ptable.proc[i].name]; [ldw] reads a word of the kernel's memory. *)
Context (m : bmem) (states : procstate -> Z) (name : nat -> Z) (ldw : Z -> Z).

Definition proc_pcs (pr : proc) : list Z :=
  if bool_decide (p_state pr = SLEEPING) then until_zero (getcallerpcs ldw (u32 (c_ebp (p_ctx pr) + 8))) else [].

Definition procdump_slot (x : nat * proc) : M cons unit :=
  let '(i, pr) := x in
  if bool_decide (p_state pr = UNUSED) then mret tt
  else
    cprintf m [37; 100; 32; 37; 115; 32; 37; 115] [p_pid pr; states (p_state pr); name i];;
    each (proc_pcs pr) (fun pc => cprintf m [32; 37; 112] [pc]);;
    cprintf m [10] [].

Definition procdump (ps : list proc) : M cons unit := each (imap pair (take (Z.to_nat NPROC) ps)) procdump_slot.

(** ** What it prints *)

Lemma consputs_app a b k : consputs (a ++ b) k = (consputs a;; consputs b) k.
Proof. revert k. induction a as [|c a IH]; intros k; [done|]. cbn [app consputs]. rewrite bind_assoc_run, !bind_run. destruct (consputc c k); [apply IH|done..]. Qed.

(** A line: the number of the process, the name of its state, its name, and the addresses
    of its callers. *)
Definition shows (x : nat * proc) (l : list Z) : Prop :=
  let '(i, pr) := x in
  exists d nm hs, printint digits_lower (i32 (p_pid pr)) 10 true = Some d /\ str_at (size m) m (name i) = Some nm /\
    Forall2 (fun pc h => printint digits_lower (i32 pc) 16 false = Some h) (proc_pcs pr) hs /\
    l = d ++ [32] ++ state_name (p_state pr) ++ [32] ++ nm ++ concat ((fun h => 32 :: h) <$> hs) ++ [10].

Context (Hstates : forall s, states s <> 0 /\ str_at (size m) m (states s) = Some (state_name s)).
Context (Hnames : forall i, (i < 64)%nat -> name i <> 0 /\ is_Some (str_at (size m) m (name i))).

Lemma printint_some v base sgn : base = 10 \/ base = 16 -> is_Some (printint digits_lower (i32 v) base sgn).
Proof.
  intros Hb. assert (Hr : -2147483648 <= i32 v < 2147483648). { unfold i32. pose proof (u32_range v) as Hv. unfold two32 in *. destruct (Z.ltb_spec (u32 v) 2147483648); lia. }
  destruct (printint_run digits_lower (i32 v) base sgn Hb ltac:(cbn; lia) Hr) as (ds & -> & _). by eexists.
Qed.

Lemma cprintf_run fmt ap l k : cprintf_chars m fmt ap false = Some l -> cprintf m fmt ap k = consputs l k.
Proof. intros E. unfold cprintf. by rewrite E. Qed.

Lemma pcs_run pcs : exists hs, Forall2 (fun pc h => printint digits_lower (i32 pc) 16 false = Some h) pcs hs /\
  forall k, each pcs (fun pc => cprintf m [32; 37; 112] [pc]) k = consputs (concat ((fun h => 32 :: h) <$> hs)) k.
Proof.
  induction pcs as [|pc pcs (hs & Hh & IH)]; [exists []; done|]. destruct (printint_some pc 16 false (or_intror eq_refl)) as [h E]. exists (h :: hs). split; [by constructor|]. intros k. cbn [each fmap list_fmap concat].
  assert (Ec : cprintf_chars m [32; 37; 112] [pc] false = Some (32 :: h)) by (cbn -[printint digits_lower i32]; rewrite E; cbn -[printint]; by rewrite app_nil_r).
  rewrite consputs_app, !bind_run, (cprintf_run _ _ _ k Ec). destruct (consputs (32 :: h) k); [apply IH|done..].
Qed.

Lemma slot_run x : (x.1 < 64)%nat -> p_state x.2 <> UNUSED -> exists l, shows x l /\ forall k, procdump_slot x k = consputs l k.
Proof using Hstates Hnames.
  destruct x as [i pr]. cbn [fst snd]. intros Hi Hu. destruct (printint_some (p_pid pr) 10 true (or_introl eq_refl)) as [d Ed]. destruct (Hnames i Hi) as (Hn & nm & En). destruct (Hstates (p_state pr)) as (Hs & Es). destruct (pcs_run (proc_pcs pr)) as (hs & Hh & Hrun).
  eexists. split; [exists d, nm, hs; split; [done|]; split; [done|]; split; [done|]; reflexivity|]. intros k. unfold procdump_slot. rewrite bool_decide_eq_false_2 by done. 
  assert (Ec : cprintf_chars m [37; 100; 32; 37; 115; 32; 37; 115] [p_pid pr; states (p_state pr); name i] false = Some (d ++ 32 :: state_name (p_state pr) ++ 32 :: nm)).
  { cbn -[printint digits_lower i32 out_str]. rewrite Ed. unfold out_str. rewrite (proj2 (Z.eqb_neq _ _) Hs), (proj2 (Z.eqb_neq _ _) Hn), Es, En. cbn -[printint state_name]. by rewrite app_nil_r. }
  replace (d ++ [32] ++ state_name (p_state pr) ++ [32] ++ nm ++ concat ((fun h => 32 :: h) <$> hs) ++ [10]) with ((d ++ 32 :: state_name (p_state pr) ++ 32 :: nm) ++ concat ((fun h => 32 :: h) <$> hs) ++ [10]) by (cbn [app]; by rewrite <- !app_assoc, <- app_comm_cons, <- app_assoc).
  rewrite consputs_app, !bind_run, (cprintf_run _ _ _ k Ec). destruct (consputs _ k) as [[] k1| | |]; [|done..]. rewrite consputs_app, !bind_run, Hrun. by destruct (consputs _ k1) as [[] k2| | |].
Qed.

(** The listing.  [procdump] prints, in the order of the table, one line for each slot in
    use and nothing else. *)
Theorem procdump_prints ps : exists ls, Forall2 shows (filter (fun x => p_state x.2 <> UNUSED) (imap pair (take (Z.to_nat NPROC) ps))) ls /\ forall k, procdump ps k = consputs (concat ls) k.
Proof using Hstates Hnames.
  unfold procdump. assert (Hlt : Forall (fun x => (x.1 < 64)%nat) (imap pair (take (Z.to_nat NPROC) ps))). { apply Forall_lookup. intros i x Hx. rewrite list_lookup_imap in Hx. destruct (take (Z.to_nat NPROC) ps !! i) as [q|] eqn:E; [|done]. injection Hx as <-. apply lookup_take_Some in E as [_ E]. exact E. }
  induction Hlt as [|x xs Hx _ (ls & Hls & IH)]; [exists []; done|]. cbn [each]. destruct (decide (p_state x.2 <> UNUSED)) as [Hu|Hu].
  - destruct (slot_run x Hx Hu) as (l & Hl & Hrun). exists (l :: ls). split; [rewrite filter_cons_True by done; by constructor|]. intros k. cbn [concat]. rewrite consputs_app, !bind_run, Hrun. destruct (consputs l k); [apply IH|done..].
  - exists ls. split; [by rewrite filter_cons_False|]. intros k. rewrite bind_run. unfold procdump_slot at 1. destruct x as [i pr]. cbn [snd] in Hu. rewrite bool_decide_eq_true_2 by (destruct (p_state pr); (done || exfalso; by apply Hu)). apply IH.
Qed.
End procdump.
