(* ===== verification/Apic.v ===== *)
(** * Interrupt controllers, the clock and the serial port
    (lapic.c, ioapic.c, picirq.c, uart.c)

    The devices are a parameter: the class [Bus] has the port instructions and the
    loads and stores to device memory, on the state of the devices.  What the code
    relies on of a device is a class of laws for each of them, with a simulated
    device as an instance.  [wpolls] bounds the polling loops; after that the
    processor is still spinning. *)

From Stdlib Require Import ZArith Lia.
From stdpp Require Import base numbers strings gmap list.
From S2P Require Import Prelude.
From S2P Require Import Machine.
From S2P Require Import Console.

Local Open Scope string_scope.
Local Open Scope list_scope.
Local Open Scope Z_scope.

Class Bus (D : Type) := {
  bus_in : Z -> D -> Z * D;
  bus_out : Z -> Z -> D -> D;
  bus_load : Z -> D -> Z * D;
  bus_store : Z -> Z -> D -> D;
  wpolls : nat }.

Record rtcdate := mkrtc { second : Z; minute : Z; hour : Z; day : Z; month : Z; year : Z }.

#[export] Instance rtcdate_eq : EqDecision rtcdate.
Proof. solve_decision. Defined.

(** Registers of the local APIC, as indices. *)
Definition ID : Z := 0x20 / 4.
Definition VER : Z := 0x30 / 4.
Definition TPR : Z := 0x80 / 4.
Definition EOI : Z := 0xB0 / 4.
Definition SVR : Z := 0xF0 / 4.
Definition ENABLE : Z := 0x100.
Definition ESR : Z := 0x280 / 4.
Definition ICRLO : Z := 0x300 / 4.
Definition INIT : Z := 0x500.
Definition STARTUP : Z := 0x600.
Definition DELIVS : Z := 0x1000.
Definition ASSERT : Z := 0x4000.
Definition LEVEL : Z := 0x8000.
Definition BCAST : Z := 0x80000.
Definition ICRHI : Z := 0x310 / 4.
Definition TIMER : Z := 0x320 / 4.
Definition X1 : Z := 0xB.
Definition PERIODIC : Z := 0x20000.
Definition PCINT : Z := 0x340 / 4.
Definition LINT0 : Z := 0x350 / 4.
Definition LINT1 : Z := 0x360 / 4.
Definition ERROR : Z := 0x370 / 4.
Definition MASKED : Z := 0x10000.
Definition TICR : Z := 0x380 / 4.
Definition TDCR : Z := 0x3E0 / 4.
Definition IRQ_ERROR : Z := 19.

Definition CMOS_PORT : Z := 0x70.
Definition CMOS_RETURN : Z := 0x71.
Definition CMOS_STATA : Z := 0xa.
Definition CMOS_STATB : Z := 0xb.
Definition CMOS_UIP : Z := 128.
Definition SECS : Z := 0.
Definition MINS : Z := 2.
Definition HOURS : Z := 4.
Definition DAY : Z := 7.
Definition MONTH : Z := 8.
Definition YEAR : Z := 9.

Definition IOAPIC : Z := 0xFEC00000.
Definition REG_ID : Z := 0.
Definition REG_VER : Z := 1.
Definition REG_TABLE : Z := 16.
Definition INT_DISABLED : Z := 0x10000.

Definition not_mp : string := "ioapicinit: id isn't equal to ioapicid; not a MP
".

Definition IO_PIC1 : Z := 0x20.
Definition IO_PIC2 : Z := 0xA0.
Definition COM1 : Z := 0x3f8.

Section devices.
Context {D : Type} `{B : Bus D}.

(** The devices and the variables of these files: [lapic], [ioapicid] and [uart],
    the warm reset vector, and the messages that were printed. *)
Record plat := mkplat { pl_dev : D; pl_lapic : Z; pl_ioapicid : Z; pl_uart : bool; pl_wrv : Z * Z; pl_msgs : list string }.

Definition set_dev (d : D) (s : plat) : plat := mkplat d (pl_lapic s) (pl_ioapicid s) (pl_uart s) (pl_wrv s) (pl_msgs s).
Definition set_uart (u : bool) (s : plat) : plat := mkplat (pl_dev s) (pl_lapic s) (pl_ioapicid s) u (pl_wrv s) (pl_msgs s).
Definition set_wrv (w : Z * Z) (s : plat) : plat := mkplat (pl_dev s) (pl_lapic s) (pl_ioapicid s) (pl_uart s) w (pl_msgs s).
Definition say (x : string) (s : plat) : plat := mkplat (pl_dev s) (pl_lapic s) (pl_ioapicid s) (pl_uart s) (pl_wrv s) (pl_msgs s ++ [x]).

Definition inb (p : Z) : M plat Z := fun s => let r := bus_in p (pl_dev s) in Ret r.1 (set_dev r.2 s).
Definition outb (p v : Z) : M plat unit := modify (fun s => set_dev (bus_out p (u8 v) (pl_dev s)) s).
Definition loadl (a : Z) : M plat Z := fun s => let r := bus_load a (pl_dev s) in Ret r.1 (set_dev r.2 s).
Definition storel (a v : Z) : M plat unit := modify (fun s => set_dev (bus_store a (u32 v) (pl_dev s)) s).

(** ** lapic.c *)

Definition lapicr (index : Z) : M plat Z := l ← gets pl_lapic; loadl (l + 4 * index).
Definition lapicw (index value : Z) : M plat unit := l ← gets pl_lapic; storel (l + 4 * index) value;; _ ← loadl (l + 4 * ID); mret tt.

Fixpoint delivery_wait (fuel : nat) : M plat unit :=
  v ← lapicr ICRLO;
  if Z.land v DELIVS =? 0 then mret tt else match fuel with O => stall OnLock | S fuel => delivery_wait fuel end.

Definition lapicinit : M plat unit :=
  l ← gets pl_lapic;
  if l =? 0 then mret tt
  else
    lapicw SVR (Z.lor ENABLE (T_IRQ0 + IRQ_SPURIOUS));;
    lapicw TDCR X1;;
    lapicw TIMER (Z.lor PERIODIC (T_IRQ0 + IRQ_TIMER));;
    lapicw TICR 10000000;;
    lapicw LINT0 MASKED;;
    lapicw LINT1 MASKED;;
    v ← lapicr VER;
    (if 4 <=? Z.land (Z.shiftr v 16) 0xFF then lapicw PCINT MASKED else mret tt);;
    lapicw ERROR (T_IRQ0 + IRQ_ERROR);;
    lapicw ESR 0;;
    lapicw ESR 0;;
    lapicw EOI 0;;
    lapicw ICRHI 0;;
    lapicw ICRLO (Z.lor (Z.lor BCAST INIT) LEVEL);;
    delivery_wait wpolls;;
    lapicw TPR 0.

Definition lapicid : M plat Z :=
  l ← gets pl_lapic; if l =? 0 then mret 0 else v ← lapicr ID; mret (Z.shiftr v 24).

Definition lapiceoi : M plat unit := l ← gets pl_lapic; if negb (l =? 0) then lapicw EOI 0 else mret tt.

Definition startup_ipi (apicid addr : Z) : M plat unit :=
  lapicw ICRHI (Z.shiftl apicid 24);; lapicw ICRLO (Z.lor STARTUP (Z.shiftr addr 12)).

Definition lapicstartap (apicid addr : Z) : M plat unit :=
  outb CMOS_PORT 0xF;;
  outb (CMOS_PORT + 1) 0x0A;;
  modify (set_wrv (0, Z.shiftr addr 4 mod 65536));;
  lapicw ICRHI (Z.shiftl apicid 24);;
  lapicw ICRLO (Z.lor (Z.lor INIT LEVEL) ASSERT);;
  lapicw ICRLO (Z.lor INIT LEVEL);;
  startup_ipi apicid addr;;
  startup_ipi apicid addr.

Definition cmos_read (reg : Z) : M plat Z := outb CMOS_PORT reg;; inb CMOS_RETURN.

Definition fill_rtcdate : M plat rtcdate :=
  s ← cmos_read SECS; m ← cmos_read MINS; h ← cmos_read HOURS; d ← cmos_read DAY; o ← cmos_read MONTH; y ← cmos_read YEAR; mret (mkrtc s m h d o y).

(** The loop that reads the clock until two readings agree. *)
Fixpoint cmos_loop (fuel : nat) : M plat rtcdate :=
  match fuel with
  | O => stall OnLock
  | S fuel =>
      t1 ← fill_rtcdate;
      a ← cmos_read CMOS_STATA;
      if negb (Z.land a CMOS_UIP =? 0) then cmos_loop fuel
      else t2 ← fill_rtcdate; if bool_decide (t1 = t2) then mret t1 else cmos_loop fuel
  end.

Definition CONV (x : Z) : Z := Z.shiftr x 4 * 10 + Z.land x 0xf.
Definition conv_date (t : rtcdate) : rtcdate := mkrtc (CONV (second t)) (CONV (minute t)) (CONV (hour t)) (CONV (day t)) (CONV (month t)) (CONV (year t)).
Definition add_2000 (t : rtcdate) : rtcdate := mkrtc (second t) (minute t) (hour t) (day t) (month t) (year t + 2000).

Definition cmostime (fuel : nat) : M plat rtcdate :=
  sb ← cmos_read CMOS_STATB;
  t1 ← cmos_loop fuel;
  mret (add_2000 (if Z.land sb 4 =? 0 then conv_date t1 else t1)).

(** ** ioapic.c and picirq.c *)

Definition ioapicread (reg : Z) : M plat Z := storel IOAPIC reg;; loadl (IOAPIC + 16).
Definition ioapicwrite (reg data : Z) : M plat unit := storel IOAPIC reg;; storel (IOAPIC + 16) data.

Definition ioapicinit : M plat unit :=
  v ← ioapicread REG_VER;
  let maxintr := Z.land (Z.shiftr v 16) 0xFF in
  w ← ioapicread REG_ID;
  k ← gets pl_ioapicid;
  (if negb (Z.shiftr w 24 =? k) then modify (say not_mp) else mret tt);;
  each (seqZ 0 (maxintr + 1)) (fun i =>
    ioapicwrite (REG_TABLE + 2 * i) (Z.lor INT_DISABLED (T_IRQ0 + i));;
    ioapicwrite (REG_TABLE + 2 * i + 1) 0).

Definition ioapicenable (irq cpunum : Z) : M plat unit :=
  ioapicwrite (REG_TABLE + 2 * irq) (T_IRQ0 + irq);;
  ioapicwrite (REG_TABLE + 2 * irq + 1) (Z.shiftl cpunum 24).

Definition picinit : M plat unit := outb (IO_PIC1 + 1) 0xFF;; outb (IO_PIC2 + 1) 0xFF.

(** ** uart.c *)

(** [i] counts the polls that are left. *)
Fixpoint uart_wait (i : nat) : M plat unit :=
  match i with
  | O => mret tt
  | S i => v ← inb (COM1 + 5); if negb (Z.land v 0x20 =? 0) then mret tt else uart_wait i
  end.

Definition uartputc (c : Z) : M plat unit :=
  u ← gets pl_uart; if negb u then mret tt else uart_wait 128;; outb COM1 c.

Definition uartgetc : M plat Z :=
  u ← gets pl_uart;
  if negb u then mret (-1)
  else v ← inb (COM1 + 5); if Z.land v 1 =? 0 then mret (-1) else inb COM1.

Definition announce : list Z := [120; 118; 54; 46; 46; 46; 10].

Definition uartinit : M plat unit :=
  outb (COM1 + 2) 0;;
  outb (COM1 + 3) 0x80;;
  outb COM1 (115200 / 9600);;
  outb (COM1 + 1) 0;;
  outb (COM1 + 3) 0x03;;
  outb (COM1 + 4) 0;;
  outb (COM1 + 1) 0x01;;
  v ← inb (COM1 + 5);
  if v =? 0xFF then mret tt
  else
    modify (set_uart true);;
    _ ← inb (COM1 + 2);
    _ ← inb COM1;
    ioapicenable IRQ_COM1 0;;
    each announce uartputc.

(** [uartintr]: [consoleintr] with [uartgetc], next to the state of the console. *)
Fixpoint uartintr (fuel : nat) (doprocdump : bool) : M (plat * cons) bool :=
  match fuel with
  | O => stall OnLock
  | S fuel =>
      c ← zoom fst (fun p x => (p, x.2)) uartgetc;
      if c <? 0 then mret doprocdump
      else d ← zoom snd (fun k x => (x.1, k)) (console_char c); uartintr fuel (doprocdump || d)
  end.
End devices.
Arguments plat D : clear implicits.
