(* ===== verification/ApicSpec.v ===== *)
(** * What the device code does to its devices

    The I/O APIC: which interrupts are routed where after [ioapicinit] and a
    number of calls to [ioapicenable].  The local APIC: which interprocessor
    interrupts start a processor.  The clock: [cmostime] returns a time that the
    clock showed during the call, although the clock goes on while its registers
    are read one by one.  The serial port: what is sent and received. *)

From Stdlib Require Import ZArith Lia.
From stdpp Require Import base numbers strings gmap list.
From S2P Require Import Prelude.
From S2P Require Import Machine.
From S2P Require Import Console.
From S2P Require Import Apic.

Local Open Scope string_scope.
Local Open Scope list_scope.
Local Open Scope Z_scope.

(** ** The I/O APIC *)

(** A register is selected, and then read or written through a window.  The
    writable bits of the redirection table hold what was written. *)
Class IoapicLaws (D : Type) `{B : Bus D} := {
  io_sel : D -> Z;
  io_reg : D -> Z -> Z;
  il_max : forall d, 0 <= Z.land (Z.shiftr (io_reg d REG_VER) 16) 0xFF < 120;
  il_select : forall d r, 0 <= r < 256 -> io_sel (bus_store IOAPIC r d) = r /\ io_reg (bus_store IOAPIC r d) = io_reg d;
  il_read : forall d, let r := bus_load (IOAPIC + 16) d in r.1 = io_reg d (io_sel d) /\ io_reg r.2 = io_reg d;
  il_write : forall d v, REG_TABLE <= io_sel d -> 0 <= v < two32 ->
    forall r, io_reg (bus_store (IOAPIC + 16) v d) r = if r =? io_sel d then v else io_reg d r }.

Section ioapic.
Context {D : Type} `{IL : IoapicLaws D}.

Definition maxintr (s : plat D) : Z := Z.land (Z.shiftr (io_reg (pl_dev s) REG_VER) 16) 0xFF.

(** The two words of entry [i] of the redirection table. *)
Definition redir (s : plat D) (i : Z) : Z * Z := (io_reg (pl_dev s) (REG_TABLE + 2 * i), io_reg (pl_dev s) (REG_TABLE + 2 * i + 1)).

Lemma ioapicwrite_run s r v : REG_TABLE <= r < 256 -> 0 <= v < two32 ->
  exists d, ioapicwrite r v s = Ret tt (set_dev d s) /\ forall k, io_reg d k = if k =? r then v else io_reg (pl_dev s) k.
Proof.
  unfold REG_TABLE. intros Hr Hv. unfold ioapicwrite, storel. rewrite bind_modify. unfold modify. cbn. rewrite (u32_id r) by (unfold two32; lia). rewrite (u32_id v) by done. eexists. split; [done|]. intros k.
  destruct (il_select (pl_dev s) r ltac:(lia)) as [E1 E2]. rewrite il_write; [by rewrite E1, E2|unfold REG_TABLE; lia|done].
Qed.

Lemma ioapicread_run s r : 0 <= r < 256 -> exists d, ioapicread r s = Ret (io_reg (pl_dev s) r) (set_dev d s) /\ io_reg d = io_reg (pl_dev s).
Proof.
  intros Hr. unfold ioapicread, storel, loadl. rewrite bind_modify. cbn. rewrite (u32_id r) by (unfold two32; lia). destruct (il_select (pl_dev s) r Hr) as [E1 E2]. destruct (il_read (bus_store IOAPIC r (pl_dev s))) as [E3 E4].
  eexists. split; [by rewrite E3, E1, E2|]. by rewrite E4, E2.
Qed.

(** One entry: both words are written, and nothing else changes. *)
Lemma redir_entry_run s i lo hi : 0 <= i < 120 -> 0 <= lo < two32 -> 0 <= hi < two32 ->
  exists d, (ioapicwrite (REG_TABLE + 2 * i) lo;; ioapicwrite (REG_TABLE + 2 * i + 1) hi) s = Ret tt (set_dev d s) /\
    io_reg d REG_VER = io_reg (pl_dev s) REG_VER /\ forall k, 0 <= k -> redir (set_dev d s) k = if k =? i then (lo, hi) else redir s k.
Proof.
  intros Hi Hlo Hhi. destruct (ioapicwrite_run s (REG_TABLE + 2 * i) lo ltac:(unfold REG_TABLE; lia) Hlo) as (d1 & R1 & E1). mstep R1. destruct (ioapicwrite_run (set_dev d1 s) (REG_TABLE + 2 * i + 1) hi ltac:(unfold REG_TABLE; lia) Hhi) as (d2 & R2 & E2).
  exists d2. split; [rewrite R2; done|]. cbn in E2. unfold redir. cbn. unfold REG_TABLE, REG_VER in *. split.
  - rewrite E2, E1. destruct (Z.eqb_spec 1 (16 + 2 * i + 1)), (Z.eqb_spec 1 (16 + 2 * i)); try lia; done.
  - intros k Hk. rewrite !E2, !E1. destruct (Z.eqb_spec k i); zcases; done.
Qed.

Lemma vector_range i : 0 <= i < 120 -> 0 <= Z.lor INT_DISABLED (T_IRQ0 + i) < two32 /\ 0 <= T_IRQ0 + i < two32.
Proof.
  unfold T_IRQ0, INT_DISABLED, two32. intros Hi. split; [|lia]. split; [apply Z.lor_nonneg; lia|]. pose proof (Z.add_lor_land 65536 (32 + i)). pose proof (proj2 (Z.land_nonneg 65536 (32 + i)) ltac:(lia)). lia.
Qed.

(** The entries that [ioapicinit] leaves. *)
Definition disabled (i : Z) : Z * Z := (Z.lor INT_DISABLED (T_IRQ0 + i), 0).

Lemma init_loop_run l : forall s, Forall (fun i => 0 <= i < 120) l ->
  exists d, each l (fun i => ioapicwrite (REG_TABLE + 2 * i) (Z.lor INT_DISABLED (T_IRQ0 + i));; ioapicwrite (REG_TABLE + 2 * i + 1) 0) s = Ret tt (set_dev d s) /\
    io_reg d REG_VER = io_reg (pl_dev s) REG_VER /\ forall k, 0 <= k -> redir (set_dev d s) k = if bool_decide (k ∈ l) then disabled k else redir s k.
Proof.
  induction l as [|i l IH]; intros s Hl; [exists (pl_dev s); split; [by destruct s|]; split; [done|]; intros k _; by destruct s|]. apply Forall_cons in Hl as [Hi Hl]. cbn [each].
  destruct (redir_entry_run s i (Z.lor INT_DISABLED (T_IRQ0 + i)) 0 Hi) as (d1 & R1 & V1 & E1); [apply (vector_range i Hi)|unfold two32; lia|]. mstep R1. destruct (IH (set_dev d1 s) Hl) as (d2 & R2 & V2 & E2). exists d2. split; [exact R2|].
  split; [by rewrite V2|]. intros k Hk. change (redir (set_dev d2 s) k) with (redir (set_dev d2 (set_dev d1 s)) k). rewrite E2, E1 by done. destruct (Z.eqb_spec k i) as [->|Hne].
  - rewrite (bool_decide_true (i ∈ i :: l)) by apply list_elem_of_here. by case_bool_decide.
  - destruct (decide (k ∈ l)); [rewrite !bool_decide_true by (rewrite ?elem_of_cons; tauto); done|rewrite !bool_decide_false by (rewrite ?elem_of_cons; tauto); done].
Qed.

Lemma ioapicenable_run s irq cpu : 0 <= irq < 120 -> 0 <= cpu < 256 ->
  exists d, ioapicenable irq cpu s = Ret tt (set_dev d s) /\ forall k, 0 <= k -> redir (set_dev d s) k = if k =? irq then (T_IRQ0 + irq, Z.shiftl cpu 24) else redir s k.
Proof.
  intros Hi Hc. destruct (redir_entry_run s irq (T_IRQ0 + irq) (Z.shiftl cpu 24) Hi) as (d & R & _ & E); [apply (vector_range irq Hi)| |by exists d].
  rewrite Z.shiftl_mul_pow2 by lia. change (2 ^ 24) with 16777216. unfold two32. lia.
Qed.

(** Where an interrupt is routed to by a number of calls, the last one counts. *)
Definition routed (en : list (Z * Z)) (i : Z) (init : Z * Z) : Z * Z :=
  match last (filter (fun e => e.1 = i) en) with Some e => (T_IRQ0 + i, Z.shiftl e.2 24) | None => init end.

Lemma enables_run en : forall s, Forall (fun e => 0 <= e.1 < 120 /\ 0 <= e.2 < 256) en ->
  exists d, each en (fun e => ioapicenable e.1 e.2) s = Ret tt (set_dev d s) /\ forall k, 0 <= k -> redir (set_dev d s) k = routed en k (redir s k).
Proof.
  induction en as [|e en IH]; intros s Hen; [exists (pl_dev s); by destruct s|]. apply Forall_cons in Hen as [[Hi Hc] Hen]. cbn [each]. destruct (ioapicenable_run s e.1 e.2 Hi Hc) as (d1 & R1 & E1). mstep R1.
  destruct (IH (set_dev d1 s) Hen) as (d2 & R2 & E2). exists d2. split; [exact R2|]. intros k Hk. change (redir (set_dev d2 s) k) with (redir (set_dev d2 (set_dev d1 s)) k). rewrite E2, E1 by done. unfold routed.
  destruct (Z.eqb_spec k e.1) as [->|Hne]; [rewrite filter_cons_True by done|rewrite filter_cons_False by congruence; done]. rewrite last_cons. by destruct (last _).
Qed.

(** Interrupt routing.  After [ioapicinit] and any sequence of calls to
    [ioapicenable] for interrupts that the controller has, each interrupt goes to
    vector [T_IRQ0] plus its number on the processor that the last call for it named,
    and an interrupt that no call named is disabled.  A message is printed exactly
    when the identifier of the controller is not the one of the table. *)
Theorem ioapic_routes (s : plat D) (en : list (Z * Z)) : Forall (fun e => 0 <= e.1 <= maxintr s /\ 0 <= e.2 < 256) en ->
  exists s', (ioapicinit;; each en (fun e => ioapicenable e.1 e.2)) s = Ret tt s' /\
    (forall i, 0 <= i <= maxintr s -> redir s' i = routed en i (disabled i)) /\
    length (pl_msgs s') = Nat.add (length (pl_msgs s)) (if Z.shiftr (io_reg (pl_dev s) REG_ID) 24 =? pl_ioapicid s then 0%nat else 1%nat).
Proof.
  intros Hen. unfold ioapicinit. rewrite !bind_assoc_run. destruct (ioapicread_run s REG_VER ltac:(unfold REG_VER; lia)) as (d1 & R1 & E1). mstep R1. rewrite bind_assoc_run. destruct (ioapicread_run (set_dev d1 s) REG_ID ltac:(unfold REG_ID; lia)) as (d2 & R2 & E2). mstep R2.
  rewrite bind_assoc_run, bind_gets, bind_assoc_run. cbn [pl_dev set_dev pl_ioapicid] in *. rewrite E1 in *. fold (maxintr s). set (s1 := set_dev d2 (set_dev d1 s)).
  set (s2 := if Z.shiftr (io_reg (pl_dev s) REG_ID) 24 =? pl_ioapicid s then s1 else say not_mp s1).
  assert (R3 : (if negb (Z.shiftr (io_reg (pl_dev s) REG_ID) 24 =? pl_ioapicid s) then modify (say not_mp) else mret tt) s1 = Ret tt s2) by (unfold s2; destruct (Z.shiftr (io_reg (pl_dev s) REG_ID) 24 =? pl_ioapicid s); reflexivity). mstep R3.
  assert (Hmax : 0 <= maxintr s < 120) by exact (il_max (pl_dev s)).
  destruct (init_loop_run (seqZ 0 (maxintr s + 1)) s2) as (d3 & R4 & V4 & E4); [apply Forall_seqZ; intros i Hi; lia|]. mstep R4.
  destruct (enables_run en (set_dev d3 s2)) as (d4 & R5 & E5); [eapply Forall_impl; [exact Hen|]; simpl; intros e [? ?]; lia|]. eexists. split; [exact R5|]. split.
  - intros i Hi. rewrite E5, E4 by lia. rewrite bool_decide_true by (apply elem_of_seqZ; lia). done.
  - unfold s2. destruct (Z.shiftr (io_reg (pl_dev s) REG_ID) 24 =? pl_ioapicid s); cbn; [lia|]. rewrite length_app. simpl. lia.
Qed.
End ioapic.

(** ** The local APIC *)

(** A constant is a register index. *)
Ltac index := vm_compute; split; (discriminate || reflexivity).

Fixpoint loads {D} `{Bus D} (a : Z) (k : nat) (d : D) : D := match k with O => d | S k => loads a k (bus_load a d).2 end.

(** A store to [ICRLO] sends an interrupt to the processor in [ICRHI]; its delivery
    takes some time. *)
Class LapicLaws (D : Type) `{B : Bus D} (l : Z) := {
  icrhi : D -> Z;
  ipis : D -> list (Z * Z);
  ll_store : forall d i v, 0 <= i < 256 -> 0 <= v < two32 -> let d' := bus_store (l + 4 * i) v d in
    icrhi d' = (if i =? ICRHI then v else icrhi d) /\ ipis d' = ipis d ++ (if i =? ICRLO then [(Z.shiftr (icrhi d) 24, v)] else []);
  ll_load : forall d i, 0 <= i < 256 -> let d' := (bus_load (l + 4 * i) d).2 in icrhi d' = icrhi d /\ ipis d' = ipis d;
  ll_out : forall d p v, icrhi (bus_out p v d) = icrhi d /\ ipis (bus_out p v d) = ipis d;
  ll_delivered : forall d, exists k, (k <= wpolls)%nat /\ Z.land (bus_load (l + 4 * ICRLO) (loads (l + 4 * ICRLO) k d)).1 DELIVS = 0 }.

Section lapic.
Context {D : Type} (l : Z) `{LL : LapicLaws D l}.

(** Code that only stores to the local APIC: the interrupts it sends, and [ICRHI]. *)
Definition sends (m : M (plat D) unit) (f : Z -> list (Z * Z) * Z) : Prop := forall s, pl_lapic s = l ->
  exists s', m s = Ret tt s' /\ pl_lapic s' = l /\ ipis (pl_dev s') = ipis (pl_dev s) ++ (f (icrhi (pl_dev s))).1 /\ icrhi (pl_dev s') = (f (icrhi (pl_dev s))).2.

Lemma sends_bind m m' f f' : sends m f -> sends m' f' -> sends (m;; m') (fun h => let r := f h in let r' := f' r.2 in (r.1 ++ r'.1, r'.2)).
Proof.
  intros H H' s Hs. destruct (H s Hs) as (s1 & R1 & L1 & I1 & C1). destruct (H' s1 L1) as (s2 & R2 & L2 & I2 & C2). exists s2. split; [by rewrite bind_run, R1|]. split; [done|]. cbn. by rewrite I2, C2, I1, C1, <- app_assoc.
Qed.

Lemma lapicw_sends i v : 0 <= i < 256 -> sends (lapicw i v) (fun h => (if i =? ICRLO then [(Z.shiftr h 24, u32 v)] else [], if i =? ICRHI then u32 v else h)).
Proof.
  intros Hi s Hs. unfold lapicw. rewrite bind_gets, Hs. unfold storel, loadl. rewrite bind_modify. eexists. split; [reflexivity|]. cbn. split; [done|].
  destruct (ll_store (pl_dev s) i (u32 v) Hi (u32_range v)) as [E1 E2]. destruct (ll_load (bus_store (l + 4 * i) (u32 v) (pl_dev s)) ID ltac:(index)) as [E3 E4]. rewrite E3, E4. done.
Qed.

Lemma outb_sends p v : sends (outb p v) (fun h => ([], h)).
Proof. intros s Hs. eexists. split; [reflexivity|]. cbn. destruct (ll_out (pl_dev s) p (u8 v)) as [E1 E2]. by rewrite E1, E2, app_nil_r. Qed.

Lemma set_wrv_sends w : sends (modify (set_wrv w)) (fun h => ([], h)).
Proof. intros s Hs. eexists. split; [reflexivity|]. cbn. by rewrite app_nil_r. Qed.

Lemma sends_ext m f g : (forall h, f h = g h) -> sends m f -> sends m g.
Proof. intros E H s Hs. rewrite <- E. by apply H. Qed.

(** Loads in between make no difference. *)
Lemma lapicr_sends i (K : Z -> M (plat D) unit) f : 0 <= i < 256 -> (forall v, sends (K v) f) -> sends (v ← lapicr i; K v) f.
Proof.
  intros Hi HK s Hs. unfold lapicr. rewrite bind_assoc_run, bind_gets, Hs. unfold loadl. rewrite bind_run. cbv zeta. destruct (ll_load (pl_dev s) i Hi) as [E1 E2].
  destruct (HK (bus_load (l + 4 * i) (pl_dev s)).1 (set_dev (bus_load (l + 4 * i) (pl_dev s)).2 s) Hs) as (s' & R & L & I1 & C1). exists s'. split; [exact R|]. cbn in *. by rewrite E2, E1 in I1; rewrite E1 in C1.
Qed.

Lemma delivery_wait_sends fuel : forall s k, (k <= fuel)%nat -> pl_lapic s = l -> Z.land (bus_load (l + 4 * ICRLO) (loads (l + 4 * ICRLO) k (pl_dev s))).1 DELIVS = 0 ->
  exists s', delivery_wait fuel s = Ret tt s' /\ pl_lapic s' = l /\ ipis (pl_dev s') = ipis (pl_dev s) /\ icrhi (pl_dev s') = icrhi (pl_dev s).
Proof.
  induction fuel as [|fuel IH]; intros s k Hk Hs Hd; cbn [delivery_wait]; unfold lapicr; rewrite bind_assoc_run, bind_gets, Hs; unfold loadl; rewrite bind_run; cbv zeta;
    destruct (ll_load (pl_dev s) ICRLO ltac:(index)) as [E1 E2]; (destruct (Z.eqb_spec (Z.land (bus_load (l + 4 * ICRLO) (pl_dev s)).1 DELIVS) 0) as [E|E]; [eexists; split; [reflexivity|]; cbn; by rewrite E1, E2|]).
  - replace k with 0%nat in Hd by lia. done.
  - destruct k as [|k]; [done|]. destruct (IH (set_dev (bus_load (l + 4 * ICRLO) (pl_dev s)).2 s) k ltac:(lia) Hs Hd) as (s' & R & L & I1 & C1). exists s'. split; [exact R|]. cbn in *. by rewrite I1, C1, E1, E2.
Qed.

Lemma delivery_sends : sends (delivery_wait wpolls) (fun h => ([], h)).
Proof. intros s Hs. destruct (ll_delivered (pl_dev s)) as (k & Hk & Hd). destruct (delivery_wait_sends wpolls s k Hk Hs Hd) as (s' & R & L & I1 & C1). exists s'. cbn. by rewrite app_nil_r. Qed.

Lemma lapicinit_sends : l <> 0 -> sends lapicinit (fun h => ([(0, Z.lor (Z.lor BCAST INIT) LEVEL)], 0)).
Proof.
  intros Hl s Hs. unfold lapicinit. rewrite bind_gets, Hs. destruct (Z.eqb_spec l 0); [done|]. revert s Hs. 
  match goal with |- forall s, _ -> exists s', ?m s = _ /\ _ => change (sends m (fun h => ([(0, Z.lor (Z.lor BCAST INIT) LEVEL)], 0))) end.
  assert (HP : forall v, sends (if 4 <=? Z.land (Z.shiftr v 16) 0xFF then lapicw PCINT MASKED else mret tt) (fun h => ([], h))).
  { intros v. case_match; [by apply (lapicw_sends PCINT)|]. intros s Hs. exists s. cbn. by rewrite app_nil_r. }
  eapply sends_ext; [|repeat (apply sends_bind; [apply lapicw_sends; index|]); apply lapicr_sends; [index|]; intros v; apply sends_bind; [apply HP|];
    repeat (apply sends_bind; [apply lapicw_sends; index|]); apply sends_bind; [apply delivery_sends|apply lapicw_sends; index]].
  intros h. reflexivity.
Qed.

(** The interrupts that start a processor. *)
Definition start_ipis (addr apicid : Z) : list (Z * Z) :=
  [(apicid, Z.lor (Z.lor INIT LEVEL) ASSERT); (apicid, Z.lor INIT LEVEL); (apicid, Z.lor STARTUP (Z.shiftr addr 12)); (apicid, Z.lor STARTUP (Z.shiftr addr 12))].

Lemma dest_id a : 0 <= a < 256 -> Z.shiftr (u32 (Z.shiftl a 24)) 24 = a.
Proof. intros Ha. rewrite Z.shiftl_mul_pow2 by lia. rewrite u32_id by (change (2 ^ 24) with 16777216; unfold two32; lia). rewrite Z.shiftr_div_pow2 by lia. by apply Z.div_mul. Qed.

Lemma startup_vector addr : 0 <= addr < 0x100000 -> u32 (Z.lor STARTUP (Z.shiftr addr 12)) = Z.lor STARTUP (Z.shiftr addr 12).
Proof.
  intros Ha. rewrite Z.shiftr_div_pow2 by lia. change (2 ^ 12) with 4096. assert (0 <= addr / 4096 < 256) by (Z.div_mod_to_equations; lia). set (v := addr / 4096) in *.
  pose proof (Z.add_lor_land STARTUP v). pose proof (proj2 (Z.land_nonneg STARTUP v) ltac:(unfold STARTUP; lia)). pose proof (proj2 (Z.lor_nonneg STARTUP v) ltac:(unfold STARTUP; lia)). unfold STARTUP in *. apply u32_id. unfold two32. lia.
Qed.

Lemma lapicstartap_sends a addr : 0 <= a < 256 -> 0 <= addr < 0x100000 -> sends (lapicstartap a addr) (fun _ => (start_ipis addr a, u32 (Z.shiftl a 24))).
Proof.
  intros Ha Haddr. unfold lapicstartap, startup_ipi. eapply sends_ext; [|apply sends_bind; [apply outb_sends|]; apply sends_bind; [apply outb_sends|]; apply sends_bind; [apply set_wrv_sends|];
    do 3 (apply sends_bind; [apply lapicw_sends; index|]); apply sends_bind; [apply sends_bind; apply lapicw_sends; index|apply sends_bind; apply lapicw_sends; index]].
  intros h. change (ICRHI =? ICRLO) with false. change (ICRHI =? ICRHI) with true. change (ICRLO =? ICRLO) with true. change (ICRLO =? ICRHI) with false. cbv beta iota zeta. cbn [fst snd app]. rewrite !dest_id, startup_vector by done. reflexivity.
Qed.

(** Starting the other processors.  [lapicinit] ends, and together with a call of
    [lapicstartap] for each of a list of processors it sends these interrupts and no
    others, in this order: the broadcast that synchronises the arbitration
    identifiers, and for each processor an INIT that is asserted, an INIT that is
    released and twice a STARTUP with the page of the entry code. *)
Theorem lapic_ipis (s : plat D) addr aps : pl_lapic s = l -> l <> 0 -> 0 <= addr < 0x100000 -> Forall (fun a => 0 <= a < 256) aps ->
  exists s', (lapicinit;; each aps (fun a => lapicstartap a addr)) s = Ret tt s' /\
    ipis (pl_dev s') = ipis (pl_dev s) ++ (0, Z.lor (Z.lor BCAST INIT) LEVEL) :: concat (start_ipis addr <$> aps).
Proof.
  intros Hs Hl Ha Haps. destruct (lapicinit_sends Hl s Hs) as (s1 & R1 & L1 & I1 & _). mstep R1. cbn [fst] in I1.
  assert (H : exists s', each aps (fun a => lapicstartap a addr) s1 = Ret tt s' /\ ipis (pl_dev s') = ipis (pl_dev s1) ++ concat (start_ipis addr <$> aps)).
  { clear R1 I1. revert s1 L1. induction Haps as [|a aps Ha1 _ IH]; intros s1 L1; [exists s1; split; [done|]; by rewrite app_nil_r|]. cbn [each]. destruct (lapicstartap_sends a addr Ha1 Ha s1 L1) as (s2 & R2 & L2 & I2 & _). mstep R2.
    destruct (IH s2 L2) as (s3 & R3 & I3). exists s3. split; [exact R3|]. rewrite I3, I2. cbn [fst fmap list_fmap concat]. by rewrite <- app_assoc. }
  destruct H as (s2 & R2 & I2). exists s2. split; [exact R2|]. rewrite I2, I1, <- app_assoc. done.
Qed.
End lapic.

(** ** The clock *)

Definition bcd (x : Z) : Z := 16 * (x / 10) + x mod 10.
Definition coded (b : bool) (x : Z) : Z := if b then x else bcd x.
Definition coded_date (b : bool) (t : rtcdate) : rtcdate :=
  mkrtc (coded b (second t)) (coded b (minute t)) (coded b (hour t)) (coded b (day t)) (coded b (month t)) (coded b (year t)).
Definition two_digits (t : rtcdate) : Prop :=
  Forall (fun x => 0 <= x < 100) [second t; minute t; hour t; day t; month t; year t].

(** The field that a register shows. *)
Definition field (r : Z) (t : rtcdate) : option Z :=
  if r =? SECS then Some (second t) else if r =? MINS then Some (minute t) else if r =? HOURS then Some (hour t)
  else if r =? DAY then Some (day t) else if r =? MONTH then Some (month t) else if r =? YEAR then Some (year t) else None.

(** [now] is the time that the clock has reached and [date] its calendar.  Once a
    second the registers are updated, and what they show meanwhile is undefined.
    [ahead] is the number of accesses that can be made before the next update
    begins, 0 during an update: while it is positive the registers show the date of
    [now], which does not change.  When the status register shows that no update
    is in progress none begins within the next 244 microseconds, which are enough
    for the twelve accesses of one reading.  The other two status bits can be read
    at any time. *)
Class ClockLaws (D : Type) `{B : Bus D} := {
  now : D -> Z;
  ahead : D -> nat;
  cm_sel : D -> Z;
  binary : D -> bool;
  date : Z -> rtcdate;
  cl_date : forall t, two_digits (date t);
  cl_out : forall d r, 0 <= r < 128 -> let d' := bus_out CMOS_PORT r d in
    cm_sel d' = r /\ binary d' = binary d /\ now d <= now d' /\ (pred (ahead d) <= ahead d')%nat /\ ((0 < ahead d)%nat -> now d' = now d);
  cl_in : forall d, let r := bus_in CMOS_RETURN d in
    binary r.2 = binary d /\ now d <= now r.2 /\ (pred (ahead d) <= ahead r.2)%nat /\ ((0 < ahead d)%nat -> now r.2 = now d);
  cl_field : forall d x, (0 < ahead d)%nat -> field (cm_sel d) (date (now d)) = Some x -> (bus_in CMOS_RETURN d).1 = coded (binary d) x;
  cl_stata : forall d, let r := bus_in CMOS_RETURN d in cm_sel d = CMOS_STATA -> Z.land r.1 CMOS_UIP = 0 -> (12 <= ahead r.2)%nat;
  cl_statb : forall d, cm_sel d = CMOS_STATB -> (Z.land (bus_in CMOS_RETURN d).1 4 =? 0) = negb (binary d) }.

Lemma CONV_bcd x : 0 <= x < 100 -> CONV (bcd x) = x.
Proof.
  intros Hx. unfold CONV, bcd. rewrite Z.shiftr_div_pow2 by lia. change 15 with (Z.ones 4). rewrite Z.land_ones by lia. change (2 ^ 4) with 16. assert (0 <= x mod 10 < 10 /\ 0 <= x / 10 < 10) by (Z.div_mod_to_equations; lia).
  set (q := x / 10) in *. set (r := x mod 10) in *. assert (x = 10 * q + r) by (unfold q, r; Z.div_mod_to_equations; lia). clearbody q r. Z.div_mod_to_equations; lia.
Qed.

Lemma conv_coded t : two_digits t -> conv_date (coded_date false t) = t.
Proof. destruct t. unfold two_digits. rewrite !Forall_cons. simpl. intros (? & ? & ? & ? & ? & ? & _). unfold conv_date, coded_date. simpl. by rewrite !CONV_bcd. Qed.

Section clock.
Context {D : Type} `{CL : ClockLaws D}.

(** No update is near for [n] accesses: the registers can be read, and the status
    register shows it. *)
Fixpoint quiet (n : nat) (d : D) : Prop :=
  match n with
  | O => True
  | S n => (0 < ahead d)%nat /\ (forall r, 0 <= r < 128 -> quiet n (bus_out CMOS_PORT r d)) /\
           (let r := bus_in CMOS_RETURN d in (cm_sel d = CMOS_STATA -> Z.land r.1 CMOS_UIP = 0) /\ quiet n r.2)
  end.

(** After at most [K] accesses it does so long enough for two readings. *)
Fixpoint settles (K : nat) (d : D) : Prop :=
  quiet 52 d \/ match K with
                | O => False
                | S K => (forall r, 0 <= r < 128 -> settles K (bus_out CMOS_PORT r d)) /\ settles K (bus_in CMOS_RETURN d).2
                end.

(** [n] accesses later. *)
Definition later (K n : nat) (d : D) : Prop := (exists j, (j <= n)%nat /\ quiet (52 - j) d) \/ settles (K - n) d.

Lemma later_step K n d d' : (n < 52)%nat -> (exists r, 0 <= r < 128 /\ d' = bus_out CMOS_PORT r d) \/ d' = (bus_in CMOS_RETURN d).2 -> later K n d -> later K (S n) d'.
Proof.
  intros Hn Hd H. assert (Hq : forall q, quiet (S q) d -> quiet q d') by (intros q (_ & Q1 & _ & Q2); destruct Hd as [(r & Hr & ->)| ->]; [apply Q1, Hr|exact Q2]). destruct H as [(j & Hj & Hq1)|Hs].
  - left. exists (S j). split; [lia|]. apply Hq. by replace (S (52 - S j)) with (52 - j)%nat by lia.
  - destruct (K - n)%nat as [|k] eqn:E; cbn [settles] in Hs.
    + destruct Hs as [Hs|[]]. left. exists 1%nat. split; [lia|]. by apply Hq.
    + destruct Hs as [Hs|[H1 H2]]; [left; exists 1%nat; split; [lia|]; by apply Hq|]. right. replace (K - S n)%nat with k by lia. destruct Hd as [(r & Hr & ->)| ->]; [by apply H1|done].
Qed.

(** What one [cmos_read] does.  [still n]: for [n] accesses the registers show the
    date of [now]. *)
Definition still (n : nat) (d : D) : Prop := (n <= ahead d)%nat \/ quiet n d.

Lemma still_out n r d : 0 <= r < 128 -> still (S n) d ->
  still n (bus_out CMOS_PORT r d) /\ now (bus_out CMOS_PORT r d) = now d.
Proof.
  intros Hr H. destruct (cl_out d r Hr) as (_ & _ & _ & Ha & Hn). destruct H as [H|(H & Q & _)].
  - split; [left; lia|apply Hn; lia].
  - split; [right; by apply Q|by apply Hn].
Qed.

Lemma still_in n d : still (S n) d ->
  still n (bus_in CMOS_RETURN d).2 /\ now (bus_in CMOS_RETURN d).2 = now d /\ (0 < ahead d)%nat.
Proof.
  intros H. destruct (cl_in d) as (_ & _ & Ha & Hn). destruct H as [H|(H & _ & _ & Q)].
  - split; [left; lia|split; [apply Hn|]; lia].
  - split; [by right|split; [by apply Hn|done]].
Qed.

Lemma cmos_read_run s r : 0 <= r < 128 ->
  exists v d, cmos_read r s = Ret v (set_dev d s) /\ binary d = binary (pl_dev s) /\ now (pl_dev s) <= now d /\
    (r = CMOS_STATB -> (Z.land v 4 =? 0) = negb (binary d)) /\ (r = CMOS_STATA -> Z.land v CMOS_UIP = 0 -> (12 <= ahead d)%nat) /\
    (forall K n, (n + 2 <= 52)%nat -> later K n (pl_dev s) -> later K (n + 2) d) /\
    (forall n, quiet (n + 2) (pl_dev s) -> quiet n d /\ (r = CMOS_STATA -> Z.land v CMOS_UIP = 0)) /\
    (forall n, still (n + 2) (pl_dev s) -> still n d /\ now d = now (pl_dev s) /\
       forall x, field r (date (now (pl_dev s))) = Some x -> v = coded (binary (pl_dev s)) x).
Proof.
  intros Hr. unfold cmos_read, outb, inb. rewrite bind_modify. cbv zeta. unfold u8. rewrite (Z.mod_small r 256) by lia. cbn [pl_dev set_dev].
  destruct (cl_out (pl_dev s) r Hr) as (E1 & E2 & E3 & _). set (d1 := bus_out CMOS_PORT r (pl_dev s)) in *. destruct (cl_in d1) as (E4 & E5 & _).
  eexists _, _. split; [reflexivity|]. split; [congruence|]. split; [lia|]. split; [intros Hb; rewrite E4; apply cl_statb; congruence|].
  split; [intros Hb; apply cl_stata; congruence|]. split; [|split].
  - intros K n Hn HW. replace (n + 2)%nat with (S (S n)) by lia. apply (later_step _ _ d1); [lia|by right|]. apply (later_step _ _ (pl_dev s)); [lia|left; by exists r|done].
  - intros n Hq. replace (n + 2)%nat with (S (S n)) in Hq by lia. destruct Hq as (_ & Hq & _). specialize (Hq r Hr). fold d1 in Hq. destruct Hq as (_ & _ & U & Q). split; [exact Q|]. intros Ha. apply U. congruence.
  - intros n Hs. replace (n + 2)%nat with (S (S n)) in Hs by lia. destruct (still_out (S n) r (pl_dev s) Hr Hs) as [S1 N1]. fold d1 in S1, N1.
    destruct (still_in n d1 S1) as (S2 & N2 & P). split; [exact S2|]. split; [congruence|]. intros x Hx. rewrite <- E2. apply cl_field; [exact P|]. by rewrite E1, N1.
Qed.

(** What one reading of the clock does: what it returns is a date of the clock when
    no update comes in between. *)
Lemma fill_run s : exists v d, fill_rtcdate s = Ret v (set_dev d s) /\ binary d = binary (pl_dev s) /\ now (pl_dev s) <= now d /\
    (forall K n, (n + 12 <= 52)%nat -> later K n (pl_dev s) -> later K (n + 12) d) /\ (forall n, quiet (n + 12) (pl_dev s) -> quiet n d) /\
    (forall n, still (n + 12) (pl_dev s) -> still n d /\ now d = now (pl_dev s) /\ v = coded_date (binary (pl_dev s)) (date (now (pl_dev s)))).
Proof.
  unfold fill_rtcdate.
  destruct (cmos_read_run s SECS ltac:(index)) as (v1 & d1 & R1 & B1 & N1 & _ & _ & L1 & Q1 & S1). mstep R1.
  destruct (cmos_read_run (set_dev d1 s) MINS ltac:(index)) as (v2 & d2 & R2 & B2 & N2 & _ & _ & L2 & Q2 & S2). mstep R2.
  destruct (cmos_read_run (set_dev d2 s) HOURS ltac:(index)) as (v3 & d3 & R3 & B3 & N3 & _ & _ & L3 & Q3 & S3). mstep R3.
  destruct (cmos_read_run (set_dev d3 s) DAY ltac:(index)) as (v4 & d4 & R4 & B4 & N4 & _ & _ & L4 & Q4 & S4). mstep R4.
  destruct (cmos_read_run (set_dev d4 s) MONTH ltac:(index)) as (v5 & d5 & R5 & B5 & N5 & _ & _ & L5 & Q5 & S5). mstep R5.
  destruct (cmos_read_run (set_dev d5 s) YEAR ltac:(index)) as (v6 & d6 & R6 & B6 & N6 & _ & _ & L6 & Q6 & S6). mstep R6.
  cbn [pl_dev set_dev] in *. eexists _, d6. split; [reflexivity|]. split; [congruence|]. split; [lia|]. split; [|split].
  - intros K n Hn H. replace (n + 12)%nat with (n + 2 + 2 + 2 + 2 + 2 + 2)%nat by lia. apply L6, L5, L4, L3, L2, L1; lia || done.
  - intros n H. replace (n + 12)%nat with (n + 2 + 2 + 2 + 2 + 2 + 2)%nat in H by lia. by apply Q6, Q5, Q4, Q3, Q2, Q1.
  - intros n H. replace (n + 12)%nat with (n + 2 + 2 + 2 + 2 + 2 + 2)%nat in H by lia.
    destruct (S1 _ H) as (H1 & M1 & F1). destruct (S2 _ H1) as (H2 & M2 & F2). destruct (S3 _ H2) as (H3 & M3 & F3).
    destruct (S4 _ H3) as (H4 & M4 & F4). destruct (S5 _ H4) as (H5 & M5 & F5). destruct (S6 _ H5) as (H6 & M6 & F6).
    split; [done|]. split; [congruence|]. rewrite M5, M4, M3, M2, M1, B5, B4, B3, B2, B1 in F6. rewrite M4, M3, M2, M1, B4, B3, B2, B1 in F5.
    rewrite M3, M2, M1, B3, B2, B1 in F4. rewrite M2, M1, B2, B1 in F3. rewrite M1, B1 in F2.
    unfold coded_date. by rewrite (F1 _ eq_refl), (F2 _ eq_refl), (F3 _ eq_refl), (F4 _ eq_refl), (F5 _ eq_refl), (F6 _ eq_refl).
Qed.

Lemma quiet_le m n d : (m <= n)%nat -> quiet n d -> quiet m d.
Proof.
  revert n d. induction m as [|m IH]; intros n d Hmn; [done|]. destruct n as [|n]; [lia|]. intros (H1 & H2 & H3 & H4). split; [done|]. split; [intros r Hr; by apply (IH n); [lia|apply H2]|]. split; [done|]. by apply (IH n); [lia|].
Qed.

(** Enough rounds are left for the loop. *)
Definition enough (fuel : nat) (d : D) : Prop := (0 < fuel)%nat /\ (quiet 26 d \/ exists K, settles K d /\ (K + 1 < fuel)%nat).

Lemma enough_start K fuel d : settles K d -> (K + 1 < fuel)%nat -> enough fuel d.
Proof. intros H Hf. split; [lia|]. right. by exists K. Qed.

(** After a round that took [n] accesses, from a device that was not quiet. *)
Lemma enough_round n fuel d d' : enough (S fuel) d -> (1 <= n <= 26)%nat -> (quiet 26 d -> False) -> (forall K, later K 0 d -> later K n d') -> enough fuel d'.
Proof.
  intros [_ H] Hn Hq HW. destruct H as [H|(K & HK & Hf)]; [done|]. assert (HL : later K 0 d) by (right; by rewrite Nat.sub_0_r).
  destruct K as [|K]; [destruct Hq; destruct HK as [HK|[]]; by apply (quiet_le 26 52); [lia|]|]. split; [lia|]. destruct (HW _ HL) as [(j & Hj & Hq')|Hs]; [left; by apply (quiet_le 26 (52 - j)); [lia|]|]. right. exists (S K - n)%nat. split; [done|lia].
Qed.

Lemma cmos_loop_run fuel : forall s, enough fuel (pl_dev s) ->
  exists d t, cmos_loop fuel s = Ret (coded_date (binary (pl_dev s)) (date t)) (set_dev d s) /\ binary d = binary (pl_dev s) /\ now (pl_dev s) <= t <= now d.
Proof.
  induction fuel as [|fuel IH]; intros s He; [destruct He; lia|]. cbn [cmos_loop].
  destruct (fill_run s) as (v1 & d1 & R1 & B1 & N1 & L1 & Q1 & S1). mstep R1.
  destruct (cmos_read_run (set_dev d1 s) CMOS_STATA ltac:(index)) as (a & d2 & R2 & B2 & N2 & _ & U2 & L2 & Q2 & S2). mstep R2. cbn [pl_dev set_dev] in *.
  destruct (Z.eqb_spec (Z.land a CMOS_UIP) 0) as [Ea|Ea]; cbn [negb].
  - destruct (fill_run (set_dev d2 s)) as (v2 & d3 & R3 & B3 & N3 & L3 & _ & S3). mstep R3. cbn [pl_dev set_dev] in *.
    destruct (S3 0%nat) as (_ & M3 & V3); [left; by apply U2|]. rewrite B2, B1 in V3. case_bool_decide as Ev.
    + exists d3, (now d2). split; [rewrite Ev, V3; done|]. split; [congruence|lia].
    + destruct (IH (set_dev d3 s)) as (d & t & R & Bd & T).
      { apply (enough_round 26 fuel (pl_dev s) d3 He); [lia| |intros K HK; apply (L3 K 14%nat), (L2 K 12%nat), (L1 K 0%nat); lia || done].
        intros Hq. apply Ev. destruct (S1 14%nat (or_intror Hq)) as (_ & M1 & V1). pose proof (Q1 14%nat Hq) as H1.
        destruct (S2 12%nat (or_intror H1)) as (_ & M2 & _). rewrite V1, V3. congruence. }
      exists d, t. cbn [pl_dev set_dev] in *. split; [rewrite B3, B2, B1 in R; exact R|]. split; [congruence|lia].
  - destruct (IH (set_dev d2 s)) as (d & t & R & Bd & T).
    { apply (enough_round 14 fuel (pl_dev s) d2 He); [lia| |intros K HK; apply (L2 K 12%nat), (L1 K 0%nat); lia || done]. intros Hq. pose proof (Q1 14%nat Hq) as H1. destruct (Q2 12%nat H1) as (_ & HU). by apply Ea, HU. }
    exists d, t. cbn [pl_dev set_dev] in *. split; [rewrite B2, B1 in R; exact R|]. split; [congruence|lia].
Qed.

(** C25. The time of day.  The clock goes on while its registers are read one after
    the other, and what a register shows during an update is undefined.  Even so
    [cmostime] returns the date and time that the clock showed at one moment during
    the call, in either of the encodings of the registers.  It does return:
    whatever it reads before, once no update is near for 52 accesses it is done. *)
Theorem cmostime_consistent (s : plat D) K : settles K (pl_dev s) ->
  exists s' t, cmostime (K + 3) s = Ret (add_2000 (date t)) s' /\ now (pl_dev s) <= t <= now (pl_dev s').
Proof.
  intros HK. unfold cmostime. destruct (cmos_read_run s CMOS_STATB ltac:(index)) as (v & d1 & R1 & B1 & N1 & E1 & _ & L1 & _). mstep R1. rewrite (E1 eq_refl).
  assert (He : enough (K + 3) d1).
  { destruct (L1 K 0%nat ltac:(lia)) as [(j & Hj & Hq)|Hs]; [right; by rewrite Nat.sub_0_r|split; [lia|]; left; by apply (quiet_le 26 (52 - j)); [lia|]|]. by apply (enough_start (K - (0 + 2))); [|lia]. }
  destruct (cmos_loop_run (K + 3) (set_dev d1 s) He) as (d & t & R & Bd & T). mstep R. cbn [pl_dev set_dev] in *. exists (set_dev d (set_dev d1 s)), t. split; [|cbn; lia]. pose proof (cl_date t) as H2. destruct (binary d1); cbn [negb]; [|by rewrite conv_coded]. by destruct (date t).
Qed.
End clock.

(** ** The serial port *)

(** [tx] has the bytes that were sent, [rx] those that wait to be read.  While the
    divisor is unlocked, the data port is its low byte. *)
Class UartLaws (D : Type) `{B : Bus D} := {
  tx : D -> list Z;
  rx : D -> list Z;
  dlab : D -> bool;
  present : D -> bool;
  ul_present : (forall p v d, present (bus_out p v d) = present d) /\ (forall a v d, present (bus_store a v d) = present d) /\ forall p d, present (bus_in p d).2 = present d;
  ul_bytes : forall d, Forall (fun c => 0 <= c < 256) (rx d);
  ul_status : forall d, let r := bus_in (COM1 + 5) d in
    (tx r.2 = tx d /\ rx r.2 = rx d /\ dlab r.2 = dlab d) /\ (r.1 =? 0xFF) = negb (present d) /\ (present d = true -> (Z.land r.1 1 =? 0) = bool_decide (rx d = []));
  ul_iir : forall d, let r := bus_in (COM1 + 2) d in tx r.2 = tx d /\ rx r.2 = rx d /\ dlab r.2 = dlab d;
  ul_get : forall d, dlab d = false -> let r := bus_in COM1 d in tx r.2 = tx d /\ rx r.2 = tail (rx d) /\ dlab r.2 = dlab d /\ forall c, head (rx d) = Some c -> r.1 = c;
  ul_put : forall d v, 0 <= v < 256 -> let d' := bus_out COM1 v d in tx d' = (if dlab d then tx d else tx d ++ [v]) /\ rx d' = rx d /\ dlab d' = dlab d;
  ul_control : forall d p v, COM1 + 1 <= p <= COM1 + 4 -> 0 <= v < 256 ->
    let d' := bus_out p v d in tx d' = tx d /\ rx d' = rx d /\ dlab d' = if p =? COM1 + 3 then Z.testbit v 7 else dlab d;
  ul_store : forall a v d, let d' := bus_store a v d in tx d' = tx d /\ rx d' = rx d /\ dlab d' = dlab d }.

Section uart.
Context {D : Type} `{UL : UartLaws D}.

(** The serial port is set up, with these bytes. *)
Record port_is (t r : list Z) (s : plat D) : Prop := {
  pi_uart : pl_uart s = true; pi_tx : tx (pl_dev s) = t; pi_rx : rx (pl_dev s) = r; pi_dlab : dlab (pl_dev s) = false; pi_present : present (pl_dev s) = true }.

Lemma bind_inb {A} p (K : Z -> M (plat D) A) s : (inb p ≫= K) s = K (bus_in p (pl_dev s)).1 (set_dev (bus_in p (pl_dev s)).2 s).
Proof. reflexivity. Qed.

Lemma uart_wait_run i : forall t r s, port_is t r s -> exists s', uart_wait i s = Ret tt s' /\ port_is t r s'.
Proof.
  induction i as [|i IH]; intros t r s H; [by exists s|]. cbn [uart_wait]. rewrite bind_inb. destruct (ul_status (pl_dev s)) as ((E1 & E2 & E3) & _). destruct ul_present as (_ & _ & P).
  assert (H' : port_is t r (set_dev (bus_in (COM1 + 5) (pl_dev s)).2 s)) by (destruct H; split; cbn; congruence). destruct (negb _); [by eexists|]. by apply IH.
Qed.

Lemma port_put_run c t r s : port_is t r s -> exists s', uartputc c s = Ret tt s' /\ port_is (t ++ [u8 c]) r s'.
Proof.
  intros H. unfold uartputc. rewrite bind_gets, (pi_uart _ _ _ H). cbn [negb]. destruct (uart_wait_run 128 t r s H) as (s1 & R1 & H1). mstep R1. eexists. split; [reflexivity|].
  destruct (ul_put (pl_dev s1) (u8 c) (u8_range c)) as (E1 & E2 & E3). destruct ul_present as (P & _). destruct H1 as [H1 H2 H3 H4 H5]. rewrite H4 in E1. split; cbn; rewrite ?P; congruence.
Qed.

Lemma puts_run cs : forall t r s, port_is t r s -> exists s', each cs uartputc s = Ret tt s' /\ port_is (t ++ (u8 <$> cs)) r s'.
Proof.
  induction cs as [|c cs IH]; intros t r s H; [exists s; split; [done|]; by rewrite app_nil_r|]. cbn [each]. destruct (port_put_run c t r s H) as (s1 & R1 & H1). mstep R1. destruct (IH _ _ _ H1) as (s2 & R2 & H2). exists s2. split; [exact R2|]. by rewrite <- app_assoc in H2.
Qed.

(** The ports of the set-up, the divisor among them. *)
Lemma control_run p v (K : unit -> M (plat D) unit) s : COM1 <= p <= COM1 + 4 -> (p = COM1 -> dlab (pl_dev s) = true) -> 0 <= v < 256 ->
  exists d, (outb p v ≫= K) s = K tt (set_dev d s) /\ tx d = tx (pl_dev s) /\ rx d = rx (pl_dev s) /\ present d = present (pl_dev s) /\ dlab d = if p =? COM1 + 3 then Z.testbit v 7 else dlab (pl_dev s).
Proof.
  intros Hp Hd Hv. unfold outb. rewrite bind_modify. unfold u8. rewrite Z.mod_small by done. destruct ul_present as (P & _). eexists. split; [reflexivity|]. rewrite P. destruct (decide (p = COM1)) as [->|Hne].
  - destruct (ul_put (pl_dev s) v Hv) as (E1 & E2 & E3). rewrite (Hd eq_refl) in E1. done.
  - destruct (ul_control (pl_dev s) p v ltac:(lia) Hv) as (E1 & E2 & E3). done.
Qed.

Lemma storel_port a v t r s : port_is t r s -> exists s', storel a v s = Ret tt s' /\ port_is t r s'.
Proof. intros [H1 H2 H3 H4 H5]. eexists. split; [reflexivity|]. destruct ul_present as (_ & P & _). destruct (ul_store a (u32 v) (pl_dev s)) as (E1 & E2 & E3). split; cbn; rewrite ?P; congruence. Qed.

Lemma ioapicenable_port irq cpu t r s : port_is t r s -> exists s', ioapicenable irq cpu s = Ret tt s' /\ port_is t r s'.
Proof.
  intros H. unfold ioapicenable, ioapicwrite. rewrite bind_assoc_run. destruct (storel_port IOAPIC (REG_TABLE + 2 * irq) _ _ _ H) as (s1 & R1 & H1). mstep R1. destruct (storel_port (IOAPIC + 16) (T_IRQ0 + irq) _ _ _ H1) as (s2 & R2 & H2). mstep R2.
  destruct (storel_port IOAPIC (REG_TABLE + 2 * irq + 1) _ _ _ H2) as (s3 & R3 & H3). mstep R3. apply storel_port, H3.
Qed.

Ltac control d T X P L :=
  match goal with |- context [(outb ?p ?v ≫= ?K) ?s] =>
    destruct (control_run p v K s ltac:(unfold COM1; lia) ltac:(done) ltac:(vm_compute; split; discriminate || reflexivity)) as (d & -> & T & X & P & L); cbn [pl_dev set_dev] in *
  end.

Lemma uartinit_run s : present (pl_dev s) = true -> exists s', uartinit s = Ret tt s' /\ port_is (tx (pl_dev s) ++ announce) (tail (rx (pl_dev s))) s'.
Proof.
  intros Hp. unfold uartinit. control d1 T1 Y1 P1 L1. control d2 T2 Y2 P2 L2. control d3 T3 Y3 P3 L3. control d4 T4 Y4 P4 L4. control d5 T5 Y5 P5 L5. control d6 T6 Y6 P6 L6. control d7 T7 Y7 P7 L7.
  change (dlab d5 = false) in L5. change (dlab d6 = dlab d5) in L6. change (dlab d7 = dlab d6) in L7.
  rewrite bind_inb. cbn [pl_dev set_dev]. destruct (ul_status d7) as ((T8 & Y8 & L8) & S8 & _). destruct ul_present as (_ & _ & PI). pose proof (PI (COM1 + 5) d7) as P8. assert (Hp7 : present d7 = true) by congruence. rewrite S8, Hp7. cbn [negb].
  rewrite bind_modify. set (d8 := (bus_in (COM1 + 5) d7).2) in *. clearbody d8. rewrite bind_inb. cbn [pl_dev set_dev set_uart]. destruct (ul_iir d8) as (T9 & Y9 & L9). pose proof (PI (COM1 + 2) d8) as P9. set (d9 := (bus_in (COM1 + 2) d8).2) in *. clearbody d9.
  rewrite bind_inb. cbn [pl_dev set_dev set_uart]. assert (Hl9 : dlab d9 = false) by congruence. destruct (ul_get d9 Hl9) as (T10 & Y10 & L10 & _). pose proof (PI COM1 d9) as P10. set (d10 := (bus_in COM1 d9).2) in *. clearbody d10.
  match goal with |- context [(ioapicenable _ _ ≫= _) ?s'] => assert (Hs : port_is (tx (pl_dev s)) (tail (rx (pl_dev s))) s') by (split; cbn; try congruence; rewrite Y10; congruence); destruct (ioapicenable_port IRQ_COM1 0 _ _ _ Hs) as (s1 & R1 & H1) end.
  mstep R1. exact (puts_run announce _ _ _ H1).
Qed.

Lemma uartgetc_run t r s : port_is t r s -> exists s', uartgetc s = Ret (default (-1) (head r)) s' /\ port_is t (tail r) s'.
Proof.
  intros H. unfold uartgetc. rewrite bind_gets, (pi_uart _ _ _ H). cbn [negb]. rewrite bind_inb. destruct (ul_status (pl_dev s)) as ((E1 & E2 & E3) & _ & E4). destruct ul_present as (_ & _ & P). rewrite (E4 (pi_present _ _ _ H)), (pi_rx _ _ _ H). pose proof (P (COM1 + 5) (pl_dev s)) as P1. set (d1 := (bus_in (COM1 + 5) (pl_dev s)).2) in *. clearbody d1.
  assert (H' : port_is t r (set_dev d1 s)) by (destruct H; split; cbn; congruence). destruct r as [|c r]; [by eexists|]. rewrite bool_decide_false by done. destruct H' as [H1 H2 H3 H4 H5]. cbn in *. destruct (ul_get d1 H4) as (G1 & G2 & G3 & G4). rewrite H3 in G2, G4. simpl in G2.
  eexists. split; [unfold inb; cbn; by rewrite (G4 c eq_refl)|]. split; cbn; rewrite ?P; congruence.
Qed.

Lemma uartintr_run t : forall r fuel dd s k b k', (length r < fuel)%nat -> Forall (fun c => 0 <= c < 256) r -> port_is t r s -> consoleintr r dd k = Ret b k' ->
  exists s', uartintr fuel dd (s, k) = Ret b (s', k') /\ port_is t [] s'.
Proof.
  induction r as [|c r IH]; intros fuel dd s k b k' Hf Hr H Hc; (destruct fuel as [|fuel]; [simpl in Hf; lia|]); cbn [uartintr]; rewrite bind_run; unfold zoom at 1; cbn [fst]; destruct (uartgetc_run _ _ _ H) as (s1 & R1 & H1); rewrite R1; cbn in H1 |- *.
  - injection Hc as <- <-. by exists s1.
  - apply Forall_cons in Hr as [Hc0 Hr]. destruct (Z.ltb_spec c 0); [lia|]. cbn [consoleintr] in Hc. apply bind_inv in Hc as (d & k1 & Hk & Hc). unfold zoom at 1. rewrite bind_run. cbn [snd fst]. rewrite Hk. apply IH; [simpl in Hf; lia|done|done|done].
Qed.

(** The serial port.  When there is one, [uartinit] announces itself, and the
    characters that [uartputc] is called with follow, each of them exactly once and
    in order, however long the port is not ready.  An interrupt then is what
    [consoleintr] does with the bytes that have been received, one of which
    [uartinit] has dropped, and none is left.  When there is no port, nothing is
    sent. *)
Theorem serial_port (s : plat D) cs :
  if present (pl_dev s) then
    exists s', (uartinit;; each cs uartputc) s = Ret tt s' /\ tx (pl_dev s') = tx (pl_dev s) ++ announce ++ (u8 <$> cs) /\
      forall dd k b k', consoleintr (tail (rx (pl_dev s))) dd k = Ret b k' ->
        exists s'', uartintr (S (length (rx (pl_dev s)))) dd (s', k) = Ret b (s'', k') /\ rx (pl_dev s'') = [] /\ tx (pl_dev s'') = tx (pl_dev s')
  else pl_uart s = false -> exists s', (uartinit;; each cs uartputc) s = Ret tt s' /\ pl_uart s' = false /\ tx (pl_dev s') = tx (pl_dev s).
Proof.
  destruct (present (pl_dev s)) eqn:Hp.
  - destruct (uartinit_run s Hp) as (s1 & R1 & H1). mstep R1. destruct (puts_run cs _ _ _ H1) as (s2 & R2 & H2). exists s2. split; [exact R2|]. split; [rewrite (pi_tx _ _ _ H2), <- app_assoc; done|]. intros dd k b k' Hc.
    destruct (uartintr_run ((tx (pl_dev s) ++ announce) ++ (u8 <$> cs)) (tail (rx (pl_dev s))) (S (length (rx (pl_dev s)))) dd s2 k b k') as (s3 & R3 & H3); [destruct (rx (pl_dev s)); simpl; lia| |done|done|].
    { pose proof (ul_bytes (pl_dev s)) as Hb. destruct Hb; [done|simpl; done]. }
    exists s3. split; [exact R3|]. split; [apply (pi_rx _ _ _ H3)|]. by rewrite (pi_tx _ _ _ H3), (pi_tx _ _ _ H2).
  - intros Hu. assert (E : exists d, uartinit s = Ret tt (set_dev d s) /\ tx d = tx (pl_dev s)).
    { unfold uartinit. control d1 T1 Y1 P1 L1. control d2 T2 Y2 P2 L2. control d3 T3 Y3 P3 L3. control d4 T4 Y4 P4 L4. control d5 T5 Y5 P5 L5. control d6 T6 Y6 P6 L6. control d7 T7 Y7 P7 L7.
      rewrite bind_inb. cbn [pl_dev set_dev]. destruct (ul_status d7) as ((T8 & Y8 & L8) & S8 & _). assert (Hp7 : present d7 = false) by congruence. rewrite S8, Hp7. eexists. split; [reflexivity|]. congruence. }
    destruct E as (d & R & E). mstep R. exists (set_dev d s). split; [|by rewrite <- E]. induction cs as [|c cs IH]; [done|]. cbn [each]. assert (R2 : uartputc c (set_dev d s) = Ret tt (set_dev d s)) by (unfold uartputc; rewrite bind_gets; cbn; by rewrite Hu). mstep R2. exact IH.
Qed.
End uart.

(** ** A machine with these devices *)

(** [sb_n] counts the accesses to the clock, which is in an update for the first
    five of them. *)
Record simbus := mksb { sb_sel : Z; sb_reg : Z -> Z; sb_icr : Z; sb_ipis : list (Z * Z); sb_tx : list Z; sb_rx : list (fin 256); sb_dlab : bool; sb_cmos : Z; sb_n : Z }.

Definition sb_now (d : simbus) : Z := if sb_n d <? 5 then 59 else 60.
Definition sb_date (t : Z) : rtcdate := mkrtc (t mod 60) ((t / 60) mod 60) 12 15 11 26.
Definition sb_bytes (d : simbus) : list Z := (fun c : fin 256 => Z.of_nat (fin_to_nat c)) <$> sb_rx d.
Definition tick (d : simbus) : simbus := mksb (sb_sel d) (sb_reg d) (sb_icr d) (sb_ipis d) (sb_tx d) (sb_rx d) (sb_dlab d) (sb_cmos d) (sb_n d + 1).

(** During the update the registers show nonsense. *)
Definition sb_clockreg (d : simbus) : Z :=
  match field (sb_cmos d) (sb_date (sb_now d)) with
  | Some x => if sb_n d <? 5 then 0x99 else bcd x
  | None => if (sb_cmos d =? CMOS_STATA) && (sb_n d <? 5) then CMOS_UIP else 0
  end.

Definition sb_out (p v : Z) (d : simbus) : simbus :=
  if p =? COM1 then (if sb_dlab d then d else mksb (sb_sel d) (sb_reg d) (sb_icr d) (sb_ipis d) (sb_tx d ++ [v]) (sb_rx d) (sb_dlab d) (sb_cmos d) (sb_n d))
  else if p =? COM1 + 3 then mksb (sb_sel d) (sb_reg d) (sb_icr d) (sb_ipis d) (sb_tx d) (sb_rx d) (Z.testbit v 7) (sb_cmos d) (sb_n d)
  else if p =? CMOS_PORT then tick (mksb (sb_sel d) (sb_reg d) (sb_icr d) (sb_ipis d) (sb_tx d) (sb_rx d) (sb_dlab d) v (sb_n d))
  else d.
Definition sb_in (p : Z) (d : simbus) : Z * simbus :=
  if p =? COM1 then (default 0 (head (sb_bytes d)), mksb (sb_sel d) (sb_reg d) (sb_icr d) (sb_ipis d) (sb_tx d) (tail (sb_rx d)) (sb_dlab d) (sb_cmos d) (sb_n d))
  else if p =? COM1 + 5 then (match sb_rx d with [] => 0x20 | _ => 0x21 end, d)
  else if p =? CMOS_RETURN then (sb_clockreg d, tick d)
  else (0, d).
Definition sb_load (a : Z) (d : simbus) : Z * simbus := (if a =? IOAPIC + 16 then (if sb_sel d =? REG_VER then 0x170011 else sb_reg d (sb_sel d)) else 0, d).
Definition sb_store (a v : Z) (d : simbus) : simbus :=
  if a =? IOAPIC then mksb v (sb_reg d) (sb_icr d) (sb_ipis d) (sb_tx d) (sb_rx d) (sb_dlab d) (sb_cmos d) (sb_n d)
  else if a =? IOAPIC + 16 then mksb (sb_sel d) (fun r => if r =? sb_sel d then v else sb_reg d r) (sb_icr d) (sb_ipis d) (sb_tx d) (sb_rx d) (sb_dlab d) (sb_cmos d) (sb_n d)
  else if a =? 0xFEE00000 + 4 * ICRHI then mksb (sb_sel d) (sb_reg d) v (sb_ipis d) (sb_tx d) (sb_rx d) (sb_dlab d) (sb_cmos d) (sb_n d)
  else if a =? 0xFEE00000 + 4 * ICRLO then mksb (sb_sel d) (sb_reg d) (sb_icr d) (sb_ipis d ++ [(Z.shiftr (sb_icr d) 24, v)]) (sb_tx d) (sb_rx d) (sb_dlab d) (sb_cmos d) (sb_n d)
  else d.

#[export] Instance sb_bus : Bus simbus := { bus_in := sb_in; bus_out := sb_out; bus_load := sb_load; bus_store := sb_store; wpolls := 0 }.

#[export] Instance sb_ioapic : IoapicLaws simbus.
Proof.
  refine {| io_sel := sb_sel; io_reg := fun d r => if r =? REG_VER then 0x170011 else sb_reg d r |}; try done.
  intros d v Hs Hv r. cbn. unfold sb_store. change (IOAPIC + 16 =? IOAPIC) with false. rewrite Z.eqb_refl. cbn. destruct (Z.eqb_spec r REG_VER), (Z.eqb_spec r (sb_sel d)); try done. unfold REG_VER, REG_TABLE in *. lia.
Defined.

#[export] Instance sb_lapic : LapicLaws simbus 0xFEE00000.
Proof.
  refine {| icrhi := sb_icr; ipis := sb_ipis |}; try done.
  - intros d i v Hi Hv. cbn. unfold sb_store, IOAPIC, ICRHI, ICRLO. change (0x300 / 4) with 192. change (0x310 / 4) with 196. zcases; cbn; rewrite ?app_nil_r; done.
  - intros d p v. cbn. unfold sb_out. repeat case_match; done.
  - intros d. by exists 0%nat.
Defined.

#[export] Instance sb_uart : UartLaws simbus.
Proof.
  refine {| tx := sb_tx; rx := sb_bytes; dlab := sb_dlab; present := fun _ => true |}; try done.
  - intros d. unfold sb_bytes. apply Forall_fmap, Forall_forall. intros c _. cbn. pose proof (fin_to_nat_lt c). lia.
  - intros d. change (bus_in (COM1 + 5) d) with (match sb_rx d with [] => 0x20 | _ => 0x21 end, d). unfold sb_bytes. destruct (sb_rx d) as [|c l] eqn:E; cbn [fst snd]; rewrite E; (split; [done|]); (split; [done|]); intros _; [by rewrite bool_decide_true|by rewrite bool_decide_false].
  - intros d H. change (bus_in COM1 d) with (default 0 (head (sb_bytes d)), mksb (sb_sel d) (sb_reg d) (sb_icr d) (sb_ipis d) (sb_tx d) (tail (sb_rx d)) (sb_dlab d) (sb_cmos d) (sb_n d)). cbn. unfold sb_bytes. destruct (sb_rx d); cbn; [done|]. split; [done|]. split; [done|]. split; [done|]. intros x Hx. by injection Hx.
  - intros d v Hv. cbn. unfold sb_out. destruct (sb_dlab d) eqn:E; cbn; by rewrite ?E.
  - intros d p v Hp Hv. cbn. unfold sb_out, CMOS_PORT. unfold COM1 in *. zcases; done.
  - intros a v d. cbn. unfold sb_store. repeat case_match; done.
Defined.

Lemma sb_select r (d : simbus) : bus_out CMOS_PORT r d = tick (mksb (sb_sel d) (sb_reg d) (sb_icr d) (sb_ipis d) (sb_tx d) (sb_rx d) (sb_dlab d) r (sb_n d)).
Proof. reflexivity. Qed.
Lemma sb_value (d : simbus) : bus_in CMOS_RETURN d = (sb_clockreg d, tick d).
Proof. reflexivity. Qed.

Definition sb_ahead (d : simbus) : nat := if sb_n d <? 5 then 0 else 100.

Lemma sb_later d d' : sb_n d' = sb_n d + 1 ->
  sb_now d <= sb_now d' /\ (pred (sb_ahead d) <= sb_ahead d')%nat /\ ((0 < sb_ahead d)%nat -> sb_now d' = sb_now d).
Proof. intros E. unfold sb_now, sb_ahead. rewrite E. destruct (Z.ltb_spec (sb_n d) 5), (Z.ltb_spec (sb_n d + 1) 5); lia. Qed.

#[export] Instance sb_clock : ClockLaws simbus.
Proof.
  refine {| now := sb_now; ahead := sb_ahead; cm_sel := sb_cmos; binary := fun _ => false; date := sb_date |}.
  - intros t. unfold two_digits, sb_date. pose proof (Z.mod_pos_bound t 60). pose proof (Z.mod_pos_bound (t / 60) 60). repeat constructor; cbn; lia.
  - intros d r Hr. rewrite sb_select. split; [done|]. split; [done|]. by apply sb_later.
  - intros d. rewrite sb_value. split; [done|]. by apply sb_later.
  - intros d x Ha Hx. rewrite sb_value. cbn [fst]. unfold sb_clockreg. rewrite Hx. unfold sb_ahead in Ha. destruct (sb_n d <? 5); [simpl in Ha; lia|done].
  - intros d r Hd Hu. subst r. rewrite sb_value in *. cbn [fst snd] in *. unfold sb_clockreg in Hu. rewrite Hd in Hu. cbn in Hu. unfold sb_ahead. simpl.
    destruct (Z.ltb_spec (sb_n d) 5); [done|]. destruct (Z.ltb_spec (sb_n d + 1) 5); lia.
  - intros d Hd. rewrite sb_value. cbn [fst]. unfold sb_clockreg. by rewrite Hd.
Defined.

Definition bus0 : plat simbus := mkplat (mksb 0 (fun _ => 0x2000000) 0 [] [] [1%fin; 65%fin; 66%fin] false 0 0) 0xFEE00000 2 false (0, 0) [].

Lemma ioapic_routes_witness : exists s', (ioapicinit;; each [(1, 0); (4, 0); (14, 1)] (fun e => ioapicenable e.1 e.2)) bus0 = Ret tt s' /\ redir s' 14 = (46, 0x1000000) /\ redir s' 3 = (0x10023, 0).
Proof.
  destruct (ioapic_routes bus0 [(1, 0); (4, 0); (14, 1)]) as (s' & R & H & _); [repeat constructor; vm_compute; (discriminate || reflexivity)|]. exists s'. split; [exact R|].
  split; [rewrite (H 14) by (vm_compute; split; discriminate)|rewrite (H 3) by (vm_compute; split; discriminate)]; vm_compute; reflexivity.
Defined.

Lemma lapic_ipis_witness : exists s', (lapicinit;; each [1] (fun a => lapicstartap a 0x7000)) bus0 = Ret tt s' /\ ipis (pl_dev s') = [(0, 0x88500); (1, 0xC500); (1, 0x8500); (1, 0x607); (1, 0x607)].
Proof.
  destruct (lapic_ipis 0xFEE00000 bus0 0x7000 [1] eq_refl) as (s' & R & H); [lia|lia|repeat constructor; lia|]. exists s'. split; [exact R|]. rewrite H. vm_compute. reflexivity.
Defined.

Lemma quiet_late n : forall d : simbus, 5 <= sb_n d -> quiet n d.
Proof.
  induction n as [|n IH]; intros d Hn; [done|]. cbn [quiet]. rewrite sb_value. cbn [fst snd]. split; [|split; [|split]].
  - change (0 < sb_ahead d)%nat. unfold sb_ahead. destruct (Z.ltb_spec (sb_n d) 5); lia.
  - intros r Hr. rewrite sb_select. apply IH. simpl. lia.
  - intros Hs. change (sb_cmos d = CMOS_STATA) in Hs. unfold sb_clockreg. rewrite Hs. cbn. by destruct (Z.ltb_spec (sb_n d) 5); [lia|].
  - apply IH. simpl. lia.
Qed.

Lemma settles_soon K : forall d : simbus, 5 <= sb_n d + Z.of_nat K -> settles K d.
Proof.
  induction K as [|K IH]; intros d Hn; cbn [settles]; [left; apply quiet_late; lia|]. right. split; [intros r Hr; rewrite sb_select|rewrite sb_value]; apply IH; simpl; lia.
Qed.

Lemma cmostime_consistent_witness : exists s' t, cmostime 8 bus0 = Ret (add_2000 (sb_date t)) s' /\ 59 <= t <= sb_now (pl_dev s').
Proof. exact (cmostime_consistent bus0 5 (settles_soon 5 (pl_dev bus0) ltac:(vm_compute; discriminate))). Defined.

Lemma serial_port_witness : exists s', (uartinit;; each [104; 105] uartputc) bus0 = Ret tt s' /\ tx (pl_dev s') = announce ++ [104; 105].
Proof. destruct (serial_port bus0 [104; 105]) as (s' & R & T & _). exists s'. split; [exact R|exact T]. Defined.
