(* ===== verification/Startup.v ===== *)
(** * Starting the other processors (main.c, entryother.S)

    The boot processor runs [startothers]; each of the others starts in the code of
    entryother.S when it receives a STARTUP, reads the page directory, its stack and
    the place to jump to from the three words below that code, and in [mpmain] tells
    the boot processor that it is up.  There is one set of words for all of them.

    The processors run at the same time: a step is one access to memory, one call to
    [kalloc], or the interrupts that [lapicstartap] sends, of one of them. *)

From Stdlib Require Import ZArith Lia.
From stdpp Require Import base numbers strings gmap list.
From stdpp Require Import relations.
From S2P Require Import Prelude.
From S2P Require Import Machine.
From S2P Require Import Spinlock.
From S2P Require Import Kalloc.
From S2P Require Import Apic.
From S2P Require Import ApicSpec.

Local Open Scope string_scope.
Local Open Scope list_scope.
Local Open Scope Z_scope.

(** Where the boot processor is in the loop of [startothers]: before the iteration
    for processor [i]; with its stack allocated; with one, two, three of the words
    written; spinning until it has started. *)
Inductive bsp := Head (i : nat) | Stack (i : nat) (p : Z) | Word1 (i : nat) (p : Z) | Word2 (i : nat) (p : Z) | Word3 (i : nat) (p : Z) | Waiting (i : nat) (p : Z) | Finished.

(** Where another processor is: halted; in entryother.S at address [a], with the
    registers it has loaded so far; started. *)
Inductive ap := Halted | Entered (a : Z) | HasCr3 (a cr3 : Z) | HasEsp (a cr3 esp : Z) | Called (cr3 esp eip : Z) | Started (cr3 esp eip : Z).

#[export] Instance bsp_eq : EqDecision bsp.
Proof. solve_decision. Defined.

Definition code : Z := P2V 0x7000.

Definition is_startup (v : Z) : bool := Z.land v 0x700 =? STARTUP.

Section startothers.
Context {D : Type} (l : Z) `{LL : LapicLaws D l} (apicids : list Z) (me : nat) (mpenter entrypgdir : Z).

Record sys := mksys { y_mach : mach; y_plat : plat D; y_bsp : bsp; y_aps : list ap }.

Definition upd_mem (a v : Z) (k : mach) : mach := set_mem (fun m => st m a v) k.

Inductive step : sys -> sys -> Prop :=
  | s_skip k p aps i : (i < length apicids)%nat -> i = me -> step (mksys k p (Head i) aps) (mksys k p (Head (S i)) aps)
  | s_alloc k p aps i r k' : (i < length apicids)%nat -> i <> me -> kalloc k = Ret r k' -> step (mksys k p (Head i) aps) (mksys k' p (Stack i r) aps)
  | s_stack k p aps i r : step (mksys k p (Stack i r) aps) (mksys (upd_mem (code - 4) (r + KSTACKSIZE) k) p (Word1 i r) aps)
  | s_mpenter k p aps i r : step (mksys k p (Word1 i r) aps) (mksys (upd_mem (code - 8) mpenter k) p (Word2 i r) aps)
  | s_pgdir k p aps i r : step (mksys k p (Word2 i r) aps) (mksys (upd_mem (code - 12) (V2P entrypgdir) k) p (Word3 i r) aps)
  | s_start k p aps i r a p' : apicids !! i = Some a -> lapicstartap a (V2P code) p = Ret tt p' -> step (mksys k p (Word3 i r) aps) (mksys k p' (Waiting i r) aps)
  | s_next k p aps i r c e f : aps !! i = Some (Started c e f) -> step (mksys k p (Waiting i r) aps) (mksys k p (Head (S i)) aps)
  | s_end k p aps : step (mksys k p (Head (length apicids)) aps) (mksys k p Finished aps)
  | s_ipi k p b aps j a v : aps !! j = Some Halted -> apicids !! j = Some a -> (a, v) ∈ ipis (pl_dev p) -> is_startup v = true ->
      step (mksys k p b aps) (mksys k p b (<[j := Entered (Z.shiftl (Z.land v 0xFF) 12)]> aps))
  | s_cr3 k p b aps j a : aps !! j = Some (Entered a) -> step (mksys k p b aps) (mksys k p b (<[j := HasCr3 a (ld (mem k) (P2V a - 12))]> aps))
  | s_esp k p b aps j a c : aps !! j = Some (HasCr3 a c) -> step (mksys k p b aps) (mksys k p b (<[j := HasEsp a c (ld (mem k) (P2V a - 4))]> aps))
  | s_call k p b aps j a c e : aps !! j = Some (HasEsp a c e) -> step (mksys k p b aps) (mksys k p b (<[j := Called c e (ld (mem k) (P2V a - 8))]> aps))
  | s_mpmain k p b aps j c e f : aps !! j = Some (Called c e f) -> step (mksys k p b aps) (mksys k p b (<[j := Started c e f]> aps)).

(** ** The invariant *)

(** The processors that have a stack, and the one that is being started. *)
Definition begun (b : bsp) : list nat :=
  match b with
  | Head i => filter (fun j => j <> me) (seq 0 i)
  | Stack i _ | Word1 i _ | Word2 i _ | Word3 i _ | Waiting i _ => filter (fun j => j <> me) (seq 0 i) ++ [i]
  | Finished => filter (fun j => j <> me) (seq 0 (length apicids))
  end.
Definition current (b : bsp) : option (nat * Z) :=
  match b with Stack i p | Word1 i p | Word2 i p | Word3 i p | Waiting i p => Some (i, p) | _ => None end.

(** What processor [j] has, if its stack is [p]. *)
Definition ap_ok (p : Z) (x : ap) : Prop :=
  match x with
  | Halted => True
  | Entered a => a = 0x7000
  | HasCr3 a c => a = 0x7000 /\ c = V2P entrypgdir
  | HasEsp a c e => a = 0x7000 /\ c = V2P entrypgdir /\ e = p + KSTACKSIZE
  | Called c e f | Started c e f => c = V2P entrypgdir /\ e = p + KSTACKSIZE /\ f = mpenter
  end.
Definition is_started (x : ap) : bool := match x with Started _ _ _ => true | _ => false end.

(** The words that have been written. *)
Definition words (b : bsp) (m : gmap Z Z) : Prop :=
  match b with
  | Word1 _ p => ld m (code - 4) = p + KSTACKSIZE
  | Word2 _ p => ld m (code - 4) = p + KSTACKSIZE /\ ld m (code - 8) = mpenter
  | Word3 _ p | Waiting _ p => ld m (code - 4) = p + KSTACKSIZE /\ ld m (code - 8) = mpenter /\ ld m (code - 12) = V2P entrypgdir
  | _ => True
  end.

(** The state of each processor: those before the current one have started, those
    after it are halted. *)
Definition ap_at (F : nat -> Z) (b : bsp) (j : nat) (x : ap) : Prop :=
  if decide (j ∈ begun b) then
    ap_ok (F j) x /\
    match current b with
    | Some (i, _) => if decide (j = i) then match b with Waiting _ _ => True | _ => x = Halted end else is_started x = true
    | None => is_started x = true
    end
  else x = Halted.

Record inv (c n : nat) (F : nat -> Z) (free : list Z) (s : sys) : Prop := {
  v_ready : kready c (y_mach s);
  v_free : free_inv (y_mach s) free;
  v_end : code < kend (y_mach s);
  v_lapic : pl_lapic (y_plat s) = l;
  v_len : length (y_aps s) = length apicids;
  v_count : (length (begun (y_bsp s)) + length free = n)%nat;
  v_pages : NoDup ((F <$> begun (y_bsp s)) ++ free);
  v_pc : match y_bsp s with Head i => (i <= length apicids)%nat | Finished => True | b => exists i p, current b = Some (i, p) /\ F i = p /\ i <> me /\ (i < length apicids)%nat end;
  v_words : words (y_bsp s) (mem (y_mach s));
  v_aps : forall j x, y_aps s !! j = Some x -> ap_at F (y_bsp s) j x;
  v_ipis : forall j a v, apicids !! j = Some a -> (a, v) ∈ ipis (pl_dev (y_plat s)) -> is_startup v = true ->
    v = Z.lor STARTUP 7 /\ j ∈ begun (y_bsp s) /\ match y_bsp s with Stack i _ | Word1 i _ | Word2 i _ | Word3 i _ => j <> i | _ => True end;
  v_sent : match y_bsp s with Waiting i _ => forall a, apicids !! i = Some a -> (a, Z.lor STARTUP 7) ∈ ipis (pl_dev (y_plat s)) | _ => True end }.

(** ** Every step keeps it *)

Lemma elem_begun i j : j ∈ filter (fun j => j <> me) (seq 0 i) <-> j <> me /\ (j < i)%nat.
Proof. rewrite list_elem_of_filter, elem_of_seq. lia. Qed.

Lemma begun_S i : filter (fun j => j <> me) (seq 0 (S i)) = filter (fun j => j <> me) (seq 0 i) ++ (if decide (i = me) then [] else [i]).
Proof.
  rewrite seq_S, filter_app. simpl. f_equal. destruct (decide (i = me)) as [->|Hi]; [rewrite filter_cons_False|rewrite filter_cons_True]; try done. intros H. by apply H.
Qed.

Lemma length_begun i : (length (filter (fun j => j <> me) (seq 0 i)) <= i)%nat.
Proof. etransitivity; [apply length_filter|]. by rewrite length_seq. Qed.

Lemma free_inv_upd k free a v : free_inv k free -> a < code -> code < kend k -> free_inv (upd_mem a v k) free.
Proof.
  intros (H1 & H2 & H3) Ha Hk. split; [|done]. eapply freelist_rep_frame; [|exact H1]. intros q Hq. rewrite Forall_forall in H3. destruct (H3 q Hq) as (_ & Hq' & _). apply ld_st_ne. cbn in *. lia.
Qed.

Lemma ap_busy F b j x : ap_at F b j x -> is_started x = false -> x <> Halted \/ (j ∈ begun b /\ match b with Stack i _ | Word1 i _ | Word2 i _ | Word3 i _ => j <> i | _ => True end) -> exists p, b = Waiting j p.
Proof.
  unfold ap_at. intros H Hs Hx. destruct (decide (j ∈ begun b)) as [Hj|Hj]; [|destruct Hx as [Hx|[Hx _]]; done]. destruct H as [_ H]. destruct b; cbn [current] in H; try congruence; (destruct (decide (j = i)) as [->|Hne]; [|congruence]); (destruct Hx as [Hx|[_ Hx]]; try congruence). all: eauto.
Qed.

(** A processor that is being started makes a step. *)
Lemma inv_ap c n F free k p b aps j x x' : inv c n F free (mksys k p b aps) -> aps !! j = Some x -> (exists q, b = Waiting j q) -> ap_ok (F j) x' -> inv c n F free (mksys k p b (<[j := x']> aps)).
Proof.
  intros [H1 H2 H3 H4 H5 H6 H7 H8 H9 H10 H11 H12] Hx [q ->] Hok. cbn [y_mach y_plat y_bsp y_aps] in *. split; cbn [y_mach y_plat y_bsp y_aps]; try done; [by rewrite length_insert|].
  intros j' y Hy. destruct (decide (j' = j)) as [->|Hne]; [|rewrite list_lookup_insert_ne in Hy by done; by apply H10]. rewrite list_lookup_insert_eq in Hy by (by eapply lookup_lt_Some). injection Hy as <-.
  specialize (H10 j x Hx). unfold ap_at in *. destruct (decide (j ∈ begun (Waiting j q))) as [Hj|Hj]; [|destruct Hj; cbn; apply elem_of_app; right; by apply list_elem_of_singleton]. split; [done|]. cbn. by destruct (decide (j = j)).
Qed.

Context (Hnd : NoDup apicids) (Hbytes : Forall (fun a => 0 <= a < 256) apicids).

Lemma inv_alloc c n F free k p aps i r k' : (length apicids <= n)%nat -> inv c n F free (mksys k p (Head i) aps) -> (i < length apicids)%nat -> i <> me -> kalloc k = Ret r k' ->
  exists F' free', inv c n F' free' (mksys k' p (Stack i r) aps).
Proof.
  intros Hn [H1 H2 H3 H4 H5 H6 H7 H8 H9 H10 H11 H12] Hi Hne Hk. cbn [y_mach y_plat y_bsp y_aps begun current words] in *. destruct (kalloc_inv c k free H1 H2) as (k1 & R & K1 & K2 & K3 & K4 & K5). rewrite Hk in R. injection R as -> <-.
  destruct free as [|r free]; [pose proof (length_begun i); simpl in H6; lia|]. cbn [hd tail] in *. set (F' := fun j => if decide (j = i) then r else F j).
  assert (HF : forall j, j <> i -> F' j = F j) by (intros j Hj; unfold F'; by destruct (decide (j = i))). assert (HFi : F' i = r) by (unfold F'; by destruct (decide (i = i))).
  assert (Hl : F' <$> filter (fun j => j <> me) (seq 0 i) = F <$> filter (fun j => j <> me) (seq 0 i)). { apply list_fmap_ext. intros q j Hj. apply HF. apply list_elem_of_lookup_2, elem_begun in Hj. lia. }
  exists F', free. split; cbn [y_mach y_plat y_bsp y_aps begun current words]; try done.
  - by rewrite K3.
  - rewrite length_app. cbn in *. lia.
  - rewrite fmap_app, Hl. cbn. rewrite HFi. by rewrite <- app_assoc.
  - by exists i, r.
  - intros j x Hx. specialize (H10 j x Hx). unfold ap_at in *. cbn [begun current] in *. destruct (decide (j = i)) as [->|Hj].
    + rewrite decide_False in H10 by (rewrite elem_begun; lia). subst x. rewrite decide_True by (apply elem_of_app; right; by apply list_elem_of_singleton). done.
    + destruct (decide (j ∈ filter (fun j => j <> me) (seq 0 i))) as [Hb|Hb]; [rewrite decide_True by (apply elem_of_app; by left); by rewrite HF|]. rewrite decide_False; [done|]. rewrite elem_of_app, list_elem_of_singleton. tauto.
  - intros j a v Ha Hv Hs. destruct (H11 j a v Ha Hv Hs) as (E1 & E2 & _). split; [done|]. split; [apply elem_of_app; by left|]. apply elem_begun in E2. lia.
Qed.

Lemma startup_vec : V2P code = 0x7000 /\ Z.shiftr (V2P code) 12 = 7.
Proof. done. Qed.

Lemma inv_start c n F free k p aps i r a p' : inv c n F free (mksys k p (Word3 i r) aps) -> apicids !! i = Some a -> lapicstartap a (V2P code) p = Ret tt p' -> inv c n F free (mksys k p' (Waiting i r) aps).
Proof.
  intros [H1 H2 H3 H4 H5 H6 H7 H8 H9 H10 H11 H12] Ha R. cbn [y_mach y_plat y_bsp y_aps begun current words] in *. pose proof (proj1 (Forall_lookup _ _) Hbytes _ _ Ha) as Hb. simpl in Hb.
  destruct (lapicstartap_sends l a (V2P code) Hb ltac:(vm_compute; split; discriminate || reflexivity) p H4) as (p1 & R1 & L1 & I1 & _). rewrite R in R1. injection R1 as <-. cbn [fst] in I1.
  split; cbn [y_mach y_plat y_bsp y_aps begun current words]; try done.
  - intros j x Hx. specialize (H10 j x Hx). unfold ap_at in *. cbn [begun current] in *. destruct (decide (j ∈ _)); [|done]. destruct H10 as [Hok H10]. split; [done|]. by destruct (decide (j = i)).
  - intros j a' v Ha' Hv Hs. rewrite I1, elem_of_app in Hv. destruct Hv as [Hv|Hv]; [by destruct (H11 j a' v Ha' Hv Hs) as (E1 & E2 & _)|].
    unfold start_ipis in Hv. rewrite (proj2 startup_vec), !elem_of_cons, elem_of_nil in Hv.
    assert (E : a' = a /\ v = Z.lor STARTUP 7) by (destruct Hv as [Hv|[Hv|[Hv|[Hv|[]]]]]; injection Hv as -> ->; split; try done; vm_compute in Hs; discriminate). destruct E as [-> ->]. split; [done|]. split; [|done].
    apply elem_of_app. right. apply list_elem_of_singleton. by apply (NoDup_lookup apicids j i a Hnd).
  - intros a' Ha'. rewrite Ha in Ha'. injection Ha' as <-. rewrite I1, elem_of_app. right. unfold start_ipis. rewrite (proj2 startup_vec). do 2 apply list_elem_of_further. apply list_elem_of_here.
Qed.

(** A word below the entry code is written. *)
Lemma inv_word c n F free k p b b' aps a v : inv c n F free (mksys k p b aps) -> a < code -> begun b' = begun b -> current b' = current b ->
  match b, b' with Stack _ _, Word1 _ _ | Word1 _ _, Word2 _ _ | Word2 _ _, Word3 _ _ => True | _, _ => False end -> words b' (mem (upd_mem a v k)) -> inv c n F free (mksys (upd_mem a v k) p b' aps).
Proof.
  intros [H1 H2 H3 H4 H5 H6 H7 H8 H9 H10 H11 H12] Ha Hb Hc Hbb Hw. cbn [y_mach y_plat y_bsp y_aps] in *.
  assert (Hi : exists i q, current b = Some (i, q) /\ match b with Stack j _ | Word1 j _ | Word2 j _ | Word3 j _ => j = i | _ => False end /\ match b' with Stack j _ | Word1 j _ | Word2 j _ | Word3 j _ => j = i | _ => False end).
  { destruct b, b'; try done; cbn in Hc |- *; injection Hc as -> ->; eauto. }
  destruct Hi as (i & q & E & Ei & Ei'). split; cbn [y_mach y_plat y_bsp y_aps]; rewrite ?Hb; try done.
  - by apply free_inv_upd.
  - destruct b, b'; try done; rewrite Hc; exact H8.
  - intros j x Hx. specialize (H10 j x Hx). unfold ap_at in *. rewrite Hb, Hc, E in *. by destruct b, b'.
  - intros j a' w Ha' Hv Hs. destruct (H11 j a' w Ha' Hv Hs) as (E1 & E2 & E3). split; [done|]. split; [done|]. destruct b, b'; try done; subst; done.
  - by destruct b, b'.
Qed.

Lemma inv_skip c n F free k p aps i : inv c n F free (mksys k p (Head i) aps) -> (i < length apicids)%nat -> i = me -> inv c n F free (mksys k p (Head (S i)) aps).
Proof.
  intros [H1 H2 H3 H4 H5 H6 H7 H8 H9 H10 H11 H12] Hi He. cbn [y_mach y_plat y_bsp y_aps begun current words] in *. assert (E : begun (Head (S i)) = begun (Head i)) by (unfold begun; rewrite begun_S, decide_True by done; apply app_nil_r).
  split; cbn [y_mach y_plat y_bsp y_aps current words]; rewrite ?E; try done. intros j x Hx. specialize (H10 j x Hx). unfold ap_at in *. by rewrite E.
Qed.

Lemma inv_next c n F free k p aps i r x : inv c n F free (mksys k p (Waiting i r) aps) -> aps !! i = Some x -> is_started x = true -> inv c n F free (mksys k p (Head (S i)) aps).
Proof.
  intros [H1 H2 H3 H4 H5 H6 H7 (i' & q & Hc & Hq & Hi & Hlt) H9 H10 H11 H12] Hx Hs. cbn [y_mach y_plat y_bsp y_aps current words] in *. injection Hc as <- <-. assert (E : begun (Head (S i)) = begun (Waiting i r)) by (unfold begun; by rewrite begun_S, decide_False by done).
  split; cbn [y_mach y_plat y_bsp y_aps current words]; rewrite ?E; try done. intros j y Hy. pose proof (H10 j y Hy) as Hj. unfold ap_at in *. rewrite E. destruct (decide (j ∈ begun (Waiting i r))); [|done]. destruct Hj as [Hok Hj]. split; [done|]. cbn in *. destruct (decide (j = i)) as [->|]; [|done]. congruence.
Qed.

Lemma inv_end c n F free k p aps : inv c n F free (mksys k p (Head (length apicids)) aps) -> inv c n F free (mksys k p Finished aps).
Proof. intros [H1 H2 H3 H4 H5 H6 H7 H8 H9 H10 H11 H12]. by split. Qed.

(** A processor that is neither halted nor started is the one that is waited for; it
    reads the three words, which are its own. *)
Lemma inv_busy c n F free k p b aps j x : inv c n F free (mksys k p b aps) -> aps !! j = Some x -> is_started x = false -> x <> Halted ->
  (exists q, b = Waiting j q) /\ ap_ok (F j) x /\ ld (mem k) (P2V 0x7000 - 4) = F j + KSTACKSIZE /\ ld (mem k) (P2V 0x7000 - 8) = mpenter /\ ld (mem k) (P2V 0x7000 - 12) = V2P entrypgdir.
Proof.
  intros Hi Hx Hs Hh. pose proof (v_aps _ _ _ _ _ Hi j _ Hx) as Hat. destruct (ap_busy F b j _ Hat Hs) as [q ->]; [by left|]. destruct (v_pc _ _ _ _ _ Hi) as (i & r & Hc & Hr & _). injection Hc as <- <-. split; [by exists q|].
  split; [|rewrite Hr; exact (v_words _ _ _ _ _ Hi)]. unfold ap_at in Hat. cbn in Hat. by destruct (decide _); [apply Hat|].
Qed.

Lemma inv_step c n F free s s' : (length apicids <= n)%nat -> inv c n F free s -> step s s' -> exists F' free', inv c n F' free' s'.
Proof.
  intros Hn Hi Hs. destruct Hs as [k p aps i Hl He|k p aps i r k' Hl He Hk|k p aps i r|k p aps i r|k p aps i r|k p aps i r a p' Ha R|k p aps i r x e f Hx|k p aps|k p b aps j a v Hx Ha Hv Hu|k p b aps j a Hx|k p b aps j a x Hx|k p b aps j a x e Hx|k p b aps j x e f Hx].
  - exists F, free. by apply inv_skip.
  - by apply (inv_alloc c n F free k p aps i r k').
  - exists F, free. apply (inv_word _ _ _ _ _ _ (Stack i r)); try (done || lia). cbn [words mem upd_mem set_mem]. apply ld_st_eq.
  - exists F, free. apply (inv_word _ _ _ _ _ _ (Word1 i r)); try (done || lia). pose proof (v_words _ _ _ _ _ Hi) as Hw. cbn [y_bsp y_mach words mem upd_mem set_mem] in *. by rewrite ld_st_eq, ld_st_ne by lia.
  - exists F, free. apply (inv_word _ _ _ _ _ _ (Word2 i r)); try (done || lia). pose proof (v_words _ _ _ _ _ Hi) as Hw. cbn [y_bsp y_mach words mem upd_mem set_mem] in *. rewrite ld_st_eq, !ld_st_ne by lia; tauto.
  - exists F, free. by apply (inv_start c n F free k p aps i r a).
  - exists F, free. by apply (inv_next c n F free k p aps i r (Started x e f)).
  - exists F, free. by apply inv_end.
  - exists F, free. destruct (v_ipis _ _ _ _ _ Hi j a v Ha Hv Hu) as (-> & Hb & Hne). pose proof (v_aps _ _ _ _ _ Hi j _ Hx) as Hat. apply (inv_ap _ _ _ _ _ _ _ _ _ Halted); [done|done|by apply (ap_busy F b j Halted Hat); [|right]|done].
  - exists F, free. destruct (inv_busy _ _ _ _ _ _ _ _ _ _ Hi Hx) as (Hw & Hok & W1 & W2 & W3); [done|done|]. apply (inv_ap _ _ _ _ _ _ _ _ _ _ _ Hi Hx Hw). cbn in Hok |- *. by subst a.
  - exists F, free. destruct (inv_busy _ _ _ _ _ _ _ _ _ _ Hi Hx) as (Hw & Hok & W1 & W2 & W3); [done|done|]. apply (inv_ap _ _ _ _ _ _ _ _ _ _ _ Hi Hx Hw). cbn in Hok |- *. by destruct Hok as [-> ->].
  - exists F, free. destruct (inv_busy _ _ _ _ _ _ _ _ _ _ Hi Hx) as (Hw & Hok & W1 & W2 & W3); [done|done|]. apply (inv_ap _ _ _ _ _ _ _ _ _ _ _ Hi Hx Hw). cbn in Hok |- *. by destruct Hok as (-> & -> & ->).
  - exists F, free. destruct (inv_busy _ _ _ _ _ _ _ _ _ _ Hi Hx) as (Hw & Hok & W1 & W2 & W3); [done|done|]. by apply (inv_ap _ _ _ _ _ _ _ _ _ _ _ Hi Hx Hw).
Qed.

(** ** It ends *)

Definition bsp_left (b : bsp) : nat :=
  let n := length apicids in
  match b with
  | Head i => 7 * (n - i) + 1 | Stack i _ => 7 * (n - i) | Word1 i _ => 7 * (n - i) - 1 | Word2 i _ => 7 * (n - i) - 2 | Word3 i _ => 7 * (n - i) - 3 | Waiting i _ => 7 * (n - i) - 4
  | Finished => 0
  end.
Definition ap_left (x : ap) : nat := match x with Halted => 5 | Entered _ => 4 | HasCr3 _ _ => 3 | HasEsp _ _ _ => 2 | Called _ _ _ => 1 | Started _ _ _ => 0 end.
Definition steps_left (s : sys) : nat := bsp_left (y_bsp s) + sum_list_with ap_left (y_aps s).

Lemma left_insert aps : forall j x x', aps !! j = Some x -> (sum_list_with ap_left (<[j := x']> aps) + ap_left x = sum_list_with ap_left aps + ap_left x')%nat.
Proof.
  induction aps as [|y aps IH]; intros j x x' Hx; [done|]. destruct j as [|j]; cbn in Hx; [injection Hx as <-; change (<[0%nat := x']> (y :: aps)) with (x' :: aps); cbn [sum_list_with]; lia|]. change (<[S j := x']> (y :: aps)) with (y :: <[j := x']> aps). cbn [sum_list_with]. specialize (IH j x x' Hx). lia.
Qed.

Lemma step_left c n F free s s' : inv c n F free s -> step s s' -> (steps_left s' < steps_left s)%nat.
Proof.
  intros Hi Hs. pose proof (v_pc _ _ _ _ _ Hi) as Hp. unfold steps_left. destruct Hs; cbn [y_bsp y_aps bsp_left] in *; try lia;
    try (destruct Hp as (i' & q & Hc & _ & _ & Hp); injection Hc as <- <-; lia);
    match goal with Hx : ?l !! ?j = Some ?x |- context [<[?j := ?x']> ?l] => pose proof (left_insert l j x x' Hx) as E; cbn [ap_left] in E; lia end.
Qed.

Lemma progress c n F free s : (length apicids <= n)%nat -> inv c n F free s -> y_bsp s <> Finished -> exists s', step s s'.
Proof.
  intros Hn Hi Hf. destruct s as [k p b aps]. pose proof (v_pc _ _ _ _ _ Hi) as Hp. cbn [y_bsp] in *. destruct b as [i|i q|i q|i q|i q|i q|]; cbn [current] in Hp; [|eexists; apply s_stack|eexists; apply s_mpenter|eexists; apply s_pgdir| | |done].
  - destruct (decide (i = length apicids)) as [->|Hne]; [eexists; apply s_end|]. destruct (decide (i = me)) as [E|E]; [eexists; apply s_skip; [lia|done]|].
    destruct (kalloc_inv c k free (v_ready _ _ _ _ _ Hi) (v_free _ _ _ _ _ Hi)) as (k' & R & _). eexists. eapply s_alloc; [lia|done|exact R].
  - destruct Hp as (i' & q' & Hc & _ & _ & Hlt). injection Hc as <- <-. apply lookup_lt_is_Some in Hlt as [a Ha]. pose proof (proj1 (Forall_lookup _ _) Hbytes _ _ Ha) as Hb.
    destruct (lapicstartap_sends l a (V2P code) Hb ltac:(vm_compute; split; discriminate || reflexivity) p (v_lapic _ _ _ _ _ Hi)) as (p1 & R1 & _). eexists. by eapply s_start.
  - destruct Hp as (i' & q' & Hc & _ & _ & Hlt). injection Hc as <- <-. assert (Hx : is_Some (aps !! i)) by (apply lookup_lt_is_Some; pose proof (v_len _ _ _ _ _ Hi) as E; cbn in E; lia). destruct Hx as [x Hx].
    destruct x as [|a|a c'|a c' e|c' e f|c' e f]; [|eexists; by eapply s_cr3|eexists; by eapply s_esp|eexists; by eapply s_call|eexists; by eapply s_mpmain|eexists; by eapply s_next].
    apply lookup_lt_is_Some in Hlt as [a Ha]. pose proof (v_sent _ _ _ _ _ Hi a Ha) as Hv. eexists. by eapply (s_ipi _ _ _ _ i a).
Qed.

(** C10. Starting the processors.  In every state that [startothers] and the processors
    it starts can reach, in any interleaving: a processor that has left the halted
    state runs with the kernel's first page directory, its own stack and [mpenter] as
    the place to jump to, although they all read the same three words; the stacks are
    different pages, none of them free.  No execution is longer than twelve steps for
    each processor and one more, and none gets stuck before [startothers] is finished
    and all processors have started, if there are as many free pages. *)
Theorem startothers_spec c k p free n s :
  kready c k -> free_inv k free -> code < kend k -> pl_lapic p = l -> (length apicids <= length free)%nat -> (forall a v, (a, v) ∈ ipis (pl_dev p) -> is_startup v = false) ->
  nsteps step n (mksys k p (Head 0) (replicate (length apicids) Halted)) s ->
  (n <= 12 * length apicids + 1)%nat /\
  (exists F rest, free_inv (y_mach s) rest /\ NoDup ((F <$> begun (y_bsp s)) ++ rest) /\ forall j x, y_aps s !! j = Some x -> x <> Halted -> j ∈ begun (y_bsp s) /\ ap_ok (F j) x) /\
  ((exists s', step s s') \/ y_bsp s = Finished /\ forall j, j <> me -> (j < length apicids)%nat -> exists c e f, y_aps s !! j = Some (Started c e f)).
Proof.
  intros Hk Hf Hc Hl Hn Hu Hs. set (s0 := mksys k p (Head 0) (replicate (length apicids) Halted)) in *.
  assert (H0 : inv c (length free) (fun _ => 0) free s0).
  { split; cbn [s0 y_mach y_plat y_bsp y_aps]; try done; [by rewrite length_replicate|apply Hf|lia| |intros j a v _ Hv Hv'; by rewrite (Hu a v Hv) in Hv']. intros j x Hx. apply lookup_replicate in Hx as [-> _]. done. }
  assert (HI : exists F rest, inv c (length free) F rest s /\ (n + steps_left s <= steps_left s0)%nat).
  { clear Hk Hf Hc Hl Hu. clearbody s0. revert H0. generalize (fun _ : nat => 0) as F. revert Hn. generalize (length free) as m. generalize free as rest. induction Hs as [x|n x y z Hxy Hyz IH]; intros rest m Hm F H0; [exists F, rest; split; [done|lia]|].
    destruct (inv_step c m F rest x y Hm H0 Hxy) as (F1 & r1 & H1). pose proof (step_left _ _ _ _ _ _ H0 Hxy). destruct (IH r1 m Hm F1 H1) as (F2 & r2 & H2 & L2). exists F2, r2. split; [done|lia]. }
  destruct HI as (F & rest & HI & Hlen). split; [|split].
  - assert (E : steps_left s0 = (12 * length apicids + 1)%nat); [|lia]. unfold steps_left. cbn [s0 y_bsp y_aps bsp_left]. assert (Er : forall m, sum_list_with ap_left (replicate m Halted) = (5 * m)%nat) by (induction m as [|m IH]; cbn in *; lia). rewrite Er. lia.
  - exists F, rest. split; [apply (v_free _ _ _ _ _ HI)|]. split; [apply (v_pages _ _ _ _ _ HI)|]. intros j x Hx Hh. pose proof (v_aps _ _ _ _ _ HI j x Hx) as Ha. unfold ap_at in Ha. by destruct (decide _) as [Hj|Hj]; [split; [|apply Ha]|].
  - destruct (decide (y_bsp s = Finished)) as [E|E]; [right|left; by apply (progress _ _ _ _ _ Hn HI)]. split; [done|]. intros j Hj Hlt. assert (Hx : is_Some (y_aps s !! j)) by (apply lookup_lt_is_Some; by rewrite (v_len _ _ _ _ _ HI)). destruct Hx as [x Hx].
    pose proof (v_aps _ _ _ _ _ HI j x Hx) as Ha. unfold ap_at in Ha. rewrite E in Ha. cbn [begun current] in Ha. rewrite decide_True in Ha by (by apply elem_begun). destruct Ha as [_ Ha]. destruct x; try done. eauto.
Qed.
End startothers.

(** Two processors, the first of which is the boot processor. *)
Definition two_aps : list Z := [0; 1].

Lemma two_pages : exists k, kready 0 k /\ free_inv k [0x80101000; 0x80100000] /\ code < kend k.
Proof.
  destruct (kfree_inv 0 mach0 [] 0x80100000 mach0_ready mach0_free) as (k1 & _ & R1 & F1 & E1 & _ & _); [vm_compute; repeat split; (discriminate || reflexivity)|apply not_elem_of_nil|].
  destruct (kfree_inv 0 k1 _ 0x80101000 R1 F1) as (k2 & _ & R2 & F2 & E2 & _ & _); [rewrite E1; vm_compute; repeat split; (discriminate || reflexivity)|intros H; by apply list_elem_of_singleton in H|]. exists k2. split; [exact R2|]. split; [exact F2|]. rewrite E2, E1. reflexivity.
Qed.

Definition two_step : sys -> sys -> Prop := step (D := simbus) 0xFEE00000 two_aps 0%nat 0x80103000 0x8010a000.

Lemma startothers_spec_witness : exists k s, nsteps two_step 1 (mksys k bus0 (Head 0) [Halted; Halted]) s /\ exists s', two_step s s'.
Proof.
  destruct two_pages as (k & K1 & K2 & K3). exists k, (mksys k bus0 (Head 1) [Halted; Halted]). assert (H : nsteps two_step 1 (mksys k bus0 (Head 0) [Halted; Halted]) (mksys k bus0 (Head 1) [Halted; Halted])) by (apply nsteps_once, s_skip; [simpl; lia|done]).
  split; [exact H|]. destruct (startothers_spec 0xFEE00000 two_aps 0%nat 0x80103000 0x8010a000) with (c := 0%nat) (k := k) (p := bus0) (free := [0x80101000; 0x80100000]) (n := 1%nat) (s := mksys k bus0 (Head 1) [Halted; Halted]) as (_ & _ & [Hs|[Hs _]]);
    [by apply (bool_decide_unpack _); vm_compute|by apply (bool_decide_unpack _); vm_compute|exact K1|exact K2|exact K3|done|simpl; lia|intros a v Hv; by apply elem_of_nil in Hv|exact H|exact Hs|discriminate].
Defined.
