(* ===== verification/File.v ===== *)
(** * Files (file.c) and the pipes behind them

    The operations of file.c on the kernel state, with the file system of Fs.v
    as its file-system component.  A pointer to a file or an inode is its index
    plus one, so that 0 is null.  A pipe lives at the address of its page.
    File-system code runs on behalf of the current process, whose [pid] and
    [cwd] it sees.  Bytes are copied from and to user memory through the
    process's page table.  A call that has to sleep ends in [Wait]. *)

From Stdlib Require Import ZArith Lia.
From stdpp Require Import base numbers strings gmap list.
From S2P Require Import Prelude.
From S2P Require Import Machine.
From S2P Require Import Spinlock.
From S2P Require Import Kalloc.
From S2P Require Import Vm.
From S2P Require Import KState.
From S2P Require Import Proc.
From S2P Require Import Args.
From S2P Require Import Pipe.
From S2P Require Import FState.
From S2P Require Import Bio.
From S2P Require Import Log.
From S2P Require Import Fs.

Local Open Scope string_scope.
Local Open Scope list_scope.
Local Open Scope Z_scope.

(** The file system's state: the disk and its tables, and the pipes. *)
Record fio := mkfio { fi_fs : fstate; fi_pipes : gmap Z pipe }.
Abbreviation kern := (kst fio).

(** ** Handles *)

Definition handle (i : nat) : Z := Z.of_nat i + 1.
(** A null pointer is the index of no file and of no inode: using it is a fault. *)
Definition null_index : nat := Z.to_nat (Z.max NFILE NINODE).
Definition index (h : Z) : nat := if h =? 0 then null_index else Z.to_nat (h - 1).

(** Running file-system code as the current process. *)
Definition on_fs {A} (m : M fstate A) : M kern A :=
  '(_, pr) ← curproc;
  zoom (fun k => set_f_cwd (index (p_cwd pr)) (set_f_pid (p_pid pr) (fi_fs (kf k))))
       (fun s k => set_kf (mkfio s (fi_pipes (kf k))) k) m.

Definition getpipe (p : Z) : M kern pipe := k ← get; of_option "pipe" (fi_pipes (kf k) !! p).
Definition setpipe (p : Z) (x : pipe) : M kern unit :=
  modify (fun k => set_kf (mkfio (fi_fs (kf k)) (<[p := x]> (fi_pipes (kf k)))) k).

(** ** User memory *)

Definition uwrite8 (pgdir va v : Z) : M mach unit :=
  pte ← walkpgdir pgdir va false;
  unless_panic (pte =? 0) "trap";;
  e ← load pte;
  unless_panic (Z.land e PTE_P =? 0) "trap";;
  modify (set_mem (fun m => st8 m (P2V (PTE_ADDR e) + va mod PGSIZE) v)).
Fixpoint ureads (n : nat) (pgdir va : Z) : M mach (list Z) :=
  match n with O => mret [] | S n => b ← uread8 pgdir va; r ← ureads n pgdir (u32 (va + 1)); mret (b :: r) end.
Fixpoint uwrites (pgdir va : Z) (bs : list Z) : M mach unit :=
  match bs with [] => mret tt | b :: bs => uwrite8 pgdir va b;; uwrites pgdir (u32 (va + 1)) bs end.

Definition from_user (va n : Z) : M kern (list Z) := '(_, pr) ← curproc; on_km (ureads (Z.to_nat n) (p_pgdir pr) va).
Definition to_user (va : Z) (bs : list Z) : M kern unit := '(_, pr) ← curproc; on_km (uwrites (p_pgdir pr) va bs).

(** ** The file table *)

Definition getf (i : nat) : M fstate file := s ← get; of_option "file" (f_files s !! i).
Definition updf (i : nat) (f : file -> file) : M fstate unit := modify (fun s => set_f_files (alter f i (f_files s)) s).

Definition filealloc : M fstate (option nat) :=
  l ← gets f_files;
  match find_first (fun f => fl_ref f =? 0) (take (Z.to_nat NFILE) l) with
  | Some i => updf i (set_fl_ref 1);; mret (Some i)
  | None => mret None
  end.

Definition filedup (i : nat) : M fstate nat :=
  f ← getf i;
  unless_panic (fl_ref f <? 1) "filedup";;
  updf i (fun f => set_fl_ref (fl_ref f + 1) f);;
  mret i.

(** The part of [fileclose] under the lock: the copy [ff] when this was the last
    reference. *)
Definition fileclose_drop (i : nat) : M fstate (option file) :=
  f ← getf i;
  unless_panic (fl_ref f <? 1) "fileclose";;
  updf i (fun f => set_fl_ref (fl_ref f - 1) f);;
  if 0 <? fl_ref f - 1 then mret None
  else
    ff ← getf i;
    updf i (fun f => set_fl_type FD_NONE (set_fl_ref 0 f));;
    mret (Some ff).

(** The offsets of [nread] and [nwrite] in [struct pipe]. *)
Definition pipe_chan (p : Z) (c : pchan) : chan := ChAddr (p + match c with ChNread => 564 | ChNwrite => 568 end).

Definition pipe_close (p : Z) (writable : bool) : M kern unit :=
  x ← getpipe p;
  let '(chs, freed, x') := pipeclose writable x in
  setpipe p x';;
  each chs (fun c => wakeup (pipe_chan p c));;
  if freed then
    modify (fun k => set_kf (mkfio (fi_fs (kf k)) (delete p (fi_pipes (kf k)))) k);;
    on_km (kfree p)
  else mret tt.

(** What the last close does with the copy. *)
Definition fileclose_last (ff : file) : M kern unit :=
  match fl_type ff with
  | FD_PIPE => pipe_close (fl_pipe ff) (negb (fl_writable ff =? 0))
  | FD_INODE => on_fs begin_op;; on_fs (iput (fl_ip ff));; on_fs end_op
  | FD_NONE => mret tt
  end.

Definition fileclose (i : nat) : M kern unit :=
  o ← on_fs (fileclose_drop i);
  match o with None => mret tt | Some ff => fileclose_last ff end.

(** ** Pipes *)

Definition set_pipe_file (p : Z) (readable writable : Z) (f : file) : file :=
  mkfile FD_PIPE (fl_ref f) readable writable p (fl_ip f) (fl_off f).

Definition pipealloc : M kern (option (nat * nat)) :=
  f0 ← on_fs filealloc;
  match f0 with
  | None => mret None
  | Some f0 =>
      f1 ← on_fs filealloc;
      match f1 with
      | None => fileclose f0;; mret None
      | Some f1 =>
          p ← on_km kalloc;
          if p =? 0 then fileclose f0;; fileclose f1;; mret None
          else
            data ← gets (fun k => (fun i => ld8 (mem (km k)) (p + 52 + Z.of_nat i)) <$> seq 0 512);
            setpipe p (pipe_init data);;
            on_fs (updf f0 (set_pipe_file p 1 0));;
            on_fs (updf f1 (set_pipe_file p 0 1));;
            mret (Some (f0, f1))
      end
  end.

Definition curkilled : M kern bool := '(_, pr) ← curproc; mret (negb (p_killed pr =? 0)).

Definition pipe_read (p addr n : Z) : M kern Z :=
  x ← getpipe p;
  killed ← curkilled;
  let '(e, chs, x') := piperead killed n x in
  setpipe p x';;
  each chs (fun c => wakeup (pipe_chan p c));;
  match e with
  | PReturn r got => to_user addr got;; mret r
  | PSleep _ => stall OnSched
  end.

(** When [pipewrite] sleeps, the call goes on with the bytes that are left. *)
Definition pipe_write (p addr n : Z) : M kern Z :=
  x ← getpipe p;
  killed ← curkilled;
  bs ← from_user addr n;
  let '(e, chs, _, x') := pipewrite killed n bs x in
  setpipe p x';;
  each chs (fun c => wakeup (pipe_chan p c));;
  match e with
  | PReturn r _ => mret r
  | PSleep _ => stall OnSched
  end.

(** ** Reading and writing *)

Section file.
Context `{Devsw}.

(** The result and [*st]. *)
Definition filestat (i : nat) : M fstate (option stat) :=
  f ← getf i;
  match fl_type f with
  | FD_INODE => ilock (fl_ip f);; st ← stati (fl_ip f); iunlock (fl_ip f);; mret (Some st)
  | _ => mret None
  end.

Definition file_advance (i : nat) (r : Z) : M fstate unit :=
  if 0 <? r then updf i (fun f => set_fl_off (u32 (fl_off f + r)) f) else mret tt.

Definition inode_read (i : nat) (n : Z) : M fstate (Z * list Z) :=
  f ← getf i;
  ilock (fl_ip f);;
  r ← readi (fl_ip f) (fl_off f) (u32 n);
  file_advance i r.1;;
  iunlock (fl_ip f);;
  mret r.

Definition fileread (i : nat) (addr n : Z) : M kern Z :=
  f ← on_fs (getf i);
  if fl_readable f =? 0 then mret (-1)
  else match fl_type f with
       | FD_PIPE => pipe_read (fl_pipe f) addr n
       | FD_INODE => r ← on_fs (inode_read i n); to_user addr r.2;; mret r.1
       | FD_NONE => panic "fileread"
       end.

(** [max] of [filewrite]. *)
Definition write_max : Z := (LOGSIZE - 1 - 1 - 2) / 2 * 512.

(** One round of the loop of [filewrite]: [n1] bytes of [src] from [i] on. *)
Definition inode_write (fi : nat) (src : list Z) (i n1 : Z) : M fstate Z :=
  begin_op;;
  f ← getf fi;
  ilock (fl_ip f);;
  r ← writei (fl_ip f) (drop (Z.to_nat i) src) (fl_off f) (u32 n1);
  file_advance fi r;;
  iunlock (fl_ip f);;
  end_op;;
  mret r.

Fixpoint inode_writes (fuel : nat) (fi : nat) (src : list Z) (i n : Z) : M fstate Z :=
  if i <? n then
    match fuel with
    | O => fault "filewrite: fuel"
    | S fuel =>
        let n1 := if write_max <? n - i then write_max else n - i in
        r ← inode_write fi src i n1;
        if r <? 0 then mret i
        else
          unless_panic (negb (r =? n1)) "short filewrite";;
          inode_writes fuel fi src (i + r) n
    end
  else mret i.

Definition filewrite (fi : nat) (addr n : Z) : M kern Z :=
  f ← on_fs (getf fi);
  if fl_writable f =? 0 then mret (-1)
  else match fl_type f with
       | FD_PIPE => pipe_write (fl_pipe f) addr n
       | FD_INODE =>
           src ← from_user addr n;
           i ← on_fs (inode_writes (Z.to_nat n) fi src 0 n);
           mret (if i =? n then n else -1)
       | FD_NONE => panic "filewrite"
       end.
End file.
