(* ===== verification/FsCrash.v ===== *)
(** * A write to a file, and crashes

    One round of the loop of [filewrite] is a transaction: [begin_op], the
    inode lock, [writei], the offset of the open file, and [end_op], which
    commits.  The file composes the bytes of a file (FsRw.v) with the commit
    (Crash.v): the round writes its bytes, and a crash at any disk write leaves
    the file system as before the round or as after it.  The loop of [filewrite]
    writes all its bytes, and a crash leaves a prefix of them. *)

From Stdlib Require Import ZArith Lia.
From stdpp Require Import base numbers strings gmap list.
From S2P Require Import Prelude.
From S2P Require Import Machine.
From S2P Require Import FState.
From S2P Require Import Blocks.
From S2P Require Import Bio.
From S2P Require Import Log.
From S2P Require Import LogSpec.
From S2P Require Import Crash.
From S2P Require Import Tx.
From S2P Require Import Fs.
From S2P Require Import FsAlloc.
From S2P Require Import FsData.
From S2P Require Import FsRw.
From S2P Require Import File.

Local Open Scope string_scope.
Local Open Scope list_scope.
Local Open Scope Z_scope.

(** ** Between transactions *)

(** Nothing is logged, and the superblock is in use and on the disk. *)
Record fs_idle (s : fstate) : Prop := {
  id_log : log_ready s [];
  id_super : super_ok s [];
  id_out : lg_outstanding (f_log s) = 0;
  id_committing : lg_committing (f_log s) = 0;
  id_logsize : lg_size (f_log s) = 30;
  id_one : 1 < sb_size (f_sb s) /\ used (view s) (f_sb s) 1 = true /\ 1 <> bb s }.

Lemma begin_op_run s : fs_idle s -> let s1 := set_f_log (set_lg_outstanding 1 (f_log s)) s in begin_op s = Ret tt s1 /\ tx [] s1 [].
Proof.
  intros [[A1 A2 A3 A4 A5 A6] _ E1 E2 E3 _] s1. unfold begin_op. rewrite bind_gets, E2, E1. rewrite A3. split.
  - transitivity (updlog (fun lg => set_lg_outstanding (lg_outstanding lg + 1) lg) s); [done|]. unfold updlog, modify. by rewrite E1.
  - destruct A2. split; try done; by apply bio_inv_log.
Qed.

Lemma log_ready_log s bs out com :
  log_ready s bs -> log_ready (set_f_log (set_lg_committing com (set_lg_outstanding out (f_log s))) s) bs.
Proof. intros [A1 [B1 B2 B3 B4 B5 B6 B7] A3 A4 A5 A6]. split; try done. by apply bio_inv_log. Qed.

Lemma reboot_ext s s' ws : f_img s' = f_img s -> f_disksize s' = f_disksize s -> reboot s' ws = reboot s ws.
Proof. intros E1 E2. unfold reboot. by rewrite E1, E2. Qed.

Lemma crashes_ext s s' ws ws' : f_img s' = f_img s -> f_disksize s' = f_disksize s -> crashes s ws ws' -> crashes s' ws ws'.
Proof.
  intros E1 E2 H. induction H as [ws|ws W1 W2 ws' r Hr HW _ IH]; [constructor|]. eapply crash_again; [|done|done]. by rewrite (reboot_ext s s').
Qed.

(** The disk after a crash that follows the writes [ws]: recovery gives the home
    blocks [final]. *)
Definition recovers (s : fstate) (ws : list (Z * list Z)) (final : Z -> list Z) : Prop :=
  exists r, recovery (reboot s ws) = Ret tt r /\ log_ready r [] /\ lg_start (f_log r) = lg_start (f_log s) /\
    forall b, data_block s b -> disk r b = final b.

Lemma recovers_ext s s' ws final final' :
  f_img s' = f_img s -> dframe s s' -> (forall b, data_block s b -> final' b = final b) -> recovers s ws final -> recovers s' ws final'.
Proof.
  intros E1 D Hf (r & Hr & L & Es & Hd). pose proof D as (E2 & _ & E3). exists r. rewrite (reboot_ext s s') by done. rewrite E3. split; [done|]. split; [done|].
  split; [done|]. intros b Hb. rewrite (data_block_dframe s s' b D) in Hb. rewrite Hf by done. by apply Hd.
Qed.

(** [commit] whether or not something is logged. *)
Lemma commit_any s bs :
  log_ready s bs -> super_ok s bs ->
  exists s', commit s = Ret tt s' /\ log_ready s' [] /\ same_but_log s s' /\ (forall b, data_block s b -> disk s' b = view s b) /\
    (exists W, f_writes s' = W ++ f_writes s) /\
    forall W1 W2 ws, f_writes s' = W2 ++ W1 ++ f_writes s -> crashes s (W1 ++ f_writes s) ws -> recovers s ws (disk s) \/ recovers s ws (view s).
Proof.
  intros L SB. destruct (decide (bs = [])) as [->|Hne].
  - exists s. pose proof (lr_n _ _ L) as Hn. simpl in Hn. unfold commit. rewrite bind_gets, Hn. split; [done|]. split; [done|]. split.
    { split; [|done]. destruct (f_log s). simpl in *. by rewrite Hn. }
    split. { intros b _. symmetry. apply clean_view; [apply L|]. rewrite (lr_dirty _ _ L). apply not_elem_of_nil. }
    split; [by exists []|]. intros W1 W2 ws HW Hc. left. assert (W1 = []) as ->. { apply (f_equal length) in HW. rewrite !length_app in HW. destruct W1; [done|simpl in HW; lia]. }
    by apply (idle_crashed s ws L SB Hc).
  - destruct (commit_done s bs L SB Hne) as (s' & Hr & L' & Hs & HW & Hd). exists s'. split; [done|]. split; [done|]. split; [done|]. split; [done|].
    split; [by eexists|]. intros W1 W2 ws HW1 Hc. rewrite HW in HW1. destruct (commit_crashed s bs W1 W2 ws L SB HW1 Hc) as (r & R1 & R2 & R3 & R4).
    destruct (length W1 <=? length bs)%nat; [left|right]; by exists r.
Qed.

(** What [end_op] leaves alone. *)
Definition op_frame (s s' : fstate) : Prop :=
  dframe s s' /\ f_img s' = f_img s /\ f_inodes s' = f_inodes s /\ f_files s' = f_files s.

Lemma end_op_run s bs :
  tx [] s bs -> lg_outstanding (f_log s) = 1 -> lg_committing (f_log s) = 0 -> super_ok s bs ->
  exists s', end_op s = Ret tt s' /\ log_ready s' [] /\ op_frame s s' /\
    (lg_outstanding (f_log s') = 0 /\ lg_committing (f_log s') = 0 /\ lg_size (f_log s') = 30) /\
    (forall b, data_block s b -> disk s' b = view s b) /\ (exists W, f_writes s' = W ++ f_writes s) /\
    forall W1 W2 ws, f_writes s' = W2 ++ W1 ++ f_writes s -> crashes s (W1 ++ f_writes s) ws -> recovers s ws (disk s) \/ recovers s ws (view s).
Proof.
  intros T Ho Hc SB. unfold end_op, updlog. rewrite bind_modify, bind_gets. cbn [set_f_log f_log set_lg_outstanding lg_committing lg_outstanding].
  rewrite Hc, Ho. cbn [Z.eqb negb]. rewrite bind_unless_false. change (1 - 1) with 0. cbn [Z.eqb]. rewrite bind_modify.
  set (s1 := set_f_log _ _). assert (E : s1 = set_f_log (set_lg_committing 1 (set_lg_outstanding 0 (f_log s))) s) by done. clearbody s1.
  assert (L1 : log_ready s1 bs) by (rewrite E; apply log_ready_log, tx_ready, T).
  destruct (commit_any s1 bs L1) as (s2 & R2 & L2 & (B1 & B2 & B3 & B4 & B5 & B6 & _) & D2 & W2 & C2); [rewrite E; destruct SB; by split|]. mstep R2.
  rewrite E in *. simpl in B1, B2, B3, B4, B5, B6.
  eexists. split; [done|]. split; [|split; [|split; [|split; [exact D2|split; [exact W2|]]]]].
  - pose proof (log_ready_log s2 [] 0 0 L2) as L3. rewrite B1 in L3 |- *. exact L3.
  - unfold op_frame, dframe. simpl. rewrite B1. done.
  - simpl. rewrite B1. simpl. split; [done|]. split; [done|]. apply (tx_logsize _ _ _ T).
  - intros W1 W3 ws HW Hcr. apply (C2 W1 W3 ws HW). by apply (crashes_ext s).
Qed.

(** ** A file between transactions *)

(** The inode is valid, unlocked and referenced; the superblock is not one of its
    blocks. *)
Record file_idle (s : fstate) (ip : nat) (x : inode) : Prop := {
  fi_ok : file_ok s ip x;
  fi_valid : i_valid x <> 0;
  fi_ref : 1 <= i_ref x;
  fi_lock : sl_locked (i_lock x) = 0;
  fi_ib : 1 <> iblock s x;
  fi_slots : forall k, 0 <= k <= 140 -> slot (view s) x k <> 1 }.

(** The file system as seen through the blocks outside the log. *)
Section same_view.
Context (s s' : fstate) (D : dframe s s') (V : forall b, data_block s b -> view s' b = view s b) (Hz : f_disksize s < two32) (L : layout s).

Lemma same_bb : view s' (bb s) = view s (bb s).
Proof. apply V. by apply bb_block. Qed.

Lemma same_slot x k : inode_ok s x -> 0 <= k <= 140 -> slot (view s') x k = slot (view s) x k.
Proof.
  intros O Hk. destruct (decide (ind_addr x = 0)) as [E|E]; [unfold slot, addr_at; by rewrite E|]. apply slot_ext, V.
  apply (ik_good _ _ O 140); [lia|done].
Qed.

Lemma same_fbyte x p : inode_ok s x -> 0 <= p < 71680 -> fbyte (view s') x p = fbyte (view s) x p.
Proof.
  intros O Hp. unfold fbyte, blk. assert (0 <= p / 512 <= 140) by (Z.div_mod_to_equations; lia). rewrite same_slot by done.
  destruct (Z.eqb_spec (slot (view s) x (p / 512)) 0) as [|Hne]; [done|]. rewrite V; [done|]. by apply (ik_good _ _ O).
Qed.

Lemma same_used b : 0 <= b < sb_size (f_sb s) -> used (view s') (f_sb s') b = used (view s) (f_sb s) b.
Proof. intros Hb. rewrite (proj1 (proj2 D)). apply used_bits; try done. apply same_bb. Qed.

Lemma same_nfree : nfree s' = nfree s.
Proof. apply nfree_bits; try done. apply same_bb. Qed.

Lemma same_iblock x : iblock s' x = iblock s x.
Proof. unfold iblock. by rewrite (proj1 (proj2 D)). Qed.

Lemma same_file ip x y :
  f_inodes s' !! ip = Some y -> y = set_i_lock (i_lock y) x -> file_ok s ip x -> file_ok s' ip y.
Proof.
  intros Hy Ey [A1 A2 A3 A4 A5 A6 A7 [A8 A8'] A9 A10]. assert (Oy : inode_ok s y) by (rewrite Ey; by destruct A2).
  assert (Hs : forall k, 0 <= k <= 140 -> slot (view s') y k = slot (view s) x k) by (intros k Hk; rewrite same_slot by done; by rewrite Ey).
  assert (Eib : iblock s' y = iblock s x) by (rewrite same_iblock; by rewrite Ey). split; try done.
  - apply (inode_ok_bits s s'); try done; [apply same_bb|]. intros k Hk. by apply same_slot.
  - apply (layout_bits s s'); try done. apply same_bb.
  - by rewrite Ey.
  - rewrite Ey. by destruct A5.
  - by rewrite Ey.
  - intros bn H0 Hb. rewrite Ey in Hb. simpl in Hb. rewrite Hs by lia. by apply A7.
  - rewrite Eib. split; [|done]. eapply good_used; [done| |done]. intros Hu. pose proof (same_used (iblock s x) (proj1 A8)) as Hu'.
    rewrite (proj1 (proj2 D)) in Hu'. by rewrite Hu'.
  - intros k Hk. rewrite Hs, Eib by done. by apply A9.
  - unfold synced in *. rewrite Eib, V by apply A8. rewrite Ey. simpl.
    transitivity (set_i_lock (i_lock y) (get_dinode (dip_at (i_inum x)) (view s (iblock s x)) x)); [done|by rewrite A10].
Qed.
End same_view.

Lemma idle_view s b : fs_idle s -> view s b = disk s b.
Proof. intros I. pose proof (id_log _ I) as L. apply clean_view; [apply L|]. rewrite (lr_dirty _ _ L). apply not_elem_of_nil. Qed.

Lemma ilock_run s ip x :
  f_inodes s !! ip = Some x -> 1 <= i_ref x -> sl_locked (i_lock x) = 0 -> i_valid x <> 0 ->
  ilock ip s = Ret tt (seti ip (set_i_lock (mksleep 1 (f_pid s)) x) s).
Proof.
  intros Hx Hr Hl Hv. unfold ilock. mstep (geti_run _ _ _ Hx). destruct (Z.ltb_spec (i_ref x) 1); [lia|]. rewrite bind_unless_false.
  assert (R : acquiresleep (LInode ip) s = Ret tt (seti ip (set_i_lock (mksleep 1 (f_pid s)) x) s)).
  { unfold acquiresleep, getlk. rewrite bind_assoc_run. mstep (geti_run _ _ _ Hx). rewrite bind_mret, Hl. cbn [Z.eqb negb]. rewrite bind_gets. by apply updi_run. }
  mstep R. set (y := set_i_lock _ x). assert (Hy : f_inodes (seti ip y s) !! ip = Some y) by (simpl; apply list_lookup_insert_eq; by eapply lookup_lt_Some).
  mstep (geti_run _ _ _ Hy). change (i_valid y) with (i_valid x). by destruct (Z.eqb_spec (i_valid x) 0).
Qed.

Lemma iunlock_run s ip x :
  f_inodes s !! ip = Some x -> 1 <= i_ref x -> sl_locked (i_lock x) <> 0 -> iunlock ip s = Ret tt (seti ip (set_i_lock (mksleep 0 0) x) s).
Proof.
  intros Hx Hr Hl. unfold iunlock, holdingsleep, getlk. rewrite !bind_assoc_run. mstep (geti_run _ _ _ Hx). rewrite bind_mret. rewrite bind_mret. mstep (geti_run _ _ _ Hx).
  destruct (Z.eqb_spec (sl_locked (i_lock x)) 0); [done|]. destruct (Z.ltb_spec (i_ref x) 1); [lia|]. cbn [orb]. rewrite bind_unless_false. by apply updi_run.
Qed.

Section write.
Context `{DW : Devsw}.

Lemma tx_files s bs fs : tx [] s bs -> tx [] (set_f_files fs s) bs.
Proof. intros [[A1 A2 A3 A4 A5 A6] [B1 B2 B3 B4 B5 B6 B7] C D E F G H]. by split. Qed.

(** What a write asks for: [n] bytes of [src] from [i] on go to the offset of the
    file, which stays small enough, and the log and the disk have room. *)
Record can_write (s : fstate) (f : file) (x : inode) (src : list Z) (i n : Z) : Prop := {
  cw_off : 0 <= fl_off f <= i_size x;
  cw_n : 0 < n /\ fl_off f + n <= 71680;
  cw_src : 0 <= i /\ i + n <= Z.of_nat (length src);
  cw_log : (nblocks (fl_off f) n <= 22)%nat;
  cw_free : (nblocks (fl_off f) n + noind x <= nfree s)%nat }.

(** The file after the write. *)
Record written (s : fstate) (f : file) (x : inode) (src : list Z) (i n : Z) (s' : fstate) (x' : inode) : Prop := {
  wn_size : i_size x' = Z.max (i_size x) (fl_off f + n);
  wn_bytes : forall p, 0 <= p < 71680 -> fbyte (view s') x' p = put_bytes (fbyte (view s) x) (fl_off f) (slice (Z.to_nat i) (Z.to_nat n) src) p;
  wn_free : (nfree s + noind x' <= nfree s' + noind x + nblocks (fl_off f) n)%nat;
  wn_used : forall b, 0 <= b < sb_size (f_sb s) -> used (view s) (f_sb s) b = true -> used (view s') (f_sb s) b = true;
  wn_others : forall b, data_block s b -> 0 < b < sb_size (f_sb s) -> used (view s) (f_sb s) b = true -> b <> bb s -> b <> iblock s x ->
    (forall k, 0 <= k <= 140 -> slot (view s) x k <> b) -> view s' b = view s b;
  wn_frame : dframe s s' /\ f_img s' = f_img s }.

(** [1] is the number of the superblock. *)
Lemma not_logged s x s3 x3 (bs3 : list Z) :
  1 < sb_size (f_sb s) /\ used (view s) (f_sb s) 1 = true /\ 1 <> bb s -> 1 <> iblock s x -> (forall k, 0 <= k <= 140 -> slot (view s) x k <> 1) ->
  (forall b, b ∈ bs3 -> b ∈ ([] : list Z) \/ b = bb s \/ b = iblock s x \/ (b <> 0 /\ exists k, 0 <= k <= 140 /\ slot (view s3) x3 k = b)) ->
  (forall k, 0 <= k <= 140 -> slot (view s3) x3 k <> 0 -> slot (view s3) x3 k = slot (view s) x k \/ used (view s) (f_sb s) (slot (view s3) x3 k) = false) ->
  (forall k, 0 <= k <= 140 -> slot (view s3) x3 k <> 1) /\ (1 ∉ bs3).
Proof.
  intros (H1 & H2 & H3) Hib Hsl Hlog Hnew. assert (Hk : forall k, 0 <= k <= 140 -> slot (view s3) x3 k <> 1).
  { intros k Hk E. destruct (Hnew k Hk) as [E'|E']; [by rewrite E|apply (Hsl k Hk); congruence|]. rewrite E in E'. congruence. }
  split; [done|]. intros Hin. destruct (Hlog 1 Hin) as [Hn|[?|[?|(_ & k & Hk' & E)]]]; [by apply elem_of_nil in Hn|done|done|by apply (Hk k)].
Qed.

(** The part of the round between [begin_op] and [end_op]. *)
Lemma write_body {B} fi src i n s f x (K : Z -> M fstate B) :
  tx [] s [] -> 1 < sb_size (f_sb s) /\ used (view s) (f_sb s) 1 = true /\ 1 <> bb s ->
  f_files s !! fi = Some f -> file_idle s (fl_ip f) x -> can_write s f x src i n ->
  exists s' x' bs, (f ← getf fi; ilock (fl_ip f);; r ← writei (fl_ip f) (drop (Z.to_nat i) src) (fl_off f) (u32 n); file_advance fi r;;
      iunlock (fl_ip f);; K r) s = K n s' /\
    tx [] s' bs /\ (1 ∉ bs) /\ file_idle s' (fl_ip f) x' /\ written s f x src i n s' x' /\
    f_files s' !! fi = Some (set_fl_off (fl_off f + n) f) /\ f_writes s' = f_writes s /\
    lg_outstanding (f_log s') = lg_outstanding (f_log s) /\ lg_committing (f_log s') = lg_committing (f_log s).
Proof.
  intros T H1 Hf [F Fv Fr Fl Fib Fsl] [C1 C2 C3 C4 C5]. unfold getf. rewrite bind_assoc_run, bind_get, Hf, bind_some.
  set (ip := fl_ip f) in *. pose proof (fo_inode _ _ _ F) as Hx. mstep (ilock_run s ip x Hx Fr Fl Fv). set (y := set_i_lock _ x). set (s2 := seti ip y s).
  assert (Hx2 : f_inodes s2 !! ip = Some y) by (simpl; apply list_lookup_insert_eq; by eapply lookup_lt_Some).
  assert (F2 : file_ok s2 ip y) by (eapply (same_file s s2); try done; [by apply T|apply F]).
  assert (H32 : 71680 < two32) by done. rewrite (u32_id n) by lia.
  pose proof (writei_run ip s2 y [] (drop (Z.to_nat i) src) (fl_off f) n (tx_seti _ _ _ _ _ T) F2 ltac:(lia) ltac:(lia) ltac:(rewrite length_drop; lia)) as Hw.
  change (i_size y) with (i_size x) in Hw. rewrite bool_decide_eq_false_2 in Hw by lia.
  destruct (Hw C4 C5) as (s3 & x3 & bs3 & R3 & T3 & F3 & E3 & B3 & V3 & I3 & Lg3 & Sl3 & Er3 & N3 & U3). clear Hw. mstep R3.
  destruct (not_logged s x s3 x3 bs3 H1 Fib Fsl Lg3 Sl3) as [Hsl3 Hl3]. pose proof (frame_dframe _ _ I3) as D3.
  unfold file_advance. destruct (Z.ltb_spec 0 n); [|lia]. unfold updf. rewrite bind_modify. set (s4 := set_f_files _ s3).
  pose proof (fo_inode _ _ _ F3) as Hx3. assert (Hx4 : f_inodes s4 !! ip = Some x3) by exact Hx3.
  assert (Hl : i_lock x3 = mksleep 1 (f_pid s)) by (rewrite Er3; done). assert (Href : i_ref x3 = i_ref x) by (rewrite Er3; done).
  mstep (iunlock_run s4 ip x3 Hx4 ltac:(lia) ltac:(by rewrite Hl)). set (x5 := set_i_lock _ x3). set (s5 := seti ip x5 s4).
  assert (Hx5 : f_inodes s5 !! ip = Some x5) by (simpl; apply list_lookup_insert_eq; by eapply lookup_lt_Some).
  exists s5, x5, bs3. split; [done|]. split; [by apply tx_seti, tx_files|]. split; [done|]. split; [|split; [|split]].
  - split; try done; [eapply (same_file s3 s5); try done; [apply T3|apply F3]|unfold x5; by rewrite Er3|unfold x5; simpl; by rewrite Href|].
    assert (E : iblock s5 x5 = iblock s x) by (change (iblock s5 x5) with (iblock s3 x3); unfold iblock; rewrite (proj1 (proj2 D3)), Er3; done).
    by rewrite E.
  - split; [exact E3|exact B3|exact N3|exact U3|intros b _; apply V3|split; [exact D3|apply (fr_img _ _ I3)]].
  - simpl. rewrite list_lookup_alter_eq, (fr_files _ _ I3). simpl. rewrite Hf. simpl. rewrite u32_id by lia. done.
  - split; [apply (fr_writes _ _ I3)|]. split; [apply (fr_out _ _ I3)|apply (fr_committing _ _ I3)].
Qed.

(** States that agree on the blocks outside the log. *)
Lemma same_idle s s' ip x :
  dframe s s' -> (forall b, data_block s b -> view s' b = view s b) -> f_disksize s < two32 -> f_inodes s' = f_inodes s ->
  file_idle s ip x -> file_idle s' ip x.
Proof.
  intros D V Hz E [F Fv Fr Fl Fib Fsl]. pose proof (fo_lay _ _ _ F) as L. pose proof (fo_ok _ _ _ F) as O. split; try done.
  - eapply (same_file s s'); try done; [by rewrite E; apply F|by destruct x].
  - unfold iblock. by rewrite (proj1 (proj2 D)).
  - intros k Hk. rewrite (same_slot s s' V) by done. by apply Fsl.
Qed.

Lemma same_written s f x src i n s1 s2 y :
  written s f x src i n s1 y -> dframe s1 s2 -> f_img s2 = f_img s1 -> (forall b, data_block s1 b -> view s2 b = view s1 b) -> f_disksize s1 < two32 ->
  layout s1 -> inode_ok s1 y -> written s f x src i n s2 y.
Proof.
  intros [A1 A2 A3 A4 A5 [D A6]] D2 E V Hz L1 O. pose proof (proj1 (proj2 D)) as Esb. split.
  - done.
  - intros p Hp. rewrite (same_fbyte s1 s2 V) by done. by apply A2.
  - rewrite (same_nfree s1 s2) by done. done.
  - intros b Hb Hu. pose proof (same_used s1 s2 D2 V Hz L1 b) as H. rewrite (proj1 (proj2 D2)), Esb in H. rewrite H by done. by apply A4.
  - intros b Hd Hb Hu H1 H2 H3. rewrite V by (by apply (data_block_dframe s s1)). by apply A5.
  - split; [by etransitivity|congruence].
Qed.

(** One round of the loop. *)
Lemma inode_write_run fi src i n s f x :
  fs_idle s -> f_files s !! fi = Some f -> file_idle s (fl_ip f) x -> can_write s f x src i n ->
  exists s' x', inode_write fi src i n s = Ret n s' /\ fs_idle s' /\ file_idle s' (fl_ip f) x' /\ written s f x src i n s' x' /\
    f_files s' !! fi = Some (set_fl_off (fl_off f + n) f) /\ (exists W, f_writes s' = W ++ f_writes s) /\
    forall W1 W2 ws, f_writes s' = W2 ++ W1 ++ f_writes s -> crashes s (W1 ++ f_writes s) ws -> recovers s ws (disk s) \/ recovers s ws (disk s').
Proof.
  intros I Hf Hx C. unfold inode_write. destruct (begin_op_run s I) as [R1 T1]. mstep R1. set (s1 := set_f_log _ s) in *.
  assert (Hx1 : file_idle s1 (fl_ip f) x) by (apply (same_idle s s1); try done; apply (lr_size _ _ (id_log _ I))).
  assert (C1 : can_write s1 f x src i n) by (destruct C; by split).
  destruct (write_body fi src i n s1 f x (fun r => end_op;; mret r) T1 (id_one _ I) Hf Hx1 C1) as (s2 & x2 & bs & R2 & T2 & Hone & Hx2 & Hw & Hf2 & HW2 & Ho & Hc).
  rewrite R2. pose proof (wn_frame _ _ _ _ _ _ _ _ Hw) as [D A5]. pose proof D as (E1 & E2 & E3). pose proof (id_super _ I) as [S1 S2 S3].
  destruct (end_op_run s2 bs T2) as (s3 & R3 & L3 & (D3 & P2 & P3 & P4) & (Q1 & Q2 & Q3) & V3 & [W HW] & Cr); [by rewrite Ho|rewrite Hc; apply I| |].
  { split; [| |done]; unfold home, disk; rewrite ?HW2, ?A5, ?E1, ?E3; [exact S1|exact S2]. }
  mstep R3. exists s3, x2. assert (Hv3 : forall b, view s3 b = disk s3 b).
  { intros b. apply clean_view; [apply L3|]. rewrite (lr_dirty _ _ L3). apply not_elem_of_nil. }
  assert (Hv : forall b, data_block s2 b -> view s3 b = view s2 b) by (intros b Hb; by rewrite Hv3, V3).
  pose proof (tx_size _ _ _ T2) as Hz. pose proof (fi_ok _ _ _ Hx2) as F2.
  assert (Hw3 : written s f x src i n s3 x2) by (apply (same_written s f x src i n s2); try done; [destruct Hw; by split|apply F2|apply F2]).
  assert (Hx3 : file_idle s3 (fl_ip f) x2) by (by apply (same_idle s2 s3)).
  assert (D13 : dframe s s3) by apply Hw3. pose proof D13 as (G1 & G2 & G3). destruct (id_one _ I) as (O1 & O2 & O3).
  split; [done|]. split; [|split; [done|split; [done|split; [by rewrite P4|split; [exists W; by rewrite HW, HW2|]]]]].
  - split; try done; [split; [| |apply not_elem_of_nil]|].
    + rewrite <- Hv3, (wn_others _ _ _ _ _ _ _ _ Hw3); try done; [by rewrite (idle_view s 1 I), G3|apply Hx|apply Hx].
    + unfold home. rewrite G1, G3. exact S2.
    + rewrite G2. split; [done|]. split; [by apply (wn_used _ _ _ _ _ _ _ _ Hw3); [lia|]|]. by rewrite (bb_dframe s s3).
  - change (f_writes s1) with (f_writes s) in HW2. intros W1 W2 ws HW1 Hcr. rewrite <- HW2 in HW1, Hcr.
    destruct (Cr W1 W2 ws HW1) as [H|H]; [by apply (crashes_ext s)|left|right].
    + apply (recovers_ext s2 s ws (disk s2)); try done. intros b _. unfold disk. by rewrite HW2, A5.
    + apply (recovers_ext s2 s ws (view s2)); done.
Qed.

(** ** The loop *)

(** In [t] the file holds the first [m] of the bytes to be written. *)
Record stored (s : fstate) (f : file) (x : inode) (src : list Z) (i m : Z) (t : fstate) (y : inode) : Prop := {
  sd_idle : fs_idle t;
  sd_file : file_idle t (fl_ip f) y;
  sd_size : i_size y = Z.max (i_size x) (fl_off f + m);
  sd_bytes : forall p, 0 <= p < 71680 -> fbyte (view t) y p = put_bytes (fbyte (view s) x) (fl_off f) (slice (Z.to_nat i) (Z.to_nat m) src) p;
  sd_frame : dframe s t /\ f_img t = f_img s }.

(** The disk is at rest between two rounds. *)
Definition crash_prefix (s : fstate) (f : file) (x : inode) (src : list Z) (i n : Z) (s' : fstate) : Prop :=
  (exists W, f_writes s' = W ++ f_writes s) /\
  forall W1 W2 ws, f_writes s' = W2 ++ W1 ++ f_writes s -> crashes s (W1 ++ f_writes s) ws ->
    exists t y m, 0 <= m <= n /\ stored s f x src i m t y /\ recovers s ws (disk t).

Lemma stored_nothing s f x src i : fs_idle s -> file_idle s (fl_ip f) x -> fl_off f <= i_size x -> stored s f x src i 0 s x.
Proof.
  intros I H Ho. split; try done; [lia|]. intros p _. unfold put_bytes, slice. simpl. rewrite bool_decide_eq_false_2; [done|lia].
Qed.

Lemma stored_round s f x src i n s' x' : fs_idle s' -> file_idle s' (fl_ip f) x' -> written s f x src i n s' x' -> stored s f x src i n s' x'.
Proof. intros I H [A1 A2 A3 A4 A5 A6]. by split. Qed.

Lemma stored_trans s f x src i n1 s1 x1 m t y :
  stored s f x src i n1 s1 x1 -> 0 <= i -> 0 <= n1 -> 0 <= m -> i + n1 <= Z.of_nat (length src) ->
  stored s1 (set_fl_off (fl_off f + n1) f) x1 src (i + n1) m t y -> stored s f x src i (n1 + m) t y.
Proof.
  intros [A1 A2 A3 A4 [A5 A6]] Hi Hn Hm Hl [B1 B2 B3 B4 [B5 B6]]. simpl in *. split; try done; [lia| |].
  - intros p Hp. rewrite B4 by done. rewrite (put_bytes_ext _ _ _ _ _ (A4 p Hp)).
    assert (E : length (slice (Z.to_nat i) (Z.to_nat n1) src) = Z.to_nat n1) by (apply length_slice; lia).
    replace (fl_off f + n1) with (fl_off f + Z.of_nat (length (slice (Z.to_nat i) (Z.to_nat n1) src))) by lia.
    rewrite put_bytes_app. rewrite (Z2Nat.inj_add i n1), (Z2Nat.inj_add n1 m) by lia. by rewrite slice_app.
  - split; [by etransitivity|congruence].
Qed.

(** [W1] ends in the first of two pieces of [W2 ++ W1], or in the second. *)
Lemma app_split {A} (W2 W1 Wb Wa : list A) :
  W2 ++ W1 = Wb ++ Wa -> (exists W2', Wa = W2' ++ W1) \/ (exists W1', W1 = W1' ++ Wa /\ Wb = W2 ++ W1').
Proof.
  intros H. apply app_eq_app in H as [k [[-> ->]|[-> ->]]]; [left; by exists k|right; by exists k].
Qed.

Lemma crash_round s f x src i n1 n s1 x1 s2 :
  stored s f x src i n1 s1 x1 -> fs_idle s -> file_idle s (fl_ip f) x -> fl_off f <= i_size x -> 0 <= i -> 0 <= n1 <= n -> i + n1 <= Z.of_nat (length src) ->
  (exists W, f_writes s1 = W ++ f_writes s) ->
  (forall W1 W2 ws, f_writes s1 = W2 ++ W1 ++ f_writes s -> crashes s (W1 ++ f_writes s) ws -> recovers s ws (disk s) \/ recovers s ws (disk s1)) ->
  crash_prefix s1 (set_fl_off (fl_off f + n1) f) x1 src (i + n1) (n - n1) s2 -> crash_prefix s f x src i n s2.
Proof.
  intros S1 I Hx Ho Hi Hn Hl [Wa Ea] C1 [[Wb Eb] C2]. split; [exists (Wb ++ Wa); by rewrite Eb, Ea, app_assoc|].
  intros W1 W2 ws HW Hc. assert (HW' : W2 ++ W1 = Wb ++ Wa).
  { rewrite Eb, Ea, !app_assoc in HW. by apply app_inv_tail in HW. }
  destruct (app_split _ _ _ _ HW') as [[W2' E]|(W1' & E & E')].
  - destruct (C1 W1 W2' ws) as [R|R]; [by rewrite Ea, E, <- app_assoc|done| |].
    + exists s, x, 0. split; [lia|]. split; [by apply stored_nothing|done].
    + exists s1, x1, n1. split; [lia|]. by split.
  - subst W1. rewrite <- app_assoc, <- Ea in Hc. destruct (sd_frame _ _ _ _ _ _ _ _ S1) as [(D1 & D2 & D3) Ei].
    destruct (C2 W1' W2 ws) as (t & y & m & Hm & St & R); [by rewrite Eb, E', <- app_assoc|by apply (crashes_ext s)|].
    exists t, y, (n1 + m). split; [lia|]. split; [eapply stored_trans; try done; lia|]. by apply (recovers_ext s1 s ws (disk t)).
Qed.

(** The places where [filewrite] cuts a write of [n] bytes. *)
Definition cuts (n : Z) : nat := Z.to_nat ((n - 1) / 6656).

Lemma nblocks_split off m n : 0 <= off -> 0 <= m <= n -> (nblocks off m + nblocks (off + m) (n - m) <= S (nblocks off n))%nat.
Proof.
  intros Ho Hm. unfold nblocks. replace (off + m + (n - m) - 1) with (off + n - 1) by lia.
  destruct (Z.eqb_spec m 0), (Z.eqb_spec (n - m) 0), (Z.eqb_spec n 0); try lia.
  - replace (off + m) with off by lia. lia.
  - replace m with n by lia. lia.
  - assert (off / 512 <= (off + m - 1) / 512 <= (off + m) / 512) by (Z.div_mod_to_equations; lia).
    assert ((off + m) / 512 <= (off + n - 1) / 512) by (Z.div_mod_to_equations; lia).
    assert ((off + m) / 512 <= (off + m - 1) / 512 + 1) by (Z.div_mod_to_equations; lia). lia.
Qed.

Lemma nblocks_max off n : 0 <= off -> 0 < n <= 6656 -> (nblocks off n <= 14)%nat.
Proof. intros Ho Hn. unfold nblocks. destruct (Z.eqb_spec n 0); [lia|]. Z.div_mod_to_equations. lia. Qed.

Lemma cuts_step n : 6656 < n -> cuts n = S (cuts (n - 6656)).
Proof.
  intros Hn. unfold cuts. replace (n - 1) with (n - 6656 - 1 + 1 * 6656) by lia. rewrite Z.div_add by lia.
  assert (0 <= (n - 6656 - 1) / 6656) by (apply Z.div_pos; lia). lia.
Qed.

Lemma writes_budget off n m (fr fr' no no' : nat) :
  0 <= off -> 0 < n -> m = Z.min 6656 n -> (nblocks off n + cuts n + no <= fr)%nat -> (fr + no' <= fr' + no + nblocks off m)%nat ->
  (nblocks off m + no <= fr)%nat /\ (nblocks (off + m) (n - m) + cuts (n - m) + no' <= fr')%nat.
Proof.
  intros Ho Hn Hm H1 H2. pose proof (nblocks_split off m n Ho ltac:(lia)) as Hs. destruct (decide (n <= 6656)).
  - replace m with n in * by lia. rewrite Z.sub_diag in *. unfold cuts, nblocks at 2. simpl. split; [lia|]. unfold nblocks at 2 in Hs. simpl in Hs. lia.
  - rewrite cuts_step in H1 by lia. replace m with 6656 in * by lia. split; [|lia].
    assert (nblocks (off + 6656) (n - 6656) <> 0)%nat; [|lia]. unfold nblocks. destruct (Z.eqb_spec (n - 6656) 0); [lia|].
    assert ((off + 6656) / 512 <= (off + 6656 + (n - 6656) - 1) / 512) by (Z.div_mod_to_equations; lia). lia.
Qed.

Lemma writes_nothing fi src n s f x :
  fs_idle s -> f_files s !! fi = Some f -> file_idle s (fl_ip f) x -> fl_off f <= i_size x ->
  exists s' x', (mret n : M fstate Z) s = Ret n s' /\ stored s f x src n 0 s' x' /\
    f_files s' !! fi = Some (set_fl_off (fl_off f + 0) f) /\ crash_prefix s f x src n 0 s'.
Proof.
  intros I Hf Hx Ho. exists s, x. split; [done|]. split; [by apply stored_nothing|]. split; [rewrite Z.add_0_r, Hf; by destruct f|].
  split; [by exists []|]. intros W1 W2 ws HW Hc.
  assert (W1 = []) as ->. { apply (f_equal length) in HW. rewrite !length_app in HW. destruct W1; [done|simpl in HW; lia]. }
  exists s, x, 0. split; [lia|]. split; [by apply stored_nothing|]. by apply (idle_crashed s ws (id_log _ I) (id_super _ I) Hc).
Qed.

Lemma inode_writes_run fuel fi src i n s f x :
  fs_idle s -> f_files s !! fi = Some f -> file_idle s (fl_ip f) x -> 0 <= fl_off f <= i_size x -> 0 <= i <= n -> fl_off f + (n - i) <= 71680 ->
  n <= Z.of_nat (length src) -> (Z.to_nat (n - i) <= fuel)%nat -> (nblocks (fl_off f) (n - i) + cuts (n - i) + noind x <= nfree s)%nat ->
  exists s' x', inode_writes fuel fi src i n s = Ret n s' /\ stored s f x src i (n - i) s' x' /\
    f_files s' !! fi = Some (set_fl_off (fl_off f + (n - i)) f) /\ crash_prefix s f x src i (n - i) s'.
Proof.
  revert s f x i. induction fuel as [|fuel IH]; intros s f x i I Hf Hx Ho Hi Hmax Hsrc Hfuel Hfree; cbn [inode_writes].
  - destruct (Z.ltb_spec i n); [lia|]. assert (i = n) as -> by lia. rewrite Z.sub_diag. apply (writes_nothing fi); [done|done|done|lia].
  - destruct (Z.ltb_spec i n) as [Hlt|].
    2:{ assert (i = n) as -> by lia. rewrite Z.sub_diag. apply (writes_nothing fi); [done|done|done|lia]. }
    set (m := if write_max <? n - i then write_max else n - i).
    assert (Hm : m = Z.min 6656 (n - i)) by (unfold m; change write_max with 6656; destruct (Z.ltb_spec 6656 (n - i)); lia). clearbody m.
    pose proof (nblocks_max (fl_off f) m ltac:(lia) ltac:(lia)) as Hnb.
    destruct (writes_budget (fl_off f) (n - i) m (nfree s) (nfree s + nblocks (fl_off f) m) (noind x) (noind x)) as [Hb1 _]; [lia|lia|done|done|lia|].
    destruct (inode_write_run fi src i m s f x I Hf Hx) as (s1 & x1 & R1 & I1 & Hx1 & W1 & Hf1 & HW1 & C1); [split; [done|lia|lia|lia|done]|]. mstep R1.
    destruct (Z.ltb_spec m 0); [lia|]. rewrite Z.eqb_refl. cbn [negb]. rewrite bind_unless_false.
    destruct (writes_budget (fl_off f) (n - i) m (nfree s) (nfree s1) (noind x) (noind x1)) as [_ Hb2]; [lia|lia|done|done|apply W1|].
    pose proof (stored_round _ _ _ _ _ _ _ _ I1 Hx1 W1) as S1. pose proof (wn_size _ _ _ _ _ _ _ _ W1) as Hsz.
    destruct (IH s1 (set_fl_off (fl_off f + m) f) x1 (i + m) I1 Hf1 Hx1) as (s2 & x2 & R2 & S2 & Hf2 & C2); cbn [fl_off set_fl_off]; try lia.
    { replace (n - (i + m)) with (n - i - m) by lia. done. }
    replace (n - (i + m)) with (n - i - m) in * by lia. exists s2, x2. split; [done|]. split; [|split].
    + replace (n - i) with (m + (n - i - m)) by lia. eapply stored_trans; try done; lia.
    + rewrite Hf2. cbn [fl_off set_fl_off]. unfold set_fl_off. simpl. do 2 f_equal. lia.
    + eapply (crash_round s f x src i m (n - i) s1 x1 s2); try done; lia.
Qed.
(** A write is atomic.  Between transactions, one round of the loop of
    [filewrite] writes its bytes at the offset of the open file and advances the
    offset; the file system is at rest again, with the other blocks in use as
    before.  If the machine crashes after any of the disk writes of the round,
    and recovery crashes any number of times, a recovery that completes gives
    the blocks of the disk from before the round, or those from after it. *)
Theorem write_crash_atomic fi src i n s f x :
  fs_idle s -> f_files s !! fi = Some f -> file_idle s (fl_ip f) x -> can_write s f x src i n ->
  exists s' x', inode_write fi src i n s = Ret n s' /\ fs_idle s' /\ file_idle s' (fl_ip f) x' /\ written s f x src i n s' x' /\
    f_files s' !! fi = Some (set_fl_off (fl_off f + n) f) /\
    forall W1 W2 ws, f_writes s' = W2 ++ W1 ++ f_writes s -> crashes s (W1 ++ f_writes s) ws -> recovers s ws (disk s) \/ recovers s ws (disk s').
Proof.
  intros I Hf Hx C. destruct (inode_write_run fi src i n s f x I Hf Hx C) as (s' & x' & R & I' & Hx' & W & Hf' & _ & Cr). by exists s', x'.
Qed.

(** C2. [filewrite] writes all its bytes, and a crash leaves a prefix of them.
    With room on the disk the loop of [filewrite] returns [n], the file holds the
    [n] bytes from its offset on, and the offset has advanced by [n].  After a
    crash at any disk write of the loop, recovery gives the disk of a file
    system at rest whose file holds the first [m] of the bytes, for some [m]. *)
Theorem filewrite_crash_prefix fi src n s f x :
  fs_idle s -> f_files s !! fi = Some f -> file_idle s (fl_ip f) x -> 0 <= fl_off f <= i_size x -> 0 <= n -> fl_off f + n <= 71680 ->
  n <= Z.of_nat (length src) -> (nblocks (fl_off f) n + cuts n + noind x <= nfree s)%nat ->
  exists s' x', inode_writes (Z.to_nat n) fi src 0 n s = Ret n s' /\ stored s f x src 0 n s' x' /\
    f_files s' !! fi = Some (set_fl_off (fl_off f + n) f) /\
    forall W1 W2 ws, f_writes s' = W2 ++ W1 ++ f_writes s -> crashes s (W1 ++ f_writes s) ws ->
      exists t y m, 0 <= m <= n /\ stored s f x src 0 m t y /\ recovers s ws (disk t).
Proof.
  intros I Hf Hx Ho Hn Hmax Hsrc Hfree.
  destruct (inode_writes_run (Z.to_nat n) fi src 0 n s f x I Hf Hx) as (s' & x' & R & S & Hf' & [_ C]); rewrite ?Z.sub_0_r in *; try done; try lia.
  by exists s', x'.
Qed.
End write.

(** ** A file system at rest *)

Definition ino_idle : inode := set_i_lock (mksleep 0 0) ino40.
Definition open40 : file := mkfile FD_INODE 1 1 1 0 0 0.
Definition fs1 : fstate :=
  mkfs small_disk [] 40 (replicate 30 buf0) (seq 0 30) (mklog 2 30 0 0 1 0 (replicate 30 0)) sb40 (ino_idle :: replicate 49 inode0) [open40] 1 0.

Lemma fs1_idle : fs_idle fs1.
Proof.
  pose proof fs0_tx as [[A1 A2 A3 A4 A5 A6] [B1 B2 B3 B4 B5 B6 B7] C D E F G H]. split; [by split|..|reflexivity|reflexivity|reflexivity|].
  - split; [by vm_compute| |apply not_elem_of_nil]. unfold home. change (0 <= 1 < 40 /\ ~ (2 <= 1 < 2 + 30)). lia.
  - split; [reflexivity|]. split; [|discriminate]. change (used (view fs0) sb40 1 = true). unfold used. rewrite fs0_view. by vm_compute.
Qed.

Lemma fs1_view b : view fs1 b = view fs0 b.
Proof. unfold view. reflexivity. Qed.

Lemma fs1_file : file_idle fs1 0 ino_idle.
Proof.
  assert (D : dframe fs0 fs1) by (split; [reflexivity|split; reflexivity]).
  split; [|discriminate|exact (Z.le_refl 1)|reflexivity|discriminate|].
  - apply (same_file fs0 fs1 D (fun b _ => fs1_view b) (tx_size _ _ _ fs0_tx) fs0_layout 0 ino40 ino_idle); [reflexivity|reflexivity|apply fs0_file].
  - intros k Hk. assert (E : slot (view fs1) ino_idle k = 0) by exact (ino40_slot (view fs1) k Hk). rewrite E. discriminate.
Qed.

Lemma fs1_room : (nblocks 0 3 = 1 /\ cuts 3 = 0 /\ noind ino_idle = 1 /\ nfree fs1 = 2)%nat.
Proof. by vm_compute. Qed.

Lemma fs1_can_write : can_write fs1 open40 ino_idle [1; 2; 3] 0 3.
Proof. destruct fs1_room as (E1 & _ & E3 & E4). split; simpl fl_off; rewrite ?E1, ?E3, ?E4; simpl; lia. Qed.

Lemma write_crash_atomic_witness : exists s', @inode_write no_devices 0 [1; 2; 3] 0 3 fs1 = Ret 3 s' /\ fs_idle s'.
Proof.
  destruct (@write_crash_atomic no_devices 0 [1; 2; 3] 0 3 fs1 open40 ino_idle fs1_idle eq_refl fs1_file fs1_can_write) as (s' & x' & R & I & _).
  exists s'. split; [exact R|exact I].
Defined.

Lemma filewrite_crash_prefix_witness : exists s', @inode_writes no_devices 3 0 [1; 2; 3] 0 3 fs1 = Ret 3 s'.
Proof.
  pose proof (@filewrite_crash_prefix no_devices 0 [1; 2; 3] 3 fs1 open40 ino_idle fs1_idle eq_refl fs1_file) as H.
  destruct fs1_room as (E1 & E2 & E3 & E4). change (fl_off open40) with 0 in H. rewrite E1, E2, E3, E4 in H.
  destruct H as (s' & x' & R & _); [split; [lia|exact (Z.le_refl 0)]|lia|lia|simpl; lia|simpl; lia|]. exists s'. exact R.
Defined.
