(* ===== verification/FsDir.v ===== *)
(** * Directories

    A directory is a file of 16-byte entries.  [dirlookup] finds the first entry
    in use with the name. *)

From Stdlib Require Import ZArith Lia.
From stdpp Require Import base numbers strings gmap list.
From S2P Require Import Prelude.
From S2P Require Import Machine.
From S2P Require Import FState.
From S2P Require Import Blocks.
From S2P Require Import Bio.
From S2P Require Import Log.
From S2P Require Import LogSpec.
From S2P Require Import Crash.
From S2P Require Import Tx.
From S2P Require Import Fs.
From S2P Require Import FsAlloc.
From S2P Require Import FsData.
From S2P Require Import FsRw.
From S2P Require Import FsPath.
From S2P Require Import FsCrash.

Local Open Scope string_scope.
Local Open Scope list_scope.
Local Open Scope Z_scope.

(** ** Entries *)

(** The bytes of entry [k]. *)
Definition entry (v : Z -> list Z) (x : inode) (k : Z) : list Z := fbytes v x (16 * k) 16.

(** Entry [k] is in use and has the name. *)
Definition matches (v : Z -> list Z) (x : inode) (name : list Z) (k : Z) : bool :=
  negb (de_inum (entry v x k) =? 0) && bool_decide (cname name = cname (de_name (entry v x k))).

(** The first such entry from [k] on, of [n]. *)
Fixpoint dir_find (v : Z -> list Z) (x : inode) (name : list Z) (n : nat) (k : Z) : option Z :=
  match n with
  | O => None
  | S n => if matches v x name k then Some k else dir_find v x name n (k + 1)
  end.

Definition dir_lookup (v : Z -> list Z) (x : inode) (name : list Z) : option Z := dir_find v x name (Z.to_nat (i_size x / 16)) 0.

Lemma dir_find_Some v x name n k j : dir_find v x name n k = Some j -> k <= j < k + Z.of_nat n /\ matches v x name j = true /\ forall i, k <= i < j -> matches v x name i = false.
Proof.
  revert k. induction n as [|n IH]; intros k E; [done|]. cbn [dir_find] in E. destruct (matches v x name k) eqn:Em.
  - injection E as <-. split; [lia|]. split; [done|]. intros i Hi. lia.
  - apply IH in E as (H1 & H2 & H3). split; [lia|]. split; [done|]. intros i Hi. destruct (decide (i = k)) as [->|]; [done|]. apply H3. lia.
Qed.

Lemma dir_find_None v x name n k : dir_find v x name n k = None -> forall i, k <= i < k + Z.of_nat n -> matches v x name i = false.
Proof.
  revert k. induction n as [|n IH]; intros k E i Hi; [lia|]. cbn [dir_find] in E. destruct (matches v x name k) eqn:Em; [done|].
  destruct (decide (i = k)) as [->|]; [done|]. apply (IH (k + 1)); [done|lia].
Qed.

Lemma dir_find_first v x name n k j : k <= j < k + Z.of_nat n -> matches v x name j = true -> (forall i, k <= i < j -> matches v x name i = false) -> dir_find v x name n k = Some j.
Proof.
  revert k. induction n as [|n IH]; intros k Hj Hm Hb; [lia|]. cbn [dir_find]. destruct (decide (k = j)) as [->|Hne]; [by rewrite Hm|]. rewrite Hb by lia. apply IH; [lia|done|]. intros i Hi. apply Hb. lia.
Qed.

Lemma dir_find_ext v v' x x' name n k : (forall i, k <= i < k + Z.of_nat n -> entry v' x' i = entry v x i) -> dir_find v' x' name n k = dir_find v x name n k.
Proof.
  revert k. induction n as [|n IH]; intros k E; [done|]. cbn [dir_find]. unfold matches. rewrite E by lia. rewrite (IH (k + 1)); [done|]. intros i Hi. apply E. lia.
Qed.

(** ** States with the same blocks *)

Definition samev (s s' : fstate) : Prop := dframe s s' /\ (forall b, view s' b = view s b) /\ f_pid s' = f_pid s /\ f_cwd s' = f_cwd s.

#[export] Instance samev_preorder : PreOrder samev.
Proof.
  split; [by intros s|]. intros s1 s2 s3 (A1 & A2 & A3 & A4) (B1 & B2 & B3 & B4). split; [by etransitivity|]. split; [intros b; by rewrite B2|]. split; congruence.
Qed.

Lemma peeked_samev s s' : peeked s s' -> samev s s'.
Proof. intros [(A1 & A2 & A3 & A4 & A5 & A6 & A7 & A8 & A9) V]. split; [|done]. unfold dframe. by rewrite A3, A4, A5. Qed.

Lemma samev_seti s ip x : samev s (seti ip x s).
Proof. done. Qed.

Lemma rd_seti s bs ip x : rd s bs -> rd (seti ip x s) bs.
Proof. intros [[A1 A2 A3 A4 A5 A6] B C]. by split. Qed.

Lemma entry_view v v' x x' k : (forall b, v' b = v b) -> i_addrs x' = i_addrs x -> entry v' x' k = entry v x k.
Proof.
  intros V E. unfold entry, fbytes. apply list_fmap_ext. intros i p _. unfold fbyte, blk. rewrite (slot_ext v v'); [|apply V]. unfold slot, addr_at, ind_addr. rewrite E. by destruct (_ =? 0); rewrite ?V.
Qed.

Lemma file_ok_peeked s s' ip x : peeked s s' -> f_disksize s < two32 -> file_ok s ip x -> file_ok s' ip x.
Proof.
  intros P Hz F. pose proof (peeked_samev _ _ P) as (D & V & _). apply (same_file s s' D ltac:(intros b _; apply V) Hz (fo_lay _ _ _ F) ip x x); [|by destruct x|done].
  destruct P as [(_ & _ & _ & _ & _ & E & _) _]. rewrite E. apply F.
Qed.

Section dir.
Context `{DW : Devsw}.

Lemma namecmp_run (s : fstate) p q : length p = 14%nat -> length q = 14%nat -> exists r, namecmp p q s = Ret r s /\ (r =? 0) = bool_decide (cname p = cname q).
Proof.
  intros Hp Hq. destruct (lstrncmp_spec 14 p q Hp Hq) as (r & Hr & He). exists r. split; [unfold namecmp; change (Z.to_nat DIRSIZ) with 14%nat; by rewrite Hr|].
  destruct (Z.eqb_spec r 0); [rewrite bool_decide_eq_true_2; tauto|rewrite bool_decide_eq_false_2; tauto].
Qed.

Lemma length_entry v x k : length (entry v x k) = 16%nat.
Proof. unfold entry, fbytes. by rewrite length_fmap, length_seqZ. Qed.

Lemma dirlookup_loop_run fuel dp name s0 x bs : forall k s,
  file_ok s0 dp x -> f_disksize s0 < two32 -> rd s bs -> peeked s0 s -> length name = 14%nat -> i_size x mod 16 = 0 -> 0 <= k <= i_size x / 16 -> (Z.to_nat (i_size x / 16 - k) <= fuel)%nat ->
  exists s', dirlookup_loop fuel dp name (16 * k) s =
      Ret (match dir_find (view s0) x name (Z.to_nat (i_size x / 16 - k)) k with Some j => Some (de_inum (entry (view s0) x j), 16 * j) | None => None end) s' /\ rd s' bs /\ peeked s0 s'.
Proof.
  induction fuel as [|fuel IH]; intros k s F Hz H P Hl Hm Hk Hfuel; cbn [dirlookup_loop];
    (pose proof (file_ok_peeked s0 s dp x P Hz F) as Fs; pose proof (fo_size _ _ _ F) as Hsz; mstep (geti_run _ _ _ (fo_inode _ _ _ Fs))).
  { destruct (Z.ltb_spec (16 * k) (i_size x)); [Z.div_mod_to_equations; lia|]. exists s. replace (i_size x / 16 - k) with 0 by lia. done. }
  destruct (Z.ltb_spec (16 * k) (i_size x)) as [Hlt|Hge].
  2: { exists s. replace (i_size x / 16 - k) with 0 by (Z.div_mod_to_equations; lia). done. }
  assert (Hk16 : k < i_size x / 16) by (Z.div_mod_to_equations; lia). pose proof (readi_run dp s x bs (16 * k) 16 H Fs ltac:(unfold two32; lia) ltac:(unfold two32; lia)) as R.
  rewrite bool_decide_eq_false_2 in R by (unfold two32; lia). cbv zeta in R. replace (Z.min 16 (i_size x - 16 * k)) with 16 in R by (Z.div_mod_to_equations; lia).
  destruct R as (s1 & R & H1 & P1). mstep R. cbn [fst snd]. simpl (negb (16 =? 16)). rewrite bind_unless_false. fold (entry (view s) x k).
  assert (Ee : entry (view s) x k = entry (view s0) x k) by (apply entry_view; [apply P|done]). rewrite Ee. rewrite u32_id by (unfold two32; lia).
  replace (Z.to_nat (i_size x / 16 - k)) with (S (Z.to_nat (i_size x / 16 - (k + 1)))) by lia. cbn [dir_find]. unfold matches at 1. replace (16 * k + 16) with (16 * (k + 1)) by lia.
  assert (P' : peeked s0 s1) by by etransitivity. destruct (Z.eqb_spec (de_inum (entry (view s0) x k)) 0) as [E0|E0].
  - simpl. apply (IH (k + 1) s1); try done; lia.
  - destruct (namecmp_run s1 name (de_name (entry (view s0) x k)) Hl ltac:(unfold de_name; by rewrite length_drop, length_entry)) as (r & Rn & En). mstep Rn. rewrite En. cbn [negb andb].
    destruct (bool_decide _); [by exists s1|]. apply (IH (k + 1) s1); try done; lia.
Qed.

Lemma dirlookup_inum dp name s x bs :
  rd s bs -> file_ok s dp x -> f_disksize s < two32 -> i_type x = T_DIR -> i_size x mod 16 = 0 -> length name = 14%nat ->
  exists s', rd s' bs /\ peeked s s' /\
    dirlookup dp name s = match dir_lookup (view s) x name with
                          | Some j => (ip ← iget 1 (de_inum (entry (view s) x j)); mret (Some (ip, 16 * j))) s'
                          | None => Ret None s'
                          end.
Proof.
  intros H F Hz Ht Hm Hl. unfold dirlookup. mstep (geti_run _ _ _ (fo_inode _ _ _ F)). rewrite Ht. simpl (negb _). rewrite bind_unless_false. pose proof (ft_size _ (fo_fits _ _ _ F)).
  destruct (dirlookup_loop_run (Z.to_nat (i_size x)) dp name s x bs 0 s) as (s' & E & H' & P'); try done; [Z.div_mod_to_equations; lia|Z.div_mod_to_equations; lia|].
  exists s'. split; [done|]. split; [done|]. change (16 * 0) with 0 in E. mstep E. unfold dir_lookup. rewrite Z.sub_0_r. destruct (dir_find (view s) x name (Z.to_nat (i_size x / 16)) 0).
  - by rewrite (ik_dev _ _ (fo_ok _ _ _ F)).
  - done.
Qed.
End dir.
