(* ===== verification/FsTree.v ===== *)
(** * The directory tree and path names

    The inodes in use, their directories, and the inode cache in front of them.
    [namex] walks the tree that is on the disk, and gives back every reference
    it takes on the way. *)

From Stdlib Require Import ZArith Lia.
From stdpp Require Import base numbers strings gmap list.
From S2P Require Import Prelude.
From S2P Require Import Machine.
From S2P Require Import FState.
From S2P Require Import Blocks.
From S2P Require Import Bio.
From S2P Require Import Log.
From S2P Require Import LogSpec.
From S2P Require Import Crash.
From S2P Require Import Tx.
From S2P Require Import Fs.
From S2P Require Import FsAlloc.
From S2P Require Import FsData.
From S2P Require Import FsRw.
From S2P Require Import FsPath.
From S2P Require Import FsCrash.
From S2P Require Import FsDir.

Local Open Scope string_scope.
Local Open Scope list_scope.
Local Open Scope Z_scope.

(** ** The tree on the disk *)

(** The inode [n] as it is on the disk. *)
Definition core0 (n : Z) : inode := mkinode 1 n 0 (mksleep 0 0) 1 0 0 0 0 0 [].
Definition dinode (s : fstate) (n : Z) : inode := get_dinode (dip_at n) (view s (IBLOCK n (f_sb s))) (core0 n).

(** The entry of directory [n] for a name. *)
Definition dir_entry (s : fstate) (n : Z) (name : list Z) : option Z :=
  if i_type (dinode s n) =? T_DIR then (fun j => de_inum (entry (view s) (dinode s n) j)) <$> dir_lookup (view s) (dinode s n) name else None.

(** The inode at the end of a path, and the directory it is in. *)
Fixpoint walk (s : fstate) (n : Z) (cs : list (list Z)) : option Z :=
  match cs with
  | [] => Some n
  | c :: cs => match dir_entry s n (take 14 c) with Some m => walk s m cs | None => None end
  end.
Fixpoint walk_parent (s : fstate) (n : Z) (cs : list (list Z)) : option Z :=
  match cs with
  | [] => None
  | [c] => if i_type (dinode s n) =? T_DIR then Some n else None
  | c :: cs => match dir_entry s n (take 14 c) with Some m => walk_parent s m cs | None => None end
  end.

Lemma dir_lookup_cname v x a b : cname a = cname b -> dir_lookup v x a = dir_lookup v x b.
Proof.
  intros E. unfold dir_lookup. generalize (Z.to_nat (i_size x / 16)) as n. generalize 0. intros k n. revert k. induction n as [|n IH]; intros k; [done|]. cbn [dir_find]. unfold matches. by rewrite E, IH.
Qed.

Lemma cname_cname a : cname (cname a) = cname a.
Proof. induction a as [|c a IH]; [done|]. simpl. destruct (c =? 0) eqn:E; [done|]. simpl. by rewrite E, IH. Qed.

Lemma dir_entry_cname s n a : dir_entry s n (cname a) = dir_entry s n a.
Proof. unfold dir_entry. by rewrite (dir_lookup_cname _ _ (cname a) a) by apply cname_cname. Qed.

Lemma dinode_samev s s' n : samev s s' -> dinode s' n = dinode s n.
Proof. intros ((_ & E & _) & V & _). unfold dinode. by rewrite E, V. Qed.

Lemma dir_entry_samev s s' n name : samev s s' -> dir_entry s' n name = dir_entry s n name.
Proof.
  intros S. pose proof S as (_ & V & _). unfold dir_entry. rewrite (dinode_samev s s' n S). destruct (_ =? _); [|done].
  assert (E : forall j, entry (view s') (dinode s n) j = entry (view s) (dinode s n) j) by (intros j; by apply entry_view).
  unfold dir_lookup. rewrite (dir_find_ext (view s) (view s') (dinode s n)) by (intros; apply E). destruct (dir_find _ _ _ _ _); simpl; [by rewrite E|done].
Qed.

Lemma walk_samev s s' cs : samev s s' -> forall n, walk s' n cs = walk s n cs.
Proof. intros S. induction cs as [|c cs IH]; intros n; [done|]. cbn [walk]. rewrite (dir_entry_samev s s' n _ S). destruct (dir_entry s n _); [apply IH|done]. Qed.

Lemma walk_parent_samev s s' cs : samev s s' -> forall n, walk_parent s' n cs = walk_parent s n cs.
Proof.
  intros S. induction cs as [|c cs IH]; intros n; [done|]. cbn [walk_parent]. rewrite (dir_entry_samev s s' n _ S), (dinode_samev s s' n S). destruct cs; [done|]. destruct (dir_entry s n _); [apply IH|done].
Qed.

(** ** Inodes that can be read *)

(** [y] is [x] but for the fields of the cache. *)
Definition recore (x y : inode) : inode :=
  mkinode (i_dev x) (i_inum x) (i_ref y) (i_lock y) (i_valid y) (i_type x) (i_major x) (i_minor x) (i_nlink x) (i_size x) (i_addrs x).

(** The file of inode [x] is sound. *)
Definition sound (s : fstate) (x : inode) : Prop := file_ok (set_f_inodes [x] s) 0 x.

Lemma sound_at s x y ip : sound s x -> y = recore x y -> f_inodes s !! ip = Some y -> file_ok s ip y.
Proof.
  intros [A1 A2 A3 A4 A5 A6 A7 A8 A9 A10] E Hy. assert (Hs : forall k, slot (view s) y k = slot (view s) x k) by (intros k; rewrite E; done).
  split; try done.
  - destruct A2 as [B1 B2 B3 B4]. split; [by rewrite E|by rewrite E| |].
    + intros k Hk. rewrite Hs. by apply B3.
    + intros k k' Hk Hk'. rewrite !Hs. by apply B4.
  - destruct A3 as [[L1 L2 L3 L4] L5 L6]. by split; [split|..].
  - by rewrite E.
  - rewrite E. by destruct A5.
  - by rewrite E.
  - intros bn H0 Hb. rewrite Hs. apply A7; [done|]. rewrite E in Hb. done.
  - unfold iblock. rewrite E. done.
  - intros k Hk. rewrite Hs. unfold iblock. rewrite E. by apply A9.
  - unfold synced, iblock in *. rewrite E. transitivity (recore (get_dinode (dip_at (i_inum x)) (view s (IBLOCK (i_inum x) (f_sb s))) x) y); [done|]. f_equal. exact A10.
Qed.

(** ** Sums over the inode cache *)

Fixpoint lsum (f : inode -> Z) (l : list inode) : Z := match l with [] => 0 | y :: l => f y + lsum f l end.

(** The references to inode [n], and the free entries. *)
Definition refs (s : fstate) (n : Z) : Z := lsum (fun y => if i_inum y =? n then i_ref y else 0) (f_inodes s).
Definition nfree_entries (s : fstate) : Z := lsum (fun y => if i_ref y =? 0 then 1 else 0) (f_inodes s).

Lemma lsum_insert f l ip y y' : l !! ip = Some y -> lsum f (<[ip := y']> l) = lsum f l - f y + f y'.
Proof.
  revert ip. induction l as [|z l IH]; intros [|ip] H; [done|done| |].
  - injection H as ->. change (<[0%nat := y']> (y :: l)) with (y' :: l). cbn [lsum]. lia.
  - change (<[S ip := y']> (z :: l)) with (z :: <[ip := y']> l). cbn [lsum]. rewrite IH by done. lia.
Qed.

Lemma free_find l : 1 <= lsum (fun y => if i_ref y =? 0 then 1 else 0) l -> exists ip, find_first (fun y => i_ref y =? 0) l = Some ip.
Proof.
  induction l as [|y l IH]; simpl; [lia|]. destruct (i_ref y =? 0); [by exists 0%nat|]. intros H. destruct IH as [ip ->]; [lia|]. by exists (S ip).
Qed.

(** ** The tree and the cache *)

(** Inode [n] is in use: it can be loaded, and the entries of a directory refer
    to inodes in use. *)
Record live_inode (L : Z -> Prop) (s : fstate) (n : Z) : Prop := {
  li_block : 0 <= IBLOCK n (f_sb s) < f_disksize s;
  li_type : i_type (dinode s n) <> 0;
  li_nlink : i_nlink (dinode s n) <> 0;
  li_sound : i_type (dinode s n) <> T_DEV -> sound s (dinode s n);
  li_dir : i_type (dinode s n) = T_DIR -> i_size (dinode s n) mod 16 = 0 /\
    forall k, 0 <= k < i_size (dinode s n) / 16 -> de_inum (entry (view s) (dinode s n) k) <> 0 -> L (de_inum (entry (view s) (dinode s n) k)) }.

(** An entry of the cache; at most the one of [lk] is locked. *)
Record entry_ok (L : Z -> Prop) (s : fstate) (locked : bool) (y : inode) : Prop := {
  eo_ref : 0 <= i_ref y;
  eo_lock : sl_locked (i_lock y) = if locked then 1 else 0;
  eo_used : 0 < i_ref y -> i_dev y = 1 /\ L (i_inum y) /\ (i_valid y = 0 \/ synced s y) }.

Record tree (L : Z -> Prop) (lk : option nat) (s : fstate) (bs : list Z) : Prop := {
  tr_rd : rd s bs;
  tr_size : f_disksize s < two32;
  tr_live : forall n, L n -> live_inode L s n;
  tr_tab : forall ip y, f_inodes s !! ip = Some y -> entry_ok L s (bool_decide (lk = Some ip)) y;
  tr_uniq : forall ip ip' y y', f_inodes s !! ip = Some y -> f_inodes s !! ip' = Some y' -> 0 < i_ref y -> 0 < i_ref y' -> i_inum y = i_inum y' -> ip = ip' }.

Lemma live_samev L s s' n : samev s s' -> live_inode L s n -> live_inode L s' n.
Proof.
  intros S [A1 A2 A3 A4 A5]. pose proof S as (D & V & _). pose proof D as (D1 & D2 & D3). split; rewrite ?(dinode_samev s s' n S), ?D1, ?D2; try done.
  - intros Ht. specialize (A4 Ht). pose proof (fo_lay _ _ _ A4) as Ly.  unfold sound.
    set (x := dinode s n) in *. pose proof A4 as [B1 B2 B3 B4 B5 B6 B7 B8 B9 B10].
    assert (Hs : forall k, slot (view s') x k = slot (view s) x k) by (intros k; apply slot_ext, V).
    assert (Hg : forall a, good s a -> good s' a) by (intros a (G1 & G2 & G3 & G4); unfold good, data_block, bb, used in *; by rewrite D1, D2, D3, V).
    split; try done.
    + destruct B2 as [O1 O2 O3 O4]. split; try done.
      * intros k Hk. change (view (set_f_inodes [x] s')) with (view s'). rewrite Hs. intros Hne. apply Hg. by apply O3.
      * intros k k' Hk Hk'. change (view (set_f_inodes [x] s')) with (view s'). rewrite !Hs. by apply O4.
    + destruct B3 as [[L1 L2 L3 L4] L5 L6]. unfold data_block, used in *. cbn [f_sb f_disksize f_log set_f_inodes] in *. change (view (set_f_inodes [x] s)) with (view s) in *.
      split; [split|..]; unfold data_block, used; cbn [f_sb f_disksize f_log set_f_inodes]; change (view (set_f_inodes [x] s')) with (view s'); rewrite ?D1, ?D2, ?D3, ?V; try done. intros b Hb. rewrite V. by apply L4.
    + intros bn H0 Hb. change (view (set_f_inodes [x] s')) with (view s'). rewrite Hs. by apply B7.
    + unfold iblock in *. change (f_sb (set_f_inodes [x] s')) with (f_sb s'). rewrite D2. split; [exact (Hg _ (proj1 B8))|exact (proj2 B8)].
    + intros k Hk. unfold iblock in *. change (f_sb (set_f_inodes [x] s')) with (f_sb s'). change (view (set_f_inodes [x] s')) with (view s'). rewrite D2, Hs. by apply B9.
    + unfold synced, iblock in *. change (f_sb (set_f_inodes [x] s')) with (f_sb s'). change (view (set_f_inodes [x] s')) with (view s'). by rewrite D2, V.
  - intros Ht. destruct (A5 Ht) as [C1 C2]. split; [done|]. intros k Hk. rewrite (entry_view (view s) (view s') (dinode s n)) by done. by apply C2.
Qed.

Lemma entry_samev L s s' b y : samev s s' -> entry_ok L s b y -> entry_ok L s' b y.
Proof. intros ((_ & E & _) & V & _) [A1 A2 A3]. split; try done. intros H. destruct (A3 H) as (B1 & B2 & B3). split; [done|]. split; [done|]. unfold synced, iblock in *. by rewrite E, V. Qed.

(** The cache of blocks changes. *)
Lemma tree_peeked L lk s s' bs : tree L lk s bs -> rd s' bs -> peeked s s' -> tree L lk s' bs.
Proof.
  intros [A1 A2 A3 A4 A5] R P. pose proof (peeked_samev _ _ P) as S. destruct P as [(_ & _ & E & _ & _ & Ei & _) _]. split; [done|by rewrite E| | |].
  - intros n Hn. by apply (live_samev L s), A3.
  - intros ip y. rewrite Ei. intros Hy. by apply (entry_samev L s), A4.
  - rewrite Ei. exact A5.
Qed.

(** An entry of the cache of inodes changes. *)
Lemma tree_seti L lk lk' s bs ip y y' :
  tree L lk s bs -> f_inodes s !! ip = Some y -> entry_ok L s (bool_decide (lk' = Some ip)) y' -> (forall j, j <> ip -> lk' = Some j <-> lk = Some j) ->
  (0 < i_ref y' -> forall j z, j <> ip -> f_inodes s !! j = Some z -> 0 < i_ref z -> i_inum z <> i_inum y') -> tree L lk' (seti ip y' s) bs.
Proof.
  intros [A1 A2 A3 A4 A5] Hy He Hlk Hu. split; [by apply rd_seti|done| | |].
  - intros n Hn. apply (live_samev L s); [apply samev_seti|by apply A3].
  - intros j z Hj. simpl in Hj. apply insert_lookup_cases in Hj as [(<- & <- & _)|[Hne Hj]]; [by apply (entry_samev L s)|]. apply (entry_samev L s); [apply samev_seti|].
    rewrite (bool_decide_ext _ (lk = Some j)); [by apply A4|]. apply Hlk. congruence.
  - intros j j' z z' Hj Hj' Hz Hz' E. simpl in Hj, Hj'. apply insert_lookup_cases in Hj, Hj'. destruct Hj as [(<- & <- & _)|[Hne Hj]], Hj' as [(<- & <- & _)|[Hne' Hj']]; [done| | |].
    + exfalso. apply (Hu Hz j' z'); [congruence|done|done|congruence].
    + exfalso. apply (Hu Hz' j z); [congruence|done|done|congruence].
    + by apply (A5 j j' z z').
Qed.

Lemma refs_seti s ip y y' n : f_inodes s !! ip = Some y ->
  refs (seti ip y' s) n = refs s n - (if i_inum y =? n then i_ref y else 0) + (if i_inum y' =? n then i_ref y' else 0).
Proof. intros H. exact (lsum_insert _ _ _ _ y' H). Qed.

(** [d] references more to inode [n], and to no other. *)
Definition refs_add (s s' : fstate) (n d : Z) : Prop := forall m, refs s' m = refs s m + if n =? m then d else 0.

Lemma refs_add_seti s ip y y' d :
  f_inodes s !! ip = Some y -> i_ref y' = i_ref y + d -> (i_ref y <> 0 -> i_inum y = i_inum y') -> refs_add s (seti ip y' s) (i_inum y') d.
Proof.
  intros Hy Er En m. rewrite (refs_seti s ip y y' m Hy), Er. destruct (decide (i_ref y = 0)) as [E|E]; [rewrite E|rewrite En by done]; destruct (i_inum y =? m), (i_inum y' =? m); lia.
Qed.

Lemma free_seti s ip y y' : f_inodes s !! ip = Some y -> nfree_entries (seti ip y' s) = nfree_entries s - (if i_ref y =? 0 then 1 else 0) + (if i_ref y' =? 0 then 1 else 0).
Proof. intros H. exact (lsum_insert _ _ _ _ y' H). Qed.

(** ** The operations on inodes *)

(** A cached inode that is valid is the one on the disk. *)
Lemma synced_recore s y : i_dev y = 1 -> synced s y -> y = recore (dinode s (i_inum y)) y.
Proof.
  intros Hd E. unfold synced, iblock in E. transitivity (get_dinode (dip_at (i_inum y)) (view s (IBLOCK (i_inum y) (f_sb s))) y); [done|].
  unfold dinode, recore, get_dinode, core0. cbn [i_dev i_inum i_type i_major i_minor i_nlink i_size i_addrs]. by rewrite Hd.
Qed.

(** Reading a block and filling in an entry of the cache. *)
Lemma peek_seti s bs b ip y y2 :
  rd s bs -> 0 <= b < f_disksize s -> f_inodes s !! ip = Some y ->
  exists i s1 s3, bread 1 b s = Ret i s1 /\ bdata i s1 = Ret (view s b) s1 /\ f_inodes s1 !! ip = Some y /\ brelse i (seti ip y2 s1) = Ret tt s3 /\ rd s3 bs /\ peeked (seti ip y2 s) s3.
Proof.
  intros [H D Hl] Hb Hy. destruct (bread_run [] s b H Hb) as (i & s1 & R1 & _ & H1 & Hh & V1 & D1 & C1 & _).
  { intros j d Hj. by apply elem_of_nil in Hj. }
  { left. eapply capacity; [done|exists bs; split; [done|]; intros b'; apply D|simpl; lia]. }
  pose proof Hh as (x & Hx & _). assert (H2 : bio_inv [i] (seti ip y2 s1)) by (destruct H1 as [A1 A2 A3 A4 A5 A6]; by split).
  destruct (brelse_run [] (seti ip y2 s1) i x H2 Hx) as (s3 & R3 & H3 & V3 & D3 & C3 & _). exists i, s1, s3. split; [done|]. split; [by eapply bdata_run|].
  destruct C1 as (E1 & E2 & E3 & E4 & E5 & E6 & E7 & E8 & E9). split; [by rewrite E6|]. split; [done|]. split.
  - split; [done| |done]. intros b'. rewrite (D3 b'). transitivity (dirty_block s1 b'); [done|]. rewrite (D1 b'). apply D.
  - destruct C3 as (F1 & F2 & F3 & F4 & F5 & F6 & F7 & F8 & F9). split; [|intros b'; rewrite V3; transitivity (view s1 b'); [done|]; by rewrite V1].
    unfold same_but_cache. simpl in *. rewrite F1, F2, F3, F4, F5, F6, F7, F8, F9. by rewrite E1, E2, E3, E4, E5, E6, E7, E8, E9.
Qed.

Section ops.
Context (L : Z -> Prop) (bs : list Z).

(** Other entries of the cache for the same inode are not in use. *)
Lemma uniq_same lk s ip y y' : tree L lk s bs -> f_inodes s !! ip = Some y -> 0 < i_ref y -> i_inum y' = i_inum y ->
  0 < i_ref y' -> forall j z, j <> ip -> f_inodes s !! j = Some z -> 0 < i_ref z -> i_inum z <> i_inum y'.
Proof. intros T Hy Hr E _ j z Hj Hz Hrz E'. apply Hj. apply (tr_uniq _ _ _ _ T j ip z y); try done. congruence. Qed.

Lemma ilock_tree s ip y :
  tree L None s bs -> f_inodes s !! ip = Some y -> 0 < i_ref y ->
  exists s' y', ilock ip s = Ret tt s' /\ tree L (Some ip) s' bs /\ samev s s' /\ f_inodes s' = <[ip := y']> (f_inodes s) /\
    i_ref y' = i_ref y /\ i_inum y' = i_inum y /\ y' = recore (dinode s (i_inum y)) y' /\ i_valid y' <> 0.
Proof.
  intros T Hy Hr. pose proof (tr_tab _ _ _ _ T ip y Hy) as [E1 E2 E3]. rewrite bool_decide_eq_false_2 in E2 by done. destruct (E3 Hr) as (Hd & HL & Hv).
  set (y1 := set_i_lock (mksleep 1 (f_pid s)) y). assert (T1 : (i_valid y = 0 \/ synced s y1) -> tree L (Some ip) (seti ip y1 s) bs).
  { intros Hs. apply (tree_seti L None (Some ip) s bs ip y y1 T Hy); [|intros j Hj; split; congruence|by apply (uniq_same None s ip y)]. split; [done|by rewrite bool_decide_eq_true_2|done]. }
  destruct (decide (i_valid y = 0)) as [Ev|Ev].
  2: { destruct Hv as [?|Hs]; [done|]. exists (seti ip y1 s), y1. split; [apply ilock_run; (done || lia)|]. assert (Hs1 : synced s y1). { unfold synced, iblock in *. transitivity (set_i_lock (mksleep 1 (f_pid s)) (get_dinode (dip_at (i_inum y)) (view s (IBLOCK (i_inum y) (f_sb s))) y)); [done|by rewrite Hs]. }
       split; [by apply T1; right|]. split; [apply samev_seti|]. split; [done|]. split; [done|]. split; [done|]. split; [by apply (synced_recore s y1)|done]. }
  specialize (T1 (or_introl Ev)). pose proof (tr_live _ _ _ _ T (i_inum y) HL) as [B1 B2 B3 B4 B5]. unfold ilock. mstep (geti_run _ _ _ Hy). destruct (Z.ltb_spec (i_ref y) 1); [lia|]. rewrite bind_unless_false.
  assert (R : acquiresleep (LInode ip) s = Ret tt (seti ip y1 s)).
  { unfold acquiresleep, getlk. rewrite bind_assoc_run. mstep (geti_run _ _ _ Hy). rewrite bind_mret, E2. cbn [Z.eqb negb]. rewrite bind_gets. by apply updi_run. }
  mstep R. pose proof (seti_lookup s ip y y1 Hy) as Hy1. mstep (geti_run _ _ _ Hy1). change (i_valid y1) with (i_valid y). rewrite Ev. cbn [Z.eqb]. rewrite bind_gets. change (i_dev y1) with (i_dev y). change (i_inum y1) with (i_inum y). rewrite Hd.
  set (d := view s (IBLOCK (i_inum y) (f_sb s))). set (y2 := get_dinode (dip_at (i_inum y)) d y1).
  destruct (peek_seti (seti ip y1 s) bs (IBLOCK (i_inum y) (f_sb s)) ip y1 y2 (tr_rd _ _ _ _ T1) B1 Hy1) as (i & s2 & s3 & R1 & R2 & Hy2 & R3 & H3 & P3).
  change (f_sb (seti ip y1 s)) with (f_sb s). mstep R1. mstep R2. mstep (updi_run s2 ip y1 (get_dinode (dip_at (i_inum y)) d) Hy2). mstep R3.
  rewrite seti_seti in P3. pose proof P3 as [(_ & _ & _ & _ & _ & Ei & _) _]. pose proof (seti_lookup s ip y y2 Hy) as Hy3. assert (Hi3 : f_inodes s3 !! ip = Some y2) by by rewrite Ei.
  mstep (updi_run s3 ip y2 (set_i_valid 1) Hi3). set (y4 := set_i_valid 1 y2). mstep (geti_run _ _ _ (seti_lookup s3 ip y2 y4 Hi3)).
  assert (E4 : y4 = recore (dinode s (i_inum y)) y4). { unfold y4, y2, recore, dinode, core0, get_dinode, y1. cbn [i_dev i_inum i_ref i_lock i_valid i_type i_major i_minor i_nlink i_size i_addrs set_i_valid set_i_lock]. by rewrite Hd. }
  assert (Et : i_type y4 = i_type (dinode s (i_inum y))) by by rewrite E4. destruct (Z.eqb_spec (i_type y4) 0) as [E0|E0]; [by rewrite Et in E0|].
  exists (seti ip y4 s3), y4. split; [done|]. assert (S3 : samev s s3) by (transitivity (seti ip y2 s); [apply samev_seti|by apply peeked_samev]).
  assert (Y4 : entry_ok L (seti ip y2 s) true y4).
  { split; [done|done|]. intros _. split; [done|]. split; [done|]. right. unfold synced, iblock. change (view (seti ip y2 s)) with (view s). change (f_sb (seti ip y2 s)) with (f_sb s). done. }
  assert (T2 : tree L (Some ip) (seti ip y4 s) bs).
  { apply (tree_seti L None (Some ip) s bs ip y y4 T Hy); [rewrite bool_decide_eq_true_2 by done; apply (entry_samev L (seti ip y2 s)); [done|exact Y4]|intros j Hj; split; congruence|by apply (uniq_same None s ip y)]. }
  split; [|split; [transitivity s3; [done|apply samev_seti]|split; [simpl; by rewrite Ei; simpl; rewrite list_insert_insert_eq|done]]].
  apply (tree_peeked L (Some ip) (seti ip y4 s)); [done|by apply rd_seti|]. destruct P3 as [(F1 & F2 & F3 & F4 & F5 & F6 & F7 & F8 & F9) V]. split; [|intros b; transitivity (view s3 b); [done|]; by rewrite V].
  unfold same_but_cache. simpl in *. rewrite F1, F2, F3, F4, F5, F6, F7, F8, F9. by rewrite list_insert_insert_eq.
Qed.

Lemma iget_tree lk s n :
  tree L lk s bs -> L n -> 1 <= nfree_entries s ->
  exists ip y y', iget 1 n s = Ret ip (seti ip y' s) /\ tree L lk (seti ip y' s) bs /\ f_inodes s !! ip = Some y /\ i_inum y' = n /\ i_ref y' = i_ref y + 1 /\ (0 < i_ref y -> i_inum y = n).
Proof.
  intros T HL Hf. unfold iget. rewrite bind_gets. destruct (find_first _ (f_inodes s)) as [ip|] eqn:E1.
  - apply find_first_Some in E1 as [(y & Hy & Hp) _]. apply andb_true_iff in Hp as [Hp Hn]. apply andb_true_iff in Hp as [Hr Hd]. apply Z.ltb_lt in Hr. apply Z.eqb_eq in Hd, Hn.
    set (y' := set_i_ref (i_ref y + 1) y). mstep (updi_run s ip y (fun x => set_i_ref (i_ref x + 1) x) Hy). exists ip, y, y'. split; [done|]. split; [|done].
    pose proof (tr_tab _ _ _ _ T ip y Hy) as [A1 A2 A3]. apply (tree_seti L lk lk s bs ip y y' T Hy); [|done|by apply (uniq_same lk s ip y)]. split; [simpl; lia|done|].
    intros _. destruct (A3 Hr) as (B1 & B2 & B3). split; [done|]. split; [done|]. destruct B3 as [?|B3]; [by left|right].
    unfold synced, iblock in *. transitivity (set_i_ref (i_ref y + 1) (get_dinode (dip_at (i_inum y)) (view s (IBLOCK (i_inum y) (f_sb s))) y)); [done|by rewrite B3].
  - apply find_first_None in E1. destruct (free_find (f_inodes s) Hf) as [ip E2]. rewrite E2. apply find_first_Some in E2 as [(y & Hy & Hr) _]. apply Z.eqb_eq in Hr.
    set (f := fun x : inode => _). set (y' := f y). mstep (updi_run s ip y f Hy). fold y'. exists ip, y, y'. split; [done|]. split; [|split; [done|]; split; [done|]; split; [unfold y', f; simpl; lia|lia]].
    pose proof (tr_tab _ _ _ _ T ip y Hy) as [A1 A2 A3]. apply (tree_seti L lk lk s bs ip y y' T Hy); [|done|].
    + split; [done|done|]. intros _. split; [done|]. split; [done|by left].
    + intros _ j z Hj Hz Hrz. rewrite Forall_lookup in E1. specialize (E1 j z Hz). simpl in E1. change (i_inum y') with n. pose proof (tr_tab _ _ _ _ T j z Hz) as [_ _ C3]. destruct (C3 Hrz) as (Hd & _).
      rewrite Hd in E1. destruct (Z.ltb_spec 0 (i_ref z)); [|lia]. simpl in E1. by apply Z.eqb_neq in E1.
Qed.

(** Unlocking and dropping the reference; the inode has links, so nothing is
    truncated. *)
Lemma iunlock_tree s ip y :
  tree L (Some ip) s bs -> f_inodes s !! ip = Some y -> 0 < i_ref y ->
  let y' := set_i_lock (mksleep 0 0) y in iunlock ip s = Ret tt (seti ip y' s) /\ tree L None (seti ip y' s) bs.
Proof.
  intros T Hy Hr y'. pose proof (tr_tab _ _ _ _ T ip y Hy) as [A1 A2 A3]. rewrite bool_decide_eq_true_2 in A2 by done. split; [apply iunlock_run; [done|lia|by rewrite A2]|].
  apply (tree_seti L (Some ip) None s bs ip y y' T Hy); [|intros j Hj; split; congruence|by apply (uniq_same (Some ip) s ip y)]. split; [done|done|]. intros _. destruct (A3 Hr) as (B1 & B2 & B3). split; [done|]. split; [done|].
  destruct B3 as [?|B3]; [by left|right]. unfold synced, iblock in *. transitivity (set_i_lock (mksleep 0 0) (get_dinode (dip_at (i_inum y)) (view s (IBLOCK (i_inum y) (f_sb s))) y)); [done|by rewrite B3].
Qed.

Lemma iput_tree s ip y :
  tree L None s bs -> f_inodes s !! ip = Some y -> 0 < i_ref y ->
  exists y', iput ip s = Ret tt (seti ip y' s) /\ tree L None (seti ip y' s) bs /\ i_inum y' = i_inum y /\ i_ref y' = i_ref y - 1.
Proof.
  intros T Hy Hr. pose proof (tr_tab _ _ _ _ T ip y Hy) as [A1 A2 A3]. rewrite bool_decide_eq_false_2 in A2 by done. destruct (A3 Hr) as (B1 & B2 & B3). unfold iput.
  set (y1 := set_i_lock (mksleep 1 (f_pid s)) y). assert (R : acquiresleep (LInode ip) s = Ret tt (seti ip y1 s)).
  { unfold acquiresleep, getlk. rewrite bind_assoc_run. mstep (geti_run _ _ _ Hy). rewrite bind_mret, A2. cbn [Z.eqb negb]. rewrite bind_gets. by apply updi_run. }
  mstep R. mstep (geti_run _ _ _ (seti_lookup s ip y y1 Hy)). change (i_valid y1) with (i_valid y). change (i_nlink y1) with (i_nlink y).
  assert (Hn : negb (i_valid y =? 0) && (i_nlink y =? 0) = false).
  { destruct B3 as [->|B3]; [done|]. rewrite (synced_recore s y B1 B3). cbn [recore i_nlink]. destruct (Z.eqb_spec (i_nlink (dinode s (i_inum y))) 0) as [E|]; [|by rewrite andb_false_r]. by destruct (li_nlink _ _ _ (tr_live _ _ _ _ T (i_inum y) B2)). }
  rewrite Hn. cbn [andb]. rewrite bind_mret. set (y2 := set_i_lock (mksleep 0 0) y1). assert (R2 : releasesleep (LInode ip) (seti ip y1 s) = Ret tt (seti ip y2 s)).
  { unfold releasesleep, setlk. rewrite (updi_run _ ip y1) by by apply (seti_lookup s ip y). by rewrite seti_seti. }
  mstep R2. rewrite (updi_run _ ip y2) by by apply (seti_lookup s ip y). rewrite seti_seti. eexists. split; [done|]. split; [|done].
  set (y3 := set_i_ref (i_ref y2 - 1) y2). apply (tree_seti L None None s bs ip y y3 T Hy); [|done|by apply (uniq_same None s ip y)]. split; [simpl; lia|done|]. intros _. split; [done|]. split; [done|].
  destruct B3 as [?|B3]; [by left|right]. unfold synced, iblock in *. transitivity (set_i_ref (i_ref y - 1) (set_i_lock (mksleep 0 0) (get_dinode (dip_at (i_inum y)) (view s (IBLOCK (i_inum y) (f_sb s))) y))); [done|by rewrite B3].
Qed.

Definition delta (n m : Z) : Z := if n =? m then 1 else 0.

Lemma iunlockput_tree s ip y :
  tree L (Some ip) s bs -> f_inodes s !! ip = Some y -> 0 < i_ref y ->
  exists s' y', iunlockput ip s = Ret tt s' /\ tree L None s' bs /\ samev s s' /\ f_inodes s' = <[ip := y']> (f_inodes s) /\ i_inum y' = i_inum y /\ i_ref y' = i_ref y - 1 /\
    forall m, refs s' m = refs s m - delta (i_inum y) m.
Proof.
  intros T Hy Hr. destruct (iunlock_tree s ip y T Hy Hr) as [R1 T1]. set (y1 := set_i_lock (mksleep 0 0) y) in *. pose proof (seti_lookup s ip y y1 Hy) as Hy1.
  destruct (iput_tree _ ip y1 T1 Hy1 Hr) as (y2 & R2 & T2 & E1 & E2). rewrite seti_seti in *. exists (seti ip y2 s), y2. unfold iunlockput. mstep R1. rewrite R2.
  split; [done|]. split; [done|]. split; [apply samev_seti|]. split; [done|]. split; [done|]. split; [done|]. intros m. rewrite (refs_seti s ip y y2 m Hy), E1, E2. change (i_inum y1) with (i_inum y). change (i_ref y1) with (i_ref y).
  unfold delta. destruct (i_inum y =? m); lia.
Qed.

(** Room in the cache for one more inode, when the reference to entry [ip] is
    going to be dropped. *)
Definition spare (s : fstate) (y : inode) : Prop := 2 <= nfree_entries s + if i_ref y =? 1 then 1 else 0.

Section walk.
Context `{DW : Devsw}.

(** One step down: the directory is locked and looked up, and its reference
    exchanged for one to the entry's inode. *)
Lemma step_tree s ip y name (K : option (nat * Z) -> M fstate (option nat * list Z)) :
  tree L (Some ip) s bs -> f_inodes s !! ip = Some y -> 0 < i_ref y -> spare s y -> y = recore (dinode s (i_inum y)) y -> i_type (dinode s (i_inum y)) = T_DIR -> length name = 14%nat ->
  exists s2, samev s s2 /\
  match dir_lookup (view s) (dinode s (i_inum y)) name with
  | None => tree L (Some ip) s2 bs /\ f_inodes s2 = f_inodes s /\ (dirlookup ip name ≫= K) s = K None s2
  | Some j => let n := de_inum (entry (view s) (dinode s (i_inum y)) j) in
      exists ip2 y2 y0 y0', (dirlookup ip name ≫= K) s = K (Some (ip2, 16 * j)) s2 /\ tree L (Some ip) s2 bs /\ f_inodes s2 !! ip2 = Some y2 /\ i_inum y2 = n /\ 0 < i_ref y2 /\
        (forall m, refs s2 m = refs s m + delta n m) /\ f_inodes s2 !! ip = Some y0 /\ i_inum y0 = i_inum y /\ (i_ref y0 = i_ref y + if decide (ip2 = ip) then 1 else 0) /\
        f_inodes s !! ip2 = Some y0' /\ i_ref y2 = i_ref y0' + 1 /\ nfree_entries s2 = nfree_entries s - if i_ref y0' =? 0 then 1 else 0
  end.
Proof.
  intros T Hy Hr Hsp Ey Hdir Hl. pose proof (tr_tab _ _ _ _ T ip y Hy) as [_ _ A3]. destruct (A3 Hr) as (Hd & HL & _). pose proof (tr_live _ _ _ _ T _ HL) as [B1 B2 B3 B4 B5].
  destruct (B5 Hdir) as [Hm Hents]. set (x := dinode s (i_inum y)) in *. assert (F : file_ok s ip y) by (apply (sound_at s x); [apply B4; by rewrite Hdir|done|done]).
  assert (Hty : i_type y = T_DIR) by (rewrite Ey; done). assert (Hsz : i_size y = i_size x) by (rewrite Ey; done).
  destruct (dirlookup_inum ip name s y bs (tr_rd _ _ _ _ T) F (tr_size _ _ _ _ T) Hty ltac:(by rewrite Hsz) Hl) as (s1 & H1 & P1 & E).
  assert (Ee : forall k, entry (view s) y k = entry (view s) x k) by (intros k; apply entry_view; [done|by rewrite Ey]).
  assert (El : dir_lookup (view s) y name = dir_lookup (view s) x name). { unfold dir_lookup. rewrite Hsz. apply dir_find_ext. intros i _. apply Ee. }
  rewrite El in E. pose proof (tree_peeked L (Some ip) s s1 bs T H1 P1) as T1. pose proof P1 as [(_ & _ & _ & _ & _ & Ei & _) _].
  destruct (dir_lookup (view s) x name) as [j|] eqn:Ej.
  2: { exists s1. split; [by apply peeked_samev|]. split; [done|]. split; [done|]. by mstep E. }
  rewrite Ee in E. set (n := de_inum (entry (view s) x j)) in *. unfold dir_lookup in Ej. apply dir_find_Some in Ej as (Hj & Hmt & _).
  assert (HLn : L n). { apply Hents; [lia|]. unfold matches in Hmt. apply andb_true_iff in Hmt as [Hmt _]. apply negb_true_iff, Z.eqb_neq in Hmt. done. }
  assert (Hfree : 1 <= nfree_entries s1). { unfold nfree_entries. rewrite Ei. fold (nfree_entries s). unfold spare in Hsp. destruct (i_ref y =? 1); lia. }
  destruct (iget_tree (Some ip) s1 n T1 HLn Hfree) as (ip2 & y0' & y2 & R2 & T2 & Hy0' & En & Er & Hsame). rewrite Ei in Hy0'.
  assert (Hy1 : f_inodes s1 !! ip2 = Some y0') by by rewrite Ei. exists (seti ip2 y2 s1). split; [transitivity s1; [by apply peeked_samev|apply samev_seti]|].
  assert (Hr0 : 0 <= i_ref y0') by apply (eo_ref _ _ _ _ (tr_tab _ _ _ _ T ip2 y0' Hy0')).
  exists ip2, y2. destruct (decide (ip2 = ip)) as [->|Hne].
  - exists y2, y0'. split; [rewrite bind_run, E; by mstep R2|]. split; [done|]. split; [by apply (seti_lookup s1 ip y0')|]. split; [done|]. split; [lia|].
    rewrite Hy in Hy0'. injection Hy0' as <-. split; [|split; [by apply (seti_lookup s1 ip y)|split; [rewrite En; symmetry; auto|]]].
    + intros m. rewrite (refs_seti s1 ip y y2 m Hy1), En, Er. unfold refs. rewrite Ei. fold (refs s m). rewrite (Hsame Hr). unfold delta. destruct (n =? m); lia.
    + split; [lia|]. split; [done|]. split; [lia|]. rewrite (free_seti s1 ip y y2 Hy1). unfold nfree_entries. rewrite Ei. fold (nfree_entries s). destruct (Z.eqb_spec (i_ref y) 0), (Z.eqb_spec (i_ref y2) 0); lia.
  - exists y, y0'. split; [rewrite bind_run, E; by mstep R2|]. split; [done|]. split; [by apply (seti_lookup s1 ip2 y0')|]. split; [done|]. split; [lia|]. split.
    + intros m. rewrite (refs_seti s1 ip2 y0' y2 m Hy1), En, Er. unfold refs. rewrite Ei. fold (refs s m). unfold delta. destruct (decide (i_ref y0' = 0)) as [E0|E0]; [rewrite E0; destruct (i_inum y0' =? m), (n =? m); lia|]. rewrite (Hsame ltac:(lia)). destruct (n =? m); lia.
    + split; [simpl; rewrite list_lookup_insert_ne by done; by rewrite Ei|]. split; [done|]. split; [lia|]. split; [done|]. split; [lia|]. rewrite (free_seti s1 ip2 y0' y2 Hy1). unfold nfree_entries. rewrite Ei. fold (nfree_entries s). destruct (Z.eqb_spec (i_ref y0') 0), (Z.eqb_spec (i_ref y2) 0); lia.
Qed.

(** The entry found, and the reference to the directory given back. *)
Lemma descend_tree s ip y name (K : nat -> M fstate (option nat * list Z)) (K0 : M fstate (option nat * list Z)) :
  tree L (Some ip) s bs -> f_inodes s !! ip = Some y -> 0 < i_ref y -> spare s y -> y = recore (dinode s (i_inum y)) y -> i_type (dinode s (i_inum y)) = T_DIR -> length name = 14%nat ->
  let m := (next ← dirlookup ip name; match next with None => iunlockput ip;; K0 | Some (next, _) => iunlockput ip;; K next end) s in
  exists s', samev s s' /\ tree L None s' bs /\
  match dir_entry s (i_inum y) name with
  | None => m = K0 s' /\ forall k, refs s' k = refs s k - delta (i_inum y) k
  | Some n => exists ip' y', m = K ip' s' /\ f_inodes s' !! ip' = Some y' /\ i_inum y' = n /\ 0 < i_ref y' /\ spare s' y' /\ forall k, refs s' k = refs s k - delta (i_inum y) k + delta n k
  end.
Proof.
  intros T Hy Hr Hsp Ey Hdir Hl m. set (K' := fun next : option (nat * Z) => match next with None => iunlockput ip;; K0 | Some (next, _) => iunlockput ip;; K next end).
  destruct (step_tree s ip y name K' T Hy Hr Hsp Ey Hdir Hl) as (s2 & V2 & H). unfold dir_entry. rewrite Hdir, Z.eqb_refl. destruct (dir_lookup _ _ name) as [j|]; cbn [fmap option_fmap option_map].
  - destruct H as (ip2 & y2 & y0 & y0' & E & T2 & Hy2 & En & Hr2 & Hrefs & Hy0 & E0 & Er0 & Hy0' & Er2 & Efr). set (n := de_inum _) in *.
    assert (Hr0 : 0 < i_ref y0) by (destruct (decide (ip2 = ip)); lia). destruct (iunlockput_tree s2 ip y0 T2 Hy0 Hr0) as (s3 & y3 & R3 & T3 & V3 & Ei3 & En3 & Er3 & Hrefs3).
    exists s3. split; [by transitivity s2|]. split; [done|]. assert (Em : m = K ip2 s3) by (unfold m; fold K'; rewrite E; unfold K'; by mstep R3).
    assert (Hk : forall k, refs s3 k = refs s k - delta (i_inum y) k + delta n k) by (intros k; rewrite Hrefs3, Hrefs, E0; lia).
    assert (Hf3 : nfree_entries s3 = nfree_entries s2 - (if i_ref y0 =? 0 then 1 else 0) + (if i_ref y3 =? 0 then 1 else 0)) by (rewrite <- (free_seti s2 ip y0 y3 Hy0); unfold nfree_entries; by rewrite Ei3).
    assert (Hn0 : 0 <= i_ref y0') by apply (eo_ref _ _ _ _ (tr_tab _ _ _ _ T ip2 y0' Hy0')). unfold spare in *.
    destruct (decide (ip2 = ip)) as [->|Hne].
    + exists ip, y3. rewrite Hy in Hy0'. injection Hy0' as <-. rewrite Hy2 in Hy0. injection Hy0 as <-. split; [done|]. split; [rewrite Ei3; apply list_lookup_insert_eq; by apply lookup_lt_Some in Hy2|]. split; [congruence|]. split; [lia|]. split; [|done].
      rewrite Hf3, Efr. repeat case_match; lia.
    + exists ip2, y2. split; [done|]. split; [rewrite Ei3; by rewrite list_lookup_insert_ne|]. split; [done|]. split; [done|]. split; [|done]. rewrite Hf3, Efr. repeat case_match; lia.
  - destruct H as (T2 & Ei & E). rewrite <- Ei in Hy. destruct (iunlockput_tree s2 ip y T2 Hy Hr) as (s3 & y3 & R3 & T3 & V3 & _ & _ & _ & Hrefs3).
    exists s3. split; [by transitivity s2|]. split; [done|]. split; [unfold m; fold K'; rewrite E; unfold K'; by mstep R3|]. intros k. rewrite Hrefs3. unfold refs. by rewrite Ei.
Qed.

Definition resolve (parent : bool) : fstate -> Z -> list (list Z) -> option Z := if parent then walk_parent else walk.

(** What [namex] promises: the inode the path leads to, with one reference more,
    and one less to the inode it starts from. *)
Definition resolved (parent : bool) (n : Z) (cs : list (list Z)) (s : fstate) (r : outcome fstate (option nat * list Z)) : Prop :=
  exists o name s', r = Ret (o, name) s' /\ tree L None s' bs /\ samev s s' /\
  match resolve parent s n cs with
  | None => o = None /\ forall k, refs s' k = refs s k - delta n k
  | Some n' => exists ip y, o = Some ip /\ f_inodes s' !! ip = Some y /\ i_inum y = n' /\ 0 < i_ref y /\ (forall k, refs s' k = refs s k - delta n k + delta n' k) /\
      (parent = true -> exists c, last cs = Some c /\ cname name = take 14 c)
  end.

Lemma namex_nil parent ip path name s y fuel :
  tree L None s bs -> f_inodes s !! ip = Some y -> 0 < i_ref y -> skipelem path name = None ->
  resolved parent (i_inum y) [] s (namex_loop fuel ip path parent name s).
Proof.
  intros T Hy Hr E. assert (En : namex_loop fuel ip path parent name s = (if parent then iput ip;; mret (None, name) else mret (Some ip, name)) s) by (destruct fuel; simpl; by rewrite E).
  rewrite En. destruct parent.
  - destruct (iput_tree s ip y T Hy Hr) as (y' & R & T' & E1 & E2). mstep R. exists None, name, (seti ip y' s). split; [done|]. split; [done|]. split; [apply samev_seti|]. split; [done|].
    intros k. rewrite (refs_seti s ip y y' k Hy), E1, E2. unfold delta. destruct (i_inum y =? k); lia.
  - exists (Some ip), name, s. split; [done|]. split; [done|]. split; [done|]. exists ip, y. split; [done|]. split; [done|]. split; [done|]. split; [done|]. split; [intros k; lia|done].
Qed.

Lemma resolve_samev parent s s' n cs : samev s s' -> resolve parent s' n cs = resolve parent s n cs.
Proof. intros V. destruct parent; [by apply walk_parent_samev|by apply walk_samev]. Qed.

Lemma resolve_cons parent s n c cs : (parent = true -> cs <> []) ->
  resolve parent s n (c :: cs) = match dir_entry s n (take 14 c) with Some m => resolve parent s m cs | None => None end.
Proof. intros H. destruct parent; [|done]. destruct cs; [by destruct (H eq_refl)|done]. Qed.

Lemma resolved_trans parent n m c cs s s' r : (parent = true -> cs <> []) -> samev s s' -> (forall k, refs s' k = refs s k - delta n k + delta m k) ->
  resolve parent s n (c :: cs) = resolve parent s m cs -> resolved parent m cs s' r -> resolved parent n (c :: cs) s r.
Proof.
  intros Hp V Hk E (o & name & s2 & -> & T & V2 & H). exists o, name, s2. split; [done|]. split; [done|]. split; [by transitivity s'|]. rewrite E. rewrite (resolve_samev _ _ _ _ _ V) in H.
  destruct (resolve parent s m cs).
  - destruct H as (ip & y & -> & Hy & Ey & Hr & Hk2 & Hc). exists ip, y. split; [done|]. split; [done|]. split; [done|]. split; [done|]. split; [intros k; rewrite Hk2, Hk; lia|].
    intros Hpt. destruct (Hc Hpt) as (c' & Hlast & Hn). exists c'. split; [|done]. destruct cs; [done|exact Hlast].
  - destruct H as [-> Hk2]. split; [done|]. intros k. rewrite Hk2, Hk. lia.
Qed.

Lemma namex_loop_run fuel parent : forall ip path name s y,
  tree L None s bs -> f_inodes s !! ip = Some y -> 0 < i_ref y -> spare s y -> Forall (fun c => c <> 0) path -> length name = 14%nat -> (length path <= fuel)%nat ->
  resolved parent (i_inum y) (components path) s (namex_loop fuel ip path parent name s).
Proof.
  induction fuel as [|fuel IH]; intros ip path name s y T Hy Hr Hsp Hnz Hl Hlen; pose proof (skipelem_run path name Hnz Hl) as Hs; destruct (components path) as [|c cs] eqn:Ec.
  1, 3: by apply namex_nil. { destruct Hs as (rest & name' & _ & _ & _ & Hlt & _). lia. }
  destruct Hs as (rest & name' & Es & Ecs & Hrest & Hlt & Hl' & Hc). cbn [namex_loop]. rewrite Es.
  destruct (ilock_tree s ip y T Hy Hr) as (s1 & y1 & R1 & T1 & V1 & Ei1 & Er1 & En1 & Ey1 & _). mstep R1.
  assert (Hy1 : f_inodes s1 !! ip = Some y1) by (rewrite Ei1; apply list_lookup_insert_eq; by apply lookup_lt_Some in Hy). mstep (geti_run _ _ _ Hy1).
  assert (Hk1 : forall k, refs s1 k = refs s k). { intros k. unfold refs. rewrite Ei1. rewrite (lsum_insert _ _ _ y) by done. rewrite En1, Er1. lia. }
  assert (Hsp1 : spare s1 y1). { unfold spare, nfree_entries in *. rewrite Ei1, (lsum_insert _ _ _ y) by done. rewrite Er1. destruct (i_ref y =? 0); lia. }
  rewrite <- En1, <- (dinode_samev s s1 _ V1) in Ey1. assert (Et : i_type y1 = i_type (dinode s (i_inum y))) by (rewrite <- (dinode_samev s s1 _ V1), <- En1; by rewrite Ey1 at 1). rewrite Et.
  destruct (Z.eqb_spec (i_type (dinode s (i_inum y))) T_DIR) as [Hd|Hd]; cbn [negb].
  2: { destruct (iunlockput_tree s1 ip y1 T1 Hy1 ltac:(lia)) as (s2 & y2 & R2 & T2 & V2 & _ & _ & _ & Hk2). mstep R2. exists None, name', s2. split; [done|]. split; [done|]. split; [by transitivity s1|].
       assert (En : resolve parent s (i_inum y) (c :: cs) = None).
       { destruct parent; cbn [resolve walk walk_parent]; unfold dir_entry; rewrite ?(proj2 (Z.eqb_neq _ _) Hd); [by destruct cs|done]. }
       rewrite En. split; [done|]. intros k. by rewrite Hk2, Hk1, En1. }
  destruct (decide (parent = true /\ cs = [])) as [[-> ->]|Hnp].
  - rewrite bool_decide_eq_true_2 by by apply Hrest. cbn [andb]. destruct (iunlock_tree s1 ip y1 T1 Hy1 ltac:(lia)) as [R2 T2]. mstep R2. set (y2 := set_i_lock _ y1) in *.
    exists (Some ip), name', (seti ip y2 s1). split; [done|]. split; [done|]. split; [transitivity s1; [done|apply samev_seti]|]. cbn [resolve walk_parent]. rewrite Hd, Z.eqb_refl.
    exists ip, y2. split; [done|]. split; [by apply (seti_lookup s1 ip y1)|]. split; [done|]. split; [simpl; lia|]. split; [|intros _; by exists c].
    intros k. rewrite (refs_seti s1 ip y1 y2 k Hy1), Hk1. change (i_inum y2) with (i_inum y1). change (i_ref y2) with (i_ref y1). lia.
  - assert (Hb : parent && bool_decide (rest = []) = false). { destruct parent; [|done]. apply bool_decide_eq_false_2. intros Hn. apply Hnp. split; [done|by apply Hrest]. } rewrite Hb.
    assert (Hp : parent = true -> cs <> []) by (intros -> ->; by apply Hnp). 
    destruct (descend_tree s1 ip y1 name' (fun next => namex_loop fuel next rest parent name') (mret (None, name')) T1 Hy1 ltac:(lia) Hsp1 Ey1 ltac:(rewrite (dinode_samev s s1 _ V1), En1; done) Hl') as (s2 & V2 & T2 & H).
    rewrite (dir_entry_samev s s1 _ _ V1), En1, <- (dir_entry_cname s _ name'), Hc in H.
    pose proof (resolve_cons parent s (i_inum y) c cs Hp) as Er. destruct (dir_entry s (i_inum y) (take 14 c)) as [n'|].
    + destruct H as (ip' & y' & -> & Hy' & <- & Hr' & Hsp' & Hk2). apply (resolved_trans parent (i_inum y) (i_inum y') c cs s s2); [done|by transitivity s1|intros k; by rewrite Hk2, Hk1|done|].
      rewrite <- Ecs. apply IH; [done|done|done|done| |done|lia]. by apply (skipelem_nz path name rest name').
    + destruct H as [-> Hk2]. exists None, name', s2. split; [done|]. split; [done|]. split; [by transitivity s1|]. rewrite Er. split; [done|]. intros k. by rewrite Hk2, Hk1.
Qed.

Lemma idup_tree s ip y : tree L None s bs -> f_inodes s !! ip = Some y -> 0 < i_ref y ->
  let y' := set_i_ref (i_ref y + 1) y in idup ip s = Ret ip (seti ip y' s) /\ tree L None (seti ip y' s) bs.
Proof.
  intros T Hy Hr y'. split; [unfold idup; mstep (geti_run _ _ _ Hy); by mstep (updi_run s ip y (fun x => set_i_ref (i_ref x + 1) x) Hy)|]. pose proof (tr_tab _ _ _ _ T ip y Hy) as [A1 A2 A3]. destruct (A3 Hr) as (B1 & B2 & B3).
  apply (tree_seti L None None s bs ip y y' T Hy); [|done|by apply (uniq_same None s ip y)]. split; [simpl; lia|done|]. intros _. split; [done|]. split; [done|]. destruct B3 as [?|B3]; [by left|right].
  unfold synced, iblock in *. transitivity (set_i_ref (i_ref y + 1) (get_dinode (dip_at (i_inum y)) (view s (IBLOCK (i_inum y) (f_sb s))) y)); [done|by rewrite B3].
Qed.

(** Where the walk starts: at the root, or at the current directory. *)
Definition starts (path : list Z) (s : fstate) (n0 : Z) : Prop :=
  if bool_decide (head path = Some slash) then n0 = ROOTINO else exists y, f_inodes s !! f_cwd s = Some y /\ 0 < i_ref y /\ i_inum y = n0.

Lemma spare_seti s ip y y' : f_inodes s !! ip = Some y -> 0 <= i_ref y -> i_ref y' = i_ref y + 1 -> 2 <= nfree_entries s -> spare (seti ip y' s) y'.
Proof. intros Hy H0 Hr Hf. unfold spare. rewrite (free_seti s ip y y' Hy), Hr. destruct (Z.eqb_spec (i_ref y) 0), (Z.eqb_spec (i_ref y + 1) 0), (Z.eqb_spec (i_ref y + 1) 1); lia. Qed.

Lemma start_tree s path n0 (K : nat -> M fstate (option nat * list Z)) :
  tree L None s bs -> L ROOTINO -> starts path s n0 -> 2 <= nfree_entries s ->
  exists ip y', ((if bool_decide (head path = Some slash) then iget ROOTDEV ROOTINO else cwd ← gets f_cwd; idup cwd) ≫= K) s = K ip (seti ip y' s) /\
    tree L None (seti ip y' s) bs /\ f_inodes (seti ip y' s) !! ip = Some y' /\ i_inum y' = n0 /\ 0 < i_ref y' /\ spare (seti ip y' s) y' /\ forall k, refs (seti ip y' s) k = refs s k + delta n0 k.
Proof.
  intros T HL Hst Hf. unfold starts in Hst. case_bool_decide as Hh.
  - subst n0. destruct (iget_tree None s ROOTINO T HL ltac:(lia)) as (ip & y & y' & R & T' & Hy & En & Er & Hsame). pose proof (eo_ref _ _ _ _ (tr_tab _ _ _ _ T ip y Hy)) as H0.
    exists ip, y'. split; [by mstep R|]. split; [done|]. split; [by apply (seti_lookup s ip y)|]. split; [done|]. split; [lia|]. split; [by apply (spare_seti s ip y)|].
    intros k. rewrite (refs_seti s ip y y' k Hy), En, Er. unfold delta. destruct (decide (i_ref y = 0)) as [E0|E0]; [rewrite E0; destruct (i_inum y =? k), (ROOTINO =? k); lia|].
    rewrite (Hsame ltac:(lia)). destruct (ROOTINO =? k); lia.
  - destruct Hst as (y & Hy & Hr & <-). destruct (idup_tree s _ y T Hy Hr) as [R T']. set (y' := set_i_ref (i_ref y + 1) y) in *. exists (f_cwd s), y'. rewrite bind_assoc_run, bind_gets. split; [by mstep R|].
    split; [done|split; [by apply (seti_lookup s _ y)|split; [done|split; [simpl; lia|split; [apply (spare_seti s _ y); try done; lia|]]]]].
    intros k. rewrite (refs_seti s _ y y' k Hy). change (i_inum y') with (i_inum y). change (i_ref y') with (i_ref y + 1). unfold delta. destruct (i_inum y =? k); lia.
Qed.

Lemma namex_run s path parent name n0 :
  tree L None s bs -> L ROOTINO -> starts path s n0 -> 2 <= nfree_entries s -> Forall (fun c => c <> 0) path -> length name = 14%nat ->
  exists s1, samev s s1 /\ (forall k, refs s1 k = refs s k + delta n0 k) /\ resolved parent n0 (components path) s1 (namex path parent name s).
Proof.
  intros T HL Hst Hf Hnz Hl. unfold namex. destruct (start_tree s path n0 (fun ip => namex_loop (length path) ip path parent name) T HL Hst Hf) as (ip & y & -> & T1 & Hy & <- & Hr & Hsp & Hk).
  exists (seti ip y s). split; [apply samev_seti|]. split; [done|]. by apply namex_loop_run.
Qed.
End walk.
End ops.
