(* ===== verification/Sysfile.v ===== *)
(** * System calls on files (sysfile.c)

    Every system call of sysfile.c on the kernel state of File.v.  Arguments are
    fetched from the process with the functions of Args.v.  The arrays on the
    kernel stack that are not initialised have the contents [stack]. *)

From Stdlib Require Import ZArith Lia.
From stdpp Require Import base numbers strings gmap list.
From S2P Require Import Prelude.
From S2P Require Import Machine.
From S2P Require Import Vm.
From S2P Require Import KState.
From S2P Require Import Proc.
From S2P Require Import Args.
From S2P Require Import Pipe.
From S2P Require Import FState.
From S2P Require Import Blocks.
From S2P Require Import Bio.
From S2P Require Import Log.
From S2P Require Import Fs.
From S2P Require Import File.

Local Open Scope string_scope.
Local Open Scope list_scope.
Local Open Scope Z_scope.

Definition O_RDONLY : Z := 0x000.
Definition O_WRONLY : Z := 0x001.
Definition O_RDWR : Z := 0x002.
Definition O_CREATE : Z := 0x200.

(** ** Descriptors *)

(** The descriptor and the file; [None] is the return value -1. *)
Definition argfd (n : Z) : M kern (option (Z * nat)) :=
  ofd ← argint n;
  match ofd with
  | None => mret None
  | Some fd =>
      '(_, pr) ← curproc;
      if (fd <? 0) || (NOFILE <=? fd) then mret None
      else
        h ← of_option "ofile" (zget (p_ofile pr) fd);
        if h =? 0 then mret None else mret (Some (fd, index h))
  end.

Definition set_ofile (fd : nat) (h : Z) : M kern unit :=
  '(p, _) ← curproc; updp p (fun q => set_p_ofile (<[fd := h]> (p_ofile q)) q).

Definition fdalloc (f : nat) : M kern Z :=
  '(p, pr) ← curproc;
  match find_first (fun h => h =? 0) (take (Z.to_nat NOFILE) (p_ofile pr)) with
  | Some fd => updp p (fun q => set_p_ofile (<[fd := handle f]> (p_ofile q)) q);; mret (Z.of_nat fd)
  | None => mret (-1)
  end.

(** The string at the nth argument. *)
Definition argpath (n : Z) : M kern (option (list Z)) :=
  o ← argstr n;
  match o with None => mret None | Some (a, len) => s ← from_user a len; mret (Some s) end.

Definition sys_dup : M kern Z :=
  o ← argfd 0;
  match o with
  | None => mret (-1)
  | Some (_, f) => fd ← fdalloc f; if fd <? 0 then mret (-1) else on_fs (filedup f);; mret fd
  end.

Definition sys_close : M kern Z :=
  o ← argfd 0;
  match o with
  | None => mret (-1)
  | Some (fd, f) => set_ofile (Z.to_nat fd) 0;; fileclose f;; mret 0
  end.

(** The arguments of [sys_read] and [sys_write]: the file, the address and the
    number of bytes. *)
Definition arg_rw : M kern (option (nat * Z * Z)) :=
  o ← argfd 0;
  match o with
  | None => mret None
  | Some (_, f) =>
      on ← argint 2;
      match on with
      | None => mret None
      | Some n => oa ← argptr 1 n; match oa with None => mret None | Some a => mret (Some (f, a, n)) end
      end
  end.

(** [struct stat] in memory: 20 bytes, with two bytes of padding after each
    [short]; the padding of [*st] is not written. *)
Definition stat_parts (st : stat) : list (Z * list Z) :=
  [(0, le16 (st_type st)); (4, le32 (u32 (st_dev st))); (8, le32 (st_ino st)); (12, le16 (st_nlink st)); (16, le32 (st_size st))].

Section sysfile.
Context `{Devsw} (stack : list Z).

Definition sys_read : M kern Z :=
  o ← arg_rw; match o with None => mret (-1) | Some (f, a, n) => fileread f a n end.
Definition sys_write : M kern Z :=
  o ← arg_rw; match o with None => mret (-1) | Some (f, a, n) => filewrite f a n end.

Definition sys_fstat : M kern Z :=
  o ← argfd 0;
  match o with
  | None => mret (-1)
  | Some (_, f) =>
      oa ← argptr 1 20;
      match oa with
      | None => mret (-1)
      | Some a =>
          st ← on_fs (filestat f);
          match st with
          | None => mret (-1)
          | Some st => each (stat_parts st) (fun p => to_user (u32 (a + p.1)) p.2);; mret 0
          end
      end
  end.

(** ** Names *)

(** The end of [sys_link] after the label [bad]. *)
Definition link_bad (ip : nat) : M fstate Z :=
  ilock ip;;
  updi ip (fun x => set_i_nlink (i16 (i_nlink x - 1)) x);;
  iupdate ip;;
  iunlockput ip;;
  end_op;;
  mret (-1).

Definition link (old new : list Z) : M fstate Z :=
  begin_op;;
  oip ← namei old stack;
  match oip with
  | None => end_op;; mret (-1)
  | Some ip =>
      ilock ip;;
      x ← geti ip;
      if i_type x =? T_DIR then iunlockput ip;; end_op;; mret (-1)
      else
        updi ip (fun x => set_i_nlink (i16 (i_nlink x + 1)) x);;
        iupdate ip;;
        iunlock ip;;
        r ← nameiparent new stack;
        match r with
        | (None, _) => link_bad ip
        | (Some dp, name) =>
            ilock dp;;
            d ← geti dp;
            x ← geti ip;
            bad ← (if negb (i_dev d =? i_dev x) then mret true else r ← dirlink dp name (i_inum x); mret (r <? 0));
            if bad : bool then iunlockput dp;; link_bad ip
            else iunlockput dp;; iput ip;; end_op;; mret 0
        end
  end.

Definition sys_link : M kern Z :=
  o ← argpath 0;
  match o with
  | None => mret (-1)
  | Some old => o ← argpath 1; match o with None => mret (-1) | Some new => on_fs (link old new) end
  end.

Fixpoint isdirempty_loop (fuel : nat) (dp : nat) (off : Z) : M fstate bool :=
  x ← geti dp;
  if off <? i_size x then
    match fuel with
    | O => fault "isdirempty: fuel"
    | S fuel =>
        r ← readi dp off 16;
        unless_panic (negb (r.1 =? 16)) "isdirempty: readi";;
        if negb (de_inum r.2 =? 0) then mret false else isdirempty_loop fuel dp (off + 16)
    end
  else mret true.
Definition isdirempty (dp : nat) : M fstate bool := x ← geti dp; isdirempty_loop (Z.to_nat (i_size x)) dp 32.

Definition dot : list Z := [46; 0].
Definition dotdot : list Z := [46; 46; 0].

(** The end of [sys_unlink] after the label [bad]. *)
Definition unlink_bad (dp : nat) : M fstate Z := iunlockput dp;; end_op;; mret (-1).

Definition unlink (path : list Z) : M fstate Z :=
  begin_op;;
  r ← nameiparent path stack;
  match r with
  | (None, _) => end_op;; mret (-1)
  | (Some dp, name) =>
      ilock dp;;
      c1 ← namecmp name dot;
      c2 ← (if c1 =? 0 then mret 0 else namecmp name dotdot);
      if c2 =? 0 then unlink_bad dp
      else
        e ← dirlookup dp name;
        match e with
        | None => unlink_bad dp
        | Some (ip, off) =>
            ilock ip;;
            x ← geti ip;
            unless_panic (i_nlink x <? 1) "unlink: nlink < 1";;
            empty ← (if i_type x =? T_DIR then isdirempty ip else mret true);
            if negb empty then iunlockput ip;; unlink_bad dp
            else
              r ← writei dp (replicate 16 0) off 16;
              unless_panic (negb (r =? 16)) "unlink: writei";;
              (if i_type x =? T_DIR then updi dp (fun d => set_i_nlink (i16 (i_nlink d - 1)) d);; iupdate dp else mret tt);;
              iunlockput dp;;
              updi ip (fun x => set_i_nlink (i16 (i_nlink x - 1)) x);;
              iupdate ip;;
              iunlockput ip;;
              end_op;;
              mret 0
        end
  end.

Definition sys_unlink : M kern Z :=
  o ← argpath 0; match o with None => mret (-1) | Some path => on_fs (unlink path) end.

(** The new inode is returned locked. *)
Definition create (path : list Z) (type major minor : Z) : M fstate (option nat) :=
  r ← nameiparent path stack;
  match r with
  | (None, _) => mret None
  | (Some dp, name) =>
      ilock dp;;
      e ← dirlookup dp name;
      match e with
      | Some (ip, _) =>
          iunlockput dp;;
          ilock ip;;
          x ← geti ip;
          if (type =? T_FILE) && (i_type x =? T_FILE) then mret (Some ip) else iunlockput ip;; mret None
      | None =>
          d ← geti dp;
          ip ← ialloc (i_dev d) type;
          ilock ip;;
          updi ip (fun x => set_i_nlink 1 (set_i_minor minor (set_i_major major x)));;
          iupdate ip;;
          x ← geti ip;
          (if type =? T_DIR then
             updi dp (fun d => set_i_nlink (i16 (i_nlink d + 1)) d);;
             iupdate dp;;
             r1 ← dirlink ip dot (i_inum x);
             r2 ← (if r1 <? 0 then mret (-1) else dirlink ip dotdot (i_inum d));
             unless_panic (r2 <? 0) "create dots"
           else mret tt);;
          r ← dirlink dp name (i_inum x);
          unless_panic (r <? 0) "create: dirlink";;
          iunlockput dp;;
          mret (Some ip)
      end
  end.

(** [sys_open] up to the locked inode; [None] after the transaction has been
    ended. *)
Definition open_inode (path : list Z) (omode : Z) : M fstate (option nat) :=
  begin_op;;
  if negb (Z.land omode O_CREATE =? 0) then
    o ← create path T_FILE 0 0;
    match o with None => end_op;; mret None | Some ip => mret (Some ip) end
  else
    o ← namei path stack;
    match o with
    | None => end_op;; mret None
    | Some ip =>
        ilock ip;;
        x ← geti ip;
        if (i_type x =? T_DIR) && negb (omode =? O_RDONLY) then iunlockput ip;; end_op;; mret None
        else mret (Some ip)
    end.

Definition open_file (ip : nat) (omode : Z) (f : file) : file :=
  mkfile FD_INODE (fl_ref f) (if Z.land omode O_WRONLY =? 0 then 1 else 0)
    (if negb (Z.land omode O_WRONLY =? 0) || negb (Z.land omode O_RDWR =? 0) then 1 else 0) (fl_pipe f) ip 0.

Definition sys_open : M kern Z :=
  o ← argpath 0;
  match o with
  | None => mret (-1)
  | Some path =>
      om ← argint 1;
      match om with
      | None => mret (-1)
      | Some omode =>
          oip ← on_fs (open_inode path omode);
          match oip with
          | None => mret (-1)
          | Some ip =>
              ofl ← on_fs filealloc;
              fd ← match ofl with None => mret (-1) | Some f => fdalloc f end;
              match ofl with
              | Some f =>
                  if fd <? 0 then fileclose f;; on_fs (iunlockput ip);; on_fs end_op;; mret (-1)
                  else
                    on_fs (iunlock ip);;
                    on_fs end_op;;
                    on_fs (updf f (open_file ip omode));;
                    mret fd
              | None => on_fs (iunlockput ip);; on_fs end_op;; mret (-1)
              end
          end
      end
  end.

(** [sys_mkdir] and [sys_mknod] begin the transaction before they fetch their
    arguments. *)
Definition make (o : option (list Z)) (type major minor : Z) : M kern Z :=
  match o with
  | None => on_fs end_op;; mret (-1)
  | Some path =>
      oip ← on_fs (create path type major minor);
      match oip with
      | None => on_fs end_op;; mret (-1)
      | Some ip => on_fs (iunlockput ip);; on_fs end_op;; mret 0
      end
  end.
Definition sys_mkdir : M kern Z := on_fs begin_op;; o ← argpath 0; make o T_DIR 0 0.
Definition sys_mknod : M kern Z :=
  on_fs begin_op;;
  o ← argpath 0;
  match o with
  | None => make None T_DEV 0 0
  | Some path =>
      omaj ← argint 1;
      match omaj with
      | None => make None T_DEV 0 0
      | Some major =>
          omin ← argint 2;
          match omin with
          | None => make None T_DEV 0 0
          | Some minor => make (Some path) T_DEV (i16 major) (i16 minor)
          end
      end
  end.

Definition sys_chdir : M kern Z :=
  on_fs begin_op;;
  o ← argpath 0;
  oip ← match o with None => mret None | Some path => on_fs (namei path stack) end;
  match oip with
  | None => on_fs end_op;; mret (-1)
  | Some ip =>
      on_fs (ilock ip);;
      x ← on_fs (geti ip);
      if negb (i_type x =? T_DIR) then on_fs (iunlockput ip);; on_fs end_op;; mret (-1)
      else
        on_fs (iunlock ip);;
        '(p, pr) ← curproc;
        on_fs (iput (index (p_cwd pr)));;
        on_fs end_op;;
        updp p (set_p_cwd (handle ip));;
        mret 0
  end.

Definition sys_pipe : M kern Z :=
  oa ← argptr 0 8;
  match oa with
  | None => mret (-1)
  | Some a =>
      o ← pipealloc;
      match o with
      | None => mret (-1)
      | Some (rf, wf) =>
          fd0 ← fdalloc rf;
          fd1 ← (if fd0 <? 0 then mret (-1) else fdalloc wf);
          if fd1 <? 0 then
            (if 0 <=? fd0 then set_ofile (Z.to_nat fd0) 0 else mret tt);;
            fileclose rf;;
            fileclose wf;;
            mret (-1)
          else to_user a (le32 fd0);; to_user (u32 (a + 4)) (le32 fd1);; mret 0
      end
  end.
End sysfile.
