(* ===== verification/Exec.v ===== *)
(** * Loading programs (exec.c, elf.h) and the kernel's file interfaces

    [exec] reads the program with [readi], builds a new address space and
    commits to it.  With it the interfaces that proc.c, syscall.c and trap.c use
    of the file system are instances: [FileOps] and [FileSyscalls]. *)

From Stdlib Require Import ZArith Lia.
From stdpp Require Import base numbers strings gmap list.
From S2P Require Import Prelude.
From S2P Require Import Strings.
From S2P Require Import Machine.
From S2P Require Import Kalloc.
From S2P Require Import Vm.
From S2P Require Import KState.
From S2P Require Import Proc.
From S2P Require Import Args.
From S2P Require Import Trap.
From S2P Require Import FState.
From S2P Require Import Blocks.
From S2P Require Import Bio.
From S2P Require Import Log.
From S2P Require Import Fs.
From S2P Require Import File.
From S2P Require Import Sysfile.

Local Open Scope string_scope.
Local Open Scope list_scope.
Local Open Scope Z_scope.

Definition ELF_MAGIC : Z := 0x464C457F.
Definition ELF_PROG_LOAD : Z := 1.

(** The fields of [struct elfhdr] that are used. *)
Record elfhdr := mkelf { e_magic : Z; e_entry : Z; e_phoff : Z; e_phnum : Z }.
Definition sizeof_elfhdr : Z := 52.
Definition get_elfhdr (d : list Z) : elfhdr := mkelf (get32 d 0) (get32 d 24) (get32 d 28) (get16 d 44).

Record proghdr := mkph { ph_type : Z; ph_off : Z; ph_vaddr : Z; ph_filesz : Z; ph_memsz : Z }.
Definition sizeof_proghdr : Z := 32.
Definition get_proghdr (d : list Z) : proghdr := mkph (get32 d 0) (get32 d 4) (get32 d 8) (get32 d 16) (get32 d 20).

Section exec.
Context `{Devsw} (stack : list Z).

(** [readi(ip, addr, off, n)] into kernel memory. *)
Definition readi_mem (ip : nat) (addr off n : Z) : M kern Z :=
  r ← on_fs (readi ip off n);
  modify (fun k => set_km (set_mem (fun m => store_bytes m addr r.2) (km k)) k);;
  mret r.1.

(** The program headers from [i] on; [None] is [goto bad]. *)
Fixpoint load_segments (n : nat) (ip : nat) (pgdir off sz : Z) : M kern (option Z) :=
  match n with
  | O => mret (Some sz)
  | S n =>
      r ← on_fs (readi ip (u32 off) sizeof_proghdr);
      if negb (r.1 =? sizeof_proghdr) then mret None
      else
        let ph := get_proghdr r.2 in
        let off := i32 (off + sizeof_proghdr) in
        if negb (ph_type ph =? ELF_PROG_LOAD) then load_segments n ip pgdir off sz
        else if ph_memsz ph <? ph_filesz ph then mret None
        else if u32 (ph_vaddr ph + ph_memsz ph) <? ph_vaddr ph then mret None
        else
          sz ← on_km (allocuvm pgdir sz (u32 (ph_vaddr ph + ph_memsz ph)));
          if sz =? 0 then mret None
          else if negb (ph_vaddr ph mod PGSIZE =? 0) then mret None
          else
            r ← loaduvm (@on_km fio) (readi_mem ip) pgdir (ph_vaddr ph) (ph_off ph) (ph_filesz ph);
            if r <? 0 then mret None else load_segments n ip pgdir off sz
  end.

(** The argument strings: the new [sp] and the addresses of the strings. *)
Fixpoint push_args (argv : list (list Z)) (argc pgdir sp : Z) (addrs : list Z) : M kern (option (Z * list Z)) :=
  match argv with
  | [] => mret (Some (sp, addrs))
  | a :: argv =>
      if MAXARG <=? argc then mret None
      else
        let sp := Z.land (u32 (sp - (Z.of_nat (length a) + 1))) (Z.lnot 3) in
        r ← on_km (copyout pgdir sp (a ++ [0]));
        if r <? 0 then mret None else push_args argv (argc + 1) pgdir sp (addrs ++ [sp])
  end.

(** What follows the last slash of the path. *)
Fixpoint last_elem (s last : list Z) : list Z :=
  match s with [] => last | c :: s => last_elem s (if c =? slash then s else last) end.

Definition exec_bad (pgdir : Z) (ip : option nat) : M kern Z :=
  (if pgdir =? 0 then mret tt else on_km (freevm pgdir));;
  match ip with
  | Some ip => on_fs (iunlockput ip);; on_fs end_op
  | None => mret tt
  end;;
  mret (-1).

(** The stack, the name and the commit. *)
Definition exec_commit (path : list Z) (argv : list (list Z)) (entry pgdir sz : Z) : M kern Z :=
  let sz := PGROUNDUP sz in
  sz ← on_km (allocuvm pgdir sz (u32 (sz + 2 * PGSIZE)));
  if sz =? 0 then exec_bad pgdir None
  else
    on_km (clearpteu pgdir (u32 (sz - 2 * PGSIZE)));;
    o ← push_args argv 0 pgdir sz [];
    match o with
    | None => exec_bad pgdir None
    | Some (sp, addrs) =>
        let argc := Z.of_nat (length addrs) in
        let ustack := [0xffffffff; argc; u32 (sp - (argc + 1) * 4)] ++ addrs ++ [0] in
        let sp := u32 (sp - (3 + argc + 1) * 4) in
        r ← on_km (copyout pgdir sp (concat (le32 <$> ustack)));
        if r <? 0 then exec_bad pgdir None
        else
          '(p, pr) ← curproc;
          updp p (fun q => set_p_name (safestrcpy_array (p_name q) (last_elem path path) 16) q);;
          updp p (set_p_pgdir pgdir);;
          updp p (set_p_sz sz);;
          updp p (fun q => set_p_tfr (set_tf_esp sp (set_tf_eip entry (p_tfr q))) q);;
          switchuvm (Some p);;
          on_km (freevm (p_pgdir pr));;
          mret 0
    end.

Definition exec (path : list Z) (argv : list (list Z)) : M kern Z :=
  on_fs begin_op;;
  '(p, _) ← curproc;
  updp p (fun q => set_p_shmpgs (replicate (Z.to_nat SHM_MAXNUM) None ++ drop (Z.to_nat SHM_MAXNUM) (p_shmpgs q)) q);;
  oip ← on_fs (namei path stack);
  match oip with
  | None => on_fs end_op;; mret (-1)
  | Some ip =>
      on_fs (ilock ip);;
      r ← on_fs (readi ip 0 sizeof_elfhdr);
      if negb (r.1 =? sizeof_elfhdr) then exec_bad 0 (Some ip)
      else
        let elf := get_elfhdr r.2 in
        if negb (e_magic elf =? ELF_MAGIC) then exec_bad 0 (Some ip)
        else
          pgdir ← on_km setupkvm;
          if pgdir =? 0 then exec_bad 0 (Some ip)
          else
            o ← load_segments (Z.to_nat (e_phnum elf)) ip pgdir (i32 (e_phoff elf)) 0;
            match o with
            | None => exec_bad pgdir (Some ip)
            | Some sz =>
                on_fs (iunlockput ip);;
                on_fs end_op;;
                exec_commit path argv (e_entry elf) pgdir sz
            end
  end.
End exec.

(** The loop of [sys_exec]: the strings [argv[i]], [argv[i+1]], ... *)
Fixpoint fetch_argv (n : nat) (uargv i : Z) : M kern (option (list (list Z))) :=
  match n with
  | O => mret None
  | S n =>
      ou ← fetchint (u32 (uargv + 4 * i));
      match ou with
      | None => mret None
      | Some uarg =>
          if uarg =? 0 then mret (Some [])
          else
            os ← fetchstr (u32 uarg);
            match os with
            | None => mret None
            | Some (a, len) =>
                s ← from_user a len;
                r ← fetch_argv n uargv (i + 1);
                match r with None => mret None | Some l => mret (Some (s :: l)) end
            end
      end
  end.

Definition sys_exec `{Devsw} (stack : list Z) : M kern Z :=
  o ← argpath 0;
  match o with
  | None => mret (-1)
  | Some path =>
      ou ← argint 1;
      match ou with
      | None => mret (-1)
      | Some uargv =>
          ol ← fetch_argv (Z.to_nat MAXARG) (u32 uargv) 0;
          match ol with None => mret (-1) | Some argv => exec stack path argv end
      end
  end.

(** ** The interfaces *)

(** File system code that does not ask for the current process: [userinit] resolves the
    path [/] when there is none. *)
Definition no_proc_fs {A} (m : M fstate A) : M kern A := zoom (fun k => fi_fs (kf k)) (fun s k => set_kf (mkfio s (fi_pipes (kf k))) k) m.

(** What proc.c uses of the file system. *)
#[export] Instance kernel_files `{Devsw} : FileOps fio := {|
  KState.filedup h := i ← on_fs (File.filedup (index h)); mret (handle i);
  KState.fileclose h := File.fileclose (index h);
  KState.idup h := i ← on_fs (Fs.idup (index h)); mret (handle i);
  KState.begin_op := on_fs Log.begin_op;
  KState.end_op := on_fs Log.end_op;
  KState.iput h := on_fs (Fs.iput (index h));
  KState.namei_root := o ← no_proc_fs (Fs.namei [slash] (replicate 14 0)); mret (match o with Some i => handle i | None => 0 end);
  KState.iinit dev := on_fs (Fs.iinit dev);
  KState.initlog dev := on_fs (Log.initlog dev) |}.

(** The handlers that the dispatch table of syscall.c names. *)
#[export] Instance kernel_file_syscalls `{Devsw} (stack : list Z) : FileSyscalls fio := {|
  Trap.sys_pipe := Sysfile.sys_pipe;
  Trap.sys_read := Sysfile.sys_read;
  Trap.sys_exec := sys_exec stack;
  Trap.sys_fstat := Sysfile.sys_fstat;
  Trap.sys_chdir := Sysfile.sys_chdir stack;
  Trap.sys_dup := Sysfile.sys_dup;
  Trap.sys_open := Sysfile.sys_open stack;
  Trap.sys_write := Sysfile.sys_write;
  Trap.sys_mknod := Sysfile.sys_mknod stack;
  Trap.sys_unlink := Sysfile.sys_unlink stack;
  Trap.sys_link := Sysfile.sys_link stack;
  Trap.sys_mkdir := Sysfile.sys_mkdir stack;
  Trap.sys_close := Sysfile.sys_close |}.
