(* ===== verification/Usys.v ===== *)
(** * System calls from user code (usys.S, initcode.S)

    The assembly files as text, with an assembler for the lines they use; a processor
    that runs the machine code in a process's memory; and system calls through the
    trap path of Asm.v and the [trap] of Trap.v.  [usys_call] follows a call through
    all of them and back. *)

From Stdlib Require Import ZArith Lia.
From stdpp Require Import base numbers strings gmap list relations.
From S2P Require Import Prelude.
From S2P Require Import Machine.
From S2P Require Import Spinlock.
From S2P Require Import Kalloc.
From S2P Require Import Vm.
From S2P Require Import KState.
From S2P Require Import Proc.
From S2P Require Import ProcInv.
From S2P Require Import SchedSys.
From S2P Require Import Args.
From S2P Require Import ArgsSpec.
From S2P Require Import Sysproc.
From S2P Require Import Shm.
From S2P Require Import Trap.
From S2P Require Import Asm.

Local Open Scope string_scope.
Local Open Scope list_scope.
Local Open Scope Z_scope.

(** ** Assembly text *)

Inductive operand := Sym (l : string) | Const (v : Z).

Inductive line :=
  | Label (l : string)
  | S_pushl (o : operand)
  | S_movl_eax (v : Z)        (* movl $v, %eax *)
  | S_int (n : Z)
  | S_jmp (l : string)
  | S_ret
  | S_string (bs : list Z)    (* .string, without the 0 it adds *)
  | S_p2align (n : Z)
  | S_long (o : operand).

(** The size of a line that is assembled at address [pc]; a constant that fits is
    pushed as one byte, a symbol always as four, and the jumps here are short. *)
Definition line_size (pc : Z) (l : line) : Z :=
  match l with
  | Label _ => 0
  | S_pushl (Const v) => if (-128 <=? v) && (v <? 128) then 2 else 5
  | S_pushl (Sym _) | S_movl_eax _ => 5
  | S_int _ | S_jmp _ => 2
  | S_ret => 1
  | S_string bs => Z.of_nat (length bs) + 1
  | S_p2align n => (- pc) mod 2 ^ n
  | S_long _ => 4
  end.

Fixpoint labels (pc : Z) (ls : list line) : list (string * Z) :=
  match ls with
  | [] => []
  | l :: ls => match l with Label s => [(s, pc)] | _ => [] end ++ labels (pc + line_size pc l) ls
  end.

Definition value (env : list (string * Z)) (o : operand) : Z :=
  match o with
  | Const v => v
  | Sym s => match find_first (fun e => String.eqb e.1 s) env with Some i => (env !!! i).2 | None => 0 end
  end.

Definition le32 (v : Z) : list Z := [v mod 256; v / 256 mod 256; v / 65536 mod 256; v / 16777216 mod 256].

Definition encode (env : list (string * Z)) (pc : Z) (l : line) : list Z :=
  match l with
  | Label _ => []
  | S_pushl (Const v) => if (-128 <=? v) && (v <? 128) then [0x6a; u8 v] else 0x68 :: le32 v
  | S_pushl (Sym s) => 0x68 :: le32 (value env (Sym s))
  | S_movl_eax v => 0xb8 :: le32 v
  | S_int n => [0xcd; n]
  | S_jmp s => [0xeb; u8 (value env (Sym s) - (pc + 2))]
  | S_ret => [0xc3]
  | S_string bs => bs ++ [0]
  | S_p2align n => replicate (Z.to_nat ((- pc) mod 2 ^ n)) 0x90
  | S_long o => le32 (value env o)
  end.

Fixpoint assemble_from (env : list (string * Z)) (pc : Z) (ls : list line) : list Z :=
  match ls with [] => [] | l :: ls => encode env pc l ++ assemble_from env (pc + line_size pc l) ls end.

Definition assemble (pc : Z) (ls : list line) : list Z := assemble_from (labels pc ls) pc ls.

(** [SYSCALL(name)] of usys.S; [n] is [SYS_ ## name]. *)
Definition SYSCALL (name : string) (n : Z) : list line := [Label name; S_movl_eax n; S_int T_SYSCALL; S_ret].

Definition usys : list (string * Z) :=
  [("fork", SYS_fork); ("exit", SYS_exit); ("wait", SYS_wait); ("pipe", SYS_pipe); ("read", SYS_read); ("write", SYS_write);
   ("close", SYS_close); ("kill", SYS_kill); ("exec", SYS_exec); ("open", SYS_open); ("mknod", SYS_mknod); ("unlink", SYS_unlink);
   ("fstat", SYS_fstat); ("link", SYS_link); ("mkdir", SYS_mkdir); ("chdir", SYS_chdir); ("dup", SYS_dup); ("getpid", SYS_getpid);
   ("sbrk", SYS_sbrk); ("sleep", SYS_sleep); ("uptime", SYS_uptime); ("mcreate", SYS_mcreate); ("mdelete", SYS_mdelete);
   ("mlock", SYS_mlock); ("munlock", SYS_munlock); ("waitcv", SYS_waitcv); ("signalcv", SYS_signalcv); ("prio_set", SYS_prio_set);
   ("testpqeq", SYS_testpqeq); ("testpqdq", SYS_testpqdq); ("shmget", SYS_shmget); ("shmrem", SYS_shmrem)].

Definition usys_S : list line := flat_map (fun '(name, n) => SYSCALL name n) usys.

Definition initcode_S : list line :=
  [ Label "start";
    S_pushl (Sym "argv");
    S_pushl (Sym "init");
    S_pushl (Const 0);
    S_movl_eax SYS_exec;
    S_int T_SYSCALL;
    Label "exit";
    S_movl_eax SYS_exit;
    S_int T_SYSCALL;
    S_jmp "exit";
    Label "init";
    S_string [47; 105; 110; 105; 116; 0];
    S_p2align 2;
    Label "argv";
    S_long (Sym "init");
    S_long (Const 0) ].

(** ** Machine code *)

Inductive uinstr := Plain (i : instr) | Int (n : Z) | Jmp (a : Z).

Definition i8 (b : Z) : Z := if b <? 128 then b else b - 256.
Definition imm32 (rd : Z -> Z) (a : Z) : Z := rd a + 256 * rd (a + 1) + 65536 * rd (a + 2) + 16777216 * rd (a + 3).

(** The instruction at [pc] and its length; [rd] reads a byte. *)
Definition decode (rd : Z -> Z) (pc : Z) : option (uinstr * Z) :=
  let b := rd pc in
  if b =? 0xb8 then Some (Plain (Movl_imm (imm32 rd (pc + 1)) EAX), 5)
  else if b =? 0x68 then Some (Plain (Pushl_imm (imm32 rd (pc + 1))), 5)
  else if b =? 0x6a then Some (Plain (Pushl_imm (u32 (i8 (rd (pc + 1))))), 2)
  else if b =? 0xcd then Some (Int (rd (pc + 1)), 2)
  else if b =? 0xeb then Some (Jmp (pc + 2 + i8 (rd (pc + 1))), 2)
  else if b =? 0xc3 then Some (Plain RetI, 1)
  else None.

Definition fetch (u : xcpu) : option (uinstr * Z) := decode (ld8 (x_mem u)) (x_eip u).

(** ** Bytes and words *)

Definition bytes_at (m : gmap Z Z) (a : Z) (bs : list Z) : Prop := forall i b, bs !! i = Some b -> ld8 m (a + Z.of_nat i) = b.

(** The bytes [bs] at address [a], as a reader. *)
Definition byte_of (a : Z) (bs : list Z) (x : Z) : Z := default 0 (zget bs (x - a)).

Lemma bytes_at_byte m a bs x : bytes_at m a bs -> a <= x < a + Z.of_nat (length bs) -> ld8 m x = byte_of a bs x.
Proof.
  intros Hb Hx. unfold byte_of, zget. destruct (Z.leb_spec 0 (x - a)); [|lia]. destruct (lookup_lt_is_Some_2 bs (Z.to_nat (x - a))) as [b Eb]; [lia|].
  rewrite Eb. change (default 0 (Some b)) with b. rewrite <- (Hb _ _ Eb). f_equal. lia.
Qed.

(** An instruction that lies in known bytes. *)
Lemma decode_at m a bs pc i n : bytes_at m a bs -> decode (byte_of a bs) pc = Some (i, n) -> a <= pc -> pc + n <= a + Z.of_nat (length bs) -> decode (ld8 m) pc = Some (i, n).
Proof.
  intros Hb. unfold decode, imm32. intros Hd Ha He.
  assert (Hn : 1 <= n). { repeat (match type of Hd with (if ?b then _ else _) = _ => destruct b end; [injection Hd as <- <-; lia|]). done. }
  rewrite (bytes_at_byte m a bs pc Hb) by lia.
  repeat (match goal with |- context [if ?b then _ else _] => destruct b end; [rewrite <- Hd; injection Hd as _ <-; rewrite !(bytes_at_byte m a bs _ Hb) by lia; done|]). done.
Qed.

Lemma bytes_at_st m a bs b v : bytes_at m a bs -> a + Z.of_nat (length bs) <= b -> bytes_at (st m b v) a bs.
Proof. intros Hb Hl i x Hx. pose proof (lookup_lt_Some _ _ _ Hx). rewrite <- (Hb i x Hx). unfold ld8. pose proof (Z.mod_pos_bound (a + Z.of_nat i) 4). by rewrite ld_st_ne by lia. Qed.

Lemma image_bytes_app m a bs cs : bytes_at m a (bs ++ cs) -> bytes_at m a bs /\ bytes_at m (a + Z.of_nat (length bs)) cs.
Proof.
  intros Hb. split; intros i b Hi.
  - apply Hb. by apply lookup_app_l_Some.
  - rewrite <- (Hb (length bs + i)%nat b); [f_equal; lia|]. rewrite lookup_app_r by lia. by replace (length bs + i - length bs)%nat with i by lia.
Qed.

(** The four bytes of an aligned word. *)
Lemma ld8_word m a i : a mod 4 = 0 -> 0 <= i < 4 -> ld8 m (a + i) = (ld m a / 2 ^ (8 * i)) mod 256.
Proof.
  intros Ha Hi. unfold ld8. assert ((a + i) mod 4 = i) as -> by (rewrite Z.add_mod, Ha by lia; rewrite Z.mod_small; rewrite Z.mod_small; lia).
  replace (a + i - i) with a by lia. rewrite Z.shiftr_div_pow2 by lia. by rewrite (Z.land_ones _ 8) by lia.
Qed.

Lemma imm32_word m a : a mod 4 = 0 -> imm32 (ld8 m) a = u32 (ld m a).
Proof.
  intros Ha. unfold imm32. rewrite <- (Z.add_0_r a) at 1. rewrite !ld8_word by lia. set (w := ld m a). change (2 ^ (8 * 0)) with 1. change (2 ^ (8 * 1)) with 256. change (2 ^ (8 * 2)) with 65536. change (2 ^ (8 * 3)) with 16777216. rewrite Z.div_1_r. unfold u32, two32.
  change 4294967296 with (256 * (256 * (256 * 256))). rewrite 3 Z.rem_mul_r by lia. rewrite !Z.div_div by lia. change (256 * 256) with 65536. change (65536 * 256) with 16777216. lia.
Qed.

Lemma decode_stub a name n : 0 <= n < 128 -> let b := byte_of a (assemble a (SYSCALL name n)) in
  decode b a = Some (Plain (Movl_imm n EAX), 5) /\ decode b (a + 5) = Some (Int T_SYSCALL, 2) /\ decode b (a + 7) = Some (Plain RetI, 1).
Proof.
  intros Hn. cbv zeta. unfold decode, imm32, byte_of. cbn [assemble assemble_from labels SYSCALL encode app le32 line_size]. replace (a - a) with 0 by lia. replace (a + 5 - a) with 5 by lia. replace (a + 7 - a) with 7 by lia.
  replace (a + 1 - a) with 1 by lia. replace (a + 1 + 1 - a) with 2 by lia. replace (a + 1 + 2 - a) with 3 by lia. replace (a + 1 + 3 - a) with 4 by lia. replace (a + 5 + 1 - a) with 6 by lia.
  cbn. rewrite (Z.mod_small n) by lia. rewrite !(Z.div_small n) by lia. split; [|done]. do 4 f_equal. change (n + 256 * 0 + 65536 * 0 + 16777216 * 0 = n). lia.
Qed.

(** ** A process in user mode *)

Section user.
Context {F : Type} `{!FileOps F} `{!Image} `{!FileSyscalls F} `{!Devices F}.

Implicit Types k : kst F.

(** The handlers that syscall.c declares. *)
Definition handlers (j : stack_junk) : list (string * M (kst F) Z) :=
  [("chdir", sys_chdir); ("close", sys_close); ("dup", sys_dup); ("exec", sys_exec); ("exit", sys_exit); ("fork", sys_fork);
   ("fstat", sys_fstat); ("getpid", sys_getpid); ("kill", sys_kill); ("link", sys_link); ("mkdir", sys_mkdir); ("mknod", sys_mknod);
   ("open", sys_open); ("pipe", sys_pipe); ("read", sys_read); ("sbrk", sys_sbrk); ("sleep", sys_sleep); ("unlink", sys_unlink);
   ("wait", sys_wait); ("write", sys_write); ("uptime", sys_uptime);
   ("mcreate", sys_mcreate (j_arg j)); ("mdelete", sys_mdelete (j_arg j)); ("mlock", sys_mlock (j_arg j)); ("munlock", sys_munlock (j_arg j));
   ("waitcv", sys_waitcv (j_arg j)); ("signalcv", sys_signalcv (j_arg j)); ("prio_set", sys_prio_set (j_arg j) (j_arg2 j));
   ("testpqeq", (sys_testpqeq;; mret (j_void j))); ("testpqdq", (sys_testpqdq (j_fuel j);; mret (j_void j)));
   ("shmget", sys_shmget (j_failed j)); ("shmrem", sys_shmrem)].

(** The processor sees the memory of process [pr] through its page table. *)
Definition coupled (k : kst F) (pr : proc) (m : gmap Z Z) : Prop :=
  forall va, 0 <= va < p_sz pr -> peek8 (mem (km k)) (p_pgdir pr) va = Some (ld8 m va).

(** The page behind a virtual address. *)
Definition page_of (m : gmap Z Z) (pgdir va : Z) : option Z := pte ← pte_at m pgdir va; Some (P2V (PTE_ADDR (ld m pte))).

(** Stores in user mode go to the process's pages. *)
Definition write_back (pr : proc) (k k' : kst F) : Prop :=
  exists m, k' = set_km (set_mem (fun _ => m) (km k)) k /\
    forall a, (forall va, 0 <= va < p_sz pr -> page_of (mem (km k)) (p_pgdir pr) va <> Some (a - a mod PGSIZE)) -> ld m a = ld (mem (km k)) a.

(** The frame that a system call builds at the top of the kernel stack. *)
Definition frame_addr (pr : proc) : Z := p_kstack pr + KSTACKSIZE - sizeof_trapframe.
Definition int_frame (pr : proc) (u : xcpu) : trapframe := user_frame u T_SYSCALL 0 (frame_addr pr + 32).

Context (p : nat) (j : stack_junk) (vec : Z).

(** The processor at the call of [trap]; the kernel stack is that of the process. *)
Local Abbreviation entered pr u := (trap_entry (p_kstack pr + KSTACKSIZE) (Z.shiftl SEG_KDATA 3) T_SYSCALL 0 true vec u).

(** One instruction of the process.  [int] is a whole system call that does not block:
    the kernel is entered, [trap] runs and changes the kernel's state and the frame,
    and the processor leaves with the frame that it finds. *)
Inductive ustep : kst F * xcpu -> kst F * xcpu -> Prop :=
  | us_plain k u i n pr k' : fetch u = Some (Plain i, n) -> procs (kp k) !! p = Some pr ->
      write_back pr k k' -> coupled k' pr (x_mem (exec1 i (jump (x_eip u + n) u))) -> ustep (k, u) (k', exec1 i (jump (x_eip u + n) u))
  | us_jmp k u a n : fetch u = Some (Jmp a, n) -> ustep (k, u) (k, jump a u)
  | us_int k u n pr k' pr' r : fetch u = Some (Int T_SYSCALL, n) -> procs (kp k) !! p = Some pr ->
      let u1 := jump (x_eip u + n) u in
      trap j (int_frame pr u1) k = Ret tt k' -> procs (kp k') !! p = Some pr' ->
      esp r = esp (entered pr u1) -> x_seg r CS = x_seg (entered pr u1) CS ->
      words_at (x_mem r) (frame_addr pr) (tf_words (p_tfr pr')) -> coupled k' pr' (x_mem r) ->
      ustep (k, u) (k', trap_exit r).

(** ** Lemmas *)

(** The number of a stub is the index of the handler with the stub's name. *)
Lemma usys_handler name n : (name, n) ∈ usys -> exists h, (name, h) ∈ handlers j /\ zget (syscalls j) n = Some (Some h) /\ 0 < n < 128.
Proof.
  intros Hin. unfold usys in Hin. repeat (apply elem_of_cons in Hin as [[= -> ->]|Hin]; [eexists; split; [|split; [reflexivity|split; reflexivity]]; unfold handlers; by repeat first [left | right]|]). by apply not_elem_of_nil in Hin.
Qed.

Lemma write_back_refl pr k : write_back pr k k.
Proof. exists (mem (km k)). split; [|done]. destruct k as [[] ? ? ? ? ? ?]. done. Qed.

Lemma killed_exit_run k c pr : running k c p -> procs (kp k) !! p = Some pr -> p_killed pr = 0 -> killed_exit k = Ret tt (touched c k).
Proof. intros Hr Hp Hk. unfold killed_exit. mstep (curproc_run k c p pr Hr Hp). cbn beta iota. by rewrite Hk. Qed.

Lemma running_upd k c f : running k c p -> running (upd_k p f k) c p.
Proof. done. Qed.

Lemma touched_upd c f k : touched c (upd_k p f k) = upd_k p f (touched c k).
Proof. done. Qed.

Lemma upd_lookup k f pr : procs (kp k) !! p = Some pr -> procs (kp (upd_k p f k)) !! p = Some (f pr).
Proof. intros Hq. rewrite upd_k_procs, list_lookup_alter_eq, Hq. done. Qed.

Lemma peek32_coupled k pr m a : coupled k pr m -> a mod 4 = 0 -> 0 <= a -> a + 4 <= p_sz pr <= KERNBASE -> peek32 (mem (km k)) (p_pgdir pr) a = Some (u32 (ld m a)).
Proof.
  intros Hc Ha H0 Hs. unfold KERNBASE in Hs. unfold peek32. rewrite !(u32_id (a + _)) by (unfold two32; lia). rewrite !Hc by lia. cbn [mbind option_bind]. by rewrite <- (imm32_word m a Ha).
Qed.

(** The [i]th word above the return address. *)
Lemma arg_coupled k pr m i : coupled k pr m -> tf_esp (p_tfr pr) mod 4 = 0 -> 0 <= tf_esp (p_tfr pr) -> 0 <= i -> tf_esp (p_tfr pr) + 8 + 4 * i <= p_sz pr <= KERNBASE ->
  arg_is k pr i (i32 (ld m (tf_esp (p_tfr pr) + 4 + 4 * i))).
Proof.
  intros Hc Ha H0 Hi Hs. pose proof Hs as Hs'. unfold KERNBASE in Hs'. unfold arg_is. set (sp := tf_esp (p_tfr pr)) in *. rewrite (u32_id (sp + 4 + 4 * i)) by (unfold two32; lia). rewrite u32_id by (unfold two32; lia).
  split; [lia|]. split; [lia|]. exists (u32 (ld m (sp + 4 + 4 * i))). split; [|unfold i32; by rewrite u32_u32].
  apply peek32_coupled; [done| |lia|lia]. replace (sp + 4 + 4 * i) with (sp + (1 + i) * 4) by lia. by rewrite Z.mod_add by lia.
Qed.

(** [trap] on a system call whose handler returns. *)
Lemma trap_syscall_run k c pr tf h r k2 pr2 : running k c p -> procs (kp k) !! p = Some pr -> p_killed pr = 0 ->
  tf_trapno tf = T_SYSCALL -> zget (syscalls j) (i32 (tf_eax tf)) = Some (Some h) -> 0 < i32 (tf_eax tf) ->
  h (upd_k p (set_p_tfr tf) (touched c k)) = Ret r k2 -> running k2 c p -> procs (kp k2) !! p = Some pr2 -> p_killed pr2 = 0 ->
  trap j tf k = Ret tt (touched c (upd_k p (fun q => set_p_tfr (set_tf_eax (u32 r) (p_tfr q)) q) k2)).
Proof.
  intros Hr Hp Hk Ht Hh Hn Hrun Hr2 Hp2 Hk2. unfold trap. rewrite Ht, Z.eqb_refl. unfold trap_syscall.
  mstep (killed_exit_run k c pr Hr Hp Hk). pose proof (running_touched k c p Hr) as Hr1. mstep (curproc_run _ c p pr Hr1 Hp). cbn beta iota. rewrite touched_touched. mstep (updp_run p pr (set_p_tfr tf) (touched c k) Hp).
  rewrite bind_run. unfold syscall at 1. set (k1 := upd_k p (set_p_tfr tf) (touched c k)) in *.
  assert (Hk1 : touched c k1 = k1) by (unfold k1; by rewrite touched_upd, touched_touched).
  mstep (curproc_run k1 c p (set_p_tfr tf pr) Hr1 (upd_lookup _ _ _ Hp)). cbn beta iota zeta. rewrite Hk1. cbn [p_tfr set_p_tfr]. rewrite Hh. destruct (Z.ltb_spec 0 (i32 (tf_eax tf))); [|lia].
  mstep Hrun. unfold syscall_return, set_eax. rewrite (updp_run p pr2 _ k2 Hp2).
  apply (killed_exit_run _ c (set_p_tfr (set_tf_eax (u32 r) (p_tfr pr2)) pr2)); [done|by apply (upd_lookup _ (fun q => set_p_tfr (set_tf_eax (u32 r) (p_tfr q)) q))|done].
Qed.

Lemma in_frame_inv c t : in_frame c t ->
  (x_eip c = tf_eip t /\ esp c = tf_esp t /\ x_reg c EAX = tf_eax t /\ x_eflags c = tf_eflags t) /\
  (x_reg c EBX = tf_ebx t /\ x_reg c ECX = tf_ecx t /\ x_reg c EDX = tf_edx t /\ x_reg c ESI = tf_esi t /\ x_reg c EDI = tf_edi t /\ x_reg c EBP = tf_ebp t) /\
  (x_seg c GS = tf_gs t /\ x_seg c FS = tf_fs t /\ x_seg c ES = tf_es t /\ x_seg c DS = tf_ds t /\ x_seg c CS = tf_cs t /\ x_seg c SS = tf_ss t).
Proof. intros Hf. unfold in_frame, tf_words, user_frame in Hf. cbn in Hf. by injection Hf. Qed.

(** The instructions on the way back do not write to memory. *)
Definition no_store (i : instr) : bool :=
  match i with Movl_st _ _ | Pushl _ | Pushl_imm _ | Pushl_seg _ | Pushal => false | _ => true end.

Lemma exec1_mem i c : no_store i = true -> x_mem (exec1 i c) = x_mem c.
Proof. destruct i; try done. intros _. cbn [exec1]. unfold iret. by destruct (_ <? _). Qed.

Lemma run_mem code c : forallb no_store code = true -> x_mem (run code c) = x_mem c.
Proof. revert c. induction code as [|i code IH]; intros c Hs; [done|]. cbn in Hs. apply andb_prop in Hs as [H1 H2]. rewrite run_cons, IH by done. by apply exec1_mem. Qed.

Lemma trap_exit_mem r : x_mem (trap_exit r) = x_mem r.
Proof. by apply run_mem. Qed.

(** The way back of a system call, for a processor that comes out of [trap] with the
    frame of the process in memory [m]. *)
Lemma leave_run e m a tf : esp e = a - 4 -> x_seg e CS = Z.shiftl SEG_KCODE 3 -> words_at m a (tf_words tf) -> Z.land (tf_cs tf) 3 = 3 -> in_frame (trap_exit (setm m e)) tf.
Proof.
  intros He Hc Hw Hcs. unfold trap_exit. rewrite run_cons. apply trapret_run; [|exact Hc|done]. unfold stack_is. change (esp (exec1 (Addl 4 ESP) (setm m e))) with (esp e + 4). change (x_mem (exec1 (Addl 4 ESP) (setm m e))) with m. rewrite He. by replace (a - 4 + 4) with a by lia.
Qed.

Lemma entered_esp pr u : esp (entered pr u) = frame_addr pr - 4.
Proof. apply trap_entry_run. Qed.

Lemma entered_cs pr u : x_seg (entered pr u) CS = Z.shiftl SEG_KCODE 3.
Proof. apply trap_entry_run. Qed.

(** The three instructions of a stub. *)
Section stub.
Context (name : string) (n : Z) (k : kst F) (u : xcpu) (pr : proc).
Hypothesis (Hin : (name, n) ∈ usys) (Hb : bytes_at (x_mem u) (x_eip u) (assemble (x_eip u) (SYSCALL name n))) (Hp : procs (kp k) !! p = Some pr) (Hc : coupled k pr (x_mem u)).

Definition at_int : xcpu := jump (x_eip u + 5) (setr EAX n u).
Definition after_int : xcpu := jump (x_eip u + 7) (setr EAX n u).

Lemma stub_fetch i m : decode (byte_of (x_eip u) (assemble (x_eip u) (SYSCALL name n))) (x_eip u + i) = Some m -> 0 <= i -> i + m.2 <= 8 -> decode (ld8 (x_mem u)) (x_eip u + i) = Some m.
Proof. destruct m as [q l]. intros Hd Hi Hl. cbn in Hl. apply (decode_at _ _ _ _ _ _ Hb Hd); [lia|]. cbn. lia. Qed.

Lemma stub_movl : ustep (k, u) (k, at_int).
Proof using Hin Hb Hp Hc.
  destruct (usys_handler name n Hin) as (_ & _ & _ & Hn). assert (Hn' : 0 <= n < 128) by lia. destruct (decode_stub (x_eip u) name n Hn') as (D1 & _ & _).
  apply (us_plain k u (Movl_imm n EAX) 5 pr k); [|exact Hp|apply write_back_refl|exact Hc]. unfold fetch. rewrite <- (Z.add_0_r (x_eip u)). apply stub_fetch; [by rewrite Z.add_0_r|lia|cbn; lia].
Qed.

Lemma stub_int k3 pr3 r : trap j (int_frame pr after_int) k = Ret tt k3 -> procs (kp k3) !! p = Some pr3 ->
  esp r = frame_addr pr - 4 -> x_seg r CS = Z.shiftl SEG_KCODE 3 -> words_at (x_mem r) (frame_addr pr) (tf_words (p_tfr pr3)) -> coupled k3 pr3 (x_mem r) ->
  ustep (k, at_int) (k3, trap_exit r).
Proof using Hin Hb Hp.
  intros Ht Hp3 He Hs Hw Hc3. destruct (usys_handler name n Hin) as (_ & _ & _ & Hn). assert (Hn' : 0 <= n < 128) by lia. destruct (decode_stub (x_eip u) name n Hn') as (_ & D2 & _).
  assert (Ej : jump (x_eip at_int + 2) at_int = after_int). { unfold at_int, after_int. cbn [x_eip jump]. replace (x_eip u + 7) with (x_eip u + 5 + 2) by lia. done. }
  apply (us_int k at_int 2 pr k3 pr3 r); [|exact Hp|by rewrite Ej|exact Hp3|by rewrite entered_esp|by rewrite entered_cs|exact Hw|exact Hc3].
  apply stub_fetch; [exact D2|lia|cbn; lia].
Qed.

Lemma stub_ret k3 pr3 u2 : x_eip u2 = x_eip u + 7 -> ld8 (x_mem u2) (x_eip u + 7) = ld8 (x_mem u) (x_eip u + 7) -> procs (kp k3) !! p = Some pr3 -> coupled k3 pr3 (x_mem u2) ->
  ustep (k3, u2) (k3, exec1 RetI (jump (x_eip u2 + 1) u2)).
Proof using Hin Hb.
  intros He Hm Hp3 Hc3. apply (us_plain k3 u2 RetI 1 pr3 k3); [|exact Hp3|apply write_back_refl|exact Hc3]. unfold fetch, decode. rewrite He, Hm. pose proof (Hb 7%nat 0xc3 eq_refl) as E. change (Z.of_nat 7) with 7 in E. by rewrite E.
Qed.

Lemma stub_run k3 pr3 r u2 : trap j (int_frame pr after_int) k = Ret tt k3 -> procs (kp k3) !! p = Some pr3 ->
  esp r = frame_addr pr - 4 -> x_seg r CS = Z.shiftl SEG_KCODE 3 -> words_at (x_mem r) (frame_addr pr) (tf_words (p_tfr pr3)) -> coupled k3 pr3 (x_mem r) ->
  trap_exit r = u2 -> x_eip u2 = x_eip u + 7 -> x_mem u2 = x_mem r -> ld8 (x_mem r) (x_eip u + 7) = ld8 (x_mem u) (x_eip u + 7) ->
  nsteps ustep 3 (k, u) (k3, exec1 RetI (jump (x_eip u2 + 1) u2)).
Proof using Hin Hb Hp Hc.
  intros Ht Hp3 He Hs Hw Hc3 Eu Ee Em Hcode. apply (nsteps_l _ 2 _ (k, at_int)); [exact stub_movl|]. apply (nsteps_l _ 1 _ (k3, u2)).
  - rewrite <- Eu. by apply (stub_int k3 pr3 r).
  - apply nsteps_once. apply (stub_ret k3 pr3); [exact Ee|by rewrite Em|done|by rewrite Em].
Qed.

(** The registers after the [ret]. *)
Lemma stub_regs v u2 : in_frame u2 (set_tf_eax v (int_frame pr after_int)) -> ld (x_mem u2) (esp u) = ld (x_mem u) (esp u) ->
  let u' := exec1 RetI (jump (x_eip u2 + 1) u2) in
  x_mem u' = x_mem u2 /\ x_eip u' = ld (x_mem u) (esp u) /\ x_reg u' EAX = v /\ esp u' = esp u + 4 /\ x_eflags u' = x_eflags u /\
  (forall q, q <> EAX -> q <> ESP -> x_reg u' q = x_reg u q) /\ (forall q, x_seg u' q = x_seg u q).
Proof.
  intros Hf Hret. cbv zeta. destruct (in_frame_inv _ _ Hf) as ((E1 & E2 & E3 & E4) & (F1 & F2 & F3 & F4 & F5 & F6) & G1 & G2 & G3 & G4 & G5 & G6).
  assert (Et : top u2 = ld (x_mem u) (esp u)) by (unfold top; rewrite E2; exact Hret).
  split; [done|]. split; [exact Et|]. split; [exact E3|]. split; [change (esp u2 + 4 = esp u + 4); by rewrite E2|]. split; [exact E4|]. split; [by intros []|by intros []].
Qed.
End stub.
End user.

(** ** Properties *)

(** C11. A system call from user code and back.  A process that calls a stub of usys.S
    enters the kernel through the trap path, and the number that the stub loads makes
    [syscall] run the handler of the stub's name; the handler's [argint] finds there the
    arguments that the caller has pushed above the return address.  When the handler
    returns [r], without having changed the saved registers, [trap] returns, and after
    the [ret] of the stub the process is behind the call, with [r] in eax and the stack
    pointer, the other registers, the segments and the flags as a call leaves them. *)
Theorem usys_call {F} `{!FileOps F} `{!Image} `{!FileSyscalls F} `{!Devices F} p j vec name n (k : kst F) u c pr :
  (name, n) ∈ usys -> bytes_at (x_mem u) (x_eip u) (assemble (x_eip u) (SYSCALL name n)) ->
  running k c p -> procs (kp k) !! p = Some pr -> p_killed pr = 0 -> coupled k pr (x_mem u) -> Z.land (x_seg u CS) 3 = 3 ->
  let tf := int_frame pr (after_int n u) in let k1 := upd_k p (set_p_tfr tf) (touched c k) in
  exists h, (name, h) ∈ handlers j /\
  (forall i, 0 <= i -> 0 <= esp u -> esp u mod 4 = 0 -> esp u + 8 + 4 * i <= p_sz pr <= KERNBASE -> argint i k1 = Ret (Some (i32 (ld (x_mem u) (esp u + 4 + 4 * i)))) k1) /\
  (forall r k2 pr2, h k1 = Ret r k2 -> running k2 c p -> procs (kp k2) !! p = Some pr2 -> p_killed pr2 = 0 -> p_tfr pr2 = tf ->
   let k3 := touched c (upd_k p (set_p_tfr (set_tf_eax (u32 r) tf)) k2) in
   trap j tf k = Ret tt k3 /\
   forall m, words_at m (frame_addr pr) (tf_words (set_tf_eax (u32 r) tf)) -> coupled k3 pr2 m -> ld m (esp u) = ld (x_mem u) (esp u) -> ld8 m (x_eip u + 7) = ld8 (x_mem u) (x_eip u + 7) ->
   exists u', nsteps (ustep p j vec) 3 (k, u) (k3, u') /\ x_mem u' = m /\
     x_eip u' = ld (x_mem u) (esp u) /\ x_reg u' EAX = u32 r /\ esp u' = esp u + 4 /\ x_eflags u' = x_eflags u /\
     (forall q, q <> EAX -> q <> ESP -> x_reg u' q = x_reg u q) /\ (forall q, x_seg u' q = x_seg u q)).
Proof.
  intros Hin Hb Hr Hp Hk Hc Hcs tf k1. destruct (usys_handler j name n Hin) as (h & Hh & Hz & Hn). exists h. split; [done|].
  assert (En : i32 (tf_eax tf) = n) by (change (i32 n = n); unfold i32; rewrite u32_id by (unfold two32; lia); destruct (Z.ltb_spec n 2147483648); lia).
  split.
  - intros i Hi H0 Ha Hs. assert (Hk1 : touched c k1 = k1) by (unfold k1; by rewrite touched_upd, touched_touched). rewrite <- Hk1 at 2.
    apply (argint_run k1 c p (set_p_tfr tf pr)); [by apply running_touched|by apply upd_lookup|]. by apply (arg_coupled k1 (set_p_tfr tf pr) (x_mem u) i).
  - intros r k2 pr2 Hrun Hr2 Hp2 Hk2 Htf k3. assert (Ht : trap j tf k = Ret tt k3).
    { rewrite (trap_syscall_run p j k c pr tf h r k2 pr2); [|done|done|done|done|by rewrite En|lia|done..]. unfold k3. do 2 f_equal. unfold upd_k. do 2 f_equal. apply list_alter_ext; [|done]. intros q Hq. rewrite Hp2 in Hq. injection Hq as <-. by rewrite Htf. }
    split; [done|]. intros m Hw Hcm Hret Hcode. assert (Hp3 : procs (kp k3) !! p = Some (set_p_tfr (set_tf_eax (u32 r) tf) pr2)) by (by apply upd_lookup).
    pose (e := mkx (fun q => match q with ESP => frame_addr pr - 4 | _ => 0 end) (fun _ => Z.shiftl SEG_KCODE 3) 0 0 m).
    assert (Hu : exists u2, trap_exit e = u2 /\ in_frame u2 (set_tf_eax (u32 r) tf) /\ x_mem u2 = m). { exists (trap_exit e). split; [done|]. split; [by apply (leave_run e m (frame_addr pr))|apply trap_exit_mem]. }
    destruct Hu as (u2 & Eu & Hf & Em). exists (exec1 RetI (jump (x_eip u2 + 1) u2)). split.
    + eapply (stub_run p j vec name n k u pr Hin Hb Hp Hc k3 _ e u2); [exact Ht|exact Hp3|done|done|exact Hw|exact Hcm|exact Eu|apply (in_frame_inv _ _ Hf)|exact Em|exact Hcode].
    + rewrite <- Em in Hret. destruct (stub_regs n u pr (u32 r) u2 Hf Hret) as (R & Rs). split; [by rewrite R|exact Rs].
Qed.

(** ** Example: getpid

    A kernel without files; the process has its code at 0x100, called from 77, and the
    stack of ArgsSpec.v. *)
Definition wit_files : FileOps unit :=
  {| filedup h := mret h; fileclose _ := mret tt; idup h := mret h; begin_op := mret tt; end_op := mret tt; iput _ := mret tt; namei_root := mret 0; iinit _ := mret tt; initlog _ := mret tt |}.
Definition wit_image : Image := {| trapret := 0; forkret_pc := 0; initcode := assemble 0 initcode_S |}.
Definition wit_syscalls : FileSyscalls unit :=
  {| sys_pipe := mret 0; sys_read := mret 0; sys_exec := mret 0; sys_fstat := mret 0; sys_chdir := mret 0; sys_dup := mret 0; sys_open := mret 0; sys_write := mret 0;
     sys_mknod := mret 0; sys_unlink := mret 0; sys_link := mret 0; sys_mkdir := mret 0; sys_close := mret 0 |}.
Definition wit_devices : Devices unit := {| ideintr := mret tt; kbdintr := mret tt; uartintr := mret tt; lapiceoi := mret tt |}.
Definition wit_junk : stack_junk := mkjunk 0 0 0 0 0.

Definition coupled_b (m : gmap Z Z) (pgdir sz : Z) (u : gmap Z Z) : bool := forallb (fun va => bool_decide (peek8 m pgdir va = Some (ld8 u va))) (seqZ 0 sz).

Lemma coupled_check {F} (k : kst F) pr m : coupled_b (mem (km k)) (p_pgdir pr) (p_sz pr) m = true -> coupled k pr m.
Proof. intros Hb va Hva. unfold coupled_b in Hb. rewrite forallb_forall in Hb. apply (bool_decide_eq_true_1 (peek8 _ _ va = _)). apply Hb, list_elem_of_In, elem_of_seqZ. lia. Qed.

Definition getpid_words (base : Z) (m : gmap Z Z) : gmap Z Z := store_words (st m (base + 4000) 77) (base + 0x100) [0x00000bb8; 0xc340cd00].
Definition getpid_kst : kst unit := set_km (set_mem (fun _ => getpid_words 0x80403000 (user_mem [])) (km (user_kst []))) (user_kst []).
Definition user_regs (sp ip : Z) (m : gmap Z Z) : xcpu := mkx (regs0 sp) (fun s => match s with CS => 0x1b | _ => 0x23 end) ip FL_IF m.
Definition getpid_user : xcpu := user_regs 4000 0x100 (getpid_words 0 ∅).
Definition getpid_frame : trapframe := set_tf_eax 7 (int_frame user_proc (after_int SYS_getpid getpid_user)).
Definition getpid_return : gmap Z Z := store_words (x_mem getpid_user) (frame_addr user_proc) (tf_words getpid_frame).

Lemma getpid_return_words : words_at getpid_return (frame_addr user_proc) (tf_words getpid_frame).
Proof. intros i w Hw. do 19 (destruct i as [|i]; [injection Hw as <-; vm_compute; reflexivity|]). done. Qed.

Lemma usys_call_witness : exists k3 u', nsteps (@ustep unit wit_files wit_image wit_syscalls wit_devices 0 wit_junk 0x80105000) 3 (getpid_kst, getpid_user) (k3, u') /\
  x_eip u' = 77 /\ x_reg u' EAX = 7 /\ esp u' = 4004.
Proof.
  assert (Hin : ("getpid", SYS_getpid) ∈ usys) by (unfold usys; by repeat first [left | right]).
  destruct (@usys_call unit wit_files wit_image wit_syscalls wit_devices 0 wit_junk 0x80105000 "getpid" SYS_getpid getpid_kst getpid_user 0 user_proc) as (h & Hh & _ & Hx).
  - exact Hin.
  - intros i b Hi. do 8 (destruct i as [|i]; [injection Hi as <-; vm_compute; reflexivity|]). done.
  - exact (user_running []).
  - reflexivity.
  - reflexivity.
  - apply coupled_check. vm_compute. reflexivity.
  - reflexivity.
  - assert (h = @sys_getpid unit) as ->. { unfold handlers in Hh. repeat (apply elem_of_cons in Hh as [Hh|Hh]; [first [discriminate Hh | by injection Hh]|]). by apply not_elem_of_nil in Hh. }
    set (k1 := upd_k 0 (set_p_tfr (int_frame user_proc (after_int SYS_getpid getpid_user))) (touched 0 getpid_kst)) in *. assert (Hr : running k1 0 0) by exact (running_touched _ _ _ (user_running [])).
    edestruct (Hx 7 (touched 0 k1)) as (_ & Hm).
    + unfold sys_getpid. mstep (curproc_run k1 0 0 (set_p_tfr (int_frame user_proc (after_int SYS_getpid getpid_user)) user_proc) Hr eq_refl). reflexivity.
    + exact (running_touched _ _ _ Hr).
    + reflexivity.
    + reflexivity.
    + reflexivity.
    + destruct (Hm getpid_return) as (u' & Hs & _ & E1 & E2 & E3 & _).
      * exact getpid_return_words.
      * apply coupled_check. vm_compute. reflexivity.
      * reflexivity.
      * reflexivity.
      * eexists. exists u'. split; [exact Hs|]. split; [exact E1|]. split; [exact E2|exact E3].
Defined.
