(* ===== verification/Initcode.v ===== *)
(** * The first process (initcode.S, [userinit])

    What the code of the first process does, from the frame that [userinit] gives it to
    the [exec] of [/init]. *)

From Stdlib Require Import ZArith Lia.
From stdpp Require Import base numbers strings gmap list relations.
From S2P Require Import Prelude.
From S2P Require Import Machine.
From S2P Require Import Spinlock.
From S2P Require Import Kalloc.
From S2P Require Import Vm.
From S2P Require Import KState.
From S2P Require Import PQueue.
From S2P Require Import Proc.
From S2P Require Import ProcInv.
From S2P Require Import SchedSys.
From S2P Require Import Args.
From S2P Require Import ArgsSpec.
From S2P Require Import Trap.
From S2P Require Import Asm.
From S2P Require Import FState.
From S2P Require Import Fs.
From S2P Require Import File.
From S2P Require Import Sysfile.
From S2P Require Import Exec.
From S2P Require Import Usys.

Local Open Scope string_scope.
Local Open Scope list_scope.
Local Open Scope Z_scope.

(** ** Strings in user memory *)

Section strings.
Context (k : kern) (c p : nat) (pr : proc) (m : gmap Z Z).
Hypothesis (Hr : running k c p) (Hp : procs (kp k) !! p = Some pr) (Hc : coupled k pr m) (Hsz : p_sz pr <= KERNBASE) (Ht : touched c k = k).

Lemma fetchstr_at a s : bytes_at m a (s ++ [0]) -> Forall (fun b => b <> 0) s -> 0 <= a -> a + Z.of_nat (length s) < p_sz pr -> fetchstr a k = Ret (Some (a, Z.of_nat (length s))) k.
Proof using Hr Hp Hc Ht.
  intros Hb Hs Ha He. destruct (fetchstr_run k c p pr a Hr Hp) as (r & Hrun & Hspec). { intros x Hx. rewrite Hc by lia. by eexists. }
  rewrite Ht in Hrun. rewrite Hrun. f_equal. destruct (image_bytes_app _ _ _ _ Hb) as [H1 H2]. pose proof (H2 0%nat 0 eq_refl) as H0. rewrite Z.add_0_r in H0.
  assert (Hne : forall i, 0 <= i < Z.of_nat (length s) -> peek8 (mem (km k)) (p_pgdir pr) (a + i) <> Some 0).
  { intros i Hi. rewrite Hc by lia. destruct (lookup_lt_is_Some_2 s (Z.to_nat i)) as [b Eb]; [lia|]. pose proof (H1 _ _ Eb) as E. rewrite Z2Nat.id in E by lia. rewrite E. intros [= ->]. by apply (Forall_lookup_1 _ _ _ _ Hs Eb). }
  destruct r as [[a' len]|].
  - destruct Hspec as (-> & Hl & Hlt & Hz & Hnz). do 2 f_equal. destruct (Z.lt_trichotomy len (Z.of_nat (length s))) as [Hlt'|[->|Hgt]]; [|done|]; exfalso.
    + by apply (Hne len).
    + apply (Hnz (Z.of_nat (length s))); [lia|]. rewrite Hc by lia. by rewrite H0.
  - exfalso. apply (Hspec (Z.of_nat (length s))); [lia|lia|]. rewrite Hc by lia. by rewrite H0.
Qed.

Lemma ureads_at a s : bytes_at m a s -> 0 <= a -> a + Z.of_nat (length s) <= p_sz pr -> ureads (length s) (p_pgdir pr) a (km k) = Ret s (km k).
Proof using Hc Hsz.
  revert a. induction s as [|b s IH]; intros a Hb Ha He; [done|]. cbn [length ureads] in *. rewrite bind_run, uread8_run, Hc by lia. cbv beta iota. pose proof (Hb 0%nat b eq_refl) as E. rewrite Z.add_0_r in E. rewrite E. unfold KERNBASE in Hsz. rewrite u32_id by (unfold two32; lia).
  mstep (IH (a + 1) ltac:(intros i x Hx; rewrite <- (Hb (S i) x Hx); f_equal; lia) ltac:(lia) ltac:(lia)). done.
Qed.

Lemma from_user_at a s : bytes_at m a s -> 0 <= a -> a + Z.of_nat (length s) <= p_sz pr -> from_user a (Z.of_nat (length s)) k = Ret s k.
Proof using Hr Hp Hc Hsz Ht.
  intros Hb Ha He. unfold from_user. mstep (curproc_run k c p pr Hr Hp). cbn beta iota. rewrite Ht, Nat2Z.id. rewrite (on_km_run _ k s _ (ureads_at a s Hb Ha He)). by rewrite set_km_id.
Qed.

Lemma fetchint_at a : a mod 4 = 0 -> 0 <= a -> a + 4 <= p_sz pr -> fetchint a k = Ret (Some (i32 (ld m a))) k.
Proof using Hr Hp Hc Hsz Ht.
  intros Ha H0 He. unfold fetchint. mstep (curproc_run k c p pr Hr Hp). cbn beta iota. rewrite Ht. unfold KERNBASE in Hsz. rewrite u32_id by (unfold two32; lia). destruct (Z.leb_spec (p_sz pr) a); [lia|]. destruct (Z.ltb_spec (p_sz pr) (a + 4)); [lia|]. cbn [orb].
  mstep (on_km_run _ k _ _ (uread32_run (km k) _ _ _ (peek32_coupled k pr m a Hc Ha H0 ltac:(unfold KERNBASE; lia)))). rewrite set_km_id. unfold i32. by rewrite u32_u32.
Qed.

Lemma argint_at i v : tf_esp (p_tfr pr) mod 4 = 0 -> 0 <= tf_esp (p_tfr pr) -> 0 <= i -> tf_esp (p_tfr pr) + 8 + 4 * i <= p_sz pr -> ld m (tf_esp (p_tfr pr) + 4 + 4 * i) = v -> argint i k = Ret (Some (i32 v)) k.
Proof using Hr Hp Hc Hsz Ht. intros Ha H0 Hi He <-. rewrite <- Ht at 2. apply (argint_run k c p pr); [done|done|]. apply arg_coupled; [done|done|done|done|lia]. Qed.

(** A string at address [q] inside the process's memory. *)
Definition str_at (q : Z) (s : list Z) : Prop := bytes_at m q (s ++ [0]) /\ Forall (fun b => b <> 0) s /\ 0 < q /\ q + Z.of_nat (length s) < p_sz pr.

Lemma fetch_str_at q s : str_at q s -> fetchstr (u32 (i32 q)) k = Ret (Some (q, Z.of_nat (length s))) k /\ from_user q (Z.of_nat (length s)) k = Ret s k.
Proof using Hr Hp Hc Hsz Ht.
  intros (Hb & Hs & Hq & He). unfold KERNBASE in Hsz. assert (u32 (i32 q) = q) as -> by (rewrite i32_small by lia; apply u32_id; unfold two32; lia).
  split; [apply fetchstr_at; (done || lia)|]. apply from_user_at; [by apply (image_bytes_app _ _ _ [0])|lia|lia].
Qed.

(** The words at [a], as the kernel reads them. *)
Definition uwords_at (a : Z) (ws : list Z) : Prop := forall i w, ws !! i = Some w -> u32 (ld m (a + 4 * Z.of_nat i)) = w.

Lemma uwords_cons a w ws : uwords_at a (w :: ws) -> u32 (ld m a) = w /\ uwords_at (a + 4) ws.
Proof.
  intros Hw. split; [pose proof (Hw 0%nat w eq_refl) as E; by rewrite Z.mul_0_r, Z.add_0_r in E|]. intros i x Hx. pose proof (Hw (S i) x Hx) as E. by replace (a + 4 + 4 * Z.of_nat i) with (a + 4 * Z.of_nat (S i)) by lia.
Qed.

Lemma fetch_argv_at n a i ptrs strs : Forall2 str_at ptrs strs -> (length strs < n)%nat -> a mod 4 = 0 -> 0 <= a -> 0 <= i ->
  a + 4 * (i + Z.of_nat (length ptrs) + 1) <= p_sz pr -> uwords_at (a + 4 * i) (ptrs ++ [0]) -> fetch_argv n a i k = Ret (Some strs) k.
Proof using Hr Hp Hc Hsz Ht.
  intros Hf. revert n i. induction Hf as [|q s ptrs strs Hq Hf IH]; intros n i Hn Ha H0 Hi He Hw; (destruct n as [|n]; [cbn in Hn; lia|]); cbn [fetch_argv length app] in *; apply uwords_cons in Hw as [Hw1 Hw2]; unfold KERNBASE in Hsz; rewrite u32_id by (unfold two32; lia);
    (assert (Hal : (a + 4 * i) mod 4 = 0) by (replace (a + 4 * i) with (a + i * 4) by lia; by rewrite Z.mod_add by lia)); mstep (fetchint_at (a + 4 * i) Hal ltac:(lia) ltac:(lia)); unfold i32; rewrite Hw1.
  - done.
  - destruct (Z.ltb_spec q 2147483648); [|destruct Hq as (_ & _ & ? & ?); lia]. destruct (fetch_str_at q s Hq) as [F1 F2]. destruct Hq as (_ & _ & Hq1 & Hq2). rewrite (i32_small q) in F1 by lia. destruct (Z.eqb_spec q 0); [lia|]. mstep F1. cbn beta iota. mstep F2.
    rewrite <- Z.mul_add_distr_l in Hw2 || replace (a + 4 * i + 4) with (a + 4 * (i + 1)) in Hw2 by lia. mstep (IH n (i + 1) ltac:(lia) Ha H0 ltac:(lia) ltac:(lia) Hw2). done.
Qed.

(** [sys_exec] hands the caller's strings to [exec]. *)
Lemma sys_exec_at `{Devsw} stack path uargv q ptrs strs : let sp := tf_esp (p_tfr pr) in sp mod 4 = 0 -> 0 <= sp -> sp + 12 <= p_sz pr -> ld m (sp + 4) = q -> ld m (sp + 8) = uargv ->
  str_at q path -> Forall2 str_at ptrs strs -> (length strs < Z.to_nat MAXARG)%nat -> uargv mod 4 = 0 -> 0 <= uargv -> uargv + 4 * (Z.of_nat (length ptrs) + 1) <= p_sz pr -> uwords_at uargv (ptrs ++ [0]) ->
  sys_exec stack k = exec stack path strs k.
Proof using Hr Hp Hc Hsz Ht.
  intros sp Ha H0 He Eq Eu Hq Hf Hl Hua Hu0 Hue Hw. unfold sys_exec, argpath, argstr. rewrite bind_assoc_run, bind_assoc_run. unfold KERNBASE in *.
  mstep (argint_at 0 q Ha H0 ltac:(lia) ltac:(lia) ltac:(by rewrite Z.mul_0_r, Z.add_0_r)). destruct (fetch_str_at q path Hq) as [F1 F2]. cbn beta iota. mstep F1. cbn beta iota. rewrite bind_assoc_run. mstep F2. rewrite bind_mret.
  mstep (argint_at 1 uargv Ha H0 ltac:(lia) ltac:(lia) ltac:(by replace (tf_esp (p_tfr pr) + 4 + 4 * 1) with (sp + 8) by (unfold sp; lia))). cbn beta iota.
  assert (u32 (i32 uargv) = uargv) as -> by (rewrite i32_small by lia; apply u32_id; unfold two32; lia).
  mstep (fetch_argv_at (Z.to_nat MAXARG) uargv 0 ptrs strs Hf Hl Hua Hu0 ltac:(lia) ltac:(lia) ltac:(by rewrite Z.mul_0_r, Z.add_0_r)). done.
Qed.
End strings.

(** ** The run of initcode *)

Definition init_bytes : list Z := assemble 0 initcode_S.
Definition init_path : list Z := [47; 105; 110; 105; 116].

(** The assembled code: what the processor decodes at each address, and the data. *)
Lemma init_listing : let d := decode (byte_of 0 init_bytes) in length init_bytes = 44%nat /\
  d 0 = Some (Plain (Pushl_imm 36), 5) /\ d 5 = Some (Plain (Pushl_imm 28), 5) /\ d 10 = Some (Plain (Pushl_imm 0), 2) /\ d 12 = Some (Plain (Movl_imm SYS_exec EAX), 5) /\ d 17 = Some (Int T_SYSCALL, 2) /\
  d 19 = Some (Plain (Movl_imm SYS_exit EAX), 5) /\ d 24 = Some (Int T_SYSCALL, 2) /\ d 26 = Some (Jmp 19, 2).
Proof. vm_compute. done. Qed.

Lemma init_data m pr : bytes_at m 0 init_bytes -> p_sz pr = PGSIZE -> str_at pr m 28 init_path /\ uwords_at m 36 [28; 0].
Proof.
  intros Hb Hs. split.
  - split; [|split; [repeat (apply Forall_cons_2; [done|]); by apply Forall_nil_2|by rewrite Hs]]. change init_bytes with (take 28 init_bytes ++ (init_path ++ [0]) ++ drop 34 init_bytes) in Hb. apply image_bytes_app in Hb as [_ Hb]. by apply image_bytes_app in Hb as [Hb _].
  - intros i w Hw. destruct i as [|[|i]]; [| |done]; injection Hw as <-; rewrite <- imm32_word by done; unfold imm32; rewrite !(bytes_at_byte m 0 init_bytes _ Hb) by (change (Z.of_nat (length init_bytes)) with 44; lia); reflexivity.
Qed.

(** ** A process of one page *)

(** The page [pg] is what directory [pgdir] maps at address 0, and it holds neither the
    entry of the directory nor that of the page table. *)
Record one_page (m : gmap Z Z) (pgdir pg : Z) : Prop := {
  op_pde : Z.land (ld m pgdir) PTE_P <> 0;
  op_null : P2V (PTE_ADDR (ld m pgdir)) <> 0;
  op_pte : Z.land (ld m (P2V (PTE_ADDR (ld m pgdir)))) PTE_P <> 0;
  op_page : P2V (PTE_ADDR (ld m (P2V (PTE_ADDR (ld m pgdir))))) = pg;
  op_aligned : pg mod PGSIZE = 0;
  op_dir : pgdir < pg \/ pg + PGSIZE <= pgdir;
  op_tab : P2V (PTE_ADDR (ld m pgdir)) < pg \/ pg + PGSIZE <= P2V (PTE_ADDR (ld m pgdir)) }.

Lemma one_page_pte m pgdir pg va : one_page m pgdir pg -> 0 <= va < PGSIZE -> pte_at m pgdir va = Some (P2V (PTE_ADDR (ld m pgdir))).
Proof.
  intros Ho Hva. unfold PGSIZE in Hva. unfold pte_at. rewrite PDX_eq, PTX_eq by (unfold two32; lia). rewrite !(Z.div_small va) by lia. rewrite Z.mod_0_l, Z.mul_0_r, !Z.add_0_r by lia. pose proof (op_pde _ _ _ Ho). pose proof (op_null _ _ _ Ho).
  destruct (Z.eqb_spec (Z.land (ld m pgdir) PTE_P) 0); [done|]. by destruct (Z.eqb_spec (P2V (PTE_ADDR (ld m pgdir))) 0).
Qed.

Lemma one_page_peek m pgdir pg va : one_page m pgdir pg -> 0 <= va < PGSIZE -> peek8 m pgdir va = Some (ld8 m (pg + va)).
Proof.
  intros Ho Hva. unfold peek8. rewrite (one_page_pte m pgdir pg va Ho Hva). cbn [mbind option_bind]. destruct (Z.eqb_spec (Z.land (ld m (P2V (PTE_ADDR (ld m pgdir)))) PTE_P) 0) as [E|]; [by destruct (op_pte _ _ _ Ho)|].
  rewrite (op_page _ _ _ Ho), Z.mod_small; done.
Qed.

Lemma one_page_st m pgdir pg a v : one_page m pgdir pg -> 0 <= a < PGSIZE -> one_page (st m (pg + a) v) pgdir pg.
Proof.
  intros [H1 H2 H3 H4 H5 H6 H7] Ha. assert (E : ld (st m (pg + a) v) pgdir = ld m pgdir) by (apply ld_st_ne; lia). assert (E' : ld (st m (pg + a) v) (P2V (PTE_ADDR (ld m pgdir))) = ld m (P2V (PTE_ADDR (ld m pgdir)))) by (apply ld_st_ne; lia).
  split; rewrite ?E, ?E'; done.
Qed.

(** A store by the process. *)
Lemma store_coupled (k : kern) pr m pg a v : one_page (mem (km k)) (p_pgdir pr) pg -> coupled k pr m -> p_sz pr = PGSIZE -> 0 <= a < PGSIZE -> a mod 4 = 0 ->
  let k' := set_km (set_mem (fun m => st m (pg + a) v) (km k)) k in write_back pr k k' /\ coupled k' pr (st m a v) /\ one_page (mem (km k')) (p_pgdir pr) pg.
Proof.
  intros Ho Hc Hs Ha Ha4 k'. pose proof (one_page_st _ _ _ a v Ho Ha) as Ho'. pose proof (op_aligned _ _ _ Ho) as Hpg. split; [|split; [|exact Ho']].
  - exists (st (mem (km k)) (pg + a) v). split; [done|]. intros x Hx. apply ld_st_ne. intros <-. apply (Hx a); [by rewrite Hs|]. unfold page_of. rewrite (one_page_pte _ _ _ a Ho Ha). cbn [mbind option_bind]. rewrite (op_page _ _ _ Ho). f_equal. unfold PGSIZE in *. rewrite Z.add_mod, Hpg, Z.add_0_l, Z.mod_mod, Z.mod_small by lia. lia.
  - intros va Hva. rewrite Hs in Hva. change (mem (km k')) with (st (mem (km k)) (pg + a) v). rewrite (one_page_peek _ _ _ va Ho' Hva). pose proof (Hc va ltac:(by rewrite Hs)) as E. rewrite (one_page_peek _ _ _ va Ho Hva) in E. injection E as E. f_equal. revert E. unfold ld8.
    assert (E4 : (pg + va) mod 4 = va mod 4). { apply Z.div_exact in Hpg; [|done]. rewrite Hpg. unfold PGSIZE. replace (4096 * (pg / 4096) + va) with (va + (1024 * (pg / 4096)) * 4) by lia. by rewrite Z.mod_add by lia. }
    rewrite E4. replace (pg + va - va mod 4) with (pg + (va - va mod 4)) by lia. destruct (Z.eq_dec (va - va mod 4) a) as [->|Hne]; [by rewrite !ld_st_eq|]. by rewrite !ld_st_ne by lia.
Qed.

Section run.
Context {Dsw : Devsw} {Dev : Devices fio} {Img : Image} (stack : list Z) (p : nat) (j : stack_junk) (vec : Z).
Local Instance initcode_syscalls : FileSyscalls fio := kernel_file_syscalls stack.

Lemma write_back_keeps pr (k k' : kern) c : write_back pr k k' -> kp k' = kp k /\ (running k c p -> running k' c p).
Proof. by intros (m & -> & _). Qed.
Lemma write_back_files pr (k k' : kern) : write_back pr k k' -> kf k' = kf k.
Proof. by intros (m & -> & _). Qed.

(** One step of an instruction that is not a system call. *)
Lemma plain_step (k : kern) u i n s : fetch u = Some (Plain i, n) -> ustep p j vec (k, u) s ->
  exists pr k', s = (k', exec1 i (jump (x_eip u + n) u)) /\ procs (kp k) !! p = Some pr /\ write_back pr k k' /\ coupled k' pr (x_mem s.2).
Proof. intros Hf Hs. inversion Hs as [? ? i' n' pr k' Hf'|? ? ? ? Hf'|? ? ? ? ? ? ? Hf']; subst; rewrite Hf in Hf'; [|discriminate|discriminate]. injection Hf' as <- <-. by exists pr, k'. Qed.

(** The process at address [pc] of its code, with stack pointer [sp]. *)
Record in_init (c : nat) (pr : proc) (k : kern) (u : xcpu) (pc sp : Z) : Prop := {
  ii_code : bytes_at (x_mem u) 0 init_bytes; ii_pc : x_eip u = pc; ii_sp : esp u = sp; ii_run : running k c p; ii_proc : procs (kp k) !! p = Some pr; ii_mem : coupled k pr (x_mem u) }.

Lemma init_fetch c pr k u pc sp i n : in_init c pr k u pc sp -> decode (byte_of 0 init_bytes) pc = Some (i, n) -> 0 <= pc -> pc + n <= 44 -> fetch u = Some (i, n).
Proof. intros [Hb Hpc _ _ _ _] Hd H0 Hn. unfold fetch. rewrite Hpc. apply (decode_at _ _ _ _ _ _ Hb Hd); [lia|exact Hn]. Qed.

Lemma init_push c pr k u pc sp v n s : in_init c pr k u pc sp -> decode (byte_of 0 init_bytes) pc = Some (Plain (Pushl_imm v), n) -> 0 <= pc -> pc + n <= 44 -> 48 <= sp -> ustep p j vec (k, u) s ->
  in_init c pr s.1 s.2 (pc + n) (sp - 4) /\ x_mem s.2 = st (x_mem u) (sp - 4) v /\ (x_seg s.2 = x_seg u /\ kf s.1 = kf k).
Proof.
  intros Hi Hd H0 Hn Hsp Hs. pose proof (init_fetch _ _ _ _ _ _ _ _ Hi Hd H0 Hn) as Hf. destruct Hi as [Hb Hpc Hse Hr Hp Hm]. destruct (plain_step k u _ _ s Hf Hs) as (pr' & k' & -> & Hp' & Hw & Hc). rewrite Hp in Hp'. injection Hp' as <-.
  destruct (write_back_keeps _ _ _ c Hw) as [Ek Hr']. cbn [fst snd] in *.
  assert (Em : x_mem (exec1 (Pushl_imm v) (jump (x_eip u + n) u)) = st (x_mem u) (sp - 4) v) by (rewrite <- Hse; done). rewrite Em in Hc.
  split; [|split; [exact Em|split; [done|exact (write_back_files _ _ _ Hw)]]]. split; [rewrite Em; apply bytes_at_st; [exact Hb|change (Z.of_nat (length init_bytes)) with 44; lia]|rewrite <- Hpc; done|rewrite <- Hse; done|by apply Hr'|by rewrite Ek|by rewrite Em].
Qed.

Lemma init_movl c pr k u pc sp v n s : in_init c pr k u pc sp -> decode (byte_of 0 init_bytes) pc = Some (Plain (Movl_imm v EAX), n) -> 0 <= pc -> pc + n <= 44 -> ustep p j vec (k, u) s ->
  in_init c pr s.1 s.2 (pc + n) sp /\ x_mem s.2 = x_mem u /\ x_reg s.2 EAX = v /\ (x_seg s.2 = x_seg u /\ kf s.1 = kf k).
Proof.
  intros Hi Hd H0 Hn Hs. pose proof (init_fetch _ _ _ _ _ _ _ _ Hi Hd H0 Hn) as Hf. destruct Hi as [Hb Hpc Hse Hr Hp Hm]. destruct (plain_step k u _ _ s Hf Hs) as (pr' & k' & -> & Hp' & Hw & Hc). rewrite Hp in Hp'. injection Hp' as <-.
  destruct (write_back_keeps _ _ _ c Hw) as [Ek Hr']. cbn [fst snd] in *. split; [|split; [done|split; [done|split; [done|exact (write_back_files _ _ _ Hw)]]]]. split; [exact Hb|rewrite <- Hpc; done|exact Hse|by apply Hr'|by rewrite Ek|exact Hc].
Qed.

Lemma nsteps_first {A} (R : relation A) n x z : nsteps R (S n) x z -> exists y, R x y /\ nsteps R n y z.
Proof. inversion 1; subst. by eexists. Qed.

(** The code up to the first system call. *)
Lemma init_start c pr k u k4 u4 : in_init c pr k u 0 PGSIZE -> nsteps (ustep p j vec) 4 (k, u) (k4, u4) ->
  in_init c pr k4 u4 17 (PGSIZE - 12) /\ x_reg u4 EAX = SYS_exec /\ (x_seg u4 = x_seg u /\ kf k4 = kf k) /\ ld (x_mem u4) (PGSIZE - 8) = 28 /\ ld (x_mem u4) (PGSIZE - 4) = 36.
Proof.
  intros Hi Hs. destruct init_listing as (_ & D0 & D5 & D10 & D12 & _). cbv zeta in *.
  apply nsteps_first in Hs as ([k1 u1] & S1 & Hs). destruct (init_push _ _ _ _ _ _ _ _ _ Hi D0 ltac:(lia) ltac:(lia) ltac:(unfold PGSIZE; lia) S1) as (I1 & M1 & G1 & K1). cbn [fst snd] in *.
  apply nsteps_first in Hs as ([k2 u2] & S2 & Hs). destruct (init_push _ _ _ _ _ _ _ _ _ I1 D5 ltac:(lia) ltac:(lia) ltac:(unfold PGSIZE; lia) S2) as (I2 & M2 & G2 & K2). cbn [fst snd] in *.
  apply nsteps_first in Hs as ([k3 u3] & S3 & Hs). destruct (init_push _ _ _ _ _ _ _ _ _ I2 D10 ltac:(lia) ltac:(lia) ltac:(unfold PGSIZE; lia) S3) as (I3 & M3 & G3 & K3). cbn [fst snd] in *.
  apply nsteps_first in Hs as (s4 & S4 & Hs). assert (s4 = (k4, u4)) as -> by (by inversion Hs). destruct (init_movl _ _ _ _ _ _ _ _ _ I3 D12 ltac:(lia) ltac:(lia) S4) as (I4 & M4 & E4 & G4 & K4). cbn [fst snd] in *.
  replace (PGSIZE - 12) with (PGSIZE - 4 - 4 - 4) by lia. split; [exact I4|]. split; [exact E4|]. split; [by rewrite G4, G3, G2, G1, K4, K3, K2, K1|]. rewrite M4, M3, M2, M1. split; lds; done.
Qed.

(** The frame with which the kernel is entered at [int] in state [u]. *)
Definition init_frame (pr : proc) (u : xcpu) : trapframe := int_frame pr (jump (x_eip u + 2) u).

(** [trap] on the first system call of the process. *)
Lemma init_trap c pr k u : in_init c pr k u 17 (PGSIZE - 12) -> x_reg u EAX = SYS_exec -> ld (x_mem u) (PGSIZE - 8) = 28 -> ld (x_mem u) (PGSIZE - 4) = 36 -> p_killed pr = 0 -> p_sz pr = PGSIZE ->
  let k1 := upd_k p (set_p_tfr (init_frame pr u)) (touched c k) in
  trap j (init_frame pr u) k = (r ← exec stack init_path [init_path]; syscall_return p r;; killed_exit) k1.
Proof.
  intros [Hb Hpc Hsp Hr Hp Hm] Ea E1 E2 Hk Hsz. cbv zeta. set (tf := init_frame pr u). set (k1 := upd_k p (set_p_tfr tf) (touched c k)).
  assert (Hr1 : running k1 c p) by (by apply running_touched). assert (Ht : touched c k1 = k1) by (unfold k1; by rewrite touched_upd, touched_touched). assert (Hp1 : procs (kp k1) !! p = Some (set_p_tfr tf pr)) by (by apply upd_lookup).
  destruct (init_data (x_mem u) (set_p_tfr tf pr) Hb Hsz) as [Hpath Hargv]. assert (Esp : tf_esp tf = PGSIZE - 12) by exact Hsp.
  assert (Hx : sys_exec stack k1 = exec stack init_path [init_path] k1). { apply (sys_exec_at k1 c p (set_p_tfr tf pr) (x_mem u) Hr1 Hp1 Hm ltac:(cbn; rewrite Hsz; done) Ht stack init_path 36 28 [28] [init_path]); cbn [p_tfr set_p_tfr p_sz]; rewrite ?Esp, ?Hsz; try done; [by constructor|]. change (1 < 32)%nat. lia. }
  unfold trap. change (tf_trapno tf =? T_SYSCALL) with true. cbv iota. unfold trap_syscall. mstep (killed_exit_run p k c pr Hr Hp Hk). mstep (curproc_run _ c p pr (running_touched k c p Hr) Hp). cbn beta iota. rewrite touched_touched. mstep (updp_run p pr (set_p_tfr tf) (touched c k) Hp). fold k1.
  rewrite bind_run. unfold syscall at 1. mstep (curproc_run k1 c p (set_p_tfr tf pr) Hr1 Hp1). cbn beta iota zeta. rewrite Ht. cbn [p_tfr set_p_tfr]. change (tf_eax tf) with (x_reg u EAX). rewrite Ea. change (zget (syscalls j) (i32 SYS_exec)) with (Some (Some (sys_exec stack))). change (0 <? i32 SYS_exec) with true. cbv iota.
  rewrite bind_run, Hx. rewrite bind_run. destruct (exec stack init_path [init_path] k1); [|done..]. by rewrite bind_run.
Qed.

(** The stores have a place to go to. *)
Lemma init_push_step c pr k u pc sp v n pg : in_init c pr k u pc sp -> decode (byte_of 0 init_bytes) pc = Some (Plain (Pushl_imm v), n) -> 0 <= pc -> pc + n <= 44 -> 48 <= sp <= PGSIZE -> sp mod 4 = 0 ->
  one_page (mem (km k)) (p_pgdir pr) pg -> p_sz pr = PGSIZE -> exists k' u', ustep p j vec (k, u) (k', u') /\ one_page (mem (km k')) (p_pgdir pr) pg.
Proof.
  intros Hi Hd H0 Hn Hsp Ha Ho Hs. pose proof (init_fetch _ _ _ _ _ _ _ _ Hi Hd H0 Hn) as Hf. destruct Hi as [Hb Hpc Hse Hr Hp Hm].
  assert (Ha4 : (sp - 4) mod 4 = 0) by (replace (sp - 4) with (sp + (-1) * 4) by lia; by rewrite Z.mod_add by lia).
  destruct (store_coupled k pr (x_mem u) pg (sp - 4) v Ho Hm Hs ltac:(lia) Ha4) as (W & C & O). eexists _, _. split; [|exact O]. apply (us_plain p j vec k u (Pushl_imm v) n pr); [exact Hf|exact Hp|exact W|]. assert (Em : x_mem (exec1 (Pushl_imm v) (jump (x_eip u + n) u)) = st (x_mem u) (sp - 4) v) by (rewrite <- Hse; done). by rewrite Em.
Qed.

Lemma init_movl_step c pr k u pc sp v n : in_init c pr k u pc sp -> decode (byte_of 0 init_bytes) pc = Some (Plain (Movl_imm v EAX), n) -> 0 <= pc -> pc + n <= 44 -> exists u', ustep p j vec (k, u) (k, u').
Proof.
  intros Hi Hd H0 Hn. pose proof (init_fetch _ _ _ _ _ _ _ _ Hi Hd H0 Hn) as Hf. destruct Hi as [Hb Hpc Hse Hr Hp Hm]. eexists. apply (us_plain p j vec k u (Movl_imm v EAX) n pr k); [exact Hf|exact Hp|apply write_back_refl|exact Hm].
Qed.

Lemma init_runs c pr k u pg : in_init c pr k u 0 PGSIZE -> one_page (mem (km k)) (p_pgdir pr) pg -> p_sz pr = PGSIZE -> exists k4 u4, nsteps (ustep p j vec) 4 (k, u) (k4, u4).
Proof.
  intros Hi Ho Hs. destruct init_listing as (_ & D0 & D5 & D10 & D12 & _). cbv zeta in *. unfold PGSIZE in Hi.
  destruct (init_push_step _ _ _ _ _ _ _ _ pg Hi D0 ltac:(lia) ltac:(lia) ltac:(unfold PGSIZE; lia) eq_refl Ho Hs) as (k1 & u1 & S1 & O1). destruct (init_push _ _ _ _ _ _ _ _ _ Hi D0 ltac:(lia) ltac:(lia) ltac:(lia) S1) as (I1 & _).
  destruct (init_push_step _ _ _ _ _ _ _ _ pg I1 D5 ltac:(lia) ltac:(lia) ltac:(unfold PGSIZE; lia) eq_refl O1 Hs) as (k2 & u2 & S2 & O2). destruct (init_push _ _ _ _ _ _ _ _ _ I1 D5 ltac:(lia) ltac:(lia) ltac:(lia) S2) as (I2 & _).
  destruct (init_push_step _ _ _ _ _ _ _ _ pg I2 D10 ltac:(lia) ltac:(lia) ltac:(unfold PGSIZE; lia) eq_refl O2 Hs) as (k3 & u3 & S3 & O3). destruct (init_push _ _ _ _ _ _ _ _ _ I2 D10 ltac:(lia) ltac:(lia) ltac:(lia) S3) as (I3 & _).
  destruct (init_movl_step _ _ _ _ _ _ _ _ I3 D12 ltac:(lia) ltac:(lia)) as (u4 & S4). exists k3, u4. by repeat (eapply nsteps_l; [eassumption|]); apply nsteps_O.
Qed.
End run.

(** ** Properties *)

(** The first process executes [/init].  A process in the frame that [userinit]
    gives it, with the assembled initcode.S in its page, comes to its first system call
    after four instructions, and there [trap] runs [exec] with the path and the one
    argument [/init], read from the process's memory.  Behind the call, where the process
    is only if that has failed, it calls [exit], and if that returned it would do so
    again. *)
Theorem initcode_execs {Dsw : Devsw} {Dev : Devices fio} {Img : Image} stack p j vec (k : kern) u c pr pg :
  let code := assemble 0 initcode_S in let step := @ustep fio kernel_files Img (kernel_file_syscalls stack) Dev p j vec in
  in_frame u init_tf -> bytes_at (x_mem u) 0 code -> running k c p -> procs (kp k) !! p = Some pr -> p_killed pr = 0 -> p_sz pr = PGSIZE -> coupled k pr (x_mem u) -> one_page (mem (km k)) (p_pgdir pr) pg ->
  (exists k4 u4, nsteps step 4 (k, u) (k4, u4)) /\
  (forall k4 u4, nsteps step 4 (k, u) (k4, u4) -> fetch u4 = Some (Int T_SYSCALL, 2) /\
     let tf := int_frame pr (jump (x_eip u4 + 2) u4) in
     @trap fio kernel_files Img (kernel_file_syscalls stack) Dev j tf k4 =
       (r ← exec stack init_path [init_path]; syscall_return p r;; killed_exit) (upd_k p (set_p_tfr tf) (touched c k4))) /\
  (forall k5 u5 s, bytes_at (x_mem u5) 0 code -> x_eip u5 = 19 -> step (k5, u5) s -> fetch s.2 = Some (Int T_SYSCALL, 2) /\ x_reg s.2 EAX = SYS_exit /\ x_eip s.2 = 24) /\
  (forall k6 u6, bytes_at (x_mem u6) 0 code -> x_eip u6 = 24 + 2 -> step (k6, u6) (k6, jump 19 u6)).
Proof.
  intros code step Hf Hb Hr Hp Hk Hs Hc Ho. pose proof (in_frame_inv _ _ Hf) as ((E1 & E2 & _) & _). assert (Hi : in_init p c pr k u 0 PGSIZE) by done. destruct init_listing as (_ & _ & _ & _ & _ & D17 & D19 & D24 & D26). cbv zeta in *.
  split; [by apply (init_runs stack p j vec c pr k u pg)|]. split; [|split].
  - intros k4 u4 Hn. destruct (init_start stack p j vec c pr k u k4 u4 Hi Hn) as (I4 & Ea & _ & A1 & A2). split; [by apply (init_fetch p c pr k4 u4 17 (PGSIZE - 12))|]. by apply (init_trap stack p j c pr k4 u4).
  - intros k5 u5 s Hb5 He Hstep. assert (Hf5 : fetch u5 = Some (Plain (Movl_imm SYS_exit EAX), 5)) by (unfold fetch; rewrite He; by apply (decode_at _ 0 init_bytes)). destruct (plain_step stack p j vec k5 u5 _ _ s Hf5 Hstep) as (pr' & k' & -> & _).
    assert (E24 : x_eip (exec1 (Movl_imm SYS_exit EAX) (jump (x_eip u5 + 5) u5)) = 24) by (rewrite He; done). split; [|done]. unfold fetch. cbn [snd]. rewrite E24. by apply (decode_at _ 0 init_bytes).
  - intros k6 u6 Hb6 He. apply (us_jmp p j vec k6 u6 19 2). unfold fetch. rewrite He. by apply (decode_at _ 0 init_bytes).
Qed.

(** ** Example: the page table of ArgsSpec.v with initcode in the page *)

Definition init_proc : proc := set_p_sz PGSIZE (set_p_tfr init_tf (wit_proc RUNNING)).
Definition init_kst (f : fstate) : kern :=
  let k := wit_kst (Some 0%nat) (empty_rings (init_proc :: replicate 63 proc0)) 0 in
  mkkst (set_mem (fun _ => store_bytes (user_mem []) 0x80403000 (assemble 0 initcode_S)) (km k)) (kp k) (kx k) (ks k) (kg k) (mkfio f ∅) (kc k).
Definition init_user : xcpu := mkx (fun r => if reg_beq r ESP then PGSIZE else 0) (fun s => match s with CS => 0x1b | FS | GS => 0 | _ => 0x23 end) 0 FL_IF (store_bytes ∅ 0 (assemble 0 initcode_S)).
Definition init_fs : fstate := mkfs ∅ [] 0 [] [] (mklog 2 30 0 0 0 0 (replicate 30 0)) (mksb 0 0 0 0 0 0 0) [] [] 1 0.
Definition init_devices : Devices fio := {| ideintr := mret tt; kbdintr := mret tt; uartintr := mret tt; lapiceoi := mret tt |}.

Lemma initcode_execs_witness : exists k4 u4,
  nsteps (@ustep fio (@kernel_files no_devices) wit_image (@kernel_file_syscalls no_devices []) init_devices 0 wit_junk 0x80105000) 4 (init_kst init_fs, init_user) (k4, u4) /\ fetch u4 = Some (Int T_SYSCALL, 2).
Proof.
  destruct (@initcode_execs no_devices init_devices wit_image [] 0 wit_junk 0x80105000 (init_kst init_fs) init_user 0 init_proc 0x80403000) as ((k4 & u4 & Hn) & Hx & _).
  - reflexivity.
  - intros i b Hi. do 44 (destruct i as [|i]; [injection Hi as <-; vm_compute; reflexivity|]). done.
  - exact (user_running []).
  - reflexivity.
  - reflexivity.
  - reflexivity.
  - apply coupled_check. vm_compute. reflexivity.
  - split; vm_compute; (congruence || (left; reflexivity) || (right; congruence)).
  - exists k4, u4. split; [exact Hn|]. exact (proj1 (Hx k4 u4 Hn)).
Defined.
