(* ===== verification/Frames.v ===== *)
(** * What operations leave alone

    [leaves π m]: an operation [m] that returns does not change [π] of the
    state.  The property is compositional, and the hints in [frames] with the
    tactic [leave] prove it for the code of bio.c, log.c and fs.c with the file
    table for [π], and for the calls of the kernel on the process table with
    the descriptor tables for [π]. *)

From Stdlib Require Import ZArith Lia.
From stdpp Require Import base numbers strings gmap list.
From S2P Require Import Prelude.
From S2P Require Import Machine.
From S2P Require Import Spinlock.
From S2P Require Import Kalloc.
From S2P Require Import Vm.
From S2P Require Import KState.
From S2P Require Import PQueue.
From S2P Require Import Proc.
From S2P Require Import Args.
From S2P Require Import Pipe.
From S2P Require Import FState.
From S2P Require Import Bio.
From S2P Require Import Log.
From S2P Require Import Fs.
From S2P Require Import File.
From S2P Require Import Sysfile.

Local Open Scope string_scope.
Local Open Scope list_scope.
Local Open Scope Z_scope.

Definition leaves {S A B} (π : S -> B) (m : M S A) : Prop := forall s a s', m s = Ret a s' -> π s' = π s.

Create HintDb frames.

Section leaves.
Context {S B : Type} (π : S -> B).

Lemma leaves_bind {A C} (m : M S A) (k : A -> M S C) : leaves π m -> (forall a, leaves π (k a)) -> leaves π (m ≫= k).
Proof.
  intros Hm Hk s c s' H. rewrite bind_run in H. destruct (m s) as [a s1| | |] eqn:E; try done. by rewrite (Hk _ _ _ _ H), (Hm _ _ _ E).
Qed.
Lemma leaves_mret {A} (a : A) : leaves π (mret a).
Proof. intros s b s' H. by injection H as _ <-. Qed.
Lemma leaves_panic {A} msg : leaves π (panic msg : M S A).
Proof. done. Qed.
Lemma leaves_fault {A} msg : leaves π (fault msg : M S A).
Proof. done. Qed.
Lemma leaves_stall {A} w : leaves π (stall w : M S A).
Proof. done. Qed.
Lemma leaves_get : leaves π get.
Proof. intros s b s' H. by injection H as _ <-. Qed.
Lemma leaves_gets {A} (f : S -> A) : leaves π (gets f).
Proof. intros s b s' H. by injection H as _ <-. Qed.
Lemma leaves_modify f : (forall s, π (f s) = π s) -> leaves π (modify f).
Proof. intros Hf s b s' H. injection H as <- <-. apply Hf. Qed.
Lemma leaves_unless b msg : leaves π (unless_panic b msg).
Proof. intros s a s' H. unfold unless_panic in H. destruct b; [done|]. by injection H as _ <-. Qed.
Lemma leaves_of_option {A} why (o : option A) : leaves π (of_option why o).
Proof. intros s a s' H. unfold of_option in H. destruct o; [|done]. by injection H as _ <-. Qed.
Lemma leaves_each {A} (l : list A) f : (forall x, leaves π (f x)) -> leaves π (each l f).
Proof. intros Hf. induction l as [|x l IH]; simpl; [apply leaves_mret|]. by apply leaves_bind. Qed.
Lemma leaves_zoom {T A} (sel : S -> T) (upd : T -> S -> S) (m : M T A) :
  (forall s a t, m (sel s) = Ret a t -> π (upd t s) = π s) -> leaves π (zoom sel upd m).
Proof. intros H s a s' Hr. unfold zoom in Hr. destruct (m (sel s)) eqn:E; try done. injection Hr as -> <-. by eapply H. Qed.
End leaves.

#[export] Hint Resolve leaves_mret leaves_panic leaves_fault leaves_stall leaves_get leaves_gets leaves_unless leaves_of_option : frames.

Ltac leave :=
  repeat first
    [ progress intros
    | solve [eauto 5 with frames typeclass_instances]
    | apply leaves_bind
    | apply leaves_each
    | apply leaves_modify; [intros; reflexivity]
    | match goal with
      | |- leaves _ (if ?b then _ else _) => destruct b
      | |- leaves _ (match ?x with _ => _ end) => destruct x
      | |- leaves _ (let _ := _ in _) => cbv zeta
      end ].

(** ** The file table and the file system *)

Abbreviation keeps_files := (leaves f_files).

Lemma updb_files i f : keeps_files (updb i f).
Proof. apply leaves_modify. done. Qed.
Lemma updi_files i f : keeps_files (updi i f).
Proof. apply leaves_modify. done. Qed.
Lemma updlog_files f : keeps_files (updlog f).
Proof. apply leaves_modify. done. Qed.
#[export] Hint Resolve updb_files updi_files updlog_files : frames.
Lemma getb_files i : keeps_files (getb i).
Proof. unfold getb. leave. Qed.
Lemma geti_files i : keeps_files (geti i).
Proof. unfold geti. leave. Qed.
#[export] Hint Resolve getb_files geti_files : frames.
Lemma getlk_files l : keeps_files (getlk l).
Proof. unfold getlk. leave. Qed.
Lemma setlk_files l x : keeps_files (setlk l x).
Proof. unfold setlk. leave. Qed.
#[export] Hint Resolve getlk_files setlk_files : frames.
Lemma acquiresleep_files l : keeps_files (acquiresleep l).
Proof. unfold acquiresleep. leave. Qed.
Lemma releasesleep_files l : keeps_files (releasesleep l).
Proof. unfold releasesleep. leave. Qed.
Lemma holdingsleep_files l : keeps_files (holdingsleep l).
Proof. unfold holdingsleep. leave. Qed.
#[export] Hint Resolve acquiresleep_files releasesleep_files holdingsleep_files : frames.
Lemma iderw_files i : keeps_files (iderw i).
Proof. unfold iderw. leave. Qed.
#[export] Hint Resolve iderw_files : frames.
Lemma bget_files dev b : keeps_files (bget dev b).
Proof. unfold bget. leave. Qed.
#[export] Hint Resolve bget_files : frames.
Lemma bread_files dev b : keeps_files (bread dev b).
Proof. unfold bread. leave. Qed.
Lemma bwrite_files i : keeps_files (bwrite i).
Proof. unfold bwrite. leave. Qed.
Lemma brelse_files i : keeps_files (brelse i).
Proof. unfold brelse. leave. Qed.
Lemma bdata_files i : keeps_files (bdata i).
Proof. unfold bdata. leave. Qed.
Lemma set_bdata_files i d : keeps_files (set_bdata i d).
Proof. unfold set_bdata. leave. Qed.
#[export] Hint Resolve bread_files bwrite_files brelse_files bdata_files set_bdata_files : frames.

(** log.c *)
Lemma install_loop_files n tail : keeps_files (install_loop n tail).
Proof. revert tail. induction n; intros; cbn [install_loop]; leave. Qed.
#[export] Hint Resolve install_loop_files : frames.
Lemma write_log_loop_files n tail : keeps_files (write_log_loop n tail).
Proof. revert tail. induction n; intros; cbn [write_log_loop]; leave. Qed.
#[export] Hint Resolve write_log_loop_files : frames.
Lemma install_trans_files : keeps_files (install_trans).
Proof. unfold install_trans. leave. Qed.
Lemma write_log_files : keeps_files (write_log).
Proof. unfold write_log. leave. Qed.
Lemma write_head_files : keeps_files (write_head).
Proof. unfold write_head. leave. Qed.
#[export] Hint Resolve install_trans_files write_log_files write_head_files : frames.
Lemma commit_files : keeps_files (commit).
Proof. unfold commit. leave. Qed.
#[export] Hint Resolve commit_files : frames.
Lemma begin_op_files : keeps_files (begin_op).
Proof. unfold begin_op. leave. Qed.
Lemma end_op_files : keeps_files (end_op).
Proof. unfold end_op. leave. Qed.
Lemma log_write_files i : keeps_files (log_write i).
Proof. unfold log_write. leave. Qed.
Lemma readsb_files dev : keeps_files (readsb dev).
Proof. unfold readsb. leave. Qed.
#[export] Hint Resolve begin_op_files end_op_files log_write_files readsb_files : frames.

(** fs.c *)
Lemma bzero_files dev bno : keeps_files (bzero dev bno).
Proof. unfold bzero. leave. Qed.
#[export] Hint Resolve bzero_files : frames.
Lemma balloc_loop_files n dev b : keeps_files (balloc_loop n dev b).
Proof. revert dev b. induction n; intros; cbn [balloc_loop]; leave. Qed.
#[export] Hint Resolve balloc_loop_files : frames.
Lemma balloc_files dev : keeps_files (balloc dev).
Proof. unfold balloc. leave. Qed.
Lemma bfree_files dev b : keeps_files (bfree dev b).
Proof. unfold bfree. leave. Qed.
Lemma iget_files dev inum : keeps_files (iget dev inum).
Proof. unfold iget. leave. Qed.
Lemma idup_files ip : keeps_files (idup ip).
Proof. unfold idup. leave. Qed.
Lemma iupdate_files ip : keeps_files (iupdate ip).
Proof. unfold iupdate. leave. Qed.
Lemma ilock_files ip : keeps_files (ilock ip).
Proof. unfold ilock. leave. Qed.
Lemma iunlock_files ip : keeps_files (iunlock ip).
Proof. unfold iunlock. leave. Qed.
#[export] Hint Resolve balloc_files bfree_files iget_files idup_files iupdate_files ilock_files iunlock_files : frames.
Lemma ialloc_loop_files n dev inum type : keeps_files (ialloc_loop n dev inum type).
Proof. revert dev inum type. induction n; intros; cbn [ialloc_loop]; leave. Qed.
#[export] Hint Resolve ialloc_loop_files : frames.
Lemma ialloc_files dev type : keeps_files (ialloc dev type).
Proof. unfold ialloc. leave. Qed.
#[export] Hint Resolve ialloc_files : frames.
Lemma itrunc_direct_files n i ip : keeps_files (itrunc_direct n i ip).
Proof. revert i ip. induction n; intros; cbn [itrunc_direct]; leave. Qed.
#[export] Hint Resolve itrunc_direct_files : frames.
Lemma itrunc_indirect_files n j dev bp : keeps_files (itrunc_indirect n j dev bp).
Proof. revert j dev bp. induction n; intros; cbn [itrunc_indirect]; leave. Qed.
#[export] Hint Resolve itrunc_indirect_files : frames.
Lemma itrunc_files ip : keeps_files (itrunc ip).
Proof. unfold itrunc. leave. Qed.
#[export] Hint Resolve itrunc_files : frames.
Lemma iput_files ip : keeps_files (iput ip).
Proof. unfold iput. leave. Qed.
#[export] Hint Resolve iput_files : frames.
Lemma iunlockput_files ip : keeps_files (iunlockput ip).
Proof. unfold iunlockput. leave. Qed.
Lemma bmap_files ip bn : keeps_files (bmap ip bn).
Proof. unfold bmap. leave. Qed.
#[export] Hint Resolve iunlockput_files bmap_files : frames.

(** A device's functions do not use the file table. *)
Class DevswFiles `{Devsw} : Prop := {
  dev_read_files : forall d f ip n, dev_read d = Some f -> keeps_files (f ip n);
  dev_write_files : forall d f ip src n, dev_write d = Some f -> keeps_files (f ip src n) }.

Section devices.
Context `{DW : Devsw} `{!DevswFiles} (stack : list Z).

Lemma readi_loop_files fuel ip off n tot acc : keeps_files (readi_loop fuel ip off n tot acc).
Proof. revert ip off n tot acc. induction fuel; intros; cbn [readi_loop]; leave. Qed.
Hint Resolve readi_loop_files : frames.
Lemma readi_files ip off n : keeps_files (readi ip off n).
Proof.
  unfold readi. apply leaves_bind; [leave|]. intros x. destruct (i_type x =? T_DEV); [|leave].
  destruct ((i_major x <? 0) || (NDEV <=? i_major x)); [leave|]. destruct (dev_read (i_major x)) eqn:E; [by eapply dev_read_files|leave].
Qed.
Hint Resolve readi_files : frames.
Lemma writei_loop_files fuel ip src off n tot : keeps_files (writei_loop fuel ip src off n tot).
Proof. revert ip src off n tot. induction fuel; intros; cbn [writei_loop]; leave. Qed.
Hint Resolve writei_loop_files : frames.
Lemma writei_files ip src off n : keeps_files (writei ip src off n).
Proof.
  unfold writei. apply leaves_bind; [leave|]. intros x. destruct (i_type x =? T_DEV); [|leave].
  destruct ((i_major x <? 0) || (NDEV <=? i_major x)); [leave|]. destruct (dev_write (i_major x)) eqn:E; [by eapply dev_write_files|leave].
Qed.
Hint Resolve writei_files : frames.
Lemma namecmp_files s t : keeps_files (namecmp s t).
Proof. unfold namecmp. leave. Qed.
Hint Resolve namecmp_files : frames.
Lemma dirlookup_loop_files fuel dp name off : keeps_files (dirlookup_loop fuel dp name off).
Proof. revert dp name off. induction fuel; intros; cbn [dirlookup_loop]; leave. Qed.
Hint Resolve dirlookup_loop_files : frames.
Lemma dirlookup_files dp name : keeps_files (dirlookup dp name).
Proof. unfold dirlookup. leave. Qed.
Hint Resolve dirlookup_files : frames.
Lemma dirlink_loop_files fuel dp off : keeps_files (dirlink_loop fuel dp off).
Proof. revert dp off. induction fuel; intros; cbn [dirlink_loop]; leave. Qed.
Hint Resolve dirlink_loop_files : frames.
Lemma dirlink_files dp name inum : keeps_files (dirlink dp name inum).
Proof. unfold dirlink. leave. Qed.
Hint Resolve dirlink_files : frames.
Lemma namex_loop_files fuel ip path parent name : keeps_files (namex_loop fuel ip path parent name).
Proof. revert ip path parent name. induction fuel; intros; cbn [namex_loop]; leave. Qed.
Hint Resolve namex_loop_files : frames.
Lemma namex_files path parent name : keeps_files (namex path parent name).
Proof. unfold namex. leave. Qed.
Hint Resolve namex_files : frames.
Lemma namei_files path name : keeps_files (namei path name).
Proof. unfold namei. leave. Qed.
Lemma nameiparent_files path name : keeps_files (nameiparent path name).
Proof. unfold nameiparent. leave. Qed.
Hint Resolve namei_files nameiparent_files : frames.
Lemma link_bad_files ip : keeps_files (link_bad ip).
Proof. unfold link_bad. leave. Qed.
Hint Resolve link_bad_files : frames.
Lemma isdirempty_loop_files fuel dp off : keeps_files (isdirempty_loop fuel dp off).
Proof. revert dp off. induction fuel; intros; cbn [isdirempty_loop]; leave. Qed.
Hint Resolve isdirempty_loop_files : frames.
Lemma isdirempty_files dp : keeps_files (isdirempty dp).
Proof. unfold isdirempty. leave. Qed.
Lemma unlink_bad_files dp : keeps_files (unlink_bad dp).
Proof. unfold unlink_bad. leave. Qed.
Hint Resolve isdirempty_files unlink_bad_files : frames.
Lemma link_files old new : keeps_files (link stack old new).
Proof. unfold link. leave. Qed.
Lemma unlink_files path : keeps_files (unlink stack path).
Proof. unfold unlink. leave. Qed.
Lemma create_files path type major minor : keeps_files (create stack path type major minor).
Proof. unfold create. leave. Qed.
Hint Resolve create_files : frames.
Lemma open_inode_files path omode : keeps_files (open_inode stack path omode).
Proof. unfold open_inode. leave. Qed.
End devices.

#[export] Hint Resolve readi_files writei_files dirlookup_files dirlink_files namex_files namei_files nameiparent_files link_files unlink_files create_files open_inode_files : frames.

(** ** The kernel state *)

(** Which process runs on the executing CPU. *)
Definition who (h : hw) : list Z * list (option nat) * Z := (apicid <$> cpus h, cproc <$> cpus h, lapicid h).

Lemma upd_cpu_who i f : (forall c, apicid (f c) = apicid c /\ cproc (f c) = cproc c) -> leaves who (upd_cpu i f).
Proof.
  intros H. apply leaves_modify. intros h. unfold who, set_cpus. simpl. rewrite !fmap_alter_same; [done| |]; intros x; apply H.
Qed.
Lemma set_lock_who lk f : leaves who (modify (set_lock lk f)).
Proof. by apply leaves_modify. Qed.
Lemma set_ncli_who i n : leaves who (upd_cpu i (fun c => set_ncli (n c) c)).
Proof. by apply upd_cpu_who. Qed.
Lemma set_intena_who i n : leaves who (upd_cpu i (set_intena n)).
Proof. by apply upd_cpu_who. Qed.
#[export] Hint Resolve set_lock_who set_ncli_who set_intena_who : frames.
Lemma mycpu_who : leaves who mycpu.
Proof. unfold mycpu, readeflags. leave. Qed.
Lemma get_cpu_who i : leaves who (get_cpu i).
Proof. unfold get_cpu. leave. Qed.
#[export] Hint Resolve mycpu_who get_cpu_who : frames.
Lemma pushcli_who : leaves who pushcli.
Proof. unfold pushcli, readeflags, cli. leave. Qed.
Lemma popcli_who : leaves who popcli.
Proof. unfold popcli, readeflags, sti. leave. Qed.
#[export] Hint Resolve pushcli_who popcli_who : frames.

(** The process of the executing CPU. *)
Definition curp (h : hw) : option nat :=
  i ← find_first (fun c => apicid c =? lapicid h) (cpus h); c ← cpus h !! i; cproc c.

Lemma find_first_fmap {A B} (f : A -> B) (p : B -> bool) l : find_first p (f <$> l) = find_first (fun x => p (f x)) l.
Proof. induction l as [|x l IH]; simpl; [done|]. destruct (p (f x)); [done|]. by rewrite <- IH. Qed.

Lemma curp_who h h' : who h' = who h -> curp h' = curp h.
Proof.
  intros [= E1 E2 E3]. assert (Hw : forall h, curp h = (i ← find_first (fun a => a =? lapicid h) (apicid <$> cpus h); o ← (cproc <$> cpus h) !! i; o)).
  { intros g. unfold curp. rewrite find_first_fmap. destruct (find_first _ _); simpl; [|done]. rewrite list_lookup_fmap. by destruct (cpus g !! n). }
  by rewrite !Hw, E1, E2, E3.
Qed.

Lemma mycpu_ret h i h' : mycpu h = Ret i h' -> h' = h /\ find_first (fun c => apicid c =? lapicid h) (cpus h) = Some i.
Proof.
  unfold mycpu, readeflags. rewrite bind_gets. unfold unless_panic. rewrite bind_run. destruct (negb _); [done|]. rewrite bind_get.
  destruct (find_first _ _); [|done]. by intros [= -> ->].
Qed.

Section kernel.
Implicit Types k : kern.

(** The reference counts of the file table. *)
Definition fl_refs (s : fstate) : list Z := fl_ref <$> f_files s.

Lemma files_refs {A} (m : M fstate A) : keeps_files m -> leaves fl_refs m.
Proof. intros Hm s a s' H. apply Hm in H. unfold fl_refs. by rewrite H. Qed.

(** The descriptor tables, and the reference counts of the file table. *)
Definition tables (k : kern) : list (list Z) * list Z := (p_ofile <$> procs (kp k), fl_refs (fi_fs (kf k))).
Abbreviation keeps_tables := (leaves tables).

Lemma on_km_tables {A} (m : M mach A) : keeps_tables (on_km m).
Proof. by apply leaves_zoom. Qed.
Hint Resolve on_km_tables : frames.
Lemma lock_tables lk : keeps_tables (lock lk).
Proof. apply on_km_tables. Qed.
Lemma unlock_tables lk : keeps_tables (unlock lk).
Proof. apply on_km_tables. Qed.
Lemma myproc_tables : keeps_tables myproc.
Proof. apply on_km_tables. Qed.
Lemma getp_tables p : keeps_tables (getp p).
Proof. unfold getp. leave. Qed.
Lemma nonnull_tables o : keeps_tables (nonnull o).
Proof. unfold nonnull. leave. Qed.
Hint Resolve lock_tables unlock_tables myproc_tables getp_tables nonnull_tables : frames.
Lemma updp_tables p f : (forall q, p_ofile (f q) = p_ofile q) -> keeps_tables (updp p f).
Proof.
  intros Hf. unfold updp. leave. apply leaves_modify. intros k. unfold tables. simpl. by rewrite fmap_alter_same.
Qed.
Hint Extern 1 (leaves tables (updp _ _)) => apply updp_tables; intros; reflexivity : frames.
Lemma curproc_tables : keeps_tables curproc.
Proof. unfold curproc. leave. Qed.
Hint Resolve curproc_tables : frames.
Lemma on_fs_tables {A} (m : M fstate A) : leaves fl_refs m -> keeps_tables (on_fs m).
Proof.
  intros Hm. unfold on_fs. apply leaves_bind; [leave|]. intros [p pr]. apply leaves_zoom. intros k a s H. apply Hm in H.
  unfold tables. simpl in *. by rewrite H.
Qed.
Hint Resolve on_fs_tables files_refs : frames.

(** The enqueueing of a process changes the queues only. *)
Lemma pq_enqueue_procs p : leaves procs (pq_enqueue p).
Proof.
  intros t a t' H. unfold pq_enqueue in H. rewrite bind_get in H. destruct (procs t !! p) as [pr|]; [|done].
  rewrite bind_some in H. destruct (negb _); [by injection H as <- <-|].
  destruct (zget (head_tail t) _) as [[h tl]|]; [|done]. rewrite bind_some in H. destruct (tl =? _); [by injection H as <- <-|].
  destruct (zget _ _) as [row|]; [|done]. rewrite bind_some in H. destruct (zset _ (Some p) _) as [row'|]; [|done]. rewrite bind_some in H.
  destruct (zset _ _ (pqueues t)) as [q'|]; [|done]. rewrite bind_some in H. destruct (zset _ _ (head_tail t)) as [ht'|]; [|done].
  rewrite bind_some in H. by injection H as <- <-.
Qed.
Lemma enqueue_tables p : keeps_tables (on_kp (pq_enqueue p)).
Proof.
  intros k a k' H. unfold on_kp, zoom in H. destruct (pq_enqueue p (kp k)) as [b t| | |] eqn:E; try done.
  injection H as <- <-. apply pq_enqueue_procs in E. unfold tables. simpl. by rewrite E.
Qed.
Hint Resolve enqueue_tables : frames.
Lemma wakeup_tables ch : keeps_tables (wakeup ch).
Proof. unfold wakeup, wakeup1, wakeup1_at, enqueue_or_panic. leave. Qed.
Lemma getpipe_tables p : keeps_tables (getpipe p).
Proof. unfold getpipe. leave. Qed.
Lemma setpipe_tables p x : keeps_tables (setpipe p x).
Proof. by apply leaves_modify. Qed.
Lemma from_user_tables a n : keeps_tables (from_user a n).
Proof. unfold from_user. leave. Qed.
Lemma to_user_tables a bs : keeps_tables (to_user a bs).
Proof. unfold to_user. leave. Qed.
Lemma argint_tables n : keeps_tables (argint n).
Proof. unfold argint, fetchint. leave. Qed.
Hint Resolve wakeup_tables getpipe_tables setpipe_tables from_user_tables to_user_tables argint_tables : frames.
Lemma argptr_tables n m : keeps_tables (argptr n m).
Proof. unfold argptr. leave. Qed.
Lemma argstr_tables n : keeps_tables (argstr n).
Proof. unfold argstr, fetchstr. leave. Qed.
Hint Resolve argptr_tables argstr_tables : frames.
Lemma argpath_tables n : keeps_tables (argpath n).
Proof. unfold argpath. leave. Qed.
Lemma argfd_tables n : keeps_tables (argfd n).
Proof. unfold argfd. leave. Qed.
Lemma pipe_close_tables p w : keeps_tables (pipe_close p w).
Proof.
  unfold pipe_close. apply leaves_bind; [leave|]. intros x. destruct (pipeclose w x) as [[chs fr] x']. leave.
Qed.
End kernel.

#[export] Hint Resolve on_km_tables lock_tables unlock_tables myproc_tables getp_tables nonnull_tables
  curproc_tables on_fs_tables files_refs enqueue_tables wakeup_tables getpipe_tables setpipe_tables from_user_tables to_user_tables
  argint_tables argptr_tables argstr_tables argpath_tables argfd_tables pipe_close_tables : frames.
#[export] Hint Extern 1 (leaves tables (updp _ _)) => apply updp_tables; intros; reflexivity : frames.

(** ** The current process *)

Definition kcur (k : kern) : option nat := curp (mhw (km k)).

Lemma curp_ret h o h' : (pushcli;; c ← mycpu; x ← get_cpu c; popcli;; mret (cproc x)) h = Ret o h' -> o = curp h.
Proof.
  intros H. rewrite bind_run in H. destruct (pushcli h) as [u h1| | |] eqn:E; try done. apply pushcli_who, curp_who in E. rewrite <- E.
  rewrite bind_run in H. destruct (mycpu h1) as [i h2| | |] eqn:E2; try done. apply mycpu_ret in E2 as [-> E2].
  unfold curp. rewrite E2. unfold get_cpu in H. rewrite bind_assoc_run, bind_get in H. simpl. destruct (cpus h1 !! i) as [c|]; [|done].
  rewrite bind_some, bind_run in H. destruct (popcli h1) as [? h3| | |]; try done. by injection H as <- _.
Qed.

Lemma khw_cur {A} (m : M hw A) (k : kern) a k' :
  leaves who m -> khw m k = Ret a k' -> kcur k' = kcur k /\ kp k' = kp k /\ kf k' = kf k.
Proof.
  intros Hm H. unfold khw, on_km, on_hw, zoom in H. destruct (m _) as [b h| | |] eqn:E; try done. injection H as <- <-.
  apply Hm in E. split; [|done]. by apply curp_who.
Qed.

Lemma curproc_ret (k : kern) p pr k' :
  curproc k = Ret (p, pr) k' ->
  kcur k = Some p /\ kcur k' = Some p /\ procs (kp k) !! p = Some pr /\ kp k' = kp k /\ kf k' = kf k.
Proof.
  unfold curproc. rewrite bind_run. destruct (myproc k) as [o k1| | |] eqn:E; try done. intros H.
  assert (o = kcur k) as ->.
  { unfold myproc, khw, on_km, on_hw, zoom in E. destruct ((pushcli ≫= _) (mhw (km k))) as [? h| | |] eqn:E1; try done.
    apply curp_ret in E1. by injection E as <- _. }
  apply khw_cur in E as (E1 & E2 & E3); [|leave]. rewrite <- E1 in H |- *. rewrite <- E2, <- E3.
  unfold nonnull in H. destruct (kcur k1) as [q|] eqn:Ec; [|done]. rewrite bind_some in H. unfold getp in H.
  rewrite bind_assoc_run, bind_get in H. destruct (procs (kp k1) !! q) as [x|] eqn:Eq; [|done]. rewrite bind_some in H.
  injection H as <- <- <-. done.
Qed.
