(* ===== verification/FsEnd.v ===== *)
(** * The loops of fs.c and sysfile.c end

    A loop whose length the code does not bound by a constant runs on fuel, and
    ends in a fault of its own when the fuel runs out.  [ends m]: no run of [m],
    from whatever state, ends in such a fault.  Here that is shown for every
    function of fs.c and the operations of sysfile.c on names, in every state,
    so also with a file system that is damaged or malicious. *)

From Stdlib Require Import ZArith Lia.
From stdpp Require Import base numbers strings gmap list.
From S2P Require Import Prelude.
From S2P Require Import Machine.
From S2P Require Import FState.
From S2P Require Import Blocks.
From S2P Require Import Bio.
From S2P Require Import Log.
From S2P Require Import Fs.
From S2P Require Import FsPath.
From S2P Require Import Sysfile.
From S2P Require Import Frames.

Local Open Scope string_scope.
Local Open Scope list_scope.
Local Open Scope Z_scope.

(** The faults that stand for a loop that goes on. *)
Definition fuel_faults : list string :=
  ["readi: fuel"; "writei: fuel"; "dirlookup: fuel"; "dirlink: fuel"; "namex: fuel"; "isdirempty: fuel"].

Definition ends_at {S A} (m : M S A) (s : S) : Prop := forall why, m s = Fault why -> why ∉ fuel_faults.
Definition ends {S A} (m : M S A) : Prop := forall s, ends_at m s.

Create HintDb ends.

Section ends.
Context {S : Type}.

Lemma ends_bind_at {A B} (m : M S A) (k : A -> M S B) s :
  ends_at m s -> (forall a s', m s = Ret a s' -> ends_at (k a) s') -> ends_at (m ≫= k) s.
Proof.
  intros Hm Hk why H. rewrite bind_run in H. destruct (m s) as [a s'| |w|] eqn:E; [by eapply Hk|done| |done].
  injection H as ->. by apply Hm.
Qed.
Lemma fs_ends_bind {A B} (m : M S A) (k : A -> M S B) : ends m -> (forall a, ends (k a)) -> ends (m ≫= k).
Proof. intros Hm Hk s. apply ends_bind_at; [apply Hm|]. intros a s' _. apply Hk. Qed.
Lemma ends_mret {A} (a : A) : ends (mret a : M S A).
Proof. intros s why H. done. Qed.
Lemma ends_panic {A} msg : ends (panic msg : M S A).
Proof. intros s why H. done. Qed.
Lemma ends_stall {A} w : ends (stall w : M S A).
Proof. intros s why H. done. Qed.
Lemma ends_get : ends (get : M S S).
Proof. intros s why H. done. Qed.
Lemma ends_gets {A} (f : S -> A) : ends (gets f).
Proof. intros s why H. done. Qed.
Lemma ends_modify (f : S -> S) : ends (modify f).
Proof. intros s why H. done. Qed.
Lemma fs_ends_unless b msg : ends (unless_panic b msg : M S unit).
Proof. intros s why H. unfold unless_panic in H. by destruct b. Qed.
Lemma ends_of_option {A} why (o : option A) : bool_decide (why ∈ fuel_faults) = false -> ends (of_option why o : M S A).
Proof. intros Hw s w H. unfold of_option in H. destruct o; [done|]. injection H as <-. by apply bool_decide_eq_false in Hw. Qed.
End ends.

#[export] Hint Resolve ends_mret ends_panic ends_stall ends_get ends_gets ends_modify fs_ends_unless : ends.

Ltac ending :=
  repeat first
    [ progress intros
    | solve [eauto 4 with ends]
    | apply fs_ends_bind
    | apply ends_of_option; reflexivity
    | match goal with
      | |- ends (if ?b then _ else _) => destruct b
      | |- ends (match ?x with _ => _ end) => destruct x
      | |- ends (let _ := _ in _) => cbv zeta
      end ].

(** ** Code without such loops *)

Lemma getb_ends i : ends (getb i).
Proof. unfold getb. ending. Qed.
Lemma updb_ends i f : ends (updb i f).
Proof. unfold updb. ending. Qed.
Lemma geti_ends i : ends (geti i).
Proof. unfold geti. ending. Qed.
Lemma updi_ends i f : ends (updi i f).
Proof. unfold updi. ending. Qed.
Lemma updlog_ends f : ends (updlog f).
Proof. unfold updlog. ending. Qed.
#[export] Hint Resolve getb_ends updb_ends geti_ends updi_ends updlog_ends : ends.
Lemma getlk_ends l : ends (getlk l).
Proof. unfold getlk. ending. Qed.
Lemma setlk_ends l x : ends (setlk l x).
Proof. unfold setlk. ending. Qed.
#[export] Hint Resolve getlk_ends setlk_ends : ends.
Lemma acquiresleep_ends l : ends (acquiresleep l).
Proof. unfold acquiresleep. ending. Qed.
Lemma releasesleep_ends l : ends (releasesleep l).
Proof. unfold releasesleep. ending. Qed.
Lemma holdingsleep_ends l : ends (holdingsleep l).
Proof. unfold holdingsleep. ending. Qed.
#[export] Hint Resolve acquiresleep_ends releasesleep_ends holdingsleep_ends : ends.
Lemma iderw_ends i : ends (iderw i).
Proof. unfold iderw. ending. Qed.
#[export] Hint Resolve iderw_ends : ends.
Lemma bget_ends dev b : ends (bget dev b).
Proof. unfold bget. ending. Qed.
#[export] Hint Resolve bget_ends : ends.
Lemma bread_ends dev b : ends (bread dev b).
Proof. unfold bread. ending. Qed.
Lemma bwrite_ends i : ends (bwrite i).
Proof. unfold bwrite. ending. Qed.
Lemma brelse_ends i : ends (brelse i).
Proof. unfold brelse. ending. Qed.
Lemma bdata_ends i : ends (bdata i).
Proof. unfold bdata. ending. Qed.
Lemma set_bdata_ends i d : ends (set_bdata i d).
Proof. unfold set_bdata. ending. Qed.
#[export] Hint Resolve bread_ends bwrite_ends brelse_ends bdata_ends set_bdata_ends : ends.
Lemma install_loop_ends n tail : ends (install_loop n tail).
Proof. revert tail. induction n; intros; cbn [install_loop]; ending. Qed.
Lemma write_log_loop_ends n tail : ends (write_log_loop n tail).
Proof. revert tail. induction n; intros; cbn [write_log_loop]; ending. Qed.
#[export] Hint Resolve install_loop_ends write_log_loop_ends : ends.
Lemma install_trans_ends : ends install_trans.
Proof. unfold install_trans. ending. Qed.
Lemma write_log_ends : ends write_log.
Proof. unfold write_log. ending. Qed.
Lemma write_head_ends : ends write_head.
Proof. unfold write_head. ending. Qed.
#[export] Hint Resolve install_trans_ends write_log_ends write_head_ends : ends.
Lemma commit_ends : ends commit.
Proof. unfold commit. ending. Qed.
#[export] Hint Resolve commit_ends : ends.
Lemma begin_op_ends : ends begin_op.
Proof. unfold begin_op. ending. Qed.
Lemma end_op_ends : ends end_op.
Proof. unfold end_op. ending. Qed.
Lemma log_write_ends i : ends (log_write i).
Proof. unfold log_write. ending. Qed.
Lemma readsb_ends dev : ends (readsb dev).
Proof. unfold readsb. ending. Qed.
#[export] Hint Resolve begin_op_ends end_op_ends log_write_ends readsb_ends : ends.
Lemma bzero_ends dev bno : ends (bzero dev bno).
Proof. unfold bzero. ending. Qed.
#[export] Hint Resolve bzero_ends : ends.
Lemma balloc_loop_ends n dev b : ends (balloc_loop n dev b).
Proof. revert dev b. induction n; intros; cbn [balloc_loop]; ending. Qed.
#[export] Hint Resolve balloc_loop_ends : ends.
Lemma balloc_ends dev : ends (balloc dev).
Proof. unfold balloc. ending. Qed.
Lemma bfree_ends dev b : ends (bfree dev b).
Proof. unfold bfree. ending. Qed.
Lemma iget_ends dev inum : ends (iget dev inum).
Proof. unfold iget. ending. Qed.
Lemma idup_ends ip : ends (idup ip).
Proof. unfold idup. ending. Qed.
Lemma iupdate_ends ip : ends (iupdate ip).
Proof. unfold iupdate. ending. Qed.
Lemma ilock_ends ip : ends (ilock ip).
Proof. unfold ilock. ending. Qed.
Lemma iunlock_ends ip : ends (iunlock ip).
Proof. unfold iunlock. ending. Qed.
#[export] Hint Resolve balloc_ends bfree_ends iget_ends idup_ends iupdate_ends ilock_ends iunlock_ends : ends.
Lemma ialloc_loop_ends n dev inum type : ends (ialloc_loop n dev inum type).
Proof. revert dev inum type. induction n; intros; cbn [ialloc_loop]; ending. Qed.
#[export] Hint Resolve ialloc_loop_ends : ends.
Lemma ialloc_ends dev type : ends (ialloc dev type).
Proof. unfold ialloc. ending. Qed.
Lemma itrunc_direct_ends n i ip : ends (itrunc_direct n i ip).
Proof. revert i ip. induction n; intros; cbn [itrunc_direct]; ending. Qed.
Lemma itrunc_indirect_ends n j dev bp : ends (itrunc_indirect n j dev bp).
Proof. revert j dev bp. induction n; intros; cbn [itrunc_indirect]; ending. Qed.
#[export] Hint Resolve ialloc_ends itrunc_direct_ends itrunc_indirect_ends : ends.
Lemma itrunc_ends ip : ends (itrunc ip).
Proof. unfold itrunc. ending. Qed.
#[export] Hint Resolve itrunc_ends : ends.
Lemma iput_ends ip : ends (iput ip).
Proof. unfold iput. ending. Qed.
#[export] Hint Resolve iput_ends : ends.
Lemma iunlockput_ends ip : ends (iunlockput ip).
Proof. unfold iunlockput. ending. Qed.
Lemma bmap_ends ip bn : ends (bmap ip bn).
Proof. unfold bmap. ending. Qed.
Lemma namecmp_ends s t : ends (namecmp s t).
Proof. unfold namecmp. ending. Qed.
#[export] Hint Resolve iunlockput_ends bmap_ends namecmp_ends : ends.

(** ** The size and the type of an inode while its content is read *)

Definition shape (dp : nat) (s : fstate) : option (Z * Z) := (fun x => (i_size x, i_type x)) <$> f_inodes s !! dp.

Section shape.
Context (dp : nat).
Abbreviation keeps_shape := (leaves (shape dp)).

Lemma updi_shape i f : (forall x, i_size (f x) = i_size x /\ i_type (f x) = i_type x) -> keeps_shape (updi i f).
Proof.
  intros Hf. apply leaves_modify. intros s. unfold shape. simpl.
  destruct (decide (i = dp)) as [->|Hne]; [|by rewrite list_lookup_alter_ne].
  rewrite list_lookup_alter_eq. destruct (f_inodes s !! dp) as [x|]; simpl; [|done]. destruct (Hf x) as [-> ->]. done.
Qed.
Ltac upd := apply updi_shape; done.
Lemma updb_shape i f : keeps_shape (updb i f).
Proof. by apply leaves_modify. Qed.
Lemma updlog_shape f : keeps_shape (updlog f).
Proof. by apply leaves_modify. Qed.
Lemma getb_shape i : keeps_shape (getb i).
Proof. unfold getb. leave. Qed.
Lemma geti_shape i : keeps_shape (geti i).
Proof. unfold geti. leave. Qed.
Hint Resolve updb_shape updlog_shape getb_shape geti_shape : frames.
Lemma getlk_shape l : keeps_shape (getlk l).
Proof. unfold getlk. leave. Qed.
Lemma setlk_shape l x : keeps_shape (setlk l x).
Proof. unfold setlk. destruct l; [leave|upd]. Qed.
Hint Resolve getlk_shape setlk_shape : frames.
Lemma acquiresleep_shape l : keeps_shape (acquiresleep l).
Proof. unfold acquiresleep. leave. Qed.
Lemma releasesleep_shape l : keeps_shape (releasesleep l).
Proof. unfold releasesleep. leave. Qed.
Lemma holdingsleep_shape l : keeps_shape (holdingsleep l).
Proof. unfold holdingsleep. leave. Qed.
Hint Resolve acquiresleep_shape releasesleep_shape holdingsleep_shape : frames.
Lemma iderw_shape i : keeps_shape (iderw i).
Proof. unfold iderw. leave. Qed.
Lemma bget_shape dev b : keeps_shape (bget dev b).
Proof. unfold bget. leave. Qed.
Hint Resolve iderw_shape bget_shape : frames.
Lemma bread_shape dev b : keeps_shape (bread dev b).
Proof. unfold bread. leave. Qed.
Lemma brelse_shape i : keeps_shape (brelse i).
Proof. unfold brelse. leave. Qed.
Lemma bdata_shape i : keeps_shape (bdata i).
Proof. unfold bdata. leave. Qed.
Lemma set_bdata_shape i d : keeps_shape (set_bdata i d).
Proof. unfold set_bdata. leave. Qed.
Lemma log_write_shape i : keeps_shape (log_write i).
Proof. unfold log_write. leave. Qed.
Hint Resolve bread_shape brelse_shape bdata_shape set_bdata_shape log_write_shape : frames.
Lemma bzero_shape dev b : keeps_shape (bzero dev b).
Proof. unfold bzero. leave. Qed.
Hint Resolve bzero_shape : frames.
Lemma balloc_loop_shape n dev b : keeps_shape (balloc_loop n dev b).
Proof. revert dev b. induction n; intros; cbn [balloc_loop]; leave. Qed.
Hint Resolve balloc_loop_shape : frames.
Lemma balloc_shape dev : keeps_shape (balloc dev).
Proof. unfold balloc. leave. Qed.
Hint Resolve balloc_shape : frames.
Lemma set_addr_shape i n a : keeps_shape (updi i (set_addr n a)).
Proof. upd. Qed.
Hint Resolve set_addr_shape : frames.
Lemma bmap_shape ip bn : keeps_shape (bmap ip bn).
Proof. unfold bmap. leave. Qed.
Hint Resolve bmap_shape : frames.
Lemma iget_shape dev inum : keeps_shape (iget dev inum).
Proof. unfold iget. apply leaves_bind; [leave|]. intros l. destruct (find_first _ l); [apply leaves_bind; [upd|leave]|]. destruct (find_first _ l); [apply leaves_bind; [upd|leave]|leave]. Qed.
Lemma readi_loop_shape `{Devsw} fuel ip off n tot acc : keeps_shape (readi_loop fuel ip off n tot acc).
Proof. revert ip off n tot acc. induction fuel; intros; cbn [readi_loop]; leave. Qed.
End shape.

(** ** The loops *)

Section loops.
Context `{Devsw}.

Lemma readi_loop_ends fuel : forall ip off n tot acc, (Z.to_nat (n - tot) <= fuel)%nat -> ends (readi_loop fuel ip off n tot acc).
Proof.
  induction fuel as [|fuel IH]; intros ip off n tot acc Hf; cbn [readi_loop]; destruct (Z.ltb_spec tot n); [lia|ending| |ending].
  pose proof (Z.mod_pos_bound off BSIZE ltac:(done)) as Hm. repeat (apply fs_ends_bind; [ending|intros]). apply IH. unfold BSIZE in *. lia.
Qed.

Lemma writei_loop_ends fuel : forall ip src off n tot, (Z.to_nat (n - tot) <= fuel)%nat -> ends (writei_loop fuel ip src off n tot).
Proof.
  induction fuel as [|fuel IH]; intros ip src off n tot Hf; cbn [writei_loop]; destruct (Z.ltb_spec tot n); [lia|ending| |ending].
  pose proof (Z.mod_pos_bound off BSIZE ltac:(done)) as Hm. repeat (apply fs_ends_bind; [ending|intros]). apply IH. unfold BSIZE in *. lia.
Qed.

(** The device functions end too. *)
Class DevswEnds : Prop := {
  dev_read_ends : forall d f ip n, dev_read d = Some f -> ends (f ip n);
  dev_write_ends : forall d f ip src n, dev_write d = Some f -> ends (f ip src n) }.
Context `{!DevswEnds}.

Lemma readi_ends ip off n : ends (readi ip off n).
Proof.
  unfold readi. apply fs_ends_bind; [ending|]. intros x. destruct (i_type x =? T_DEV).
  - destruct ((i_major x <? 0) || (NDEV <=? i_major x)); [ending|]. destruct (dev_read (i_major x)) eqn:E; [by eapply dev_read_ends|ending].
  - destruct ((i_size x <? off) || (u32 (off + n) <? off)); [ending|]. apply fs_ends_bind; [apply readi_loop_ends; lia|ending].
Qed.

Lemma writei_ends ip src off n : ends (writei ip src off n).
Proof.
  unfold writei. apply fs_ends_bind; [ending|]. intros x. destruct (i_type x =? T_DEV).
  - destruct ((i_major x <? 0) || (NDEV <=? i_major x)); [ending|]. destruct (dev_write (i_major x)) eqn:E; [by eapply dev_write_ends|ending].
  - destruct ((i_size x <? off) || (u32 (off + n) <? off)); [ending|]. destruct (MAXFILE * BSIZE <? u32 (off + n)); [ending|].
    apply fs_ends_bind; [apply writei_loop_ends; lia|ending].
Qed.
Hint Resolve readi_ends writei_ends : ends.

(** Reading an entry of a directory leaves its size alone, and an offset from
    which it succeeds does not wrap around. *)
Lemma readi_entry dp off s r s' sz :
  shape dp s = Some (sz, T_DIR) -> readi dp off 16 s = Ret r s' -> r.1 = 16 -> shape dp s' = shape dp s /\ off <= u32 (off + 16).
Proof.
  intros Hs Hr H16. unfold readi in Hr. rewrite bind_run in Hr. unfold shape in Hs. destruct (f_inodes s !! dp) as [x|] eqn:Ex; [|done].
  assert (Hg : geti dp s = Ret x s) by (unfold geti; mexec; by rewrite Ex). rewrite Hg in Hr. injection Hs as Hsz Ht.
  rewrite Ht in Hr. change (T_DIR =? T_DEV) with false in Hr. cbv iota in Hr.
  destruct (Z.ltb_spec (u32 (off + 16)) off) as [Hw|Hw]; [rewrite orb_true_r in Hr; injection Hr as <- _; done|].
  split; [|done]. destruct (_ || _) in Hr; [injection Hr as <- _; done|].
  apply bind_inv in Hr as (bs & s1 & Hb & Hr). injection Hr as _ <-. exact (readi_loop_shape _ _ _ _ _ _ _ _ _ _ Hb).
Qed.

Lemma geti_shape_run dp s sz ty : shape dp s = Some (sz, ty) -> exists x, geti dp s = Ret x s /\ i_size x = sz /\ i_type x = ty.
Proof.
  unfold shape. destruct (f_inodes s !! dp) as [x|] eqn:E; [|done]. intros [= <- <-]. exists x. split; [|done]. unfold geti. mexec. by rewrite E.
Qed.

Lemma unless_ret b msg (s s' : fstate) a : unless_panic b msg s = Ret a s' -> b = false /\ s' = s.
Proof. unfold unless_panic. destruct b; [done|]. by intros [= _ <-]. Qed.

Lemma dirlookup_loop_ends fuel : forall dp name off s sz, shape dp s = Some (sz, T_DIR) -> 0 <= off < two32 ->
  (Z.to_nat (sz - off) <= fuel)%nat -> ends_at (dirlookup_loop fuel dp name off) s.
Proof.
  induction fuel as [|fuel IH]; intros dp name off s sz Hs Ho Hf; cbn [dirlookup_loop];
    destruct (geti_shape_run dp s sz T_DIR Hs) as (x & Hg & Hsz & _);
    (apply ends_bind_at; [apply geti_ends|]); intros y s1 E; rewrite Hg in E; injection E as <- <-; rewrite Hsz;
    destruct (Z.ltb_spec off sz); [lia|apply ends_mret| |apply ends_mret].
  apply ends_bind_at; [apply readi_ends|]. intros r s1 Hr. apply ends_bind_at; [apply fs_ends_unless|]. intros [] s2 Hu.
  apply unless_ret in Hu as [Hu ->]. apply negb_false_iff, Z.eqb_eq in Hu.
  destruct (readi_entry dp off s r s1 sz Hs Hr Hu) as [Hs1 Hw].
  assert (Hnext : ends_at (dirlookup_loop fuel dp name (u32 (off + 16))) s1).
  { apply (IH dp name _ s1 sz); [congruence|apply u32_range|]. unfold u32, two32 in *.
    destruct (decide (off + 16 < 4294967296)); [rewrite Z.mod_small by lia; lia|].
    exfalso. rewrite (Z.mod_eq (off + 16)) in Hw by lia. assert ((off + 16) / 4294967296 = 1) by (Z.div_mod_to_equations; lia). lia. }
  destruct (de_inum r.2 =? 0); [done|]. apply ends_bind_at; [apply namecmp_ends|]. intros c s2 Hc.
  destruct (c =? 0); [apply ends_mret|]. assert (s2 = s1) as -> by (unfold namecmp, of_option in Hc; destruct (lstrncmp _ _ _); [by injection Hc|done]). done.
Qed.

Lemma dirlookup_loop_shape fuel : forall dp name off s r s' sz, shape dp s = Some (sz, T_DIR) ->
  dirlookup_loop fuel dp name off s = Ret r s' -> shape dp s' = shape dp s.
Proof.
  induction fuel as [|fuel IH]; intros dp name off s r s' sz Hs Hr; cbn [dirlookup_loop] in Hr;
    destruct (geti_shape_run dp s sz T_DIR Hs) as (x & Hg & Hsz & _); rewrite (bind_ret_run _ _ _ _ _ Hg), Hsz in Hr;
    destruct (off <? sz); [done|by injection Hr as _ <-| |by injection Hr as _ <-].
  apply bind_inv in Hr as (r1 & s1 & Hr1 & Hr). apply bind_inv in Hr as ([] & s2 & Hu & Hr). apply unless_ret in Hu as [Hu ->].
  apply negb_false_iff, Z.eqb_eq in Hu. destruct (readi_entry dp off s r1 s1 sz Hs Hr1 Hu) as [Hs1 _].
  assert (Hs1' : shape dp s1 = Some (sz, T_DIR)) by congruence. rewrite <- Hs1.
  destruct (de_inum r1.2 =? 0); [by eapply IH|]. apply bind_inv in Hr as (c & s2 & Hc & Hr).
  assert (s2 = s1) as -> by (unfold namecmp, of_option in Hc; destruct (lstrncmp _ _ _); [by injection Hc|done]).
  destruct (c =? 0); [by injection Hr as _ <-|]. by eapply IH.
Qed.

Lemma dirlookup_ends dp name : ends (dirlookup dp name).
Proof.
  intros s. unfold dirlookup. apply ends_bind_at; [apply geti_ends|]. intros x s1 Hg.
  apply ends_bind_at; [apply fs_ends_unless|]. intros [] s2 Hu. apply unless_ret in Hu as [Hu ->]. apply negb_false_iff, Z.eqb_eq in Hu.
  assert (Hx : shape dp s1 = Some (i_size x, T_DIR)).
  { unfold geti in Hg. mexec_in Hg. unfold shape. destruct (f_inodes s !! dp) eqn:E; [|done]. injection Hg as <- <-. rewrite E. simpl. by rewrite Hu. }
  apply ends_bind_at; [by eapply dirlookup_loop_ends; [exact Hx|unfold two32; lia|lia]|].
  intros e s2 _. revert s2. change (ends (match e with Some (inum, off) => ip ← iget (i_dev x) inum; mret (Some (ip, off)) | None => mret None end)). ending.
Qed.

(** A directory keeps its size through [dirlookup]. *)
Lemma dirlookup_shape dp name s r s' : dirlookup dp name s = Ret r s' -> exists sz, shape dp s' = Some (sz, T_DIR).
Proof.
  unfold dirlookup. intros Hr. apply bind_inv in Hr as (x & s1 & Hg & Hr). apply bind_inv in Hr as ([] & s2 & Hu & Hr).
  apply unless_ret in Hu as [Hu ->]. apply negb_false_iff, Z.eqb_eq in Hu.
  assert (Hx : shape dp s1 = Some (i_size x, T_DIR)).
  { unfold geti in Hg. mexec_in Hg. unfold shape. destruct (f_inodes s !! dp) eqn:E; [|done]. injection Hg as <- <-. rewrite E. simpl. by rewrite Hu. }
  exists (i_size x). apply bind_inv in Hr as (e & s2 & He & Hr). apply (dirlookup_loop_shape _ _ _ _ _ _ _ _ Hx) in He. rewrite <- Hx, <- He.
  destruct e as [[inum off]|]; [|by injection Hr as _ <-]. apply bind_inv in Hr as (ip & s3 & Hi & Hr). injection Hr as _ <-. exact (iget_shape _ _ _ _ _ _ Hi).
Qed.
Hint Resolve dirlookup_ends : ends.

Lemma dirlink_loop_ends fuel : forall dp off s sz, shape dp s = Some (sz, T_DIR) -> (Z.to_nat (sz - off) <= fuel)%nat ->
  ends_at (dirlink_loop fuel dp off) s.
Proof.
  induction fuel as [|fuel IH]; intros dp off s sz Hs Hf; cbn [dirlink_loop];
    destruct (geti_shape_run dp s sz T_DIR Hs) as (x & Hg & Hsz & _);
    (apply ends_bind_at; [apply geti_ends|]); intros y s1 E; rewrite Hg in E; injection E as <- <-; rewrite Hsz;
    destruct (Z.ltb_spec off sz); [lia|apply ends_mret| |apply ends_mret].
  apply ends_bind_at; [apply readi_ends|]. intros r s1 Hr. apply ends_bind_at; [apply fs_ends_unless|]. intros [] s2 Hu.
  apply unless_ret in Hu as [Hu ->]. apply negb_false_iff, Z.eqb_eq in Hu.
  destruct (readi_entry dp off s r s1 sz Hs Hr Hu) as [Hs1 _]. destruct (de_inum r.2 =? 0); [apply ends_mret|].
  apply (IH dp _ s1 sz); [congruence|lia].
Qed.

Lemma dirlink_ends dp name inum : ends (dirlink dp name inum).
Proof.
  intros s. unfold dirlink. apply ends_bind_at; [apply dirlookup_ends|]. intros e s1 He. destruct e as [[ip off]|].
  - revert s1 He. cut (ends (iput ip;; mret (-1))); [intros Hc s1 _; apply Hc|]. ending.
  - destruct (dirlookup_shape dp name s None s1 He) as [sz Hs]. destruct (geti_shape_run dp s1 sz T_DIR Hs) as (x & Hg & Hsz & _).
    apply ends_bind_at; [apply geti_ends|]. intros y s2 E. rewrite Hg in E. injection E as <- <-.
    apply ends_bind_at; [apply (dirlink_loop_ends _ dp 0 s1 sz); [done|rewrite Hsz; lia]|]. intros off s2 _. revert s2.
    change (ends (nm ← of_option "strncpy" (lstrncpy (Z.to_nat DIRSIZ) name);
      r ← writei dp (mk_dirent inum nm) off 16; unless_panic (negb (r =? 16)) "dirlink";; mret 0)). ending.
Qed.

Lemma namex_loop_ends fuel : forall ip path parent name, (length path <= fuel)%nat -> ends (namex_loop fuel ip path parent name).
Proof.
  induction fuel as [|fuel IH]; intros ip path parent name Hf; cbn [namex_loop]; destruct (skipelem path name) as [[rest name']|] eqn:E.
  - apply skipelem_shrinks in E. lia.
  - ending.
  - apply skipelem_shrinks in E.
    assert (Hn : forall next, ends (namex_loop fuel next rest parent name')) by (intros next; apply IH; lia). ending.
  - ending.
Qed.

Lemma namex_ends path parent name : ends (namex path parent name).
Proof. unfold namex. apply fs_ends_bind; [ending|]. intros ip. by apply namex_loop_ends. Qed.
Hint Resolve dirlink_ends namex_ends : ends.
Lemma namei_ends path name : ends (namei path name).
Proof. unfold namei. ending. Qed.
Lemma nameiparent_ends path name : ends (nameiparent path name).
Proof. unfold nameiparent. ending. Qed.
Hint Resolve namei_ends nameiparent_ends : ends.

(** ** The calls of sysfile.c on names *)

Lemma isdirempty_loop_ends fuel : forall dp off s sz, shape dp s = Some (sz, T_DIR) -> (Z.to_nat (sz - off) <= fuel)%nat ->
  ends_at (isdirempty_loop fuel dp off) s.
Proof.
  induction fuel as [|fuel IH]; intros dp off s sz Hs Hf; cbn [isdirempty_loop];
    destruct (geti_shape_run dp s sz T_DIR Hs) as (x & Hg & Hsz & _);
    (apply ends_bind_at; [apply geti_ends|]); intros y s1 E; rewrite Hg in E; injection E as <- <-; rewrite Hsz;
    destruct (Z.ltb_spec off sz); [lia|apply ends_mret| |apply ends_mret].
  apply ends_bind_at; [apply readi_ends|]. intros r s1 Hr. apply ends_bind_at; [apply fs_ends_unless|]. intros [] s2 Hu.
  apply unless_ret in Hu as [Hu ->]. apply negb_false_iff, Z.eqb_eq in Hu.
  destruct (readi_entry dp off s r s1 sz Hs Hr Hu) as [Hs1 _]. destruct (negb _); [apply ends_mret|].
  apply (IH dp _ s1 sz); [congruence|lia].
Qed.

Lemma isdirempty_ends dp s sz : shape dp s = Some (sz, T_DIR) -> ends_at (isdirempty dp) s.
Proof.
  intros Hs. unfold isdirempty. destruct (geti_shape_run dp s sz T_DIR Hs) as (x & Hg & Hsz & _).
  apply ends_bind_at; [apply geti_ends|]. intros y s1 E. rewrite Hg in E. injection E as <- <-.
  apply (isdirempty_loop_ends _ dp 32 s sz); [done|rewrite Hsz; lia].
Qed.

(** The test of [unlink], with what comes before it and after it. *)
Lemma unlink_test_ends ip msg {A} (rest : inode -> bool -> M fstate A) :
  (forall x b, ends (rest x b)) ->
  ends (x ← geti ip; unless_panic (i_nlink x <? 1) msg;; empty ← (if i_type x =? T_DIR then isdirempty ip else mret true); rest x empty).
Proof.
  intros Hr s. apply ends_bind_at; [apply geti_ends|]. intros x s1 Hg. apply ends_bind_at; [apply fs_ends_unless|]. intros [] s2 Hu.
  apply unless_ret in Hu as [_ ->]. apply ends_bind_at; [|intros b s2 _; apply Hr].
  destruct (Z.eqb_spec (i_type x) T_DIR) as [Ht|]; [|apply ends_mret]. apply (isdirempty_ends ip s1 (i_size x)).
  unfold geti in Hg. mexec_in Hg. unfold shape. destruct (f_inodes s !! ip) eqn:E; [|done]. injection Hg as <- <-. rewrite E. simpl. by rewrite Ht.
Qed.

Context (stack : list Z).

Lemma link_ends old new : ends (link stack old new).
Proof. unfold link, link_bad. ending. Qed.
Lemma unlink_ends path : ends (unlink stack path).
Proof.
  unfold unlink, unlink_bad. apply fs_ends_bind; [ending|]. intros _. apply fs_ends_bind; [ending|]. intros [[dp|] name]; [|ending].
  apply fs_ends_bind; [ending|]. intros _. apply fs_ends_bind; [ending|]. intros c1. apply fs_ends_bind; [ending|]. intros c2.
  destruct (c2 =? 0); [ending|]. apply fs_ends_bind; [ending|]. intros [[ip off]|]; [|ending]. apply fs_ends_bind; [ending|]. intros _.
  apply (unlink_test_ends ip). ending.
Qed.
Lemma create_ends path type major minor : ends (create stack path type major minor).
Proof. unfold create. ending. Qed.
Hint Resolve create_ends : ends.
Lemma open_inode_ends path omode : ends (open_inode stack path omode).
Proof. unfold open_inode. ending. Qed.
End loops.

(** ** Properties *)

(** C39. The file system's loops end.  In every state, whatever is on the disk, in
    the buffer cache and in the inodes, no call of [readi], [writei],
    [dirlookup], [dirlink] or [namex] and none of the calls [link], [unlink],
    [create] and [open] that are made of them runs out of the fuel of its loops,
    which is the number of bytes to copy, the size of the directory or the
    length of the path; and more fuel than the length of the path changes
    nothing in [namex].  Only the device functions have to end themselves. *)
Theorem fs_loops_end `{Devsw} `{!DevswEnds} (s : fstate) (stack : list Z) :
  (forall ip off n, ends_at (readi ip off n) s) /\
  (forall ip src off n, ends_at (writei ip src off n) s) /\
  (forall dp name, ends_at (dirlookup dp name) s) /\
  (forall dp name inum, ends_at (dirlink dp name inum) s) /\
  (forall path parent name, ends_at (namex path parent name) s) /\
  (forall fuel ip path parent name, (length path <= fuel)%nat ->
     namex_loop fuel ip path parent name s = namex_loop (length path) ip path parent name s) /\
  (forall old new, ends_at (link stack old new) s) /\
  (forall path, ends_at (unlink stack path) s) /\
  (forall path type major minor, ends_at (create stack path type major minor) s) /\
  (forall path omode, ends_at (open_inode stack path omode) s).
Proof.
  split; [intros; apply readi_ends|]. split; [intros; apply writei_ends|]. split; [intros; apply dirlookup_ends|].
  split; [intros; apply dirlink_ends|]. split; [intros; apply namex_ends|]. split; [intros; by apply namex_fuel|].
  split; [intros; apply link_ends|]. split; [intros; apply unlink_ends|]. split; [intros; apply create_ends|intros; apply open_inode_ends].
Qed.

(** A directory whose inode claims a size of almost 4 gigabytes; without
    devices. *)
#[export] Instance no_devices_end : @DevswEnds no_devices.
Proof. split; intros; discriminate. Qed.

Definition huge_dir : fstate :=
  mkfs ∅ [] 0 [] [] (mklog 0 0 0 0 0 0 []) (mksb 0 0 0 0 0 0 0) [set_i_ref 1 (set_i_type T_DIR (set_i_size 0xFFFFFFFF inode0))] [] 0 0.

Lemma fs_loops_end_witness :
  ends_at (@dirlookup no_devices 0 [97]) huge_dir /\
  @namex_loop no_devices 9 0 [47; 47] false [] huge_dir = Ret (Some 0%nat, []) huge_dir.
Proof.
  destruct (@fs_loops_end no_devices no_devices_end huge_dir []) as (_ & _ & H1 & _ & _ & H2 & _).
  split; [exact (H1 0%nat [97])|]. rewrite (H2 9%nat 0%nat [47; 47] false []); [vm_compute; reflexivity|simpl; lia].
Defined.
