(* ===== verification/Userinit.v ===== *)
(** * userinit

    [allocproc], [setupkvm], [inituvm] and the run queue, composed by [userinit]: from
    the kernel of the end of [main] to a first process that the scheduler can run. *)

From Stdlib Require Import ZArith Lia.
From stdpp Require Import base numbers strings gmap list.
From S2P Require Import Prelude.
From S2P Require Import Strings.
From S2P Require Import Machine.
From S2P Require Import Spinlock.
From S2P Require Import Kalloc.
From S2P Require Import Vm.
From S2P Require Import VmInv.
From S2P Require Import VmSpec.
From S2P Require Import KState.
From S2P Require Import PQueue.
From S2P Require Import Proc.
From S2P Require Import ProcInv.
From S2P Require Import ArgsSpec.
From S2P Require Import Asm.
From S2P Require Import Usys.
From S2P Require Import Initcode.
From S2P Require Import Frames.

Local Open Scope string_scope.
Local Open Scope list_scope.
Local Open Scope Z_scope.

(** ** The memory functions do not change other locks *)

Section locks.
Context (lk : Z) (Hlk : lk <> kmem_lock).

Definition lock_of (k : mach) : option spinlock := locks (mhw k) !! lk.

Lemma set_kmem_lock f : leaves (fun h => locks h !! lk) (modify (set_lock kmem_lock f)).
Proof using Hlk. apply leaves_modify. intros h. simpl. by rewrite lookup_insert_ne. Qed.

Lemma mycpu_locks : leaves (fun h => locks h !! lk) mycpu.
Proof. unfold mycpu, readeflags. leave. Qed.
Lemma pushcli_locks : leaves (fun h => locks h !! lk) pushcli.
Proof. pose proof mycpu_locks. unfold pushcli, readeflags, cli, get_cpu, upd_cpu. leave. Qed.
Lemma popcli_locks : leaves (fun h => locks h !! lk) popcli.
Proof. pose proof mycpu_locks. unfold popcli, readeflags, get_cpu, upd_cpu, sti. leave. Qed.
Lemma holding_locks l : leaves (fun h => locks h !! lk) (holding l).
Proof. pose proof mycpu_locks. unfold holding. leave. Qed.
Lemma kmem_acquire_locks : leaves lock_of kmem_acquire.
Proof using Hlk.
  pose proof mycpu_locks. pose proof pushcli_locks. pose proof holding_locks. pose proof set_kmem_lock. assert (Ha : leaves (fun h => locks h !! lk) (acquire kmem_lock)) by (unfold acquire, acquire_enter, acquire_record, xchg_locked; leave).
  unfold kmem_acquire. leave. apply leaves_zoom. intros k b h Hr. exact (Ha _ _ _ Hr).
Qed.
Lemma kmem_release_locks : leaves lock_of kmem_release.
Proof using Hlk.
  pose proof mycpu_locks. pose proof popcli_locks. pose proof holding_locks. pose proof set_kmem_lock. assert (Ha : leaves (fun h => locks h !! lk) (release kmem_lock)) by (unfold release, release_clear, release_store; leave).
  unfold kmem_release. leave. apply leaves_zoom. intros k b h Hr. exact (Ha _ _ _ Hr).
Qed.
Lemma kalloc_locks : leaves lock_of kalloc.
Proof using Hlk. pose proof kmem_acquire_locks. pose proof kmem_release_locks. unfold kalloc. leave. Qed.
Lemma kfree_locks v : leaves lock_of (kfree v).
Proof using Hlk. pose proof kmem_acquire_locks. pose proof kmem_release_locks. unfold kfree. leave. Qed.
End locks.

(** ** Nor which processor it is, what it runs and how deep it has turned off interrupts *)

Definition cpu_view (x : cpu) : Z * option nat * Z := (apicid x, cproc x, ncli x).
Definition hw_view (h : hw) : Z * list (Z * option nat * Z) := (lapicid h, cpu_view <$> cpus h).

(** [d] more levels of [pushcli] on the processor that runs. *)
Definition deeper (d : Z) (v : Z * list (Z * option nat * Z)) : Z * list (Z * option nat * Z) :=
  match find_first (fun x => x.1.1 =? v.1) v.2 with Some i => (v.1, alter (fun x => (x.1, x.2 + d)) i v.2) | None => v end.
Definition deepens {A} (d : Z) (m : M hw A) : Prop := forall h a h', m h = Ret a h' -> hw_view h' = deeper d (hw_view h).

Lemma deeper_deeper d e v : deeper e (deeper d v) = deeper (d + e) v.
Proof.
  unfold deeper. destruct (find_first _ v.2) as [i|] eqn:E; cbn [fst snd]; [|by rewrite E]. rewrite find_first_alter by done. rewrite E. rewrite alter_alter. f_equal. apply list_alter_ext; [|done]. intros x _. cbn. by rewrite Z.add_assoc.
Qed.
Lemma deeper_0 v : deeper 0 v = v.
Proof. unfold deeper. destruct v as [l xs], (find_first _ _) as [i|]; [|done]. cbn [fst snd]. f_equal. apply list_alter_id. intros [? ?]. cbn. by rewrite Z.add_0_r. Qed.

Lemma view_mycpu h : find_first (fun x => x.1.1 =? lapicid h) (cpu_view <$> cpus h) = find_first (fun x => apicid x =? lapicid h) (cpus h).
Proof. induction (cpus h) as [|x l IH]; [done|]. cbn. rewrite <- IH. done. Qed.

Lemma mycpu_is h i h' : mycpu h = Ret i h' -> h' = h /\ find_first (fun x => apicid x =? lapicid h) (cpus h) = Some i.
Proof.
  unfold mycpu, readeflags. rewrite bind_gets. destruct (negb _); [done|]. rewrite bind_unless_false, bind_get. destruct (find_first _ _); [|done]. intros E. by injection E as <- <-.
Qed.

Lemma view_upd f i h d : (forall x, cpu_view (f x) = ((cpu_view x).1, (cpu_view x).2 + d)) -> find_first (fun x => apicid x =? lapicid h) (cpus h) = Some i -> hw_view (set_cpus (alter f i) h) = deeper d (hw_view h).
Proof.
  intros Hf Hi. unfold deeper, hw_view. cbn [fst snd]. rewrite view_mycpu, Hi. cbn [lapicid cpus set_cpus]. f_equal. apply list_eq. intros j. rewrite list_lookup_fmap. destruct (decide (i = j)) as [->|Hn].
  - rewrite !list_lookup_alter_eq, list_lookup_fmap. destruct (cpus h !! j); cbn; [by rewrite Hf|done].
  - by rewrite !list_lookup_alter_ne, list_lookup_fmap by done.
Qed.

Lemma deepens_bind {A C} d e (m : M hw A) (n : A -> M hw C) : deepens d m -> (forall a, deepens e (n a)) -> deepens (d + e) (m ≫= n).
Proof. intros Hm Hn h c h' Hr. rewrite bind_run in Hr. destruct (m h) as [a h1| | |] eqn:E; try done. by rewrite (Hn _ _ _ _ Hr), (Hm _ _ _ E), deeper_deeper. Qed.
Lemma deepens_leaves {A} (m : M hw A) : leaves hw_view m -> deepens 0 m.
Proof. intros Hm h a h' Hr. by rewrite (Hm _ _ _ Hr), deeper_0. Qed.

Lemma mycpu_view : leaves hw_view mycpu.
Proof. intros h i h' Hr. by apply mycpu_is in Hr as [-> _]. Qed.
Lemma holding_view l : leaves hw_view (holding l).
Proof. pose proof mycpu_view. unfold holding. leave. Qed.

Lemma intena_view e i h : hw_view (set_cpus (alter (set_intena e) i) h) = hw_view h.
Proof. unfold hw_view. cbn [cpus lapicid set_cpus]. f_equal. apply list_eq. intros j. rewrite !list_lookup_fmap. destruct (decide (i = j)) as [->|Hn]; [rewrite list_lookup_alter_eq|by rewrite list_lookup_alter_ne]. by destruct (cpus h !! j). Qed.

Lemma touch_view c h : hw_view (touch c h) = hw_view h.
Proof. unfold touch, hw_view. cbn [cpus lapicid set_cpus]. f_equal. apply list_eq. intros j. rewrite !list_lookup_fmap. destruct (decide (c = j)) as [->|Hn]; [rewrite list_lookup_alter_eq|by rewrite list_lookup_alter_ne]. destruct (cpus h !! j) as [x|]; [|done]. cbn. unfold touch_cpu. by destruct (ncli x =? 0). Qed.

Lemma pushcli_view : deepens 1 pushcli.
Proof.
  intros h a h' Hr. unfold pushcli, readeflags, cli, get_cpu, upd_cpu in Hr. rewrite bind_gets, bind_modify in Hr. set (h1 := set_eflags _ h) in Hr. rewrite bind_run in Hr. destruct (mycpu h1) as [i h2| | |] eqn:E; try done. apply mycpu_is in E as [-> Hi].
  rewrite bind_assoc_run, bind_get in Hr. destruct (cpus h1 !! i) as [x|]; [|done]. rewrite bind_some in Hr. change (hw_view h) with (hw_view h1). destruct (ncli x =? 0).
  - rewrite bind_modify in Hr. injection Hr as _ <-. rewrite <- (intena_view (Z.land (eflags h) FL_IF) i h1). apply view_upd; [done|]. cbn [cpus lapicid set_cpus]. rewrite find_first_alter; done.
  - rewrite bind_mret in Hr. injection Hr as _ <-. by apply view_upd.
Qed.

Lemma popcli_view : deepens (-1) popcli.
Proof.
  intros h a h' Hr. unfold popcli, readeflags, get_cpu, upd_cpu in Hr. rewrite bind_gets in Hr. destruct (negb _); [done|]. rewrite bind_unless_false, bind_run in Hr. destruct (mycpu h) as [i h2| | |] eqn:E; try done. apply mycpu_is in E as [-> Hi].
  rewrite bind_modify, bind_assoc_run, bind_get in Hr. set (h1 := set_cpus _ h) in Hr. assert (Hv : hw_view h1 = deeper (-1) (hw_view h)) by (by apply view_upd). destruct (cpus h1 !! i) as [x|]; [|done]. rewrite bind_some in Hr.
  destruct (ncli x <? 0); [done|]. rewrite bind_unless_false in Hr. rewrite <- Hv. destruct (_ && _); injection Hr as _ <-; done.
Qed.

Lemma acquire_view l : deepens 1 (acquire l).
Proof.
  pose proof mycpu_view. pose proof holding_view. pose proof pushcli_view. unfold acquire, acquire_enter. change 1 with (1 + 0) at 1. apply deepens_bind; [change 1 with (1 + 0) at 1; apply deepens_bind; [done|]|]; intros _; apply deepens_leaves; unfold xchg_locked, acquire_record; leave.
Qed.
Lemma release_view l : deepens (-1) (release l).
Proof.
  pose proof mycpu_view. pose proof holding_view. pose proof popcli_view. unfold release, release_store. change (-1) with (0 + (0 + -1)). apply deepens_bind; [apply deepens_leaves; unfold release_clear; leave|]. intros _. apply deepens_bind; [|done]. apply deepens_leaves. leave.
Qed.

(** The same for the allocator, which takes its lock only when it is told to. *)
Definition mach_view (k : mach) := (use_lock k, hw_view (mhw k)).
Definition kdeeper (d : Z) (v : Z * _) := (v.1, if v.1 =? 0 then v.2 else deeper d v.2).
Definition kdeepens {A} (d : Z) (m : M mach A) : Prop := forall k a k', m k = Ret a k' -> mach_view k' = kdeeper d (mach_view k).

Lemma kdeepens_bind {A C} d e (m : M mach A) (n : A -> M mach C) : kdeepens d m -> (forall a, kdeepens e (n a)) -> kdeepens (d + e) (m ≫= n).
Proof.
  intros Hm Hn h c h' Hr. rewrite bind_run in Hr. destruct (m h) as [a h1| | |] eqn:E; try done. rewrite (Hn _ _ _ _ Hr), (Hm _ _ _ E). unfold kdeeper. cbn [fst snd]. destruct (_ =? 0); [done|]. by rewrite deeper_deeper.
Qed.
Lemma kdeepens_leaves {A} (m : M mach A) : leaves mach_view m -> kdeepens 0 m.
Proof. intros Hm h a h' Hr. rewrite (Hm _ _ _ Hr). unfold kdeeper. rewrite deeper_0. by destruct (_ =? 0). Qed.
Lemma leaves_kdeepens {A} (m : M mach A) : kdeepens 0 m -> leaves mach_view m.
Proof. intros Hm h a h' Hr. rewrite (Hm _ _ _ Hr). unfold kdeeper. rewrite deeper_0. by destruct (_ =? 0). Qed.

Lemma kmem_view d m : deepens d m -> kdeepens d (k ← get; if use_lock k =? 0 then mret tt else on_hw m).
Proof.
  intros Hm k a k' Hr. rewrite bind_get in Hr. unfold mach_view, kdeeper. cbn [fst snd]. destruct (use_lock k =? 0) eqn:E; [by injection Hr as _ <-|]. unfold on_hw, zoom in Hr. destruct (m (mhw k)) as [b h| | |] eqn:Eh; try done. injection Hr as _ <-. cbn. by rewrite (Hm _ _ _ Eh).
Qed.

Lemma kalloc_view : leaves mach_view kalloc.
Proof.
  apply leaves_kdeepens. unfold kalloc. change 0 with (1 + (0 + (0 + (-1 + 0)))). apply kdeepens_bind; [apply kmem_view, acquire_view|]. intros _. apply kdeepens_bind; [apply kdeepens_leaves; leave|]. intros r.
  apply kdeepens_bind; [apply kdeepens_leaves; leave|]. intros _. apply kdeepens_bind; [apply kmem_view, release_view|]. intros _. apply kdeepens_leaves. leave.
Qed.
Lemma kfree_view v : leaves mach_view (kfree v).
Proof.
  apply leaves_kdeepens. unfold kfree. change 0 with (0 + (0 + (0 + (1 + (0 + -1))))). apply kdeepens_bind; [apply kdeepens_leaves; leave|]. intros k. apply kdeepens_bind; [apply kdeepens_leaves; leave|]. intros _.
  apply kdeepens_bind; [apply kdeepens_leaves; leave|]. intros _. apply kdeepens_bind; [apply kmem_view, acquire_view|]. intros _. apply kdeepens_bind; [apply kdeepens_leaves; leave|]. intros _. apply kmem_view, release_view.
Qed.

(** ** What [kalloc] and [kfree] leave, so do the functions of vm.c *)

Section memory.
Context {B : Type} (π : mach -> B) (Hmem : forall f k, π (set_mem f k) = π k) (Hka : leaves π kalloc) (Hkf : forall v, leaves π (kfree v)).

Lemma set_mem_leaves f : leaves π (modify (set_mem f)).
Proof using Hmem. apply leaves_modify, Hmem. Qed.
Lemma walkpgdir_leaves pgdir va b : leaves π (walkpgdir pgdir va b).
Proof using All. pose proof set_mem_leaves. pose proof Hka. unfold walkpgdir, load, store, memset0_page. leave. Qed.
Lemma mappages_loop_leaves n pgdir a z pa perm : leaves π (mappages_loop n pgdir a z pa perm).
Proof using All. pose proof set_mem_leaves. pose proof walkpgdir_leaves. revert a pa. induction n; intros; cbn [mappages_loop]; unfold load, store; leave. Qed.
Lemma deallocuvm_loop_leaves n pgdir a z : leaves π (deallocuvm_loop n pgdir a z).
Proof using All. pose proof set_mem_leaves. pose proof walkpgdir_leaves. pose proof set_mem_leaves. pose proof Hkf. revert a. induction n; intros; cbn [deallocuvm_loop]; unfold load, store; leave. Qed.
Lemma free_tables_leaves n pgdir i : leaves π (free_tables n pgdir i).
Proof using All. pose proof set_mem_leaves. pose proof Hkf. revert i. induction n; intros; cbn [free_tables]; unfold load; leave. Qed.
Lemma freevm_leaves pgdir : leaves π (freevm pgdir).
Proof using All. pose proof deallocuvm_loop_leaves. pose proof free_tables_leaves. pose proof set_mem_leaves. pose proof Hkf. unfold freevm, deallocuvm. leave. Qed.
Lemma setupkvm_leaves : leaves π setupkvm.
Proof using All.
  pose proof set_mem_leaves. pose proof Hka. pose proof freevm_leaves. pose proof mappages_loop_leaves. assert (Hl : forall ks pgdir, leaves π (setupkvm_loop pgdir ks)) by (intros ks; induction ks; intros; cbn [setupkvm_loop]; unfold mappages; leave).
  unfold setupkvm, memset0_page. leave.
Qed.
Lemma inituvm_leaves pgdir init : leaves π (inituvm pgdir init).
Proof using All. pose proof set_mem_leaves. pose proof Hka. pose proof mappages_loop_leaves. unfold inituvm, memset0_page, mappages. leave. Qed.
End memory.

(** ** Bytes *)

Lemma testbit_255 i : 0 <= i -> Z.testbit 255 i = (i <? 8).
Proof. intros Hi. change 255 with (Z.ones 8). destruct (Z.ltb_spec i 8); [by apply Z.ones_spec_low|apply Z.ones_spec_high; lia]. Qed.

Lemma u8_bits v i : 0 <= i -> Z.testbit (u8 v) i = Z.testbit v i && (i <? 8).
Proof. intros Hi. unfold u8. change 256 with (2 ^ 8). destruct (Z.ltb_spec i 8); [rewrite Z.mod_pow2_bits_low by lia; by rewrite andb_true_r|rewrite Z.mod_pow2_bits_high by lia; by rewrite andb_false_r]. Qed.

(** Byte [r] of a word into which byte [s] has been stored. *)
Lemma byte_of_stored w v r s : 0 <= r -> 0 <= s -> Z.land (Z.shiftr (Z.lor (Z.land w (Z.lnot (Z.shiftl 255 (8 * s)))) (Z.shiftl (u8 v) (8 * s))) (8 * r)) 255 = if r =? s then u8 v else Z.land (Z.shiftr w (8 * r)) 255.
Proof.
  intros Hr Hs. apply Z.bits_inj'. intros i Hi. rewrite Z.land_spec, Z.shiftr_spec, Z.lor_spec, Z.land_spec, Z.lnot_spec, !Z.shiftl_spec, (testbit_255 i) by lia.
  destruct (Z.eqb_spec r s) as [->|Hne].
  - replace (i + 8 * s - 8 * s) with i by lia. rewrite u8_bits, testbit_255 by lia. destruct (i <? 8); cbn; by rewrite ?andb_false_r, ?andb_true_r.
  - rewrite Z.land_spec, Z.shiftr_spec, (testbit_255 i) by lia. destruct (Z.ltb_spec i 8); [|by rewrite !andb_false_r]. rewrite !andb_true_r. destruct (Z.lt_ge_cases (i + 8 * r - 8 * s) 0).
    + rewrite (Z.testbit_neg_r 255), (Z.testbit_neg_r (u8 v)) by lia. by rewrite andb_true_r, orb_false_r.
    + rewrite testbit_255, u8_bits by lia. destruct (Z.ltb_spec (i + 8 * r - 8 * s) 8); [lia|]. by rewrite andb_false_r, andb_true_r, orb_false_r.
Qed.

Lemma ld8_st8 m a v b : ld8 (st8 m a v) b = if a =? b then u8 v else ld8 m b.
Proof.
  unfold ld8, st8. pose proof (Z.mod_pos_bound a 4). pose proof (Z.mod_pos_bound b 4). destruct (Z.eqb_spec (a - a mod 4) (b - b mod 4)) as [E|E].
  - rewrite <- E, ld_st_eq, byte_of_stored by lia. destruct (Z.eqb_spec a b) as [->|]; [by rewrite Z.eqb_refl|]. destruct (Z.eqb_spec (b mod 4) (a mod 4)); [lia|done].
  - rewrite ld_st_ne by done. by destruct (Z.eqb_spec a b) as [->|].
Qed.

Lemma ld8_store_bytes bs m a x : ld8 (store_bytes m a bs) x = match zget bs (x - a) with Some b => u8 b | None => ld8 m x end.
Proof.
  revert m a. induction bs as [|b bs IH]; intros m a; cbn [store_bytes]; [unfold zget; by destruct (0 <=? x - a)|]. rewrite IH, ld8_st8. unfold zget. destruct (Z.leb_spec 0 (x - a)).
  - destruct (Z.eqb_spec a x) as [->|].
    + destruct (Z.leb_spec 0 (x - (x + 1))); [lia|]. by rewrite Z.sub_diag.
    + destruct (Z.leb_spec 0 (x - (a + 1))); [|lia]. replace (Z.to_nat (x - a)) with (S (Z.to_nat (x - (a + 1)))) by lia. done.
  - destruct (Z.leb_spec 0 (x - (a + 1))); [lia|]. destruct (Z.eqb_spec a x); [lia|done].
Qed.

Lemma st8_out m a v b : b < a - a mod 4 \/ a < b -> ld (st8 m a v) b = ld m b.
Proof. intros Hb. unfold st8. pose proof (Z.mod_pos_bound a 4). apply ld_st_ne. lia. Qed.

(** Bytes stored into a page. *)
Lemma store_bytes_out bs m a pg b : pg mod 4096 = 0 -> pg <= a -> a + Z.of_nat (length bs) <= pg + 4096 -> b < pg \/ pg + 4096 <= b -> ld (store_bytes m a bs) b = ld m b.
Proof.
  intros Hp. revert m a. induction bs as [|c bs IH]; intros m a Ha He Hb; cbn [store_bytes length] in *; [done|]. rewrite IH by lia. apply st8_out.
  assert (pg <= a - a mod 4); [|lia]. assert (Hp4 : pg mod 4 = 0) by (apply Z.div_exact in Hp; [|done]; rewrite Hp; replace (4096 * (pg / 4096)) with ((1024 * (pg / 4096)) * 4) by lia; by rewrite Z.mod_mul).
  apply Z.div_exact in Hp4; [|done]. pose proof (Z.div_mod a 4). assert (pg / 4 <= a / 4) by (apply Z.div_le_mono; lia). lia.
Qed.

Lemma ld8_zero m pg x : pg mod 4096 = 0 -> (forall i, 0 <= i < 1024 -> ld m (pg + 4 * i) = 0) -> 0 <= x < 4096 -> ld8 m (pg + x) = 0.
Proof.
  intros Hp Hz Hx. unfold ld8. assert (E : (pg + x) mod 4 = x mod 4) by (apply Z.div_exact in Hp; [|done]; rewrite Hp; replace (4096 * (pg / 4096) + x) with (x + (1024 * (pg / 4096)) * 4) by lia; by rewrite Z.mod_add by lia).
  rewrite E. pose proof (Z.div_mod x 4). pose proof (Z.mod_pos_bound x 4). replace (pg + x - x mod 4) with (pg + 4 * (x / 4)) by lia. rewrite Hz; [by rewrite Z.shiftr_0_l|]. split; [apply Z.div_pos; lia|apply Z.div_lt_upper_bound; lia].
Qed.

(** ** The address space *)

Lemma inituvm_run c k pgdir tabs E G pg l init : pt_inv c k pgdir tabs E G (pg :: l) -> l <> [] -> E !! 0 = None -> Z.of_nat (length init) < 4096 ->
  exists k' tabs' l', inituvm pgdir init k = Ret tt k' /\ pt_inv c k' pgdir tabs' (<[0 := pte_val (V2P pg) (Z.lor PTE_W PTE_U)]> E) (pg :: G) l' /\ keeps G k k' /\ taken tabs tabs' l l' /\
    forall x, 0 <= x < 4096 -> ld8 (mem k') (pg + x) = match zget init x with Some b => u8 b | None => 0 end.
Proof.
  intros H Hl HE Hi. unfold inituvm, PGSIZE. destruct (Z.leb_spec 4096 (Z.of_nat (length init))); [lia|]. rewrite bind_unless_false. destruct (pt_kalloc c _ _ _ _ _ _ _ H) as (k1 & Hrun & Hp & H1 & Hm1 & Hk1). mstep Hrun. rewrite Hp, bind_mret. unfold memset0_page. rewrite bind_modify.
  destruct (pt_write c k1 pgdir tabs E pg G l (fun m => memset_page m pg 0) H1) as [H2 Hk2]. { intros m b Hb. by apply ld_memset_page_out. } set (k2 := set_mem _ k1) in *.
  assert (Hpv : valid_page (kend k2) pg) by (eapply pi_page; [exact H2|]; rewrite elem_of_cons, elem_of_app, elem_of_cons; tauto). destruct (V2P_page _ pg (pi_base _ _ _ _ _ _ _ H2) Hpv) as (_ & Hr & _).
  destruct (mappages_page c k2 pgdir tabs E (pg :: G) l 0 (V2P pg) (Z.lor PTE_W PTE_U) H2) as [(k3 & tabs3 & l3 & Hrun3 & H3 & Hk3 & Htk)|(k3 & _ & _ & _ & ->)]; [done|lia|unfold PHYSTOP, two32 in *; lia|done| |done].
  mstep Hrun3. assert (Hpa : pg mod 4096 = 0) by apply Hpv.
  destruct (pt_write c k3 pgdir tabs3 _ pg G l3 (fun m => store_bytes m pg init) H3) as [H4 Hk4]. { intros m b Hb. apply (store_bytes_out init m pg pg); [done|lia|lia|done]. }
  eexists _, tabs3, l3. split; [reflexivity|]. split; [exact H4|]. split; [|split; [done|]].
  - eapply keeps_trans; [apply Hk1|]. eapply keeps_trans; [exact Hk2|]. eapply keeps_trans; [|exact Hk4]. eapply keeps_sub; [exact Hk3|]. intros g Hg. by right.
  - intros x Hx. change (mem (set_mem ?f k3)) with (store_bytes (mem k3) pg init). rewrite ld8_store_bytes. replace (pg + x - pg) with x by lia. destruct (zget init x); [done|]. apply ld8_zero; [done| |done].
    intros i Hii. destruct Hk3 as (_ & _ & _ & Hk3). rewrite Hk3; [|left|done]. by apply ld_memset_page_in.
Qed.

(** What the page table says about address 0. *)
Lemma pt_one_page c k pgdir tabs E G l pg : pt_inv c k pgdir tabs E (pg :: G) l -> E !! 0 = Some (pte_val (V2P pg) (Z.lor PTE_W PTE_U)) -> one_page (mem k) pgdir pg.
Proof.
  intros H HE. destruct (mapped_table c k pgdir tabs E (pg :: G) l 0 _ H HE) as [t Ht]. change (PDX 0) with 0 in Ht. pose proof (pi_base _ _ _ _ _ _ _ H) as Hb.
  destruct (pi_tab_page c k pgdir tabs E (pg :: G) l 0 t H Ht) as (Hvt & _ & Htg & _ & Hdg & _). assert (Hvd : valid_page (kend k) pgdir) by (eapply pi_page; [exact H|left]). assert (Hvp : valid_page (kend k) pg) by (eapply pi_page; [exact H|]; rewrite elem_of_cons, elem_of_app, elem_of_cons; tauto).
  assert (Nt : t <> pg) by (intros ->; apply Htg; left). assert (Nd : pgdir <> pg) by (intros ->; apply Hdg; left).
  pose proof (pi_pde _ _ _ _ _ _ _ H 0 ltac:(lia)) as Hpde. rewrite Ht, Z.mul_0_r, Z.add_0_r in Hpde. destruct (V2P_page _ t Hb Hvt) as (_ & Hrt & Ept). pose proof (V2P_aligned _ t Hb Hvt) as Hat. destruct (pde_read _ Hrt Hat) as [R1 R2].
  pose proof (pi_pte _ _ _ _ _ _ _ H 0 ltac:(done)) as Hpte. rewrite HE in Hpte. unfold pte_of in Hpte. change (PDX 0) with 0 in Hpte. change (PTX 0) with 0 in Hpte. rewrite Ht, Z.mul_0_r, Z.add_0_r in Hpte. destruct Hpte as [Epte Ppte].
  pose proof (page_word_out pg pgdir 0) as W1. pose proof (page_word_out pg t 0) as W2. rewrite Z.mul_0_r, Z.add_0_r in W1, W2.
  split; rewrite ?Hpde, ?R2, ?Ept, ?Epte; [done|destruct Hvt as (_ & _ & _ & ?); lia|done|by apply (pte_frame k)|apply Hvp|apply W1; [apply Hvp|apply Hvd|done|lia]|apply W2; [apply Hvp|apply Hvt|done|lia]].
Qed.

(** ** allocproc *)

Lemma heap_write c k f G l g : heap_inv c k (f :: G) l -> (forall m a, a < f \/ f + 4096 <= a -> ld (g m) a = ld m a) -> heap_inv c (set_mem g k) (f :: G) l.
Proof.
  intros (Hr & (Hrep & Hnd & Hv) & Hb & Hn & Hg) Hout. split; [done|]. split; [|done]. split; [|done]. simpl. eapply freelist_rep_frame; [|done]. intros q Hq. apply Hout.
  simpl in Hn. apply NoDup_cons in Hn as [Hf _]. apply Forall_cons in Hg as [Hf' _]. rewrite Forall_forall in Hv. pose proof (page_word_out f q 0) as W. rewrite Z.mul_0_r, Z.add_0_r in W. apply W; [apply Hf'|by apply Hv|intros ->; apply Hf, elem_of_app; by right|lia].
Qed.

Lemma heap_kalloc c k f G l : heap_inv c k G (f :: l) -> exists k', kalloc k = Ret f k' /\ (f =? 0) = false /\ heap_inv c k' (f :: G) l /\ (forall G', keeps G' k k').
Proof.
  intros (Hr & Hf & Hb & Hn & Hg). destruct (kalloc_full c k _ Hr Hf) as (k' & Hrun & Hr' & Hf' & Hm & Hk). exists k'. split; [exact Hrun|]. destruct Hf as (_ & _ & Hv). apply Forall_cons in Hv as [Hv _].
  split; [destruct Hv as (_ & _ & _ & ?); lia|]. split; [|done]. destruct (Hk []) as (He & _). split; [done|]. split; [done|]. rewrite He. split; [done|]. split; [simpl; by rewrite Permutation_middle|by apply Forall_cons].
Qed.

Section alloc.
Context {F : Type} `{!FileOps F} `{!Image}.
Implicit Types k : kst F.

(** The kernel with machine [m], processes [ps] and globals [g]. *)
Definition with_mpg (m : mach) (ps : list proc) (g : globals) (k : kst F) : kst F := mkkst m (set_procs ps (kp k)) (kx k) (ks k) g (kf k) (kc k).

Lemma with_updp p f m ps g k : is_Some (ps !! p) -> updp p f (with_mpg m ps g k) = Ret tt (with_mpg m (alter f p ps) g k).
Proof. intros [pr Hp]. by rewrite (updp_run p pr f (with_mpg m ps g k) Hp). Qed.

Lemma with_km {A} (o : M mach A) m ps g k a m' : o m = Ret a m' -> on_km o (with_mpg m ps g k) = Ret a (with_mpg m' ps g k).
Proof. intros Ho. by rewrite (on_km_run o (with_mpg m ps g k) a m' Ho). Qed.

Lemma with_id k : with_mpg (km k) (procs (kp k)) (kg k) k = k.
Proof. by destruct k as [? [] ? ? ? ? ?]. Qed.

(** What [allocproc] writes into the slot. *)
Definition new_proc (pid kstack : Z) (q : proc) : proc :=
  set_p_mux_ptrs (replicate (Z.to_nat MUX_MAXNUM) None) (set_p_ctx (mkctx 0 0 0 0 forkret_pc) (set_p_context (kstack + KSTACKSIZE - sizeof_trapframe - 4 - sizeof_context)
    (set_p_tf (kstack + KSTACKSIZE - sizeof_trapframe) (set_p_kstack kstack (set_p_pid pid (set_p_state EMBRYO q)))))).

Lemma is_Some_alter {A} (f : A -> A) p (l : list A) : is_Some (l !! p) -> is_Some (alter f p l !! p).
Proof. intros [x Hx]. rewrite list_lookup_alter_eq, Hx. by eexists. Qed.

Lemma allocproc_run c k G kst l p : runs_on (kh k) c -> lock_ready (kh k) ptable_lock -> heap_inv c (km k) G (kst :: l) ->
  find_first (fun pr => bool_decide (p_state pr = UNUSED)) (take (Z.to_nat NPROC) (procs (kp k))) = Some p ->
  exists m, allocproc k = Ret (Some p) (with_mpg m (alter (new_proc (nextpid (kg k)) kst) p (procs (kp k))) (set_nextpid (i32 (nextpid (kg k) + 1)) (kg k)) k) /\
    heap_inv c m (kst :: G) l /\ keeps G (km k) m /\ lock_of ptable_lock m = lock_of ptable_lock (km k) /\ mach_view m = mach_view (km k) /\ ld (mem m) (kst + KSTACKSIZE - sizeof_trapframe - 4) = trapret.
Proof.
  intros Hr Hl Hh Hff. assert (Hp : is_Some (procs (kp k) !! p)). { apply find_first_Some in Hff as [(x & Hx & _) _]. apply lookup_take_Some in Hx as [Hx _]. by eexists. }
  unfold allocproc. mstep (lock_run k c ptable_lock Hr Hl). rewrite bind_get. change (procs (kp (inside c ptable_lock k))) with (procs (kp k)). rewrite Hff.
  set (m1 := set_hw (acq_hw c ptable_lock (kh k)) (km k)). assert (E1 : inside c ptable_lock k = with_mpg m1 (procs (kp k)) (kg k) k) by (by destruct k as [? [] ? ? ? ? ?]). rewrite E1.
  mstep (with_updp p (set_p_state EMBRYO) m1 (procs (kp k)) (kg k) k Hp). rewrite bind_gets. cbn [with_mpg kg]. set (pid := nextpid (kg k)).
  change (mkkst m1 ?a (kx k) (ks k) (kg k) (kf k) (kc k)) with (with_mpg m1 (alter (set_p_state EMBRYO) p (procs (kp k))) (kg k) k).
  mstep (with_updp p (set_p_pid pid) m1 _ (kg k) k (is_Some_alter (set_p_state EMBRYO) _ _ Hp)). unfold setg. rewrite bind_modify. set (g := set_nextpid (i32 (pid + 1)) (kg k)). set (ps2 := alter (set_p_pid pid) p _).
  change (set_kg ?x (with_mpg m1 ps2 (kg k) k)) with (with_mpg m1 ps2 g k). mstep (unlock_run k (with_mpg m1 ps2 g k) c ptable_lock Hr Hl eq_refl). set (m2 := set_hw (touch c (kh k)) (km k)). change (set_kh (touch c (kh k)) (with_mpg m1 ps2 g k)) with (with_mpg m2 ps2 g k).
  assert (Hh2 : heap_inv c m2 G (kst :: l)). { destruct Hh as ((_ & Hu) & Hh). split; [|done]. split; [by apply touch_runs_on|exact Hu]. }
  destruct (heap_kalloc c m2 kst G l Hh2) as (m3 & Hrun & Hz & Hh3 & Hk3). pose proof (kalloc_locks ptable_lock ltac:(done) m2 _ m3 Hrun) as Hlk. mstep (with_km kalloc m2 ps2 g k kst m3 Hrun).
  assert (Hp2 : is_Some (ps2 !! p)) by (by apply is_Some_alter, is_Some_alter). mstep (with_updp p (set_p_kstack kst) m3 ps2 g k Hp2). rewrite Hz. cbv zeta. mstep (with_updp p (set_p_tf (kst + KSTACKSIZE - sizeof_trapframe)) m3 _ g k (is_Some_alter (set_p_kstack kst) _ _ Hp2)).
  set (sp := kst + KSTACKSIZE - sizeof_trapframe - 4). set (m4 := set_mem (fun m => st m sp trapret) m3). set (ps4 := alter (set_p_tf _) p _). mstep (with_km (store sp trapret) m3 ps4 g k tt m4 eq_refl).
  assert (Hp4 : is_Some (ps4 !! p)) by (by apply is_Some_alter, is_Some_alter). mstep (with_updp p (set_p_context (sp - sizeof_context)) m4 ps4 g k Hp4). mstep (with_updp p (set_p_ctx (mkctx 0 0 0 0 forkret_pc)) m4 _ g k (is_Some_alter (set_p_context (sp - sizeof_context)) _ _ Hp4)).
  mstep (with_updp p (set_p_mux_ptrs (replicate (Z.to_nat MUX_MAXNUM) None)) m4 _ g k (is_Some_alter (set_p_ctx (mkctx 0 0 0 0 forkret_pc)) _ _ (is_Some_alter (set_p_context (sp - sizeof_context)) _ _ Hp4))).
  exists m4. split; [unfold ps4, ps2; by rewrite !alter_alter|]. split; [|split; [|split; [exact Hlk|split; [|apply ld_st_eq]]]].
  - apply heap_write; [exact Hh3|]. intros m a Ha. apply ld_st_ne. unfold sp, KSTACKSIZE, sizeof_trapframe. lia.
  - eapply keeps_trans; [apply (Hk3 G)|]. do 3 (split; [done|]). intros q i Hq Hi. apply ld_st_ne. destruct Hh3 as (_ & _ & _ & Hn & Hv). simpl in Hn. apply NoDup_cons in Hn as [Hn _]. apply Forall_cons in Hv as [Hv1 Hv2]. rewrite Forall_forall in Hv2.
    pose proof (page_word_out kst q i ltac:(apply Hv1) ltac:(by apply Hv2) ltac:(intros ->; apply Hn, elem_of_app; by left) Hi). unfold sp, KSTACKSIZE, sizeof_trapframe. lia.
  - change (mach_view m4) with (mach_view m3). rewrite (kalloc_view _ _ _ Hrun). unfold mach_view, m2. cbn [use_lock mhw set_hw]. by rewrite touch_view.
Qed.

(** ** The steps of userinit *)

(** The process table of a kernel that starts. *)
Definition boot_table (t : ptab) : Prop :=
  length (procs t) = Z.to_nat NPROC /\ Forall (fun pr => p_state pr = UNUSED /\ p_killed pr = 0 /\ 0 <= p_priority pr < PRIO_MAX) (procs t) /\
  length (pqueues t) = Z.to_nat PRIO_MAX /\ Forall (fun row => length row = Z.to_nat QSIZE) (pqueues t).

Lemma boot_first t : boot_table t -> find_first (fun pr => bool_decide (p_state pr = UNUSED)) (take (Z.to_nat NPROC) (procs t)) = Some 0%nat.
Proof.
  intros (Hl & Hf & _). destruct (procs t) as [|pr ps]; [done|]. apply Forall_cons in Hf as [[Hu _] _]. apply find_first_Some. split; [|intros q y Hq; lia].
  exists pr. split; [done|by apply bool_decide_eq_true_2].
Qed.

(** The queues after [userinit] has reset them. *)
Lemma boot_runq t ps pr : boot_table t -> ps = alter (fun _ => pr) 0%nat (procs t) -> p_state pr = EMBRYO -> p_priority pr = 0 ->
  runq (mkptab ps (replicate (Z.to_nat PRIO_MAX) (0, 0)) (pqueues t)) (replicate 20 []).
Proof.
  intros (Hl & Hf & Hlq & Hrow) -> Hs Hpr. rewrite Forall_lookup in Hf. rewrite Forall_lookup in Hrow. split; [|split; [apply NoDup_nil_2|split; [|split]]].
  - split; [done|]. split; [done|]. split; [done|]. intros i ht row q Hh Hr Hq. apply (lookup_replicate_1 (Z.to_nat PRIO_MAX)) in Hh as [-> _]. apply (lookup_replicate_1 20) in Hq as [-> _]. cbn [procs head_tail pqueues] in Hr. pose proof (Hrow _ _ Hr).
    unfold ring_rep. qsimp. simpl. split; [done|]. split; [lia|]. split; [done|]. split; [lia|done].
  - intros p. split; [by intros ?%not_elem_of_nil|]. intros (q & Hq & Hqs). exfalso. cbn [procs] in Hq. destruct p as [|p].
    + rewrite list_lookup_alter_eq in Hq. destruct (procs t !! 0%nat); [|done]. injection Hq as <-. congruence.
    + rewrite list_lookup_alter_ne in Hq by done. destruct (Hf _ _ Hq). congruence.
  - cbn [procs]. by rewrite length_alter.
  - cbn [procs]. apply Forall_lookup. intros [|p] q Hq.
    + rewrite list_lookup_alter_eq in Hq. destruct (procs t !! 0%nat); [|done]. injection Hq as <-. rewrite Hpr. done.
    + rewrite list_lookup_alter_ne in Hq by done. by destruct (Hf _ _ Hq) as (_ & _ & ?).
Qed.

(** The address space: [setupkvm] and [inituvm] with enough free pages. *)
Lemma first_space c m G l init : heap_inv c m G l -> data_ok (kdata m) -> (1027 <= length l)%nat -> Z.of_nat (length init) < 4096 ->
  exists pgdir m1 m2 tabs E pg l', setupkvm m = Ret pgdir m1 /\ (pgdir =? 0) = false /\ inituvm pgdir init m1 = Ret tt m2 /\ pt_inv c m2 pgdir tabs E (pg :: G) l' /\
    E !! 0 = Some (pte_val (V2P pg) (Z.lor PTE_W PTE_U)) /\ (forall va, page_addr va -> va <> 0 -> E !! va = kernel_pte (kdata m) va) /\
    pgdir :: tab_pages tabs ++ pg :: l' ≡ₚ l /\ keeps G m m2 /\ (forall x, 0 <= x < 4096 -> ld8 (mem m2) (pg + x) = match zget init x with Some b => u8 b | None => 0 end).
Proof.
  intros Hh Hd Hl Hi. destruct (setupkvm_run c m G l Hh Hd) as [(pgdir & m1 & tabs & E & l1 & Hrun & Hnz & Hpt & HE & Hperm & Hk)|(? & ? & _ & _ & _ & _ & ?)]; [|lia].
  pose proof (tabs_size c _ _ _ _ _ _ Hpt) as Hts. pose proof (Permutation_length Hperm) as Hlen. simpl in Hlen. rewrite length_app in Hlen.
  destruct l1 as [|pg [|t l1]]; [cbn in Hlen; lia..|].
  assert (HE0 : E !! 0 = None). { rewrite HE by done. destruct Hd as [Hd1 _]. unfold kernel_pte. rewrite !decide_False by (unfold KERNLINK, KERNBASE, EXTMEM, DEVSPACE in *; lia). done. }
  destruct (inituvm_run c m1 pgdir tabs E G pg (t :: l1) init Hpt ltac:(done) HE0 Hi) as (m2 & tabs2 & l2 & Hrun2 & Hpt2 & Hk2 & [_ Htk] & Hb).
  exists pgdir, m1, m2, tabs2, (<[0 := pte_val (V2P pg) (Z.lor PTE_W PTE_U)]> E), pg, l2. split; [done|]. split; [by apply Z.eqb_neq|]. split; [done|]. split; [done|]. split; [by rewrite lookup_insert_eq|].
  split; [intros va Hva Hne; rewrite lookup_insert_ne by done; by apply HE|]. split; [|split; [by eapply keeps_trans|done]].
  rewrite <- Hperm. f_equiv. rewrite <- (Permutation_middle (tab_pages tabs2) l2 pg), <- (Permutation_middle (tab_pages tabs) (t :: l1) pg). by f_equiv.
Qed.

(** The last part of [userinit]: the process becomes runnable, and the tables of
    mutexes are initialised. *)
Definition userinit_tail (p : nat) : M (kst F) unit :=
  lock ptable_lock;;
  ready ← gets (fun k => pqueue_ready (kg k));
  (if ready =? 0 then
     setg (set_pqueue_ready 1);;
     updp p (set_p_priority 0);;
     modify (fun k => set_kp (set_head_tail (replicate (Z.to_nat PRIO_MAX) (0, 0)) (kp k)) k)
   else mret tt);;
  updp p (set_p_state RUNNABLE);;
  enqueue_or_panic p;;
  unlock ptable_lock;;
  modify (fun k => set_kx (mkmuxtab (replicate (Z.to_nat MUX_MAXNUM) (mkmutex 0 (-1) (replicate (Z.to_nat WQSIZE) None))) (replicate (Z.to_nat WQSIZE) None)) k);;
  khw (initlock mutexes_lock "mutex_table");;
  khw (initlock wqueue_lock "wqueue").

Lemma userinit_tail_run k c m t pr g : runs_on (mhw m) c -> lock_ready (mhw m) ptable_lock -> boot_table t -> p_state pr = EMBRYO -> pqueue_ready g = 0 -> pqueues (kp k) = pqueues t ->
  exists k' h, userinit_tail 0 (with_mpg m (alter (fun _ => pr) 0%nat (procs t)) g k) = Ret tt k' /\ runq (kp k') (spec_enqueue 0 0 (replicate 20 [])) /\
    procs (kp k') = alter (fun _ => set_p_state RUNNABLE (set_p_priority 0 pr)) 0%nat (procs t) /\ km k' = set_hw h m /\ runs_on h c /\ (lock_ready (mhw m) kmem_lock -> lock_ready h kmem_lock) /\ kg k' = set_pqueue_ready 1 g /\ lock_ready h ptable_lock /\ hw_view h = hw_view (mhw m) /\ kf k' = kf k.
Proof.
  intros Hr Hl Hb Hs Hg Hq. assert (Hp : forall x, is_Some (alter (fun _ : proc => x) 0%nat (procs t) !! 0%nat)). { intros x. apply is_Some_alter. destruct Hb as (Hn & _). apply lookup_lt_is_Some. rewrite Hn. change (Z.to_nat NPROC) with 64%nat. lia. }
  unfold userinit_tail. set (k0 := with_mpg m _ g k). mstep (lock_run k0 c ptable_lock Hr Hl). rewrite bind_gets. change (pqueue_ready (kg (inside c ptable_lock k0))) with (pqueue_ready g). rewrite Hg. change (0 =? 0) with true. cbv iota. unfold setg. rewrite bind_assoc_run, bind_modify, bind_assoc_run.
  set (m1 := set_hw (acq_hw c ptable_lock (mhw m)) m). set (g1 := set_pqueue_ready 1 g). change (set_kg (set_pqueue_ready 1 (kg (inside c ptable_lock k0))) (inside c ptable_lock k0)) with (with_mpg m1 (alter (fun _ => pr) 0%nat (procs t)) g1 k).
  mstep (with_updp 0 (set_p_priority 0) m1 _ g1 k (Hp pr)). rewrite bind_modify, alter_alter. set (ps := alter (fun _ => set_p_priority 0 pr) 0%nat (procs t)).
  set (t1 := mkptab ps (replicate (Z.to_nat PRIO_MAX) (0, 0)) (pqueues t)). set (k1 := set_kp _ (with_mpg m1 ps g1 k)). assert (E1 : kp k1 = t1) by (unfold t1; rewrite <- Hq; done).
  assert (Hp1 : is_Some (procs (kp k1) !! 0%nat)) by apply Hp. destruct Hp1 as [x Hx]. assert (x = set_p_priority 0 pr) as ->. { rewrite E1 in Hx. cbn [procs t1] in Hx. unfold ps in Hx. rewrite list_lookup_alter_eq in Hx. destruct (procs t !! 0%nat); [|done]. by injection Hx as <-. }
  mstep (updp_run 0 _ (set_p_state RUNNABLE) k1 Hx). pose proof (boot_runq t ps (set_p_priority 0 pr) Hb eq_refl Hs eq_refl) as Hrq. fold t1 in Hrq. rewrite E1 in Hx.
  destruct (enqueue_runq t1 _ 0 _ Hrq Hx ltac:(cbn; congruence)) as (t2 & qs & Hrun & Hps & Hrq2 & ->). unfold enqueue_or_panic. rewrite bind_assoc_run.
  assert (E2 : kp (upd_k 0 (set_p_state RUNNABLE) k1) = make_runnable 0 t1) by (unfold make_runnable; rewrite <- E1; done). rewrite <- E2 in Hrun. mstep (on_kp_run _ _ _ _ Hrun). cbn [Z.ltb Z.compare]. rewrite bind_unless_false.
  mstep (unlock_run k0 (set_kp t2 (upd_k 0 (set_p_state RUNNABLE) k1)) c ptable_lock Hr Hl eq_refl). rewrite bind_modify. eexists _, _. split; [reflexivity|]. split; [exact Hrq2|]. split; [|split; [reflexivity|split; [|split; [|split; [reflexivity|split; [|split; [|reflexivity]]]]]]].
  - change (procs t2 = alter (fun _ => set_p_state RUNNABLE (set_p_priority 0 pr)) 0%nat (procs t)). rewrite Hps. cbn [make_runnable procs set_procs t1]. unfold ps. by rewrite alter_alter.
  - by apply set_lock_runs_on, set_lock_runs_on, touch_runs_on.
  - intros [n Hn]. exists n. simpl. rewrite !lookup_insert_ne by done. exact Hn.
  - destruct Hl as [n Hl]. exists n. simpl. rewrite !lookup_insert_ne by done. exact Hl.
  - exact (touch_view c (mhw m)).
Qed.

(** The slot of the first process. *)
Definition first_proc (pid kstack pgdir cwd : Z) (q : proc) : proc :=
  let q := set_p_tfr init_tf (set_p_sz PGSIZE (set_p_pgdir pgdir (new_proc pid kstack q))) in
  set_p_cwd cwd (set_p_name (safestrcpy_array (p_name q) initcode_name 16) q).

Lemma userinit_head c k G ks l cwd f : runs_on (kh k) c -> lock_ready (kh k) ptable_lock -> heap_inv c (km k) G (ks :: l) -> data_ok (kdata (km k)) -> (1027 <= length l)%nat ->
  boot_table (kp k) -> Z.of_nat (length initcode) < PGSIZE -> (forall k', kf k' = kf k -> namei_root k' = Ret cwd (set_kf f k')) ->
  exists m pgdir tabs E pg l', let g := set_initproc (Some 0%nat) (set_nextpid (i32 (nextpid (kg k) + 1)) (kg k)) in
    userinit k = userinit_tail 0 (with_mpg m (alter (first_proc (nextpid (kg k)) ks pgdir cwd) 0%nat (procs (kp k))) g (set_kf f k)) /\
    pt_inv c m pgdir tabs E (pg :: ks :: G) l' /\ E !! 0 = Some (pte_val (V2P pg) (Z.lor PTE_W PTE_U)) /\ (forall va, page_addr va -> va <> 0 -> E !! va = kernel_pte (kdata (km k)) va) /\
    pgdir :: tab_pages tabs ++ pg :: l' ≡ₚ l /\ lock_ready (mhw m) ptable_lock /\ mach_view m = mach_view (km k) /\ ld (mem m) (ks + KSTACKSIZE - sizeof_trapframe - 4) = trapret /\
    (forall x, 0 <= x < 4096 -> ld8 (mem m) (pg + x) = match zget initcode x with Some b => u8 b | None => 0 end).
Proof.
  intros Hr Hl Hh Hd Hn Hb Hi Hcwd.
  destruct (allocproc_run c k G ks l 0 Hr Hl Hh (boot_first _ Hb)) as (m & Hrun & Hh1 & Hk1 & Hlk1 & Hv1 & Htr). unfold userinit, setg. mstep Hrun. set (pid := nextpid (kg k)) in *. set (g := set_nextpid _ (kg k)).
  rewrite bind_modify. set (g1 := set_initproc (Some 0%nat) g). set (ps := alter (new_proc pid ks) 0%nat (procs (kp k))). change (set_kg ?x (with_mpg m ps g k)) with (with_mpg m ps g1 k). unfold nonnull. rewrite bind_some.
  assert (Ed : kdata m = kdata (km k)) by apply Hk1. rewrite <- Ed in Hd.
  destruct (first_space c m (ks :: G) l initcode Hh1 Hd Hn Hi) as (pgdir & m1 & m2 & tabs & E & pg & l' & S1 & Hnz & S2 & Hpt & HE0 & HE & Hperm & Hk2 & Hbytes).
  mstep (with_km setupkvm m ps g1 k pgdir m1 S1). assert (Hp0 : is_Some (procs (kp k) !! 0%nat)) by (destruct Hb as (Hlen & _); apply lookup_lt_is_Some; rewrite Hlen; change (Z.to_nat NPROC) with 64%nat; lia).
  assert (Hp : forall h, is_Some (alter h 0%nat ps !! 0%nat)) by (intros h; by apply is_Some_alter, is_Some_alter). mstep (with_updp 0 (set_p_pgdir pgdir) m1 ps g1 k ltac:(by apply is_Some_alter)). rewrite Hnz, bind_unless_false. mstep (with_km (inituvm pgdir initcode) m1 (alter (set_p_pgdir pgdir) 0%nat ps) g1 k tt m2 S2).
  mstep (with_updp 0 (set_p_sz PGSIZE) m2 _ g1 k (Hp (set_p_pgdir pgdir))). rewrite alter_alter. mstep (with_updp 0 (set_p_tfr init_tf) m2 _ g1 k (Hp (fun x => set_p_sz PGSIZE (set_p_pgdir pgdir x)))). rewrite alter_alter.
  mstep (with_updp 0 (fun pr => set_p_name (safestrcpy_array (p_name pr) initcode_name 16) pr) m2 _ g1 k (Hp (fun x => set_p_tfr init_tf (set_p_sz PGSIZE (set_p_pgdir pgdir x))))). rewrite alter_alter. set (ps2 := alter _ 0%nat ps).
  mstep (Hcwd (with_mpg m2 ps2 g1 k) eq_refl). change (set_kf f (with_mpg m2 ps2 g1 k)) with (with_mpg m2 ps2 g1 (set_kf f k)). mstep (with_updp 0 (set_p_cwd cwd) m2 ps2 g1 (set_kf f k) (Hp _)). unfold ps2, ps. rewrite !alter_alter.
  exists m2, pgdir, tabs, E, pg, l'. split; [reflexivity|]. split; [exact Hpt|]. split; [exact HE0|]. split; [by rewrite <- Ed|]. split; [exact Hperm|]. split; [|split; [|split; [|exact Hbytes]]].
  - destruct Hl as [n Hl]. exists n. pose proof (inituvm_leaves (lock_of ptable_lock) ltac:(done) (kalloc_locks ptable_lock ltac:(done)) (kfree_locks ptable_lock ltac:(done)) _ _ _ _ _ S2) as L2. pose proof (setupkvm_leaves (lock_of ptable_lock) ltac:(done) (kalloc_locks ptable_lock ltac:(done)) (kfree_locks ptable_lock ltac:(done)) _ _ _ S1) as L1. unfold lock_of in *. rewrite L2, L1, Hlk1. exact Hl.
  - by rewrite (inituvm_leaves mach_view ltac:(done) kalloc_view kfree_view _ _ _ _ _ S2), (setupkvm_leaves mach_view ltac:(done) kalloc_view kfree_view _ _ _ S1).
  - rewrite <- Htr. destruct Hk2 as (_ & _ & _ & Hk2). replace (ks + KSTACKSIZE - sizeof_trapframe - 4) with (ks + 4 * 1004) by (unfold KSTACKSIZE, sizeof_trapframe; lia). apply Hk2; [left|lia].
Qed.

Lemma pt_inv_hw c m h pgdir tabs E G l : pt_inv c m pgdir tabs E G l -> runs_on h c -> (lock_ready (mhw m) kmem_lock -> lock_ready h kmem_lock) -> pt_inv c (set_hw h m) pgdir tabs E G l.
Proof.
  intros Hpt Hr Hl. pose proof (pi_valid _ _ _ _ _ _ _ Hpt) as Hv. apply Forall_cons in Hv as [_ Hv]. apply Forall_app in Hv as [_ Hv]. eapply pt_inv_frame; [exact Hpt| |exact (pi_free _ _ _ _ _ _ _ Hpt)|done|exact (pi_nodup _ _ _ _ _ _ _ Hpt)|exact Hv|done].
  split; [done|]. intros Hu. apply Hl. by apply (pi_ready _ _ _ _ _ _ _ Hpt).
Qed.
(** The kernel [k'] after [userinit] has run on processor [c] in [k], with the pages [l]
    free before it: process 0 in its slot, the page [pg] of its memory, the tables [tabs]
    and the mappings [E] of its page table, and the free pages [l'] that are left. *)
Record made_first (c : nat) (k k' : kst F) (f : F) (G l : list Z) (pr : proc) (pg : Z) (tabs : gmap Z Z) (E : gmap Z Z) (l' : list Z) : Prop := {
  mf_slot : procs (kp k') !! 0%nat = Some pr;
  mf_others : forall p, p <> 0%nat -> procs (kp k') !! p = procs (kp k) !! p;
  mf_queue : runq (kp k') (spec_enqueue 0 0 (replicate 20 []));
  mf_globals : kg k' = set_pqueue_ready 1 (set_initproc (Some 0%nat) (set_nextpid (i32 (nextpid (kg k) + 1)) (kg k)));
  mf_files : kf k' = f;
  mf_hw : runs_on (kh k') c /\ lock_ready (kh k') ptable_lock /\ hw_view (kh k') = hw_view (kh k);
  mf_proc : p_state pr = RUNNABLE /\ p_pid pr = nextpid (kg k) /\ p_killed pr = 0 /\ p_sz pr = PGSIZE /\ p_tfr pr = init_tf;
  mf_frame : tf_cs (p_tfr pr) = 27 /\ tf_ds (p_tfr pr) = 35 /\ tf_es (p_tfr pr) = 35 /\ tf_ss (p_tfr pr) = 35 /\ tf_eflags (p_tfr pr) = 512 /\ tf_esp (p_tfr pr) = 4096 /\ tf_eip (p_tfr pr) = 0;
  mf_stack : p_tf pr = p_kstack pr + KSTACKSIZE - sizeof_trapframe /\ p_context pr = p_tf pr - 4 - sizeof_context /\ p_ctx pr = mkctx 0 0 0 0 forkret_pc /\ ld (mem (km k')) (p_tf pr - 4) = trapret;
  mf_page : one_page (mem (km k')) (p_pgdir pr) pg;
  mf_code : coupled k' pr (store_bytes ∅ 0 initcode);
  mf_table : pt_inv c (km k') (p_pgdir pr) tabs E (pg :: p_kstack pr :: G) l';
  mf_kernel : forall va, page_addr va -> va <> 0 -> E !! va = kernel_pte (kdata (km k)) va;
  mf_pages : p_pgdir pr :: tab_pages tabs ++ pg :: p_kstack pr :: l' ≡ₚ l }.

Lemma userinit_run c (k : kst F) G l cwd f :
  runs_on (kh k) c -> lock_ready (kh k) ptable_lock -> heap_inv c (km k) G l -> data_ok (kdata (km k)) -> (1028 <= length l)%nat ->
  boot_table (kp k) -> pqueue_ready (kg k) = 0 -> Z.of_nat (length initcode) < PGSIZE -> (forall k', kf k' = kf k -> namei_root k' = Ret cwd (set_kf f k')) ->
  exists k' pr pg tabs E l', userinit k = Ret tt k' /\ made_first c k k' f G l pr pg tabs E l'.
Proof.
  intros Hr Hl Hh Hd Hn Hb Hg Hi Hroot. destruct l as [|ks l]; [cbn in Hn; lia|]. cbn in Hn.
  destruct (userinit_head c k G ks l cwd f Hr Hl Hh Hd ltac:(lia) Hb Hi Hroot) as (m & pgdir & tabs & E & pg & l' & -> & Hpt & HE0 & HE & Hperm & Hlk & Hv & Htr & Hbytes).
  destruct (procs (kp k) !! 0%nat) as [pr0|] eqn:E0; [|destruct Hb as (Hlen & _); apply lookup_ge_None in E0; rewrite Hlen in E0; change (Z.to_nat NPROC) with 64%nat in E0; lia]. set (pid := nextpid (kg k)). set (pr1 := first_proc pid ks pgdir cwd pr0).
  rewrite (alter_ext_Some (first_proc pid ks pgdir cwd) (fun _ => pr1) 0%nat (procs (kp k)) pr0 E0 eq_refl). set (g := set_initproc _ _).
  destruct (userinit_tail_run (set_kf f k) c m (kp k) pr1 g) as (k' & h & Hrun & Hrq & Hps & Hkm & Hrh & Hlh & Hkg & Hpl & Hvh & Hkf); [apply (pi_ready _ _ _ _ _ _ _ Hpt)|exact Hlk|exact Hb|done|exact Hg|done|].
  pose proof (pt_inv_hw c m h pgdir tabs E _ l' Hpt Hrh Hlh) as Hpt'. rewrite <- Hkm in Hpt'. pose proof (pt_one_page c (km k') pgdir tabs E (ks :: G) l' pg Hpt' HE0) as Hone. assert (Em : mem (km k') = mem m) by (by rewrite Hkm).
  assert (Hpr : procs (kp k') !! 0%nat = Some (set_p_state RUNNABLE (set_p_priority 0 pr1))) by (by rewrite Hps, list_lookup_alter_eq, E0). assert (Hk0 : p_killed pr0 = 0) by (destruct Hb as (_ & Hf & _); rewrite Forall_lookup in Hf; apply (Hf _ _ E0)).
  exists k', (set_p_state RUNNABLE (set_p_priority 0 pr1)), pg, tabs, E, l'. split; [exact Hrun|]. assert (Eh : kh k' = h) by (unfold kh; by rewrite Hkm).
  split; [exact Hpr|intros p Hp; by rewrite Hps, list_lookup_alter_ne|exact Hrq|exact Hkg|exact Hkf| |done|by split_and!|split; [done|]; split; [done|]; split; [done|]; rewrite Em; exact Htr|exact Hone| |exact Hpt'|exact HE|].
  - rewrite Eh. split; [done|]. split; [done|]. rewrite Hvh. exact (f_equal snd Hv).
  - intros va Hva. change (p_sz (set_p_state RUNNABLE (set_p_priority 0 pr1))) with PGSIZE in Hva. change (p_pgdir (set_p_state RUNNABLE (set_p_priority 0 pr1))) with pgdir. rewrite (one_page_peek _ _ _ va Hone Hva), Em, Hbytes by (unfold PGSIZE in Hva; lia). f_equal. rewrite ld8_store_bytes, Z.sub_0_r. destruct (zget initcode va); [done|]. unfold ld8, ld. rewrite lookup_empty. simpl. by rewrite Z.shiftr_0_l.
  - change (pgdir :: tab_pages tabs ++ pg :: ks :: l' ≡ₚ ks :: l). rewrite <- Hperm, (Permutation_swap pgdir ks). f_equiv. rewrite (Permutation_swap ks pg). by rewrite <- (Permutation_middle (tab_pages tabs) (pg :: l') ks).
Qed.

End alloc.

(** ** Properties *)

(** C13. [userinit] makes the first process.  In a kernel with an empty process table,
    1028 free pages and an initcode of less than a page, it returns, and then slot 0 is
    runnable and the only one in the run queue; it has a kernel stack prepared so that
    its first switch goes through [forkret] and [trapret] into a frame that starts user
    code at address 0 with the stack at the end of the page and interrupts on; its
    page table maps the kernel as [setupkvm] does and at address 0 one page, in which the
    processor sees the initcode, followed by zeros; and exactly these pages have been
    taken from the allocator. *)
Theorem userinit_spec {F} `{!FileOps F} `{!Image} c (k : kst F) G l :
  runs_on (kh k) c -> lock_ready (kh k) ptable_lock -> heap_inv c (km k) G l -> data_ok (kdata (km k)) -> (1028 <= length l)%nat ->
  boot_table (kp k) -> pqueue_ready (kg k) = 0 -> Z.of_nat (length initcode) < PGSIZE -> (exists cwd f, forall k', kf k' = kf k -> namei_root k' = Ret cwd (set_kf f k')) ->
  exists k' f pr pg tabs E l', userinit k = Ret tt k' /\ made_first c k k' f G l pr pg tabs E l'.
Proof.
  intros Hr Hl Hh Hd Hn Hb Hg Hi (cwd & f & Hroot). destruct (userinit_run c k G l cwd f Hr Hl Hh Hd Hn Hb Hg Hi Hroot) as (k' & pr & pg & tabs & E & l' & Hm). by exists k', f, pr, pg, tabs, E, l'.
Qed.

(** ** Example: a kernel with 1028 free pages *)

Definition boot_pages (n : nat) (p : Z) : list Z := (fun i => p + 4096 * Z.of_nat i) <$> seq 0 n.
Fixpoint chain (n : nat) (p : Z) : gmap Z Z :=
  match n with O => ∅ | S n => st (chain n (p + 4096)) p (match n with O => 0 | S _ => p + 4096 end) end.

Lemma boot_pages_S n p : boot_pages (S n) p = p :: boot_pages n (p + 4096).
Proof. unfold boot_pages. cbn [seq fmap list_fmap]. rewrite <- seq_shift. f_equal; [lia|]. rewrite <- list_fmap_compose. apply list_fmap_ext. intros i x _. cbn. lia. Qed.

Lemma boot_pages_ge n p q : q ∈ boot_pages n p -> exists i, (i < n)%nat /\ q = p + 4096 * Z.of_nat i.
Proof. intros (i & -> & Hi)%list_elem_of_fmap. apply elem_of_seq in Hi. exists i. split; [lia|done]. Qed.

Lemma chain_rep n p : freelist_rep (chain n p) (match n with O => 0 | S _ => p end) (boot_pages n p).
Proof.
  revert p. induction n as [|n IH]; intros p; [done|]. rewrite boot_pages_S. cbn [chain freelist_rep]. split; [done|]. rewrite ld_st_eq. eapply freelist_rep_frame; [|exact (IH (p + 4096))]. intros q (i & _ & ->)%boot_pages_ge. apply ld_st_ne. lia.
Qed.

Definition boot_kst : kst unit :=
  mkkst (mkmach (mkhw [mkcpu 0 0 0 None] 0 0 {[ ptable_lock := mklock 0 "ptable" None; kmem_lock := mklock 0 "kmem" None ]}) (chain 1028 0x80400000) 1 0x80400000 0x80110000 0x80108000)
    (empty_rings (replicate 64 proc0)) (mkmuxtab [] []) (mkshmtab 0 []) (mkglobals 1 None 0 1 0 1 0x803ff000) tt (replicate 1 (mkcpuregs [] 0 0 0 0 0 0)).

Lemma boot_heap : heap_inv 0 (km boot_kst) [] (boot_pages 1028 0x80400000).
Proof.
  assert (Hnd : NoDup (boot_pages 1028 0x80400000)) by (apply NoDup_fmap_2; [intros i i' Hii; lia|apply NoDup_seq]).
  split; [|split; [split; [exact (chain_rep 1028 0x80400000)|split; [exact Hnd|]]|split; [done|split; [exact Hnd|done]]]].
  - split; [split; [done|]; eexists; split; [reflexivity|]; split; [cbn; lia|cbn; lia]|]. intros _. by exists "kmem".
  - apply Forall_forall. intros q (i & Hi & ->)%boot_pages_ge. unfold valid_page. cbn [kend boot_kst km]. replace (0x80400000 + 4096 * Z.of_nat i) with ((0x80400 + Z.of_nat i) * 4096) by lia. rewrite Z.mod_mul by done.
    rewrite V2P_eq by (unfold KERNBASE, two32; lia). unfold KERNBASE, PHYSTOP, two32. lia.
Qed.

Lemma userinit_spec_witness : exists k', @userinit unit wit_files wit_image boot_kst = Ret tt k' /\ runq (kp k') (spec_enqueue 0 0 (replicate 20 [])).
Proof.
  destruct (@userinit_spec unit wit_files wit_image 0 boot_kst [] (boot_pages 1028 0x80400000)) as (k' & f & pr & pg & tabs & E & l' & Hrun & Hm).
  - split; [done|]. eexists. split; [reflexivity|]. split; cbn; lia.
  - by exists "ptable".
  - exact boot_heap.
  - split; [done|reflexivity].
  - unfold boot_pages. rewrite length_fmap, length_seq. lia.
  - split; [done|]. split; [apply Forall_replicate; done|]. split; [done|]. apply Forall_replicate. done.
  - reflexivity.
  - vm_compute. reflexivity.
  - exists 0, tt. intros k _. by destruct k as [? ? ? ? ? [] ?].
  - exists k'. split; [exact Hrun|exact (mf_queue _ _ _ _ _ _ _ _ _ _ _ Hm)].
Defined.
