(* ===== verification/FileSpec.v ===== *)
(** * Open files: reference counts and the log

    The reference count of an entry of the file table is the number of
    descriptors, of all processes, that point to it; every system call of
    sysfile.c keeps this.  And the size of the pieces in which [filewrite] writes
    is too large for the log. *)

From Stdlib Require Import ZArith Lia.
From stdpp Require Import base numbers strings gmap list.
From S2P Require Import Prelude.
From S2P Require Import Machine.
From S2P Require Import Spinlock.
From S2P Require Import Kalloc.
From S2P Require Import Vm.
From S2P Require Import KState.
From S2P Require Import PQueue.
From S2P Require Import Proc.
From S2P Require Import SchedSys.
From S2P Require Import Args.
From S2P Require Import ArgsSpec.
From S2P Require Import Pipe.
From S2P Require Import FState.
From S2P Require Import Blocks.
From S2P Require Import Bio.
From S2P Require Import Log.
From S2P Require Import Fs.
From S2P Require Import FsPath.
From S2P Require Import File.
From S2P Require Import Sysfile.
From S2P Require Import Exec.
From S2P Require Import Frames.

Local Open Scope string_scope.
Local Open Scope list_scope.
Local Open Scope Z_scope.

(** ** Counting descriptors *)

Fixpoint occ (h : Z) (l : list Z) : Z :=
  match l with [] => 0 | x :: l => (if x =? h then 1 else 0) + occ h l end.
Fixpoint occs (h : Z) (t : list (list Z)) : Z :=
  match t with [] => 0 | l :: t => occ h l + occs h t end.

(** What writing [y] over [x] does to the count of [h]. *)
Definition swap_occ (h x y : Z) : Z := (if y =? h then 1 else 0) - (if x =? h then 1 else 0).

Lemma occ_insert h l i x y : l !! i = Some x -> occ h (<[i := y]> l) = occ h l + swap_occ h x y.
Proof.
  revert i. induction l as [|z l IH]; intros [|i] H; try done; simpl in *.
  - injection H as ->. unfold swap_occ. lia.
  - rewrite (IH i H). lia.
Qed.
Lemma occs_insert h t p l i x y :
  t !! p = Some l -> l !! i = Some x -> occs h (<[p := <[i := y]> l]> t) = occs h t + swap_occ h x y.
Proof.
  revert p. induction t as [|z t IH]; intros [|p] Hp Hi; try done; simpl in *.
  - injection Hp as ->. rewrite (occ_insert h l i x y Hi). lia.
  - rewrite (IH p Hp Hi). lia.
Qed.

Lemma handle_inj i j : handle i = handle j -> i = j.
Proof. unfold handle. lia. Qed.
Lemma index_handle i : index (handle i) = i.
Proof. unfold index, handle. destruct (Z.eqb_spec (Z.of_nat i + 1) 0); lia. Qed.

(** ** The balance

    [balanced δ]: the count of every file is the number of descriptors that
    point to it and [δ] more, which is what the running system call holds in its
    local variables; and every descriptor that is not null points into the
    table. *)
Definition balanced (δ : nat -> Z) (t : list (list Z) * list Z) : Prop :=
  (forall i r, t.2 !! i = Some r -> r = occs (handle i) t.1 + δ i) /\
  (forall p l fd h, t.1 !! p = Some l -> l !! fd = Some h -> h = 0 \/ exists i, h = handle i /\ (i < length t.2)%nat).

Definition none : nat -> Z := fun _ => 0.
Definition at_file (i : nat) (n : Z) (δ : nat -> Z) : nat -> Z := fun j => δ j + (if bool_decide (i = j) then n else 0).

Lemma balanced_ext δ δ' t : (forall i, δ i = δ' i) -> balanced δ t -> balanced δ' t.
Proof. intros E [H1 H2]. split; [|done]. intros i r H. rewrite <- E. by apply H1. Qed.

(** A count changes. *)
Lemma balanced_ref δ T R i n :
  balanced δ (T, R) -> balanced (at_file i n δ) (T, alter (fun r => r + n) i R).
Proof.
  intros [H1 H2]. split; simpl in *.
  - intros j r Hj. unfold at_file. case_bool_decide as E.
    + subst j. rewrite list_lookup_alter_eq in Hj. destruct (R !! i) as [r0|] eqn:E0; [|done]. injection Hj as <-.
      rewrite (H1 i r0 E0). lia.
    + rewrite list_lookup_alter_ne in Hj by done. rewrite (H1 j r Hj). lia.
  - intros p l fd h Hp Hl. rewrite length_alter. eauto.
Qed.

(** A descriptor changes from [x] to [y]; a null pointer counts for no file. *)
Definition drop_ref (h : Z) (n : Z) (δ : nat -> Z) : nat -> Z := if h =? 0 then δ else at_file (index h) n δ.

Lemma drop_ref_spec h n δ j :
  h = 0 \/ (exists i, h = handle i) -> drop_ref h n δ j = δ j + n * (if h =? handle j then 1 else 0).
Proof.
  intros [->|[i ->]]; unfold drop_ref.
  - rewrite Z.eqb_refl. destruct (Z.eqb_spec 0 (handle j)); [unfold handle in *; lia|lia].
  - destruct (Z.eqb_spec (handle i) 0); [unfold handle in *; lia|]. rewrite index_handle. unfold at_file.
    case_bool_decide as E; destruct (Z.eqb_spec (handle i) (handle j)) as [E'|E']; try lia.
    + subst. done.
    + by apply handle_inj in E'.
Qed.

Lemma balanced_fd δ T R p l fd x y :
  balanced δ (T, R) -> T !! p = Some l -> l !! fd = Some x -> y = 0 \/ (exists i, y = handle i /\ (i < length R)%nat) ->
  balanced (drop_ref y (-1) (drop_ref x 1 δ)) (<[p := <[fd := y]> l]> T, R).
Proof.
  intros [H1 H2] Hp Hl Hy. simpl in *. assert (Hx := H2 p l fd x Hp Hl). split; simpl.
  - intros i r Hr. rewrite (occs_insert _ _ _ _ _ _ _ Hp Hl), (H1 i r Hr).
    rewrite !drop_ref_spec by (destruct Hx as [|(? & ? & ?)], Hy as [|(? & ? & ?)]; eauto).
    unfold swap_occ. lia.
  - intros q m fd' h Hq Hm. destruct (decide (p = q)) as [<-|Hne].
    + rewrite list_lookup_insert_eq in Hq by (by eapply lookup_lt_Some). injection Hq as <-.
      destruct (decide (fd = fd')) as [<-|Hne'].
      * rewrite list_lookup_insert_eq in Hm by (by eapply lookup_lt_Some). by injection Hm as <-.
      * rewrite list_lookup_insert_ne in Hm by done. eauto.
    + rewrite list_lookup_insert_ne in Hq by done. eauto.
Qed.

(** ** The operations of the file table *)

Definition shifts (n : Z) (i : nat) (s s' : fstate) : Prop := fl_refs s' = alter (fun r => r + n) i (fl_refs s).

Lemma updf_refs i f n s :
  (forall x, f_files s !! i = Some x -> fl_ref (f x) = fl_ref x + n) ->
  fl_refs (set_f_files (alter f i (f_files s)) s) = alter (fun r => r + n) i (fl_refs s).
Proof.
  intros H. unfold fl_refs. simpl. apply list_eq. intros j. rewrite list_lookup_fmap. destruct (decide (i = j)) as [<-|Hne].
  - rewrite !list_lookup_alter_eq, list_lookup_fmap. destruct (f_files s !! i) as [x|] eqn:E; [|done]. simpl. by rewrite H.
  - by rewrite !list_lookup_alter_ne, list_lookup_fmap.
Qed.

Lemma filealloc_refs s o s' :
  filealloc s = Ret o s' ->
  match o with None => s' = s | Some i => shifts 1 i s s' /\ (i < length (fl_refs s))%nat end.
Proof.
  unfold filealloc. rewrite bind_gets. destruct (find_first _ _) as [i|] eqn:E; [|by intros [= <- <-]].
  intros [= <- <-]. apply find_first_Some in E as [(x & Hx & Hr) _]. apply lookup_take_Some in Hx as [Hx _]. split.
  - apply updf_refs. intros y Hy. rewrite Hx in Hy. injection Hy as <-. simpl. apply Z.eqb_eq in Hr. lia.
  - unfold fl_refs. rewrite length_fmap. by eapply lookup_lt_Some.
Qed.

Lemma filedup_refs i s j s' : filedup i s = Ret j s' -> j = i /\ shifts 1 i s s'.
Proof.
  unfold filedup, getf. rewrite bind_assoc_run, bind_get. destruct (f_files s !! i) as [f|] eqn:E; [|done]. rewrite bind_some.
  unfold unless_panic. rewrite bind_run. destruct (_ <? _); [done|]. intros [= <- <-]. split; [done|]. by apply updf_refs.
Qed.

Lemma fileclose_drop_refs i s o s' : fileclose_drop i s = Ret o s' -> shifts (-1) i s s'.
Proof.
  unfold fileclose_drop, getf. rewrite bind_assoc_run, bind_get. destruct (f_files s !! i) as [f|] eqn:E; [|done]. rewrite bind_some.
  unfold unless_panic. rewrite bind_run. destruct (Z.ltb_spec (fl_ref f) 1); [done|]. simpl.
  unfold updf. rewrite bind_modify. destruct (Z.ltb_spec 0 (fl_ref f - 1)).
  - intros [= <- <-]. by apply updf_refs.
  - rewrite bind_assoc_run, bind_get. simpl. rewrite list_lookup_alter_eq, E. simpl. rewrite bind_some. intros [= <- <-].
    unfold shifts. rewrite <- (updf_refs i (fun f => set_fl_ref (fl_ref f - 1) f) (-1) s) by done.
    unfold fl_refs. simpl. apply list_eq. intros j. rewrite !list_lookup_fmap.
    destruct (decide (i = j)) as [<-|Hne].
    + rewrite !list_lookup_alter_eq, E. simpl. f_equal. lia.
    + by rewrite !list_lookup_alter_ne.
Qed.

(** What is held in local variables, up to order. *)
Ltac rebalance := eapply balanced_ext; [|eassumption]; intros ?; unfold at_file, none; repeat case_bool_decide; lia.

(** ** Assertions on the kernel state *)

Section calls.
Context {Hd : Devsw} {Hdf : DevswFiles} (stack : list Z).

Definition triple {A} (P : kern -> Prop) (m : M kern A) (Q : A -> kern -> Prop) : Prop :=
  forall k a k', P k -> m k = Ret a k' -> Q a k'.

Lemma triple_bind {A B} P (m : M kern A) Q (f : A -> M kern B) R :
  triple P m Q -> (forall a, triple (Q a) (f a) R) -> triple P (m ≫= f) R.
Proof.
  intros Hm Hf k b k' HP H. rewrite bind_run in H. destruct (m k) as [a k1| | |] eqn:E; try done. by eapply Hf; [eapply Hm|].
Qed.
Lemma triple_ret {A} (a : A) (P : kern -> Prop) (Q : A -> kern -> Prop) : (forall k, P k -> Q a k) -> triple P (mret a) Q.
Proof. intros HQ k b k' HP H. injection H as <- <-. by apply HQ. Qed.
Lemma triple_pre {A} P P' (m : M kern A) Q : (forall k, P' k -> P k) -> triple P m Q -> triple P' m Q.
Proof. intros HP Hm k a k' Hk H. by eapply Hm; [apply HP|]. Qed.
Lemma triple_leaves {A} (P : list (list Z) * list Z -> Prop) (m : M kern A) :
  leaves tables m -> triple (fun k => P (tables k)) m (fun _ k => P (tables k)).
Proof. intros Hm k a k' Hk H. by rewrite (Hm _ _ _ H). Qed.

Definition bal (δ : nat -> Z) (k : kern) : Prop := balanced δ (tables k).
Definition valid (i : nat) (k : kern) : Prop := (i < length (tables k).2)%nat.
(** Descriptor [fd] of the current process points to file [f]. *)
Definition fd_is (fd : nat) (f : nat) (k : kern) : Prop :=
  exists p l, kcur k = Some p /\ (tables k).1 !! p = Some l /\ l !! fd = Some (handle f).

Lemma on_fs_ret {A} (m : M fstate A) k a k' :
  on_fs m k = Ret a k' ->
  exists s s', m s = Ret a s' /\ fl_refs s = fl_refs (fi_fs (kf k)) /\
    tables k' = ((tables k).1, fl_refs s').
Proof.
  unfold on_fs. rewrite bind_run. destruct (curproc k) as [[p pr] k1| | |] eqn:E; try done.
  apply curproc_ret in E as (_ & _ & _ & E1 & E2). unfold zoom. destruct (m _) as [b s'| | |] eqn:E; try done. intros [= <- <-].
  eexists _, s'. split; [done|]. simpl. unfold fl_refs at 1. simpl. unfold tables. simpl. by rewrite E1, E2.
Qed.

Lemma on_fs_shift {A} (m : M fstate A) n (i : nat) δ :
  (forall s a s', m s = Ret a s' -> shifts n i s s') -> triple (bal δ) (on_fs m) (fun _ => bal (at_file i n δ)).
Proof.
  intros Hm k a k' Hk H. apply on_fs_ret in H as (s & s' & H & E & Et). apply Hm in H. unfold bal. rewrite Et, H, E.
  by apply balanced_ref.
Qed.

Lemma filealloc_triple δ :
  triple (bal δ) (on_fs filealloc)
    (fun o k => match o with None => bal δ k | Some i => bal (at_file i 1 δ) k /\ valid i k end).
Proof.
  intros k o k' Hk H. apply on_fs_ret in H as (s & s' & H & E & Et). apply filealloc_refs in H. unfold bal, valid. rewrite Et.
  destruct o as [i|].
  - destruct H as [H Hl]. rewrite H, E. split; [by apply balanced_ref|]. simpl. by rewrite length_alter, <- E.
  - subst s'. by rewrite E.
Qed.

Lemma fileclose_last_tables ff : leaves tables (fileclose_last ff).
Proof. unfold fileclose_last. destruct (fl_type ff); leave. Qed.
Hint Resolve fileclose_last_tables : frames.

Lemma fileclose_ofiles i k u k' : File.fileclose i k = Ret u k' -> (tables k').1 = (tables k).1.
Proof.
  unfold File.fileclose. rewrite bind_run. destruct (on_fs _ k) as [o k1| | |] eqn:E; try done.
  apply on_fs_ret in E as (s & s' & _ & _ & E). destruct o as [ff|]; intros H.
  - apply fileclose_last_tables in H. by rewrite H, E.
  - injection H as <- <-. by rewrite E.
Qed.

Lemma fileclose_triple i δ : triple (bal δ) (fileclose i) (fun _ => bal (at_file i (-1) δ)).
Proof.
  unfold fileclose. eapply triple_bind; [apply on_fs_shift; intros s a s'; apply fileclose_drop_refs|].
  intros o. eapply (triple_leaves (balanced _)). leave.
Qed.

Lemma filedup_triple i δ : triple (bal δ) (on_fs (filedup i)) (fun _ => bal (at_file i 1 δ)).
Proof. apply on_fs_shift. intros s a s' H. by apply filedup_refs in H as [_ H]. Qed.

(** Writing a descriptor of the current process. *)
Lemma updp_ofile_tables p fd h (k : kern) l u k' :
  (tables k).1 !! p = Some l -> updp p (fun q => set_p_ofile (<[fd := h]> (p_ofile q)) q) k = Ret u k' ->
  tables k' = (<[p := <[fd := h]> l]> (tables k).1, (tables k).2) /\ kcur k' = kcur k.
Proof.
  intros Hl H. unfold updp in H. rewrite bind_run in H. unfold getp in H. rewrite bind_get in H.
  destruct (procs (kp k) !! p) as [pr|] eqn:E; [|done]. injection H as <- <-. split; [|done]. unfold tables in *. simpl in *.
  rewrite list_lookup_fmap, E in Hl. injection Hl as <-. f_equal. apply list_eq. intros j. rewrite list_lookup_fmap.
  destruct (decide (p = j)) as [<-|Hne].
  - rewrite list_lookup_alter_eq, E, list_lookup_insert_eq; [done|]. rewrite length_fmap. by eapply lookup_lt_Some.
  - by rewrite list_lookup_alter_ne, list_lookup_insert_ne, list_lookup_fmap.
Qed.

Lemma curproc_tables_ret (k : kern) p pr k' :
  curproc k = Ret (p, pr) k' -> tables k' = tables k /\ kcur k = Some p /\ kcur k' = Some p /\ (tables k).1 !! p = Some (p_ofile pr).
Proof.
  intros H. apply curproc_ret in H as (E1 & E2 & E3 & E4 & E5). unfold tables. rewrite E4, E5. simpl.
  by rewrite list_lookup_fmap, E3.
Qed.

Lemma fdalloc_ret f (k : kern) r k' :
  fdalloc f k = Ret r k' ->
  (r = -1 /\ tables k' = tables k /\ kcur k' = kcur k) \/
  (exists p l fd, r = Z.of_nat fd /\ kcur k' = Some p /\ (tables k).1 !! p = Some l /\ l !! fd = Some 0 /\
    tables k' = (<[p := <[fd := handle f]> l]> (tables k).1, (tables k).2)).
Proof.
  unfold fdalloc. rewrite bind_run. destruct (curproc k) as [[p pr] k1| | |] eqn:E; try done.
  apply curproc_tables_ret in E as (E1 & E2 & E3 & E4). destruct (find_first _ _) as [fd|] eqn:Ef.
  - rewrite bind_run. destruct (updp _ _ k1) as [u k2| | |] eqn:Eu; try done. intros [= <- <-]. right.
    rewrite <- E1 in E4. destruct (updp_ofile_tables _ _ _ _ _ _ _ E4 Eu) as [Et Ec]. rewrite <- E1.
    apply find_first_Some in Ef as [(x & Hx & Hr) _]. apply lookup_take_Some in Hx as [Hx _]. apply Z.eqb_eq in Hr as ->.
    exists p, (p_ofile pr), fd. by rewrite Ec.
  - intros [= <- <-]. left. by rewrite E2.
Qed.

(** [P] is kept when there is no descriptor; [g] is another file. *)
Lemma fdalloc_triple f g δ (P : kern -> Prop) :
  (forall k k', P k -> tables k' = tables k -> kcur k' = kcur k -> P k') ->
  triple (fun k => bal δ k /\ valid f k /\ valid g k /\ P k) (fdalloc f)
    (fun r k => (r < 0 /\ bal δ k /\ P k) \/ (0 <= r /\ bal (at_file f (-1) δ) k /\ valid g k /\ fd_is (Z.to_nat r) f k)).
Proof.
  intros HP k r k' (Hb & Hv & Hg & Hk) H. apply fdalloc_ret in H as [(-> & E1 & E2)|(p & l & fd & -> & E1 & E2 & E3 & E4)].
  - left. split; [lia|]. unfold bal. rewrite E1. eauto.
  - right. split; [lia|]. split.
    + unfold bal. rewrite E4. eapply balanced_ext; [|eapply (balanced_fd δ _ _ p l fd 0 (handle f)); eauto].
      intros j. unfold drop_ref. simpl. destruct (Z.eqb_spec (handle f) 0); [unfold handle in *; lia|]. by rewrite index_handle.
    + split; [unfold valid in *; by rewrite E4|]. exists p, (<[fd := handle f]> l). rewrite Nat2Z.id, E4. simpl. split; [done|]. split.
      * apply list_lookup_insert_eq. by eapply lookup_lt_Some.
      * apply list_lookup_insert_eq. by eapply lookup_lt_Some.
Qed.

Lemma set_ofile_triple fd f δ : triple (fun k => bal δ k /\ fd_is fd f k) (set_ofile fd 0) (fun _ => bal (at_file f 1 δ)).
Proof.
  intros k u k' [Hb (p & l & E1 & E2 & E3)] H. unfold set_ofile in H. rewrite bind_run in H.
  destruct (curproc k) as [[q pr] k1| | |] eqn:E; try done. apply curproc_tables_ret in E as (F1 & F2 & F3 & F4).
  rewrite E1 in F2. injection F2 as <-. rewrite E2 in F4. injection F4 as ->. rewrite <- F1 in E2.
  destruct (updp_ofile_tables _ _ _ _ _ _ _ E2 H) as [Et _]. unfold bal. rewrite Et, F1.
  eapply balanced_ext; [|eapply (balanced_fd δ _ _ p (p_ofile pr) fd (handle f) 0); eauto].
  - intros j. unfold drop_ref. simpl. destruct (Z.eqb_spec (handle f) 0); [unfold handle in *; lia|]. by rewrite index_handle.
  - by rewrite <- F1.
Qed.

Lemma argfd_triple n δ :
  triple (bal δ) (argfd n)
    (fun o k => bal δ k /\ match o with None => True | Some (fd, f) => 0 <= fd /\ valid f k /\ fd_is (Z.to_nat fd) f k end).
Proof.
  unfold argfd. eapply triple_bind; [apply (triple_leaves (balanced δ)); leave|]. intros [fd|]; [|by apply triple_ret].
  intros k o k' Hk H. rewrite bind_run in H. destruct (curproc k) as [[p pr] k1| | |] eqn:E; try done.
  apply curproc_tables_ret in E as (F1 & F2 & F3 & F4). rewrite <- F1 in Hk, F4.
  destruct (Z.ltb_spec fd 0); [by injection H as <- <-|]. destruct (NOFILE <=? fd); [by injection H as <- <-|]. simpl in H.
  destruct (zget (p_ofile pr) fd) as [h|] eqn:Eg; [|done]. rewrite bind_some in H. apply zget_Some in Eg as [_ Eg].
  destruct (Z.eqb_spec h 0); [by injection H as <- <-|]. injection H as <- <-. split; [done|]. split; [done|].
  destruct Hk as [_ Hk]. destruct (Hk p (p_ofile pr) (Z.to_nat fd) h F4 Eg) as [|(i & -> & Hi)]; [done|].
  rewrite index_handle. split; [done|]. by exists p, (p_ofile pr).
Qed.

(** ** The system calls *)

Lemma at_file_cancel i n δ : forall j, at_file i n (at_file i (- n) δ) j = δ j.
Proof. intros j. unfold at_file. case_bool_decide; lia. Qed.
Lemma bal_cancel i n m δ k : m = - n -> bal (at_file i n (at_file i m δ)) k -> bal δ k.
Proof. intros -> H. by eapply balanced_ext; [apply at_file_cancel|]. Qed.

Lemma triple_consequence {A} P (m : M kern A) (Q Q' : A -> kern -> Prop) :
  triple P m Q -> (forall a k, Q a k -> Q' a k) -> triple P m Q'.
Proof. intros Hm HQ k a k' HP H. eapply HQ, Hm; eauto. Qed.

Lemma triple_frame {A} δ (m : M kern A) : leaves tables m -> triple (bal δ) m (fun _ => bal δ).
Proof. apply (triple_leaves (balanced δ)). Qed.

Lemma close_triple i δ : triple (bal (at_file i 1 δ)) (fileclose i) (fun _ => bal δ).
Proof. eapply triple_consequence; [apply fileclose_triple|]. intros u k. by apply bal_cancel. Qed.

Lemma sys_dup_triple : triple (bal none) sys_dup (fun _ => bal none).
Proof.
  unfold sys_dup. eapply triple_bind; [apply argfd_triple|]. intros [[fd f]|]; [|apply triple_ret; tauto].
  eapply triple_bind.
  { eapply triple_pre, (fdalloc_triple f f none (fun _ => True)); [|done]. intros k (Hb & _ & Hv & _). done. }
  intros r. simpl. destruct (Z.ltb_spec r 0).
  - apply triple_ret. intros k [(_ & Hb & _)|(? & _)]; [done|lia].
  - eapply triple_bind with (Q := fun _ => bal none).
    + eapply triple_pre, triple_consequence; [|apply (filedup_triple f (at_file f (-1) none))|].
      * intros k [(? & _)|(_ & Hb & _)]; [lia|done].
      * intros u k. by apply bal_cancel.
    + intros u. by apply triple_ret.
Qed.

Lemma sys_close_triple : triple (bal none) sys_close (fun _ => bal none).
Proof.
  unfold sys_close. eapply triple_bind; [apply argfd_triple|]. intros [[fd f]|]; [|apply triple_ret; tauto].
  eapply triple_bind; [eapply triple_pre, (set_ofile_triple (Z.to_nat fd) f none); tauto|]. intros u. simpl.
  eapply triple_bind; [apply close_triple|]. intros u'. by apply triple_ret.
Qed.

Lemma updf_refs_same i f : (forall x, fl_ref (f x) = fl_ref x) -> leaves fl_refs (updf i f).
Proof. intros Hf. apply leaves_modify. intros s. unfold fl_refs. simpl. by rewrite fmap_alter_same. Qed.
Lemma open_file_refs i ip om : leaves fl_refs (updf i (open_file ip om)).
Proof. by apply updf_refs_same. Qed.
Lemma set_pipe_file_refs i p r w : leaves fl_refs (updf i (set_pipe_file p r w)).
Proof. by apply updf_refs_same. Qed.
Lemma file_advance_refs i r : leaves fl_refs (file_advance i r).
Proof. unfold file_advance. destruct (0 <? r); [by apply updf_refs_same|leave]. Qed.
Lemma getf_files i : leaves f_files (getf i).
Proof. unfold getf. leave. Qed.
Hint Resolve open_file_refs set_pipe_file_refs file_advance_refs getf_files : frames.

Lemma sys_open_triple : triple (bal none) (sys_open stack) (fun _ => bal none).
Proof.
  unfold sys_open. eapply triple_bind; [apply triple_frame; leave|]. intros [path|]; [|by apply triple_ret].
  eapply triple_bind; [apply triple_frame; leave|]. intros [om|]; [|by apply triple_ret].
  eapply triple_bind; [apply triple_frame; leave|]. intros [ip|]; [|by apply triple_ret].
  eapply triple_bind; [apply filealloc_triple|]. intros [f|].
  - eapply triple_bind.
    { eapply triple_pre, (fdalloc_triple f f (at_file f 1 none) (fun _ => True)); [|done]. by intros k [? ?]. }
    intros r. destruct (Z.ltb_spec r 0).
    + eapply triple_bind; [eapply triple_pre, (close_triple f none)|intros u; apply triple_frame; leave].
      intros k [(_ & Hb & _)|(? & _)]; [done|lia].
    + eapply triple_pre, triple_frame; [|leave]. intros k [(? & _)|(_ & Hb & _)]; [lia|]. by apply (bal_cancel f (-1) 1).
  - simpl. eapply (triple_bind _ _ (fun _ => bal none)); [by apply triple_ret|]. intros r. simpl. apply triple_frame. leave.
Qed.

Lemma pipealloc_triple :
  triple (bal none) pipealloc (fun o k =>
    match o with
    | None => bal none k
    | Some (f0, f1) => bal (at_file f1 1 (at_file f0 1 none)) k /\ valid f0 k /\ valid f1 k
    end).
Proof.
  unfold pipealloc. eapply triple_bind; [apply filealloc_triple|]. intros [f0|]; [|by apply triple_ret].
  eapply triple_bind with (Q := fun o k => match o with
    | None => bal (at_file f0 1 none) k
    | Some f1 => bal (at_file f1 1 (at_file f0 1 none)) k /\ valid f0 k /\ valid f1 k end).
  { intros k o k' [Hb Hv] H. assert (Hl : length (tables k').2 = length (tables k).2).
    { apply on_fs_ret in H as (s & s' & H & E & ->). apply filealloc_refs in H. simpl. destruct o; [destruct H as [H _]|subst s'].
      - by rewrite H, length_alter, E.
      - by rewrite E. }
    apply (filealloc_triple _ _ _ _ Hb) in H. destruct o; [|done]. destruct H as [H1 H2]. unfold valid in *. split_and!; [done|by rewrite Hl|done]. }
  intros [f1|].
  - eapply (triple_bind _ _ (fun _ k => bal (at_file f1 1 (at_file f0 1 none)) k /\ valid f0 k /\ valid f1 k)).
    { apply (triple_leaves (fun t => balanced _ t /\ (f0 < length t.2)%nat /\ (f1 < length t.2)%nat)). leave. }
    intros p. destruct (p =? 0).
    + eapply triple_bind; [eapply triple_pre, (fileclose_triple f0 (at_file f1 1 (at_file f0 1 none))); tauto|]. intros u.
      eapply triple_bind; [apply fileclose_triple|]. intros u'. apply triple_ret. intros k Hb. rebalance.
    + do 4 (eapply triple_bind; [apply (triple_leaves (fun t => balanced _ t /\ (f0 < length t.2)%nat /\ (f1 < length t.2)%nat)); leave|intros ?]).
      by apply triple_ret.
  - eapply triple_bind; [apply close_triple|]. intros u. by apply triple_ret.
Qed.

Lemma sys_pipe_triple : triple (bal none) sys_pipe (fun _ => bal none).
Proof.
  unfold sys_pipe. eapply triple_bind; [apply triple_frame; leave|]. intros [a|]; [|by apply triple_ret].
  eapply triple_bind; [apply pipealloc_triple|]. intros [[rf wf]|]; [|by apply triple_ret].
  eapply triple_bind; [eapply triple_pre, (fdalloc_triple rf wf (at_file wf 1 (at_file rf 1 none)) (fun _ => True)); [tauto|done]|]. intros fd0.
  eapply (triple_bind _ _ (fun fd1 k => (fd1 < 0 /\ fd0 < 0 /\ bal (at_file wf 1 (at_file rf 1 none)) k) \/
     (fd1 < 0 /\ 0 <= fd0 /\ bal (at_file rf (-1) (at_file wf 1 (at_file rf 1 none))) k /\ fd_is (Z.to_nat fd0) rf k) \/
     (0 <= fd1 /\ bal none k))).
  { destruct (Z.ltb_spec fd0 0).
    - apply triple_ret. intros k [(_ & Hb & _)|(? & _)]; [left; done|lia].
    - eapply triple_consequence.
      { eapply triple_pre, (fdalloc_triple wf wf (at_file rf (-1) (at_file wf 1 (at_file rf 1 none))) (fd_is (Z.to_nat fd0) rf)).
        + intros k [(? & _)|(_ & Hb & Hv & Hf)]; [lia|]. done.
        + intros k k' (p & l & E1 & E2 & E3) Et Ec. exists p, l. by rewrite Et, Ec. }
      intros fd1 k [(? & ? & ?)|(? & Hb & _)]; [tauto|]. right; right. split; [done|]. rebalance. }
  intros fd1. destruct (Z.ltb_spec fd1 0).
  - eapply (triple_bind _ _ (fun _ => bal (at_file wf 1 (at_file rf 1 none)))).
    { destruct (Z.leb_spec 0 fd0).
      - eapply triple_pre, triple_consequence; [|apply set_ofile_triple|].
        + intros k [(_ & ? & _)|[(_ & _ & Hb & Hf)|(? & _)]]; [lia| |lia]. split; [exact Hb|exact Hf].
        + intros u k Hb. by apply (bal_cancel rf 1 (-1)).
      - apply triple_ret. intros k [(_ & _ & Hb)|[(_ & ? & _)|(? & _)]]; [done|lia|lia]. }
    intros u. eapply triple_bind; [apply fileclose_triple|]. intros u'. eapply triple_bind; [apply fileclose_triple|]. intros u''.
    apply triple_ret. intros k Hb. rebalance.
  - eapply triple_pre, triple_frame; [|leave]. intros k [(? & _)|[(? & _)|(_ & Hb)]]; [lia|lia|done].
Qed.

Lemma inode_read_refs i n : leaves fl_refs (inode_read i n).
Proof. unfold inode_read. leave. Qed.
Lemma inode_writes_refs fuel fi src i n : leaves fl_refs (inode_writes fuel fi src i n).
Proof. revert i. induction fuel as [|fuel IH]; intros i; simpl; unfold inode_write; leave. Qed.
Lemma filestat_files i : leaves f_files (filestat i).
Proof. unfold filestat. leave. Qed.
Lemma pipe_read_tables p a n : leaves tables (pipe_read p a n).
Proof.
  unfold pipe_read, curkilled. apply leaves_bind; [leave|]. intros x. apply leaves_bind; [leave|]. intros b.
  destruct (piperead b n x) as [[e chs] x']. leave.
Qed.
Lemma pipe_write_tables p a n : leaves tables (pipe_write p a n).
Proof.
  unfold pipe_write, curkilled. apply leaves_bind; [leave|]. intros x. apply leaves_bind; [leave|]. intros b.
  apply leaves_bind; [leave|]. intros bs. destruct (pipewrite b n bs x) as [[[e chs] bs'] x']. leave.
Qed.
Hint Resolve inode_read_refs inode_writes_refs filestat_files pipe_read_tables pipe_write_tables : frames.
Lemma arg_rw_tables : leaves tables arg_rw.
Proof. unfold arg_rw. leave. Qed.
Lemma make_tables o t ma mi : leaves tables (make stack o t ma mi).
Proof. unfold make. leave. Qed.
Hint Resolve arg_rw_tables make_tables : frames.

(** exec.c *)
Lemma readi_mem_tables ip a off n : leaves tables (readi_mem ip a off n).
Proof. unfold readi_mem. leave. Qed.
Hint Resolve readi_mem_tables : frames.
Lemma loaduvm_loop_tables ip fuel pgdir a off i sz : leaves tables (loaduvm_loop (@on_km fio) (readi_mem ip) fuel pgdir a off i sz).
Proof. revert i. induction fuel as [|fuel IH]; intros i; simpl; leave. Qed.
Hint Resolve loaduvm_loop_tables : frames.
Lemma load_segments_tables n ip pgdir off sz : leaves tables (load_segments n ip pgdir off sz).
Proof. revert off sz. induction n as [|n IH]; intros off sz; simpl; unfold loaduvm; leave. Qed.
Lemma push_args_tables argv argc pgdir sp addrs : leaves tables (push_args argv argc pgdir sp addrs).
Proof. revert argc sp addrs. induction argv as [|a argv IH]; intros argc sp addrs; simpl; leave. Qed.
Lemma exec_bad_tables pgdir ip : leaves tables (exec_bad pgdir ip).
Proof. unfold exec_bad. leave. Qed.
Lemma switchuvm_tables (o : option nat) : leaves tables (@switchuvm fio o).
Proof. unfold switchuvm. leave. Qed.
Hint Resolve load_segments_tables push_args_tables exec_bad_tables switchuvm_tables : frames.
Lemma exec_commit_tables path argv e pgdir sz : leaves tables (exec_commit path argv e pgdir sz).
Proof. unfold exec_commit. leave. Qed.
Hint Resolve exec_commit_tables : frames.
Lemma exec_tables path argv : leaves tables (exec stack path argv).
Proof. unfold exec. leave. Qed.
Lemma fetch_argv_tables n a i : leaves tables (fetch_argv n a i).
Proof. revert i. induction n as [|n IH]; intros i; simpl; unfold fetchint, fetchstr; leave. Qed.
Hint Resolve exec_tables fetch_argv_tables : frames.

(** The handlers of sysfile.c. *)
Definition file_calls : list (M kern Z) :=
  [sys_dup; sys_read; sys_write; sys_close; sys_fstat; sys_link stack; sys_unlink stack; sys_open stack; sys_mkdir stack;
   sys_mknod stack; sys_chdir stack; sys_exec stack; sys_pipe].

(** C7. Reference counts of open files.  If the count of every entry of the file
    table is the number of descriptors (of all processes) that point to it, and
    no descriptor points outside the table, then the same holds when a system
    call of sysfile.c returns, whatever it returns: failing calls included. *)
Theorem file_refs_balanced m k r k' :
  m ∈ file_calls -> balanced none (tables k) -> m k = Ret r k' -> balanced none (tables k').
Proof.
  intros Hm Hk H. revert k r k' Hk H. change (triple (bal none) m (fun _ => bal none)).
  revert m Hm. apply Forall_forall. unfold file_calls. repeat (apply Forall_cons; split).
  - apply sys_dup_triple.
  - apply triple_frame. unfold sys_read, fileread. leave.
  - apply triple_frame. unfold sys_write, filewrite. leave.
  - apply sys_close_triple.
  - apply triple_frame. unfold sys_fstat. leave.
  - apply triple_frame. unfold sys_link. leave.
  - apply triple_frame. unfold sys_unlink. leave.
  - apply sys_open_triple.
  - apply triple_frame. unfold sys_mkdir. leave.
  - apply triple_frame. unfold sys_mknod. leave.
  - apply triple_frame. unfold sys_chdir. leave.
  - apply triple_frame. unfold sys_exec. leave.
  - apply sys_pipe_triple.
  - constructor.
Qed.

(** ** fork and exit *)

Lemma getp_ret p (k : kern) pr k' : getp p k = Ret pr k' -> k' = k /\ (tables k).1 !! p = Some (p_ofile pr).
Proof.
  unfold getp. rewrite bind_get. destruct (procs (kp k) !! p) as [x|] eqn:E; [|done]. intros [= <- <-]. split; [done|].
  simpl. by rewrite list_lookup_fmap, E.
Qed.

(** The descriptor table of process [p]. *)
Definition ofiles (p : nat) (k : kern) : option (list Z) := (tables k).1 !! p.

Lemma exit_file_ret cur fd k u k' :
  exit_file cur fd k = Ret u k' -> bal none k ->
  bal none k' /\ exists l, ofiles cur k = Some l /\ (fd < length l)%nat /\ ofiles cur k' = Some (<[fd := 0]> l) /\
    forall q, q <> cur -> ofiles q k' = ofiles q k.
Proof.
  unfold exit_file. rewrite bind_run. destruct (getp cur k) as [pr k1| | |] eqn:E; try done. apply getp_ret in E as [-> E].
  destruct (p_ofile pr !! fd) as [f|] eqn:Ef; [|done]. rewrite bind_some. intros H Hb. destruct (Z.eqb_spec f 0) as [->|Hne].
  - injection H as <- <-. split; [done|]. exists (p_ofile pr). rewrite list_insert_id by done.
    split_and!; [done|by eapply lookup_lt_Some|done|done].
  - rewrite bind_run in H. simpl in H. destruct (File.fileclose (index f) k) as [? k1| | |] eqn:Ec; try done.
    pose proof (fileclose_ofiles _ _ _ _ Ec) as Et.
    apply (fileclose_triple (index f) none _ _ _ Hb) in Ec. rewrite <- Et in E.
    destruct (updp_ofile_tables _ _ _ _ _ _ _ E H) as [E' _]. destruct Hb as [_ Hb].
    destruct (Hb cur (p_ofile pr) fd f) as [|(i & -> & _)]; [by rewrite <- Et|done|done|]. rewrite index_handle in Ec. split.
    + unfold bal. rewrite E'. eapply balanced_ext; [|eapply (balanced_fd _ _ _ cur (p_ofile pr) fd (handle i) 0); eauto].
      intros j. unfold drop_ref. simpl. destruct (Z.eqb_spec (handle i) 0); [done|]. rewrite index_handle. apply at_file_cancel.
    + unfold ofiles. rewrite E', <- Et. simpl. exists (p_ofile pr). split_and!; [done|by eapply lookup_lt_Some| |].
      * apply list_lookup_insert_eq. by eapply lookup_lt_Some.
      * intros q Hq. by rewrite list_lookup_insert_ne.
Qed.

Lemma exit_files_ret cur n a k u k' l :
  each (seq a n) (exit_file cur) k = Ret u k' -> bal none k -> ofiles cur k = Some l ->
  bal none k' /\ (forall q, q <> cur -> ofiles q k' = ofiles q k) /\
  exists l', ofiles cur k' = Some l' /\ forall fd, l' !! fd = if bool_decide (a <= fd < a + n)%nat then Some 0 else l !! fd.
Proof.
  revert a k l. induction n as [|n IH]; intros a k l H Hb Hl; simpl in H.
  - injection H as <- <-. split; [done|]. split; [done|]. exists l. split; [done|]. intros fd. rewrite bool_decide_eq_false_2; [done|lia].
  - rewrite bind_run in H. destruct (exit_file cur a k) as [? k1| | |] eqn:E; try done.
    apply exit_file_ret in E as (Hb1 & l1 & E1 & Hlt & E2 & E3); [|done]. rewrite Hl in E1. injection E1 as <-.
    destruct (IH _ _ _ H Hb1 E2) as (Hb' & Hq & l' & El & Hfd). split; [done|]. split.
    + intros q Hne. by rewrite Hq, E3.
    + exists l'. split; [done|]. intros fd. rewrite Hfd. destruct (decide (fd = a)) as [->|Hne].
      * rewrite bool_decide_eq_false_2, bool_decide_eq_true_2 by lia. by apply list_lookup_insert_eq.
      * rewrite list_lookup_insert_ne by done. repeat case_bool_decide; try done; lia.
Qed.

Lemma fork_file_ret cur np i k u k' l m :
  cur <> np -> fork_file cur np i k = Ret u k' -> bal none k -> ofiles cur k = Some l -> ofiles np k = Some m -> m !! i = Some 0 ->
  bal none k' /\ exists h, l !! i = Some h /\ ofiles np k' = Some (<[i := h]> m) /\ forall q, q <> np -> ofiles q k' = ofiles q k.
Proof.
  unfold fork_file. rewrite bind_run. destruct (getp cur k) as [pr k1| | |] eqn:E; try done. apply getp_ret in E as [-> E].
  intros Hcn H Hb Hl Hm Hi. unfold ofiles in Hl. rewrite E in Hl. injection Hl as <-.
  destruct (p_ofile pr !! i) as [f|] eqn:Ef; [|done]. rewrite bind_some in H. destruct (Z.eqb_spec f 0) as [->|Hne].
  - injection H as <- <-. split; [done|]. exists 0. by rewrite list_insert_id.
  - destruct (proj2 Hb cur (p_ofile pr) i f E Ef) as [|(j & -> & Hj)]; [done|]. simpl in H.
    rewrite bind_assoc_run, bind_run in H. rewrite index_handle in H. destruct (on_fs _ k) as [n k1| | |] eqn:Ed; try done.
    pose proof (on_fs_ret _ _ _ _ Ed) as (s & s' & Es & Hs & Et). pose proof (filedup_triple j none _ _ _ Hb Ed) as Hb1.
    apply filedup_refs in Es as [-> Es].
    rewrite bind_mret in H. unfold ofiles in *. replace (tables k).1 with (tables k1).1 in Hm by (by rewrite Et).
    destruct (updp_ofile_tables _ _ _ _ _ _ _ Hm H) as [E' _]. split.
    + unfold bal. rewrite E'. eapply balanced_ext; [|eapply (balanced_fd _ _ _ np m i 0 (handle j)); eauto].
      * intros x. unfold drop_ref. simpl. destruct (Z.eqb_spec (handle j) 0); [done|]. rewrite index_handle. apply (at_file_cancel j (-1)).
      * right. exists j. split; [done|]. rewrite Et. simpl. rewrite Es, length_alter, Hs. exact Hj.
    + exists (handle j). rewrite Et in E', Hm. rewrite E'. simpl. split; [done|]. split.
      * apply list_lookup_insert_eq. by eapply lookup_lt_Some.
      * intros q Hq. by rewrite list_lookup_insert_ne.
Qed.

Lemma fork_files_ret cur np n a k u k' l m :
  cur <> np -> each (seq a n) (fork_file cur np) k = Ret u k' -> bal none k -> ofiles cur k = Some l -> ofiles np k = Some m ->
  (forall i, (a <= i < a + n)%nat -> m !! i = Some 0) ->
  bal none k' /\ (forall q, q <> np -> ofiles q k' = ofiles q k) /\
  exists m', ofiles np k' = Some m' /\ forall i, m' !! i = if bool_decide (a <= i < a + n)%nat then l !! i else m !! i.
Proof.
  intros Hcn. revert a k m. induction n as [|n IH]; intros a k m H Hb Hl Hm H0; simpl in H.
  - injection H as <- <-. split; [done|]. split; [done|]. exists m. split; [done|]. intros i. rewrite bool_decide_eq_false_2; [done|lia].
  - rewrite bind_run in H. destruct (fork_file cur np a k) as [? k1| | |] eqn:E; try done.
    eapply fork_file_ret in E as (Hb1 & h & Hh & E2 & E3); [|done..|apply H0; lia].
    destruct (IH (S a) k1 (<[a := h]> m) H Hb1) as (Hb' & Hq & m' & Em & Hi); [by rewrite E3|done| |].
    { intros i Hi. rewrite list_lookup_insert_ne by lia. apply H0. lia. }
    split; [done|]. split.
    + intros q Hne. by rewrite Hq, E3.
    + exists m'. split; [done|]. intros i. rewrite Hi. destruct (decide (i = a)) as [->|Hne].
      * rewrite bool_decide_eq_false_2, bool_decide_eq_true_2 by lia. rewrite list_lookup_insert_eq; [done|].
        apply (lookup_lt_Some m a 0), H0. lia.
      * rewrite list_lookup_insert_ne by done. repeat case_bool_decide; try done; lia.
Qed.

(** fork and exit.  The loop of [fork] over the descriptors gives a child
    whose table is empty a copy of the parent's table, and the loop of [exit]
    empties the table of the process; both leave the tables of the other
    processes alone, and keep the reference counts equal to the numbers of
    descriptors. *)
Theorem fork_exit_files cur np k u k' l :
  balanced none (tables k) -> ofiles cur k = Some l -> length l = Z.to_nat NOFILE ->
  (each (seq 0 (Z.to_nat NOFILE)) (exit_file cur) k = Ret u k' ->
     balanced none (tables k') /\ ofiles cur k' = Some (replicate (Z.to_nat NOFILE) 0) /\
     forall q, q <> cur -> ofiles q k' = ofiles q k) /\
  (cur <> np -> ofiles np k = Some (replicate (Z.to_nat NOFILE) 0) ->
   each (seq 0 (Z.to_nat NOFILE)) (fork_file cur np) k = Ret u k' ->
     balanced none (tables k') /\ ofiles np k' = Some l /\ forall q, q <> np -> ofiles q k' = ofiles q k).
Proof.
  intros Hb Hl Hn. split.
  - intros H. destruct (exit_files_ret _ _ _ _ _ _ _ H Hb Hl) as (H1 & H2 & l' & H3 & H4). split; [done|]. split; [|done].
    rewrite H3. f_equal. apply list_eq. intros fd. rewrite H4. case_bool_decide.
    + by rewrite lookup_replicate_2 by lia.
    + rewrite !lookup_ge_None_2; [done|rewrite length_replicate; lia|lia].
  - intros Hne Hm H. destruct (fork_files_ret _ _ _ _ _ _ _ _ _ Hne H Hb Hl Hm) as (H1 & H2 & m' & H3 & H4).
    { intros i Hi. by rewrite lookup_replicate_2 by lia. }
    split; [done|]. split; [|done]. rewrite H3. f_equal. apply list_eq. intros i. rewrite H4. case_bool_decide; [done|].
    rewrite !lookup_ge_None_2; [done|lia|rewrite length_replicate; lia].
Qed.
End calls.

(** ** A file system with two open empty files

    100 blocks: the log at 2, the inodes at 32, the bitmap at 33. *)

Definition sb100 : superblock := mksb 100 60 8 30 2 32 33.
Definition img100 : gmap Z (list Z) :=
  <[33 := splice 0 [255; 255; 255; 255; 3] (replicate 512 0)]> (list_to_map ((fun b => (b, replicate 512 0)) <$> seqZ 0 100)).
Definition ino100 (n : Z) : inode := mkinode 1 n 1 (mksleep 0 0) 1 T_FILE 0 0 1 0 (replicate 13 0).
Definition file100 (i : nat) : file := mkfile FD_INODE 1 1 1 0 i 0.
Definition fs100 : fstate :=
  mkfs img100 [] 100 (replicate 30 buf0) (seq 0 30) (mklog 2 30 0 0 0 0 (replicate 30 0)) sb100
    ([ino100 1; ino100 2] ++ replicate 48 inode0) [file100 0; file100 1] 1 0.

#[export] Instance no_devices_files : @DevswFiles no_devices.
Proof. by split. Qed.

(** Process 0 has both files open; its first argument is 0. *)
Definition proc100 : proc := set_p_ofile ([1; 2] ++ replicate 14 0) user_proc.
Definition kern100 : kern :=
  let k := user_kst [0] in
  mkkst (km k) (empty_rings (proc100 :: replicate 63 proc0)) (kx k) (ks k) (kg k) (mkfio fs100 ∅) (kc k).

Lemma kern100_tables : tables kern100 = (([1; 2] ++ replicate 14 0) :: replicate 63 (replicate 16 0), [1; 1]).
Proof. vm_compute. reflexivity. Qed.

Lemma kern100_balanced : balanced none (tables kern100).
Proof.
  rewrite kern100_tables. split; cbn [fst snd].
  - intros [|[|i]] r H; [by injection H as <-..|done].
  - intros p l fd h Hp Hl. assert (h = 0 \/ h = handle 0 \/ h = handle 1) as [E|[-> | ->]].
    { clear -Hp Hl. destruct p as [|p]; [injection Hp as <-|apply (lookup_replicate_1 63) in Hp as [-> _]].
      - destruct fd as [|[|fd]]; [injection Hl as <-; tauto..|]. apply (lookup_replicate_1 14) in Hl as [-> _]. by left.
      - apply lookup_replicate_1 in Hl as [-> _]. by left. }
    + by left.
    + right. exists 0%nat. split; [done|simpl; lia].
    + right. exists 1%nat. split; [done|simpl; lia].
Qed.

Lemma file_refs_balanced_witness :
  match sys_dup kern100 with Ret r k' => r = 2 /\ balanced none (tables k') | _ => False end.
Proof.
  assert (E : match sys_dup kern100 with Ret r _ => r =? 2 | _ => false end = true) by (vm_compute; reflexivity).
  pose proof (@file_refs_balanced no_devices _ (replicate 14 0) sys_dup kern100) as H.
  destruct (sys_dup kern100) as [r k'| | |]; try discriminate E. split; [by apply Z.eqb_eq in E|].
  apply (H r k'); [apply list_elem_of_here|apply kern100_balanced|reflexivity].
Defined.

Lemma fork_exit_files_witness :
  match each (seq 0 (Z.to_nat NOFILE)) (@exit_file fio (@kernel_files no_devices) 0) kern100 with
  | Ret _ k' => ofiles 0 k' = Some (replicate 16 0)
  | _ => False
  end /\
  match each (seq 0 (Z.to_nat NOFILE)) (@fork_file fio (@kernel_files no_devices) 0 5) kern100 with
  | Ret _ k' => ofiles 5 k' = Some ([1; 2] ++ replicate 14 0)
  | _ => False
  end.
Proof.
  assert (E1 : match each (seq 0 (Z.to_nat NOFILE)) (@exit_file fio (@kernel_files no_devices) 0) kern100 with Ret _ _ => true | _ => false end = true)
    by (vm_compute; reflexivity).
  assert (E2 : match each (seq 0 (Z.to_nat NOFILE)) (@fork_file fio (@kernel_files no_devices) 0 5) kern100 with Ret _ _ => true | _ => false end = true)
    by (vm_compute; reflexivity).
  assert (Hl : ofiles 0 kern100 = Some ([1; 2] ++ replicate 14 0)) by (unfold ofiles; rewrite kern100_tables; reflexivity).
  assert (Hm : ofiles 5 kern100 = Some (replicate 16 0)) by (unfold ofiles; rewrite kern100_tables; reflexivity).
  split.
  - destruct (each _ (exit_file 0) kern100) as [u k'| | |] eqn:H; try discriminate E1.
    destruct (fork_exit_files (Hd := no_devices) 0 5 kern100 u k' _ kern100_balanced Hl eq_refl) as [H1 _]. destruct (H1 H) as (_ & R & _). exact R.
  - destruct (each _ (fork_file 0 5) kern100) as [u k'| | |] eqn:H; try discriminate E2.
    destruct (fork_exit_files (Hd := no_devices) 0 5 kern100 u k' _ kern100_balanced Hl eq_refl) as [_ H1].
    destruct (H1 ltac:(lia) Hm H) as (_ & R & _). exact R.
Defined.

(** ** The pieces of [filewrite] and the log *)

(** Two processes write [write_max] bytes to their empty files: both have
    entered the transaction when the first begins to write. *)
Definition write_piece (ip : nat) : M fstate Z := ilock ip;; r ← @writei no_devices ip (replicate (Z.to_nat write_max) 1) 0 write_max; iunlock ip;; mret r.
Definition two_writers : M fstate Z := begin_op;; begin_op;; write_piece 0;; write_piece 1.

(** Example: writes overflow the log.  [filewrite] cuts a write into pieces of
    [write_max] bytes, which are 13 blocks; writing one such piece logs more
    than the [MAXOPBLOCKS] blocks that [begin_op] reserves for an operation.  So
    two processes that [begin_op] lets run at the same time can fill the log,
    and [log_write] panics. *)
Example filewrite_overflows_log :
  write_max = 6656 /\
  match (begin_op;; write_piece 0) fs100 with Ret r s => r = write_max /\ MAXOPBLOCKS < lh_n (f_log s) | _ => False end /\
  two_writers fs100 = Panic "too big a transaction".
Proof.
  split; [reflexivity|]. split.
  - assert (E : match (begin_op;; write_piece 0) fs100 with Ret r s => (r =? write_max) && (MAXOPBLOCKS <? lh_n (f_log s)) | _ => false end = true)
      by (vm_compute; reflexivity).
    destruct ((begin_op;; write_piece 0) fs100); try discriminate E.
    apply andb_true_iff in E as [E1 E2]. by rewrite <- Z.eqb_eq, <- Z.ltb_lt.
  - vm_compute. reflexivity.
Qed.
