(* ===== verification/Mkfs.v ===== *)
(** * The builder of file-system images (mkfs.c)

    A program of the build host.  The image is the list of its blocks, which is
    the file [fsfd]; [exit(1)] and a failed [assert] are a [Panic].  The host is
    little-endian, as the machine is: the bytes of an integer in memory are
    those that [xint] and [xshort] produce.

    [struct dinode] is the part of the record [inode] that is on the disk; the
    other fields are 0 here. *)

From Stdlib Require Import ZArith Lia.
From stdpp Require Import base numbers strings gmap list.
From S2P Require Import Prelude.
From S2P Require Import Machine.
From S2P Require Import FState.
From S2P Require Import Blocks.
From S2P Require Import Bio.
From S2P Require Import Log.
From S2P Require Import Fs.

Local Open Scope string_scope.
Local Open Scope list_scope.
Local Open Scope Z_scope.

Definition NINODES : Z := 200.

Definition nbitmap : Z := FSSIZE / (BSIZE * 8) + 1.
Definition ninodeblocks : Z := NINODES / IPB + 1.
Definition nlog : Z := LOGSIZE.
Definition nmeta : Z := 2 + nlog + ninodeblocks + nbitmap.
Definition nblocks : Z := FSSIZE - nmeta.

(** Convert to intel byte order: the integer whose bytes are those of [x]. *)
Definition xshort (x : Z) : Z := of_le (le16 x).
Definition xint (x : Z) : Z := of_le (le32 x).

Definition sb : superblock :=
  mksb (xint FSSIZE) (xint nblocks) (xint NINODES) (xint nlog) (xint 2) (xint (2 + nlog)) (xint (2 + nlog + ninodeblocks)).

Definition zeroes : list Z := replicate (Z.to_nat BSIZE) 0.

(** The image file, [freeinode] and [freeblock]. *)
Record mkst := mkmk { m_img : list (list Z); m_freeinode : Z; m_freeblock : Z }.

Definition set_img (l : list (list Z)) (s : mkst) : mkst := mkmk l (m_freeinode s) (m_freeblock s).

(** [lseek] and [write]: behind the end the file is extended, with zeroes up to
    the place. *)
Definition wsect (sec : Z) (buf : list Z) : M mkst unit :=
  modify (fun s =>
    let n := Z.to_nat sec in
    set_img (if (n <? length (m_img s))%nat then <[n := buf]> (m_img s)
             else m_img s ++ replicate (n - length (m_img s)) zeroes ++ [buf]) s).

(** [lseek] and [read]: nothing to read behind the end. *)
Definition rsect (sec : Z) : M mkst (list Z) :=
  s ← get;
  match m_img s !! Z.to_nat sec with
  | Some buf => mret buf
  | None => panic "read"
  end.

Definition winode (inum : Z) (ip : inode) : M mkst unit :=
  let bn := IBLOCK inum sb in
  buf ← rsect bn;
  wsect bn (put_dinode (dip_at inum) ip buf).

Definition rinode (inum : Z) : M mkst inode :=
  let bn := IBLOCK inum sb in
  buf ← rsect bn;
  mret (get_dinode (dip_at inum) buf inode0).

Definition ialloc (type : Z) : M mkst Z :=
  s ← get;
  let inum := m_freeinode s in
  put (mkmk (m_img s) (u32 (inum + 1)) (m_freeblock s));;
  let din := inode0 in
  let din := set_i_type (xshort type) din in
  let din := set_i_nlink (xshort 1) din in
  let din := set_i_size (xint 0) din in
  winode inum din;;
  mret inum.

(** [buf[i / 8] = buf[i / 8] | (0x1 << (i % 8))] for the first [n] of [i]. *)
Fixpoint mark (n : nat) (buf : list Z) : list Z :=
  match n with
  | O => buf
  | S n => set_bit (Z.of_nat n) (mark n buf)
  end.

Definition balloc (used : Z) : M mkst unit :=
  unless_panic (negb (used <? BSIZE * 8)) "assert";;
  wsect (sb_bmapstart sb) (mark (Z.to_nat used) zeroes).

(** [freeblock++] *)
Definition next_block : M mkst Z :=
  s ← get;
  put (mkmk (m_img s) (m_freeinode s) (u32 (m_freeblock s + 1)));;
  mret (m_freeblock s).

(** [if (xint(din.addrs[k]) == 0) din.addrs[k] = xint(freeblock++);] and the
    block. *)
Definition iappend_addr (din : inode) (k : Z) : M mkst (inode * Z) :=
  a ← of_option "addrs" (zget (i_addrs din) k);
  if xint a =? 0 then b ← next_block; mret (set_addr k (xint b) din, xint (xint b))
  else mret (din, xint a).

(** The same for entry [k] of the indirect block [a]. *)
Definition iappend_entry (a k : Z) : M mkst Z :=
  indirect ← rsect a;
  let o := Z.to_nat (4 * k) in
  if get32 indirect o =? 0 then
    b ← next_block;
    wsect a (put32 o (xint b) indirect);;
    mret (xint (xint b))
  else mret (xint (get32 indirect o)).

(** The block [x] of the loop of [iappend], and [din] with it. *)
Definition iappend_block (din : inode) (fbn : Z) : M mkst (inode * Z) :=
  if fbn <? NDIRECT then iappend_addr din fbn
  else
    r ← iappend_addr din NDIRECT;
    x ← iappend_entry r.2 (fbn - NDIRECT);
    mret (r.1, x).

(** The loop of [iappend], one block at a time; [p] is what is left to write. *)
Fixpoint iappend_loop (fuel : nat) (p : list Z) (din : inode) (off : Z) : M mkst (inode * Z) :=
  match p with
  | [] => mret (din, off)
  | _ =>
      match fuel with
      | O => fault "iappend: fuel"
      | S fuel =>
          let fbn := off / BSIZE in
          unless_panic (negb (fbn <? MAXFILE)) "assert";;
          r ← iappend_block din fbn;
          let n1 := Z.min (Z.of_nat (length p)) (u32 ((fbn + 1) * BSIZE - off)) in
          buf ← rsect r.2;
          wsect r.2 (splice (Z.to_nat (off - fbn * BSIZE)) (take (Z.to_nat n1) p) buf);;
          iappend_loop fuel (drop (Z.to_nat n1) p) r.1 (u32 (off + n1))
      end
  end.

Definition iappend (inum : Z) (p : list Z) : M mkst unit :=
  din ← rinode inum;
  let off := xint (i_size din) in
  r ← iappend_loop (length p) p din off;
  winode inum (set_i_size (xint r.2) r.1).

(** An argument: its name, and what the reads from the file return, unless it
    cannot be opened. *)
Record hostfile := mkhost { hf_name : list Z; hf_reads : option (list (list Z)) }.

(** [while ((cc = read(fd, buf, sizeof(buf))) > 0) iappend(inum, buf, cc);] *)
Fixpoint copy_in (inum : Z) (reads : list (list Z)) : M mkst unit :=
  match reads with
  | [] => mret tt
  | buf :: reads => if bool_decide (buf = []) then mret tt else iappend inum buf;; copy_in inum reads
  end.

(** The entry for [name]: [de] is zeroed and the name copied into it. *)
Definition dirent_for (inum : Z) (name : list Z) : M mkst (list Z) :=
  nm ← of_option "strncpy" (lstrncpy (Z.to_nat DIRSIZ) (name ++ [0]));
  mret (mk_dirent (xshort inum) nm).

Definition add_file (rootino : Z) (f : hostfile) : M mkst unit :=
  unless_panic (bool_decide (slash ∈ hf_name f)) "assert";;
  match hf_reads f with
  | None => panic "open"
  | Some reads =>
      let name := match hf_name f with c :: n => if c =? 95 then n else c :: n | [] => [] end in
      inum ← ialloc T_FILE;
      de ← dirent_for inum name;
      iappend rootino de;;
      copy_in inum reads
  end.

(** The superblock as [memmove] copies it into the block. *)
Definition sb_block : list Z :=
  put32s 0 [sb_size sb; sb_nblocks sb; sb_ninodes sb; sb_nlog sb; sb_logstart sb; sb_inodestart sb; sb_bmapstart sb] zeroes.

Definition main (files : list hostfile) : M mkst unit :=
  put (mkmk [] 1 nmeta);;
  each (seqZ 0 FSSIZE) (fun i => wsect i zeroes);;
  wsect 1 sb_block;;
  rootino ← ialloc T_DIR;
  unless_panic (negb (rootino =? ROOTINO)) "assert";;
  de ← dirent_for rootino [46];
  iappend rootino de;;
  de ← dirent_for rootino [46; 46];
  iappend rootino de;;
  each files (add_file rootino);;
  din ← rinode rootino;
  let off := xint (i_size din) in
  let off := u32 ((off / BSIZE + 1) * BSIZE) in
  winode rootino (set_i_size (xint off) din);;
  s ← get;
  balloc (m_freeblock s).
