(* ===== verification/MkfsSpec.v ===== *)
(** * What mkfs writes

    The image as the kernel's file system sees it: the block map [slot] and the
    bytes [fbyte] of FsData.v, on the blocks of the image. *)

From Stdlib Require Import ZArith Lia.
From stdpp Require Import base numbers strings gmap list.
From S2P Require Import Prelude.
From S2P Require Import Machine.
From S2P Require Import FState.
From S2P Require Import Blocks.
From S2P Require Import Bio.
From S2P Require Import Log.
From S2P Require Import Fs.
From S2P Require Import FsAlloc.
From S2P Require Import FsData.
From S2P Require Import FsRw.
From S2P Require Import Mkfs.

Local Open Scope string_scope.
Local Open Scope list_scope.
Local Open Scope Z_scope.

(** ** Sectors *)

Definition vw (s : mkst) (b : Z) : list Z := default block0 (m_img s !! Z.to_nat b).

Record img_ok (s : mkst) : Prop := {
  im_len : length (m_img s) = 1000%nat;
  im_blocks : Forall (fun d => length d = 512%nat) (m_img s) }.

Lemma vw_length s b : img_ok s -> length (vw s b) = 512%nat.
Proof.
  intros [_ H]. unfold vw. destruct (m_img s !! Z.to_nat b) eqn:E; [|done]. by apply (Forall_lookup_1 _ _ _ _ H E).
Qed.

Lemma rsect_run s b : img_ok s -> 0 <= b < 1000 -> rsect b s = Ret (vw s b) s.
Proof.
  intros H Hb. unfold rsect, vw. rewrite bind_get. destruct (lookup_lt_is_Some_2 (m_img s) (Z.to_nat b)) as [d ->]; [rewrite (im_len _ H); lia|done].
Qed.

Lemma rsect_end s b : img_ok s -> 1000 <= b -> rsect b s = Panic "read".
Proof. intros H Hb. unfold rsect. rewrite bind_get, lookup_ge_None_2; [done|rewrite (im_len _ H); lia]. Qed.

Definition setw (b : Z) (d : list Z) (s : mkst) : mkst := set_img (<[Z.to_nat b := d]> (m_img s)) s.

Lemma wsect_run s b d : img_ok s -> 0 <= b < 1000 -> wsect b d s = Ret tt (setw b d s).
Proof.
  intros H Hb. unfold wsect, modify. destruct (Nat.ltb_spec (Z.to_nat b) (length (m_img s))); [done|]. rewrite (im_len _ H) in *. lia.
Qed.

Lemma setw_ok s b d : img_ok s -> length d = 512%nat -> img_ok (setw b d s).
Proof. intros [H1 H2] Hd. split; simpl; [by rewrite length_insert|by apply Forall_insert]. Qed.

Lemma vw_setw s b d b' : img_ok s -> 1 <= b < 1000 -> vw (setw b d s) b' = if decide (b' = b) then d else vw s b'.
Proof.
  intros H Hb. unfold vw. simpl. destruct (decide (b' = b)) as [->|Hne].
  - rewrite list_lookup_insert_eq; [done|rewrite (im_len _ H); lia].
  - rewrite list_lookup_insert_ne; [done|lia].
Qed.

(** ** One file *)

(** The blocks of the file are between the metadata and [lim]; after its
    contents [c] come zeroes. *)
Record file_img (v : Z -> list Z) (lim : Z) (x : inode) (c : list Z) : Prop := {
  fi_fits : fits x;
  fi_len : Z.of_nat (length c) <= 71680;
  fi_range : forall k, 0 <= k <= 140 -> slot v x k <> 0 -> 59 <= slot v x k < lim;
  fi_bytes : forall p, 0 <= p < 71680 -> fbyte v x p = default 0 (c !! Z.to_nat p) }.

(** The blocks a file of [n] bytes has. *)
Definition owns (n k : Z) : Prop := if k =? 140 then 6144 < n else 512 * k < n.
Definition extent (v : Z -> list Z) (x : inode) (n : Z) : Prop := forall k, 0 <= k <= 140 -> slot v x k <> 0 <-> owns n k.
Definition blocks (n : Z) : Z := (n + 511) / 512 + if 6144 <? n then 1 else 0.

Lemma slot_same v v' x a k : (forall b, b <> a -> v' b = v b) -> ind_addr x = 0 \/ ind_addr x <> a -> slot v' x k = slot v x k.
Proof.
  intros Hv [H0|Hne]; [|by apply slot_ext, Hv]. unfold slot, addr_at. by rewrite H0.
Qed.

(** A block that the file does not own changes. *)
Lemma file_img_other v v' lim lim' x c a :
  (forall b, b <> a -> v' b = v b) -> (forall k, 0 <= k <= 140 -> slot v x k <> 0 -> slot v x k <> a) -> lim <= lim' ->
  file_img v lim x c -> file_img v' lim' x c /\ forall k, slot v' x k = slot v x k.
Proof.
  intros Hv Ha Hl [A1 A2 A3 A4]. assert (Hs : forall k, slot v' x k = slot v x k).
  { intros k. apply (slot_same v v' x a); [done|]. pose proof (Ha 140 ltac:(lia)) as H. rewrite slot_ind in H. destruct (decide (ind_addr x = 0)); [by left|right; auto]. }
  split; [|done]. split; try done.
  - intros k Hk. rewrite Hs. intros H0. pose proof (A3 k Hk H0). lia.
  - intros p Hp. rewrite <- A4 by done. unfold fbyte, blk. rewrite Hs. destruct (Z.eqb_spec (slot v x (p / 512)) 0); [done|]. rewrite Hv; [done|].
    apply Ha; [|done]. Z.div_mod_to_equations; lia.
Qed.

Lemma extent_same v v' x n : (forall k, slot v' x k = slot v x k) -> extent v x n -> extent v' x n.
Proof. intros Hs E k Hk. rewrite Hs. by apply E. Qed.

(** ** The image while it is built *)

(** The inode [inum] in its block. *)
Definition rdino (v : Z -> list Z) (inum : Z) : inode := get_dinode (dip_at inum) (v (32 + inum / 8)) inode0.

(** The files by inode number, from 1 on, with what they contain.  The inode of
    file [cur] is being worked on: the one on the disk is old. *)
Record mk_ok (s : mkst) (fl : list (inode * list Z)) (cur : option nat) : Prop := {
  mo_img : img_ok s;
  mo_free : 59 <= m_freeblock s <= 1000;
  mo_zero : forall b, m_freeblock s <= b < 1000 -> vw s b = block0;
  mo_next : m_freeinode s = 1 + Z.of_nat (length fl);
  mo_room : (length fl <= 199)%nat;
  mo_files : forall i x c, fl !! i = Some (x, c) -> file_img (vw s) (m_freeblock s) x c;
  mo_inj : forall i j x c y d k k', fl !! i = Some (x, c) -> fl !! j = Some (y, d) -> 0 <= k <= 140 -> 0 <= k' <= 140 ->
    slot (vw s) x k = slot (vw s) y k' -> slot (vw s) x k <> 0 -> i = j /\ k = k';
  mo_done : forall i x c, fl !! i = Some (x, c) -> Some i <> cur ->
    extent (vw s) x (Z.of_nat (length c)) /\ i_size x = Z.of_nat (length c) /\ rdino (vw s) (Z.of_nat i + 1) = x;
  mo_unused : forall inum, inum = 0 \/ Z.of_nat (length fl) < inum < 208 -> slice (dip_at inum) 64 (vw s (32 + inum / 8)) = replicate 64 0;
  mo_sb : vw s 1 = sb_block;
  mo_meta : forall b, b = 0 \/ 2 <= b < 32 \/ b = 58 -> vw s b = block0 }.

Lemma mo_sep s fl cur i j x c y d k k' :
  mk_ok s fl cur -> fl !! i = Some (x, c) -> fl !! j = Some (y, d) -> 0 <= k <= 140 -> 0 <= k' <= 140 -> i <> j \/ k <> k' ->
  slot (vw s) x k <> 0 -> slot (vw s) x k <> slot (vw s) y k'.
Proof. intros H Hi Hj Hk Hk' Hne H0 E. destruct (mo_inj _ _ _ H i j x c y d k k' Hi Hj Hk Hk' E H0) as [-> ->]. by destruct Hne. Qed.

(** The next free block becomes block [k0] of a file; of the other blocks only
    the file's indirect block may change. *)
Section alloc.
Context (s s' : mkst) (fl : list (inode * list Z)) (i : nat) (x x' : inode) (c : list Z) (k0 : Z).
Context (H : mk_ok s fl (Some i)) (Hi : fl !! i = Some (x, c)) (Hk0 : 0 <= k0 <= 140) (H0 : slot (vw s) x k0 = 0).
Context (Hfree : m_freeblock s < 1000) (Hfb : m_freeblock s' = m_freeblock s + 1) (Hfi : m_freeinode s' = m_freeinode s) (Him : img_ok s').
Context (Hv : forall b, b <> ind_addr x \/ ind_addr x = 0 -> vw s' b = vw s b).
Context (Hslot : forall k, 0 <= k <= 140 -> slot (vw s') x' k = if k =? k0 then m_freeblock s else slot (vw s) x k) (Hfits : fits x').

Lemma alloc_ind_range : ind_addr x <> 0 -> 59 <= ind_addr x < m_freeblock s.
Proof. intros Hne. rewrite <- (slot_ind (vw s)). apply (fi_range _ _ _ _ (mo_files _ _ _ H i x c Hi)); [lia|by rewrite slot_ind]. Qed.

Lemma alloc_low b : b < 59 \/ m_freeblock s <= b -> vw s' b = vw s b.
Proof. intros Hb. apply Hv. destruct (decide (ind_addr x = 0)) as [?|Hne]; [by right|left]. pose proof (alloc_ind_range Hne). lia. Qed.

Lemma alloc_other j y d : j <> i -> fl !! j = Some (y, d) -> file_img (vw s') (m_freeblock s') y d /\ forall k, slot (vw s') y k = slot (vw s) y k.
Proof.
  intros Hne Hj. destruct (decide (ind_addr x = 0)) as [E0|E0].
  - apply (file_img_other (vw s) (vw s') (m_freeblock s) (m_freeblock s') y d (-1)); [|intros k Hk Hk2 E|lia|by apply (mo_files _ _ _ H j)].
    + intros b _. apply Hv. by right.
    + pose proof (fi_range _ _ _ _ (mo_files _ _ _ H j y d Hj) k Hk Hk2). lia.
  - apply (file_img_other (vw s) (vw s') (m_freeblock s) (m_freeblock s') y d (ind_addr x)); [intros b Hb; apply Hv; by left|intros k Hk Hk2|lia|by apply (mo_files _ _ _ H j)].
    rewrite <- (slot_ind (vw s) x). apply (mo_sep s fl (Some i) j i y d x c); [done|done|done|done|lia|by left|done].
Qed.

Lemma alloc_self : file_img (vw s') (m_freeblock s') x' c.
Proof.
  destruct (mo_files _ _ _ H i x c Hi) as [A1 A2 A3 A4]. pose proof (mo_free _ _ _ H). split; [done|done| |].
  - intros k Hk. rewrite Hslot by done. destruct (Z.eqb_spec k k0); [lia|]. intros Hne. pose proof (A3 k Hk Hne). lia.
  - intros p Hp. rewrite <- A4 by done. assert (Hp5 : 0 <= p / 512 < 140) by (Z.div_mod_to_equations; lia). unfold fbyte, blk. rewrite Hslot by lia.
    destruct (Z.eqb_spec (p / 512) k0) as [->|Hne].
    + rewrite H0. destruct (Z.eqb_spec (m_freeblock s) 0); [lia|]. simpl. rewrite alloc_low, (mo_zero _ _ _ H) by lia. done.
    + destruct (Z.eqb_spec (slot (vw s) x (p / 512)) 0) as [|Hs]; [done|]. rewrite Hv; [done|]. destruct (decide (ind_addr x = 0)); [by right|left].
      rewrite <- (slot_ind (vw s) x). apply (mo_sep s fl (Some i) i i x c x c); [done|done|done|lia|lia|right; lia|done].
Qed.

Lemma mk_alloc : mk_ok s' (<[i := (x', c)]> fl) (Some i).
Proof.
  pose proof H as [B1 B2 B3 B4 B5 B6 B7 B8 B9 B10 B11].
  assert (Hfl : forall j y d, <[i := (x', c)]> fl !! j = Some (y, d) -> (j = i /\ y = x' /\ d = c) \/ (j <> i /\ fl !! j = Some (y, d))).
  { intros j y d Hj. apply insert_lookup_cases in Hj as [(<- & [= -> ->] & _)|[? ?]]; auto. }
  (* the slots of a file in the old state *)
  assert (Hold : forall j y d k, <[i := (x', c)]> fl !! j = Some (y, d) -> 0 <= k <= 140 -> slot (vw s') y k <> 0 ->
    (j = i /\ k = k0 /\ slot (vw s') y k = m_freeblock s) \/ exists y0 d0, fl !! j = Some (y0, d0) /\ slot (vw s') y k = slot (vw s) y0 k).
  { intros j y d k Hj Hk Hne. destruct (Hfl j y d Hj) as [(-> & -> & ->)|[Hji Hj']].
    - rewrite Hslot in * by done. destruct (Z.eqb_spec k k0); [by left|right; eauto].
    - right. exists y, d. split; [done|]. by apply (alloc_other j y d). }
  assert (Hlim : forall j y d k, fl !! j = Some (y, d) -> 0 <= k <= 140 -> slot (vw s) y k <> 0 -> slot (vw s) y k <> m_freeblock s).
  { intros j y d k Hj Hk Hne. pose proof (fi_range _ _ _ _ (B6 j y d Hj) k Hk Hne). lia. }
  split; rewrite ?length_insert; try done; try lia.
  - intros b Hb. rewrite alloc_low by lia. apply B3. lia.
  - intros j y d Hj. destruct (Hfl j y d Hj) as [(-> & -> & ->)|[Hji Hj']]; [apply alloc_self|by apply (alloc_other j)].
  - intros j j' y d y' d' k k' Hj Hj' Hk Hk' E Hne. pose proof Hne as Hne'. rewrite E in Hne'.
    destruct (Hold j y d k Hj Hk Hne) as [(-> & -> & E1)|(y0 & d0 & Hy0 & E1)], (Hold j' y' d' k' Hj' Hk' Hne') as [(-> & -> & E2)|(y0' & d0' & Hy0' & E2)]; [done| | |].
    + exfalso. apply (Hlim j' y0' d0' k' Hy0' Hk'); congruence.
    + exfalso. apply (Hlim j y0 d0 k Hy0 Hk); congruence.
    + apply (B7 j j' y0 d0 y0' d0' k k'); [done|done|done|done|congruence|congruence].
  - intros j y d Hj Hcur. destruct (Hfl j y d Hj) as [(-> & _)|[Hji Hj']]; [done|]. destruct (B8 j y d Hj' Hcur) as (C1 & C2 & C3). split; [|split; [done|]].
    + apply (extent_same (vw s)); [|done]. by apply (alloc_other j y d).
    + rewrite <- C3. unfold rdino. rewrite alloc_low; [done|]. pose proof (lookup_lt_Some _ _ _ Hj'). left. Z.div_mod_to_equations; lia.
  - intros inum Hin. rewrite alloc_low; [by apply B9|]. left. Z.div_mod_to_equations; lia.
  - rewrite alloc_low by lia. done.
  - intros b Hb. rewrite alloc_low by lia. by apply B11.
Qed.
End alloc.

(** ** Allocating a block of a file *)

Lemma xint_id v : 0 <= v < two32 -> xint v = v.
Proof. apply of_le_le32. Qed.

Definition bump (s : mkst) : mkst := mkmk (m_img s) (m_freeinode s) (m_freeblock s + 1).

Lemma img_bump s : img_ok s -> img_ok (bump s).
Proof. by intros [H1 H2]. Qed.

Lemma next_block_run s : 0 <= m_freeblock s < 4294967295 -> next_block s = Ret (m_freeblock s) (bump s).
Proof. intros H. unfold next_block. rewrite bind_get, u32_id by (unfold two32; lia). done. Qed.

Lemma fits_set_addr x k b : fits x -> 0 <= b < two32 -> fits (set_addr k b x).
Proof. intros [A1 A2 A3 A4 A5 A6 A7] Hb. split; simpl; try done; [by rewrite length_insert|by apply Forall_insert]. Qed.

Lemma fits_addr x k : fits x -> 0 <= k <= 12 -> zget (i_addrs x) k = Some (default 0 (i_addrs x !! Z.to_nat k)) /\ 0 <= default 0 (i_addrs x !! Z.to_nat k) < two32.
Proof.
  intros F Hk. destruct (lookup_lt_is_Some_2 (i_addrs x) (Z.to_nat k)) as [a Ha]; [rewrite (ft_len _ F); lia|]. rewrite Ha. split; [apply zget_Some; split; [lia|done]|].
  by apply (Forall_lookup_1 _ _ _ _ (ft_addrs _ F) Ha).
Qed.

Section block.
Context (s : mkst) (fl : list (inode * list Z)) (i : nat) (x : inode) (c : list Z).
Context (H : mk_ok s fl (Some i)) (Hi : fl !! i = Some (x, c)).

(** What an allocation of the blocks [P] leaves. *)
Definition allocated (n : Z) (P : Z -> Prop) (x' : inode) (s' : mkst) : Prop :=
  mk_ok s' (<[i := (x', c)]> fl) (Some i) /\ m_freeblock s' = m_freeblock s + n /\ x' = set_i_addrs (i_addrs x') x /\
  forall k, 0 <= k <= 140 -> slot (vw s') x' k <> 0 <-> slot (vw s) x k <> 0 \/ P k.

Lemma allocated_none P : (forall k, 0 <= k <= 140 -> P k -> slot (vw s) x k <> 0) -> allocated 0 P x s.
Proof.
  intros HP. split; [by rewrite list_insert_id|]. split; [lia|]. split; [by destruct x|]. intros k Hk. split; [by left|]. intros [?|?]; auto.
Qed.

Lemma bump_alloc x' k0 :
  m_freeblock s < 1000 -> 0 <= k0 <= 140 -> slot (vw s) x k0 = 0 -> fits x' -> x' = set_i_addrs (i_addrs x') x ->
  (forall k, 0 <= k <= 140 -> slot (vw s) x' k = if k =? k0 then m_freeblock s else slot (vw s) x k) -> allocated 1 (fun k => k = k0) x' (bump s).
Proof.
  intros Hf Hk0 H0 Hfit Hx Hs. pose proof (mo_free _ _ _ H). split; [|split; [done|split; [done|]]].
  - apply (mk_alloc s (bump s) fl i x x' c k0); try done. apply img_bump, H.
  - intros k Hk. change (vw (bump s)) with (vw s). rewrite Hs by done. destruct (Z.eqb_spec k k0) as [->|Hne]; [|tauto]. rewrite H0. split; [by right|lia].
Qed.

(** The slot of entry [k] of [addrs]. *)
Definition addr_slot (k : Z) : Z := if k =? 12 then 140 else k.

Lemma addr_run k :
  0 <= k <= 12 -> let j := addr_slot k in
  let need := if slot (vw s) x j =? 0 then 1 else 0 in
  if m_freeblock s + need <=? 1000
  then exists x' s', iappend_addr x k s = Ret (x', slot (vw s') x' j) s' /\ allocated need (fun k => k = j) x' s'
  else exists r s', iappend_addr x k s = Ret r s' /\ 1000 <= r.2 /\ img_ok s'.
Proof.
  intros Hk j need. pose proof (mo_files _ _ _ H i x c Hi) as [Hfit _ _ _]. pose proof (mo_free _ _ _ H) as Hfr. destruct (fits_addr x k Hfit Hk) as [Hz Ha].
  assert (Hj : 0 <= j <= 140) by (unfold j, addr_slot; destruct (Z.eqb_spec k 12); lia).
  assert (Es : slot (vw s) x j = default 0 (i_addrs x !! Z.to_nat k)).
  { unfold j, addr_slot. destruct (Z.eqb_spec k 12) as [->|]; [done|]. unfold slot, addr_at. destruct (Z.eqb_spec k 140); [lia|]; by destruct (Z.ltb_spec k 12); [|lia]. }
  unfold iappend_addr. rewrite Hz, bind_some, <- Es. rewrite <- Es in Ha. rewrite (xint_id _ Ha). unfold need. destruct (Z.eqb_spec (slot (vw s) x j) 0) as [E0|E0].
  - mstep (next_block_run s ltac:(lia)). rewrite !(xint_id (m_freeblock s)) by (unfold two32; lia). destruct (Z.leb_spec (m_freeblock s + 1) 1000).
    + assert (Hs : forall k', 0 <= k' <= 140 -> slot (vw s) (set_addr k (m_freeblock s) x) k' = if k' =? j then m_freeblock s else slot (vw s) x k').
      { intros k' Hk'. revert E0. unfold j, addr_slot. destruct (Z.eqb_spec k 12) as [->|]; intros E0.
        - apply (slot_set_ind (vw s)); [apply Hfit|done|done|]. apply (mo_zero _ _ _ H). lia.
        - apply slot_set_addr; [apply Hfit|lia|done|done]. }
      exists (set_addr k (m_freeblock s) x), (bump s). change (vw (bump s)) with (vw s). rewrite Hs, Z.eqb_refl by lia. split; [done|].
      apply bump_alloc; [lia|lia|done|apply fits_set_addr; [done|unfold two32; lia]|by destruct x|done].
    + eexists _, _. split; [done|]. simpl. split; [lia|apply img_bump, H].
  - destruct (Z.leb_spec (m_freeblock s + 0) 1000); [|lia]. exists x, s. split; [done|]. apply allocated_none. by intros k' _ ->.
Qed.

Lemma entry_run bn :
  12 <= bn < 140 -> ind_addr x <> 0 ->
  let need := if slot (vw s) x bn =? 0 then 1 else 0 in
  if m_freeblock s + need <=? 1000
  then exists s', iappend_entry (ind_addr x) (bn - 12) s = Ret (slot (vw s') x bn) s' /\ allocated need (fun k => k = bn) x s'
  else exists a s', iappend_entry (ind_addr x) (bn - 12) s = Ret a s' /\ 1000 <= a /\ img_ok s'.
Proof.
  intros Hbn Hind need. pose proof (mo_files _ _ _ H i x c Hi) as [Hfit _ Hr _]. pose proof (mo_free _ _ _ H) as Hfr. pose proof (mo_img _ _ _ H) as Him.
  pose proof (Hr 140 ltac:(lia) ltac:(by rewrite slot_ind)) as Hir. rewrite slot_ind in Hir.
  assert (Es : slot (vw s) x bn = get32 (vw s (ind_addr x)) (Z.to_nat (4 * (bn - 12)))).
  { unfold slot, addr_at. destruct (Z.eqb_spec bn 140); [lia|]. destruct (Z.ltb_spec bn 12); [lia|]. by destruct (Z.eqb_spec (ind_addr x) 0). }
  unfold iappend_entry. mstep (rsect_run s (ind_addr x) Him ltac:(lia)). rewrite <- Es. unfold need. destruct (Z.eqb_spec (slot (vw s) x bn) 0) as [E0|E0].
  - mstep (next_block_run s ltac:(lia)). rewrite !(xint_id (m_freeblock s)) by (unfold two32; lia). pose proof (vw_length s (ind_addr x) Him) as Hl.
    set (d := put32 _ _ _). assert (Hd : length d = 512%nat) by (unfold d; rewrite length_put32; lia).
    mstep (wsect_run (bump s) (ind_addr x) d (img_bump _ Him) ltac:(lia)). set (s' := setw _ _ _). assert (Him' : img_ok s') by by apply setw_ok, Hd; apply img_bump.
    assert (Hv : forall b, vw s' b = if decide (b = ind_addr x) then d else vw s b) by (intros b; unfold s'; rewrite vw_setw; [done|by apply img_bump|lia]).
    destruct (Z.leb_spec (m_freeblock s + 1) 1000); [|eexists _, _; split; [done|]; split; [lia|done]].
    assert (Hs : forall k, 0 <= k <= 140 -> slot (vw s') x k = if k =? bn then m_freeblock s else slot (vw s) x k).
    { intros k Hk. apply slot_set_entry; [done|lia|done|unfold two32; lia|done|]. by rewrite Hv, decide_True. }
    exists s'. rewrite Hs, Z.eqb_refl by lia. split; [done|]. split; [|split; [done|split; [by destruct x|]]].
    + apply (mk_alloc s s' fl i x x c bn); try done; [lia|lia|]. intros b Hb. rewrite Hv, decide_False; [done|]. intros ->. by destruct Hb.
    + intros k Hk. rewrite Hs by done. destruct (Z.eqb_spec k bn) as [->|Hne]; [|tauto]. rewrite E0. split; [by right|lia].
  - destruct (Z.leb_spec (m_freeblock s + 0) 1000); [|lia]. exists s. rewrite xint_id; [|pose proof (Hr bn ltac:(lia) E0); unfold two32; lia]. split; [done|].
    apply allocated_none. by intros k' _ ->.
Qed.
End block.

(** ** Appending *)

(** From [n] to [n + m] bytes in the same block. *)
Section step.
Context (n m : Z) (Hn : 0 <= n) (Hm : 1 <= m) (Hfit : n + m <= 512 * (n / 512 + 1)).

Lemma blocks_step : blocks (n + m) - blocks n = (if 512 * (n / 512) <? n then 0 else 1) + (if (12 <=? n / 512) && negb (6144 <? n) then 1 else 0).
Proof.
  unfold blocks. assert (E : (n + m + 511) / 512 = n / 512 + 1) by (Z.div_mod_to_equations; lia).
  assert (E2 : (n + 511) / 512 = n / 512 + if 512 * (n / 512) <? n then 1 else 0) by (destruct (Z.ltb_spec (512 * (n / 512)) n); Z.div_mod_to_equations; lia).
  rewrite E, E2. destruct (Z.ltb_spec (512 * (n / 512)) n), (Z.ltb_spec 6144 (n + m)), (Z.ltb_spec 6144 n), (Z.leb_spec 12 (n / 512)); simpl; Z.div_mod_to_equations; lia.
Qed.

Lemma owns_step k : 0 <= k <= 140 -> n / 512 < 140 -> owns (n + m) k <-> owns n k \/ (k = n / 512 \/ (12 <= n / 512 /\ k = 140)).
Proof. intros Hk Hb. unfold owns. destruct (Z.eqb_spec k 140); Z.div_mod_to_equations; lia. Qed.
End step.

Section append.
Context (s : mkst) (fl : list (inode * list Z)) (i : nat) (x : inode) (c : list Z) (m : Z).
Notation sz := (Z.of_nat (length c)).
Context (H : mk_ok s fl (Some i)) (Hi : fl !! i = Some (x, c)) (He : extent (vw s) x sz).
Context (Hn : sz < 71680) (Hm : 1 <= m) (Hfit : sz + m <= 512 * (sz / 512 + 1)).

Lemma slot_zero k : 0 <= k <= 140 -> (slot (vw s) x k =? 0) = negb (if k =? 140 then 6144 <? sz else 512 * k <? sz).
Proof.
  intros Hk. pose proof (He k Hk) as E. unfold owns in E. destruct (Z.eqb_spec (slot (vw s) x k) 0), (Z.eqb_spec k 140), (Z.ltb_spec 6144 sz), (Z.ltb_spec (512 * k) sz); simpl; try done; exfalso; tauto || lia.
Qed.

Lemma block_run :
  if m_freeblock s + (blocks (sz + m) - blocks sz) <=? 1000
  then exists x' s', iappend_block x (sz / 512) s = Ret (x', slot (vw s') x' (sz / 512)) s' /\ mk_ok s' (<[i := (x', c)]> fl) (Some i) /\
         m_freeblock s' = m_freeblock s + (blocks (sz + m) - blocks sz) /\ x' = set_i_addrs (i_addrs x') x /\ extent (vw s') x' (sz + m)
  else (exists msg, iappend_block x (sz / 512) s = Panic msg) \/ exists r s', iappend_block x (sz / 512) s = Ret r s' /\ 1000 <= r.2 /\ img_ok s'.
Proof.
  assert (Hbn : 0 <= sz / 512 < 140) by (Z.div_mod_to_equations; lia). rewrite blocks_step by lia. set (bn := sz / 512) in *. pose proof (slot_zero bn ltac:(lia)) as Z1. pose proof (slot_zero 140 ltac:(lia)) as Z2.
  simpl in Z2. rewrite slot_ind in Z2. destruct (Z.eqb_spec bn 140); [lia|]. unfold iappend_block. change NDIRECT with 12. destruct (Z.ltb_spec bn 12) as [Hd|Hd].
  - destruct (Z.leb_spec 12 bn); [lia|]. rewrite andb_false_l. pose proof (addr_run s fl i x c H Hi bn ltac:(lia)) as A. unfold addr_slot in A. destruct (Z.eqb_spec bn 12); [lia|]. cbv zeta in A.
    rewrite Z1 in A. replace (if negb (512 * bn <? sz) then 1 else 0) with (if 512 * bn <? sz then 0 else 1) in A by by destruct (512 * bn <? sz). rewrite Z.add_0_r.
    set (need := if 512 * bn <? sz then 0 else 1) in *. destruct (Z.leb_spec (m_freeblock s + need) 1000); [|right; exact A]. destruct A as (x' & s' & E & (A1 & A2 & A3 & A4)).
    exists x', s'. split; [done|]. split; [done|]. split; [done|]. split; [done|]. intros k Hk. rewrite A4, owns_step by (done || lia). fold bn. rewrite (He k Hk). split; [tauto|]. intros [?|[?|[? ?]]]; [tauto|tauto|lia].
  - destruct (Z.leb_spec 12 bn); [|lia]. rewrite andb_true_l. pose proof (addr_run s fl i x c H Hi 12 ltac:(lia)) as A. unfold addr_slot in A. simpl in A. rewrite slot_ind, Z2 in A.
    set (need2 := if negb (6144 <? sz) then 1 else 0) in *. assert (Hneed2 : 0 <= need2) by (unfold need2; by destruct (6144 <? sz)).
    set (need1 := if 512 * bn <? sz then 0 else 1). assert (Hneed1 : 0 <= need1) by (unfold need1; by destruct (512 * bn <? sz)).
    destruct (Z.leb_spec (m_freeblock s + need2) 1000) as [Hle|Hgt].
    + destruct A as (x1 & s1 & E & (A1 & A2 & A3 & A4)). mstep E. cbn [fst snd]. rewrite slot_ind. pose proof (mo_files _ _ _ H i x c Hi) as Fi.
      assert (Hi1 : <[i := (x1, c)]> fl !! i = Some (x1, c)) by (apply list_lookup_insert_eq; by eapply lookup_lt_Some).
      assert (Hind : ind_addr x1 <> 0) by (rewrite <- (slot_ind (vw s1)); apply A4; [lia|by right]).
      pose proof (entry_run s1 _ i x1 c A1 Hi1 bn ltac:(lia) Hind) as B. cbv zeta in B.
      assert (Z3 : (slot (vw s1) x1 bn =? 0) = negb (512 * bn <? sz)).
      { rewrite <- Z1. pose proof (A4 bn ltac:(lia)). destruct (Z.eqb_spec (slot (vw s1) x1 bn) 0), (Z.eqb_spec (slot (vw s) x bn) 0); try done; exfalso; [tauto|]. assert (bn = 140) by tauto. lia. }
      rewrite Z3 in B. replace (if negb (512 * bn <? sz) then 1 else 0) with need1 in B by (unfold need1; by destruct (512 * bn <? sz)). rewrite A2 in B.
      replace (m_freeblock s + (need1 + need2)) with (m_freeblock s + need2 + need1) by lia. destruct (Z.leb_spec (m_freeblock s + need2 + need1) 1000).
      * destruct B as (s2 & E2 & (B1 & B2 & B3 & B4)). mstep E2. exists x1, s2. split; [done|]. rewrite list_insert_insert_eq in B1. split; [done|]. split; [lia|]. split; [done|].
        intros k Hk. rewrite B4, A4, owns_step by (done || lia). fold bn. rewrite (He k Hk). split; [|tauto]. intros [[?| ->]| ->]; [tauto| |tauto]. right. right. lia.
      * destruct B as (a & s2 & E2 & B1 & B2). mstep E2. right. eexists _, s2. by split.
    + destruct A as (r & s1 & E & A1 & A2). destruct (Z.leb_spec (m_freeblock s + (need1 + need2)) 1000); [lia|]. left. exists "read". mstep E. unfold iappend_entry. rewrite bind_assoc_run, bind_run, rsect_end by done. done.
Qed.
End append.

(** The bytes are written into block [a] of the file. *)
Section write.
Context (s : mkst) (fl : list (inode * list Z)) (i : nat) (x : inode) (c p : list Z) (a : Z).
Notation sz := (Z.of_nat (length c)).
Context (H : mk_ok s fl (Some i)) (Hi : fl !! i = Some (x, c)) (Hsz : sz < 71680) (Ea : slot (vw s) x (sz / 512) = a) (Ha : a <> 0).
Context (Hp : sz + Z.of_nat (length p) <= 512 * (sz / 512 + 1)).
Notation s' := (setw a (splice (Z.to_nat (sz - sz / 512 * 512)) p (vw s a)) s).

Lemma write_range : 0 <= sz / 512 < 140 /\ 59 <= a < m_freeblock s /\ m_freeblock s <= 1000.
Proof.
  assert (0 <= sz / 512 < 140) by (Z.div_mod_to_equations; lia). pose proof (mo_free _ _ _ H). rewrite <- Ea in *.
  pose proof (fi_range _ _ _ _ (mo_files _ _ _ H i x c Hi) (sz / 512) ltac:(lia) Ha). lia.
Qed.

Lemma write_len : (Z.to_nat (sz - sz / 512 * 512) + length p <= length (vw s a))%nat.
Proof. rewrite (vw_length s a (mo_img _ _ _ H)). Z.div_mod_to_equations; lia. Qed.

Lemma write_vw b : vw s' b = if decide (b = a) then splice (Z.to_nat (sz - sz / 512 * 512)) p (vw s a) else vw s b.
Proof. pose proof write_range. apply vw_setw; [apply H|lia]. Qed.

Lemma write_slot k : slot (vw s') x k = slot (vw s) x k.
Proof.
  pose proof write_range. apply (slot_same _ _ _ a); [intros b Hb; by rewrite write_vw, decide_False|]. right. rewrite <- (slot_ind (vw s)). intros E.
  destruct (mo_inj _ _ _ H i i x c x c (sz / 512) 140 Hi Hi) as [_ ?]; [lia|lia|congruence|congruence|lia].
Qed.

Lemma write_self : Z.of_nat (length (c ++ p)) <= 71680 -> file_img (vw s') (m_freeblock s') x (c ++ p).
Proof.
  intros Hl. pose proof write_range as (Hr1 & Hr2 & Hr3). destruct (mo_files _ _ _ H i x c Hi) as [A1 A2 A3 A4]. split; [done|done| |].
  - intros k Hk. rewrite write_slot. by apply A3.
  - intros q Hq. unfold fbyte, blk. rewrite write_slot. pose proof (A4 q Hq) as E. unfold fbyte, blk in E. assert (Hq5 : 0 <= q / 512 < 140) by (Z.div_mod_to_equations; lia).
    destruct (decide (q / 512 = sz / 512)) as [Eb|Hne].
    + rewrite Eb, Ea in *. destruct (Z.eqb_spec a 0) as [|_]; [done|]. rewrite write_vw, decide_True, lookup_splice by (done || apply write_len).
      destruct (decide _) as [Hin|Hin].
      * rewrite lookup_app_r by (Z.div_mod_to_equations; lia). do 2 f_equal. Z.div_mod_to_equations; lia.
      * rewrite E. destruct (decide (q < sz)) as [?|?]; [rewrite lookup_app_l by lia; done|]. rewrite !lookup_ge_None_2; [done| |lia]. rewrite length_app. Z.div_mod_to_equations; lia.
    + destruct (Z.eqb_spec (slot (vw s) x (q / 512)) 0) as [Es|Es].
      * rewrite E. destruct (decide (q < sz)) as [?|?]; [rewrite lookup_app_l by lia; done|]. rewrite !lookup_ge_None_2; [done|rewrite length_app; Z.div_mod_to_equations; lia|lia].
      * rewrite write_vw, decide_False.
        { rewrite E. destruct (decide (q < sz)) as [?|?]; [rewrite lookup_app_l by lia; done|]. rewrite !lookup_ge_None_2; [done|rewrite length_app; Z.div_mod_to_equations; lia|lia]. }
        rewrite <- Ea. apply (mo_sep s fl (Some i) i i x c x c); [done|done|done|lia|lia|by right|done].
Qed.

Lemma write_other j y d : j <> i -> fl !! j = Some (y, d) -> file_img (vw s') (m_freeblock s') y d /\ forall k, slot (vw s') y k = slot (vw s) y k.
Proof.
  intros Hne Hj. pose proof write_range. apply (file_img_other (vw s) (vw s') (m_freeblock s) (m_freeblock s') y d a); [|intros k Hk Hk0|done|by apply (mo_files _ _ _ H j)].
  - intros b Hb. by rewrite write_vw, decide_False.
  - rewrite <- Ea. apply (mo_sep s fl (Some i) j i y d x c); [done|done|done|done|lia|by left|done].
Qed.

Lemma mk_write : Z.of_nat (length (c ++ p)) <= 71680 -> mk_ok s' (<[i := (x, c ++ p)]> fl) (Some i).
Proof.
  intros Hl. pose proof write_range. pose proof H as [B1 B2 B3 B4 B5 B6 B7 B8 B9 B10 B11].
  assert (Hfl : forall j y d, <[i := (x, c ++ p)]> fl !! j = Some (y, d) -> (j = i /\ y = x /\ d = c ++ p) \/ (j <> i /\ fl !! j = Some (y, d))).
  { intros j y d Hj. apply insert_lookup_cases in Hj as [(<- & [= -> ->] & _)|[? ?]]; auto. }
  assert (Hsl : forall j y d k, <[i := (x, c ++ p)]> fl !! j = Some (y, d) -> slot (vw s') y k = slot (vw s) y k /\ exists d0, fl !! j = Some (y, d0)).
  { intros j y d k Hj. destruct (Hfl j y d Hj) as [(-> & -> & ->)|[Hji Hj']]; [split; [apply write_slot|eauto]|]. split; [by apply (write_other j y d)|eauto]. }
  assert (Hlow : forall b, b < 59 \/ m_freeblock s <= b -> vw s' b = vw s b) by (intros b Hb; rewrite write_vw, decide_False; [done|lia]).
  split; rewrite ?length_insert; try done.
  - apply setw_ok; [done|]. rewrite length_splice by apply write_len. by apply vw_length.
  - intros b Hb. rewrite Hlow by (right; apply Hb). by apply B3.
  - intros j y d Hj. destruct (Hfl j y d Hj) as [(-> & -> & ->)|[Hji Hj']]; [by apply write_self|by apply (write_other j)].
  - intros j j' y d y' d' k k' Hj Hj' Hk Hk'. destruct (Hsl j y d k Hj) as [-> [d0 Hd0]], (Hsl j' y' d' k' Hj') as [-> [d0' Hd0']]. by apply (B7 j j' y d0 y' d0').
  - intros j y d Hj Hcur. destruct (Hfl j y d Hj) as [(-> & _)|[Hji Hj']]; [done|]. destruct (B8 j y d Hj' Hcur) as (C1 & C2 & C3). split; [|split; [done|]].
    + apply (extent_same (vw s)); [|done]. intros k. by apply (Hsl j y d k).
    + rewrite <- C3. unfold rdino. rewrite Hlow; [done|]. pose proof (lookup_lt_Some _ _ _ Hj'). left. Z.div_mod_to_equations; lia.
  - intros inum Hin. rewrite Hlow; [by apply B9|]. left. Z.div_mod_to_equations; lia.
  - rewrite Hlow by lia. done.
  - intros b Hb. rewrite Hlow by lia. by apply B11.
Qed.
End write.

Lemma blocks_mono a b : 0 <= a <= b -> blocks a <= blocks b.
Proof.
  intros Hab. unfold blocks. pose proof (Z.div_le_mono (a + 511) (b + 511) 512 ltac:(lia) ltac:(lia)). destruct (Z.ltb_spec 6144 a), (Z.ltb_spec 6144 b); lia.
Qed.

Lemma bind_panic {S A B} (m : M S A) (k : A -> M S B) s msg : m s = Panic msg -> (m ≫= k) s = Panic msg.
Proof. intros E. by rewrite bind_run, E. Qed.

Definition fits_in (s : mkst) (n tot : Z) : bool := (tot <=? 71680) && (m_freeblock s + (blocks tot - blocks n) <=? 1000).

Lemma iappend_loop_run i fuel : forall p s fl x c,
  mk_ok s fl (Some i) -> fl !! i = Some (x, c) -> extent (vw s) x (Z.of_nat (length c)) -> (length p <= fuel)%nat ->
  let n := Z.of_nat (length c) in let tot := Z.of_nat (length (c ++ p)) in
  if fits_in s n tot
  then exists x' s', iappend_loop fuel p x n s = Ret (x', tot) s' /\ mk_ok s' (<[i := (x', c ++ p)]> fl) (Some i) /\ extent (vw s') x' tot /\
         m_freeblock s' = m_freeblock s + (blocks tot - blocks n) /\ x' = set_i_addrs (i_addrs x') x
  else exists msg, iappend_loop fuel p x n s = Panic msg.
Proof.
  induction fuel as [|fuel IH]; intros p s fl x c H Hi He Hfuel n tot; (destruct p as [|b p]; [|try (simpl in Hfuel; lia)]).
  1, 2: unfold tot, fits_in; rewrite app_nil_r; fold n; pose proof (fi_len _ _ _ _ (mo_files _ _ _ H i x c Hi)); pose proof (mo_free _ _ _ H);
    destruct (Z.leb_spec n 71680); [|lia]; destruct (Z.leb_spec (m_freeblock s + (blocks n - blocks n)) 1000); [|lia];
    exists x, s; (split; [done|]); rewrite list_insert_id by done; (split; [done|]); (split; [done|]); (split; [lia|by destruct x]).
  cbn [iappend_loop]. set (q := b :: p) in *. assert (Hq : (1 <= length q)%nat) by (simpl; lia). assert (HN : tot = n + Z.of_nat (length q)) by (unfold tot; rewrite length_app; lia).
  change BSIZE with 512. change MAXFILE with 140. pose proof (fi_len _ _ _ _ (mo_files _ _ _ H i x c Hi)) as Hn. fold n in Hn.
  destruct (Z.ltb_spec (n / 512) 140) as [Hbn|Hbn].
  2: { unfold fits_in. destruct (Z.leb_spec tot 71680); [Z.div_mod_to_equations; lia|]. by eexists. }
  assert (Hroom : n < 71680) by (Z.div_mod_to_equations; lia). simpl (negb true). rewrite bind_unless_false. rewrite (u32_id ((n / 512 + 1) * 512 - n)) by (unfold two32; Z.div_mod_to_equations; lia).
  set (m := Z.min (Z.of_nat (length q)) ((n / 512 + 1) * 512 - n)). assert (Hm : 1 <= m /\ n + m <= 512 * (n / 512 + 1) /\ m <= Z.of_nat (length q)) by (Z.div_mod_to_equations; lia).
  pose proof (block_run s fl i x c m H Hi He Hroom ltac:(lia) ltac:(fold n; lia)) as B. fold n in B. pose proof (blocks_mono (n + m) tot ltac:(lia)) as Hmono.
  destruct (Z.leb_spec (m_freeblock s + (blocks (n + m) - blocks n)) 1000) as [Hle|Hgt].
  - destruct B as (x1 & s1 & E & B1 & B2 & B3 & B4). mstep E. cbn [fst snd]. set (a := slot (vw s1) x1 (n / 512)).
    assert (Ha : a <> 0) by (apply B4; [lia|]; unfold owns; destruct (Z.eqb_spec (n / 512) 140); Z.div_mod_to_equations; lia).
    assert (Hi1 : <[i := (x1, c)]> fl !! i = Some (x1, c)) by (apply list_lookup_insert_eq; by eapply lookup_lt_Some).
    pose proof (fi_range _ _ _ _ (mo_files _ _ _ B1 i x1 c Hi1) (n / 512) ltac:(Z.div_mod_to_equations; lia) Ha) as Har. fold a in Har. pose proof (mo_free _ _ _ B1).
    mstep (rsect_run s1 a (mo_img _ _ _ B1) ltac:(lia)). mstep (wsect_run s1 a (splice (Z.to_nat (n - n / 512 * 512)) (take (Z.to_nat m) q) (vw s1 a)) (mo_img _ _ _ B1) ltac:(lia)).
    assert (Ht : Z.of_nat (length (take (Z.to_nat m) q)) = m) by (rewrite length_take; lia).
    assert (Hc : Z.of_nat (length (c ++ take (Z.to_nat m) q)) = n + m) by (rewrite length_app; lia).
    pose proof (mk_write s1 _ i x1 c (take (Z.to_nat m) q) a B1 Hi1 Hroom eq_refl Ha ltac:(rewrite Ht; fold n; lia) ltac:(rewrite Hc; Z.div_mod_to_equations; lia)) as W. fold n in W.
    pose proof (write_slot s1 _ i x1 c (take (Z.to_nat m) q) a B1 Hi1 Hroom eq_refl Ha) as Ws. fold n in Ws. set (s2 := setw a _ s1) in *.
    rewrite list_insert_insert_eq in W. rewrite u32_id by (unfold two32; Z.div_mod_to_equations; lia).
    assert (Hi2 : <[i := (x1, c ++ take (Z.to_nat m) q)]> fl !! i = Some (x1, c ++ take (Z.to_nat m) q)) by (apply list_lookup_insert_eq; by eapply lookup_lt_Some).
    specialize (IH (drop (Z.to_nat m) q) s2 _ x1 _ W Hi2). cbv zeta in IH. rewrite Hc in IH. rewrite <- app_assoc, take_drop in IH. fold tot in IH.
    assert (Ef : fits_in s2 (n + m) tot = fits_in s n tot). { unfold fits_in. f_equal. change (m_freeblock s2) with (m_freeblock s1). rewrite B2. f_equal. lia. }
    rewrite Ef in IH. specialize (IH ltac:(apply (extent_same (vw s1)); [exact Ws|done]) ltac:(rewrite length_drop; lia)).
    destruct (fits_in s n tot); [|done]. destruct IH as (x' & s' & E' & I1 & I2 & I3 & I4). rewrite list_insert_insert_eq in I1. exists x', s'. split; [done|]. split; [done|]. split; [done|]. split.
    + rewrite I3. change (m_freeblock s2) with (m_freeblock s1). lia.
    + rewrite I4, B3. by destruct x.
  - unfold fits_in. destruct (Z.leb_spec (m_freeblock s + (blocks tot - blocks n)) 1000); [lia|]. rewrite andb_false_r.
    destruct B as [[msg E]|(r & s1 & E & B1 & B2)]; [exists msg; by apply bind_panic|]. exists "read". mstep E. apply bind_panic. by apply rsect_end.
Qed.

(** ** Inodes *)

(** The fields that are not on the disk are 0. *)
Definition blank (x : inode) : Prop :=
  x = mkinode 0 0 0 (mksleep 0 0) 0 (i_type x) (i_major x) (i_minor x) (i_nlink x) (i_size x) (i_addrs x).

Lemma slice_slice (o n a m : nat) (d : list Z) : (a + m <= n)%nat -> slice a m (slice o n d) = slice (o + a) m d.
Proof.
  intros Ham. apply list_eq. intros j. rewrite !lookup_slice. destruct (decide (j < m)%nat); [|done]. rewrite decide_True by lia. f_equal. lia.
Qed.

Lemma get32s_slice n d d' o a w :
  (a + 4 * n <= w)%nat -> slice o w d = slice o w d' -> get32s (o + a) n d = get32s (o + a) n d'.
Proof.
  revert a. induction n as [|n IH]; intros a Ha E; [done|]. simpl. f_equal.
  - unfold get32. rewrite <- !(slice_slice o w a 4) by lia. by rewrite E.
  - rewrite <- Nat.add_assoc. apply IH; [lia|done].
Qed.

(** An inode depends on its 64 bytes. *)
Lemma get_dinode_slice o d d' x : slice o 64 d = slice o 64 d' -> get_dinode o d x = get_dinode o d' x.
Proof.
  intros E. assert (H16 : forall a, (a + 2 <= 64)%nat -> get16 d (o + a) = get16 d' (o + a)) by (intros a Ha; unfold get16; rewrite <- !(slice_slice o 64 a 2) by lia; by rewrite E).
  unfold get_dinode. rewrite (get32s_slice 13 d d' o 12 64), !(H16 2%nat), !(H16 4%nat), !(H16 6%nat) by (done || lia).
  pose proof (H16 0%nat ltac:(lia)) as H0. rewrite Nat.add_0_r in H0. rewrite H0. unfold get32. rewrite <- !(slice_slice o 64 8 4) by lia. by rewrite E.
Qed.

Lemma IBLOCK_eq inum : 0 <= inum < 208 -> IBLOCK inum sb = 32 + inum / 8.
Proof.
  intros Hi. unfold IBLOCK. change (sb_inodestart sb) with 32. change IPB with 8. rewrite u32_id; [lia|]. unfold two32. Z.div_mod_to_equations; lia.
Qed.

Lemma dip_apart a b : a <> b -> a / 8 = b / 8 -> (dip_at a + 64 <= dip_at b \/ dip_at b + 64 <= dip_at a)%nat.
Proof. intros Hne E. unfold dip_at. change IPB with 8. Z.div_mod_to_equations; lia. Qed.

Lemma winode_img s inum x :
  img_ok s -> 0 <= inum < 208 -> fits x -> blank x ->
  exists s', winode inum x s = Ret tt s' /\ img_ok s' /\ m_freeblock s' = m_freeblock s /\ m_freeinode s' = m_freeinode s /\
    (forall b, b <> 32 + inum / 8 -> vw s' b = vw s b) /\ rdino (vw s') inum = x /\
    forall inum', 0 <= inum' < 208 -> inum' <> inum -> slice (dip_at inum') 64 (vw s' (32 + inum' / 8)) = slice (dip_at inum') 64 (vw s (32 + inum' / 8)).
Proof.
  intros H Hn Hf Hb. unfold winode. rewrite IBLOCK_eq by done. set (ib := 32 + inum / 8). assert (Hib : 32 <= ib < 58) by (unfold ib; Z.div_mod_to_equations; lia).
  mstep (rsect_run s ib H ltac:(lia)). set (d := put_dinode _ _ _). pose proof (vw_length s ib H) as Hl. pose proof (dip_at_le inum) as Ho.
  assert (Hd : length d = 512%nat) by (unfold d; rewrite length_put_dinode; [done|lia|apply Hf]). rewrite wsect_run by (done || lia).
  assert (V : forall b, vw (setw ib d s) b = if decide (b = ib) then d else vw s b) by (intros b; apply vw_setw; [done|lia]).
  exists (setw ib d s). split; [done|]. split; [by apply setw_ok|]. split; [done|]. split; [done|]. split; [|split].
  - intros b Hne. by rewrite V, decide_False.
  - unfold rdino. fold ib. rewrite V, decide_True by done. transitivity (get_dinode (dip_at inum) d x); [by rewrite Hb|]. apply dinode_roundtrip; [lia|done].
  - intros inum' Hn' Hne. rewrite V. destruct (decide (32 + inum' / 8 = ib)) as [E|]; [|done]. rewrite E. apply slice_put_dinode; [lia|apply Hf|]. apply dip_apart; [done|unfold ib in E; lia].
Qed.

(** The block map is in [addrs]. *)
Lemma slot_addrs v x y k : i_addrs x = i_addrs y -> slot v x k = slot v y k.
Proof. intros E. unfold slot, addr_at, ind_addr. by rewrite E. Qed.

Lemma file_img_addrs v lim x y c : i_addrs x = i_addrs y -> fits x -> file_img v lim y c -> file_img v lim x c.
Proof.
  intros E F [A1 A2 A3 A4]. split; [done|done| |].
  - intros k. rewrite (slot_addrs v x y k E). apply A3.
  - intros p Hp. rewrite <- A4 by done. unfold fbyte, blk. by rewrite (slot_addrs v x y _ E).
Qed.

(** A block of inodes changes. *)
Section inode_block.
Context (s s' : mkst) (fl : list (inode * list Z)) (cur : option nat) (inum : Z).
Context (H : mk_ok s fl cur) (Hn : 0 <= inum < 208) (Him : img_ok s') (Hfb : m_freeblock s' = m_freeblock s).
Context (Hv : forall b, b <> 32 + inum / 8 -> vw s' b = vw s b).

Lemma ib_range : 32 <= 32 + inum / 8 < 58.
Proof. Z.div_mod_to_equations; lia. Qed.

Lemma ib_file j y d : fl !! j = Some (y, d) -> file_img (vw s') (m_freeblock s') y d /\ forall k, slot (vw s') y k = slot (vw s) y k.
Proof.
  intros Hj. pose proof ib_range. pose proof (mo_files _ _ _ H j y d Hj) as F. apply (file_img_other (vw s) (vw s') (m_freeblock s) (m_freeblock s') y d (32 + inum / 8)); [done| |lia|done].
  intros k Hk Hne. pose proof (fi_range _ _ _ _ F k Hk Hne). lia.
Qed.

Lemma ib_zero b : m_freeblock s' <= b < 1000 -> vw s' b = block0.
Proof. pose proof ib_range. pose proof (mo_free _ _ _ H). intros Hb. rewrite Hv by lia. apply (mo_zero _ _ _ H). lia. Qed.

Lemma ib_sb : vw s' 1 = sb_block.
Proof. pose proof ib_range. rewrite Hv by lia. apply H. Qed.

Lemma ib_meta b : b = 0 \/ 2 <= b < 32 \/ b = 58 -> vw s' b = block0.
Proof. pose proof ib_range. intros Hb. rewrite Hv by lia. by apply (mo_meta _ _ _ H). Qed.
End inode_block.

(** The inode of the file that was worked on is written back. *)
Lemma mk_winode s fl i x0 x c :
  mk_ok s fl (Some i) -> fl !! i = Some (x0, c) -> fits x -> blank x -> i_addrs x = i_addrs x0 -> i_size x = Z.of_nat (length c) -> extent (vw s) x0 (Z.of_nat (length c)) ->
  exists s', winode (Z.of_nat i + 1) x s = Ret tt s' /\ mk_ok s' (<[i := (x, c)]> fl) None /\ m_freeblock s' = m_freeblock s.
Proof.
  intros H Hi Hf Hb Ha Hsz He. pose proof (mo_room _ _ _ H) as Hr. pose proof (lookup_lt_Some _ _ _ Hi) as Hlt. set (inum := Z.of_nat i + 1).
  destruct (winode_img s inum x (mo_img _ _ _ H) ltac:(lia) Hf Hb) as (s' & E & Him & Efb & Efi & Hv & Hrd & Hsl). exists s'. split; [done|]. split; [|done].
  pose proof H as [B1 B2 B3 B4 B5 B6 B7 B8 B9 B10 B11]. assert (Hn : 0 <= inum < 208) by lia.
  assert (Hfl : forall j y d, <[i := (x, c)]> fl !! j = Some (y, d) -> (j = i /\ y = x /\ d = c) \/ (j <> i /\ fl !! j = Some (y, d))).
  { intros j y d Hj. apply insert_lookup_cases in Hj as [(<- & [= -> ->] & _)|[? ?]]; auto. }
  assert (Hs : forall j y d k, <[i := (x, c)]> fl !! j = Some (y, d) -> exists y0, fl !! j = Some (y0, d) /\ slot (vw s') y k = slot (vw s) y0 k).
  { intros j y d k Hj. destruct (Hfl j y d Hj) as [(-> & -> & ->)|[Hji Hj']].
    - exists x0. split; [done|]. rewrite (slot_addrs (vw s') x x0 k Ha). by apply (ib_file s s' fl (Some i) inum H Hn Efb Hv i x0 c).
    - exists y. split; [done|]. by apply (ib_file s s' fl (Some i) inum H Hn Efb Hv j y d). }
  split; rewrite ?length_insert; try done; try lia.
  - by apply (ib_zero s s' fl (Some i) inum).
  - intros j y d Hj. destruct (Hfl j y d Hj) as [(-> & -> & ->)|[Hji Hj']]; [|by apply (ib_file s s' fl (Some i) inum H Hn Efb Hv j y d)].
    apply (file_img_addrs _ _ x x0); [done|done|]. by apply (ib_file s s' fl (Some i) inum H Hn Efb Hv i x0 c).
  - intros j j' y d y' d' k k' Hj Hj' Hk Hk'. destruct (Hs j y d k Hj) as (y0 & Hy0 & ->), (Hs j' y' d' k' Hj') as (y0' & Hy0' & ->). by apply (B7 j j' y0 d y0' d').
  - intros j y d Hj _. destruct (Hfl j y d Hj) as [(-> & -> & ->)|[Hji Hj']].
    + split; [|by split]. intros k Hk. rewrite (slot_addrs _ x x0 k Ha). rewrite (proj2 (ib_file s s' fl (Some i) inum H Hn Efb Hv i x0 c Hi)). by apply He.
    + destruct (B8 j y d Hj') as (C1 & C2 & C3); [congruence|]. split; [|split; [done|]].
      * apply (extent_same (vw s)); [|done]. by apply (ib_file s s' fl (Some i) inum H Hn Efb Hv j y d).
      * rewrite <- C3. pose proof (lookup_lt_Some _ _ _ Hj'). apply get_dinode_slice, Hsl; lia.
  - intros n Hnn. rewrite Hsl; [by apply B9|lia|lia].
  - by apply (ib_sb s s' fl (Some i) inum).
  - by apply (ib_meta s s' fl (Some i) inum).
Qed.

Lemma mk_open s fl i : mk_ok s fl None -> mk_ok s fl (Some i).
Proof. intros [B1 B2 B3 B4 B5 B6 B7 B8 B9 B10 B11]. split; try done. intros j y d Hj _. by apply B8. Qed.

Lemma rinode_run s fl i x c : mk_ok s fl None -> fl !! i = Some (x, c) -> rinode (Z.of_nat i + 1) s = Ret x s.
Proof.
  intros H Hi. pose proof (mo_room _ _ _ H). pose proof (lookup_lt_Some _ _ _ Hi). unfold rinode. rewrite IBLOCK_eq by lia.
  mstep (rsect_run s (32 + (Z.of_nat i + 1) / 8) (mo_img _ _ _ H) ltac:(Z.div_mod_to_equations; lia)). destruct (mo_done _ _ _ H i x c Hi ltac:(done)) as (_ & _ & E). unfold rdino in E. by rewrite E.
Qed.

Lemma iappend_run s fl i x c p :
  mk_ok s fl None -> fl !! i = Some (x, c) ->
  let n := Z.of_nat (length c) in let tot := Z.of_nat (length (c ++ p)) in
  if fits_in s n tot
  then exists x' s', iappend (Z.of_nat i + 1) p s = Ret tt s' /\ mk_ok s' (<[i := (x', c ++ p)]> fl) None /\
         m_freeblock s' = m_freeblock s + (blocks tot - blocks n) /\ i_type x' = i_type x /\ i_nlink x' = i_nlink x
  else exists msg, iappend (Z.of_nat i + 1) p s = Panic msg.
Proof.
  intros H Hi n tot. destruct (mo_done _ _ _ H i x c Hi ltac:(done)) as (He & Hsz & Hrd). assert (Hb : blank x) by by rewrite <- Hrd.
  pose proof (mo_files _ _ _ H i x c Hi) as [Hf Hlen _ _]. unfold iappend. rewrite (bind_ret_run _ _ _ _ _ (rinode_run s fl i x c H Hi)). rewrite Hsz. fold n. rewrite xint_id by (unfold two32; lia).
  pose proof (iappend_loop_run i (length p) p s fl x c (mk_open s fl i H) Hi He ltac:(lia)) as L. cbv zeta in L. fold n tot in L. destruct (fits_in s n tot) eqn:Efit.
  - destruct L as (x1 & s1 & E & L1 & L2 & L3 & L4). mstep E. cbn [fst snd]. assert (Hi1 : <[i := (x1, c ++ p)]> fl !! i = Some (x1, c ++ p)) by (apply list_lookup_insert_eq; by eapply lookup_lt_Some).
    pose proof (mo_files _ _ _ L1 i x1 (c ++ p) Hi1) as [Hf1 Hlen1 _ _]. fold tot in Hlen1. rewrite xint_id by (unfold two32; lia). set (x2 := set_i_size tot x1).
    destruct (mk_winode s1 _ i x1 x2 (c ++ p) L1 Hi1) as (s2 & E2 & M2 & F2); [destruct Hf1; split; try done; simpl; unfold two32; lia|unfold blank, x2; rewrite L4, Hb; done|done|done|done|].
    rewrite E2. exists x2, s2. split; [done|]. rewrite list_insert_insert_eq in M2. split; [done|]. split; [lia|]. unfold x2. by rewrite L4.
  - destruct L as [msg E]. exists msg. by apply bind_panic.
Qed.

(** ** Allocating an inode *)

Definition fresh_inode (type : Z) : inode := set_i_nlink 1 (set_i_type type inode0).

Lemma slot_fresh v type k : 0 <= k <= 140 -> slot v (fresh_inode type) k = 0.
Proof.
  intros Hk. unfold slot, addr_at. change (ind_addr (fresh_inode type)) with 0. destruct (k =? 140); [done|]. destruct (Z.ltb_spec k 12); [|done].
  change (i_addrs (fresh_inode type)) with (replicate 13 0). rewrite lookup_replicate_2 by lia. done.
Qed.

Lemma ialloc_run s fl type :
  mk_ok s fl None -> (length fl < 199)%nat -> 0 <= type < 32768 ->
  exists s', ialloc type s = Ret (Z.of_nat (length fl) + 1) s' /\ mk_ok s' (fl ++ [(fresh_inode type, [])]) None /\ m_freeblock s' = m_freeblock s.
Proof.
  intros H Hlen Ht. pose proof H as [B1 B2 B3 B4 B5 B6 B7 B8 B9 B10 B11]. unfold ialloc. rewrite bind_get. set (inum := m_freeinode s). assert (Hnum : inum = Z.of_nat (length fl) + 1) by lia.
  rewrite u32_id by (unfold two32; lia). set (s0 := mkmk _ _ _). assert (E0 : put s0 s = Ret tt s0) by done. mstep E0.
  unfold xshort. rewrite !of_le_le16 by lia. rewrite xint_id by (unfold two32; lia). change (set_i_size 0 (set_i_nlink 1 (set_i_type type inode0))) with (fresh_inode type). set (x := fresh_inode type).
  assert (Hfx : fits x). { split; try (simpl; unfold short, two32; lia). apply (Forall_replicate _ 13). unfold two32. lia. }
  destruct (winode_img s0 inum x) as (s' & E & Him & Efb & Efi & Hv & Hrd & Hsl); [by destruct B1|lia|done|done|]. mstep E. exists s'. rewrite Hnum. split; [done|]. split; [|done].
  assert (Hn : 0 <= inum < 208) by lia. change (m_freeblock s0) with (m_freeblock s) in Efb. change (m_freeinode s0) with (inum + 1) in Efi. change (vw s0) with (vw s) in *.
  assert (Hfl : forall j y d, (fl ++ [(x, [])]) !! j = Some (y, d) -> (j = length fl /\ y = x /\ d = []) \/ (fl !! j = Some (y, d))).
  { intros j y d Hj. apply lookup_app_Some in Hj as [?|[Hge Hj]]; [by right|left]. apply list_lookup_singleton_Some in Hj as [? [= <- <-]]. split; [lia|done]. }
  assert (Hs0 : forall k, 0 <= k <= 140 -> slot (vw s') x k = 0) by (intros k Hk; by apply slot_fresh).
  split; rewrite ?length_app; simpl; try done; try lia.
  - by apply (ib_zero s s' fl None inum).
  - intros j y d Hj. destruct (Hfl j y d Hj) as [(-> & -> & ->)|Hj']; [|by apply (ib_file s s' fl None inum H Hn Efb Hv j y d)]. split; [done|simpl; lia| |].
    + intros k Hk. by rewrite Hs0.
    + intros p Hp. unfold fbyte, blk. rewrite Hs0 by (Z.div_mod_to_equations; lia). simpl. unfold block0. by rewrite lookup_replicate_2 by (change BSIZE with 512; Z.div_mod_to_equations; lia).
  - intros j j' y d y' d' k k' Hj Hj' Hk Hk' Eq Hne.
    destruct (Hfl j y d Hj) as [(-> & -> & ->)|Hjo]; [by rewrite Hs0 in Hne|]. destruct (Hfl j' y' d' Hj') as [(-> & -> & ->)|Hjo']; [by rewrite Eq, Hs0 in Hne|].
    rewrite (proj2 (ib_file s s' fl None inum H Hn Efb Hv j y d Hjo)) in *. rewrite (proj2 (ib_file s s' fl None inum H Hn Efb Hv j' y' d' Hjo')) in *. by apply (B7 j j' y d y' d').
  - intros j y d Hj _. destruct (Hfl j y d Hj) as [(-> & -> & ->)|Hj'].
    + split; [|split; [done|by rewrite <- Hnum]]. intros k Hk. rewrite Hs0 by done. unfold owns. simpl. destruct (k =? 140); lia.
    + destruct (B8 j y d Hj' ltac:(done)) as (C1 & C2 & C3). split; [|split; [done|]].
      * apply (extent_same (vw s)); [|done]. by apply (ib_file s s' fl None inum H Hn Efb Hv j y d).
      * rewrite <- C3. pose proof (lookup_lt_Some _ _ _ Hj'). apply get_dinode_slice, Hsl; lia.
  - intros n Hnn. rewrite Hsl; [apply B9; lia|lia|lia].
  - by apply (ib_sb s s' fl None inum).
  - by apply (ib_meta s s' fl None inum).
Qed.

(** ** The files of the host *)

Fixpoint upto_eof (reads : list (list Z)) : list Z :=
  match reads with [] => [] | buf :: reads => if bool_decide (buf = []) then [] else buf ++ upto_eof reads end.

Lemma blocks_0 : blocks 0 = 0.
Proof. done. Qed.

Lemma fits_in_split s s1 n n1 tot :
  0 <= n <= n1 -> n1 <= tot -> m_freeblock s1 = m_freeblock s + (blocks n1 - blocks n) -> fits_in s n tot = fits_in s n n1 && fits_in s1 n1 tot.
Proof.
  intros Hn H1 E. unfold fits_in. rewrite E. pose proof (blocks_mono n1 tot ltac:(lia)).
  destruct (Z.leb_spec tot 71680), (Z.leb_spec n1 71680), (Z.leb_spec (m_freeblock s + (blocks tot - blocks n)) 1000), (Z.leb_spec (m_freeblock s + (blocks n1 - blocks n)) 1000),
    (Z.leb_spec (m_freeblock s + (blocks n1 - blocks n) + (blocks tot - blocks n1)) 1000); simpl; done || lia.
Qed.

Lemma copy_in_run i reads : forall s fl x c,
  mk_ok s fl None -> fl !! i = Some (x, c) ->
  let n := Z.of_nat (length c) in let tot := Z.of_nat (length (c ++ upto_eof reads)) in
  if fits_in s n tot
  then exists x' s', copy_in (Z.of_nat i + 1) reads s = Ret tt s' /\ mk_ok s' (<[i := (x', c ++ upto_eof reads)]> fl) None /\
         m_freeblock s' = m_freeblock s + (blocks tot - blocks n) /\ i_type x' = i_type x /\ i_nlink x' = i_nlink x
  else exists msg, copy_in (Z.of_nat i + 1) reads s = Panic msg.
Proof.
  assert (Hnil : forall s fl x c, mk_ok s fl None -> fl !! i = Some (x, c) -> fits_in s (Z.of_nat (length c)) (Z.of_nat (length c)) = true).
  { intros s fl x c H Hi. pose proof (fi_len _ _ _ _ (mo_files _ _ _ H i x c Hi)). pose proof (mo_free _ _ _ H). unfold fits_in. apply andb_true_iff. split; apply Z.leb_le; lia. }
  assert (Hdone : forall s fl x c, mk_ok s fl None -> fl !! i = Some (x, c) -> exists x' s', (mret tt : M mkst unit) s = Ret tt s' /\ mk_ok s' (<[i := (x', c)]> fl) None /\
    m_freeblock s' = m_freeblock s + (blocks (Z.of_nat (length c)) - blocks (Z.of_nat (length c))) /\ i_type x' = i_type x /\ i_nlink x' = i_nlink x).
  { intros s fl x c H Hi. exists x, s. split; [done|]. rewrite list_insert_id by done. split; [done|]. split; [lia|done]. }
  induction reads as [|buf reads IH]; intros s fl x c H Hi n tot; unfold tot; cbn [copy_in upto_eof].
  { rewrite app_nil_r. unfold n. rewrite (Hnil s fl x c H Hi). by apply Hdone. }
  destruct (bool_decide (buf = [])). { rewrite app_nil_r. unfold n. rewrite (Hnil s fl x c H Hi). by apply Hdone. }
  pose proof (iappend_run s fl i x c buf H Hi) as A. cbv zeta in A. fold n in A. rewrite app_assoc. set (n1 := Z.of_nat (length (c ++ buf))) in *. fold tot. set (tot' := Z.of_nat (length _)).
  assert (Hn : 0 <= n <= n1 /\ n1 <= tot') by (unfold n1, tot', n; rewrite !length_app; lia).
  destruct (fits_in s n n1) eqn:E1.
  - destruct A as (x1 & s1 & E & A1 & A2 & A3 & A4). mstep E. assert (Hi1 : <[i := (x1, c ++ buf)]> fl !! i = Some (x1, c ++ buf)) by (apply list_lookup_insert_eq; by eapply lookup_lt_Some).
    specialize (IH s1 _ x1 _ A1 Hi1). cbv zeta in IH. fold n1 in IH. fold tot' in IH. rewrite (fits_in_split s s1 n n1 tot'), E1 by (done || lia). rewrite andb_true_l.
    destruct (fits_in s1 n1 tot'); [|done]. destruct IH as (x' & s' & E' & I1 & I2 & I3 & I4). rewrite list_insert_insert_eq in I1. exists x', s'. split; [done|]. split; [done|]. split; [lia|]. split; congruence.
  - destruct A as [msg E]. rewrite (fits_in_split s (mkmk [] 0 (m_freeblock s + (blocks n1 - blocks n))) n n1 tot'), E1 by (done || lia). exists msg. by apply bind_panic.
Qed.

(** The name in the directory, and the entry. *)
Definition base_name (f : hostfile) : list Z := match hf_name f with c :: n => if c =? 95 then n else c :: n | [] => [] end.
Definition dname (name : list Z) : list Z := default [] (lstrncpy 14 (name ++ [0])).
Definition dirent_of (inum : Z) (name : list Z) : list Z := mk_dirent inum (dname name).
Definition data_of (f : hostfile) : list Z := upto_eof (default [] (hf_reads f)).

Lemma lstrncpy_dname name : lstrncpy 14 (name ++ [0]) = Some (dname name) /\ length (dname name) = 14%nat.
Proof.
  unfold dname. assert (H : forall n t, exists l, lstrncpy n (t ++ [0]) = Some l /\ length l = n).
  { induction n as [|n IH]; intros t; [by exists []|]. destruct t as [|y t]; simpl; [eexists; split; [done|]; simpl; by rewrite length_replicate|].
    destruct (y =? 0); [eexists; split; [done|]; simpl; by rewrite length_replicate|]. destruct (IH t) as (l & -> & Hl). exists (y :: l). split; [done|]. simpl. by rewrite Hl. }
  destruct (H 14%nat name) as (l & -> & Hl). done.
Qed.

Lemma dirent_for_run inum name s : 0 <= inum < 65536 -> dirent_for inum name s = Ret (dirent_of inum name) s.
Proof. intros Hi. unfold dirent_for, dirent_of. change (Z.to_nat DIRSIZ) with 14%nat. rewrite (proj1 (lstrncpy_dname name)), bind_some. unfold xshort. by rewrite of_le_le16. Qed.

Lemma length_dirent inum name : length (dirent_of inum name) = 16%nat.
Proof. unfold dirent_of, mk_dirent. rewrite length_app, (proj2 (lstrncpy_dname name)). done. Qed.
