(* ===== verification/MkfsImage.v ===== *)
(** * The image of mkfs as a file system

    [main] either exits, because a file is missing, too big or does not fit, or
    leaves an image with a root directory of all the files. *)

From Stdlib Require Import ZArith Lia.
From stdpp Require Import base numbers strings gmap list.
From S2P Require Import Prelude.
From S2P Require Import Machine.
From S2P Require Import FState.
From S2P Require Import Blocks.
From S2P Require Import Bio.
From S2P Require Import Log.
From S2P Require Import Fs.
From S2P Require Import FsAlloc.
From S2P Require Import FsData.
From S2P Require Import FsRw.
From S2P Require Import Mkfs.
From S2P Require Import MkfsSpec.

Local Open Scope string_scope.
Local Open Scope list_scope.
Local Open Scope Z_scope.

Definition size_of (f : hostfile) : Z := Z.of_nat (length (data_of f)).

(** A file that can be put into the image. *)
Definition acceptable (f : hostfile) : bool :=
  negb (bool_decide (slash ∈ hf_name f)) && (match hf_reads f with Some _ => true | None => false end) && (size_of f <=? 71680).

(** The size of a directory of [k] files. *)
Definition dirsize (k : nat) : Z := 16 * (2 + Z.of_nat k).

Lemma blocks_nonneg n : 0 <= n -> 0 <= blocks n.
Proof. intros Hn. pose proof (blocks_mono 0 n ltac:(lia)). rewrite blocks_0 in *. done. Qed.

Lemma add_file_run s r rc tl f :
  let k := length tl in
  mk_ok s ((r, rc) :: tl) None -> (k <= 197)%nat -> Z.of_nat (length rc) = dirsize k ->
  if acceptable f && (m_freeblock s + (blocks (dirsize (S k)) - blocks (dirsize k)) + blocks (size_of f) <=? 1000)
  then exists r' x s', add_file 1 f s = Ret tt s' /\ mk_ok s' ((r', rc ++ dirent_of (Z.of_nat k + 2) (base_name f)) :: tl ++ [(x, data_of f)]) None /\
         m_freeblock s' = m_freeblock s + (blocks (dirsize (S k)) - blocks (dirsize k)) + blocks (size_of f) /\
         i_type r' = i_type r /\ i_nlink r' = i_nlink r /\ i_type x = T_FILE /\ i_nlink x = 1
  else exists msg, add_file 1 f s = Panic msg.
Proof.
  intros k H Hk Hrc. unfold acceptable, add_file. destruct (bool_decide (slash ∈ hf_name f)); [by eexists|]. simpl (negb false). rewrite andb_true_l, bind_unless_false.
  destruct (hf_reads f) as [reads|] eqn:Er; [|by eexists]. rewrite andb_true_l. fold (base_name f).
  assert (Ed : data_of f = upto_eof reads) by (unfold data_of; by rewrite Er). destruct (ialloc_run s _ T_FILE H ltac:(simpl; lia) ltac:(unfold T_FILE; lia)) as (s1 & E1 & H1 & F1). mstep E1.
  cbn [length] in *. fold k in E1 |- *. replace (Z.of_nat (S k) + 1) with (Z.of_nat k + 2) by lia. mstep (dirent_for_run (Z.of_nat k + 2) (base_name f) s1 ltac:(lia)).
  set (de := dirent_of _ _). simpl in H1. pose proof (iappend_run s1 _ 0 r rc de H1 eq_refl) as A. cbv zeta in A. change (Z.of_nat 0 + 1) with 1 in A.
  assert (Hde : Z.of_nat (length (rc ++ de)) = dirsize (S k)) by (rewrite length_app, Nat2Z.inj_add, Hrc; unfold de; rewrite length_dirent; unfold dirsize; lia). rewrite Hrc, Hde in A.
  pose proof (blocks_nonneg (size_of f) ltac:(unfold size_of; lia)) as Hb0. set (d := blocks (dirsize (S k)) - blocks (dirsize k)) in *.
  destruct (fits_in s1 (dirsize k) (dirsize (S k))) eqn:Ef.
  2: { unfold fits_in in Ef. rewrite F1 in Ef. assert (E71 : (dirsize (S k) <=? 71680) = true) by (apply Z.leb_le; unfold dirsize; lia). rewrite E71 in Ef. simpl in Ef. apply Z.leb_gt in Ef. fold d in Ef.
       destruct (Z.leb_spec (m_freeblock s + d + blocks (size_of f)) 1000); [lia|]. rewrite andb_false_r. destruct A as [msg E]. exists msg. by apply bind_panic. }
  destruct A as (r' & s2 & E2 & A1 & A2 & A3 & A4). mstep E2. change (mk_ok s2 ((r', rc ++ de) :: tl ++ [(fresh_inode T_FILE, [])]) None) in A1. assert (Hi2 : ((r', rc ++ de) :: tl ++ [(fresh_inode T_FILE, [])]) !! S k = Some (fresh_inode T_FILE, [])) by (simpl; by apply list_lookup_middle).
  pose proof (copy_in_run (S k) reads s2 _ _ _ A1 Hi2) as C. cbv zeta in C. replace (Z.of_nat (S k) + 1) with (Z.of_nat k + 2) in C by lia. rewrite app_nil_l, <- Ed in C. fold (size_of f) in C.
  change (Z.of_nat (length [])) with 0 in C. unfold fits_in in C. rewrite blocks_0, A2, F1 in C. fold d in C. rewrite Z.sub_0_r in C.
  destruct ((size_of f <=? 71680) && (m_freeblock s + d + blocks (size_of f) <=? 1000)); [|exact C]. destruct C as (x & s3 & E3 & C1 & C2 & C3 & C4).
  exists r', x, s3. split; [done|]. split; [|split; [lia|]; split; [done|]; split; [done|]; by rewrite C3, C4].
  rewrite app_comm_cons, insert_app_r_alt in C1 by (simpl; fold k; lia). cbn [length] in C1. fold k in C1. by rewrite Nat.sub_diag in C1.
Qed.

(** The entries and the blocks of a list of files, the first of which gets inode
    [inum]. *)
Fixpoint dirents (inum : Z) (files : list hostfile) : list Z :=
  match files with [] => [] | f :: files => dirent_of inum (base_name f) ++ dirents (inum + 1) files end.
Definition total_blocks (files : list hostfile) : Z := foldr (fun f r => blocks (size_of f) + r) 0 files.

Lemma total_nonneg files : 0 <= total_blocks files.
Proof. induction files as [|f files IH]; simpl; [lia|]. pose proof (blocks_nonneg (size_of f) ltac:(unfold size_of; lia)). lia. Qed.

(** Inodes of regular files, with what they contain. *)
Definition regular (files : list hostfile) (ys : list (inode * list Z)) : Prop :=
  Forall2 (fun f y => y.2 = data_of f /\ i_type y.1 = T_FILE /\ i_nlink y.1 = 1) files ys.

Lemma files_run files : forall s r rc tl,
  let k := length tl in
  mk_ok s ((r, rc) :: tl) None -> (k + length files <= 198)%nat -> Z.of_nat (length rc) = dirsize k ->
  let need := blocks (dirsize (k + length files)) - blocks (dirsize k) + total_blocks files in
  if forallb acceptable files && (m_freeblock s + need <=? 1000)
  then exists r' ys s', each files (add_file 1) s = Ret tt s' /\ mk_ok s' ((r', rc ++ dirents (Z.of_nat k + 2) files) :: tl ++ ys) None /\
         m_freeblock s' = m_freeblock s + need /\ i_type r' = i_type r /\ i_nlink r' = i_nlink r /\ regular files ys
  else exists msg, each files (add_file 1) s = Panic msg.
Proof.
  induction files as [|f files IH]; intros s r rc tl k H Hk Hrc need.
  - unfold need. simpl. rewrite Nat.add_0_r. pose proof (mo_free _ _ _ H). destruct (Z.leb_spec (m_freeblock s + (blocks (dirsize k) - blocks (dirsize k) + 0)) 1000); [|lia].
    exists r, [], s. rewrite !app_nil_r. split; [done|]. split; [done|]. split; [lia|]. split; [done|]. split; [done|constructor].
  - cbn [each forallb]. simpl in Hk. pose proof (add_file_run s r rc tl f H ltac:(fold k; lia) Hrc) as A. cbv zeta in A. fold k in A.
    set (d := blocks (dirsize (S k)) - blocks (dirsize k)) in *. assert (En : need = d + blocks (size_of f) + (blocks (dirsize (S k + length files)) - blocks (dirsize (S k)) + total_blocks files)).
    { unfold need, d. simpl. replace (k + S (length files))%nat with (S (k + length files)) by lia. lia. }
    set (rest := blocks (dirsize (S k + length files)) - blocks (dirsize (S k)) + total_blocks files) in *.
    assert (Hrest : 0 <= rest). { unfold rest. pose proof (total_nonneg files). pose proof (blocks_mono (dirsize (S k)) (dirsize (S k + length files)) ltac:(unfold dirsize; lia)). lia. }
    destruct (acceptable f) eqn:Ea; [|destruct A as [msg E]; exists msg; by apply bind_panic]. rewrite andb_true_l in *.
    destruct (Z.leb_spec (m_freeblock s + d + blocks (size_of f)) 1000) as [Hle|Hgt].
    2: { destruct (Z.leb_spec (m_freeblock s + need) 1000); [lia|]. rewrite andb_false_r. destruct A as [msg E]. exists msg. by apply bind_panic. }
    destruct A as (r1 & x & s1 & E & A1 & A2 & A3 & A4 & A5 & A6). mstep E.
    assert (Hl : length (tl ++ [(x, data_of f)]) = S k) by (rewrite length_app; simpl; fold k; lia).
    specialize (IH s1 r1 _ _ A1). rewrite Hl in IH. specialize (IH ltac:(lia)). cbv zeta in IH. fold rest in IH. rewrite length_app, Nat2Z.inj_add, Hrc in IH. rewrite length_dirent in IH.
    specialize (IH ltac:(unfold dirsize; lia)). rewrite A2 in IH. replace (m_freeblock s + need) with (m_freeblock s + d + blocks (size_of f) + rest) by lia.
    destruct (forallb acceptable files && (m_freeblock s + d + blocks (size_of f) + rest <=? 1000)); [|exact IH].
    destruct IH as (r' & ys & s' & E' & I1 & I2 & I3 & I4 & I5). exists r', ((x, data_of f) :: ys), s'. split; [done|].
    rewrite <- !app_assoc in I1. replace (Z.of_nat (S k) + 2) with (Z.of_nat k + 2 + 1) in I1 by lia. split; [exact I1|]. split; [done|]. split; [congruence|]. split; [congruence|]. by constructor.
Qed.

(** ** The metadata *)

Lemma zeroes_run m : forall (l : list (list Z)) fi fb,
  each (seqZ (Z.of_nat (length l)) (Z.of_nat m)) (fun i => wsect i zeroes) (mkmk l fi fb) = Ret tt (mkmk (l ++ replicate m zeroes) fi fb).
Proof.
  induction m as [|m IH]; intros l fi fb; [by rewrite app_nil_r|]. rewrite seqZ_cons by lia. cbn [each].
  assert (E : wsect (Z.of_nat (length l)) zeroes (mkmk l fi fb) = Ret tt (mkmk (l ++ [zeroes]) fi fb)).
  { unfold wsect, modify, set_img. cbn [m_img m_freeinode m_freeblock]. rewrite Nat2Z.id. destruct (Nat.ltb_spec (length l) (length l)); [lia|]. by rewrite Nat.sub_diag. }
  mstep E. specialize (IH (l ++ [zeroes]) fi fb). rewrite length_app in IH. simpl in IH.
  replace (Z.succ (Z.of_nat (length l))) with (Z.of_nat (length l + 1)) by lia. replace (Z.pred (Z.of_nat (S m))) with (Z.of_nat m) by lia. by rewrite IH, <- app_assoc.
Qed.

Definition mk0 : mkst := setw 1 sb_block (mkmk (replicate 1000 zeroes) 1 59).

Lemma length_sb_block : length sb_block = 512%nat.
Proof. unfold sb_block. rewrite length_put32s; [done|]. unfold zeroes. rewrite length_replicate. change BSIZE with 512. simpl. lia. Qed.

Lemma vw_mk0 b : vw mk0 b = if decide (b = 1) then sb_block else block0.
Proof.
  unfold mk0. rewrite vw_setw; [|split; [done|by apply Forall_replicate]|lia]. destruct (decide (b = 1)); [done|]. unfold vw. cbn [m_img].
  destruct (replicate 1000 zeroes !! Z.to_nat b) eqn:E; [|done]. by apply lookup_replicate in E as [-> _].
Qed.

Lemma slice_block0 o n : (o + n <= 512)%nat -> slice o n block0 = replicate n 0.
Proof. intros Ho. unfold slice, block0. rewrite drop_replicate, take_replicate. f_equal. change (Z.to_nat BSIZE) with 512%nat. lia. Qed.

Lemma mk0_ok : mk_ok mk0 [] None.
Proof.
  split; try done.
  - apply setw_ok; [split; [done|by apply Forall_replicate]|apply length_sb_block].
  - intros b Hb. change (m_freeblock mk0) with 59 in Hb. rewrite vw_mk0, decide_False by lia. done.
  - simpl. lia.
  - intros inum Hi. rewrite vw_mk0, decide_False by (Z.div_mod_to_equations; lia). apply slice_block0, dip_at_le.
  - intros b Hb. rewrite vw_mk0, decide_False by lia. done.
Qed.

Lemma length_mark n d : length (mark n d) = length d.
Proof. induction n as [|n IH]; [done|]. simpl. unfold set_bit. by rewrite length_alter. Qed.

Lemma bit_zeroes b : bit zeroes b = false.
Proof.
  rewrite bit_testbit. destruct (zeroes !! Z.to_nat (b / 8)) eqn:E; [|apply Z.testbit_0_l]. apply lookup_replicate in E as [-> _]. apply Z.testbit_0_l.
Qed.

Lemma bit_mark n b : (n <= 4096)%nat -> 0 <= b < 4096 -> bit (mark n zeroes) b = (b <? Z.of_nat n).
Proof.
  intros Hn Hb. induction n as [|n IH]; [cbn [mark]; rewrite bit_zeroes; symmetry; apply Z.ltb_ge; lia|]. cbn [mark].
  rewrite bit_set_bit by (done || lia || by rewrite length_mark). rewrite IH by lia. destruct (Z.eqb_spec (Z.of_nat n) b), (Z.ltb_spec b (Z.of_nat n)), (Z.ltb_spec b (Z.of_nat (S n))); done || lia.
Qed.

(** ** The image *)

Definition dots : list Z := dirent_of 1 [46] ++ dirent_of 1 [46; 46].

(** The inode [inum] of an image holds a file of type [type] with contents [c];
    the blocks it has are those of [n] bytes, and its size is [size]. *)
Record holds_file (v : Z -> list Z) (inum type size n : Z) (c : list Z) : Prop := {
  hf_type : i_type (rdino v inum) = type;
  hf_nlink : i_nlink (rdino v inum) = 1;
  hf_size : i_size (rdino v inum) = size;
  hf_fits : fits (rdino v inum);
  hf_extent : extent v (rdino v inum) n;
  hf_bytes : forall p, 0 <= p < 71680 -> fbyte v (rdino v inum) p = default 0 (c !! Z.to_nat p) }.

(** A file system of [files]: a valid superblock and bitmap, an empty log, the
    root directory and the files, whose blocks do not overlap, and no other
    inode. *)
Record fs_image (v : Z -> list Z) (files : list hostfile) (fb : Z) : Prop := {
  fm_len : forall b, length (v b) = 512%nat;
  fm_sb : decode_sb (v 1) = mksb 1000 941 200 30 2 32 58;
  fm_log : forall b, 2 <= b < 32 -> v b = block0;
  fm_bits : forall b, 0 <= b < 4096 -> bit (v 58) b = (b <? fb);
  fm_fb : fb = 59 + blocks (dirsize (length files)) + total_blocks files /\ fb <= 1000;
  fm_root : let n := dirsize (length files) in holds_file v 1 T_DIR ((n / 512 + 1) * 512) n (dots ++ dirents 2 files);
  fm_files : forall i f, files !! i = Some f -> holds_file v (Z.of_nat i + 2) T_FILE (size_of f) (size_of f) (data_of f);
  fm_range : forall inum k, 1 <= inum <= Z.of_nat (length files) + 1 -> 0 <= k <= 140 -> slot v (rdino v inum) k <> 0 -> 59 <= slot v (rdino v inum) k < fb;
  fm_apart : forall inum inum' k k', 1 <= inum <= Z.of_nat (length files) + 1 -> 1 <= inum' <= Z.of_nat (length files) + 1 -> 0 <= k <= 140 -> 0 <= k' <= 140 ->
    slot v (rdino v inum) k = slot v (rdino v inum') k' -> slot v (rdino v inum) k <> 0 -> inum = inum' /\ k = k';
  fm_unused : forall inum, Z.of_nat (length files) + 1 < inum < 200 -> i_type (rdino v inum) = 0 }.

(** What [main] does after the files. *)
Definition finish : M mkst unit :=
  din ← rinode 1;
  let off := xint (i_size din) in
  let off := u32 ((off / BSIZE + 1) * BSIZE) in
  winode 1 (set_i_size (xint off) din);;
  s ← get;
  balloc (m_freeblock s).

Lemma start_run files s0 :
  exists r s, main files s0 = (each files (add_file 1);; finish) s /\ mk_ok s [(r, dots)] None /\ m_freeblock s = 60 /\ i_type r = T_DIR /\ i_nlink r = 1.
Proof.
  unfold main. rewrite (bind_ret_run _ _ s0 tt (mkmk [] 1 59)) by done. change FSSIZE with (Z.of_nat 1000). mstep (zeroes_run 1000 [] 1 59). rewrite app_nil_l.
  mstep (wsect_run (mkmk (replicate 1000 zeroes) 1 59) 1 sb_block ltac:(split; [done|by apply Forall_replicate]) ltac:(lia)). fold mk0.
  destruct (ialloc_run mk0 [] T_DIR mk0_ok ltac:(simpl; lia) ltac:(unfold T_DIR; lia)) as (s1 & E1 & H1 & F1). mstep E1. change (Z.of_nat (length []) + 1) with 1. change ROOTINO with 1. rewrite Z.eqb_refl.
  change (m_freeblock mk0) with 59 in F1. rewrite bind_unless_false. mstep (dirent_for_run 1 [46] s1 ltac:(lia)). simpl in H1.
  pose proof (iappend_run s1 _ 0 _ [] (dirent_of 1 [46]) H1 eq_refl) as A. cbv zeta in A. unfold fits_in in A. rewrite app_nil_l, length_dirent, F1 in A.
  change (blocks (Z.of_nat 16)) with 1 in A. change (blocks (Z.of_nat (length []))) with 0 in A. simpl in A. destruct A as (r2 & s2 & E2 & A1 & A2 & A3 & A4). change (Z.of_nat 0 + 1) with 1 in E2. mstep E2.
  mstep (dirent_for_run 1 [46; 46] s2 ltac:(lia)). change (mk_ok s2 [(r2, dirent_of 1 [46])] None) in A1.
  pose proof (iappend_run s2 _ 0 _ _ (dirent_of 1 [46; 46]) A1 eq_refl) as B. cbv zeta in B. unfold fits_in in B. rewrite length_app, !length_dirent, A2 in B.
  change (blocks (Z.of_nat (16 + 16))) with 1 in B. change (blocks (Z.of_nat 16)) with 1 in B. simpl in B. destruct B as (r3 & s3 & E3 & B1 & B2 & B3 & B4). change (Z.of_nat 0 + 1) with 1 in E3. mstep E3.
  exists r3, s3. split; [done|]. split; [exact B1|]. split; [done|]. split; [by rewrite B3, A3|by rewrite B4, A4].
Qed.

Lemma finish_run s r rc tl :
  mk_ok s ((r, rc) :: tl) None -> Z.of_nat (length rc) <= 3200 ->
  exists s', finish s = Ret tt s' /\ img_ok s' /\ vw s' 58 = mark (Z.to_nat (m_freeblock s)) zeroes /\ (forall b, b <> 32 -> b <> 58 -> vw s' b = vw s b) /\
    rdino (vw s') 1 = set_i_size ((Z.of_nat (length rc) / 512 + 1) * 512) r /\ m_freeblock s' = m_freeblock s /\
    forall inum, 0 <= inum < 208 -> inum <> 1 -> slice (dip_at inum) 64 (vw s' (32 + inum / 8)) = slice (dip_at inum) 64 (vw s (32 + inum / 8)).
Proof.
  intros H Hrc. destruct (mo_done _ _ _ H 0 r rc eq_refl ltac:(done)) as (_ & Hsz & Hrd). assert (Hb : blank r) by by rewrite <- Hrd.
  pose proof (mo_files _ _ _ H 0 r rc eq_refl) as [Hf _ _ _]. pose proof (mo_free _ _ _ H) as Hfr. unfold finish. mstep (rinode_run s _ 0 r rc H eq_refl).
  rewrite Hsz, (xint_id (Z.of_nat (length rc))) by (unfold two32; lia). change BSIZE with 512. set (n := Z.of_nat (length rc)) in *. rewrite u32_id by (unfold two32; Z.div_mod_to_equations; lia).
  rewrite xint_id by (unfold two32; Z.div_mod_to_equations; lia). set (off := (n / 512 + 1) * 512).
  destruct (winode_img s 1 (set_i_size off r) (mo_img _ _ _ H) ltac:(lia)) as (s1 & E & Him & Efb & _ & Hv & Hrd1 & Hsl);
    [destruct Hf; split; try done; simpl; unfold off, two32; Z.div_mod_to_equations; lia|unfold blank; rewrite Hb; done|]. change (32 + 1 / 8) with 32 in Hv.
  mstep E. rewrite bind_get. unfold balloc. rewrite Efb. change (BSIZE * 8) with 4096. destruct (Z.ltb_spec (m_freeblock s) 4096); [|lia]. simpl (negb true). rewrite bind_unless_false.
  change (sb_bmapstart sb) with 58. set (d := mark _ zeroes). assert (Hd : length d = 512%nat) by (unfold d; by rewrite length_mark). rewrite wsect_run by (done || lia).
  assert (V : forall b, vw (setw 58 d s1) b = if decide (b = 58) then d else vw s1 b) by (intros b; apply vw_setw; [done|lia]).
  assert (V32 : forall inum, 0 <= inum < 208 -> vw (setw 58 d s1) (32 + inum / 8) = vw s1 (32 + inum / 8)) by (intros inum Hi; rewrite V, decide_False; [done|Z.div_mod_to_equations; lia]).
  exists (setw 58 d s1). split; [done|]. split; [by apply setw_ok|]. split; [by rewrite V, decide_True|]. split; [intros b H1 H2; by rewrite V, decide_False, Hv|].
  split; [|split; [done|]].
  - rewrite <- Hrd1. unfold rdino. by rewrite V32 by lia.
  - intros inum Hi Hne. rewrite V32 by done. by apply Hsl.
Qed.

(** Blocks of metadata change: the files stay. *)
Lemma file_img_meta v v' lim x c :
  (forall b, 59 <= b -> v' b = v b) -> file_img v lim x c -> (forall k, 0 <= k <= 140 -> slot v' x k = slot v x k) /\ forall p, 0 <= p < 71680 -> fbyte v' x p = fbyte v x p.
Proof.
  intros Hv [A1 A2 A3 A4]. assert (Hs : forall k, 0 <= k <= 140 -> slot v' x k = slot v x k).
  { intros k Hk. destruct (decide (ind_addr x = 0)) as [E|E]; [unfold slot, addr_at; by rewrite E|]. apply slot_ext, Hv. pose proof (A3 140 ltac:(lia)) as Hr. rewrite slot_ind in Hr. specialize (Hr E). lia. }
  split; [done|]. intros p Hp. assert (0 <= p / 512 < 140) by (Z.div_mod_to_equations; lia). unfold fbyte, blk. rewrite Hs by lia. destruct (Z.eqb_spec (slot v x (p / 512)) 0); [done|]. rewrite Hv; [done|]. pose proof (A3 (p / 512) ltac:(lia) ltac:(done)). lia.
Qed.

Section image.
Context (files : list hostfile) (s s' : mkst) (r : inode) (ys : list (inode * list Z)).
Notation rc := (dots ++ dirents 2 files).
Notation root := (set_i_size ((dirsize (length files) / 512 + 1) * 512) r).
Context (H : mk_ok s ((r, rc) :: ys) None) (Hreg : regular files ys) (Hn : (length files <= 198)%nat) (Hr : i_type r = T_DIR /\ i_nlink r = 1) (Hrc : Z.of_nat (length rc) = dirsize (length files)).
Context (Him : img_ok s') (Hbm : vw s' 58 = mark (Z.to_nat (m_freeblock s)) zeroes) (Hv : forall b, b <> 32 -> b <> 58 -> vw s' b = vw s b).
Context (Hroot : rdino (vw s') 1 = root).
Context (Hsl : forall inum, 0 <= inum < 208 -> inum <> 1 -> slice (dip_at inum) 64 (vw s' (32 + inum / 8)) = slice (dip_at inum) 64 (vw s (32 + inum / 8))).

Lemma vw_data b : 59 <= b -> vw s' b = vw s b.
Proof. intros Hb. apply Hv; lia. Qed.

Lemma regular_length : length ys = length files.
Proof. symmetry. by eapply Forall2_length. Qed.

Lemma rdino_file i y d : ys !! i = Some (y, d) -> rdino (vw s') (Z.of_nat i + 2) = y.
Proof.
  intros Hi. pose proof (lookup_lt_Some _ _ _ Hi). pose proof regular_length. destruct (mo_done _ _ _ H (S i) y d Hi ltac:(done)) as (_ & _ & <-).
  replace (Z.of_nat (S i) + 1) with (Z.of_nat i + 2) by lia. apply get_dinode_slice, Hsl; lia.
Qed.

(** The inodes in use, with what the blocks had before. *)
Lemma inode_cases inum : 1 <= inum <= Z.of_nat (length files) + 1 ->
  exists i y d, inum = Z.of_nat i + 1 /\ ((r, rc) :: ys) !! i = Some (y, d) /\ i_addrs (rdino (vw s') inum) = i_addrs y.
Proof.
  intros Hi. pose proof regular_length. destruct (decide (inum = 1)) as [->|Hne]; [exists 0%nat, r, rc; split; [done|]; split; [done|]; by rewrite Hroot|].
  destruct (lookup_lt_is_Some_2 ys (Z.to_nat (inum - 2))) as [[y d] Hy]; [lia|]. exists (S (Z.to_nat (inum - 2))), y, d. split; [lia|]. split; [done|].
  replace inum with (Z.of_nat (Z.to_nat (inum - 2)) + 2) at 1 by lia. by rewrite (rdino_file _ _ _ Hy).
Qed.

Lemma slot_before i y d x k : ((r, rc) :: ys) !! i = Some (y, d) -> i_addrs x = i_addrs y -> 0 <= k <= 140 -> slot (vw s') x k = slot (vw s) y k.
Proof.
  intros Hi E Hk. rewrite (slot_addrs _ x y k E). by apply (file_img_meta _ _ _ _ _ vw_data (mo_files _ _ _ H i y d Hi)).
Qed.

Lemma holds_of i y d inum type size n :
  ((r, rc) :: ys) !! i = Some (y, d) -> i_addrs (rdino (vw s') inum) = i_addrs y -> fits (rdino (vw s') inum) -> i_type (rdino (vw s') inum) = type -> i_nlink (rdino (vw s') inum) = 1 ->
  i_size (rdino (vw s') inum) = size -> Z.of_nat (length d) = n -> holds_file (vw s') inum type size n d.
Proof.
  intros Hi E Hf Ht Hl Hsz Hd. destruct (mo_done _ _ _ H i y d Hi ltac:(done)) as (He & _ & _). pose proof (mo_files _ _ _ H i y d Hi) as F. split; try done.
  - intros k Hk. rewrite (slot_before i y d _ k Hi E Hk), <- Hd. by apply He.
  - intros p Hp. rewrite <- (fi_bytes _ _ _ _ F p Hp). rewrite <- (proj2 (file_img_meta _ _ _ _ _ vw_data F) p Hp). unfold fbyte, blk. by rewrite (slot_addrs _ _ y _ E).
Qed.

Lemma image_ok : m_freeblock s = 59 + blocks (dirsize (length files)) + total_blocks files -> fs_image (vw s') files (m_freeblock s).
Proof.
  intros Hfb. pose proof (mo_free _ _ _ H) as Hfr. pose proof regular_length as Hlen. split.
  - intros b. by apply vw_length.
  - rewrite Hv, (mo_sb _ _ _ H) by lia. vm_compute. reflexivity.
  - intros b Hb. rewrite Hv by lia. apply (mo_meta _ _ _ H). lia.
  - intros b Hb. rewrite Hbm, bit_mark by lia. by rewrite Z2Nat.id by lia.
  - split; [done|lia].
  - pose proof (mo_files _ _ _ H 0 r rc eq_refl) as [Hf _ _ _]. apply (holds_of 0 r rc); rewrite ?Hroot; try done; [|apply Hr|apply Hr].
    destruct Hf; split; try done. simpl. unfold two32, dirsize. Z.div_mod_to_equations; lia.
  - intros i f Hi. destruct (Forall2_lookup_l _ _ _ i f Hreg Hi) as ([y d] & Hy & E1 & E2 & E3). simpl in *. subst d.
    destruct (mo_done _ _ _ H (S i) y _ Hy ltac:(done)) as (_ & Hsz & _). pose proof (rdino_file i y _ Hy) as Er. pose proof (mo_files _ _ _ H (S i) y _ Hy) as [Hf _ _ _].
    apply (holds_of (S i) y); rewrite ?Er; done.
  - intros inum k Hi Hk. destruct (inode_cases inum Hi) as (i & y & d & _ & Hy & E). rewrite (slot_before i y d _ k Hy E Hk). by apply (fi_range _ _ _ _ (mo_files _ _ _ H i y d Hy)).
  - intros inum inum' k k' Hi Hi' Hk Hk'. destruct (inode_cases inum Hi) as (i & y & d & -> & Hy & E), (inode_cases inum' Hi') as (i' & y' & d' & -> & Hy' & E').
    rewrite (slot_before i y d _ k Hy E Hk), (slot_before i' y' d' _ k' Hy' E' Hk'). intros Eq Hne. destruct (mo_inj _ _ _ H i i' y d y' d' k k' Hy Hy' Hk Hk' Eq Hne) as [-> ->]. done.
  - intros inum Hi. unfold rdino. rewrite (get_dinode_slice _ _ block0); [|rewrite Hsl, slice_block0 by (lia || apply dip_at_le); apply (mo_unused _ _ _ H); simpl; lia].
    unfold get_dinode. simpl. unfold get16. by rewrite slice_block0 by (pose proof (dip_at_le inum); lia).
Qed.
End image.

Lemma length_dirents files : forall inum, Z.of_nat (length (dirents inum files)) = 16 * Z.of_nat (length files).
Proof. induction files as [|f files IH]; intros inum; [done|]. cbn [dirents length]. rewrite length_app, length_dirent, Nat2Z.inj_add, IH. lia. Qed.

Definition used_blocks (files : list hostfile) : Z := 59 + blocks (dirsize (length files)) + total_blocks files.

Lemma length_root files : Z.of_nat (length (dots ++ dirents 2 files)) = dirsize (length files).
Proof. rewrite length_app, Nat2Z.inj_add, length_dirents. change (length dots) with 32%nat. unfold dirsize. lia. Qed.

Lemma main_files files s0 :
  (length files <= 198)%nat -> exists s1, main files s0 = (each files (add_file 1);; finish) s1 /\
  if forallb acceptable files && (used_blocks files <=? 1000)
  then exists r' ys s2, each files (add_file 1) s1 = Ret tt s2 /\ mk_ok s2 ((r', dots ++ dirents 2 files) :: ys) None /\
         m_freeblock s2 = used_blocks files /\ i_type r' = T_DIR /\ i_nlink r' = 1 /\ regular files ys
  else exists msg, each files (add_file 1) s1 = Panic msg.
Proof.
  intros Hn. destruct (start_run files s0) as (r & s1 & -> & H1 & F1 & Ht & Hl). exists s1. split; [done|].
  pose proof (files_run files s1 r dots [] H1 ltac:(simpl; lia) eq_refl) as A. cbv zeta in A. simpl (length []) in A.
  rewrite F1, Nat.add_0_l in A. change (blocks (dirsize 0)) with 1 in A. change (Z.of_nat 0 + 2) with 2 in A.
  replace (60 + (blocks (dirsize (length files)) - 1 + total_blocks files)) with (used_blocks files) in A by (unfold used_blocks; lia).
  destruct (forallb acceptable files && (used_blocks files <=? 1000)); [|destruct A as [msg E]; by exists msg].
  destruct A as (r' & ys & s2 & E & A1 & A2 & A3 & A4 & A5). exists r', ys, s2. split; [done|]. split; [exact A1|]. split; [done|]. split; [congruence|]. split; [congruence|done].
Qed.

Lemma main_succeeds files s0 :
  (length files <= 198)%nat -> forallb acceptable files = true -> used_blocks files <= 1000 ->
  exists s, main files s0 = Ret tt s /\ img_ok s /\ fs_image (vw s) files (used_blocks files).
Proof.
  intros Hn Ha Hu. destruct (main_files files s0 Hn) as (s1 & -> & A). rewrite Ha in A. destruct (Z.leb_spec (used_blocks files) 1000); [|lia].
  destruct A as (r' & ys & s2 & E & A1 & A2 & A3 & A4 & A5). mstep E. pose proof (length_root files) as Hrc.
  destruct (finish_run s2 r' _ ys A1) as (s3 & E3 & B1 & B2 & B3 & B4 & B5 & B6); [rewrite Hrc; unfold dirsize; lia|]. exists s3. split; [done|]. split; [done|].
  rewrite Hrc in B4. rewrite <- A2. by apply (image_ok files s2 s3 r' ys).
Qed.

Lemma main_exits files s0 :
  (length files <= 198)%nat -> forallb acceptable files && (used_blocks files <=? 1000) = false -> exists msg, main files s0 = Panic msg.
Proof.
  intros Hn Ha. destruct (main_files files s0 Hn) as (s1 & -> & A). rewrite Ha in A. destruct A as [msg E]. exists msg. by apply bind_panic.
Qed.

(** C26. mkfs writes a file system, given at most 198 files (there are 200 inodes; mkfs
    does not check their number).  When every argument is a file that can be
    read, with no slash in its name and at most 140 blocks of data, and all of
    them fit on the disk, [main] returns and the image is a file system with
    exactly these files: the superblock and the bitmap describe the disk, the log
    is empty, the root directory has the entries in order, every inode has the
    size and the bytes of its file, and no block belongs to two files or twice to
    one.  Otherwise it exits. *)
Theorem mkfs_image files s0 :
  (length files <= 198)%nat ->
  if forallb acceptable files && (used_blocks files <=? 1000)
  then exists s, main files s0 = Ret tt s /\ length (m_img s) = 1000%nat /\ fs_image (vw s) files (used_blocks files)
  else exists msg, main files s0 = Panic msg.
Proof.
  intros Hn. destruct (forallb acceptable files && (used_blocks files <=? 1000)) eqn:E; [|by apply main_exits].
  apply andb_true_iff in E as [Ea Eu]. apply Z.leb_le in Eu. destruct (main_succeeds files s0 Hn Ea Eu) as (s & R & [Hl _] & F). exists s. split; [exact R|]. split; [exact Hl|exact F].
Qed.

(** Two files, one of them with a name that starts with an underscore. *)
Definition two_files : list hostfile := [mkhost [82; 69; 65; 68; 77; 69] (Some [[104; 105]; [33; 10]; []]); mkhost [95; 99; 97; 116] (Some [replicate 512 7; replicate 300 8])].

Lemma two_files_ok : forallb acceptable two_files = true /\ used_blocks two_files = 63.
Proof. split; vm_compute; reflexivity. Qed.

Lemma mkfs_image_witness : exists s, main two_files (mkmk [] 0 0) = Ret tt s /\ length (m_img s) = 1000%nat /\ fs_image (vw s) two_files 63.
Proof.
  pose proof (mkfs_image two_files (mkmk [] 0 0) ltac:(simpl; lia)) as H. destruct two_files_ok as [Ea Eb]. rewrite Ea, Eb in H. exact H.
Defined.
