(* ===== verification/MkfsBoot.v ===== *)
(** * From mkfs to the running system

    The kernel starts on an image written by mkfs: after [iinit] and [initlog]
    the directory tree is the one of the image, a path finds each file, and
    [readi] returns the bytes mkfs was given. *)

From Stdlib Require Import ZArith Lia.
From stdpp Require Import base numbers strings gmap list.
From S2P Require Import Mkfs.
From S2P Require Import Prelude.
From S2P Require Import Machine.
From S2P Require Import FState.
From S2P Require Import Blocks.
From S2P Require Import Bio.
From S2P Require Import Log.
From S2P Require Import LogSpec.
From S2P Require Import Crash.
From S2P Require Import Tx.
From S2P Require Import Fs.
From S2P Require Import FsAlloc.
From S2P Require Import FsData.
From S2P Require Import FsRw.
From S2P Require Import FsTrunc.
From S2P Require Import FsPath.
From S2P Require Import FsCrash.
From S2P Require Import FsDir.
From S2P Require Import FsTree.
From S2P Require Import MkfsSpec.
From S2P Require Import MkfsImage.

Local Open Scope string_scope.
Local Open Scope list_scope.
Local Open Scope Z_scope.

(** ** The machine is switched on *)

(** A disk with the blocks of an image, and memory as the boot loader leaves
    it. *)
Definition disk0 (img : list (list Z)) : fstate :=
  mkfs (map_seqZ 0 img) [] (Z.of_nat (length img)) [] [] (mklog 0 0 0 0 0 0 []) (mksb 0 0 0 0 0 0 0) [] [] 0 0.
Definition power_on (img : list (list Z)) : fstate := reboot (disk0 img) [].

(** The file system's part of [main] and [forkret]. *)
Definition fsinit : M fstate unit := binit;; iinit ROOTDEV;; initlog ROOTDEV.

Definition unlocked_inodes (xs : list inode) : Prop := length xs = 50%nat /\ Forall (fun x => i_lock x = mksleep 0 0) xs.

Lemma iinit_loop_run n : forall i s, (i + n <= length (f_inodes s))%nat -> Forall (fun x => i_lock x = mksleep 0 0) (f_inodes s) -> iinit_loop n i s = Ret tt s.
Proof.
  induction n as [|n IH]; intros i s Hl Hf; [done|]. cbn [iinit_loop]. destruct (lookup_lt_is_Some_2 (f_inodes s) i) as [x Hx]; [lia|].
  assert (E : initsleeplock (LInode i) s = Ret tt s).
  { unfold initsleeplock, setlk. rewrite (updi_run s i x _ Hx). rewrite Forall_lookup in Hf. pose proof (Hf _ _ Hx) as El. f_equal. destruct s, x; unfold seti, set_f_inodes; simpl in *. subst. f_equal. by apply list_insert_id. }
  mstep E. apply IH; [lia|done].
Qed.

Lemma img_get (m : mkst) b : img_ok m -> 0 <= b < 1000 -> dget (map_seqZ 0 (m_img m)) [] b = vw m b.
Proof.
  intros [Hl _] Hb. unfold dget, vw. rewrite lookup_map_seqZ, option_guard_True by lia. rewrite Z.sub_0_r.
  destruct (lookup_lt_is_Some_2 (m_img m) (Z.to_nat b)) as [d ->]; [lia|done].
Qed.

(** The state of the file system after that. *)
Record started (m : mkst) (s : fstate) : Prop := {
  st_rd : rd s [];
  st_size : f_disksize s = 1000;
  st_sb : f_sb s = mksb 1000 941 200 30 2 32 58;
  st_log : lg_start (f_log s) = 2;
  st_inodes : f_inodes s = replicate 50 inode0;
  st_view : forall b, 0 <= b < 1000 -> b <> 2 -> view s b = vw m b }.

Lemma image_recoverable (m : mkst) files fb : img_ok m -> fs_image (vw m) files fb -> recoverable (disk0 (m_img m)) 2 [] (vw m) [].
Proof.
  intros Hm F. pose proof Hm as [Hl _]. assert (Hg : forall b, 0 <= b < 1000 -> dget (f_img (disk0 (m_img m))) [] b = vw m b) by (intros b Hb; by apply img_get).
  assert (Hz : f_disksize (disk0 (m_img m)) = 1000) by (simpl; lia). split.
  - intros b Hb. rewrite Hz in Hb. rewrite Hg by done. apply (fm_len _ _ _ F).
  - rewrite Hg by lia. by rewrite (fm_sb _ _ _ F).
  - lia.
  - unfold home. lia.
  - rewrite Hg, (fm_log _ _ _ F) by lia. split; [by vm_compute|simpl; lia].
  - done.
  - constructor.
  - constructor.
  - intros b [Hb _]. simpl. apply Hg. lia.
Qed.

(** [iinit] and [initlog] with any table of inodes, none of them locked, in any process. *)
Lemma fs_starts (m : mkst) files fb xs pid cwd : img_ok m -> fs_image (vw m) files fb -> unlocked_inodes xs ->
  exists s1 s, iinit ROOTDEV (set_f_cwd cwd (set_f_pid pid (set_f_inodes xs (set_f_lru (rev (seq 0 30)) (power_on (m_img m)))))) = Ret tt s1 /\ initlog ROOTDEV s1 = Ret tt s /\
    f_pid s1 = pid /\ f_cwd s1 = cwd /\ f_inodes s = xs /\ started m (set_f_inodes (replicate 50 inode0) s).
Proof.
  intros Hm F [Hxl Hxs]. pose proof (image_recoverable m files fb Hm F) as R. pose proof Hm as [Hl _].
  assert (Hz : f_disksize (disk0 (m_img m)) = 1000) by (simpl; lia).
  destruct (boot_inv (disk0 (m_img m)) [] (rc_len _ _ _ _ _ R)) as (H0 & Hd0 & Hv0). fold (power_on (m_img m)) in H0, Hd0, Hv0. set (s00 := set_f_lru _ _) in *. set (s0 := set_f_cwd cwd (set_f_pid pid (set_f_inodes xs s00))).
  assert (Hb0 : bio_inv [] s0) by (destruct H0 as [C1 C2 C3 C4 C5 C6]; by split). assert (Hd0' : forall b, ~ dirty_block s0 b) by exact Hd0.
  unfold iinit. change (Z.to_nat NINODE) with 50%nat. mstep (iinit_loop_run 50 0 s0 ltac:(change (f_inodes s0) with xs; lia) Hxs).
  assert (Hz0 : f_disksize s0 = 1000) by exact Hz. destruct (readsb_run s0 Hb0 Hd0' ltac:(lia)) as (s1 & R1 & H1 & Hd1 & Hv1 & (E1 & E2 & E3 & E4 & E5 & E6 & E7 & E8 & E9)). mstep R1.
  assert (Esb : decode_sb (view s0 1) = mksb 1000 941 200 30 2 32 58) by (change (view s0 1) with (view s00 1); rewrite Hv0, <- (fm_sb _ _ _ F); f_equal; apply img_get; [done|lia]). rewrite Esb. set (s2 := set_f_sb (mksb 1000 941 200 30 2 32 58) s1).
  destruct (initlog_run s2 (disk0 (m_img m)) 2 [] (vw m) []) as (r & Hr & B1 & B2 & B3 & B4 & B5 & B6 & B7 & B8 & B9 & _ & _ & _ & (U1 & U2 & U3 & U4 & U5)).
  { destruct H1 as [C1 C2 C3 C4 C5 C6]. by split. } { exact Hd1. } { intros b. rewrite <- Hv0. rewrite <- (Hv1 b : view s2 b = view s00 b). done. } { exact E1. } { exact E2. } { exact E3. } { simpl. by rewrite E4. } { done. }
  exists s2, r. split; [reflexivity|]. split; [exact Hr|]. assert (V : forall b, 0 <= b < 1000 -> b <> 2 -> view r b = vw m b).
  { intros b Hb Hne. rewrite (clean_view r b B1 (B2 b)). unfold disk. rewrite B3, B4. unfold recovery_writes. simpl. destruct (Z.eqb_spec b 2); [done|]. by apply (img_get m b). }
  split; [exact E8|]. split; [exact E9|]. split; [rewrite U2; exact E6|]. split; try done.
  - split; [destruct B1 as [C1 C2 C3 C4 C5 C6]; by split| |cbn; lia]. intros b. split; [intros Hb; by destruct (B2 b)|intros Hb; by apply elem_of_nil in Hb].
  - cbn. by rewrite B5.
Qed.

Lemma fsinit_run (m : mkst) files fb : img_ok m -> fs_image (vw m) files fb -> exists s, fsinit (power_on (m_img m)) = Ret tt s /\ started m s.
Proof.
  intros Hm F. destruct (fs_starts m files fb (replicate 50 inode0) 0 0 Hm F) as (s1 & s & R1 & R2 & _ & _ & Ei & St); [split; [done|by apply Forall_replicate]|]. exists s. unfold fsinit, power_on. mstep (binit_run (disk0 (m_img m)) []). split; [|by destruct s; cbn in Ei; subst].
  change (set_f_lru (rev (seq 0 30)) (reboot (disk0 (m_img m)) [])) with (set_f_cwd 0 (set_f_pid 0 (set_f_inodes (replicate 50 inode0) (set_f_lru (rev (seq 0 30)) (power_on (m_img m)))))). mstep R1. exact R2.
Qed.

(** ** Entries of the root directory *)

Lemma concat16 (es : list (list Z)) : Forall (fun e => length e = 16%nat) es -> forall k j, (j < 16)%nat -> concat es !! (16 * k + j)%nat = es !! k ≫= (.!! j).
Proof.
  induction 1 as [|e es He _ IH]; intros k j Hj; [by rewrite lookup_nil|]. cbn [concat]. destruct k as [|k].
  - rewrite lookup_app_l by lia. by replace (16 * 0 + j)%nat with j by lia.
  - rewrite lookup_app_r by lia. rewrite He. replace (16 * S k + j - 16)%nat with (16 * k + j)%nat by lia. by rewrite IH.
Qed.

Fixpoint ents (inum : Z) (files : list hostfile) : list (list Z) :=
  match files with [] => [] | f :: files => dirent_of inum (base_name f) :: ents (inum + 1) files end.

Lemma concat_ents files : forall n, concat (ents n files) = dirents n files.
Proof. induction files as [|f files IH]; intros n; [done|]. simpl. by rewrite IH. Qed.

Lemma lookup_ents files : forall n i, ents n files !! i = (fun f => dirent_of (n + Z.of_nat i) (base_name f)) <$> files !! i.
Proof.
  induction files as [|f files IH]; intros n [|i]; [done|done|simpl; by rewrite Z.add_0_r|]. simpl. rewrite IH. by replace (n + 1 + Z.of_nat i) with (n + Z.of_nat (S i)) by lia.
Qed.

Definition root_entries (files : list hostfile) : list (list Z) := dirent_of 1 [46] :: dirent_of 1 [46; 46] :: ents 2 files.

Lemma root_entries_length files : Forall (fun e => length e = 16%nat) (root_entries files).
Proof.
  unfold root_entries. repeat constructor. apply Forall_lookup. intros i e. rewrite lookup_ents. destruct (files !! i); [|done]. intros [= <-]. apply length_dirent.
Qed.

Lemma root_entries_lookup files k :
  default (replicate 16 0) (root_entries files !! k) =
  match k with O => dirent_of 1 [46] | 1%nat => dirent_of 1 [46; 46] | S (S i) => match files !! i with Some f => dirent_of (Z.of_nat i + 2) (base_name f) | None => replicate 16 0 end end.
Proof.
  destruct k as [|[|i]]; [done|done|]. unfold root_entries. cbn [lookup list_lookup]. rewrite lookup_ents. destruct (files !! i); [|done]. simpl. by rewrite Z.add_comm.
Qed.

Lemma de_inum_of n name : 0 <= n < 65536 -> de_inum (dirent_of n name) = n.
Proof. intros Hn. unfold de_inum, get16, dirent_of, mk_dirent, slice. by apply of_le_le16. Qed.

Lemma cname_dname name : Forall (fun c => c <> 0) name -> cname (dname name) = take 14 name.
Proof.
  intros H. unfold dname. generalize 14%nat as n. induction H as [|c name Hc _ IH]; intros [|n]; [done|done|done|]. simpl. rewrite (proj2 (Z.eqb_neq c 0)) by done.
  specialize (IH n). destruct (lstrncpy n (name ++ [0])) eqn:E; simpl in *; [by rewrite (proj2 (Z.eqb_neq c 0)), IH by done|].
  exfalso. clear -E. revert name E. induction n as [|n IH]; intros [|c name]; simpl; try done. destruct (c =? 0); [done|]. destruct (lstrncpy n (name ++ [0])) eqn:E; simpl; [done|]. intros _. by apply (IH name).
Qed.

Lemma de_name_of n name : de_name (dirent_of n name) = dname name.
Proof. done. Qed.

(** ** The tree *)

Section tree.
Context (m : mkst) (files : list hostfile) (fb : Z) (s : fstate).
Context (F : fs_image (vw m) files fb) (St : started m s) (Hn : (length files <= 198)%nat) (Hacc : forallb acceptable files = true).
Notation top := (Z.of_nat (length files) + 1).

Lemma iblock_at n : 0 <= n < 200 -> IBLOCK n (f_sb s) = 32 + n / 8.
Proof. intros Hi. rewrite (st_sb _ _ St). unfold IBLOCK. simpl. change IPB with 8. rewrite u32_id by (unfold two32; Z.div_mod_to_equations; lia). lia. Qed.

Lemma dinode_at n : 0 <= n < 200 -> let r := rdino (vw m) n in
  dinode s n = mkinode 1 n 0 (mksleep 0 0) 1 (i_type r) (i_major r) (i_minor r) (i_nlink r) (i_size r) (i_addrs r).
Proof.
  intros Hi r. unfold dinode. rewrite iblock_at by done. rewrite (st_view _ _ St) by (Z.div_mod_to_equations; lia). unfold r, rdino, get_dinode, core0. done.
Qed.

Lemma ind_ok n : 1 <= n <= top -> 0 <= ind_addr (rdino (vw m) n) < 1000 /\ ind_addr (rdino (vw m) n) <> 2.
Proof.
  intros Hi. pose proof (fm_range _ _ _ F n 140 Hi ltac:(lia)) as Hr. rewrite slot_ind in Hr. pose proof (fm_fb _ _ _ F). destruct (decide (ind_addr (rdino (vw m) n) = 0)) as [->|E]; [lia|]. specialize (Hr E). lia.
Qed.

Lemma slot_at n k : 1 <= n <= top -> slot (view s) (dinode s n) k = slot (vw m) (rdino (vw m) n) k.
Proof.
  intros Hi. rewrite (dinode_at n) by lia. destruct (ind_ok n Hi). rewrite <- (slot_ext (vw m) (view s)) by by apply (st_view _ _ St). by apply slot_addrs.
Qed.

Lemma fbyte_at n p : 1 <= n <= top -> 0 <= p < 71680 -> fbyte (view s) (dinode s n) p = fbyte (vw m) (rdino (vw m) n) p.
Proof.
  intros Hi Hp. unfold fbyte, blk. rewrite slot_at by done. assert (0 <= p / 512 < 140) by (Z.div_mod_to_equations; lia). destruct (Z.eqb_spec (slot (vw m) (rdino (vw m) n) (p / 512)) 0) as [|E]; [done|].
  pose proof (fm_range _ _ _ F n (p / 512) Hi ltac:(lia) E). pose proof (fm_fb _ _ _ F). by rewrite (st_view _ _ St) by lia.
Qed.

Lemma used_at b : 0 <= b < 1000 -> used (view s) (f_sb s) b = (b <? fb).
Proof.
  intros Hb. unfold used, BBLOCK. rewrite (st_sb _ _ St). simpl. change BPB with 4096. rewrite Z.div_small, Z.mod_small by lia. rewrite u32_id by (unfold two32; lia).
  rewrite (st_view _ _ St) by lia. apply (fm_bits _ _ _ F). lia.
Qed.

Lemma data_at b : 0 <= b < 1000 -> ~ (2 <= b < 32) -> data_block s b.
Proof. intros Hb Hne. unfold data_block. by rewrite (st_size _ _ St), (st_log _ _ St). Qed.

Lemma good_at b : 32 <= b < fb -> b <> 58 -> good s b.
Proof.
  intros Hb Hne. pose proof (fm_fb _ _ _ F). unfold good, bb. rewrite used_at by lia. rewrite (st_sb _ _ St). simpl. split; [lia|]. split; [apply data_at; lia|]. split; [apply Z.ltb_lt; lia|done].
Qed.

Lemma layout_at : layout s.
Proof.
  pose proof (fm_fb _ _ _ F) as Hfb. pose proof (blocks_nonneg (dirsize (length files)) ltac:(unfold dirsize; lia)). pose proof (total_nonneg files).
  assert (Es : sb_size (f_sb s) = 1000) by by rewrite (st_sb _ _ St). assert (Eb : sb_bmapstart (f_sb s) = 58) by by rewrite (st_sb _ _ St). split; [split| |].
  - rewrite Es, (st_size _ _ St). lia.
  - lia.
  - intros b Hb. rewrite Es in Hb. rewrite Eb. change BPB with 4096. rewrite Z.div_small by lia. apply data_at; lia.
  - intros b Hb. rewrite Es in Hb. rewrite used_at by lia. intros Hu. apply Z.ltb_ge in Hu. split; [apply data_at; lia|]. intros b' Hb'. rewrite Es in Hb'. rewrite Eb. change BPB with 4096. rewrite Z.div_small by lia. lia.
  - lia.
  - rewrite used_at by lia. apply Z.ltb_lt. lia.
Qed.

Lemma sound_img n type size nb c : 1 <= n <= top -> holds_file (vw m) n type size nb c -> type <> T_DEV -> size <= 71680 ->
  (forall bn, 0 <= bn -> 512 * bn < size -> owns nb bn) -> sound s (dinode s n).
Proof.
  intros Hi [A1 A2 A3 A4 A5 A6] Ht Hsz Hh. pose proof (fm_fb _ _ _ F) as Hfb. pose proof (blocks_nonneg (dirsize (length files)) ltac:(unfold dirsize; lia)). pose proof (total_nonneg files).
  pose proof (dinode_at n ltac:(lia)) as E. cbv zeta in E. set (r := rdino (vw m) n) in *. pose proof (fun k => slot_at n k Hi) as Hs.
  assert (Hr : forall k, 0 <= k <= 140 -> slot (view s) (dinode s n) k <> 0 -> 59 <= slot (view s) (dinode s n) k < fb) by (intros k Hk; rewrite Hs; by apply (fm_range _ _ _ F)).
  assert (Eib : iblock s (dinode s n) = 32 + n / 8) by (unfold iblock; rewrite E; apply iblock_at; lia). assert (Hib : 32 <= 32 + n / 8 < 57) by (Z.div_mod_to_equations; lia).
  pose proof layout_at as [[Y1 Y2 Y3 Y4] Y5 Y6]. split; try done.
  - split; [by rewrite E|rewrite E; apply A4| |].
    + intros k Hk. change (view (set_f_inodes [dinode s n] s)) with (view s). intros Hne. pose proof (Hr k Hk Hne). apply good_at; lia.
    + intros k k' Hk Hk'. change (view (set_f_inodes [dinode s n] s)) with (view s). rewrite !Hs. intros Eq Hne. by apply (fm_apart _ _ _ F n n k k').
  - rewrite E. cbn [i_type]. by rewrite A1.
  - rewrite E. destruct A4. by split.
  - rewrite E. cbn [i_size]. by rewrite A3.
  - intros bn Hbn Hb. rewrite E in Hb. cbn [i_size] in Hb. rewrite A3 in Hb. change (view (set_f_inodes [dinode s n] s)) with (view s). rewrite Hs. apply A5; [lia|]. apply Hh; [done|lia].
  - change (iblock (set_f_inodes [dinode s n] s)) with (iblock s). rewrite Eib. split; [apply good_at; lia|lia].
  - intros k Hk. change (view (set_f_inodes [dinode s n] s)) with (view s). change (iblock (set_f_inodes [dinode s n] s)) with (iblock s). rewrite Eib. intros Eq. specialize (Hr k Hk ltac:(lia)). lia.
Qed.

Lemma root_bytes k : 0 <= k < 4480 -> entry (view s) (dinode s 1) k = default (replicate 16 0) (root_entries files !! Z.to_nat k).
Proof.
  intros Hk. pose proof (fm_root _ _ _ F) as R. cbv zeta in R. apply list_eq. intros j. unfold entry, fbytes. rewrite list_lookup_fmap.
  assert (Hl : length (default (replicate 16 0) (root_entries files !! Z.to_nat k)) = 16%nat).
  { destruct (root_entries files !! Z.to_nat k) eqn:E; [|done]. pose proof (root_entries_length files) as H. rewrite Forall_lookup in H. by apply (H (Z.to_nat k)). }
  destruct (decide (j < 16)%nat) as [Hj|Hj].
  - rewrite lookup_seqZ_lt by lia. simpl fmap. rewrite fbyte_at by lia. rewrite (hf_bytes _ _ _ _ _ _ R) by lia. fold dots.
    assert (Ec : dots ++ dirents 2 files = concat (root_entries files)) by (unfold root_entries, dots; cbn [concat]; by rewrite concat_ents, app_assoc). rewrite Ec.
    replace (Z.to_nat (16 * k + Z.of_nat j)) with (16 * Z.to_nat k + j)%nat by lia. rewrite concat16 by (done || apply root_entries_length).
    destruct (root_entries files !! Z.to_nat k) as [e|] eqn:E; simpl.
    + simpl in Hl. destruct (lookup_lt_is_Some_2 e j) as [b Hb]; [lia|]. by rewrite Hb.
    + symmetry. by apply (lookup_replicate 16 0 0 j).
  - rewrite lookup_seqZ_ge by lia. symmetry. apply lookup_ge_None. lia.
Qed.

Lemma root_size : let x := dinode s 1 in i_type x = T_DIR /\ i_nlink x = 1 /\ i_size x = (dirsize (length files) / 512 + 1) * 512.
Proof.
  pose proof (fm_root _ _ _ F) as R. cbv zeta in R. destruct R as [A1 A2 A3 _ _ _]. pose proof (dinode_at 1 ltac:(lia)) as E. cbv zeta in E. rewrite E. cbn [i_type i_nlink i_size]. by rewrite A1, A2, A3.
Qed.

(** No hole at the end of the root directory. *)
Context (Hmod : dirsize (length files) mod 512 <> 0).

Lemma tree_boot : tree (fun n => 1 <= n <= top) None s [].
Proof.
  pose proof (blocks_nonneg (dirsize (length files)) ltac:(unfold dirsize; lia)). pose proof (total_nonneg files). pose proof (fm_fb _ _ _ F) as Hfb. split.
  - apply St.
  - by rewrite (st_size _ _ St).
  - intros n Hi. rewrite <- (st_size _ _ St) in *. assert (Hb : 0 <= IBLOCK n (f_sb s) < f_disksize s) by (rewrite iblock_at by lia; rewrite (st_size _ _ St); Z.div_mod_to_equations; lia).
    destruct (decide (n = 1)) as [->|Hne].
    + destruct root_size as (E1 & E2 & E3). pose proof (fm_root _ _ _ F) as R. cbv zeta in R. split; [done|by rewrite E1|by rewrite E2| |].
      * intros _. apply (sound_img 1 _ _ _ _ Hi R); [done|unfold dirsize; Z.div_mod_to_equations; lia|]. intros bn H0' Hbn. unfold owns. destruct (Z.eqb_spec bn 140); unfold dirsize in *; Z.div_mod_to_equations; lia.
      * intros _. rewrite E3. split; [Z.div_mod_to_equations; lia|]. intros k Hk Hd. assert (Hk' : 0 <= k < 4480) by (unfold dirsize in *; Z.div_mod_to_equations; lia). rewrite root_bytes, root_entries_lookup in * by done.
        destruct (Z.to_nat k) as [|[|i]]; [rewrite de_inum_of; lia|rewrite de_inum_of; lia|]. destruct (files !! i) eqn:Ei; [|done]. apply lookup_lt_Some in Ei. rewrite de_inum_of; lia.
    + destruct (lookup_lt_is_Some_2 files (Z.to_nat (n - 2))) as [f Hf]; [lia|]. pose proof (fm_files _ _ _ F _ f Hf) as R. replace (Z.of_nat (Z.to_nat (n - 2)) + 2) with n in R by lia.
      pose proof R as [A1 A2 A3 _ _ _]. pose proof (dinode_at n ltac:(lia)) as E. cbv zeta in E. assert (Et : i_type (dinode s n) = T_FILE) by (rewrite E; exact A1). split; [done|by rewrite Et|rewrite E; cbn [i_nlink]; by rewrite A2| |by rewrite Et].
      intros _. rewrite forallb_forall in Hacc. specialize (Hacc f ltac:(apply list_elem_of_In; by eapply list_elem_of_lookup_2)). unfold acceptable in Hacc. apply andb_true_iff in Hacc as [_ Hsz]. apply Z.leb_le in Hsz.
      apply (sound_img n _ _ _ _ Hi R); [done|done|]. intros bn Hbn Hb'. unfold owns. destruct (Z.eqb_spec bn 140); lia.
  - intros ip y Hy. rewrite (st_inodes _ _ St) in Hy. apply lookup_replicate in Hy as [-> _]. split; [done|by rewrite bool_decide_eq_false_2|done].
  - intros ip ip' y y' Hy. rewrite (st_inodes _ _ St) in Hy. by apply lookup_replicate in Hy as [-> _].
Qed.

(** The root's entry for the name of a file, if no earlier one has that name. *)
Lemma root_finds i f name : files !! i = Some f -> Forall (fun g => Forall (fun c => c <> 0) (base_name g)) files ->
  cname name = take 14 (base_name f) -> base_name f <> [46] -> base_name f <> [46; 46] -> (forall j g, (j < i)%nat -> files !! j = Some g -> take 14 (base_name g) <> take 14 (base_name f)) ->
  dir_entry s 1 name = Some (Z.of_nat i + 2).
Proof.
  intros Hi Hnul Hname H1 H2 Hfirst. destruct root_size as (E1 & _ & E3). unfold dir_entry. rewrite E1, Z.eqb_refl. rewrite Forall_lookup in Hnul. pose proof (lookup_lt_Some _ _ _ Hi) as Hlt.
  assert (He : forall k, 0 <= k < 4480 -> entry (view s) (dinode s 1) k = _) by (intros k Hk; rewrite root_bytes, root_entries_lookup by done; reflexivity).
  assert (Ei : entry (view s) (dinode s 1) (Z.of_nat i + 2) = dirent_of (Z.of_nat i + 2) (base_name f)) by (rewrite He by lia; replace (Z.to_nat (Z.of_nat i + 2)) with (S (S i)) by lia; by rewrite Hi).
  assert (Hd : dir_lookup (view s) (dinode s 1) name = Some (Z.of_nat i + 2)); [|rewrite Hd; cbn [fmap option_fmap option_map]; by rewrite Ei, de_inum_of by lia].
  assert (Hdot : forall l, length l = 1%nat \/ length l = 2%nat -> base_name f <> l -> cname name <> l).
  { intros l Hl Hne E. apply Hne. rewrite Hname in E. assert (length (take 14 (base_name f)) <= 2)%nat by (rewrite E; lia). rewrite length_take in *. by rewrite take_ge in E by lia. }
  unfold dir_lookup. rewrite E3. apply dir_find_first.
  - unfold dirsize. Z.div_mod_to_equations; lia.
  - unfold matches. rewrite Ei, de_inum_of, de_name_of by lia. rewrite Hname, cname_dname by by apply (Hnul i). rewrite bool_decide_eq_true_2 by done. destruct (Z.eqb_spec (Z.of_nat i + 2) 0); [lia|done].
  - intros k Hk. unfold matches. apply andb_false_iff. right. apply bool_decide_eq_false_2. rewrite He by lia. destruct (Z.to_nat k) as [|[|j]] eqn:Ek.
    + apply Hdot; [by left|done].
    + apply Hdot; [by right|done].
    + destruct (lookup_lt_is_Some_2 files j) as [g Hg]; [lia|]. rewrite Hg, de_name_of, cname_dname, Hname by by apply (Hnul j). intros E. apply (Hfirst j g); [lia|done|done].
Qed.
End tree.

(** ** The files are found and read *)

Lemma components_name name : name <> [] -> ~ slash ∈ name -> components (slash :: name) = [name].
Proof.
  intros Hne Hs. rewrite components_slash. assert (Hf : Forall (fun c => c <> slash) name) by (apply Forall_forall; intros c Hc ->; done).
  rewrite <- (app_nil_r name) at 1. by rewrite components_elem by (done || by left).
Qed.

Lemma fbyte_samev s s' x p : samev s s' -> fbyte (view s') x p = fbyte (view s) x p.
Proof. intros (_ & V & _). unfold fbyte, blk. rewrite (slot_ext (view s) (view s')) by apply V. by rewrite V. Qed.

Lemma free_boot m s : started m s -> nfree_entries s = 50.
Proof. intros St. unfold nfree_entries. rewrite (st_inodes _ _ St). by vm_compute. Qed.

Lemma base_name_sub f c : c ∈ base_name f -> c ∈ hf_name f.
Proof. unfold base_name. destruct (hf_name f) as [|d n]; [done|]. destruct (d =? 95); [|done]. intros H. by apply list_elem_of_further. Qed.

Lemma acceptable_noslash files i f : forallb acceptable files = true -> files !! i = Some f -> ~ slash ∈ base_name f /\ size_of f <= 71680.
Proof.
  intros Ha Hi. rewrite forallb_forall in Ha. specialize (Ha f ltac:(apply list_elem_of_In; by eapply list_elem_of_lookup_2)). unfold acceptable in Ha.
  apply andb_true_iff in Ha as [Ha Hz]. apply andb_true_iff in Ha as [Ha _]. apply negb_true_iff, bool_decide_eq_false in Ha. apply Z.leb_le in Hz. split; [|done]. intros H. by apply Ha, base_name_sub.
Qed.

(** A file with a name of its own in the image. *)
Record has_name (files : list hostfile) (i : nat) (f : hostfile) : Prop := {
  hn_file : files !! i = Some f;
  hn_nul : Forall (fun g => Forall (fun c => c <> 0) (base_name g)) files;
  hn_some : base_name f <> [] /\ base_name f <> [46] /\ base_name f <> [46; 46];
  hn_first : forall j g, (j < i)%nat -> files !! j = Some g -> take 14 (base_name g) <> take 14 (base_name f) }.

Section boot.
Context `{DW : Devsw}.

(** [ilock] and [readi] of an inode of the tree return the bytes of its file. *)
Lemma read_whole L s bs ip y size : tree L None s bs -> f_inodes s !! ip = Some y -> 0 < i_ref y -> i_type (dinode s (i_inum y)) <> T_DEV -> i_size (dinode s (i_inum y)) = size ->
  exists s1 s2, ilock ip s = Ret tt s1 /\ readi ip 0 size s1 = Ret (size, fbytes (view s) (dinode s (i_inum y)) 0 size) s2.
Proof.
  intros T Hy Hr Ht Hsz. destruct (ilock_tree L bs s ip y T Hy Hr) as (s1 & y1 & R1 & T1 & V1 & Ei & Er & En & Ey & _).
  assert (Hy1 : f_inodes s1 !! ip = Some y1) by (rewrite Ei; apply list_lookup_insert_eq; by apply lookup_lt_Some in Hy).
  rewrite <- (dinode_samev s s1 _ V1) in Ey, Ht, Hsz. pose proof (tr_tab _ _ _ _ T ip y Hy) as [_ _ A]. destruct (A Hr) as (_ & HL & _).
  pose proof (li_sound _ _ _ (tr_live _ _ _ _ T1 _ HL) Ht) as Hs. pose proof (sound_at s1 _ y1 ip Hs Ey Hy1) as Fo. pose proof (fo_size _ _ _ Fo) as H1. pose proof (ft_size _ (fo_fits _ _ _ Fo)) as H2.
  assert (Ez : i_size y1 = size) by (rewrite Ey; exact Hsz). rewrite Ez in H1, H2.
  pose proof (readi_run ip s1 y1 bs 0 size (tr_rd _ _ _ _ T1) Fo ltac:(unfold two32; lia) H2) as R. rewrite bool_decide_eq_false_2 in R by lia. cbv zeta in R. rewrite Ez, Z.sub_0_r, Z.min_id in R.
  destruct R as (s2 & R2 & _). exists s1, s2. split; [done|]. rewrite R2. f_equal. f_equal. unfold fbytes. apply list_fmap_ext. intros i p _. rewrite (fbyte_samev s s1) by done. rewrite (dinode_samev s s1 _ V1) in Ey. by rewrite Ey.
Qed.

(** A file of the image is found and read, in any state of the cache. *)
Lemma finds_file m files s t i f stack : fs_image (vw m) files (used_blocks files) -> started m s -> (length files <= 198)%nat -> forallb acceptable files = true -> dirsize (length files) mod 512 <> 0 -> has_name files i f -> length stack = 14%nat ->
  samev s t -> tree (fun n => 1 <= n <= Z.of_nat (length files) + 1) None t [] -> 2 <= nfree_entries t ->
  exists ip t1 t2 t3, namei (slash :: base_name f) stack t = Ret (Some ip) t1 /\ ilock ip t1 = Ret tt t2 /\ readi ip 0 (size_of f) t2 = Ret (size_of f, data_of f) t3.
Proof.
  intros F St Hn Ha Hmod [Hi Hnul (Hne & Hd & Hdd) Hfirst] Hl Vt T Hfree. destruct (acceptable_noslash files i f Ha Hi) as [Hns Hsz].
  assert (Hnz : Forall (fun c => c <> 0) (slash :: base_name f)) by (constructor; [done|]; rewrite Forall_lookup in Hnul; by apply (Hnul i)). pose proof (lookup_lt_Some _ _ _ Hi).
  destruct (namex_run _ [] t (slash :: base_name f) false stack 1 T ltac:(unfold ROOTINO; lia) eq_refl Hfree Hnz Hl) as (s' & V0 & _ & (o & name & s1 & E & T1 & V1 & H')).
  assert (V : samev s s') by by transitivity t. rewrite components_name in H' by done. cbn [resolve walk] in H'. rewrite (dir_entry_samev s s' _ _ V) in H'.
  assert (Hc : cname (take 14 (base_name f)) = take 14 (base_name f)) by (apply cname_full, Forall_take; rewrite Forall_lookup in Hnul; by apply (Hnul i)).
  rewrite (root_finds m files _ s F St Hn Hmod i f _ Hi Hnul Hc Hd Hdd Hfirst) in H'.
  destruct H' as (ip & y & -> & Hy & En & Hr & _). assert (V2 : samev s s1) by by transitivity s'. pose proof (fm_files _ _ _ F i f Hi) as R.
  pose proof (dinode_at m files s St Hn (Z.of_nat i + 2) ltac:(lia)) as Ed. cbv zeta in Ed. assert (Hty : i_type (dinode s (Z.of_nat i + 2)) = T_FILE) by (rewrite Ed; apply R).
  destruct (read_whole _ s1 [] ip y (size_of f) T1 Hy Hr) as (s2 & s3 & R2 & R3); [rewrite (dinode_samev s s1 _ V2), En, Hty; done|rewrite (dinode_samev s s1 _ V2), En, Ed; apply R|].
  exists ip, s1, s2, s3. split; [unfold namei; by mstep E|]. split; [exact R2|]. rewrite R3. f_equal. f_equal.
  rewrite (dinode_samev s s1 _ V2), En. apply list_eq. intros k. unfold fbytes, size_of. rewrite list_lookup_fmap. destruct (decide (k < length (data_of f))%nat) as [Hk|Hk].
  - rewrite lookup_seqZ_lt by lia. simpl fmap. rewrite (fbyte_samev s s1) by done.
    unfold size_of in Hsz. rewrite (fbyte_at m files _ s F St Hn) by lia. rewrite (hf_bytes _ _ _ _ _ _ R) by lia. rewrite Z.add_0_l, Nat2Z.id. destruct (lookup_lt_is_Some_2 (data_of f) k Hk) as [b Hb]. by rewrite Hb.
  - rewrite lookup_seqZ_ge by lia. symmetry. apply lookup_ge_None. lia.
Qed.

(** C5. The kernel reads back what mkfs was given, on images of at most 198 files
    that mkfs accepts and that fit on the disk, and whose directory does not fill its
    last block (mkfs.c:158 gives a directory of whole blocks one block too many; that is
    the case of 30 files, for one).  After mkfs has made the image, the kernel
    starts on it, and for every file that is the first with its name, cut at [DIRSIZ],
    [namei] finds it under that name in the root directory, and [readi] returns its
    size and its bytes. *)
Theorem mkfs_boot files s0 i f stack :
  (length files <= 198)%nat -> forallb acceptable files = true -> used_blocks files <= 1000 -> dirsize (length files) mod 512 <> 0 -> has_name files i f -> length stack = 14%nat ->
  exists m s ip s1 s2 s3, main files s0 = Ret tt m /\ fsinit (power_on (m_img m)) = Ret tt s /\
    namei (slash :: base_name f) stack s = Ret (Some ip) s1 /\ ilock ip s1 = Ret tt s2 /\ readi ip 0 (size_of f) s2 = Ret (size_of f, data_of f) s3.
Proof.
  intros Hn Ha Hu Hmod Hname Hl. destruct (main_succeeds files s0 Hn Ha Hu) as (m & R0 & Hm & F). destruct (fsinit_run m files _ Hm F) as (s & R1 & St).
  destruct (finds_file m files s s i f stack F St Hn Ha Hmod Hname Hl) as (ip & s1 & s2 & s3 & R2); [reflexivity|exact (tree_boot m files _ s F St Hn Ha Hmod)|rewrite (free_boot m s St); lia|]. exists m, s, ip, s1, s2, s3. split; [exact R0|]. split; [exact R1|exact R2].
Qed.

(** C8. A path leads where the directories on the disk say.  With no inode locked
    and two free entries in the inode cache, [namex] returns: if the walk over the
    components of the path, from the root or the current directory, ends at inode
    [n], it returns an entry of the cache for [n] with one reference more to it,
    and for [nameiparent] the last component, cut at [DIRSIZ]; otherwise it returns
    null.  No other reference count changes, no inode stays locked, and the blocks
    are as before. *)
Theorem namex_spec L bs s path (parent : bool) name n0 :
  tree L None s bs -> L ROOTINO -> starts path s n0 -> 2 <= nfree_entries s -> Forall (fun c => c <> 0) path -> length name = 14%nat ->
  exists o name' s', namex path parent name s = Ret (o, name') s' /\ tree L None s' bs /\ (forall b, view s' b = view s b) /\
  match (if parent then walk_parent else walk) s n0 (components path) with
  | None => o = None /\ forall k, refs s' k = refs s k
  | Some n => exists ip y, o = Some ip /\ f_inodes s' !! ip = Some y /\ i_inum y = n /\ 0 < i_ref y /\ (forall k, refs s' k = refs s k + if k =? n then 1 else 0) /\
      (parent = true -> exists c, last (components path) = Some c /\ cname name' = take 14 c)
  end.
Proof.
  intros T HL Hst Hf Hnz Hl. destruct (namex_run L bs s path parent name n0 T HL Hst Hf Hnz Hl) as (s1 & V & Hk & (o & name' & s' & -> & T' & V' & H)). exists o, name', s'. split; [done|]. split; [done|].
  split; [destruct V as (_ & V & _), V' as (_ & V' & _); intros b; by rewrite V'|]. rewrite (resolve_samev parent s s1) in H by done. unfold resolve in H. destruct ((if parent then walk_parent else walk) s n0 (components path)) as [n|].
  - destruct H as (ip & y & -> & Hy & En & Hr & Hk' & Hc). exists ip, y. split; [done|]. split; [done|]. split; [done|]. split; [done|]. split; [|done].
    intros k. rewrite Hk', Hk. unfold delta. rewrite (Z.eqb_sym k n). lia.
  - destruct H as [-> Hk']. split; [done|]. intros k. rewrite Hk', Hk. lia.
Qed.

(** C27. The inode cache.  The invariant [tree] says: every inode in use can be loaded
    and has links, its directory entries refer to inodes in use, no inode has two
    entries of the cache, a valid entry agrees with the disk, and no entry but the
    one given is locked.  From a state in which it holds, with a free entry:
    [iget] of an inode in use returns an entry for it and counts one reference more
    to it; [idup] returns its argument, with one reference more, and changes nothing
    else; [iput] of a referenced entry drops one reference; [ilock] locks the entry
    and fills it with the inode on the disk, [iunlock] unlocks it, and [iunlockput]
    unlocks it and drops a reference.  All other reference counts and all blocks stay
    as they are, and the invariant holds again.  And inside a transaction [iput] of a
    valid, unlocked entry with one reference to an inode without links frees the
    inode: each block of the file, indirect block included, is free in the bitmap
    and no other bit changes; on the disk and in the cache the inode has type 0,
    size 0 and no blocks; the entry of the cache is free; and no other block and no
    other inode of the inode's block is written. *)
Theorem inode_cache_wf L bs s n ip y :
  tree L None s bs -> L n -> 1 <= nfree_entries s -> f_inodes s !! ip = Some y -> 0 < i_ref y ->
  returns (iget 1 n) s (fun i s' => tree L None s' bs /\ samev s s' /\ refs_add s s' n 1 /\
    exists y', f_inodes s' = <[i := y']> (f_inodes s) /\ i_inum y' = n /\ 0 < i_ref y') /\
  returns (idup ip) s (fun i s' => i = ip /\ tree L None s' bs /\ s' = seti ip (set_i_ref (i_ref y + 1) y) s) /\
  returns (iput ip) s (fun _ s' => tree L None s' bs /\ samev s s' /\ refs_add s s' (i_inum y) (-1) /\
    exists y', f_inodes s' = <[ip := y']> (f_inodes s) /\ i_inum y' = i_inum y /\ i_ref y' = i_ref y - 1) /\
  returns (ilock ip) s (fun _ s' => tree L (Some ip) s' bs /\ samev s s' /\ refs_add s s' n 0 /\
    exists y', f_inodes s' = <[ip := y']> (f_inodes s) /\ sl_locked (i_lock y') = 1 /\ i_valid y' <> 0 /\ i_ref y' = i_ref y /\ y' = recore (dinode s (i_inum y)) y' /\
    returns (iunlock ip) s' (fun _ s2 => tree L None s2 bs /\ s2 = seti ip (set_i_lock (mksleep 0 0) y') s') /\
    returns (iunlockput ip) s' (fun _ s2 => tree L None s2 bs /\ samev s s2 /\ refs_add s s2 (i_inum y) (-1))) /\
  (forall s0 bs0 ip0 x0, tx [] s0 bs0 -> unlinked s0 ip0 x0 -> (length bs0 <= 26)%nat ->
    returns (iput ip0) s0 (fun _ s' => cleared ip0 s0 x0 s' (freed_inode x0) /\ synced s' (freed_inode x0) /\
      forall k, 0 <= k <= 140 -> slot (view s0) x0 k <> 0 -> used (view s') (f_sb s0) (slot (view s0) x0 k) = false)).
Proof.
  intros T HL Hf Hy Hr. split; [|split; [|split; [|split]]].
  - destruct (iget_tree L bs None s n T HL Hf) as (i & y0 & y' & R & T' & Hy0 & En & Er & Hn). eapply returns_ret; [done|]. pose proof (eo_ref _ _ _ _ (tr_tab _ _ _ _ T i y0 Hy0)).
    split; [done|]. split; [apply samev_seti|]. split; [|exists y'; split; [done|split; [done|lia]]].
    rewrite <- En. apply (refs_add_seti s i y0 y'); [done|done|]. intros H0. rewrite En. apply Hn. lia.
  - destruct (idup_tree L bs s ip y T Hy Hr) as [R T']. by eapply returns_ret.
  - destruct (iput_tree L bs s ip y T Hy Hr) as (y' & R & T' & En & Er). eapply returns_ret; [done|]. split; [done|]. split; [apply samev_seti|]. split; [|by exists y'].
    rewrite <- En. apply (refs_add_seti s ip y y'); [done|lia|by rewrite En].
  - destruct (ilock_tree L bs s ip y T Hy Hr) as (s1 & y1 & R & T1 & V1 & Ei & Er & En & Ey & Hv). eapply returns_ret; [done|]. split; [done|]. split; [done|].
    assert (Hy1 : f_inodes s1 !! ip = Some y1) by (rewrite Ei; apply list_lookup_insert_eq; by apply lookup_lt_Some in Hy).
    assert (Hk : forall m, refs s1 m = refs s m). { intros m. transitivity (refs (seti ip y1 s) m); [unfold refs; by rewrite Ei|]. rewrite (refs_seti s ip y y1 m Hy), En, Er. lia. }
    split; [intros m; rewrite Hk; destruct (n =? m); lia|]. exists y1. split; [done|]. pose proof (eo_lock _ _ _ _ (tr_tab _ _ _ _ T1 ip y1 Hy1)) as Hlk. rewrite bool_decide_eq_true_2 in Hlk by done.
    split; [done|]. split; [done|]. split; [done|]. split; [done|]. split.
    + destruct (iunlock_tree L bs s1 ip y1 T1 Hy1 ltac:(lia)) as [R2 T2]. by eapply returns_ret.
    + destruct (iunlockput_tree L bs s1 ip y1 T1 Hy1 ltac:(lia)) as (s2 & y2 & R2 & T2 & V2 & _ & _ & _ & Hk2). eapply returns_ret; [done|]. split; [done|]. split; [by etransitivity|].
      intros m. rewrite Hk2, Hk, En. unfold delta. destruct (i_inum y =? m); lia.
  - intros s0 bs0 ip0 x0 T0 U Hl. destruct (iput_frees ip0 s0 x0 bs0 T0 U Hl) as (s' & bs' & R & _ & C & Y). eapply returns_ret; [done|]. split; [done|]. split; [done|].
    intros k Hk Hne. pose proof (ul_ok _ _ _ U) as O. rewrite (cl_used _ _ _ _ _ C) by apply (ik_good _ _ O k Hk Hne). rewrite decide_True; [done|]. split; [|done].
    apply owned_slot; [apply O|done|by exists k].
Qed.
End boot.

(** The second file of [two_files]. *)
Definition cat_file : hostfile := mkhost [95; 99; 97; 116] (Some [replicate 512 7; replicate 300 8]).

Lemma cat_name : has_name two_files 1 cat_file.
Proof.
  split; [done|by repeat constructor|done|]. intros [|j] g Hj Hg; [|lia]. injection Hg as <-. done.
Qed.

Lemma mkfs_boot_witness : exists m s ip s1 s2 s3, main two_files (mkmk [] 0 0) = Ret tt m /\ fsinit (power_on (m_img m)) = Ret tt s /\
    @namei no_devices [47; 99; 97; 116] (replicate 14 0) s = Ret (Some ip) s1 /\ ilock ip s1 = Ret tt s2 /\ @readi no_devices ip 0 812 s2 = Ret (812, replicate 512 7 ++ replicate 300 8) s3.
Proof.
  destruct two_files_ok as [Ea Eu]. assert (Hu : used_blocks two_files <= 1000) by (rewrite Eu; lia). assert (Hd : dirsize (length two_files) mod 512 <> 0) by (vm_compute; lia).
  exact (@mkfs_boot no_devices two_files (mkmk [] 0 0) 1 cat_file (replicate 14 0) ltac:(simpl; lia) Ea Hu Hd cat_name eq_refl).
Defined.

Lemma boot_two : exists m s, started m s /\ tree (fun n => 1 <= n <= 3) None s [] /\ walk s 1 [[99; 97; 116]] = Some 3.
Proof.
  destruct two_files_ok as [Ea Eu]. destruct (main_succeeds two_files (mkmk [] 0 0) ltac:(simpl; lia) Ea ltac:(rewrite Eu; lia)) as (m & _ & Hm & F). destruct (fsinit_run m two_files _ Hm F) as (s & _ & St).
  exists m, s. split; [exact St|]. assert (Hn : (length two_files <= 198)%nat) by (simpl; lia). split; [exact (tree_boot m two_files _ s F St Hn Ea ltac:(vm_compute; lia))|]. cbn [walk]. change (take 14 [99; 97; 116]) with [99; 97; 116].
  destruct cat_name as [Hi Hnul (_ & Hd & Hdd) Hfirst]. by rewrite (root_finds m two_files _ s F St Hn ltac:(vm_compute; lia) 1 cat_file [99; 97; 116] Hi Hnul eq_refl Hd Hdd Hfirst).
Qed.

Lemma namex_spec_witness : exists s ip name' s', @namex no_devices [47; 99; 97; 116] false (replicate 14 0) s = Ret (Some ip, name') s' /\ refs s' 3 = refs s 3 + 1.
Proof.
  destruct boot_two as (m & s & St & T & W). exists s.
  destruct (@namex_spec no_devices (fun n => 1 <= n <= 3) [] s [47; 99; 97; 116] false (replicate 14 0) 1 T ltac:(unfold ROOTINO; lia) eq_refl ltac:(rewrite (free_boot m s St); lia) ltac:(by repeat constructor) eq_refl) as (o & name' & s' & E & _ & _ & H).
  change (components [47; 99; 97; 116]) with [[99; 97; 116]] in H. rewrite W in H. destruct H as (ip & y & Eo & _ & _ & _ & Hk & _). exists ip, name', s'. rewrite Eo in E. split; [exact E|exact (Hk 3)].
Defined.

Lemma inode_cache_wf_witness :
  (exists s ip y, i_inum y = 2 /\ returns (idup ip) s (fun i s' => i = ip /\ s' = seti ip (set_i_ref (i_ref y + 1) y) s) /\
     returns (iput ip) s (fun _ s' => refs s' 2 = refs s 2 - 1) /\
     returns (ilock ip) s (fun _ s' => tree (fun n => 1 <= n <= 3) (Some ip) s' [])) /\
  returns (iput 0) gone_fs (fun _ s' => used (view s') sb40 36 = false /\ used (view s') sb40 37 = true).
Proof.
  destruct boot_two as (m & s & St & T & _). destruct (iget_tree (fun n => 1 <= n <= 3) [] None s 2 T ltac:(cbv beta; lia) ltac:(rewrite (free_boot m s St); lia)) as (ip & y & y' & R & T' & Hy & En & Er & _).
  assert (Hy' : f_inodes (seti ip y' s) !! ip = Some y') by (apply (seti_lookup s ip y), Hy). assert (H0 : 0 <= i_ref y) by apply (eo_ref _ _ _ _ (tr_tab _ _ _ _ T ip y Hy)).
  assert (Hf : 1 <= nfree_entries (seti ip y' s)). { rewrite (free_seti s ip y y' Hy), (free_boot m s St). destruct (i_ref y =? 0), (i_ref y' =? 0); lia. }
  destruct (inode_cache_wf (fun n => 1 <= n <= 3) [] (seti ip y' s) 1 ip y' T' ltac:(cbv beta; lia) Hf Hy' ltac:(lia)) as (_ & Hd & Hp & Hl & Hx). split.
  - exists (seti ip y' s), ip, y'. split; [exact En|]. split; [|split].
    + apply (returns_mono _ _ _ _ Hd). intros i s' (A & _ & B). split; [exact A|exact B].
    + apply (returns_mono _ _ _ _ Hp). intros i s' (_ & _ & A & _). rewrite (A 2), En. reflexivity.
    + apply (returns_mono _ _ _ _ Hl). intros i s' (A & _). exact A.
  - apply (returns_mono _ _ _ _ (Hx gone_fs [] 0%nat gone_ino gone_tx gone_ok ltac:(simpl; lia))). intros i s' (C & _ & A). split.
    + exact (A 0 ltac:(lia) gone_slot).
    + rewrite (cl_used _ _ _ _ _ C) by (change (0 <= 37 < 40); lia). rewrite decide_False; [exact gone_37|]. intros [H _]. revert H. exact gone_other.
Defined.
