(* ===== verification/Boot.v ===== *)
(** * From mkfs to the program init

    The parts of the boot after the memory allocator runs, one after the other: [binit] on
    a disk that mkfs has written, [userinit], the first round of the scheduler, [forkret]
    with [iinit] and [initlog], and the instructions of initcode.S up to [exec]. *)

From Stdlib Require Import ZArith Lia.
From stdpp Require Import base numbers strings gmap list relations.
From S2P Require Import Mkfs.
From S2P Require Import Prelude.
From S2P Require Import Machine.
From S2P Require Import Spinlock.
From S2P Require Import Kalloc.
From S2P Require Import Vm.
From S2P Require Import VmInv.
From S2P Require Import VmSpec.
From S2P Require Import KState.
From S2P Require Import PQueue.
From S2P Require Import Proc.
From S2P Require Import ProcInv.
From S2P Require Import Sched.
From S2P Require Import ArgsSpec.
From S2P Require Import Trap.
From S2P Require Import Asm.
From S2P Require Import FState.
From S2P Require Import Bio.
From S2P Require Import Log.
From S2P Require Import Crash.
From S2P Require Import Fs.
From S2P Require Import FsData.
From S2P Require Import FsDir.
From S2P Require Import FsTree.
From S2P Require Import File.
From S2P Require Import Exec.
From S2P Require Import Usys.
From S2P Require Import Initcode.
From S2P Require Import Userinit.
From S2P Require Import MkfsSpec.
From S2P Require Import MkfsImage.
From S2P Require Import MkfsBoot.

Local Open Scope string_scope.
Local Open Scope list_scope.
Local Open Scope Z_scope.

(** ** The first round of the scheduler *)

Section round.
Context {F : Type} `{!FileOps F}.

Lemma view_at_rest (k k' : kst F) c : at_rest k c None -> runs_on (kh k') c -> lock_ready (kh k') ptable_lock -> hw_view (kh k') = hw_view (kh k) -> at_rest k' c None.
Proof.
  intros (_ & _ & x & Hx & Hn & Hc) Hr Hl Hv. split; [done|]. split; [done|]. pose proof (f_equal (fun v => v.2 !! c) Hv) as E. cbn [hw_view snd] in E. rewrite !list_lookup_fmap, Hx in E. cbn [fmap option_fmap option_map] in E.
  destruct (cpus (kh k') !! c) as [y|]; [|done]. injection E as _ E1 E2. exists y. split; [done|]. split; congruence.
Qed.

(** The first round looks for a runnable process in the table. *)
Lemma first_round (k : kst F) c pr : at_rest k c None -> procs (kp k) !! 0%nat = Some pr -> p_state pr = RUNNABLE -> p_kstack pr <> 0 -> p_pgdir pr <> 0 -> first_time (kg k) <> 0 ->
  scheduler_round c k = Wait OnSched (dispatched c 0 pr (set_running 0 (kp k)) (set_kg (set_first_time 0 (kg k)) k)).
Proof.
  intros Hat Hp Hs Hks Hpg Hft. rewrite (scheduler_round_start k c None Hat). rewrite (proj2 (Z.eqb_neq _ 0) Hft). cbn [negb]. unfold setg. rewrite bind_modify. unfold scheduler_scan. rewrite bind_get.
  change (procs (kp (set_kg _ _))) with (procs (kp k)). rewrite drop_0. assert (Hf : find_first (fun q => bool_decide (p_state q = RUNNABLE)) (take (Z.to_nat NPROC) (procs (kp k))) = Some 0%nat).
  { apply find_first_Some. split; [|intros q y Hq; lia]. exists pr. split; [apply lookup_take_Some; split; [done|change (Z.to_nat NPROC) with 64%nat; lia]|by apply bool_decide_eq_true_2]. }
  rewrite Hf. exact (dispatch_run (set_kg (set_first_time 0 (kg k)) k) c 0 pr (kp k) None Hat Hp Hks Hpg).
Qed.
End round.

(** ** [forkret] with the real file system *)

Section fs.
Context {Dsw : Devsw}.

Lemma on_fs_run {A} (m : M fstate A) (k : kern) c p pr a s : running k c p -> procs (kp k) !! p = Some pr -> m (set_f_cwd (index (p_cwd pr)) (set_f_pid (p_pid pr) (fi_fs (kf k)))) = Ret a s ->
  on_fs m k = Ret a (set_kf (mkfio s (fi_pipes (kf k))) (touched c k)).
Proof. intros Hr Hp Hm. unfold on_fs. mstep (curproc_run k c p pr Hr Hp). cbn beta iota. unfold zoom. by rewrite (Hm : m (set_f_cwd _ (set_f_pid _ (fi_fs (kf (touched c k))))) = _). Qed.

(** The state in which [forkret] starts the file system, and what it leaves: the
    processor runs process 0, and the process, memory and globals are as before. *)
Lemma forkret_run (k1 k2 : kern) c pr f pipes s1 s :
  at_rest k1 c (Some 0%nat) -> kh k2 = acq_hw c ptable_lock (kh k1) -> procs (kp k2) !! 0%nat = Some pr -> forkret_first (kg k2) <> 0 -> kf k2 = mkfio f pipes ->
  iinit ROOTDEV (set_f_cwd (index (p_cwd pr)) (set_f_pid (p_pid pr) f)) = Ret tt s1 -> initlog ROOTDEV s1 = Ret tt s -> f_pid s1 = p_pid pr -> f_cwd s1 = index (p_cwd pr) ->
  exists k3, forkret k2 = Ret tt k3 /\ running k3 c 0 /\ kp k3 = kp k2 /\ mem (km k3) = mem (km k2) /\ kf k3 = mkfio s pipes.
Proof.
  intros Hat Hk Hp Hf Ek R1 R2 Ep Ec. pose proof Hat as (Hr & Hl & x & Hx & _ & Hc). unfold forkret. mstep (unlock_run k1 k2 c ptable_lock Hr Hl Hk). rewrite bind_gets. set (ka := set_kh _ k2). change (forkret_first (kg ka)) with (forkret_first (kg k2)).
  rewrite (proj2 (Z.eqb_neq _ 0) Hf). unfold setg. rewrite bind_modify. set (kb := set_kg _ ka). assert (Hrun : running kb c 0).
  { apply (running_touched (set_kh (kh k1) kb) c 0). split; [done|]. by exists x. }
  mstep (on_fs_run (iinit ROOTDEV) kb c 0 pr tt s1 Hrun Hp ltac:(change (kf kb) with (kf k2); by rewrite Ek)). set (kd := set_kf _ (touched c kb)). assert (Hrun2 : running kd c 0) by (exact (running_touched kb c 0 Hrun)).
  assert (E1 : set_f_cwd (index (p_cwd pr)) (set_f_pid (p_pid pr) s1) = s1) by (rewrite <- Ep, <- Ec; by destruct s1).
  eexists. split; [apply (on_fs_run (initlog ROOTDEV) kd c 0 pr tt s Hrun2 Hp); change (fi_fs (kf kd)) with s1; by rewrite E1|].
  split; [exact (running_touched kd c 0 Hrun2)|]. split; [done|]. split; [done|]. cbn. by rewrite Ek.
Qed.

(** [namei] of the root, before there is a process. *)
Definition root_inode : inode := set_i_valid 0 (set_i_ref 1 (set_i_inum ROOTINO (set_i_dev ROOTDEV inode0))).
Lemma iget_root f : f_inodes f = replicate 50 inode0 -> iget ROOTDEV ROOTINO f = Ret 0%nat (seti 0 root_inode f).
Proof.
  intros E. unfold iget. rewrite bind_gets, E.
  assert (E1 : find_first (fun x => (0 <? i_ref x) && (i_dev x =? ROOTDEV) && (i_inum x =? ROOTINO)) (replicate 50 inode0) = None) by reflexivity. assert (E2 : find_first (fun x => i_ref x =? 0) (replicate 50 inode0) = Some 0%nat) by reflexivity. rewrite E1, E2.
  assert (H0 : f_inodes f !! 0%nat = Some inode0) by (by rewrite E). mstep (updi_run f 0 inode0 (fun x => set_i_valid 0 (set_i_ref 1 (set_i_inum ROOTINO (set_i_dev ROOTDEV x)))) H0). reflexivity.
Qed.

Lemma namei_slash f : f_inodes f = replicate 50 inode0 -> Fs.namei [slash] (replicate 14 0) f = Ret (Some 0%nat) (seti 0 root_inode f).
Proof. intros E. unfold Fs.namei, namex. change (bool_decide (head [slash] = Some slash)) with true. cbv iota. rewrite bind_assoc_run. mstep (iget_root f E). reflexivity. Qed.

(** The file system that mkfs has written, started in the order of the kernel: [binit],
    the reference to the root, then [iinit] and [initlog]. *)
Definition disk_of (m : mkst) : fstate := set_f_lru (rev (seq 0 30)) (power_on (m_img m)).

Lemma boot_fs m files pid cwd : img_ok m -> fs_image (vw m) files (used_blocks files) -> (length files <= 198)%nat -> forallb acceptable files = true -> dirsize (length files) mod 512 <> 0 ->
  exists s1 s, iinit ROOTDEV (set_f_cwd cwd (set_f_pid pid (seti 0 root_inode (disk_of m)))) = Ret tt s1 /\ initlog ROOTDEV s1 = Ret tt s /\ f_pid s1 = pid /\ f_cwd s1 = cwd /\
    forall i f stack, has_name files i f -> length stack = 14%nat ->
      exists ip t1 t2 t3, namei (slash :: base_name f) stack s = Ret (Some ip) t1 /\ ilock ip t1 = Ret tt t2 /\ readi ip 0 (size_of f) t2 = Ret (size_of f, data_of f) t3.
Proof.
  intros Hm F Hn Ha Hmod. set (xs := <[0%nat := root_inode]> (replicate 50 inode0)).
  destruct (fs_starts m files _ xs pid cwd Hm F) as (s1 & s & R1 & R2 & Ep & Ec & Ei & St); [split; [done|by apply Forall_insert; [apply Forall_replicate|]]|]. set (s0 := set_f_inodes (replicate 50 inode0) s) in *.
  assert (Es : seti 0 root_inode s0 = s) by (destruct s; cbn in Ei; subst; reflexivity). exists s1, s. split; [exact R1|]. split; [exact R2|]. split; [exact Ep|]. split; [exact Ec|]. intros i f stack Hname Hl.
  apply (finds_file m files s0 s i f stack F St Hn Ha Hmod Hname Hl).
  - rewrite <- Es. apply samev_seti.
  - pose proof (tree_boot m files _ s0 F St Hn Ha Hmod) as T. destruct (iget_tree _ [] None s0 1 T) as (ip & y & y' & R & T' & _); [lia|rewrite (free_boot m s0 St); lia|]. rewrite (iget_root s0 eq_refl : iget 1 1 s0 = _), Es in R. assert (Et : s = seti ip y' s0) by (revert R; generalize (seti ip y' s0); intros t R; by injection R). by rewrite <- Et in T'.
  - unfold nfree_entries. rewrite Ei. by vm_compute.
Qed.
End fs.

(** ** The kernel's part *)

(** The kernel when [main] comes to [userinit], on processor [c]. *)
Record before_userinit (c : nat) (k : kern) (G l : list Z) : Prop := {
  bu_rest : at_rest k c None;
  bu_heap : heap_inv c (km k) G l;
  bu_data : data_ok (kdata (km k));
  bu_pages : (1028 <= length l)%nat;
  bu_table : boot_table (kp k);
  bu_queue : pqueue_ready (kg k) = 0;
  bu_first : first_time (kg k) <> 0;
  bu_forkret : forkret_first (kg k) <> 0 }.

Section kernel.
Context {Dsw : Devsw} {Img : Image} (Hinit : initcode = init_bytes).

(** Process 0 runs on [c], with initcode in its page [pg]. *)
Record first_running (c : nat) (k : kern) (pr : proc) (pg : Z) : Prop := {
  fr_running : running k c 0;
  fr_proc : procs (kp k) !! 0%nat = Some pr;
  fr_state : p_state pr = RUNNING /\ p_killed pr = 0 /\ p_sz pr = PGSIZE /\ p_tfr pr = init_tf;
  fr_page : one_page (mem (km k)) (p_pgdir pr) pg;
  fr_code : coupled k pr (store_bytes ∅ 0 init_bytes) }.

Lemma root_of f pipes (k : kern) : f_inodes f = replicate 50 inode0 -> kf k = mkfio f pipes -> namei_root k = Ret (handle 0) (set_kf (mkfio (seti 0 root_inode f) pipes) k).
Proof. intros E Ek. unfold namei_root, kernel_files, no_proc_fs. rewrite bind_run. unfold zoom. rewrite Ek. cbn [fi_fs fi_pipes]. by rewrite (namei_slash f E). Qed.

Lemma made_nonnull c (k k' : kern) f G l pr pg tabs E l' : made_first c k k' f G l pr pg tabs E l' -> p_kstack pr <> 0 /\ p_pgdir pr <> 0.
Proof.
  intros H. pose proof (pi_valid _ _ _ _ _ _ _ (mf_table _ _ _ _ _ _ _ _ _ _ _ H)) as Hv. rewrite Forall_forall in Hv.
  assert (P : forall q, valid_page (kend (km k')) q -> q <> 0) by (intros q (_ & _ & Hq & _) ->; done).
  split; apply P, Hv; [right; apply elem_of_app; right; right; left|left].
Qed.

Lemma boot_kernel m files c (k : kern) G l pipes : img_ok m -> fs_image (vw m) files (used_blocks files) -> (length files <= 198)%nat -> forallb acceptable files = true -> dirsize (length files) mod 512 <> 0 ->
  kf k = mkfio (disk_of m) pipes -> before_userinit c k G l ->
  exists k1 k2 k3 pr pg, userinit k = Ret tt k1 /\ scheduler_round c k1 = Wait OnSched k2 /\ forkret k2 = Ret tt k3 /\ first_running c k3 pr pg /\
    forall i f stack, has_name files i f -> length stack = 14%nat ->
      exists ip t1 t2 t3, namei (slash :: base_name f) stack (fi_fs (kf k3)) = Ret (Some ip) t1 /\ ilock ip t1 = Ret tt t2 /\ readi ip 0 (size_of f) t2 = Ret (size_of f, data_of f) t3.
Proof using Hinit.
  intros Hm F Hn Ha Hmod Ek [B1 B2 B3 B4 B5 B6 B7 B8]. pose proof B1 as (Hr & Hl & _).
  destruct (userinit_run c k G l (handle 0) (mkfio (seti 0 root_inode (disk_of m)) pipes) Hr Hl B2 B3 B4 B5 B6) as (k1 & pr & pg & tabs & E & l' & R1 & Hmf); [by rewrite Hinit|intros k' Ek'; apply root_of; [done|by rewrite Ek']|].
  destruct (made_nonnull _ _ _ _ _ _ _ _ _ _ _ Hmf) as [Hks Hpg]. destruct Hmf as [M1 M2 M3 M4 M5 (M6 & M6' & M6'') (N1 & N2 & N3 & N4 & N5) _ M8 M9 M10 _ _ _].
  pose proof (view_at_rest k k1 c B1 M6 M6' M6'') as Hat1. pose proof (first_round k1 c pr Hat1 M1 N1 Hks Hpg ltac:(by rewrite M4)) as R2. set (k1' := set_kg _ k1) in R2. set (k2 := dispatched _ _ _ _ _) in R2.
  destruct (boot_fs m files (p_pid pr) (index (p_cwd pr)) Hm F Hn Ha Hmod) as (s1 & s & S1 & S2 & S3 & S4 & S5).
  set (ka := set_kh (set_cpus (alter (set_cproc (Some 0%nat)) c) (kh (sti_k k1'))) k1'). assert (Hata : at_rest ka c (Some 0%nat)).
  { pose proof (at_rest_sti k1' c None Hat1) as (Hra & Hla & x & Hx & Hx0 & _). split; [by apply set_cproc_runs_on|]. split; [done|]. exists (set_cproc (Some 0%nat) x). split; [|done]. change (alter (set_cproc (Some 0%nat)) c (cpus (kh (sti_k k1'))) !! c = Some (set_cproc (Some 0%nat) x)). by rewrite list_lookup_alter_eq, Hx. }
  destruct (forkret_run ka k2 c (set_p_state RUNNING pr) (seti 0 root_inode (disk_of m)) pipes s1 s Hata) as (k3 & R3 & P1 & P2 & P3 & P4); [done| |by cbn; rewrite M4|exact M5|exact S1|exact S2|exact S3|exact S4|].
  { cbn. by rewrite list_lookup_alter_eq, M1. }
  exists k1, k2, k3, (set_p_state RUNNING pr), pg. split; [exact R1|]. split; [exact R2|]. split; [exact R3|]. split; [|rewrite P4; exact S5]. split.
  - exact P1.
  - rewrite P2. cbn. by rewrite list_lookup_alter_eq, M1.
  - done.
  - rewrite P3. exact M9.
  - intros va Hva. rewrite P3, <- Hinit. by apply M10.
Qed.
End kernel.

(** ** The user's part *)

Lemma init_bytes_small : Forall (fun b => 0 <= b < 256) init_bytes.
Proof. let l := eval vm_compute in init_bytes in change init_bytes with l. repeat (apply Forall_cons_2; [lia|]). by apply Forall_nil_2. Qed.

(** A processor that sees the page of the process sees the code. *)
Lemma sees_code (k : kern) pr m : p_sz pr = PGSIZE -> coupled k pr (store_bytes ∅ 0 init_bytes) -> coupled k pr m -> bytes_at m 0 init_bytes.
Proof.
  intros Hs H1 H2 i b Hi. pose proof (lookup_lt_Some _ _ _ Hi) as Hlt. change (length init_bytes) with 44%nat in Hlt. assert (Hva : 0 <= 0 + Z.of_nat i < p_sz pr) by (rewrite Hs; unfold PGSIZE; lia). specialize (H1 _ Hva). specialize (H2 _ Hva). rewrite H1 in H2. apply (inj Some) in H2. rewrite <- H2.
  rewrite ld8_store_bytes. replace (0 + Z.of_nat i - 0) with (Z.of_nat i) by lia. unfold zget. destruct (Z.leb_spec 0 (Z.of_nat i)); [|lia]. rewrite Nat2Z.id, Hi. pose proof init_bytes_small as Hb. rewrite Forall_lookup in Hb. specialize (Hb _ _ Hi). unfold u8. by apply Z.mod_small.
Qed.

Lemma first_user {Dsw : Devsw} {Dev : Devices fio} {Img : Image} stack j vec c (k : kern) pr pg u : first_running c k pr pg -> in_frame u (p_tfr pr) -> coupled k pr (x_mem u) ->
  exists k4 u4, nsteps (@ustep fio kernel_files Img (kernel_file_syscalls stack) Dev 0 j vec) 4 (k, u) (k4, u4) /\ kf k4 = kf k /\ fetch u4 = Some (Int T_SYSCALL, 2) /\
    let tf := int_frame pr (jump (x_eip u4 + 2) u4) in
    @trap fio kernel_files Img (kernel_file_syscalls stack) Dev j tf k4 = (r ← exec stack init_path [init_path]; syscall_return 0 r;; killed_exit) (upd_k 0 (set_p_tfr tf) (touched c k4)).
Proof.
  intros [Hr Hp (_ & Hk & Hs & Ht) Ho Hc] Hf Hm. rewrite Ht in Hf. pose proof (in_frame_inv _ _ Hf) as ((E1 & E2 & _) & _). assert (Hi : in_init 0 c pr k u 0 PGSIZE) by (split; [by apply (sees_code k pr)|done..]).
  destruct (init_runs stack 0 j vec c pr k u pg Hi Ho Hs) as (k4 & u4 & Hn). destruct (init_start stack 0 j vec c pr k u k4 u4 Hi Hn) as (I4 & Ea & [_ Ef] & A1 & A2). destruct init_listing as (_ & _ & _ & _ & _ & D17 & _).
  exists k4, u4. split; [exact Hn|]. split; [exact Ef|]. split; [by apply (init_fetch 0 c pr k4 u4 17 (PGSIZE - 12))|]. by apply (init_trap stack 0 j c pr k4 u4).
Qed.

(** ** Properties *)

(** C6. The system starts the program init.  mkfs makes an image of at most 198 files
    that it accepts and that fit on the disk, the directory not a whole number of blocks
    long, and the first of the files called init is the program; a kernel that has come to [userinit] on a disk with this image makes the
    first process, the scheduler's first round switches to it, [forkret] starts the file
    system, and the processor that returns into the process's frame, seeing its memory
    through its page table, comes to a system call after four instructions, in which
    [trap] runs [exec] with the path and the argument [/init].  The file system is then
    one in which [namei] finds this path and [readi] returns the bytes of the program
    that mkfs was given. *)
Theorem boots_to_init {Dsw : Devsw} {Dev : Devices fio} {Img : Image} stack j vec files s0 i f :
  initcode = init_bytes -> (length files <= 198)%nat -> forallb acceptable files = true -> used_blocks files <= 1000 -> dirsize (length files) mod 512 <> 0 -> has_name files i f -> slash :: base_name f = init_path -> length stack = 14%nat ->
  exists m f0, Mkfs.main files s0 = Ret tt m /\ binit (power_on (m_img m)) = Ret tt f0 /\
  forall c (k : kern) G l pipes, kf k = mkfio f0 pipes -> before_userinit c k G l ->
  exists k1 k2 k3 pr pg, userinit k = Ret tt k1 /\ scheduler_round c k1 = Wait OnSched k2 /\ forkret k2 = Ret tt k3 /\ first_running c k3 pr pg /\
  forall u, in_frame u (p_tfr pr) -> coupled k3 pr (x_mem u) ->
  exists k4 u4, nsteps (@ustep fio kernel_files Img (kernel_file_syscalls stack) Dev 0 j vec) 4 (k3, u) (k4, u4) /\ fetch u4 = Some (Int T_SYSCALL, 2) /\
    (let tf := int_frame pr (jump (x_eip u4 + 2) u4) in
     @trap fio kernel_files Img (kernel_file_syscalls stack) Dev j tf k4 = (r ← exec stack init_path [init_path]; syscall_return 0 r;; killed_exit) (upd_k 0 (set_p_tfr tf) (touched c k4))) /\
    exists ip t1 t2 t3, namei init_path stack (fi_fs (kf k4)) = Ret (Some ip) t1 /\ ilock ip t1 = Ret tt t2 /\ readi ip 0 (size_of f) t2 = Ret (size_of f, data_of f) t3.
Proof.
  intros Hinit Hn Ha Hu Hmod Hname Hpath Hl. destruct (main_succeeds files s0 Hn Ha Hu) as (m & R0 & Hm & F). exists m, (disk_of m). split; [exact R0|]. split; [exact (binit_run (disk0 (m_img m)) [])|]. intros c k G l pipes Ek Hb.
  destruct (boot_kernel Hinit m files c k G l pipes Hm F Hn Ha Hmod Ek Hb) as (k1 & k2 & k3 & pr & pg & R1 & R2 & R3 & Hfr & Hfind). exists k1, k2, k3, pr, pg. split; [exact R1|]. split; [exact R2|]. split; [exact R3|]. split; [exact Hfr|]. intros u Hfu Hcu.
  destruct (first_user stack j vec c k3 pr pg u Hfr Hfu Hcu) as (k4 & u4 & Hs & Ef & Hfe & Htr). exists k4, u4. split; [exact Hs|]. split; [exact Hfe|]. split; [exact Htr|]. rewrite <- Hpath, Ef. exact (Hfind i f stack Hname Hl).
Qed.

(** ** Example: an image with the file init, and the kernel of Userinit.v on it *)

Definition init_file : hostfile := mkhost [95; 105; 110; 105; 116] (Some [[127; 69; 76; 70]]).
Definition boot_kern (f : fstate) : kern := mkkst (km boot_kst) (kp boot_kst) (kx boot_kst) (ks boot_kst) (kg boot_kst) (mkfio f ∅) (kc boot_kst).

Lemma boot_ready f : before_userinit 0 (boot_kern f) [] (boot_pages 1028 0x80400000).
Proof.
  split.
  - split; [split; [done|]; exists (mkcpu 0 0 0 None); split; [reflexivity|]; split; [cbn; lia|cbn; lia]|]. split; [by exists "ptable"|]. exists (mkcpu 0 0 0 None). split; [reflexivity|split; reflexivity].
  - exact boot_heap.
  - split; [done|reflexivity].
  - unfold boot_pages. rewrite length_fmap, length_seq. lia.
  - split; [done|]. split; [apply Forall_replicate; done|]. split; [done|]. apply Forall_replicate. done.
  - reflexivity.
  - done.
  - done.
Qed.

Lemma boots_to_init_witness : exists m f0 k1 k2 k3 pr pg, Mkfs.main [init_file] (mkmk [] 0 0) = Ret tt m /\ binit (power_on (m_img m)) = Ret tt f0 /\
  @userinit fio (@kernel_files no_devices) wit_image (boot_kern f0) = Ret tt k1 /\ scheduler_round 0 k1 = Wait OnSched k2 /\ @forkret fio (@kernel_files no_devices) k2 = Ret tt k3 /\ first_running 0 k3 pr pg.
Proof.
  destruct (@boots_to_init no_devices init_devices wit_image (replicate 14 0) wit_junk 0x80105000 [init_file] (mkmk [] 0 0) 0 init_file) as (m & f0 & R0 & Rb & Hk).
  - reflexivity.
  - cbn. lia.
  - vm_compute. reflexivity.
  - vm_compute. congruence.
  - vm_compute. congruence.
  - split; [done|by repeat constructor|done|]. intros q g Hq. lia.
  - reflexivity.
  - reflexivity.
  - destruct (Hk 0%nat (boot_kern f0) [] (boot_pages 1028 0x80400000) ∅) as (k1 & k2 & k3 & pr & pg & R1 & R2 & R3 & Hf & _).
    + reflexivity.
    + exact (boot_ready f0).
    + exists m, f0, k1, k2, k3, pr, pg. split; [exact R0|]. split; [exact Rb|]. split; [exact R1|]. split; [exact R2|]. split; [exact R3|exact Hf].
Defined.
